(* ===== verification/_CoqProject ===== *)
-Q . S2P
Prelude.v
PyStr.v
PyFloat.v
PyDecimal.v
PyTime.v
PyUuid.v
PyHash.v
PyVal.v
Envelope.v
Broker.v
PyJson.v
Http.v
RabbitMq.v
OmsStateMachine.v
FillReconciliation.v
PositionEngine.v
PortfolioSnapshot.v
RiskRules.v
RiskGuards.v
RiskControls.v
RiskPolicy.v
Notification.v
RiskObservability.v
PolicyRouter.v
GatewayDispatch.v
NotificationService.v
Simulation.v
SimulationWorker.v
OmsLifecycle.v
Prometheus.v
NotificationGateways.v
NotificationWorker.v
SqlTable.v
OmsStore.v
OmsStoredWorker.v
SpotAdapters.v
ExecutionLifecycle.v
ExecutionTracking.v
OrderBook.v
Kline.v
MarketPipeline.v
MarketStore.v
MarketRuntime.v
Agents.v
LlmGateway.v
LlmStores.v
ExchangeClients.v
LlmRuntime.v
AgentMemory.v
Auth.v
RateLimiter.v
NewsIngestion.v
NewsTagging.v
NewsSummaries.v
NewsWorker.v
NewsStores.v
Replay.v
DecisionStores.v
TraceStore.v
ControlPlane.v
ControlHistory.v
ApiRepository.v
ApiRouters.v
Orchestrator.v
OrchestratorWorker.v
