(* ===== verification/Prelude.v ===== *)
(** * Verification of Open Trader

    Open Trader turns market data into orders. Market workers poll exchange
    clients, keep an order book per symbol and publish canonical market events;
    the agent orchestrator runs each event through a context, a planner, a risk
    and an execution agent (optionally with suggestions of a language model) and
    a layer of guardrails, publishes an execution intent and stores the trace of
    the decision; the simulation executes MOCK intents, the dispatch bridge of
    the API sends REAL ones to an exchange, and a lifecycle worker follows them;
    the order management side (OMS) reconciles orders with their fills, keeps
    positions and portfolio snapshots, and decides with risk rules, guards and
    controls whether orders are allowed; news is ingested, tagged and
    summarised for the agents; notifications are derived from the events and
    delivered by gateways; the API serves the control plane and what the others
    have stored. The parts talk over a topic broker in validated envelopes, and
    through the tables of a database.

    ** Files and the code they model (paths under src/services/)

    Language (no entry in the program, shared by all files):
    - Prelude: exceptions as data, the [result] monad, the state-and-exception
      monad [prog], sorting, deduplication, ordered dicts, tactics, hint
      databases;
    - PyStr, PyFloat, PyDecimal, PyTime, PyUuid, PyHash, PyVal, PyJson: str,
      float (binary64), Decimal (28 digits, default context), datetime, uuid,
      digests and encodings, dynamic values and JSON. Strings are ASCII (JSON
      reads other characters into their UTF-8 bytes);
    - Http: requests and answers of an HTTP client; SqlTable: tables as lists of
      rows and the statements the stores use.

    Messaging (shared/):
    - Envelope: contracts/message_envelope.py; Broker: runtime/broker.py;
      RabbitMq: runtime/rabbitmq_http_broker.py, sync_publish.py;
      Prometheus: runtime/prometheus.py, structured_logging.py.

    OMS (oms/ and workers/):
    - OmsStateMachine, FillReconciliation, PositionEngine, PortfolioSnapshot,
      RiskRules, RiskGuards, RiskControls, RiskPolicy, RiskObservability: the
      modules of oms/ of the same names;
    - OmsLifecycle: workers/oms_lifecycle.py without a database; OmsStore: the
      state store of workers/runtime_persistence.py; OmsStoredWorker: the worker
      on that store.

    Execution:
    - Simulation: simulation_execution/engine.py, mode_routing.py,
      safety_guard.py; SimulationWorker: worker.py, metrics_tracing.py;
    - SpotAdapters: api/internal_execution/adapters.py and
      api/routers/internal.py; ExecutionLifecycle: workers/execution_lifecycle.py,
      with its theorems in ExecutionTracking.

    Notifications (notification_service/):
    - Notification: models.py, event_intake.py, publishers.py; PolicyRouter:
      policy_router.py; GatewayDispatch: gateway_dispatch.py;
      NotificationService: service.py, observability.py; NotificationGateways:
      telegram_gateway.py, webhook_gateway.py, email_gateway.py;
      NotificationWorker: settings.py, worker.py.

    Market data (market_ingestion/ and workers/):
    - OrderBook: order_book_sync.py, gap_detection.py; Kline:
      kline_validator.py; MarketPipeline: contracts.py, exchange_adapter.py,
      canonical_pipeline.py, integration_harness.py, connection_resilience.py;
      MarketStore: sqlalchemy_store.py, persistence_writers.py,
      pipeline_metrics.py and the market store of runtime_persistence.py;
      MarketRuntime: the market workers of runtime_pipeline.py; ExchangeClients:
      binance_http_adapter.py, bitget_http_adapter.py, ccxt_pro_adapter.py and
      workers/market.py.

    Agents (agent_orchestrator/, llm_gateway/, workers/):
    - Agents: contracts.py and the five agents; LlmGateway: gateway.py,
      contracts.py, quota.py, persistence.py; LlmStores: sqlalchemy_stores.py;
      LlmRuntime: llm_runtime.py and the merging of suggestions in
      orchestrator.py; AgentMemory: memory_layer.py, metrics_tracing.py;
      DecisionStores: sqlalchemy_memory_store.py; TraceStore:
      sqlalchemy_trace_store.py; Replay: replay_service.py; Orchestrator:
      orchestrator.py; OrchestratorWorker: workers/orchestrator.py and its
      worker in runtime_pipeline.py.

    News (news_ingestion/, news_summarizer/, workers/):
    - NewsIngestion: source_connectors.py, ingestion_service.py; NewsTagging:
      tagging_relevance.py, quality_metrics.py; NewsSummaries:
      summarizer_service.py, resilience.py, context_injection_bridge.py;
      NewsWorker: workers/news.py, x_provider_connector.py and the feed reader
      of workers/helpers.py; NewsStores: the news stores of
      runtime_persistence.py.

    API (api/):
    - Auth: auth.py, settings.py and the token endpoints of routers/system.py;
      RateLimiter: rate_limiter.py and the middleware of app.py; ControlPlane:
      state.py, with its theorems in ControlHistory; ApiRepository:
      repositories.py; ApiRouters: dependencies.py and the handlers of
      routers/control.py, ops.py, governance.py, replay.py.

    ** How code becomes definitions

    Dataclasses are records, a method of an object is a function of the object's
    record; a method that may raise returns a [result]; one that mutates and may
    raise is a [prog], whose state after an exception is what the code had
    mutated by then. Names are those of the code. Protocols of the code are type
    classes with the implementations as instances, so that the theorems of a
    client hold for each implementation: the observability sink of the risk
    policy (RiskPolicy, RiskObservability), the notification gateways
    (GatewayDispatch, NotificationGateways), the memory stores (AgentMemory,
    DecisionStores), the trace store (Replay, TraceStore), the quota and call
    stores and the metrics sink of the LLM gateway (LlmGateway, LlmStores), the
    news stores (NewsIngestion, NewsSummaries, NewsStores). Clock readings,
    random UUIDs and random numbers are arguments, by call or call site, or are
    drawn from a stream in the state. Servers - exchanges, RabbitMQ, Telegram,
    webhooks, SMTP - are arguments: functions of the requests sent so far, with
    no assumption about their answers unless a theorem names it. Library
    functions whose exact result is not needed are arguments too: float powers
    (GatewayDispatch, MarketPipeline), PyJWT (Auth), CCXT (ExchangeClients,
    ExecutionLifecycle), language model providers (LlmGateway). Waiting on a
    queue is modelled by what it returns.

    Decimals are exact up to the context precision. Theorems about amounts take
    quantities and prices on the exchanges' grid of eight decimals and bounded
    sums ([p10 5] units, prices up to [p10 6]), so that 28 digits suffice and
    the statements are about exact rationals; [isdec k x v] says that the
    decimal [x] is [v] with [k] decimals. Floats are binary64 throughout, and
    what a database returns for them is what it can store. Fuel occurs in digit
    counting, the shortest float representation, the removal of trailing zeros
    and the JSON reader, bounded by the digits or characters there are; every
    other recursion is structural, among them the retry loops of the dispatcher
    and the LLM gateway, which recurse on the attempts left.

    ** What is shown

    - Orders that reach the market: whatever the language model and the stores
      do, at most one intent per market event, and only of a decision on that
      event within every guardrail for its prices and position (Orchestrator);
      guardrails decide on exact amounts (Agents); the risk policy only allows
      orders within every limit and in accounts within the loss limits, the kill
      switch holds, the circuit breaker cycles (RiskPolicy, RiskRules,
      RiskGuards, RiskControls); a REAL order is sent once, signed, exactly as
      the command says, and only with key and configuration (SpotAdapters); the
      tracked orders keep their invariant and a redelivered status is silent
      (ExecutionTracking); the simulation stays in MOCK (Simulation).
    - Books that balance: positions are the exact sum of their fills, equity
      moves by the profit of each fill, snapshots add up (PositionEngine,
      PortfolioSnapshot); orders tolerate redelivered fills
      (FillReconciliation); the worker keeps one such ledger per symbol, in
      memory (OmsLifecycle) and in the database across restarts
      (OmsStoredWorker), whose tables stay keyed and well formed, with an order
      behind every fill unless a step for that order raised (OmsStore).
    - State machines and logs: orders end after at most four transitions
      (OmsStateMachine); the control log replays to the control state
      (RiskControls); the control plane stays consistent along any commands
      (ControlHistory); telemetry does not change decisions
      (RiskObservability); the metrics registry is the sum of what was recorded
      (Prometheus).
    - Messaging: topic matching and delivery (Broker), the RabbitMQ round trip
      and topology (RabbitMq); notifications survive the bridge unchanged, are
      deduplicated and rate limited, every message is delivered or dead
      lettered, posted a bounded number of times, and counted (Notification,
      PolicyRouter, GatewayDispatch, NotificationService, NotificationGateways,
      NotificationWorker).
    - Market data: the book is the replay of its accepted deltas, stale deltas
      are ignored (OrderBook); a delta on the broker follows the book, even in a
      cycle that raises (MarketRuntime); the kline report is exact (Kline); parsed levels are
      typed and ordered, replays have equal digests, reconnect delays are
      bounded (MarketPipeline); what the writers store can be read
      (MarketStore).
    - Language models and memory: a request makes a bounded number of calls, and
      none over the hard quota (LlmGateway); the usage on the tables is the sum
      of the charges (LlmStores); a summary is recalled from the tables
      (DecisionStores); what the agents decided is what the trace store holds
      and a replay shows, independent of the order of rows (TraceStore,
      OrchestratorWorker, Replay).
    - News: ingestion deduplicates, scores stay in range, a cycle accounts for
      every record, and the tables refine the store in memory (NewsIngestion,
      NewsTagging, NewsSummaries, NewsWorker, NewsStores).
    - The API: only authentic tokens give a principal, refresh tokens work once
      (Auth); clients are rate limited (RateLimiter); mode changes, preferences
      and replay requests survive the reload of the state (ApiRepository).
    - Errors the code has, as theorems: the kill switch is forgotten by the next
      request ([kill_switch_forgotten]); replays through the API have no
      messages ([loaded_messages_missing]); deleted default preferences return
      ([deleted_default_preference_returns]); webhooks sign another text than
      they send ([webhook_signs_other_text]); polled books are gaps unless their
      id is the next ([polled_delta_taken_iff_next]); a stale stream is never
      probed again ([stale_stream_never_probed]); closing fills, OCO
      cancellations and positions of a second mode stop the OMS worker
      (OmsLifecycle, [unmarked_position_blocks_mode]); a redelivered fill is
      booked twice on the position ([redelivered_fill_double_counted]); a model
      can overrule the drawdown limit ([llm_overrules_drawdown_limit]); the
      leverage guardrail limits units ([leverage_is_position_size]); the loss
      limits of the core rules are never applied by the policy
      ([core_loss_limits_inert]); an answer of a model that cannot be recorded
      is paid twice ([unrecorded_answer_charged_twice]); a NaN price or amount
      passes the parser of book levels ([nan_level_passes]); a token without
      issue time has no lifetime limit ([undated_token_unchecked]); a fill that
      cannot be reconciled stays in its table without an order
      ([fill_without_order]); the daily loss limit is applied to the profit and
      loss of the account's whole life (RiskPolicy).

    ** Not modelled

    Process assembly and settings of the workers (main.py, builders.py,
    settings.py, health.py, the settings part of orchestrator.py): wiring of the
    modelled parts from environment variables, apart from the notification
    worker's, which is modelled; the HTTP adapters of the language model
    providers and the prompt texts of llm_runtime.py, whose meaning is that of
    the model; encryption, database connections, environment files and context
    variables of shared/runtime; Celery tasks, migrations and scripts; the
    dashboard pages and health endpoints of the API, and its Pydantic models,
    which only carry values; locks, since the modelled methods do not yield
    while they hold one; the Go execution service and the JavaScript dashboard. *)

From stdpp Require Export base list strings gmap sorting pretty.
From stdpp Require Import options.
From Stdlib Require Export ZArith QArith Lia Lqa.

#[global] Open Scope Z_scope.
#[global] Unset Default Proof Using.

(** ** Exceptions

    The exception classes the modelled code raises or lets escape. The code
    tests classes with [except (TypeError, ValueError)] and records
    [type(exc).__name__], so a class is data here. *)
Inductive exc_class :=
  | ValueError
  | TypeError
  | KeyError
  | AttributeError
  | ZeroDivisionError
  | OverflowError
  | InvalidOperation
  | DecimalDivisionByZero
  | DecimalOverflow
  | EnvelopeValidationError
  | BrokerConfigurationError
  | OMSStateTransitionError
  | PositionEngineError
  | PortfolioSnapshotEngineError
  | CoreRiskRuleError
  | DrawdownDailyLossGuardError
  | SimulationExecutionError
  | SimulationSafetyViolation
  | ModeRoutingError
  | OrderBookSyncError
  | OrderBookNotInitializedError
  | OrderBookSequenceGapError
  | AdapterPayloadError
  | AdapterConfigurationError
  | RuntimeError
  | IndexError
  | NewsIngestionError
  | ProviderNotConfiguredError
  | LLMRetryExhaustedError
  | LLMQuotaExceededError
  | InternalDispatchValidationError
  | InternalDispatchUpstreamError
  | JSONDecodeError
  | DecisionReplayNotFoundError
  | ConnectorRegistrationError | ConnectorNotFoundError | XProviderConnectorError
  | NotificationSettingsError | RabbitMQHTTPPollingError (status_code : Z) (body : string)
  | LLMProviderError | BinanceHTTPAdapterError | BitgetHTTPAdapterError | CCXTProAdapterError
  | KeyEncryptionError | RuntimeDatabaseConfigError
  | HTTPException (status_code : Z)
  | RabbitMQHTTPBrokerError (status_code : option Z) (body : option string)
  | ExternalError (name : string).

#[export] Instance exc_class_eq_dec : EqDecision exc_class.
Proof. solve_decision. Defined.

(** [type(exc).__name__]; [ExternalError] stands for the classes that code
    outside the repository raises. *)
Definition exc_name (c : exc_class) : string :=
  match c with
  | ValueError => "ValueError" | TypeError => "TypeError" | KeyError => "KeyError"
  | AttributeError => "AttributeError" | ZeroDivisionError => "ZeroDivisionError"
  | OverflowError => "OverflowError" | InvalidOperation => "InvalidOperation"
  | DecimalDivisionByZero => "DivisionByZero" | DecimalOverflow => "Overflow"
  | EnvelopeValidationError => "EnvelopeValidationError"
  | BrokerConfigurationError => "BrokerConfigurationError"
  | OMSStateTransitionError => "OMSStateTransitionError"
  | PositionEngineError => "PositionEngineError"
  | PortfolioSnapshotEngineError => "PortfolioSnapshotEngineError"
  | CoreRiskRuleError => "CoreRiskRuleError"
  | DrawdownDailyLossGuardError => "DrawdownDailyLossGuardError"
  | SimulationExecutionError => "SimulationExecutionError"
  | SimulationSafetyViolation => "SimulationSafetyViolation"
  | ModeRoutingError => "ModeRoutingError"
  | OrderBookSyncError => "OrderBookSyncError"
  | OrderBookNotInitializedError => "OrderBookNotInitializedError"
  | OrderBookSequenceGapError => "OrderBookSequenceGapError"
  | AdapterPayloadError => "AdapterPayloadError"
  | AdapterConfigurationError => "AdapterConfigurationError"
  | RuntimeError => "RuntimeError" | IndexError => "IndexError"
  | NewsIngestionError => "NewsIngestionError"
  | ProviderNotConfiguredError => "ProviderNotConfiguredError"
  | LLMRetryExhaustedError => "LLMRetryExhaustedError"
  | LLMQuotaExceededError => "LLMQuotaExceededError"
  | InternalDispatchValidationError => "InternalDispatchValidationError"
  | InternalDispatchUpstreamError => "InternalDispatchUpstreamError"
  | JSONDecodeError => "JSONDecodeError" | HTTPException _ => "HTTPException"
  | RabbitMQHTTPBrokerError _ _ => "RabbitMQHTTPBrokerError"
  | DecisionReplayNotFoundError => "DecisionReplayNotFoundError"
  | ConnectorRegistrationError => "ConnectorRegistrationError"
  | ConnectorNotFoundError => "ConnectorNotFoundError"
  | XProviderConnectorError => "XProviderConnectorError"
  | NotificationSettingsError => "NotificationSettingsError"
  | RabbitMQHTTPPollingError _ _ => "RabbitMQHTTPPollingError"
  | LLMProviderError => "LLMProviderError"
  | BinanceHTTPAdapterError => "BinanceHTTPAdapterError"
  | BitgetHTTPAdapterError => "BitgetHTTPAdapterError"
  | CCXTProAdapterError => "CCXTProAdapterError"
  | KeyEncryptionError => "KeyEncryptionError"
  | RuntimeDatabaseConfigError => "RuntimeDatabaseConfigError"
  | ExternalError name => name
  end.

(** An exception: its class and its message. *)
Record exc := Exc { exc_cls : exc_class; exc_msg : string }.

(** A computation that returns or raises. *)
Inductive result (A : Type) :=
  | Ok (a : A)
  | Raise (e : exc).
Arguments Ok {A} a.
Arguments Raise {A} e.

#[export] Instance result_ret : MRet result := fun A => Ok.
#[export] Instance result_bind : MBind result :=
  fun A B f m => match m with Ok a => f a | Raise e => Raise e end.
#[export] Instance result_fmap : FMap result :=
  fun A B f m => match m with Ok a => Ok (f a) | Raise e => Raise e end.

Definition raise {A} (c : exc_class) (msg : string) : result A := Raise (Exc c msg).

(** [if cond: raise ...] *)
Definition raise_if (b : bool) (c : exc_class) (msg : string) : result unit :=
  if b then raise c msg else Ok tt.

(** [try: ... except Cls: ...] for the classes [catch] accepts. *)
Definition try_except {A} (m : result A) (catch : exc_class -> bool) (h : exc -> result A)
  : result A :=
  match m with
  | Ok a => Ok a
  | Raise e => if catch (exc_cls e) then h e else Raise e
  end.

Definition is_ok {A} (m : result A) : bool :=
  match m with Ok _ => true | Raise _ => false end.

(** The subclasses of [ValueError] among the classes above. *)
Definition is_value_error (c : exc_class) : bool :=
  match c with
  | ValueError | EnvelopeValidationError | BrokerConfigurationError
  | OMSStateTransitionError | PositionEngineError | PortfolioSnapshotEngineError
  | CoreRiskRuleError | DrawdownDailyLossGuardError | SimulationExecutionError
  | ModeRoutingError | AdapterPayloadError | AdapterConfigurationError
  | NewsIngestionError | InternalDispatchValidationError | JSONDecodeError
  | ConnectorRegistrationError | NotificationSettingsError | RabbitMQHTTPPollingError _ _
  | KeyEncryptionError | RuntimeDatabaseConfigError => true
  | _ => false
  end.

(** ** Reasoning about [result] *)

Lemma bind_Ok {A B} (m : result A) (f : A -> result B) (b : B) :
  m ≫= f = Ok b <-> exists a, m = Ok a /\ f a = Ok b.
Proof.
  destruct m as [a|e]; simpl; [|by split; [|intros (? & ? & ?)]].
  split; [by exists a|]. by intros (a' & [= ->] & ?).
Qed.

Lemma bind_Raise {A B} (m : result A) (f : A -> result B) (e : exc) :
  m ≫= f = Raise e <-> m = Raise e \/ exists a, m = Ok a /\ f a = Raise e.
Proof.
  destruct m as [a|e']; simpl.
  - split; [intros ?; right; by exists a|]. by intros [?|(a' & [= ->] & ?)].
  - split; [intros [= <-]; by left|]. by intros [[= <-]|(a' & ? & ?)].
Qed.

(** Two computations that only differ in their continuations. *)
Lemma fmap_bind_ext {A B C} (h : B -> C) (m : result A) (f g : A -> result B) :
  (forall a, m = Ok a -> h <$> f a = h <$> g a) -> h <$> (m ≫= f) = h <$> (m ≫= g).
Proof. destruct m; simpl; auto. Qed.

Lemma raise_if_Ok (b : bool) c msg u : raise_if b c msg = Ok u <-> b = false.
Proof. destruct b, u; simpl; split; done. Qed.

Lemma raise_if_Raise (b : bool) c msg e :
  raise_if b c msg = Raise e <-> b = true /\ e = Exc c msg.
Proof. destruct b; split; [by intros [= <-]|by intros [_ ->]|done|by intros [? _]]. Qed.

(** [res_inv]: decompose every hypothesis that says a computation returned. *)
Ltac res_inv :=
  repeat match goal with
  | H : Ok _ = Ok _ |- _ => injection H as H; subst
  | H : Raise _ = Ok _ |- _ => discriminate H
  | H : Ok _ = Raise _ |- _ => discriminate H
  | H : raise _ _ = Ok _ |- _ => discriminate H
  | H : mret _ = Ok _ |- _ => injection H as H; subst
  | H : mbind _ _ = Ok _ |- _ =>
      let x := fresh "x" in let E := fresh "E" in
      apply bind_Ok in H; destruct H as (x & E & H)
  | H : raise_if _ _ _ = Ok _ |- _ => apply raise_if_Ok in H
  end.

(** [split_ifs]: case on the condition of every [if] and [match] in sight. *)
Ltac split_ifs :=
  repeat match goal with
  | |- context [if ?b then _ else _] => destruct b eqn:?
  | H : context [if ?b then _ else _] |- _ => destruct b eqn:?
  end.

(** Boolean connectives of hypotheses into propositions. *)
Ltac bool_hyps :=
  repeat match goal with
  | H : andb _ _ = true |- _ => apply andb_true_iff in H; destruct H
  | H : orb _ _ = false |- _ => apply orb_false_iff in H; destruct H
  | H : negb _ = true |- _ => apply negb_true_iff in H
  | H : negb _ = false |- _ => apply negb_false_iff in H
  end.

(** ** Stateful computations

    Methods that mutate objects and may raise: the state after the call is
    there on both outcomes, because what was mutated before an exception stays
    mutated. *)
Definition prog (S A : Type) : Type := S -> S * result A.

Section prog.
Context {S : Type}.

#[global] Instance prog_ret : MRet (prog S) := fun A a s => (s, Ok a).
#[global] Instance prog_bind : MBind (prog S) := fun A B f m s =>
  match m s with
  | (s', Ok a) => f a s'
  | (s', Raise e) => (s', Raise e)
  end.

Definition lift {A} (r : result A) : prog S A := fun s => (s, r).
Definition modify (f : S -> S) : prog S unit := fun s => (f s, Ok tt).
Definition gets {A} (f : S -> A) : prog S A := fun s => (s, Ok (f s)).

(** A method of the component that [S] holds at [get]/[put]. *)
Definition zoom {T A} (get : S -> T) (put : T -> S -> S) (m : prog T A) : prog S A :=
  fun s => let '(t, r) := m (get s) in (put t s, r).

(** [try: m except Exception as exc: h; raise]: the handler runs and the
    exception goes on. *)
Definition on_error {A} (m : prog S A) (h : exc -> S -> S) : prog S A :=
  fun s => match m s with
           | (s', Ok a) => (s', Ok a)
           | (s', Raise e) => (h e s', Raise e)
           end.

Fixpoint for_each {A} (f : A -> prog S unit) (l : list A) : prog S unit :=
  match l with
  | [] => mret tt
  | x :: l' => _ ← f x; for_each f l'
  end.

Lemma prog_bind_Ok {A B} (m : prog S A) (f : A -> prog S B) s s' b :
  (m ≫= f) s = (s', Ok b) <-> exists s1 a, m s = (s1, Ok a) /\ f a s1 = (s', Ok b).
Proof.
  unfold mbind, prog_bind. destruct (m s) as [s1 [a|e]].
  - split; [by exists s1, a|]. by intros (s2 & a2 & [= <- <-] & H).
  - split; [done|]. by intros (s2 & a2 & ? & ?).
Qed.

(** The first step of a sequence. *)
Lemma lift_bind {A B} (r : result A) (f : A -> prog S B) s :
  (lift r ≫= f) s = match r with Ok a => f a s | Raise e => (s, Raise e) end.
Proof. by destruct r. Qed.
Lemma gets_bind {A B} (g : S -> A) (f : A -> prog S B) s : (gets g ≫= f) s = f (g s) s.
Proof. done. Qed.
Lemma modify_bind {B} (g : S -> S) (f : unit -> prog S B) s : (modify g ≫= f) s = f tt (g s).
Proof. done. Qed.

(** A run and its outcome: for concrete programs. *)
Lemma with_state {A} (x : S * result A) r : x.2 = r -> x = (x.1, r).
Proof. destruct x. by intros <-. Qed.

(** An invariant of the body is an invariant of the loop, whether or not the
    loop is left by an exception. *)
Lemma for_each_inv {A} (P : S -> Prop) (f : A -> prog S unit) l s :
  (forall x s, x ∈ l -> P s -> P (f x s).1) -> P s -> P (for_each f l s).1.
Proof.
  revert s. induction l as [|x l IH]; intros s Hf Hs; [done|]. simpl.
  unfold mbind, prog_bind. assert (H1 : P (f x s).1) by (apply Hf; [left|done]).
  destruct (f x s) as [s1 [[]|e]]; simpl in *; [|done].
  apply IH; [|done]. intros y s2 Hy. apply Hf. by right.
Qed.

(** [P] survives the computation, on both outcomes. *)
Definition preserves {A} (P : S -> Prop) (m : prog S A) : Prop := forall s, P s -> P (m s).1.

Lemma preserves_lift {A} P (r : result A) : preserves P (lift r).
Proof. by intros s. Qed.
Lemma preserves_ret {A} P (a : A) : preserves P (mret a).
Proof. by intros s. Qed.
Lemma preserves_gets {A} P (f : S -> A) : preserves P (gets f).
Proof. by intros s. Qed.
Lemma preserves_bind {A B} P (m : prog S A) (f : A -> prog S B) :
  preserves P m -> (forall a, preserves P (f a)) -> preserves P (m ≫= f).
Proof.
  intros Hm Hf s Hs. unfold mbind, prog_bind. specialize (Hm s Hs). destruct (m s) as [s1 [a|e]]; [|done].
  by apply Hf.
Qed.
End prog.

(** [preserve]: what preserves a state predicate. *)
Create HintDb preserve.
#[export] Hint Resolve preserves_lift preserves_ret preserves_gets : preserve.
#[export] Hint Extern 1 (preserves _ (_ ≫= _)) => (apply preserves_bind; [|intros ?]) : preserve.

(** ** Hint databases

    [envelope] proves that messages built by the code satisfy the message
    contract; [pyfloat] holds the order laws of binary floats. *)
Create HintDb envelope.
Create HintDb pyfloat.

(** ** Lists *)

(** [mapM]-style traversal: the first exception wins, in list order. *)
Fixpoint map_res {A B} (f : A -> result B) (l : list A) : result (list B) :=
  match l with
  | [] => Ok []
  | x :: l' => y ← f x; ys ← map_res f l'; Ok (y :: ys)
  end.

(** [for x in l: acc = f(acc, x)] with exceptions. *)
Fixpoint fold_res {A S} (f : S -> A -> result S) (s : S) (l : list A) : result S :=
  match l with
  | [] => Ok s
  | x :: l' => s' ← f s x; fold_res f s' l'
  end.

Lemma map_res_Forall2 {A B} (f : A -> result B) l l' :
  map_res f l = Ok l' <-> Forall2 (fun x y => f x = Ok y) l l'.
Proof.
  revert l'. induction l as [|x l IH]; intros l'; simpl.
  - split; [intros [= <-]; constructor|]. by inversion 1.
  - split.
    + intros H. res_inv. constructor; [done|]. by apply IH.
    + inversion 1 as [|? y ? ys H1 H2]; subst. rewrite H1. simpl. apply IH in H2 as ->. done.
Qed.

Lemma fold_res_app {A S} (f : S -> A -> result S) s l1 l2 :
  fold_res f s (l1 ++ l2) = s' ← fold_res f s l1; fold_res f s' l2.
Proof.
  revert s. induction l1 as [|x l1 IH]; intros s; simpl; [done|].
  destruct (f s x); simpl; auto.
Qed.

(** An invariant of the loop body is an invariant of the loop. *)
Lemma fold_res_inv {A S} (P : S -> Prop) (f : S -> A -> result S) l s s' :
  (forall s x s', P s -> f s x = Ok s' -> P s') ->
  P s -> fold_res f s l = Ok s' -> P s'.
Proof.
  intros Hstep. revert s. induction l as [|x l IH]; intros s Hs H; simpl in H; res_inv; eauto.
Qed.

(** What holds of each element and the elements before it, along a log that
    grows at its end. *)
Definition each_with_past {A} (Q : list A -> A -> Prop) (log : list A) : Prop :=
  forall l1 x l2, log = l1 ++ x :: l2 -> Q l1 x.

Lemma each_with_past_nil {A} (Q : list A -> A -> Prop) : each_with_past Q [].
Proof. intros l1 x l2 H. by destruct l1. Qed.

Lemma each_with_past_snoc {A} (Q : list A -> A -> Prop) log x :
  each_with_past Q log -> Q log x -> each_with_past Q (log ++ [x]).
Proof.
  intros Hl Hx l1 y l2 E. destruct (decide (l2 = [])) as [->|Hne].
  - apply app_inj_tail in E as [<- <-]. done.
  - destruct (exists_last Hne) as (l2' & z & ->).
    rewrite app_comm_cons, app_assoc in E. apply app_inj_tail in E as [E _]. by apply (Hl _ _ l2').
Qed.

(** Python's [sorted(l, key=...)]: a stable sort; [le] is the non-strict
    comparison of keys. Insertion keeps the first of two equal elements first. *)
Fixpoint insert_sorted {A} (le : A -> A -> bool) (x : A) (l : list A) : list A :=
  match l with
  | [] => [x]
  | y :: l' => if le x y then x :: l else y :: insert_sorted le x l'
  end.

Fixpoint sort_by {A} (le : A -> A -> bool) (l : list A) : list A :=
  match l with
  | [] => []
  | x :: l' => insert_sorted le x (sort_by le l')
  end.

Lemma insert_sorted_perm {A} (le : A -> A -> bool) x l :
  insert_sorted le x l ≡ₚ x :: l.
Proof.
  induction l as [|y l IH]; simpl; [done|]. destruct (le x y); [done|].
  rewrite IH. apply Permutation_swap.
Qed.

Lemma sort_by_perm {A} (le : A -> A -> bool) l : sort_by le l ≡ₚ l.
Proof.
  induction l as [|x l IH]; simpl; [done|]. by rewrite insert_sorted_perm, IH.
Qed.

(** A total comparison sorts. *)
Lemma insert_sorted_Sorted {A} (le : A -> A -> bool) x l :
  (forall a b, le a b = false -> le b a = true) ->
  Sorted (fun a b => le a b = true) l ->
  Sorted (fun a b => le a b = true) (insert_sorted le x l).
Proof.
  intros Htot. induction l as [|y l IH]; intros Hs; simpl; [by repeat constructor|].
  destruct (le x y) eqn:E; [by constructor; [|constructor]|].
  inversion Hs as [|? ? Hs' Hhd]; subst. constructor; [auto|].
  destruct l as [|z l]; simpl; [constructor; auto|].
  inversion Hhd; subst. destruct (le x z); constructor; auto.
Qed.

Lemma sort_by_Sorted {A} (le : A -> A -> bool) l :
  (forall a b, le a b = false -> le b a = true) ->
  Sorted (fun a b => le a b = true) (sort_by le l).
Proof.
  intros Htot. induction l as [|x l IH]; simpl; [constructor|]. by apply insert_sorted_Sorted.
Qed.

(** A comparison that is only known to be total and transitive on the elements. *)
Lemma sort_by_strong_on {A} (P : A -> Prop) (le : A -> A -> bool) l :
  (forall a b, P a -> P b -> le a b = false -> le b a = true) ->
  (forall a b c, P a -> P b -> P c -> le a b = true -> le b c = true -> le a c = true) ->
  Forall P l -> StronglySorted (fun a b => le a b = true) (sort_by le l).
Proof.
  intros Htot Htr.
  assert (forall x l, P x -> Forall P l -> StronglySorted (fun a b => le a b = true) l ->
    StronglySorted (fun a b => le a b = true) (insert_sorted le x l)) as Hins.
  { intros x l' Hx Hl Hs. induction Hs as [|y l' Hs IH Hy]; simpl; [by repeat constructor|].
    apply Forall_cons in Hl as [Py Hl]. destruct (le x y) eqn:E.
    - constructor; [by constructor|]. constructor; [done|]. rewrite Forall_forall in Hy, Hl |- *.
      intros z Hz. apply (Htr x y z); auto.
    - constructor; [by apply IH|]. rewrite insert_sorted_perm. constructor; [by apply Htot|done]. }
  induction 1 as [|x l' Hx Hl IH]; simpl; [constructor|]. apply Hins; [done| |done]. by rewrite sort_by_perm.
Qed.

(** The sorted list is determined by the elements when the keys tell them apart. *)
Lemma sort_by_unique {A} (le : A -> A -> bool) l1 l2 :
  (forall a b, le a b = false -> le b a = true) ->
  (forall a b c, le a b = true -> le b c = true -> le a c = true) ->
  (forall a b, a ∈ l1 -> b ∈ l1 -> le a b = true -> le b a = true -> a = b) ->
  l1 ≡ₚ l2 -> sort_by le l1 = sort_by le l2.
Proof.
  intros Htot Htr Hanti Hp.
  assert (Hs : forall l, StronglySorted (fun a b => le a b = true) (sort_by le l)).
  { intros l. apply Sorted_StronglySorted; [|by apply sort_by_Sorted]. intros a b c. apply Htr. }
  apply (StronglySorted_unique_strong (fun a b => le a b = true)); auto.
  - intros x y Hx Hy. rewrite sort_by_perm in Hx. rewrite sort_by_perm, <- Hp in Hy. auto.
  - by rewrite !sort_by_perm.
Qed.

(** Removing duplicates, first occurrence kept: the [seen] loop of the code. *)
Section dedupe.
Context {A K : Type} `{EqDecision K} (key : A -> K).

Fixpoint dedupe_go (seen : list K) (l : list A) : list A :=
  match l with
  | [] => []
  | x :: l' =>
      if bool_decide (key x ∈ seen) then dedupe_go seen l'
      else x :: dedupe_go (key x :: seen) l'
  end.

Definition dedupe_by (l : list A) : list A := dedupe_go [] l.

Lemma dedupe_go_sub seen l x : x ∈ dedupe_go seen l -> x ∈ l.
Proof.
  revert seen. induction l as [|y l IH]; intros seen; simpl; [done|].
  case_bool_decide; set_solver.
Qed.

Lemma dedupe_go_fresh seen l x : x ∈ dedupe_go seen l -> key x ∉ seen.
Proof.
  revert seen. induction l as [|y l IH]; intros seen; simpl; [set_solver|].
  case_bool_decide as Hy; [auto|]. intros [->|Hx]%elem_of_cons; [done|].
  apply IH in Hx. set_solver.
Qed.

Lemma dedupe_go_NoDup seen l : NoDup (key <$> dedupe_go seen l).
Proof.
  revert seen. induction l as [|y l IH]; intros seen; simpl; [constructor|].
  case_bool_decide; [auto|]. simpl. constructor; [|auto].
  intros (z & Hz & Hin)%list_elem_of_fmap. apply dedupe_go_fresh in Hin. set_solver.
Qed.

(** Nothing is added by elements whose keys were all seen. *)
Lemma dedupe_go_seen seen l : (forall x, x ∈ l -> key x ∈ seen) -> dedupe_go seen l = [].
Proof.
  induction l as [|y l IH]; intros H; simpl; [done|].
  rewrite bool_decide_true by (apply H; left). apply IH. intros x Hx. apply H. by right.
Qed.

Lemma dedupe_go_ext seen seen' l :
  (forall k, k ∈ seen <-> k ∈ seen') -> dedupe_go seen l = dedupe_go seen' l.
Proof.
  revert seen seen'. induction l as [|y l IH]; intros s s' H; simpl; [done|].
  rewrite (bool_decide_ext _ _ (H (key y))). case_bool_decide; [auto|].
  f_equal. apply IH. set_solver.
Qed.

Lemma dedupe_go_app seen l1 l2 :
  dedupe_go seen (l1 ++ l2) = dedupe_go seen l1 ++ dedupe_go (reverse (key <$> l1) ++ seen) l2.
Proof.
  revert seen. induction l1 as [|y l1 IH]; intros seen; simpl; [done|].
  case_bool_decide as Hy; simpl; rewrite IH; [|f_equal];
    (f_equal; apply dedupe_go_ext; intros k; rewrite !elem_of_app, !elem_of_reverse; set_solver).
Qed.

(** Delivering the same batch twice changes nothing. *)
Lemma dedupe_by_twice l : dedupe_by (l ++ l) = dedupe_by l.
Proof.
  unfold dedupe_by. rewrite dedupe_go_app, (dedupe_go_seen (reverse (key <$> l) ++ []) l), app_nil_r; [done|].
  intros x Hx. rewrite elem_of_app, elem_of_reverse. left. by apply list_elem_of_fmap_2.
Qed.

Lemma dedupe_by_idemp l : dedupe_by (dedupe_by l) = dedupe_by l.
Proof.
  unfold dedupe_by. generalize (dedupe_go_NoDup [] l).
  assert (Hf : forall x, x ∈ dedupe_go [] l -> key x ∉ []) by set_solver.
  revert Hf. generalize (@nil K) at 2 4. generalize (dedupe_go [] l). intros l0.
  induction l0 as [|y l0 IH]; intros seen Hf Hnd; simpl; [done|].
  rewrite bool_decide_false by (apply Hf; left). f_equal.
  apply NoDup_cons in Hnd as [Hy Hnd]. apply IH; [|done].
  intros x Hx [Hk|Hk]%elem_of_cons; [|by apply (Hf x); [right|]].
  apply Hy. rewrite <- Hk. by apply list_elem_of_fmap_2.
Qed.
End dedupe.

(** The first element with a property, around a given element. *)
Lemma find_middle {A} (f : A -> bool) l1 x l2 :
  List.find f (l1 ++ x :: l2) =
  match List.find f l1 with Some y => Some y | None => if f x then Some x else List.find f l2 end.
Proof. induction l1 as [|y l1 IH]; simpl; [done|]. by destruct (f y). Qed.

Lemma filter_middle {A} (f : A -> bool) l1 x l2 :
  List.filter f (l1 ++ x :: l2) = List.filter f l1 ++ (if f x then [x] else []) ++ List.filter f l2.
Proof. rewrite List.filter_app. simpl. by destruct (f x). Qed.

(** ** Insertion-ordered dicts with string keys *)

Section assoc.
Context {A : Type}.

Fixpoint assoc_get (k : string) (d : list (string * A)) : option A :=
  match d with
  | [] => None
  | (k', v) :: d' => if String.eqb k k' then Some v else assoc_get k d'
  end.

(** A key keeps its place, a new key goes last. *)
Fixpoint assoc_set (k : string) (v : A) (d : list (string * A)) : list (string * A) :=
  match d with
  | [] => [(k, v)]
  | (k', v') :: d' => if String.eqb k k' then (k', v) :: d' else (k', v') :: assoc_set k v d'
  end.

Lemma assoc_get_elem k v d : assoc_get k d = Some v -> (k, v) ∈ d.
Proof.
  induction d as [|[k' v'] d IH]; simpl; [done|].
  destruct (String.eqb_spec k k') as [<-|]; [intros [= ->]; left|]. intros H. right. auto.
Qed.

(** The other entries stay, in their places. *)
Lemma assoc_set_elem k v d k' v' :
  NoDup d.*1 -> (k', v') ∈ assoc_set k v d <-> (k', v') = (k, v) \/ (k' <> k /\ (k', v') ∈ d).
Proof.
  induction d as [|[k2 v2] d IH]; csimpl; intros Hd; [set_solver|].
  apply NoDup_cons in Hd as [H2 Hd]. specialize (IH Hd).
  destruct (String.eqb_spec k k2) as [<-|Hne]; rewrite !elem_of_cons; [|rewrite IH; naive_solver].
  split; [|naive_solver]. intros [?|Hin]; [naive_solver|]. right. split; [|by right].
  intros ->. apply H2. by apply (list_elem_of_fmap_2 fst) in Hin.
Qed.

Lemma assoc_set_keys k v d k' : k' ∈ (assoc_set k v d).*1 <-> k' = k \/ k' ∈ d.*1.
Proof.
  induction d as [|[k2 v2] d IH]; csimpl; [set_solver|].
  destruct (String.eqb_spec k k2) as [<-|]; csimpl; set_solver.
Qed.

Lemma assoc_set_NoDup k v d : NoDup d.*1 -> NoDup (assoc_set k v d).*1.
Proof.
  induction d as [|[k2 v2] d IH]; csimpl; intros Hd; [by apply NoDup_singleton|].
  destruct (String.eqb_spec k k2) as [<-|Hne]; csimpl; [done|].
  apply NoDup_cons in Hd as [H2 Hd]. constructor; [|auto].
  rewrite assoc_set_keys. naive_solver.
Qed.

Lemma assoc_get_set_eq k v d : assoc_get k (assoc_set k v d) = Some v.
Proof.
  induction d as [|[k2 v2] d IH]; simpl; [by rewrite String.eqb_refl|].
  destruct (String.eqb k k2) eqn:E; simpl; by rewrite E.
Qed.

Lemma assoc_get_set_ne k k' v d : k <> k' -> assoc_get k (assoc_set k' v d) = assoc_get k d.
Proof.
  intros Hne%String.eqb_neq. induction d as [|[k2 v2] d IH]; simpl; [by rewrite Hne|].
  destruct (String.eqb_spec k' k2) as [<-|H2]; simpl; [by rewrite Hne|by rewrite IH].
Qed.

Lemma assoc_set_set k v1 v2 d : assoc_set k v2 (assoc_set k v1 d) = assoc_set k v2 d.
Proof.
  induction d as [|[k2 w] d IH]; simpl; [by rewrite String.eqb_refl|].
  destruct (String.eqb k k2) eqn:E; simpl; rewrite E; [done|by rewrite IH].
Qed.

Lemma assoc_set_same k v d : assoc_get k d = Some v -> assoc_set k v d = d.
Proof.
  induction d as [|[k2 w] d IH]; simpl; [done|].
  destruct (String.eqb k k2); [by intros [= ->]|]. intros H. by rewrite IH.
Qed.

Lemma assoc_set_present k v d : k ∈ d.*1 -> (assoc_set k v d).*1 = d.*1.
Proof.
  induction d as [|[k2 w] d IH]; csimpl; [set_solver|]. intros Hk.
  destruct (String.eqb_spec k k2) as [<-|Hne]; csimpl; [done|]. f_equal. apply IH. set_solver.
Qed.

Lemma assoc_set_fresh k v d : k ∉ d.*1 -> assoc_set k v d = d ++ [(k, v)].
Proof.
  induction d as [|[k2 w] d IH]; csimpl; [done|]. intros Hk.
  destruct (String.eqb_spec k k2) as [<-|Hne]; [set_solver|]. rewrite IH; set_solver.
Qed.

Lemma assoc_get_None k d : assoc_get k d = None <-> k ∉ d.*1.
Proof.
  induction d as [|[k2 w] d IH]; csimpl; [set_solver|].
  destruct (String.eqb_spec k k2) as [<-|Hne]; [set_solver|]. rewrite IH. set_solver.
Qed.

Lemma elem_assoc_get k v d : NoDup d.*1 -> (k, v) ∈ d -> assoc_get k d = Some v.
Proof.
  induction d as [|[k2 w] d IH]; csimpl; intros Hd Hin; [set_solver|].
  apply NoDup_cons in Hd as [H2 Hd]. destruct (String.eqb_spec k k2) as [<-|Hne].
  - apply elem_of_cons in Hin as [[= ->]|Hin]; [done|]. exfalso. apply H2.
    by apply (list_elem_of_fmap_2 fst) in Hin.
  - apply elem_of_cons in Hin as [[= -> ->]|Hin]; [done|]. auto.
Qed.

(** Assigning to a key that is there replaces one value in place. *)
Lemma assoc_set_values k v d :
  assoc_get k d = Some v ->
  exists l1 l2, d.*2 = l1 ++ v :: l2 /\ forall v', (assoc_set k v' d).*2 = l1 ++ v' :: l2.
Proof.
  induction d as [|[k2 w] d IH]; cbn [assoc_get assoc_set]; [done|]. destruct (String.eqb k k2).
  - intros [= ->]. by exists [], d.*2.
  - intros H. destruct (IH H) as (l1 & l2 & E & Hset). exists (w :: l1), l2.
    rewrite fmap_cons, E. split; [done|]. intros v'. by rewrite fmap_cons, Hset.
Qed.
End assoc.
