(* ===== verification/PyStr.v ===== *)
(** * Python strings

    The [str] methods the modelled code calls, over ASCII strings: a Python
    string is a Rocq [string] whose characters are code points below 128.
    Text outside ASCII is not modelled (the case mappings and [isspace] of
    non-ASCII characters differ). *)

From S2P Require Import Prelude.
From stdpp Require Import options.
From Stdlib Require Import Ascii String.

#[local] Open Scope Z_scope.

Definition char_code (c : ascii) : Z := Z.of_N (N_of_ascii c).

Definition is_digit (c : ascii) : bool := (48 <=? char_code c) && (char_code c <=? 57).

(** [str.isspace] on ASCII: tab to carriage return, the four separators, space. *)
Definition is_space (c : ascii) : bool :=
  let n := char_code c in
  ((9 <=? n) && (n <=? 13)) || ((28 <=? n) && (n <=? 32)).

Definition char_upper (c : ascii) : ascii :=
  let n := char_code c in
  if (97 <=? n) && (n <=? 122) then ascii_of_N (Z.to_N (n - 32)) else c.

Definition char_lower (c : ascii) : ascii :=
  let n := char_code c in
  if (65 <=? n) && (n <=? 90) then ascii_of_N (Z.to_N (n + 32)) else c.

Fixpoint str_map (f : ascii -> ascii) (s : string) : string :=
  match s with
  | EmptyString => EmptyString
  | String c s' => String (f c) (str_map f s')
  end.

Definition upper (s : string) : string := str_map char_upper s.
Definition lower (s : string) : string := str_map char_lower s.

Fixpoint lstrip_with (p : ascii -> bool) (s : string) : string :=
  match s with
  | EmptyString => EmptyString
  | String c s' => if p c then lstrip_with p s' else s
  end.

Fixpoint rstrip_with (p : ascii -> bool) (s : string) : string :=
  match s with
  | EmptyString => EmptyString
  | String c s' =>
      match rstrip_with p s' with
      | EmptyString => if p c then EmptyString else String c EmptyString
      | r => String c r
      end
  end.

Definition strip_with (p : ascii -> bool) (s : string) : string :=
  rstrip_with p (lstrip_with p s).

(** [s.strip()] *)
Definition strip (s : string) : string := strip_with is_space s.

(** [s.split(sep)] for a one-character separator: never the empty list. *)
Fixpoint split_on (sep : ascii) (s : string) : list string :=
  match s with
  | EmptyString => [""%string]
  | String c s' =>
      if Ascii.eqb c sep then ""%string :: split_on sep s'
      else match split_on sep s' with
           | w :: ws => String c w :: ws
           | [] => [String c EmptyString]
           end
  end.

(** The maximal runs of characters that do not satisfy [sep]: with white space
    as [sep] this is [s.split()]. *)
Fixpoint runs_go (sep : ascii -> bool) (s : string) : string * list string :=
  match s with
  | EmptyString => (EmptyString, [])
  | String c s' =>
      let '(w, ws) := runs_go sep s' in
      if sep c then (EmptyString, match w with EmptyString => ws | _ => w :: ws end) else (String c w, ws)
  end.

Definition runs (sep : ascii -> bool) (s : string) : list string :=
  let '(w, ws) := runs_go sep s in match w with EmptyString => ws | _ => w :: ws end.

Definition words (s : string) : list string := runs is_space s.

(** [sep.join(ws)] *)
Fixpoint join (sep : string) (ws : list string) : string :=
  match ws with
  | [] => ""
  | [w] => w
  | w :: ws' => w +:+ sep +:+ join sep ws'
  end.

Definition starts_with (p s : string) : bool := String.prefix p s.

(** [pat in s] *)
Fixpoint contains (pat s : string) : bool :=
  String.prefix pat s ||
  match s with
  | EmptyString => false
  | String _ s' => contains pat s'
  end.

(** [s.replace(pat, rep)] for a non-empty [pat]: left to right, no overlap. *)
Fixpoint replace_go (pat rep : string) (skip : nat) (s : string) : string :=
  match s with
  | EmptyString => EmptyString
  | String c s' =>
      match skip with
      | S k => replace_go pat rep k s'
      | O =>
          if String.prefix pat s
          then rep +:+ replace_go pat rep (String.length pat - 1) s'
          else String c (replace_go pat rep 0 s')
      end
  end.
Definition replace (pat rep s : string) : string := replace_go pat rep 0 s.

(** [s.find(c)] for one character: its first index. *)
Fixpoint find_char (c : ascii) (s : string) : option nat :=
  match s with
  | EmptyString => None
  | String d s' => if Ascii.eqb c d then Some O else S <$> find_char c s'
  end.

(** Slices [s[:n]] and [s[n:]]. *)
Fixpoint str_take (n : nat) (s : string) : string :=
  match n, s with
  | S k, String c s' => String c (str_take k s')
  | _, _ => EmptyString
  end.
Fixpoint str_drop (n : nat) (s : string) : string :=
  match n, s with
  | S k, String _ s' => str_drop k s'
  | O, _ => s
  | _, EmptyString => EmptyString
  end.

Fixpoint str_forallb (p : ascii -> bool) (s : string) : bool :=
  match s with
  | EmptyString => true
  | String c s' => p c && str_forallb p s'
  end.

Definition is_empty (s : string) : bool :=
  match s with EmptyString => true | _ => false end.

(** [x or y] on strings. *)
Definition str_or (x y : string) : string := if is_empty x then y else x.

(** [str(n)] of an [int]. *)
Definition str_of_Z (n : Z) : string := pretty n.

(** Zero-padded decimal of [n] over [w] columns. *)
Definition pad_left (c : ascii) (w : nat) (s : string) : string :=
  let fix go k := match k with O => s | S k' => String c (go k') end in
  go (w - String.length s)%nat.
Definition zpad (w : nat) (n : Z) : string := pad_left "0" w (str_of_Z n).

(** ** Reading integers *)

Definition digit_val (c : ascii) : option Z :=
  let n := char_code c in
  if is_digit c then Some (n - 48)
  else if (97 <=? n) && (n <=? 122) then Some (n - 87)
  else if (65 <=? n) && (n <=? 90) then Some (n - 55)
  else None.

(** Digits of [base], single underscores between two digits allowed. *)
Fixpoint int_digits (base acc : Z) (after_digit : bool) (s : string) : option Z :=
  match s with
  | EmptyString => if after_digit then Some acc else None
  | String c s' =>
      if Ascii.eqb c "_" then
        if after_digit then int_digits base acc false s' else None
      else
        match digit_val c with
        | Some d => if d <? base then int_digits base (acc * base + d) true s' else None
        | None => None
        end
  end.

(** CPython refuses decimal strings of more than 4300 digits. *)
Definition max_str_digits : nat := 4300.
Fixpoint count_digits (s : string) : nat :=
  match s with
  | EmptyString => O
  | String c s' => if Ascii.eqb c "_" then count_digits s' else S (count_digits s')
  end.

(** [int(s)] of a string; [None] is the [ValueError]. *)
Definition int_of_string (s : string) : option Z :=
  let t := strip s in
  let '(neg, u) :=
    match t with
    | String "-" u => (true, u)
    | String "+" u => (false, u)
    | _ => (false, t)
    end in
  if (max_str_digits <? count_digits u)%nat then None
  else n ← int_digits 10 0 false u; Some (if neg then - n else n).

(** [int(s, 16)] of a string, with the optional [0x] prefix. *)
Definition int_of_hex_string (s : string) : option Z :=
  let t := strip s in
  let '(neg, u) :=
    match t with
    | String "-" u => (true, u)
    | String "+" u => (false, u)
    | _ => (false, t)
    end in
  let v :=
    match u with
    | String "0" (String x w) =>
        if Ascii.eqb x "x" || Ascii.eqb x "X" then
          match w with String "_" w' => w' | _ => w end
        else u
    | _ => u
    end in
  n ← int_digits 16 0 false v; Some (if neg then - n else n).

(** A run of ASCII digits, all of [s], at least one. *)
Fixpoint all_digits_val (acc : Z) (s : string) : option Z :=
  match s with
  | EmptyString => Some acc
  | String c s' => if is_digit c then all_digits_val (acc * 10 + (char_code c - 48)) s' else None
  end.
Definition parse_digits (s : string) : option Z :=
  if is_empty s then None else all_digits_val 0 s.

(** ** Lemmas *)

Lemma str_map_map f g s : str_map f (str_map g s) = str_map (fun c => f (g c)) s.
Proof. induction s; simpl; congruence. Qed.

Lemma str_map_ext f g s : (forall c, f c = g c) -> str_map f s = str_map g s.
Proof. intros H. induction s; simpl; congruence. Qed.

Lemma upper_idemp s : upper (upper s) = upper s.
Proof.
  unfold upper. rewrite str_map_map. apply str_map_ext.
  intros [[] [] [] [] [] [] [] []]; reflexivity.
Qed.

Lemma is_empty_true s : is_empty s = true <-> s = ""%string.
Proof. by destruct s. Qed.

Lemma rstrip_with_head p c s :
  p c = false -> exists t, rstrip_with p (String c s) = String c t.
Proof. intros H. simpl. destruct (rstrip_with p s); rewrite ?H; eauto. Qed.

Lemma rstrip_with_idemp p s : rstrip_with p (rstrip_with p s) = rstrip_with p s.
Proof.
  induction s as [|c s IH]; simpl; [done|].
  destruct (rstrip_with p s) as [|d r] eqn:E.
  - destruct (p c) eqn:Ec; simpl; by rewrite ?Ec.
  - simpl in *. by rewrite IH.
Qed.

Lemma lstrip_with_first p s :
  match lstrip_with p s with EmptyString => True | String c _ => p c = false end.
Proof. induction s as [|c s IH]; simpl; [done|]. by destruct (p c) eqn:E. Qed.

Lemma strip_with_idemp p s : strip_with p (strip_with p s) = strip_with p s.
Proof.
  unfold strip_with. generalize (lstrip_with_first p s).
  destruct (lstrip_with p s) as [|c t]; simpl; [done|]. intros Hc.
  destruct (rstrip_with_head p c t Hc) as [u Hu]. simpl in Hu. rewrite Hu.
  simpl. rewrite Hc. rewrite <- Hu.
  change (rstrip_with p (rstrip_with p (String c t)) = rstrip_with p (String c t)).
  apply rstrip_with_idemp.
Qed.

Lemma strip_idemp s : strip (strip s) = strip s.
Proof. apply strip_with_idemp. Qed.

Lemma append_inj_l a s t : (a +:+ s = a +:+ t) -> s = t.
Proof. induction a; simpl; [done|]. intros [= ?]; auto. Qed.

Lemma join_cons_cons sep w v ws :
  join sep (w :: v :: ws) = (w +:+ sep +:+ join sep (v :: ws)).
Proof. done. Qed.

(** [".".join(s.split("."))] is [s]. *)
Lemma join_split_on sep s : join (String sep EmptyString) (split_on sep s) = s.
Proof.
  induction s as [|c s IH]; simpl; [done|].
  destruct (split_on sep s) as [|w ws] eqn:E.
  { exfalso. destruct s as [|d s]; simpl in E; [done|].
    destruct (Ascii.eqb d sep); [done|]. by destruct (split_on sep s). }
  destruct (Ascii.eqb_spec c sep) as [->|Hne].
  - transitivity (String sep (join (String sep EmptyString) (w :: ws))); [done|by rewrite IH].
  - destruct ws as [|v ws]; [simpl in *; by rewrite <- IH|].
    transitivity (String c (join (String sep EmptyString) (w :: v :: ws))); [done|by rewrite IH].
Qed.

(** ** Decimal text reads back *)

(** A run of decimal digits with value [n]. *)
Inductive decimal : string -> Z -> Prop :=
  | decimal_nil : decimal "" 0
  | decimal_cons c s n :
      is_digit c = true -> decimal s n ->
      decimal (String c s) ((char_code c - 48) * 10 ^ Z.of_nat (String.length s) + n).

Lemma append_cons c (s t : string) : (String c s +:+ t = String c (s +:+ t)).
Proof. done. Qed.

Lemma append_assoc (a b c : string) : ((a +:+ b) +:+ c = a +:+ (b +:+ c)).
Proof. induction a as [|x a IH]; [done|]. by rewrite !append_cons, IH. Qed.

Lemma append_nil_r (a : string) : (a +:+ "" = a).
Proof. induction a as [|x a IH]; [done|]. by rewrite append_cons, IH. Qed.

Lemma append_length (s t : string) : String.length (s +:+ t) = (String.length s + String.length t)%nat.
Proof. induction s as [|c s IH]; [done|]. rewrite append_cons. simpl. by rewrite IH. Qed.

Lemma decimal_digits s n : decimal s n -> str_forallb is_digit s = true.
Proof. induction 1 as [|c s n Hc _ IH]; [done|]. simpl. by rewrite Hc. Qed.

Lemma decimal_app a b n :
  decimal (a +:+ b) n <->
  exists x y, decimal a x /\ decimal b y /\ n = x * 10 ^ Z.of_nat (String.length b) + y.
Proof.
  revert n. induction a as [|c a IH]; intros n.
  - change ("" +:+ b) with b. split; [intros H; exists 0, n; split_and!; [constructor|done|lia]|].
    intros (x & y & Hx & Hy & ->). inversion Hx; subst. by rewrite Z.mul_0_l, Z.add_0_l.
  - rewrite append_cons. split.
    + inversion 1 as [|? ? m Hc Hm]; subst. apply IH in Hm as (x & y & Hx & Hy & ->).
      exists ((char_code c - 48) * 10 ^ Z.of_nat (String.length a) + x), y.
      split; [by constructor|]. split; [done|].
      rewrite append_length, Nat2Z.inj_add, Z.pow_add_r by lia. ring.
    + intros (x & y & Hx & Hy & ->). inversion Hx as [|? ? m Hc Hm]; subst.
      assert (H : decimal (a +:+ b) (m * 10 ^ Z.of_nat (String.length b) + y)) by (apply IH; by exists m, y).
      apply (decimal_cons c) in H; [|done].
      rewrite append_length, Nat2Z.inj_add, Z.pow_add_r in H by lia.
      by replace (((char_code c - 48) * 10 ^ Z.of_nat (String.length a) + m) * 10 ^ Z.of_nat (String.length b) + y)
        with ((char_code c - 48) * (10 ^ Z.of_nat (String.length a) * 10 ^ Z.of_nat (String.length b)) +
              (m * 10 ^ Z.of_nat (String.length b) + y)) by ring.
Qed.

Lemma decimal_one c : is_digit c = true -> decimal (String c "") (char_code c - 48).
Proof. intros Hc. pose proof (decimal_cons c "" 0 Hc decimal_nil) as H. simpl in H. by rewrite Z.mul_1_r, Z.add_0_r in H. Qed.

Lemma decimal_snoc p n c :
  decimal p n -> is_digit c = true -> decimal (p +:+ String c "") (n * 10 + (char_code c - 48)).
Proof. intros Hp Hc. apply decimal_app. exists n, (char_code c - 48). split; [done|]. split; [by apply decimal_one|done]. Qed.

Lemma decimal_nonneg s n : decimal s n -> 0 <= n < 10 ^ Z.of_nat (String.length s).
Proof.
  induction 1 as [|c s n Hc Hs IH]; [simpl; lia|]. cbn [String.length].
  rewrite Nat2Z.inj_succ, Z.pow_succ_r by lia. unfold is_digit in Hc.
  apply andb_true_iff in Hc as [H1%Z.leb_le H2%Z.leb_le]. nia.
Qed.

Lemma digit_not_underscore c : is_digit c = true -> Ascii.eqb c "_" = false.
Proof. by destruct c as [[] [] [] [] [] [] [] []]. Qed.

Lemma digit_val_digit c : is_digit c = true -> digit_val c = Some (char_code c - 48) /\ 0 <= char_code c - 48 < 10.
Proof.
  intros H. unfold digit_val. rewrite H. split; [done|].
  unfold is_digit in H. rewrite andb_true_iff, !Z.leb_le in H. lia.
Qed.

(** Reading a digit run before any other text. *)
Lemma decimal_read s n acc b t :
  decimal s n -> (s <> ""%string \/ b = true) ->
  int_digits 10 acc b (s +:+ t) = int_digits 10 (acc * 10 ^ Z.of_nat (String.length s) + n) true t.
Proof.
  intros Hd. revert acc b. induction Hd as [|c s n Hc Hs IH]; intros acc b Hb.
  - destruct Hb as [?| ->]; [done|]. simpl. by rewrite Z.mul_1_r, Z.add_0_r.
  - destruct (digit_val_digit c Hc) as [Hv Hr]. rewrite append_cons. cbn [int_digits].
    rewrite (digit_not_underscore c Hc), Hv, (proj2 (Z.ltb_lt _ _)) by lia.
    rewrite IH by by right. f_equal. cbn [String.length]. rewrite Nat2Z.inj_succ, Z.pow_succ_r by lia. ring.
Qed.

Lemma pretty_N_char_digit x :
  (x < 10)%N -> is_digit (pretty_N_char x) = true /\ char_code (pretty_N_char x) - 48 = Z.of_N x.
Proof.
  intros H. assert (x = 0 \/ x = 1 \/ x = 2 \/ x = 3 \/ x = 4 \/ x = 5 \/ x = 6 \/ x = 7 \/ x = 8 \/ x = 9)%N by lia.
  naive_solver.
Qed.

Lemma pretty_N_go_decimal x :
  (0 < x)%N -> exists c p, decimal (String c p) (Z.of_N x) /\ Ascii.eqb c "0" = false /\
                           forall s, pretty_N_go x s = String c p +:+ s.
Proof.
  induction (N.lt_wf_0 x) as [x _ IH]. intros Hx.
  destruct (pretty_N_char_digit (x mod 10)) as [Hd Hv]; [apply N.mod_lt; lia|].
  pose proof (N.div_mod x 10 ltac:(lia)) as Hdm.
  destruct (N.eq_0_gt_0_cases (x / 10)) as [H0|Hpos].
  - exists (pretty_N_char (x mod 10)), ""%string. split; [|split].
    + replace (Z.of_N x) with (0 * 10 + (char_code (pretty_N_char (x mod 10)) - 48)) by (rewrite Hv; lia).
      apply (decimal_snoc "" 0); [constructor|done].
    + rewrite H0 in Hdm. destruct (Ascii.eqb_spec (pretty_N_char (x mod 10)) "0") as [E|]; [|done].
      rewrite E in Hv. change (char_code "0" - 48) with 0 in Hv. lia.
    + intros s. rewrite pretty_N_go_step by done. by rewrite H0, pretty_N_go_0.
  - destruct (IH (x / 10)%N) as (c & p & Hp & Hc & Hs); [apply N.div_lt; lia|lia|].
    exists c, (p +:+ String (pretty_N_char (x mod 10)) ""). split; [|split; [done|]].
    + replace (Z.of_N x) with (Z.of_N (x / 10) * 10 + (char_code (pretty_N_char (x mod 10)) - 48))
        by (rewrite Hv; lia).
      by apply (decimal_snoc (String c p) (Z.of_N (x / 10))).
    + intros s. rewrite pretty_N_go_step by done. rewrite Hs.
      by rewrite !append_cons, append_assoc.
Qed.

(** [str(n)] of a non-negative [n]: digits, no leading zero but in ["0"]. *)
Lemma str_of_Z_decimal n :
  0 <= n -> exists c p, str_of_Z n = String c p /\ decimal (String c p) n /\
                        (Ascii.eqb c "0" = false \/ str_of_Z n = "0"%string).
Proof.
  intros Hn. destruct n as [|x|x]; [|..|lia].
  - exists "0"%char, ""%string. split; [done|]. split; [|by right]. apply (decimal_snoc "" 0 "0"); [constructor|done].
  - destruct (pretty_N_go_decimal (N.pos x)) as (c & p & Hp & Hc & Hs); [lia|].
    exists c, p. split; [|split; [done|by left]].
    transitivity (pretty_N_go (N.pos x) ""); [done|]. rewrite Hs. apply append_nil_r.
Qed.

Lemma str_of_Z_neg n : n < 0 -> str_of_Z n = String "-" (str_of_Z (- n)).
Proof. destruct n; [lia..|]. done. Qed.

Lemma lstrip_with_head p c s : p c = false -> lstrip_with p (String c s) = String c s.
Proof. intros H. simpl. by rewrite H. Qed.

(** ** Order *)

(** [a <= b] on strings. *)
Definition str_leb (a b : string) : bool :=
  match String.compare a b with Gt => false | _ => true end.

(** [a <= b] on tuples of strings: the first difference decides. *)
Fixpoint strs_leb (a b : list string) : bool :=
  match a, b with
  | [], _ => true
  | _ :: _, [] => false
  | x :: a', y :: b' => if String.eqb x y then strs_leb a' b' else str_leb x y
  end.

Lemma ascii_compare_refl c : Ascii.compare c c = Eq.
Proof. unfold Ascii.compare. apply N.compare_refl. Qed.

Lemma str_compare_trans a b c :
  String.compare a b <> Gt -> String.compare b c <> Gt -> String.compare a c <> Gt.
Proof.
  revert b c. induction a as [|x a IH]; intros [|y b] [|z c]; simpl; try congruence.
  unfold Ascii.compare.
  destruct (N.compare_spec (N_of_ascii x) (N_of_ascii y)), (N.compare_spec (N_of_ascii y) (N_of_ascii z)),
    (N.compare_spec (N_of_ascii x) (N_of_ascii z)); intros; try congruence; try lia; eauto.
Qed.

Lemma str_leb_trans a b c : str_leb a b = true -> str_leb b c = true -> str_leb a c = true.
Proof.
  unfold str_leb. pose proof (str_compare_trans a b c).
  destruct (String.compare a b), (String.compare b c), (String.compare a c); naive_solver.
Qed.

Lemma str_leb_total a b : str_leb a b = false -> str_leb b a = true.
Proof. unfold str_leb. rewrite (String.compare_antisym a b). by destruct (String.compare b a). Qed.

Lemma str_leb_antisym a b : str_leb a b = true -> str_leb b a = true -> a = b.
Proof.
  unfold str_leb. rewrite (String.compare_antisym b a).
  destruct (String.compare a b) eqn:E; try done. by apply String.compare_eq_iff in E.
Qed.

Lemma strs_leb_total a b : strs_leb a b = false -> strs_leb b a = true.
Proof.
  revert b. induction a as [|x a IH]; intros [|y b]; simpl; try done.
  rewrite (String.eqb_sym y x). destruct (String.eqb x y); eauto using str_leb_total.
Qed.

Lemma strs_leb_antisym a b : strs_leb a b = true -> strs_leb b a = true -> a = b.
Proof.
  revert b. induction a as [|x a IH]; intros [|y b]; simpl; try done.
  rewrite (String.eqb_sym y x). destruct (String.eqb_spec x y) as [->|Hne].
  - intros. f_equal. eauto.
  - intros. by destruct Hne; apply str_leb_antisym.
Qed.

Lemma strs_leb_trans a b c : strs_leb a b = true -> strs_leb b c = true -> strs_leb a c = true.
Proof.
  revert b c. induction a as [|x a IH]; intros [|y b] [|z c]; simpl; try done.
  destruct (String.eqb_spec x y) as [Hxy|Hxy], (String.eqb_spec y z) as [Hyz|Hyz], (String.eqb_spec x z) as [Hxz|Hxz];
    subst; try congruence; eauto using str_leb_trans.
  intros. by destruct Hxy; apply str_leb_antisym.
Qed.
