(* ===== verification/PyFloat.v ===== *)
(** * Python floats

    A Python [float] is an IEEE 754 binary64 number. The carrier and the
    correctly rounded operations are those of the Standard Library's
    [SpecFloat] at [prec = 53] and [emax = 1024], so rounding, signed zeros,
    infinities and NaN behave as in the interpreter. This file adds what the
    modelled code uses of [float]: comparisons (false as soon as one side is
    NaN), [min] and [max] with Python's argument order, conversion from [int],
    [Decimal] digits and text, and the shortest [repr]. *)

From S2P Require Import Prelude PyStr.
From stdpp Require Import options.
From Stdlib Require Import Ascii String SpecFloat.

#[local] Open Scope Z_scope.

Abbreviation f64 := spec_float.

Definition fprec : Z := 53.
Definition femax : Z := 1024.

Definition fadd : f64 -> f64 -> f64 := SFadd fprec femax.
Definition fsub : f64 -> f64 -> f64 := SFsub fprec femax.
Definition fmul : f64 -> f64 -> f64 := SFmul fprec femax.

(** The IEEE quotient. Python's [/] raises on a zero divisor: see [py_fdiv]. *)
Definition fdiv : f64 -> f64 -> f64 := SFdiv fprec femax.
Definition fneg : f64 -> f64 := SFopp.
Definition fabs : f64 -> f64 := SFabs.
Definition fltb : f64 -> f64 -> bool := SFltb.
Definition fleb : f64 -> f64 -> bool := SFleb.
Definition feqb : f64 -> f64 -> bool := SFeqb.

Definition fzero : f64 := S754_zero false.
Definition is_nan (x : f64) : bool := match x with S754_nan => true | _ => false end.
Definition is_finite (x : f64) : bool :=
  match x with S754_zero _ | S754_finite _ _ _ => true | _ => false end.

(** [float(n)] of an [int], rounded to nearest even. *)
Definition f_of_Z (n : Z) : f64 := binary_normalize fprec femax n 0 false.
Definition py_float_of_int (n : Z) : result f64 :=
  match f_of_Z n with
  | S754_infinity _ => raise OverflowError "int too large to convert to float"
  | x => Ok x
  end.

(** Python's float [/]. *)
Definition py_fdiv (x y : f64) : result f64 :=
  match y with
  | S754_zero _ => raise ZeroDivisionError "float division by zero"
  | _ => Ok (fdiv x y)
  end.

(** [max(a, b)] keeps [a] unless [b > a]; [min(a, b)] keeps [a] unless [b < a]. *)
Definition fmax (a b : f64) : f64 := if fltb a b then b else a.
Definition fmin (a b : f64) : f64 := if fltb b a then b else a.

(** [max(l)] of a non-empty list. *)
Definition fmax_list (x : f64) (l : list f64) : f64 := foldl fmax x l.

(** [sum(l)] of floats: since Python 3.12 the running sum is kept with a
    compensation term, which is added at the end when it is finite. *)
Definition sum_step (acc : f64 * f64) (x : f64) : f64 * f64 :=
  let '(hi, lo) := acc in
  let t := fadd hi x in
  (t, fadd lo (if fleb (fabs x) (fabs hi) then fadd (fsub hi t) x else fadd (fsub x t) hi)).

Definition fsum (l : list f64) : f64 :=
  let '(hi, lo) := foldl sum_step (fzero, fzero) l in
  if negb (feqb lo fzero) && is_finite lo then fadd hi lo else hi.

(** ** Decimal digits to binary64

    [f_of_dec neg c e] is the float nearest to [(-1)^neg * c * 10^e]. Outside
    the decades that can hold a finite float the answer is known without
    building the power of ten. *)
Fixpoint ndigits_go (fuel : nat) (c : Z) : Z :=
  match fuel with
  | O => 1
  | S f => if c <? 10 then 1 else 1 + ndigits_go f (c / 10)
  end.

(** The number of decimal digits of [c >= 0] ([len(str(c))]). *)
Definition ndigits (c : Z) : Z := ndigits_go (Z.to_nat (Z.log2 c)) c.

Definition f_of_dec (neg : bool) (c e : Z) : f64 :=
  match c with
  | Zpos p =>
      let a := ndigits c + e in
      if 400 <? a then S754_infinity neg
      else if a <? -400 then S754_zero neg
      else if 0 <=? e then
        binary_normalize fprec femax (cond_Zopp neg (c * 10 ^ e)) 0 neg
      else
        fdiv (S754_finite neg p 0) (S754_finite false (Z.to_pos (10 ^ (- e))) 0)
  | _ => S754_zero neg
  end.

(** A float literal of the source, [c * 10^e]. *)
Definition flit (c e : Z) : f64 := f_of_dec (c <? 0) (Z.abs c) e.

(** ** The shortest decimal that reads back: [repr] *)

(** The exact value [num / den] of a positive finite float. *)
Definition fratio (m : positive) (e : Z) : Z * Z :=
  if 0 <=? e then (Zpos m * 2 ^ e, 1) else (Zpos m, 2 ^ (- e)).

(** [num/den * 10^k] as an integer ratio. *)
Definition scale10 (num den k : Z) : Z * Z :=
  if 0 <=? k then (num * 10 ^ k, den) else (num, den * 10 ^ (- k)).

(** The least [k >= k0] with [num/den < 10^k]. *)
Fixpoint decpt_go (fuel : nat) (num den k : Z) : Z :=
  match fuel with
  | O => k
  | S f =>
      let '(n, d) := scale10 num den (- k) in
      if n <? d then k else decpt_go f num den (k + 1)
  end.
Definition decpt (num den : Z) : Z :=
  decpt_go 8 num den ((Z.log2 num - Z.log2 den) * 30103 / 100000 - 2).

(** Among the two [n]-digit neighbours of the value, the nearest one that
    converts back to the same float. *)
Definition repr_try (x : f64) (num den k n : Z) : option (Z * Z) :=
  let '(a, b) := scale10 num den (n - k) in
  let q := a / b in
  let r := a mod b in
  let ok c := feqb (f_of_dec false c (k - n)) x in
  let near_up := (b <? 2 * r) || ((b =? 2 * r) && Z.odd q) in
  let '(c1, c2) := if near_up then (q + 1, q) else (q, q + 1) in
  if ok c1 then Some (c1, k - n)
  else if ok c2 then Some (c2, k - n) else None.

Fixpoint repr_go (fuel : nat) (x : f64) (num den k n : Z) : Z * Z :=
  match repr_try x num den k n with
  | Some ce => ce
  | None =>
      match fuel with
      | O => let '(a, b) := scale10 num den (17 - k) in (a / b, k - 17)
      | S f => repr_go f x num den k (n + 1)
      end
  end.

(** Drop trailing zeros of the coefficient ([10] for [9.99..] rounded up). *)
Fixpoint drop_zeros (fuel : nat) (c e : Z) : Z * Z :=
  match fuel with
  | O => (c, e)
  | S f => if (c mod 10 =? 0) && (0 <? c) then drop_zeros f (c / 10) (e + 1) else (c, e)
  end.

(** Shortest digits [c] and exponent [e] of [abs(x)], [x] finite non-zero. *)
Definition shortest (m : positive) (e : Z) : Z * Z :=
  let '(num, den) := fratio m e in
  let '(c, k) := repr_go 16 (S754_finite false m e) num den (decpt num den) 1 in
  drop_zeros 20 c k.

Fixpoint repeat_char (c : ascii) (n : nat) : string :=
  match n with O => EmptyString | S k => String c (repeat_char c k) end.

Definition zeros (n : Z) : string := repeat_char "0" (Z.to_nat n).

(** Digits [c] with decimal point position as [repr] places them. *)
Definition repr_digits (c e : Z) : string :=
  let ds := str_of_Z c in
  let n := Z.of_nat (String.length ds) in
  let pt := n + e in
  if (-4 <? pt) && (pt <=? 16) then
    if pt <=? 0 then "0." +:+ zeros (- pt) +:+ ds
    else if n <=? pt then ds +:+ zeros (pt - n) +:+ ".0"
    else str_take (Z.to_nat pt) ds +:+ "." +:+ str_drop (Z.to_nat pt) ds
  else
    let x := pt - 1 in
    str_take 1 ds +:+ (if n =? 1 then "" else "." +:+ str_drop 1 ds) +:+
    "e" +:+ (if x <? 0 then "-" else "+") +:+ zpad 2 (Z.abs x).

(** [repr(x)], which is also [str(x)]. *)
Definition float_repr (x : f64) : string :=
  match x with
  | S754_nan => "nan"
  | S754_infinity false => "inf"
  | S754_infinity true => "-inf"
  | S754_zero false => "0.0"
  | S754_zero true => "-0.0"
  | S754_finite s m e =>
      let '(c, k) := shortest m e in
      (if s then "-" else "") +:+ repr_digits c k
  end.

(** Half-even quotient of non-negative integers. *)
Definition div_half_even (a b : Z) : Z :=
  let q := a / b in
  let r := a mod b in
  if (b <? 2 * r) || ((b =? 2 * r) && Z.odd q) then q + 1 else q.

(** The format spec [.<d>f]. *)
Definition format_fixed (d : Z) (x : f64) : string :=
  let body a b :=
    let '(n, dn) := scale10 a b d in
    let c := div_half_even n dn in
    if d =? 0 then str_of_Z c
    else str_of_Z (c / 10 ^ d) +:+ "." +:+ zpad (Z.to_nat d) (c mod 10 ^ d) in
  match x with
  | S754_nan => "nan"
  | S754_infinity s => if s then "-inf" else "inf"
  | S754_zero s => (if s then "-" else "") +:+ body 0 1
  | S754_finite s m e =>
      let '(num, den) := fratio m e in (if s then "-" else "") +:+ body num den
  end.

(** ** Reading a float from text *)

(** A digit run with single underscores inside: value and digit count. *)
Definition digit_run (s : string) : option (Z * Z) :=
  n ← int_digits 10 0 false s; Some (n, Z.of_nat (count_digits s)).

Fixpoint cut_at (p : ascii -> bool) (s : string) : string * option string :=
  match s with
  | EmptyString => (EmptyString, None)
  | String c s' =>
      if p c then (EmptyString, Some s')
      else let '(a, b) := cut_at p s' in (String c a, b)
  end.

Definition cut_sign (s : string) : bool * string :=
  match s with
  | String "-" t => (true, t)
  | String "+" t => (false, t)
  | _ => (false, s)
  end.

(** The mantissa [iii], [iii.], [iii.fff] or [.fff]: coefficient and scale. *)
Definition parse_mantissa (s : string) : option (Z * Z) :=
  let '(i, f) := cut_at (Ascii.eqb ".") s in
  match f with
  | None => '(n, _) ← digit_run i; Some (n, 0)
  | Some fs =>
      if is_empty i then '(n, k) ← digit_run fs; Some (n, k)
      else if is_empty fs then '(n, _) ← digit_run i; Some (n, 0)
      else '(a, _) ← digit_run i; '(b, k) ← digit_run fs; Some (a * 10 ^ k + b, k)
  end.

(** [float(s)] of a string; [None] is the [ValueError]. *)
Definition float_of_string (s : string) : option f64 :=
  let '(neg, t) := cut_sign (strip s) in
  let low := lower t in
  if String.eqb low "inf" || String.eqb low "infinity" then Some (S754_infinity neg)
  else if String.eqb low "nan" then Some S754_nan
  else
    let '(ms, es) := cut_at (fun c => Ascii.eqb c "e" || Ascii.eqb c "E") t in
    '(c, k) ← parse_mantissa ms;
    match es with
    | None => Some (f_of_dec neg c (- k))
    | Some xs =>
        let '(xneg, xd) := cut_sign xs in
        '(x, _) ← digit_run xd;
        Some (f_of_dec neg c ((if xneg then - x else x) - k))
    end.

(** ** Order

    A finite or infinite float sits in a lexicographic order of sign class,
    signed exponent and signed mantissa; NaN is outside it. *)

Definition flex (x : f64) : option (Z * Z * Z) :=
  match x with
  | S754_nan => None
  | S754_infinity s => Some (if s then -2 else 2, 0, 0)
  | S754_zero _ => Some (0, 0, 0)
  | S754_finite true m e => Some (-1, - e, - Zpos m)
  | S754_finite false m e => Some (1, e, Zpos m)
  end.

Definition lex_ltb (a b : Z * Z * Z) : bool :=
  let '(a1, a2, a3) := a in
  let '(b1, b2, b3) := b in
  (a1 <? b1) || ((a1 =? b1) && ((a2 <? b2) || ((a2 =? b2) && (a3 <? b3)))).

Lemma compare_lex (e1 e2 m1 m2 : Z) :
  match e1 ?= e2 with Lt => Lt | Gt => Gt | Eq => m1 ?= m2 end =
  if (e1 <? e2) || ((e1 =? e2) && (m1 <? m2)) then Lt
  else if (e2 <? e1) || ((e2 =? e1) && (m2 <? m1)) then Gt else Eq.
Proof.
  destruct (Z.compare_spec e1 e2), (Z.compare_spec m1 m2); subst;
    repeat match goal with |- context [?b || ?c] => destruct (b || c) eqn:? end; try lia; done.
Qed.

Lemma SFcompare_flex x y :
  SFcompare x y =
  match flex x, flex y with
  | Some a, Some b => Some (if lex_ltb a b then Lt else if lex_ltb b a then Gt else Eq)
  | _, _ => None
  end.
Proof.
  destruct x as [[]|[]| |[] mx ex], y as [[]|[]| |[] my ey]; try reflexivity; simpl; f_equal.
  - generalize (compare_lex (- ex) (- ey) (- Zpos mx) (- Zpos my)). simpl. intros <-.
    change (Pos.compare_cont Eq mx my) with (Zpos mx ?= Zpos my).
    destruct (Z.compare_spec ex ey), (Z.compare_spec (- ex) (- ey)); try lia; try done.
  - apply (compare_lex ex ey (Zpos mx) (Zpos my)).
Qed.

Lemma fltb_flex x y :
  fltb x y = match flex x, flex y with Some a, Some b => lex_ltb a b | _, _ => false end.
Proof.
  unfold fltb, SFltb. rewrite SFcompare_flex.
  destruct (flex x), (flex y); try done. by destruct (lex_ltb p p0), (lex_ltb p0 p).
Qed.

Lemma fleb_flex x y :
  fleb x y = match flex x, flex y with Some a, Some b => negb (lex_ltb b a) | _, _ => false end.
Proof.
  unfold fleb, SFleb. rewrite SFcompare_flex.
  destruct (flex x) as [[[a1 a2] a3]|], (flex y) as [[[b1 b2] b3]|]; try done.
  simpl. repeat case_match; try done; lia.
Qed.

Lemma feqb_flex x y :
  feqb x y = match flex x, flex y with Some a, Some b => bool_decide (a = b) | _, _ => false end.
Proof.
  unfold feqb, SFeqb. rewrite SFcompare_flex.
  destruct (flex x) as [[[a1 a2] a3]|], (flex y) as [[[b1 b2] b3]|]; try done.
  simpl. case_bool_decide as H; repeat case_match; try done; try (injection H as -> -> ->; lia).
  exfalso. apply H. repeat f_equal; lia.
Qed.

(** [float_order] turns float comparisons into integer arithmetic. *)
Ltac float_order :=
  repeat match goal with
  | H : context [fltb _ _] |- _ => rewrite fltb_flex in H
  | H : context [fleb _ _] |- _ => rewrite fleb_flex in H
  | |- context [fltb _ _] => rewrite fltb_flex
  | |- context [fleb _ _] => rewrite fleb_flex
  end;
  repeat match goal with
  | |- context [flex ?x] => destruct (flex x) as [[[? ?] ?]|] eqn:?
  | H : context [flex ?x] |- _ =>
      lazymatch type of H with flex _ = _ => fail | _ => idtac end;
      destruct (flex x) as [[[? ?] ?]|] eqn:?
  end; simpl in *; simplify_eq; try done; try lia.

Lemma flex_nan x : flex x = None <-> is_nan x = true.
Proof. by destruct x as [[]|[]| |[]]. Qed.

Lemma fleb_refl x : is_nan x = false -> fleb x x = true.
Proof.
  intros Hx. rewrite fleb_flex. destruct (flex x) as [[[? ?] ?]|] eqn:E; simpl; [lia|].
  apply flex_nan in E. congruence.
Qed.

Lemma fleb_trans x y z : fleb x y = true -> fleb y z = true -> fleb x z = true.
Proof. intros H1 H2. float_order. Qed.

Lemma fltb_fleb x y : fltb x y = true -> fleb x y = true.
Proof. intros H. float_order. Qed.

Lemma fltb_trans x y z : fltb x y = true -> fltb y z = true -> fltb x z = true.
Proof. float_order. Qed.

Lemma fltb_not_fleb x y : fltb x y = true -> fleb y x = false.
Proof. float_order. Qed.

Lemma fleb_fltb_trans x y z : fleb x y = true -> fltb y z = true -> fltb x z = true.
Proof. float_order. Qed.

(** Below a non-NaN bound or not below it. *)
Lemma not_fltb_fleb x y : fltb x y = false -> is_nan x = false -> is_nan y = false -> fleb y x = true.
Proof. rewrite <- !not_true_iff_false, <- !flex_nan. float_order. Qed.

Lemma fltb_irrefl x : fltb x x = false.
Proof. float_order. Qed.

(** On non-NaN floats the order is total. *)
Lemma fltb_false x y :
  is_nan x = false -> is_nan y = false -> fltb x y = false -> fleb y x = true.
Proof.
  intros Hx Hy H. float_order; repeat match goal with E : flex _ = None |- _ =>
    apply flex_nan in E end; congruence.
Qed.

Lemma fleb_false x y :
  is_nan x = false -> is_nan y = false -> fleb x y = false -> fltb y x = true.
Proof.
  intros Hx Hy H. float_order; repeat match goal with E : flex _ = None |- _ =>
    apply flex_nan in E end; congruence.
Qed.

Lemma fleb_not_nan x y : fleb x y = true -> is_nan x = false /\ is_nan y = false.
Proof. destruct x as [[]|[]| |[]], y as [[]|[]| |[]]; try done. Qed.

(** [max(lo, v)] with [lo] first never goes below a non-NaN [lo]. *)
Lemma fmax_lb a b : is_nan a = false -> fleb a (fmax a b) = true.
Proof.
  intros Ha. unfold fmax. destruct (fltb a b) eqn:E; [by apply fltb_fleb|by apply fleb_refl].
Qed.

Lemma fmin_ub a b : is_nan a = false -> fleb (fmin a b) a = true.
Proof.
  intros Ha. unfold fmin. destruct (fltb b a) eqn:E; [by apply fltb_fleb|by apply fleb_refl].
Qed.

Lemma fmax_ub a b c : fleb a c = true -> fleb b c = true -> fleb (fmax a b) c = true.
Proof. unfold fmax. by destruct (fltb a b). Qed.

Lemma fmin_not_nan a b : is_nan a = false -> is_nan (fmin a b) = false.
Proof. unfold fmin. destruct (fltb b a) eqn:E; [|done]. apply fltb_fleb, fleb_not_nan in E. tauto. Qed.

(** [max(0.0, min(1.0, x))] lands in the unit interval whatever [x] is. *)
Definition fone : f64 := S754_finite false 4503599627370496 (-52).
Definition clamp01 (x : f64) : f64 := fmax fzero (fmin fone x).

Lemma clamp01_bounds x : fleb fzero (clamp01 x) = true /\ fleb (clamp01 x) fone = true.
Proof.
  unfold clamp01. split; [by apply fmax_lb|]. apply fmax_ub; [done|by apply fmin_ub].
Qed.

(** NaN is clamped to the top of the interval: [min(1.0, nan)] is [1.0]. *)
Lemma clamp01_nan : clamp01 S754_nan = fone.
Proof. reflexivity. Qed.

Lemma fabs_nonneg x : is_nan x = false -> fleb fzero (fabs x) = true.
Proof. destruct x as [[]|[]| |[]]; done. Qed.

Lemma fabs_nan x : is_nan (fabs x) = is_nan x.
Proof. by destruct x. Qed.

Lemma fneg_involutive x : fneg (fneg x) = x.
Proof. destruct x as [[]|[]| |[]]; done. Qed.

Lemma fneg_ltb x y : fltb (fneg x) (fneg y) = fltb y x.
Proof.
  rewrite !fltb_flex.
  destruct x as [[]|[]| |[] ? ?], y as [[]|[]| |[] ? ?]; simpl; try done; lia.
Qed.

(** ** The digits of a representation are not negative *)

Lemma scale10_pos num den k :
  0 < num -> 0 < den -> 0 < (scale10 num den k).1 /\ 0 < (scale10 num den k).2.
Proof.
  intros Hn Hd. unfold scale10. destruct (Z.leb_spec 0 k); simpl; split; try done;
    apply Z.mul_pos_pos; try done; apply Z.pow_pos_nonneg; lia.
Qed.

Lemma repr_go_nonneg fuel x num den k n :
  0 < num -> 0 < den -> 0 <= (repr_go fuel x num den k n).1.
Proof.
  intros Hn Hd. revert n. induction fuel as [|f IH]; intros n; simpl; unfold repr_try;
    destruct (scale10_pos num den (n - k) Hn Hd) as [Ha Hb];
    destruct (scale10 num den (n - k)) as [a b]; simpl in Ha, Hb;
    pose proof (Z.div_pos a b ltac:(lia) Hb).
  - destruct (scale10_pos num den (17 - k) Hn Hd) as [Ha' Hb'].
    destruct (scale10 num den (17 - k)) as [a' b']. simpl in *.
    pose proof (Z.div_pos a' b' ltac:(lia) Hb'). destruct (_ || _); repeat case_match; simplify_eq; simpl; lia.
  - specialize (IH (n + 1)). destruct (_ || _); repeat case_match; simplify_eq; simpl; try lia; done.
Qed.

Lemma drop_zeros_nonneg fuel c e : 0 <= c -> 0 <= (drop_zeros fuel c e).1.
Proof.
  revert c e. induction fuel as [|f IH]; intros c e Hc; simpl; [done|].
  destruct (_ && _); [|done]. apply IH. apply Z.div_pos; lia.
Qed.

Lemma shortest_nonneg m e : 0 <= (shortest m e).1.
Proof.
  unfold shortest. destruct (fratio m e) as [num den] eqn:E.
  assert (H : 0 < num /\ 0 < den).
  { unfold fratio in E. destruct (Z.leb_spec 0 e); injection E as <- <-.
    - split; [|lia]. apply Z.mul_pos_pos; [lia|]. apply Z.pow_pos_nonneg; lia.
    - split; [lia|]. apply Z.pow_pos_nonneg; lia. }
  destruct H as [Hn Hd].
  pose proof (repr_go_nonneg 16 (S754_finite false m e) num den (decpt num den) 1 Hn Hd) as H.
  destruct (repr_go _ _ _ _ _ _) as [c k]. by apply drop_zeros_nonneg.
Qed.

(** ** Differences *)

Lemma flex_inj x y :
  flex x = flex y -> is_nan x = false -> x = y \/ (exists a b, x = S754_zero a /\ y = S754_zero b).
Proof.
  destruct x as [a|a| |a m e], y as [b|b| |b n f]; simpl; try done; intros H _; eauto; left;
    destruct a; try destruct b; simplify_eq; f_equal; lia.
Qed.

(** A number minus an equal one is no positive number. *)
Lemma fsub_equal x y : fleb x y = true -> fleb y x = true -> fleb (fmax fzero (fsub x y)) fzero = true.
Proof.
  intros H1 H2. destruct (fleb_not_nan _ _ H1) as [Nx Ny].
  assert (Hf : flex x = flex y).
  { rewrite fleb_flex in H1, H2. destruct (flex x) as [[[? ?] ?]|], (flex y) as [[[? ?] ?]|]; try done.
    simpl in H1, H2. do 2 f_equal; [f_equal|]; lia. }
  destruct (flex_inj x y Hf Nx) as [->|(a & b & -> & ->)]; [|by destruct a, b].
  destruct y as [b|b| |b m e]; [by destruct b|by destruct b|done|].
  unfold fsub, SFsub. rewrite Z.sub_diag. by destruct b.
Qed.
