(* ===== verification/PyDecimal.v ===== *)
(** * Python decimals

    [decimal.Decimal] under the default context: 28 significant digits,
    [ROUND_HALF_EVEN], exponents up to 999999, and the traps
    [InvalidOperation], [DivisionByZero] and [Overflow]. A finite decimal is a
    coefficient and an exponent, as in CPython; the sign of zero is not kept
    (nothing the modelled code does depends on it). Every arithmetic
    operation, [abs] and unary minus included, computes exactly and then
    applies the context ([dfix]); comparisons are exact and raise on NaN. *)

From S2P Require Import Prelude PyStr PyFloat.
From stdpp Require Import options.
From Stdlib Require Import Ascii String SpecFloat Qabs Qpower.

#[local] Open Scope Z_scope.

Inductive dec :=
  | DFin (c e : Z)
  | DInf (neg : bool)
  | DNaN.

#[export] Instance dec_eq_dec : EqDecision dec.
Proof. solve_decision. Defined.

Definition dprec : Z := 28.
Definition dEmax : Z := 999999.
Definition dEtiny : Z := -1000026.
Definition dEtop : Z := 999972.

Definition d0 : dec := DFin 0 0.

(** Context rounding of the exact result [c * 10^e]. *)
Definition dfix (c e : Z) : result dec :=
  if c =? 0 then Ok (DFin 0 (Z.min (Z.max e dEtiny) dEmax))
  else
    let e0 := ndigits (Z.abs c) + e - dprec in
    if dEtop <? e0 then raise DecimalOverflow "above Emax"
    else
      let e1 := Z.max e0 dEtiny in
      if e <? e1 then
        let q := div_half_even (Z.abs c) (10 ^ (e1 - e)) in
        let '(q', e') := if dprec <? ndigits q then (q / 10, e1 + 1) else (q, e1) in
        if dEtop <? e' then raise DecimalOverflow "above Emax"
        else Ok (DFin (Z.sgn c * q') e')
      else Ok (DFin c e).

Definition invalid {A} : result A := raise InvalidOperation "invalid operation".

Definition dadd (x y : dec) : result dec :=
  match x, y with
  | DNaN, _ | _, DNaN => Ok DNaN
  | DInf s, DInf t => if eqb s t then Ok (DInf s) else invalid
  | DInf s, _ => Ok (DInf s)
  | _, DInf t => Ok (DInf t)
  | DFin c1 e1, DFin c2 e2 =>
      let e := Z.min e1 e2 in
      dfix (c1 * 10 ^ (e1 - e) + c2 * 10 ^ (e2 - e)) e
  end.

Definition dneg (x : dec) : result dec :=
  match x with
  | DNaN => Ok DNaN
  | DInf s => Ok (DInf (negb s))
  | DFin c e => dfix (- c) e
  end.

(** [x - y] is [x + y.copy_negate()]. *)
Definition dsub (x y : dec) : result dec :=
  match y with
  | DFin c e => dadd x (DFin (- c) e)
  | DInf s => dadd x (DInf (negb s))
  | DNaN => dadd x DNaN
  end.

Definition dabs (x : dec) : result dec :=
  match x with
  | DNaN => Ok DNaN
  | DInf _ => Ok (DInf false)
  | DFin c e => dfix (Z.abs c) e
  end.

Definition dsign (x : dec) : Z :=
  match x with
  | DFin c _ => Z.sgn c
  | DInf s => if s then -1 else 1
  | DNaN => 0
  end.

Definition dmul (x y : dec) : result dec :=
  match x, y with
  | DNaN, _ | _, DNaN => Ok DNaN
  | DFin c1 e1, DFin c2 e2 => dfix (c1 * c2) (e1 + e2)
  | _, _ =>
      if (dsign x =? 0) || (dsign y =? 0) then invalid
      else Ok (DInf (dsign x * dsign y <? 0))
  end.

(** Bring an exact quotient as close to the ideal exponent as possible. *)
Fixpoint to_ideal (fuel : nat) (c e ideal : Z) : Z * Z :=
  match fuel with
  | O => (c, e)
  | S f =>
      if (e <? ideal) && (c mod 10 =? 0) then to_ideal f (c / 10) (e + 1) ideal
      else (c, e)
  end.

(** Long division with a sticky last digit, as CPython does it. *)
Definition ddiv (x y : dec) : result dec :=
  match x, y with
  | DNaN, _ | _, DNaN => Ok DNaN
  | DInf _, DInf _ => invalid
  | DInf s, DFin c _ => Ok (DInf (if c <? 0 then negb s else s))
  | DFin _ _, DInf _ => Ok (DFin 0 dEtiny)
  | DFin c1 e1, DFin c2 e2 =>
      if c2 =? 0 then
        if c1 =? 0 then invalid else raise DecimalDivisionByZero "x / 0"
      else if c1 =? 0 then dfix 0 (e1 - e2)
      else
        let a := Z.abs c1 in
        let b := Z.abs c2 in
        let shift := ndigits b - ndigits a + dprec + 1 in
        let num := if 0 <=? shift then a * 10 ^ shift else a in
        let den := if 0 <=? shift then b else b * 10 ^ (- shift) in
        let q := num / den in
        let r := num mod den in
        let e := e1 - e2 - shift in
        let sg := Z.sgn c1 * Z.sgn c2 in
        if r =? 0 then
          let '(q', e') := to_ideal (Z.to_nat (e1 - e2 - e)) q e (e1 - e2) in
          dfix (sg * q') e'
        else dfix (sg * (if q mod 5 =? 0 then q + 1 else q)) e
  end.

(** Exact comparison; [None] when NaN is involved. *)
Definition dcompare (x y : dec) : option comparison :=
  match x, y with
  | DNaN, _ | _, DNaN => None
  | DInf s, DInf t => Some (Z.compare (if s then -1 else 1) (if t then -1 else 1))
  | DInf s, DFin _ _ => Some (if s then Lt else Gt)
  | DFin _ _, DInf t => Some (if t then Gt else Lt)
  | DFin c1 e1, DFin c2 e2 =>
      let e := Z.min e1 e2 in
      Some (Z.compare (c1 * 10 ^ (e1 - e)) (c2 * 10 ^ (e2 - e)))
  end.

(** Ordering comparisons raise [InvalidOperation] on NaN; equality does not. *)
Definition dltb (x y : dec) : result bool :=
  match dcompare x y with
  | None => invalid
  | Some Lt => Ok true
  | Some _ => Ok false
  end.
Definition dleb (x y : dec) : result bool :=
  match dcompare x y with
  | None => invalid
  | Some Gt => Ok false
  | Some _ => Ok true
  end.
Definition deqb (x y : dec) : bool :=
  match dcompare x y with Some Eq => true | _ => false end.

(** [max(a, b)] and [min(a, b)]. *)
Definition dmax (a b : dec) : result dec := g ← dltb a b; Ok (if g : bool then b else a).
Definition dmin (a b : dec) : result dec := l ← dltb b a; Ok (if l : bool then b else a).

(** [Decimal.from_float(x)]: the exact binary value; mixed comparisons use it. *)
Definition dec_of_float (x : f64) : dec :=
  match x with
  | S754_nan => DNaN
  | S754_infinity s => DInf s
  | S754_zero _ => d0
  | S754_finite s m e =>
      if 0 <=? e then DFin (cond_Zopp s (Zpos m * 2 ^ e)) 0
      else DFin (cond_Zopp s (Zpos m * 5 ^ (- e))) e
  end.

(** [Decimal(str(x))]: the digits of the shortest representation. *)
Definition dec_of_repr (x : f64) : dec :=
  match x with
  | S754_nan => DNaN
  | S754_infinity s => DInf s
  | S754_zero _ => DFin 0 (-1)
  | S754_finite s m e =>
      let '(c, k) := shortest m e in
      let pt := ndigits c + k in
      if (0 <=? k) && (pt <=? 16) then DFin (cond_Zopp s (c * 10 ^ (k + 1))) (-1)
      else DFin (cond_Zopp s c) k
  end.

(** [float(d)]. *)
Definition float_of_dec (x : dec) : f64 :=
  match x with
  | DNaN => S754_nan
  | DInf s => S754_infinity s
  | DFin c e => f_of_dec (c <? 0) (Z.abs c) e
  end.

(** [str(d)]. *)
Definition dec_str (x : dec) : string :=
  match x with
  | DNaN => "NaN"
  | DInf s => if s then "-Infinity" else "Infinity"
  | DFin c e =>
      let ds := str_of_Z (Z.abs c) in
      let n := Z.of_nat (String.length ds) in
      let left := e + n in
      let dot := if (e <=? 0) && (-6 <? left) then left else 1 in
      let body :=
        if dot <=? 0 then "0." +:+ zeros (- dot) +:+ ds
        else if n <=? dot then ds +:+ zeros (dot - n)
        else str_take (Z.to_nat dot) ds +:+ "." +:+ str_drop (Z.to_nat dot) ds in
      (if c <? 0 then "-" else "") +:+ body +:+
      (if left =? dot then ""
       else "E" +:+ (if left - dot <? 0 then "" else "+") +:+ str_of_Z (left - dot))
  end.

(** ** Values

    A finite decimal denotes a rational. *)

Definition p10 (e : Z) : Q := Qpower 10 e.
Definition qval (c e : Z) : Q := inject_Z c * p10 e.
Definition dval (x : dec) : Q := match x with DFin c e => qval c e | _ => 0 end.
Definition dfinite (x : dec) : bool := match x with DFin _ _ => true | _ => false end.
#[global] Arguments p10 : simpl never.
#[global] Arguments qval : simpl never.

Lemma p10_pos e : (0 < p10 e)%Q.
Proof. by apply Qpower_0_lt. Qed.

Lemma p10_add a b : (p10 (a + b) == p10 a * p10 b)%Q.
Proof. by apply Qpower_plus. Qed.

Lemma p10_nonneg k : 0 <= k -> (p10 k == inject_Z (10 ^ k))%Q.
Proof. intros H. unfold p10. symmetry. by apply Zpower_Qpower. Qed.

Lemma p10_split e m : m <= e -> (p10 e == inject_Z (10 ^ (e - m)) * p10 m)%Q.
Proof.
  intros H. rewrite <- p10_nonneg by lia. rewrite <- p10_add. by replace (e - m + m) with e by lia.
Qed.

Lemma qval_rescale c e m : m <= e -> (qval c e == qval (c * 10 ^ (e - m)) m)%Q.
Proof. intros H. unfold qval. rewrite (p10_split e m H), inject_Z_mult. ring. Qed.

Lemma qval_add c1 c2 e : (qval (c1 + c2) e == qval c1 e + qval c2 e)%Q.
Proof. unfold qval. rewrite inject_Z_plus. ring. Qed.

Lemma qval_opp c e : (qval (- c) e == - qval c e)%Q.
Proof. unfold qval. rewrite inject_Z_opp. ring. Qed.

Lemma qval_mul c1 c2 e1 e2 : (qval (c1 * c2) (e1 + e2) == qval c1 e1 * qval c2 e2)%Q.
Proof. unfold qval. rewrite p10_add, inject_Z_mult. ring. Qed.

Lemma qval_abs c e : (qval (Z.abs c) e == Qabs (qval c e))%Q.
Proof.
  unfold qval. rewrite Qabs_Qmult, (Qabs_pos (p10 e)) by (apply Qlt_le_weak, p10_pos).
  by destruct c.
Qed.

Lemma qval_le c1 c2 e : c1 <= c2 <-> (qval c1 e <= qval c2 e)%Q.
Proof.
  unfold qval. rewrite Qmult_le_r by apply p10_pos. by rewrite <- Zle_Qle.
Qed.

Lemma qval_lt c1 c2 e : c1 < c2 <-> (qval c1 e < qval c2 e)%Q.
Proof.
  unfold qval. rewrite Qmult_lt_r by apply p10_pos. by rewrite <- Zlt_Qlt.
Qed.

Lemma qval_0 e : (qval 0 e == 0)%Q.
Proof. unfold qval. change (inject_Z 0) with 0%Q. ring. Qed.

Lemma qval_sgn c e : Z.sgn c = (if Qlt_le_dec 0 (qval c e) then 1 else
                                if Qlt_le_dec (qval c e) 0 then -1 else 0).
Proof.
  assert (H0 := qval_0 e).
  destruct (Qlt_le_dec 0 (qval c e)) as [H|H].
  - rewrite <- H0, <- qval_lt in H. lia.
  - rewrite <- H0, <- qval_le in H.
    destruct (Qlt_le_dec (qval c e) 0) as [H'|H'].
    + rewrite <- H0, <- qval_lt in H'. lia.
    + rewrite <- H0, <- qval_le in H'. lia.
Qed.

(** ** Digit counts *)

Lemma ndigits_go_spec fuel c :
  0 <= c < 10 * 2 ^ Z.of_nat fuel ->
  let n := ndigits_go fuel c in 1 <= n /\ c < 10 ^ n /\ (1 < n -> 10 ^ (n - 1) <= c).
Proof.
  revert c. induction fuel as [|f IH]; intros c Hc; simpl.
  { change (10 ^ 1) with 10. lia. }
  destruct (Z.ltb_spec c 10) as [H|H]; [change (10 ^ 1) with 10; lia|].
  rewrite Nat2Z.inj_succ, Z.pow_succ_r in Hc by lia.
  assert (Hd : 0 <= c / 10 < 10 * 2 ^ Z.of_nat f).
  { split; [apply Z.div_pos; lia|]. apply Z.div_lt_upper_bound; lia. }
  destruct (IH _ Hd) as (H1 & H2 & H3). set (n := ndigits_go f (c / 10)) in *.
  replace (1 + n) with (Z.succ n) by lia. rewrite Z.pow_succ_r by lia.
  replace (Z.succ n - 1) with n by lia.
  pose proof (Z.div_mod c 10 ltac:(lia)). pose proof (Z.mod_pos_bound c 10 ltac:(lia)).
  split; [lia|]. split; [lia|]. intros _.
  destruct (Z.eq_dec n 1) as [->|]; [change (10 ^ 1) with 10; lia|].
  replace n with (Z.succ (n - 1)) by lia. rewrite Z.pow_succ_r by lia. lia.
Qed.

Lemma ndigits_spec c :
  0 <= c -> 1 <= ndigits c /\ c < 10 ^ ndigits c /\ (1 < ndigits c -> 10 ^ (ndigits c - 1) <= c).
Proof.
  intros Hc. apply ndigits_go_spec. split; [done|].
  destruct (Z.eq_dec c 0) as [->|]; [vm_compute; done|].
  rewrite Z2Nat.id by apply Z.log2_nonneg.
  pose proof (Z.log2_spec c ltac:(lia)) as [_ H]. rewrite Z.pow_succ_r in H by apply Z.log2_nonneg.
  pose proof (Z.pow_pos_nonneg 2 (Z.log2 c) ltac:(lia) (Z.log2_nonneg c)). lia.
Qed.

Lemma ndigits_le c p : 0 <= c -> 1 <= p -> ndigits c <= p <-> c < 10 ^ p.
Proof.
  intros Hc Hp. destruct (ndigits_spec c Hc) as (H1 & H2 & H3). split; intros H.
  - eapply Z.lt_le_trans; [exact H2|]. apply Z.pow_le_mono_r; lia.
  - destruct (Z.le_gt_cases (ndigits c) p) as [|Hgt]; [done|]. exfalso.
    assert (10 ^ p <= 10 ^ (ndigits c - 1)) by (apply Z.pow_le_mono_r; lia). lia.
Qed.

(** ** Exactness: results of at most 28 digits are not rounded *)

Definition fits (c e : Z) : Prop := Z.abs c < 10 ^ dprec /\ dEtiny <= e <= dEtop.

Lemma dfix_exact c e : fits c e -> dfix c e = Ok (DFin c e).
Proof.
  intros [Hc He]. unfold dfix, dEtiny, dEtop, dEmax in *.
  destruct (Z.eqb_spec c 0) as [->|Hc0].
  { do 2 f_equal. lia. }
  apply ndigits_le in Hc; [|lia|done]. unfold dprec in *.
  rewrite (proj2 (Z.ltb_ge _ _)) by lia. by rewrite (proj2 (Z.ltb_ge _ _)) by lia.
Qed.

Lemma dadd_exact c1 e1 c2 e2 :
  let e := Z.min e1 e2 in
  let c := c1 * 10 ^ (e1 - e) + c2 * 10 ^ (e2 - e) in
  fits c e -> dadd (DFin c1 e1) (DFin c2 e2) = Ok (DFin c e).
Proof. intros e c H. by apply dfix_exact. Qed.

Lemma dmul_exact c1 e1 c2 e2 :
  fits (c1 * c2) (e1 + e2) -> dmul (DFin c1 e1) (DFin c2 e2) = Ok (DFin (c1 * c2) (e1 + e2)).
Proof. intros H. by apply dfix_exact. Qed.

(** ** Comparisons decide the order of the values *)

Lemma dcompare_val c1 e1 c2 e2 :
  dcompare (DFin c1 e1) (DFin c2 e2) = Some (Qcompare (qval c1 e1) (qval c2 e2)).
Proof.
  simpl. f_equal. set (m := Z.min e1 e2).
  rewrite (qval_rescale c1 e1 m), (qval_rescale c2 e2 m) by lia.
  destruct (Z.compare_spec (c1 * 10 ^ (e1 - m)) (c2 * 10 ^ (e2 - m))) as [->|H|H].
  - symmetry. by apply Qeq_alt.
  - symmetry. apply Qlt_alt. by apply qval_lt.
  - symmetry. apply Qgt_alt. by apply qval_lt.
Qed.

Lemma dltb_val c1 e1 c2 e2 :
  dltb (DFin c1 e1) (DFin c2 e2) =
  Ok (if Qlt_le_dec (qval c1 e1) (qval c2 e2) then true else false).
Proof.
  unfold dltb. rewrite dcompare_val.
  destruct (Qcompare_spec (qval c1 e1) (qval c2 e2)),
    (Qlt_le_dec (qval c1 e1) (qval c2 e2)); try done; exfalso; lra.
Qed.

Lemma dleb_val c1 e1 c2 e2 :
  dleb (DFin c1 e1) (DFin c2 e2) =
  Ok (if Qlt_le_dec (qval c2 e2) (qval c1 e1) then false else true).
Proof.
  unfold dleb. rewrite dcompare_val.
  destruct (Qcompare_spec (qval c1 e1) (qval c2 e2)),
    (Qlt_le_dec (qval c2 e2) (qval c1 e1)); try done; exfalso; lra.
Qed.

(** ** Decimals on a grid

    [isdec k x v]: [x] is finite, denotes [v] and has no digit beyond the
    [k]-th decimal place. On such operands an operation whose exact result is
    below [10^p] is exact as long as [p + k] digits are at most 28. *)

Definition isdec (k : Z) (x : dec) (v : Q) : Prop :=
  exists c e, x = DFin c e /\ - k <= e /\ (qval c e == v)%Q.

#[export] Instance isdec_proper k x : Proper (Qeq ==> iff) (isdec k x).
Proof. intros v w Hvw. unfold isdec. by setoid_rewrite Hvw. Qed.

Lemma isdec_weaken k k' x v : k <= k' -> isdec k x v -> isdec k' x v.
Proof. intros Hk (c & e & ? & ? & ?). exists c, e. repeat split; [done|lia|done]. Qed.

Lemma isdec_val k x v : isdec k x v -> (dval x == v)%Q.
Proof. by intros (c & e & -> & _ & H). Qed.

Lemma isdec_0 k : 0 <= k -> isdec k d0 0.
Proof. intros Hk. exists 0, 0. repeat split. lia. Qed.

Lemma p10_le a b : a <= b -> (p10 a <= p10 b)%Q.
Proof. intros H. apply (Qpower_le_compat_l 10); [done|]. by vm_compute. Qed.

(** A coefficient on the grid below [10^p] has at most [p + k] digits. *)
Lemma grid_coeff c e k p :
  - k <= e -> 0 <= p + k -> (Qabs (qval c e) < p10 p)%Q -> c = 0 \/ (e <= p /\ Z.abs c < 10 ^ (p + k)).
Proof.
  intros He Hpk H. destruct (Z.eq_dec c 0) as [|Hc]; [by left|right].
  rewrite <- qval_abs in H. unfold qval in H.
  assert (Hep : e <= p).
  { destruct (Z.le_gt_cases e p) as [|Hgt]; [done|]. exfalso.
    assert (p10 p <= inject_Z (Z.abs c) * p10 e)%Q; [|lra].
    pose proof (p10_le p e ltac:(lia)). pose proof (p10_pos e).
    assert (1 <= inject_Z (Z.abs c))%Q by (change 1%Q with (inject_Z 1); rewrite <- Zle_Qle; lia).
    nra. }
  split; [done|]. eapply Z.lt_le_trans; [|apply (Z.pow_le_mono_r 10 (p - e)); lia].
  rewrite (p10_split p e Hep), Qmult_lt_r in H by apply p10_pos. by rewrite Zlt_Qlt.
Qed.

Lemma dfix_isdec c e k p v :
  - k <= e -> 0 <= p -> 0 <= k -> p + k <= dprec -> (qval c e == v)%Q -> (Qabs v < p10 p)%Q ->
  exists z, dfix c e = Ok z /\ isdec k z v.
Proof.
  intros He Hp Hk Hpk Hv Hb. rewrite <- Hv in Hb. unfold dprec in *.
  destruct (grid_coeff c e k p He ltac:(lia) Hb) as [->|[Hep Hc]].
  - exists (DFin 0 (Z.min (Z.max e dEtiny) dEmax)). split; [done|].
    exists 0, (Z.min (Z.max e dEtiny) dEmax).
    repeat split; [unfold dEtiny, dEmax; lia|]. rewrite <- Hv, !qval_0. done.
  - exists (DFin c e). split; [|by exists c, e]. apply dfix_exact. split.
    + eapply Z.lt_le_trans; [exact Hc|]. apply Z.pow_le_mono_r; unfold dprec; lia.
    + unfold dEtiny, dEtop. lia.
Qed.

Lemma dadd_isdec k p x y vx vy :
  isdec k x vx -> isdec k y vy -> 0 <= p -> 0 <= k -> p + k <= dprec ->
  (Qabs (vx + vy) < p10 p)%Q ->
  exists z, dadd x y = Ok z /\ isdec k z (vx + vy)%Q.
Proof.
  intros (c1 & e1 & -> & He1 & H1) (c2 & e2 & -> & He2 & H2) Hp Hk Hpk Hb. simpl.
  apply (dfix_isdec _ _ k p); try done; [lia|].
  rewrite qval_add, <- !qval_rescale by lia. by rewrite H1, H2.
Qed.

Lemma dsub_isdec k p x y vx vy :
  isdec k x vx -> isdec k y vy -> 0 <= p -> 0 <= k -> p + k <= dprec ->
  (Qabs (vx - vy) < p10 p)%Q ->
  exists z, dsub x y = Ok z /\ isdec k z (vx - vy)%Q.
Proof.
  intros Hx (c2 & e2 & -> & He2 & H2) Hp Hk Hpk Hb. simpl.
  apply (dadd_isdec k p); try done. exists (- c2), e2.
  repeat split; [done|]. by rewrite qval_opp, H2.
Qed.

Lemma dmul_isdec k1 k2 p x y vx vy :
  isdec k1 x vx -> isdec k2 y vy -> 0 <= p -> 0 <= k1 -> 0 <= k2 -> p + (k1 + k2) <= dprec ->
  (Qabs (vx * vy) < p10 p)%Q ->
  exists z, dmul x y = Ok z /\ isdec (k1 + k2) z (vx * vy)%Q.
Proof.
  intros (c1 & e1 & -> & He1 & H1) (c2 & e2 & -> & He2 & H2) Hp Hk1 Hk2 Hpk Hb. simpl.
  apply (dfix_isdec _ _ (k1 + k2) p); try done; [lia|lia|].
  by rewrite qval_mul, H1, H2.
Qed.

Lemma dabs_isdec k p x v :
  isdec k x v -> 0 <= p -> 0 <= k -> p + k <= dprec -> (Qabs v < p10 p)%Q ->
  exists z, dabs x = Ok z /\ isdec k z (Qabs v).
Proof.
  intros (c & e & -> & He & H) Hp Hk Hpk Hb. simpl.
  apply (dfix_isdec _ _ k p); try done; [by rewrite qval_abs, H|].
  by rewrite (Qabs_pos (Qabs v)) by apply Qabs_nonneg.
Qed.

Lemma dneg_isdec k p x v :
  isdec k x v -> 0 <= p -> 0 <= k -> p + k <= dprec -> (Qabs v < p10 p)%Q ->
  exists z, dneg x = Ok z /\ isdec k z (- v)%Q.
Proof.
  intros (c & e & -> & He & H) Hp Hk Hpk Hb. simpl.
  apply (dfix_isdec _ _ k p); try done; [by rewrite qval_opp, H|]. by rewrite Qabs_opp.
Qed.

Definition qltb (a b : Q) : bool := if Qlt_le_dec a b then true else false.
Definition qleb (a b : Q) : bool := negb (qltb b a).

Lemma qltb_true a b : qltb a b = true <-> (a < b)%Q.
Proof. unfold qltb. destruct (Qlt_le_dec a b); split; try done. intros; exfalso; lra. Qed.
Lemma qltb_false a b : qltb a b = false <-> (b <= a)%Q.
Proof. unfold qltb. destruct (Qlt_le_dec a b); split; try done. intros; exfalso; lra. Qed.
Lemma qleb_true a b : qleb a b = true <-> (a <= b)%Q.
Proof. unfold qleb. rewrite negb_true_iff. apply qltb_false. Qed.
Lemma qleb_false a b : qleb a b = false <-> (b < a)%Q.
Proof. unfold qleb. rewrite negb_false_iff. apply qltb_true. Qed.

#[export] Instance qltb_proper : Proper (Qeq ==> Qeq ==> eq) qltb.
Proof.
  intros a b Hab c d Hcd. destruct (qltb b d) eqn:E.
  - apply qltb_true in E. apply qltb_true. lra.
  - apply qltb_false in E. apply qltb_false. lra.
Qed.

Lemma dltb_isdec k1 k2 x y vx vy :
  isdec k1 x vx -> isdec k2 y vy -> dltb x y = Ok (qltb vx vy).
Proof.
  intros (c1 & e1 & -> & _ & H1) (c2 & e2 & -> & _ & H2).
  rewrite dltb_val. f_equal. change (qltb (qval c1 e1) (qval c2 e2) = qltb vx vy).
  by rewrite H1, H2.
Qed.

Lemma dleb_isdec k1 k2 x y vx vy :
  isdec k1 x vx -> isdec k2 y vy -> dleb x y = Ok (qleb vx vy).
Proof.
  intros (c1 & e1 & -> & _ & H1) (c2 & e2 & -> & _ & H2).
  rewrite dleb_val. f_equal. unfold qleb.
  transitivity (negb (qltb (qval c2 e2) (qval c1 e1))); [unfold qltb; by destruct Qlt_le_dec|].
  by rewrite H1, H2.
Qed.

(** ** Rounding between representable bounds

    Half-even rounding is monotone and fixes the grid, so a rounded result
    stays between grid points that bound the exact one. *)

Lemma div_half_even_ge a b m : 0 < b -> m * b <= a -> m <= div_half_even a b.
Proof.
  intros Hb H. unfold div_half_even.
  assert (m <= a / b) by (apply Z.div_le_lower_bound; lia). destruct (_ || _); lia.
Qed.

Lemma div_half_even_le a b m : 0 < b -> a <= m * b -> div_half_even a b <= m.
Proof.
  intros Hb H. unfold div_half_even.
  pose proof (Z.div_mod a b ltac:(lia)). pose proof (Z.mod_pos_bound a b Hb).
  destruct (Z.eq_dec (a mod b) 0) as [E|E].
  - rewrite E. replace (_ || _) with false by lia. nia.
  - assert (a / b < m) by nia. destruct (_ || _); lia.
Qed.

Lemma qval_shift c e m : m <= e -> (qval (c * 10 ^ (e - m)) m == qval c e)%Q.
Proof. intros. symmetry. by apply qval_rescale. Qed.

(** [between k lo hi v]: [v] lies between two points of the grid [10^-k]. *)
Definition between (k lo hi : Z) (v : Q) : Prop := (qval lo (- k) <= v <= qval hi (- k))%Q.

Lemma dfix_between c e k p lo hi :
  0 < c -> 0 <= p -> 0 <= k -> p + k <= dprec -> (qval c e < p10 p)%Q ->
  between k lo hi (qval c e) ->
  exists z, dfix c e = Ok z /\ dfinite z = true /\ between k lo hi (dval z).
Proof.
  intros Hc Hp Hk Hpk Hlt [Hlo Hhi]. unfold dprec in Hpk.
  destruct (Z.le_gt_cases (- k) e) as [He|He].
  { destruct (dfix_isdec c e k p (qval c e)) as (z & Hz & c' & e' & -> & _ & Hv); try done.
    { rewrite Qabs_pos; [done|]. rewrite <- (qval_0 e), <- qval_le. lia. }
    exists (DFin c' e'). repeat split; [done|simpl|simpl]; by rewrite Hv. }
  assert (Hnd : ndigits c + e <= p).
  { assert (c < 10 ^ (p - e)).
    { rewrite (qval_lt _ _ e). unfold qval at 2. rewrite <- p10_split by lia. done. }
    apply ndigits_le in H; lia. }
  unfold dfix, dEtop, dEtiny, dprec. rewrite (proj2 (Z.eqb_neq c 0)), Z.abs_eq, Z.sgn_pos by lia.
  rewrite (proj2 (Z.ltb_ge _ _)) by lia.
  set (e1 := Z.max (ndigits c + e - 28) (-1000026)). assert (He1 : e1 <= - k) by lia.
  destruct (Z.ltb_spec e e1) as [Hee|Hee]; [|exists (DFin c e); done].
  set (D := 10 ^ (e1 - e)). assert (HD : 0 < D) by (apply Z.pow_pos_nonneg; lia).
  assert (Hgrid : forall g, (qval g (- k) == qval (g * 10 ^ (- k - e1)) e1)%Q)
    by (intros; by apply qval_rescale).
  assert (HDe : forall g, (qval g e1 == qval (g * D) e)%Q) by (intros; apply qval_rescale; lia).
  set (q := div_half_even c D).
  assert (Hlo' : lo * 10 ^ (- k - e1) <= q).
  { apply div_half_even_ge; [done|]. rewrite (qval_le _ _ e), <- HDe, <- Hgrid. done. }
  assert (Hhi' : q <= hi * 10 ^ (- k - e1)).
  { apply div_half_even_le; [done|]. rewrite (qval_le _ _ e), <- HDe, <- Hgrid. done. }
  assert (Hq : q <= 10 ^ 28).
  { apply div_half_even_le; [done|]. unfold D. rewrite <- Z.pow_add_r by lia.
    apply Z.lt_le_incl, ndigits_le; lia. }
  assert (Hq0 : 0 <= q) by (apply div_half_even_ge; lia).
  destruct (Z.ltb_spec 28 (ndigits q)) as [Hd|Hd].
  - assert (Hq28 : q = 10 ^ 28).
    { destruct (Z.lt_ge_cases q (10 ^ 28)) as [Hl|]; [|lia]. apply ndigits_le in Hl; lia. }
    rewrite (proj2 (Z.ltb_ge _ _)) by lia.
    exists (DFin (1 * (q / 10)) (e1 + 1)). split; [done|]. split; [done|]. simpl. unfold between.
    rewrite (qval_rescale _ (e1 + 1) e1) by lia. replace (e1 + 1 - e1) with 1 by lia.
    assert (Hqq : 1 * (q / 10) * 10 ^ 1 = q) by (by rewrite Hq28).
    split; rewrite Hgrid, <- qval_le, Hqq; lia.
  - rewrite (proj2 (Z.ltb_ge _ _)) by lia.
    exists (DFin (1 * q) e1). split; [done|]. split; [done|]. simpl.
    split; rewrite Hgrid, <- qval_le; lia.
Qed.

Lemma p10_lt_inv a b : (p10 a < p10 b)%Q -> a < b.
Proof.
  intros H. destruct (Z.lt_ge_cases a b) as [|Hge]; [done|]. apply p10_le in Hge. lra.
Qed.

Lemma qval_pow c n e : 10 ^ n <= c -> 0 <= n -> (p10 (n + e) <= qval c e)%Q.
Proof.
  intros H Hn. rewrite p10_add, p10_nonneg by done. change (qval (10 ^ n) e <= qval c e)%Q.
  by apply qval_le.
Qed.

Lemma qval_ndigits c e :
  0 < c -> (p10 (ndigits c - 1 + e) <= qval c e)%Q /\ (qval c e < p10 (ndigits c + e))%Q.
Proof.
  intros Hc. destruct (ndigits_spec c ltac:(lia)) as (H1 & H2 & H3). split.
  - apply qval_pow; [|lia]. destruct (Z.eq_dec (ndigits c) 1) as [->|]; [simpl; lia|apply H3; lia].
  - rewrite p10_add, (p10_nonneg (ndigits c)) by lia.
    change (qval c e < qval (10 ^ ndigits c) e)%Q. by apply qval_lt.
Qed.

Lemma to_ideal_val fuel c e ideal :
  let '(c', e') := to_ideal fuel c e ideal in
  (qval c' e' == qval c e)%Q /\ (0 < c -> 0 < c').
Proof.
  revert c e. induction fuel as [|f IH]; intros c e; simpl; [done|].
  destruct (_ && _) eqn:E; [|done]. apply andb_true_iff in E as [_ E%Z.eqb_eq].
  specialize (IH (c / 10) (e + 1)). destruct (to_ideal f (c / 10) (e + 1) ideal) as [c' e'].
  pose proof (Z.div_mod c 10 ltac:(lia)) as Hdm. destruct IH as [IH1 IH2]. split.
  - rewrite IH1, (qval_rescale _ (e + 1) e) by lia. replace (e + 1 - e) with 1 by lia.
    replace (c / 10 * 10 ^ 1) with c by lia. done.
  - intros Hc. apply IH2. lia.
Qed.

(** The scaled integers of the long division. *)
Definition div_num (c1 s : Z) : Z := if 0 <=? s then c1 * 10 ^ s else c1.
Definition div_den (c2 s : Z) : Z := if 0 <=? s then c2 else c2 * 10 ^ (- s).

Lemma div_scaled c1 e1 c2 e2 s g :
  (qval g (e1 - e2 - s) * qval c2 e2 == qval (g * div_den c2 s) (Z.min e1 (e1 - s)))%Q /\
  (qval c1 e1 == qval (div_num c1 s) (Z.min e1 (e1 - s)))%Q.
Proof.
  rewrite <- qval_mul. replace (e1 - e2 - s + e2) with (e1 - s) by lia.
  unfold div_num, div_den. destruct (Z.leb_spec 0 s) as [H|H].
  - rewrite Z.min_r by lia. split; [done|].
    rewrite (qval_rescale c1 e1 (e1 - s)) by lia. by replace (e1 - (e1 - s)) with s by lia.
  - rewrite Z.min_l by lia. split; [|done].
    rewrite (qval_rescale _ (e1 - s) e1), Z.mul_assoc by lia.
    by replace (e1 - s - e1) with (- s) by lia.
Qed.

Lemma div_scaled_le c1 e1 c2 e2 s g :
  (qval g (e1 - e2 - s) * qval c2 e2 <= qval c1 e1)%Q <-> g * div_den c2 s <= div_num c1 s.
Proof. destruct (div_scaled c1 e1 c2 e2 s g) as [-> ->]. symmetry. apply qval_le. Qed.

Lemma div_scaled_ge c1 e1 c2 e2 s g :
  (qval c1 e1 <= qval g (e1 - e2 - s) * qval c2 e2)%Q <-> div_num c1 s <= g * div_den c2 s.
Proof. destruct (div_scaled c1 e1 c2 e2 s g) as [-> ->]. symmetry. apply qval_le. Qed.

Lemma ddiv_between c1 e1 c2 e2 k p lo hi :
  0 < c1 -> 0 < c2 -> 0 <= p -> 0 <= k -> p + k <= dprec -> (qval hi (- k) < p10 p)%Q ->
  (qval lo (- k) * qval c2 e2 <= qval c1 e1)%Q ->
  (qval c1 e1 <= qval hi (- k) * qval c2 e2)%Q ->
  exists z, ddiv (DFin c1 e1) (DFin c2 e2) = Ok z /\ dfinite z = true /\
            between k lo hi (dval z).
Proof.
  intros Hc1 Hc2 Hp Hk Hpk Hhip Hlo Hhi. unfold dprec in Hpk. unfold ddiv.
  rewrite (proj2 (Z.eqb_neq c2 0)), (proj2 (Z.eqb_neq c1 0)), !Z.abs_eq, !Z.sgn_pos by lia.
  unfold dprec. set (s := ndigits c2 - ndigits c1 + 28 + 1). set (e := e1 - e2 - s).
  fold (div_num c1 s) (div_den c2 s).
  destruct (qval_ndigits c1 e1 Hc1) as [L1 U1]. destruct (qval_ndigits c2 e2 Hc2) as [L2 U2].
  pose proof (p10_pos p) as Hp10.
  assert (He : e <= - k).
  { assert (ndigits c1 - 1 + e1 < p + (ndigits c2 + e2)); [|lia].
    apply p10_lt_inv. rewrite (p10_add p). assert (0 < qval c2 e2)%Q; [|nra].
    rewrite <- (qval_0 e2). by apply qval_lt. }
  assert (Hden : 0 < div_den c2 s).
  { unfold div_den. destruct (0 <=? s) eqn:?; [done|]. apply Z.mul_pos_pos; [done|].
    apply Z.pow_pos_nonneg; lia. }
  assert (Hq1 : 1 * div_den c2 s <= div_num c1 s).
  { apply (div_scaled_le c1 e1 c2 e2). fold e. unfold qval at 1. change (inject_Z 1) with 1%Q.
    assert (p10 e * p10 (ndigits c2 + e2) <= p10 (ndigits c1 - 1 + e1))%Q.
    { rewrite <- p10_add. apply p10_le. lia. }
    pose proof (p10_pos e). nra. }
  assert (Hgrid : forall g, (qval g (- k) == qval (g * 10 ^ (- k - e)) e)%Q)
    by (intros; by apply qval_rescale).
  rewrite Hgrid in Hlo, Hhi. apply div_scaled_le in Hlo. apply div_scaled_ge in Hhi.
  set (q := div_num c1 s / div_den c2 s).
  assert (Hqlo : lo * 10 ^ (- k - e) <= q) by (apply Z.div_le_lower_bound; lia).
  assert (Hq : 1 <= q) by (apply Z.div_le_lower_bound; lia).
  pose proof (Z.div_mod (div_num c1 s) (div_den c2 s) ltac:(lia)) as Hdm. fold q in Hdm.
  pose proof (Z.mod_pos_bound (div_num c1 s) (div_den c2 s) Hden) as Hr.
  assert (Hfin : forall c' e', 0 < c' -> between k lo hi (qval c' e') ->
    exists z, dfix (1 * 1 * c') e' = Ok z /\ dfinite z = true /\ between k lo hi (dval z)).
  { intros c' e' Hc' Hb. rewrite !Z.mul_1_l. apply (dfix_between c' e' k p); try done.
    destruct Hb. lra. }
  destruct (Z.eqb_spec (div_num c1 s mod div_den c2 s) 0) as [E|E].
  - pose proof (to_ideal_val (Z.to_nat (e1 - e2 - e)) q e (e1 - e2)) as Hid.
    destruct (to_ideal _ q e (e1 - e2)) as [q' e']. destruct Hid as [Hv Hpos].
    apply Hfin; [lia|]. unfold between. rewrite Hv, !Hgrid, <- !qval_le. nia.
  - set (q' := if q mod 5 =? 0 then q + 1 else q).
    assert (Hq' : q <= q' <= q + 1) by (unfold q'; destruct (_ =? _); lia).
    apply Hfin; [lia|]. unfold between. rewrite !Hgrid, <- !qval_le.
    assert (q + 1 <= hi * 10 ^ (- k - e)) by nia. lia.
Qed.

(** The same for sums and products of positive decimals, and the grid as
    integers. *)
Definition dbetween (k lo hi : Z) (x : dec) : Prop :=
  dfinite x = true /\ between k lo hi (dval x).

Lemma isdec_grid k x v : isdec k x v -> exists n, (v == qval n (- k))%Q.
Proof.
  intros (c & e & -> & He & Hv). exists (c * 10 ^ (e - - k)). by rewrite <- Hv, <- qval_rescale.
Qed.

Lemma isdec_small k x v : 0 <= k -> isdec k x v -> (Qabs v < p10 (- k))%Q -> (v == 0)%Q.
Proof.
  intros Hk (c & e & -> & He & Hv) Hs. rewrite <- Hv in *.
  destruct (grid_coeff c e k (- k)) as [->|[_ H]]; [lia|lia|done|apply qval_0|].
  replace (- k + k) with 0 in H by lia. assert (c = 0) as -> by lia. apply qval_0.
Qed.

Lemma qval_pos c e : (0 < qval c e)%Q <-> 0 < c.
Proof. by rewrite (qval_lt 0 c e), qval_0. Qed.

Lemma dbetween_pos k lo hi x :
  0 < lo -> dbetween k lo hi x -> exists c e, x = DFin c e /\ 0 < c.
Proof.
  intros Hlo [Hf [Hl _]]. destruct x as [c e| |]; try done. exists c, e. split; [done|].
  apply (qval_pos c e). apply (qval_pos lo (- k)) in Hlo. simpl in Hl. lra.
Qed.

Lemma dadd_between k p x y lo1 hi1 lo2 hi2 :
  0 < lo1 -> 0 < lo2 -> 0 <= p -> 0 <= k -> p + k <= dprec ->
  (qval (hi1 + hi2) (- k) < p10 p)%Q ->
  dbetween k lo1 hi1 x -> dbetween k lo2 hi2 y ->
  exists z, dadd x y = Ok z /\ dbetween k (lo1 + lo2) (hi1 + hi2) z.
Proof.
  intros Hl1 Hl2 Hp Hk Hpk Hb Hx Hy.
  destruct (dbetween_pos _ _ _ _ Hl1 Hx) as (c1 & e1 & -> & Hc1).
  destruct (dbetween_pos _ _ _ _ Hl2 Hy) as (c2 & e2 & -> & Hc2).
  destruct Hx as [_ [L1 U1]], Hy as [_ [L2 U2]]. simpl in *.
  set (e := Z.min e1 e2). set (c := c1 * 10 ^ (e1 - e) + c2 * 10 ^ (e2 - e)).
  assert (Hv : (qval c e == qval c1 e1 + qval c2 e2)%Q).
  { unfold c. rewrite qval_add, <- !qval_rescale by lia. done. }
  rewrite qval_add in Hb. apply (dfix_between c e k p); try done.
  - apply (qval_pos c e). rewrite Hv. apply (qval_pos _ e1) in Hc1. apply (qval_pos _ e2) in Hc2. lra.
  - rewrite Hv. lra.
  - unfold between. rewrite Hv, !qval_add. lra.
Qed.

Lemma dmul_between k1 k2 p x y m lo hi :
  0 < m -> 0 < lo -> 0 <= p -> 0 <= k1 -> 0 <= k2 -> p + (k1 + k2) <= dprec ->
  (qval (m * hi) (- (k1 + k2)) < p10 p)%Q ->
  isdec k1 x (qval m (- k1)) -> dbetween k2 lo hi y ->
  exists z, dmul x y = Ok z /\ dbetween (k1 + k2) (m * lo) (m * hi) z.
Proof.
  intros Hm Hlo Hp Hk1 Hk2 Hpk Hb (c1 & e1 & -> & _ & Hv1) Hy.
  destruct (dbetween_pos _ _ _ _ Hlo Hy) as (c2 & e2 & -> & Hc2).
  destruct Hy as [_ [L U]]. simpl in *.
  assert (Hmq : (0 < qval m (- k1))%Q) by (by apply qval_pos).
  assert (Hg : forall g, (qval (m * g) (- (k1 + k2)) == qval m (- k1) * qval g (- k2))%Q).
  { intros g. rewrite <- qval_mul. by replace (- k1 + - k2) with (- (k1 + k2)) by lia. }
  rewrite Hg in Hb. apply (qval_pos _ e2) in Hc2.
  apply (dfix_between (c1 * c2) (e1 + e2) (k1 + k2) p); try (done || lia).
  - apply (qval_pos _ (e1 + e2)). rewrite qval_mul, Hv1. by apply Qmult_lt_0_compat.
  - rewrite qval_mul, Hv1. nra.
  - unfold between. rewrite qval_mul, Hv1, !Hg. nra.
Qed.

(** ** Magnitudes

    Operations on decimals of moderate size never raise, whatever rounding
    does, and the rounded result obeys the bound of the exact one. *)

Definition dmag (p : Z) (x : dec) : Prop := dfinite x = true /\ (Qabs (dval x) <= p10 p)%Q.

Definition copy_negate (x : dec) : dec :=
  match x with DFin c e => DFin (- c) e | DInf s => DInf (negb s) | DNaN => DNaN end.

Lemma dfix_opp c e z : dfix c e = Ok z -> dfix (- c) e = Ok (copy_negate z).
Proof.
  unfold dfix. rewrite Z.abs_opp, Z.sgn_opp.
  replace (- c =? 0) with (c =? 0) by (destruct (Z.eqb_spec c 0), (Z.eqb_spec (- c) 0); lia).
  intros H. destruct (c =? 0); [by injection H as <-|].
  destruct (dEtop <? _); [done|]. destruct (e <? _); [|by injection H as <-].
  destruct (dprec <? _); destruct (dEtop <? _); try done; injection H as <-; simpl;
    by rewrite Z.mul_opp_l.
Qed.

Lemma dval_negate x : (dval (copy_negate x) == - dval x)%Q.
Proof. destruct x as [c e| |]; [apply qval_opp|done..]. Qed.

Lemma dfix_mag c e p :
  0 <= p < dprec -> (Qabs (qval c e) <= p10 p)%Q -> exists z, dfix c e = Ok z /\ dmag p z.
Proof.
  intros Hp Hb. unfold dprec in Hp.
  assert (Hpos : forall c, 0 < c -> (qval c e <= p10 p)%Q -> exists z, dfix c e = Ok z /\ dmag p z).
  { clear c Hb. intros c Hc Hb. destruct (dfix_between c e 0 (p + 1) 0 (10 ^ p)) as (z & Ez & Fz & L & U);
      unfold dprec; try lia.
    - eapply Qle_lt_trans; [exact Hb|]. rewrite !p10_nonneg, <- Zlt_Qlt by lia.
      apply Z.pow_lt_mono_r; lia.
    - split; [rewrite qval_0; apply Qlt_le_weak; by apply qval_pos|].
      unfold qval at 2. by rewrite <- p10_nonneg, Qmult_1_r by lia.
    - exists z. split; [done|]. split; [done|]. rewrite qval_0 in L. rewrite Qabs_pos by done.
      unfold qval in U. by rewrite <- p10_nonneg, Qmult_1_r in U by lia. }
  destruct (Z.lt_trichotomy c 0) as [H|[->|H]].
  - destruct (Hpos (- c)) as (z & Ez & Fz & Vz); [lia| |].
    { rewrite qval_opp. by rewrite Qabs_neg in Hb
        by (rewrite <- (qval_0 e); apply qval_le; lia). }
    apply dfix_opp in Ez. rewrite Z.opp_involutive in Ez. exists (copy_negate z).
    split; [done|]. split; [by destruct z|]. by rewrite dval_negate, Qabs_opp.
  - exists (DFin 0 (Z.min (Z.max e dEtiny) dEmax)). split; [done|]. split; [done|].
    unfold dval. rewrite qval_0. apply Qlt_le_weak, (p10_pos p).
  - apply Hpos; [done|]. by rewrite Qabs_pos in Hb by (rewrite <- (qval_0 e); apply qval_le; lia).
Qed.

Lemma dmag_weaken p q x : p <= q -> dmag p x -> dmag q x.
Proof. intros H [? ?]. split; [done|]. pose proof (p10_le p q H). lra. Qed.

Lemma p10_succ p : (p10 (p + 1) == 10 * p10 p)%Q.
Proof. rewrite p10_add. change (p10 1) with 10%Q. ring. Qed.

Lemma dadd_mag p x y :
  0 <= p < dprec - 1 -> dmag p x -> dmag p y -> exists z, dadd x y = Ok z /\ dmag (p + 1) z.
Proof.
  intros Hp [Fx Hx] [Fy Hy]. unfold dprec in Hp. destruct x as [c1 e1| |], y as [c2 e2| |]; try done.
  cbn [dval dadd] in *. apply dfix_mag; [unfold dprec; lia|].
  rewrite qval_add, <- !qval_rescale by lia. pose proof (Qabs_triangle (qval c1 e1) (qval c2 e2)).
  rewrite p10_succ. pose proof (p10_pos p). lra.
Qed.

Lemma dsub_mag p x y :
  0 <= p < dprec - 1 -> dmag p x -> dmag p y -> exists z, dsub x y = Ok z /\ dmag (p + 1) z.
Proof.
  intros Hp Hx [Fy Hy]. destruct y as [c e| |]; try done.
  apply (dadd_mag p x (DFin (- c) e)); [done|done|]. split; [done|].
  cbn [dval] in *. by rewrite qval_opp, Qabs_opp.
Qed.

Lemma dmul_mag p q x y :
  0 <= p -> 0 <= q -> p + q < dprec -> dmag p x -> dmag q y ->
  exists z, dmul x y = Ok z /\ dmag (p + q) z.
Proof.
  intros Hp Hq Hpq [Fx Hx] [Fy Hy]. destruct x as [c1 e1| |], y as [c2 e2| |]; try done.
  cbn [dval dmul] in *. apply dfix_mag; [lia|]. rewrite qval_mul, Qabs_Qmult, p10_add.
  pose proof (Qabs_nonneg (qval c1 e1)). pose proof (Qabs_nonneg (qval c2 e2)). nra.
Qed.

Lemma dabs_mag p x : 0 <= p < dprec -> dmag p x -> exists z, dabs x = Ok z /\ dmag p z.
Proof.
  intros Hp [Fx Hx]. destruct x as [c e| |]; try done. apply dfix_mag; [done|].
  cbn [dval] in Hx. by rewrite qval_abs, (Qabs_pos (Qabs _)) by apply Qabs_nonneg.
Qed.

Lemma isdec_mag k p x v : isdec k x v -> (Qabs v <= p10 p)%Q -> dmag p x.
Proof. intros (c & e & -> & _ & Hv) H. split; [done|]. cbn [dval]. by rewrite Hv. Qed.

Lemma dbetween_mag k p lo hi x :
  0 < lo -> (qval hi (- k) <= p10 p)%Q -> dbetween k lo hi x -> dmag p x.
Proof.
  intros Hlo Hhi [Fx [L U]]. split; [done|]. apply (qval_pos lo (- k)) in Hlo.
  rewrite Qabs_pos; lra.
Qed.

(** Rounding keeps the sign. *)
Lemma dfix_nonpos c e z : dfix c e = Ok z -> c <= 0 -> exists c' e', z = DFin c' e' /\ c' <= 0.
Proof.
  intros H Hc. unfold dfix in H. destruct (Z.eqb_spec c 0) as [->|Hc0]; [injection H as <-; by eexists _, _|].
  rewrite Z.sgn_neg in H by lia. destruct (dEtop <? _); [done|].
  set (e1 := Z.max _ _) in H. destruct (Z.ltb_spec e e1) as [He|He].
  2:{ injection H as <-. by eexists _, _. }
  assert (Hq : 0 <= div_half_even (Z.abs c) (10 ^ (e1 - e))).
  { apply div_half_even_ge; [apply Z.pow_pos_nonneg; lia|lia]. }
  destruct (dprec <? _); destruct (dEtop <? _); try done; injection H as <-; eexists _, _;
    (split; [done|]); [|lia]. pose proof (Z.div_pos (div_half_even (Z.abs c) (10 ^ (e1 - e))) 10 Hq). lia.
Qed.

Lemma dneg_nonpos c e z : 0 <= c -> dneg (DFin c e) = Ok z -> exists c' e', z = DFin c' e' /\ c' <= 0.
Proof. intros Hc H. apply (dfix_nonpos (- c) e); [exact H|lia]. Qed.

(** Exact sums. *)
Fixpoint qsum (l : list Q) : Q := match l with [] => 0 | x :: l' => x + qsum l' end.

Lemma qsum_nonneg {A} (g : A -> Q) l :
  Forall (fun x => (0 <= g x)%Q) l -> (0 <= qsum (g <$> l))%Q.
Proof. induction 1; csimpl; lra. Qed.

#[global] Arguments dadd : simpl never.
#[global] Arguments dsub : simpl never.
#[global] Arguments dmul : simpl never.
#[global] Arguments ddiv : simpl never.
#[global] Arguments dabs : simpl never.
#[global] Arguments dneg : simpl never.
#[global] Arguments dltb : simpl never.
#[global] Arguments dleb : simpl never.
#[global] Arguments dmax : simpl never.
#[global] Arguments dmin : simpl never.
#[global] Arguments dfix : simpl never.
#[global] Arguments Qabs : simpl never.
#[global] Arguments Qplus : simpl never.
#[global] Arguments Qminus : simpl never.
#[global] Arguments Qmult : simpl never.
#[global] Arguments Qopp : simpl never.

(** Facts about concrete decimals, by evaluation. *)
Ltac dec_compute :=
  match goal with
  | |- isdec _ ?x _ =>
      match eval vm_compute in x with
      | DFin ?c ?e => exists c, e
      end; split; [vm_compute; reflexivity|split; [lia|vm_compute; reflexivity]]
  | |- dmag _ _ => split; [reflexivity|vm_compute; discriminate]
  | |- dbetween _ _ _ _ => split; [reflexivity|split; vm_compute; discriminate]
  | |- (_ < _)%Q => vm_compute; reflexivity
  | |- (_ <= _)%Q => vm_compute; discriminate
  | |- ~ (_ < _)%Q => vm_compute; discriminate
  end.

(** ** Numbers whose class is only known at run time *)

Inductive pynum :=
  | PInt (n : Z)
  | PFloat (x : f64)
  | PDec (d : dec).

(** [Decimal(str(n))]. *)
Definition dec_of_num (n : pynum) : dec :=
  match n with PInt z => DFin z 0 | PFloat x => dec_of_repr x | PDec d => d end.

(** [abs(n)], in the number's own class. *)
Definition num_abs (n : pynum) : result pynum :=
  match n with
  | PInt z => Ok (PInt (Z.abs z))
  | PFloat x => Ok (PFloat (fabs x))
  | PDec d => a ← dabs d; Ok (PDec a)
  end.

(** ** Reading a decimal from text *)

Fixpoint drop_char (c : ascii) (s : string) : string :=
  match s with
  | EmptyString => EmptyString
  | String c' s' => if Ascii.eqb c' c then drop_char c s' else String c' (drop_char c s')
  end.

(** The exponents an exact conversion can represent. *)
Definition dec_exact (c e : Z) : result dec :=
  if (c =? 0) || ((e + ndigits (Z.abs c) - 1 <=? 999999999999999999) && (-1999999999999999997 <=? e))
  then Ok (DFin c e) else raise InvalidOperation "exact conversion out of range".

Definition conversion_syntax {A} : result A := raise InvalidOperation "ConversionSyntax".

(** [Decimal(s)]: underscores are dropped wherever they are. A quiet and a
    signalling NaN are one value here: the callers take [abs] and compare, and
    both raise by then. *)
Definition dec_of_string (s : string) : result dec :=
  let '(neg, t) := cut_sign (drop_char "_" (strip s)) in
  let low := lower t in
  if String.eqb low "inf" || String.eqb low "infinity" then Ok (DInf neg)
  else if (starts_with "nan" low && str_forallb is_digit (str_drop 3 low)) ||
          (starts_with "snan" low && str_forallb is_digit (str_drop 4 low)) then Ok DNaN
  else
    let '(ms, es) := cut_at (fun c => Ascii.eqb c "e" || Ascii.eqb c "E") t in
    match parse_mantissa ms with
    | None => conversion_syntax
    | Some (c, k) =>
        match es with
        | None => dec_exact (cond_Zopp neg c) (- k)
        | Some xs =>
            let '(xneg, xd) := cut_sign xs in
            match digit_run xd with
            | Some (x, _) => dec_exact (cond_Zopp neg c) ((if xneg then - x else x) - k)
            | None => conversion_syntax
            end
        end
    end.

Example dec_of_string_ex :
  dec_of_string " -1_2.50e-3" = Ok (DFin (-1250) (-5)) /\ dec_of_string "0.5" = Ok (DFin 5 (-1)) /\
  is_ok (dec_of_string "True") = false.
Proof. vm_compute. done. Qed.
