(* ===== verification/PyTime.v ===== *)
(** * Python dates and times

    [datetime.datetime] with [timezone] offsets: construction checks,
    [astimezone], [isoformat], addition of a [timedelta], and
    [datetime.fromisoformat] as CPython 3.13 parses it. A datetime is the number
    of microseconds since 0001-01-01T00:00:00 on its own wall clock, with its
    UTC offset (in microseconds) when it is aware. *)

From S2P Require Import Prelude PyStr.
From stdpp Require Import options.
From Stdlib Require Import Ascii String.

#[local] Open Scope Z_scope.

(** ** Calendar (proleptic Gregorian, day 0 is 0001-01-01) *)

Definition is_leap (y : Z) : bool :=
  (y mod 4 =? 0) && (negb (y mod 100 =? 0) || (y mod 400 =? 0)).

Definition days_before_year (y : Z) : Z :=
  let p := y - 1 in p * 365 + p / 4 - p / 100 + p / 400.

Definition leap_day (y : Z) : Z := if is_leap y then 1 else 0.

Definition days_in_month (y m : Z) : Z :=
  if m =? 2 then 28 + leap_day y
  else if (m =? 4) || (m =? 6) || (m =? 9) || (m =? 11) then 30 else 31.

Definition days_before_month (y m : Z) : Z :=
  match m with
  | 1 => 0 | 2 => 31
  | 3 => 59 + leap_day y | 4 => 90 + leap_day y | 5 => 120 + leap_day y
  | 6 => 151 + leap_day y | 7 => 181 + leap_day y | 8 => 212 + leap_day y
  | 9 => 243 + leap_day y | 10 => 273 + leap_day y | 11 => 304 + leap_day y
  | _ => 334 + leap_day y
  end.

Definition days_of_ymd (y m d : Z) : Z := days_before_year y + days_before_month y m + (d - 1).

Definition valid_ymd (y m d : Z) : bool :=
  (1 <=? y) && (y <=? 9999) && (1 <=? m) && (m <=? 12) && (1 <=? d) && (d <=? days_in_month y m).

(** CPython's [ord_to_ymd]: strip 400-, 100-, 4- and 1-year cycles, then guess
    the month and correct the guess by one. *)
Definition month_of_yday (leap : Z) (n : Z) : Z * Z :=
  let before m := days_before_month (if leap =? 1 then 4 else 1) m in
  let month := (n + 50) / 32 in
  if n <? before month then (month - 1, n - before (month - 1) + 1)
  else (month, n - before month + 1).

Definition ymd_of_days (n : Z) : Z * Z * Z :=
  let n400 := n / 146097 in
  let r := n mod 146097 in
  let n100 := r / 36524 in
  let r := r mod 36524 in
  let n4 := r / 1461 in
  let r := r mod 1461 in
  let n1 := r / 365 in
  let r := r mod 365 in
  let year := n400 * 400 + 1 + n100 * 100 + n4 * 4 + n1 in
  if (n1 =? 4) || (n100 =? 4) then (year - 1, 12, 31)
  else
    let leap := if (n1 =? 3) && (negb (n4 =? 24) || (n100 =? 3)) then 1 else 0 in
    let '(m, d) := month_of_yday leap r in (year, m, d).

Definition US_SECOND : Z := 1000000.
Definition US_DAY : Z := 86400 * US_SECOND.
Definition MAX_DAYS : Z := 3652059.

(** ** Datetimes *)

Record datetime := { dt_us : Z; dt_off : option Z }.

#[export] Instance datetime_eq_dec : EqDecision datetime.
Proof. solve_decision. Defined.

Definition in_range (us : Z) : bool := (0 <=? us) && (us <? MAX_DAYS * US_DAY).
Definition utc (us : Z) : datetime := {| dt_us := us; dt_off := Some 0 |}.

(** [value.astimezone(timezone.utc)] of an aware value. *)
Definition astimezone_utc (us off : Z) : result Z :=
  if in_range (us - off) then Ok (us - off) else raise OverflowError "date value out of range".

(** [timedelta(seconds=n)] and its addition to a datetime. *)
Definition timedelta_seconds (n : Z) : result Z :=
  let days := n / 86400 in
  if (Z.abs days <=? 999999999) then Ok (n * US_SECOND)
  else raise OverflowError ("days=" +:+ str_of_Z days +:+ "; must have magnitude <= 999999999").
Definition add_us (us delta : Z) : result Z :=
  if in_range (us + delta) then Ok (us + delta) else raise OverflowError "date value out of range".

(** ** Printing *)

Definition digit_char (k : Z) : ascii := ascii_of_N (Z.to_N (48 + k)).

(** The [w] low decimal digits of [n]: [%0wd] for [0 <= n < 10^w]. *)
Fixpoint dpad (w : nat) (n : Z) : string :=
  match w with
  | O => ""
  | S k => String (digit_char (n / 10 ^ Z.of_nat k mod 10)) (dpad k n)
  end.

Definition iso_offset (off : Z) : string :=
  let a := Z.abs off in
  let us := a mod US_SECOND in
  let s := a / US_SECOND in
  (if off <? 0 then "-" else "+") +:+ dpad 2 (s / 3600) +:+ ":" +:+ dpad 2 (s / 60 mod 60) +:+
  (if (s mod 60 =? 0) && (us =? 0) then ""
   else ":" +:+ dpad 2 (s mod 60) +:+ (if us =? 0 then "" else "." +:+ dpad 6 us)).

Definition isoformat (t : datetime) : string :=
  let '(y, m, d) := ymd_of_days (dt_us t / US_DAY) in
  let r := dt_us t mod US_DAY in
  let us := r mod US_SECOND in
  let s := r / US_SECOND in
  dpad 4 y +:+ "-" +:+ dpad 2 m +:+ "-" +:+ dpad 2 d +:+ "T" +:+
  dpad 2 (s / 3600) +:+ ":" +:+ dpad 2 (s / 60 mod 60) +:+ ":" +:+ dpad 2 (s mod 60) +:+
  (if us =? 0 then "" else "." +:+ dpad 6 us) +:+
  match dt_off t with None => "" | Some off => iso_offset off end.

(** [value.isoformat().replace("+00:00", "Z")] of a UTC instant. *)
Definition iso_z (us : Z) : string := replace "+00:00" "Z" (isoformat (utc us)).

(** ** Parsing *)

Definition char_at (s : string) (i : nat) : ascii := default Ascii.zero (String.get i s).

(** [n] ASCII digits from position [p]. *)
Fixpoint digits_at (s : string) (p n : nat) (acc : Z) : option Z :=
  match n with
  | O => Some acc
  | S k =>
      let c := char_at s p in
      if is_digit c then digits_at s (S p) k (acc * 10 + (char_code c - 48)) else None
  end.

Definition isoweek1_monday (y : Z) : Z :=
  let first := days_of_ymd y 1 1 + 1 in
  let weekday := (first + 6) mod 7 in
  let monday := first - weekday in
  (if 3 <? weekday then monday + 7 else monday) - 1.

Definition iso_to_days (y w d : Z) : option Z :=
  if negb ((1 <=? y) && (y <=? 9999)) then None
  else
    let first_weekday := (days_of_ymd y 1 1 + 1) mod 7 in
    let long_year := (first_weekday =? 4) || ((first_weekday =? 3) && is_leap y) in
    if negb ((0 <? w) && ((w <? 53) || ((w =? 53) && long_year))) then None
    else if negb ((0 <? d) && (d <? 8)) then None
    else Some (isoweek1_monday y + (w - 1) * 7 + (d - 1)).

Fixpoint digit_run_end (s : string) (p fuel : nat) : nat :=
  match fuel with
  | O => p
  | S k => if is_digit (char_at s p) then digit_run_end s (S p) k else p
  end.

(** Where the date ends: CPython's [_find_isoformat_datetime_separator]. *)
Definition find_separator (s : string) : option nat :=
  let len := String.length s in
  if Nat.eqb len 7 then Some 7%nat
  else if Ascii.eqb (char_at s 4) "-" then
    if Ascii.eqb (char_at s 5) "W" then
      if Nat.ltb 8 len && Ascii.eqb (char_at s 8) "-" then
        if Nat.eqb len 9 then None
        else if Nat.ltb 10 len && is_digit (char_at s 10) then Some 8%nat
        else Some 10%nat
      else Some 8%nat
    else Some 10%nat
  else if Ascii.eqb (char_at s 4) "W" then
    let e := digit_run_end s 7 (len - 7) in
    if Nat.ltb e 9 then Some e
    else if Nat.even e then Some 7%nat else Some 8%nat
  else Some 8%nat.

(** The date in the first [len] characters, as a day number. *)
Definition parse_date (s : string) (len : nat) : option Z :=
  y ← digits_at s 0 4 0;
  let sep := Ascii.eqb (char_at s 4) "-" in
  let p := if sep then 5%nat else 4%nat in
  if Ascii.eqb (char_at s p) "W" then
    w ← digits_at s (p + 1) 2 0;
    let p := (p + 3)%nat in
    if Nat.ltb p len then
      if sep && negb (Ascii.eqb (char_at s p) "-") then None
      else d ← digits_at s (if sep then S p else p) 1 0; iso_to_days y w d
    else iso_to_days y w 1
  else
    m ← digits_at s p 2 0;
    let p := (p + 2)%nat in
    if sep && negb (Ascii.eqb (char_at s p) "-") then None
    else
      d ← digits_at s (if sep then S p else p) 2 0;
      if valid_ymd y m d then Some (days_of_ymd y m d) else None.

(** One component of [HH[:MM[:SS[.ffffff]]]]; [i] is its index. The scan either
    stops at the end of the field, saying whether something follows, or goes on
    at a position. *)
Inductive hms_next :=
  | Stop (more : bool)
  | Next (p : nat) (has_sep : bool).

Definition hms_step (s : string) (p_end i p : nat) (has_sep : bool) : option (Z * hms_next) :=
  v ← digits_at s p 2 0;
  let c := char_at s (p + 2) in
  let p := (p + 3)%nat in
  let has_sep := if Nat.eqb i 0 then Ascii.eqb c ":" else has_sep in
  if Nat.leb p_end p then Some (v, Stop (negb (Ascii.eqb c Ascii.zero)))
  else if has_sep && Ascii.eqb c ":" then Some (v, Next p has_sep)
  else if Ascii.eqb c "." || Ascii.eqb c "," then
    if Nat.ltb i 2 then None else Some (v, Next p has_sep)
  else if negb has_sep then Some (v, Next (p - 1) has_sep)
  else None.

Definition parse_fraction (s : string) (p p_end : nat) : option (Z * bool) :=
  let n := Nat.min 6 (p_end - p) in
  v ← digits_at s p n 0;
  let e := digit_run_end s (p + n) (String.length s - (p + n)) in
  Some (v * 10 ^ (6 - Z.of_nat n), negb (Ascii.eqb (char_at s e) Ascii.zero)).

(** Hours, minutes, seconds, microseconds, and whether characters follow. *)
Definition parse_hms (s : string) (p p_end : nat) : option (Z * Z * Z * Z * bool) :=
  '(h, n0) ← hms_step s p_end 0 p true;
  match n0 with
  | Stop more => Some (h, 0, 0, 0, more)
  | Next p1 sep1 =>
      '(m, n1) ← hms_step s p_end 1 p1 sep1;
      match n1 with
      | Stop more => Some (h, m, 0, 0, more)
      | Next p2 sep2 =>
          '(sec, n2) ← hms_step s p_end 2 p2 sep2;
          match n2 with
          | Stop more => Some (h, m, sec, 0, more)
          | Next p3 _ => '(us, more) ← parse_fraction s p3 p_end; Some (h, m, sec, us, more)
          end
      end
  end.

(** First of [+], [-], [Z] from [p] on; the end of the string without one. *)
Fixpoint find_tz (s : string) (p fuel : nat) : nat :=
  match fuel with
  | O => p
  | S k =>
      let c := char_at s p in
      if Ascii.eqb c "+" || Ascii.eqb c "-" || Ascii.eqb c "Z" then p else find_tz s (S p) k
  end.

Definition hms_us (h m s us : Z) : Z := ((h * 60 + m) * 60 + s) * US_SECOND + us.

(** Time of day and offset, in microseconds. *)
Definition parse_time (s : string) (p : nat) : option (Z * option Z) :=
  let p_end := String.length s in
  let tz := find_tz s p (p_end - p) in
  '(h, m, sec, us, more) ← parse_hms s p tz;
  if negb ((h <? 24) && (m <? 60) && (sec <? 60)) then None
  else if Nat.eqb tz p_end then
    if more : bool then None else Some (hms_us h m sec us, None)
  else if Ascii.eqb (char_at s tz) "Z" then
    if Nat.eqb (S tz) p_end then Some (hms_us h m sec us, Some 0) else None
  else
    '(zh, zm, zs, zus, zmore) ← parse_hms s (S tz) p_end;
    if zmore : bool then None
    else
      let off := hms_us zh zm zs zus in
      let off := if Ascii.eqb (char_at s tz) "-" then - off else off in
      if Z.abs off <? US_DAY then Some (hms_us h m sec us, Some off) else None.

(** [datetime.fromisoformat(s)]; [None] is the [ValueError]. *)
Definition fromisoformat (s : string) : option datetime :=
  if Nat.ltb (String.length s) 7 then None
  else
    sep ← find_separator s;
    day ← parse_date s sep;
    if Nat.ltb (S sep) (String.length s) then
      '(tod, off) ← parse_time s (S sep);
      Some {| dt_us := day * US_DAY + tod; dt_off := off |}
    else Some {| dt_us := day * US_DAY; dt_off := None |}.

(** ** The calendar round trip *)

Section cycles.
Variables a b c d : Z.
Hypotheses (Hb : 0 <= b <= 3) (Hc : 0 <= c <= 24) (Hd : 0 <= d <= 3).
Let y := a * 400 + 1 + b * 100 + c * 4 + d.

Lemma cycles_div : (y - 1) / 4 = 100 * a + 25 * b + c /\ (y - 1) / 100 = 4 * a + b /\ (y - 1) / 400 = a.
Proof using Hb Hc Hd.
  subst y. repeat split; symmetry.
  - apply (Z.div_unique _ _ _ d); lia.
  - apply (Z.div_unique _ _ _ (4 * c + d)); lia.
  - apply (Z.div_unique _ _ _ (100 * b + 4 * c + d)); lia.
Qed.

Lemma cycles_before_year : days_before_year y = a * 146097 + b * 36524 + c * 1461 + d * 365.
Proof using Hb Hc Hd.
  unfold days_before_year. destruct cycles_div as (-> & -> & ->). subst y. lia.
Qed.

Lemma cycles_leap :
  is_leap y = (d =? 3) && (negb (c =? 24) || (b =? 3)).
Proof using Hb Hc Hd.
  unfold is_leap. subst y.
  assert (E4 : (a * 400 + 1 + b * 100 + c * 4 + d) mod 4 = (d + 1) mod 4).
  { replace (a * 400 + 1 + b * 100 + c * 4 + d) with (d + 1 + (100 * a + 25 * b + c) * 4) by lia.
    apply Z.mod_add. lia. }
  assert (E100 : (a * 400 + 1 + b * 100 + c * 4 + d) mod 100 = (c * 4 + d + 1) mod 100).
  { replace (a * 400 + 1 + b * 100 + c * 4 + d) with (c * 4 + d + 1 + (4 * a + b) * 100) by lia.
    apply Z.mod_add. lia. }
  assert (E400 : (a * 400 + 1 + b * 100 + c * 4 + d) mod 400 = (b * 100 + c * 4 + d + 1) mod 400).
  { replace (a * 400 + 1 + b * 100 + c * 4 + d) with (b * 100 + c * 4 + d + 1 + a * 400) by lia.
    apply Z.mod_add. lia. }
  rewrite E4, E100, E400. clear E4 E100 E400.
  destruct (Z.eqb_spec d 3) as [->|Hd3].
  2:{ rewrite (Z.mod_small (d + 1)) by lia. by rewrite (proj2 (Z.eqb_neq _ _)) by lia. }
  destruct (Z.eqb_spec c 24) as [->|Hc24].
  2:{ rewrite (Z.mod_small (c * 4 + 3 + 1)) by lia.
      by rewrite (proj2 (Z.eqb_neq (c * 4 + 3 + 1) 0)) by lia. }
  destruct (Z.eqb_spec b 3) as [->|Hb3]; [done|].
  rewrite (Z.mod_small (b * 100 + 24 * 4 + 3 + 1)) by lia. simpl.
  by rewrite (proj2 (Z.eqb_neq _ 0)) by lia.
Qed.
End cycles.

Lemma month_of_yday_spec y n :
  0 <= n < 365 ->
  let '(m, d) := month_of_yday (leap_day y) n in
  1 <= m <= 12 /\ 1 <= d <= days_in_month y m /\ days_before_month y m + (d - 1) = n.
Proof.
  intros Hn. unfold month_of_yday.
  assert (Hl : forall m, days_before_month (if leap_day y =? 1 then 4 else 1) m = days_before_month y m).
  { intros m. unfold days_before_month, leap_day. destruct (is_leap y); by vm_compute. }
  rewrite !Hl. clear Hl. set (month := (n + 50) / 32).
  assert (Hm : 32 * month <= n + 50 < 32 * month + 32).
  { pose proof (Z.div_mod (n + 50) 32 ltac:(lia)). pose proof (Z.mod_pos_bound (n + 50) 32 ltac:(lia)).
    subst month. lia. }
  clearbody month.
  assert (H : month = 1 \/ month = 2 \/ month = 3 \/ month = 4 \/ month = 5 \/ month = 6 \/ month = 7 \/
          month = 8 \/ month = 9 \/ month = 10 \/ month = 11 \/ month = 12) by lia.
  unfold days_in_month, days_before_month, leap_day.
  destruct (is_leap y), H as [->|[->|[->|[->|[->|[->|[->|[->|[->|[->|[->| ->]]]]]]]]]]]; simpl;
    match goal with |- context [n <? ?k] => destruct (Z.ltb_spec n k) end; simpl; lia.
Qed.

(** 31 December of a leap year. *)
Lemma last_day_spec a b c d n :
  0 <= a <= 24 -> 0 <= b <= 3 -> 0 <= c <= 24 -> d = 3 -> negb (c =? 24) || (b =? 3) = true ->
  n = a * 146097 + b * 36524 + c * 1461 + d * 365 + 365 -> n < MAX_DAYS ->
  let y := a * 400 + 1 + b * 100 + c * 4 + d in
  valid_ymd y 12 31 = true /\ days_of_ymd y 12 31 = n.
Proof.
  intros Ha Hb Hc -> Hl -> Hn y. unfold MAX_DAYS in Hn. unfold valid_ymd, days_of_ymd.
  split; [subst y; unfold days_in_month; simpl; lia|].
  unfold y. rewrite cycles_before_year by lia. unfold days_before_month, leap_day.
  rewrite cycles_leap, Hl by lia. simpl. lia.
Qed.

Lemma ymd_of_days_spec n :
  0 <= n < MAX_DAYS ->
  let '(y, m, d) := ymd_of_days n in valid_ymd y m d = true /\ days_of_ymd y m d = n.
Proof.
  intros Hn. unfold MAX_DAYS in Hn. unfold ymd_of_days.
  pose proof (Z.div_mod n 146097 ltac:(lia)) as D1. pose proof (Z.mod_pos_bound n 146097 ltac:(lia)) as B1.
  set (a := n / 146097) in *. set (r1 := n mod 146097) in *.
  pose proof (Z.div_mod r1 36524 ltac:(lia)) as D2. pose proof (Z.mod_pos_bound r1 36524 ltac:(lia)) as B2.
  set (b := r1 / 36524) in *. set (r2 := r1 mod 36524) in *.
  pose proof (Z.div_mod r2 1461 ltac:(lia)) as D3. pose proof (Z.mod_pos_bound r2 1461 ltac:(lia)) as B3.
  set (c := r2 / 1461) in *. set (r3 := r2 mod 1461) in *.
  pose proof (Z.div_mod r3 365 ltac:(lia)) as D4. pose proof (Z.mod_pos_bound r3 365 ltac:(lia)) as B4.
  set (d := r3 / 365) in *. set (r := r3 mod 365) in *. clearbody a r1 b r2 c r3 d r.
  assert (Ha : 0 <= a <= 24) by lia. assert (Hb : 0 <= b <= 4) by lia.
  assert (Hc : 0 <= c <= 24) by lia. assert (Hd : 0 <= d <= 4) by lia.
  destruct (Z.eqb_spec d 4) as [->|Hd4].
  { assert (b <= 3) by lia. cbn [orb].
    replace (a * 400 + 1 + b * 100 + c * 4 + 4 - 1) with (a * 400 + 1 + b * 100 + c * 4 + 3) by lia.
    apply last_day_spec; unfold MAX_DAYS; lia. }
  destruct (Z.eqb_spec b 4) as [->|Hb4].
  { assert (c = 0) as -> by lia. assert (d = 0) as -> by lia. simpl.
    replace (a * 400 + 1 + 4 * 100 + 0 * 4 + 0 - 1) with (a * 400 + 1 + 3 * 100 + 24 * 4 + 3) by lia.
    apply last_day_spec; unfold MAX_DAYS; lia. }
  simpl. set (y := a * 400 + 1 + b * 100 + c * 4 + d).
  replace (if (d =? 3) && (negb (c =? 24) || (b =? 3)) then 1 else 0) with (leap_day y)
    by (unfold leap_day, y; by rewrite cycles_leap by lia).
  pose proof (month_of_yday_spec y r B4) as Hm. destruct (month_of_yday _ r) as [m e].
  destruct Hm as (Hm1 & Hm2 & Hm3). split; [unfold valid_ymd; lia|].
  unfold days_of_ymd. rewrite <- Z.add_assoc, Hm3. unfold y. rewrite cycles_before_year by lia. lia.
Qed.

(** ** Timestamps the code prints are timestamps it accepts *)

Lemma eqb_digit c x : is_digit c = true -> is_digit x = false -> Ascii.eqb c x = false.
Proof. intros Hc Hx. destruct (Ascii.eqb_spec c x) as [->|]; [congruence|done]. Qed.

Lemma digit_char_spec k :
  0 <= k < 10 -> is_digit (digit_char k) = true /\ char_code (digit_char k) - 48 = k.
Proof.
  intros Hk. assert (H : k = 0 \/ k = 1 \/ k = 2 \/ k = 3 \/ k = 4 \/ k = 5 \/ k = 6 \/ k = 7 \/
    k = 8 \/ k = 9) by lia.
  by destruct H as [->|[->|[->|[->|[->|[->|[->|[->|[->| ->]]]]]]]]].
Qed.

(** [digs s n v]: [s] is [n] digits denoting [v]. *)
Inductive digs : string -> nat -> Z -> Prop :=
  | digs_nil : digs "" 0 0
  | digs_cons c s n v :
      is_digit c = true -> digs s n v ->
      digs (String c s) (S n) ((char_code c - 48) * 10 ^ Z.of_nat n + v).

Lemma dpad_digs w n : digs (dpad w n) w (n mod 10 ^ Z.of_nat w).
Proof.
  induction w as [|w IH]; simpl dpad.
  { rewrite Z.mod_1_r. constructor. }
  destruct (digit_char_spec (n / 10 ^ Z.of_nat w mod 10)) as [Hd Hv].
  { apply Z.mod_pos_bound. lia. }
  assert (Hp : 0 < 10 ^ Z.of_nat w) by (apply Z.pow_pos_nonneg; lia).
  assert (E : n mod 10 ^ Z.of_nat (S w) =
              (char_code (digit_char (n / 10 ^ Z.of_nat w mod 10)) - 48) * 10 ^ Z.of_nat w +
              n mod 10 ^ Z.of_nat w).
  { rewrite Hv, Nat2Z.inj_succ, Z.pow_succ_r, (Z.mul_comm 10) by lia.
    rewrite (Z.rem_mul_r n (10 ^ Z.of_nat w) 10) by lia. lia. }
  rewrite E. by constructor.
Qed.

Definition dv (c : ascii) : Z := char_code c - 48.

Lemma digs_2 s v : digs s 2 v -> exists a b, s = String a (String b "") /\
  is_digit a = true /\ is_digit b = true /\ v = dv a * 10 + dv b.
Proof.
  intros H. inversion H as [|a ? ? ? Ha H1]; subst. inversion H1 as [|b ? ? ? Hb H2]; subst.
  inversion H2; subst. exists a, b. unfold dv. repeat split; [done..|lia].
Qed.

Lemma digs_split s n m v : digs s (n + m) v -> exists s1 s2 v1 v2,
  s = s1 +:+ s2 /\ digs s1 n v1 /\ digs s2 m v2 /\ v = v1 * 10 ^ Z.of_nat m + v2.
Proof.
  revert s v. induction n as [|n IH]; intros s v H.
  { exists ""%string, s, 0, v. repeat split; [constructor|done]. }
  inversion H as [|c t ? w Hc Ht]; subst. destruct (IH _ _ Ht) as (s1 & s2 & v1 & v2 & -> & H1 & H2 & ->).
  exists (String c s1), s2, ((char_code c - 48) * 10 ^ Z.of_nat n + v1), v2.
  repeat split; [by constructor|done|]. rewrite Nat2Z.inj_add, Z.pow_add_r by lia. ring.
Qed.

Lemma digs_4 s v : digs s 4 v -> exists a b c d, s = String a (String b (String c (String d ""))) /\
  (is_digit a = true /\ is_digit b = true /\ is_digit c = true /\ is_digit d = true) /\
  v = ((dv a * 10 + dv b) * 10 + dv c) * 10 + dv d.
Proof.
  intros H. destruct (digs_split s 2 2 v H) as (s1 & s2 & v1 & v2 & -> & H1 & H2 & ->).
  apply digs_2 in H1 as (a & b & -> & ? & ? & ->). apply digs_2 in H2 as (c & d & -> & ? & ? & ->).
  exists a, b, c, d. repeat split; [done..|]. change (10 ^ Z.of_nat 2) with 100. lia.
Qed.

Lemma digs_6 s v : digs s 6 v -> exists a b c d e f,
  s = String a (String b (String c (String d (String e (String f ""))))) /\
  (is_digit a = true /\ is_digit b = true /\ is_digit c = true /\ is_digit d = true /\
   is_digit e = true /\ is_digit f = true) /\
  v = ((((dv a * 10 + dv b) * 10 + dv c) * 10 + dv d) * 10 + dv e) * 10 + dv f.
Proof.
  intros H. destruct (digs_split s 4 2 v H) as (s1 & s2 & v1 & v2 & -> & H1 & H2 & ->).
  apply digs_4 in H1 as (a & b & c & d & -> & (? & ? & ? & ?) & ->).
  apply digs_2 in H2 as (e & f & -> & ? & ? & ->).
  exists a, b, c, d, e, f. split; [done|]. split; [done|]. change (10 ^ Z.of_nat 2) with 100. lia.
Qed.

(** [replace] copies a character that does not start the pattern. *)
Lemma replace_skip x pat rep c s :
  Ascii.eqb x c = false ->
  replace (String x pat) rep (String c s) = String c (replace (String x pat) rep s).
Proof.
  intros H. unfold replace. simpl. destruct (ascii_dec x c) as [->|]; [|done].
  by rewrite Ascii.eqb_refl in H.
Qed.

Lemma eqb_digit_r c x : is_digit c = true -> is_digit x = false -> Ascii.eqb x c = false.
Proof. intros. rewrite Ascii.eqb_sym. by apply eqb_digit. Qed.

Ltac skip_chars :=
  repeat (rewrite replace_skip by (reflexivity || (apply eqb_digit_r; [assumption|reflexivity]))).

(** The text of a timestamp: its digits around fixed punctuation. *)
Definition stamp (y4 m2 d2 h2 i2 s2 frac tail : string) : string :=
  y4 +:+ "-" +:+ m2 +:+ "-" +:+ d2 +:+ "T" +:+ h2 +:+ ":" +:+ i2 +:+ ":" +:+ s2 +:+ frac +:+ tail.

Definition frac_digits (frac : string) (us : Z) : Prop :=
  (frac = ""%string /\ us = 0) \/ exists f, frac = ("." +:+ f) /\ digs f 6 us.

Section stamp.
Variables (y4 m2 d2 h2 i2 s2 frac : string) (y m d h i sec us : Z).
Hypotheses (Hy : digs y4 4 y) (Hm : digs m2 2 m) (Hd : digs d2 2 d) (Hh : digs h2 2 h)
  (Hi : digs i2 2 i) (Hs : digs s2 2 sec) (Hf : frac_digits frac us).

Lemma stamp_z :
  replace "+00:00" "Z" (stamp y4 m2 d2 h2 i2 s2 frac "+00:00") = stamp y4 m2 d2 h2 i2 s2 frac "Z" /\
  replace "Z" "+00:00" (stamp y4 m2 d2 h2 i2 s2 frac "Z") = stamp y4 m2 d2 h2 i2 s2 frac "+00:00".
Proof using All.
  apply digs_4 in Hy as (? & ? & ? & ? & -> & (? & ? & ? & ?) & _).
  apply digs_2 in Hm as (? & ? & -> & ? & ? & _). apply digs_2 in Hd as (? & ? & -> & ? & ? & _).
  apply digs_2 in Hh as (? & ? & -> & ? & ? & _). apply digs_2 in Hi as (? & ? & -> & ? & ? & _).
  apply digs_2 in Hs as (? & ? & -> & ? & ? & _).
  destruct Hf as [[-> _]|(f & -> & Hf')]; [|apply digs_6 in Hf' as
    (? & ? & ? & ? & ? & ? & -> & (? & ? & ? & ? & ? & ?) & _)];
    unfold stamp; cbv [String.append]; (split; skip_chars; reflexivity).
Qed.
End stamp.

Lemma digits_at_2 s p a b :
  char_at s p = a -> char_at s (S p) = b -> is_digit a = true -> is_digit b = true ->
  digits_at s p 2 0 = Some (dv a * 10 + dv b).
Proof. intros Ha Hb Da Db. unfold digits_at. by rewrite Ha, Da, Hb, Db. Qed.

Lemma digits_at_4 s p a b c d :
  char_at s p = a -> char_at s (S p) = b -> char_at s (S (S p)) = c -> char_at s (S (S (S p))) = d ->
  is_digit a = true /\ is_digit b = true /\ is_digit c = true /\ is_digit d = true ->
  digits_at s p 4 0 = Some (((dv a * 10 + dv b) * 10 + dv c) * 10 + dv d).
Proof.
  intros Ha Hb Hc Hd (Da & Db & Dc & Dd). unfold digits_at.
  by rewrite Ha, Da, Hb, Db, Hc, Dc, Hd, Dd.
Qed.

(** A two-digit component followed by a colon, or by the end of its field. *)
Lemma hms_step_colon s p_end i p sep a b :
  char_at s p = a -> char_at s (S p) = b -> is_digit a = true -> is_digit b = true ->
  char_at s (p + 2) = ":"%char -> (if Nat.eqb i 0 then true else sep) = true -> (p + 3 < p_end)%nat ->
  hms_step s p_end i p sep = Some (dv a * 10 + dv b, Next (p + 3) true).
Proof.
  intros Ha Hb Da Db Hc Hsep Hp. unfold hms_step. rewrite (digits_at_2 s p a b) by done.
  simpl. rewrite Hc. rewrite (proj2 (Nat.leb_gt _ _)) by lia.
  change (Ascii.eqb ":" ":") with true. rewrite Hsep. done.
Qed.

Lemma hms_step_stop s p_end i p sep a b c :
  char_at s p = a -> char_at s (S p) = b -> is_digit a = true -> is_digit b = true ->
  char_at s (p + 2) = c -> (p_end <= p + 3)%nat ->
  hms_step s p_end i p sep = Some (dv a * 10 + dv b, Stop (negb (Ascii.eqb c Ascii.zero))).
Proof.
  intros Ha Hb Da Db Hc Hp. unfold hms_step. rewrite (digits_at_2 s p a b) by done.
  simpl. rewrite Hc. by rewrite (proj2 (Nat.leb_le _ _)) by lia.
Qed.

Lemma hms_step_point s p_end p a b :
  char_at s p = a -> char_at s (S p) = b -> is_digit a = true -> is_digit b = true ->
  char_at s (p + 2) = "."%char -> (p + 3 < p_end)%nat ->
  hms_step s p_end 2 p true = Some (dv a * 10 + dv b, Next (p + 3) true).
Proof.
  intros Ha Hb Da Db Hc Hp. unfold hms_step. rewrite (digits_at_2 s p a b) by done.
  simpl. rewrite Hc. by rewrite (proj2 (Nat.leb_gt _ _)) by lia.
Qed.

Definition is_tz (c : ascii) : bool := Ascii.eqb c "+" || Ascii.eqb c "-" || Ascii.eqb c "Z".

Lemma find_tz_skip s p k : is_tz (char_at s p) = false -> find_tz s p (S k) = find_tz s (S p) k.
Proof. intros H. simpl. unfold is_tz in H. by rewrite H. Qed.
Lemma find_tz_found s p k : is_tz (char_at s p) = true -> find_tz s p (S k) = p.
Proof. intros H. simpl. unfold is_tz in H. by rewrite H. Qed.
Lemma digit_not_tz c : is_digit c = true -> is_tz c = false.
Proof. intros H. unfold is_tz. by rewrite !eqb_digit by done. Qed.

#[global] Arguments digits_at : simpl never.
#[global] Arguments char_at : simpl never.
#[global] Arguments find_tz : simpl never.
#[global] Arguments hms_step : simpl never.
#[global] Arguments digit_run_end : simpl never.

Ltac find_tz_run :=
  repeat (rewrite find_tz_skip by (reflexivity || (apply digit_not_tz; assumption)));
  apply find_tz_found; reflexivity.

Section stamp_parse.
Variables (y4 m2 d2 h2 i2 s2 frac : string) (y m d h i sec us : Z).
Hypotheses (Hy : digs y4 4 y) (Hm : digs m2 2 m) (Hd : digs d2 2 d) (Hh : digs h2 2 h)
  (Hi : digs i2 2 i) (Hs : digs s2 2 sec) (Hf : frac_digits frac us).
Let text := stamp y4 m2 d2 h2 i2 s2 frac "+00:00".

(** Name the digits, in the order of the text. *)
#[local] Ltac open_digits :=
  apply digs_4 in Hy as (ya & yb & yc & yd & -> & Dy & ->);
  apply digs_2 in Hm as (ma & mb & -> & ? & ? & ->);
  apply digs_2 in Hd as (da & db & -> & ? & ? & ->);
  apply digs_2 in Hh as (ha & hb & -> & ? & ? & ->);
  apply digs_2 in Hi as (ia & ib & -> & ? & ? & ->);
  apply digs_2 in Hs as (sa & sb & -> & ? & ? & ->);
  destruct Hf as [[-> ->]|(f & -> & Hf')];
  [|apply digs_6 in Hf' as (fa & fb & fc & fd & fe & ff & -> & (? & ? & ? & ? & ? & ?) & ->)];
  unfold stamp in text; cbv [String.append] in text.

Lemma stamp_date : valid_ymd y m d = true ->
  find_separator text = Some 10%nat /\ parse_date text 10 = Some (days_of_ymd y m d).
Proof using All.
  intros Hv. split.
  - open_digits; unfold find_separator, text; simpl String.length;
      change (char_at _ 4) with "-"%char; cbn [Nat.eqb]; change (Ascii.eqb "-" "-") with true;
      cbv iota; rewrite eqb_digit by (assumption || reflexivity); reflexivity.
  - unfold parse_date. open_digits;
      rewrite (digits_at_4 text 0 ya yb yc yd eq_refl eq_refl eq_refl eq_refl) by assumption;
      change (char_at text 4) with "-"%char; change (Ascii.eqb "-" "-") with true; simpl mbind;
      cbv zeta beta iota; rewrite eqb_digit by (assumption || reflexivity); cbv beta iota;
      rewrite (digits_at_2 text 5 ma mb eq_refl eq_refl) by assumption; simpl mbind;
      change (char_at text (5 + 2)) with "-"%char; simpl;
      rewrite (digits_at_2 text 8 da db eq_refl eq_refl) by assumption; simpl mbind;
      rewrite Hv; reflexivity.
Qed.

#[local] Ltac hms_facts := solve [assumption | reflexivity | lia].

Lemma stamp_time : 0 <= h < 24 -> 0 <= i < 60 -> 0 <= sec < 60 ->
  parse_time text 11 = Some (hms_us h i sec us, Some 0).
Proof using All.
  intros Rh Ri Rs.
  assert (Hgoal : forall tz, find_tz text 11 (String.length text - 11) = tz ->
            Nat.eqb tz (String.length text) = false -> char_at text tz = "+"%char ->
            parse_hms text 11 tz = Some (h, i, sec, us, true) ->
            parse_hms text (S tz) (String.length text) = Some (0, 0, 0, 0, false) ->
            parse_time text 11 = Some (hms_us h i sec us, Some 0)).
  { intros tz Htz Hend Hc Hhms Hoff. unfold parse_time. rewrite Htz, Hhms. simpl mbind.
    rewrite !(proj2 (Z.ltb_lt _ _)) by lia. cbn [andb negb]. rewrite Hend, Hc. simpl.
    by rewrite Hoff. }
  open_digits.
  - apply (Hgoal 19%nat); [|reflexivity|reflexivity| |vm_compute; reflexivity];
      change (String.length text - 11)%nat with 14%nat; [find_tz_run|].
    unfold parse_hms.
    rewrite (hms_step_colon text 19 0 11 true ha hb) by hms_facts. simpl mbind. cbv beta iota.
    rewrite (hms_step_colon text 19 1 14 true ia ib) by hms_facts. simpl mbind. cbv beta iota.
    rewrite (hms_step_stop text 19 2 17 true sa sb "+") by hms_facts. reflexivity.
  - apply (Hgoal 26%nat); [|reflexivity|reflexivity| |vm_compute; reflexivity];
      change (String.length text - 11)%nat with 21%nat; [find_tz_run|].
    unfold parse_hms.
    rewrite (hms_step_colon text 26 0 11 true ha hb) by hms_facts. simpl mbind. cbv beta iota.
    rewrite (hms_step_colon text 26 1 14 true ia ib) by hms_facts. simpl mbind. cbv beta iota.
    rewrite (hms_step_point text 26 17 sa sb) by hms_facts. simpl mbind. cbv beta iota.
    assert (Hfr : parse_fraction text 20 26 =
              Some (((((dv fa * 10 + dv fb) * 10 + dv fc) * 10 + dv fd) * 10 + dv fe) * 10 + dv ff, true));
      [|by rewrite Hfr].
    unfold parse_fraction, digits_at. change (Nat.min 6 (26 - 20)) with 6%nat. cbn [Nat.add].
    change (char_at text 20) with fa. change (char_at text 21) with fb.
    change (char_at text 22) with fc. change (char_at text 23) with fd.
    change (char_at text 24) with fe. change (char_at text 25) with ff.
    repeat match goal with Hd : is_digit ?c = true |- context [is_digit ?c] => rewrite Hd end.
    simpl mbind. change (digit_run_end text 26 _) with 26%nat.
    change (char_at text 26) with "+"%char. change (10 ^ (6 - Z.of_nat 6)) with 1.
    change (Ascii.eqb "+" Ascii.zero) with false. unfold dv. rewrite Z.mul_1_r. reflexivity.
Qed.

Lemma stamp_fromisoformat :
  valid_ymd y m d = true -> 0 <= h < 24 -> 0 <= i < 60 -> 0 <= sec < 60 ->
  fromisoformat text = Some (utc (days_of_ymd y m d * US_DAY + hms_us h i sec us)).
Proof using All.
  intros Hv Rh Ri Rs. destruct (stamp_date Hv) as [Hsep Hdate].
  pose proof (stamp_time Rh Ri Rs) as Htime.
  assert (Hlen : (11 < String.length text)%nat).
  { clear -Hy Hm Hd Hh Hi Hs Hf. open_digits; simpl; lia. }
  unfold fromisoformat. rewrite (proj2 (Nat.ltb_ge _ _)) by lia. rewrite Hsep. simpl mbind.
  rewrite Hdate. simpl mbind. rewrite (proj2 (Nat.ltb_lt _ _)) by lia. by rewrite Htime.
Qed.
End stamp_parse.

Lemma dpad_digs_small w n : 0 <= n < 10 ^ Z.of_nat w -> digs (dpad w n) w n.
Proof. intros H. rewrite <- (Z.mod_small n (10 ^ Z.of_nat w)) at 2 by done. apply dpad_digs. Qed.

Lemma valid_ymd_bounds y m d :
  valid_ymd y m d = true -> 1 <= y <= 9999 /\ 1 <= m <= 12 /\ 1 <= d <= 31.
Proof.
  unfold valid_ymd. intros H. bool_hyps.
  assert (days_in_month y m <= 31).
  { unfold days_in_month, leap_day. split_ifs; lia. }
  lia.
Qed.

Lemma hms_split s :
  0 <= s < 86400 ->
  0 <= s / 3600 < 24 /\ 0 <= s / 60 mod 60 < 60 /\ 0 <= s mod 60 < 60 /\
  s = (s / 3600 * 60 + s / 60 mod 60) * 60 + s mod 60.
Proof.
  intros H. change 3600 with (60 * 60). rewrite <- (Z.div_div s 60 60) by lia.
  pose proof (Z.div_mod s 60 ltac:(lia)). pose proof (Z.mod_pos_bound s 60 ltac:(lia)).
  pose proof (Z.div_mod (s / 60) 60 ltac:(lia)). pose proof (Z.mod_pos_bound (s / 60) 60 ltac:(lia)).
  lia.
Qed.

(** A UTC timestamp printed with [Z] for the offset reads back as itself, once
    [Z] is put back to [+00:00]. *)
Lemma iso_z_roundtrip us :
  in_range us = true -> fromisoformat (replace "Z" "+00:00" (iso_z us)) = Some (utc us).
Proof.
  intros Hr. unfold in_range in Hr. apply andb_true_iff in Hr as [Hlo Hhi].
  apply Z.leb_le in Hlo. apply Z.ltb_lt in Hhi.
  assert (HD : US_DAY = 86400000000) by done. assert (HS : US_SECOND = 1000000) by done.
  pose proof (Z.div_mod us US_DAY ltac:(lia)) as Ediv.
  pose proof (Z.mod_pos_bound us US_DAY ltac:(lia)) as Bmod.
  assert (Bday : 0 <= us / US_DAY < MAX_DAYS).
  { split; [apply Z.div_pos; lia|apply Z.div_lt_upper_bound; lia]. }
  pose proof (ymd_of_days_spec _ Bday) as Hymd. unfold iso_z, isoformat, utc.
  cbn [dt_us dt_off]. destruct (ymd_of_days (us / US_DAY)) as [[y m] d]. destruct Hymd as [Hv Hdays].
  set (r := us mod US_DAY) in *. change (iso_offset 0) with "+00:00"%string.
  pose proof (Z.div_mod r US_SECOND ltac:(lia)) as Er.
  pose proof (Z.mod_pos_bound r US_SECOND ltac:(lia)) as Bu.
  set (s := r / US_SECOND) in *. set (u := r mod US_SECOND) in *.
  assert (Bs : 0 <= s < 86400) by (subst s; split; [apply Z.div_pos; lia|apply Z.div_lt_upper_bound; lia]).
  set (frac := if u =? 0 then ""%string else ("." +:+ dpad 6 u)).
  assert (Hf : frac_digits frac u).
  { unfold frac, frac_digits. destruct (Z.eqb_spec u 0) as [->|]; [by left|right].
    exists (dpad 6 u). split; [done|]. apply dpad_digs_small. change (10 ^ Z.of_nat 6) with 1000000. lia. }
  pose proof (hms_split s Bs) as Bhms.
  pose proof (valid_ymd_bounds y m d Hv) as (By & Bm & Bd).
  assert (H2 : forall n, 0 <= n < 100 -> digs (dpad 2 n) 2 n) by (intros; by apply dpad_digs_small).
  assert (Dy : digs (dpad 4 y) 4 y).
  { apply dpad_digs_small. change (10 ^ Z.of_nat 4) with 10000. lia. }
  assert (Dm : digs (dpad 2 m) 2 m) by (apply H2; lia).
  assert (Dd : digs (dpad 2 d) 2 d) by (apply H2; lia).
  destruct Bhms as (Bh & Bi & Bsec & Es).
  change (fromisoformat (replace "Z" "+00:00" (replace "+00:00" "Z"
    (stamp (dpad 4 y) (dpad 2 m) (dpad 2 d) (dpad 2 (s / 3600)) (dpad 2 (s / 60 mod 60))
       (dpad 2 (s mod 60)) frac "+00:00"))) = Some (utc us)).
  destruct (stamp_z (dpad 4 y) (dpad 2 m) (dpad 2 d) (dpad 2 (s / 3600)) (dpad 2 (s / 60 mod 60))
       (dpad 2 (s mod 60)) frac y m d (s / 3600) (s / 60 mod 60) (s mod 60) u) as [-> ->];
    try done; [apply H2; lia..|].
  rewrite (stamp_fromisoformat _ _ _ _ _ _ _ y m d (s / 3600) (s / 60 mod 60) (s mod 60) u);
    try done; [|apply H2; lia..].
  do 2 f_equal. rewrite Hdays. unfold hms_us. rewrite <- Es. lia.
Qed.
