(* ===== verification/PyUuid.v ===== *)
(** * UUIDs

    [uuid.UUID(text)] as a check, [str(uuid)], and [uuid.uuid5] with its SHA-1
    digest. [uuid.uuid4()] is random: where the code calls it, its result is an
    argument of the model. *)

From S2P Require Import Prelude PyStr.
From stdpp Require Import options.
From Stdlib Require Import Ascii String.

#[local] Open Scope Z_scope.

(** [uuid.UUID(s)] succeeds. *)
Definition uuid_hex (s : string) : string :=
  replace "-" "" (strip_with (fun c => Ascii.eqb c "{" || Ascii.eqb c "}")
    (replace "uuid:" "" (replace "urn:" "" s))).
Definition uuid_valid (s : string) : bool :=
  let h := uuid_hex s in
  Nat.eqb (String.length h) 32 &&
  match int_of_hex_string h with Some n => (0 <=? n) && (n <? 2 ^ 128) | None => false end.

(** [str(UUID(int=n))] *)
Definition hex_char (k : Z) : ascii :=
  ascii_of_N (Z.to_N (if k <? 10 then 48 + k else 87 + k)).
Fixpoint hexpad (w : nat) (n : Z) : string :=
  match w with
  | O => ""
  | S k => String (hex_char (n / 16 ^ Z.of_nat k mod 16)) (hexpad k n)
  end.
Definition uuid_str (n : Z) : string :=
  hexpad 8 (n / 2 ^ 96) +:+ "-" +:+ hexpad 4 (n / 2 ^ 80) +:+ "-" +:+ hexpad 4 (n / 2 ^ 64) +:+
  "-" +:+ hexpad 4 (n / 2 ^ 48) +:+ "-" +:+ hexpad 12 n.

(** ** SHA-1 (FIPS 180-4) on bytes given as numbers *)

Definition w32 (x : Z) : Z := x mod 2 ^ 32.
Definition rotl (k x : Z) : Z := Z.lor (w32 (Z.shiftl x k)) (Z.shiftr x (32 - k)).

Definition sha1_pad (bytes : list Z) : list Z :=
  let len := Z.of_nat (List.length bytes) in
  let zeros := Z.to_nat ((55 - len) mod 64) in
  bytes ++ [128] ++ replicate zeros 0 ++
  ((fun k => Z.land (Z.shiftr (8 * len) (8 * Z.of_nat k)) 255) <$> [7; 6; 5; 4; 3; 2; 1; 0]%nat).

Fixpoint be_words (fuel : nat) (bytes : list Z) : list Z :=
  match fuel, bytes with
  | S f, a :: b :: c :: d :: rest => (((a * 256 + b) * 256 + c) * 256 + d) :: be_words f rest
  | _, _ => []
  end.

(** The message schedule, most recent word first. *)
Fixpoint schedule (n : nat) (acc : list Z) : list Z :=
  match n with
  | O => acc
  | S k =>
      let w i := nth i acc 0 in
      schedule k (rotl 1 (Z.lxor (Z.lxor (w 2%nat) (w 7%nat)) (Z.lxor (w 13%nat) (w 15%nat))) :: acc)
  end.

Definition sha1_f (t : nat) (b c d : Z) : Z * Z :=
  if Nat.ltb t 20 then (Z.lor (Z.land b c) (Z.land (Z.lxor b 4294967295) d), 1518500249)
  else if Nat.ltb t 40 then (Z.lxor (Z.lxor b c) d, 1859775393)
  else if Nat.ltb t 60 then (Z.lor (Z.lor (Z.land b c) (Z.land b d)) (Z.land c d), 2400959708)
  else (Z.lxor (Z.lxor b c) d, 3395469782).

Fixpoint sha1_rounds (t : nat) (ws : list Z) (s : Z * Z * Z * Z * Z) : Z * Z * Z * Z * Z :=
  match ws with
  | [] => s
  | w :: ws' =>
      let '(a, b, c, d, e) := s in
      let '(f, k) := sha1_f t b c d in
      sha1_rounds (S t) ws' (w32 (rotl 5 a + f + e + k + w), a, rotl 30 b, c, d)
  end.

Definition sha1_block (h : Z * Z * Z * Z * Z) (block : list Z) : Z * Z * Z * Z * Z :=
  let '(h0, h1, h2, h3, h4) := h in
  let '(a, b, c, d, e) := sha1_rounds 0 (reverse (schedule 64 (reverse block))) h in
  (w32 (h0 + a), w32 (h1 + b), w32 (h2 + c), w32 (h3 + d), w32 (h4 + e)).

Fixpoint sha1_blocks (fuel : nat) (h : Z * Z * Z * Z * Z) (ws : list Z) : Z * Z * Z * Z * Z :=
  match fuel, ws with
  | _, [] | O, _ => h
  | S f, _ => sha1_blocks f (sha1_block h (take 16 ws)) (drop 16 ws)
  end.

(** The digest's first 128 bits, which are all [uuid5] keeps. *)
Definition sha1_128 (bytes : list Z) : Z :=
  let ws := be_words (List.length (sha1_pad bytes)) (sha1_pad bytes) in
  let '(h0, h1, h2, h3, _) :=
    sha1_blocks (List.length ws) (1732584193, 4023233417, 2562383102, 271733878, 3285377520) ws in
  ((h0 * 2 ^ 32 + h1) * 2 ^ 32 + h2) * 2 ^ 32 + h3.

Definition NAMESPACE_URL : list Z :=
  [107; 167; 184; 17; 157; 173; 17; 209; 128; 180; 0; 192; 79; 212; 48; 200].

Definition bytes_of (s : string) : list Z := char_code <$> String.list_ascii_of_string s.

(** [uuid.uuid5(NAMESPACE_URL, name)]: the variant and version bits replace
    six bits of the digest. *)
Definition uuid5_url (name : string) : Z :=
  let n := sha1_128 (NAMESPACE_URL ++ bytes_of name) in
  let n := Z.lor (Z.land n (2 ^ 128 - 1 - 3 * 2 ^ 62)) (2 ^ 63) in
  Z.lor (Z.land n (2 ^ 128 - 1 - 15 * 2 ^ 76)) (5 * 2 ^ 76).

(** ** A printed UUID is a valid one *)

Definition is_hex (c : ascii) : bool :=
  match digit_val c with Some d => d <? 16 | None => false end.
Definition is_hex_or_dash (c : ascii) : bool := is_hex c || Ascii.eqb c "-".

Lemma hex_char_spec k : 0 <= k < 16 -> digit_val (hex_char k) = Some k.
Proof.
  intros Hk. assert (H : k = 0 \/ k = 1 \/ k = 2 \/ k = 3 \/ k = 4 \/ k = 5 \/ k = 6 \/ k = 7 \/
    k = 8 \/ k = 9 \/ k = 10 \/ k = 11 \/ k = 12 \/ k = 13 \/ k = 14 \/ k = 15) by lia.
  by destruct H as [->|[->|[->|[->|[->|[->|[->|[->|[->|[->|[->|[->|[->|[->|[->| ->]]]]]]]]]]]]]]].
Qed.

Lemma hexpad_hex w n : str_forallb is_hex (hexpad w n) = true.
Proof.
  induction w as [|w IH]; [done|]. simpl. rewrite IH, andb_true_r. unfold is_hex.
  pose proof (Z.mod_pos_bound (n / 16 ^ Z.of_nat w) 16 ltac:(lia)) as B.
  rewrite hex_char_spec by done. apply Z.ltb_lt. lia.
Qed.

Lemma hexpad_length w n : String.length (hexpad w n) = w.
Proof. induction w; simpl; congruence. Qed.

Lemma str_forallb_app p s t : str_forallb p (s +:+ t) = str_forallb p s && str_forallb p t.
Proof.
  induction s as [|c s IH]; [done|]. change (String c s +:+ t) with (String c (s +:+ t)).
  simpl. by rewrite IH, andb_assoc.
Qed.

Lemma str_forallb_impl (p q : ascii -> bool) s :
  (forall c, p c = true -> q c = true) -> str_forallb p s = true -> str_forallb q s = true.
Proof.
  intros H. induction s as [|c s IH]; [done|]. simpl. rewrite !andb_true_iff. naive_solver.
Qed.

(** Characters absent from the string are neither replaced nor stripped. *)
Lemma replace_absent x pat rep s :
  str_forallb (fun c => negb (Ascii.eqb x c)) s = true -> replace (String x pat) rep s = s.
Proof.
  unfold replace. induction s as [|c s IH]; [done|]. simpl. rewrite andb_true_iff, negb_true_iff.
  intros [Hc Hs]. destruct (ascii_dec x c) as [->|]; [by rewrite Ascii.eqb_refl in Hc|].
  by rewrite (IH Hs).
Qed.

Lemma strip_with_absent p s :
  str_forallb (fun c => negb (p c)) s = true -> strip_with p s = s.
Proof.
  intros H. unfold strip_with.
  assert (Hl : lstrip_with p s = s).
  { destruct s as [|c s]; [done|]. simpl in *. apply andb_true_iff in H as [H _].
    apply negb_true_iff in H. by rewrite H. }
  rewrite Hl. clear Hl. induction s as [|c s IH]; [done|].
  simpl in *. apply andb_true_iff in H as [Hc Hs]. apply negb_true_iff in Hc. rewrite (IH Hs).
  destruct s; [by rewrite Hc|done].
Qed.

Fixpoint drop_char (x : ascii) (s : string) : string :=
  match s with
  | EmptyString => EmptyString
  | String c s' => if Ascii.eqb x c then drop_char x s' else String c (drop_char x s')
  end.

Lemma replace_drop x s : replace (String x "") "" s = drop_char x s.
Proof.
  unfold replace. induction s as [|c s IH]; [done|]. simpl.
  destruct (ascii_dec x c) as [->|Hne].
  - rewrite Ascii.eqb_refl. simpl. by destruct s.
  - destruct (Ascii.eqb_spec x c); [done|]. by rewrite IH.
Qed.

Lemma drop_char_app x s t : drop_char x (s +:+ t) = drop_char x s +:+ drop_char x t.
Proof.
  induction s as [|c s IH]; [done|]. change (String c s +:+ t) with (String c (s +:+ t)).
  simpl. by destruct (Ascii.eqb x c); rewrite IH.
Qed.

Lemma drop_char_absent x s :
  str_forallb (fun c => negb (Ascii.eqb x c)) s = true -> drop_char x s = s.
Proof.
  induction s as [|c s IH]; [done|]. simpl. rewrite andb_true_iff, negb_true_iff.
  intros [Hc Hs]. by rewrite Hc, IH.
Qed.

Lemma hex_not c x : is_hex x = false -> is_hex c = true -> negb (Ascii.eqb x c) = true.
Proof.
  intros Hx Hc. rewrite negb_true_iff. destruct (Ascii.eqb_spec x c) as [->|]; [congruence|done].
Qed.

Lemma digit_val_nonneg c d : digit_val c = Some d -> 0 <= d.
Proof. destruct c as [[] [] [] [] [] [] [] []]; vm_compute; intros [= <-]; discriminate. Qed.

(** Reading hex digits: defined, and below [16^length]. *)
Lemma int_digits_hex s acc :
  str_forallb is_hex s = true -> 0 <= acc -> (s <> ""%string) ->
  exists n, int_digits 16 acc false s = Some n /\
    0 <= n < (acc + 1) * 16 ^ Z.of_nat (String.length s).
Proof.
  intros Hs Hacc Hne. assert (Hgen : forall b, (s = ""%string -> b = true) ->
    exists n, int_digits 16 acc b s = Some n /\ 0 <= n < (acc + 1) * 16 ^ Z.of_nat (String.length s));
    [|by apply Hgen].
  clear Hne. revert acc Hacc. induction s as [|c s IH]; intros acc Hacc b Hb; simpl in *.
  { rewrite Hb by done. exists acc. split; [done|]. change (16 ^ Z.of_nat 0) with 1. lia. }
  apply andb_true_iff in Hs as [Hc Hs]. unfold is_hex in Hc.
  assert (Hu : Ascii.eqb c "_" = false).
  { destruct (Ascii.eqb_spec c "_") as [->|]; [by vm_compute in Hc|done]. }
  rewrite Hu. destruct (digit_val c) as [d|] eqn:Ed; [|done]. rewrite Hc. apply Z.ltb_lt in Hc.
  assert (Hd : 0 <= d) by (by apply digit_val_nonneg in Ed).
  destruct (IH Hs (acc * 16 + d) ltac:(lia) true ltac:(done)) as (n & Hn & Bn).
  exists n. split; [done|].
  assert (E : Z.of_nat (S (String.length s)) = Z.succ (Z.of_nat (String.length s))) by lia.
  rewrite E, Z.pow_succ_r by lia.
  pose proof (Z.pow_pos_nonneg 16 (Z.of_nat (String.length s)) ltac:(lia) ltac:(lia)). nia.
Qed.

Definition hex_text (n : Z) : string :=
  hexpad 8 (n / 2 ^ 96) +:+ hexpad 4 (n / 2 ^ 80) +:+ hexpad 4 (n / 2 ^ 64) +:+
  hexpad 4 (n / 2 ^ 48) +:+ hexpad 12 n.

Lemma uuid_hex_str n : uuid_hex (uuid_str n) = hex_text n.
Proof.
  assert (Hd : str_forallb is_hex_or_dash (uuid_str n) = true).
  { unfold uuid_str. rewrite !str_forallb_app.
    assert (Hp : forall w m, str_forallb is_hex_or_dash (hexpad w m) = true).
    { intros. eapply str_forallb_impl; [|apply hexpad_hex]. intros c H. unfold is_hex_or_dash. by rewrite H. }
    by rewrite !Hp. }
  assert (Hn : forall x, is_hex_or_dash x = false ->
            str_forallb (fun c => negb (Ascii.eqb x c)) (uuid_str n) = true).
  { intros x Hx. eapply str_forallb_impl; [|exact Hd]. intros c Hc. rewrite negb_true_iff.
    destruct (Ascii.eqb_spec x c) as [->|]; [congruence|done]. }
  unfold uuid_hex. rewrite (replace_absent "u" "rn:"), (replace_absent "u" "uid:") by (by apply Hn).
  rewrite strip_with_absent.
  2:{ eapply str_forallb_impl; [|exact Hd]. intros c Hc. rewrite negb_true_iff, orb_false_iff.
      split; destruct (Ascii.eqb_spec c "{"), (Ascii.eqb_spec c "}"); subst; done. }
  rewrite replace_drop. unfold uuid_str. rewrite !drop_char_app.
  assert (Hk : forall w m, drop_char "-" (hexpad w m) = hexpad w m).
  { intros. apply drop_char_absent. eapply str_forallb_impl; [|apply hexpad_hex].
    intros c. by apply hex_not. }
  by rewrite !Hk.
Qed.

(** [uuid.UUID(str(u))] accepts every UUID. *)
Lemma uuid_str_valid n : uuid_valid (uuid_str n) = true.
Proof.
  unfold uuid_valid. rewrite uuid_hex_str.
  assert (Hh : str_forallb is_hex (hex_text n) = true).
  { unfold hex_text. by rewrite !str_forallb_app, !hexpad_hex. }
  assert (Hl : String.length (hex_text n) = 32%nat).
  { unfold hex_text. by rewrite !append_length, !hexpad_length. }
  rewrite Hl. simpl. unfold int_of_hex_string.
  assert (Hs : strip (hex_text n) = hex_text n).
  { apply strip_with_absent. eapply str_forallb_impl; [|exact Hh].
    intros c. destruct c as [[] [] [] [] [] [] [] []]; by vm_compute. }
  rewrite Hs.
  destruct (hex_text n) as [|a [|b t]] eqn:E; [done|done|].
  simpl in Hh. apply andb_true_iff in Hh as [Ha Hh]. pose proof Hh as Hbt.
  apply andb_true_iff in Hh as [Hb Ht].
  destruct (int_digits_hex (String a (String b t)) 0) as (m & Hm & Bm); [|done|done|].
  { simpl. by rewrite Ha, Hb, Ht. }
  assert (Hx : Ascii.eqb b "x" || Ascii.eqb b "X" = false).
  { destruct b as [[] [] [] [] [] [] [] []]; by vm_compute in Hb |- *. }
  assert (Bm' : 0 <= m < 2 ^ 128).
  { rewrite Hl in Bm. by change ((0 + 1) * 16 ^ Z.of_nat 32) with (2 ^ 128) in Bm. }
  assert (Hfin : (0 <=? m) && (m <? 2 ^ 128) = true) by lia.
  clear Hs Hl E Bm Bm' Hb Hbt Ht.
  destruct a as [[] [] [] [] [] [] [] []]; try (vm_compute in Ha; discriminate Ha); cbv beta iota zeta;
    rewrite ?Hx; cbv beta iota; rewrite Hm; exact Hfin.
Qed.
