(* ===== verification/PyHash.v ===== *)
(** * Digests and encodings

    [hashlib.sha256(text.encode("utf-8")).hexdigest()] (FIPS 180-4), for the
    message and content identifiers derived from digests; HMAC-SHA256, base64
    and percent encoding, for signed requests. *)

From S2P Require Import Prelude PyStr PyUuid.
From stdpp Require Import options.
From Stdlib Require Import Ascii String.

#[local] Open Scope Z_scope.

Definition rotr (k x : Z) : Z := Z.lor (Z.shiftr x k) (w32 (Z.shiftl x (32 - k))).
Definition xor3 (a b c : Z) : Z := Z.lxor a (Z.lxor b c).

Definition sha256_K : list Z :=
  [1116352408; 1899447441; 3049323471; 3921009573; 961987163; 1508970993; 2453635748; 2870763221;
   3624381080; 310598401; 607225278; 1426881987; 1925078388; 2162078206; 2614888103; 3248222580;
   3835390401; 4022224774; 264347078; 604807628; 770255983; 1249150122; 1555081692; 1996064986;
   2554220882; 2821834349; 2952996808; 3210313671; 3336571891; 3584528711; 113926993; 338241895;
   666307205; 773529912; 1294757372; 1396182291; 1695183700; 1986661051; 2177026350; 2456956037;
   2730485921; 2820302411; 3259730800; 3345764771; 3516065817; 3600352804; 4094571909; 275423344;
   430227734; 506948616; 659060556; 883997877; 958139571; 1322822218; 1537002063; 1747873779;
   1955562222; 2024104815; 2227730452; 2361852424; 2428436474; 2756734187; 3204031479; 3329325298].

(** The message schedule, most recent word first. *)
Fixpoint schedule256 (n : nat) (acc : list Z) : list Z :=
  match n with
  | O => acc
  | S k =>
      let w i := nth i acc 0 in
      let s0 := xor3 (rotr 7 (w 14%nat)) (rotr 18 (w 14%nat)) (Z.shiftr (w 14%nat) 3) in
      let s1 := xor3 (rotr 17 (w 1%nat)) (rotr 19 (w 1%nat)) (Z.shiftr (w 1%nat) 10) in
      schedule256 k (w32 (w 15%nat + s0 + w 6%nat + s1) :: acc)
  end.

Record sha_state := Sha { sa : Z; sb : Z; sc : Z; sd : Z; se : Z; sf : Z; sg : Z; sh : Z }.

Fixpoint rounds256 (ks ws : list Z) (s : sha_state) : sha_state :=
  match ks, ws with
  | k :: ks', w :: ws' =>
      let S1 := xor3 (rotr 6 (se s)) (rotr 11 (se s)) (rotr 25 (se s)) in
      let ch := Z.lxor (Z.land (se s) (sf s)) (Z.land (2 ^ 32 - 1 - se s) (sg s)) in
      let t1 := sh s + S1 + ch + k + w in
      let S0 := xor3 (rotr 2 (sa s)) (rotr 13 (sa s)) (rotr 22 (sa s)) in
      let maj := xor3 (Z.land (sa s) (sb s)) (Z.land (sa s) (sc s)) (Z.land (sb s) (sc s)) in
      rounds256 ks' ws'
        (Sha (w32 (t1 + S0 + maj)) (sa s) (sb s) (sc s) (w32 (sd s + t1)) (se s) (sf s) (sg s))
  | _, _ => s
  end.

Definition add_state (x y : sha_state) : sha_state :=
  Sha (w32 (sa x + sa y)) (w32 (sb x + sb y)) (w32 (sc x + sc y)) (w32 (sd x + sd y))
      (w32 (se x + se y)) (w32 (sf x + sf y)) (w32 (sg x + sg y)) (w32 (sh x + sh y)).

Fixpoint blocks256 (fuel : nat) (h : sha_state) (ws : list Z) : sha_state :=
  match fuel, ws with
  | S f, _ :: _ =>
      blocks256 f
        (add_state h (rounds256 sha256_K (reverse (schedule256 48 (reverse (take 16 ws)))) h))
        (drop 16 ws)
  | _, _ => h
  end.

Definition sha256_init : sha_state :=
  Sha 1779033703 3144134277 1013904242 2773480762 1359893119 2600822924 528734635 1541459225.

(** SHA-1 and SHA-256 pad messages in the same way. *)
Definition sha256_words (bytes : list Z) : list Z :=
  let padded := sha1_pad bytes in
  let ws := be_words (List.length padded) padded in
  let h := blocks256 (List.length ws) sha256_init ws in
  [sa h; sb h; sc h; sd h; se h; sf h; sg h; sh h].

Definition words_hex (ws : list Z) : string := foldr (fun w s => hexpad 8 w +:+ s) ""%string ws.

Definition sha256_hex (s : string) : string := words_hex (sha256_words (bytes_of s)).

(** ** HMAC and base64 *)

Definition word_bytes (w : Z) : list Z :=
  [w / 16777216 mod 256; w / 65536 mod 256; w / 256 mod 256; w mod 256].
Definition words_bytes (ws : list Z) : list Z := ws ≫= word_bytes.

(** The key fills a block of 64 bytes; a longer key is hashed first. *)
Definition hmac_sha256 (key msg : list Z) : list Z :=
  let k := if (64 <? List.length key)%nat then words_bytes (sha256_words key) else key in
  let block := k ++ replicate (64 - List.length k) 0 in
  let pad x := Z.lxor x <$> block in
  sha256_words (pad 92 ++ words_bytes (sha256_words (pad 54 ++ msg))).

Definition base64_char (k : Z) : ascii :=
  ascii_of_N (Z.to_N (if k <? 26 then 65 + k else if k <? 52 then 71 + k else if k <? 62 then k - 4
                      else if k =? 62 then 43 else 47)).

Fixpoint base64 (bytes : list Z) : string :=
  match bytes with
  | [] => ""
  | [a] => String (base64_char (a / 4)) (String (base64_char (a mod 4 * 16)) "==")
  | [a; b] =>
      String (base64_char (a / 4)) (String (base64_char (a mod 4 * 16 + b / 16))
        (String (base64_char (b mod 16 * 4)) "="))
  | a :: b :: c :: rest =>
      String (base64_char (a / 4)) (String (base64_char (a mod 4 * 16 + b / 16))
        (String (base64_char (b mod 16 * 4 + c / 64)) (String (base64_char (c mod 64)) (base64 rest))))
  end.

(** ** Percent encoding: [urllib.parse.quote] with [safe=""], and [urlencode] *)

Definition is_unreserved (c : ascii) : bool :=
  let n := char_code c in
  is_digit c || ((65 <=? n) && (n <=? 90)) || ((97 <=? n) && (n <=? 122)) ||
  (n =? 95) || (n =? 46) || (n =? 45) || (n =? 126).

Definition percent (c : ascii) : string := "%" +:+ upper (hexpad 2 (char_code c)).

Fixpoint quote (s : string) : string :=
  match s with
  | EmptyString => ""
  | String c s' => (if is_unreserved c then String c "" else percent c) +:+ quote s'
  end.

Fixpoint quote_plus (s : string) : string :=
  match s with
  | EmptyString => ""
  | String c s' =>
      (if is_unreserved c then String c "" else if Ascii.eqb c " " then "+" else percent c) +:+ quote_plus s'
  end.

Definition urlencode (pairs : list (string * string)) : string :=
  join "&" ((fun kv => quote_plus kv.1 +:+ "=" +:+ quote_plus kv.2) <$> pairs).

#[global] Arguments sha256_hex : simpl never.

(** The test vectors of the standard. *)
Example sha256_abc :
  sha256_hex "abc" = "ba7816bf8f01cfea414140de5dae2223b00361a396177a9cb410ff61f20015ad"%string.
Proof. vm_compute. reflexivity. Qed.

Example sha256_two_blocks :
  sha256_hex "abcdbcdecdefdefgefghfghighijhijkijkljklmklmnlmnomnopnopq" =
  "248d6a61d20638b8e5c026930c3e6039a33ce45964ff2167f6ecedd419db06c1"%string.
Proof. vm_compute. reflexivity. Qed.

(** Test case 2 of RFC 4231. *)
Example hmac_jefe :
  words_hex (hmac_sha256 (bytes_of "Jefe") (bytes_of "what do ya want for nothing?")) =
  "5bdcc146bf60754e6a042426089575c75a003f089d2739839dec58b964ec3843"%string.
Proof. vm_compute. reflexivity. Qed.

Example base64_ex :
  base64 (bytes_of "light work.") = "bGlnaHQgd29yay4="%string /\ base64 (bytes_of "Man") = "TWFu"%string /\
  base64 (bytes_of "a/?>~") = "YS8/Pn4="%string.
Proof. by vm_compute. Qed.

Example urlencode_ex : urlencode [("a b"%string, "1/2"%string); ("c"%string, "x~"%string)] = "a+b=1%2F2&c=x~"%string.
Proof. by vm_compute. Qed.
