(* ===== verification/PyVal.v ===== *)
(** * Dynamic Python values

    JSON-shaped values with run-time classes, as messages and market payloads
    carry them. A dict keeps insertion order and has string keys. *)

From S2P Require Import Prelude PyStr PyFloat PyDecimal.
From stdpp Require Import options.
From Stdlib Require Import Ascii String SpecFloat.

#[local] Open Scope Z_scope.

Inductive val :=
  | VNone
  | VBool (b : bool)
  | VInt (n : Z)
  | VFloat (x : f64)
  | VDec (d : dec)
  | VStr (s : string)
  | VList (l : list val)
  | VDict (d : list (string * val)).

Definition dict := list (string * val).

(** [d.get(k)] and [d[k]]. *)
Fixpoint dict_get (k : string) (d : dict) : option val :=
  match d with
  | [] => None
  | (k', v) :: d' => if String.eqb k k' then Some v else dict_get k d'
  end.
Definition dict_index (k : string) (d : dict) : result val :=
  match dict_get k d with Some v => Ok v | None => raise KeyError k end.

(** [d.get(k)], which is [None] when the key is missing. *)
Definition dget (k : string) (d : dict) : val := default VNone (dict_get k d).
(** [d.get(k, default)] *)
Definition dget_or (k : string) (dflt : val) (d : dict) : val := default dflt (dict_get k d).

Definition has_key (k : string) (d : dict) : bool :=
  match dict_get k d with Some _ => true | None => false end.

(** [d[k] = v]: a key keeps its place, a new key goes last. *)
Fixpoint dict_set (k : string) (v : val) (d : dict) : dict :=
  match d with
  | [] => [(k, v)]
  | (k', v') :: d' => if String.eqb k k' then (k', v) :: d' else (k', v') :: dict_set k v d'
  end.

(** [isinstance(v, str)] and the like. *)
Definition is_str (v : val) : bool := match v with VStr _ => true | _ => false end.
Definition is_dict (v : val) : bool := match v with VDict _ => true | _ => false end.
Definition is_list (v : val) : bool := match v with VList _ => true | _ => false end.
Definition is_none (v : val) : bool := match v with VNone => true | _ => false end.

(** Truth value testing. *)
Definition truthy (v : val) : bool :=
  match v with
  | VNone => false
  | VBool b => b
  | VInt n => negb (n =? 0)
  | VFloat x => match x with S754_zero _ => false | _ => true end
  | VDec d => match d with DFin c _ => negb (c =? 0) | _ => true end
  | VStr s => negb (is_empty s)
  | VList l => match l with [] => false | _ => true end
  | VDict d => match d with [] => false | _ => true end
  end.

(** [a or b] *)
Definition py_or (a b : val) : val := if truthy a then a else b.

(** [float(v)]: numbers, and strings that spell a float. *)
Definition float_of_val (v : val) : result f64 :=
  match v with
  | VBool b => Ok (if b then fone else fzero)
  | VInt n => py_float_of_int n
  | VFloat x => Ok x
  | VDec d => Ok (float_of_dec d)
  | VStr s =>
      match float_of_string s with
      | Some x => Ok x
      | None => raise ValueError ("could not convert string to float: '" +:+ s +:+ "'")
      end
  | VNone => raise TypeError "float() argument must be a string or a real number, not 'NoneType'"
  | VList _ => raise TypeError "float() argument must be a string or a real number, not 'list'"
  | VDict _ => raise TypeError "float() argument must be a string or a real number, not 'dict'"
  end.

(** Truncation of a float toward zero. *)
Definition trunc_float (x : f64) : result Z :=
  match x with
  | S754_zero _ => Ok 0
  | S754_nan => raise ValueError "cannot convert float NaN to integer"
  | S754_infinity _ => raise OverflowError "cannot convert float infinity to integer"
  | S754_finite s m e =>
      let a := if 0 <=? e then Zpos m * 2 ^ e else Zpos m / 2 ^ (- e) in
      Ok (if s then - a else a)
  end.

(** [int(v)]. *)
Definition int_of_val (v : val) : result Z :=
  match v with
  | VBool b => Ok (if b then 1 else 0)
  | VInt n => Ok n
  | VFloat x => trunc_float x
  | VDec d =>
      match d with
      | DFin c e => Ok (if 0 <=? e then c * 10 ^ e else Z.quot c (10 ^ (- e)))
      | DInf _ => raise OverflowError "cannot convert Infinity to integer"
      | DNaN => raise ValueError "cannot convert NaN to integer"
      end
  | VStr s =>
      match int_of_string s with
      | Some n => Ok n
      | None => raise ValueError ("invalid literal for int() with base 10: '" +:+ s +:+ "'")
      end
  | VNone => raise TypeError "int() argument must be a string, a bytes-like object or a real number, not 'NoneType'"
  | VList _ => raise TypeError "int() argument must be a string, a bytes-like object or a real number, not 'list'"
  | VDict _ => raise TypeError "int() argument must be a string, a bytes-like object or a real number, not 'dict'"
  end.

(** ** [str] and [repr] *)

Definition hex_digit (k : Z) : ascii := ascii_of_N (Z.to_N (if k <? 10 then 48 + k else 87 + k)).

(** One character inside quotes [q]. *)
Definition repr_char (q c : ascii) : string :=
  let n := char_code c in
  if Ascii.eqb c q || Ascii.eqb c "\" then String "\" (String c "")
  else if n =? 10 then "\n" else if n =? 13 then "\r" else if n =? 9 then "\t"
  else if (n <? 32) || (n =? 127) then
    "\x" +:+ String (hex_digit (n / 16)) (String (hex_digit (n mod 16)) "")
  else String c "".

Fixpoint repr_chars (q : ascii) (s : string) : string :=
  match s with EmptyString => "" | String c s' => repr_char q c +:+ repr_chars q s' end.

Definition quote_char : ascii := "'".
Definition dquote_char : ascii := ascii_of_N 34.

(** Double quotes only for a string with single and without double quotes. *)
Definition repr_str (s : string) : string :=
  let has c := match find_char c s with Some _ => true | None => false end in
  let q := if has quote_char && negb (has dquote_char) then dquote_char else quote_char in
  String q "" +:+ repr_chars q s +:+ String q "".

Fixpoint py_repr (v : val) : string :=
  match v with
  | VNone => "None"
  | VBool b => if b then "True" else "False"
  | VInt n => str_of_Z n
  | VFloat x => float_repr x
  | VDec d => "Decimal('" +:+ dec_str d +:+ "')"
  | VStr s => repr_str s
  | VList l => "[" +:+ join ", " (map py_repr l) +:+ "]"
  | VDict d => "{" +:+ join ", " (map (fun kv => repr_str kv.1 +:+ ": " +:+ py_repr kv.2) d) +:+ "}"
  end.

(** [str(v)] *)
Definition py_str (v : val) : string :=
  match v with VStr s => s | VDec d => dec_str d | _ => py_repr v end.

(** ** Dict laws *)

Lemma dict_get_set_eq k v d : dict_get k (dict_set k v d) = Some v.
Proof.
  induction d as [|[k' v'] d IH]; simpl; [by rewrite String.eqb_refl|].
  destruct (String.eqb_spec k k') as [<-|Hne]; simpl; [by rewrite String.eqb_refl|].
  by rewrite (proj2 (String.eqb_neq k k') Hne).
Qed.

Lemma dict_get_set_ne k k' v d : k <> k' -> dict_get k (dict_set k' v d) = dict_get k d.
Proof.
  intros Hne. induction d as [|[k2 v2] d IH]; simpl.
  { by rewrite (proj2 (String.eqb_neq k k') Hne). }
  destruct (String.eqb_spec k' k2) as [<-|H2]; simpl.
  - by rewrite (proj2 (String.eqb_neq k k') Hne).
  - by rewrite IH.
Qed.

(** Induction through lists and dicts. *)
Section val_ind_nested.
Variable P : val -> Prop.
Hypothesis P_none : P VNone.
Hypothesis P_bool : forall b, P (VBool b).
Hypothesis P_int : forall n, P (VInt n).
Hypothesis P_float : forall x, P (VFloat x).
Hypothesis P_dec : forall d, P (VDec d).
Hypothesis P_str : forall s, P (VStr s).
Hypothesis P_list : forall l, Forall P l -> P (VList l).
Hypothesis P_dict : forall d, Forall (fun kv => P kv.2) d -> P (VDict d).

Fixpoint val_ind_nested (v : val) : P v :=
  match v with
  | VNone => P_none
  | VBool b => P_bool b
  | VInt n => P_int n
  | VFloat x => P_float x
  | VDec d => P_dec d
  | VStr s => P_str s
  | VList l =>
      P_list l ((fix go l : Forall P l :=
        match l with
        | [] => Forall_nil_2 _
        | x :: l' => Forall_cons_2 _ _ _ (val_ind_nested x) (go l')
        end) l)
  | VDict d =>
      P_dict d ((fix go d : Forall (fun kv => P kv.2) d :=
        match d with
        | [] => Forall_nil_2 _
        | kv :: d' => Forall_cons_2 _ _ _ (val_ind_nested kv.2) (go d')
        end) d)
  end.
End val_ind_nested.
