(* ===== verification/Envelope.v ===== *)
(** * The message envelope contract

    [services/shared/contracts/message_envelope.py]: what every message on the
    broker must carry. Messages are dynamic values, so the checks test classes
    at run time. *)

From S2P Require Import Prelude PyStr PyTime PyUuid PyVal.
From stdpp Require Import options.
From Stdlib Require Import Ascii String.

#[local] Open Scope Z_scope.

(** In alphabetical order, the order the error message lists them in. *)
Definition REQUIRED_FIELDS : list string :=
  ["decision_id"; "emitted_at"; "event_type"; "idempotency_key"; "mode"; "payload"; "trace_id"].
Definition ALLOWED_MODES : list string := ["MOCK"; "REAL"].

Definition _validate_uuid (value : val) (field_name : string) : result unit :=
  match value with
  | VStr s =>
      raise_if (negb (uuid_valid s)) EnvelopeValidationError (field_name +:+ " must be a valid UUID")
  | _ => raise EnvelopeValidationError (field_name +:+ " must be a UUID string")
  end.

Definition _validate_iso_datetime (value : val) (field_name : string) : result unit :=
  match value with
  | VStr s =>
      match fromisoformat (replace "Z" "+00:00" s) with
      | None => raise EnvelopeValidationError (field_name +:+ " must be a valid ISO-8601 timestamp")
      | Some parsed =>
          raise_if (match dt_off parsed with None => true | Some _ => false end)
            EnvelopeValidationError (field_name +:+ " must include timezone information")
      end
  | _ => raise EnvelopeValidationError (field_name +:+ " must be an ISO-8601 string")
  end.

(** [mode not in ALLOWED_MODES] hashes [mode]: lists and dicts raise. *)
Definition mode_allowed (mode : val) : result bool :=
  match mode with
  | VStr s => Ok (bool_decide (s ∈ ALLOWED_MODES))
  | VList _ => raise TypeError "unhashable type: 'list'"
  | VDict _ => raise TypeError "unhashable type: 'dict'"
  | _ => Ok false
  end.

Definition non_empty_string (v : val) : bool :=
  match v with VStr s => negb (is_empty (strip s)) | _ => false end.

Definition validate_envelope (envelope : val) : result unit :=
  match envelope with
  | VDict e =>
      let missing := List.filter (fun k => negb (has_key k e)) REQUIRED_FIELDS in
      _ ← raise_if (match missing with [] => false | _ => true end) EnvelopeValidationError
            ("Missing required field(s): " +:+ join ", " missing);
      _ ← _validate_uuid (dget "trace_id" e) "trace_id";
      _ ← _validate_uuid (dget "decision_id" e) "decision_id";
      ok ← mode_allowed (dget "mode" e);
      _ ← raise_if (negb ok) EnvelopeValidationError "mode must be one of: MOCK, REAL";
      _ ← raise_if (negb (non_empty_string (dget "idempotency_key" e))) EnvelopeValidationError
            "idempotency_key must be a non-empty string";
      _ ← raise_if (negb (non_empty_string (dget "event_type" e))) EnvelopeValidationError
            "event_type must be a non-empty string";
      _ ← _validate_iso_datetime (dget "emitted_at" e) "emitted_at";
      raise_if (negb (is_dict (dget "payload" e))) EnvelopeValidationError "payload must be an object"
  | _ => raise EnvelopeValidationError "Envelope must be a mapping"
  end.

(** ** What an accepted envelope looks like *)

(** A timestamp the contract accepts: ISO-8601 with an offset. *)
Definition valid_stamp (s : string) : bool :=
  match fromisoformat (replace "Z" "+00:00" s) with
  | Some t => match dt_off t with Some _ => true | None => false end
  | None => false
  end.

Record well_formed (e : dict) : Prop := {
  wf_trace : exists s, dict_get "trace_id" e = Some (VStr s) /\ uuid_valid s = true;
  wf_decision : exists s, dict_get "decision_id" e = Some (VStr s) /\ uuid_valid s = true;
  wf_mode : exists s, dict_get "mode" e = Some (VStr s) /\ s ∈ ALLOWED_MODES;
  wf_key : exists s, dict_get "idempotency_key" e = Some (VStr s) /\ strip s <> ""%string;
  wf_event : exists s, dict_get "event_type" e = Some (VStr s) /\ strip s <> ""%string;
  wf_stamp : exists s, dict_get "emitted_at" e = Some (VStr s) /\ valid_stamp s = true;
  wf_payload : exists d, dict_get "payload" e = Some (VDict d);
}.

Lemma well_formed_has_keys e :
  well_formed e -> List.filter (fun k => negb (has_key k e)) REQUIRED_FIELDS = [].
Proof.
  intros [(? & T & _) (? & D & _) (? & M & _) (? & K & _) (? & E & _) (? & S & _) (? & P)].
  unfold REQUIRED_FIELDS, has_key. simpl. by rewrite D, S, E, K, M, P, T.
Qed.

Lemma non_empty_iff s : negb (is_empty (strip s)) = true <-> strip s <> ""%string.
Proof. by destruct (strip s). Qed.

(** The validator accepts exactly the well-formed mappings. *)
Lemma validate_envelope_iff v :
  validate_envelope v = Ok tt <-> exists e, v = VDict e /\ well_formed e.
Proof.
  split.
  - destruct v as [| | | | | | |e]; try done. intros H. exists e. split; [done|].
    unfold validate_envelope in H. apply bind_Ok in H as ([] & Hk & H).
    apply bind_Ok in H as ([] & H1 & H). apply bind_Ok in H as ([] & H2 & H).
    apply bind_Ok in H as (ok & H3 & H). apply bind_Ok in H as ([] & H4 & H).
    apply bind_Ok in H as ([] & H5 & H). apply bind_Ok in H as ([] & H6 & H).
    apply bind_Ok in H as ([] & H7 & H8).
    rewrite raise_if_Ok in H4, H5, H6, H8. rewrite negb_false_iff in H4, H5, H6, H8. subst ok.
    unfold dget in *. split.
    + destruct (dict_get "trace_id" e) as [[| | | | |s| |]|]; try done. exists s.
      simpl in H1. apply raise_if_Ok in H1. by rewrite negb_false_iff in H1.
    + destruct (dict_get "decision_id" e) as [[| | | | |s| |]|]; try done. exists s.
      simpl in H2. apply raise_if_Ok in H2. by rewrite negb_false_iff in H2.
    + destruct (dict_get "mode" e) as [[| | | | |s| |]|]; try done. exists s. split; [done|].
      simpl in H3. injection H3 as H3. by apply bool_decide_eq_true in H3.
    + destruct (dict_get "idempotency_key" e) as [[| | | | |s| |]|]; try done. exists s.
      split; [done|]. by apply non_empty_iff.
    + destruct (dict_get "event_type" e) as [[| | | | |s| |]|]; try done. exists s.
      split; [done|]. by apply non_empty_iff.
    + destruct (dict_get "emitted_at" e) as [[| | | | |s| |]|]; try done. exists s. split; [done|].
      unfold valid_stamp. simpl in H7. destruct (fromisoformat _) as [t|]; [|done].
      apply raise_if_Ok in H7. by destruct (dt_off t).
    + destruct (dict_get "payload" e) as [[| | | | | | |d]|]; try done. by exists d.
  - intros (e & -> & Hw). unfold validate_envelope. rewrite (well_formed_has_keys e Hw). simpl.
    destruct Hw as [(t & T & VT) (dc & D & VD) (m & M & VM) (k & K & VK) (ev & E & VE) (st & S & VS) (p & P)].
    unfold dget. rewrite T, D, M, K, E, S, P. simpl. rewrite VT, VD. simpl.
    rewrite bool_decide_eq_true_2 by done. simpl.
    rewrite (proj2 (non_empty_iff k) VK), (proj2 (non_empty_iff ev) VE). simpl.
    unfold valid_stamp in VS. destruct (fromisoformat _) as [d|]; [|done].
    by destruct (dt_off d).
Qed.

#[global] Arguments validate_envelope : simpl never.

(** ** Building envelopes *)

Lemma strip_nonempty s : str_forallb is_space s = false -> strip s <> ""%string.
Proof.
  unfold strip, strip_with. intros H E.
  assert (Hr : forall t, rstrip_with is_space t = ""%string -> str_forallb is_space t = true).
  { induction t as [|c t IH]; [done|]. simpl. destruct (rstrip_with is_space t); [|done].
    destruct (is_space c) eqn:Ec; [|done]. intros _. by rewrite IH. }
  apply Hr in E. clear Hr. induction s as [|c s IH]; [done|]. simpl in *.
  destruct (is_space c) eqn:Ec; [by apply IH|]. simpl in E. by rewrite Ec in E.
Qed.

(** The stamps the code writes are stamps the contract accepts. *)
Lemma valid_stamp_iso now : in_range now = true -> valid_stamp (iso_z now) = true.
Proof. intros H. unfold valid_stamp. by rewrite iso_z_roundtrip. Qed.

Lemma strip_char c s : is_space c = false -> strip (String c s) <> ""%string.
Proof. intros H. apply strip_nonempty. simpl. by rewrite H. Qed.

Lemma well_formed_validates e : well_formed e -> validate_envelope (VDict e) = Ok tt.
Proof. intros H. apply validate_envelope_iff. by exists e. Qed.

Lemma validates_well_formed e u : validate_envelope (VDict e) = Ok u -> well_formed e.
Proof. destruct u. intros H. by apply validate_envelope_iff in H as (e' & [= <-] & Hw). Qed.

#[export] Hint Resolve uuid_str_valid valid_stamp_iso : envelope.
#[export] Hint Extern 1 (_ ∈ ALLOWED_MODES) => (unfold ALLOWED_MODES; set_solver) : envelope.
#[export] Hint Extern 1 (strip _ <> _) => (apply strip_char; reflexivity) : envelope.

(** [wf_envelope]: a literal dictionary is well formed; each field is looked up
    by computation and checked by the hints. *)
Ltac wf_envelope :=
  split; eexists; (split; [reflexivity|auto with envelope]) || reflexivity.
