(* ===== verification/Broker.v ===== *)
(** * The in-memory topic broker

    [services/shared/runtime/broker.py]. Queues are FIFO lists of messages; a
    binding maps a topic pattern to a set of queues. Waiting for a message with
    a time-out is modelled by what it returns: the head of the queue, or nothing
    when the queue stays empty ([consume] with a non-positive time-out never
    waits, which is how the workers call it). *)

From S2P Require Import Prelude PyStr PyVal.
From stdpp Require Import options.
From Stdlib Require Import Ascii String.

#[local] Open Scope Z_scope.

Record PublishedMessage := {
  pm_queue : string;
  pm_routing_key : string;
  pm_message : dict;
}.

Record InMemoryTopicBroker := {
  br_queues : gmap string (list dict);
  br_bindings : gmap string (gset string);
}.

Definition empty_broker : InMemoryTopicBroker := {| br_queues := ∅; br_bindings := ∅ |}.

Definition set_queues (q : gmap string (list dict)) (b : InMemoryTopicBroker) : InMemoryTopicBroker :=
  {| br_queues := q; br_bindings := br_bindings b |}.

(** [self._queues.setdefault(queue_name, Queue())] *)
Definition declare_queue (queue_name : string) (b : InMemoryTopicBroker)
  : result InMemoryTopicBroker :=
  if is_empty queue_name then raise BrokerConfigurationError "queue_name must be non-empty"
  else Ok (match br_queues b !! queue_name with
           | Some _ => b
           | None => set_queues (<[queue_name := []]> (br_queues b)) b
           end).

(** [_bindings] is a [defaultdict(set)]. *)
Definition bind_queue (routing_key queue_name : string) (b : InMemoryTopicBroker)
  : result InMemoryTopicBroker :=
  if is_empty routing_key then raise BrokerConfigurationError "routing_key must be non-empty"
  else
    b1 ← declare_queue queue_name b;
    Ok {| br_queues := br_queues b1;
          br_bindings :=
            <[routing_key := {[queue_name]} ∪ default ∅ (br_bindings b1 !! routing_key)]>
              (br_bindings b1) |}.

(** The loop over [routing_tokens[idx:]] for a [#] is over the suffixes. *)
Fixpoint _match_tokens (pattern_tokens routing_tokens : list string) : bool :=
  match pattern_tokens with
  | [] => match routing_tokens with [] => true | _ => false end
  | token :: rest =>
      if String.eqb token "#" then
        match rest with
        | [] => true
        | _ =>
            (fix suffixes (r : list string) : bool :=
               _match_tokens rest r || match r with [] => false | _ :: r' => suffixes r' end)
              routing_tokens
        end
      else
        match routing_tokens with
        | [] => false
        | w :: routing_rest =>
            if String.eqb token "*" || String.eqb token w
            then _match_tokens rest routing_rest else false
        end
  end.

Definition _topic_matches (pattern routing_key : string) : bool :=
  _match_tokens (split_on "." pattern) (split_on "." routing_key).

(** The bound queues of every matching pattern, and the queue of that very
    name, as a sorted tuple. *)
Definition matching_queues (b : InMemoryTopicBroker) (routing_key : string) : gset string :=
  map_fold (fun pattern bound acc => if _topic_matches pattern routing_key then bound ∪ acc else acc)
    ∅ (br_bindings b) ∪
  match br_queues b !! routing_key with Some _ => {[routing_key]} | None => ∅ end.

Definition sorted_names (s : gset string) : list string := sort_by str_leb (elements s).

Definition _resolve_queues (routing_key : string) (b : InMemoryTopicBroker) : list string :=
  sorted_names (matching_queues b routing_key).

(** One [queue.put] of the loop; a bound queue is always declared. *)
Definition put (queue_name : string) (m : dict) (b : InMemoryTopicBroker) : result InMemoryTopicBroker :=
  match br_queues b !! queue_name with
  | None => raise KeyError queue_name
  | Some q => Ok (set_queues (<[queue_name := q ++ [m]]> (br_queues b)) b)
  end.

Definition deliver (routing_key : string) (payload : dict)
    (st : InMemoryTopicBroker * list PublishedMessage) (queue_name : string)
  : result (InMemoryTopicBroker * list PublishedMessage) :=
  b1 ← put queue_name payload st.1;
  Ok (b1, st.2 ++ [{| pm_queue := queue_name; pm_routing_key := routing_key;
                      pm_message := payload |}]).

Definition publish (routing_key : string) (message : val) (b : InMemoryTopicBroker)
  : result (InMemoryTopicBroker * list PublishedMessage) :=
  match message with
  | VDict payload =>
      fold_res (deliver routing_key payload) (b, []) (_resolve_queues routing_key b)
  | _ => raise BrokerConfigurationError "message must be a dict"
  end.

Definition not_declared {A} (queue_name : string) : result A :=
  raise BrokerConfigurationError ("queue not declared: " +:+ queue_name).

(** [consume] that does not wait. *)
Definition consume (queue_name : string) (b : InMemoryTopicBroker)
  : result (InMemoryTopicBroker * option dict) :=
  match br_queues b !! queue_name with
  | None => not_declared queue_name
  | Some [] => Ok (b, None)
  | Some (m :: q) => Ok (set_queues (<[queue_name := q]> (br_queues b)) b, Some m)
  end.

Definition queue_size (queue_name : string) (b : InMemoryTopicBroker) : result nat :=
  match br_queues b !! queue_name with
  | None => not_declared queue_name
  | Some q => Ok (List.length q)
  end.

Definition drain (queue_name : string) (b : InMemoryTopicBroker)
  : result (InMemoryTopicBroker * list dict) :=
  match br_queues b !! queue_name with
  | None => not_declared queue_name
  | Some q => Ok (set_queues (<[queue_name := []]> (br_queues b)) b, q)
  end.

(** [from_topology_file], from the parsed JSON: entries of the wrong shape are
    skipped, a bad name raises. *)
Definition declare_entry (b : InMemoryTopicBroker) (queue : val) : result InMemoryTopicBroker :=
  match queue with
  | VDict d => match dget "name" d with VStr name => declare_queue name b | _ => Ok b end
  | _ => Ok b
  end.
Definition bind_entry (b : InMemoryTopicBroker) (binding : val) : result InMemoryTopicBroker :=
  match binding with
  | VDict d =>
      match dget "queue" d, dget "routing_key" d with
      | VStr q, VStr k => bind_queue k q b
      | _, _ => Ok b
      end
  | _ => Ok b
  end.
Definition from_topology (queues bindings : list val) : result InMemoryTopicBroker :=
  b ← fold_res declare_entry empty_broker queues;
  fold_res bind_entry b bindings.

(** ** Topics

    The meaning of a pattern: a word matches itself, [*] one word, [#] any
    number of words. *)
Inductive topic : list string -> list string -> Prop :=
  | topic_nil : topic [] []
  | topic_word w p r : w <> "#"%string -> topic p r -> topic (w :: p) (w :: r)
  | topic_star w p r : topic p r -> topic ("*"%string :: p) (w :: r)
  | topic_hash_none p r : topic p r -> topic ("#"%string :: p) r
  | topic_hash_more w p r : topic ("#"%string :: p) r -> topic ("#"%string :: p) (w :: r).

Lemma topic_hash_suffix p r : topic ("#"%string :: p) r <-> exists k, topic p (drop k r).
Proof.
  split.
  - remember ("#"%string :: p) as l eqn:E. intros H. revert p E.
    induction H as [|w p' r Hw H IH|w p' r H IH|p' r H IH|w p' r H IH]; intros p E; simplify_eq.
    + by exists 0%nat.
    + destruct (IH p eq_refl) as [k Hk]. by exists (S k).
  - intros [k Hk]. revert k Hk. induction r as [|w r IH]; intros k Hk.
    + rewrite drop_nil in Hk. by apply topic_hash_none.
    + destruct k as [|k]; [by apply topic_hash_none|]. apply topic_hash_more. by apply (IH k).
Qed.

Lemma topic_all r : topic ["#"%string] r.
Proof. apply topic_hash_suffix. exists (List.length r). rewrite drop_all. constructor. Qed.

(** Topic matching is correct: [_match_tokens] accepts exactly the routing
    keys the pattern describes, where a word stands for itself, [*] for one
    word and [#] for zero or more. *)
Theorem match_tokens_correct pattern_tokens routing_tokens :
  _match_tokens pattern_tokens routing_tokens = true <-> topic pattern_tokens routing_tokens.
Proof.
  revert routing_tokens. induction pattern_tokens as [|t p IH]; intros r.
  { destruct r; split; intros H; try done; [constructor|inversion H]. }
  cbn [_match_tokens]. destruct (String.eqb_spec t "#") as [->|Ht].
  - assert (Hsuf : (fix suffixes (r : list string) : bool :=
               _match_tokens p r || match r with [] => false | _ :: r' => suffixes r' end) r = true <->
             topic ("#"%string :: p) r).
    { rewrite topic_hash_suffix. induction r as [|w r IHr].
      - rewrite orb_false_r, IH. split; [by exists 0%nat|]. intros [k Hk]. by rewrite drop_nil in Hk.
      - rewrite orb_true_iff, IH, IHr. split.
        + intros [H|[k Hk]]; [by exists 0%nat|by exists (S k)].
        + intros [[|k] Hk]; [by left|right; by exists k]. }
    destruct p as [|t' p]; [|exact Hsuf]. split; [intros _; apply topic_all|done].
  - destruct r as [|w r]; [split; [done|intros H; inversion H; simplify_eq]|].
    destruct (String.eqb_spec t "*") as [->|Hs]; simpl.
    { rewrite IH. split; [by apply topic_star|]. intros H. inversion H; by simplify_eq. }
    destruct (String.eqb_spec t w) as [->|Hw]; simpl.
    + rewrite IH. split; [by apply topic_word|]. intros H. inversion H; by simplify_eq.
    + split; [done|]. intros H. inversion H; by simplify_eq.
Qed.

(** ** Delivery *)

Definition bound (b : InMemoryTopicBroker) (routing_key q : string) : Prop :=
  (exists pattern s, br_bindings b !! pattern = Some s /\ q ∈ s /\
     _topic_matches pattern routing_key = true) \/
  (q = routing_key /\ is_Some (br_queues b !! routing_key)).

Lemma matching_queues_spec b k q : q ∈ matching_queues b k <-> bound b k q.
Proof.
  unfold matching_queues, bound.
  assert (Hf : forall m : gmap string (gset string),
    q ∈ map_fold (fun p s acc => if _topic_matches p k then s ∪ acc else acc) ∅ m <->
    exists p s, m !! p = Some s /\ q ∈ s /\ _topic_matches p k = true).
  { apply (map_fold_weak_ind (fun r m => q ∈ r <-> exists p s, m !! p = Some s /\ q ∈ s /\
             _topic_matches p k = true)).
    - split; [set_solver|]. intros (p & s & H & _). by rewrite lookup_empty in H.
    - intros p s m r Hp IH. destruct (_topic_matches p k) eqn:E.
      + rewrite elem_of_union, IH. split.
        * intros [Hq|(p' & s' & H1 & H2)]; [exists p, s; by rewrite lookup_insert_eq|].
          exists p', s'. rewrite lookup_insert_ne; [done|congruence].
        * intros (p' & s' & H1 & H2 & H3). destruct (decide (p' = p)) as [->|].
          { rewrite lookup_insert_eq in H1. simplify_eq. by left. }
          rewrite lookup_insert_ne in H1 by done. right. by exists p', s'.
      + rewrite IH. split.
        * intros (p' & s' & H1 & H2). exists p', s'. rewrite lookup_insert_ne; [done|congruence].
        * intros (p' & s' & H1 & H2 & H3). destruct (decide (p' = p)) as [->|]; [congruence|].
          rewrite lookup_insert_ne in H1 by done. by exists p', s'. }
  rewrite elem_of_union, Hf. destruct (br_queues b !! k) eqn:E.
  - rewrite elem_of_singleton. naive_solver.
  - split; [intros [H|H]; [by left|set_solver]|]. intros [H|[_ [x Hx]]]; [by left|done].
Qed.

Lemma resolve_spec b k :
  NoDup (_resolve_queues k b) /\ forall q, q ∈ _resolve_queues k b <-> bound b k q.
Proof.
  unfold _resolve_queues, sorted_names. split.
  - rewrite sort_by_perm. apply NoDup_elements.
  - intros q. rewrite sort_by_perm, elem_of_elements. apply matching_queues_spec.
Qed.

(** Every bound queue has been declared: [bind_queue] declares it, and nothing
    removes a queue. *)
Definition bindings_declared (b : InMemoryTopicBroker) : Prop :=
  forall p s q, br_bindings b !! p = Some s -> q ∈ s -> is_Some (br_queues b !! q).

(** Brokers the operations can produce. *)
Inductive reachable : InMemoryTopicBroker -> Prop :=
  | reach_empty : reachable empty_broker
  | reach_declare q b b' : reachable b -> declare_queue q b = Ok b' -> reachable b'
  | reach_bind k q b b' : reachable b -> bind_queue k q b = Ok b' -> reachable b'
  | reach_publish k m b b' l : reachable b -> publish k m b = Ok (b', l) -> reachable b'
  | reach_consume q b b' m : reachable b -> consume q b = Ok (b', m) -> reachable b'
  | reach_drain q b b' l : reachable b -> drain q b = Ok (b', l) -> reachable b'.

Lemma declare_spec q b b' :
  declare_queue q b = Ok b' ->
  br_bindings b' = br_bindings b /\ is_Some (br_queues b' !! q) /\
  forall x, is_Some (br_queues b !! x) -> br_queues b' !! x = br_queues b !! x.
Proof.
  unfold declare_queue. destruct (is_empty q); [done|]. destruct (br_queues b !! q) as [l|] eqn:E.
  - intros [= <-]. by rewrite E.
  - intros [= <-]. simpl. rewrite lookup_insert_eq. split; [done|]. split; [done|].
    intros x [y Hx]. rewrite lookup_insert_ne; [done|congruence].
Qed.

Lemma put_spec q m b b' :
  put q m b = Ok b' ->
  br_bindings b' = br_bindings b /\
  exists l, br_queues b !! q = Some l /\ br_queues b' = <[q := l ++ [m]]> (br_queues b).
Proof.
  unfold put. destruct (br_queues b !! q) as [l|]; [|done]. intros [= <-]. simpl. eauto.
Qed.

#[local] Arguments deliver : simpl never.

(** Publishing to distinct declared queues appends to each, once. *)
Lemma put_all k (m : dict) qs b acc :
  NoDup qs -> (forall q, q ∈ qs -> is_Some (br_queues b !! q)) ->
  exists b',
    fold_res (deliver k m) (b, acc) qs =
      Ok (b', acc ++ ((fun q => {| pm_queue := q; pm_routing_key := k; pm_message := m |}) <$> qs)) /\
    br_bindings b' = br_bindings b /\
    forall q, br_queues b' !! q = (fun l => if bool_decide (q ∈ qs) then l ++ [m] else l) <$> br_queues b !! q.
Proof.
  intros Hnd. revert b acc. induction Hnd as [|q qs Hq Hnd IH]; intros b acc Hd.
  { exists b. simpl. rewrite app_nil_r. split; [done|]. split; [done|]. intros q.
    by destruct (br_queues b !! q). }
  destruct (Hd q ltac:(left)) as [l Hl]. 
  assert (Hstep : deliver k m (b, acc) q = Ok (set_queues (<[q:=l ++ [m]]> (br_queues b)) b,
            acc ++ [{| pm_queue := q; pm_routing_key := k; pm_message := m |}])).
  { unfold deliver, put. simpl. by rewrite Hl. }
  cbn [fold_res]. rewrite Hstep. simpl.
  destruct (IH (set_queues (<[q:=l ++ [m]]> (br_queues b)) b)
              (acc ++ [{| pm_queue := q; pm_routing_key := k; pm_message := m |}])) as (b' & E & Hb & Hq').
  { intros x Hx. simpl. destruct (decide (x = q)) as [->|]; [by rewrite lookup_insert_eq|].
    rewrite lookup_insert_ne by done. apply Hd. by right. }
  exists b'. rewrite E. csimpl. rewrite <- app_assoc. split; [done|]. split; [done|].
  intros x. rewrite Hq'. simpl. destruct (decide (x = q)) as [->|Hne].
  - rewrite lookup_insert_eq, Hl. simpl. rewrite (bool_decide_eq_false_2 (q ∈ qs)) by done.
    by rewrite bool_decide_eq_true_2 by left.
  - rewrite lookup_insert_ne by done. destruct (br_queues b !! x); simpl; [|done].
    f_equal. destruct (decide (x ∈ qs)).
    + rewrite !bool_decide_eq_true_2; [done|by right|done].
    + rewrite !bool_decide_eq_false_2; [done| |done]. rewrite elem_of_cons. naive_solver.
Qed.

Lemma reachable_declared b : reachable b -> bindings_declared b.
Proof.
  induction 1 as [|q b b' _ IH H|k q b b' _ IH H|k m b b' l _ IH H|q b b' m _ IH H|q b b' l _ IH H];
    intros p s x Hp Hx.
  - unfold empty_broker in Hp. cbn [br_bindings] in Hp. by rewrite lookup_empty in Hp.
  - destruct (declare_spec _ _ _ H) as (Eb & _ & Hq). rewrite Eb in Hp.
    pose proof (IH _ _ _ Hp Hx) as Hs. by rewrite (Hq x Hs).
  - unfold bind_queue in H. destruct (is_empty k); [done|]. res_inv. simpl in *.
    destruct (declare_spec _ _ _ E) as (Eb & Hq & Hold). rewrite Eb in Hp.
    assert (Hold' : forall p s, br_bindings b !! p = Some s -> x ∈ s -> is_Some (br_queues x0 !! x)).
    { intros p' s' H1 H2. pose proof (IH _ _ _ H1 H2) as Hs. by rewrite (Hold x Hs). }
    destruct (decide (p = k)) as [->|]; [|rewrite lookup_insert_ne in Hp by done; eauto].
    rewrite lookup_insert_eq in Hp. simplify_eq. apply elem_of_union in Hx as [Hx|Hx].
    { apply elem_of_singleton in Hx as ->. done. }
    destruct (br_bindings b !! k) as [s|] eqn:Ek; [eauto|set_solver].
  - destruct m as [| | | | | | |d]; try done. destruct (resolve_spec b k) as [Hnd Hin].
    destruct (put_all k d (_resolve_queues k b) b [] Hnd) as (b2 & E & Eb & Hq).
    { intros y Hy. apply Hin in Hy as [(p' & s' & H1 & H2 & _)|[-> ?]]; [by apply (IH p' s')|done]. }
    simpl in H. rewrite E in H. injection H as <- <-. rewrite Eb in Hp. rewrite Hq.
    destruct (IH _ _ _ Hp Hx) as [y ->]. by eexists.
  - unfold consume in H. destruct (br_queues b !! q) as [[|m' l]|] eqn:E; simplify_eq; [by apply (IH p s)|].
    simpl in *. destruct (decide (x = q)) as [->|]; [by rewrite lookup_insert_eq|].
    rewrite lookup_insert_ne by done. by apply (IH p s).
  - unfold drain in H. destruct (br_queues b !! q) as [l'|] eqn:E; simplify_eq. simpl in *.
    destruct (decide (x = q)) as [->|]; [by rewrite lookup_insert_eq|].
    rewrite lookup_insert_ne by done. by apply (IH p s).
Qed.

(** What publishing does to a broker whose bound queues are declared. *)
Lemma publish_spec b k (m : dict) :
  bindings_declared b ->
  exists b' receipt, publish k (VDict m) b = Ok (b', receipt) /\ bindings_declared b' /\
    NoDup (pm_queue <$> receipt) /\
    (forall q, q ∈ pm_queue <$> receipt <-> bound b k q) /\
    (forall q (l : list dict), bound b k q -> br_queues b !! q = Some l -> br_queues b' !! q = Some (l ++ [m])) /\
    (forall q, ~ bound b k q -> br_queues b' !! q = br_queues b !! q) /\
    br_bindings b' = br_bindings b.
Proof.
  intros Hr. destruct (resolve_spec b k) as [Hnd Hin].
  destruct (put_all k m (_resolve_queues k b) b [] Hnd) as (b' & E & Eb & Hq).
  { intros y Hy. apply Hin in Hy as [(p' & s' & H1 & H2 & _)|[-> ?]]; [by apply (Hr p' s')|done]. }
  exists b', ((fun q => {| pm_queue := q; pm_routing_key := k; pm_message := m |}) <$> _resolve_queues k b).
  split; [exact E|]. split.
  { intros p s x Hp Hx. rewrite Eb in Hp. rewrite Hq. destruct (Hr _ _ _ Hp Hx) as [y ->]. by eexists. }
  rewrite <- list_fmap_compose.
  assert (Hid : (pm_queue ∘ (fun q => {| pm_queue := q; pm_routing_key := k; pm_message := m |})) <$>
                _resolve_queues k b = _resolve_queues k b) by (by rewrite list_fmap_id).
  rewrite Hid. split; [done|]. split; [done|]. split; [|split; [|done]].
  - intros q l Hb Hl. rewrite Hq, Hl. simpl. by rewrite bool_decide_eq_true_2 by (by apply Hin).
  - intros q Hb. rewrite Hq. destruct (br_queues b !! q); simpl; [|done].
    by rewrite bool_decide_eq_false_2 by (by rewrite Hin).
Qed.

Lemma consume_declared q b b' m : consume q b = Ok (b', m) -> bindings_declared b -> bindings_declared b'.
Proof.
  unfold consume. intros H Hd p s x Hp Hx. destruct (br_queues b !! q) as [[|m' l]|] eqn:E; simplify_eq.
  - by apply (Hd p s).
  - simpl in *. destruct (decide (x = q)) as [->|]; [rewrite lookup_insert_eq; by eexists|].
    rewrite lookup_insert_ne by done. by apply (Hd p s).
Qed.

(** ** The broker as a log

    What a sequence of publications [(routing key, message)] leaves in the
    queues: each queue gets, in order, the messages whose key reaches it. *)
Definition reaches (b : InMemoryTopicBroker) (q : string) (km : string * dict) : bool :=
  bool_decide (q ∈ _resolve_queues km.1 b).

Definition emits (b b' : InMemoryTopicBroker) (log : list (string * dict)) : Prop :=
  br_bindings b' = br_bindings b /\
  forall q, br_queues b' !! q =
    (fun l : list dict => l ++ (snd <$> List.filter (reaches b q) log)) <$> br_queues b !! q.

Lemma emits_refl b : emits b b [].
Proof.
  split; [done|]. intros q. destruct (br_queues b !! q); simpl; [|done]. by rewrite app_nil_r.
Qed.

Lemma resolve_ext b b' k :
  br_bindings b' = br_bindings b ->
  (forall q, is_Some (br_queues b' !! q) <-> is_Some (br_queues b !! q)) ->
  _resolve_queues k b' = _resolve_queues k b.
Proof.
  intros Eb Hq. unfold _resolve_queues, matching_queues. rewrite Eb. f_equal. f_equal.
  specialize (Hq k). destruct (br_queues b' !! k), (br_queues b !! k); try done.
  - destruct Hq as [H _]. by destruct (H (ex_intro _ _ eq_refl)).
  - destruct Hq as [_ H]. by destruct (H (ex_intro _ _ eq_refl)).
Qed.

Lemma emits_resolve b b' log k : emits b b' log -> _resolve_queues k b' = _resolve_queues k b.
Proof.
  intros [Eb Hq]. apply resolve_ext; [done|]. intros q. rewrite Hq. by rewrite fmap_is_Some.
Qed.

Lemma emits_trans b1 b2 b3 l1 l2 : emits b1 b2 l1 -> emits b2 b3 l2 -> emits b1 b3 (l1 ++ l2).
Proof.
  intros H1 H2. pose proof (fun k => emits_resolve _ _ _ k H1) as Hr.
  destruct H1 as [E1 Q1], H2 as [E2 Q2]. split; [by rewrite E2|]. intros q. rewrite Q2, Q1.
  assert (E : List.filter (reaches b2 q) l2 = List.filter (reaches b1 q) l2).
  { apply List.filter_ext. intros km. unfold reaches. by rewrite Hr. }
  destruct (br_queues b1 !! q); simpl; [|done]. by rewrite List.filter_app, fmap_app, app_assoc, E.
Qed.

Lemma emits_declared b b' log : emits b b' log -> bindings_declared b -> bindings_declared b'.
Proof.
  intros [Eb Hq] Hd p s q Hp Hs. rewrite Eb in Hp. rewrite Hq. destruct (Hd p s q Hp Hs) as [l ->].
  by eexists.
Qed.

Lemma publish_emits b k (m : dict) :
  bindings_declared b -> exists b' receipt, publish k (VDict m) b = Ok (b', receipt) /\ emits b b' [(k, m)].
Proof.
  intros Hr. destruct (resolve_spec b k) as [Hnd Hin].
  destruct (put_all k m (_resolve_queues k b) b [] Hnd) as (b' & E & Eb & Hq).
  { intros y Hy. apply Hin in Hy as [(p' & s' & H1 & H2 & _)|[-> ?]]; [by apply (Hr p' s')|done]. }
  eexists b', _. split; [exact E|]. split; [done|]. intros q. rewrite Hq.
  destruct (br_queues b !! q) as [l|]; simpl; [|done]. unfold reaches. simpl.
  case_bool_decide; simpl; [done|by rewrite app_nil_r].
Qed.

(** Publishing delivers exactly once to exactly the right queues: on any
    broker the operations can build, publishing a message succeeds; it is
    appended, once, to every queue bound by a matching pattern and to the
    queue named by the routing key, in each case behind what the queue already
    holds; no other queue changes; and the receipt lists those queues, each
    once. *)
Theorem publish_delivers b k (m : dict) :
  reachable b ->
  exists b' receipt, publish k (VDict m) b = Ok (b', receipt) /\
    NoDup (pm_queue <$> receipt) /\
    (forall q, q ∈ pm_queue <$> receipt <-> bound b k q) /\
    (forall q (l : list dict), bound b k q -> br_queues b !! q = Some l -> br_queues b' !! q = Some (l ++ [m])) /\
    (forall q, ~ bound b k q -> br_queues b' !! q = br_queues b !! q) /\
    br_bindings b' = br_bindings b.
Proof.
  intros Hr%reachable_declared. destruct (publish_spec b k m Hr) as (b' & r & E & _ & H). by exists b', r.
Qed.

(** ** A concrete broker *)

Module Example.
Definition intent : dict := [("mode", VStr "MOCK")].
(** Two patterns for two queues; the third queue is reached by name only. *)
Definition broker : result InMemoryTopicBroker :=
  b1 ← bind_queue "execution.intent.*" "audit" empty_broker;
  b2 ← bind_queue "execution.#" "archive" b1;
  declare_queue "execution.intent.mock" b2.
End Example.

Lemma publish_delivers_witness :
  exists b, Example.broker = Ok b /\
  exists b' receipt, publish "execution.intent.mock" (VDict Example.intent) b = Ok (b', receipt) /\
    pm_queue <$> receipt = ["archive"; "audit"; "execution.intent.mock"]%string /\
    NoDup (pm_queue <$> receipt).
Proof.
  destruct Example.broker as [b|] eqn:E; [|vm_compute in E; discriminate E].
  exists b. split; [reflexivity|].
  assert (Hr : reachable b).
  { unfold Example.broker in E. apply bind_Ok in E as (b1 & E1 & E). apply bind_Ok in E as (b2 & E2 & E).
    apply (reach_declare "execution.intent.mock" b2); [|exact E].
    apply (reach_bind "execution.#" "archive" b1); [|exact E2].
    apply (reach_bind "execution.intent.*" "audit" empty_broker); [constructor|exact E1]. }
  destruct (publish_delivers b "execution.intent.mock" Example.intent Hr) as (b' & receipt & P & Hn & _).
  exists b', receipt. split; [exact P|]. split; [|exact Hn].
  vm_compute in E. injection E as <-. vm_compute in P. injection P as _ <-. reflexivity.
Defined.
