(* ===== verification/PyJson.v ===== *)
(** * JSON

    The parts of the [json] module the code uses: [json.dumps] with its
    separators, [sort_keys] and [ensure_ascii], and [json.loads] of a string.
    Escapes beyond ASCII are read into their UTF-8 bytes. Decoding errors carry
    no position. *)

From S2P Require Import Prelude PyStr PyFloat PyDecimal PyTime PyUuid PyVal Broker.
From stdpp Require Import options.
From Stdlib Require Import Ascii String SpecFloat.

#[local] Open Scope Z_scope.

(** ** Encoding *)

Definition chr (n : Z) : ascii := ascii_of_N (Z.to_N n).

(** One character of a string; [ensure_ascii] also escapes DEL. *)
Definition json_char (ensure_ascii : bool) (c : ascii) : string :=
  let n := char_code c in
  if (n =? 34) || (n =? 92) then String "\" (String c "")
  else if n =? 10 then "\n" else if n =? 13 then "\r" else if n =? 9 then "\t"
  else if n =? 8 then "\b" else if n =? 12 then "\f"
  else if (n <? 32) || (ensure_ascii && (126 <? n)) then "\u" +:+ hexpad 4 n
  else String c "".

Fixpoint json_chars (ensure_ascii : bool) (s : string) : string :=
  match s with
  | EmptyString => ""
  | String c s' => json_char ensure_ascii c +:+ json_chars ensure_ascii s'
  end.

Definition json_str (ensure_ascii : bool) (s : string) : string :=
  String dquote_char (json_chars ensure_ascii s +:+ String dquote_char "").

Definition json_float (x : f64) : string :=
  match x with
  | S754_nan => "NaN"
  | S754_infinity neg => if neg then "-Infinity" else "Infinity"
  | _ => float_repr x
  end.

(** The keyword arguments of [json.dumps]. *)
Record json_format := {
  jf_item : string;
  jf_key : string;
  jf_sort_keys : bool;
  jf_ensure_ascii : bool;
}.

Definition json_plain : json_format :=
  {| jf_item := ", "; jf_key := ": "; jf_sort_keys := false; jf_ensure_ascii := true |}.
Definition json_compact : json_format :=
  {| jf_item := ","; jf_key := ":"; jf_sort_keys := false; jf_ensure_ascii := true |}.
Definition json_canonical : json_format :=
  {| jf_item := ","; jf_key := ":"; jf_sort_keys := true; jf_ensure_ascii := true |}.

Definition key_leb {A} (x y : string * A) : bool := str_leb x.1 y.1.

Definition json_members (f : json_format) (ms : list (string * string)) : string :=
  let ms := if jf_sort_keys f then sort_by key_leb ms else ms in
  "{" +:+ join (jf_item f) ((fun m => json_str (jf_ensure_ascii f) m.1 +:+ jf_key f +:+ m.2) <$> ms) +:+ "}".

Fixpoint json_dumps (f : json_format) (v : val) : result string :=
  match v with
  | VNone => Ok "null"
  | VBool b => Ok (if b then "true" else "false")
  | VInt n => Ok (str_of_Z n)
  | VFloat x => Ok (json_float x)
  | VDec _ => raise TypeError "Object of type Decimal is not JSON serializable"
  | VStr s => Ok (json_str (jf_ensure_ascii f) s)
  | VList l =>
      ss ← (fix go (l : list val) : result (list string) :=
              match l with
              | [] => Ok []
              | x :: l' => s ← json_dumps f x; ss ← go l'; Ok (s :: ss)
              end) l;
      Ok ("[" +:+ join (jf_item f) ss +:+ "]")
  | VDict d =>
      ms ← (fix go (d : list (string * val)) : result (list (string * string)) :=
              match d with
              | [] => Ok []
              | (k, x) :: d' => s ← json_dumps f x; ms ← go d'; Ok ((k, s) :: ms)
              end) d;
      Ok (json_members f ms)
  end.

(** ** Decoding *)

Definition json_error {A} : result A := raise JSONDecodeError "invalid JSON document".

Definition is_json_space (c : ascii) : bool :=
  let n := char_code c in (n =? 32) || (n =? 9) || (n =? 10) || (n =? 13).

Definition skip_ws (s : string) : string := lstrip_with is_json_space s.

Definition hex4 (a b c d : ascii) : option Z :=
  x ← digit_val a; y ← digit_val b; z ← digit_val c; w ← digit_val d;
  if (x <? 16) && (y <? 16) && (z <? 16) && (w <? 16)
  then Some (((x * 16 + y) * 16 + z) * 16 + w) else None.

(** The UTF-8 bytes of a code point. *)
Definition utf8 (n : Z) : string :=
  if n <? 128 then String (chr n) ""
  else if n <? 2048 then String (chr (192 + n / 64)) (String (chr (128 + n mod 64)) "")
  else if n <? 65536 then
    String (chr (224 + n / 4096)) (String (chr (128 + n / 64 mod 64)) (String (chr (128 + n mod 64)) ""))
  else
    String (chr (240 + n / 262144)) (String (chr (128 + n / 4096 mod 64))
      (String (chr (128 + n / 64 mod 64)) (String (chr (128 + n mod 64)) ""))).

Definition unescape (c : ascii) : option ascii :=
  let n := char_code c in
  if (n =? 34) || (n =? 92) || (n =? 47) then Some c
  else if Ascii.eqb c "b" then Some (chr 8) else if Ascii.eqb c "f" then Some (chr 12)
  else if Ascii.eqb c "n" then Some (chr 10) else if Ascii.eqb c "r" then Some (chr 13)
  else if Ascii.eqb c "t" then Some (chr 9) else None.

Definition cons_text (t : string) (r : option (string * string)) : option (string * string) :=
  '(s, rest) ← r; Some (t +:+ s, rest).

(** The rest after the character [c]. *)
Definition after (c : ascii) (s : string) : option string :=
  match s with
  | String c' s' => if Ascii.eqb c' c then Some s' else None
  | EmptyString => None
  end.

Definition is_surrogate_pair (n m : Z) : bool :=
  (55296 <=? n) && (n <=? 56319) && (56320 <=? m) && (m <=? 57343).

(** The text after an opening quote: the string and what follows its closing
    quote. A pair of surrogate escapes is one character. *)
Fixpoint scan_string (s : string) : option (string * string) :=
  match s with
  | EmptyString => None
  | String c s1 =>
      if Ascii.eqb c dquote_char then Some (""%string, s1)
      else if Ascii.eqb c "\" then
        match s1 with
        | EmptyString => None
        | String e s2 =>
            if Ascii.eqb e "u" then
              match s2 with
              | String a (String b (String x (String d s3))) =>
                  match hex4 a b x d with
                  | None => None
                  | Some n =>
                      match s3 with
                      | String q (String u (String a2 (String b2 (String x2 (String d2 s4))))) =>
                          if Ascii.eqb q "\" && Ascii.eqb u "u" then
                            match hex4 a2 b2 x2 d2 with
                            | None => None
                            | Some m =>
                                if is_surrogate_pair n m
                                then cons_text (utf8 (65536 + (n - 55296) * 1024 + (m - 56320))) (scan_string s4)
                                else cons_text (utf8 n) (scan_string s3)
                            end
                          else cons_text (utf8 n) (scan_string s3)
                      | _ => cons_text (utf8 n) (scan_string s3)
                      end
                  end
              | _ => None
              end
            else
              match unescape e with
              | Some c' => cons_text (String c' "") (scan_string s2)
              | None => None
              end
        end
      else if char_code c <? 32 then None
      else cons_text (String c "") (scan_string s1)
  end.

Fixpoint span (p : ascii -> bool) (s : string) : string * string :=
  match s with
  | EmptyString => (EmptyString, EmptyString)
  | String c s' =>
      if p c then let '(a, b) := span p s' in (String c a, b) else (EmptyString, s)
  end.

(** The integer part: no leading zero before another digit. *)
Definition scan_int (s : string) : option (string * string) :=
  match s with
  | String c s' =>
      if Ascii.eqb c "0" then Some ("0"%string, s')
      else if is_digit c then Some (span is_digit s) else None
  | EmptyString => None
  end.

Definition scan_frac (s : string) : string * string :=
  match after "." s with
  | Some s' =>
      match span is_digit s' with
      | (EmptyString, _) => (EmptyString, s)
      | (f, rest) => ("." +:+ f, rest)
      end
  | None => (EmptyString, s)
  end.

Definition scan_exp (s : string) : string * string :=
  match s with
  | String c s' =>
      if Ascii.eqb c "e" || Ascii.eqb c "E" then
        let '(sign, s2) :=
          match after "+" s', after "-" s' with
          | Some t, _ => ("+"%string, t)
          | _, Some t => ("-"%string, t)
          | _, _ => (EmptyString, s')
          end in
        match span is_digit s2 with
        | (EmptyString, _) => (EmptyString, s)
        | (e, rest) => (String c (sign +:+ e), rest)
        end
      else (EmptyString, s)
  | EmptyString => (EmptyString, s)
  end.

Definition scan_number (s : string) : result (val * string) :=
  let '(sign, s1) := match after "-" s with Some t => ("-"%string, t) | None => (EmptyString, s) end in
  match scan_int s1 with
  | None => json_error
  | Some (i, s2) =>
      let '(f, s3) := scan_frac s2 in
      let '(e, s4) := scan_exp s3 in
      if is_empty f && is_empty e then
        n ← int_of_val (VStr (sign +:+ i)); Ok (VInt n, s4)
      else
        x ← float_of_val (VStr (sign +:+ i +:+ f +:+ e)); Ok (VFloat x, s4)
  end.

(** [null], [true], and the like, and the numbers. *)
Definition scan_atom (s : string) : result (val * string) :=
  let word w v := if starts_with w s then Some (v, str_drop (String.length w) s) else None in
  match word "null" VNone with Some r => Ok r | None =>
  match word "true" (VBool true) with Some r => Ok r | None =>
  match word "false" (VBool false) with Some r => Ok r | None =>
  match word "NaN" (VFloat S754_nan) with Some r => Ok r | None =>
  match word "Infinity" (VFloat (S754_infinity false)) with Some r => Ok r | None =>
  match word "-Infinity" (VFloat (S754_infinity true)) with Some r => Ok r | None =>
  scan_number s end end end end end end.

(** A value, the rest of a non-empty array, and the rest of a non-empty object
    (whose pairs so far are [acc], oldest first). Later pairs win. *)
Fixpoint scan_value (fuel : nat) (s : string) : result (val * string) :=
  match fuel, s with
  | S k, String c s1 =>
      if Ascii.eqb c dquote_char then
        match scan_string s1 with Some (t, rest) => Ok (VStr t, rest) | None => json_error end
      else if Ascii.eqb c "[" then
        match after "]" (skip_ws s1) with
        | Some rest => Ok (VList [], rest)
        | None => '(l, rest) ← scan_items k (skip_ws s1); Ok (VList l, rest)
        end
      else if Ascii.eqb c "{" then
        match after "}" (skip_ws s1) with
        | Some rest => Ok (VDict [], rest)
        | None => '(d, rest) ← scan_members k [] (skip_ws s1); Ok (VDict d, rest)
        end
      else scan_atom s
  | _, _ => json_error
  end
with scan_items (fuel : nat) (s : string) : result (list val * string) :=
  match fuel with
  | O => json_error
  | S k =>
      '(v, s1) ← scan_value k s;
      match after "]" (skip_ws s1), after "," (skip_ws s1) with
      | Some rest, _ => Ok ([v], rest)
      | _, Some s2 => '(l, rest) ← scan_items k (skip_ws s2); Ok (v :: l, rest)
      | _, _ => json_error
      end
  end
with scan_members (fuel : nat) (acc : dict) (s : string) : result (dict * string) :=
  match fuel, after dquote_char s with
  | S k, Some s1 =>
      match scan_string s1 with
      | None => json_error
      | Some (key, s2) =>
          match after ":" (skip_ws s2) with
          | None => json_error
          | Some s3 =>
              '(v, s4) ← scan_value k (skip_ws s3);
              match after "}" (skip_ws s4), after "," (skip_ws s4) with
              | Some rest, _ => Ok (dict_set key v acc, rest)
              | _, Some s5 => scan_members k (dict_set key v acc) (skip_ws s5)
              | _, _ => json_error
              end
          end
      end
  | _, _ => json_error
  end.

(** Every call consumes a character or is followed by one that does. *)
Definition json_loads (s : string) : result val :=
  '(v, rest) ← scan_value (2 * String.length s + 2) (skip_ws s);
  if is_empty (skip_ws rest) then Ok v else json_error.

(** Examples are written with single quotes. *)
Definition quoted (s : string) : string := replace "'" (String dquote_char "") s.

Example json_loads_ex :
  json_loads (quoted " {'a': [1, -2.5e1, true], 'b': {'c': null, 'c': 'x\u0041'}, 'd': []} ") =
    Ok (VDict [("a"%string, VList [VInt 1; VFloat (flit (-25) 0); VBool true]);
               ("b"%string, VDict [("c"%string, VStr "xA")]); ("d"%string, VList [])]) /\
  json_loads "01" = json_error /\ json_loads "[1,]" = json_error /\ json_loads (quoted "{'a' 1}") = json_error.
Proof. vm_compute. done. Qed.

Example json_dumps_ex :
  json_dumps json_plain (VDict [("b"%string, VList [VInt 1; VStr "x'y"]); ("a"%string, VNone)]) =
    Ok (replace "|" "'" (quoted "{'b': [1, 'x|y'], 'a': null}")) /\
  json_dumps json_canonical (VDict [("b"%string, VFloat fone); ("a"%string, VStr (String (chr 10) ""))]) =
    Ok (quoted "{'a':'\n','b':1.0}").
Proof. vm_compute. done. Qed.

(** ** Reading back what was written *)

(** A character that ends a number: the text of a value is followed by one of
    these or by the end. *)
Definition stops (t : string) : bool :=
  match t with
  | EmptyString => true
  | String c _ => Ascii.eqb c "," || Ascii.eqb c "]" || Ascii.eqb c "}"
  end.

Definition rest_app {A} (t : string) (r : A * string) : A * string := (r.1, r.2 +:+ t).

Lemma span_app p s t :
  (match t with String c _ => p c = false | EmptyString => True end) ->
  span p (s +:+ t) = rest_app t (span p s).
Proof.
  intros Ht. induction s as [|c s IH].
  - change ("" +:+ t) with t. destruct t as [|c t]; simpl; [done|by rewrite Ht].
  - rewrite append_cons. simpl. destruct (p c); [|done]. rewrite IH. by destruct (span p s).
Qed.

Lemma after_app c s t : after c t = None -> after c (s +:+ t) = (fun r => r +:+ t) <$> after c s.
Proof. intros Ht. destruct s as [|d s]; [done|]. simpl. by destruct (Ascii.eqb d c). Qed.

Lemma stops_digit t : stops t = true -> match t with String c _ => is_digit c = false | EmptyString => True end.
Proof. destruct t as [|c t]; [done|]. simpl. by destruct c as [[] [] [] [] [] [] [] []]. Qed.

Lemma stops_after c t : stops t = true -> Ascii.eqb c "," || Ascii.eqb c "]" || Ascii.eqb c "}" = false -> after c t = None.
Proof.
  destruct t as [|d t]; [done|]. intros Hd Hc. unfold after.
  destruct (Ascii.eqb_spec d c) as [->|]; [|done]. simpl in Hd. congruence.
Qed.

Lemma scan_int_app s t : stops t = true -> scan_int (s +:+ t) = rest_app t <$> scan_int s.
Proof.
  intros Ht. destruct s as [|c s].
  - change ("" +:+ t) with t. apply stops_digit in Ht. destruct t as [|d t]; [done|]. simpl.
    destruct (Ascii.eqb_spec d "0") as [->|]; [done|]. by rewrite Ht.
  - rewrite append_cons. unfold scan_int. destruct (Ascii.eqb c "0"); [done|]. destruct (is_digit c); [|done].
    rewrite <- append_cons, span_app by by apply stops_digit. done.
Qed.

Lemma scan_frac_app s t : stops t = true -> scan_frac (s +:+ t) = rest_app t (scan_frac s).
Proof.
  intros Ht. unfold scan_frac. rewrite after_app by by apply stops_after.
  destruct (after "." s) as [s'|]; simpl; [|done].
  rewrite span_app by by apply stops_digit. by destruct (span is_digit s') as [[|] r].
Qed.

Lemma scan_exp_app s t : stops t = true -> scan_exp (s +:+ t) = rest_app t (scan_exp s).
Proof.
  intros Ht. destruct s as [|c s].
  - change ("" +:+ t) with t. destruct t as [|d t]; [done|]. unfold scan_exp.
    assert (Ascii.eqb d "e" || Ascii.eqb d "E" = false) as -> by
      (simpl in Ht; by destruct d as [[] [] [] [] [] [] [] []]). done.
  - rewrite append_cons. unfold scan_exp. destruct (_ || _); [|done].
    rewrite !(after_app _ s t) by by apply stops_after.
    destruct (after "+" s) as [r|]; simpl.
    + rewrite span_app by by apply stops_digit. by destruct (span is_digit r) as [[|] ?].
    + destruct (after "-" s) as [r|]; simpl; rewrite span_app by (by apply stops_digit);
        by destruct (span is_digit _) as [[|] ?].
Qed.

Lemma scan_number_app s t : stops t = true -> scan_number (s +:+ t) = rest_app t <$> scan_number s.
Proof.
  intros Ht. unfold scan_number. rewrite after_app by by apply stops_after.
  destruct (after "-" s) as [s1|]; simpl; rewrite scan_int_app by done;
    (destruct (scan_int _) as [[i s2]|]; simpl; [|done]);
    rewrite scan_frac_app by done; destruct (scan_frac s2) as [f s3]; simpl;
    rewrite scan_exp_app by done; destruct (scan_exp s3) as [e s4]; simpl;
    (destruct (is_empty f && is_empty e); [by destruct (int_of_string _)|by destruct (float_of_string _)]).
Qed.

(** A number is not one of the words. *)
Lemma scan_number_atom s r : scan_number s = Ok r -> scan_atom s = Ok r.
Proof.
  intros H. unfold scan_atom. destruct s as [|c s]; [done|].
  assert (Hc : c = "-"%char /\ (exists d s', s = String d s' /\ is_digit d = true) \/ is_digit c = true).
  { unfold scan_number, after in H. destruct (Ascii.eqb_spec c "-") as [->|].
    - left. split; [done|]. destruct s as [|d s']; [done|]. exists d, s'. split; [done|].
      unfold scan_int in H. destruct (Ascii.eqb_spec d "0") as [->|]; [done|]. by destruct (is_digit d).
    - right. unfold scan_int in H. destruct (Ascii.eqb_spec c "0") as [->|]; [done|]. by destruct (is_digit c). }
  destruct Hc as [[-> (d & s' & -> & Hd)]|Hd].
  - by destruct d as [[] [] [] [] [] [] [] []].
  - by destruct c as [[] [] [] [] [] [] [] []].
Qed.

(** *** Strings *)

Definition is_ascii (s : string) : bool := str_forallb (fun c => char_code c <? 128) s.

(** An escape that is not a high surrogate stands for itself. *)
Lemma scan_unicode a b x d n s :
  hex4 a b x d = Some n -> n < 55296 ->
  scan_string (String "\" (String "u" (String a (String b (String x (String d s)))))) =
  cons_text (utf8 n) (scan_string s).
Proof.
  intros Hn Hlt. cbn [scan_string]. simpl (Ascii.eqb _ _). cbv iota. rewrite Hn.
  destruct s as [|q [|u [|a2 [|b2 [|x2 [|d2 s4]]]]]]; try done.
  destruct (Ascii.eqb_spec q "\") as [->|]; [|done]. destruct (Ascii.eqb_spec u "u") as [->|]; [|done].
  cbn [andb]. destruct (hex4 a2 b2 x2 d2) as [m|] eqn:Hm.
  - unfold is_surrogate_pair. by rewrite (proj2 (Z.leb_gt _ _)).
  - cbn [scan_string]. simpl (Ascii.eqb _ _). cbv iota. by rewrite Hm.
Qed.

Lemma scan_unicode_char a b x d n c s :
  hex4 a b x d = Some n -> n < 55296 -> utf8 n = String c "" ->
  scan_string (String "\" (String "u" (String a (String b (String x (String d s)))))) =
  cons_text (String c "") (scan_string s).
Proof. intros Hn Hlt <-. by apply scan_unicode. Qed.

Lemma scan_json_char b c t :
  char_code c <? 128 = true -> scan_string (json_char b c +:+ t) = cons_text (String c "") (scan_string t).
Proof.
  intros Hc. destruct b, c as [[] [] [] [] [] [] [] []]; try discriminate Hc; clear Hc;
    match goal with |- scan_string (?j +:+ t) = _ =>
      let v := eval vm_compute in j in change j with v;
      lazymatch v with
      | String _ (String "u" (String ?a (String ?b (String ?x (String ?d ""))))) =>
          let n := eval vm_compute in (hex4 a b x d) in
          lazymatch n with Some ?n => exact (scan_unicode_char a b x d n _ t eq_refl eq_refl eq_refl) end
      | _ => reflexivity
      end
    end.
Qed.

Lemma scan_json_chars b s t :
  is_ascii s = true -> scan_string (json_chars b s +:+ String dquote_char t) = Some (s, t).
Proof.
  induction s as [|c s IH]; [done|]. unfold is_ascii. simpl. intros H. apply andb_true_iff in H as [H1 H2].
  rewrite append_assoc, scan_json_char by done. by rewrite IH.
Qed.

(** *** Numbers *)

Lemma span_decimal s n : decimal s n -> span is_digit s = (s, ""%string).
Proof.
  intros H%decimal_digits. revert H. induction s as [|c s IH]; simpl; [done|].
  intros [-> H2]%andb_true_iff. by rewrite IH.
Qed.

Lemma decimal_int s n c p :
  s = String c p -> decimal s n -> (Ascii.eqb c "0" = false \/ s = "0"%string) -> scan_int s = Some (s, ""%string).
Proof.
  intros -> Hd [Hc|Hc].
  - unfold scan_int. rewrite Hc. apply decimal_digits in Hd as Hf. simpl in Hf.
    apply andb_true_iff in Hf as [-> _]. by rewrite (span_decimal _ _ Hd).
  - by injection Hc as -> ->.
Qed.

Definition int_fits (n : Z) : bool := (String.length (str_of_Z (Z.abs n)) <=? max_str_digits)%nat.

Lemma count_digits_decimal s n : decimal s n -> count_digits s = String.length s.
Proof.
  intros H%decimal_digits. revert H. induction s as [|c s IH]; simpl; [done|].
  intros [Hc H2]%andb_true_iff. rewrite (digit_not_underscore c Hc). by rewrite IH.
Qed.

Lemma strip_decimal s n : decimal s n -> strip s = s.
Proof.
  intros H. apply strip_with_absent. eapply str_forallb_impl; [|exact (decimal_digits _ _ H)].
  intros c. by destruct c as [[] [] [] [] [] [] [] []].
Qed.

Lemma strip_minus_decimal s n : decimal s n -> strip (String "-" s) = String "-" s.
Proof.
  intros H. apply strip_with_absent. simpl. eapply str_forallb_impl; [|exact (decimal_digits _ _ H)].
  intros c. by destruct c as [[] [] [] [] [] [] [] []].
Qed.

Lemma int_of_decimal (neg : bool) c p n :
  decimal (String c p) n -> (String.length (String c p) <= max_str_digits)%nat ->
  int_of_string (if neg then String "-" (String c p) else String c p) = Some (if neg then - n else n).
Proof.
  intros Hd Hl. unfold int_of_string.
  pose proof (decimal_read _ _ 0 false "" Hd ltac:(by left)) as Hr. rewrite append_nil_r in Hr.
  assert (Hn : int_digits 10 0 false (String c p) = Some n) by (rewrite Hr; simpl; f_equal; lia).
  apply decimal_digits in Hd as Hc. simpl in Hc. apply andb_true_iff in Hc as [Hc _].
  destruct neg.
  - rewrite (strip_minus_decimal _ _ Hd), (count_digits_decimal _ _ Hd), (proj2 (Nat.ltb_ge _ _)) by done.
    by rewrite Hn.
  - rewrite (strip_decimal _ _ Hd).
    assert (E : match String c p with
                | String "-" u => (true, u) | String "+" u => (false, u) | _ => (false, String c p)
                end = (false, String c p)) by (by destruct c as [[] [] [] [] [] [] [] []]).
    rewrite E. rewrite (count_digits_decimal _ _ Hd), (proj2 (Nat.ltb_ge _ _)) by done. by rewrite Hn.
Qed.

Lemma scan_str_of_Z n : int_fits n = true -> scan_number (str_of_Z n) = Ok (VInt n, ""%string).
Proof.
  unfold int_fits. intros Hf%Nat.leb_le.
  destruct (str_of_Z_decimal (Z.abs n)) as (c & p & Hs & Hd & Hz); [lia|]. rewrite Hs in Hf, Hz.
  pose proof (decimal_int _ _ _ _ eq_refl Hd Hz) as Hi.
  destruct (Z.ltb_spec n 0) as [Hn|Hn].
  - rewrite str_of_Z_neg by done. replace (- n) with (Z.abs n) by lia. rewrite Hs. unfold scan_number.
    cbn [after]. simpl (Ascii.eqb _ _). cbv iota. rewrite Hi. cbn [scan_frac scan_exp after is_empty andb int_of_val].
    change ("-" +:+ String c p) with (String "-" (String c p)).
    pose proof (int_of_decimal true _ _ _ Hd Hf) as ->. simpl. do 2 f_equal. f_equal. lia.
  - rewrite Z.abs_eq in Hs, Hd by lia. rewrite Hs. unfold scan_number.
    assert (after "-" (String c p) = None) as ->.
    { apply decimal_digits in Hd. simpl in Hd. apply andb_true_iff in Hd as [Hd _].
      by destruct c as [[] [] [] [] [] [] [] []]. }
    rewrite Hi. cbn [scan_frac scan_exp after is_empty andb int_of_val].
    change ("" +:+ String c p) with (String c p). by pose proof (int_of_decimal false _ _ _ Hd Hf) as ->.
Qed.

(** *** Values *)

#[export] Instance f64_eq_dec : EqDecision f64.
Proof. solve_decision. Defined.

(** A float whose text is a JSON number that reads back as the float (the words
    [NaN] and [Infinity] always do). *)
Definition float_reads (x : f64) : bool :=
  match x with
  | S754_nan | S754_infinity _ => true
  | _ =>
      match scan_number (float_repr x) with
      | Ok (VFloat y, rest) => is_empty rest && bool_decide (y = x)
      | _ => false
      end
  end.

(** Values without Decimals, in ASCII, with distinct keys. *)
Fixpoint json_safe (v : val) : bool :=
  match v with
  | VNone | VBool _ => true
  | VInt n => int_fits n
  | VFloat x => float_reads x
  | VDec _ => false
  | VStr s => is_ascii s
  | VList l => forallb json_safe l
  | VDict d =>
      bool_decide (NoDup d.*1) && forallb (fun kv => is_ascii kv.1 && json_safe kv.2) d
  end.

(** The formats that keep the order of keys and use separators JSON allows. *)
Record reads_format (f : json_format) : Prop := {
  rd_item : exists w, jf_item f = String "," w /\ str_forallb is_json_space w = true;
  rd_key : exists w, jf_key f = String ":" w /\ str_forallb is_json_space w = true;
  rd_order : jf_sort_keys f = false;
}.

Lemma json_plain_reads : reads_format json_plain.
Proof. split; [by exists " "%string..|done]. Qed.
Lemma json_compact_reads : reads_format json_compact.
Proof. split; [by exists ""%string..|done]. Qed.

Lemma skip_ws_spaces w t : str_forallb is_json_space w = true -> skip_ws (w +:+ t) = skip_ws t.
Proof.
  induction w as [|c w IH]; [done|]. cbn [str_forallb]. intros [Hc Hw]%andb_true_iff.
  rewrite append_cons. unfold skip_ws. cbn [lstrip_with]. rewrite Hc. by apply IH.
Qed.

(** The text [s] is read as [v], whatever follows, and starts a value. *)
Record reads (s : string) (v : val) : Prop := {
  rd_head : exists c s', s = String c s' /\ is_json_space c = false /\ Ascii.eqb c "]" = false;
  rd_value fuel t : (2 * String.length s <= fuel)%nat -> stops t = true ->
                    scan_value fuel (s +:+ t) = Ok (v, t);
}.

Lemma reads_skip s v t : reads s v -> skip_ws (s +:+ t) = s +:+ t.
Proof. intros [(c & s' & -> & Hc & _) _]. rewrite append_cons. unfold skip_ws. simpl. by rewrite Hc. Qed.

Lemma skip_stop c t : is_json_space c = false -> skip_ws (String c t) = String c t.
Proof. intros H. unfold skip_ws. simpl. by rewrite H. Qed.

Lemma scan_atom_reads s v c s' :
  s = String c s' -> is_json_space c = false ->
  Ascii.eqb c dquote_char || Ascii.eqb c "[" || Ascii.eqb c "{" || Ascii.eqb c "]" = false ->
  (forall t, stops t = true -> scan_atom (s +:+ t) = Ok (v, t)) -> reads s v.
Proof.
  intros -> Hc Hn Ht. rewrite !orb_false_iff in Hn. destruct Hn as [[[H1 H2] H3] H4].
  split; [by exists c, s'|]. intros [|fuel] t Hf Hs; [simpl in Hf; lia|].
  rewrite append_cons. cbn [scan_value]. rewrite H1, H2, H3, <- append_cons. by apply Ht.
Qed.

Lemma scan_number_reads s v : scan_number s = Ok (v, ""%string) -> reads s v.
Proof.
  intros H.
  assert (Hh : exists c s', s = String c s' /\ (Ascii.eqb c "-" || is_digit c) = true).
  { destruct s as [|c s]; [done|]. exists c, s. split; [done|]. unfold scan_number, after in H.
    destruct (Ascii.eqb c "-"); [done|]. unfold scan_int in H.
    destruct (Ascii.eqb_spec c "0") as [->|]; [done|]. by destruct (is_digit c). }
  destruct Hh as (c & s' & Hs & Hc).
  apply (scan_atom_reads _ _ c s' Hs).
  - by destruct c as [[] [] [] [] [] [] [] []].
  - by destruct c as [[] [] [] [] [] [] [] []].
  - intros t Ht. apply scan_number_atom. by rewrite scan_number_app, H.
Qed.

Lemma json_str_reads b s : is_ascii s = true -> reads (json_str b s) (VStr s).
Proof.
  intros Hs. split; [by eexists _, _|]. intros [|fuel] t Hf Ht; [simpl in Hf; lia|].
  unfold json_str. rewrite append_cons, append_assoc. cbn [scan_value].
  rewrite Ascii.eqb_refl. by rewrite append_cons, scan_json_chars.
Qed.

Lemma json_float_reads x : float_reads x = true -> reads (json_float x) (VFloat x).
Proof.
  assert (Hnum : match scan_number (float_repr x) with
                 | Ok (VFloat y, rest) => is_empty rest && bool_decide (y = x)
                 | _ => false
                 end = true -> reads (float_repr x) (VFloat x)).
  { intros H. apply scan_number_reads. destruct (scan_number _) as [[[| | |y| | | |] [|]]|]; try done.
    simpl in H. apply bool_decide_eq_true in H. by subst. }
  destruct x as [s|s| |s m e]; [exact Hnum| | |exact Hnum]; intros _.
  - destruct s; (eapply scan_atom_reads; [reflexivity..|intros t _]); unfold scan_atom; by destruct t.
  - eapply scan_atom_reads; [reflexivity..|intros t _]; unfold scan_atom; by destruct t.
Qed.

Lemma dict_set_fresh k v (d : dict) : k ∉ d.*1 -> dict_set k v d = d ++ [(k, v)].
Proof.
  induction d as [|[k' v'] d IH]; csimpl; [done|]. intros Hk.
  destruct (String.eqb_spec k k') as [->|]; [set_solver|]. rewrite IH; set_solver.
Qed.

Section read_back.
Context (f : json_format) (Hf : reads_format f).

Lemma read_items ss l t fuel :
  Forall2 reads ss l -> ss <> [] -> (2 * String.length (join (jf_item f) ss) + 1 <= fuel)%nat ->
  scan_items fuel (join (jf_item f) ss +:+ String "]" t) = Ok (l, t).
Proof using Hf.
  destruct Hf as [(w & Hw & Hsp) _ _]. intros H. revert fuel.
  induction H as [|s v ss l Hs Hss IH]; intros fuel Hne Hfuel; [done|].
  destruct fuel as [|fuel]; [lia|]. cbn [scan_items]. destruct ss as [|s2 ss].
  - inversion Hss; subst. change (join _ [s]) with s in *. rewrite (rd_value _ _ Hs) by (done || lia).
    done.
  - assert (Hsk : forall r, skip_ws (join (jf_item f) (s2 :: ss) +:+ r) = join (jf_item f) (s2 :: ss) +:+ r).
    { intros r. inversion Hss as [|? v2 ? ? H2 _]; subst. destruct ss as [|s3 ss].
      - by apply (reads_skip _ v2).
      - rewrite join_cons_cons, append_assoc. by apply (reads_skip _ v2). }
    rewrite join_cons_cons in Hfuel |- *. specialize (IH fuel ltac:(done)).
    set (J := join (jf_item f) (s2 :: ss)) in *. rewrite !append_length, Hw in Hfuel. cbn [String.length] in Hfuel.
    rewrite Hw, !append_assoc, (append_cons ","%char).
    rewrite (rd_value _ _ Hs) by (done || lia). cbn [mbind result_bind]. rewrite !skip_stop by done.
    cbn [after]. simpl (Ascii.eqb _ _). cbv iota. rewrite ?append_assoc, skip_ws_spaces by done.
    rewrite Hsk, IH; [done|lia].
Qed.

Definition member (kv : string * string) : string :=
  json_str (jf_ensure_ascii f) kv.1 +:+ jf_key f +:+ kv.2.

Lemma read_members ms d acc t fuel :
  Forall2 (fun m kv => m.1 = kv.1 /\ is_ascii m.1 = true /\ reads m.2 kv.2) ms d -> ms <> [] ->
  NoDup (acc ++ d).*1 -> (2 * String.length (join (jf_item f) (member <$> ms)) + 1 <= fuel)%nat ->
  scan_members fuel acc (join (jf_item f) (member <$> ms) +:+ String "}" t) = Ok (acc ++ d, t).
Proof using Hf.
  destruct Hf as [(w & Hw & Hsp) (u & Hu & Husp) _]. intros H. revert fuel acc.
  induction H as [|[k s] [k' v] ms d [E [Ha Hs]] Hms IH]; intros fuel acc Hne Hnd Hfuel; [done|].
  simpl in E, Ha, Hs. subst k'. destruct fuel as [|fuel]; [lia|]. cbn [scan_members].
  assert (Hfresh : k ∉ acc.*1).
  { rewrite fmap_app in Hnd. apply NoDup_app in Hnd as (_ & Hnd & _). intros Hk. apply (Hnd k Hk). left. }
  assert (Hstep : forall r, scan_string (json_chars (jf_ensure_ascii f) k +:+ String dquote_char r) = Some (k, r))
    by (intros; by apply scan_json_chars).
  assert (Hlen : (String.length s + 2 <= String.length (member (k, s)))%nat).
  { unfold member, json_str. simpl. rewrite !append_length, Hu. simpl. lia. }
  assert (Hmem : forall r, member (k, s) +:+ r =
            String dquote_char (json_chars (jf_ensure_ascii f) k +:+ String dquote_char (String ":" (u +:+ (s +:+ r))))).
  { intros r. unfold member, json_str. cbn [fst snd]. rewrite Hu.
    by rewrite !append_assoc, !append_cons, !append_assoc. }
  destruct ms as [|m2 ms].
  - inversion Hms; subst. change (join _ (member <$> [(k, s)])) with (member (k, s)) in *.
    rewrite Hmem. cbn [after]. rewrite Ascii.eqb_refl, Hstep, skip_stop by done.
    cbn [after]. simpl (Ascii.eqb ":" ":"). cbv iota. rewrite skip_ws_spaces, (reads_skip _ _ _ Hs) by done.
    rewrite (rd_value _ _ Hs) by (done || lia). simpl. by rewrite dict_set_fresh.
  - assert (Hsk : forall r, skip_ws (join (jf_item f) (member <$> m2 :: ms) +:+ r) =
                            join (jf_item f) (member <$> m2 :: ms) +:+ r).
    { intros r. csimpl. by destruct (member <$> ms). }
    specialize (IH fuel (acc ++ [(k, v)]) ltac:(done)). rewrite <- app_assoc in IH. specialize (IH Hnd).
    rewrite fmap_cons in Hfuel |- *.
    change (join (jf_item f) (member (k, s) :: (member <$> m2 :: ms))) with
      (member (k, s) +:+ jf_item f +:+ join (jf_item f) (member <$> m2 :: ms)) in *.
    set (J := join (jf_item f) (member <$> m2 :: ms)) in *.
    rewrite !append_length, Hw in Hfuel. cbn [String.length] in Hfuel.
    rewrite Hw, append_assoc, Hmem. cbn [after]. rewrite Ascii.eqb_refl, Hstep, skip_stop by done.
    cbn [after]. simpl (Ascii.eqb ":" ":"). cbv iota.
    rewrite skip_ws_spaces, (reads_skip _ _ _ Hs) by done. rewrite !append_cons.
    rewrite (rd_value _ _ Hs) by (done || lia). cbn [mbind result_bind]. rewrite !skip_stop by done.
    cbn [after]. simpl (Ascii.eqb _ _). cbv iota. rewrite ?append_assoc, skip_ws_spaces by done.
    rewrite dict_set_fresh, Hsk, IH by (done || lia). done.
Qed.

(** The traversals inside [json_dumps]. *)
Lemma dumps_list l :
  json_dumps f (VList l) = ss ← map_res (json_dumps f) l; Ok ("[" +:+ join (jf_item f) ss +:+ "]").
Proof.
  simpl. f_equal. induction l as [|x l IH]; simpl; [done|]. destruct (json_dumps f x); simpl; [|done].
  by rewrite IH.
Qed.

Lemma dumps_dict d :
  json_dumps f (VDict d) =
  ms ← map_res (fun kv => s ← json_dumps f kv.2; Ok (kv.1, s)) d; Ok (json_members f ms).
Proof.
  simpl. f_equal. induction d as [|[k x] d IH]; simpl; [done|]. destruct (json_dumps f x); simpl; [|done].
  by rewrite IH.
Qed.

Lemma reads_list ss l :
  Forall2 reads ss l -> reads ("[" +:+ join (jf_item f) ss +:+ "]") (VList l).
Proof using Hf.
  intros H. split; [by eexists _, _|]. intros [|fuel] t Hfuel Ht.
  { rewrite append_length in Hfuel. simpl (String.length _) in Hfuel at 1. lia. }
  rewrite !append_assoc. change ("[" +:+ ?s) with (String "[" s). cbn [scan_value]. simpl (Ascii.eqb _ _).
  cbv iota. change ("]" +:+ t) with (String "]" t). inversion H as [|s v ss' l' Hs Hss]; subst; [done|].
  assert (Hsk : skip_ws (join (jf_item f) (s :: ss') +:+ String "]" t) = join (jf_item f) (s :: ss') +:+ String "]" t
                /\ after "]" (join (jf_item f) (s :: ss') +:+ String "]" t) = None).
  { destruct (rd_head _ _ Hs) as (c & s' & -> & Hc & Hb).
    assert (exists r, join (jf_item f) (String c s' :: ss') = String c r) as [r ->].
    { destruct ss'; [by exists s'|]. rewrite join_cons_cons. by eexists. }
    rewrite append_cons, skip_stop by done. split; [done|]. simpl. by rewrite Hb. }
  destruct Hsk as [-> ->]. rewrite read_items with (l := v :: l'); [done|done|done|].
  rewrite !append_length in Hfuel. simpl (String.length "[") in Hfuel. lia.
Qed.

Lemma reads_dict ms d :
  Forall2 (fun m kv => m.1 = kv.1 /\ is_ascii m.1 = true /\ reads m.2 kv.2) ms d -> NoDup d.*1 ->
  reads (json_members f ms) (VDict d).
Proof using Hf.
  intros H Hd. unfold json_members. rewrite (rd_order _ Hf).
  split; [by eexists _, _|]. intros [|fuel] t Hfuel Ht.
  { rewrite append_length in Hfuel. simpl (String.length _) in Hfuel at 1. lia. }
  rewrite !append_assoc. change ("{" +:+ ?s) with (String "{" s). cbn [scan_value]. simpl (Ascii.eqb _ _).
  cbv iota. change ("}" +:+ t) with (String "}" t).
  inversion H as [|m kv ms' d' Hm Hms]; subst; [done|]. fold member in *.
  assert (Hsk : skip_ws (join (jf_item f) (member <$> m :: ms') +:+ String "}" t) =
                join (jf_item f) (member <$> m :: ms') +:+ String "}" t
                /\ after "}" (join (jf_item f) (member <$> m :: ms') +:+ String "}" t) = None).
  { csimpl. by destruct (member <$> ms'). }
  destruct Hsk as [-> ->]. rewrite read_members with (d := kv :: d') (acc := []); [done..|].
  rewrite !append_length in Hfuel. simpl (String.length "{") in Hfuel. lia.
Qed.

(** What [json.dumps] writes is read as the value it was given. *)
Lemma dumps_reads v : json_safe v = true -> exists s, json_dumps f v = Ok s /\ reads s v.
Proof using Hf.
  induction v as [|b|n|x|d|s|l IH|d IH] using val_ind_nested; intros Hs.
  - eexists. split; [done|]. eapply scan_atom_reads; [reflexivity..|]. intros t _. unfold scan_atom. by destruct t.
  - eexists. split; [done|]. destruct b; (eapply scan_atom_reads; [reflexivity..|]);
      intros t _; unfold scan_atom; by destruct t.
  - eexists. split; [done|]. apply scan_number_reads. by apply scan_str_of_Z.
  - eexists. split; [done|]. by apply json_float_reads.
  - done.
  - eexists. split; [done|]. by apply json_str_reads.
  - assert (exists ss, map_res (json_dumps f) l = Ok ss /\ Forall2 reads ss l) as (ss & Hm & Hr).
    { cbn [json_safe] in Hs. induction IH as [|x l Hx Hl IHl]; [by exists []|]. simpl in Hs.
      apply andb_true_iff in Hs as [H1 H2]. destruct (Hx H1) as (s & E & Hr). destruct (IHl H2) as (ss & E2 & Hr2).
      exists (s :: ss). simpl. rewrite E. simpl. rewrite E2. split; [done|by constructor]. }
    rewrite dumps_list, Hm. eexists. split; [done|]. by apply reads_list.
  - cbn [json_safe] in Hs. apply andb_true_iff in Hs as [Hnd%bool_decide_eq_true Hs].
    assert (exists ms, map_res (fun kv => s ← json_dumps f kv.2; Ok (kv.1, s)) d = Ok ms /\
              Forall2 (fun m kv => m.1 = kv.1 /\ is_ascii m.1 = true /\ reads m.2 kv.2) ms d) as (ms & Hm & Hr).
    { clear Hnd. induction IH as [|x d Hx Hd IHd]; [by exists []|]. simpl in Hs.
      apply andb_true_iff in Hs as [H1 H2]. apply andb_true_iff in H1 as [Ha H1].
      destruct (Hx H1) as (s & E & Hr). destruct (IHd H2) as (ms & E2 & Hr2).
      exists ((x.1, s) :: ms). simpl. rewrite E. simpl. rewrite E2. split; [done|by constructor]. }
    rewrite dumps_dict, Hm. eexists. split; [done|]. by apply reads_dict.
Qed.

(** [json.loads(json.dumps(v)) == v] *)
Lemma json_roundtrip v : json_safe v = true -> json_dumps f v ≫= json_loads = Ok v.
Proof using Hf.
  intros (s & E & Hr)%dumps_reads. rewrite E. simpl. unfold json_loads.
  pose proof (reads_skip _ _ "" Hr) as Hk. rewrite append_nil_r in Hk. rewrite Hk.
  pose proof (rd_value _ _ Hr (2 * String.length s + 2) "" ltac:(lia) eq_refl) as Hv.
  rewrite append_nil_r in Hv. by rewrite Hv.
Qed.
End read_back.

(** ** The text of a value is ASCII *)

Create HintDb ascii_text.

Lemma is_ascii_app a b : is_ascii a = true -> is_ascii b = true -> is_ascii (a +:+ b) = true.
Proof.
  unfold is_ascii. induction a as [|c a IH]; [done|]. rewrite append_cons. simpl. intros [H1 H2]%andb_true_iff Hb.
  by rewrite H1, IH.
Qed.

Lemma is_ascii_digits s : str_forallb is_digit s = true -> is_ascii s = true.
Proof.
  unfold is_ascii. induction s as [|c s IH]; [done|]. simpl. intros [H1 H2]%andb_true_iff. rewrite IH by done.
  unfold is_digit in H1. apply andb_true_iff in H1 as [_ H1]. apply andb_true_iff. split; [|done]. lia.
Qed.

Lemma is_ascii_take n s : is_ascii s = true -> is_ascii (str_take n s) = true.
Proof.
  unfold is_ascii. revert n. induction s as [|c s IH]; intros [|n]; try done. simpl. intros [H1 H2]%andb_true_iff.
  by rewrite H1, IH.
Qed.

Lemma is_ascii_drop n s : is_ascii s = true -> is_ascii (str_drop n s) = true.
Proof.
  unfold is_ascii. revert n. induction s as [|c s IH]; intros [|n]; try done. simpl. intros [H1 H2]%andb_true_iff.
  by apply IH.
Qed.

Lemma is_ascii_repeat n : is_ascii (repeat_char "0" n) = true.
Proof. unfold is_ascii. induction n as [|n IH]; [done|]. exact IH. Qed.

Lemma is_ascii_Z n : is_ascii (str_of_Z n) = true.
Proof.
  assert (Hnn : forall k, 0 <= k -> is_ascii (str_of_Z k) = true).
  { intros k (c & p & -> & Hd & _)%str_of_Z_decimal. by eapply is_ascii_digits, decimal_digits. }
  destruct (Z_lt_le_dec n 0) as [Hn|Hn]; [|by apply Hnn]. rewrite str_of_Z_neg by done.
  apply (is_ascii_app "-"); [done|]. apply Hnn. lia.
Qed.

Lemma is_ascii_zpad w n : is_ascii (zpad w n) = true.
Proof.
  unfold zpad, pad_left. induction (w - _)%nat as [|k IH]; [apply is_ascii_Z|]. exact IH.
Qed.

#[local] Hint Resolve is_ascii_app is_ascii_take is_ascii_drop is_ascii_repeat is_ascii_Z is_ascii_zpad : ascii_text.
#[local] Hint Extern 1 (is_ascii _ = true) => reflexivity : ascii_text.

Lemma is_ascii_repr c e : is_ascii (repr_digits c e) = true.
Proof.
  unfold repr_digits, zeros. cbv zeta.
  repeat match goal with |- context [if ?b then _ else _] => destruct b end; auto 10 with ascii_text.
Qed.

Lemma is_ascii_float x : is_ascii (json_float x) = true.
Proof.
  destruct x as [s|s| |s m e]; [by destruct s|by destruct s|done|]. cbn [json_float float_repr].
  destruct (shortest m e) as [c k]. apply is_ascii_app; [by destruct s|apply is_ascii_repr].
Qed.

Lemma is_ascii_char b c : is_ascii (String c "") = true -> is_ascii (json_char b c) = true.
Proof. destruct b, c as [[] [] [] [] [] [] [] []]; vm_compute; auto. Qed.

Lemma is_ascii_str b s : is_ascii s = true -> is_ascii (json_str b s) = true.
Proof.
  intros H. unfold json_str. apply (is_ascii_app (String dquote_char "")); [done|]. apply is_ascii_app; [|done].
  induction s as [|c s IH]; [done|]. cbn [json_chars]. unfold is_ascii in H. simpl in H.
  apply andb_true_iff in H as [H1 H2]. apply is_ascii_app; [|by apply IH].
  apply is_ascii_char. unfold is_ascii. simpl. by rewrite H1.
Qed.

Lemma is_ascii_join sep ws :
  is_ascii sep = true -> Forall (fun w => is_ascii w = true) ws -> is_ascii (join sep ws) = true.
Proof.
  intros Hs. induction 1 as [|w ws Hw Hws IH]; [done|]. destruct ws as [|v ws]; [done|].
  rewrite join_cons_cons. auto with ascii_text.
Qed.

(** What [json.dumps] writes with its default separators is ASCII. *)
Lemma dumps_ascii v s : json_safe v = true -> json_dumps json_plain v = Ok s -> is_ascii s = true.
Proof.
  revert s. induction v as [|b|n|x|d|t|l IH|d IH] using val_ind_nested; intros s Hs.
  - by intros [= <-].
  - intros [= <-]. by destruct b.
  - intros [= <-]. apply is_ascii_Z.
  - intros [= <-]. apply is_ascii_float.
  - done.
  - intros [= <-]. by apply is_ascii_str.
  - rewrite dumps_list. intros (ss & Hm%map_res_Forall2 & [= <-])%bind_Ok. cbn [json_safe] in Hs.
    apply (is_ascii_app "["); [done|]. apply is_ascii_app; [|done]. apply is_ascii_join; [done|].
    revert ss Hm. induction IH as [|x l Hx Hl IHl]; intros ss Hm; inversion Hm as [|? y ? ys Hy Hys]; subst; [done|].
    simpl in Hs. apply andb_true_iff in Hs as [H1 H2]. constructor; [by apply Hx|by apply IHl].
  - rewrite dumps_dict. intros (ms & Hm%map_res_Forall2 & [= <-])%bind_Ok. cbn [json_safe] in Hs.
    apply andb_true_iff in Hs as [_ Hs]. unfold json_members. simpl (jf_sort_keys json_plain).
    apply (is_ascii_app "{"); [done|]. apply is_ascii_app; [|done]. apply is_ascii_join; [done|].
    revert ms Hm. induction IH as [|x d Hx Hd IHd]; intros ms Hm; inversion Hm as [|? y ? ys Hy Hys]; subst; [done|].
    simpl in Hs. apply andb_true_iff in Hs as [[Ha H1]%andb_true_iff H2]. csimpl. constructor; [|by apply IHd].
    apply bind_Ok in Hy as (t & Ht & [= <-]). simpl. apply is_ascii_app; [by apply is_ascii_str|].
    apply (is_ascii_app ": "); [done|]. by apply Hx.
Qed.
