(* ===== verification/Http.v ===== *)
(** * HTTP requests

    What the clients of the repository send with httpx and what they get back.
    The server is a function of the requests sent so far, an argument of the
    clients. *)

From S2P Require Import Prelude PyStr PyFloat.
From stdpp Require Import options.
From Stdlib Require Import String.

#[local] Open Scope Z_scope.

Record http_request := {
  hr_method : string;
  hr_url : string;
  hr_body : option string;
  hr_headers : list (string * string);
  hr_timeout : f64;
}.

(** What the HTTP client does with a request: the text of a successful reply,
    [HTTPStatusError] with the status and the text, or another [HTTPError]. *)
Inductive http_reply :=
  | HttpText (raw : string)
  | HttpStatusError (status : Z) (detail : string)
  | HttpError (message : string).

(** The answer to a request after the requests of the log. *)
Definition http_server : Type := list http_request -> http_request -> http_reply.
