(* ===== verification/RabbitMq.v ===== *)
(** * The RabbitMQ broker

    [services/shared/runtime/rabbitmq_http_broker.py], the topic broker over the
    management HTTP API with its default request functions, and
    [services/shared/runtime/sync_publish.py], the publisher of the synchronous
    endpoints. The server is an argument; the broker object carries the requests
    it has sent. *)

From S2P Require Import Prelude PyStr PyFloat PyUuid PyHash PyVal Envelope Broker PyJson Http.
From stdpp Require Import options.
From Stdlib Require Import Ascii String.

#[local] Open Scope Z_scope.

Definition _DEFAULT_EXCHANGE_BY_PREFIX : list (string * string) :=
  [("market.", "market.events"); ("strategy.", "strategy.events"); ("agent.", "strategy.events");
   ("execution.", "execution.events"); ("oms.", "oms.events"); ("notify.", "notify.events")]%string.

(** [RabbitMQHTTPBrokerError(message=..., status_code=..., body=...)] *)
Definition broker_error {A} (message : string) (status_code : option Z) (body : option string) : result A :=
  raise (RabbitMQHTTPBrokerError status_code body)
    (message +:+ match status_code with Some n => " [" +:+ str_of_Z n +:+ "]" | None => "" end +:+
     match body with Some b => if is_empty b then "" else " " +:+ b | None => "" end).

Record RabbitMQHTTPTopicBroker := {
  rb_api_base_url : string;
  rb_username : string;
  rb_password : string;
  rb_timeout : f64;
  rb_declared_queues : list string;
  rb_bootstrapped : bool;
  rb_exchange_routes : list (string * string);
  rb_topology_payload : dict;
  rb_sent : list http_request;
}.

Definition set_sent (l : list http_request) (b : RabbitMQHTTPTopicBroker) : RabbitMQHTTPTopicBroker :=
  {| rb_api_base_url := rb_api_base_url b; rb_username := rb_username b; rb_password := rb_password b;
     rb_timeout := rb_timeout b; rb_declared_queues := rb_declared_queues b; rb_bootstrapped := rb_bootstrapped b;
     rb_exchange_routes := rb_exchange_routes b; rb_topology_payload := rb_topology_payload b; rb_sent := l |}.
Definition add_declared (q : string) (b : RabbitMQHTTPTopicBroker) : RabbitMQHTTPTopicBroker :=
  {| rb_api_base_url := rb_api_base_url b; rb_username := rb_username b; rb_password := rb_password b;
     rb_timeout := rb_timeout b;
     rb_declared_queues := if decide (q ∈ rb_declared_queues b) then rb_declared_queues b else q :: rb_declared_queues b;
     rb_bootstrapped := rb_bootstrapped b; rb_exchange_routes := rb_exchange_routes b;
     rb_topology_payload := rb_topology_payload b; rb_sent := rb_sent b |}.
Definition set_bootstrapped (b : RabbitMQHTTPTopicBroker) : RabbitMQHTTPTopicBroker :=
  {| rb_api_base_url := rb_api_base_url b; rb_username := rb_username b; rb_password := rb_password b;
     rb_timeout := rb_timeout b; rb_declared_queues := rb_declared_queues b; rb_bootstrapped := true;
     rb_exchange_routes := rb_exchange_routes b; rb_topology_payload := rb_topology_payload b; rb_sent := rb_sent b |}.

(** ** Topology *)

Definition _safe_list (value : val) : list val := match value with VList l => l | _ => [] end.

(** [text] is the content of the topology file, if the path exists. *)
Definition _load_topology_payload (text : option string) : result dict :=
  match text with
  | None => Ok []
  | Some t => payload ← json_loads t; Ok (match payload with VDict d => d | _ => [] end)
  end.

Definition _pattern_weight (pattern : string) : nat :=
  List.length (List.filter (fun token => negb (String.eqb token "*" || String.eqb token "#")) (split_on "." pattern)).

Definition non_blank (v : val) : option string :=
  match v with VStr s => if is_empty (strip s) then None else Some s | _ => None end.

Definition route_of (binding : val) : option (string * string) :=
  match binding with
  | VDict b => exchange_name ← non_blank (dget "exchange" b);
               routing_key ← non_blank (dget "routing_key" b);
               Some (routing_key, exchange_name)
  | _ => None
  end.

(** [a <= b] for the sort keys [(weight, len(pattern))] *)
Definition route_leb (a b : string * string) : bool :=
  let wa := _pattern_weight a.1 in
  let wb := _pattern_weight b.1 in
  if (wa =? wb)%nat then (String.length a.1 <=? String.length b.1)%nat else (wa <? wb)%nat.

Definition _exchange_routes_from_topology (payload : dict) : list (string * string) :=
  sort_by (fun a b => route_leb b a) (omap route_of (_safe_list (dget "bindings" payload))).

Definition broker_init (api_base_url username password : string) (timeout : f64) (topology : option string)
  : result RabbitMQHTTPTopicBroker :=
  payload ← _load_topology_payload topology;
  Ok {| rb_api_base_url := rstrip_with (Ascii.eqb "/") api_base_url; rb_username := username;
        rb_password := password; rb_timeout := timeout; rb_declared_queues := []; rb_bootstrapped := false;
        rb_exchange_routes := _exchange_routes_from_topology payload; rb_topology_payload := payload;
        rb_sent := [] |}.

Definition from_env (env : string -> option string) (topology : option string) : result RabbitMQHTTPTopicBroker :=
  let api_base :=
    default (default "http://rabbitmq:15672/api"%string (env "NOTIFY_RABBITMQ_HTTP_API_URL"%string))
      (env "RUNTIME_RABBITMQ_HTTP_API_URL"%string) in
  let username := strip (default ""%string (env "RABBITMQ_DEFAULT_USER"%string)) in
  let password := strip (default ""%string (env "RABBITMQ_DEFAULT_PASS"%string)) in
  _ ← raise_if (is_empty username || is_empty password) RuntimeError
        "RABBITMQ_DEFAULT_USER and RABBITMQ_DEFAULT_PASS must be set";
  timeout ← float_of_val (VStr (default "2.0"%string (env "RUNTIME_BROKER_HTTP_TIMEOUT_SECONDS"%string)));
  broker_init api_base username password timeout topology.

Fixpoint first_match {A} (p : A -> bool) (l : list A) : option A :=
  match l with [] => None | x :: l' => if p x then Some x else first_match p l' end.

(** The exchange of the first prefix of the routing key. *)
Definition exchange_by_prefix (routing_key : string) : option string :=
  snd <$> first_match (fun pe => starts_with pe.1 routing_key) _DEFAULT_EXCHANGE_BY_PREFIX.

Definition _resolve_exchange_for_routing_key (routing_key : string) (b : RabbitMQHTTPTopicBroker) : result string :=
  match first_match (fun pe => _topic_matches pe.1 routing_key) (rb_exchange_routes b) with
  | Some pe => Ok pe.2
  | None =>
      match exchange_by_prefix routing_key with
      | Some e => Ok e
      | None => broker_error ("unable to resolve exchange for routing key '" +:+ routing_key +:+ "'") None None
      end
  end.

(** ** Requests *)

Section server.
Context (server : http_server).

#[local] Abbreviation action := (prog RabbitMQHTTPTopicBroker).

Definition http_request_of (b : RabbitMQHTTPTopicBroker) (method path body : string) : http_request :=
  {| hr_method := method; hr_url := rb_api_base_url b +:+ path; hr_body := Some body;
     hr_headers := [("Content-Type", "application/json");
                    ("Authorization", "Basic " +:+ base64 (bytes_of (rb_username b +:+ ":" +:+ rb_password b)))]%string;
     hr_timeout := rb_timeout b |}.

Definition _request_json (method path body : string) : action string := fun b =>
  let r := http_request_of b method path body in
  (set_sent (rb_sent b ++ [r]) b,
   match server (rb_sent b) r with
   | HttpText raw => Ok raw
   | HttpStatusError status detail => broker_error "RabbitMQ HTTP request failed" (Some status) (Some detail)
   | HttpError message => broker_error ("RabbitMQ HTTP request failed: " +:+ message) None None
   end).

(** [json.loads(raw) if raw else ...] *)
Definition loads_or (raw : string) (dflt : val) : result val := if is_empty raw then Ok dflt else json_loads raw.

Definition get_path (queue_name : string) : string := "/queues/%2F/" +:+ quote queue_name +:+ "/get".
Definition get_options : dict :=
  [("count", VInt 1); ("ackmode", VStr "ack_requeue_false"); ("encoding", VStr "auto"); ("truncate", VInt 50000)]%string.

Definition _default_rabbitmq_http_fetch (queue_name : string) : action (list dict) :=
  payload ← lift (json_dumps json_plain (VDict get_options));
  raw ← _request_json "POST" (get_path queue_name) payload;
  parsed ← lift (loads_or raw (VList []));
  mret (match parsed with
        | VList rows => omap (fun row => match row with VDict d => Some d | _ => None end) rows
        | _ => []
        end).

Definition publish_path (exchange_name : string) : string := "/exchanges/%2F/" +:+ quote exchange_name +:+ "/publish".
Definition publish_body (routing_key payload : string) : dict :=
  [("properties", VDict [("delivery_mode", VInt 2)]); ("routing_key", VStr routing_key);
   ("payload", VStr payload); ("payload_encoding", VStr "string")]%string.

Definition _default_rabbitmq_http_publish (exchange_name routing_key : string) (message : dict) : action unit :=
  text ← lift (json_dumps json_plain (VDict message));
  payload ← lift (json_dumps json_plain (VDict (publish_body routing_key text)));
  raw ← _request_json "POST" (publish_path exchange_name) payload;
  parsed ← lift (loads_or raw (VDict []));
  lift (match parsed with
        | VDict d => if truthy (dget "routed" d) then Ok tt else broker_error "RabbitMQ publish was not routed" None None
        | _ => broker_error "RabbitMQ publish was not routed" None None
        end).

Definition declare_queue_body : dict :=
  [("durable", VBool true); ("auto_delete", VBool false); ("arguments", VDict [])]%string.

Definition _default_rabbitmq_http_declare_queue (queue_name : string) : action unit :=
  payload ← lift (json_dumps json_plain (VDict declare_queue_body));
  _ ← _request_json "PUT" ("/queues/%2F/" +:+ quote queue_name) payload;
  mret tt.

Definition _default_rabbitmq_http_declare_exchange (exchange_name : string) : action unit :=
  payload ← lift (json_dumps json_plain (VDict (("type"%string, VStr "topic") :: declare_queue_body)));
  _ ← _request_json "PUT" ("/exchanges/%2F/" +:+ quote exchange_name) payload;
  mret tt.

Definition _default_rabbitmq_http_bind_queue (exchange_name queue_name routing_key : string) : action unit :=
  payload ← lift (json_dumps json_plain (VDict [("routing_key", VStr routing_key); ("arguments", VDict [])]%string));
  _ ← _request_json "POST" ("/bindings/%2F/e/" +:+ quote exchange_name +:+ "/q/" +:+ quote queue_name) payload;
  mret tt.

(** ** Operations *)

(** The non-blank [name] of an entry of the topology. *)
Definition entry_name (entry : val) : option string :=
  match entry with VDict d => non_blank (dget "name" d) | _ => None end.

Definition bootstrap_exchange (entry : val) : action unit :=
  match entry_name entry with
  | Some name => _default_rabbitmq_http_declare_exchange name
  | None => mret tt
  end.

Definition bootstrap_queue (entry : val) : action unit :=
  match entry_name entry with
  | Some name => _ ← _default_rabbitmq_http_declare_queue name; modify (add_declared name)
  | None => mret tt
  end.

Definition bootstrap_binding (entry : val) : action unit :=
  match entry with
  | VDict b =>
      match dget "exchange" b, dget "queue" b, dget "routing_key" b with
      | VStr exchange_name, VStr queue_name, VStr routing_key =>
          _default_rabbitmq_http_bind_queue exchange_name queue_name routing_key
      | _, _, _ => mret tt
      end
  | _ => mret tt
  end.

Definition topology_list (key : string) (b : RabbitMQHTTPTopicBroker) : list val :=
  _safe_list (dget key (rb_topology_payload b)).

Definition bootstrap_topology : action unit := fun b =>
  if rb_bootstrapped b then (b, Ok tt)
  else (_ ← for_each bootstrap_exchange (topology_list "exchanges" b);
        _ ← for_each bootstrap_queue (topology_list "queues" b);
        _ ← for_each bootstrap_binding (topology_list "bindings" b);
        modify set_bootstrapped) b.

Definition publish (routing_key : string) (message : dict) : action unit := fun b =>
  match _resolve_exchange_for_routing_key routing_key b with
  | Ok exchange_name => _default_rabbitmq_http_publish exchange_name routing_key message b
  | Raise e => (b, Raise e)
  end.

Definition _declare_queue (queue_name : string) : action unit := fun b =>
  if decide (queue_name ∈ rb_declared_queues b) then (b, Ok tt)
  else (_ ← _default_rabbitmq_http_declare_queue queue_name; modify (add_declared queue_name)) b.

Definition envelope_of (rows : list dict) : result (option dict) :=
  match rows with
  | [] => Ok None
  | row :: _ =>
      match dget "payload" row with
      | VDict d => Ok (Some d)
      | VStr text =>
          parsed ← json_loads text;
          match parsed with
          | VDict d => Ok (Some d)
          | _ => broker_error "RabbitMQ HTTP payload is not a JSON object envelope" None None
          end
      | _ => broker_error "RabbitMQ HTTP payload is not a JSON object envelope" None None
      end
  end.

(** [exc.status_code == 404 and "queue_not_found" in body] *)
Definition queue_missing (e : exc) : bool :=
  match exc_cls e with
  | RabbitMQHTTPBrokerError (Some status) body => (status =? 404) && contains "queue_not_found" (default ""%string body)
  | _ => false
  end.

Definition consume (queue_name : string) : action (option dict) := fun b =>
  match _default_rabbitmq_http_fetch queue_name b with
  | (b1, Ok rows) => (b1, envelope_of rows)
  | (b1, Raise e) =>
      if queue_missing e then (_ ← _declare_queue queue_name; mret None) b1 else (b1, Raise e)
  end.
End server.

(** ** Publishing from synchronous endpoints *)

(** [sync_publish._resolve_exchange] *)
Definition _resolve_exchange (routing_key : string) : result string :=
  match exchange_by_prefix routing_key with
  | Some e => Ok e
  | None => raise ValueError ("unable to resolve exchange for routing key '" +:+ routing_key +:+ "'")
  end.

(** [publish_event] with the connection details of the environment. A failed
    request is only logged; [httpx.BasicAuth] sets the same header as above. *)
Definition publish_event (env : string -> option string) (server : http_server) (event_type : string) (payload : dict)
  : prog (list http_request) unit :=
  let setting name := strip (default ""%string (env name)) in
  let api_url := rstrip_with (Ascii.eqb "/") (setting "RUNTIME_RABBITMQ_HTTP_API_URL"%string) in
  let username := setting "RABBITMQ_DEFAULT_USER"%string in
  let password := setting "RABBITMQ_DEFAULT_PASS"%string in
  if is_empty api_url || is_empty username || is_empty password then mret tt
  else
    exchange_name ← lift (_resolve_exchange event_type);
    text ← lift (json_dumps json_plain (VDict payload));
    body ← lift (json_dumps json_plain (VDict (publish_body event_type text)));
    modify (fun log => log ++
      [{| hr_method := "POST"; hr_url := api_url +:+ publish_path exchange_name; hr_body := Some body;
          hr_headers := [("Authorization", "Basic " +:+ base64 (bytes_of (username +:+ ":" +:+ password)))]%string;
          hr_timeout := flit 2 0 |}]).

(** ** Choosing the exchange *)

Lemma first_match_Some {A} (p : A -> bool) l x :
  first_match p l = Some x ->
  exists l1 l2, l = l1 ++ x :: l2 /\ p x = true /\ Forall (fun y => p y = false) l1.
Proof.
  induction l as [|y l IH]; simpl; [done|]. destruct (p y) eqn:E.
  - intros [= ->]. by exists [], l.
  - intros (l1 & l2 & -> & Hx & Hl)%IH. exists (y :: l1), l2. split_and!; [done..|]. by constructor.
Qed.

Lemma first_match_None {A} (p : A -> bool) l : first_match p l = None <-> Forall (fun y => p y = false) l.
Proof.
  induction l as [|y l IH]; simpl; [done|]. rewrite Forall_cons. destruct (p y) eqn:E; [naive_solver|]. tauto.
Qed.

Lemma route_leb_total a b : route_leb a b = false -> route_leb b a = true.
Proof.
  unfold route_leb. cbv zeta.
  destruct (Nat.eqb_spec (_pattern_weight a.1) (_pattern_weight b.1)) as [E|E],
    (Nat.eqb_spec (_pattern_weight b.1) (_pattern_weight a.1)) as [E'|E']; try lia;
    rewrite ?Nat.leb_gt, ?Nat.ltb_ge, ?Nat.leb_le, ?Nat.ltb_lt; lia.
Qed.

Lemma route_leb_trans a b c : route_leb a b = true -> route_leb b c = true -> route_leb a c = true.
Proof.
  unfold route_leb. cbv zeta.
  destruct (Nat.eqb_spec (_pattern_weight a.1) (_pattern_weight b.1)) as [E|E],
    (Nat.eqb_spec (_pattern_weight b.1) (_pattern_weight c.1)) as [E'|E'],
    (Nat.eqb_spec (_pattern_weight a.1) (_pattern_weight c.1)) as [E''|E'']; try lia;
    rewrite ?Nat.leb_le, ?Nat.ltb_lt; lia.
Qed.

(** The exchange of a message is that of the most specific binding of the
    topology that matches its routing key: no matching binding has more literal
    tokens, or as many and a longer pattern. *)
Lemma exchange_most_specific payload b routing_key pattern exchange_name :
  rb_exchange_routes b = _exchange_routes_from_topology payload ->
  (pattern, exchange_name) ∈ omap route_of (_safe_list (dget "bindings" payload)) ->
  _topic_matches pattern routing_key = true ->
  exists pattern' exchange', _resolve_exchange_for_routing_key routing_key b = Ok exchange' /\
    (pattern', exchange') ∈ omap route_of (_safe_list (dget "bindings" payload)) /\
    _topic_matches pattern' routing_key = true /\
    route_leb (pattern, exchange_name) (pattern', exchange') = true.
Proof.
  intros Hr Hin Hm. unfold _resolve_exchange_for_routing_key. rewrite Hr.
  unfold _exchange_routes_from_topology. set (l := omap route_of _) in *.
  set (le := fun a b : string * string => route_leb b a).
  assert (Hs : StronglySorted (fun x y => le x y = true) (sort_by le l)).
  { apply Sorted_StronglySorted; [intros x y z H1 H2; unfold le in *; by eapply route_leb_trans|].
    apply sort_by_Sorted. intros x y. apply route_leb_total. }
  assert (Hin' : (pattern, exchange_name) ∈ sort_by le l) by (by rewrite sort_by_perm).
  destruct (first_match _ (sort_by le l)) as [[p' e']|] eqn:E; simpl.
  - apply first_match_Some in E as (l1 & l2 & El & Hp & Hl1). simpl in Hp.
    exists p', e'. split; [done|]. split; [by rewrite <- (sort_by_perm le l), El; set_solver|]. split; [done|].
    rewrite El in Hin', Hs. apply elem_of_app in Hin' as [Hin'|[[= <- <-]|Hin']%elem_of_cons].
    + rewrite Forall_forall in Hl1. specialize (Hl1 _ Hin'). simpl in Hl1. congruence.
    + destruct (route_leb _ _) eqn:E2; [done|]. pose proof (route_leb_total _ _ E2). congruence.
    + apply StronglySorted_app in Hs as (_ & _ & Hs). apply StronglySorted_inv in Hs as [_ Hs].
      rewrite Forall_forall in Hs. by apply Hs.
  - apply first_match_None in E. rewrite Forall_forall in E. specialize (E _ Hin'). simpl in E. congruence.
Qed.

(** ** A published message is consumed as it was *)

(** What the server finds as the payload of a publication. *)
Definition published_payload (r : http_request) : option string :=
  body ← hr_body r;
  match json_loads body with
  | Ok (VDict d) => match dget "payload" d with VStr text => Some text | _ => None end
  | _ => None
  end.

Definition get_text : string := match json_dumps json_plain (VDict get_options) with Ok t => t | Raise _ => "" end.
Definition get_request (b : RabbitMQHTTPTopicBroker) (queue_name : string) : http_request :=
  http_request_of b "POST" (get_path queue_name) get_text.

(** The server answers the request for a message with a list whose first row
    carries the payload of the publication: the documented behaviour of the
    management API for a payload of at most [truncate] bytes. *)
Definition hands_over (server : http_server) (log : list http_request) (publication get : http_request) : Prop :=
  exists raw row rest text, server log get = HttpText raw /\
    loads_or raw (VList []) = Ok (VList (VDict row :: rest)) /\
    published_payload publication = Some text /\ dget "payload" row = VStr text.

Section operations.
Context (server : http_server).

Lemma request_eq method path body b :
  _request_json server method path body b =
    (set_sent (rb_sent b ++ [http_request_of b method path body]) b,
     match server (rb_sent b) (http_request_of b method path body) with
     | HttpText raw => Ok raw
     | HttpStatusError status detail => broker_error "RabbitMQ HTTP request failed" (Some status) (Some detail)
     | HttpError message => broker_error ("RabbitMQ HTTP request failed: " +:+ message) None None
     end).
Proof using Type. done. Qed.

Lemma fetch_eq queue_name b :
  _default_rabbitmq_http_fetch server queue_name b =
    (raw ← _request_json server "POST" (get_path queue_name) get_text;
     parsed ← lift (loads_or raw (VList []));
     mret (match parsed with
           | VList rows => omap (fun row => match row with VDict d => Some d | _ => None end) rows
           | _ => []
           end)) b.
Proof using Type. done. Qed.

(** A publication that succeeds has sent one request, to the exchange of the
    routing key, from which the text of the message can be read. *)
Lemma publish_Ok routing_key message b b1 :
  json_safe (VDict message) = true -> is_ascii routing_key = true ->
  publish server routing_key message b = (b1, Ok tt) ->
  exists exchange_name text publication,
    _resolve_exchange_for_routing_key routing_key b = Ok exchange_name /\
    json_dumps json_plain (VDict message) = Ok text /\ b1 = set_sent (rb_sent b ++ [publication]) b /\
    hr_url publication = rb_api_base_url b +:+ publish_path exchange_name /\
    published_payload publication = Some text.
Proof using Type.
  intros Hm Hrk. unfold publish. destruct (_resolve_exchange_for_routing_key routing_key b) as [e|]; [|done].
  unfold _default_rabbitmq_http_publish. rewrite lift_bind.
  destruct (json_dumps json_plain (VDict message)) as [text|] eqn:Et; [|done].
  pose proof (dumps_ascii _ _ Hm Et) as Ha.
  assert (Hsafe : json_safe (VDict (publish_body routing_key text)) = true).
  { cbn [json_safe forallb publish_body snd fst]. by rewrite Ha, Hrk. }
  pose proof (json_roundtrip json_plain json_plain_reads _ Hsafe) as Hrt. rewrite lift_bind.
  destruct (json_dumps json_plain (VDict (publish_body routing_key text))) as [body|]; [|done].
  simpl in Hrt. intros (b2 & raw & Hreq & H)%prog_bind_Ok. rewrite request_eq in Hreq. injection Hreq as <- _.
  rewrite lift_bind in H. destruct (loads_or raw (VDict [])) as [parsed|]; [|done]. injection H as <- _.
  eexists e, text, _. split_and!; [done..|]. unfold published_payload. simpl. by rewrite Hrt.
Qed.

(** Publishing and consuming through the management API loses nothing:
    when a message of JSON values is published, the request goes to the
    exchange of its routing key, and if the server hands the payload of that
    request over to a consumer, the consumer gets exactly the message. *)
Theorem publish_consume_roundtrip routing_key queue_name message b b1 :
  json_safe (VDict message) = true -> is_ascii routing_key = true ->
  publish server routing_key message b = (b1, Ok tt) ->
  exists publication exchange_name, rb_sent b1 = rb_sent b ++ [publication] /\
    _resolve_exchange_for_routing_key routing_key b = Ok exchange_name /\
    hr_url publication = rb_api_base_url b +:+ publish_path exchange_name /\
    (hands_over server (rb_sent b1) publication (get_request b1 queue_name) ->
     consume server queue_name b1 =
       (set_sent (rb_sent b1 ++ [get_request b1 queue_name]) b1, Ok (Some message))).
Proof using Type.
  intros Hm Hrk (e & text & p & He & Et & -> & Hu & Hp)%publish_Ok; [|done..].
  exists p, e. split_and!; [done..|]. intros (raw & row & rest & text' & Hs & Hl & Hp' & Hrow).
  rewrite Hp in Hp'. injection Hp' as <-.
  unfold consume. rewrite fetch_eq. unfold mbind at 1, prog_bind at 1. rewrite request_eq.
  unfold get_request in Hs. rewrite Hs. rewrite lift_bind, Hl.
  simpl. rewrite Hrow.
  pose proof (json_roundtrip json_plain json_plain_reads _ Hm) as Hrt. rewrite Et in Hrt. simpl in Hrt. by rewrite Hrt.
Qed.

(** A queue the server no longer has is not declared again when this broker has
    declared it before: the consumer goes on to see an empty queue. *)
Lemma lost_queue_stays_lost queue_name b body :
  queue_name ∈ rb_declared_queues b ->
  server (rb_sent b) (get_request b queue_name) = HttpStatusError 404 body -> contains "queue_not_found" body = true ->
  consume server queue_name b = (set_sent (rb_sent b ++ [get_request b queue_name]) b, Ok None).
Proof using Type.
  intros Hd Hs Hb. unfold consume. rewrite fetch_eq. unfold mbind at 1, prog_bind at 1. rewrite request_eq.
  unfold get_request in Hs. rewrite Hs. unfold broker_error, raise, queue_missing. cbn [exc_cls].
  change (404 =? 404) with true. change (default ""%string (Some body)) with body. rewrite Hb. cbn [andb].
  unfold mbind, prog_bind, _declare_queue. by rewrite decide_True by done.
Qed.
End operations.

(** ** Bootstrap *)

Section bootstrap.
Context (server : http_server).

Definition same_settings (b b' : RabbitMQHTTPTopicBroker) : Prop :=
  rb_api_base_url b' = rb_api_base_url b /\ rb_username b' = rb_username b /\ rb_password b' = rb_password b /\
  rb_timeout b' = rb_timeout b /\ rb_topology_payload b' = rb_topology_payload b.

Lemma same_settings_request b b' method path body :
  same_settings b b' -> http_request_of b' method path body = http_request_of b method path body.
Proof using Type. intros (H1 & H2 & H3 & H4 & _). unfold http_request_of. by rewrite H1, H2, H3, H4. Qed.

Definition text_of (d : dict) : string := match json_dumps json_plain (VDict d) with Ok t => t | Raise _ => "" end.

(** The requests an entry of the topology leads to. *)
Definition exchange_plan (b : RabbitMQHTTPTopicBroker) (entry : val) : list http_request :=
  match entry_name entry with
  | Some n => [http_request_of b "PUT" ("/exchanges/%2F/" +:+ quote n) (text_of (("type"%string, VStr "topic") :: declare_queue_body))]
  | None => []
  end.
Definition queue_plan (b : RabbitMQHTTPTopicBroker) (entry : val) : list http_request :=
  match entry_name entry with
  | Some n => [http_request_of b "PUT" ("/queues/%2F/" +:+ quote n) (text_of declare_queue_body)]
  | None => []
  end.
Definition binding_plan (b : RabbitMQHTTPTopicBroker) (entry : val) : list http_request :=
  match entry with
  | VDict d =>
      match dget "exchange" d, dget "queue" d, dget "routing_key" d with
      | VStr e, VStr q, VStr k =>
          [http_request_of b "POST" ("/bindings/%2F/e/" +:+ quote e +:+ "/q/" +:+ quote q)
             (text_of [("routing_key", VStr k); ("arguments", VDict [])]%string)]
      | _, _, _ => []
      end
  | _ => []
  end.

Definition plan (b : RabbitMQHTTPTopicBroker) : list http_request :=
  (topology_list "exchanges" b ≫= exchange_plan b) ++ (topology_list "queues" b ≫= queue_plan b) ++
  (topology_list "bindings" b ≫= binding_plan b).

(** A step that returns has sent the requests [reqs] gives for it and has added
    [names] to the declared queues. *)
Definition declares (b0 : RabbitMQHTTPTopicBroker) (reqs : list http_request) (names : list string)
    (m : prog RabbitMQHTTPTopicBroker unit) : Prop :=
  forall b b', same_settings b0 b -> m b = (b', Ok tt) ->
    same_settings b0 b' /\ rb_sent b' = rb_sent b ++ reqs /\
    (forall q, q ∈ rb_declared_queues b' <-> q ∈ names \/ q ∈ rb_declared_queues b).

Lemma declares_nothing b0 : declares b0 [] [] (mret tt).
Proof using Type. intros b b' Hs [= <-]. split_and!; [done|by rewrite app_nil_r|set_solver]. Qed.

Lemma declares_request b0 method path d :
  json_dumps json_plain (VDict d) = Ok (text_of d) ->
  declares b0 [http_request_of b0 method path (text_of d)] []
    (payload ← lift (json_dumps json_plain (VDict d)); _ ← _request_json server method path payload; mret tt).
Proof using Type.
  intros Ht b b' Hs. rewrite lift_bind, Ht. intros (b1 & raw & Hr & [= <-])%prog_bind_Ok.
  rewrite request_eq in Hr. injection Hr as <- _. split_and!; [done| |set_solver].
  simpl. by rewrite (same_settings_request b0 b).
Qed.

Lemma declares_each b0 (f : val -> prog RabbitMQHTTPTopicBroker unit) reqs names l :
  (forall x, declares b0 (reqs x) (names x) (f x)) ->
  declares b0 (l ≫= reqs) (l ≫= names) (for_each f l).
Proof using Type.
  intros Hf. induction l as [|x l IH]; [apply declares_nothing|]. intros b b' Hs.
  simpl. intros (b1 & [] & (Hs1 & Hr1 & Hd1)%Hf & (Hs2 & Hr2 & Hd2)%IH)%prog_bind_Ok; [|done..].
  split; [done|]. split; [by rewrite Hr2, Hr1, app_assoc|]. intros q. rewrite Hd2, Hd1. set_solver.
Qed.

Definition queue_names (entry : val) : list string := match entry_name entry with Some n => [n] | None => [] end.

Lemma bootstrap_queue_declares b0 entry : declares b0 (queue_plan b0 entry) (queue_names entry) (bootstrap_queue server entry).
Proof using Type.
  unfold bootstrap_queue, queue_plan, queue_names. destruct (entry_name entry) as [n|]; [|apply declares_nothing].
  intros b b' Hs (b1 & [] & H%(declares_request b0 "PUT") & [= <-])%prog_bind_Ok; [|done..].
  destruct H as (Hs1 & Hr1 & Hd1). split_and!; [done..|]. intros q. simpl.
  destruct (decide (n ∈ rb_declared_queues b1)) as [Hn|Hn]; set_solver.
Qed.

Lemma bootstrap_exchange_declares b0 entry : declares b0 (exchange_plan b0 entry) [] (bootstrap_exchange server entry).
Proof using Type.
  unfold bootstrap_exchange, exchange_plan. destruct (entry_name entry); [|apply declares_nothing].
  by apply declares_request.
Qed.

Lemma bootstrap_binding_declares b0 entry : declares b0 (binding_plan b0 entry) [] (bootstrap_binding server entry).
Proof using Type.
  unfold bootstrap_binding, binding_plan. destruct entry as [| | | | | | |d]; try apply declares_nothing.
  destruct (dget "exchange" d), (dget "queue" d), (dget "routing_key" d); try apply declares_nothing.
  by apply declares_request.
Qed.

(** The topology is declared completely and only once: a bootstrap that
    returns has sent exactly the declarations of the exchanges, then of the
    queues, then of the bindings of the topology, and knows its queues; another
    bootstrap sends nothing. *)
Theorem bootstrap_declares_topology b b' :
  rb_bootstrapped b = false -> bootstrap_topology server b = (b', Ok tt) ->
  rb_sent b' = rb_sent b ++ plan b /\
  (forall q, q ∈ rb_declared_queues b' <-> q ∈ (topology_list "queues" b ≫= queue_names) \/ q ∈ rb_declared_queues b) /\
  bootstrap_topology server b' = (b', Ok tt).
Proof using Type.
  unfold bootstrap_topology at 1. intros ->.
  intros (b1 & [] & H1 & (b2 & [] & H2 & (b3 & [] & H3 & [= <-])%prog_bind_Ok)%prog_bind_Ok)%prog_bind_Ok.
  assert (Hs : same_settings b b) by done.
  apply (declares_each b (bootstrap_exchange server) (exchange_plan b) (fun _ => [])) in H1 as (Hs1 & Hr1 & Hd1);
    [|apply bootstrap_exchange_declares|done].
  apply (declares_each b (bootstrap_queue server) (queue_plan b) queue_names) in H2 as (Hs2 & Hr2 & Hd2);
    [|apply bootstrap_queue_declares|done].
  apply (declares_each b (bootstrap_binding server) (binding_plan b) (fun _ => [])) in H3 as (Hs3 & Hr3 & Hd3);
    [|apply bootstrap_binding_declares|done].
  split_and!.
  - simpl. unfold plan. by rewrite Hr3, Hr2, Hr1, !app_assoc.
  - simpl. intros q. rewrite Hd3, Hd2, Hd1. set_solver.
  - done.
Qed.
End bootstrap.

(** ** Examples *)

Module Example_rabbit.
#[local] Open Scope string_scope.

Definition topology : dict :=
  [("exchanges", VList [VDict [("name", VStr "oms.events")]]); ("queues", VList [VDict [("name", VStr "oms.q")]; VStr "x"]);
   ("bindings", VList [VDict [("exchange", VStr "audit.events"); ("queue", VStr "all"); ("routing_key", VStr "#")];
                       VDict [("exchange", VStr "oms.events"); ("queue", VStr "oms.q"); ("routing_key", VStr "oms.order.*")]])].

(** A server that routes everything and hands the last publication over. *)
Definition server : http_server := fun log r =>
  if contains "/get" (hr_url r) then
    match last log ≫= published_payload with
    | Some text => HttpText (match json_dumps json_plain (VList [VDict [("payload", VStr text)]]) with Ok t => t | Raise _ => "" end)
    | None => HttpText "[]"
    end
  else HttpText (text_of [("routed", VBool true)]).

Definition broker : RabbitMQHTTPTopicBroker :=
  {| rb_api_base_url := "http://mq/api"; rb_username := "u"; rb_password := "p"; rb_timeout := flit 2 0;
     rb_declared_queues := []; rb_bootstrapped := false; rb_exchange_routes := _exchange_routes_from_topology topology;
     rb_topology_payload := topology; rb_sent := [] |}.

Definition message : dict := [("event_type", VStr "oms.order.filled"); ("quantity", VFloat fone); ("tags", VList [VNone; VInt (-3)])].

Definition published : RabbitMQHTTPTopicBroker := (publish server "oms.order.filled" message broker).1.

Lemma publish_consume_roundtrip_witness :
  json_safe (VDict message) = true /\ publish server "oms.order.filled" message broker = (published, Ok tt) /\
  (exists publication exchange_name, rb_sent published = (rb_sent broker ++ [publication])%list /\
    _resolve_exchange_for_routing_key "oms.order.filled" broker = Ok exchange_name /\
    hr_url publication = rb_api_base_url broker +:+ publish_path exchange_name /\
    (hands_over server (rb_sent published) publication (get_request published "oms.q") ->
     consume server "oms.q" published =
       (set_sent (rb_sent published ++ [get_request published "oms.q"])%list published, Ok (Some message)))) /\
  hands_over server (rb_sent published) (default (get_request broker "") (last (rb_sent published))) (get_request published "oms.q").
Proof.
  split; [by vm_compute|]. split; [by vm_compute|]. split.
  - apply (publish_consume_roundtrip server "oms.order.filled" "oms.q" message broker published); by vm_compute.
  - exists (match json_dumps json_plain (VList [VDict [("payload", VStr (text_of message))]]) with Ok t => t | Raise _ => "" end),
      [("payload", VStr (text_of message))], [], (text_of message).
    split_and!; by vm_compute.
Defined.

Lemma bootstrap_declares_topology_witness :
  let b' := (bootstrap_topology server broker).1 in
  (rb_sent b' = (rb_sent broker ++ plan broker)%list /\
   (forall q, q ∈ rb_declared_queues b' <->
      q ∈ (topology_list "queues" broker ≫= queue_names) \/ q ∈ rb_declared_queues broker) /\
   bootstrap_topology server b' = (b', Ok tt)) /\
  List.length (plan broker) = 4%nat /\ rb_declared_queues b' = ["oms.q"].
Proof.
  intros b'. split; [|by vm_compute]. apply (bootstrap_declares_topology server broker b'); by vm_compute.
Defined.

(** A message longer than the limit of the request comes back cut off: reading
    it raises, and the server has dropped it. *)
Example truncated_payload :
  envelope_of [[("payload", VStr (str_take 20 (text_of message)))]] = raise JSONDecodeError "invalid JSON document".
Proof. by vm_compute. Qed.
End Example_rabbit.
