(* ===== verification/OmsStateMachine.v ===== *)
(** * OMS order state machine

    [services/oms/state_machine.py]: the eight order states, the transition
    table and the machine object. The code keeps states as upper-case strings
    that [normalize_state] has accepted; here an accepted string is a value of
    [OMSState] and [state_str] is its spelling. *)

From S2P Require Import Prelude PyStr.
From stdpp Require Import options.
From Stdlib Require Import String.

#[local] Open Scope Z_scope.

Inductive OMSState :=
  | NEW | SUBMITTED | OPEN | PARTIALLY_FILLED | FILLED | CANCELED | REJECTED | EXPIRED.

#[export] Instance OMSState_eq_dec : EqDecision OMSState.
Proof. solve_decision. Defined.

Definition state_str (s : OMSState) : string :=
  match s with
  | NEW => "NEW"
  | SUBMITTED => "SUBMITTED"
  | OPEN => "OPEN"
  | PARTIALLY_FILLED => "PARTIALLY_FILLED"
  | FILLED => "FILLED"
  | CANCELED => "CANCELED"
  | REJECTED => "REJECTED"
  | EXPIRED => "EXPIRED"
  end.

Definition OMS_STATES : list OMSState :=
  [NEW; SUBMITTED; OPEN; PARTIALLY_FILLED; FILLED; CANCELED; REJECTED; EXPIRED].

Definition TERMINAL_STATES : list OMSState := [FILLED; CANCELED; REJECTED; EXPIRED].

Definition is_terminal (s : OMSState) : bool := bool_decide (s ∈ TERMINAL_STATES).

Definition ALLOWED_TRANSITIONS (s : OMSState) : list OMSState :=
  match s with
  | NEW => [SUBMITTED; REJECTED; CANCELED; EXPIRED]
  | SUBMITTED => [OPEN; PARTIALLY_FILLED; FILLED; CANCELED; REJECTED; EXPIRED]
  | OPEN => [PARTIALLY_FILLED; FILLED; CANCELED; EXPIRED]
  | PARTIALLY_FILLED => [FILLED; CANCELED; EXPIRED]
  | FILLED | CANCELED | REJECTED | EXPIRED => []
  end.

(** [normalize_state]: trim, upper-case, and look the result up. *)
Definition normalize_state (state : string) : result OMSState :=
  let normalized := upper (strip state) in
  match list_find (fun s => state_str s = normalized) OMS_STATES with
  | Some (_, s) => Ok s
  | None => raise OMSStateTransitionError ("unknown OMS state: " +:+ state)
  end.

Lemma normalize_state_str s : normalize_state (state_str s) = Ok s.
Proof. by destruct s. Qed.

Lemma normalize_state_Ok t s : normalize_state t = Ok s -> upper (strip t) = state_str s.
Proof.
  unfold normalize_state. destruct (list_find _ _) as [[i s']|] eqn:E; [|done].
  intros [= <-]. apply list_find_Some in E as (_ & H & _). done.
Qed.

Lemma normalize_state_exn t e :
  normalize_state t = Raise e -> exc_cls e = OMSStateTransitionError.
Proof. unfold normalize_state. destruct (list_find _ _) as [[? ?]|]; [done|]. by intros [= <-]. Qed.

(** Two spellings that differ by case and surrounding blanks are one state. *)
Lemma normalize_state_ext t u :
  upper (strip t) = upper (strip u) -> is_ok (normalize_state t) = is_ok (normalize_state u).
Proof.
  intros H. unfold normalize_state. rewrite H. by destruct (list_find _ _) as [[? ?]|].
Qed.

(** ** The machine object *)

Module StateMachine.

Record OMSStateTransition := {
  previous_state : OMSState;
  current_state : OMSState;
  changed : bool;
}.

(** The object's only field. *)
Record OMSStateMachine := { sm_state : OMSState }.

Definition init (initial_state : string) : result OMSStateMachine :=
  s ← normalize_state initial_state; Ok {| sm_state := s |}.

Definition can_transition (m : OMSStateMachine) (next_state : string) : result bool :=
  target ← normalize_state next_state;
  Ok (bool_decide (target = sm_state m)
      || bool_decide (target ∈ ALLOWED_TRANSITIONS (sm_state m))).

(** [apply]: the object after the call and what the call returned or raised. *)
Definition apply (m : OMSStateMachine) (next_state : string)
  : OMSStateMachine * result OMSStateTransition :=
  let current := sm_state m in
  match normalize_state next_state with
  | Raise e => (m, Raise e)
  | Ok target =>
      if bool_decide (target = current) then
        (m, Ok {| previous_state := current; current_state := current; changed := false |})
      else if bool_decide (target ∈ ALLOWED_TRANSITIONS current) then
        ({| sm_state := target |},
         Ok {| previous_state := current; current_state := target; changed := true |})
      else
        (m, raise OMSStateTransitionError
              ("invalid transition: " +:+ state_str current +:+ " -> " +:+ state_str target +:+
               "; allowed: [" +:+
               join ", " ((fun s => "'" +:+ s +:+ "'") <$>
                 sort_by String.leb (state_str <$> ALLOWED_TRANSITIONS current)) +:+ "]"))
  end.

(** [transition_matrix]: every state with its targets in string order. *)
Definition transition_matrix : list (OMSState * list OMSState) :=
  (fun s => (s, sort_by (fun a b => String.leb (state_str a) (state_str b))
                  (ALLOWED_TRANSITIONS s))) <$> OMS_STATES.

(** ** The machine as a step relation *)

Inductive step : OMSState -> OMSState -> Prop :=
  | step_allowed s t : t ∈ ALLOWED_TRANSITIONS s -> step s t.

#[export] Instance step_dec s t : Decision (step s t).
Proof.
  destruct (decide (t ∈ ALLOWED_TRANSITIONS s)) as [H|H].
  - left. by constructor.
  - right. intros Hs. by inversion Hs.
Defined.

(** How far an order is from [NEW]: the length of the longest path to it. *)
Definition depth (s : OMSState) : nat :=
  match s with
  | NEW => 0
  | SUBMITTED => 1
  | OPEN => 2
  | PARTIALLY_FILLED => 3
  | FILLED | CANCELED | REJECTED | EXPIRED => 4
  end.

(** Running a sequence of [apply] calls, exceptions swallowed by the caller:
    the machine afterwards and how many calls changed the state. *)
Fixpoint apply_all (m : OMSStateMachine) (ss : list string) : OMSStateMachine * nat :=
  match ss with
  | [] => (m, O)
  | s :: ss' =>
      let '(m1, r) := apply m s in
      let '(m2, n) := apply_all m1 ss' in
      (m2, (match r with Ok t => if changed t then 1 else 0 | Raise _ => 0 end + n)%nat)
  end.

(** *** Lemmas *)

Lemma allowed_depth s t : t ∈ ALLOWED_TRANSITIONS s -> (depth s < depth t)%nat.
Proof.
  intros H. destruct s; simpl in H; repeat (apply elem_of_cons in H as [->|H]; [simpl; lia|]);
    by apply elem_of_nil in H.
Qed.

Lemma terminal_no_step s : is_terminal s = true <-> forall t, ~ step s t.
Proof.
  split.
  - intros H t Hs. inversion Hs as [? ? Hin]; subst.
    destruct s; try done; by apply elem_of_nil in Hin.
  - intros H. destruct s; try done; exfalso.
    + apply (H SUBMITTED). constructor. set_solver.
    + apply (H OPEN). constructor. set_solver.
    + apply (H FILLED). constructor. set_solver.
    + apply (H FILLED). constructor. set_solver.
Qed.

(** What [apply] can do, in one place. *)
Lemma apply_cases m s :
  let '(m', r) := apply m s in
  match r with
  | Raise e => m' = m /\ exc_cls e = OMSStateTransitionError
  | Ok t =>
      previous_state t = sm_state m /\ current_state t = sm_state m' /\
      normalize_state s = Ok (sm_state m') /\
      if changed t then step (sm_state m) (sm_state m') else m' = m
  end.
Proof.
  unfold apply. destruct (normalize_state s) as [target|e] eqn:E.
  - case_bool_decide as H1; [by subst|]. case_bool_decide as H2; simpl; [|done].
    repeat split; try done.
  - split; [done|]. by apply normalize_state_exn in E.
Qed.

(** ** Properties *)

(** [can_transition] predicts [apply]: it answers [True] exactly when
    [apply] returns, [False] exactly when [apply] raises
    [OMSStateTransitionError] on a known state, and it raises exactly when the
    target is no OMS state, in which case [apply] raises the same exception. *)
Theorem can_transition_apply m s :
  match can_transition m s with
  | Ok true => exists t, (apply m s).2 = Ok t
  | Ok false =>
      is_ok (normalize_state s) = true /\ (apply m s).1 = m /\
      exists e, (apply m s).2 = Raise e /\ exc_cls e = OMSStateTransitionError
  | Raise e => (apply m s).2 = Raise e /\ is_ok (normalize_state s) = false
  end.
Proof.
  unfold can_transition, apply. destruct (normalize_state s) as [t|e]; simpl; [|done].
  case_bool_decide as H1; simpl; [eauto|].
  case_bool_decide as H2; simpl; [eauto|]. repeat split. eauto.
Qed.

(** C20. Terminal orders are final and the lifecycle is finite: whatever
    sequence of (possibly failing) [apply] calls an order receives, the state
    changes at most four times, every change goes strictly forward, and an
    order that has reached FILLED, CANCELED, REJECTED or EXPIRED stays there. *)
Theorem lifecycle_bounded m ss :
  let '(m', n) := apply_all m ss in
  (depth (sm_state m) + n <= depth (sm_state m') <= 4)%nat /\
  (is_terminal (sm_state m) = true -> m' = m /\ n = 0%nat).
Proof.
  revert m. induction ss as [|s ss IH]; intros m; simpl.
  { repeat split; [lia|]. destruct (sm_state m); simpl; lia. }
  pose proof (apply_cases m s) as Hc. destruct (apply m s) as [m1 r]. specialize (IH m1).
  destruct (apply_all m1 ss) as [m2 n]. destruct IH as [IHd IHt].
  destruct r as [t|e].
  - destruct Hc as (_ & _ & _ & Hc). destruct (changed t).
    + inversion Hc as [? ? Hin]; subst. pose proof (allowed_depth _ _ Hin) as Hd.
      split; [lia|]. intros Hterm. exfalso. by apply (proj1 (terminal_no_step _) Hterm _ Hc).
    + subst m1. split; [lia|]. intros Hterm. destruct (IHt Hterm). split; [done|lia].
  - destruct Hc as [-> _]. split; [lia|]. intros Hterm. destruct (IHt Hterm). split; [done|lia].
Qed.

End StateMachine.
