(* ===== verification/FillReconciliation.v ===== *)
(** * Fill reconciliation

    [services/oms/fill_reconciliation.py]: merges the lifecycle events of an
    order received over the queue with an optional exchange snapshot, and
    derives the order's status, filled quantity and average price. *)

From S2P Require Import Prelude PyStr PyFloat PyDecimal OmsStateMachine.
From stdpp Require Import options.
From Stdlib Require Import String Qabs.

#[local] Open Scope Z_scope.

Definition EPSILON : dec := DFin 1 (-9).
Definition MIN_FILL_GAP : dec := DFin 1 (-6).

Definition EVENT_STATUS_MAP (event_type : string) : option OMSState :=
  if String.eqb event_type "oms.order.created" then Some OPEN
  else if String.eqb event_type "oms.order.submitted" then Some SUBMITTED
  else if String.eqb event_type "oms.order.open" then Some OPEN
  else if String.eqb event_type "oms.order.partially_filled" then Some PARTIALLY_FILLED
  else if String.eqb event_type "oms.order.filled" then Some FILLED
  else if String.eqb event_type "oms.order.canceled" then Some CANCELED
  else if String.eqb event_type "oms.order.cancelled" then Some CANCELED
  else if String.eqb event_type "oms.order.rejected" then Some REJECTED
  else if String.eqb event_type "oms.order.expired" then Some EXPIRED
  else if String.eqb event_type "oms.order.ignored" then Some CANCELED
  else None.

Definition STATUS_PRIORITY (s : OMSState) : Z :=
  match s with
  | NEW => 0
  | SUBMITTED => 1
  | OPEN => 2
  | PARTIALLY_FILLED => 3
  | EXPIRED => 4
  | REJECTED => 5
  | CANCELED => 6
  | FILLED => 7
  end.

Record ReconciliationOrder := {
  ro_order_id : string;
  ro_symbol : string;
  ro_mode : string;
  ro_requested_quantity : dec;
  ro_status : string;
  ro_filled_quantity : dec;
  ro_average_price : option dec;
}.

Record ReconciliationFill := {
  rf_fill_id : string;
  rf_order_id : string;
  rf_quantity : dec;
  rf_price : dec;
  rf_fee : dec;
  rf_source : string;
}.

Record LifecycleEvent := {
  le_event_type : string;
  le_status : option string;
  le_fill : option ReconciliationFill;
}.

Record ExchangeOrderSnapshot := {
  es_status : string;
  es_filled_quantity : dec;
  es_average_price : option dec;
  es_fills : list ReconciliationFill;
}.

Record FillReconciliationResult := {
  fr_order_id : string;
  fr_status : OMSState;
  fr_filled_quantity : dec;
  fr_average_price : option dec;
  fr_fills : list ReconciliationFill;
  fr_used_exchange_fallback : bool;
  fr_changed : bool;
}.

Definition event_status (ev : LifecycleEvent) : result (option OMSState) :=
  match le_status ev with
  | Some s => Some <$> normalize_state s
  | None => Ok (EVENT_STATUS_MAP (le_event_type ev))
  end.

(** [_pick_status]: the state of highest priority, [NEW] when there is none.
    Its arguments are already normalised states. *)
Definition pick_status (statuses : list OMSState) : OMSState :=
  foldl (fun best s => if STATUS_PRIORITY best <? STATUS_PRIORITY s then s else best)
    NEW statuses.

Definition normalize_fill (f : ReconciliationFill) : result ReconciliationFill :=
  a ← dabs (rf_quantity f);
  q ← dmax d0 a;
  Ok {| rf_fill_id := rf_fill_id f; rf_order_id := rf_order_id f; rf_quantity := q;
        rf_price := rf_price f; rf_fee := rf_fee f; rf_source := rf_source f |}.

Definition dedupe_fills (fills : list ReconciliationFill) : list ReconciliationFill :=
  dedupe_by rf_fill_id fills.

(** [sum(max(0, fill.quantity) for fill in fills)] *)
Definition filled_quantity (fills : list ReconciliationFill) : result dec :=
  fold_res (fun acc f => q ← dmax d0 (rf_quantity f); dadd acc q) d0 fills.

Definition weighted_average_price (fills : list ReconciliationFill) : result (option dec) :=
  '(total, notional) ←
    fold_res (fun '(t, n) f =>
      q ← dmax d0 (rf_quantity f);
      t' ← dadd t q;
      v ← dmul q (rf_price f);
      n' ← dadd n v;
      Ok (t', n')) (d0, d0) fills;
  small ← dleb total EPSILON;
  if small : bool then Ok None else Some <$> ddiv notional total.

Definition requires_fallback (current_status : OMSState) (queue_fills : list ReconciliationFill)
    (snap : ExchangeOrderSnapshot) : result bool :=
  snap_status ← normalize_state (es_status snap);
  queue_filled ← filled_quantity queue_fills;
  snapshot_filled ← dmax d0 (es_filled_quantity snap);
  if negb (is_terminal current_status) then
    if is_terminal snap_status then Ok true
    else g ← dadd queue_filled MIN_FILL_GAP; dltb g snapshot_filled
  else if is_terminal snap_status
          && (STATUS_PRIORITY current_status <? STATUS_PRIORITY snap_status) then Ok true
  else g ← dadd queue_filled MIN_FILL_GAP; dltb g snapshot_filled.

Definition derive_status (base_status : OMSState) (requested_quantity filled_quantity : dec)
  : result OMSState :=
  none_requested ← dleb requested_quantity EPSILON;
  if none_requested : bool then Ok base_status
  else
    threshold ← dsub requested_quantity EPSILON;
    full ← dleb threshold filled_quantity;
    if full : bool then Ok FILLED
    else
      some ← dltb EPSILON filled_quantity;
      if some : bool then
        match base_status with
        | CANCELED | REJECTED | EXPIRED => Ok base_status
        | _ => Ok PARTIALLY_FILLED
        end
      else Ok base_status.

Definition is_changed (order : ReconciliationOrder) (status : OMSState) (filled : dec)
    (average_price : option dec) : result bool :=
  before ← normalize_state (ro_status order);
  if negb (bool_decide (before = status)) then Ok true
  else
    d ← dsub (ro_filled_quantity order) filled;
    a ← dabs d;
    moved ← dltb EPSILON a;
    if moved : bool then Ok true
    else
      match ro_average_price order, average_price with
      | None, None => Ok false
      | None, Some _ | Some _, None => Ok true
      | Some old, Some new => d ← dsub old new; a ← dabs d; dltb EPSILON a
      end.

(** One turn of the loop over the lifecycle events. *)
Definition collect_event (order_id : string)
    (acc : list OMSState * list ReconciliationFill) (ev : LifecycleEvent)
  : result (list OMSState * list ReconciliationFill) :=
  let '(statuses, fills) := acc in
  inferred ← event_status ev;
  let statuses' := match inferred with Some s => statuses ++ [s] | None => statuses end in
  match le_fill ev with
  | Some f =>
      if String.eqb (rf_order_id f) order_id
      then g ← normalize_fill f; Ok (statuses', fills ++ [g])
      else Ok (statuses', fills)
  | None => Ok (statuses', fills)
  end.

Definition collect_events (order_id : string) (evs : list LifecycleEvent)
  : result (list OMSState * list ReconciliationFill) :=
  fold_res (collect_event order_id) ([], []) evs.

(** Everything [reconcile] does after the loop over the events. *)
Definition settle (order : ReconciliationOrder) (merged_status : OMSState)
    (merged_fills : list ReconciliationFill) (exchange_snapshot : option ExchangeOrderSnapshot)
  : result FillReconciliationResult :=
  '(used, status, fills) ←
    match exchange_snapshot with
    | None => Ok (false, merged_status, merged_fills)
    | Some snap =>
        need ← requires_fallback merged_status merged_fills snap;
        if need : bool then
          snapshot_status ← normalize_state (es_status snap);
          extra ← map_res normalize_fill (es_fills snap);
          Ok (true, pick_status [merged_status; snapshot_status],
              dedupe_fills (merged_fills ++ extra))
        else Ok (false, merged_status, merged_fills)
    end;
  summed ← filled_quantity fills;
  negligible ← dleb summed EPSILON;
  filled ←
    (if negligible : bool then
       own ← dmax d0 (ro_filled_quantity order);
       match exchange_snapshot with
       | None => Ok own
       | Some snap => theirs ← dmax d0 (es_filled_quantity snap); dmax own theirs
       end
     else Ok summed);
  avg ← weighted_average_price fills;
  let average_price :=
    match avg with
    | Some a => Some a
    | None =>
        match exchange_snapshot with
        | Some snap =>
            match es_average_price snap with Some a => Some a | None => ro_average_price order end
        | None => ro_average_price order
        end
    end in
  requested ← dmax d0 (ro_requested_quantity order);
  final_status ← derive_status status requested filled;
  chg ← is_changed order final_status filled average_price;
  Ok {| fr_order_id := ro_order_id order; fr_status := final_status;
        fr_filled_quantity := filled; fr_average_price := average_price;
        fr_fills := fills; fr_used_exchange_fallback := used; fr_changed := chg |}.

Definition reconcile (order : ReconciliationOrder) (lifecycle_events : list LifecycleEvent)
    (exchange_snapshot : option ExchangeOrderSnapshot) : result FillReconciliationResult :=
  base_status ← normalize_state (ro_status order);
  '(event_statuses, queue_fills) ← collect_events (ro_order_id order) lifecycle_events;
  settle order (pick_status (base_status :: event_statuses)) (dedupe_fills queue_fills)
    exchange_snapshot.

(** ** Status choice *)

Lemma STATUS_PRIORITY_inj s t : STATUS_PRIORITY s = STATUS_PRIORITY t -> s = t.
Proof. by destruct s, t. Qed.

Definition better (best s : OMSState) : OMSState :=
  if STATUS_PRIORITY best <? STATUS_PRIORITY s then s else best.

Lemma foldl_better_spec l b :
  let r := foldl better b l in
  (forall s, s = b \/ s ∈ l -> STATUS_PRIORITY s <= STATUS_PRIORITY r) /\ (r = b \/ r ∈ l).
Proof.
  revert b. induction l as [|x l IH]; intros b; simpl.
  { split; [intros s [->|H]; [lia|set_solver]|by left]. }
  destruct (IH (better b x)) as [Hmax Hin]. set (r := foldl better (better b x) l) in *.
  assert (Hb : STATUS_PRIORITY b <= STATUS_PRIORITY (better b x) /\
               STATUS_PRIORITY x <= STATUS_PRIORITY (better b x)).
  { unfold better. destruct (Z.ltb_spec (STATUS_PRIORITY b) (STATUS_PRIORITY x)); lia. }
  pose proof (Hmax (better b x) (or_introl eq_refl)).
  split.
  - intros s [->|[->|Hs]%elem_of_cons]; [lia|lia|]. apply Hmax. by right.
  - destruct Hin as [->|Hin]; [|set_solver].
    unfold better. destruct (_ <? _); [right; left|by left].
Qed.

(** [_pick_status] returns the greatest status present. *)
Lemma pick_status_spec l :
  (forall s, s ∈ l -> STATUS_PRIORITY s <= STATUS_PRIORITY (pick_status l)) /\
  (pick_status l = NEW \/ pick_status l ∈ l).
Proof.
  destruct (foldl_better_spec l NEW) as [Hmax Hin]. split; [|exact Hin].
  intros s Hs. apply Hmax. by right.
Qed.

Lemma pick_status_ge_NEW l : 0 <= STATUS_PRIORITY (pick_status l).
Proof. by destruct (pick_status l). Qed.

(** It depends on the set of statuses only. *)
Lemma pick_status_ext l1 l2 : (forall s, s ∈ l1 <-> s ∈ l2) -> pick_status l1 = pick_status l2.
Proof.
  intros H. apply STATUS_PRIORITY_inj.
  destruct (pick_status_spec l1) as [M1 I1], (pick_status_spec l2) as [M2 I2].
  pose proof (pick_status_ge_NEW l1). pose proof (pick_status_ge_NEW l2).
  apply Z.le_antisymm.
  - destruct I1 as [->|I1]; [done|]. apply M2. by apply H.
  - destruct I2 as [->|I2]; [done|]. apply M1. by apply H.
Qed.

(** ** Collecting events *)

#[local] Arguments collect_event : simpl never.

Section collect.
Context (oid : string).

(** What one event contributes. *)
Definition contributes (ev : LifecycleEvent) : result (list OMSState * list ReconciliationFill) :=
  collect_event oid ([], []) ev.

Lemma collect_event_acc ss fs ev :
  collect_event oid (ss, fs) ev =
  '(ss', fs') ← contributes ev; Ok (ss ++ ss', fs ++ fs').
Proof.
  unfold contributes, collect_event. destruct (event_status ev) as [[s|]|e]; simpl; [| |done];
    destruct (le_fill ev) as [f|]; simpl; rewrite ?app_nil_r; try done;
    destruct (String.eqb _ _); simpl; rewrite ?app_nil_r; try done;
    destruct (normalize_fill f); simpl; rewrite ?app_nil_r; done.
Qed.

Lemma collect_events_app acc l1 l2 :
  fold_res (collect_event oid) acc (l1 ++ l2) =
  acc' ← fold_res (collect_event oid) acc l1; fold_res (collect_event oid) acc' l2.
Proof. apply fold_res_app. Qed.

(** After a successful run every event has contributed. *)
Lemma collect_contributes evs ss fs ss' fs' :
  fold_res (collect_event oid) (ss, fs) evs = Ok (ss', fs') ->
  (forall s, s ∈ ss -> s ∈ ss') /\ (forall f, f ∈ fs -> f ∈ fs') /\
  forall ev, ev ∈ evs -> exists cs cf, contributes ev = Ok (cs, cf) /\
    (forall s, s ∈ cs -> s ∈ ss') /\ (forall f, f ∈ cf -> f ∈ fs').
Proof.
  revert ss fs. induction evs as [|ev evs IH]; intros ss fs H; simpl in H.
  { injection H as -> ->. split; [done|]. split; [done|]. intros ev Hev. set_solver. }
  rewrite collect_event_acc in H. destruct (contributes ev) as [[cs cf]|] eqn:E; [|done].
  simpl in H. apply IH in H as (Hs & Hf & Hev). split; [set_solver|]. split; [set_solver|].
  intros ev' [->|Hin]%elem_of_cons; [|auto]. exists cs, cf. set_solver.
Qed.

(** Re-running events that have all contributed adds nothing new. *)
Lemma collect_again extra ss fs (S0 : list OMSState) (F0 : list ReconciliationFill) :
  (forall ev, ev ∈ extra -> exists cs cf, contributes ev = Ok (cs, cf) /\
    (forall s, s ∈ cs -> s ∈ S0) /\ (forall f, f ∈ cf -> f ∈ F0)) ->
  exists ss' fs', fold_res (collect_event oid) (ss, fs) extra = Ok (ss ++ ss', fs ++ fs') /\
    (forall s, s ∈ ss' -> s ∈ S0) /\ (forall f, f ∈ fs' -> f ∈ F0).
Proof.
  revert ss fs. induction extra as [|ev extra IH]; intros ss fs H; simpl.
  { exists [], []. rewrite !app_nil_r. set_solver. }
  destruct (H ev ltac:(left)) as (cs & cf & E & Hs & Hf).
  rewrite collect_event_acc, E. simpl.
  destruct (IH (ss ++ cs) (fs ++ cf)) as (ss' & fs' & E' & Hs' & Hf').
  { intros ev' Hev'. apply H. by right. }
  exists (cs ++ ss'), (cf ++ fs'). rewrite E', !app_assoc. set_solver.
Qed.
End collect.

Lemma dedupe_fills_extra fs extra :
  (forall f, f ∈ extra -> f ∈ fs) -> dedupe_fills (fs ++ extra) = dedupe_fills fs.
Proof.
  intros H. unfold dedupe_fills, dedupe_by.
  rewrite dedupe_go_app, (dedupe_go_seen _ (reverse (rf_fill_id <$> fs) ++ []) extra), app_nil_r;
    [done|].
  intros x Hx. rewrite elem_of_app, elem_of_reverse. left. apply list_elem_of_fmap_2. auto.
Qed.

(** C5. At-least-once delivery is harmless for orders: if the queue hands over
    any events a second time, in any number and order, [reconcile] returns
    exactly what it returned (or raised) without them. *)
Theorem reconcile_redelivery order evs extra snap :
  (forall ev, ev ∈ extra -> ev ∈ evs) ->
  reconcile order (evs ++ extra) snap = reconcile order evs snap.
Proof.
  intros Hsub. unfold reconcile. destruct (normalize_state (ro_status order)) as [b|]; simpl; [|done].
  unfold collect_events. rewrite collect_events_app.
  destruct (fold_res _ _ evs) as [[ss fs]|] eqn:E; simpl; [|done].
  apply collect_contributes in E as (_ & _ & Hc).
  destruct (collect_again (ro_order_id order) extra ss fs ss fs) as (ss' & fs' & -> & Hs & Hf).
  { intros ev Hev. apply Hc. auto. }
  simpl. rewrite (dedupe_fills_extra fs fs' Hf). f_equal.
  apply pick_status_ext. set_solver.
Qed.

(** ** Where the merged fills come from *)

(** [from_queue oid evs f]: [f] is the normal form of a fill of order [oid]
    carried by one of the events. *)
Definition from_queue (oid : string) (evs : list LifecycleEvent) (f : ReconciliationFill) : Prop :=
  exists ev g, ev ∈ evs /\ le_fill ev = Some g /\ rf_order_id g = oid /\ normalize_fill g = Ok f.

Definition from_snapshot (snap : option ExchangeOrderSnapshot) (f : ReconciliationFill) : Prop :=
  exists s g, snap = Some s /\ g ∈ es_fills s /\ normalize_fill g = Ok f.

Lemma collect_fills_origin oid evs ss fs ss' fs' :
  fold_res (collect_event oid) (ss, fs) evs = Ok (ss', fs') ->
  forall f, f ∈ fs' -> f ∈ fs \/ from_queue oid evs f.
Proof.
  revert ss fs. induction evs as [|ev evs IH]; intros ss fs H f Hf; simpl in H.
  { injection H as -> ->. by left. }
  destruct (collect_event oid (ss, fs) ev) as [[ss1 fs1]|] eqn:E; [|done]. simpl in H.
  destruct (IH _ _ H f Hf) as [Hin|(ev' & g & ? & ?)]; [|right; exists ev', g; set_solver].
  unfold collect_event in E. res_inv.
  destruct (le_fill ev) as [g|] eqn:Eg; [|res_inv; simplify_eq; by left].
  destruct (String.eqb_spec (rf_order_id g) oid) as [Ho|]; res_inv; simplify_eq; [|by left].
  apply elem_of_app in Hin as [|Hin%list_elem_of_singleton]; [by left|right]. subst.
  exists ev, g. set_solver.
Qed.

Lemma map_res_origin {A B} (g : A -> result B) l l' :
  map_res g l = Ok l' -> forall y, y ∈ l' -> exists x, x ∈ l /\ g x = Ok y.
Proof.
  revert l'. induction l as [|x l IH]; intros l' H y Hy; simpl in H; res_inv; [set_solver|].
  apply elem_of_cons in Hy as [->|Hy]; [exists x; set_solver|].
  destruct (IH _ E0 y Hy) as (z & ? & ?). exists z. set_solver.
Qed.

(** What a successful [settle] computed. *)
Lemma settle_inv order st fills snap r :
  settle order st fills snap = Ok r ->
  exists summed,
    filled_quantity (fr_fills r) = Ok summed /\
    (dleb summed EPSILON = Ok false -> fr_filled_quantity r = summed) /\
    (forall avg, weighted_average_price (fr_fills r) = Ok (Some avg) ->
                 fr_average_price r = Some avg) /\
    (exists st' requested, dmax d0 (ro_requested_quantity order) = Ok requested /\
       derive_status st' requested (fr_filled_quantity r) = Ok (fr_status r)) /\
    fr_order_id r = ro_order_id order /\
    (if fr_used_exchange_fallback r
     then exists s extra, snap = Some s /\ map_res normalize_fill (es_fills s) = Ok extra /\
            fr_fills r = dedupe_fills (fills ++ extra)
     else fr_fills r = fills).
Proof.
  unfold settle. intros H. apply bind_Ok in H as ([[used st'] fs] & Hsrc & H). res_inv. simpl.
  exists x. split; [done|]. split; [intros Hx; rewrite Hx in E0; by simplify_eq/=; res_inv|].
  split; [intros avg Ha; by rewrite Ha in E2; simplify_eq|].
  split; [by exists st', x3|]. split; [done|].
  destruct snap as [s|]; [|by simplify_eq].
  apply bind_Ok in Hsrc as ([] & _ & Hsrc); [|by simplify_eq].
  apply bind_Ok in Hsrc as (? & _ & Hsrc). apply bind_Ok in Hsrc as (extra & He & Hsrc).
  injection Hsrc as <- <- <-. by exists s, extra.
Qed.

(** The merged fills are sound: no fill id is counted twice, and every
    fill is the normal form either of a queue fill addressed to this very
    order or, when the exchange fallback was used, of a fill in the snapshot. *)
Theorem reconcile_fills_sound order evs snap r :
  reconcile order evs snap = Ok r ->
  NoDup (rf_fill_id <$> fr_fills r) /\
  forall f, f ∈ fr_fills r ->
    from_queue (ro_order_id order) evs f \/
    (fr_used_exchange_fallback r = true /\ from_snapshot snap f).
Proof.
  unfold reconcile. intros H. apply bind_Ok in H as (b & _ & H).
  apply bind_Ok in H as ([ss fs] & Hc & H).
  destruct (settle_inv _ _ _ _ _ H) as (_ & _ & _ & _ & _ & _ & Hsrc).
  assert (Hq : forall f, f ∈ dedupe_fills fs -> from_queue (ro_order_id order) evs f).
  { intros f Hf%dedupe_go_sub. destruct (collect_fills_origin _ _ _ _ _ _ Hc f Hf); set_solver. }
  destruct (fr_used_exchange_fallback r).
  - destruct Hsrc as (s & extra & -> & He & ->). split; [apply dedupe_go_NoDup|].
    intros f Hf%dedupe_go_sub. apply elem_of_app in Hf as [Hf|Hf]; [by left; apply Hq|right].
    split; [done|]. destruct (map_res_origin _ _ _ He f Hf) as (g & ? & ?). by exists s, g.
  - rewrite Hsrc. split; [apply dedupe_go_NoDup|]. intros f Hf. left. auto.
Qed.

(** ** Amounts *)

Definition fill_qty (f : ReconciliationFill) : Q := dval (rf_quantity f).
Definition fill_notional (f : ReconciliationFill) : Q := fill_qty f * dval (rf_price f).

(** A fill whose quantity and price have at most eight decimal places and are
    not negative: what exchanges report. *)
Definition exchange_fill (f : ReconciliationFill) : Prop :=
  isdec 8 (rf_quantity f) (fill_qty f) /\ (0 <= fill_qty f)%Q /\
  isdec 8 (rf_price f) (dval (rf_price f)) /\ (0 <= dval (rf_price f))%Q.

Lemma dmax_0_isdec k x v :
  0 <= k -> isdec k x v -> (0 <= v)%Q -> exists z, dmax d0 x = Ok z /\ isdec k z v.
Proof.
  intros Hk Hx Hv. unfold dmax.
  rewrite (dltb_isdec k k _ _ 0 v) by (done || by apply isdec_0). simpl.
  destruct (qltb 0 v) eqn:E; [eauto|]. apply qltb_false in E.
  exists d0. split; [done|]. assert (Hz : (v == 0)%Q) by lra. rewrite Hz. by apply isdec_0.
Qed.

Lemma fold_qty_exact l acc va :
  isdec 8 acc va -> (0 <= va)%Q -> Forall exchange_fill l ->
  (va + qsum (fill_qty <$> l) < p10 20)%Q ->
  exists z, fold_res (fun acc f => q ← dmax d0 (rf_quantity f); dadd acc q) acc l = Ok z /\
            isdec 8 z (va + qsum (fill_qty <$> l))%Q.
Proof.
  intros Ha H0 Hl. revert acc va Ha H0.
  induction Hl as [|f l (Hq & Hq0 & _) Hl IH]; intros acc va Ha H0 Hb; csimpl in *.
  { exists acc. split; [done|]. by rewrite Qplus_0_r. }
  assert (Hnn : (0 <= qsum (fill_qty <$> l))%Q)
    by (apply qsum_nonneg; eapply Forall_impl; [done|by intros ? (_ & ? & _)]).
  destruct (dmax_0_isdec 8 _ _ ltac:(done) Hq Hq0) as (q & -> & Hq'). simpl.
  destruct (dadd_isdec 8 20 acc q va (fill_qty f)) as (z & -> & Hz); try done.
  { rewrite Qabs_pos; lra. }
  simpl. destruct (IH z _ Hz) as (w & -> & Hw); [lra|lra|].
  exists w. split; [done|]. by rewrite Qplus_assoc.
Qed.

Lemma filled_quantity_exact l :
  Forall exchange_fill l -> (qsum (fill_qty <$> l) < p10 20)%Q ->
  exists z, filled_quantity l = Ok z /\ isdec 8 z (qsum (fill_qty <$> l)).
Proof.
  intros Hl Hb. destruct (fold_qty_exact l d0 0) as (z & Hz & Hv); try done.
  - by apply isdec_0.
  - by rewrite Qplus_0_l.
  - exists z. split; [done|]. by rewrite Qplus_0_l in Hv.
Qed.

Definition avg_step : dec * dec -> ReconciliationFill -> result (dec * dec) :=
  fun '(t, n) f =>
    q ← dmax d0 (rf_quantity f); t' ← dadd t q; v ← dmul q (rf_price f);
    n' ← dadd n v; Ok (t', n').

Lemma fold_avg_exact l t n vt vn :
  isdec 8 t vt -> isdec 16 n vn -> (0 <= vt)%Q -> (0 <= vn)%Q -> Forall exchange_fill l ->
  (vt + qsum (fill_qty <$> l) < p10 20)%Q -> (vn + qsum (fill_notional <$> l) < p10 12)%Q ->
  exists t' n', fold_res avg_step (t, n) l = Ok (t', n') /\
    isdec 8 t' (vt + qsum (fill_qty <$> l))%Q /\ isdec 16 n' (vn + qsum (fill_notional <$> l))%Q.
Proof.
  intros Ht Hn H0t H0n Hl. revert t n vt vn Ht Hn H0t H0n.
  induction Hl as [|f l (Hq & Hq0 & Hp & Hp0) Hl IH]; intros t n vt vn Ht Hn H0t H0n Hbt Hbn;
    csimpl in *.
  { exists t, n. rewrite !Qplus_0_r. done. }
  assert (Hnt : (0 <= qsum (fill_qty <$> l))%Q)
    by (apply qsum_nonneg; eapply Forall_impl; [done|by intros ? (_ & ? & _)]).
  assert (Hnn : (0 <= qsum (fill_notional <$> l))%Q).
  { apply qsum_nonneg. eapply Forall_impl; [done|]. intros g (_ & ? & _ & ?).
    by apply Qmult_le_0_compat. }
  assert (H0 : (0 <= fill_notional f)%Q) by (by apply Qmult_le_0_compat).
  destruct (dmax_0_isdec 8 _ _ ltac:(done) Hq Hq0) as (q & -> & Hq'). simpl.
  destruct (dadd_isdec 8 20 t q vt (fill_qty f)) as (t1 & -> & Ht1); try done.
  { rewrite Qabs_pos; lra. }
  destruct (dmul_isdec 8 8 12 q (rf_price f) (fill_qty f) (dval (rf_price f)))
    as (v & Ev & Hv); try done.
  { fold (fill_notional f). rewrite Qabs_pos; lra. }
  simpl. rewrite Ev. simpl.
  change (8 + 8) with 16 in Hv. fold (fill_notional f) in Hv.
  destruct (dadd_isdec 16 12 n v vn (fill_notional f)) as (n1 & -> & Hn1); try done.
  { rewrite Qabs_pos; lra. }
  simpl. destruct (IH t1 n1 _ _ Ht1 Hn1) as (t' & n' & -> & Ht' & Hn'); [lra..|].
  exists t', n'. rewrite !Qplus_assoc. done.
Qed.

Lemma notional_bounds l lo hi :
  Forall exchange_fill l ->
  Forall (fun f => (lo <= dval (rf_price f) <= hi)%Q) l ->
  (lo * qsum (fill_qty <$> l) <= qsum (fill_notional <$> l) <= hi * qsum (fill_qty <$> l))%Q.
Proof.
  induction 1 as [|f l (_ & Hq & _) _ IH]; intros Hb; csimpl; [lra|].
  apply Forall_cons in Hb as [Hf Hl]. specialize (IH Hl). unfold fill_notional at 1 3. nra.
Qed.

Lemma fill_epsilon_isdec : isdec 9 EPSILON (p10 (-9)).
Proof. exists 1, (-9). split; [done|]. split; [lia|]. unfold qval. apply Qmult_1_l. Qed.

Lemma isdec_pos k x v : isdec k x v -> (0 < v)%Q -> exists c e, x = DFin c e /\ 0 < c /\ (qval c e == v)%Q.
Proof.
  intros (c & e & -> & _ & Hv) H. exists c, e. split; [done|]. split; [|done].
  rewrite (qval_lt 0 c e), qval_0, Hv. done.
Qed.

Lemma weighted_average_between l lo hi :
  Forall exchange_fill l -> 0 < lo -> (qval hi (-8) < p10 20)%Q ->
  Forall (fun f => between 8 lo hi (dval (rf_price f))) l ->
  (p10 (-9) < qsum (fill_qty <$> l) < p10 20)%Q -> (qsum (fill_notional <$> l) < p10 12)%Q ->
  exists avg, weighted_average_price l = Ok (Some avg) /\ dfinite avg = true /\
              between 8 lo hi (dval avg).
Proof.
  intros Hl Hlo Hhi Hp [Ht1 Ht2] Hn.
  destruct (fold_avg_exact l d0 d0 0 0) as (t & n & E & Ht & Hnn); try done;
    [by apply isdec_0 | by apply isdec_0 | lra | lra |].
  rewrite Qplus_0_l in Ht, Hnn.
  destruct (notional_bounds l (qval lo (-8)) (qval hi (-8)) Hl Hp) as [Hb1 Hb2].
  assert (Hlo' : (0 < qval lo (-8))%Q) by (rewrite <- (qval_0 (-8)), <- qval_lt; done).
  pose proof (p10_pos (-9)).
  destruct (isdec_pos 8 t _ Ht) as (ct & et & -> & Hct & Hvt); [lra|].
  destruct (isdec_pos 16 n _ Hnn) as (cn & en & -> & Hcn & Hvn); [nra|].
  destruct (ddiv_between cn en ct et 8 20 lo hi) as (z & Hz & Hf & Hbt); try done.
  { change (- (8)) with (-8). by rewrite Hvn, Hvt. }
  { change (- (8)) with (-8). by rewrite Hvn, Hvt. }
  exists z. unfold weighted_average_price. change (fold_res _ _ l) with (fold_res avg_step (d0, d0) l).
  rewrite E. simpl. rewrite (dleb_isdec 8 9 _ _ _ (p10 (-9)) Ht).
  - replace (qleb _ _) with false; [|symmetry; by apply qleb_false]. simpl. by rewrite Hz.
  - apply fill_epsilon_isdec.
Qed.

(** Bookkeeping is exact: when the fills have at most eight decimals, a
    positive price, a total above the epsilon and below [10^20] and a notional
    below [10^12], the filled quantity reported is the exact sum of the
    deduplicated fills and the average price lies between the lowest and the
    highest fill price, in spite of the rounding of the division. *)
Theorem reconcile_amounts order evs snap r lo hi :
  reconcile order evs snap = Ok r ->
  Forall exchange_fill (fr_fills r) -> 0 < lo -> (qval hi (-8) < p10 20)%Q ->
  Forall (fun f => between 8 lo hi (dval (rf_price f))) (fr_fills r) ->
  (p10 (-9) < qsum (fill_qty <$> fr_fills r) < p10 20)%Q ->
  (qsum (fill_notional <$> fr_fills r) < p10 12)%Q ->
  (dval (fr_filled_quantity r) == qsum (fill_qty <$> fr_fills r))%Q /\
  exists avg, fr_average_price r = Some avg /\ dfinite avg = true /\ between 8 lo hi (dval avg).
Proof.
  unfold reconcile. intros H Hl Hlo Hhi Hp Ht Hn. apply bind_Ok in H as (b & _ & H).
  apply bind_Ok in H as ([ss fs] & _ & H).
  destruct (settle_inv _ _ _ _ _ H) as (summed & Hsum & Hfq & Havg & _).
  destruct (filled_quantity_exact _ Hl (proj2 Ht)) as (z & Hz & Hv). simplify_eq/=.
  rewrite Hz in Hsum. injection Hsum as <-.
  destruct (weighted_average_between _ lo hi Hl Hlo Hhi Hp Ht Hn) as (avg & Ea & Hf & Hb).
  split; [|exists avg; split; [by apply Havg|done]].
  rewrite Hfq; [by apply isdec_val in Hv|].
  rewrite (dleb_isdec 8 9 _ _ _ (p10 (-9)) Hv).
  - f_equal. apply qleb_false. tauto.
  - apply fill_epsilon_isdec.
Qed.

(** ** Status and quantity agree *)

(** [_derive_status] on amounts that are ordinary numbers. *)
Lemma derive_status_val st requested filled vr cf ef :
  isdec 8 requested vr -> (p10 (-9) < vr < p10 12)%Q -> filled = DFin cf ef ->
  derive_status st requested filled =
  Ok (if qleb (vr - p10 (-9)) (qval cf ef) then FILLED
      else if qltb (p10 (-9)) (qval cf ef) then
        match st with CANCELED | REJECTED | EXPIRED => st | _ => PARTIALLY_FILLED end
      else st).
Proof.
  intros Hr [Hr1 Hr2] ->. unfold derive_status. pose proof (p10_pos (-9)).
  rewrite (dleb_isdec 8 9 _ _ _ _ Hr fill_epsilon_isdec).
  replace (qleb vr (p10 (-9))) with false by (symmetry; by apply qleb_false). simpl.
  destruct (dsub_isdec 9 13 requested EPSILON vr (p10 (-9))) as (t & -> & Ht); try done.
  { by apply (isdec_weaken 8). }
  { apply fill_epsilon_isdec. }
  { rewrite Qabs_pos by lra. pose proof (p10_le 12 13 ltac:(lia)). lra. }
  assert (Hf : isdec (Z.max 0 (- ef)) (DFin cf ef) (qval cf ef)) by (exists cf, ef; repeat split; lia).
  simpl. rewrite (dleb_isdec _ _ _ _ _ _ Ht Hf). simpl. destruct (qleb _ _); [done|].
  rewrite (dltb_isdec _ _ _ _ _ _ fill_epsilon_isdec Hf). simpl. destruct (qltb _ _); [by destruct st|done].
Qed.

(** The reported status agrees with the reported quantity. For an order
    of a sensible size: once the filled quantity reaches the requested one
    (up to the epsilon) the status is FILLED; FILLED is never reported on a
    partial fill; and after any real fill the order is never again reported
    as NEW, SUBMITTED or OPEN. *)
Theorem reconcile_status_agrees order evs snap r vr :
  reconcile order evs snap = Ok r ->
  isdec 8 (ro_requested_quantity order) vr -> (p10 (-9) < vr < p10 12)%Q ->
  dfinite (fr_filled_quantity r) = true ->
  let vf := dval (fr_filled_quantity r) in
  ((vr - p10 (-9) <= vf)%Q -> fr_status r = FILLED) /\
  (fr_status r = FILLED -> (vr - p10 (-9) <= vf)%Q \/ (vf <= p10 (-9))%Q) /\
  ((p10 (-9) < vf)%Q -> ~ fr_status r ∈ [NEW; SUBMITTED; OPEN]).
Proof.
  unfold reconcile. intros H Hr Hvr Hfin. apply bind_Ok in H as (b & _ & H).
  apply bind_Ok in H as ([ss fs] & _ & H).
  destruct (settle_inv _ _ _ _ _ H) as (_ & _ & _ & _ & (st & rq & Hrq & Hd) & _).
  destruct (fr_filled_quantity r) as [cf ef| |] eqn:Ef; [|done|done]. simpl.
  pose proof (p10_pos (-9)).
  destruct (dmax_0_isdec 8 _ _ ltac:(done) Hr ltac:(lra)) as (rq' & Hrq' & Hrd).
  rewrite Hrq in Hrq'. injection Hrq' as <-.
  rewrite (derive_status_val st rq _ vr cf ef Hrd Hvr eq_refl) in Hd. injection Hd as Hd.
  destruct (qleb _ _) eqn:E1; [apply qleb_true in E1|apply qleb_false in E1];
    [rewrite <- Hd; split; [done|]; split; [by left|set_solver]|].
  destruct (qltb _ _) eqn:E2; [apply qltb_true in E2|apply qltb_false in E2].
  - split; [lra|]. rewrite <- Hd. split; [by destruct st|]. destruct st; set_solver.
  - split; [lra|]. split; [by right|lra].
Qed.

(** ** A concrete order

    Two fills of one unit each, at 100.5 and 101.5, on an order of two. *)
Module Example.
Definition fill1 : ReconciliationFill :=
  {| rf_fill_id := "f-1"; rf_order_id := "o-1"; rf_quantity := DFin 1 0;
     rf_price := DFin 1005 (-1); rf_fee := DFin 0 0; rf_source := "queue" |}.
Definition fill2 : ReconciliationFill :=
  {| rf_fill_id := "f-2"; rf_order_id := "o-1"; rf_quantity := DFin 1 0;
     rf_price := DFin 1015 (-1); rf_fee := DFin 0 0; rf_source := "queue" |}.
Definition ev1 : LifecycleEvent :=
  {| le_event_type := "oms.order.partially_filled"; le_status := None; le_fill := Some fill1 |}.
Definition ev2 : LifecycleEvent :=
  {| le_event_type := "oms.order.filled"; le_status := None; le_fill := Some fill2 |}.
Definition order : ReconciliationOrder :=
  {| ro_order_id := "o-1"; ro_symbol := "BTC/USDT"; ro_mode := "MOCK";
     ro_requested_quantity := DFin 2 0; ro_status := " submitted ";
     ro_filled_quantity := DFin 0 0; ro_average_price := None |}.
Definition outcome : FillReconciliationResult :=
  {| fr_order_id := "o-1"; fr_status := FILLED; fr_filled_quantity := DFin 2 0;
     fr_average_price := Some (DFin 1010 (-1)); fr_fills := [fill1; fill2];
     fr_used_exchange_fallback := false; fr_changed := true |}.

Lemma reconcile_run : reconcile order [ev1; ev2] None = Ok outcome.
Proof. reflexivity. Qed.
End Example.

Lemma reconcile_redelivery_witness :
  reconcile Example.order ([Example.ev1; Example.ev2] ++ [Example.ev2; Example.ev1; Example.ev2]) None
  = Ok Example.outcome.
Proof.
  rewrite <- Example.reconcile_run. apply (reconcile_redelivery Example.order [Example.ev1; Example.ev2]).
  intros ev Hev. set_solver.
Defined.

Lemma reconcile_fills_sound_witness :
  NoDup (rf_fill_id <$> fr_fills Example.outcome).
Proof. exact (proj1 (reconcile_fills_sound _ _ _ _ Example.reconcile_run)). Defined.

Lemma exchange_fill_intro f c1 e1 c2 e2 :
  rf_quantity f = DFin c1 e1 -> rf_price f = DFin c2 e2 -> -8 <= e1 -> -8 <= e2 ->
  0 <= c1 -> 0 <= c2 -> exchange_fill f.
Proof.
  intros Hq Hp He1 He2 Hc1 Hc2. unfold exchange_fill, fill_qty. rewrite Hq, Hp. simpl.
  split; [by exists c1, e1|]. split; [by rewrite <- (qval_0 e1), <- qval_le|].
  split; [by exists c2, e2|]. by rewrite <- (qval_0 e2), <- qval_le.
Qed.

Lemma reconcile_amounts_witness :
  (dval (fr_filled_quantity Example.outcome) ==
   qsum (fill_qty <$> fr_fills Example.outcome))%Q /\
  exists avg, fr_average_price Example.outcome = Some avg /\ dfinite avg = true /\
              between 8 10050000000 10150000000 (dval avg).
Proof.
  refine (reconcile_amounts _ _ _ _ 10050000000 10150000000 Example.reconcile_run _ _ _ _ _ _).
  - repeat constructor; (eapply exchange_fill_intro; [reflexivity|reflexivity|lia..]).
  - lia.
  - by vm_compute.
  - repeat constructor; by vm_compute.
  - split; by vm_compute.
  - by vm_compute.
Defined.

Lemma reconcile_status_agrees_witness : fr_status Example.outcome = FILLED.
Proof.
  refine (proj1 (reconcile_status_agrees _ _ _ _ 2 Example.reconcile_run _ _ _) _).
  - exists 2, 0. by vm_compute.
  - split; by vm_compute.
  - done.
  - by vm_compute.
Defined.
