(* ===== verification/PositionEngine.v ===== *)
(** * Position engine

    [services/oms/position_engine.py]: applies one fill to a netted position.
    The clock is an argument: [now] is what [_utc_now_iso()] returns. *)

From S2P Require Import Prelude PyStr PyFloat PyDecimal.
From stdpp Require Import options.
From Stdlib Require Import String Qabs.

#[local] Open Scope Z_scope.

Definition EPSILON : dec := DFin 1 (-9).

Record PositionState := {
  ps_mode : string;
  ps_symbol : string;
  ps_quantity : dec;
  ps_average_entry_price : dec;
  ps_realized_pnl : dec;
  ps_status : string;
  ps_updated_at : string;
}.

Record PositionFill := {
  pf_order_id : string;
  pf_mode : string;
  pf_symbol : string;
  pf_side : string;
  pf_quantity : dec;
  pf_price : dec;
  pf_fee : dec;
  pf_filled_at : option string;
}.

Record PositionUpdate := {
  pu_previous : PositionState;
  pu_current : PositionState;
  pu_realized_pnl_delta : dec;
}.

Definition signed_quantity (f : PositionFill) : result dec :=
  let side := upper (strip (pf_side f)) in
  quantity ← dabs (pf_quantity f);
  tiny ← dleb quantity EPSILON;
  if tiny : bool then raise PositionEngineError "fill.quantity must be positive"
  else if String.eqb side "BUY" then Ok quantity
  else if String.eqb side "SELL" then dneg quantity
  else raise PositionEngineError ("unsupported fill side: " +:+ pf_side f).

(** Python's [and]/[or] do not evaluate the right operand when the left one
    decides; the comparisons are with the int 0. *)
Definition same_direction (left right : dec) : result bool :=
  l_pos ← dltb d0 left;
  r_pos ← (if l_pos : bool then dltb d0 right else Ok false);
  if r_pos : bool then Ok true
  else
    l_neg ← dltb left d0;
    if l_neg : bool then dltb right d0 else Ok false.

Definition empty_position (mode symbol now : string) : PositionState :=
  {| ps_mode := mode; ps_symbol := symbol; ps_quantity := d0; ps_average_entry_price := d0;
     ps_realized_pnl := d0; ps_status := "CLOSED"; ps_updated_at := now |}.

Definition validate_position_compatibility (p : PositionState) (f : PositionFill) : result unit :=
  _ ← raise_if (negb (String.eqb (ps_mode p) (pf_mode f))) PositionEngineError
        ("position mode mismatch: position=" +:+ ps_mode p +:+ ", fill=" +:+ pf_mode f);
  raise_if (negb (String.eqb (ps_symbol p) (pf_symbol f))) PositionEngineError
        ("position symbol mismatch: position=" +:+ ps_symbol p +:+ ", fill=" +:+ pf_symbol f).

(** What is left after closing against the old position: a position in the
    other direction, nothing, or the rest of the old one. *)
Definition after_close (prev_qty prev_avg price signed remaining : dec) : result (dec * dec) :=
  up ← dltb d0 signed;
  let direction := if up : bool then DFin 1 0 else DFin (-1) 0 in
  flips ← dltb EPSILON remaining;
  if flips : bool then
    new_qty ← dmul remaining direction;
    Ok (new_qty, price)
  else
    new_qty ← dadd prev_qty signed;
    a ← dabs new_qty;
    closed ← dleb a EPSILON;
    Ok (if closed : bool then (d0, d0) else (new_qty, prev_avg)).

(** The three-way branch of [apply_fill]: new quantity, new average, and the
    realised delta before fees. *)
Definition net_fill (prev_qty prev_avg price signed qty_abs : dec) : result (dec * dec * dec) :=
  a ← dabs prev_qty;
  flat ← dleb a EPSILON;
  if flat : bool then
    n ← dabs signed;
    open_ ← dltb EPSILON n;
    Ok (signed, if open_ : bool then price else d0, d0)
  else
    same ← same_direction prev_qty signed;
    if same : bool then
      new_qty ← dadd prev_qty signed;
      a ← dabs prev_qty;
      n1 ← dmul a prev_avg;
      n2 ← dmul qty_abs price;
      notional ← dadd n1 n2;
      den ← dabs new_qty;
      new_avg ← ddiv notional den;
      Ok (new_qty, new_avg, d0)
    else
      a ← dabs prev_qty;
      closing ← dmin a qty_abs;
      long ← dltb d0 prev_qty;
      diff ← (if long : bool then dsub price prev_avg else dsub prev_avg price);
      gain ← dmul diff closing;
      delta ← dadd d0 gain;
      remaining ← dsub qty_abs closing;
      '(new_qty, new_avg) ← after_close prev_qty prev_avg price signed remaining;
      Ok (new_qty, new_avg, delta).

Definition apply_fill (now : string) (position : option PositionState) (fill : PositionFill)
  : result PositionUpdate :=
  signed ← signed_quantity fill;
  qty_abs ← dabs signed;
  let previous :=
    match position with
    | None => empty_position (pf_mode fill) (pf_symbol fill) now
    | Some p => p
    end in
  _ ← validate_position_compatibility previous fill;
  '(new_qty, new_avg, delta0) ←
    net_fill (ps_quantity previous) (ps_average_entry_price previous) (pf_price fill)
      signed qty_abs;
  fee ← dabs (pf_fee fill);
  realized_delta ← dsub delta0 fee;
  new_realized ← dadd (ps_realized_pnl previous) realized_delta;
  a ← dabs new_qty;
  open_ ← dltb EPSILON a;
  let updated_at :=
    match pf_filled_at fill with
    | Some t => if is_empty t then now else t
    | None => now
    end in
  Ok {| pu_previous := previous;
        pu_current :=
          {| ps_mode := pf_mode fill; ps_symbol := pf_symbol fill; ps_quantity := new_qty;
             ps_average_entry_price := new_avg; ps_realized_pnl := new_realized;
             ps_status := if open_ : bool then "OPEN" else "CLOSED";
             ps_updated_at := updated_at |};
        pu_realized_pnl_delta := realized_delta |}.

(** ** What one fill does to the quantity and the average

    Quantities are on the exchanges' grid of eight decimals; an average entry
    price is any decimal, since averaging divides. *)

Lemma EPSILON_isdec : isdec 9 EPSILON (p10 (-9)).
Proof. exists 1, (-9). split; [done|]. split; [lia|]. unfold qval. apply Qmult_1_l. Qed.

(** The signed amount of a fill. *)
Definition fill_delta (f : PositionFill) : Q :=
  if String.eqb (upper (strip (pf_side f))) "BUY" then Qabs (dval (pf_quantity f))
  else - Qabs (dval (pf_quantity f)).

Lemma fill_delta_abs f : (Qabs (fill_delta f) == Qabs (dval (pf_quantity f)))%Q.
Proof.
  unfold fill_delta. destruct (String.eqb _ _); rewrite ?Qabs_opp; apply Qabs_pos, Qabs_nonneg.
Qed.

Lemma tiny_grid x v : isdec 8 x v -> (Qabs v <= p10 (-9))%Q -> (v == 0)%Q.
Proof.
  intros Hx Hv. apply (isdec_small 8 x v); [done|done|].
  eapply Qle_lt_trans; [exact Hv|]. by vm_compute.
Qed.

(** [abs(x) <= EPSILON] and [abs(x) > EPSILON] on the grid. *)
Lemma dabs_grid x v :
  isdec 8 x v -> (Qabs v < p10 5)%Q ->
  exists a, dabs x = Ok a /\ isdec 8 a (Qabs v) /\
    dleb a EPSILON = Ok (qleb (Qabs v) (p10 (-9))) /\
    dltb EPSILON a = Ok (qltb (p10 (-9)) (Qabs v)).
Proof.
  intros Hx Hv. destruct (dabs_isdec 8 5 x v) as (a & Ha & Ha'); try done.
  exists a. split; [done|]. split; [done|].
  split; [apply (dleb_isdec 8 9)|apply (dltb_isdec 9 8)]; done || apply EPSILON_isdec.
Qed.

Lemma signed_quantity_spec f z :
  signed_quantity f = Ok z -> isdec 8 (pf_quantity f) (dval (pf_quantity f)) ->
  (Qabs (fill_delta f) < p10 5)%Q ->
  isdec 8 z (fill_delta f) /\ (p10 (-9) < Qabs (fill_delta f))%Q /\
  (upper (strip (pf_side f)) = "BUY" \/ upper (strip (pf_side f)) = "SELL").
Proof.
  rewrite fill_delta_abs. intros H Hq Hb. unfold signed_quantity in H. unfold fill_delta.
  destruct (dabs_grid _ _ Hq Hb) as (a & Ea & Ha & El & _). rewrite Ea in H. simpl in H.
  rewrite El in H. simpl in H. destruct (qleb _ _) eqn:Et; [done|]. apply qleb_false in Et.
  destruct (String.eqb_spec (upper (strip (pf_side f))) "BUY") as [->|Hs].
  { res_inv. auto. }
  destruct (String.eqb_spec (upper (strip (pf_side f))) "SELL") as [->|]; [|done].
  destruct (dneg_isdec 8 5 a (Qabs (dval (pf_quantity f)))) as (w & Ew & Hw); try done.
  { by rewrite Qabs_pos by apply Qabs_nonneg. }
  rewrite Ew in H. res_inv. auto.
Qed.

Lemma same_direction_spec x y vx vy :
  isdec 8 x vx -> isdec 8 y vy ->
  same_direction x y = Ok ((qltb 0 vx && qltb 0 vy) || (qltb vx 0 && qltb vy 0)).
Proof.
  intros Hx Hy. assert (H0 : isdec 8 d0 0) by by apply isdec_0. unfold same_direction.
  rewrite (dltb_isdec 8 8 d0 x 0 vx), (dltb_isdec 8 8 d0 y 0 vy),
    (dltb_isdec 8 8 x d0 vx 0), (dltb_isdec 8 8 y d0 vy 0) by done.
  simpl. by destruct (qltb 0 vx), (qltb 0 vy), (qltb vx 0), (qltb vy 0).
Qed.

(** The averaging branch: the new average is between any grid bounds of the
    old average and the price, although product, sum and quotient all round. *)
Lemma average_between qa sa da avg price m1 m2 lo hi :
  0 < m1 -> 0 < m2 -> 0 < lo -> (qval (m1 + m2) (-8) < p10 5)%Q -> (qval hi (-8) <= p10 6)%Q ->
  isdec 8 qa (qval m1 (-8)) -> isdec 8 sa (qval m2 (-8)) -> isdec 8 da (qval (m1 + m2) (-8)) ->
  dbetween 8 lo hi avg -> dbetween 8 lo hi price ->
  exists n1 n2 n z, dmul qa avg = Ok n1 /\ dmul sa price = Ok n2 /\ dadd n1 n2 = Ok n /\
    ddiv n da = Ok z /\ dbetween 8 lo hi z.
Proof.
  intros H1 H2 Hlo Hb Hhi Hqa Hsa (cd & ed & -> & _ & Hd) Ha Hp.
  assert (Hm1 : (0 < qval m1 (-8))%Q) by by apply qval_pos.
  assert (Hm2 : (0 < qval m2 (-8))%Q) by by apply qval_pos.
  assert (Hlh : (0 < qval hi (-8))%Q).
  { apply (qval_pos lo (-8)) in Hlo. destruct Hp as [_ [Hp1 Hp2]].
    change (- (8)) with (-8) in *. lra. }
  assert (Hg : forall m g, (qval (m * g) (- (8 + 8)) == qval m (-8) * qval g (-8))%Q).
  { intros. by rewrite <- qval_mul. }
  rewrite qval_add in Hb.
  assert (H511 : (p10 11 == p10 5 * p10 6)%Q) by by rewrite <- p10_add.
  assert (Hm12 : (qval m1 (-8) * qval hi (-8) + qval m2 (-8) * qval hi (-8) < p10 11)%Q) by nra.
  assert (0 < qval m1 (-8) * qval hi (-8))%Q by (by apply Qmult_lt_0_compat).
  assert (0 < qval m2 (-8) * qval hi (-8))%Q by (by apply Qmult_lt_0_compat).
  destruct (dmul_between 8 8 11 qa avg m1 lo hi) as (n1 & E1 & B1);
    [done|done|done|done|done|done|rewrite (Hg m1 hi); lra|done|done|].
  destruct (dmul_between 8 8 11 sa price m2 lo hi) as (n2 & E2 & B2);
    [done|done|done|done|done|done|rewrite (Hg m2 hi); lra|done|done|].
  destruct (dadd_between (8 + 8) 11 n1 n2 (m1 * lo) (m1 * hi) (m2 * lo) (m2 * hi))
    as (n & En & Bn);
    [nia|nia|done|done|done|rewrite qval_add, (Hg m1 hi), (Hg m2 hi); exact Hm12|done|done|].
  destruct (dbetween_pos (8 + 8) (m1 * lo + m2 * lo) (m1 * hi + m2 * hi) n)
    as (cn & en & -> & Hcn); [nia|done|].
  destruct Bn as [_ [Ln Un]]. simpl in Ln, Un.
  rewrite <- Z.mul_add_distr_r in Ln, Un. rewrite (Hg (m1 + m2) lo) in Ln. rewrite (Hg (m1 + m2) hi) in Un.
  assert (Hcd : 0 < cd).
  { apply (qval_pos cd ed). rewrite Hd, qval_add. lra. }
  destruct (ddiv_between cn en cd ed 8 7 lo hi) as (z & Ez & Fz & Bz); try done.
  { change (- (8)) with (-8). eapply Qle_lt_trans; [exact Hhi|by vm_compute]. }
  { change (- (8)) with (-8). rewrite Hd. lra. }
  { change (- (8)) with (-8). rewrite Hd. lra. }
  by exists n1, n2, (DFin cn en), z.
Qed.

Lemma d0_mag p : dmag p d0.
Proof. split; [done|]. apply Qlt_le_weak, (p10_pos p). Qed.

(** The realised delta of a closing trade: it never raises, and it is exact
    when both prices are on the grid. *)
Lemma closing_delta x y closing lo hi c :
  0 < lo -> (qval hi (-8) <= p10 6)%Q -> dbetween 8 lo hi x -> dbetween 8 lo hi y ->
  isdec 8 closing c -> (Qabs c < p10 5)%Q ->
  exists diff gain d, dsub x y = Ok diff /\ dmul diff closing = Ok gain /\
    dadd d0 gain = Ok d /\ dmag 13 d /\
    (forall vx vy, isdec 8 x vx -> isdec 8 y vy ->
       isdec 16 d ((vx - vy) * c) /\ (Qabs ((vx - vy) * c) < p10 11)%Q).
Proof.
  intros Hlo Hhi Hx Hy Hc Hb.
  assert (Mx : dmag 6 x) by (by apply (dbetween_mag 8 6 lo hi)).
  assert (My : dmag 6 y) by (by apply (dbetween_mag 8 6 lo hi)).
  destruct (dsub_mag 6 x y) as (diff & Ed & Md); try done.
  destruct (dmul_mag 7 5 diff closing) as (gain & Eg & Mg); try done.
  { by apply (isdec_mag 8 5 _ c), Qlt_le_weak. }
  destruct (dadd_mag 12 d0 gain) as (d & Ea & Ma); [done|apply d0_mag|done|].
  exists diff, gain, d. split; [done|]. split; [done|]. split; [done|]. split; [done|].
  intros vx vy Vx Vy.
  assert (Pos : forall z vz, isdec 8 z vz -> dbetween 8 lo hi z -> (0 < vz <= p10 6)%Q).
  { intros z vz Vz [_ [L U]]. rewrite (isdec_val _ _ _ Vz) in L, U. change (- (8)) with (-8) in *.
    apply (qval_pos lo (-8)) in Hlo. lra. }
  pose proof (Pos _ _ Vx Hx). pose proof (Pos _ _ Vy Hy).
  assert (Bd : (Qabs (vx - vy) <= p10 6)%Q) by (apply Qabs_case; lra).
  destruct (dsub_isdec 8 7 x y vx vy) as (diff' & Ed' & Vd); try done.
  { eapply Qle_lt_trans; [exact Bd|]. by vm_compute. }
  rewrite Ed in Ed'. injection Ed' as <-.
  assert (Bg : (Qabs ((vx - vy) * c) < p10 11)%Q).
  { rewrite Qabs_Qmult. change (p10 11) with (p10 6 * p10 5)%Q. pose proof (p10_pos 6).
    pose proof (Qabs_nonneg c). pose proof (Qabs_nonneg (vx - vy)). nra. }
  destruct (dmul_isdec 8 8 11 diff closing (vx - vy) c) as (gain' & Eg' & Vg); try done.
  rewrite Eg in Eg'. injection Eg' as <-.
  destruct (dadd_isdec 16 11 d0 gain 0 ((vx - vy) * c)) as (d' & Ea' & Va); try done.
  { by apply isdec_0. }
  { by rewrite Qplus_0_l. }
  rewrite Ea in Ea'. injection Ea' as <-. rewrite Qplus_0_l in Va. by split.
Qed.

Section net_fill.
#[local] Set Default Proof Using "All".
Variables (lo hi : Z) (pq avg price sg qa : dec) (q s : Q).
Hypotheses (Hlo : 0 < lo) (Hhi : (qval hi (-8) <= p10 6)%Q).
Hypotheses (Hpq : isdec 8 pq q) (Hsg : isdec 8 sg s) (Hqa : isdec 8 qa (Qabs s)).
Hypotheses (Hs : (p10 (-9) < Qabs s)%Q) (Hqs : (Qabs q + Qabs s < p10 5)%Q).
Hypothesis Havg : ~ (q == 0)%Q -> dbetween 8 lo hi avg.
Hypothesis Hprice : dbetween 8 lo hi price.

(** What the caller relies on: the quantity is netted exactly, the average
    of an open position stays within the price bounds, and when nothing is
    averaged the realised delta accounts for the whole change in the value
    of the position at any mark price. *)
Definition netted (nq na d : dec) : Prop :=
  isdec 8 nq (q + s) /\
  (~ (q + s == 0)%Q -> dbetween 8 lo hi na) /\
  dmag 13 d /\
  ((0 < q * s)%Q -> d = d0) /\
  forall va vp, ~ (0 < q * s)%Q -> isdec 8 avg va -> isdec 8 price vp ->
    exists vd, isdec 16 d vd /\ (Qabs vd < p10 11)%Q /\
      forall mark, (vd + (mark - dval na) * (q + s) == (mark - va) * q + (mark - vp) * s)%Q.

Lemma net_fill_abs_q : (Qabs q < p10 5)%Q.
Proof. pose proof (Qabs_nonneg s). lra. Qed.
Lemma net_fill_abs_s : (Qabs s < p10 5)%Q.
Proof. pose proof (Qabs_nonneg q). lra. Qed.

Lemma net_fill_flat :
  (q == 0)%Q -> exists nq na d, net_fill pq avg price sg qa = Ok (nq, na, d) /\ netted nq na d.
Proof.
  intros Hq. unfold net_fill.
  destruct (dabs_grid pq q Hpq net_fill_abs_q) as (a & -> & _ & El & _). simpl. rewrite El. simpl.
  replace (qleb (Qabs q) (p10 (-9))) with true
    by (symmetry; apply qleb_true; rewrite Hq; by vm_compute).
  destruct (dabs_grid sg s Hsg net_fill_abs_s) as (b & -> & _ & _ & Eb). simpl. rewrite Eb. simpl.
  replace (qltb (p10 (-9)) (Qabs s)) with true by (symmetry; by apply qltb_true).
  exists sg, price, d0. split; [done|]. unfold netted. split; [by rewrite Hq, Qplus_0_l|].
  split; [done|]. split; [apply d0_mag|]. split; [done|].
  intros va vp _ Va Vp. exists 0%Q. split; [by apply isdec_0|]. split; [apply (p10_pos 11)|].
  intros mark. rewrite (isdec_val _ _ _ Vp), Hq. ring.
Qed.

Lemma not_tiny : ~ (q == 0)%Q -> qleb (Qabs q) (p10 (-9)) = false.
Proof.
  intros H. apply qleb_false. destruct (Qlt_le_dec (p10 (-9)) (Qabs q)) as [|Hle]; [done|].
  by destruct H; apply (tiny_grid pq).
Qed.

Lemma net_fill_same :
  (0 < q * s)%Q -> exists nq na d, net_fill pq avg price sg qa = Ok (nq, na, d) /\ netted nq na d.
Proof.
  intros Hqs0. assert (Hq : ~ (q == 0)%Q) by (intros E; rewrite E in Hqs0; lra). unfold net_fill.
  destruct (dabs_grid pq q Hpq net_fill_abs_q) as (a & Ea & Va & El & _). rewrite Ea. simpl.
  rewrite El. simpl. rewrite (not_tiny Hq), (same_direction_spec _ _ _ _ Hpq Hsg). simpl.
  assert (Hsum : (Qabs (q + s) == Qabs q + Qabs s)%Q /\
                 (qltb 0 q && qltb 0 s) || (qltb q 0 && qltb s 0) = true).
  { destruct (Qlt_le_dec 0 q) as [Hp|Hn].
    - assert (0 < s)%Q by nra. rewrite !Qabs_pos by lra.
      rewrite (proj2 (qltb_true 0 q)), (proj2 (qltb_true 0 s)) by done. by split; [lra|].
    - assert (q < 0)%Q by nra. assert (s < 0)%Q by nra. rewrite !Qabs_neg by lra.
      rewrite (proj2 (qltb_true q 0)), (proj2 (qltb_true s 0)) by done.
      rewrite orb_true_r. by split; [lra|]. }
  destruct Hsum as [Hsum ->].
  destruct (dadd_isdec 8 5 pq sg q s) as (nq & -> & Vn); try done; [lra|]. simpl.
  destruct (dabs_isdec 8 5 nq (q + s)) as (da & Eda & Vda); try done; [lra|].
  destruct (isdec_grid _ _ _ Va) as (m1 & E1). destruct (isdec_grid _ _ _ Hqa) as (m2 & E2).
  change (- (8)) with (-8) in *. rewrite E1 in Va. rewrite Hsum, E1, E2, <- qval_add in Vda.
  assert (P1 : 0 < m1).
  { apply (qval_pos m1 (-8)). rewrite <- E1. pose proof (p10_pos (-9)).
    pose proof (not_tiny Hq) as Hnt. apply qleb_false in Hnt. lra. }
  assert (P2 : 0 < m2).
  { apply (qval_pos m2 (-8)). rewrite <- E2. pose proof (p10_pos (-9)). lra. }
  destruct (average_between a qa da avg price m1 m2 lo hi)
    as (n1 & n2 & n & z & -> & En2 & En & Ez & Bz); try done.
  { rewrite qval_add, <- E1, <- E2. lra. }
  { by rewrite <- E2. }
  { by apply Havg. }
  simpl. rewrite En2. simpl. rewrite En. simpl. rewrite Eda. simpl. rewrite Ez. simpl.
  exists nq, z, d0. split; [done|]. unfold netted. split; [done|]. split; [done|].
  split; [apply d0_mag|]. split; [done|]. by intros.
Qed.

(** Opposite signs. [c] is the part of the position that is closed. *)
Definition opposite : Prop := (q < 0 /\ 0 < s \/ 0 < q /\ s < 0)%Q.

Lemma opposite_intro : ~ (q == 0)%Q -> ~ (0 < q * s)%Q -> opposite.
Proof.
  intros Hq Hopp. assert (Hs0 : ~ (s == 0)%Q).
  { intros E. rewrite E in Hs. by vm_compute in Hs. }
  destruct (Q_dec q 0) as [[?|?]|?], (Q_dec s 0) as [[?|?]|?]; try done; try (by left);
    try (by right); destruct Hopp; nra.
Qed.

Lemma opposite_sum : opposite -> (Qabs (q + s) == Qabs (Qabs q - Qabs s))%Q.
Proof.
  intros [[??]|[??]].
  - rewrite (Qabs_neg q), (Qabs_pos s) by lra. rewrite <- Qabs_opp. apply Qabs_wd. ring.
  - rewrite (Qabs_pos q), (Qabs_neg s) by lra. apply Qabs_wd. ring.
Qed.

Lemma opposite_bound : opposite -> (Qabs (q + s) < p10 5)%Q.
Proof.
  intros H. rewrite (opposite_sum H). pose proof (Qabs_nonneg q). pose proof (Qabs_nonneg s).
  apply Qabs_case; lra.
Qed.

(** The remainder flips the position when the whole of it was closed. *)
Lemma after_close_flip r :
  opposite -> isdec 8 r (Qabs s - Qabs q) -> (p10 (-9) < Qabs s - Qabs q)%Q ->
  exists nq, after_close pq avg price sg r = Ok (nq, price) /\ isdec 8 nq (q + s).
Proof.
  intros Hsign Vr Hr. unfold after_close.
  rewrite (dltb_isdec 8 8 d0 sg 0 s) by (done || by apply isdec_0). simpl.
  rewrite (dltb_isdec 9 8 EPSILON r (p10 (-9)) _ EPSILON_isdec Vr). simpl.
  rewrite (proj2 (qltb_true _ _) Hr).
  set (dir := if qltb 0 s then DFin 1 0 else DFin (-1) 0).
  assert (Vdir : isdec 0 dir (if qltb 0 s then 1 else -1)).
  { unfold dir. destruct (qltb 0 s); [by exists 1, 0|by exists (-1), 0]. }
  assert (Hnq : ((Qabs s - Qabs q) * (if qltb 0 s then 1 else -1) == q + s)%Q).
  { destruct Hsign as [[??]|[??]].
    - rewrite (proj2 (qltb_true 0 s)) by done. rewrite (Qabs_neg q), (Qabs_pos s) by lra. ring.
    - rewrite (proj2 (qltb_false 0 s)) by lra. rewrite (Qabs_pos q), (Qabs_neg s) by lra. ring. }
  destruct (dmul_isdec 8 0 5 r dir _ _ Vr Vdir) as (nq & -> & Vn); try done.
  { rewrite Hnq. by apply opposite_bound. }
  exists nq. split; [done|]. by rewrite Hnq in Vn.
Qed.

Lemma after_close_keep r vr :
  opposite -> isdec 8 r vr -> (vr == 0)%Q ->
  exists nq na, after_close pq avg price sg r = Ok (nq, na) /\ isdec 8 nq (q + s) /\
    ((q + s == 0)%Q \/ na = avg).
Proof.
  intros Hsign Vr Hr. unfold after_close. rewrite Hr in Vr.
  rewrite (dltb_isdec 8 8 d0 sg 0 s) by (done || by apply isdec_0). simpl.
  rewrite (dltb_isdec 9 8 EPSILON r (p10 (-9)) _ EPSILON_isdec Vr). simpl.
  pose proof (opposite_bound Hsign) as Hb.
  destruct (dadd_isdec 8 5 pq sg q s) as (nq & -> & Vn); try done. simpl.
  destruct (dabs_grid nq (q + s) Vn Hb) as (b & -> & _ & Eb & _). simpl. rewrite Eb. simpl.
  destruct (qleb (Qabs (q + s)) (p10 (-9))) eqn:Et; [|exists nq, avg; auto].
  apply qleb_true in Et. assert (Hz : (q + s == 0)%Q) by (by apply (tiny_grid nq)).
  exists d0, d0. split; [done|]. rewrite Hz. split; [by apply isdec_0|by left].
Qed.

(** The value closed, with the sign the code gives it. *)
Lemma closing_sign va vp c :
  opposite ->
  (((if qltb 0 q then vp else va) - (if qltb 0 q then va else vp)) * c ==
   (va - vp) * (if qltb 0 q then - c else c))%Q.
Proof. intros _. destruct (qltb 0 q); ring. Qed.

Lemma opposite_signs c :
  opposite -> ((c == Qabs s -> (if qltb 0 q then - c else c) == s) /\
               (c == Qabs q -> (if qltb 0 q then - c else c) == - q))%Q.
Proof.
  intros [[??]|[??]].
  - rewrite (proj2 (qltb_false 0 q)), (Qabs_pos s), (Qabs_neg q) by lra. done.
  - rewrite (proj2 (qltb_true 0 q)), (Qabs_neg s), (Qabs_pos q) by lra. split; lra.
Qed.

Lemma net_fill_reduce :
  ~ (q == 0)%Q -> ~ (0 < q * s)%Q ->
  exists nq na d, net_fill pq avg price sg qa = Ok (nq, na, d) /\ netted nq na d.
Proof.
  intros Hq Hopp. pose proof (opposite_intro Hq Hopp) as Hsign. unfold net_fill.
  pose proof net_fill_abs_q as Bq. pose proof net_fill_abs_s as Bs.
  destruct (dabs_grid pq q Hpq Bq) as (a & -> & Va & El & _). simpl.
  rewrite El. simpl. rewrite (not_tiny Hq), (same_direction_spec _ _ _ _ Hpq Hsg). simpl.
  replace ((qltb 0 q && qltb 0 s) || (qltb q 0 && qltb s 0)) with false
    by (symmetry; apply orb_false_iff; rewrite !andb_false_iff, !qltb_false; destruct Hsign; lra).
  unfold dmin. rewrite (dltb_isdec 8 8 qa a (Qabs s) (Qabs q)) by done. simpl.
  rewrite (dltb_isdec 8 8 d0 pq 0 q) by (done || by apply isdec_0). simpl.
  set (closing := if qltb (Qabs s) (Qabs q) then qa else a).
  set (c := if qltb (Qabs s) (Qabs q) then Qabs s else Qabs q).
  assert (Hc : isdec 8 closing c /\ (0 <= c <= Qabs s)%Q /\ (c < p10 5)%Q /\
               (c == Qabs s \/ c == Qabs q)%Q).
  { unfold closing, c. pose proof (Qabs_nonneg q). pose proof (Qabs_nonneg s).
    destruct (qltb (Qabs s) (Qabs q)) eqn:E; [apply qltb_true in E|apply qltb_false in E];
      (split; [done|lra]). }
  clearbody closing c. destruct Hc as (Vc & Hcs & Hcb & Hcc).
  destruct (closing_delta (if qltb 0 q then price else avg) (if qltb 0 q then avg else price)
              closing lo hi c) as (diff & gain & d & Ed & Eg & Ea & Md & Xd); try done.
  { destruct (qltb 0 q); [done|by apply Havg]. }
  { destruct (qltb 0 q); [by apply Havg|done]. }
  { by rewrite Qabs_pos by apply Hcs. }
  replace (if qltb 0 q then dsub price avg else dsub avg price) with (Ok diff)
    by (rewrite <- Ed; by destruct (qltb 0 q)).
  simpl. rewrite Eg. simpl. rewrite Ea. simpl.
  destruct (dsub_isdec 8 5 qa closing (Qabs s) c) as (r & -> & Vr); try done.
  { rewrite Qabs_pos; lra. }
  simpl. destruct (opposite_signs c Hsign) as [Hsgn1 Hsgn2].
  assert (Xd' : forall va vp, isdec 8 avg va -> isdec 8 price vp ->
            isdec 16 d ((va - vp) * (if qltb 0 q then - c else c)) /\
            (Qabs ((va - vp) * (if qltb 0 q then - c else c)) < p10 11)%Q).
  { intros va vp Va' Vp. rewrite <- (closing_sign va vp c Hsign). apply Xd; by destruct (qltb 0 q). }
  destruct (Qlt_le_dec (p10 (-9)) (Qabs s - c)) as [Hr|Hr].
  - assert (Hcq : (c == Qabs q)%Q) by (pose proof (p10_pos (-9)); destruct Hcc; lra).
    rewrite Hcq in Vr, Hr. destruct (after_close_flip r Hsign Vr Hr) as (nq & -> & Vn). simpl.
    exists nq, price, d. split; [done|]. split; [done|]. split; [done|]. split; [done|].
    split; [by intros|]. intros va vp _ Va' Vp. eexists. split; [by apply Xd'|].
    split; [by apply Xd'|].      intros mark. rewrite (Hsgn2 Hcq), (isdec_val _ _ _ Vp). ring.
  - assert (Hz : (Qabs s - c == 0)%Q) by (apply (tiny_grid r); [done|rewrite Qabs_pos; lra]).
    destruct (after_close_keep r _ Hsign Vr Hz) as (nq & na & -> & Vn & Hna). simpl.
    exists nq, na, d. split; [done|]. split; [done|].
    split; [intros Hne; destruct Hna as [Hna | ->]; [done|by apply Havg]|]. split; [done|].
    split; [by intros|]. intros va vp _ Va' Vp. eexists. split; [by apply Xd'|].
    split; [by apply Xd'|].      intros mark. rewrite Hsgn1 by lra. destruct Hna as [Hqs0| ->].
    + rewrite Hqs0. assert (E : (q == - s)%Q) by lra. rewrite E. ring.
    + rewrite (isdec_val _ _ _ Va'). ring.
Qed.

Lemma net_fill_spec :
  exists nq na d, net_fill pq avg price sg qa = Ok (nq, na, d) /\ netted nq na d.
Proof.
  destruct (Qeq_dec q 0); [by apply net_fill_flat|].
  destruct (Qlt_le_dec 0 (q * s)); [by apply net_fill_same|].
  apply net_fill_reduce; [done|]. lra.
Qed.
End net_fill.

(** ** One fill *)

(** A position whose amounts are within the bounds the theorems need: the
    quantity is [q] on the exchanges' grid, and an open position has its
    average entry price between [lo] and [hi] (in units of [10^-8]). *)
Definition booked (lo hi : Z) (p : PositionState) (q : Q) : Prop :=
  isdec 8 (ps_quantity p) q /\
  (~ (q == 0)%Q -> dbetween 8 lo hi (ps_average_entry_price p)).

(** A fill an exchange reports: quantity on the grid, above the epsilon, on a
    known side, price between [lo] and [hi]. *)
Definition reported (lo hi : Z) (f : PositionFill) : Prop :=
  isdec 8 (pf_quantity f) (dval (pf_quantity f)) /\
  (p10 (-9) < Qabs (fill_delta f))%Q /\
  (upper (strip (pf_side f)) = "BUY" \/ upper (strip (pf_side f)) = "SELL") /\
  dbetween 8 lo hi (pf_price f).

Definition compatible (p : PositionState) (f : PositionFill) : Prop :=
  ps_mode p = pf_mode f /\ ps_symbol p = pf_symbol f.

Definition open_status (q : Q) : string := if qltb (p10 (-9)) (Qabs q) then "OPEN" else "CLOSED".

#[local] Instance booked_proper lo hi p : Proper (Qeq ==> iff) (booked lo hi p).
Proof. intros q q' H. unfold booked. by rewrite H. Qed.

#[local] Instance open_status_proper : Proper (Qeq ==> eq) open_status.
Proof. intros q q' H. unfold open_status. by rewrite H. Qed.

Lemma signed_quantity_total lo hi f :
  reported lo hi f -> (Qabs (fill_delta f) < p10 5)%Q ->
  exists z, signed_quantity f = Ok z /\ isdec 8 z (fill_delta f).
Proof.
  intros (Hq & Hmin & Hside & _) Hb. rewrite fill_delta_abs in *.
  unfold signed_quantity, fill_delta.
  destruct (dabs_grid _ _ Hq Hb) as (a & -> & Va & El & _). simpl. rewrite El. simpl.
  rewrite (proj2 (qleb_false _ _) Hmin).
  destruct Hside as [-> | ->]; simpl; [by exists a|].
  destruct (dneg_isdec 8 5 a (Qabs (dval (pf_quantity f)))) as (w & -> & Vw); try done.
  { by rewrite Qabs_pos by apply Qabs_nonneg. }
  by exists w.
Qed.

Lemma compatible_validates p f :
  compatible p f -> validate_position_compatibility p f = Ok tt.
Proof.
  intros [Hm Hs]. unfold validate_position_compatibility.
  by rewrite Hm, Hs, !String.eqb_refl.
Qed.

(** The whole of [apply_fill] on an existing position. *)
Lemma apply_fill_spec lo hi now p f q :
  0 < lo -> (qval hi (-8) <= p10 6)%Q -> booked lo hi p q -> reported lo hi f -> compatible p f ->
  (Qabs q + Qabs (fill_delta f) < p10 5)%Q -> dmag 20 (ps_realized_pnl p) -> dmag 20 (pf_fee f) ->
  exists u nq na d fee, apply_fill now (Some p) f = Ok u /\ pu_previous u = p /\
    netted lo hi (ps_average_entry_price p) (pf_price f) q (fill_delta f) nq na d /\
    dabs (pf_fee f) = Ok fee /\ dsub d fee = Ok (pu_realized_pnl_delta u) /\
    dadd (ps_realized_pnl p) (pu_realized_pnl_delta u) = Ok (ps_realized_pnl (pu_current u)) /\
    ps_quantity (pu_current u) = nq /\ ps_average_entry_price (pu_current u) = na /\
    ps_status (pu_current u) = open_status (q + fill_delta f) /\
    compatible (pu_current u) f /\ dmag 22 (ps_realized_pnl (pu_current u)).
Proof.
  intros Hlo Hhi (Hq & Havg) Hf Hc Hb Hr Hfee.
  pose proof (Qabs_nonneg q) as Nq. pose proof (Qabs_nonneg (fill_delta f)) as Ns.
  destruct (signed_quantity_total lo hi f Hf) as (sg & Esg & Vsg); [lra|].
  destruct Hf as (_ & Hmin & _ & Hpr).
  destruct (dabs_isdec 8 5 sg (fill_delta f)) as (qa & Eqa & Vqa); try done; [lra|].
  destruct (net_fill_spec lo hi (ps_quantity p) (ps_average_entry_price p) (pf_price f) sg qa
              q (fill_delta f)) as (nq & na & d & En & Hn); try done.
  destruct (dabs_mag 20 (pf_fee f)) as (fee & Efee & Mfee); try done.
  destruct (dsub_mag 20 d fee) as (rd & Erd & Mrd); try done.
  { destruct Hn as (_ & _ & Md & _). by apply (dmag_weaken 13). }
  destruct (dadd_mag 21 (ps_realized_pnl p) rd) as (nr & Enr & Mnr); try done.
  { by apply (dmag_weaken 20). }
  destruct (dabs_grid nq (q + fill_delta f)) as (a & Ea & _ & _ & Eo).
  { apply Hn. }
  { pose proof (Qabs_triangle q (fill_delta f)). lra. }
  unfold apply_fill. rewrite Esg. simpl. rewrite Eqa. simpl.
  rewrite compatible_validates by done. simpl. rewrite En. simpl. rewrite Efee. simpl.
  rewrite Erd. simpl. rewrite Enr. simpl. rewrite Ea. simpl. rewrite Eo. simpl.
  eexists _, nq, na, d, fee. split; [done|]. simpl. split; [done|]. split; [exact Hn|]. do 6 (split; [done|]).
  by split.
Qed.

(** Applying a fill never fails on ordinary amounts and books it
    correctly: with quantities on the exchanges' eight-decimal grid, prices
    between two grid prices [lo] and [hi], the new quantity is exactly the old
    one plus the signed fill (opening, adding, reducing, closing and flipping
    alike), the position is OPEN exactly when that is not zero up to the
    epsilon, and the average entry price of the open position again lies
    between [lo] and [hi], although averaging rounds. *)
Theorem apply_fill_books lo hi now p f q :
  0 < lo -> (qval hi (-8) <= p10 6)%Q -> booked lo hi p q -> reported lo hi f -> compatible p f ->
  (Qabs q + Qabs (fill_delta f) < p10 5)%Q -> dmag 20 (ps_realized_pnl p) -> dmag 20 (pf_fee f) ->
  exists u, apply_fill now (Some p) f = Ok u /\ pu_previous u = p /\
    booked lo hi (pu_current u) (q + fill_delta f) /\
    ps_status (pu_current u) = open_status (q + fill_delta f) /\
    compatible (pu_current u) f.
Proof.
  intros Hlo Hhi Hp Hf Hc Hb Hr Hfee.
  destruct (apply_fill_spec lo hi now p f q Hlo Hhi Hp Hf Hc Hb Hr Hfee)
    as (u & nq & na & d & fee & E & Hprev & (Vn & Hna & _) & _ & _ & _ & <- & <- & Hst & Hcur & _).
  by exists u.
Qed.

(** The value of a position at a mark price: realised profit plus the open
    profit. *)
Definition equity (p : PositionState) (mark : Q) : Q :=
  dval (ps_realized_pnl p) + (mark - dval (ps_average_entry_price p)) * dval (ps_quantity p).

(** C4. No money appears or disappears when a fill opens, reduces, closes or
    flips a position: at every mark price, the position's value (realised plus
    open profit) changes by exactly the profit of the fill at that mark minus
    the fee paid. Stated for amounts the decimal context represents exactly. *)
Theorem apply_fill_equity lo hi now p f q va vp vr vf :
  0 < lo -> (qval hi (-8) <= p10 6)%Q -> booked lo hi p q -> reported lo hi f -> compatible p f ->
  (Qabs q + Qabs (fill_delta f) < p10 5)%Q -> ~ (0 < q * fill_delta f)%Q ->
  isdec 8 (ps_average_entry_price p) va -> isdec 8 (pf_price f) vp ->
  isdec 16 (ps_realized_pnl p) vr -> (Qabs vr < p10 11)%Q ->
  isdec 8 (pf_fee f) vf -> (Qabs vf < p10 6)%Q ->
  exists u, apply_fill now (Some p) f = Ok u /\
    forall mark, (equity (pu_current u) mark ==
                  equity p mark + (mark - vp) * fill_delta f - Qabs vf)%Q.
Proof.
  intros Hlo Hhi Hp Hf Hc Hb Hns Va Vp Vr Br Vf Bf. pose proof Hp as [Vq _].
  assert (p10_20 : forall v n, (Qabs v < p10 n)%Q -> n <= 20 -> (Qabs v <= p10 20)%Q).
  { intros v n Hv Hn. pose proof (p10_le n 20 Hn). lra. }
  destruct (apply_fill_spec lo hi now p f q)
    as (u & nq & na & d & fee & E & _ & Hn & Efee & Erd & Enr & Hnq & Hna & _); try done.
  { apply (isdec_mag 16 20 _ vr); [done|]. by apply (p10_20 vr 11). }
  { apply (isdec_mag 8 20 _ vf); [done|]. by apply (p10_20 vf 6). }
  exists u. split; [done|]. destruct Hn as (Vn & _ & _ & _ & Hx).
  destruct (Hx va vp Hns Va Vp) as (vd & Vd & Bd & Heq).
  destruct (dabs_isdec 8 6 (pf_fee f) vf) as (fee' & Efee' & Vfee); try done.
  rewrite Efee in Efee'. injection Efee' as <-.
  apply (isdec_weaken 8 16) in Vfee; [|done].
  change (p10 11) with (100000000000 # 1)%Q in *. change (p10 6) with (1000000 # 1)%Q in *.
  assert (Bdf : (Qabs (vd - Qabs vf) < 100001000000)%Q).
  { pose proof (Qabs_triangle vd (- Qabs vf)) as T. unfold Qminus.
    rewrite Qabs_opp, (Qabs_pos (Qabs vf)) in T by apply Qabs_nonneg. lra. }
  destruct (dsub_isdec 16 12 d fee vd (Qabs vf)) as (rd & Erd' & Vrd); try done.
  { eapply Qlt_trans; [exact Bdf|]. by vm_compute. }
  rewrite Erd in Erd'. injection Erd' as Erd'.
  destruct (dadd_isdec 16 12 (ps_realized_pnl p) rd vr (vd - Qabs vf)) as (nr & Enr' & Vnr); try done.
  { pose proof (Qabs_triangle vr (vd - Qabs vf)). change (p10 12) with (1000000000000 # 1)%Q. lra. }
  rewrite Erd', Enr' in Enr. injection Enr as Enr.
  intros mark. unfold equity. rewrite <- Enr, Hnq, Hna, (isdec_val _ _ _ Vnr), (isdec_val _ _ _ Vn),
    (isdec_val _ _ _ Va), (isdec_val _ _ _ Vr), (isdec_val _ _ _ Vq). specialize (Heq mark). lra.
Qed.

(** ** Any sequence of fills *)

(** The ledger of one symbol: fills applied one after another, each call with
    its own clock reading, starting without a position. *)
Definition apply_fills (l : list (string * PositionFill)) : result (option PositionState) :=
  fold_res (fun pos '(now, f) => u ← apply_fill now pos f; Ok (Some (pu_current u))) None l.

Lemma apply_fill_sound lo hi now p f q u :
  0 < lo -> (qval hi (-8) <= p10 6)%Q -> booked lo hi p q ->
  isdec 8 (pf_quantity f) (dval (pf_quantity f)) -> dbetween 8 lo hi (pf_price f) ->
  (Qabs q + Qabs (fill_delta f) < p10 5)%Q ->
  apply_fill now (Some p) f = Ok u ->
  booked lo hi (pu_current u) (q + fill_delta f) /\
  ps_status (pu_current u) = open_status (q + fill_delta f).
Proof.
  intros Hlo Hhi [Hq Havg] Hfq Hpr Hb H. unfold apply_fill in H.
  pose proof (Qabs_nonneg q) as Nq. pose proof (Qabs_nonneg (fill_delta f)) as Ns.
  apply bind_Ok in H as (sg & Esg & H).
  destruct (signed_quantity_spec f sg Esg Hfq) as (Vsg & Hmin & _); [lra|].
  destruct (dabs_isdec 8 5 sg (fill_delta f)) as (qa & Eqa & Vqa); try done; [lra|].
  rewrite Eqa in H. simpl in H. apply bind_Ok in H as ([] & _ & H).
  destruct (net_fill_spec lo hi (ps_quantity p) (ps_average_entry_price p) (pf_price f) sg qa
              q (fill_delta f)) as (nq & na & d & En & Vn & Hna & _); try done.
  rewrite En in H. simpl in H.
  destruct (dabs_grid nq (q + fill_delta f) Vn) as (a & Ea & _ & _ & Eo).
  { pose proof (Qabs_triangle q (fill_delta f)). lra. }
  rewrite Ea in H. do 3 (apply bind_Ok in H as (? & _ & H)). simpl in H. rewrite Eo in H.
  simpl in H. injection H as <-. simpl. by split.
Qed.

Lemma apply_fill_None now f :
  apply_fill now None f = apply_fill now (Some (empty_position (pf_mode f) (pf_symbol f) now)) f.
Proof. done. Qed.

(** The ledger entry for the net quantity [q]. *)
Definition ledger (lo hi : Z) (pos : option PositionState) (q : Q) : Prop :=
  match pos with
  | Some p => booked lo hi p q /\ ps_status p = open_status q
  | None => (q == 0)%Q
  end.

#[local] Instance ledger_proper lo hi pos : Proper (Qeq ==> iff) (ledger lo hi pos).
Proof. intros q q' H. unfold ledger. destruct pos; by rewrite H. Qed.

Definition turnover (l : list (string * PositionFill)) : Q :=
  qsum ((fun x => Qabs (fill_delta x.2)) <$> l).
Definition net_quantity (l : list (string * PositionFill)) : Q :=
  qsum ((fun x => fill_delta x.2) <$> l).

Lemma apply_fills_sound lo hi l pos pos' q :
  0 < lo -> (qval hi (-8) <= p10 6)%Q -> ledger lo hi pos q ->
  Forall (fun x => isdec 8 (pf_quantity x.2) (dval (pf_quantity x.2)) /\
                   dbetween 8 lo hi (pf_price x.2)) l ->
  (Qabs q + turnover l < p10 5)%Q ->
  fold_res (fun pos '(now, f) => u ← apply_fill now pos f; Ok (Some (pu_current u))) pos l = Ok pos' ->
  ledger lo hi pos' (q + net_quantity l).
Proof.
  intros Hlo Hhi. unfold turnover, net_quantity. revert pos q.
  induction l as [|[now f] l IH]; intros pos q Hpos Hl Hb H; csimpl in *.
  { injection H as <-. by rewrite Qplus_0_r. }
  apply Forall_cons in Hl as [[Hfq Hfp] Hl]. apply bind_Ok in H as (pos1 & H1 & H).
  apply bind_Ok in H1 as (u & Hu & H1). injection H1 as <-.
  assert (Hnn : (0 <= qsum ((fun x => Qabs (fill_delta x.2)) <$> l))%Q).
  { apply qsum_nonneg. apply Forall_true. intros [? ?]. apply Qabs_nonneg. }
  rewrite Qplus_assoc. apply (IH (Some (pu_current u))); [|done| |done].
  - destruct pos as [p|]; [apply (apply_fill_sound lo hi now p); try done; [apply Hpos|lra]|].
    rewrite apply_fill_None in Hu. eapply apply_fill_sound; try done; [|lra].
    split; [simpl in *; rewrite Hpos; by apply isdec_0|]. done.
  - pose proof (Qabs_triangle q (fill_delta f)). lra.
Qed.

(** C3. The ledger is the sum of its fills: after any sequence of fills from
    no position at all (each at its own time, buys and sells in any order,
    through any number of flips), the position's quantity is exactly the sum
    of the signed fills, its status says whether that is zero, and as long as
    it is open its average entry price lies within the range of the prices
    traded. *)
Theorem apply_fills_ledger lo hi l pos :
  0 < lo -> (qval hi (-8) <= p10 6)%Q ->
  Forall (fun x => isdec 8 (pf_quantity x.2) (dval (pf_quantity x.2)) /\
                   dbetween 8 lo hi (pf_price x.2)) l ->
  (turnover l < p10 5)%Q ->
  apply_fills l = Ok pos ->
  ledger lo hi pos (net_quantity l).
Proof.
  intros Hlo Hhi Hl Hb H. rewrite <- (Qplus_0_l (net_quantity l)).
  apply (apply_fills_sound lo hi l None pos 0); try done.
  change (Qabs 0) with 0%Q. by rewrite Qplus_0_l.
Qed.

(** ** Concrete runs *)

Module Example.
(** Long 2 at 100; a sale of 3 at 110 with a fee of 1 closes it and opens a
    short of 1. *)
Definition long2 : PositionState :=
  {| ps_mode := "paper"; ps_symbol := "BTCUSDT"; ps_quantity := DFin 2 0;
     ps_average_entry_price := DFin 100 0; ps_realized_pnl := d0; ps_status := "OPEN";
     ps_updated_at := "t0" |}.
Definition sell3 : PositionFill :=
  {| pf_order_id := "o2"; pf_mode := "paper"; pf_symbol := "BTCUSDT"; pf_side := " sell ";
     pf_quantity := DFin 3 0; pf_price := DFin 110 0; pf_fee := DFin 1 0; pf_filled_at := None |}.
Definition buy2 : PositionFill :=
  {| pf_order_id := "o1"; pf_mode := "paper"; pf_symbol := "BTCUSDT"; pf_side := "BUY";
     pf_quantity := DFin 2 0; pf_price := DFin 100 0; pf_fee := d0; pf_filled_at := None |}.
Definition lo : Z := 9000000000.
Definition hi : Z := 12000000000.

Lemma booked_long2 : booked lo hi long2 2.
Proof. split; [dec_compute|]. intros _. dec_compute. Qed.

Lemma reported_sell3 : reported lo hi sell3.
Proof. split; [dec_compute|]. split; [dec_compute|]. split; [by right|dec_compute]. Qed.

Lemma flip_run : match apply_fill "t1" (Some long2) sell3 with
            | Ok u => (dec_str (ps_quantity (pu_current u)), dec_str (pu_realized_pnl_delta u),
                       ps_status (pu_current u)) = ("-1", "19", "OPEN")
            | Raise _ => False
            end.
Proof. vm_compute. reflexivity. Qed.
End Example.

Lemma apply_fill_books_witness :
  exists u, apply_fill "t1" (Some Example.long2) Example.sell3 = Ok u /\
    pu_previous u = Example.long2 /\
    booked Example.lo Example.hi (pu_current u) (2 + fill_delta Example.sell3) /\
    ps_status (pu_current u) = open_status (2 + fill_delta Example.sell3) /\
    compatible (pu_current u) Example.sell3.
Proof.
  refine (apply_fill_books Example.lo Example.hi "t1" Example.long2 Example.sell3 2
            _ _ Example.booked_long2 Example.reported_sell3 _ _ _ _); [reflexivity|..|by split| | |];
    dec_compute.
Defined.

Lemma apply_fill_equity_witness :
  exists u, apply_fill "t1" (Some Example.long2) Example.sell3 = Ok u /\
    forall mark, (equity (pu_current u) mark ==
                  equity Example.long2 mark + (mark - 110) * fill_delta Example.sell3 - Qabs 1)%Q.
Proof.
  refine (apply_fill_equity Example.lo Example.hi "t1" Example.long2 Example.sell3 2 100 110 0 1
            _ _ Example.booked_long2 Example.reported_sell3 _ _ _ _ _ _ _ _ _);
    [reflexivity|..|by split| | | | | | | |]; dec_compute.
Defined.

Lemma apply_fills_ledger_witness :
  exists pos, apply_fills [("t0", Example.buy2); ("t1", Example.sell3)] = Ok pos /\
    ledger Example.lo Example.hi pos
      (net_quantity [("t0", Example.buy2); ("t1", Example.sell3)]).
Proof.
  eexists. split; [vm_compute; reflexivity|].
  refine (apply_fills_ledger Example.lo Example.hi _ _ _ _ _ _ _);
    [reflexivity|dec_compute| |dec_compute|vm_compute; reflexivity].
  do 2 (constructor; [split; dec_compute|]). constructor.
Defined.
