(* ===== verification/PortfolioSnapshot.v ===== *)
(** * Portfolio snapshots

    [services/oms/portfolio_snapshot.py]: balances plus positions marked to
    market. [mark_prices] maps symbols to numbers (floats by its type, decimals from the OMS worker); the clock
    reading of [_utc_now_iso()] is the argument [now]. *)

From S2P Require Import Prelude PyStr PyFloat PyDecimal PositionEngine.
From stdpp Require Import options.
From Stdlib Require Import String Qabs.

#[local] Open Scope Z_scope.

Record PortfolioSnapshot := {
  sn_snapshot_time : string;
  sn_mode : string;
  sn_total_balance_usd : dec;
  sn_available_balance_usd : dec;
  sn_locked_balance_usd : dec;
  sn_unrealized_pnl : dec;
  sn_realized_pnl_total : dec;
}.

(** One iteration of the loop over the positions. *)
Definition mark_position (normalized_mode : string) (mark_prices : gmap string pynum)
    (acc : dec * dec) (position : PositionState) : result (dec * dec) :=
  let '(unrealized, realized) := acc in
  _ ← raise_if (negb (String.eqb (upper (strip (ps_mode position))) normalized_mode))
        PortfolioSnapshotEngineError
        ("position mode mismatch: expected " +:+ normalized_mode +:+ ", got " +:+ ps_mode position);
  realized' ← dadd realized (ps_realized_pnl position);
  a ← dabs (ps_quantity position);
  flat ← dleb a (DFin 1 (-9));
  if flat : bool then Ok (unrealized, realized')
  else
    match mark_prices !! ps_symbol position with
    | None =>
        raise PortfolioSnapshotEngineError
          ("missing mark price for open position symbol: " +:+ ps_symbol position)
    | Some mark_price =>
        diff ← dsub (dec_of_num mark_price) (ps_average_entry_price position);
        gain ← dmul diff (ps_quantity position);
        unrealized' ← dadd unrealized gain;
        Ok (unrealized', realized')
    end.

Definition build_snapshot (now mode : string) (available locked : dec)
    (positions : list PositionState) (mark_prices : gmap string pynum)
    (realized_pnl_total : option dec) (snapshot_time : option string)
  : result PortfolioSnapshot :=
  let normalized_mode := upper (strip mode) in
  '(unrealized, realized_from_positions) ←
    fold_res (mark_position normalized_mode mark_prices) (d0, d0) positions;
  let realized_value := default realized_from_positions realized_pnl_total in
  t ← dadd available locked;
  total ← dadd t unrealized;
  Ok {| sn_snapshot_time :=
          match snapshot_time with Some s => if is_empty s then now else s | None => now end;
        sn_mode := normalized_mode;
        sn_total_balance_usd := total;
        sn_available_balance_usd := available;
        sn_locked_balance_usd := locked;
        sn_unrealized_pnl := unrealized;
        sn_realized_pnl_total := realized_value |}.

(** ** Accounting *)

(** The mark used for a position, and its open profit. A flat position needs
    no mark. *)
Definition mark_of (mark_prices : gmap string pynum) (p : PositionState) : Q :=
  match mark_prices !! ps_symbol p with Some m => dval (dec_of_num m) | None => 0 end.

Definition open_profit (mark_prices : gmap string pynum) (p : PositionState) : Q :=
  (mark_of mark_prices p - dval (ps_average_entry_price p)) * dval (ps_quantity p).

(** Amounts on the grids of the position ledger, with a mark for every open
    position, and a mark price below [10^6]. *)
Definition markable (mode : string) (mark_prices : gmap string pynum) (p : PositionState) : Prop :=
  upper (strip (ps_mode p)) = upper (strip mode) /\
  isdec 16 (ps_realized_pnl p) (dval (ps_realized_pnl p)) /\
  isdec 8 (ps_quantity p) (dval (ps_quantity p)) /\ (Qabs (dval (ps_quantity p)) < p10 5)%Q /\
  isdec 8 (ps_average_entry_price p) (dval (ps_average_entry_price p)) /\
  (0 <= dval (ps_average_entry_price p) <= p10 6)%Q /\
  (~ (dval (ps_quantity p) == 0)%Q ->
   exists m, mark_prices !! ps_symbol p = Some m /\
     isdec 8 (dec_of_num m) (dval (dec_of_num m)) /\ (0 <= dval (dec_of_num m) <= p10 6)%Q).

(** Marking one position adds its open profit and its realised profit. *)
Lemma mark_position_exact mode marks u r vu vr p :
  markable mode marks p -> isdec 16 u vu -> isdec 16 r vr ->
  (Qabs (vu + open_profit marks p) < p10 12)%Q ->
  (Qabs (vr + dval (ps_realized_pnl p)) < p10 12)%Q ->
  exists u' r', mark_position (upper (strip mode)) marks (u, r) p = Ok (u', r') /\
    isdec 16 u' (vu + open_profit marks p) /\ isdec 16 r' (vr + dval (ps_realized_pnl p)).
Proof.
  intros (Hm & Hr & Hq & Bq & Ha & Ba & Hmark) Vu Vr Bu Br. unfold mark_position.
  rewrite Hm, String.eqb_refl. simpl.
  destruct (dadd_isdec 16 12 r (ps_realized_pnl p) vr _ Vr Hr) as (r' & -> & Vr'); try done. simpl.
  destruct (dabs_grid _ _ Hq Bq) as (a & -> & _ & El & _). simpl.
  change (DFin 1 (-9)) with EPSILON. rewrite El. simpl. destruct (qleb _ _) eqn:Et.
  { apply qleb_true in Et. pose proof (tiny_grid _ _ Hq Et) as Hz. exists u, r'.
    split; [done|]. split; [|done]. unfold open_profit. by rewrite Hz, Qmult_0_r, Qplus_0_r. }
  apply qleb_false in Et. destruct Hmark as (m & Em & Vm & Bm).
  { intros E. rewrite E in Et. by vm_compute in Et. }
  unfold open_profit, mark_of in *. rewrite Em in *.
  assert (Bd : (Qabs (dval (dec_of_num m) - dval (ps_average_entry_price p)) <= p10 6)%Q)
    by (apply Qabs_case; lra).
  destruct (dsub_isdec 8 7 _ _ _ _ Vm Ha) as (diff & -> & Vd); try done.
  { eapply Qle_lt_trans; [exact Bd|by vm_compute]. }
  simpl. destruct (dmul_isdec 8 8 11 _ _ _ _ Vd Hq) as (g & -> & Vg); try done.
  { rewrite Qabs_Qmult. change (p10 11) with (p10 6 * p10 5)%Q. pose proof (p10_pos 6).
    pose proof (Qabs_nonneg (dval (ps_quantity p))).
    pose proof (Qabs_nonneg (dval (dec_of_num m) - dval (ps_average_entry_price p))). nra. }
  simpl. destruct (dadd_isdec 16 12 _ _ _ _ Vu Vg) as (u' & -> & Vu'); try done. by exists u', r'.
Qed.

Definition gross (f : PositionState -> Q) (l : list PositionState) : Q := qsum ((fun p => Qabs (f p)) <$> l).

Lemma gross_nonneg f l : (0 <= gross f l)%Q.
Proof. apply qsum_nonneg, Forall_true. intros. apply Qabs_nonneg. Qed.

#[local] Arguments mark_position : simpl never.

Lemma mark_positions_exact mode marks l u r vu vr :
  Forall (markable mode marks) l -> isdec 16 u vu -> isdec 16 r vr ->
  (Qabs vu + gross (open_profit marks) l < p10 12)%Q ->
  (Qabs vr + gross (fun p => dval (ps_realized_pnl p)) l < p10 12)%Q ->
  exists u' r', fold_res (mark_position (upper (strip mode)) marks) (u, r) l = Ok (u', r') /\
    isdec 16 u' (vu + qsum (open_profit marks <$> l)) /\
    isdec 16 r' (vr + qsum ((fun p => dval (ps_realized_pnl p)) <$> l)).
Proof.
  intros Hl. revert u r vu vr. induction Hl as [|p l Hp Hl IH]; intros u r vu vr Vu Vr Bu Br.
  { exists u, r. csimpl. by rewrite !Qplus_0_r. }
  unfold gross in *. csimpl in *.
  pose proof (gross_nonneg (open_profit marks) l) as N1.
  pose proof (gross_nonneg (fun p => dval (ps_realized_pnl p)) l) as N2. unfold gross in N1, N2.
  pose proof (Qabs_triangle vu (open_profit marks p)) as T1.
  pose proof (Qabs_triangle vr (dval (ps_realized_pnl p))) as T2.
  destruct (mark_position_exact mode marks u r vu vr p) as (u1 & r1 & -> & Vu1 & Vr1); try done; [lra..|].
  simpl. destruct (IH u1 r1 _ _ Vu1 Vr1) as (u2 & r2 & -> & Vu2 & Vr2); [lra..|].
  exists u2, r2. by rewrite !Qplus_assoc.
Qed.

(** The snapshot balances: with every open position marked and all amounts
    on the ledger's grids, building it succeeds; the total is exactly the
    available plus the locked balance plus the open profit of every position
    at its mark, and the realised total is the caller's figure or, without
    one, exactly the sum over the positions, flat ones included. *)
Theorem build_snapshot_accounting now mode available locked va vl positions marks rt st :
  Forall (markable mode marks) positions ->
  isdec 16 available va -> isdec 16 locked vl -> (Qabs va + Qabs vl < p10 11)%Q ->
  (gross (open_profit marks) positions < p10 11)%Q ->
  (gross (fun p => dval (ps_realized_pnl p)) positions < p10 11)%Q ->
  exists s, build_snapshot now mode available locked positions marks rt st = Ok s /\
    (dval (sn_unrealized_pnl s) == qsum (open_profit marks <$> positions))%Q /\
    (dval (sn_total_balance_usd s) == va + vl + qsum (open_profit marks <$> positions))%Q /\
    match rt with
    | Some d => sn_realized_pnl_total s = d
    | None => (dval (sn_realized_pnl_total s) ==
               qsum ((fun p => dval (ps_realized_pnl p)) <$> positions))%Q
    end.
Proof.
  intros Hl Va Vl Bal Bu Br. unfold build_snapshot.
  assert (B12 : (p10 12 == 10 * p10 11)%Q) by apply (p10_succ 11). pose proof (p10_pos 11) as P11.
  assert (Z0 : isdec 16 d0 0) by by apply isdec_0.
  destruct (mark_positions_exact mode marks positions d0 d0 0 0 Hl Z0 Z0) as (u & r & -> & Vu & Vr);
    [change (Qabs 0) with 0%Q; lra..|].
  rewrite Qplus_0_l in Vu, Vr. simpl.
  pose proof (Qabs_triangle va vl) as Tal.
  assert (Tu : (Qabs (qsum (open_profit marks <$> positions)) <= gross (open_profit marks) positions)%Q).
  { clear. induction positions as [|p l IH]; unfold gross in *; csimpl; [apply Qle_refl|].
    pose proof (Qabs_triangle (open_profit marks p) (qsum (open_profit marks <$> l))). lra. }
  destruct (dadd_isdec 16 12 _ _ _ _ Va Vl) as (t & -> & Vt); try done; [lra|]. simpl.
  pose proof (Qabs_triangle (va + vl) (qsum (open_profit marks <$> positions))) as Tt.
  destruct (dadd_isdec 16 12 _ _ _ _ Vt Vu) as (w & -> & Vw); try done; [lra|]. simpl.
  eexists. split; [done|]. simpl. split; [apply (isdec_val _ _ _ Vu)|].
  split; [apply (isdec_val _ _ _ Vw)|]. destruct rt; [done|apply (isdec_val _ _ _ Vr)].
Qed.

(** ** A concrete snapshot *)

(** The short position of one unit at 110 left by the ledger example, marked
    at 100. *)
Definition short1 : PositionState :=
  {| ps_mode := "paper"; ps_symbol := "BTCUSDT"; ps_quantity := DFin (-1) 0;
     ps_average_entry_price := DFin 110 0; ps_realized_pnl := DFin 19 0; ps_status := "OPEN";
     ps_updated_at := "t1" |}.
Definition marks1 : gmap string pynum := {[ "BTCUSDT" := PFloat (flit 100 0) ]}.

Lemma build_snapshot_accounting_witness :
  exists s, build_snapshot "t2" "PAPER" (DFin 1000 0) (DFin 50 0) [short1] marks1 None None = Ok s /\
    (dval (sn_unrealized_pnl s) == 10)%Q /\ (dval (sn_total_balance_usd s) == 1060)%Q /\
    (dval (sn_realized_pnl_total s) == 19)%Q.
Proof.
  destruct (build_snapshot_accounting "t2" "PAPER" (DFin 1000 0) (DFin 50 0) 1000 50 [short1] marks1
              None None) as (s & E & Hu & Ht & Hr).
  - constructor; [|constructor]. split; [reflexivity|]. do 2 (split; [dec_compute|]).
    split; [dec_compute|]. split; [dec_compute|]. split; [split; dec_compute|].
    intros _. exists (PFloat (flit 100 0)). split; [vm_compute; reflexivity|].
    split; [exists 1000, (-1); split; [vm_compute; reflexivity|split; [lia|vm_compute; reflexivity]]|].
    split; dec_compute.
  - dec_compute.
  - dec_compute.
  - dec_compute.
  - dec_compute.
  - dec_compute.
  - exists s. split; [exact E|]. split; [rewrite Hu; vm_compute; reflexivity|].
    split; [rewrite Ht; vm_compute; reflexivity|]. simpl in Hr. rewrite Hr. vm_compute. reflexivity.
Defined.
