(* ===== verification/RiskRules.v ===== *)
(** * Core risk rules

    [services/oms/risk_rules.py]: position, notional, leverage, daily-loss and
    drawdown limits for a proposed order. Limits are [float]s; the order's
    quantity and price may be an [int], a [float] or a [Decimal], since the code
    converts only floats; everything else is computed in [Decimal]. *)

From S2P Require Import Prelude PyStr PyFloat PyDecimal PositionEngine.
From stdpp Require Import options.
From Stdlib Require Import String Qabs.

#[local] Open Scope Z_scope.

Definition _EPSILON : dec := DFin 1 (-9).
Definition _ZERO : dec := d0.

Record ProposedOrder := {
  po_mode : string;
  po_symbol : string;
  po_side : string;
  po_quantity : pynum;
  po_price : pynum;
}.

Record CoreRiskConfig := {
  cc_max_position_abs : f64;
  cc_max_symbol_notional_usd : f64;
  cc_max_leverage : f64;
  cc_max_daily_loss_usd : f64;
  cc_max_drawdown_pct : f64;
}.

(** [value] is a [Decimal] for the first three checks and a [float] for the
    last two. *)
Record CoreRiskCheck := {
  ck_name : string;
  ck_passed : bool;
  ck_value : pynum;
  ck_limit : f64;
  ck_message : string;
  ck_severity : string;
}.

Record CoreRiskEvaluation := {
  ce_allowed : bool;
  ce_blocked_by : list string;
  ce_projected_position_qty : dec;
  ce_projected_symbol_notional_usd : dec;
  ce_projected_total_exposure_usd : dec;
  ce_projected_leverage : dec;
  ce_checks : list CoreRiskCheck;
}.

Definition validate_config (c : CoreRiskConfig) : result CoreRiskConfig :=
  b1 ← dleb (dec_of_repr (cc_max_position_abs c)) _ZERO;
  _ ← raise_if b1 CoreRiskRuleError "max_position_abs must be positive";
  b2 ← dleb (dec_of_repr (cc_max_symbol_notional_usd c)) _ZERO;
  _ ← raise_if b2 CoreRiskRuleError "max_symbol_notional_usd must be positive";
  b3 ← dleb (dec_of_repr (cc_max_leverage c)) _ZERO;
  _ ← raise_if b3 CoreRiskRuleError "max_leverage must be positive";
  _ ← raise_if (fltb (cc_max_daily_loss_usd c) fzero) CoreRiskRuleError
        "max_daily_loss_usd must be positive";
  _ ← raise_if (fltb (cc_max_drawdown_pct c) fzero) CoreRiskRuleError
        "max_drawdown_pct must be positive";
  Ok c.

(** Only a [float] is converted; an [int] or a [Decimal] stays what it is. *)
Definition float_to_decimal (n : pynum) : pynum :=
  match n with PFloat x => PDec (dec_of_repr x) | _ => n end.

Definition validate_order (order : ProposedOrder) : result ProposedOrder :=
  let mode := upper (strip (po_mode order)) in
  let symbol := upper (strip (po_symbol order)) in
  let side := upper (strip (po_side order)) in
  quantity ← num_abs (float_to_decimal (po_quantity order));
  let price := float_to_decimal (po_price order) in
  _ ← raise_if (is_empty mode) CoreRiskRuleError "order.mode must be set";
  _ ← raise_if (is_empty symbol) CoreRiskRuleError "order.symbol must be set";
  _ ← raise_if (negb (String.eqb side "BUY" || String.eqb side "SELL")) CoreRiskRuleError
        ("unsupported order side: " +:+ po_side order);
  tiny_quantity ← dleb (dec_of_num quantity) _EPSILON;
  _ ← raise_if tiny_quantity CoreRiskRuleError "order.quantity must be positive";
  tiny_price ← dleb (dec_of_num price) _EPSILON;
  _ ← raise_if tiny_price CoreRiskRuleError "order.price must be positive";
  Ok {| po_mode := mode; po_symbol := symbol; po_side := side;
        po_quantity := quantity; po_price := price |}.

Definition validate_position (order : ProposedOrder) (position : option PositionState)
  : result unit :=
  match position with
  | None => Ok tt
  | Some p =>
      _ ← raise_if (negb (String.eqb (upper (strip (ps_mode p))) (po_mode order)))
            CoreRiskRuleError
            ("position mode mismatch: position=" +:+ ps_mode p +:+ ", order=" +:+ po_mode order);
      raise_if (negb (String.eqb (upper (strip (ps_symbol p))) (po_symbol order)))
            CoreRiskRuleError
            ("position symbol mismatch: position=" +:+ ps_symbol p +:+ ", order=" +:+ po_symbol order)
  end.

Definition signed_quantity (side : string) (quantity : pynum) : result dec :=
  let qty := dec_of_num quantity in
  if String.eqb side "BUY" then Ok qty else dneg qty.

Definition projected_leverage (exposure equity : dec) : result dec :=
  broke ← dleb equity _EPSILON;
  if broke : bool then
    exposed ← dltb _EPSILON exposure;
    Ok (if exposed : bool then DInf false else _ZERO)
  else ddiv exposure equity.

Definition check (name : string) (passed : bool) (value : pynum) (limit : f64) (message : string)
  : CoreRiskCheck :=
  {| ck_name := name; ck_passed := passed; ck_value := value; ck_limit := limit;
     ck_message := message; ck_severity := "CRITICAL" |}.

Definition daily_loss_checks (c : CoreRiskConfig) (realized_pnl_today : f64)
  : result (list CoreRiskCheck) :=
  if fltb fzero (cc_max_daily_loss_usd c) then
    let daily_loss := dec_of_repr (fmin fzero realized_pnl_today) in
    bound ← dneg (dec_of_repr (cc_max_daily_loss_usd c));
    passed ← dleb bound daily_loss;
    a ← dabs daily_loss;
    Ok [check "daily_loss_limit" passed (PFloat (float_of_dec a)) (cc_max_daily_loss_usd c)
          "Daily realized loss exceeds limit"]
  else Ok [].

Definition drawdown_checks (c : CoreRiskConfig) (peak_equity_usd account_equity_usd : f64)
  : result (list CoreRiskCheck) :=
  if fltb fzero (cc_max_drawdown_pct c) && fltb fzero peak_equity_usd then
    let peak := dec_of_repr peak_equity_usd in
    let current_eq := dec_of_repr account_equity_usd in
    big ← dltb _EPSILON peak;
    drawdown_pct ← (if big : bool then d ← dsub peak current_eq; ddiv d peak else Ok _ZERO);
    passed ← dleb drawdown_pct (dec_of_repr (cc_max_drawdown_pct c));
    Ok [check "max_drawdown" passed (PFloat (float_of_dec drawdown_pct)) (cc_max_drawdown_pct c)
          "Portfolio drawdown exceeds maximum allowed"]
  else Ok [].

Definition limit_checks (c : CoreRiskConfig) (quantity_abs notional leverage : dec)
  : result (list CoreRiskCheck) :=
  p1 ← dleb quantity_abs (dec_of_float (cc_max_position_abs c));
  p2 ← dleb notional (dec_of_float (cc_max_symbol_notional_usd c));
  p3 ← dleb leverage (dec_of_float (cc_max_leverage c));
  Ok [check "position_limit" p1 (PDec quantity_abs) (cc_max_position_abs c)
        "Projected absolute position must stay within limit";
      check "symbol_notional_limit" p2 (PDec notional) (cc_max_symbol_notional_usd c)
        "Projected per-symbol notional must stay within limit";
      check "leverage_limit" p3 (PDec leverage) (cc_max_leverage c)
        "Projected account leverage must stay within limit"].

(** [tuple(check.name for check in checks if not check.passed)] *)
Definition failed (checks : list CoreRiskCheck) : list string :=
  ck_name <$> List.filter (fun k => negb (ck_passed k)) checks.

Definition evaluate (c : CoreRiskConfig) (order : ProposedOrder)
    (current_position : option PositionState)
    (account_equity_usd current_total_exposure_usd realized_pnl_today peak_equity_usd : f64)
  : result CoreRiskEvaluation :=
  o ← validate_order order;
  _ ← validate_position o current_position;
  signed ← signed_quantity (po_side o) (po_quantity o);
  let current_quantity :=
    match current_position with Some p => ps_quantity p | None => _ZERO end in
  projected_quantity ← dadd current_quantity signed;
  let order_price := dec_of_num (po_price o) in
  a ← dabs current_quantity;
  current_symbol_notional ← dmul a order_price;
  b ← dabs projected_quantity;
  projected_symbol_notional ← dmul b order_price;
  base_total_exposure ← dmax _ZERO (dec_of_repr current_total_exposure_usd);
  x ← dsub base_total_exposure current_symbol_notional;
  y ← dadd x projected_symbol_notional;
  projected_total_exposure ← dmax _ZERO y;
  leverage ← projected_leverage projected_total_exposure (dec_of_repr account_equity_usd);
  limits ← limit_checks c b projected_symbol_notional leverage;
  daily ← daily_loss_checks c realized_pnl_today;
  drawdown ← drawdown_checks c peak_equity_usd account_equity_usd;
  let checks := limits ++ daily ++ drawdown in
  let blocked_by := failed checks in
  Ok {| ce_allowed := match blocked_by with [] => true | _ => false end;
        ce_blocked_by := blocked_by;
        ce_projected_position_qty := projected_quantity;
        ce_projected_symbol_notional_usd := projected_symbol_notional;
        ce_projected_total_exposure_usd := projected_total_exposure;
        ce_projected_leverage := leverage;
        ce_checks := checks |}.

(** ** The limits hold for every order that is let through *)

(** [v] is at most a [float] limit, exactly; an infinite limit allows all. *)
Definition within (v : Q) (limit : f64) : bool :=
  match dec_of_float limit with
  | DFin c e => qleb v (qval c e)
  | DInf neg => negb neg
  | DNaN => false
  end.

Lemma dleb_within k x v limit b :
  isdec k x v -> dleb x (dec_of_float limit) = Ok b -> b = within v limit.
Proof.
  intros (c & e & -> & He & Hv) H. unfold within.
  destruct (dec_of_float limit) as [c' e'|[]|] eqn:E; simpl in H; try done.
  - rewrite (dleb_isdec (Z.max k (- e)) (Z.max 0 (- e')) (DFin c e) (DFin c' e') v (qval c' e')) in H;
      [by injection H as <-| |].
    + exists c, e. split; [done|]. split; [lia|done].
    + exists c', e'. split; [done|]. split; [lia|done].
  - unfold dleb in H. simpl in H. by injection H as <-.
  - unfold dleb in H. simpl in H. by injection H as <-.
Qed.

(** The signed amount of an order, its price, and the quantity held. *)
Definition order_delta (o : ProposedOrder) : Q :=
  let v := Qabs (dval (dec_of_num (po_quantity o))) in
  if String.eqb (upper (strip (po_side o))) "BUY" then v else - v.
Definition order_price (o : ProposedOrder) : Q := dval (dec_of_num (po_price o)).
Definition held (p : option PositionState) : dec :=
  match p with Some p => ps_quantity p | None => _ZERO end.

(** Amounts as exchanges quote them: eight decimals, ordinary size. *)
Definition quoted (o : ProposedOrder) : Prop :=
  isdec 8 (dec_of_num (po_quantity o)) (dval (dec_of_num (po_quantity o))) /\
  isdec 8 (dec_of_num (po_price o)) (order_price o) /\ (0 <= order_price o <= p10 6)%Q.

Lemma core_epsilon : isdec 9 _EPSILON (p10 (-9)).
Proof. apply EPSILON_isdec. Qed.

Lemma num_abs_exact n n' v :
  isdec 8 (dec_of_num n) v -> (Qabs v < p10 5)%Q -> num_abs (float_to_decimal n) = Ok n' ->
  isdec 8 (dec_of_num n') (Qabs v).
Proof.
  assert (Hd : forall d, isdec 8 d v -> (Qabs v < p10 5)%Q ->
            forall n', (a ← dabs d; Ok (PDec a)) = Ok n' -> isdec 8 (dec_of_num n') (Qabs v)).
  { intros d Hd Hb m H. destruct (dabs_isdec 8 5 d v) as (a & Ea & Va); try done.
    rewrite Ea in H. by injection H as <-. }
  intros Hv Hb H. destruct n as [z|x|d]; simpl in *; [|by eapply Hd..].
  injection H as <-. destruct Hv as (c & e & E & _ & Hv). simpl. injection E as <- <-.
  exists (Z.abs z), 0. split; [done|]. split; [lia|]. by rewrite qval_abs, Hv.
Qed.

Lemma validate_order_spec o o' :
  validate_order o = Ok o' -> quoted o -> (Qabs (order_delta o) < p10 5)%Q ->
  exists z, signed_quantity (po_side o') (po_quantity o') = Ok z /\ isdec 8 z (order_delta o) /\
    dec_of_num (po_price o') = dec_of_num (po_price o) /\ (0 < order_price o)%Q.
Proof.
  intros H (Hq & Hp & Bp) Hb. set (v := dval (dec_of_num (po_quantity o))) in *.
  assert (Bv : (Qabs v < p10 5)%Q).
  { unfold order_delta in Hb. fold v in Hb.
    destruct (String.eqb _ _); rewrite ?Qabs_opp, Qabs_pos in Hb by apply Qabs_nonneg; done. }
  unfold validate_order in H. res_inv. unfold order_delta. fold v. simpl.
  pose proof (num_abs_exact _ _ _ Hq Bv E) as Hx.
  assert (Epr : dec_of_num (float_to_decimal (po_price o)) = dec_of_num (po_price o))
    by (by destruct (po_price o)).
  assert (Hpos : (0 < order_price o)%Q).
  { rewrite Epr, E6, (dleb_isdec 8 9 _ _ _ _ Hp core_epsilon) in E5. injection E5 as E5.
    apply qleb_false in E5. pose proof (p10_pos (-9)). lra. }
  unfold signed_quantity. destruct (String.eqb _ "BUY") eqn:Es; [by eexists|].
  destruct (dneg_isdec 8 5 _ _ Hx) as (z & Ez & Vz); try done.
  { by rewrite Qabs_pos by apply Qabs_nonneg. }
  by exists z.
Qed.

(** The names of the checks tell them apart. *)
Lemma failed_limits p1 p2 p3 v1 v2 v3 (l1 l2 l3 : f64) m1 m2 m3 rest :
  Forall (fun k => ck_name k = "daily_loss_limit" \/ ck_name k = "max_drawdown") rest ->
  let l := [check "position_limit" p1 v1 l1 m1; check "symbol_notional_limit" p2 v2 l2 m2;
            check "leverage_limit" p3 v3 l3 m3] ++ rest in
  ("position_limit"%string ∈ failed l <-> p1 = false) /\
  ("symbol_notional_limit"%string ∈ failed l <-> p2 = false) /\
  ("leverage_limit"%string ∈ failed l <-> p3 = false).
Proof.
  intros Hr l.
  assert (Hn : forall n : string, n <> "daily_loss_limit"%string -> n <> "max_drawdown"%string ->
            n ∉ ck_name <$> List.filter (fun k => negb (ck_passed k)) rest).
  { intros n H1 H2 Hin. apply list_elem_of_fmap in Hin as (k & -> & Hk).
    rewrite list_elem_of_In, filter_In, <- list_elem_of_In in Hk. destruct Hk as [Hk _].
    rewrite Forall_forall in Hr.
    by destruct (Hr k Hk) as [E|E]; rewrite E in *. }
  unfold failed, l. rewrite List.filter_app, fmap_app, !elem_of_app.
  pose proof (Hn "position_limit"%string ltac:(done) ltac:(done)).
  pose proof (Hn "symbol_notional_limit"%string ltac:(done) ltac:(done)).
  pose proof (Hn "leverage_limit"%string ltac:(done) ltac:(done)).
  destruct p1, p2, p3; cbn -[elem_of]; rewrite ?elem_of_cons, ?elem_of_nil; naive_solver.
Qed.

Lemma daily_loss_names c pnl l :
  daily_loss_checks c pnl = Ok l -> Forall (fun k => ck_name k = "daily_loss_limit") l.
Proof. unfold daily_loss_checks. intros H. destruct (fltb _ _); res_inv; by repeat constructor. Qed.

Lemma drawdown_names c peak equity l :
  drawdown_checks c peak equity = Ok l -> Forall (fun k => ck_name k = "max_drawdown") l.
Proof. unfold drawdown_checks. intros H. destruct (_ && _); res_inv; by repeat constructor. Qed.

(** What a successful evaluation computed, with the verdict of each limit. *)
Lemma evaluate_inv c order pos equity exposure pnl peak ev :
  evaluate c order pos equity exposure pnl peak = Ok ev ->
  exists o' signed b p1 p2 p3,
    validate_order order = Ok o' /\ signed_quantity (po_side o') (po_quantity o') = Ok signed /\
    dadd (held pos) signed = Ok (ce_projected_position_qty ev) /\
    dabs (ce_projected_position_qty ev) = Ok b /\
    dmul b (dec_of_num (po_price o')) = Ok (ce_projected_symbol_notional_usd ev) /\
    projected_leverage (ce_projected_total_exposure_usd ev) (dec_of_repr equity) =
      Ok (ce_projected_leverage ev) /\
    dleb b (dec_of_float (cc_max_position_abs c)) = Ok p1 /\
    dleb (ce_projected_symbol_notional_usd ev) (dec_of_float (cc_max_symbol_notional_usd c)) = Ok p2 /\
    dleb (ce_projected_leverage ev) (dec_of_float (cc_max_leverage c)) = Ok p3 /\
    ("position_limit"%string ∈ ce_blocked_by ev <-> p1 = false) /\
    ("symbol_notional_limit"%string ∈ ce_blocked_by ev <-> p2 = false) /\
    ("leverage_limit"%string ∈ ce_blocked_by ev <-> p3 = false) /\
    (ce_allowed ev = true <-> ce_blocked_by ev = []).
Proof.
  unfold evaluate. intros H.
  apply bind_Ok in H as (o' & Eo & H). apply bind_Ok in H as ([] & _ & H).
  apply bind_Ok in H as (signed & Es & H). apply bind_Ok in H as (pq & Epq & H).
  apply bind_Ok in H as (a & _ & H). apply bind_Ok in H as (cn & _ & H).
  apply bind_Ok in H as (b & Eb & H). apply bind_Ok in H as (pn & Epn & H).
  do 3 (apply bind_Ok in H as (? & _ & H)).
  apply bind_Ok in H as (te & _ & H). apply bind_Ok in H as (lev & Elev & H).
  apply bind_Ok in H as (limits & El & H). apply bind_Ok in H as (daily & Ed & H).
  apply bind_Ok in H as (dd & Edd & H). injection H as <-. simpl.
  unfold limit_checks in El. apply bind_Ok in El as (p1 & E1 & El).
  apply bind_Ok in El as (p2 & E2 & El). apply bind_Ok in El as (p3 & E3 & El). injection El as <-.
  apply daily_loss_names in Ed. apply drawdown_names in Edd.
  destruct (failed_limits p1 p2 p3 (PDec b) (PDec pn) (PDec lev) (cc_max_position_abs c)
    (cc_max_symbol_notional_usd c) (cc_max_leverage c)
    "Projected absolute position must stay within limit"
    "Projected per-symbol notional must stay within limit"
    "Projected account leverage must stay within limit" (daily ++ dd)) as (F1 & F2 & F3).
  { apply Forall_app. split; eapply Forall_impl; [exact Ed|by left|exact Edd|by right]. }
  exists o', signed, b, p1, p2, p3. do 9 (split; [done|]).
  split; [exact F1|]. split; [exact F2|]. split; [exact F3|]. by destruct (failed _).
Qed.

(** The exact projections and the two verdicts made on them. *)
Lemma limits_exact c order pos equity exposure pnl peak ev q :
  evaluate c order pos equity exposure pnl peak = Ok ev ->
  quoted order -> isdec 8 (held pos) q -> (Qabs q + Qabs (order_delta order) < p10 5)%Q ->
  let q' := (q + order_delta order)%Q in
  let notional := (Qabs q' * order_price order)%Q in
  isdec 8 (ce_projected_position_qty ev) q' /\
  isdec 16 (ce_projected_symbol_notional_usd ev) notional /\
  ("position_limit"%string ∈ ce_blocked_by ev <-> within (Qabs q') (cc_max_position_abs c) = false) /\
  ("symbol_notional_limit"%string ∈ ce_blocked_by ev <->
     within notional (cc_max_symbol_notional_usd c) = false).
Proof.
  intros H Hq Vh Hb q' notional.
  destruct (evaluate_inv _ _ _ _ _ _ _ _ H) as
    (o' & signed & b & p1 & p2 & p3 & Eo & Es & Epq & Eb & Epn & _ & E1 & E2 & _ & F1 & F2 & _).
  pose proof (Qabs_nonneg q) as Nq. pose proof (Qabs_triangle q (order_delta order)) as T.
  destruct (validate_order_spec _ _ Eo Hq) as (z & Ez & Vz & Epr & Hp0); [lra|].
  rewrite Es in Ez. injection Ez as <-. destruct Hq as (_ & Vp & Bp).
  destruct (dadd_isdec 8 5 _ _ _ _ Vh Vz) as (w & Ew & Vw); try done; [lra|].
  rewrite Epq in Ew. injection Ew as Ew. rewrite <- Ew in Vw.
  destruct (dabs_isdec 8 5 _ _ Vw) as (a & Ea & Va); try done; [lra|].
  rewrite Eb in Ea. injection Ea as <-.
  destruct (dmul_isdec 8 8 11 _ _ _ _ Va Vp) as (n & En & Vn); try done.
  { fold q' in T |- *. rewrite Qabs_pos.
    - change (p10 11) with (p10 5 * p10 6)%Q. pose proof (Qabs_nonneg q'). pose proof (p10_pos 6). nra.
    - apply Qmult_le_0_compat; [apply Qabs_nonneg|lra]. }
  rewrite Epr, En in Epn. injection Epn as Epn. rewrite Epn in Vn.
  pose proof (dleb_within _ _ _ _ _ Va E1) as ->. by pose proof (dleb_within _ _ _ _ _ Vn E2) as ->.
Qed.

(** An allowed order violates neither limit. *)
Lemma allowed_within c order pos equity exposure pnl peak ev q :
  evaluate c order pos equity exposure pnl peak = Ok ev ->
  quoted order -> isdec 8 (held pos) q -> (Qabs q + Qabs (order_delta order) < p10 5)%Q ->
  ce_blocked_by ev = [] ->
  within (Qabs (q + order_delta order)) (cc_max_position_abs c) = true /\
  within (Qabs (q + order_delta order) * order_price order) (cc_max_symbol_notional_usd c) = true.
Proof.
  intros H Hq Vh Hb Hno. destruct (limits_exact _ _ _ _ _ _ _ _ _ H Hq Vh Hb) as (_ & _ & F1 & F2).
  rewrite Hno, elem_of_nil in F1, F2. destruct (within _ _), (within _ _); naive_solver.
Qed.

(** The core limits are exact: for an order quoted on the exchanges' grid,
    whatever the account, the projected position is exactly the position held
    plus the signed order, its notional is exactly that amount times the
    price, and the order is blocked by the position (notional) limit exactly
    when the exact amount exceeds the limit, read as the exact value of the
    float. So no order that is allowed leaves a position or a notional above
    its limit. *)
Theorem evaluate_limits c order pos equity exposure pnl peak ev q :
  evaluate c order pos equity exposure pnl peak = Ok ev ->
  quoted order -> isdec 8 (held pos) q -> (Qabs q + Qabs (order_delta order) < p10 5)%Q ->
  let q' := (q + order_delta order)%Q in
  let notional := (Qabs q' * order_price order)%Q in
  (dval (ce_projected_position_qty ev) == q')%Q /\
  (dval (ce_projected_symbol_notional_usd ev) == notional)%Q /\
  ("position_limit"%string ∈ ce_blocked_by ev <-> within (Qabs q') (cc_max_position_abs c) = false) /\
  ("symbol_notional_limit"%string ∈ ce_blocked_by ev <->
     within notional (cc_max_symbol_notional_usd c) = false) /\
  (ce_allowed ev = true ->
     within (Qabs q') (cc_max_position_abs c) = true /\
     within notional (cc_max_symbol_notional_usd c) = true).
Proof.
  intros H Hq Vh Hb q' notional.
  destruct (limits_exact _ _ _ _ _ _ _ _ _ H Hq Vh Hb) as (V1 & V2 & F1 & F2).
  split; [apply (isdec_val _ _ _ V1)|]. split; [apply (isdec_val _ _ _ V2)|].
  split; [exact F1|]. split; [exact F2|]. intros Hal. eapply allowed_within; try done.
  destruct (evaluate_inv _ _ _ _ _ _ _ _ H) as
    (? & ? & ? & ? & ? & ? & _ & _ & _ & _ & _ & _ & _ & _ & _ & _ & _ & _ & Ha). by apply Ha.
Qed.

(** An account without equity cannot take on exposure: when the equity is
    at most the epsilon and the order would leave any exposure above it, the
    order is blocked by the leverage limit, whatever finite limit is set. *)
Theorem evaluate_no_equity c order pos equity exposure pnl peak ev :
  evaluate c order pos equity exposure pnl peak = Ok ev ->
  is_finite (cc_max_leverage c) = true ->
  dleb (dec_of_repr equity) _EPSILON = Ok true ->
  dltb _EPSILON (ce_projected_total_exposure_usd ev) = Ok true ->
  "leverage_limit"%string ∈ ce_blocked_by ev /\ ce_allowed ev = false.
Proof.
  intros H Hf He Hx.
  destruct (evaluate_inv _ _ _ _ _ _ _ _ H) as
    (o' & signed & b & p1 & p2 & p3 & _ & _ & _ & _ & _ & El & _ & _ & E3 & _ & _ & F3 & Ha).
  unfold projected_leverage in El. rewrite He in El. simpl in El. rewrite Hx in El. simpl in El.
  injection El as El. rewrite <- El in E3.
  assert (p3 = false) as ->.
  { destruct (cc_max_leverage c) as [s|s| |s m e]; try done; simpl in E3.
    - by injection E3 as <-.
    - destruct (0 <=? e); unfold dleb in E3; simpl in E3; by injection E3 as <-. }
  assert (Hin : "leverage_limit"%string ∈ ce_blocked_by ev) by by apply F3.
  split; [done|]. destruct (ce_allowed ev); [|done].
  destruct Ha as [Ha _]. rewrite (Ha eq_refl) in Hin. by apply elem_of_nil in Hin.
Qed.

(** ** Without a day's result and a peak, the loss checks say nothing *)

Lemma daily_loss_zero c l :
  daily_loss_checks c fzero = Ok l -> Forall (fun k => ck_passed k = true) l.
Proof.
  unfold daily_loss_checks. intros H. destruct (fltb fzero (cc_max_daily_loss_usd c)) eqn:E; [|by res_inv].
  apply bind_Ok in H as (bound & Eb & H). apply bind_Ok in H as (passed & Ep & H).
  apply bind_Ok in H as (a & _ & H). injection H as <-. constructor; [|constructor]. simpl.
  change (dec_of_repr (fmin fzero fzero)) with (DFin 0 (-1)) in Ep.
  destruct (cc_max_daily_loss_usd c) as [s|s| |s m e]; try done.
  - destruct s; [done|]. injection Eb as <-. unfold dleb in Ep. by injection Ep as <-.
  - destruct s; [done|]. simpl in Eb. pose proof (shortest_nonneg m e) as Hn.
    destruct (shortest m e) as [sc sk]. simpl in Hn.
    assert (Hb : exists c e, bound = DFin c e /\ c <= 0).
    { destruct (_ && _); eapply dneg_nonpos; try exact Eb; [|done]. simpl.
      apply Z.mul_nonneg_nonneg; [done|]. apply Z.pow_nonneg. lia. }
    destruct Hb as (bc & be & -> & Hbc). rewrite dleb_val in Ep.
    destruct (Qlt_le_dec (qval 0 (-1)) (qval bc be)) as [Hlt|_]; [|by injection Ep as <-].
    exfalso. rewrite (qval_le bc 0 be) in Hbc. rewrite !qval_0 in *. lra.
Qed.

(** With a zero day's result and a zero peak, only the three limits can block. *)
Lemma zero_inputs_blocked c order pos equity exposure ev :
  evaluate c order pos equity exposure fzero fzero = Ok ev ->
  forall x, x ∈ ce_blocked_by ev ->
    x = "position_limit"%string \/ x = "symbol_notional_limit"%string \/ x = "leverage_limit"%string.
Proof.
  unfold evaluate. intros H. do 12 (apply bind_Ok in H as (? & _ & H)).
  apply bind_Ok in H as (lev & _ & H).
  apply bind_Ok in H as (limits & El & H). apply bind_Ok in H as (daily & Ed & H).
  apply bind_Ok in H as (dd & Edd & H). injection H as <-. simpl.
  unfold limit_checks in El. res_inv. unfold drawdown_checks in Edd.
  rewrite fltb_irrefl, andb_false_r in Edd. injection Edd as <-.
  apply daily_loss_zero in Ed. rewrite app_nil_r. intros nm Hx. unfold failed in Hx.
  apply list_elem_of_fmap in Hx as (k & -> & Hk).
  rewrite list_elem_of_In, filter_In, <- list_elem_of_In in Hk. destruct Hk as [Hk Hp].
  rewrite elem_of_app, !elem_of_cons, elem_of_nil in Hk.
  destruct Hk as [[->|[->|[->|[]]]]|Hk]; simpl; auto.
  rewrite Forall_forall in Ed. by rewrite (Ed k Hk) in Hp.
Qed.

(** ** Concrete orders *)

Module Example.
Definition config : CoreRiskConfig :=
  {| cc_max_position_abs := flit 5 0; cc_max_symbol_notional_usd := flit 1000 0;
     cc_max_leverage := flit 3 0; cc_max_daily_loss_usd := flit 100 0;
     cc_max_drawdown_pct := flit 2 (-1) |}.
Definition buy (n : Z) : ProposedOrder :=
  {| po_mode := "mock"; po_symbol := "BTCUSDT"; po_side := "buy"; po_quantity := PInt n;
     po_price := PFloat (flit 100 0) |}.
Definition run (n equity : Z) : result CoreRiskEvaluation :=
  evaluate config (buy n) None (flit equity 0) fzero fzero fzero.

Lemma price_repr : dec_of_repr (flit 100 0) = DFin 1000 (-1).
Proof. vm_compute. reflexivity. Qed.

Lemma quoted_buy n : quoted (buy n).
Proof.
  unfold quoted, order_price. cbn [po_price po_quantity buy dec_of_num]. rewrite price_repr.
  split; [exists n, 0; repeat split; lia|]. split; [dec_compute|]. split; dec_compute.
Qed.
End Example.

(** Buying 6 exceeds the position limit of 5. *)
Lemma evaluate_limits_witness :
  exists ev, Example.run 6 1000 = Ok ev /\
    ("position_limit"%string ∈ ce_blocked_by ev <->
     within (Qabs (0 + order_delta (Example.buy 6))) (flit 5 0) = false).
Proof.
  eexists. split; [vm_compute; reflexivity|].
  refine (proj1 (proj2 (proj2 (evaluate_limits Example.config (Example.buy 6) None (flit 1000 0)
            fzero fzero fzero _ 0 _ _ _ _)))).
  - vm_compute. reflexivity.
  - exact (Example.quoted_buy 6).
  - dec_compute.
  - dec_compute.
Defined.

Lemma evaluate_no_equity_witness :
  exists ev, Example.run 1 0 = Ok ev /\ "leverage_limit"%string ∈ ce_blocked_by ev /\
    ce_allowed ev = false.
Proof.
  eexists. split; [vm_compute; reflexivity|].
  refine (evaluate_no_equity Example.config (Example.buy 1) None (flit 0 0) fzero fzero fzero
            _ _ _ _ _); vm_compute; reflexivity.
Defined.
