(* ===== verification/RiskGuards.v ===== *)
(** * Drawdown and daily-loss guards

    [services/oms/risk_guards.py], in binary floats throughout. *)

From S2P Require Import Prelude PyStr PyFloat PyDecimal PortfolioSnapshot.
From stdpp Require Import options.
From Stdlib Require Import String SpecFloat.

#[local] Open Scope Z_scope.

Definition _EPSILON : f64 := flit 1 (-9).

Record DrawdownDailyLossConfig := {
  gc_max_drawdown_pct : f64;
  gc_max_daily_loss_usd : f64;
}.

Record DrawdownDailyLossCheck := {
  gk_name : string;
  gk_passed : bool;
  gk_value : f64;
  gk_limit : f64;
  gk_message : string;
  gk_severity : string;
}.

Record DrawdownDailyLossEvaluation := {
  ge_allowed : bool;
  ge_blocked_by : list string;
  ge_drawdown_pct : f64;
  ge_daily_loss_usd : f64;
  ge_checks : list DrawdownDailyLossCheck;
}.

Definition validate_config (c : DrawdownDailyLossConfig) : result DrawdownDailyLossConfig :=
  _ ← raise_if (negb (fleb fzero (gc_max_drawdown_pct c) && fleb (gc_max_drawdown_pct c) fone))
        DrawdownDailyLossGuardError "max_drawdown_pct must be between 0 and 1";
  _ ← raise_if (fltb (gc_max_daily_loss_usd c) fzero)
        DrawdownDailyLossGuardError "max_daily_loss_usd must be non-negative";
  Ok c.

Definition drawdown_pct (peak_equity current_equity : f64) : result f64 :=
  if fleb peak_equity _EPSILON then Ok fzero
  else q ← py_fdiv (fsub peak_equity current_equity) peak_equity; Ok (fmax fzero q).

Definition evaluate (c : DrawdownDailyLossConfig) (snapshot : PortfolioSnapshot)
    (peak_equity_usd : f64) (daily_pnl_usd : option f64) : result DrawdownDailyLossEvaluation :=
  let peak_equity := fmax fzero peak_equity_usd in
  let current_equity := float_of_dec (sn_total_balance_usd snapshot) in
  drawdown ← drawdown_pct peak_equity current_equity;
  let pnl_reference :=
    match daily_pnl_usd with
    | Some x => x
    | None => float_of_dec (sn_realized_pnl_total snapshot)
    end in
  let daily_loss_usd := fmax fzero (fneg pnl_reference) in
  let checks :=
    [{| gk_name := "drawdown_limit"; gk_passed := fleb drawdown (gc_max_drawdown_pct c);
        gk_value := drawdown; gk_limit := gc_max_drawdown_pct c;
        gk_message := "Current drawdown must stay within configured threshold";
        gk_severity := "CRITICAL" |};
     {| gk_name := "daily_loss_limit"; gk_passed := fleb daily_loss_usd (gc_max_daily_loss_usd c);
        gk_value := daily_loss_usd; gk_limit := gc_max_daily_loss_usd c;
        gk_message := "Daily realized loss must stay within configured threshold";
        gk_severity := "CRITICAL" |}] in
  let blocked_by := gk_name <$> List.filter (fun k => negb (gk_passed k)) checks in
  Ok {| ge_allowed := match blocked_by with [] => true | _ => false end;
        ge_blocked_by := blocked_by;
        ge_drawdown_pct := drawdown;
        ge_daily_loss_usd := daily_loss_usd;
        ge_checks := checks |}.

(** ** The guards always answer, and block every breach *)

Lemma peak_not_nan x : is_nan (fmax fzero x) = false.
Proof. unfold fmax. destruct (fltb fzero x) eqn:E; [|done]. by apply fltb_fleb, fleb_not_nan in E as [_ E]. Qed.

(** The division never sees a zero: the peak is above the epsilon there. *)
Lemma drawdown_total peak current :
  is_nan peak = false ->
  exists d, drawdown_pct peak current = Ok d /\ fleb fzero d = true /\
    (fleb peak _EPSILON = false ->
     fltb fzero (fdiv (fsub peak current) peak) = true -> d = fdiv (fsub peak current) peak).
Proof.
  intros Hp. unfold drawdown_pct. destruct (fleb peak _EPSILON) eqn:E; [by exists fzero|].
  assert (Hz : py_fdiv (fsub peak current) peak = Ok (fdiv (fsub peak current) peak))
    by (destruct peak; [by destruct s; vm_compute in E|done..]).
  rewrite Hz. eexists. split; [done|]. split; [by apply fmax_lb|].
  intros _ H. unfold fmax. by rewrite H.
Qed.

Lemma evaluate_allowed c snapshot peak daily ev :
  evaluate c snapshot peak daily = Ok ev ->
  ge_allowed ev = (fleb (ge_drawdown_pct ev) (gc_max_drawdown_pct c) &&
                   fleb (ge_daily_loss_usd ev) (gc_max_daily_loss_usd c)).
Proof.
  unfold evaluate. intros H. apply bind_Ok in H as (d & _ & H). injection H as <-. simpl.
  set (ok1 := fleb d _). set (ok2 := fleb (fmax _ _) _). by destruct ok1, ok2.
Qed.

Definition pnl_reference (snapshot : PortfolioSnapshot) (daily_pnl_usd : option f64) : f64 :=
  match daily_pnl_usd with
  | Some x => x
  | None => float_of_dec (sn_realized_pnl_total snapshot)
  end.

Lemma fmax_fzero_above x limit :
  fltb limit x = true -> fltb limit fzero = false -> fleb (fmax fzero x) limit = false.
Proof.
  intros H H0. pose proof (fleb_not_nan _ _ (fltb_fleb _ _ H)) as [Hn _].
  assert (Hx : fltb fzero x = true).
  { apply (fleb_fltb_trans _ limit); [|done]. by apply not_fltb_fleb. }
  unfold fmax. rewrite Hx. by apply fltb_not_fleb.
Qed.

Lemma fmax_fzero_within x limit : fleb (fmax fzero x) limit = true -> fltb limit x = false.
Proof.
  intros H. destruct (fltb limit x) eqn:E; [|done]. destruct (fltb limit fzero) eqn:E0.
  - assert (fleb fzero (fmax fzero x) = true) as H0 by (by apply fmax_lb).
    pose proof (fleb_trans _ _ _ H0 H) as H1. apply fltb_not_fleb in E0. congruence.
  - by rewrite (fmax_fzero_above _ _ E E0) in H.
Qed.

(** An evaluation that allows was made on a drawdown and a loss within the
    limits, both measured on the snapshot itself. *)
Lemma allowed_measures c snapshot peak daily ev :
  evaluate c snapshot peak daily = Ok ev -> ge_allowed ev = true ->
  (fltb _EPSILON peak = true ->
   fltb (gc_max_drawdown_pct c) (fdiv (fsub peak (float_of_dec (sn_total_balance_usd snapshot))) peak) = false) /\
  fltb (gc_max_daily_loss_usd c) (fneg (pnl_reference snapshot daily)) = false.
Proof.
  intros H Ha. rewrite (evaluate_allowed _ _ _ _ _ H) in Ha. apply andb_true_iff in Ha as [Hd Hl].
  unfold evaluate in H. apply bind_Ok in H as (d & Ed & H). injection H as <-.
  cbn [ge_drawdown_pct ge_daily_loss_usd] in *. split; [|by apply fmax_fzero_within].
  intros Hp. assert (Hpos : fltb fzero peak = true) by (apply (fltb_trans _ _EPSILON); [vm_compute; reflexivity|assumption]).
  assert (fmax fzero peak = peak) as E by (unfold fmax; by rewrite Hpos). rewrite E in Ed. unfold drawdown_pct in Ed.
  rewrite (fltb_not_fleb _ _ Hp) in Ed. apply bind_Ok in Ed as (q & Hq & [= <-]).
  assert (q = fdiv (fsub peak (float_of_dec (sn_total_balance_usd snapshot))) peak) as ->.
  { by destruct peak; [|injection Hq as <-..]. }
  by apply fmax_fzero_within.
Qed.

(** The portfolio guards never fail and never let a breach through: for
    every snapshot, peak and configuration accepted by the validation the
    evaluation returns; it allows exactly when both measures are within their
    limits; a day's loss above the limit is blocked, and so is a drawdown
    [(peak - equity) / peak] above the limit whenever there is a peak to
    measure from. *)
Theorem guards_block_breaches c c' snapshot peak daily :
  validate_config c = Ok c' ->
  exists ev, evaluate c' snapshot peak daily = Ok ev /\
    ge_allowed ev = (fleb (ge_drawdown_pct ev) (gc_max_drawdown_pct c) &&
                     fleb (ge_daily_loss_usd ev) (gc_max_daily_loss_usd c)) /\
    fleb fzero (ge_drawdown_pct ev) = true /\ fleb fzero (ge_daily_loss_usd ev) = true /\
    (fltb (gc_max_daily_loss_usd c) (fneg (pnl_reference snapshot daily)) = true ->
     "daily_loss_limit"%string ∈ ge_blocked_by ev) /\
    (fltb _EPSILON peak = true ->
     fltb (gc_max_drawdown_pct c)
          (fdiv (fsub peak (float_of_dec (sn_total_balance_usd snapshot))) peak) = true ->
     "drawdown_limit"%string ∈ ge_blocked_by ev).
Proof.
  intros Hc. unfold validate_config in Hc. res_inv. bool_hyps. rename c' into c.
  destruct (drawdown_total (fmax fzero peak) (float_of_dec (sn_total_balance_usd snapshot)))
    as (d & Ed & Hd0 & Hd); [apply peak_not_nan|].
  unfold evaluate. rewrite Ed. simpl. fold (pnl_reference snapshot daily).
  eexists. split; [done|]. simpl.
  set (loss := fmax fzero (fneg (pnl_reference snapshot daily))) in *.
  set (ok1 := fleb d (gc_max_drawdown_pct c)). set (ok2 := fleb loss (gc_max_daily_loss_usd c)).
  split; [by destruct ok1, ok2|]. split; [done|]. split; [by apply fmax_lb|]. split.
  - intros Hl. assert (ok2 = false) as -> by (apply fmax_fzero_above; assumption).
    destruct ok1; simpl; repeat constructor.
  - intros Hpk Hdd.
    assert (Hpos : fltb fzero peak = true) by (apply (fltb_trans _ _EPSILON); [vm_compute; reflexivity|assumption]).
    assert (Hpeak : fmax fzero peak = peak) by (unfold fmax; by rewrite Hpos).
    rewrite Hpeak in Hd. assert (ok1 = false) as ->; [|simpl; left].
    unfold ok1. rewrite Hd.
    + apply fltb_not_fleb; assumption.
    + apply fltb_not_fleb; assumption.
    + apply (fleb_fltb_trans _ (gc_max_drawdown_pct c)); assumption.
Qed.

Definition flat_snapshot (total realized : Z) : PortfolioSnapshot :=
  {| sn_snapshot_time := "t"; sn_mode := "MOCK"; sn_total_balance_usd := DFin total 0;
     sn_available_balance_usd := DFin total 0; sn_locked_balance_usd := d0;
     sn_unrealized_pnl := d0; sn_realized_pnl_total := DFin realized 0 |}.

Lemma guards_block_breaches_witness :
  let c := {| gc_max_drawdown_pct := flit 2 (-1); gc_max_daily_loss_usd := flit 50 0 |} in
  exists ev, evaluate c (flat_snapshot 700 (-60)) (flit 1000 0) None = Ok ev /\
    "drawdown_limit"%string ∈ ge_blocked_by ev /\ "daily_loss_limit"%string ∈ ge_blocked_by ev.
Proof.
  intros c.
  destruct (guards_block_breaches c c (flat_snapshot 700 (-60)) (flit 1000 0) None)
    as (ev & E & _ & _ & _ & Hl & Hd); [vm_compute; reflexivity|].
  exists ev. split; [exact E|]. split; [apply Hd|apply Hl]; vm_compute; reflexivity.
Defined.
