(* ===== verification/RiskControls.v ===== *)
(** * Kill switch and circuit breaker

    [services/oms/risk_controls.py]. [RiskControlPlane] is a mutable object: an
    operation maps the state to the new state together with what it returns or
    raises, so that what was written before an exception is kept. Instants are
    UTC microseconds; [clock] is what [datetime.now(timezone.utc)] reads when the
    caller passes no time. *)

From S2P Require Import Prelude PyStr PyTime PyVal.
From stdpp Require Import options.
From Stdlib Require Import String.

#[local] Open Scope Z_scope.

Record RiskControlEvent := {
  rv_event_type : string;
  rv_control : string;
  rv_status : string;
  rv_reason : string;
  rv_actor : string;
  rv_occurred_at : string;
  rv_metadata : dict;
}.

Record RiskControlGate := {
  rg_allowed : bool;
  rg_blocked_by : list string;
}.

Record RiskControlState := {
  rs_kill_switch_enabled : bool;
  rs_circuit_breaker_open : bool;
  rs_consecutive_failures : Z;
  rs_circuit_breaker_open_until : option string;
}.

Record RiskControlPlane := {
  rc_threshold : Z;
  rc_cooldown_seconds : Z;
  rc_kill_switch_enabled : bool;
  rc_consecutive_failures : Z;
  rc_circuit_breaker_open_until : option Z;
  rc_events : list RiskControlEvent;
}.

Definition init (circuit_breaker_threshold circuit_breaker_cooldown_seconds : Z)
  : result RiskControlPlane :=
  _ ← raise_if (circuit_breaker_threshold <=? 0) ValueError
        "circuit_breaker_threshold must be positive";
  _ ← raise_if (circuit_breaker_cooldown_seconds <=? 0) ValueError
        "circuit_breaker_cooldown_seconds must be positive";
  Ok {| rc_threshold := circuit_breaker_threshold;
        rc_cooldown_seconds := circuit_breaker_cooldown_seconds;
        rc_kill_switch_enabled := false;
        rc_consecutive_failures := 0;
        rc_circuit_breaker_open_until := None;
        rc_events := [] |}.

(** Field updates. *)
Definition set_kill (b : bool) (p : RiskControlPlane) : RiskControlPlane :=
  {| rc_threshold := rc_threshold p; rc_cooldown_seconds := rc_cooldown_seconds p;
     rc_kill_switch_enabled := b; rc_consecutive_failures := rc_consecutive_failures p;
     rc_circuit_breaker_open_until := rc_circuit_breaker_open_until p; rc_events := rc_events p |}.
Definition set_failures (n : Z) (p : RiskControlPlane) : RiskControlPlane :=
  {| rc_threshold := rc_threshold p; rc_cooldown_seconds := rc_cooldown_seconds p;
     rc_kill_switch_enabled := rc_kill_switch_enabled p; rc_consecutive_failures := n;
     rc_circuit_breaker_open_until := rc_circuit_breaker_open_until p; rc_events := rc_events p |}.
Definition set_open_until (t : option Z) (p : RiskControlPlane) : RiskControlPlane :=
  {| rc_threshold := rc_threshold p; rc_cooldown_seconds := rc_cooldown_seconds p;
     rc_kill_switch_enabled := rc_kill_switch_enabled p;
     rc_consecutive_failures := rc_consecutive_failures p;
     rc_circuit_breaker_open_until := t; rc_events := rc_events p |}.
Definition set_events (l : list RiskControlEvent) (p : RiskControlPlane) : RiskControlPlane :=
  {| rc_threshold := rc_threshold p; rc_cooldown_seconds := rc_cooldown_seconds p;
     rc_kill_switch_enabled := rc_kill_switch_enabled p;
     rc_consecutive_failures := rc_consecutive_failures p;
     rc_circuit_breaker_open_until := rc_circuit_breaker_open_until p; rc_events := l |}.

(** A naive time is taken as UTC. *)
Definition _to_utc (clock : Z) (value : option datetime) : result Z :=
  match value with
  | None => Ok clock
  | Some t =>
      match dt_off t with
      | None => Ok (dt_us t)
      | Some off => astimezone_utc (dt_us t) off
      end
  end.

Definition _emit (event_type control status reason actor : string) (occurred_at : Z)
    (metadata : dict) (p : RiskControlPlane) : RiskControlPlane :=
  set_events (rc_events p ++
    [{| rv_event_type := event_type; rv_control := control; rv_status := status;
        rv_reason := reason; rv_actor := actor; rv_occurred_at := iso_z occurred_at;
        rv_metadata := metadata |}]) p.

(** An operation of the object: new state, and result or exception. *)
Definition op A := RiskControlPlane -> RiskControlPlane * result A.

(** [now = _to_utc(at)], then the rest of the method. *)
Definition with_now {A} (clock : Z) (at_ : option datetime) (k : Z -> op A) : op A :=
  fun p => match _to_utc clock at_ with Ok now => k now p | Raise e => (p, Raise e) end.

Definition enable_kill_switch (clock : Z) (reason actor : string) (at_ : option datetime) : op unit :=
  with_now clock at_ (fun now p =>
    if rc_kill_switch_enabled p then (p, Ok tt)
    else (_emit "risk.kill_switch.enabled" "kill_switch" "ENABLED" reason actor now []
            (set_kill true p), Ok tt)).

Definition disable_kill_switch (clock : Z) (reason actor : string) (at_ : option datetime) : op unit :=
  with_now clock at_ (fun now p =>
    if negb (rc_kill_switch_enabled p) then (p, Ok tt)
    else (_emit "risk.kill_switch.disabled" "kill_switch" "DISABLED" reason actor now []
            (set_kill false p), Ok tt)).

Definition trip_circuit_breaker (clock : Z) (reason actor : string) (at_ : option datetime)
    (cooldown_seconds : option Z) : op unit :=
  with_now clock at_ (fun now p =>
    let cooldown :=
      match cooldown_seconds with
      | Some c => if c =? 0 then rc_cooldown_seconds p else c
      | None => rc_cooldown_seconds p
      end in
    if cooldown <=? 0 then (p, raise ValueError "cooldown_seconds must be positive")
    else
      match (delta ← timedelta_seconds cooldown; add_us now delta) with
      | Raise e => (p, Raise e)
      | Ok open_until =>
          (_emit "risk.circuit_breaker.tripped" "circuit_breaker" "OPEN" reason actor now
             [("consecutive_failures", VInt (rc_consecutive_failures p));
              ("threshold", VInt (rc_threshold p));
              ("open_until", VStr (iso_z open_until))]
             (set_open_until (Some open_until) p), Ok tt)
      end).

Definition record_failure (clock : Z) (reason actor : string) (at_ : option datetime) : op unit :=
  with_now clock at_ (fun now p =>
    let n := rc_consecutive_failures p + 1 in
    let p1 :=
      _emit "risk.circuit_breaker.failure_recorded" "circuit_breaker" "FAILURE_RECORDED" reason
        actor now [("consecutive_failures", VInt n)] (set_failures n p) in
    if rc_threshold p1 <=? rc_consecutive_failures p1
    then trip_circuit_breaker clock reason actor (Some (utc now)) None p1
    else (p1, Ok tt)).

Definition record_success : op unit := fun p => (set_failures 0 p, Ok tt).

Definition reset_circuit_breaker (clock : Z) (reason actor : string) (at_ : option datetime)
  : op unit :=
  with_now clock at_ (fun now p =>
    if match rc_circuit_breaker_open_until p with None => true | Some _ => false end &&
       (rc_consecutive_failures p =? 0)
    then (p, Ok tt)
    else (_emit "risk.circuit_breaker.reset" "circuit_breaker" "CLOSED" reason actor now []
            (set_failures 0 (set_open_until None p)), Ok tt)).

Definition _is_circuit_breaker_open (now : Z) (p : RiskControlPlane) : bool :=
  match rc_circuit_breaker_open_until p with None => false | Some t => now <? t end.

Definition _auto_reset_if_expired (now : Z) (p : RiskControlPlane) : RiskControlPlane :=
  match rc_circuit_breaker_open_until p with
  | None => p
  | Some t =>
      if now <? t then p
      else _emit "risk.circuit_breaker.auto_reset" "circuit_breaker" "CLOSED" "cooldown elapsed"
             "system" now [] (set_failures 0 (set_open_until None p))
  end.

Definition evaluate_order_allowed (clock : Z) (now : option datetime) : op RiskControlGate :=
  with_now clock now (fun reference_time p =>
    let p1 := _auto_reset_if_expired reference_time p in
    let blocked :=
      (if rc_kill_switch_enabled p1 then ["kill_switch"] else []) ++
      (if _is_circuit_breaker_open reference_time p1 then ["circuit_breaker"] else []) in
    (p1, Ok {| rg_allowed := match blocked with [] => true | _ => false end;
               rg_blocked_by := blocked |})).

Definition snapshot (clock : Z) (now : option datetime) : op RiskControlState :=
  with_now clock now (fun reference_time p =>
    let p1 := _auto_reset_if_expired reference_time p in
    (p1, Ok {| rs_kill_switch_enabled := rc_kill_switch_enabled p1;
               rs_circuit_breaker_open := _is_circuit_breaker_open reference_time p1;
               rs_consecutive_failures := rc_consecutive_failures p1;
               rs_circuit_breaker_open_until := iso_z <$> rc_circuit_breaker_open_until p1 |})).

Definition drain_events : op (list RiskControlEvent) :=
  fun p => (set_events [] p, Ok (rc_events p)).

(** ** Histories

    A client's calls in order, each with the clock reading it happens at. The
    events handed out by [drain_events] are kept, so that [log] is everything
    ever emitted. *)
Inductive call :=
  | CEnable (reason actor : string) (at_ : option datetime)
  | CDisable (reason actor : string) (at_ : option datetime)
  | CFailure (reason actor : string) (at_ : option datetime)
  | CSuccess
  | CTrip (reason actor : string) (at_ : option datetime) (cooldown : option Z)
  | CReset (reason actor : string) (at_ : option datetime)
  | CEvaluate (now : option datetime)
  | CSnapshot (now : option datetime)
  | CDrain.

#[export] Instance call_eq_dec : EqDecision call.
Proof. solve_decision. Defined.

Definition call_state (c : Z * call) (p : RiskControlPlane) : RiskControlPlane :=
  let clock := c.1 in
  match c.2 with
  | CEnable r a t => (enable_kill_switch clock r a t p).1
  | CDisable r a t => (disable_kill_switch clock r a t p).1
  | CFailure r a t => (record_failure clock r a t p).1
  | CSuccess => (record_success p).1
  | CTrip r a t cd => (trip_circuit_breaker clock r a t cd p).1
  | CReset r a t => (reset_circuit_breaker clock r a t p).1
  | CEvaluate t => (evaluate_order_allowed clock t p).1
  | CSnapshot t => (snapshot clock t p).1
  | CDrain => (drain_events p).1
  end.

Definition run (calls : list (Z * call)) (p : RiskControlPlane) : RiskControlPlane :=
  foldl (fun p c => call_state c p) p calls.

Fixpoint log (calls : list (Z * call)) (p : RiskControlPlane) : list RiskControlEvent :=
  match calls with
  | [] => rc_events p
  | c :: rest =>
      (match c.2 with CDrain => rc_events p | _ => [] end) ++ log rest (call_state c p)
  end.

(** What the event log says about the controls. *)
Definition kill_after (b : bool) (e : RiskControlEvent) : bool :=
  if String.eqb (rv_event_type e) "risk.kill_switch.enabled" then true
  else if String.eqb (rv_event_type e) "risk.kill_switch.disabled" then false
  else b.
Definition open_after (b : bool) (e : RiskControlEvent) : bool :=
  if String.eqb (rv_event_type e) "risk.circuit_breaker.tripped" then true
  else if String.eqb (rv_event_type e) "risk.circuit_breaker.reset" then false
  else if String.eqb (rv_event_type e) "risk.circuit_breaker.auto_reset" then false
  else b.
Definition kill_of_log (b : bool) (l : list RiskControlEvent) : bool := foldl kill_after b l.
Definition open_of_log (b : bool) (l : list RiskControlEvent) : bool := foldl open_after b l.

Definition breaker_set (p : RiskControlPlane) : bool :=
  match rc_circuit_breaker_open_until p with Some _ => true | None => false end.

(** A call emits events that account for what it did to the controls. *)
Definition accounted (p p' : RiskControlPlane) : Prop :=
  exists new, rc_events p' = rc_events p ++ new /\
    kill_of_log (rc_kill_switch_enabled p) new = rc_kill_switch_enabled p' /\
    open_of_log (breaker_set p) new = breaker_set p'.

Lemma accounted_refl p : accounted p p.
Proof. exists []. by rewrite app_nil_r. Qed.

Lemma accounted_trans p1 p2 p3 : accounted p1 p2 -> accounted p2 p3 -> accounted p1 p3.
Proof.
  intros (n1 & E1 & K1 & O1) (n2 & E2 & K2 & O2). exists (n1 ++ n2).
  unfold kill_of_log, open_of_log in *. rewrite E2, E1, !foldl_app, K1, O1, app_assoc. done.
Qed.

Lemma accounted_with_now {A} clock at_ (k : Z -> op A) p :
  (forall now, accounted p (k now p).1) -> accounted p (with_now clock at_ k p).1.
Proof.
  intros H. unfold with_now. destruct (_to_utc clock at_) as [now|e]; [apply H|apply accounted_refl].
Qed.

(** One emitted event: the new control values it stands for. *)
Lemma accounted_emit p q et c s r a now md :
  rc_events q = rc_events p ->
  kill_after (rc_kill_switch_enabled p)
    {| rv_event_type := et; rv_control := c; rv_status := s; rv_reason := r; rv_actor := a;
       rv_occurred_at := iso_z now; rv_metadata := md |} = rc_kill_switch_enabled q ->
  open_after (breaker_set p)
    {| rv_event_type := et; rv_control := c; rv_status := s; rv_reason := r; rv_actor := a;
       rv_occurred_at := iso_z now; rv_metadata := md |} = breaker_set q ->
  accounted p (_emit et c s r a now md q).
Proof.
  intros He Hk Ho. eexists. split; [unfold _emit; simpl; by rewrite He|]. by split.
Qed.

Lemma accounted_auto_reset now p : accounted p (_auto_reset_if_expired now p).
Proof.
  unfold _auto_reset_if_expired. destruct (rc_circuit_breaker_open_until p) as [t|] eqn:E;
    [|apply accounted_refl].
  destruct (now <? t); [apply accounted_refl|]. by apply accounted_emit.
Qed.

Lemma accounted_trip clock r a t cd p : accounted p (trip_circuit_breaker clock r a t cd p).1.
Proof.
  apply accounted_with_now. intros now. cbv zeta.
  destruct (_ <=? 0); [apply accounted_refl|].
  destruct (_ ≫= _); [by apply accounted_emit|apply accounted_refl].
Qed.

Lemma accounted_call c p : c.2 <> CDrain -> accounted p (call_state c p).
Proof.
  destruct c as [clock [r a t|r a t|r a t| |r a t cd|r a t|t|t|]]; intros Hc; simpl.
  - apply accounted_with_now. intros now. destruct (rc_kill_switch_enabled p);
      [apply accounted_refl|by apply accounted_emit].
  - apply accounted_with_now. intros now. destruct (rc_kill_switch_enabled p) eqn:E;
      [by apply accounted_emit|apply accounted_refl].
  - apply accounted_with_now. intros now. cbv zeta. destruct (_ <=? _); simpl.
    + eapply accounted_trans; [|apply accounted_trip]. by apply accounted_emit.
    + by apply accounted_emit.
  - exists []. by rewrite app_nil_r.
  - apply accounted_trip.
  - apply accounted_with_now. intros now. destruct (_ && _); [apply accounted_refl|].
    by apply accounted_emit.
  - apply accounted_with_now. intros now. apply accounted_auto_reset.
  - apply accounted_with_now. intros now. apply accounted_auto_reset.
  - done.
Qed.

(** The event log is a faithful audit trail: for a control plane created
    with any parameters and any history of calls (with any times, errors and
    drains included), replaying everything that was ever emitted, drained or
    not, gives exactly the kill switch's position and whether the breaker has
    been tripped without a reset since. *)
Theorem audit_trail th cooldown p0 calls :
  init th cooldown = Ok p0 ->
  kill_of_log false (log calls p0) = rc_kill_switch_enabled (run calls p0) /\
  open_of_log false (log calls p0) = breaker_set (run calls p0).
Proof.
  intros Hi.
  assert (Hgen : forall p k o,
    kill_of_log k (rc_events p) = rc_kill_switch_enabled p ->
    open_of_log o (rc_events p) = breaker_set p ->
    kill_of_log k (log calls p) = rc_kill_switch_enabled (run calls p) /\
    open_of_log o (log calls p) = breaker_set (run calls p)).
  { clear Hi. induction calls as [|c calls IH]; intros p k o Hk Ho; [done|].
    unfold kill_of_log, open_of_log in *. simpl. destruct (decide (c.2 = CDrain)) as [Ed|Hne].
    - rewrite Ed, !foldl_app, Hk, Ho. destruct c as [clock c']; simpl in *. subst c'. by apply IH.
    - destruct (accounted_call c p Hne) as (new & E & K & O). unfold kill_of_log, open_of_log in *.
      destruct c as [clock []]; try done; apply IH; by rewrite E, foldl_app, ?Hk, ?Ho. }
  unfold init in Hi. res_inv. by apply Hgen.
Qed.

(** ** The kill switch holds *)

Definition disables (c : call) : bool := match c with CDisable _ _ _ => true | _ => false end.

Lemma with_now_kill {A} clock at_ (k : Z -> op A) p :
  (forall now, rc_kill_switch_enabled (k now p).1 = true) -> rc_kill_switch_enabled p = true ->
  rc_kill_switch_enabled (with_now clock at_ k p).1 = true.
Proof. intros H Hp. unfold with_now. by destruct (_to_utc clock at_). Qed.

Lemma trip_kill clock r a t cd p :
  rc_kill_switch_enabled p = true ->
  rc_kill_switch_enabled (trip_circuit_breaker clock r a t cd p).1 = true.
Proof.
  intros Hp. apply with_now_kill; [|done]. intros now. cbv zeta.
  destruct (_ <=? 0); [done|]. by destruct (_ ≫= _).
Qed.

Lemma auto_reset_kill now p :
  rc_kill_switch_enabled (_auto_reset_if_expired now p) = rc_kill_switch_enabled p.
Proof.
  unfold _auto_reset_if_expired. destruct (rc_circuit_breaker_open_until p); [|done].
  by destruct (now <? _).
Qed.

Lemma call_kill c p :
  disables c.2 = false -> rc_kill_switch_enabled p = true ->
  rc_kill_switch_enabled (call_state c p) = true.
Proof.
  destruct c as [clock [r a t|r a t|r a t| |r a t cd|r a t|t|t|]]; intros Hc Hp; simpl in *; try done.
  - apply with_now_kill; [|done]. intros now. by rewrite Hp.
  - apply with_now_kill; [|done]. intros now. cbv zeta. destruct (_ <=? _); [|done]. by apply trip_kill.
  - by apply trip_kill.
  - apply with_now_kill; [|done]. intros now. by destruct (_ && _).
  - apply with_now_kill; [|done]. intros now. simpl. by rewrite auto_reset_kill.
  - apply with_now_kill; [|done]. intros now. simpl. by rewrite auto_reset_kill.
Qed.

(** C19. The kill switch holds: once enabled, whatever happens afterwards
    (failures, successes, trips, resets, evaluations, drains, at any times)
    short of [disable_kill_switch], every evaluation that returns denies the
    order and names the kill switch. *)
Theorem kill_switch_holds p calls clock now gate :
  rc_kill_switch_enabled p = true ->
  Forall (fun c => disables c.2 = false) calls ->
  (evaluate_order_allowed clock now (run calls p)).2 = Ok gate ->
  rg_allowed gate = false /\ "kill_switch"%string ∈ rg_blocked_by gate.
Proof.
  intros Hp Hc. revert p Hp. induction Hc as [|c calls Hc _ IH]; intros p Hp H.
  - unfold evaluate_order_allowed, with_now in H. destruct (_to_utc clock now) as [t|]; [|done].
    simpl in H. rewrite auto_reset_kill, Hp in H. injection H as <-. simpl. split; [done|left].
  - apply (IH (call_state c p)); [by apply call_kill|done].
Qed.

(** ** The circuit breaker *)

(** Failures one after another, nothing in between. *)
Fixpoint failures (l : list (string * string * Z)) (p : RiskControlPlane) : RiskControlPlane :=
  match l with
  | [] => p
  | (reason, actor, t) :: l' => failures l' (record_failure t reason actor None p).1
  end.

Lemma record_failure_spec t r a p :
  rc_threshold p = rc_threshold (record_failure t r a None p).1 /\
  rc_cooldown_seconds p = rc_cooldown_seconds (record_failure t r a None p).1 /\
  rc_kill_switch_enabled p = rc_kill_switch_enabled (record_failure t r a None p).1 /\
  rc_consecutive_failures (record_failure t r a None p).1 = rc_consecutive_failures p + 1.
Proof.
  unfold record_failure, with_now. simpl. destruct (_ <=? _); [|done].
  unfold trip_circuit_breaker, with_now. simpl. unfold astimezone_utc. rewrite Z.sub_0_r.
  destruct (in_range t); [|done]. destruct (_ <=? 0); [done|]. by destruct (_ ≫= _).
Qed.

Lemma record_failure_trips t r a p :
  0 < rc_cooldown_seconds p -> in_range t = true ->
  in_range (t + rc_cooldown_seconds p * US_SECOND) = true ->
  rc_threshold p <= rc_consecutive_failures p + 1 ->
  rc_circuit_breaker_open_until (record_failure t r a None p).1 =
    Some (t + rc_cooldown_seconds p * US_SECOND).
Proof.
  intros Hc Ht Hr Hth. unfold record_failure, with_now. simpl.
  rewrite (proj2 (Z.leb_le _ _)) by lia.
  unfold trip_circuit_breaker, with_now. simpl. unfold astimezone_utc. rewrite Z.sub_0_r, Ht.
  rewrite (proj2 (Z.leb_gt _ _)) by lia. unfold timedelta_seconds.
  assert (Hd : (Z.abs (rc_cooldown_seconds p / 86400) <=? 999999999) = true).
  { apply Z.leb_le. unfold in_range, MAX_DAYS, US_DAY, US_SECOND in *. bool_hyps.
    rewrite Z.abs_eq by (apply Z.div_pos; lia). apply Z.div_le_upper_bound; lia. }
  rewrite Hd. simpl. unfold add_us. by rewrite Hr.
Qed.

(** C8. Enough consecutive failures open the breaker for the whole cooldown,
    and it closes by itself afterwards: after failures reaching the threshold,
    the last at time [t], every evaluation before [t + cooldown] denies the
    order and names the breaker; an evaluation at or after that time is not
    stopped by the breaker, allows unless the kill switch is on, and starts
    counting failures from zero again. *)
Theorem circuit_breaker_cycle p l reason actor t now :
  0 < rc_cooldown_seconds p -> in_range t = true ->
  in_range (t + rc_cooldown_seconds p * US_SECOND) = true ->
  rc_threshold p <= rc_consecutive_failures p + Z.of_nat (List.length l) + 1 ->
  let p' := failures (l ++ [(reason, actor, t)]) p in
  let r := evaluate_order_allowed now None p' in
  (now < t + rc_cooldown_seconds p * US_SECOND ->
     exists gate, r.2 = Ok gate /\ rg_allowed gate = false /\
       "circuit_breaker"%string ∈ rg_blocked_by gate) /\
  (t + rc_cooldown_seconds p * US_SECOND <= now ->
     exists gate, r.2 = Ok gate /\ rg_allowed gate = negb (rc_kill_switch_enabled p) /\
       ("circuit_breaker"%string ∉ rg_blocked_by gate) /\ rc_consecutive_failures r.1 = 0).
Proof.
  intros Hc Ht Hr Hth p' r.
  assert (Hp' : rc_circuit_breaker_open_until p' = Some (t + rc_cooldown_seconds p * US_SECOND) /\
                rc_kill_switch_enabled p' = rc_kill_switch_enabled p).
  { subst p' r. revert p Hc Hr Hth. induction l as [|[[r1 a1] t1] l IH]; intros p Hc Hr Hth.
    - simpl in *. split; [apply record_failure_trips; [done..|lia]|].
      symmetry. apply record_failure_spec.
    - change (failures (((r1, a1, t1) :: l) ++ [(reason, actor, t)]) p)
        with (failures (l ++ [(reason, actor, t)]) (record_failure t1 r1 a1 None p).1).
      destruct (record_failure_spec t1 r1 a1 p) as (E1 & E2 & E3 & E4).
      rewrite E2, E3. apply IH; rewrite <- ?E2, <- ?E1, ?E4; try done.
      simpl List.length in Hth. lia. }
  destruct Hp' as [Ho Hk]. unfold r, evaluate_order_allowed, with_now. simpl.
  unfold _auto_reset_if_expired, _is_circuit_breaker_open. rewrite Ho. split; intros Hn.
  - rewrite (proj2 (Z.ltb_lt _ _)) by done. simpl. rewrite Ho, (proj2 (Z.ltb_lt _ _)) by done.
    eexists. split; [done|]. simpl. destruct (rc_kill_switch_enabled p'); split; try done; set_solver.
  - rewrite (proj2 (Z.ltb_ge _ _)) by done. simpl. rewrite Hk.
    eexists. split; [done|]. destruct (rc_kill_switch_enabled p); simpl; repeat split; try done; set_solver.
Qed.

(** ** A concrete history *)

Module Example.
(** 2024-03-01T00:00:00Z, and a plane with threshold 2 and a minute's cooldown. *)
Definition t0 : Z := days_of_ymd 2024 3 1 * US_DAY.
Definition plane : RiskControlPlane :=
  {| rc_threshold := 2; rc_cooldown_seconds := 60; rc_kill_switch_enabled := false;
     rc_consecutive_failures := 0; rc_circuit_breaker_open_until := None; rc_events := [] |}.
Definition calls : list (Z * call) :=
  [(t0, CFailure "timeout" "venue" None); (t0, CEnable "halt" "ops" None); (t0, CDrain);
   (t0 + 5, CFailure "timeout" "venue" None); (t0 + 70 * US_SECOND, CEvaluate None)].
End Example.

Lemma audit_trail_witness :
  kill_of_log false (log Example.calls Example.plane) = true /\
  open_of_log false (log Example.calls Example.plane) = false.
Proof. exact (audit_trail 2 60 Example.plane Example.calls eq_refl). Defined.

Lemma kill_switch_holds_witness :
  exists gate,
    (evaluate_order_allowed Example.t0 None
       (run [(Example.t0, CFailure "x" "y" None); (Example.t0, CDrain)] (set_kill true Example.plane))).2
      = Ok gate /\
    rg_allowed gate = false /\ "kill_switch"%string ∈ rg_blocked_by gate.
Proof.
  eexists. split; [vm_compute; reflexivity|].
  refine (kill_switch_holds (set_kill true Example.plane)
    [(Example.t0, CFailure "x" "y" None); (Example.t0, CDrain)] Example.t0 None _ _ _ _);
    [reflexivity|repeat constructor|vm_compute; reflexivity].
Defined.

Lemma circuit_breaker_cycle_witness :
  let p' := failures ([("timeout", "venue", Example.t0)]%string ++ [("timeout", "venue", Example.t0)]%string)
              Example.plane in
  exists gate, (evaluate_order_allowed (Example.t0 + 60 * US_SECOND) None p').2 = Ok gate /\
    rg_allowed gate = true.
Proof.
  destruct (circuit_breaker_cycle Example.plane [("timeout", "venue", Example.t0)]%string "timeout" "venue"
    Example.t0 (Example.t0 + 60 * US_SECOND)) as [_ H].
  - reflexivity.
  - vm_compute. reflexivity.
  - vm_compute. reflexivity.
  - simpl. lia.
  - destruct (H ltac:(simpl; lia)) as (gate & E & Ha & _). exists gate. split; [exact E|exact Ha].
Defined.
