(* ===== verification/RiskPolicy.v ===== *)
(** * The risk policy engine

    [services/oms/risk_policy.py]: the core rules, the portfolio guards and the
    control plane combined into one decision. The optional observability sink is
    an interface ([RiskObservabilitySink] in the source, a [Protocol]): the
    engine is modelled over any instance of it. *)

From S2P Require Import Prelude PyStr PyFloat PyDecimal PyTime.
From S2P Require Import PositionEngine PortfolioSnapshot.
From S2P Require RiskRules RiskGuards.
From S2P Require Import RiskControls.
From stdpp Require Import options.
From Stdlib Require Import String Qabs.

#[local] Open Scope Z_scope.

Record RiskPolicyConfig := {
  pc_core : RiskRules.CoreRiskConfig;
  pc_guards : RiskGuards.DrawdownDailyLossConfig;
}.

Record RiskPolicyDecision := {
  pd_allowed : bool;
  pd_blocked_by : list string;
  pd_core : RiskRules.CoreRiskEvaluation;
  pd_guards : RiskGuards.DrawdownDailyLossEvaluation;
  pd_controls : RiskControlGate;
}.

(** What a sink offers; recording may raise. *)
Class RiskObservabilitySink (S : Type) := {
  record_policy_decision :
    option string -> option string -> option string ->
    RiskRules.ProposedOrder -> RiskPolicyDecision -> S -> S * result unit;
  record_control_events : list RiskControlEvent -> S -> S * result unit;
}.

(** [observability_sink=None] *)
#[export] Instance no_sink : RiskObservabilitySink unit := {
  record_policy_decision := fun _ _ _ _ _ s => (s, Ok tt);
  record_control_events := fun _ s => (s, Ok tt);
}.

Record RiskPolicyEngine (S : Type) := {
  pe_config : RiskPolicyConfig;
  pe_controls : RiskControlPlane;
  pe_observability : S;
}.
Arguments pe_config {S}.
Arguments pe_controls {S}.
Arguments pe_observability {S}.

(** [RiskPolicyEngine.__init__]: both configurations are validated. *)
Definition init {S} (config : RiskPolicyConfig) (controls : RiskControlPlane) (sink : S)
  : result (RiskPolicyEngine S) :=
  core ← RiskRules.validate_config (pc_core config);
  guards ← RiskGuards.validate_config (pc_guards config);
  Ok {| pe_config := {| pc_core := core; pc_guards := guards |};
        pe_controls := controls; pe_observability := sink |}.

Definition _merge_blocked (core : RiskRules.CoreRiskEvaluation)
    (guards : RiskGuards.DrawdownDailyLossEvaluation) (controls : RiskControlGate) : list string :=
  foldl (fun merged name => if bool_decide (name ∈ merged) then merged else merged ++ [name]) []
    (RiskRules.ce_blocked_by core ++ RiskGuards.ge_blocked_by guards ++ rg_blocked_by controls).

Section engine.
Context {S : Type} `{!RiskObservabilitySink S}.

Definition set_state (e : RiskPolicyEngine S) (p : RiskControlPlane) (s : S) : RiskPolicyEngine S :=
  {| pe_config := pe_config e; pe_controls := p; pe_observability := s |}.

Definition evaluate (clock : Z) (order : RiskRules.ProposedOrder)
    (current_position : option PositionState) (snapshot : PortfolioSnapshot)
    (peak_equity_usd current_total_exposure_usd : f64) (now : option datetime)
    (trace_id decision_id strategy_id : option string) (e : RiskPolicyEngine S)
  : RiskPolicyEngine S * result RiskPolicyDecision :=
  match
    core ← RiskRules.evaluate (pc_core (pe_config e)) order current_position
             (float_of_dec (sn_total_balance_usd snapshot)) current_total_exposure_usd fzero fzero;
    guards ← RiskGuards.evaluate (pc_guards (pe_config e)) snapshot peak_equity_usd None;
    Ok (core, guards)
  with
  | Raise x => (e, Raise x)
  | Ok (core, guards) =>
      let '(p1, gate) := evaluate_order_allowed clock now (pe_controls e) in
      match gate with
      | Raise x => (set_state e p1 (pe_observability e), Raise x)
      | Ok controls =>
          let blocked_by := _merge_blocked core guards controls in
          let decision :=
            {| pd_allowed := match blocked_by with [] => true | _ => false end;
               pd_blocked_by := blocked_by; pd_core := core; pd_guards := guards;
               pd_controls := controls |} in
          let '(s1, r) := record_policy_decision trace_id decision_id strategy_id order decision
                            (pe_observability e) in
          (set_state e p1 s1, _ ← r; Ok decision)
      end
  end.

Definition drain_control_events (e : RiskPolicyEngine S)
  : RiskPolicyEngine S * result (list RiskControlEvent) :=
  let '(p1, drained) := drain_events (pe_controls e) in
  match drained with
  | Raise x => (set_state e p1 (pe_observability e), Raise x)
  | Ok events =>
      let '(s1, r) := record_control_events events (pe_observability e) in
      (set_state e p1 s1, _ ← r; Ok events)
  end.
End engine.

(** ** Merging *)

Definition merge_step (merged : list string) (name : string) : list string :=
  if bool_decide (name ∈ merged) then merged else merged ++ [name].

Lemma merge_spec l acc :
  NoDup acc ->
  NoDup (foldl merge_step acc l) /\
  forall x, x ∈ foldl merge_step acc l <-> x ∈ acc \/ x ∈ l.
Proof.
  revert acc. induction l as [|y l IH]; intros acc Hnd; simpl.
  { split; [done|]. intros x. rewrite elem_of_nil. naive_solver. }
  unfold merge_step at 2 4. case_bool_decide as Hin.
  - destruct (IH acc Hnd) as [Hn Hi]. split; [done|]. intros x. rewrite Hi. set_solver.
  - destruct (IH (acc ++ [y])) as [Hn Hi].
    { apply NoDup_app. split; [done|]. split; [set_solver|apply NoDup_singleton]. }
    split; [done|]. intros x. rewrite Hi. set_solver.
Qed.

Lemma merge_blocked_spec core guards controls :
  NoDup (_merge_blocked core guards controls) /\
  forall x, x ∈ _merge_blocked core guards controls <->
    x ∈ RiskRules.ce_blocked_by core \/ x ∈ RiskGuards.ge_blocked_by guards \/
    x ∈ rg_blocked_by controls.
Proof.
  destruct (merge_spec (RiskRules.ce_blocked_by core ++ RiskGuards.ge_blocked_by guards ++
                        rg_blocked_by controls) []) as [Hn Hi]; [constructor|].
  split; [exact Hn|]. intros x. unfold _merge_blocked. fold merge_step. rewrite Hi, !elem_of_app.
  rewrite elem_of_nil. naive_solver.
Qed.

(** ** The decision *)

Definition no_block (l : list string) : bool := match l with [] => true | _ => false end.

Lemma no_block_true l : no_block l = true <-> l = [].
Proof. by destruct l. Qed.

Lemma core_allowed c o pos eq ex pnl peak ev :
  RiskRules.evaluate c o pos eq ex pnl peak = Ok ev ->
  RiskRules.ce_allowed ev = no_block (RiskRules.ce_blocked_by ev).
Proof. unfold RiskRules.evaluate. intros H. by res_inv. Qed.

Lemma guards_allowed c snap peak daily ev :
  RiskGuards.evaluate c snap peak daily = Ok ev ->
  RiskGuards.ge_allowed ev = no_block (RiskGuards.ge_blocked_by ev).
Proof. unfold RiskGuards.evaluate. intros H. by res_inv. Qed.

Section decisions.
Context {S : Type} `{!RiskObservabilitySink S}.
Variables (clock : Z) (order : RiskRules.ProposedOrder) (pos : option PositionState)
  (snap : PortfolioSnapshot) (peak exposure : f64) (now : option datetime)
  (tid did sid : option string) (e e' : RiskPolicyEngine S) (d : RiskPolicyDecision).

(** What a returned decision was made of. *)
Lemma decision_inv :
  evaluate clock order pos snap peak exposure now tid did sid e = (e', Ok d) ->
  exists t,
    RiskRules.evaluate (pc_core (pe_config e)) order pos (float_of_dec (sn_total_balance_usd snap))
      exposure fzero fzero = Ok (pd_core d) /\
    RiskGuards.evaluate (pc_guards (pe_config e)) snap peak None = Ok (pd_guards d) /\
    _to_utc clock now = Ok t /\
    pe_controls e' = _auto_reset_if_expired t (pe_controls e) /\
    pd_controls d = {| rg_allowed := negb (rc_kill_switch_enabled (pe_controls e') ||
                                           _is_circuit_breaker_open t (pe_controls e'));
                       rg_blocked_by :=
                         (if rc_kill_switch_enabled (pe_controls e') then ["kill_switch"] else []) ++
                         (if _is_circuit_breaker_open t (pe_controls e')
                          then ["circuit_breaker"] else []) |} /\
    pd_blocked_by d = _merge_blocked (pd_core d) (pd_guards d) (pd_controls d) /\
    pd_allowed d = no_block (pd_blocked_by d).
Proof.
  unfold evaluate. intros H. destruct (_ ≫= _) as [[core guards]|] eqn:Ecg; [|done]. res_inv.
  unfold evaluate_order_allowed, with_now in H.
  destruct (_to_utc clock now) as [t|] eqn:Et; [|done]. cbv beta iota zeta in H.
  destruct (record_policy_decision _ _ _ _ _ _) as [s1 [[]|]] eqn:Er; [|done].
  injection H as <- <-. exists t. simpl. repeat split; try done.
  f_equal. by destruct (rc_kill_switch_enabled _), (_is_circuit_breaker_open _ _).
Qed.
End decisions.

(** The policy is the conjunction of its parts: whenever a decision is
    returned (with any sink), the order is allowed exactly when the core
    rules, the portfolio guards and the controls all allow it, and the reasons
    listed are the reasons of the parts, each once. *)
Theorem decision_is_conjunction {S} `{!RiskObservabilitySink S}
    clock order pos snap peak exposure now tid did sid (e e' : RiskPolicyEngine S) d :
  evaluate clock order pos snap peak exposure now tid did sid e = (e', Ok d) ->
  pd_allowed d = RiskRules.ce_allowed (pd_core d) && RiskGuards.ge_allowed (pd_guards d) &&
                 rg_allowed (pd_controls d) /\
  NoDup (pd_blocked_by d) /\
  forall x, x ∈ pd_blocked_by d <->
    x ∈ RiskRules.ce_blocked_by (pd_core d) \/ x ∈ RiskGuards.ge_blocked_by (pd_guards d) \/
    x ∈ rg_blocked_by (pd_controls d).
Proof.
  intros H. destruct (decision_inv _ _ _ _ _ _ _ _ _ _ _ _ _ H) as (t & Hc & Hg & _ & _ & Hct & Hb & Ha).
  destruct (merge_blocked_spec (pd_core d) (pd_guards d) (pd_controls d)) as [Hnd Hin].
  rewrite <- Hb in Hnd, Hin. split; [|done].
  rewrite Ha, (core_allowed _ _ _ _ _ _ _ _ Hc), (guards_allowed _ _ _ _ _ Hg).
  assert (Hco : rg_allowed (pd_controls d) = no_block (rg_blocked_by (pd_controls d))).
  { rewrite Hct. simpl. by destruct (rc_kill_switch_enabled _), (_is_circuit_breaker_open _ _). }
  rewrite Hco. apply eq_true_iff_eq. rewrite !andb_true_iff, !no_block_true.
  split.
  - intros E. rewrite E in Hin.
    assert (Hn : forall l : list string, (forall x, x ∈ l -> x ∈ ([] : list string)) -> l = []).
    { intros [|y l] Hl; [done|]. exfalso. apply (not_elem_of_nil y), Hl. left. }
    repeat split; apply Hn; intros x Hx; apply Hin; auto.
  - intros [[E1 E2] E3]. rewrite E1, E2, E3 in Hin. destruct (pd_blocked_by d) as [|y l]; [done|].
    exfalso. destruct (proj1 (Hin y) ltac:(left)) as [Hy|[Hy|Hy]]; by apply elem_of_nil in Hy.
Qed.

(** C2. No order gets through a closed gate or over a limit: when the policy
    allows an order, the kill switch is off and the breaker is not open at the
    time of the decision; the drawdown [(peak - equity) / peak] of the snapshot's
    total balance from the given peak is not above its limit (measured when the
    peak is above [1e-9]); the loss the snapshot has realised is not above the
    limit called daily, which the engine applies to the realised profit and loss
    of the whole account, as it is never given that of the day; and (for
    an order on the exchanges' grid) the position and the notional the order would
    lead to are within theirs, exactly. *)
Theorem allowed_orders_are_safe {S} `{!RiskObservabilitySink S}
    clock order pos snap peak exposure tid did sid (e e' : RiskPolicyEngine S) d q :
  evaluate clock order pos snap peak exposure None tid did sid e = (e', Ok d) ->
  pd_allowed d = true ->
  RiskRules.quoted order -> isdec 8 (RiskRules.held pos) q ->
  (Qabs q + Qabs (RiskRules.order_delta order) < p10 5)%Q ->
  rc_kill_switch_enabled (pe_controls e) = false /\
  _is_circuit_breaker_open clock (pe_controls e) = false /\
  (fltb RiskGuards._EPSILON peak = true ->
   fltb (RiskGuards.gc_max_drawdown_pct (pc_guards (pe_config e)))
        (fdiv (fsub peak (float_of_dec (sn_total_balance_usd snap))) peak) = false) /\
  fltb (RiskGuards.gc_max_daily_loss_usd (pc_guards (pe_config e)))
       (fneg (float_of_dec (sn_realized_pnl_total snap))) = false /\
  RiskRules.within (Qabs (q + RiskRules.order_delta order))
       (RiskRules.cc_max_position_abs (pc_core (pe_config e))) = true /\
  RiskRules.within (Qabs (q + RiskRules.order_delta order) * RiskRules.order_price order)
       (RiskRules.cc_max_symbol_notional_usd (pc_core (pe_config e))) = true.
Proof.
  intros H Hal Hq Vh Hb.
  destruct (decision_inv _ _ _ _ _ _ _ _ _ _ _ _ _ H) as (t & Hc & Hg & Ht & Hctl & Hct & Hbl & Ha).
  rewrite Ha, no_block_true in Hal.
  destruct (merge_blocked_spec (pd_core d) (pd_guards d) (pd_controls d)) as [_ Hin].
  rewrite <- Hbl, Hal in Hin.
  assert (Hno : forall x, (x ∉ RiskRules.ce_blocked_by (pd_core d)) /\
     (x ∉ RiskGuards.ge_blocked_by (pd_guards d)) /\ (x ∉ rg_blocked_by (pd_controls d))).
  { intros x. specialize (Hin x). rewrite elem_of_nil in Hin. naive_solver. }
  simpl in Ht. injection Ht as <-.
  destruct (Hno "kill_switch"%string) as (_ & _ & Hk). destruct (Hno "circuit_breaker"%string) as (_ & _ & Hcb).
  rewrite Hct in Hk, Hcb. simpl in Hk, Hcb. rewrite Hctl in Hk, Hcb.
  rewrite auto_reset_kill in Hk, Hcb.
  assert (Hkill : rc_kill_switch_enabled (pe_controls e) = false).
  { destruct (rc_kill_switch_enabled (pe_controls e)); [|done]. destruct Hk. simpl. left. }
  rewrite Hkill in Hcb. simpl in Hcb.
  assert (Hnil : forall l : list string, (forall x, x ∉ l) -> l = []).
  { intros [|y l] Hl; [done|]. destruct (Hl y). left. }
  split; [done|]. split.
  { unfold _auto_reset_if_expired, _is_circuit_breaker_open in *.
    destruct (rc_circuit_breaker_open_until (pe_controls e)) as [u|] eqn:Eu; [|done].
    destruct (clock <? u) eqn:Elt; [|done]. rewrite Eu, Elt in Hcb. destruct Hcb. left. }
  destruct (RiskGuards.allowed_measures _ _ _ _ _ Hg) as [Hdd Hloss].
  { rewrite (guards_allowed _ _ _ _ _ Hg), (Hnil (RiskGuards.ge_blocked_by (pd_guards d))); [done|]. intros x. apply Hno. }
  do 2 (split; [done|]). eapply RiskRules.allowed_within; try done.
  apply Hnil. intros x. apply Hno.
Qed.

(** Without a usable balance there is no decision: when the snapshot's
    total is not a number, evaluation raises; it never allows an order (the
    drawdown guard alone would measure a drawdown of zero). *)
Theorem nan_balance_raises {S} `{!RiskObservabilitySink S}
    clock order pos snap peak exposure now tid did sid (e : RiskPolicyEngine S) :
  sn_total_balance_usd snap = DNaN ->
  is_ok (evaluate clock order pos snap peak exposure now tid did sid e).2 = false.
Proof.
  intros Hn. destruct (evaluate _ _ _ _ _ _ _ _ _ _ e) as [e' [d|x]] eqn:E; [exfalso|done].
  destruct (decision_inv _ _ _ _ _ _ _ _ _ _ _ _ _ E) as (t & Hc & _). rewrite Hn in Hc.
  destruct (RiskRules.evaluate_inv _ _ _ _ _ _ _ _ Hc) as
    (o' & signed & b & p1 & p2 & p3 & _ & _ & _ & _ & _ & El & _).
  by vm_compute in El.
Qed.

(** The loss limits of the core configuration have no effect here: the
    policy engine evaluates the core rules without the day's result and
    without a peak, so in every decision the core rules block only on
    position, notional and leverage, never on [max_daily_loss_usd] or
    [max_drawdown_pct] of the core configuration. *)
Theorem core_loss_limits_inert {S} `{!RiskObservabilitySink S}
    clock order pos snap peak exposure now tid did sid (e e' : RiskPolicyEngine S) d :
  evaluate clock order pos snap peak exposure now tid did sid e = (e', Ok d) ->
  forall x, x ∈ RiskRules.ce_blocked_by (pd_core d) ->
    x = "position_limit"%string \/ x = "symbol_notional_limit"%string \/ x = "leverage_limit"%string.
Proof.
  intros H. destruct (decision_inv _ _ _ _ _ _ _ _ _ _ _ _ _ H) as (t & Hc & _).
  by apply (RiskRules.zero_inputs_blocked _ _ _ _ _ _ Hc).
Qed.

(** ** A concrete decision *)

Module Example.
Definition config : RiskPolicyConfig :=
  {| pc_core := RiskRules.Example.config;
     pc_guards := {| RiskGuards.gc_max_drawdown_pct := flit 2 (-1);
                     RiskGuards.gc_max_daily_loss_usd := flit 50 0 |} |}.
Definition engine : RiskPolicyEngine unit :=
  {| pe_config := config; pe_controls := RiskControls.Example.plane; pe_observability := tt |}.
Definition snap : PortfolioSnapshot := RiskGuards.flat_snapshot 1000 0.
Definition decide_buy (n : Z) : RiskPolicyEngine unit * result RiskPolicyDecision :=
  evaluate RiskControls.Example.t0 (RiskRules.Example.buy n) None snap (flit 1100 0) fzero None
    None None None engine.
End Example.

Lemma decision_is_conjunction_witness :
  exists e' d, Example.decide_buy 6 = (e', Ok d) /\ pd_allowed d = false /\ NoDup (pd_blocked_by d).
Proof.
  eexists _, _. split; [vm_compute; reflexivity|]. split; [reflexivity|].
  refine (proj1 (proj2 (decision_is_conjunction RiskControls.Example.t0 (RiskRules.Example.buy 6) None
    Example.snap (flit 1100 0) fzero None None None None Example.engine _ _ _))).
  vm_compute. reflexivity.
Defined.

Lemma allowed_orders_are_safe_witness :
  exists e' d, Example.decide_buy 5 = (e', Ok d) /\
    RiskRules.within (Qabs (0 + RiskRules.order_delta (RiskRules.Example.buy 5))) (flit 5 0) = true.
Proof.
  eexists _, _. split; [vm_compute; reflexivity|].
  refine (proj1 (proj2 (proj2 (proj2 (proj2 (allowed_orders_are_safe RiskControls.Example.t0
    (RiskRules.Example.buy 5) None Example.snap (flit 1100 0) fzero None None None Example.engine
    _ _ 0 _ _ _ _ _)))))).
  - vm_compute. reflexivity.
  - reflexivity.
  - exact (RiskRules.Example.quoted_buy 5).
  - dec_compute.
  - dec_compute.
Defined.

Lemma nan_balance_raises_witness :
  is_ok (evaluate 0 (RiskRules.Example.buy 1) None
    {| sn_snapshot_time := "t"; sn_mode := "MOCK"; sn_total_balance_usd := DNaN;
       sn_available_balance_usd := d0; sn_locked_balance_usd := d0; sn_unrealized_pnl := DNaN;
       sn_realized_pnl_total := d0 |} (flit 1100 0) fzero None None None None Example.engine).2 = false.
Proof. refine (nan_balance_raises _ _ _ _ _ _ _ _ _ _ _ _). reflexivity. Defined.

Lemma core_loss_limits_inert_witness :
  exists e' d, Example.decide_buy 6 = (e', Ok d) /\
    forall x, x ∈ RiskRules.ce_blocked_by (pd_core d) ->
      x = "position_limit"%string \/ x = "symbol_notional_limit"%string \/ x = "leverage_limit"%string.
Proof.
  eexists _, _. split; [vm_compute; reflexivity|].
  refine (core_loss_limits_inert RiskControls.Example.t0 (RiskRules.Example.buy 6) None
    Example.snap (flit 1100 0) fzero None None None None Example.engine _ _ _).
  vm_compute. reflexivity.
Defined.
