(* ===== verification/Notification.v ===== *)
(** * Notification events

    [services/notification_service/]: [models.py] (the data), [event_intake.py]
    (severity classification and normalisation), [publishers.py] (the bridge
    that turns events of other pipelines into notification envelopes). [now] is
    the clock reading of a call in microseconds, [uuid4] the integer of the
    random UUID it draws. *)

From S2P Require Import Prelude PyStr PyTime PyUuid PyVal Envelope Broker.
From stdpp Require Import options.
From Stdlib Require Import Ascii String.

#[local] Open Scope Z_scope.

(** ** Models *)

Inductive NotificationSeverity := INFO | WARNING | CRITICAL.

#[export] Instance severity_eq_dec : EqDecision NotificationSeverity.
Proof. solve_decision. Defined.

Definition severity_value (s : NotificationSeverity) : string :=
  match s with INFO => "INFO" | WARNING => "WARNING" | CRITICAL => "CRITICAL" end.

Definition severity_rank (s : NotificationSeverity) : Z :=
  match s with INFO => 1 | WARNING => 2 | CRITICAL => 3 end.

Record NotificationEvent := {
  ne_notification_event_id : string;
  ne_trace_id : string;
  ne_decision_id : string;
  ne_mode : string;
  ne_event_type : string;
  ne_severity : NotificationSeverity;
  ne_idempotency_key : string;
  ne_emitted_at : string;
  ne_service : string;
  ne_payload : dict;
}.

Record NotificationPreference := {
  np_user_id : string;
  np_min_severity : NotificationSeverity;
  np_gateways : list string;
  np_strategy_ids : list string;
  np_event_types : list string;
}.

Record NotificationMessage := {
  nm_message_id : string;
  nm_user_id : string;
  nm_gateway : string;
  nm_severity : NotificationSeverity;
  nm_title : string;
  nm_body : string;
  nm_metadata : dict;
}.

Record DeliveryResult := {
  dr_message_id : string;
  dr_gateway : string;
  dr_status : string;
  dr_attempt : Z;
  dr_detail : option string;
}.

Record NotificationProcessingResult := {
  pr_event : NotificationEvent;
  pr_messages : list NotificationMessage;
  pr_results : list DeliveryResult;
}.

(** ** Severity *)

Definition _declared_severity (payload : dict) : option NotificationSeverity :=
  match dget "severity" payload with
  | VStr declared =>
      let normalized := upper (strip declared) in
      if String.eqb normalized "INFO" then Some INFO
      else if String.eqb normalized "WARNING" then Some WARNING
      else if String.eqb normalized "CRITICAL" then Some CRITICAL
      else None
  | _ => None
  end.

Definition classify_severity (event_type : string) (payload : dict) : NotificationSeverity :=
  let lowered := lower event_type in
  let alarm := if contains "kill_switch" lowered || contains "tripped" lowered
               then CRITICAL else WARNING in
  if starts_with "risk." lowered then alarm
  else if starts_with "notify.risk." lowered then default alarm (_declared_severity payload)
  else if starts_with "system." lowered || starts_with "notify.system." lowered then CRITICAL
  else if starts_with "oms.order." lowered then
    if existsb (fun token => contains token lowered) ["rejected"; "cancel"; "expired"]
    then WARNING else INFO
  else if starts_with "agent.decision" lowered then
    if contains "rejected" lowered then WARNING else INFO
  else default INFO (_declared_severity payload).

(** ** Intake *)

Definition payload_of (e : dict) : dict := match dget "payload" e with VDict p => p | _ => [] end.

Definition normalize (envelope : val) : result NotificationEvent :=
  _ ← validate_envelope envelope;
  match envelope with
  | VDict e =>
      event_type_v ← dict_index "event_type" e;
      let event_type := py_str event_type_v in
      _ ← dict_index "payload" e;
      let payload := payload_of e in
      let severity := classify_severity event_type payload in
      key ← dict_index "idempotency_key" e;
      trace_id ← dict_index "trace_id" e;
      decision_id ← dict_index "decision_id" e;
      mode ← dict_index "mode" e;
      emitted_at ← dict_index "emitted_at" e;
      Ok {| ne_notification_event_id :=
              uuid_str (uuid5_url ("notify:" +:+ py_str key +:+ ":" +:+ event_type +:+ ":" +:+
                                   severity_value severity));
            ne_trace_id := py_str trace_id;
            ne_decision_id := py_str decision_id;
            ne_mode := py_str mode;
            ne_event_type := event_type;
            ne_severity := severity;
            ne_idempotency_key := py_str key;
            ne_emitted_at := py_str emitted_at;
            ne_service := py_str (dget_or "service" (VStr "unknown") e);
            ne_payload := payload |}
  | _ => raise TypeError "envelope is not a mapping"
  end.

(** ** The bridge *)

Record NotificationEventBridge := { nb_routing_key : string; nb_service_name : string }.

Definition default_bridge : NotificationEventBridge :=
  {| nb_routing_key := "notify.events.raw"; nb_service_name := "notification_bridge" |}.

Definition _safe_uuid (prefix value : string) : string :=
  if uuid_valid value then value else uuid_str (uuid5_url (prefix +:+ ":" +:+ value)).

Definition notification_envelope (b : NotificationEventBridge) (now uuid4 : Z)
    (notification_event_type : string) (source : dict) : dict :=
  let str_at k dflt := py_str (dget_or k (VStr dflt) source) in
  let mode := str_or (upper (strip (str_at "mode" "REAL"))) "REAL" in
  let idempotency_key := str_or (str_at "idempotency_key" "") (uuid_str uuid4) in
  let source_event_type := str_at "event_type" "unknown" in
  let payload := payload_of source in
  let severity := severity_value (classify_severity source_event_type payload) in
  [("trace_id", VStr (_safe_uuid "trace" (str_at "trace_id" "")));
   ("decision_id", VStr (_safe_uuid "decision" (str_at "decision_id" "")));
   ("mode", VStr (if bool_decide (mode ∈ ALLOWED_MODES) then mode else "REAL"));
   ("idempotency_key", VStr ("notify:" +:+ notification_event_type +:+ ":" +:+ idempotency_key));
   ("event_type", VStr notification_event_type);
   ("severity", VStr severity);
   ("emitted_at", VStr (str_at "emitted_at" (iso_z now)));
   ("payload", VDict
      [("source_event_type", VStr source_event_type);
       ("source_service", VStr (str_at "service" "unknown"));
       ("source_payload", VDict payload);
       ("severity", VStr severity)]);
   ("service", VStr (nb_service_name b))].

(** The broker as the publisher; its state is kept when a call raises. *)
Definition broker_publish (routing_key : string) (message : dict)
  : prog InMemoryTopicBroker (list PublishedMessage) :=
  fun b => match publish routing_key (VDict message) b with
           | Ok (b', l) => (b', Ok l)
           | Raise e => (b, Raise e)
           end.

Lemma broker_publish_emits k m b :
  bindings_declared b -> exists b' receipt, broker_publish k m b = (b', Ok receipt) /\ emits b b' [(k, m)].
Proof.
  intros Hd. destruct (publish_emits b k m Hd) as (b' & receipt & E & He).
  exists b', receipt. unfold broker_publish. by rewrite E.
Qed.

Definition _publish_from_source (b : NotificationEventBridge) (now uuid4 : Z)
    (notification_event_type : string) (source : dict) : prog InMemoryTopicBroker dict :=
  let envelope := notification_envelope b now uuid4 notification_event_type source in
  _ ← lift (validate_envelope (VDict envelope));
  _ ← broker_publish (nb_routing_key b) envelope;
  mret envelope.

Definition publish_strategy_event b now uuid4 source :=
  _publish_from_source b now uuid4 "notify.strategy.event" source.
Definition publish_oms_event b now uuid4 source :=
  _publish_from_source b now uuid4 "notify.oms.event" source.
Definition publish_risk_event b now uuid4 source :=
  _publish_from_source b now uuid4 "notify.risk.event" source.

Definition publish_system_health_event (b : NotificationEventBridge) (now now' uuid4 : Z)
    (trace_id mode event_type severity reason : string) (details : dict)
  : prog InMemoryTopicBroker dict :=
  let key := "system:" +:+ event_type +:+ ":" +:+ reason in
  _publish_from_source b now' uuid4 "notify.system.event"
    [("trace_id", VStr (_safe_uuid "trace" trace_id));
     ("decision_id", VStr (uuid_str (uuid5_url key)));
     ("mode", VStr mode); ("idempotency_key", VStr key); ("event_type", VStr event_type);
     ("emitted_at", VStr (iso_z now));
     ("payload", VDict [("reason", VStr reason); ("details", VDict details);
                        ("severity", VStr severity)]);
     ("service", VStr "system_health")].

(** ** What the bridge produces *)

Lemma safe_uuid_valid prefix value : uuid_valid (_safe_uuid prefix value) = true.
Proof. unfold _safe_uuid. destruct (uuid_valid value) eqn:E; [done|]. apply uuid_str_valid. Qed.

Lemma safe_uuid_id prefix value : uuid_valid value = true -> _safe_uuid prefix value = value.
Proof. unfold _safe_uuid. by intros ->. Qed.

Lemma mode_or_real_allowed (m : string) :
  (if bool_decide (m ∈ ALLOWED_MODES) then m else "REAL"%string) ∈ ALLOWED_MODES.
Proof. case_bool_decide; [done|]. unfold ALLOWED_MODES. set_solver. Qed.

#[export] Hint Resolve safe_uuid_valid mode_or_real_allowed : envelope.

(** The envelope of any source is valid as soon as its time stamp is. *)
Lemma notification_envelope_wf b now uuid4 net source :
  strip net <> ""%string ->
  valid_stamp (py_str (dget_or "emitted_at" (VStr (iso_z now)) source)) = true ->
  well_formed (notification_envelope b now uuid4 net source).
Proof. intros Hn Hs. unfold notification_envelope. wf_envelope. Qed.

(** The severity the bridge writes is the one intake reads back. *)
Definition BRIDGED_TYPES : list string :=
  ["notify.strategy.event"; "notify.oms.event"; "notify.risk.event"].

Lemma bridged_severity net b now uuid4 source :
  net ∈ BRIDGED_TYPES ->
  classify_severity net (payload_of (notification_envelope b now uuid4 net source)) =
  classify_severity (py_str (dget_or "event_type" (VStr "unknown") source)) (payload_of source).
Proof.
  intros Hn. unfold notification_envelope, payload_of, dget at 1. cbn [dict_get String.eqb Ascii.eqb Bool.eqb default].
  remember (classify_severity (py_str (dget_or "event_type" (VStr "unknown") source)) _) as s.
  unfold BRIDGED_TYPES in Hn. rewrite !elem_of_cons, elem_of_nil in Hn.
  destruct Hn as [->|[->|[->|[]]]]; destruct s; reflexivity.
Qed.

Lemma normalize_ok e :
  well_formed e ->
  exists ev, normalize (VDict e) = Ok ev /\
    ne_event_type ev = py_str (dget "event_type" e) /\ ne_payload ev = payload_of e /\
    ne_severity ev = classify_severity (py_str (dget "event_type" e)) (payload_of e) /\
    ne_trace_id ev = py_str (dget "trace_id" e) /\ ne_decision_id ev = py_str (dget "decision_id" e) /\
    ne_mode ev = py_str (dget "mode" e) /\ ne_idempotency_key ev = py_str (dget "idempotency_key" e).
Proof.
  intros Hw. unfold normalize. rewrite well_formed_validates by done.
  destruct Hw as [(t & T & _) (d & D & _) (m & M & _) (k & K & _) (et & E & _) (st & S & _) (p & P)].
  cbn [mbind result_bind]. unfold dict_index, dget. rewrite T, D, M, K, E, S, P.
  cbn [mbind result_bind default]. eexists. split; [reflexivity|]. repeat (split; [reflexivity|]). reflexivity.
Qed.

Lemma publish_from_source_ok b now uuid4 net source br :
  bindings_declared br -> strip net <> ""%string ->
  valid_stamp (py_str (dget_or "emitted_at" (VStr (iso_z now)) source)) = true ->
  let env := notification_envelope b now uuid4 net source in
  exists br', _publish_from_source b now uuid4 net source br = (br', Ok env) /\
    well_formed env /\ bindings_declared br' /\
    (forall q (l : list dict), bound br (nb_routing_key b) q -> br_queues br !! q = Some l ->
       br_queues br' !! q = Some (l ++ [env])) /\
    (forall q, ~ bound br (nb_routing_key b) q -> br_queues br' !! q = br_queues br !! q).
Proof.
  intros Hd Hn Hs env. pose proof (notification_envelope_wf b now uuid4 net source Hn Hs) as Hw.
  destruct (publish_spec br (nb_routing_key b) env Hd) as (br' & receipt & E & Hd' & _ & _ & Hq & Hn' & _).
  exists br'. split; [|done]. unfold _publish_from_source. fold env. unfold mbind, prog_bind, lift, mret, prog_ret.
  rewrite well_formed_validates by done. unfold broker_publish. by rewrite E.
Qed.

(** Nothing is lost between the bridge and the notification intake: for
    every event of the strategy, OMS or risk pipelines whose time stamp is
    valid (or missing), whatever else it holds, the bridge succeeds, appends
    one valid envelope to each queue bound to its routing key, and the intake
    accepts that envelope and recovers from it the severity the source event
    itself deserves, its payload, and its trace and decision ids when they are
    UUIDs. *)
Theorem bridge_intake_roundtrip b now uuid4 net source br :
  bindings_declared br -> net ∈ BRIDGED_TYPES ->
  valid_stamp (py_str (dget_or "emitted_at" (VStr (iso_z now)) source)) = true ->
  exists br' env ev, _publish_from_source b now uuid4 net source br = (br', Ok env) /\
    (forall q (l : list dict), bound br (nb_routing_key b) q -> br_queues br !! q = Some l ->
       br_queues br' !! q = Some (l ++ [env])) /\
    (forall q, ~ bound br (nb_routing_key b) q -> br_queues br' !! q = br_queues br !! q) /\
    normalize (VDict env) = Ok ev /\
    ne_severity ev =
      classify_severity (py_str (dget_or "event_type" (VStr "unknown") source)) (payload_of source) /\
    dget "source_payload" (ne_payload ev) = VDict (payload_of source) /\
    (forall t, dict_get "trace_id" source = Some (VStr t) -> uuid_valid t = true -> ne_trace_id ev = t) /\
    (forall d, dict_get "decision_id" source = Some (VStr d) -> uuid_valid d = true -> ne_decision_id ev = d).
Proof.
  intros Hd Hn Hs. assert (Hstrip : strip net <> ""%string).
  { unfold BRIDGED_TYPES in Hn. rewrite !elem_of_cons, elem_of_nil in Hn.
    destruct Hn as [->|[->|[->|[]]]]; auto with envelope. }
  destruct (publish_from_source_ok b now uuid4 net source br Hd Hstrip Hs) as (br' & E & Hw & _ & Hq & Hn').
  destruct (normalize_ok _ Hw) as (ev & Ev & _ & Hp & Hsev & Ht & Hdc & _).
  exists br', (notification_envelope b now uuid4 net source), ev.
  split; [exact E|]. split; [exact Hq|]. split; [exact Hn'|]. split; [exact Ev|].
  split; [rewrite Hsev; apply (bridged_severity net b now uuid4 source Hn)|].
  split; [by rewrite Hp|]. split.
  - intros t T V. rewrite Ht. unfold notification_envelope, dget at 1, dget_or. rewrite T. simpl.
    by apply safe_uuid_id.
  - intros d D V. rewrite Hdc. unfold notification_envelope, dget at 1, dget_or. rewrite D. simpl.
    by apply safe_uuid_id.
Qed.

(** ** A concrete event *)

Module Example.
Definition trace : string := "11111111-1111-4111-8111-111111111111".
(** A cancellation without decision id or time stamp. *)
Definition cancelled : dict :=
  [("trace_id", VStr trace); ("event_type", VStr "oms.order.cancelled"); ("mode", VStr " mock ");
   ("payload", VDict [("order_id", VStr "o-1")])].
Definition now : Z := 1000000.
End Example.

Lemma bridge_intake_roundtrip_witness :
  exists br' env ev,
    _publish_from_source default_bridge Example.now 7 "notify.oms.event" Example.cancelled empty_broker =
      (br', Ok env) /\
    normalize (VDict env) = Ok ev /\ ne_severity ev = WARNING /\ ne_trace_id ev = Example.trace /\
    dget "mode" env = VStr "MOCK".
Proof.
  destruct (bridge_intake_roundtrip default_bridge Example.now 7 "notify.oms.event" Example.cancelled
              empty_broker) as (br' & env & ev & E & _ & _ & Ev & Hs & _ & Ht & _).
  - intros p s q H. unfold empty_broker in H. cbn [br_bindings] in H. by rewrite lookup_empty in H.
  - unfold BRIDGED_TYPES. set_solver.
  - vm_compute. reflexivity.
  - exists br', env, ev. split; [exact E|]. split; [exact Ev|]. split; [rewrite Hs; reflexivity|].
    split; [apply Ht; [reflexivity|vm_compute; reflexivity]|].
    vm_compute in E. injection E as _ <-. reflexivity.
Defined.
