(* ===== verification/RiskObservability.v ===== *)
(** * Risk observability

    [services/oms/risk_observability.py]: the collector that the risk policy
    engine reports to, an instance of its sink interface. The collector reads
    the clock and draws random UUIDs while it records; those readings are
    streams of its environment, [oc_clock] and [oc_uuid4], and [oc_ticks] and
    [oc_draws] count how far they have been read. *)

From S2P Require Import Prelude PyStr PyFloat PyDecimal PyTime PyUuid PyVal Envelope.
From S2P Require Import Notification RiskControls RiskPolicy.
From S2P Require RiskRules RiskGuards PortfolioSnapshot PositionEngine.
From stdpp Require Import options.
From Stdlib Require Import Ascii String.

#[local] Open Scope Z_scope.

Definition _CRITICAL_BLOCKERS : list string := ["kill_switch"; "circuit_breaker"].
Definition _WARNING_BLOCKERS : list string :=
  ["position_limit"; "symbol_notional_limit"; "leverage_limit"; "drawdown_limit"; "daily_loss_limit"].

Record RiskObservabilityEvent := {
  oe_event_type : string;
  oe_severity : string;
  oe_occurred_at : string;
  oe_trace_id : option string;
  oe_decision_id : option string;
  oe_strategy_id : option string;
  oe_metadata : dict;
}.

Record RiskObservabilityCollector := {
  oc_evaluations_total : Z;
  oc_allowed_total : Z;
  oc_denied_total : Z;
  oc_control_events_total : Z;
  oc_blocked_by : gmap string Z;
  oc_control_events : gmap string Z;
  oc_events : list RiskObservabilityEvent;
  oc_notification_events : list dict;
  oc_clock : nat -> Z;
  oc_ticks : nat;
  oc_uuid4 : nat -> Z;
  oc_draws : nat;
}.

Definition collector_init (clock uuid4 : nat -> Z) : RiskObservabilityCollector :=
  {| oc_evaluations_total := 0; oc_allowed_total := 0; oc_denied_total := 0; oc_control_events_total := 0;
     oc_blocked_by := ∅; oc_control_events := ∅; oc_events := []; oc_notification_events := [];
     oc_clock := clock; oc_ticks := 0; oc_uuid4 := uuid4; oc_draws := 0 |}.

Definition _policy_severity (blocked_by : list string) : string :=
  match blocked_by with
  | [] => "INFO"
  | _ => if existsb (fun b => bool_decide (b ∈ _CRITICAL_BLOCKERS)) blocked_by then "CRITICAL"
         else if existsb (fun b => bool_decide (b ∈ _WARNING_BLOCKERS)) blocked_by then "WARNING"
         else "WARNING"
  end.

Definition _control_severity (event_type : string) : string :=
  if bool_decide (event_type ∈ ["risk.kill_switch.enabled"; "risk.circuit_breaker.tripped"]%string)
  then "CRITICAL"
  else if String.eqb event_type "risk.circuit_breaker.failure_recorded" then "WARNING" else "INFO".

(** [_safe_uuid(value, namespace=...)] of this module: [None] and the empty
    string are named [none]. *)
Definition _safe_uuid (namespace : string) (value : option string) : string :=
  let named := match value with Some v => str_or v "none" | None => "none" end in
  match value with
  | Some v => if negb (is_empty v) && uuid_valid v then v
              else uuid_str (uuid5_url (namespace +:+ ":" +:+ named))
  | None => uuid_str (uuid5_url (namespace +:+ ":" +:+ named))
  end.

Definition risk_envelope (uuid4 : Z) (event : RiskObservabilityEvent) (mode : string) (payload : dict)
  : dict :=
  let decision_id := _safe_uuid "risk-decision" (oe_decision_id event) in
  [("trace_id", VStr (_safe_uuid "risk-trace" (oe_trace_id event))); ("decision_id", VStr decision_id);
   ("mode", VStr (if bool_decide (mode ∈ ALLOWED_MODES) then mode else "REAL"));
   ("idempotency_key", VStr ("notify:risk:" +:+ oe_event_type event +:+ ":" +:+ decision_id +:+ ":" +:+
                             oe_occurred_at event +:+ ":" +:+ uuid_str uuid4));
   ("event_type", VStr "notify.risk.event"); ("severity", VStr (oe_severity event));
   ("emitted_at", VStr (oe_occurred_at event)); ("payload", VDict payload);
   ("service", VStr "risk_observability")].

Definition bump (key : string) (m : gmap string Z) : gmap string Z :=
  <[key := default 0 (m !! key) + 1]> m.

Definition set_counts (evaluations allowed denied control : Z) (blocked control_events : gmap string Z)
    (c : RiskObservabilityCollector) : RiskObservabilityCollector :=
  {| oc_evaluations_total := evaluations; oc_allowed_total := allowed; oc_denied_total := denied;
     oc_control_events_total := control; oc_blocked_by := blocked; oc_control_events := control_events;
     oc_events := oc_events c; oc_notification_events := oc_notification_events c;
     oc_clock := oc_clock c; oc_ticks := oc_ticks c; oc_uuid4 := oc_uuid4 c; oc_draws := oc_draws c |}.
Definition set_logs (events : list RiskObservabilityEvent) (notifications : list dict)
    (ticks draws : nat) (c : RiskObservabilityCollector) : RiskObservabilityCollector :=
  {| oc_evaluations_total := oc_evaluations_total c; oc_allowed_total := oc_allowed_total c;
     oc_denied_total := oc_denied_total c; oc_control_events_total := oc_control_events_total c;
     oc_blocked_by := oc_blocked_by c; oc_control_events := oc_control_events c;
     oc_events := events; oc_notification_events := notifications;
     oc_clock := oc_clock c; oc_ticks := ticks; oc_uuid4 := oc_uuid4 c; oc_draws := draws |}.

(** [self._notification_events.append(_build_notification_envelope(...))] *)
Definition notify (event : RiskObservabilityEvent) (mode : string) (payload : dict)
  : prog RiskObservabilityCollector unit := fun c =>
  let envelope := risk_envelope (oc_uuid4 c (oc_draws c)) event mode payload in
  let drawn n := set_logs (oc_events c) n (oc_ticks c) (S (oc_draws c)) c in
  match validate_envelope (VDict envelope) with
  | Ok _ => (drawn (oc_notification_events c ++ [envelope]), Ok tt)
  | Raise e => (drawn (oc_notification_events c), Raise e)
  end.

Definition num_val (n : pynum) : val :=
  match n with PInt k => VInt k | PFloat x => VFloat x | PDec d => VDec d end.
Definition opt_str (s : option string) : val := match s with Some x => VStr x | None => VNone end.
Definition strs (l : list string) : val := VList (VStr <$> l).

Definition count_decision (decision : RiskPolicyDecision) (c : RiskObservabilityCollector)
  : RiskObservabilityCollector :=
  if pd_allowed decision then
    set_counts (oc_evaluations_total c + 1) (oc_allowed_total c + 1) (oc_denied_total c)
      (oc_control_events_total c) (oc_blocked_by c) (oc_control_events c) c
  else
    set_counts (oc_evaluations_total c + 1) (oc_allowed_total c) (oc_denied_total c + 1)
      (oc_control_events_total c) (foldl (fun m reason => bump reason m) (oc_blocked_by c)
        (pd_blocked_by decision)) (oc_control_events c) c.

Definition decision_event (now : Z) (trace_id decision_id strategy_id : option string)
    (order : RiskRules.ProposedOrder) (decision : RiskPolicyDecision) : RiskObservabilityEvent :=
  {| oe_event_type := if pd_allowed decision then "risk.policy.allowed" else "risk.policy.denied";
     oe_severity := _policy_severity (pd_blocked_by decision);
     oe_occurred_at := iso_z now;
     oe_trace_id := trace_id; oe_decision_id := decision_id; oe_strategy_id := strategy_id;
     oe_metadata :=
       [("mode", VStr (RiskRules.po_mode order)); ("symbol", VStr (RiskRules.po_symbol order));
        ("side", VStr (RiskRules.po_side order)); ("quantity", num_val (RiskRules.po_quantity order));
        ("price", num_val (RiskRules.po_price order)); ("blocked_by", strs (pd_blocked_by decision));
        ("projected_position_qty", VDec (RiskRules.ce_projected_position_qty (pd_core decision)));
        ("projected_symbol_notional_usd",
          VDec (RiskRules.ce_projected_symbol_notional_usd (pd_core decision)));
        ("projected_leverage", VDec (RiskRules.ce_projected_leverage (pd_core decision)));
        ("drawdown_pct", VFloat (RiskGuards.ge_drawdown_pct (pd_guards decision)));
        ("daily_loss_usd", VFloat (RiskGuards.ge_daily_loss_usd (pd_guards decision)))] |}.

Definition collect_decision (trace_id decision_id strategy_id : option string)
    (order : RiskRules.ProposedOrder) (decision : RiskPolicyDecision)
  : prog RiskObservabilityCollector unit := fun c0 =>
  let c := count_decision decision c0 in
  let event := decision_event (oc_clock c (oc_ticks c)) trace_id decision_id strategy_id order decision in
  let c1 := set_logs (oc_events c ++ [event]) (oc_notification_events c) (S (oc_ticks c)) (oc_draws c) c in
  if pd_allowed decision then (c1, Ok tt)
  else notify event (RiskRules.po_mode order)
         [("source_event_type", VStr (oe_event_type event)); ("blocked_by", strs (pd_blocked_by decision));
          ("strategy_id", opt_str strategy_id); ("symbol", VStr (RiskRules.po_symbol order));
          ("severity", VStr (oe_severity event))] c1.

Definition control_event (event : RiskControlEvent) : RiskObservabilityEvent :=
  {| oe_event_type := "risk.control." +:+ rv_event_type event;
     oe_severity := _control_severity (rv_event_type event);
     oe_occurred_at := rv_occurred_at event;
     oe_trace_id := None; oe_decision_id := None; oe_strategy_id := None;
     oe_metadata :=
       [("control", VStr (rv_control event)); ("status", VStr (rv_status event));
        ("reason", VStr (rv_reason event)); ("actor", VStr (rv_actor event));
        ("metadata", VDict (rv_metadata event))] |}.

Definition collect_control_event (event : RiskControlEvent) : prog RiskObservabilityCollector unit :=
  fun c0 =>
  let c := set_counts (oc_evaluations_total c0) (oc_allowed_total c0) (oc_denied_total c0)
             (oc_control_events_total c0 + 1) (oc_blocked_by c0)
             (bump (rv_event_type event) (oc_control_events c0)) c0 in
  let observed := control_event event in
  notify observed "REAL"
    [("source_event_type", VStr (rv_event_type event)); ("control", VStr (rv_control event));
     ("status", VStr (rv_status event)); ("reason", VStr (rv_reason event));
     ("actor", VStr (rv_actor event)); ("severity", VStr (_control_severity (rv_event_type event)))]
    (set_logs (oc_events c ++ [observed]) (oc_notification_events c) (oc_ticks c) (oc_draws c) c).

Definition collect_control_events (events : list RiskControlEvent)
  : prog RiskObservabilityCollector unit := for_each collect_control_event events.

Definition drain_events (c : RiskObservabilityCollector)
  : RiskObservabilityCollector * list RiskObservabilityEvent :=
  (set_logs [] (oc_notification_events c) (oc_ticks c) (oc_draws c) c, oc_events c).

(** The queue is only cleared once every envelope has been checked. *)
Definition drain_notification_events (mode : string) : prog RiskObservabilityCollector (list dict) :=
  fun c =>
  let normalized_mode := upper (strip mode) in
  if negb (bool_decide (normalized_mode ∈ ALLOWED_MODES))
  then (c, raise ValueError "mode must be MOCK or REAL")
  else
    match map_res (fun envelope : dict =>
            let current := dict_set "mode" (VStr normalized_mode) envelope in
            _ ← validate_envelope (VDict current); Ok current) (oc_notification_events c) with
    | Raise e => (c, Raise e)
    | Ok drained => (set_logs (oc_events c) [] (oc_ticks c) (oc_draws c) c, Ok drained)
    end.

(** ** The collector implements the sink interface *)

#[export] Instance collector_sink : RiskObservabilitySink RiskObservabilityCollector := {
  record_policy_decision := collect_decision;
  record_control_events := collect_control_events;
}.

(** What a client of a sink can rely on: in the states of an invariant,
    recording never raises and keeps the invariant. *)
Class ReliableSink (S : Type) `{!RiskObservabilitySink S} (inv : S -> Prop) := {
  records_decision : forall t d st order decision s, inv s ->
    exists s', record_policy_decision t d st order decision s = (s', Ok tt) /\ inv s';
  records_control_events : forall events s, inv s ->
    Forall (fun ev => valid_stamp (rv_occurred_at ev) = true) events ->
    exists s', record_control_events events s = (s', Ok tt) /\ inv s';
}.

#[export] Instance no_sink_reliable : ReliableSink unit (fun _ => True).
Proof. split; intros; by exists s. Qed.

(** The collector's invariant: the clock is a clock, every evaluation is counted
    as allowed or denied, and every pending notification is a valid envelope. *)
Definition collector_inv (c : RiskObservabilityCollector) : Prop :=
  (forall k, in_range (oc_clock c k) = true) /\
  oc_evaluations_total c = oc_allowed_total c + oc_denied_total c /\
  Forall well_formed (oc_notification_events c).

Lemma risk_safe_uuid_valid ns v : uuid_valid (_safe_uuid ns v) = true.
Proof.
  unfold _safe_uuid. destruct v as [v|]; [|apply uuid_str_valid].
  destruct (negb (is_empty v) && uuid_valid v) eqn:E; [|apply uuid_str_valid]. by bool_hyps.
Qed.
#[export] Hint Resolve risk_safe_uuid_valid : envelope.

Lemma risk_envelope_wf uuid4 event mode payload :
  valid_stamp (oe_occurred_at event) = true -> well_formed (risk_envelope uuid4 event mode payload).
Proof. intros Hs. unfold risk_envelope. wf_envelope. Qed.

Lemma notify_spec event mode payload c :
  valid_stamp (oe_occurred_at event) = true -> collector_inv c ->
  exists c', notify event mode payload c = (c', Ok tt) /\ collector_inv c' /\
    oc_notification_events c' =
      oc_notification_events c ++ [risk_envelope (oc_uuid4 c (oc_draws c)) event mode payload] /\
    oc_evaluations_total c' = oc_evaluations_total c /\ oc_allowed_total c' = oc_allowed_total c /\
    oc_denied_total c' = oc_denied_total c /\ oc_events c' = oc_events c.
Proof.
  intros Hs (Hc & Ht & Hn). pose proof (risk_envelope_wf (oc_uuid4 c (oc_draws c)) event mode payload Hs) as Hw.
  unfold notify. rewrite well_formed_validates by done. eexists. split; [reflexivity|].
  split; [|done]. split; [done|]. split; [done|]. simpl. apply Forall_app. split; [done|]. by apply Forall_singleton.
Qed.

(** Recording a decision. *)
Lemma collect_decision_spec t d st order decision c :
  collector_inv c ->
  exists c' new, collect_decision t d st order decision c = (c', Ok tt) /\ collector_inv c' /\
    oc_evaluations_total c' = oc_evaluations_total c + 1 /\
    oc_denied_total c' = oc_denied_total c + (if pd_allowed decision then 0 else 1) /\
    oc_notification_events c' = oc_notification_events c ++ new /\
    List.length new = (if pd_allowed decision then 0 else 1)%nat.
Proof.
  intros (Hc & Ht & Hn). unfold collect_decision.
  set (event := decision_event _ _ _ _ _ _).
  assert (Hs : valid_stamp (oe_occurred_at event) = true).
  { apply valid_stamp_iso. unfold count_decision. destruct (pd_allowed decision); apply Hc. }
  assert (Hinv : collector_inv (set_logs (oc_events (count_decision decision c) ++ [event])
    (oc_notification_events (count_decision decision c)) (S (oc_ticks (count_decision decision c)))
    (oc_draws (count_decision decision c)) (count_decision decision c))).
  { unfold count_decision. destruct (pd_allowed decision); (split; [done|]; split; [simpl; lia|done]). }
  destruct (pd_allowed decision) eqn:Ea.
  - eexists _, []. split; [reflexivity|]. split; [exact Hinv|]. unfold count_decision. rewrite Ea. simpl.
    rewrite app_nil_r. repeat split; lia.
  - edestruct (notify_spec event (RiskRules.po_mode order)) as (c' & E & Hi & En & Ee & _ & Ed & _);
      [exact Hs|exact Hinv|].
    eexists c', [_]. split; [exact E|]. split; [exact Hi|]. rewrite En, Ee, Ed. unfold count_decision.
    rewrite Ea. simpl. repeat split; lia.
Qed.

Lemma collect_control_events_spec events c :
  collector_inv c -> Forall (fun ev => valid_stamp (rv_occurred_at ev) = true) events ->
  exists c', collect_control_events events c = (c', Ok tt) /\ collector_inv c'.
Proof.
  intros Hi Hs. revert c Hi. induction Hs as [|ev events Hev _ IH]; intros c (Hc & Ht & Hn); [by exists c|].
  unfold collect_control_events. cbn [for_each]. unfold mbind, prog_bind.
  assert (H1 : exists c1, collect_control_event ev c = (c1, Ok tt) /\ collector_inv c1).
  { unfold collect_control_event.
    edestruct (notify_spec (control_event ev) "REAL") as (c1 & E & H1 & _); [exact Hev| |].
    2: { exists c1. split; [exact E|exact H1]. }
    split; [done|]. split; [done|done]. }
  destruct H1 as (c1 & -> & H1). by apply IH.
Qed.

#[export] Instance collector_reliable : ReliableSink RiskObservabilityCollector collector_inv.
Proof.
  split.
  - intros t d st order decision c Hi.
    destruct (collect_decision_spec t d st order decision c Hi) as (c' & _ & E & Hi' & _). by exists c'.
  - intros events c Hi Hs. by apply collect_control_events_spec.
Qed.

(** ** Observability is transparent *)

Lemma evaluate_reliable {S} `{!RiskObservabilitySink S} inv `{!ReliableSink S inv}
    clock order position snapshot peak exposure now t d st (e : RiskPolicyEngine S) :
  inv (pe_observability e) ->
  let e0 := {| pe_config := pe_config e; pe_controls := pe_controls e; pe_observability := tt |} in
  let '(e', r) := evaluate clock order position snapshot peak exposure now t d st e in
  let '(e0', r0) := evaluate clock order position snapshot peak exposure now t d st e0 in
  r = r0 /\ pe_controls e' = pe_controls e0' /\ pe_config e' = pe_config e /\ inv (pe_observability e') /\
  match r with
  | Ok decision =>
      record_policy_decision t d st order decision (pe_observability e) = (pe_observability e', Ok tt)
  | Raise _ => pe_observability e' = pe_observability e
  end.
Proof.
  intros Hi e0. unfold evaluate, e0.
  cbn [pe_config pe_controls pe_observability set_state record_policy_decision no_sink].
  destruct (core ← RiskRules.evaluate _ _ _ _ _ _ _; _) as [[core guards]|x]; [|done].
  destruct (evaluate_order_allowed clock now (pe_controls e)) as [p1 [controls|x]]; [|done].
  edestruct (records_decision t d st order) as (s' & E & Hs'); [exact Hi|]. rewrite E.
  cbn [mbind result_bind pe_config pe_controls pe_observability set_state]. done.
Qed.

(** Telemetry never changes a risk decision. With the collector attached,
    the policy engine returns exactly what it returns without one, decision or
    exception, and leaves the control plane in the same state; and the
    collector keeps its books: each decision counts one evaluation, a denial
    also one denied order and one valid notification envelope, an exception
    nothing. *)
Theorem collector_transparent clock order position snapshot peak exposure now t d st
    (e : RiskPolicyEngine RiskObservabilityCollector) :
  collector_inv (pe_observability e) ->
  let c := pe_observability e in
  let e0 := {| pe_config := pe_config e; pe_controls := pe_controls e; pe_observability := tt |} in
  let '(e', r) := evaluate clock order position snapshot peak exposure now t d st e in
  let '(e0', r0) := evaluate clock order position snapshot peak exposure now t d st e0 in
  let c' := pe_observability e' in
  r = r0 /\ pe_controls e' = pe_controls e0' /\
  match r with
  | Ok decision =>
      oc_evaluations_total c' = oc_evaluations_total c + 1 /\
      oc_denied_total c' = oc_denied_total c + (if pd_allowed decision then 0 else 1) /\
      oc_evaluations_total c' = oc_allowed_total c' + oc_denied_total c' /\
      exists new, oc_notification_events c' = oc_notification_events c ++ new /\
        List.length new = (if pd_allowed decision then 0 else 1)%nat /\ Forall well_formed new
  | Raise _ => c' = c
  end.
Proof.
  intros Hi c e0.
  pose proof (evaluate_reliable collector_inv clock order position snapshot peak exposure now t d st e Hi) as H.
  fold e0 in H. cbv zeta in H.
  destruct (evaluate clock order position snapshot peak exposure now t d st e) as [e' r].
  destruct (evaluate clock order position snapshot peak exposure now t d st e0) as [e0' r0].
  destruct H as (Er & Ec & _ & Hi' & Hm). split; [exact Er|]. split; [exact Ec|].
  destruct r as [decision|x]; [|exact Hm].
  destruct (collect_decision_spec t d st order decision (pe_observability e) Hi)
    as (c' & new & E & (_ & Ht & Hn) & He & Hd & En & Hl).
  assert (Eq : pe_observability e' = c').
  { change (record_policy_decision t d st order decision (pe_observability e)) with
      (collect_decision t d st order decision (pe_observability e)) in Hm. congruence. }
  rewrite Eq. repeat (split; [assumption|]). exists new. split; [exact En|]. split; [exact Hl|].
  rewrite En in Hn. by apply Forall_app in Hn as [_ ?].
Qed.

(** ** Draining *)

Lemma with_mode_wf m e : m ∈ ALLOWED_MODES -> well_formed e -> well_formed (dict_set "mode" (VStr m) e).
Proof.
  intros Hm [T D _ K E S P]. split; rewrite ?dict_get_set_ne by done; try done.
  exists m. by rewrite dict_get_set_eq.
Qed.

(** Draining is complete: for a supported mode, in any spelling, draining
    returns every pending notification, in order, as a valid envelope that
    differs only in carrying that mode, and leaves none pending; for any other
    mode it raises and keeps them all. *)
Theorem drain_complete mode c :
  collector_inv c ->
  drain_notification_events mode c =
    if bool_decide (upper (strip mode) ∈ ALLOWED_MODES)
    then (set_logs (oc_events c) [] (oc_ticks c) (oc_draws c) c,
          Ok (dict_set "mode" (VStr (upper (strip mode))) <$> oc_notification_events c))
    else (c, raise ValueError "mode must be MOCK or REAL").
Proof.
  intros (_ & _ & Hn). unfold drain_notification_events. case_bool_decide as Hm; [|done]. cbn [negb].
  assert (E : map_res (fun envelope : dict =>
      let current := dict_set "mode" (VStr (upper (strip mode))) envelope in
      _ ← validate_envelope (VDict current); Ok current) (oc_notification_events c) =
    Ok (dict_set "mode" (VStr (upper (strip mode))) <$> oc_notification_events c)).
  { induction Hn as [|e l He _ IH]; [done|]. cbn [map_res]. cbv zeta in IH |- *.
    rewrite well_formed_validates by (by apply with_mode_wf). cbn [mbind result_bind]. by rewrite IH. }
  cbv zeta in E |- *. by rewrite E.
Qed.

(** ** A concrete denial *)

Module Example.
Definition collector : RiskObservabilityCollector :=
  collector_init (fun _ => 63850000000000000) (fun k => Z.of_nat k).
Definition engine : RiskPolicyEngine RiskObservabilityCollector :=
  {| pe_config := pe_config RiskPolicy.Example.engine; pe_controls := pe_controls RiskPolicy.Example.engine;
     pe_observability := collector |}.
(** Six units against a position limit of five. *)
Definition denied : RiskPolicyEngine RiskObservabilityCollector * result RiskPolicyDecision :=
  evaluate RiskControls.Example.t0 (RiskRules.Example.buy 6) None RiskPolicy.Example.snap (flit 1100 0)
    fzero None None None None engine.
Lemma collector_ok : collector_inv collector.
Proof. split; [done|]. split; [done|constructor]. Qed.
End Example.

Lemma collector_transparent_witness :
  is_ok Example.denied.2 = true /\
  oc_evaluations_total (pe_observability Example.denied.1) = 1 /\
  List.length (oc_notification_events (pe_observability Example.denied.1)) = 1%nat /\
  Forall well_formed (oc_notification_events (pe_observability Example.denied.1)).
Proof.
  assert (Hok : is_ok Example.denied.2 = true) by (vm_compute; reflexivity).
  assert (Hlen : List.length (oc_notification_events (pe_observability Example.denied.1)) = 1%nat)
    by (vm_compute; reflexivity).
  split; [exact Hok|].
  pose proof (collector_transparent RiskControls.Example.t0 (RiskRules.Example.buy 6) None
    RiskPolicy.Example.snap (flit 1100 0) fzero None None None None Example.engine Example.collector_ok) as H.
  cbv zeta in H. unfold Example.denied in *.
  destruct (evaluate _ _ _ _ _ _ _ _ _ _ Example.engine) as [e' r]. cbn [fst snd] in *.
  destruct (evaluate _ _ _ _ _ _ _ _ _ _ {| pe_config := _ |}) as [e0' r0].
  destruct r as [dec|x]; [|discriminate Hok].
  destruct H as (_ & _ & He & _ & _ & new & En & _ & Hw).
  split; [exact He|]. split; [exact Hlen|]. rewrite En. exact Hw.
Defined.

Lemma drain_complete_witness :
  (drain_notification_events " mock " Example.collector).2 = Ok [].
Proof. rewrite (drain_complete " mock " Example.collector Example.collector_ok). reflexivity. Defined.
