(* ===== verification/PolicyRouter.v ===== *)
(** * Notification policy router

    [services/notification_service/policy_router.py]: who is told about an
    event, with deduplication by idempotency key and a per-minute budget for
    each user and gateway. The dictionaries of the router are only read and
    written by key, so they are finite maps. *)

From S2P Require Import Prelude PyStr PyFloat PyHash PyVal Notification.
From stdpp Require Import options.
From Stdlib Require Import Ascii String.

#[local] Open Scope Z_scope.

Definition _MINUTE_SECONDS : f64 := flit 60 0.

Record NotificationPolicyRouter := {
  rt_preferences : list NotificationPreference;
  rt_dedupe_window_seconds : f64;
  rt_rate_limit_per_minute : Z;
  rt_dedupe_seen_at : gmap (string * string * string) f64;
  rt_rate_events : gmap (string * string) (list f64);
  rt_suppressed_dedupe : Z;
  rt_suppressed_rate_limit : Z;
}.

(** [__post_init__] *)
Definition router_init (preferences : list NotificationPreference) (dedupe_window_seconds : f64)
    (rate_limit_per_minute : Z) : result NotificationPolicyRouter :=
  _ ← raise_if (fleb dedupe_window_seconds fzero) ValueError "dedupe_window_seconds must be positive";
  _ ← raise_if (rate_limit_per_minute <=? 0) ValueError "rate_limit_per_minute must be positive";
  Ok {| rt_preferences := preferences; rt_dedupe_window_seconds := dedupe_window_seconds;
        rt_rate_limit_per_minute := rate_limit_per_minute; rt_dedupe_seen_at := ∅;
        rt_rate_events := ∅; rt_suppressed_dedupe := 0; rt_suppressed_rate_limit := 0 |}.

Definition set_seen (m : gmap (string * string * string) f64) (r : NotificationPolicyRouter) :=
  {| rt_preferences := rt_preferences r; rt_dedupe_window_seconds := rt_dedupe_window_seconds r;
     rt_rate_limit_per_minute := rt_rate_limit_per_minute r; rt_dedupe_seen_at := m;
     rt_rate_events := rt_rate_events r; rt_suppressed_dedupe := rt_suppressed_dedupe r;
     rt_suppressed_rate_limit := rt_suppressed_rate_limit r |}.
Definition set_rate (m : gmap (string * string) (list f64)) (r : NotificationPolicyRouter) :=
  {| rt_preferences := rt_preferences r; rt_dedupe_window_seconds := rt_dedupe_window_seconds r;
     rt_rate_limit_per_minute := rt_rate_limit_per_minute r; rt_dedupe_seen_at := rt_dedupe_seen_at r;
     rt_rate_events := m; rt_suppressed_dedupe := rt_suppressed_dedupe r;
     rt_suppressed_rate_limit := rt_suppressed_rate_limit r |}.
Definition count_suppressed (dedupe rate_limit : Z) (r : NotificationPolicyRouter) :=
  {| rt_preferences := rt_preferences r; rt_dedupe_window_seconds := rt_dedupe_window_seconds r;
     rt_rate_limit_per_minute := rt_rate_limit_per_minute r; rt_dedupe_seen_at := rt_dedupe_seen_at r;
     rt_rate_events := rt_rate_events r; rt_suppressed_dedupe := rt_suppressed_dedupe r + dedupe;
     rt_suppressed_rate_limit := rt_suppressed_rate_limit r + rate_limit |}.

Definition suppression_counts (r : NotificationPolicyRouter) : Z * Z :=
  (rt_suppressed_dedupe r, rt_suppressed_rate_limit r).

Definition _matches_preference (pref : NotificationPreference) (event : NotificationEvent) : bool :=
  if severity_rank (ne_severity event) <? severity_rank (np_min_severity pref) then false
  else if match np_event_types pref with [] => false | _ => true end &&
          negb (bool_decide (ne_event_type event ∈ np_event_types pref)) then false
  else
    match np_strategy_ids pref with
    | [] => true
    | ids => bool_decide (py_str (dget_or "strategy_id" (VStr "") (ne_payload event)) ∈ ids)
    end.

(** The first 16 characters of the digest. *)
Definition _message_id (user_id gateway event_id : string) : string :=
  "msg-" +:+ str_take 16 (sha256_hex (user_id +:+ "|" +:+ gateway +:+ "|" +:+ event_id)).

Definition _render_body (event : NotificationEvent) : string :=
  let field k dflt := py_str (dget_or k (VStr dflt) (ne_payload event)) in
  let reason := field "reason" "" in
  let suffix := if is_empty reason then "" else " reason=" +:+ reason in
  "event=" +:+ ne_event_type event +:+ " severity=" +:+ severity_value (ne_severity event) +:+
  " strategy=" +:+ field "strategy_id" "n/a" +:+ " symbol=" +:+ field "symbol" "n/a" +:+
  " mode=" +:+ ne_mode event +:+ suffix.

(** The start of the budget window. *)
Definition cutoff (now_seconds : f64) : f64 := fsub now_seconds _MINUTE_SECONDS.
Definition in_window (c : f64) (entries : list f64) : list f64 :=
  List.filter (fun timestamp => fleb c timestamp) entries.

Definition _consume_rate_budget (user_id gateway : string) (now_seconds : f64)
    (r : NotificationPolicyRouter) : NotificationPolicyRouter * bool :=
  let key := (user_id, gateway) in
  let entries := in_window (cutoff now_seconds) (default [] (rt_rate_events r !! key)) in
  if rt_rate_limit_per_minute r <=? Z.of_nat (List.length entries)
  then (set_rate (<[key := entries]> (rt_rate_events r)) r, false)
  else (set_rate (<[key := entries ++ [now_seconds]]> (rt_rate_events r)) r, true).

Definition build_message (pref : NotificationPreference) (gateway : string)
    (event : NotificationEvent) : NotificationMessage :=
  {| nm_message_id := _message_id (np_user_id pref) gateway (ne_notification_event_id event);
     nm_user_id := np_user_id pref;
     nm_gateway := gateway;
     nm_severity := ne_severity event;
     nm_title := "[" +:+ severity_value (ne_severity event) +:+ "] " +:+ ne_event_type event;
     nm_body := _render_body event;
     nm_metadata :=
       [("trace_id", VStr (ne_trace_id event)); ("decision_id", VStr (ne_decision_id event));
        ("event_type", VStr (ne_event_type event)); ("service", VStr (ne_service event));
        ("mode", VStr (ne_mode event))] |}.

(** The body of the inner loop: one gateway of one matching preference. *)
Definition route_gateway (event : NotificationEvent) (now_seconds : f64)
    (st : NotificationPolicyRouter * list NotificationMessage)
    (target : NotificationPreference * string) : NotificationPolicyRouter * list NotificationMessage :=
  let '(r, messages) := st in
  let '(pref, gateway) := target in
  let dedupe_key := (np_user_id pref, gateway, ne_idempotency_key event) in
  let duplicate :=
    match rt_dedupe_seen_at r !! dedupe_key with
    | Some previous => fltb (fsub now_seconds previous) (rt_dedupe_window_seconds r)
    | None => false
    end in
  if duplicate : bool then (count_suppressed 1 0 r, messages)
  else
    let '(r1, granted) := _consume_rate_budget (np_user_id pref) gateway now_seconds r in
    if granted : bool then
      (set_seen (<[dedupe_key := now_seconds]> (rt_dedupe_seen_at r1)) r1,
       messages ++ [build_message pref gateway event])
    else (count_suppressed 0 1 r1, messages).

Definition default_preference : NotificationPreference :=
  {| np_user_id := "ops-default"; np_min_severity := INFO; np_gateways := ["telegram"];
     np_strategy_ids := []; np_event_types := [] |}.

(** The (preference, gateway) pairs the two loops visit. *)
Definition targets (r : NotificationPolicyRouter) (event : NotificationEvent)
  : list (NotificationPreference * string) :=
  let active := match rt_preferences r with [] => [default_preference] | l => l end in
  flat_map (fun pref => map (fun gateway => (pref, gateway)) (np_gateways pref))
    (List.filter (fun pref => _matches_preference pref event) active).

Definition route (event : NotificationEvent) (now_seconds : f64) (r : NotificationPolicyRouter)
  : NotificationPolicyRouter * list NotificationMessage :=
  foldl (route_gateway event now_seconds) (r, []) (targets r event).

(** ** Runs

    A run of the router over a sequence of events, and the log of what was
    sent: to whom, under which idempotency key, and when. *)
Record emission := Sent { em_user : string; em_gateway : string; em_key : string; em_at : f64 }.

Definition sent (event : NotificationEvent) (now_seconds : f64) (m : NotificationMessage) : emission :=
  Sent (nm_user_id m) (nm_gateway m) (ne_idempotency_key event) now_seconds.

Fixpoint run (r : NotificationPolicyRouter) (calls : list (NotificationEvent * f64))
  : NotificationPolicyRouter * list emission :=
  match calls with
  | [] => (r, [])
  | (event, now) :: rest =>
      let '(r1, messages) := route event now r in
      let '(r2, log) := run r1 rest in
      (r2, (sent event now <$> messages) ++ log)
  end.

(** When the key was last sent, and all times a user's gateway was used. *)
Definition same_key (k : string * string * string) (e : emission) : bool :=
  bool_decide ((em_user e, em_gateway e, em_key e) = k).
Definition last_time (k : string * string * string) (log : list emission) : option f64 :=
  last (em_at <$> List.filter (same_key k) log).
Definition times (user gateway : string) (log : list emission) : list f64 :=
  em_at <$> List.filter (fun e => bool_decide ((em_user e, em_gateway e) = (user, gateway))) log.

Lemma last_time_snoc k log e :
  last_time k (log ++ [e]) = if same_key k e then Some (em_at e) else last_time k log.
Proof.
  unfold last_time. rewrite List.filter_app, fmap_app. simpl. destruct (same_key k e); simpl.
  - apply last_snoc.
  - by rewrite app_nil_r.
Qed.

Lemma times_snoc u g log e :
  times u g (log ++ [e]) =
  times u g log ++ (if bool_decide ((em_user e, em_gateway e) = (u, g)) then [em_at e] else []).
Proof. unfold times. rewrite List.filter_app, fmap_app. simpl. by case_bool_decide. Qed.

Lemma route_gateway_acc event now r messages target :
  route_gateway event now (r, messages) target =
  let '(r', sent_now) := route_gateway event now (r, []) target in (r', messages ++ sent_now).
Proof.
  unfold route_gateway. destruct target as [pref gateway].
  destruct (match rt_dedupe_seen_at r !! _ with Some _ => _ | None => _ end); [by rewrite app_nil_r|].
  destruct (_consume_rate_budget _ _ _ _) as [r1 []]; [done|by rewrite app_nil_r].
Qed.

#[local] Arguments route_gateway : simpl never.
#[local] Arguments route : simpl never.
#[local] Arguments cutoff : simpl never.

(** An invariant of the inner loop's body is an invariant of [route]. *)
Lemma route_inv (P : NotificationPolicyRouter -> list emission -> Prop) event now :
  (forall r log target r' messages, P r log ->
     route_gateway event now (r, []) target = (r', messages) ->
     P r' (log ++ (sent event now <$> messages))) ->
  forall r log r' messages, P r log -> route event now r = (r', messages) ->
    P r' (log ++ (sent event now <$> messages)).
Proof.
  intros Hstep r log r' messages Hr. unfold route. generalize (targets r event). intros ts.
  assert (H : forall ts r acc r' messages, P r (log ++ (sent event now <$> acc)) ->
    foldl (route_gateway event now) (r, acc) ts = (r', messages) ->
    P r' (log ++ (sent event now <$> messages))).
  { clear -Hstep. induction ts as [|t ts IH]; intros r acc r' messages Hr E; simpl in E; [by simplify_eq|].
    rewrite route_gateway_acc in E.
    destruct (route_gateway event now (r, []) t) as [r1 ms] eqn:E1.
    apply (IH r1 (acc ++ ms) r' messages); [|done]. rewrite fmap_app, app_assoc. by eapply Hstep. }
  apply H. by rewrite app_nil_r.
Qed.

(** The two outcomes of the inner loop's body. *)
Lemma route_gateway_cases event now r pref gateway r' messages :
  route_gateway event now (r, []) (pref, gateway) = (r', messages) ->
  let k := (np_user_id pref, gateway, ne_idempotency_key event) in
  let entries := in_window (cutoff now) (default [] (rt_rate_events r !! (np_user_id pref, gateway))) in
  rt_dedupe_window_seconds r' = rt_dedupe_window_seconds r /\
  rt_rate_limit_per_minute r' = rt_rate_limit_per_minute r /\
  ((messages = [] /\ rt_dedupe_seen_at r' = rt_dedupe_seen_at r /\
    (rt_rate_events r' = rt_rate_events r \/
     rt_rate_events r' = <[(np_user_id pref, gateway) := entries]> (rt_rate_events r)) /\
    rt_suppressed_dedupe r' + rt_suppressed_rate_limit r' =
      rt_suppressed_dedupe r + rt_suppressed_rate_limit r + 1) \/
   (messages = [build_message pref gateway event] /\
    rt_dedupe_seen_at r' = <[k := now]> (rt_dedupe_seen_at r) /\
    (forall previous, rt_dedupe_seen_at r !! k = Some previous ->
       fltb (fsub now previous) (rt_dedupe_window_seconds r) = false) /\
    rt_rate_events r' = <[(np_user_id pref, gateway) := entries ++ [now]]> (rt_rate_events r) /\
    Z.of_nat (List.length entries) < rt_rate_limit_per_minute r /\
    rt_suppressed_dedupe r' + rt_suppressed_rate_limit r' =
      rt_suppressed_dedupe r + rt_suppressed_rate_limit r)).
Proof.
  intros H k entries. unfold route_gateway in H. fold k in H.
  destruct (match rt_dedupe_seen_at r !! k with Some _ => _ | None => _ end) eqn:Ed.
  { injection H as <- <-. split; [done|]. split; [done|]. left. split; [done|]. split; [done|].
    split; [by left|]. simpl. lia. }
  unfold _consume_rate_budget in H. fold entries in H.
  destruct (_ <=? _) eqn:El; injection H as <- <-; (split; [done|]); (split; [done|]).
  - left. split; [done|]. split; [done|]. split; [by right|]. simpl. lia.
  - right. split; [done|]. split; [done|]. split.
    { intros previous Hp. by rewrite Hp in Ed. }
    split; [done|]. split; [lia|]. simpl. lia.
Qed.

(** ** Deduplication *)

(** [now] is not within the window of the last emission of the same key. *)
Definition apart (window : f64) (past : list emission) (e : emission) : Prop :=
  forall previous, last_time (em_user e, em_gateway e, em_key e) past = Some previous ->
    fltb (fsub (em_at e) previous) window = false.

Definition seen_inv (window : f64) (r : NotificationPolicyRouter) (log : list emission) : Prop :=
  rt_dedupe_window_seconds r = window /\ (forall k, rt_dedupe_seen_at r !! k = last_time k log) /\
  each_with_past (apart window) log.

Lemma seen_inv_step window event now r log target r' messages :
  seen_inv window r log -> route_gateway event now (r, []) target = (r', messages) ->
  seen_inv window r' (log ++ (sent event now <$> messages)).
Proof.
  intros (Hw & Hs & Ha) E. destruct target as [pref gateway].
  apply route_gateway_cases in E as (Ew & _ & [(-> & Es & _)|(-> & Es & Hn & _)]).
  - simpl. rewrite app_nil_r. split; [congruence|]. split; [|done]. intros k. by rewrite Es.
  - set (e := sent event now (build_message pref gateway event)).
    change (sent event now <$> [build_message pref gateway event]) with [e].
    split; [congruence|]. split.
    + intros k. rewrite Es, last_time_snoc. unfold same_key. simpl. case_bool_decide as Hk.
      * rewrite <- Hk. by rewrite lookup_insert_eq.
      * rewrite lookup_insert_ne by done. apply Hs.
    + apply each_with_past_snoc; [done|]. intros previous Hp. simpl in Hp. rewrite <- Hs in Hp.
      rewrite <- Hw. by apply Hn.
Qed.

Lemma run_seen_inv window calls r log r' log' :
  seen_inv window r log -> run r calls = (r', log') -> seen_inv window r' (log ++ log').
Proof.
  revert r log log'. induction calls as [|[event now] calls IH]; intros r log log' Hr E; simpl in E.
  { injection E as <- <-. by rewrite app_nil_r. }
  destruct (route event now r) as [r1 messages] eqn:E1. destruct (run r1 calls) as [r2 log2] eqn:E2.
  injection E as <- <-. rewrite app_assoc. apply (IH r1); [|done].
  eapply (route_inv (seen_inv window)); [|exact Hr|exact E1]. intros. by eapply seen_inv_step.
Qed.

(** No duplicate notifications: along any run of the router, at whatever
    times it is called, a message goes out for a user, gateway and
    idempotency key only when the previous one for that key (if any) lies
    outside the deduplication window. *)
Theorem notifications_deduplicated preferences window limit calls r r' log :
  router_init preferences window limit = Ok r -> run r calls = (r', log) ->
  each_with_past (apart window) log.
Proof.
  intros Hi Hrun. unfold router_init in Hi. res_inv.
  eapply (run_seen_inv window _ _ []) in Hrun as (_ & _ & H); [exact H|].
  split; [done|]. split; [|apply each_with_past_nil]. intros k. apply lookup_empty.
Qed.

(** ** The budget *)

Definition within_budget (limit : Z) (past : list emission) (e : emission) : Prop :=
  Z.of_nat (List.length (in_window (cutoff (em_at e)) (times (em_user e) (em_gateway e) past))) < limit.

(** The stored entries agree with the log on every window that starts at [c] or
    later. *)
Definition rate_inv (limit : Z) (c : f64) (r : NotificationPolicyRouter) (log : list emission) : Prop :=
  rt_rate_limit_per_minute r = limit /\
  (forall u g c', fleb c c' = true ->
     in_window c' (default [] (rt_rate_events r !! (u, g))) = in_window c' (times u g log)) /\
  each_with_past (within_budget limit) log.

Lemma in_window_later c c' l : fleb c c' = true -> in_window c' (in_window c l) = in_window c' l.
Proof.
  intros Hc. unfold in_window. induction l as [|t l IH]; [done|]. simpl.
  destruct (fleb c t) eqn:E; simpl; [by rewrite IH|].
  destruct (fleb c' t) eqn:E'; [|done]. by rewrite (fleb_trans c c' t) in E.
Qed.

Lemma in_window_app c l l' : in_window c (l ++ l') = in_window c l ++ in_window c l'.
Proof. apply List.filter_app. Qed.

Lemma rate_inv_later limit c c' r log :
  fleb c c' = true -> rate_inv limit c r log -> rate_inv limit c' r log.
Proof.
  intros Hc (Hl & He & Hb). split; [done|]. split; [|done].
  intros u g d Hd. apply He. by eapply fleb_trans.
Qed.

Lemma rate_inv_step limit event now r log target r' messages :
  fleb (cutoff now) (cutoff now) = true ->
  rate_inv limit (cutoff now) r log -> route_gateway event now (r, []) target = (r', messages) ->
  rate_inv limit (cutoff now) r' (log ++ (sent event now <$> messages)).
Proof.
  intros Hc (Hl & He & Hb) E. destruct target as [pref gateway].
  set (u := np_user_id pref). set (entries := default [] (rt_rate_events r !! (u, gateway))).
  apply route_gateway_cases in E as (_ & El & [(-> & _ & Er & _)|(-> & _ & _ & Er & Hn & _)]);
    fold u in Er |- *; fold entries in Er |- *.
  - simpl. rewrite app_nil_r. split; [congruence|]. split; [|done]. intros u' g' c' Hc'.
    rewrite <- He by done. destruct Er as [->| ->]; [done|].
    destruct (decide ((u', g') = (u, gateway))) as [[= -> ->]|Hk]; [|by rewrite lookup_insert_ne].
    rewrite lookup_insert_eq. simpl. by apply in_window_later.
  - set (e := sent event now (build_message pref gateway event)).
    change (sent event now <$> [build_message pref gateway event]) with [e].
    split; [congruence|]. split.
    + intros u' g' c' Hc'. rewrite Er, times_snoc, in_window_app. simpl. fold u.
      case_bool_decide as Hk.
      * injection Hk as <- <-. rewrite lookup_insert_eq. simpl. rewrite in_window_app.
        rewrite in_window_later by done. unfold entries. by rewrite He.
      * rewrite lookup_insert_ne by done. rewrite app_nil_r. by apply He.
    + apply each_with_past_snoc; [done|]. unfold within_budget. simpl. fold u.
      rewrite <- He by done. fold u in Hn. fold entries in Hn. unfold entries in Hn. lia.
Qed.

(** The clock does not go back: windows start no earlier for later calls. *)
Definition clock_ok (calls : list (NotificationEvent * f64)) : Prop :=
  forall i j a b, (i <= j)%nat -> calls !! i = Some a -> calls !! j = Some b ->
    fleb (cutoff a.2) (cutoff b.2) = true.

Lemma run_rate_inv limit calls c r log r' log' :
  (forall i a, calls !! i = Some a -> fleb c (cutoff a.2) = true) -> clock_ok calls ->
  rate_inv limit c r log -> run r calls = (r', log') ->
  each_with_past (within_budget limit) (log ++ log').
Proof.
  revert c r log log'. induction calls as [|[event now] calls IH]; intros c r log log' Hc Hk Hr E; simpl in E.
  { injection E as <- <-. rewrite app_nil_r. apply Hr. }
  destruct (route event now r) as [r1 messages] eqn:E1. destruct (run r1 calls) as [r2 log2] eqn:E2.
  injection E as <- <-. rewrite app_assoc.
  apply (rate_inv_later limit c (cutoff now)) in Hr; [|exact (Hc 0%nat (event, now) eq_refl)].
  pose proof (Hk 0%nat 0%nat _ _ (le_n _) eq_refl eq_refl) as Hself. simpl in Hself.
  apply (IH (cutoff now) r1); [| |
    eapply (route_inv (rate_inv limit (cutoff now))); [|exact Hr|exact E1]; intros; by eapply rate_inv_step|done].
  - intros i a Ha. apply (Hk 0%nat (S i) (event, now) a); [lia|done|done].
  - intros i j a b Hij Ha Hb. apply (Hk (S i) (S j) a b); [lia|done|done].
Qed.

(** C10. The rate limit is a sliding window: along any run whose clock does not
    go back, whenever a message is sent, fewer than [rate_limit_per_minute]
    messages had gone to the same user and gateway in the sixty seconds up to
    then. The pruned entries the router keeps are enough to decide that. *)
Theorem notifications_rate_limited preferences window limit calls r r' log :
  router_init preferences window limit = Ok r -> clock_ok calls -> run r calls = (r', log) ->
  each_with_past (within_budget limit) log.
Proof.
  intros Hi Hk Hrun. unfold router_init in Hi. res_inv.
  destruct calls as [|[event now] calls]; [injection Hrun as _ <-; apply each_with_past_nil|].
  eapply (run_rate_inv limit _ (cutoff now) _ []) in Hrun; [exact Hrun| |exact Hk|].
  - intros i a Ha. by apply (Hk 0%nat i (event, now) a); [lia|..].
  - split; [done|]. split; [|apply each_with_past_nil]. intros u g c' _. simpl. by rewrite lookup_empty.
Qed.

(** ** A concrete run *)

Module Example.
Definition event (key : string) : NotificationEvent :=
  {| ne_notification_event_id := "id"; ne_trace_id := "t"; ne_decision_id := "d"; ne_mode := "MOCK";
     ne_event_type := "oms.order.filled"; ne_severity := INFO; ne_idempotency_key := key;
     ne_emitted_at := ""; ne_service := "oms"; ne_payload := [] |}.
(** Two messages a minute, two minutes of deduplication. *)
Definition window : f64 := flit 120 0.
Definition at_second (n : Z) : f64 := flit n 0.
Definition calls : list (NotificationEvent * f64) :=
  [(event "a", at_second 1000); (event "a", at_second 1010); (event "b", at_second 1020);
   (event "c", at_second 1030); (event "c", at_second 1070); (event "a", at_second 1130)].
Definition log : list emission :=
  [Sent "ops-default" "telegram" "a" (at_second 1000); Sent "ops-default" "telegram" "b" (at_second 1020);
   Sent "ops-default" "telegram" "c" (at_second 1070); Sent "ops-default" "telegram" "a" (at_second 1130)].
Definition router : NotificationPolicyRouter :=
  {| rt_preferences := []; rt_dedupe_window_seconds := window; rt_rate_limit_per_minute := 2;
     rt_dedupe_seen_at := ∅; rt_rate_events := ∅; rt_suppressed_dedupe := 0;
     rt_suppressed_rate_limit := 0 |}.
End Example.

(** The repeated [a] is dropped, [c] waits for the budget. *)
Lemma notifications_deduplicated_witness :
  (run Example.router Example.calls).2 = Example.log /\
  suppression_counts (run Example.router Example.calls).1 = (1, 1) /\
  each_with_past (apart Example.window) (run Example.router Example.calls).2.
Proof.
  split; [vm_compute; reflexivity|]. split; [vm_compute; reflexivity|].
  exact (notifications_deduplicated [] Example.window 2 Example.calls Example.router _ _ eq_refl
           (surjective_pairing _)).
Defined.

Lemma notifications_rate_limited_witness :
  each_with_past (within_budget 2) (run Example.router Example.calls).2.
Proof.
  refine (notifications_rate_limited [] Example.window 2 Example.calls Example.router _ _ eq_refl _
            (surjective_pairing _)).
  intros i j a b Hij Ha Hb.
  do 6 (destruct i as [|i]; [injection Ha as <-; do 6 (destruct j as [|j];
    [first [injection Hb as <-; vm_compute; reflexivity | lia]|]); discriminate Hb|]); discriminate Ha.
Defined.

(** ** Accounting *)

Lemma route_counts event now ts r acc r' messages :
  foldl (route_gateway event now) (r, acc) ts = (r', messages) ->
  Z.of_nat (List.length messages) + (rt_suppressed_dedupe r' + rt_suppressed_rate_limit r') =
  Z.of_nat (List.length acc) + (rt_suppressed_dedupe r + rt_suppressed_rate_limit r) +
  Z.of_nat (List.length ts).
Proof.
  revert r acc. induction ts as [|[pref gateway] ts IH]; intros r acc E; [simpl in *; simplify_eq; lia|].
  cbn [foldl] in E. rewrite route_gateway_acc in E.
  destruct (route_gateway event now (r, []) (pref, gateway)) as [r1 ms] eqn:E1.
  apply IH in E. rewrite List.length_app in E. apply route_gateway_cases in E1 as (_ & _ & E1).
  cbn [List.length] in *. destruct E1 as [(-> & _ & _ & Hs)|(-> & _ & _ & _ & _ & Hs)]; simpl in E; lia.
Qed.

Lemma route_gateway_mono event now st target :
  rt_suppressed_dedupe st.1 <= rt_suppressed_dedupe (route_gateway event now st target).1 /\
  rt_suppressed_rate_limit st.1 <= rt_suppressed_rate_limit (route_gateway event now st target).1.
Proof.
  unfold route_gateway, _consume_rate_budget. destruct st as [r messages], target as [pref gateway].
  destruct (match rt_dedupe_seen_at r !! _ with Some _ => _ | None => _ end); [simpl; lia|].
  destruct (_ <=? _); simpl; lia.
Qed.

(** Every target is either sent to or counted as suppressed. *)
Lemma route_accounts event now r r' messages :
  route event now r = (r', messages) ->
  rt_suppressed_dedupe r <= rt_suppressed_dedupe r' /\
  rt_suppressed_rate_limit r <= rt_suppressed_rate_limit r' /\
  Z.of_nat (List.length messages) + (rt_suppressed_dedupe r' - rt_suppressed_dedupe r) +
    (rt_suppressed_rate_limit r' - rt_suppressed_rate_limit r) =
  Z.of_nat (List.length (targets r event)).
Proof.
  intros E. pose proof (route_counts _ _ _ _ _ _ _ E) as Hc. simpl in Hc.
  enough (H : rt_suppressed_dedupe r <= rt_suppressed_dedupe r' /\
              rt_suppressed_rate_limit r <= rt_suppressed_rate_limit r') by lia.
  assert (Hf : forall ts st, let st' := foldl (route_gateway event now) st ts in
    rt_suppressed_dedupe st.1 <= rt_suppressed_dedupe st'.1 /\
    rt_suppressed_rate_limit st.1 <= rt_suppressed_rate_limit st'.1).
  { induction ts as [|t ts IH]; intros st; [simpl; lia|]. cbn [foldl].
    pose proof (route_gateway_mono event now st t). specialize (IH (route_gateway event now st t)).
    cbv zeta in *. lia. }
  specialize (Hf (targets r event) (r, [])). unfold route in E. by rewrite E in Hf.
Qed.
