(* ===== verification/GatewayDispatch.v ===== *)
(** * Notification delivery

    [services/notification_service/gateway_dispatch.py]: delivery with bounded
    retries, backoff and a dead letter queue. What a gateway does is an
    interface ([Protocol] in the code): [NotificationGateway] below, with the
    in-memory gateway as an instance; the network gateways are other
    implementations. [x ** n] on floats is C's [pow], an argument of the model.
    Sleeping is modelled by the log of the delays asked for. *)

From S2P Require Import Prelude PyStr PyFloat PyVal Notification.
From stdpp Require Import options.
From Stdlib Require Import Ascii String.

#[local] Open Scope Z_scope.

(** What [await gateway.send(message)] comes to: a delivery result, or an
    exception with its text, class name and [retryable] attribute. *)
Inductive send_outcome :=
  | Returned (status : string) (detail : option string)
  | Raised (text name : string) (retryable : bool).

Class NotificationGateway (G : Type) := {
  gw_name : G -> string;
  gw_send : NotificationMessage -> G -> G * send_outcome;
}.

Record InMemoryGateway := { mg_name : string; mg_sent_messages : list NotificationMessage }.

#[export] Instance in_memory_gateway : NotificationGateway InMemoryGateway := {
  gw_name := mg_name;
  gw_send m g :=
    ({| mg_name := mg_name g; mg_sent_messages := mg_sent_messages g ++ [m] |},
     Returned "DELIVERED" None);
}.

Record DlqItem := {
  dq_event : NotificationEvent;
  dq_message : NotificationMessage;
  dq_result : DeliveryResult;
}.

Record GatewayDispatcher (G : Type) := {
  gd_gateways : gmap string G;
  gd_max_attempts : Z;
  gd_backoff_base_seconds : f64;
  gd_backoff_multiplier : f64;
  gd_max_backoff_seconds : f64;
  gd_dlq : list DlqItem;
  gd_slept : list f64;
}.
Arguments gd_gateways {G} _.
Arguments gd_max_attempts {G} _.
Arguments gd_backoff_base_seconds {G} _.
Arguments gd_backoff_multiplier {G} _.
Arguments gd_max_backoff_seconds {G} _.
Arguments gd_dlq {G} _.
Arguments gd_slept {G} _.

Definition _is_retryable_status (status : string) : bool :=
  bool_decide (upper (strip status) ∈ ["RETRYABLE"; "RETRYABLE_ERROR"; "FAILED_RETRYABLE"]%string).

(** [x or dflt] on an optional string. *)
Definition opt_or (x : option string) (dflt : string) : string :=
  match x with Some s => if is_empty s then dflt else s | None => dflt end.

Section dispatcher.
Context {G : Type} `{!NotificationGateway G}.
Context (py_pow : f64 -> Z -> result f64).

Abbreviation dispatcher := (GatewayDispatcher G).

(** [__post_init__] *)
Definition dispatcher_init (gateways : gmap string G) (max_attempts : Z)
    (base multiplier max_backoff : f64) : result dispatcher :=
  _ ← raise_if (max_attempts <=? 0) ValueError "max_attempts must be positive";
  _ ← raise_if (fltb base fzero) ValueError "backoff_base_seconds must be non-negative";
  _ ← raise_if (fltb multiplier fone) ValueError "backoff_multiplier must be >= 1.0";
  _ ← raise_if (fleb max_backoff fzero) ValueError "max_backoff_seconds must be positive";
  Ok {| gd_gateways := gateways; gd_max_attempts := max_attempts; gd_backoff_base_seconds := base;
        gd_backoff_multiplier := multiplier; gd_max_backoff_seconds := max_backoff;
        gd_dlq := []; gd_slept := [] |}.

Definition set_gateways (gs : gmap string G) (d : dispatcher) : dispatcher :=
  {| gd_gateways := gs; gd_max_attempts := gd_max_attempts d;
     gd_backoff_base_seconds := gd_backoff_base_seconds d;
     gd_backoff_multiplier := gd_backoff_multiplier d;
     gd_max_backoff_seconds := gd_max_backoff_seconds d; gd_dlq := gd_dlq d; gd_slept := gd_slept d |}.
Definition push_dlq (item : DlqItem) (d : dispatcher) : dispatcher :=
  {| gd_gateways := gd_gateways d; gd_max_attempts := gd_max_attempts d;
     gd_backoff_base_seconds := gd_backoff_base_seconds d;
     gd_backoff_multiplier := gd_backoff_multiplier d;
     gd_max_backoff_seconds := gd_max_backoff_seconds d; gd_dlq := gd_dlq d ++ [item];
     gd_slept := gd_slept d |}.
Definition sleep (delay : f64) (d : dispatcher) : dispatcher :=
  {| gd_gateways := gd_gateways d; gd_max_attempts := gd_max_attempts d;
     gd_backoff_base_seconds := gd_backoff_base_seconds d;
     gd_backoff_multiplier := gd_backoff_multiplier d;
     gd_max_backoff_seconds := gd_max_backoff_seconds d; gd_dlq := gd_dlq d;
     gd_slept := gd_slept d ++ [delay] |}.

Definition _append_dlq (event : NotificationEvent) (message : NotificationMessage)
    (r : DeliveryResult) : prog dispatcher unit :=
  modify (push_dlq {| dq_event := event; dq_message := message; dq_result := r |}).

Definition _sleep_after_attempt (attempt : Z) : prog dispatcher unit := fun d =>
  if gd_max_attempts d <=? attempt then (d, Ok tt)
  else
    match py_pow (gd_backoff_multiplier d) (Z.max 0 (attempt - 1)) with
    | Raise e => (d, Raise e)
    | Ok factor =>
        let delay := fmul (gd_backoff_base_seconds d) factor in
        let bounded_delay := fmin delay (gd_max_backoff_seconds d) in
        if fleb bounded_delay fzero then (d, Ok tt) else (sleep bounded_delay d, Ok tt)
    end.

Definition failed (message : NotificationMessage) (name : string) (attempt : Z) (detail : string)
  : DeliveryResult :=
  {| dr_message_id := nm_message_id message; dr_gateway := name; dr_status := "FAILED";
     dr_attempt := attempt; dr_detail := Some detail |}.

Definition settle_failed (event : NotificationEvent) (message : NotificationMessage)
    (r : DeliveryResult) : prog dispatcher DeliveryResult :=
  _ ← _append_dlq event message r; mret r.

(** One call of the gateway registered as [key]. *)
Definition send_to (key : string) (g : G) (message : NotificationMessage)
  : prog dispatcher (G * send_outcome) := fun d =>
  let '(g', out) := gw_send message g in
  (set_gateways (<[key := g']> (gd_gateways d)) d, Ok (g', out)).

(** The loop over [range(attempt, max_attempts + 1)]; [n] attempts are left. *)
Fixpoint attempts (n : nat) (attempt : Z) (last_error : option string) (key : string) (g : G)
    (event : NotificationEvent) (message : NotificationMessage) (max_attempts : Z)
  : prog dispatcher DeliveryResult :=
  match n with
  | O => settle_failed event message
           (failed message (gw_name g) max_attempts (opt_or last_error "delivery_failed"))
  | S n' =>
      sent ← send_to key g message;
      let '(g', out) := sent : G * send_outcome in
      match out with
      | Raised text name retryable =>
          let error := str_or text name in
          if negb retryable
          then settle_failed event message (failed message (gw_name g') attempt error)
          else
            _ ← _sleep_after_attempt attempt;
            attempts n' (attempt + 1) (Some error) key g' event message max_attempts
      | Returned status detail =>
          if String.eqb status "DELIVERED" then
            mret {| dr_message_id := nm_message_id message; dr_gateway := gw_name g';
                    dr_status := "DELIVERED"; dr_attempt := attempt; dr_detail := detail |}
          else if _is_retryable_status status then
            _ ← _sleep_after_attempt attempt;
            attempts n' (attempt + 1) (Some (opt_or detail "retryable_delivery_failed")) key g'
              event message max_attempts
          else settle_failed event message
                 (failed message (gw_name g') attempt (opt_or detail "terminal_delivery_failed"))
      end
  end.

Definition _dispatch_single (key : string) (g : G) (event : NotificationEvent)
    (message : NotificationMessage) : prog dispatcher DeliveryResult := fun d =>
  attempts (Z.to_nat (gd_max_attempts d)) 1 None key g event message (gd_max_attempts d) d.

Definition dispatch_message (event : NotificationEvent) (message : NotificationMessage)
  : prog dispatcher DeliveryResult := fun d =>
  match gd_gateways d !! nm_gateway message with
  | None =>
      settle_failed event message
        {| dr_message_id := nm_message_id message; dr_gateway := nm_gateway message;
           dr_status := "FAILED"; dr_attempt := 0; dr_detail := Some "gateway_not_registered"%string |} d
  | Some g => _dispatch_single (nm_gateway message) g event message d
  end.

Fixpoint dispatch (event : NotificationEvent) (messages : list NotificationMessage)
  : prog dispatcher (list DeliveryResult) :=
  match messages with
  | [] => mret []
  | message :: rest =>
      r ← dispatch_message event message;
      rs ← dispatch event rest;
      mret (r :: rs)
  end.

Definition dlq_items (d : dispatcher) : list DlqItem := gd_dlq d.
(** ** What a dispatch does *)

(** The configuration is kept; the dead letter queue gains [items], the sleep
    log [delays]. *)
Definition grows (items : list DlqItem) (delays : list f64) (d d' : dispatcher) : Prop :=
  gd_max_attempts d' = gd_max_attempts d /\
  gd_backoff_base_seconds d' = gd_backoff_base_seconds d /\
  gd_backoff_multiplier d' = gd_backoff_multiplier d /\
  gd_max_backoff_seconds d' = gd_max_backoff_seconds d /\
  gd_dlq d' = gd_dlq d ++ items /\ gd_slept d' = gd_slept d ++ delays.

Lemma grows_refl d : grows [] [] d d.
Proof. unfold grows. by rewrite !app_nil_r. Qed.

Lemma grows_trans i1 l1 i2 l2 d1 d2 d3 :
  grows i1 l1 d1 d2 -> grows i2 l2 d2 d3 -> grows (i1 ++ i2) (l1 ++ l2) d1 d3.
Proof.
  intros (A1 & A2 & A3 & A4 & A5 & A6) (B1 & B2 & B3 & B4 & B5 & B6).
  unfold grows. rewrite B1, B2, B3, B4, B5, B6, A1, A2, A3, A4, A5, A6, !app_assoc. done.
Qed.

(** Delays are positive (or not a number) and capped. *)
Definition capped (cap : f64) (delays : list f64) : Prop :=
  Forall (fun x => fltb cap x = false /\ fleb x fzero = false) delays.

Definition dead_letter (event : NotificationEvent) (message : NotificationMessage) (r : DeliveryResult)
  : list DlqItem :=
  if String.eqb (dr_status r) "DELIVERED" then []
  else [{| dq_event := event; dq_message := message; dq_result := r |}].

Definition settled (max_attempts : Z) (message : NotificationMessage) (r : DeliveryResult) : Prop :=
  dr_message_id r = nm_message_id message /\
  ((dr_status r = "DELIVERED"%string /\ 1 <= dr_attempt r <= max_attempts) \/
   (dr_status r = "FAILED"%string /\ 0 <= dr_attempt r <= max_attempts)).

(** [pow] returns for the exponents the backoff uses. *)
Definition pow_defined (d : dispatcher) : Prop :=
  forall n, 0 <= n < gd_max_attempts d - 1 -> is_ok (py_pow (gd_backoff_multiplier d) n) = true.

Lemma pow_defined_grows i l d d' : grows i l d d' -> pow_defined d -> pow_defined d'.
Proof. intros (A1 & _ & A3 & _) H n Hn. rewrite A3. apply H. by rewrite <- A1. Qed.

Lemma fmin_capped a b : fltb b (fmin a b) = false.
Proof. unfold fmin. destruct (fltb b a) eqn:E; [apply fltb_irrefl|done]. Qed.

Lemma sleep_spec d attempt :
  pow_defined d -> 1 <= attempt ->
  exists d' delays, _sleep_after_attempt attempt d = (d', Ok tt) /\ grows [] delays d d' /\
    capped (gd_max_backoff_seconds d) delays /\
    (List.length delays <= (if (gd_max_attempts d <=? attempt)%Z then 0 else 1))%nat.
Proof.
  intros Hp Ha. unfold _sleep_after_attempt. destruct (gd_max_attempts d <=? attempt) eqn:E.
  { exists d, []. split; [done|]. split; [apply grows_refl|]. split; [constructor|done]. }
  specialize (Hp (Z.max 0 (attempt - 1)) ltac:(lia)).
  destruct (py_pow _ _) as [factor|]; [|done].
  destruct (fleb (fmin _ _) fzero) eqn:E0.
  { exists d, []. split; [done|]. split; [apply grows_refl|]. split; [constructor|simpl; lia]. }
  eexists _, [_]. split; [reflexivity|]. split; [unfold grows; by rewrite !app_nil_r|].
  split; [constructor; [split; [apply fmin_capped|done]|constructor]|done].
Qed.

Lemma settle_failed_spec event message r d :
  dr_status r = "FAILED"%string ->
  exists d', settle_failed event message r d = (d', Ok r) /\ grows (dead_letter event message r) [] d d'.
Proof.
  intros Hs. eexists. split; [reflexivity|]. unfold dead_letter. rewrite Hs.
  unfold grows. by rewrite app_nil_r.
Qed.

(** Retrying ends: after at most [n] further attempts there is a result. *)
Lemma attempts_spec n attempt last_error key g event message d :
  pow_defined d -> 1 <= attempt -> attempt + Z.of_nat n = gd_max_attempts d + 1 ->
  exists d' r delays,
    attempts n attempt last_error key g event message (gd_max_attempts d) d = (d', Ok r) /\
    settled (gd_max_attempts d) message r /\ grows (dead_letter event message r) delays d d' /\
    capped (gd_max_backoff_seconds d) delays /\ (List.length delays <= pred n)%nat.
Proof.
  revert attempt last_error g d. induction n as [|n IH]; intros attempt last_error g d Hp Ha Hn.
  { destruct (settle_failed_spec event message
      (failed message (gw_name g) (gd_max_attempts d) (opt_or last_error "delivery_failed")) d eq_refl)
      as (d' & E & Hg).
    exists d', (failed message (gw_name g) (gd_max_attempts d) (opt_or last_error "delivery_failed")), [].
    split; [exact E|]. split; [|split; [done|split; [constructor|simpl; lia]]].
    split; [done|]. right. simpl. split; [done|lia]. }
  cbn [attempts]. unfold mbind, prog_bind, send_to. destruct (gw_send message g) as [g' out].
  set (d1 := set_gateways _ d).
  assert (H1 : grows [] [] d d1) by (unfold grows; by rewrite !app_nil_r).
  assert (Hgive : forall detail, exists d' r delays,
    settle_failed event message (failed message (gw_name g') attempt detail) d1 = (d', Ok r) /\
    settled (gd_max_attempts d) message r /\ grows (dead_letter event message r) delays d d' /\
    capped (gd_max_backoff_seconds d) delays /\ (List.length delays <= pred (S n))%nat).
  { intros detail. destruct (settle_failed_spec event message (failed message (gw_name g') attempt detail) d1 eq_refl)
      as (d' & E & Hg).
    exists d', (failed message (gw_name g') attempt detail), []. split; [exact E|].
    split; [split; [done|]; right; simpl; split; [done|lia]|].
    split; [exact (grows_trans _ _ _ _ _ _ _ H1 Hg)|]. split; [constructor|simpl; lia]. }
  assert (Hretry : forall error, exists d' r delays,
    (let '(s', r) := _sleep_after_attempt attempt d1 in
     match r with
     | Ok _ => attempts n (attempt + 1) (Some error) key g' event message (gd_max_attempts d) s'
     | Raise e => (s', Raise e)
     end) = (d', Ok r) /\
    settled (gd_max_attempts d) message r /\ grows (dead_letter event message r) delays d d' /\
    capped (gd_max_backoff_seconds d) delays /\ (List.length delays <= pred (S n))%nat).
  { intros error. destruct (sleep_spec d1 attempt) as (d2 & l1 & E2 & H2 & C2 & L2);
      [by eapply pow_defined_grows|done|]. rewrite E2.
    pose proof (grows_trans _ _ _ _ _ _ _ H1 H2) as H12. pose proof H12 as (M & _ & _ & B & _).
    destruct (IH (attempt + 1) (Some error) g' d2) as (d3 & r & l2 & E3 & S3 & H3 & C3 & L3);
      [by eapply pow_defined_grows|lia|rewrite M; lia|]. rewrite M in E3, S3. rewrite B in C3.
    exists d3, r, (l1 ++ l2). split; [exact E3|]. split; [done|].
    split; [exact (grows_trans _ _ _ _ _ _ _ H12 H3)|].
    split; [apply Forall_app; split; [exact C2|exact C3]|]. rewrite List.length_app.
    change (gd_max_attempts d1) with (gd_max_attempts d) in L2.
    destruct (gd_max_attempts d <=? attempt) eqn:El; simpl; lia. }
  destruct out as [status detail|text name retryable].
  - destruct (String.eqb status "DELIVERED").
    { eexists d1, _, []. split; [reflexivity|]. split; [split; [done|]; left; simpl; split; [done|lia]|].
      split; [exact H1|]. split; [constructor|simpl; lia]. }
    destruct (_is_retryable_status status); [apply Hretry|apply Hgive].
  - destruct retryable; simpl; [apply Hretry|apply Hgive].
Qed.

Lemma dispatch_message_spec event message d :
  pow_defined d -> 0 < gd_max_attempts d ->
  exists d' r delays, dispatch_message event message d = (d', Ok r) /\
    settled (gd_max_attempts d) message r /\ grows (dead_letter event message r) delays d d' /\
    capped (gd_max_backoff_seconds d) delays /\
    (List.length delays <= pred (Z.to_nat (gd_max_attempts d)))%nat.
Proof.
  intros Hp Hm. unfold dispatch_message. destruct (gd_gateways d !! nm_gateway message) as [g|].
  - apply attempts_spec; [done|lia|lia].
  - set (r := {| dr_message_id := nm_message_id message; dr_gateway := nm_gateway message;
           dr_status := "FAILED"; dr_attempt := 0; dr_detail := Some "gateway_not_registered"%string |}).
    destruct (settle_failed_spec event message r d eq_refl) as (d' & E & Hg). exists d', r, [].
    split; [exact E|]. split; [split; [done|]; right; simpl; split; [done|lia]|].
    split; [done|]. split; [constructor|simpl; lia].
Qed.

Definition dead_letters (event : NotificationEvent) (messages : list NotificationMessage)
    (results : list DeliveryResult) : list DlqItem :=
  flat_map (fun mr => dead_letter event mr.1 mr.2) (zip messages results).

Lemma dispatch_spec event messages d :
  pow_defined d -> 0 < gd_max_attempts d ->
  exists d' results delays, dispatch event messages d = (d', Ok results) /\
    Forall2 (settled (gd_max_attempts d)) messages results /\
    grows (dead_letters event messages results) delays d d' /\
    capped (gd_max_backoff_seconds d) delays /\
    (List.length delays <= List.length messages * pred (Z.to_nat (gd_max_attempts d)))%nat.
Proof.
  revert d. induction messages as [|message rest IH]; intros d Hp Hm.
  { exists d, [], []. split; [done|]. split; [constructor|]. split; [apply grows_refl|].
    split; [constructor|simpl; lia]. }
  destruct (dispatch_message_spec event message d Hp Hm) as (d1 & r & l1 & E1 & S1 & G1 & C1 & L1).
  pose proof G1 as (M & _ & _ & B & _).
  destruct (IH d1) as (d2 & rs & l2 & E2 & S2 & G2 & C2 & L2); [by eapply pow_defined_grows|lia|].
  rewrite M in S2, L2. rewrite B in C2.
  exists d2, (r :: rs), (l1 ++ l2). split.
  { cbn [dispatch]. unfold mbind, prog_bind. by rewrite E1, E2. }
  split; [by constructor|]. split; [exact (grows_trans _ _ _ _ _ _ _ G1 G2)|].
  split; [apply Forall_app; split; [exact C1|exact C2]|]. rewrite List.length_app. simpl. lia.
Qed.
End dispatcher.


(** ** A concrete dispatch *)

Module Example.
(** A gateway that refuses its first [n] messages with a retryable error. *)
Record flaky := { fl_left : nat }.
#[global] Instance flaky_gateway : NotificationGateway flaky := {
  gw_name _ := "telegram"%string;
  gw_send _ g := match fl_left g with
                 | O => (g, Returned "DELIVERED" None)
                 | S n => ({| fl_left := n |}, Raised "" "TimeoutError" true)
                 end;
}.
(** Repeated multiplication, exact for powers of two. *)
Definition power (x : f64) (n : Z) : result f64 := Ok (Z.iter n (fmul x) fone).
Definition dispatcher (n : nat) : GatewayDispatcher flaky :=
  {| gd_gateways := {["telegram"%string := {| fl_left := n |}]}; gd_max_attempts := 3;
     gd_backoff_base_seconds := flit 2 (-1); gd_backoff_multiplier := flit 2 0;
     gd_max_backoff_seconds := flit 2 0; gd_dlq := []; gd_slept := [] |}.
Definition event : NotificationEvent :=
  {| ne_notification_event_id := "id"; ne_trace_id := "t"; ne_decision_id := "d"; ne_mode := "MOCK";
     ne_event_type := "oms.order.filled"; ne_severity := INFO; ne_idempotency_key := "k";
     ne_emitted_at := ""; ne_service := "oms"; ne_payload := [] |}.
Definition message (id : string) : NotificationMessage :=
  {| nm_message_id := id; nm_user_id := "u"; nm_gateway := "telegram"; nm_severity := INFO;
     nm_title := ""; nm_body := ""; nm_metadata := [] |}.
End Example.

