(* ===== verification/NotificationService.v ===== *)
(** * The notification pipeline

    [services/notification_service/observability.py] (counters, delivery logs
    and trace spans, both bounded) and [service.py] (intake, routing and
    dispatch of one envelope). [perf i] and [clock i] are the readings of the
    two clocks in the order the call makes them. The optional persistence
    callback cannot affect the pipeline: its exceptions are swallowed and its
    result is not used. *)

From S2P Require Import Prelude PyStr PyFloat PyTime PyVal Envelope Broker Notification PolicyRouter.
From S2P Require Import GatewayDispatch.
From stdpp Require Import options.
From Stdlib Require Import Ascii String.

#[local] Open Scope Z_scope.

(** ** Observability *)

Record NotificationTraceSpan := {
  ts_notification_event_id : string;
  ts_trace_id : string;
  ts_decision_id : string;
  ts_stage : string;
  ts_status : string;
  ts_latency_ms : f64;
  ts_gateway : option string;
  ts_attempt : option Z;
  ts_started_at : string;
  ts_completed_at : string;
}.

Record NotificationDeliveryLog := {
  dl_notification_event_id : string;
  dl_trace_id : string;
  dl_decision_id : string;
  dl_event_type : string;
  dl_severity : string;
  dl_gateway : string;
  dl_delivery_status : string;
  dl_attempt : Z;
  dl_detail : option string;
  dl_logged_at : string;
}.

Record obs_totals := {
  received_total : Z;
  filtered_total : Z;
  dispatched_total : Z;
  delivered_total : Z;
  failed_total : Z;
  retryable_total : Z;
  dlq_total : Z;
}.

Definition zero_totals : obs_totals :=
  {| received_total := 0; filtered_total := 0; dispatched_total := 0; delivered_total := 0;
     failed_total := 0; retryable_total := 0; dlq_total := 0 |}.
Definition add_totals (received filtered dispatched delivered failed_ retryable dlq : Z) (t : obs_totals) :=
  {| received_total := received_total t + received; filtered_total := filtered_total t + filtered;
     dispatched_total := dispatched_total t + dispatched;
     delivered_total := delivered_total t + delivered; failed_total := failed_total t + failed_;
     retryable_total := retryable_total t + retryable; dlq_total := dlq_total t + dlq |}.

Record NotificationObservabilityCollector := {
  no_max_records : Z;
  no_totals : obs_totals;
  no_suppression : Z * Z;
  no_gateway_status : gmap string Z;
  no_retry_attempt_histogram : gmap string Z;
  no_recent_logs : list NotificationDeliveryLog;
  no_recent_spans : list NotificationTraceSpan;
}.

Definition collector_init (max_records : Z) : result NotificationObservabilityCollector :=
  _ ← raise_if (max_records <=? 0) ValueError "max_records must be positive";
  Ok {| no_max_records := max_records; no_totals := zero_totals; no_suppression := (0, 0);
        no_gateway_status := ∅; no_retry_attempt_histogram := ∅; no_recent_logs := [];
        no_recent_spans := [] |}.

Definition set_totals (t : obs_totals) (c : NotificationObservabilityCollector) :=
  {| no_max_records := no_max_records c; no_totals := t; no_suppression := no_suppression c;
     no_gateway_status := no_gateway_status c;
     no_retry_attempt_histogram := no_retry_attempt_histogram c;
     no_recent_logs := no_recent_logs c; no_recent_spans := no_recent_spans c |}.
Definition set_suppression (s : Z * Z) (c : NotificationObservabilityCollector) :=
  {| no_max_records := no_max_records c; no_totals := no_totals c; no_suppression := s;
     no_gateway_status := no_gateway_status c;
     no_retry_attempt_histogram := no_retry_attempt_histogram c;
     no_recent_logs := no_recent_logs c; no_recent_spans := no_recent_spans c |}.
Definition set_histograms (gs hist : gmap string Z) (c : NotificationObservabilityCollector) :=
  {| no_max_records := no_max_records c; no_totals := no_totals c; no_suppression := no_suppression c;
     no_gateway_status := gs; no_retry_attempt_histogram := hist;
     no_recent_logs := no_recent_logs c; no_recent_spans := no_recent_spans c |}.
Definition set_records (logs : list NotificationDeliveryLog) (spans : list NotificationTraceSpan)
    (c : NotificationObservabilityCollector) :=
  {| no_max_records := no_max_records c; no_totals := no_totals c; no_suppression := no_suppression c;
     no_gateway_status := no_gateway_status c;
     no_retry_attempt_histogram := no_retry_attempt_histogram c;
     no_recent_logs := logs; no_recent_spans := spans |}.

(** [records.append(x)] and then the oldest records are deleted. *)
Definition append_bounded {A} (max_records : Z) (x : A) (records : list A) : list A :=
  let l := records ++ [x] in
  if max_records <? Z.of_nat (List.length l)
  then drop (List.length l - Z.to_nat max_records) l else l.

Definition _append_log (log : NotificationDeliveryLog) (c : NotificationObservabilityCollector) :=
  set_records (append_bounded (no_max_records c) log (no_recent_logs c)) (no_recent_spans c) c.
Definition _append_span (span : NotificationTraceSpan) (c : NotificationObservabilityCollector) :=
  set_records (no_recent_logs c) (append_bounded (no_max_records c) span (no_recent_spans c)) c.

Definition record_event_received (c : NotificationObservabilityCollector) :=
  set_totals (add_totals 1 0 0 0 0 0 0 (no_totals c)) c.

Definition make_span (event : NotificationEvent) (stage status : string) (latency_ms : f64)
    (started_at completed_at : string) : NotificationTraceSpan :=
  {| ts_notification_event_id := ne_notification_event_id event; ts_trace_id := ne_trace_id event;
     ts_decision_id := ne_decision_id event; ts_stage := stage; ts_status := status;
     ts_latency_ms := latency_ms; ts_gateway := None; ts_attempt := None;
     ts_started_at := started_at; ts_completed_at := completed_at |}.

(** [suppression_delta] has the keys [dedupe] and [rate_limit]. *)
Definition record_policy_result (event : NotificationEvent) (messages_count : Z)
    (suppression_delta : Z * Z) (latency_ms : f64) (started_at completed_at : string)
    (c : NotificationObservabilityCollector) : NotificationObservabilityCollector :=
  let '(dedupe, rate_limit) := suppression_delta in
  let filtered := Z.max 0 dedupe + Z.max 0 rate_limit in
  let c1 := set_totals (add_totals 0 filtered 0 0 0 0 0 (no_totals c)) c in
  let '(s1, s2) := no_suppression c1 in
  let c2 := set_suppression (s1 + Z.max 0 dedupe, s2 + Z.max 0 rate_limit) c1 in
  let status := if messages_count =? 0 then "filtered" else "routed" in
  _append_span (make_span event "policy_router" status latency_ms started_at completed_at) c2.

Definition bump (key : string) (m : gmap string Z) : gmap string Z :=
  <[key := default 0 (m !! key) + 1]> m.

(** The body of the loop over the results. *)
Definition record_delivery (event : NotificationEvent) (completed_at : string)
    (c : NotificationObservabilityCollector) (r : DeliveryResult) : NotificationObservabilityCollector :=
  let status := upper (strip (dr_status r)) in
  let t := if String.eqb status "DELIVERED" then add_totals 0 0 0 1 0 0 0 (no_totals c)
           else if bool_decide (status ∈ ["RETRYABLE"; "RETRYABLE_ERROR"; "FAILED_RETRYABLE"]%string)
           then add_totals 0 0 0 0 0 1 0 (no_totals c)
           else add_totals 0 0 0 0 1 0 0 (no_totals c) in
  let retries := if 1 <? dr_attempt r then dr_attempt r - 1 else 0 in
  let c1 := set_totals (add_totals 0 0 0 0 0 retries 0 t) c in
  let c2 := set_histograms (bump (dr_gateway r +:+ ":" +:+ status) (no_gateway_status c1))
              (bump (str_of_Z (Z.max 1 (dr_attempt r))) (no_retry_attempt_histogram c1)) c1 in
  _append_log
    {| dl_notification_event_id := ne_notification_event_id event; dl_trace_id := ne_trace_id event;
       dl_decision_id := ne_decision_id event; dl_event_type := ne_event_type event;
       dl_severity := severity_value (ne_severity event); dl_gateway := dr_gateway r;
       dl_delivery_status := status; dl_attempt := dr_attempt r; dl_detail := dr_detail r;
       dl_logged_at := completed_at |} c2.

Definition delivered (r : DeliveryResult) : bool := String.eqb (upper (strip (dr_status r))) "DELIVERED".

Definition record_dispatch_result (event : NotificationEvent) (results : list DeliveryResult)
    (dlq_delta : Z) (latency_ms : f64) (started_at completed_at : string)
    (c : NotificationObservabilityCollector) : NotificationObservabilityCollector :=
  let c1 := set_totals (add_totals 0 0 (Z.of_nat (List.length results)) 0 0 0 (Z.max 0 dlq_delta)
                          (no_totals c)) c in
  let c2 := foldl (record_delivery event completed_at) c1 results in
  let dispatch_status :=
    if existsb (fun r => negb (delivered r)) results then
      if existsb delivered results then "partial_failure" else "failed"
    else "succeeded" in
  _append_span (make_span event "gateway_dispatch" dispatch_status latency_ms started_at completed_at) c2.

(** ** The service *)

Record NotificationService (G : Type) := {
  ns_policy_router : NotificationPolicyRouter;
  ns_dispatcher : GatewayDispatcher G;
  ns_observability : option NotificationObservabilityCollector;
}.
Arguments ns_policy_router {G} _.
Arguments ns_dispatcher {G} _.
Arguments ns_observability {G} _.

Definition _delta_counts (before after : Z * Z) : Z * Z :=
  (Z.max 0 (after.1 - before.1), Z.max 0 (after.2 - before.2)).

Definition thousand : f64 := flit 1000 0.

Section service.
Context {G : Type} `{!NotificationGateway G}.
Context (py_pow : f64 -> Z -> result f64).

Abbreviation service := (NotificationService G).

Definition observe (f : NotificationObservabilityCollector -> NotificationObservabilityCollector)
  : prog service unit :=
  modify (fun s => {| ns_policy_router := ns_policy_router s; ns_dispatcher := ns_dispatcher s;
                      ns_observability := f <$> ns_observability s |}).
Definition with_router {A} (f : NotificationPolicyRouter -> NotificationPolicyRouter * A) : prog service A :=
  fun s => let '(r, a) := f (ns_policy_router s) in
    ({| ns_policy_router := r; ns_dispatcher := ns_dispatcher s;
        ns_observability := ns_observability s |}, Ok a).
Definition with_dispatcher {A} : prog (GatewayDispatcher G) A -> prog service A :=
  zoom ns_dispatcher (fun d s => {| ns_policy_router := ns_policy_router s; ns_dispatcher := d;
                                    ns_observability := ns_observability s |}).

Definition process_envelope (perf : nat -> f64) (clock : nat -> Z) (now_seconds : f64) (envelope : val)
  : prog service NotificationProcessingResult :=
  event ← lift (normalize envelope);
  _ ← observe record_event_received;
  before ← gets (fun s => suppression_counts (ns_policy_router s));
  messages ← with_router (route event now_seconds);
  after ← gets (fun s => suppression_counts (ns_policy_router s));
  _ ← observe (record_policy_result event (Z.of_nat (List.length messages)) (_delta_counts before after)
                 (fmul (fsub (perf 1%nat) (perf 0%nat)) thousand)
                 (iso_z (clock 0%nat)) (iso_z (clock 1%nat)));
  dlq_before ← gets (fun s => List.length (dlq_items (ns_dispatcher s)));
  results ← with_dispatcher (dispatch py_pow event messages);
  dlq_after ← gets (fun s => List.length (dlq_items (ns_dispatcher s)));
  _ ← observe (record_dispatch_result event results
                 (Z.max 0 (Z.of_nat dlq_after - Z.of_nat dlq_before))
                 (fmul (fsub (perf 3%nat) (perf 2%nat)) thousand)
                 (iso_z (clock 2%nat)) (iso_z (clock 3%nat)));
  mret {| pr_event := event; pr_messages := messages; pr_results := results |}.
End service.

(** ** Accounting *)

Definition undelivered (results : list DeliveryResult) : list DeliveryResult :=
  List.filter (fun r => negb (String.eqb (dr_status r) "DELIVERED")) results.

Definition bounded_records (c : NotificationObservabilityCollector) : Prop :=
  0 < no_max_records c /\ Z.of_nat (List.length (no_recent_logs c)) <= no_max_records c /\
  Z.of_nat (List.length (no_recent_spans c)) <= no_max_records c.

Lemma append_bounded_length {A} n (x : A) l :
  0 < n -> Z.of_nat (List.length (append_bounded n x l)) <= n.
Proof.
  intros Hn. unfold append_bounded. cbv zeta. destruct (Z.ltb_spec n (Z.of_nat (List.length (l ++ [x])))).
  - rewrite length_drop. lia.
  - done.
Qed.

Lemma dead_letters_length event n messages results :
  Forall2 (settled n) messages results ->
  List.length (dead_letters event messages results) = List.length (undelivered results).
Proof.
  unfold dead_letters, undelivered. induction 1 as [|m r ms rs _ _ IH]; [done|]. simpl.
  unfold dead_letter at 1. destruct (String.eqb (dr_status r) "DELIVERED"); simpl; [done|]. by rewrite IH.
Qed.

Lemma record_delivery_spec event at_ n m r c :
  settled n m r ->
  let c' := record_delivery event at_ c r in
  let f := if String.eqb (dr_status r) "DELIVERED" then 0 else 1 in
  no_max_records c' = no_max_records c /\ no_recent_spans c' = no_recent_spans c /\
  received_total (no_totals c') = received_total (no_totals c) /\
  filtered_total (no_totals c') = filtered_total (no_totals c) /\
  dispatched_total (no_totals c') = dispatched_total (no_totals c) /\
  dlq_total (no_totals c') = dlq_total (no_totals c) /\
  delivered_total (no_totals c') = delivered_total (no_totals c) + (1 - f) /\
  failed_total (no_totals c') = failed_total (no_totals c) + f /\
  (bounded_records c -> bounded_records c').
Proof.
  intros [_ [[E _]|[E _]]]; unfold record_delivery; rewrite E; simpl;
    (repeat split; try lia; try apply append_bounded_length; destruct H as (? & ? & ?); done).
Qed.

Lemma record_deliveries_spec event at_ n messages results c :
  Forall2 (settled n) messages results ->
  let c' := foldl (record_delivery event at_) c results in
  let f := Z.of_nat (List.length (undelivered results)) in
  no_max_records c' = no_max_records c /\ no_recent_spans c' = no_recent_spans c /\
  received_total (no_totals c') = received_total (no_totals c) /\
  filtered_total (no_totals c') = filtered_total (no_totals c) /\
  dispatched_total (no_totals c') = dispatched_total (no_totals c) /\
  dlq_total (no_totals c') = dlq_total (no_totals c) /\
  delivered_total (no_totals c') =
    delivered_total (no_totals c) + (Z.of_nat (List.length results) - f) /\
  failed_total (no_totals c') = failed_total (no_totals c) + f /\
  (bounded_records c -> bounded_records c').
Proof.
  intros H. revert c. induction H as [|m r ms rs Hr _ IH]; intros c.
  { simpl. repeat (split; [lia || done|]). done. }
  pose proof (record_delivery_spec event at_ n m r c Hr) as S1.
  specialize (IH (record_delivery event at_ c r)). unfold undelivered in *. cbn [foldl List.filter].
  cbv zeta in *. destruct (String.eqb (dr_status r) "DELIVERED"); cbn [negb List.length] in *;
    destruct S1 as (A1 & A2 & A3 & A4 & A5 & A6 & A7 & A8 & A9);
    destruct IH as (B1 & B2 & B3 & B4 & B5 & B6 & B7 & B8 & B9);
    repeat (split; [lia || congruence|]); intros Hb; by apply B9, A9.
Qed.

#[local] Arguments record_policy_result : simpl never.
#[local] Arguments record_dispatch_result : simpl never.
#[local] Arguments fmul : simpl never.
#[local] Arguments fsub : simpl never.
#[local] Arguments iso_z : simpl never.

(** Every recipient is accounted for. Processing any valid envelope succeeds
    (as long as [pow] does), and each gateway of each matching preference is
    either suppressed and counted in [filtered_total], or gets one message;
    each message is delivered and counted in [delivered_total], or put in the
    dead letter queue and counted in [failed_total] and [dlq_total]; the logs
    and spans the collector keeps stay within [max_records]. *)
Theorem process_envelope_accounts {G} `{!NotificationGateway G} py_pow perf clock now e
    (s : NotificationService G) c :
  well_formed e -> ns_observability s = Some c -> bounded_records c ->
  pow_defined py_pow (ns_dispatcher s) -> 0 < gd_max_attempts (ns_dispatcher s) ->
  exists s' c' res, process_envelope py_pow perf clock now (VDict e) s = (s', Ok res) /\
    ns_observability s' = Some c' /\ bounded_records c' /\
    Forall2 (settled (gd_max_attempts (ns_dispatcher s))) (pr_messages res) (pr_results res) /\
    dlq_items (ns_dispatcher s') =
      dlq_items (ns_dispatcher s) ++ dead_letters (pr_event res) (pr_messages res) (pr_results res) /\
    let sent := Z.of_nat (List.length (pr_messages res)) in
    let lost := Z.of_nat (List.length (undelivered (pr_results res))) in
    received_total (no_totals c') = received_total (no_totals c) + 1 /\
    filtered_total (no_totals c') + sent =
      filtered_total (no_totals c) + Z.of_nat (List.length (targets (ns_policy_router s) (pr_event res))) /\
    dispatched_total (no_totals c') = dispatched_total (no_totals c) + sent /\
    delivered_total (no_totals c') = delivered_total (no_totals c) + (sent - lost) /\
    failed_total (no_totals c') = failed_total (no_totals c) + lost /\
    dlq_total (no_totals c') = dlq_total (no_totals c) + lost.
Proof.
  intros Hw Hc Hb Hp Hm. destruct (normalize_ok e Hw) as (event & En & _).
  destruct s as [router d oc]. simpl in *. subst oc.
  destruct c as [mx totals [s1 s2] gs hist logs spans].
  destruct (route event now router) as [router' messages] eqn:Er.
  destruct (route_accounts _ _ _ _ _ Er) as (M1 & M2 & Ht).
  destruct (dispatch_spec py_pow event messages d Hp Hm)
    as (d' & results & delays & Ed & Hs & (_ & _ & _ & _ & Hq & _) & _).
  unfold process_envelope, mbind, prog_bind, lift, observe, modify, gets, with_router, with_dispatcher,
    zoom, mret, prog_ret. rewrite En. cbn [ns_policy_router ns_dispatcher ns_observability].
  rewrite Er. cbn [ns_policy_router ns_dispatcher ns_observability]. rewrite Ed.
  cbn [ns_policy_router ns_dispatcher ns_observability].
  eexists _, _, _. split; [reflexivity|]. split; [reflexivity|]. cbn [pr_event pr_messages pr_results].
  unfold record_dispatch_result. set (c1 := set_totals _ (record_policy_result _ _ _ _ _ _ _)).
  destruct (record_deliveries_spec event (iso_z (clock 3%nat)) _ messages results c1 Hs)
    as (A1 & A2 & A3 & A4 & A5 & A6 & A7 & A8 & A9).
  assert (B1 : bounded_records c1).
  { destruct Hb as (H1 & H2 & H3). split; [done|]. split; [done|]. by apply append_bounded_length. }
  apply A9 in B1 as (B1 & B2 & B3).
  set (c2 := foldl _ c1 results) in *.
  pose proof (dead_letters_length event _ _ _ Hs) as Hdl.
  pose proof (Forall2_length _ _ _ Hs) as Hlen.
  split; [split; [done|]; split; [done|]; by apply append_bounded_length|].
  split; [exact Hs|]. split; [exact Hq|]. cbv zeta.
  cbn [_append_span set_records no_totals]. rewrite A3, A4, A5, A6, A7, A8.
  unfold c1, record_policy_result, _delta_counts, suppression_counts.
  cbn [fst snd set_totals no_totals _append_span set_records set_suppression add_totals received_total
       filtered_total dispatched_total delivered_total failed_total dlq_total record_event_received
       no_suppression no_max_records no_recent_logs no_recent_spans].
  unfold dlq_items. rewrite Hq, List.length_app, Hdl.
  cbn [fst snd set_totals no_totals _append_span set_records set_suppression add_totals received_total
       filtered_total dispatched_total delivered_total failed_total dlq_total record_event_received
       no_suppression no_max_records no_recent_logs no_recent_spans].
  lia.
Qed.

(** ** A concrete envelope *)

Module Example.
Definition envelope : dict :=
  [("trace_id", VStr "11111111-1111-4111-8111-111111111111");
   ("decision_id", VStr "22222222-2222-4222-8222-222222222222"); ("mode", VStr "MOCK");
   ("idempotency_key", VStr "k-1"); ("event_type", VStr "oms.order.filled");
   ("emitted_at", VStr "2024-05-01T12:00:00Z"); ("payload", VDict [("symbol", VStr "BTC/USDT")])].
Definition collector : NotificationObservabilityCollector :=
  {| no_max_records := 2; no_totals := zero_totals; no_suppression := (0, 0); no_gateway_status := ∅;
     no_retry_attempt_histogram := ∅; no_recent_logs := []; no_recent_spans := [] |}.
(** One recipient, whose gateway refuses four times. *)
Definition service : NotificationService GatewayDispatch.Example.flaky :=
  {| ns_policy_router := PolicyRouter.Example.router;
     ns_dispatcher := GatewayDispatch.Example.dispatcher 4; ns_observability := Some collector |}.
Definition perf (_ : nat) : f64 := fzero.
Definition clock (_ : nat) : Z := 1000000.
End Example.

Lemma process_envelope_accounts_witness :
  exists s' c' res,
    process_envelope GatewayDispatch.Example.power Example.perf Example.clock (flit 1000 0)
      (VDict Example.envelope) Example.service = (s', Ok res) /\
    ns_observability s' = Some c' /\ bounded_records c' /\
    List.length (pr_messages res) = 1%nat /\ List.length (undelivered (pr_results res)) = 1%nat /\
    dlq_total (no_totals c') = 1.
Proof.
  destruct (process_envelope_accounts GatewayDispatch.Example.power Example.perf Example.clock
              (flit 1000 0) Example.envelope Example.service Example.collector)
    as (s' & c' & res & E & Hc & Hb & Hs & Hq & _ & _ & _ & _ & _ & Hd).
  - apply (validates_well_formed _ tt). vm_compute. reflexivity.
  - reflexivity.
  - split; [reflexivity|]. split; vm_compute; intros H; discriminate H.
  - intros n _. reflexivity.
  - reflexivity.
  - exists s', c', res. split; [exact E|]. split; [exact Hc|]. split; [exact Hb|].
    assert (Hl : match (process_envelope GatewayDispatch.Example.power Example.perf Example.clock
                    (flit 1000 0) (VDict Example.envelope) Example.service).2 with
                 | Ok r => (List.length (pr_messages r), List.length (undelivered (pr_results r)))
                 | Raise _ => (0, 0)%nat end = (1, 1)%nat) by (vm_compute; reflexivity).
    rewrite E in Hl. cbn [snd] in Hl. injection Hl as L1 L2.
    split; [exact L1|]. split; [exact L2|]. rewrite Hd, L2. reflexivity.
Defined.
