(* ===== verification/Simulation.v ===== *)
(** * Simulated execution

    [services/simulation_execution/]: [engine.py] executes an intent against the
    reference price in it, [mode_routing.py] and [safety_guard.py] keep MOCK and
    REAL apart, [metrics_tracing.py] counts, [worker.py] connects the engine to
    the broker. Prices and fees are binary floats. [clock i] is the [i]-th clock
    reading while one intent is executed. *)

From S2P Require Import Prelude PyStr PyFloat PyTime PyUuid PyVal Envelope Broker.
From stdpp Require Import options.
From Stdlib Require Import Ascii String SpecFloat.

#[local] Open Scope Z_scope.

(** ** Mode routing *)

Definition MOCK_ROUTING_KEY : string := "execution.intent.mock".
Definition REAL_ROUTING_KEY : string := "execution.intent.real".

Definition routing_key_for_mode (mode : string) : result string :=
  let normalized := upper mode in
  if String.eqb normalized "MOCK" then Ok MOCK_ROUTING_KEY
  else if String.eqb normalized "REAL" then Ok REAL_ROUTING_KEY
  else raise ModeRoutingError ("Unsupported execution mode: " +:+ mode).

Definition route_execution_intent (envelope : val) : result string :=
  _ ← validate_envelope envelope;
  match envelope with
  | VDict e =>
      let event_type := py_str (dget_or "event_type" (VStr "") e) in
      _ ← raise_if (negb (String.eqb event_type "execution.intent.created")) ModeRoutingError
            ("Unexpected event_type for routing policy: " +:+ event_type +:+
             "; expected execution.intent.created");
      mode ← dict_index "mode" e;
      routing_key_for_mode (py_str mode)
  | _ => raise TypeError "envelope is not a mapping"
  end.

Definition assert_no_mode_leakage (routing_key : string) (envelope : val) : result unit :=
  expected ← route_execution_intent envelope;
  let mode := match envelope with VDict e => py_str (dget "mode" e) | _ => "" end in
  raise_if (negb (String.eqb routing_key expected)) ModeRoutingError
    ("Mode leakage detected: envelope mode " +:+ mode +:+ " must route to " +:+ expected +:+
     ", got " +:+ routing_key).

(** ** Safety guard *)

Record MockModeSafetyGuard := { sg_forbidden_live_markers : list string }.

Definition DEFAULT_MARKERS : list string :=
  ["/api/v3/order"; "/api/v3/order/test"; "/api/mix/v1/order"].

Definition guard_init (forbidden_live_markers : list string) : MockModeSafetyGuard :=
  {| sg_forbidden_live_markers :=
       lower <$> match forbidden_live_markers with [] => DEFAULT_MARKERS | l => l end |}.

Definition assert_mock_intent (mode queue_name : string) : result unit :=
  let normalized := upper mode in
  _ ← raise_if (negb (String.eqb normalized "MOCK")) SimulationSafetyViolation
        ("Simulation worker accepts MOCK mode only, got " +:+ mode);
  raise_if (negb (String.eqb queue_name "execution.intent.mock")) SimulationSafetyViolation
    "Simulation worker must consume execution.intent.mock queue only".

Definition assert_endpoint_allowed (g : MockModeSafetyGuard) (endpoint mode : string) : result unit :=
  if negb (String.eqb (upper mode) "MOCK") then Ok tt
  else
    let endpoint_lc := lower endpoint in
    raise_if (existsb (fun marker => contains marker endpoint_lc) (sg_forbidden_live_markers g))
      SimulationSafetyViolation ("MOCK-mode attempted live order endpoint access: " +:+ endpoint).

(** ** The engine *)

Record SimulationExecutionResult := {
  sr_order_id : string;
  sr_status : string;
  sr_action : string;
  sr_symbol : string;
  sr_quantity : f64;
  sr_fill_price : f64;
  sr_fee_paid : f64;
  sr_events : list dict;
}.

Record SimulationExecutionEngine := { se_slippage_bps : f64; se_fee_bps : f64 }.

Definition engine_init (slippage_bps fee_bps : f64) : SimulationExecutionEngine :=
  {| se_slippage_bps := fmax fzero slippage_bps; se_fee_bps := fmax fzero fee_bps |}.

Definition ten_thousand : f64 := flit 10000 0.

Definition _apply_slippage (eng : SimulationExecutionEngine) (reference_price : f64) (action : string)
  : f64 :=
  let slip_ratio := fdiv (se_slippage_bps eng) ten_thousand in
  if String.eqb action "BUY" then fmul reference_price (fadd fone slip_ratio)
  else fmul reference_price (fsub fone slip_ratio).

Definition fee_for (eng : SimulationExecutionEngine) (quantity fill_price : f64) : f64 :=
  let notional := fmul quantity fill_price in
  fmul notional (fdiv (se_fee_bps eng) ten_thousand).

Definition _order_id (envelope : dict) : string :=
  uuid_str (uuid5_url ("sim-order:" +:+ py_str (dget_or "idempotency_key" (VStr "") envelope))).

Definition _build_event (now : Z) (base_envelope : dict) (event_type idempotency_suffix : string)
    (payload : dict) : result dict :=
  trace_id ← dict_index "trace_id" base_envelope;
  decision_id ← dict_index "decision_id" base_envelope;
  mode ← dict_index "mode" base_envelope;
  key ← dict_index "idempotency_key" base_envelope;
  let event :=
    [("trace_id", VStr (py_str trace_id)); ("decision_id", VStr (py_str decision_id));
     ("mode", VStr (py_str mode));
     ("idempotency_key", VStr (py_str key +:+ ":" +:+ idempotency_suffix));
     ("event_type", VStr event_type); ("emitted_at", VStr (iso_z now));
     ("payload", VDict payload); ("service", VStr "simulation_execution")] in
  _ ← validate_envelope (VDict event);
  Ok event.

(** The first of [limit_price], [price], [reference_price] that is positive. *)
Fixpoint first_positive (fields : list string) (payload : dict) : result f64 :=
  match fields with
  | [] => raise SimulationExecutionError "unable to determine positive reference price"
  | field :: rest =>
      match dget field payload with
      | VNone => first_positive rest payload
      | value => candidate ← float_of_val value;
                 if fltb fzero candidate then Ok candidate else first_positive rest payload
      end
  end.

Definition _reference_price (payload : dict) : result f64 :=
  let fields := ["limit_price"; "price"; "reference_price"] in
  match dget "market_context" payload with
  | VDict market_context =>
      match dget "mid_price" market_context with
      | VNone => first_positive fields payload
      | mid => mid_price ← float_of_val mid;
               if fltb fzero mid_price then Ok mid_price else first_positive fields payload
      end
  | _ => first_positive fields payload
  end.

Definition _check_trigger (order_type action : string) (reference_price trigger_price : f64) : bool :=
  if String.eqb order_type "STOP_MARKET" then
    if String.eqb action "BUY" then fleb trigger_price reference_price
    else fleb reference_price trigger_price
  else if String.eqb order_type "TAKE_PROFIT_MARKET" then
    if String.eqb action "SELL" then fleb trigger_price reference_price
    else fleb reference_price trigger_price
  else false.

(** Does leg [i] of an OCO order trigger? *)
Definition leg_triggers (i : Z) (leg : val) (action : string) (reference_price : f64) : result bool :=
  match leg with
  | VDict l =>
      let leg_type := upper (py_str (dget_or "order_type" (VStr "") l)) in
      if String.eqb leg_type "LIMIT" then
        match dget "limit_price" l with
        | VNone => raise SimulationExecutionError
                     ("OCO LIMIT leg " +:+ str_of_Z i +:+ " requires limit_price")
        | limit_price =>
            lp ← float_of_val limit_price;
            Ok ((String.eqb action "BUY" && fleb reference_price lp) ||
                (String.eqb action "SELL" && fleb lp reference_price))
        end
      else if String.eqb leg_type "STOP_MARKET" || String.eqb leg_type "TAKE_PROFIT_MARKET" then
        match dget "trigger_price" l with
        | VNone => raise SimulationExecutionError
                     ("OCO " +:+ leg_type +:+ " leg " +:+ str_of_Z i +:+ " requires trigger_price")
        | trigger_price =>
            tp ← float_of_val trigger_price;
            Ok (_check_trigger leg_type action reference_price tp)
        end
      else Ok false
  | _ => raise SimulationExecutionError ("OCO leg " +:+ str_of_Z i +:+ " must be a mapping")
  end.

(** The loop stops at the first leg that triggers; later legs are not looked
    at. *)
Fixpoint triggered_leg (i : Z) (legs : list val) (action : string) (reference_price : f64)
  : result (option Z) :=
  match legs with
  | [] => Ok None
  | leg :: rest =>
      t ← leg_triggers i leg action reference_price;
      if t : bool then Ok (Some i) else triggered_leg (i + 1) rest action reference_price
  end.

(** [abs(float(payload.get("quantity", 0.0) or 0.0))] *)
Definition intent_quantity (payload : dict) : result f64 :=
  x ← float_of_val (py_or (dget_or "quantity" (VFloat fzero) payload) (VFloat fzero));
  Ok (fabs x).

Definition intent_action (payload : dict) : string :=
  upper (py_str (dget_or "action" (VStr "") payload)).
Definition intent_symbol (payload : dict) : string :=
  strip (py_str (dget_or "symbol" (VStr "") payload)).
Definition intent_order_type (payload : dict) : string :=
  upper (py_str (dget_or "order_type" (VStr "MARKET") payload)).

Definition unfilled (order_id status action symbol : string) (quantity : f64) (event : dict)
  : SimulationExecutionResult :=
  {| sr_order_id := order_id; sr_status := status; sr_action := action; sr_symbol := symbol;
     sr_quantity := quantity; sr_fill_price := fzero; sr_fee_paid := fzero; sr_events := [event] |}.

Definition _execute_oco (eng : SimulationExecutionEngine) (clock : nat -> Z) (envelope payload : dict)
    (order_id mode : string) : result SimulationExecutionResult :=
  match dget "oco_legs" payload with
  | VList [leg0; leg1] =>
      let action := intent_action payload in
      let symbol := intent_symbol payload in
      quantity ← intent_quantity payload;
      reference_price ← _reference_price payload;
      triggered ← triggered_leg 0 [leg0; leg1] action reference_price;
      match triggered with
      | None =>
          created ← _build_event (clock 0%nat) envelope "oms.order.created" "created"
            [("order_id", VStr order_id); ("action", VStr action); ("symbol", VStr symbol);
             ("quantity", VFloat quantity); ("order_type", VStr "OCO"); ("mode", VStr mode);
             ("status", VStr "SUBMITTED")];
          Ok (unfilled order_id "SUBMITTED" action symbol quantity created)
      | Some i =>
          let leg := match (if i =? 0 then leg0 else leg1) with VDict l => l | _ => [] end in
          let leg_type := upper (py_str (dget_or "order_type" (VStr "LIMIT") leg)) in
          fill_price ←
            (if String.eqb leg_type "LIMIT"
             then v ← dict_index "limit_price" leg; float_of_val v
             else Ok (_apply_slippage eng reference_price action));
          let fee_paid := fee_for eng quantity fill_price in
          created ← _build_event (clock 0%nat) envelope "oms.order.created" "created"
            [("order_id", VStr order_id); ("action", VStr action); ("symbol", VStr symbol);
             ("quantity", VFloat quantity); ("order_type", VStr "OCO"); ("triggered_leg", VInt i);
             ("mode", VStr mode); ("status", VStr "OPEN")];
          filled ← _build_event (clock 1%nat) envelope "oms.order.filled" "filled"
            [("order_id", VStr order_id); ("action", VStr action); ("symbol", VStr symbol);
             ("quantity", VFloat quantity); ("order_type", VStr "OCO"); ("triggered_leg", VInt i);
             ("fill_price", VFloat fill_price); ("fee_paid", VFloat fee_paid); ("mode", VStr mode);
             ("status", VStr "FILLED")];
          cancelled ← _build_event (clock 2%nat) envelope "oms.order.cancelled" "cancelled"
            [("order_id", VStr order_id); ("action", VStr action); ("symbol", VStr symbol);
             ("order_type", VStr "OCO"); ("cancelled_leg", VInt (1 - i));
             ("reason", VStr "oco_other_leg_filled"); ("mode", VStr mode);
             ("status", VStr "CANCELLED")];
          Ok {| sr_order_id := order_id; sr_status := "FILLED"; sr_action := action;
                sr_symbol := symbol; sr_quantity := quantity; sr_fill_price := fill_price;
                sr_fee_paid := fee_paid; sr_events := [created; filled; cancelled] |}
      end
  | _ => raise SimulationExecutionError "OCO order requires exactly 2 oco_legs"
  end.

(** [None] when the order need not wait, the trigger price when it must. *)
Definition pending_trigger (order_type action : string) (payload : dict) (reference_price : f64)
  : result (option f64) :=
  if String.eqb order_type "STOP_MARKET" || String.eqb order_type "TAKE_PROFIT_MARKET" then
    let missing := raise SimulationExecutionError
      "trigger_price must be positive for STOP_MARKET and TAKE_PROFIT_MARKET" in
    match dget "trigger_price" payload with
    | VNone => missing
    | raw =>
        trigger_price ← float_of_val raw;
        if fleb trigger_price fzero then missing
        else Ok (if _check_trigger order_type action reference_price trigger_price
                 then None else Some trigger_price)
    end
  else Ok None.

Definition fill_market (eng : SimulationExecutionEngine) (clock : nat -> Z) (envelope : dict)
    (order_id mode action symbol order_type : string) (quantity reference_price : f64)
  : result SimulationExecutionResult :=
  let fill_price := _apply_slippage eng reference_price action in
  let fee_paid := fee_for eng quantity fill_price in
  created ← _build_event (clock 0%nat) envelope "oms.order.created" "created"
    [("order_id", VStr order_id); ("action", VStr action); ("symbol", VStr symbol);
     ("quantity", VFloat quantity); ("order_type", VStr order_type); ("mode", VStr mode);
     ("status", VStr "OPEN")];
  filled ← _build_event (clock 1%nat) envelope "oms.order.filled" "filled"
    [("order_id", VStr order_id); ("action", VStr action); ("symbol", VStr symbol);
     ("quantity", VFloat quantity); ("order_type", VStr order_type);
     ("fill_price", VFloat fill_price); ("fee_paid", VFloat fee_paid); ("mode", VStr mode);
     ("status", VStr "FILLED")];
  Ok {| sr_order_id := order_id; sr_status := "FILLED"; sr_action := action; sr_symbol := symbol;
        sr_quantity := quantity; sr_fill_price := fill_price; sr_fee_paid := fee_paid;
        sr_events := [created; filled] |}.

Definition ACTIONS : list string := ["BUY"; "SELL"; "HOLD"; "CLOSE"].
Definition ORDER_TYPES : list string :=
  ["MARKET"; "LIMIT"; "STOP_MARKET"; "TAKE_PROFIT_MARKET"; "OCO"].

Definition execute_payload (eng : SimulationExecutionEngine) (clock : nat -> Z) (e payload : dict)
    (mode : string) : result SimulationExecutionResult :=
  let action := intent_action payload in
  let symbol := intent_symbol payload in
  quantity ← intent_quantity payload;
  let order_type := intent_order_type payload in
  _ ← raise_if (is_empty symbol) SimulationExecutionError "execution intent must include symbol";
  _ ← raise_if (negb (bool_decide (action ∈ ACTIONS))) SimulationExecutionError
        ("unsupported action: " +:+ action);
  _ ← raise_if (negb (bool_decide (order_type ∈ ORDER_TYPES))) SimulationExecutionError
        ("unsupported order_type: " +:+ order_type);
  let order_id := _order_id e in
  if String.eqb action "HOLD" || fleb quantity fzero then
    ignored ← _build_event (clock 0%nat) e "oms.order.ignored" "ignored"
      [("order_id", VStr order_id); ("action", VStr action); ("symbol", VStr symbol);
       ("quantity", VFloat quantity); ("status", VStr "IGNORED")];
    Ok (unfilled order_id "IGNORED" action symbol quantity ignored)
  else
    reference_price ← _reference_price payload;
    waiting ← pending_trigger order_type action payload reference_price;
    match waiting with
    | Some trigger_price =>
        created ← _build_event (clock 0%nat) e "oms.order.created" "created"
          [("order_id", VStr order_id); ("action", VStr action); ("symbol", VStr symbol);
           ("quantity", VFloat quantity); ("order_type", VStr order_type);
           ("trigger_price", VFloat trigger_price); ("mode", VStr mode);
           ("status", VStr "SUBMITTED")];
        Ok (unfilled order_id "SUBMITTED" action symbol quantity created)
    | None =>
        if String.eqb order_type "OCO" then _execute_oco eng clock e payload order_id mode
        else fill_market eng clock e order_id mode action symbol order_type quantity reference_price
    end.

Definition execute_intent (eng : SimulationExecutionEngine) (clock : nat -> Z) (envelope : val)
  : result SimulationExecutionResult :=
  _ ← validate_envelope envelope;
  match envelope with
  | VDict e =>
      mode_value ← dict_index "mode" e;
      let mode := upper (py_str mode_value) in
      _ ← raise_if (negb (String.eqb mode "MOCK")) SimulationExecutionError
            "SimulationExecutionEngine accepts MOCK mode only";
      payload_value ← dict_index "payload" e;
      match payload_value with
      | VDict payload => execute_payload eng clock e payload mode
      | _ => raise SimulationExecutionError "execution intent payload must be a mapping"
      end
  | _ => raise TypeError "envelope is not a mapping"
  end.

(** ** Events *)

Definition event_of (now : Z) (e : dict) (event_type suffix : string) (payload : dict) : dict :=
  [("trace_id", VStr (py_str (dget "trace_id" e))); ("decision_id", VStr (py_str (dget "decision_id" e)));
   ("mode", VStr (py_str (dget "mode" e)));
   ("idempotency_key", VStr (py_str (dget "idempotency_key" e) +:+ ":" +:+ suffix));
   ("event_type", VStr event_type); ("emitted_at", VStr (iso_z now));
   ("payload", VDict payload); ("service", VStr "simulation_execution")].

Lemma event_well_formed now e et suf payload :
  well_formed e -> in_range now = true -> strip et <> ""%string ->
  well_formed (event_of now e et suf payload).
Proof.
  intros [(t & T & VT) (dc & D & VD) (m & M & VM) (k & K & VK) _ _ _] Hn He.
  unfold event_of, dget. rewrite T, D, M, K. simpl. split; simpl.
  - by exists t.
  - by exists dc.
  - by exists m.
  - eexists. split; [done|]. apply strip_nonempty. rewrite str_forallb_app. simpl. apply andb_false_r.
  - by exists et.
  - eexists. split; [done|]. by apply valid_stamp_iso.
  - by exists payload.
Qed.

(** Building an event from a valid envelope never fails. *)
Lemma build_event_eq now e et suf payload :
  well_formed e -> in_range now = true -> strip et <> ""%string ->
  _build_event now e et suf payload = Ok (event_of now e et suf payload).
Proof.
  intros Hw Hn He. pose proof (event_well_formed now e et suf payload Hw Hn He) as Hev.
  destruct Hw as [(t & T & VT) (dc & D & VD) (m & M & VM) (k & K & VK) _ _ _].
  assert (E : _build_event now e et suf payload =
    (_ ← validate_envelope (VDict (event_of now e et suf payload)); Ok (event_of now e et suf payload))).
  { unfold _build_event, dict_index, event_of, dget. by rewrite T, D, M, K. }
  assert (Hv : validate_envelope (VDict (event_of now e et suf payload)) = Ok tt).
  { apply validate_envelope_iff. by eexists. }
  by rewrite E, Hv.
Qed.

Lemma build_event_inv now e et suf payload ev :
  _build_event now e et suf payload = Ok ev ->
  ev = event_of now e et suf payload /\ well_formed ev.
Proof.
  unfold _build_event, dict_index, event_of, dget. intros H.
  destruct (dict_get "trace_id" e); [|done]. destruct (dict_get "decision_id" e); [|done].
  destruct (dict_get "mode" e); [|done]. destruct (dict_get "idempotency_key" e); [|done].
  simpl in H. apply bind_Ok in H as ([] & Hv & H). injection H as <-. split; [done|].
  apply validate_envelope_iff in Hv as (e' & [= <-] & Hw). done.
Qed.

(** ** Redelivery *)

(** Everything but the time stamps. *)
Definition untimed (r : SimulationExecutionResult) : SimulationExecutionResult :=
  {| sr_order_id := sr_order_id r; sr_status := sr_status r; sr_action := sr_action r;
     sr_symbol := sr_symbol r; sr_quantity := sr_quantity r; sr_fill_price := sr_fill_price r;
     sr_fee_paid := sr_fee_paid r; sr_events := dict_set "emitted_at" VNone <$> sr_events r |}.

#[local] Arguments triggered_leg : simpl never.
#[local] Arguments _build_event : simpl never.
#[local] Arguments float_of_val : simpl never.
#[local] Arguments dict_index : simpl never.
#[local] Arguments untimed : simpl never.

Lemma untimed_event now e et suf payload :
  dict_set "emitted_at" VNone (event_of now e et suf payload) =
  dict_set "emitted_at" VNone (event_of 0 e et suf payload).
Proof. reflexivity. Qed.

(** The events of both sides are built, and agree once their times are gone. *)
Ltac same_untimed :=
  rewrite !build_event_eq by first [assumption | intros; discriminate | auto];
  cbn [mbind result_bind fmap result_fmap]; unfold untimed, unfilled;
  cbn [sr_order_id sr_status sr_action sr_symbol sr_quantity sr_fill_price sr_fee_paid sr_events
       fmap list_fmap];
  repeat match goal with
  | |- context [event_of (?c ?i) ?e ?t ?s ?p] => rewrite (untimed_event (c i) e t s p)
  end; reflexivity.

Lemma oco_untimed eng c1 c2 e payload order_id mode :
  well_formed e -> (forall i, in_range (c1 i) = true) -> (forall i, in_range (c2 i) = true) ->
  untimed <$> _execute_oco eng c1 e payload order_id mode =
  untimed <$> _execute_oco eng c2 e payload order_id mode.
Proof.
  intros Hw H1 H2. unfold _execute_oco. cbv zeta.
  destruct (dget "oco_legs" payload) as [| | | | | |[|leg0 [|leg1 [|leg2 l]]]|]; try exact eq_refl.
  apply fmap_bind_ext. intros quantity _. apply fmap_bind_ext. intros price _.
  apply fmap_bind_ext. intros [i|] _; [|same_untimed].
  apply fmap_bind_ext. intros fp _. same_untimed.
Qed.

Lemma execute_payload_untimed eng c1 c2 e payload mode :
  well_formed e -> (forall i, in_range (c1 i) = true) -> (forall i, in_range (c2 i) = true) ->
  untimed <$> execute_payload eng c1 e payload mode = untimed <$> execute_payload eng c2 e payload mode.
Proof.
  intros Hw H1 H2. unfold execute_payload. cbv zeta.
  apply fmap_bind_ext. intros quantity _. do 3 (apply fmap_bind_ext; intros _ _).
  destruct (String.eqb (intent_action payload) "HOLD" || fleb quantity fzero); [same_untimed|].
  apply fmap_bind_ext. intros price _. apply fmap_bind_ext. intros [tp|] _; [same_untimed|].
  destruct (String.eqb (intent_order_type payload) "OCO"); [by apply oco_untimed|].
  unfold fill_market. cbv zeta. same_untimed.
Qed.

(** Executing an intent is idempotent up to time stamps: the same envelope
    handed over again, at any other times, gives the same order id, the same
    status, prices and fee, and the same events with the same idempotency
    keys (or the same exception); only [emitted_at] differs. Consumers that
    drop repeated keys therefore see an order once. *)
Theorem execute_intent_idempotent eng c1 c2 envelope :
  (forall i, in_range (c1 i) = true) -> (forall i, in_range (c2 i) = true) ->
  untimed <$> execute_intent eng c1 envelope = untimed <$> execute_intent eng c2 envelope.
Proof.
  intros H1 H2. unfold execute_intent. apply fmap_bind_ext. intros [] Hv.
  apply validate_envelope_iff in Hv as (e & -> & Hw).
  apply fmap_bind_ext. intros mv _. apply fmap_bind_ext. intros _ _.
  apply fmap_bind_ext. intros [| | | | | | |payload] _; [exact eq_refl..|].
  by apply execute_payload_untimed.
Qed.

(** ** What the engine emits *)

(** An event of the intent [e] for the order [order_id]. *)
Definition event_about (e : dict) (order_id : string) (ev : dict) : Prop :=
  well_formed ev /\ dict_get "mode" ev = Some (VStr "MOCK") /\
  dict_get "trace_id" ev = dict_get "trace_id" e /\
  dict_get "decision_id" ev = dict_get "decision_id" e /\
  exists p, dict_get "payload" ev = Some (VDict p) /\ dict_get "order_id" p = Some (VStr order_id).

Lemma build_event_about now e et suf payload ev order_id :
  well_formed e -> upper (py_str (dget "mode" e)) = "MOCK"%string ->
  dict_get "order_id" payload = Some (VStr order_id) ->
  _build_event now e et suf payload = Ok ev -> event_about e order_id ev.
Proof.
  intros Hw Hm Ho H. apply build_event_inv in H as [-> Hwf]. split; [done|].
  destruct Hw as [(t & T & VT) (dc & D & VD) (m & M & VM) _ _ _ _].
  unfold event_of, dget in *. rewrite T, D, M in *. simpl in *.
  assert (m = "MOCK"%string) as ->.
  { unfold ALLOWED_MODES in VM. rewrite !elem_of_cons, elem_of_nil in VM.
    by destruct VM as [->|[->|[]]]. }
  split; [done|]. split; [done|]. split; [done|]. by exists payload.
Qed.

Ltac events_about :=
  unfold unfilled; cbn [sr_events];
  repeat (apply Forall_cons; split;
    [eapply build_event_about; [eassumption|eassumption| |eassumption]; reflexivity|]);
  apply Forall_nil_2.

Lemma oco_events eng clock e payload order_id mode r :
  well_formed e -> upper (py_str (dget "mode" e)) = "MOCK"%string ->
  _execute_oco eng clock e payload order_id mode = Ok r ->
  sr_order_id r = order_id /\ Forall (event_about e order_id) (sr_events r).
Proof.
  intros Hw Hm H. unfold _execute_oco in H.
  destruct (dget "oco_legs" payload) as [| | | | | |[|leg0 [|leg1 [|]]]|]; try done.
  apply bind_Ok in H as (quantity & _ & H). apply bind_Ok in H as (price & _ & H).
  apply bind_Ok in H as ([i|] & _ & H).
  - apply bind_Ok in H as (fp & _ & H). apply bind_Ok in H as (c & Ec & H).
    apply bind_Ok in H as (f & Ef & H). apply bind_Ok in H as (x & Ex & H). injection H as <-.
    split; [done|]. events_about.
  - apply bind_Ok in H as (c & Ec & H). injection H as <-. split; [done|].
    events_about.
Qed.

(** An intent that executes was valid and in MOCK mode, and so are its events. *)
Lemma execute_intent_events eng clock envelope r :
  execute_intent eng clock envelope = Ok r ->
  exists e, envelope = VDict e /\ well_formed e /\ dict_get "mode" e = Some (VStr "MOCK") /\
    sr_order_id r = _order_id e /\ Forall (event_about e (_order_id e)) (sr_events r).
Proof.
  intros H. unfold execute_intent in H. apply bind_Ok in H as ([] & Hv & H).
  apply validate_envelope_iff in Hv as (e & -> & Hw). exists e. split; [done|]. split; [done|].
  apply bind_Ok in H as (mv & Em & H). apply bind_Ok in H as ([] & Hm & H).
  apply bind_Ok in H as (pv & Ep & H). apply raise_if_Ok, negb_false_iff, String.eqb_eq in Hm.
  assert (Hmode : dict_get "mode" e = Some (VStr "MOCK")).
  { destruct Hw as [_ _ (m & M & VM) _ _ _ _]. unfold dict_index in Em. rewrite M in Em.
    injection Em as <-. simpl in Hm. unfold ALLOWED_MODES in VM.
    rewrite !elem_of_cons, elem_of_nil in VM. by destruct VM as [->|[->|[]]]. }
  split; [done|]. assert (Hm' : upper (py_str (dget "mode" e)) = "MOCK"%string).
  { unfold dget. by rewrite Hmode. }
  destruct pv as [| | | | | | |payload]; try done. unfold execute_payload in H.
  apply bind_Ok in H as (quantity & _ & H). do 3 (apply bind_Ok in H as ([] & _ & H)).
  destruct (_ || _).
  { apply bind_Ok in H as (ev & Eev & H). injection H as <-. split; [done|].
    events_about. }
  apply bind_Ok in H as (price & _ & H). apply bind_Ok in H as ([tp|] & _ & H).
  { apply bind_Ok in H as (ev & Eev & H). injection H as <-. split; [done|].
    events_about. }
  destruct (String.eqb _ "OCO"); [by eapply oco_events|]. unfold fill_market in H.
  apply bind_Ok in H as (c & Ec & H). apply bind_Ok in H as (f & Ef & H). injection H as <-.
  split; [done|]. events_about.
Qed.

(** C9. The engine stays in the simulation: if an intent executes, its envelope
    was valid and in MOCK mode, the order id is derived from the idempotency
    key alone, and every event emitted is itself a valid envelope in MOCK mode
    that carries the intent's trace and decision ids and the order id. *)
Theorem execute_intent_mock_only eng clock envelope r :
  execute_intent eng clock envelope = Ok r ->
  exists e, envelope = VDict e /\ well_formed e /\ dict_get "mode" e = Some (VStr "MOCK") /\
    sr_order_id r = _order_id e /\ Forall (event_about e (_order_id e)) (sr_events r).
Proof. apply execute_intent_events. Qed.

(** ** A concrete intent *)

Module Example.
Definition engine : SimulationExecutionEngine := engine_init (flit 5 0) (flit 10 0).
Definition intent : dict :=
  [("trace_id", VStr "11111111-1111-4111-8111-111111111111");
   ("decision_id", VStr "22222222-2222-4222-8222-222222222222"); ("mode", VStr "MOCK");
   ("idempotency_key", VStr "intent-1"); ("event_type", VStr "execution.intent.created");
   ("emitted_at", VStr "2024-05-01T12:00:00Z");
   ("payload", VDict [("action", VStr "BUY"); ("symbol", VStr "BTC/USDT"); ("quantity", VFloat (flit 5 (-1)));
                      ("market_context", VDict [("mid_price", VInt 50000)])])].
Definition clock (_ : nat) : Z := 63850000000000000.
Definition later (_ : nat) : Z := 63850000000009999.
End Example.

Lemma execute_intent_idempotent_witness :
  untimed <$> execute_intent Example.engine Example.clock (VDict Example.intent) =
  untimed <$> execute_intent Example.engine Example.later (VDict Example.intent) /\
  is_ok (execute_intent Example.engine Example.clock (VDict Example.intent)) = true.
Proof.
  split; [|vm_compute; reflexivity]. apply execute_intent_idempotent; intros i; reflexivity.
Defined.

Lemma execute_intent_mock_only_witness :
  exists r, execute_intent Example.engine Example.clock (VDict Example.intent) = Ok r /\
    sr_status r = "FILLED"%string /\ Forall (event_about Example.intent (_order_id Example.intent)) (sr_events r).
Proof.
  destruct (execute_intent Example.engine Example.clock (VDict Example.intent)) as [r|e] eqn:E.
  - exists r. split; [reflexivity|]. split.
    + assert (H : (sr_status <$> execute_intent Example.engine Example.clock (VDict Example.intent)) =
        Ok "FILLED"%string) by (vm_compute; reflexivity).
      rewrite E in H. injection H as H. exact H.
    + destruct (execute_intent_mock_only _ _ _ _ E) as (e & [= <-] & _ & _ & _ & H). exact H.
  - assert (H : is_ok (execute_intent Example.engine Example.clock (VDict Example.intent)) = true)
      by (vm_compute; reflexivity).
    rewrite E in H. discriminate H.
Defined.
