(* ===== verification/SimulationWorker.v ===== *)
(** * The simulation worker

    [services/simulation_execution/metrics_tracing.py] and [worker.py]: one step
    of the worker takes an intent from its queue, guards it, executes it and
    publishes the order events, and, with a notification bridge, a notification
    for each. The worker, the bridge and the queue share one broker. The clock
    arguments are the readings the step makes, in order. *)

From S2P Require Import Prelude PyStr PyFloat PyTime PyVal Envelope Broker Notification Simulation.
From stdpp Require Import options.
From Stdlib Require Import Ascii String.

#[local] Open Scope Z_scope.

(** ** Metrics *)

Record ExecutionTraceSpan := {
  es_trace_id : string;
  es_decision_id : string;
  es_mode : string;
  es_stage : string;
  es_status : string;
  es_latency_ms : f64;
  es_error_type : option string;
  es_started_at : string;
  es_completed_at : string;
}.

Record SimulationExecutionMetrics := {
  sm_runs_total : Z;
  sm_success_total : Z;
  sm_failure_total : Z;
  sm_events_published_total : Z;
  sm_latencies_ms : list f64;
  sm_spans : list ExecutionTraceSpan;
}.

Definition metrics_init : SimulationExecutionMetrics :=
  {| sm_runs_total := 0; sm_success_total := 0; sm_failure_total := 0; sm_events_published_total := 0;
     sm_latencies_ms := []; sm_spans := [] |}.

(** The ids an envelope is traced by. *)
Record span_ids := Ids { id_trace : string; id_decision : string; id_mode : string; id_stage : string }.

Definition make_span (ids : span_ids) (status : string) (latency_ms : f64) (error_type : option string)
    (started_at completed_at : string) : ExecutionTraceSpan :=
  {| es_trace_id := id_trace ids; es_decision_id := id_decision ids; es_mode := id_mode ids;
     es_stage := id_stage ids; es_status := status; es_latency_ms := latency_ms;
     es_error_type := error_type; es_started_at := started_at; es_completed_at := completed_at |}.

Definition record_success (ids : span_ids) (latency_ms : f64) (events_published : Z)
    (started_at completed_at : string) (m : SimulationExecutionMetrics) : SimulationExecutionMetrics :=
  {| sm_runs_total := sm_runs_total m + 1; sm_success_total := sm_success_total m + 1;
     sm_failure_total := sm_failure_total m;
     sm_events_published_total := sm_events_published_total m + Z.max 0 events_published;
     sm_latencies_ms := sm_latencies_ms m ++ [latency_ms];
     sm_spans := sm_spans m ++ [make_span ids "succeeded" latency_ms None started_at completed_at] |}.

Definition record_failure (ids : span_ids) (latency_ms : f64) (error_type : string)
    (started_at completed_at : string) (m : SimulationExecutionMetrics) : SimulationExecutionMetrics :=
  {| sm_runs_total := sm_runs_total m + 1; sm_success_total := sm_success_total m;
     sm_failure_total := sm_failure_total m + 1;
     sm_events_published_total := sm_events_published_total m;
     sm_latencies_ms := sm_latencies_ms m ++ [latency_ms];
     sm_spans := sm_spans m ++
       [make_span ids "failed" latency_ms (Some error_type) started_at completed_at] |}.

(** ** The worker *)

Record SimulationExecutionWorker := {
  sw_broker : InMemoryTopicBroker;
  sw_engine : SimulationExecutionEngine;
  sw_metrics : SimulationExecutionMetrics;
  sw_notification_bridge : option NotificationEventBridge;
  sw_consume_queue : string;
  sw_publish_routing_key : string;
}.

Definition set_broker (b : InMemoryTopicBroker) (w : SimulationExecutionWorker) :=
  {| sw_broker := b; sw_engine := sw_engine w; sw_metrics := sw_metrics w;
     sw_notification_bridge := sw_notification_bridge w; sw_consume_queue := sw_consume_queue w;
     sw_publish_routing_key := sw_publish_routing_key w |}.
Definition set_metrics (m : SimulationExecutionMetrics) (w : SimulationExecutionWorker) :=
  {| sw_broker := sw_broker w; sw_engine := sw_engine w; sw_metrics := m;
     sw_notification_bridge := sw_notification_bridge w; sw_consume_queue := sw_consume_queue w;
     sw_publish_routing_key := sw_publish_routing_key w |}.

(** The readings of one step: the engine's clock, the clock and random UUIDs of
    the bridge (by event), the worker's own clock, and [perf_counter]. *)
Record readings := {
  rd_engine : nat -> Z;
  rd_bridge : nat -> Z;
  rd_uuid4 : nat -> Z;
  rd_worker : nat -> Z;
  rd_perf : nat -> f64;
}.

(** The body of the loop over [result.events]. *)
Definition publish_event (rd : readings) (ievent : nat * dict) : prog SimulationExecutionWorker unit :=
  fun w =>
  let '(i, event) := ievent in
  zoom sw_broker set_broker
    (_ ← broker_publish (sw_publish_routing_key w) event;
     match sw_notification_bridge w with
     | Some bridge => _ ← publish_oms_event bridge (rd_bridge rd i) (rd_uuid4 rd i) event; mret tt
     | None => mret tt
     end) w.

Definition process (rd : readings) (mode : string) (envelope : dict)
  : prog SimulationExecutionWorker SimulationExecutionResult := fun w =>
  (_ ← lift (assert_mock_intent mode (sw_consume_queue w));
   r ← lift (execute_intent (sw_engine w) (rd_engine rd) (VDict envelope));
   _ ← for_each (publish_event rd) (imap pair (sr_events r));
   mret r) w.

Definition latency (rd : readings) : f64 :=
  fmul (fsub (rd_perf rd 1%nat) (rd_perf rd 0%nat)) (flit 1000 0).

Definition run_once (rd : readings) : prog SimulationExecutionWorker (option SimulationExecutionResult) :=
  fun w =>
  match consume (sw_consume_queue w) (sw_broker w) with
  | Raise e => (w, Raise e)
  | Ok (b, None) => (set_broker b w, Ok None)
  | Ok (b, Some envelope) =>
      let str_at k dflt := py_str (dget_or k (VStr dflt) envelope) in
      let mode := str_at "mode" "unknown" in
      let ids := Ids (str_at "trace_id" "unknown") (str_at "decision_id" "unknown") mode
                     "simulation_execution_worker.run_once" in
      let started_at := iso_z (rd_worker rd 0%nat) in
      let completed_at := iso_z (rd_worker rd 1%nat) in
      on_error
        (r ← process rd mode envelope;
         _ ← modify (fun w => set_metrics
               (record_success ids (latency rd) (Z.of_nat (List.length (sr_events r)))
                  started_at completed_at (sw_metrics w)) w);
         mret (Some r))
        (fun e w => set_metrics
           (record_failure ids (latency rd) (exc_name (exc_cls e)) started_at completed_at
              (sw_metrics w)) w)
        (set_broker b w)
  end.

(** ** One step *)

(** The publications of one event, and of a step. *)
Definition event_log (w : SimulationExecutionWorker) (rd : readings) (ievent : nat * dict)
  : list (string * dict) :=
  let '(i, event) := ievent in
  (sw_publish_routing_key w, event) ::
  match sw_notification_bridge w with
  | Some bridge =>
      [(nb_routing_key bridge,
        notification_envelope bridge (rd_bridge rd i) (rd_uuid4 rd i) "notify.oms.event" event)]
  | None => []
  end.
Definition step_log (w : SimulationExecutionWorker) (rd : readings) (events : list dict)
  : list (string * dict) := flat_map (event_log w rd) (imap pair events).

Lemma bridge_emits bridge now uuid4 event b :
  bindings_declared b -> well_formed event ->
  exists b', publish_oms_event bridge now uuid4 event b =
      (b', Ok (notification_envelope bridge now uuid4 "notify.oms.event" event)) /\
    emits b b' [(nb_routing_key bridge, notification_envelope bridge now uuid4 "notify.oms.event" event)].
Proof.
  intros Hd Hw. unfold publish_oms_event, _publish_from_source, mbind, prog_bind, lift.
  rewrite well_formed_validates.
  - destruct (broker_publish_emits (nb_routing_key bridge)
      (notification_envelope bridge now uuid4 "notify.oms.event" event) b Hd) as (b' & r & E & He).
    exists b'. by rewrite E.
  - apply notification_envelope_wf; [auto with envelope|].
    destruct Hw as [_ _ _ _ _ (st & S & V) _]. unfold dget_or. by rewrite S.
Qed.

Lemma publish_event_spec rd ievent w :
  bindings_declared (sw_broker w) -> well_formed ievent.2 ->
  exists b', publish_event rd ievent w = (set_broker b' w, Ok tt) /\
    emits (sw_broker w) b' (event_log w rd ievent).
Proof.
  intros Hd Hw. destruct ievent as [i event]. simpl in Hw.
  destruct (broker_publish_emits (sw_publish_routing_key w) event (sw_broker w) Hd) as (b1 & r1 & E1 & H1).
  unfold publish_event, zoom, event_log, mbind, prog_bind. rewrite E1.
  destruct (sw_notification_bridge w) as [bridge|]; [|by exists b1].
  destruct (bridge_emits bridge (rd_bridge rd i) (rd_uuid4 rd i) event b1) as (b2 & E2 & H2);
    [by eapply emits_declared|done|].
  exists b2. rewrite E2. split; [reflexivity|]. exact (emits_trans _ _ _ _ _ H1 H2).
Qed.

Lemma publish_events_spec rd ievents w :
  bindings_declared (sw_broker w) -> Forall (fun ie => well_formed ie.2) ievents ->
  exists b', for_each (publish_event rd) ievents w = (set_broker b' w, Ok tt) /\
    emits (sw_broker w) b' (flat_map (event_log w rd) ievents).
Proof.
  revert w. induction ievents as [|ie ies IH]; intros w Hd Hw.
  { exists (sw_broker w). split; [by destruct w|]. apply emits_refl. }
  apply Forall_cons in Hw as [H1 H2].
  destruct (publish_event_spec rd ie w Hd H1) as (b1 & E1 & He1).
  destruct (IH (set_broker b1 w)) as (b2 & E2 & He2); [by eapply emits_declared|done|].
  exists b2. split.
  - cbn [for_each]. unfold mbind, prog_bind. rewrite E1. exact E2.
  - exact (emits_trans _ _ _ _ _ He1 He2).
Qed.

Lemma process_spec rd mode m w :
  bindings_declared (sw_broker w) ->
  match process rd mode m w with
  | (w', Ok r) =>
      execute_intent (sw_engine w) (rd_engine rd) (VDict m) = Ok r /\
      exists b', w' = set_broker b' w /\ emits (sw_broker w) b' (step_log w rd (sr_events r))
  | (w', Raise e) =>
      w' = w /\ (assert_mock_intent mode (sw_consume_queue w) = Raise e \/
                 execute_intent (sw_engine w) (rd_engine rd) (VDict m) = Raise e)
  end.
Proof.
  intros Hd. unfold process, mbind, prog_bind, lift.
  destruct (assert_mock_intent _ _) as [[]|e]; [|by split; [|left]].
  destruct (execute_intent _ _ _) as [r|e] eqn:Ei; [|by split; [|right]].
  apply execute_intent_events in Ei as Hev. destruct Hev as (env & _ & _ & _ & _ & Hev).
  destruct (publish_events_spec rd (imap pair (sr_events r)) w Hd) as (b' & E & He).
  { apply Forall_forall. intros [i event] Hin. apply list_elem_of_lookup in Hin as (j & Hj).
    rewrite list_lookup_imap in Hj. destruct (sr_events r !! j) as [event'|] eqn:Ej; [|done].
    injection Hj as <- <-. apply list_elem_of_lookup_2 in Ej.
    rewrite Forall_forall in Hev. apply (Hev _ Ej). }
  rewrite E. split; [done|]. exists b'. split; [done|]. exact He.
Qed.

(** A step of the worker is all or nothing, and takes its intent for good.
    When its queue holds an intent, the step removes it; then either the guard
    and the engine accept it, and exactly its events (and, with a bridge, a
    valid notification for each) have been published, in order; or it is
    refused, the exception goes on, and nothing has been published. Either way
    the metrics count one run, as a success with its events or as a failure. *)
Theorem run_once_all_or_nothing rd w m rest :
  bindings_declared (sw_broker w) -> br_queues (sw_broker w) !! sw_consume_queue w = Some (m :: rest) ->
  exists b, consume (sw_consume_queue w) (sw_broker w) = Ok (b, Some m) /\
  let '(w', outcome) := run_once rd w in
  sm_runs_total (sw_metrics w') = sm_runs_total (sw_metrics w) + 1 /\
  match outcome with
  | Ok None => False
  | Ok (Some r) =>
      execute_intent (sw_engine w) (rd_engine rd) (VDict m) = Ok r /\
      emits b (sw_broker w') (step_log w rd (sr_events r)) /\
      sm_success_total (sw_metrics w') = sm_success_total (sw_metrics w) + 1 /\
      sm_failure_total (sw_metrics w') = sm_failure_total (sw_metrics w) /\
      sm_events_published_total (sw_metrics w') =
        sm_events_published_total (sw_metrics w) + Z.of_nat (List.length (sr_events r))
  | Raise e =>
      (assert_mock_intent (py_str (dget_or "mode" (VStr "unknown") m)) (sw_consume_queue w) = Raise e \/
       execute_intent (sw_engine w) (rd_engine rd) (VDict m) = Raise e) /\
      sw_broker w' = b /\
      sm_success_total (sw_metrics w') = sm_success_total (sw_metrics w) /\
      sm_failure_total (sw_metrics w') = sm_failure_total (sw_metrics w) + 1 /\
      sm_events_published_total (sw_metrics w') = sm_events_published_total (sw_metrics w)
  end.
Proof.
  intros Hd Hq. set (b := set_queues (<[sw_consume_queue w := rest]> (br_queues (sw_broker w))) (sw_broker w)).
  assert (Hc : consume (sw_consume_queue w) (sw_broker w) = Ok (b, Some m)).
  { unfold consume. by rewrite Hq. }
  exists b. split; [exact Hc|]. unfold run_once. rewrite Hc.
  set (mode := py_str (dget_or "mode" (VStr "unknown") m)).
  assert (Hb : bindings_declared (sw_broker (set_broker b w))).
  { intros p s x Hp Hx. simpl in *. destruct (decide (x = sw_consume_queue w)) as [->|];
      [by rewrite lookup_insert_eq|]. rewrite lookup_insert_ne by done. by apply (Hd p s). }
  pose proof (process_spec rd mode m (set_broker b w) Hb) as Hp.
  unfold on_error, mbind, prog_bind.
  destruct (process rd mode m (set_broker b w)) as [w1 [r|e]].
  - destruct Hp as (Ei & b' & -> & He). cbn. split; [done|]. split; [exact Ei|]. split; [exact He|].
    split; [done|]. split; [done|]. lia.
  - destruct Hp as (-> & Hr). cbn. done.
Qed.

(** ** A concrete step *)

Module Example.
(** The queue of the worker and a queue for order updates. *)
Definition broker : InMemoryTopicBroker :=
  {| br_queues := {["execution.intent.mock"%string := [Simulation.Example.intent];
                    "orders"%string := ([] : list dict)]};
     br_bindings := {["oms.order.*"%string := {["orders"%string]}]} |}.
Definition worker : SimulationExecutionWorker :=
  {| sw_broker := broker; sw_engine := Simulation.Example.engine; sw_metrics := metrics_init;
     sw_notification_bridge := Some default_bridge; sw_consume_queue := MOCK_ROUTING_KEY;
     sw_publish_routing_key := "oms.order.mock" |}.
Definition rd : readings :=
  {| rd_engine := Simulation.Example.clock; rd_bridge := Simulation.Example.clock;
     rd_uuid4 := fun _ => 1; rd_worker := Simulation.Example.clock; rd_perf := fun _ => fzero |}.
Definition orders (w : SimulationExecutionWorker) : option nat :=
  List.length <$> br_queues (sw_broker w) !! "orders"%string.
End Example.

Lemma run_once_all_or_nothing_witness :
  Example.orders (run_once Example.rd Example.worker).1 = Some 2%nat /\
  exists b, consume MOCK_ROUTING_KEY Example.broker = Ok (b, Some Simulation.Example.intent) /\
    sm_runs_total (sw_metrics (run_once Example.rd Example.worker).1) = 1.
Proof.
  split; [vm_compute; reflexivity|].
  destruct (run_once_all_or_nothing Example.rd Example.worker Simulation.Example.intent [])
    as (b & Hc & H).
  - intros p s q Hp Hs. simpl in Hp. apply lookup_singleton_Some in Hp as [<- <-].
    apply elem_of_singleton in Hs as ->. by eexists.
  - reflexivity.
  - exists b. split; [exact Hc|]. destruct (run_once Example.rd Example.worker) as [w' outcome].
    destruct H as [H _]. exact H.
Defined.
