(* ===== verification/OmsLifecycle.v ===== *)
(** * The OMS lifecycle worker

    [services/workers/oms_lifecycle.py] without a state store (the runner keeps
    its state in dicts), with [_resolve_requested_quantity] of
    [services/workers/helpers.py]: one step takes an order event from the queue,
    reconciles the order with its event log, books the fill on the position of
    the symbol and rebuilds the portfolio snapshot. The clock readings of a step
    are the argument [clock], by call site. *)

From S2P Require Import Prelude PyStr PyFloat PyDecimal PyTime PyVal Envelope Broker.
From S2P Require Import OmsStateMachine FillReconciliation PositionEngine PortfolioSnapshot.
From S2P Require Simulation.
From stdpp Require Import options.
From Stdlib Require Import Ascii String Qabs.

#[local] Open Scope Z_scope.

(** ** From messages to fills *)

Definition _resolve_requested_quantity (raw_quantity : val) : result dec :=
  match raw_quantity with
  | VNone => raise ValueError "requested_quantity must be positive (got None)"
  | _ =>
      d ← dec_of_string (py_str raw_quantity);
      quantity ← dabs d;
      small ← dleb quantity d0;
      if small : bool
      then raise ValueError ("requested_quantity must be positive (got " +:+ py_str raw_quantity +:+ ")")
      else Ok quantity
  end.

(** [str(envelope.get("emitted_at", _utc_now_iso()))] *)
Definition emitted_at (now : string) (envelope : dict) : string :=
  py_str (dget_or "emitted_at" (VStr now) envelope).

(** [float(v or 0.0)] *)
Definition float_or_zero (v : val) : result f64 := float_of_val (py_or v (VFloat fzero)).

Definition _position_fill_to_reconciliation_fill (now : string) (fill : PositionFill)
  : result ReconciliationFill :=
  quantity ← dabs (pf_quantity fill);
  let filled_at := match pf_filled_at fill with Some t => str_or t now | None => now end in
  Ok {| rf_fill_id := "fill:" +:+ pf_order_id fill +:+ ":" +:+ filled_at; rf_order_id := pf_order_id fill;
        rf_quantity := quantity; rf_price := pf_price fill; rf_fee := pf_fee fill;
        rf_source := "runtime_worker" |}.

Definition plain_event (event_type : string) : LifecycleEvent :=
  {| le_event_type := event_type; le_status := None; le_fill := None |}.

Definition _to_lifecycle_event (clock : nat -> Z) (envelope : dict) : result LifecycleEvent :=
  let event_type := py_str (dget_or "event_type" (VStr "") envelope) in
  match dget "payload" envelope with
  | VDict payload =>
      if negb (String.eqb event_type "oms.order.filled" || String.eqb event_type "oms.order.partially_filled")
      then Ok (plain_event event_type)
      else
        let order_id := py_str (dget_or "order_id" (VStr "") payload) in
        if is_empty order_id then Ok (plain_event event_type)
        else
          let fill_price := dget_or "fill_price" (dget_or "price" (VFloat fzero) payload) payload in
          quantity ← float_or_zero (dget_or "quantity" (VFloat fzero) payload);
          price ← float_or_zero fill_price;
          fee ← float_or_zero (dget_or "fee_paid" (dget_or "fee" (VFloat fzero) payload) payload);
          let fill :=
            {| pf_order_id := order_id; pf_mode := py_str (dget_or "mode" (VStr "MOCK") payload);
               pf_symbol := py_str (dget_or "symbol" (VStr "") payload);
               pf_side := py_str (dget_or "action" (VStr "BUY") payload);
               pf_quantity := dec_of_repr (fabs quantity); pf_price := dec_of_repr price;
               pf_fee := dec_of_repr fee;
               pf_filled_at := Some (emitted_at (iso_z (clock 0%nat)) envelope) |} in
          rfill ← _position_fill_to_reconciliation_fill (iso_z (clock 1%nat)) fill;
          Ok {| le_event_type := event_type; le_status := None; le_fill := Some rfill |}
  | _ => Ok (plain_event event_type)
  end.

(** ** The runner *)

Record activity := {
  ac_event : string;
  ac_trace_id : string;
  ac_decision_id : string;
  ac_order_id : string;
  ac_symbol : string;
  ac_mode : string;
  ac_order_status : string;
  ac_filled_quantity : dec;
  ac_average_price : option dec;
  ac_positions_total : Z;
  ac_portfolio_total_balance_usd : dec;
  ac_portfolio_unrealized_pnl : dec;
  ac_portfolio_realized_pnl_total : dec;
}.

Record OMSLifecycleWorkerRunner := {
  rn_broker : InMemoryTopicBroker;
  rn_base_balance_usd : f64;
  rn_orders : gmap string ReconciliationOrder;
  rn_lifecycle_events : gmap string (list LifecycleEvent);
  rn_positions : list (string * PositionState);
  rn_mark_prices : gmap string pynum;
  rn_last_activity : option activity;
}.

Definition runner_init (broker : InMemoryTopicBroker) (base_balance_usd : f64) : OMSLifecycleWorkerRunner :=
  {| rn_broker := broker; rn_base_balance_usd := base_balance_usd; rn_orders := ∅;
     rn_lifecycle_events := ∅; rn_positions := []; rn_mark_prices := ∅; rn_last_activity := None |}.

Definition set_broker (b : InMemoryTopicBroker) (r : OMSLifecycleWorkerRunner) :=
  {| rn_broker := b; rn_base_balance_usd := rn_base_balance_usd r; rn_orders := rn_orders r;
     rn_lifecycle_events := rn_lifecycle_events r; rn_positions := rn_positions r;
     rn_mark_prices := rn_mark_prices r; rn_last_activity := rn_last_activity r |}.
Definition set_order (o : ReconciliationOrder) (r : OMSLifecycleWorkerRunner) :=
  {| rn_broker := rn_broker r; rn_base_balance_usd := rn_base_balance_usd r;
     rn_orders := <[ro_order_id o := o]> (rn_orders r);
     rn_lifecycle_events := rn_lifecycle_events r; rn_positions := rn_positions r;
     rn_mark_prices := rn_mark_prices r; rn_last_activity := rn_last_activity r |}.
Definition log_event (order_id : string) (ev : LifecycleEvent) (r : OMSLifecycleWorkerRunner) :=
  {| rn_broker := rn_broker r; rn_base_balance_usd := rn_base_balance_usd r; rn_orders := rn_orders r;
     rn_lifecycle_events :=
       <[order_id := default [] (rn_lifecycle_events r !! order_id) ++ [ev]]> (rn_lifecycle_events r);
     rn_positions := rn_positions r; rn_mark_prices := rn_mark_prices r;
     rn_last_activity := rn_last_activity r |}.
Definition set_position (symbol : string) (p : PositionState) (mark : dec) (r : OMSLifecycleWorkerRunner) :=
  {| rn_broker := rn_broker r; rn_base_balance_usd := rn_base_balance_usd r; rn_orders := rn_orders r;
     rn_lifecycle_events := rn_lifecycle_events r; rn_positions := assoc_set symbol p (rn_positions r);
     rn_mark_prices := <[symbol := PDec mark]> (rn_mark_prices r); rn_last_activity := rn_last_activity r |}.
Definition set_activity (a : activity) (r : OMSLifecycleWorkerRunner) :=
  {| rn_broker := rn_broker r; rn_base_balance_usd := rn_base_balance_usd r; rn_orders := rn_orders r;
     rn_lifecycle_events := rn_lifecycle_events r; rn_positions := rn_positions r;
     rn_mark_prices := rn_mark_prices r; rn_last_activity := Some a |}.

(** The ids of the event being processed. *)
Record event_ids := Ids { ei_order_id : string; ei_symbol : string; ei_mode : string }.

(** The guards at the start of a step; [None] is the early [return False]. *)
Definition event_scope (envelope : dict) : option (event_ids * dict) :=
  match dget "payload" envelope with
  | VDict payload =>
      let order_id := strip (py_str (dget_or "order_id" (VStr "") payload)) in
      let symbol := strip (py_str (dget_or "symbol" (VStr "") payload)) in
      let mode := str_or (upper (strip (py_str (dget_or "mode" (VStr "MOCK") payload)))) "MOCK" in
      if is_empty order_id || is_empty symbol then None else Some (Ids order_id symbol mode, payload)
  | _ => None
  end.

Definition new_order (ids : event_ids) (requested_quantity : dec) : ReconciliationOrder :=
  {| ro_order_id := ei_order_id ids; ro_symbol := ei_symbol ids; ro_mode := ei_mode ids;
     ro_requested_quantity := requested_quantity; ro_status := "NEW"; ro_filled_quantity := d0;
     ro_average_price := None |}.

(** The order part of a step: log the event, reconcile, store the order. *)
Definition update_order (ids : event_ids) (existing : ReconciliationOrder) (ev : LifecycleEvent)
  : prog OMSLifecycleWorkerRunner ReconciliationOrder :=
  _ ← modify (log_event (ei_order_id ids) ev);
  events ← gets (fun r => default [] (rn_lifecycle_events r !! ei_order_id ids));
  rec ← lift (reconcile existing events None);
  let updated :=
    {| ro_order_id := ei_order_id ids; ro_symbol := ei_symbol ids; ro_mode := ei_mode ids;
       ro_requested_quantity := ro_requested_quantity existing; ro_status := state_str (fr_status rec);
       ro_filled_quantity := fr_filled_quantity rec; ro_average_price := fr_average_price rec |} in
  _ ← modify (set_order updated);
  mret updated.

(** The fill booked on the position. *)
Definition position_fill (clock : nat -> Z) (envelope payload : dict) (ids : event_ids)
    (fill : ReconciliationFill) : PositionFill :=
  {| pf_order_id := ei_order_id ids; pf_mode := ei_mode ids; pf_symbol := ei_symbol ids;
     pf_side := upper (py_str (dget_or "action" (VStr "BUY") payload)); pf_quantity := rf_quantity fill;
     pf_price := rf_price fill; pf_fee := rf_fee fill;
     pf_filled_at := Some (emitted_at (iso_z (clock 2%nat)) envelope) |}.

(** The position part of a step. *)
Definition book_fill (clock : nat -> Z) (envelope payload : dict) (ids : event_ids) (ev : LifecycleEvent)
  : prog OMSLifecycleWorkerRunner unit :=
  match le_fill ev with
  | None => mret tt
  | Some fill =>
      current ← gets (fun r => assoc_get (ei_symbol ids) (rn_positions r));
      update ← lift (apply_fill (iso_z (clock 3%nat)) current (position_fill clock envelope payload ids fill));
      modify (set_position (ei_symbol ids) (pu_current update) (rf_price fill))
  end.

(** The snapshot part of a step. *)
Definition take_snapshot (clock : nat -> Z) (ids : event_ids)
  : prog OMSLifecycleWorkerRunner PortfolioSnapshot := fun r =>
  let positions := (rn_positions r).*2 in
  (total ← lift (fold_res (fun acc p => dadd acc (ps_realized_pnl p)) d0 positions);
   lift (build_snapshot (iso_z (clock 4%nat)) (ei_mode ids) (dec_of_repr (rn_base_balance_usd r)) d0
           positions (rn_mark_prices r) (Some total) None)) r.

Definition activity_of (envelope : dict) (ids : event_ids) (o : ReconciliationOrder) (positions : Z)
    (s : PortfolioSnapshot) : activity :=
  let str_at k := py_str (dget_or k (VStr "") envelope) in
  {| ac_event := str_at "event_type"; ac_trace_id := str_at "trace_id"; ac_decision_id := str_at "decision_id";
     ac_order_id := ei_order_id ids; ac_symbol := ei_symbol ids; ac_mode := ei_mode ids;
     ac_order_status := ro_status o; ac_filled_quantity := ro_filled_quantity o;
     ac_average_price := ro_average_price o; ac_positions_total := positions;
     ac_portfolio_total_balance_usd := sn_total_balance_usd s;
     ac_portfolio_unrealized_pnl := sn_unrealized_pnl s;
     ac_portfolio_realized_pnl_total := sn_realized_pnl_total s |}.

(** What [run_once] does with a consumed envelope. *)
Definition handle (clock : nat -> Z) (envelope : dict) : prog OMSLifecycleWorkerRunner bool :=
  match event_scope envelope with
  | None => mret false
  | Some (ids, payload) =>
      requested ← lift (_resolve_requested_quantity (dget "quantity" payload));
      existing ← gets (fun r => default (new_order ids requested) (rn_orders r !! ei_order_id ids));
      ev ← lift (_to_lifecycle_event clock envelope);
      updated ← update_order ids existing ev;
      _ ← book_fill clock envelope payload ids ev;
      s ← take_snapshot clock ids;
      _ ← modify (fun r => set_activity
            (activity_of envelope ids updated (Z.of_nat (List.length (rn_positions r))) s) r);
      mret true
  end.

Definition ORDER_UPDATES : string := "oms.events.order_updates".

Definition run_once (clock : nat -> Z) : prog OMSLifecycleWorkerRunner bool := fun r =>
  match consume ORDER_UPDATES (rn_broker r) with
  | Raise e => (r, Raise e)
  | Ok (b, None) => (set_broker b r, Ok false)
  | Ok (b, Some envelope) => handle clock envelope (set_broker b r)
  end.

(** ** Positions: the runner keeps one ledger per symbol *)

(** What an envelope books on a position: the clock reading and the fill. *)
Definition booking (clock : nat -> Z) (envelope : dict) : option (string * PositionFill) :=
  match event_scope envelope, _to_lifecycle_event clock envelope with
  | Some (ids, payload), Ok ev =>
      (fun f => (iso_z (clock 3%nat), position_fill clock envelope payload ids f)) <$> le_fill ev
  | _, _ => None
  end.

Lemma update_order_frame ids existing ev r r' res :
  update_order ids existing ev r = (r', res) ->
  rn_positions r' = rn_positions r /\ rn_mark_prices r' = rn_mark_prices r.
Proof.
  unfold update_order, modify, gets, lift, mbind, prog_bind, mret, prog_ret. cbv beta.
  destruct (reconcile _ _ _); intros [= <- <-]; done.
Qed.

Lemma take_snapshot_pure clock ids r : (take_snapshot clock ids r).1 = r.
Proof.
  unfold take_snapshot, mbind, prog_bind, lift. by destruct (fold_res _ _ _).
Qed.

(** A step leaves the positions alone or books its fill and marks the symbol at
    the fill's price; one that returns [True] books any fill it has. *)
Lemma handle_positions clock envelope r r' res :
  handle clock envelope r = (r', res) ->
  (rn_positions r' = rn_positions r /\ rn_mark_prices r' = rn_mark_prices r /\
   (res = Ok true -> booking clock envelope = None)) \/
  exists now f u, booking clock envelope = Some (now, f) /\
    apply_fill now (assoc_get (pf_symbol f) (rn_positions r)) f = Ok u /\
    rn_positions r' = assoc_set (pf_symbol f) (pu_current u) (rn_positions r) /\
    rn_mark_prices r' = <[pf_symbol f := PDec (pf_price f)]> (rn_mark_prices r).
Proof.
  unfold handle, booking. destruct (event_scope envelope) as [[ids payload]|]; cycle 1.
  { intros [= <- <-]. by left. }
  unfold mbind, prog_bind, lift at 1, gets at 1.
  destruct (_resolve_requested_quantity _) as [q|e]; [|intros [= <- <-]; by left].
  unfold lift at 1. destruct (_to_lifecycle_event clock envelope) as [ev|e]; [|intros [= <- <-]; by left].
  destruct (update_order _ _ _ r) as [r1 [o|e]] eqn:Eo; apply update_order_frame in Eo as [P1 M1];
    [|intros [= <- <-]; left; by rewrite P1, M1].
  unfold book_fill. destruct (le_fill ev) as [f|]; simpl; cycle 1.
  - unfold mret, prog_ret. pose proof (take_snapshot_pure clock ids r1) as Hp.
    destruct (take_snapshot clock ids r1) as [r2 [s|e]]; simpl in Hp; subst r2;
      intros [= <- <-]; left; simpl; by rewrite P1, M1.
  - unfold mbind, prog_bind, gets, lift, modify. rewrite P1.
    destruct (apply_fill _ _ _) as [u|e] eqn:Ea; [|intros [= <- <-]; left; by rewrite P1, M1].
    match goal with |- context [take_snapshot clock ids ?s] =>
      pose proof (take_snapshot_pure clock ids s) as Hp; destruct (take_snapshot clock ids s) as [r2 [s'|e]]
    end; simpl in Hp; subst r2; intros [= <- <-]; right;
      eexists _, _, u; (split; [reflexivity|]); (split; [exact Ea|]); simpl; by rewrite P1, M1.
Qed.

(** Histories of a runner: steps of its own, with the envelope each consumed,
    and anything other components do to the shared broker in between. *)
Record step := Step { st_clock : nat -> Z; st_envelope : dict; st_result : result bool }.

Inductive run : OMSLifecycleWorkerRunner -> list step -> Prop :=
  | run_init b base : run (runner_init b base) []
  | run_broker r steps b : run r steps -> run (set_broker b r) steps
  | run_step r steps clock b envelope r' res :
      run r steps -> consume ORDER_UPDATES (rn_broker r) = Ok (b, Some envelope) ->
      run_once clock r = (r', res) -> run r' (steps ++ [Step clock envelope res]).

Definition step_booking (s : step) : option (string * PositionFill) := booking (st_clock s) (st_envelope s).
Definition returned_true (s : step) : bool := match st_result s with Ok b => b | Raise _ => false end.

(** The ledger of one symbol. *)
Definition fills_of (symbol : string) (h : list (string * PositionFill)) : list (string * PositionFill) :=
  filter (fun x => pf_symbol x.2 = symbol) h.

Definition ledger_of (r : OMSLifecycleWorkerRunner) (h : list (string * PositionFill)) : Prop :=
  forall symbol,
    apply_fills (fills_of symbol h) = Ok (assoc_get symbol (rn_positions r)) /\
    rn_mark_prices r !! symbol = (fun x => PDec (pf_price x.2)) <$> last (fills_of symbol h).

Lemma fills_of_snoc symbol h x :
  fills_of symbol (h ++ [x]) = fills_of symbol h ++ (if decide (pf_symbol x.2 = symbol) then [x] else []).
Proof. unfold fills_of. rewrite filter_app, filter_cons, filter_nil. by case_decide. Qed.

(** Booking one fill extends the ledger of its symbol. *)
Lemma ledger_of_snoc r r' h now f u :
  ledger_of r h -> apply_fill now (assoc_get (pf_symbol f) (rn_positions r)) f = Ok u ->
  rn_positions r' = assoc_set (pf_symbol f) (pu_current u) (rn_positions r) ->
  rn_mark_prices r' = <[pf_symbol f := PDec (pf_price f)]> (rn_mark_prices r) ->
  ledger_of r' (h ++ [(now, f)]).
Proof.
  intros Hl Hu Hp Hm symbol. destruct (Hl symbol) as [Ha Hmk]. rewrite fills_of_snoc, Hp, Hm. simpl.
  case_decide as Hs; [subst symbol|].
  - unfold apply_fills in *. rewrite fold_res_app, Ha. simpl. rewrite Hu. simpl.
    rewrite assoc_get_set_eq, lookup_insert_eq, last_snoc. done.
  - rewrite app_nil_r, assoc_get_set_ne, lookup_insert_ne by done. done.
Qed.

(** C6. The runner keeps exact ledgers: along any history, each symbol's
    position is what the position engine computes from the fills booked for
    that symbol, in the order of the events, and its mark is the price of the
    last of them; the fills booked are those of the consumed fill events, one
    each, in order: all of the steps that returned [True] and nothing besides
    what the steps consumed. So a snapshot never lacks a mark. *)
Theorem runner_refines_ledgers r steps :
  run r steps ->
  exists h, ledger_of r h /\
    omap step_booking (filter (fun s => returned_true s = true) steps) `sublist_of` h /\
    h `sublist_of` omap step_booking steps /\
    (forall symbol p, assoc_get symbol (rn_positions r) = Some p -> is_Some (rn_mark_prices r !! symbol)).
Proof.
  intros Hr. cut (exists h, ledger_of r h /\
    omap step_booking (filter (fun s => returned_true s = true) steps) `sublist_of` h /\
    h `sublist_of` omap step_booking steps).
  { intros (h & Hl & H1 & H2). exists h. repeat (split; [done|]). intros symbol p Hp.
    destruct (Hl symbol) as [Ha Hm]. rewrite Hm, Hp in *. destruct (fills_of symbol h) as [|x l]; [done|].
    apply fmap_is_Some. by apply last_is_Some. }
  induction Hr as [b base|r steps b Hr IH|r steps clock b envelope r' res Hr IH Hc Hs].
  - exists []. split; [|by split]. intros symbol. cbn [runner_init rn_positions rn_mark_prices]. by rewrite lookup_empty.
  - exact IH.
  - destruct IH as (h & Hl & Hlo & Hhi). unfold run_once in Hs. rewrite Hc in Hs.
    rewrite filter_app, !omap_app, filter_cons, filter_nil.
    apply handle_positions in Hs as [(Hp & Hm & Hn)|(now & f & u & Hb & Ha & Hp & Hm)].
    + exists h. split; [intros symbol; by rewrite Hp, Hm|]. split; [|by apply sublist_inserts_r].
      case_decide as Hd; simpl; [|by rewrite app_nil_r]. unfold step_booking at 2. simpl.
      unfold returned_true in Hd. simpl in Hd. rewrite Hn, app_nil_r by (destruct res; congruence). done.
    + exists (h ++ [(now, f)]). split; [by eapply ledger_of_snoc|]. split.
      * case_decide; simpl; [|by apply sublist_app, sublist_nil_l].
        unfold step_booking at 2. simpl. rewrite Hb. by apply sublist_app.
      * simpl. unfold step_booking at 2. simpl. rewrite Hb. by apply sublist_app.
Qed.

(** ** Errors *)

#[local] Arguments mark_position : simpl never.

(** A snapshot is only built when every position is in its mode. *)
Lemma build_snapshot_modes now mode a l positions marks rt st s :
  build_snapshot now mode a l positions marks rt st = Ok s ->
  Forall (fun p => upper (strip (ps_mode p)) = upper (strip mode)) positions.
Proof.
  unfold build_snapshot. intros H. apply bind_Ok in H as ([u v] & H & _).
  revert H. generalize (d0, d0). induction positions as [|p l0 IH]; intros acc H; [constructor|].
  simpl in H. apply bind_Ok in H as (acc' & Hp & H). constructor; [|by apply IH in H].
  unfold mark_position in Hp. destruct acc as [u0 v0]. apply bind_Ok in Hp as ([] & Hm & _).
  by apply raise_if_Ok, negb_false_iff, String.eqb_eq in Hm.
Qed.

(** A fill is only booked on a position of its own mode. *)
Lemma apply_fill_mode now p f u : apply_fill now (Some p) f = Ok u -> ps_mode p = pf_mode f.
Proof.
  unfold apply_fill. intros H. apply bind_Ok in H as (sg & _ & H). apply bind_Ok in H as (qa & _ & H).
  apply bind_Ok in H as ([] & Hv & _). unfold validate_position_compatibility in Hv.
  apply bind_Ok in Hv as ([] & Hm & _). by apply raise_if_Ok, negb_false_iff, String.eqb_eq in Hm.
Qed.

Lemma take_snapshot_modes clock ids r r' s :
  take_snapshot clock ids r = (r', Ok s) ->
  Forall (fun p => upper (strip (ps_mode p)) = upper (strip (ei_mode ids))) (rn_positions r).*2.
Proof.
  unfold take_snapshot, mbind, prog_bind, lift. destruct (fold_res _ _ _) as [t|]; [|done].
  intros [= _ H]. by eapply build_snapshot_modes.
Qed.

(** A step that returns [True] leaves every position in the event's mode. *)
Lemma handle_modes clock envelope ids payload r r' :
  event_scope envelope = Some (ids, payload) -> handle clock envelope r = (r', Ok true) ->
  Forall (fun p => upper (strip (ps_mode p)) = upper (strip (ei_mode ids))) (rn_positions r').*2.
Proof.
  intros Hsc. unfold handle. rewrite Hsc. intros H.
  apply prog_bind_Ok in H as (r1 & q & _ & H). apply prog_bind_Ok in H as (r2 & o & _ & H).
  apply prog_bind_Ok in H as (r3 & ev & _ & H). apply prog_bind_Ok in H as (r4 & uo & _ & H).
  apply prog_bind_Ok in H as (r5 & [] & _ & H). apply prog_bind_Ok in H as (r6 & s & Hs & H).
  pose proof (take_snapshot_pure clock ids r5) as Hp. rewrite Hs in Hp. simpl in Hp. subst r6.
  apply take_snapshot_modes in Hs. apply prog_bind_Ok in H as (r7 & [] & [= <-] & [= <-]). exact Hs.
Qed.

Lemma handle_scoped clock envelope ids payload r r' b :
  event_scope envelope = Some (ids, payload) -> handle clock envelope r = (r', Ok b) -> b = true.
Proof.
  intros Hsc. unfold handle. rewrite Hsc. intros H.
  repeat match type of H with
  | (mbind _ _) _ = _ => let s := fresh "s" in let a := fresh "a" in let E := fresh "E" in
      apply prog_bind_Ok in H as (s & a & E & H)
  end. by injection H.
Qed.

(** The in-memory runner cannot serve two modes: while it holds a position
    of another mode, even a closed one, every order event raises instead of
    being accepted, because positions are kept by symbol and all of them enter
    the snapshot of the event's mode. *)
Theorem other_mode_position_blocks clock r b envelope ids payload symbol p :
  consume ORDER_UPDATES (rn_broker r) = Ok (b, Some envelope) ->
  event_scope envelope = Some (ids, payload) ->
  assoc_get symbol (rn_positions r) = Some p ->
  upper (strip (ps_mode p)) <> upper (strip (ei_mode ids)) ->
  exists r' e, run_once clock r = (r', Raise e).
Proof.
  intros Hc Hsc Hp Hm. unfold run_once. rewrite Hc.
  destruct (handle clock envelope (set_broker b r)) as [r' [res|e]] eqn:Eh; [|by exists r', e].
  pose proof (handle_scoped _ _ _ _ _ _ _ Hsc Eh) as ->.
  pose proof (handle_modes _ _ _ _ _ _ Hsc Eh) as Hall.
  assert (assoc_get symbol (rn_positions r') = Some p) as Hp'.
  { apply handle_positions in Eh as [(-> & _)|(now & f & u & Hb & Ha & -> & _)]; [done|].
    destruct (decide (symbol = pf_symbol f)) as [->|Hne]; [|by rewrite assoc_get_set_ne].
    simpl in Ha. rewrite Hp in Ha. apply apply_fill_mode in Ha. destruct Hm. rewrite Ha.
    unfold booking in Hb. rewrite Hsc in Hb. destruct (_to_lifecycle_event _ _); [|done].
    apply fmap_Some in Hb as (f0 & _ & [= _ ->]). done. }
  destruct Hm. apply assoc_get_elem in Hp'. rewrite Forall_forall in Hall.
  apply Hall. by apply (list_elem_of_fmap_2 snd) in Hp'.
Qed.

(** *** The simulation's cancellations *)

(** An event of an order without a quantity is consumed and lost. *)
Lemma missing_quantity_raises clock r b envelope ids payload :
  consume ORDER_UPDATES (rn_broker r) = Ok (b, Some envelope) ->
  event_scope envelope = Some (ids, payload) -> dict_get "quantity" payload = None ->
  run_once clock r =
    (set_broker b r, Raise (Exc ValueError "requested_quantity must be positive (got None)")).
Proof.
  intros Hc Hsc Hq. unfold run_once, handle. rewrite Hc, Hsc. unfold dget. by rewrite Hq.
Qed.

Lemma is_empty_false s : s <> ""%string -> is_empty s = false.
Proof. by destruct s. Qed.

(** An OCO order that fills in the simulation stops the OMS worker: the last
    event of every such execution is the cancellation of the other leg, which
    carries no quantity, and the worker that consumes it raises [ValueError]
    with the event gone from the queue and nothing recorded for the order. *)
Theorem oco_cancellation_raises eng ck e payload order_id mode res :
  Simulation._execute_oco eng ck e payload order_id mode = Ok res ->
  Simulation.sr_status res = "FILLED"%string ->
  strip order_id <> ""%string -> strip (Simulation.intent_symbol payload) <> ""%string ->
  exists ev, last (Simulation.sr_events res) = Some ev /\
    dict_get "event_type" ev = Some (VStr "oms.order.cancelled") /\
    forall clock r b, consume ORDER_UPDATES (rn_broker r) = Ok (b, Some ev) ->
      run_once clock r =
        (set_broker b r, Raise (Exc ValueError "requested_quantity must be positive (got None)")).
Proof.
  intros H Hf Ho Hs. unfold Simulation._execute_oco in H.
  destruct (dget "oco_legs" payload) as [| | | | | |[|leg0 [|leg1 [|]]]|]; try done.
  apply bind_Ok in H as (quantity & _ & H). apply bind_Ok in H as (price & _ & H).
  apply bind_Ok in H as ([i|] & _ & H); cycle 1.
  { apply bind_Ok in H as (c & _ & H). by injection H as <-. }
  apply bind_Ok in H as (fp & _ & H). apply bind_Ok in H as (c & _ & H).
  apply bind_Ok in H as (f & _ & H). apply bind_Ok in H as (x & Ex & H). injection H as <-.
  apply Simulation.build_event_inv in Ex as [-> _]. eexists. split; [reflexivity|].
  split; [reflexivity|]. intros clock r b Hc. eapply missing_quantity_raises; [exact Hc| |].
  - unfold event_scope, Simulation.event_of, dget, dget_or. 
    simpl. rewrite (is_empty_false _ Ho), (is_empty_false _ Hs). reflexivity.
  - reflexivity.
Qed.

(** *** Closing fills *)

Lemma apply_fill_side now p f u :
  apply_fill now p f = Ok u -> upper (strip (pf_side f)) ∈ ["BUY"; "SELL"]%string.
Proof.
  unfold apply_fill. intros H. apply bind_Ok in H as (sg & Hs & _). unfold signed_quantity in Hs.
  apply bind_Ok in Hs as (a & _ & Hs). apply bind_Ok in Hs as ([] & _ & Hs); [done|].
  destruct (String.eqb_spec (upper (strip (pf_side f))) "BUY") as [->|]; [set_solver|].
  destruct (String.eqb_spec (upper (strip (pf_side f))) "SELL") as [->|]; [set_solver|done].
Qed.

(** The fill of a closing order never reaches the books: an event whose fill
    is neither a BUY nor a SELL (the simulation reports the fill of a CLOSE
    intent with the action CLOSE) makes the worker raise, and every position
    stays as it was, so the position the order closed remains open. *)
Theorem closing_fill_never_booked clock r b envelope ids payload now f :
  consume ORDER_UPDATES (rn_broker r) = Ok (b, Some envelope) ->
  event_scope envelope = Some (ids, payload) -> booking clock envelope = Some (now, f) ->
  upper (strip (pf_side f)) ∉ ["BUY"; "SELL"]%string ->
  exists r' e, run_once clock r = (r', Raise e) /\ rn_positions r' = rn_positions r.
Proof.
  intros Hc Hsc Hb Hside. unfold run_once. rewrite Hc.
  destruct (handle clock envelope (set_broker b r)) as [r' [res|e]] eqn:Eh.
  - pose proof (handle_scoped _ _ _ _ _ _ _ Hsc Eh) as ->.
    apply handle_positions in Eh as [(_ & _ & Hn)|(now' & f' & u & Hb' & Ha & _)].
    + by rewrite (Hn eq_refl) in Hb.
    + rewrite Hb in Hb'. injection Hb' as <- <-. by apply apply_fill_side in Ha.
  - exists r', e. split; [done|].
    apply handle_positions in Eh as [(Hp & _)|(now' & f' & u & Hb' & Ha & _)]; [done|].
    rewrite Hb in Hb'. injection Hb' as <- <-. by apply apply_fill_side in Ha.
Qed.

(** ** A concrete run *)

Module Example.
Definition fill_event (mode : string) : dict :=
  [("trace_id", VStr "11111111-1111-4111-8111-111111111111");
   ("decision_id", VStr "22222222-2222-4222-8222-222222222222"); ("mode", VStr mode);
   ("idempotency_key", VStr "intent-1:filled"); ("event_type", VStr "oms.order.filled");
   ("emitted_at", VStr "2024-05-01T12:00:00Z");
   ("payload", VDict [("order_id", VStr "ord-1"); ("action", VStr "BUY"); ("symbol", VStr "BTC/USDT");
                      ("quantity", VFloat (flit 5 (-1))); ("fill_price", VFloat (flit 50000 0));
                      ("fee_paid", VFloat (flit 25 0)); ("mode", VStr mode)])].
Definition clock (_ : nat) : Z := 63850000000000000.
Definition queued (l : list dict) : InMemoryTopicBroker :=
  {| br_queues := {[ORDER_UPDATES := l]}; br_bindings := ∅ |}.
Definition start (l : list dict) : OMSLifecycleWorkerRunner := runner_init (queued l) (flit 100000 0).
Definition once (l : list dict) := run_once clock (start l).
Definition twice (l : list dict) := run_once clock (once l).1.

Definition filled (r : OMSLifecycleWorkerRunner) : option (string * dec) :=
  (fun o => (ro_status o, ro_filled_quantity o)) <$> rn_orders r !! "ord-1"%string.
Definition position (r : OMSLifecycleWorkerRunner) : option dec :=
  ps_quantity <$> assoc_get "BTC/USDT" (rn_positions r).

(** An OCO intent whose first leg triggers. *)
Definition leg (ty : string) (key : string) (p : Z) : val :=
  VDict [("order_type", VStr ty); (key, VInt p)].
Definition oco_payload : dict :=
  [("action", VStr "BUY"); ("symbol", VStr "BTC/USDT"); ("quantity", VFloat (flit 5 (-1)));
   ("order_type", VStr "OCO"); ("market_context", VDict [("mid_price", VInt 50000)]);
   ("oco_legs", VList [leg "LIMIT" "limit_price" 51000; leg "STOP_MARKET" "trigger_price" 60000])].
Definition oco := Simulation._execute_oco Simulation.Example.engine Simulation.Example.clock
  Simulation.Example.intent oco_payload "ord-9" "MOCK".
Definition oco_result : Simulation.SimulationExecutionResult :=
  match oco with Ok r => r | Raise _ => Simulation.unfilled "" "" "" "" fzero [] end.

(** What the simulation emits for an intent that closes a position. *)
Definition close_intent : dict :=
  dict_set "payload" (VDict [("action", VStr "CLOSE"); ("symbol", VStr "BTC/USDT");
    ("quantity", VFloat (flit (-5) (-1))); ("market_context", VDict [("mid_price", VInt 50000)])])
    Simulation.Example.intent.
Definition closing_fill : dict :=
  match Simulation.execute_intent Simulation.Example.engine Simulation.Example.clock (VDict close_intent) with
  | Ok r => default [] (last (Simulation.sr_events r))
  | Raise _ => []
  end.
End Example.

(** A fill event delivered twice counts once for its order and twice for the
    position: the order's log is deduplicated by fill id, the position is not. *)
Lemma redelivered_fill_double_counted :
  let r1 := (Example.once [Example.fill_event "MOCK"; Example.fill_event "MOCK"]).1 in
  let r2 := (Example.twice [Example.fill_event "MOCK"; Example.fill_event "MOCK"]).1 in
  Example.filled r1 = Some ("FILLED"%string, DFin 5 (-1)) /\ Example.filled r2 = Example.filled r1 /\
  Example.position r1 = Some (DFin 5 (-1)) /\ Example.position r2 = Some (DFin 10 (-1)).
Proof. vm_compute. done. Qed.

Lemma runner_refines_ledgers_witness :
  exists h, ledger_of (Example.once [Example.fill_event "MOCK"]).1 h /\
    Example.position (Example.once [Example.fill_event "MOCK"]).1 = Some (DFin 5 (-1)).
Proof.
  destruct (runner_refines_ledgers (Example.once [Example.fill_event "MOCK"]).1
              [Step Example.clock (Example.fill_event "MOCK") (Ok true)]) as (h & Hl & _).
  - apply (run_step (Example.start [Example.fill_event "MOCK"]) [] Example.clock (Example.queued [])
             (Example.fill_event "MOCK")).
    + apply run_init.
    + vm_compute. reflexivity.
    + rewrite (surjective_pairing (run_once _ _)). f_equal.
  - exists h. split; [exact Hl|]. vm_compute. reflexivity.
Defined.

Lemma other_mode_position_blocks_witness :
  exists r' e, Example.twice [Example.fill_event "MOCK"; Example.fill_event "REAL"] = (r', Raise e).
Proof.
  destruct (event_scope (Example.fill_event "REAL")) as [[ids payload]|] eqn:Hsc; [|discriminate Hsc].
  destruct (assoc_get "BTC/USDT"
    (rn_positions (Example.once [Example.fill_event "MOCK"; Example.fill_event "REAL"]).1)) as [p|] eqn:Hp;
    [|vm_compute in Hp; discriminate Hp].
  apply (other_mode_position_blocks Example.clock
    (Example.once [Example.fill_event "MOCK"; Example.fill_event "REAL"]).1 (Example.queued [])
    (Example.fill_event "REAL") ids payload "BTC/USDT" p).
  - vm_compute. reflexivity.
  - exact Hsc.
  - exact Hp.
  - injection Hsc as <- <-. vm_compute in Hp. injection Hp as <-. vm_compute. discriminate.
Defined.

Lemma oco_cancellation_raises_witness :
  exists ev, last (Simulation.sr_events Example.oco_result) = Some ev /\
    snd (run_once Example.clock (Example.start [ev])) =
      Raise (Exc ValueError "requested_quantity must be positive (got None)").
Proof.
  destruct (oco_cancellation_raises Simulation.Example.engine Simulation.Example.clock
              Simulation.Example.intent Example.oco_payload "ord-9" "MOCK" Example.oco_result)
    as (ev & Hl & _ & H).
  - vm_compute. reflexivity.
  - vm_compute. reflexivity.
  - discriminate.
  - discriminate.
  - exists ev. split; [exact Hl|].
    rewrite (H Example.clock (Example.start [ev]) (Example.queued [])); reflexivity.
Defined.

Lemma closing_fill_never_booked_witness :
  dict_get "event_type" Example.closing_fill = Some (VStr "oms.order.filled") /\
  exists r' e, run_once Example.clock (Example.start [Example.closing_fill]) = (r', Raise e) /\
    rn_positions r' = [].
Proof.
  split; [vm_compute; reflexivity|].
  destruct (event_scope Example.closing_fill) as [[ids payload]|] eqn:Hsc; [|vm_compute in Hsc; discriminate Hsc].
  destruct (booking Example.clock Example.closing_fill) as [[now f]|] eqn:Hb; [|vm_compute in Hb; discriminate Hb].
  apply (closing_fill_never_booked Example.clock (Example.start [Example.closing_fill]) (Example.queued [])
    Example.closing_fill ids payload now f).
  - vm_compute. reflexivity.
  - exact Hsc.
  - exact Hb.
  - vm_compute in Hb. injection Hb as <- <-. apply (bool_decide_unpack _). vm_compute. exact I.
Defined.
