(* ===== verification/Prometheus.v ===== *)
(** * The metrics registry and the structured logger

    [services/shared/runtime/prometheus.py]: counters and histograms by label
    values and their text exposition; [services/shared/runtime/structured_logging.py]:
    the payload of a log line. The registry's lock is not modelled: its methods do
    not run at the same time. *)

From S2P Require Import Prelude PyStr PyFloat PyTime PyVal PyJson.
From stdpp Require Import options.
From Stdlib Require Import Ascii String SpecFloat.

#[local] Open Scope Z_scope.

(** ** Counters and histograms *)

Abbreviation labels := (list (string * string)).

Definition _DEFAULT_BUCKETS : list f64 :=
  [flit 5 (-3); flit 1 (-2); flit 25 (-3); flit 5 (-2); flit 1 (-1); flit 25 (-2); flit 5 (-1); flit 1 0; flit 25 (-1);
   flit 5 0; flit 10 0].

Record _CounterMetric := {
  cm_name : string;
  cm_help_text : string;
  cm_label_names : list string;
  cm_values : list (labels * f64) }.

Record _HistogramSample := { hs_bucket_counts : list Z; hs_count : Z; hs_total_sum : f64 }.

Record _HistogramMetric := {
  hm_name : string;
  hm_help_text : string;
  hm_label_names : list string;
  hm_buckets : list f64;
  hm_values : list (labels * _HistogramSample) }.

Record PrometheusRegistry := {
  pm_counters : list (string * _CounterMetric);
  pm_histograms : list (string * _HistogramMetric) }.

Definition registry_init : PrometheusRegistry := {| pm_counters := []; pm_histograms := [] |}.

(** A dict keyed by label tuples. *)
Section by_labels.
Context {A : Type}.
Fixpoint lget (k : labels) (d : list (labels * A)) : option A :=
  match d with [] => None | (k', v) :: d' => if decide (k = k') then Some v else lget k d' end.
Fixpoint lset (k : labels) (v : A) (d : list (labels * A)) : list (labels * A) :=
  match d with
  | [] => [(k, v)]
  | (k', v') :: d' => if decide (k = k') then (k', v) :: d' else (k', v') :: lset k v d'
  end.

Lemma lget_lset k k' v d : lget k (lset k' v d) = if decide (k = k') then Some v else lget k d.
Proof.
  induction d as [|[q w] d IH]; cbn [lset lget]; [done|]. destruct (decide (k' = q)) as [->|Hq]; cbn [lget].
  - by destruct (decide (k = q)).
  - destruct (decide (k = q)) as [->|]; [|exact IH]. destruct (decide (q = k')); [congruence|done].
Qed.
End by_labels.

(** A keyword argument is a dict of strings. *)
Definition _normalize_labels (label_values : labels) : labels := sort_by key_leb label_values.

Definition bump_counter (normalized : labels) (amount : f64) (m : _CounterMetric) : _CounterMetric :=
  {| cm_name := cm_name m; cm_help_text := cm_help_text m; cm_label_names := cm_label_names m;
     cm_values := lset normalized (fadd (default fzero (lget normalized (cm_values m))) amount) (cm_values m) |}.

Definition inc_counter (name help_text : string) (label_values : labels) (amount : f64) (r : PrometheusRegistry)
  : PrometheusRegistry :=
  let normalized := _normalize_labels label_values in
  let metric := default {| cm_name := name; cm_help_text := help_text; cm_label_names := normalized.*1; cm_values := [] |}
                  (assoc_get name (pm_counters r)) in
  {| pm_counters := assoc_set name (bump_counter normalized amount metric) (pm_counters r);
     pm_histograms := pm_histograms r |}.

(** [bucket_counts] has one entry for each bucket of the metric. *)
Definition observe_sample (buckets : list f64) (observed : f64) (s : _HistogramSample) : _HistogramSample :=
  {| hs_bucket_counts := zip_with (fun bucket n => if fleb observed bucket then n + 1 else n) buckets (hs_bucket_counts s);
     hs_count := hs_count s + 1; hs_total_sum := fadd (hs_total_sum s) observed |}.

Definition observe_metric (normalized : labels) (observed : f64) (m : _HistogramMetric) : _HistogramMetric :=
  let sample := default {| hs_bucket_counts := (fun _ => 0) <$> hm_buckets m; hs_count := 0; hs_total_sum := fzero |}
                  (lget normalized (hm_values m)) in
  {| hm_name := hm_name m; hm_help_text := hm_help_text m; hm_label_names := hm_label_names m; hm_buckets := hm_buckets m;
     hm_values := lset normalized (observe_sample (hm_buckets m) observed sample) (hm_values m) |}.

Definition observe_histogram (name help_text : string) (value : f64) (label_values : labels) (buckets : list f64)
    (r : PrometheusRegistry) : PrometheusRegistry :=
  let normalized := _normalize_labels label_values in
  let ordered_buckets := sort_by fleb buckets in
  let metric := default {| hm_name := name; hm_help_text := help_text; hm_label_names := normalized.*1;
                           hm_buckets := ordered_buckets; hm_values := [] |}
                  (assoc_get name (pm_histograms r)) in
  {| pm_counters := pm_counters r;
     pm_histograms := assoc_set name (observe_metric normalized value metric) (pm_histograms r) |}.

(** ** The text exposition *)

Definition newline : ascii := ascii_of_N 10.
Definition backslash : ascii := ascii_of_N 92.
Definition line_break : string := String newline "".

Definition _escape_label_value (value : string) : string :=
  replace line_break (String backslash "n")
    (replace (String dquote_char "") (String backslash (String dquote_char ""))
       (replace (String backslash "") (String backslash (String backslash "")) value)).

Definition label_expr (kv : string * string) : string :=
  kv.1 +:+ "=" +:+ String dquote_char (_escape_label_value kv.2 +:+ String dquote_char "").

Definition _labels_expr (l : labels) : string :=
  match l with [] => "" | _ => "{" +:+ join "," (label_expr <$> l) +:+ "}" end.

(** [value.is_integer()] *)
Definition is_integer (x : f64) : bool :=
  match x with
  | S754_zero _ => true
  | S754_finite _ m e => (0 <=? e) || (Zpos m mod 2 ^ (- e) =? 0)
  | _ => false
  end.

(** [f"{value:g}"]: six significant digits, trailing zeros dropped. *)
Definition g_digits (c e : Z) : string :=
  let ds := str_of_Z c in
  let n := Z.of_nat (String.length ds) in
  let pt := n + e in
  if (-4 <? pt) && (pt <=? 6) then
    if pt <=? 0 then "0." +:+ zeros (- pt) +:+ ds
    else if n <=? pt then ds +:+ zeros (pt - n)
    else str_take (Z.to_nat pt) ds +:+ "." +:+ str_drop (Z.to_nat pt) ds
  else
    let x := pt - 1 in
    str_take 1 ds +:+ (if n =? 1 then "" else "." +:+ str_drop 1 ds) +:+
    "e" +:+ (if x <? 0 then "-" else "+") +:+ zpad 2 (Z.abs x).
Definition format_g (x : f64) : string :=
  match x with
  | S754_nan => "nan"
  | S754_infinity s => if s then "-inf" else "inf"
  | S754_zero s => if s then "-0" else "0"
  | S754_finite s m e =>
      let '(num, den) := fratio m e in
      let k := decpt num den in
      let '(a, b) := scale10 num den (6 - k) in
      let '(c, x) := drop_zeros 8 (div_half_even a b) (k - 6) in
      (if s then "-" else "") +:+ g_digits c x
  end.

Definition _format_bucket (value : f64) : string :=
  if is_integer value then match trunc_float value with Ok n => str_of_Z n | Raise _ => "" end else format_g value.

(** Tuples of label pairs in Python's order. *)
Fixpoint labels_leb (a b : labels) : bool :=
  match a, b with
  | [], _ => true
  | _ :: _, [] => false
  | (k, v) :: a', (k', v') :: b' =>
      if String.eqb k k' then (if String.eqb v v' then labels_leb a' b' else str_leb v v') else str_leb k k'
  end.
Definition sorted_values {A} (d : list (labels * A)) : list (labels * A) := sort_by (fun x y => labels_leb x.1 y.1) d.

Definition counter_lines (m : _CounterMetric) : list string :=
  ["# HELP " +:+ cm_name m +:+ " " +:+ cm_help_text m; "# TYPE " +:+ cm_name m +:+ " counter"] ++
  ((fun lv => cm_name m +:+ _labels_expr lv.1 +:+ " " +:+ float_repr lv.2) <$> sorted_values (cm_values m)).

Definition sample_lines (name : string) (buckets : list f64) (lv : labels * _HistogramSample) : list string :=
  zip_with (fun bucket n => name +:+ "_bucket" +:+ _labels_expr (lv.1 ++ [("le"%string, _format_bucket bucket)]) +:+ " " +:+ str_of_Z n)
    buckets (hs_bucket_counts lv.2) ++
  [name +:+ "_bucket" +:+ _labels_expr (lv.1 ++ [("le", "+Inf")]%string) +:+ " " +:+ str_of_Z (hs_count lv.2);
   name +:+ "_sum" +:+ _labels_expr lv.1 +:+ " " +:+ float_repr (hs_total_sum lv.2);
   name +:+ "_count" +:+ _labels_expr lv.1 +:+ " " +:+ str_of_Z (hs_count lv.2)].

Definition histogram_lines (m : _HistogramMetric) : list string :=
  ["# HELP " +:+ hm_name m +:+ " " +:+ hm_help_text m; "# TYPE " +:+ hm_name m +:+ " histogram"] ++
  (sorted_values (hm_values m) ≫= sample_lines (hm_name m) (hm_buckets m)).

Definition render (r : PrometheusRegistry) : string :=
  let lines := (sort_by (fun a b => str_leb (cm_name a) (cm_name b)) (pm_counters r).*2 ≫= counter_lines) ++
               (sort_by (fun a b => str_leb (hm_name a) (hm_name b)) (pm_histograms r).*2 ≫= histogram_lines) in
  join line_break lines +:+ match lines with [] => "" | _ => line_break end.

(** ** The structured logger *)

Definition _DEFAULT_CORRELATION_KEYS : list string := ["trace_id"; "decision_id"; "order_id"; "strategy_id"; "mode"]%string.

(** [payload[key] = kwargs.pop(key, None)] for the correlation keys, then the
    context and the remaining keyword arguments. *)
Definition _emit (now : Z) (service level event : string) (context kwargs : dict) : dict :=
  let base := [("timestamp", VStr (iso_z now)); ("level", VStr level); ("service", VStr service); ("event", VStr event)]%string
              ++ ((fun key => (key, dget key kwargs)) <$> _DEFAULT_CORRELATION_KEYS) in
  let rest := List.filter (fun kv => negb (bool_decide (kv.1 ∈ _DEFAULT_CORRELATION_KEYS))) kwargs in
  let payload := match context with [] => base | _ => dict_set "context" (VDict context) base end in
  match rest with
  | [] => payload
  | _ => dict_set "context" (VDict (foldl (fun d kv => dict_set kv.1 kv.2 d) context rest)) payload
  end.

(** ** What the registry holds *)

Inductive metric_op :=
  | Count (name help_text : string) (label_values : labels) (amount : f64)
  | Observe (name help_text : string) (value : f64) (label_values : labels) (buckets : list f64).

Definition apply_op (r : PrometheusRegistry) (op : metric_op) : PrometheusRegistry :=
  match op with
  | Count name help l amount => inc_counter name help l amount r
  | Observe name help value l buckets => observe_histogram name help value l buckets r
  end.
Definition run_ops (ops : list metric_op) : PrometheusRegistry := foldl apply_op registry_init ops.

Definition counter_value (r : PrometheusRegistry) (name : string) (l : labels) : option f64 :=
  assoc_get name (pm_counters r) ≫= fun m => lget l (cm_values m).
Definition buckets_of (r : PrometheusRegistry) (name : string) : option (list f64) :=
  hm_buckets <$> assoc_get name (pm_histograms r).
Definition sample_of (r : PrometheusRegistry) (name : string) (l : labels) : option _HistogramSample :=
  assoc_get name (pm_histograms r) ≫= fun m => lget l (hm_values m).

(** The amounts and the values reported under a name and label values, in order,
    and the buckets of the first observation of a name. *)
Definition counted (name : string) (l : labels) (ops : list metric_op) : list f64 :=
  omap (M := list) (fun op => match op with
    | Count n _ l' amount => if decide (n = name /\ _normalize_labels l' = l) then Some amount else None
    | _ => None end) ops.
Definition observed (name : string) (l : labels) (ops : list metric_op) : list f64 :=
  omap (M := list) (fun op => match op with
    | Observe n _ v l' _ => if decide (n = name /\ _normalize_labels l' = l) then Some v else None
    | _ => None end) ops.
Definition first_buckets (name : string) (ops : list metric_op) : option (list f64) :=
  head (omap (M := list) (fun op => match op with
    | Observe n _ _ _ b => if decide (n = name) then Some b else None
    | _ => None end) ops).

(** The sample of the values [vs]: each bucket counts the values up to its bound. *)
Definition sample_for (buckets vs : list f64) : _HistogramSample :=
  {| hs_bucket_counts := (fun b => Z.of_nat (List.length (List.filter (fun v => fleb v b) vs))) <$> buckets;
     hs_count := Z.of_nat (List.length vs); hs_total_sum := foldl fadd fzero vs |}.

Lemma observe_sample_for buckets vs v :
  observe_sample buckets v (sample_for buckets vs) = sample_for buckets (vs ++ [v]).
Proof.
  unfold observe_sample, sample_for. cbn [hs_bucket_counts hs_count hs_total_sum]. f_equal.
  - induction buckets as [|b bs IH]; [done|]. rewrite !fmap_cons. cbn [zip_with]. rewrite IH. f_equal.
    rewrite List.filter_app, List.length_app. cbn [List.filter]. destruct (fleb v b); cbn [List.length]; lia.
  - rewrite List.length_app. cbn [List.length]. lia.
  - by rewrite foldl_app.
Qed.

Lemma inc_counter_value n h l a r name L :
  counter_value (inc_counter n h l a r) name L =
    if decide (n = name /\ _normalize_labels l = L) then Some (fadd (default fzero (counter_value r name L)) a)
    else counter_value r name L.
Proof.
  unfold counter_value, inc_counter. cbn [pm_counters]. destruct (decide (n = name)) as [->|Hn].
  - rewrite assoc_get_set_eq. cbn [mbind option_bind bump_counter cm_values]. rewrite lget_lset.
    destruct (assoc_get name (pm_counters r)) as [m|]; cbn [default cm_values mbind option_bind].
    + destruct (decide (L = _normalize_labels l)) as [->|HL]; [by rewrite decide_True|by rewrite decide_False by (intros []; congruence)].
    + destruct (decide (L = _normalize_labels l)) as [->|HL]; [by rewrite decide_True|by rewrite decide_False by (intros []; congruence)].
  - rewrite assoc_get_set_ne by congruence. by rewrite decide_False by (intros []; congruence).
Qed.

Lemma observe_buckets n h v l b r name :
  buckets_of (observe_histogram n h v l b r) name =
    if decide (n = name) then Some (default (sort_by fleb b) (buckets_of r name)) else buckets_of r name.
Proof.
  unfold buckets_of, observe_histogram. cbn [pm_histograms]. destruct (decide (n = name)) as [->|Hn].
  - rewrite assoc_get_set_eq. by destruct (assoc_get name (pm_histograms r)).
  - by rewrite assoc_get_set_ne by congruence.
Qed.

Lemma observe_sample_of n h v l b r name L :
  sample_of (observe_histogram n h v l b r) name L =
    if decide (n = name /\ _normalize_labels l = L) then
      let bs := default (sort_by fleb b) (buckets_of r name) in
      Some (observe_sample bs v (default (sample_for bs []) (sample_of r name L)))
    else sample_of r name L.
Proof.
  unfold sample_of, buckets_of, observe_histogram. cbn [pm_histograms]. destruct (decide (n = name)) as [->|Hn].
  - rewrite assoc_get_set_eq. cbn [mbind option_bind observe_metric hm_values]. rewrite lget_lset.
    destruct (assoc_get name (pm_histograms r)) as [m|]; cbn [default hm_values hm_buckets mbind option_bind fmap option_fmap option_map];
      (destruct (decide (L = _normalize_labels l)) as [->|HL]; [by rewrite decide_True|by rewrite decide_False by (intros []; congruence)]).
  - rewrite assoc_get_set_ne by congruence. by rewrite decide_False by (intros []; congruence).
Qed.

Lemma head_app_one {A} (l : list A) (x : option A) :
  head (l ++ option_list x) = match head l with Some y => Some y | None => x end.
Proof. destruct l; [|done]. by destruct x. Qed.
Lemma omap_snoc {A B} (f : A -> option B) (l : list A) x :
  omap (M := list) f (l ++ [x]) = omap (M := list) f l ++ option_list (f x).
Proof. by rewrite omap_app. Qed.

Lemma run_snoc ops op : run_ops (ops ++ [op]) = apply_op (run_ops ops) op.
Proof. unfold run_ops. by rewrite foldl_app. Qed.

Lemma run_buckets ops name : buckets_of (run_ops ops) name = sort_by fleb <$> first_buckets name ops.
Proof.
  induction ops as [|op ops IH] using rev_ind; [done|]. rewrite run_snoc. unfold first_buckets.
  rewrite omap_snoc, head_app_one. fold (first_buckets name ops). destruct op as [n h l a|n h v l b]; cbn [apply_op].
  - change (buckets_of (inc_counter n h l a (run_ops ops)) name) with (buckets_of (run_ops ops) name). rewrite IH.
    by destruct (first_buckets name ops).
  - rewrite observe_buckets, IH. destruct (decide (n = name)); by destruct (first_buckets name ops).
Qed.

Lemma first_buckets_Some ops name l v : v ∈ observed name l ops -> is_Some (buckets_of (run_ops ops) name).
Proof.
  rewrite run_buckets. intros (op & Hop & E)%list_elem_of_omap. destruct op as [|n h w l' b]; [done|]. cbn in E.
  destruct (decide (n = name /\ _)) as [[-> _]|]; [|done]. apply fmap_is_Some. unfold first_buckets.
  assert (b ∈ omap (M := list) (fun op => match op with
    | Observe n _ _ _ b => if decide (n = name) then Some b else None
    | _ => None end) ops) as Hin.
  { apply list_elem_of_omap. eexists. split; [exact Hop|]. cbn. by rewrite decide_True. }
  destruct (omap (M := list) _ ops); [by apply elem_of_nil in Hin|by eexists].
Qed.

Lemma counter_value_run ops name l :
  counter_value (run_ops ops) name l =
    match counted name l ops with [] => None | amounts => Some (foldl fadd fzero amounts) end.
Proof.
  induction ops as [|op ops IH] using rev_ind; [done|]. rewrite run_snoc. unfold counted. rewrite omap_snoc.
  fold (counted name l ops). destruct op as [n h l' a|n h v l' b]; cbn [apply_op]; [|by rewrite app_nil_r].
  rewrite inc_counter_value, IH. destruct (decide (n = name /\ _)) as [_|_]; cbn [option_list]; [|by rewrite app_nil_r].
  destruct (counted name l ops) as [|x xs]; [done|]. cbn [default app foldl]. by rewrite foldl_app.
Qed.

Lemma sample_of_run ops name l :
  sample_of (run_ops ops) name l =
    match observed name l ops with
    | [] => None
    | values => Some (sample_for (default [] (sort_by fleb <$> first_buckets name ops)) values)
    end.
Proof.
  induction ops as [|op ops IH] using rev_ind; [done|]. rewrite <- run_buckets in *. rewrite run_snoc.
  unfold observed. rewrite omap_snoc. fold (observed name l ops).
  destruct op as [n h l' a|n h v l' b]; cbn [apply_op]; [by rewrite app_nil_r|].
  rewrite observe_sample_of, observe_buckets, IH. destruct (observed name l ops) as [|x xs] eqn:Eo.
  - destruct (decide (n = name /\ _)) as [[-> _]|Hn]; [|done]. rewrite decide_True by done.
    cbv zeta. cbn [default app]. unfold id. by rewrite observe_sample_for.
  - destruct (first_buckets_Some ops name l x) as [bs Hb]; [rewrite Eo; left|].
    rewrite Hb. cbn [default]. unfold id. destruct (decide (n = name /\ _)) as [[-> _]|Hn]; cbn [option_list].
    + rewrite decide_True by done. by rewrite observe_sample_for.
    + rewrite app_nil_r. by destruct (decide (n = name)).
Qed.

(** After any sequence of calls of the registry, the counter of a name and
    label values is the sum of its increments in their order, and the histogram
    sample has, for each bucket of the first observation of the name, the number of
    values observed up to its bound, and the number and the sum of all values. The
    order in which the labels are given does not matter, other names and label values
    are not touched. *)
Theorem registry_exact ops name l :
  counter_value (run_ops ops) name l =
    match counted name l ops with [] => None | amounts => Some (foldl fadd fzero amounts) end /\
  sample_of (run_ops ops) name l =
    match observed name l ops with
    | [] => None
    | values => Some (sample_for (default [] (sort_by fleb <$> first_buckets name ops)) values)
    end.
Proof. split; [apply counter_value_run|apply sample_of_run]. Qed.

(** ** Label values in the exposition *)

(** How a scraper reads the text between the quotes. *)
Fixpoint read_label (s : string) : option (string * string) :=
  match s with
  | EmptyString => None
  | String c s' =>
      if Ascii.eqb c dquote_char then Some (""%string, s')
      else if Ascii.eqb c backslash then
        match s' with
        | String e s2 =>
            let d := if Ascii.eqb e "n" then newline else e in
            match read_label s2 with Some (v, rest) => Some (String d v, rest) | None => None end
        | EmptyString => None
        end
      else match read_label s' with Some (v, rest) => Some (String c v, rest) | None => None end
  end.

Definition escape_char (c : ascii) : string :=
  if Ascii.eqb c backslash then String backslash (String backslash "")
  else if Ascii.eqb c dquote_char then String backslash (String dquote_char "")
  else if Ascii.eqb c newline then String backslash "n"
  else String c "".

Fixpoint str_flat_map (f : ascii -> string) (s : string) : string :=
  match s with EmptyString => EmptyString | String c s' => f c +:+ str_flat_map f s' end.

Lemma replace_char x rep s :
  replace (String x "") rep s = str_flat_map (fun c => if Ascii.eqb x c then rep else String c "") s.
Proof.
  unfold replace. induction s as [|c s IH]; [done|]. cbn [replace_go str_flat_map String.prefix String.length Nat.sub].
  destruct (ascii_dec x c) as [->|Hc].
  - rewrite Ascii.eqb_refl, <- IH. by destruct s.
  - apply Ascii.eqb_neq in Hc. rewrite Hc, IH. done.
Qed.

Lemma str_flat_map_app f s t : str_flat_map f (s +:+ t) = str_flat_map f s +:+ str_flat_map f t.
Proof. induction s as [|c s IH]; [done|]. rewrite append_cons. cbn [str_flat_map]. by rewrite IH, append_assoc. Qed.

Lemma str_flat_map_comp f g s : str_flat_map f (str_flat_map g s) = str_flat_map (fun c => str_flat_map f (g c)) s.
Proof. induction s as [|c s IH]; [done|]. cbn [str_flat_map]. by rewrite str_flat_map_app, IH. Qed.

Lemma str_flat_map_ext f g s : (forall c, f c = g c) -> str_flat_map f s = str_flat_map g s.
Proof. intros H. induction s as [|c s IH]; [done|]. cbn [str_flat_map]. by rewrite H, IH. Qed.

(** The three replacements are one escape per character. *)
Lemma escape_label_chars v : _escape_label_value v = str_flat_map escape_char v.
Proof.
  unfold _escape_label_value, line_break. rewrite !replace_char, !str_flat_map_comp. apply str_flat_map_ext.
  intros c. unfold escape_char. rewrite !(Ascii.eqb_sym c).
  destruct (Ascii.eqb backslash c); [done|]. cbn [str_flat_map]. destruct (Ascii.eqb dquote_char c); [done|].
  cbn [str_flat_map]. rewrite ?append_nil_r. destruct (Ascii.eqb newline c); reflexivity.
Qed.

(** A label value is read back from the exposition, and the text after its closing
    quote is left. *)
Lemma label_read_back v rest : read_label (_escape_label_value v +:+ String dquote_char rest) = Some (v, rest).
Proof.
  rewrite escape_label_chars. induction v as [|c v IH]; [done|]. cbn [str_flat_map]. rewrite append_assoc.
  unfold escape_char at 1. destruct (Ascii.eqb c backslash) eqn:E1.
  { apply Ascii.eqb_eq in E1 as ->. rewrite !append_cons. cbn [read_label]. change (Ascii.eqb backslash dquote_char) with false.
    rewrite Ascii.eqb_refl. change ("" +:+ ?s) with s. by rewrite IH. }
  destruct (Ascii.eqb c dquote_char) eqn:E2.
  { apply Ascii.eqb_eq in E2 as ->. rewrite !append_cons. cbn [read_label]. change (Ascii.eqb backslash dquote_char) with false.
    rewrite Ascii.eqb_refl. change ("" +:+ ?s) with s. by rewrite IH. }
  destruct (Ascii.eqb c newline) eqn:E3.
  { apply Ascii.eqb_eq in E3 as ->. rewrite !append_cons. cbn [read_label]. change (Ascii.eqb backslash dquote_char) with false.
    rewrite Ascii.eqb_refl. change ("" +:+ ?s) with s. by rewrite IH. }
  rewrite append_cons. cbn [read_label]. rewrite E2, E1. change ("" +:+ ?s) with s. by rewrite IH.
Qed.
