(* ===== verification/NotificationGateways.v ===== *)
(** * Notification gateways

    [services/notification_service/telegram_gateway.py], [webhook_gateway.py] and
    [email_gateway.py], the implementations of the gateway interface of
    [GatewayDispatch.v]. The HTTP servers and the SMTP server are arguments, each
    a function of what was sent to it so far; a gateway carries what it has sent.
    A mail message is handed to the SMTP server as its headers and parts, before the
    email package serialises it. *)

From S2P Require Import Prelude PyStr PyFloat PyUuid PyHash PyVal PyJson Http Notification GatewayDispatch Prometheus.
From stdpp Require Import options.
From Stdlib Require Import Ascii String.

#[local] Open Scope Z_scope.

(** What [client.post] does: an answer with its status and text, a network
    failure ([httpx.HTTPError] or [OSError]), a [ValueError], or another exception
    such as [httpx.InvalidURL]. *)
Inductive post_reply :=
  | Answered (status : Z) (text : string)
  | NetworkError (text name : string)
  | RequestValueError (text name : string)
  | RequestError (text name : string).
Definition post_server : Type := list http_request -> http_request -> post_reply.

Definition _RETRYABLE_STATUS_CODES : list Z := [429; 500; 502; 503; 504].
Definition retryable_status (n : Z) : bool := bool_decide (n ∈ _RETRYABLE_STATUS_CODES).

Definition result_of (message : NotificationMessage) (name status : string) (detail : option string) : DeliveryResult :=
  {| dr_message_id := nm_message_id message; dr_gateway := name; dr_status := status; dr_attempt := 1; dr_detail := detail |}.

(** ** Telegram *)

Record TelegramGatewayConfig := { tg_bot_token : string; tg_default_chat_id : string; tg_timeout_seconds : f64 }.

(** [__post_init__] *)
Definition telegram_config (bot_token default_chat_id : string) (timeout_seconds : f64) : result TelegramGatewayConfig :=
  _ ← raise_if (is_empty (strip bot_token)) ValueError "bot_token must be non-empty";
  _ ← raise_if (is_empty (strip default_chat_id)) ValueError "default_chat_id must be non-empty";
  _ ← raise_if (fleb timeout_seconds fzero) ValueError "timeout_seconds must be positive";
  Ok {| tg_bot_token := bot_token; tg_default_chat_id := default_chat_id; tg_timeout_seconds := timeout_seconds |}.

Record TelegramSendResult := { tr_status_code : Z; tr_body : option dict; tr_error : option string }.

Definition _MARKDOWN_V2_RESERVED : list ascii :=
  ["_"; "*"; "["; "]"; "("; ")"; "~"; "`"; ">"; "#"; "+"; "-"; "="; "|"; "{"; "}"; "."; "!"]%char.
Definition reserved (c : ascii) : bool := bool_decide (c ∈ _MARKDOWN_V2_RESERVED).

Definition _escape_markdown_v2 (value : string) : string :=
  str_flat_map (fun c => if reserved c then String backslash (String c "") else String c "") value.

Definition meta_text (message : NotificationMessage) (key dflt : string) : string :=
  py_str (dget_or key (VStr dflt) (nm_metadata message)).

Definition render_telegram_message_text (message : NotificationMessage) : string :=
  let field label value := "*" +:+ label +:+ ":* `" +:+ _escape_markdown_v2 value +:+ "`" in
  "*" +:+ _escape_markdown_v2 (nm_title message) +:+ "*" +:+ line_break +:+
  _escape_markdown_v2 (nm_body message) +:+ line_break +:+ line_break +:+
  field "severity" (severity_value (nm_severity message)) +:+ line_break +:+
  field "user" (nm_user_id message) +:+ line_break +:+
  field "trace" (meta_text message "trace_id" "n/a") +:+ line_break +:+
  field "decision" (meta_text message "decision_id" "n/a").

Definition _resolve_chat_id (message : NotificationMessage) (default_chat_id : string) : string :=
  str_or (strip (meta_text message "chat_id" "")) default_chat_id.

(** Only [JSONDecodeError] is caught here. *)
Definition _decode_json (raw : string) : result (option dict) :=
  if is_empty (strip raw) then Ok None
  else match json_loads raw with
       | Raise e => if decide (exc_cls e = JSONDecodeError) then Ok (Some [("raw"%string, VStr raw)]) else Raise e
       | Ok (VDict d) => Ok (Some d)
       | Ok payload => Ok (Some [("raw"%string, payload)])
       end.

(** [json.dumps] of an object of texts and flags does not fail. *)
Definition telegram_request (token chat_id text : string) (timeout_seconds : f64) : http_request :=
  {| hr_method := "POST"; hr_url := "https://api.telegram.org/bot" +:+ token +:+ "/sendMessage";
     hr_body := match json_dumps json_plain (VDict [("chat_id", VStr chat_id); ("text", VStr text);
                        ("parse_mode", VStr "MarkdownV2"); ("disable_web_page_preview", VBool true)]%string) with
                | Ok s => Some s | Raise _ => None end;
     hr_headers := [("Content-Type", "application/json")]%string; hr_timeout := timeout_seconds |}.

(** [_send_http_request]: the text of the answer is decoded inside the [try], so a
    number [json.loads] refuses for its length counts as a network failure. The
    right side is an exception that is not caught. *)
Definition telegram_reply (r : post_reply) : TelegramSendResult + (string * string) :=
  match r with
  | Answered status text =>
      inl (match _decode_json text with
           | Ok body => {| tr_status_code := status; tr_body := body; tr_error := None |}
           | Raise e => {| tr_status_code := 0; tr_body := None; tr_error := Some (exc_msg e) |}
           end)
  | NetworkError text _ | RequestValueError text _ => inl {| tr_status_code := 0; tr_body := None; tr_error := Some text |}
  | RequestError text name => inr (text, name)
  end.

Definition telegram_result (message : NotificationMessage) (response : TelegramSendResult) : DeliveryResult :=
  let status := tr_status_code response in
  let body := default [] (tr_body response) in
  if (status =? 200) && truthy (dget_or "ok" (VBool true) body) then result_of message "telegram" "DELIVERED" None
  else if (status =? 0) || retryable_status status then
    result_of message "telegram" "RETRYABLE_ERROR"
      (Some (opt_or (tr_error response) ("telegram_http_" +:+ (if status =? 0 then "network" else str_of_Z status))))
  else result_of message "telegram" "FAILED_TERMINAL" (Some (opt_or (tr_error response) ("telegram_http_" +:+ str_of_Z status))).

Record TelegramGateway := { tw_config : TelegramGatewayConfig; tw_sent : list http_request }.

Definition telegram_message_request (g : TelegramGatewayConfig) (message : NotificationMessage) : http_request :=
  telegram_request (tg_bot_token g) (_resolve_chat_id message (tg_default_chat_id g)) (render_telegram_message_text message)
    (tg_timeout_seconds g).

Definition telegram_outcome (message : NotificationMessage) (r : post_reply) : DeliveryResult + (string * string) :=
  match telegram_reply r with inl response => inl (telegram_result message response) | inr e => inr e end.

(** ** Webhook *)

Record WebhookGatewayConfig := {
  wh_url : string; wh_headers : list (string * string); wh_timeout_seconds : f64; wh_secret : string }.

Definition webhook_config (url : string) (headers : list (string * string)) (timeout_seconds : f64) (secret : string)
  : result WebhookGatewayConfig :=
  _ ← raise_if (is_empty (strip url)) ValueError "webhook url must be non-empty";
  _ ← raise_if (fleb timeout_seconds fzero) ValueError "timeout_seconds must be positive";
  Ok {| wh_url := url; wh_headers := headers; wh_timeout_seconds := timeout_seconds; wh_secret := secret |}.

Definition _build_webhook_payload (message : NotificationMessage) : dict :=
  [("message_id", VStr (nm_message_id message)); ("user_id", VStr (nm_user_id message)); ("gateway", VStr (nm_gateway message));
   ("severity", VStr (severity_value (nm_severity message))); ("title", VStr (nm_title message)); ("body", VStr (nm_body message));
   ("metadata", VDict (nm_metadata message))]%string.

(** [json.dumps(payload, sort_keys=True)] and [json.dumps(payload, ensure_ascii=False)] *)
Definition json_sorted : json_format := {| jf_item := ", "; jf_key := ": "; jf_sort_keys := true; jf_ensure_ascii := true |}.
Definition json_utf8 : json_format := {| jf_item := ", "; jf_key := ": "; jf_sort_keys := false; jf_ensure_ascii := false |}.

Definition hex_bytes (bs : list Z) : string := foldr (fun b s => hexpad 2 b +:+ s) ""%string bs.
Definition signature (secret text : string) : string :=
  "sha256=" +:+ hex_bytes (hmac_sha256 (bytes_of secret) (bytes_of text)).

(** [headers.setdefault(key, value)] *)
Definition set_default (key value : string) (headers : list (string * string)) : list (string * string) :=
  match assoc_get key headers with Some _ => headers | None => headers ++ [(key, value)] end.

Definition webhook_headers (c : WebhookGatewayConfig) (payload : dict) : result (list (string * string)) :=
  let headers := set_default "User-Agent" "openTrader-notification/1.0"
                   (set_default "Content-Type" "application/json" (wh_headers c)) in
  if is_empty (wh_secret c) then Ok headers
  else body ← json_dumps json_sorted (VDict payload);
       Ok (assoc_set "X-Signature-256" (signature (wh_secret c) body) headers).

Definition webhook_message_request (c : WebhookGatewayConfig) (message : NotificationMessage) : result http_request :=
  let payload := _build_webhook_payload message in
  headers ← webhook_headers c payload;
  body ← json_dumps json_utf8 (VDict payload);
  Ok {| hr_method := "POST"; hr_url := wh_url c; hr_body := Some body; hr_headers := headers; hr_timeout := wh_timeout_seconds c |}.

Definition webhook_outcome (message : NotificationMessage) (r : post_reply) : DeliveryResult + (string * string) :=
  match r with
  | Answered status _ =>
      let detail := Some ("http_" +:+ str_of_Z status) in
      inl (if (200 <=? status) && (status <? 300) then result_of message "webhook" "DELIVERED" detail
           else if retryable_status status then result_of message "webhook" "RETRYABLE_ERROR" detail
           else result_of message "webhook" "FAILED_TERMINAL" detail)
  | NetworkError text name => inl (result_of message "webhook" "RETRYABLE_ERROR" (Some (str_or text name)))
  | RequestValueError text name | RequestError text name => inr (text, name)
  end.
Record WebhookGateway := { ww_config : WebhookGatewayConfig; ww_sent : list http_request }.

(** ** Email *)

Definition _SEVERITY_COLORS : list (string * string) :=
  [("INFO", "#17d6a5"); ("WARNING", "#f0ad4e"); ("CRITICAL", "#dc3545")]%string.

Record EmailGatewayConfig := {
  em_smtp_host : string;
  em_smtp_port : Z;
  em_smtp_username : string;
  em_smtp_password : string;
  em_use_tls : bool;
  em_from_address : string;
  em_default_recipients : list string;
  em_timeout_seconds : f64 }.

Definition email_config (c : EmailGatewayConfig) : result EmailGatewayConfig :=
  _ ← raise_if (is_empty (strip (em_smtp_host c))) ValueError "smtp_host must be non-empty";
  _ ← raise_if (is_empty (strip (em_from_address c))) ValueError "from_address must be non-empty";
  _ ← raise_if (match em_default_recipients c with [] => true | _ => false end) ValueError "default_recipients must be non-empty";
  Ok c.

(** [tuple(r.strip() for r in text.split(",") if r.strip())] *)
Definition comma_list (text : string) : list string :=
  strip <$> List.filter (fun r => negb (is_empty (strip r))) (split_on "," text).

Definition _resolve_recipients (message : NotificationMessage) (defaults : list string) : list string :=
  let metadata_recipients := strip (meta_text message "email_recipients" "") in
  if is_empty metadata_recipients then defaults else comma_list metadata_recipients.

(** The literal text of the page, with a tilde for each double quote. *)
Definition html (s : string) : string := replace "~" (String dquote_char "") s.

Record email_text := { et_subject : string; et_html : string; et_plain : string }.

Definition _render_email (message : NotificationMessage) : email_text :=
  let severity := severity_value (nm_severity message) in
  let color := default "#6c757d"%string (assoc_get severity _SEVERITY_COLORS) in
  let trace := meta_text message "trace_id" "n/a" in
  let decision := meta_text message "decision_id" "n/a" in
  {| et_subject := "[" +:+ severity +:+ "] " +:+ nm_title message;
     et_plain :=
       nm_title message +:+ line_break +:+ repeat_char "=" 40 +:+ line_break +:+ line_break +:+
       nm_body message +:+ line_break +:+ line_break +:+
       "Severity: " +:+ severity +:+ line_break +:+
       "Trace ID: " +:+ trace +:+ line_break +:+ "Decision ID: " +:+ decision +:+ line_break;
     et_html :=
       line_break +:+
       html "    <html><body style=~font-family: -apple-system, BlinkMacSystemFont, 'Segoe UI', Roboto, sans-serif; max-width: 600px; margin: 0 auto; padding: 20px;~>" +:+ line_break +:+
       html "        <div style=~border-left: 4px solid " +:+ color +:+ html "; padding: 12px 16px; background: #f8f9fa; margin-bottom: 16px;~>" +:+ line_break +:+
       html "            <h2 style=~margin: 0 0 8px 0; color: #212529;~>" +:+ nm_title message +:+ "</h2>" +:+ line_break +:+
       html "            <span style=~background: " +:+ color +:+ html "; color: white; padding: 2px 8px; border-radius: 4px; font-size: 12px; font-weight: bold;~>" +:+ severity +:+ "</span>" +:+ line_break +:+
       "        </div>" +:+ line_break +:+
       html "        <div style=~padding: 16px; background: #ffffff; border: 1px solid #dee2e6; border-radius: 8px;~>" +:+ line_break +:+
       html "            <p style=~color: #495057; line-height: 1.6;~>" +:+ nm_body message +:+ "</p>" +:+ line_break +:+
       "        </div>" +:+ line_break +:+
       html "        <div style=~margin-top: 16px; padding: 12px; background: #f1f3f5; border-radius: 8px; font-size: 13px; color: #6c757d;~>" +:+ line_break +:+
       html "            <p style=~margin: 4px 0;~><strong>Trace:</strong> " +:+ trace +:+ "</p>" +:+ line_break +:+
       html "            <p style=~margin: 4px 0;~><strong>Decision:</strong> " +:+ decision +:+ "</p>" +:+ line_break +:+
       "        </div>" +:+ line_break +:+ "    </body></html>" +:+ line_break +:+ "    " |}.

(** The message: its headers and its parts. *)
Record mime_message := {
  mm_subject : string; mm_from : string; mm_to : string; mm_parts : list (string * string) }.

(** What is asked of the SMTP server, and what can come of it:
    [SMTPResponseException] carries a code; the other failures are further
    [SMTPException]s (with [SMTPServerDisconnected] apart) and [OSError]. *)
Inductive smtp_command :=
  | Connect (host : string) (port : Z) (timeout : f64)
  | Ehlo | StartTls
  | Login (username password : string)
  | SendMail (from_address : string) (recipients : list string) (message : mime_message)
  | Quit.
Inductive smtp_failure :=
  | SmtpResponse (smtp_code : Z)
  | SmtpDisconnected (text : string)
  | SmtpFailure (text name : string).
Definition smtp_server : Type := list smtp_command -> smtp_command -> option smtp_failure.

Section smtp.
Context (server : smtp_server).

(** Commands until one fails; the log grows by the commands issued. *)
Fixpoint issue (commands : list smtp_command) (log : list smtp_command) : list smtp_command * option smtp_failure :=
  match commands with
  | [] => (log, None)
  | c :: rest => match server log c with
                 | Some f => (log ++ [c], Some f)
                 | None => issue rest (log ++ [c])
                 end
  end.

Definition session (c : EmailGatewayConfig) (recipients : list string) (m : mime_message) : list smtp_command :=
  (if em_use_tls c then [Ehlo; StartTls; Ehlo] else []) ++
  (if negb (is_empty (em_smtp_username c)) && negb (is_empty (em_smtp_password c))
   then [Login (em_smtp_username c) (em_smtp_password c)] else []) ++
  [SendMail (em_from_address c) recipients m].

(** Leaving [with smtplib.SMTP(...)]: [QUIT] is sent whatever happened; a code other
    than 221 raises, in place of what the body raised; a lost connection is ignored. *)
Definition leave (body : list smtp_command * option smtp_failure) : list smtp_command * option smtp_failure :=
  let '(log, outcome) := body in
  (log ++ [Quit], match server log Quit with Some (SmtpResponse n) => Some (SmtpResponse n) | _ => outcome end).

Definition email_message (c : EmailGatewayConfig) (recipients : list string) (t : email_text) : mime_message :=
  {| mm_subject := et_subject t; mm_from := em_from_address c; mm_to := join ", " recipients;
     mm_parts := [("plain"%string, et_plain t); ("html"%string, et_html t)] |}.

Definition _send_smtp (c : EmailGatewayConfig) (recipients : list string) (t : email_text) (log : list smtp_command)
  : list smtp_command * option smtp_failure :=
  let m := email_message c recipients t in
  let connect := Connect (em_smtp_host c) (em_smtp_port c) (em_timeout_seconds c) in
  match server log connect with
  | Some f => (log ++ [connect], Some f)
  | None => leave (issue (session c recipients m) (log ++ [connect]))
  end.

Definition email_outcome (message : NotificationMessage) (r : option smtp_failure) : DeliveryResult :=
  match r with
  | None => result_of message "email" "DELIVERED" None
  | Some (SmtpResponse n) =>
      result_of message "email" (if 500 <=? n then "FAILED_TERMINAL" else "RETRYABLE_ERROR")
        (Some ("smtp_error_" +:+ str_of_Z n))
  | Some (SmtpDisconnected text) => result_of message "email" "RETRYABLE_ERROR" (Some (str_or text "SMTPServerDisconnected"))
  | Some (SmtpFailure text name) => result_of message "email" "RETRYABLE_ERROR" (Some (str_or text name))
  end.

End smtp.

Record EmailGateway := { ew_config : EmailGatewayConfig; ew_log : list smtp_command }.

(** [load_email_gateway_from_env] *)
Definition load_email_gateway_from_env (env : string -> option string) : result (option EmailGateway) :=
  let getenv name dflt := default dflt (env name) in
  let smtp_host := strip (getenv "EMAIL_SMTP_HOST" "") in
  let from_address := strip (getenv "EMAIL_FROM_ADDRESS" "") in
  let recipients_raw := strip (getenv "EMAIL_DEFAULT_RECIPIENTS" "") in
  if is_empty smtp_host || is_empty from_address || is_empty recipients_raw then Ok None
  else
    port ← int_of_val (VStr (getenv "EMAIL_SMTP_PORT" "587"));
    timeout ← float_of_val (VStr (getenv "EMAIL_TIMEOUT_SECONDS" "15.0"));
    c ← email_config
          {| em_smtp_host := smtp_host; em_smtp_port := port;
             em_smtp_username := strip (getenv "EMAIL_SMTP_USERNAME" ""); em_smtp_password := strip (getenv "EMAIL_SMTP_PASSWORD" "");
             em_use_tls := bool_decide (lower (strip (getenv "EMAIL_USE_TLS" "true")) ∈ ["1"; "true"; "yes"]%string);
             em_from_address := from_address; em_default_recipients := comma_list recipients_raw;
             em_timeout_seconds := timeout |};
    Ok (Some {| ew_config := c; ew_log := [] |}).

(** [load_telegram_gateway_from_env] *)
Definition load_telegram_gateway_from_env (env : string -> option string) : result (option TelegramGateway) :=
  let getenv name dflt := default dflt (env name) in
  let bot_token := strip (getenv "TELEGRAM_BOT_TOKEN" "") in
  let default_chat_id := strip (getenv "TELEGRAM_DEFAULT_CHAT_ID" "") in
  if is_empty bot_token || is_empty default_chat_id then Ok None
  else
    timeout_seconds ← float_of_val (VStr (getenv "NOTIFY_GATEWAY_TIMEOUT_SECONDS" "10.0"));
    c ← telegram_config bot_token default_chat_id timeout_seconds;
    Ok (Some {| tw_config := c; tw_sent := [] |}).

(** ** The gateways as implementations of the interface *)

Inductive gateway :=
  | Telegram (g : TelegramGateway)
  | Webhook (g : WebhookGateway)
  | Email (g : EmailGateway)
  | InMemory (g : InMemoryGateway).

(** A result returned to the dispatcher, or an exception; none of these exceptions
    has a [retryable] attribute. *)
Definition outcome_of (r : DeliveryResult + (string * string)) : send_outcome :=
  match r with inl d => Returned (dr_status d) (dr_detail d) | inr (text, name) => Raised text name true end.

Class network := { net_http : post_server; net_smtp : smtp_server }.

(** [send] of the three network gateways. *)
Definition gateway_send `{!network} (m : NotificationMessage) (g : gateway) : gateway * send_outcome :=
  match g with
  | Telegram g =>
      let request := telegram_message_request (tw_config g) m in
      (Telegram {| tw_config := tw_config g; tw_sent := tw_sent g ++ [request] |},
       outcome_of (telegram_outcome m (net_http (tw_sent g) request)))
  | Webhook g =>
      match webhook_message_request (ww_config g) m with
      | Ok request => (Webhook {| ww_config := ww_config g; ww_sent := ww_sent g ++ [request] |},
                       outcome_of (webhook_outcome m (net_http (ww_sent g) request)))
      | Raise e => (Webhook g, Raised (exc_msg e) (exc_name (exc_cls e)) true)
      end
  | Email g =>
      let recipients := _resolve_recipients m (em_default_recipients (ew_config g)) in
      let '(log, r) := _send_smtp net_smtp (ew_config g) recipients (_render_email m) (ew_log g) in
      (Email {| ew_config := ew_config g; ew_log := log |}, outcome_of (inl (email_outcome m r)))
  | InMemory g => let '(g', out) := gw_send m g in (InMemory g', out)
  end.

#[export] Instance gateways `{!network} : NotificationGateway gateway := {
  gw_name g := match g with Telegram _ => "telegram"%string | Webhook _ => "webhook"%string | Email _ => "email"%string
                       | InMemory g => gw_name g end;
  gw_send := gateway_send }.

(** ** The text sent to Telegram *)

(** How MarkdownV2 reads a text: a backslash takes the next character as it is, a
    reserved character is markup, the others are themselves. *)
Inductive md_token := Text (c : ascii) | Mark (c : ascii).

Fixpoint markdown (s : string) : list md_token :=
  match s with
  | EmptyString => []
  | String c s' =>
      if Ascii.eqb c backslash then
        match s' with EmptyString => [Text c] | String e s2 => Text e :: markdown s2 end
      else (if reserved c then Mark c else Text c) :: markdown s'
  end.

Definition plain (s : string) : list md_token := Text <$> String.list_ascii_of_string s.
Definition no_backslash (s : string) : bool := str_forallb (fun c => negb (Ascii.eqb c backslash)) s.

Lemma reserved_not_backslash c : reserved c = true -> Ascii.eqb c backslash = false.
Proof. unfold reserved. intros H%bool_decide_eq_true. apply Ascii.eqb_neq. intros ->. by vm_compute in H; set_solver. Qed.

Lemma markdown_escape v t : no_backslash v = true -> markdown (_escape_markdown_v2 v +:+ t) = plain v ++ markdown t.
Proof.
  unfold _escape_markdown_v2, no_backslash, plain. induction v as [|c v IH]; [done|]. cbn [str_forallb str_flat_map].
  intros [Hc Hv]%andb_true_iff. rewrite append_assoc. cbn [String.list_ascii_of_string]. rewrite fmap_cons. cbn [app].
  destruct (reserved c) eqn:E.
  - rewrite !append_cons. cbn [markdown]. rewrite Ascii.eqb_refl. change ("" +:+ ?x) with x. by rewrite IH.
  - rewrite append_cons. cbn [markdown]. apply negb_true_iff in Hc. rewrite Hc, E. change ("" +:+ ?x) with x. by rewrite IH.
Qed.

Definition literal (s : string) : list md_token :=
  (fun c => if reserved c then Mark c else Text c) <$> String.list_ascii_of_string s.

Lemma markdown_literal l t : no_backslash l = true -> markdown (l +:+ t) = literal l ++ markdown t.
Proof.
  unfold no_backslash, literal. induction l as [|c l IH]; [done|]. cbn [str_forallb].
  intros [Hc%negb_true_iff Hl]%andb_true_iff. rewrite append_cons. cbn [markdown String.list_ascii_of_string].
  rewrite Hc, fmap_cons, IH by done. done.
Qed.

(** The layout of a message: bold title, body, and four labelled code spans. *)
Definition marks (s : string) : list md_token := Mark <$> String.list_ascii_of_string s.
Definition layout_field (label value : string) : list md_token :=
  marks "*" ++ plain label ++ plain ":" ++ marks "*" ++ plain " " ++ marks "`" ++ plain value ++ marks "`".
Definition message_layout (m : NotificationMessage) : list md_token :=
  marks "*" ++ plain (nm_title m) ++ marks "*" ++ plain line_break ++
  plain (nm_body m) ++ plain line_break ++ plain line_break ++
  layout_field "severity" (severity_value (nm_severity m)) ++ plain line_break ++
  layout_field "user" (nm_user_id m) ++ plain line_break ++
  layout_field "trace" (meta_text m "trace_id" "n/a") ++ plain line_break ++
  layout_field "decision" (meta_text m "decision_id" "n/a").

Definition field_text (label value : string) : string := "*" +:+ label +:+ ":* `" +:+ _escape_markdown_v2 value +:+ "`".

Lemma markdown_field label value t :
  no_backslash label = true -> literal label = plain label -> no_backslash value = true ->
  markdown (field_text label value +:+ t) = layout_field label value ++ markdown t.
Proof.
  intros Hl El Hv. unfold field_text, layout_field. rewrite !append_assoc, !markdown_literal, markdown_escape, markdown_literal by done.
  rewrite El, <- !(assoc_L app). done.
Qed.

Lemma severity_plain s : no_backslash (severity_value s) = true.
Proof. by destruct s. Qed.

(** A message whose texts contain no backslash is read by Telegram with exactly
    the markup of the template: title, body, user and ids appear as they are,
    whatever reserved characters they contain. *)
Theorem telegram_text_layout m :
  no_backslash (nm_title m) = true -> no_backslash (nm_body m) = true -> no_backslash (nm_user_id m) = true ->
  no_backslash (meta_text m "trace_id" "n/a") = true -> no_backslash (meta_text m "decision_id" "n/a") = true ->
  markdown (render_telegram_message_text m) = message_layout m.
Proof.
  intros H1 H2 H3 H4 H5. unfold render_telegram_message_text. cbv zeta. change ("*" +:+ ?l +:+ ":* `" +:+ _escape_markdown_v2 ?v +:+ "`") with (field_text l v).
  unfold message_layout.
  rewrite markdown_literal by done. rewrite markdown_escape by done. rewrite !markdown_literal by done.
  rewrite markdown_escape by done. rewrite !markdown_literal by done.
  rewrite <- (append_nil_r (field_text "decision" _)).
  repeat first [rewrite markdown_field by (apply severity_plain || done)|rewrite markdown_literal by done].
  cbn [markdown]. by rewrite app_nil_r.
Qed.

(** ** The signature of a webhook *)

Lemma dumps_payload f m s :
  json_dumps f (VDict (_build_webhook_payload m)) = Ok s ->
  exists meta, json_dumps f (VDict (nm_metadata m)) = Ok meta /\
    s = json_members f [("message_id", json_str (jf_ensure_ascii f) (nm_message_id m));
          ("user_id", json_str (jf_ensure_ascii f) (nm_user_id m)); ("gateway", json_str (jf_ensure_ascii f) (nm_gateway m));
          ("severity", json_str (jf_ensure_ascii f) (severity_value (nm_severity m)));
          ("title", json_str (jf_ensure_ascii f) (nm_title m)); ("body", json_str (jf_ensure_ascii f) (nm_body m));
          ("metadata", meta)]%string.
Proof.
  rewrite dumps_dict. unfold _build_webhook_payload. intros (ms & Hm & [= <-])%bind_Ok. revert Hm.
  generalize (VDict (nm_metadata m)) as meta. intros meta. cbn [map_res fst snd json_dumps mbind result_bind].
  destruct (json_dumps f meta) as [t|]; [|done]. cbn [map_res fst snd json_dumps mbind result_bind]. intros [= <-]. by exists t.
Qed.

(** C39. With a secret, the signature header of a webhook is made of a text other than
    the body that is sent: the keys are sorted in the one and not in the other. A
    receiver that checks the signature against the body refuses every message. *)
Theorem webhook_signs_other_text c m req :
  is_empty (wh_secret c) = false -> webhook_message_request c m = Ok req ->
  exists signed body, hr_body req = Some body /\
    assoc_get "X-Signature-256" (hr_headers req) = Some (signature (wh_secret c) signed) /\ signed <> body.
Proof.
  intros Hs. unfold webhook_message_request, webhook_headers. rewrite Hs.
  intros (headers & (signed & Hsigned & [= <-])%bind_Ok & Hr)%bind_Ok. apply bind_Ok in Hr as (body & Hbody & [= <-]).
  exists signed, body. split; [done|]. split; [apply assoc_get_set_eq|].
  apply dumps_payload in Hsigned as (m1 & _ & ->). apply dumps_payload in Hbody as (m2 & _ & ->).
  intros E. apply (f_equal (String.get 2)) in E. vm_compute in E. discriminate.
Qed.

(** ** Delivery through the dispatcher *)

Section trace.
Context {G : Type} `{!NotificationGateway G} (py_pow : f64 -> Z -> result f64) (m : NotificationMessage).
#[local] Set Default Proof Using "All".

Definition after_sends (k : nat) (g : G) : G := Nat.iter k (fun g => (gw_send m g).1) g.
Definition outcome_at (k : nat) (g : G) : send_outcome := (gw_send m (after_sends k g)).2.

Definition succeeded (o : send_outcome) : bool :=
  match o with Returned s _ => String.eqb s "DELIVERED" | Raised _ _ _ => false end.
Definition retried (o : send_outcome) : bool :=
  match o with Returned s _ => negb (String.eqb s "DELIVERED") && _is_retryable_status s | Raised _ _ retryable => retryable end.

Lemma after_sends_S k g : after_sends k (gw_send m g).1 = after_sends (S k) g.
Proof. symmetry. apply (Nat.iter_succ_r k _ (fun g => (gw_send m g).1) g). Qed.
Lemma outcome_at_S k g : outcome_at k (gw_send m g).1 = outcome_at (S k) g.
Proof. unfold outcome_at. by rewrite after_sends_S. Qed.

(** What the attempts of one message come to: [k] of them were made; those before the
    last asked for another, and the last one decided. *)
Record made (k : nat) (g : G) (n : nat) (r : DeliveryResult) : Prop := {
  mt_bound : (k <= n)%nat;
  mt_before : forall i, (S i < k)%nat -> retried (outcome_at i g) = true;
  mt_last : (dr_status r = "DELIVERED"%string /\ exists j, k = S j /\ succeeded (outcome_at j g) = true) \/
            (dr_status r = "FAILED"%string /\
             ((k = n /\ forall i, (i < k)%nat -> retried (outcome_at i g) = true) \/
              exists j, k = S j /\ succeeded (outcome_at j g) = false /\ retried (outcome_at j g) = false)) }.

Lemma made_next k g n r :
  retried (outcome_at 0 g) = true -> made k (gw_send m g).1 n r -> made (S k) g (S n) r.
Proof.
  intros H0 [Hb Hp Hl]. split; [lia| |].
  - intros [|i] Hi; [done|]. rewrite <- outcome_at_S. apply Hp. lia.
  - destruct Hl as [(Hs & j & -> & Hj)|(Hs & Hl)].
    + left. split; [done|]. exists (S j). by rewrite <- outcome_at_S.
    + right. split; [done|]. destruct Hl as [(-> & Hl)|(j & -> & Hj)].
      * left. split; [done|]. intros [|i] Hi; [done|]. rewrite <- outcome_at_S. apply Hl. lia.
      * right. exists (S j). by rewrite <- outcome_at_S.
Qed.

Lemma sleep_gateways attempt (d d' : GatewayDispatcher G) u :
  _sleep_after_attempt py_pow attempt d = (d', u) -> gd_gateways d' = gd_gateways d /\ gd_max_attempts d' = gd_max_attempts d.
Proof.
  unfold _sleep_after_attempt. destruct (_ <=? _); [by intros [= <- _]|]. destruct (py_pow _ _); [|by intros [= <- _]].
  destruct (fleb _ _); by intros [= <- _].
Qed.

Lemma attempts_trace n attempt le key g ev mx d d' r :
  gd_gateways d !! key = Some g -> attempt + Z.of_nat n = mx + 1 ->
  attempts py_pow n attempt le key g ev m mx d = (d', Ok r) ->
  exists k, made k g n r /\ dr_attempt r = attempt + Z.of_nat k - 1 /\ gd_gateways d' !! key = Some (after_sends k g).
Proof.
  revert attempt le g d. induction n as [|n IH]; intros attempt le g d Hg Hn.
  { cbn [attempts]. intros [= <- <-]. exists 0%nat. split; [|split; [cbn; lia|exact Hg]].
    split; [lia|lia|]. right. split; [done|]. left. split; [done|lia]. }
  cbn [attempts]. unfold mbind at 1, prog_bind at 1, send_to at 1. destruct (gw_send m g) as [g' out] eqn:Es.
  assert (outcome_at 0 g = out) as E0 by (unfold outcome_at, after_sends; cbn; by rewrite Es).
  assert ((gw_send m g).1 = g') as E1 by by rewrite Es.
  set (d1 := set_gateways _ d). assert (gd_gateways d1 !! key = Some g') as Hg1 by apply lookup_insert_eq.
  assert (forall error, retried out = true ->
    (_ ← _sleep_after_attempt py_pow attempt; attempts py_pow n (attempt + 1) error key g' ev m mx) d1 = (d', Ok r) ->
    exists k, made k g (S n) r /\ dr_attempt r = attempt + Z.of_nat k - 1 /\ gd_gateways d' !! key = Some (after_sends k g)) as Hretry.
  { intros error Hr H. apply prog_bind_Ok in H as (d2 & [] & Hsl & H). apply sleep_gateways in Hsl as [Hg2 _].
    apply IH in H as (k & Hk & Ha & Hl); [|by rewrite Hg2|lia].
    exists (S k). split; [apply made_next; [by rewrite E0|by rewrite E1]|]. split; [lia|]. by rewrite <- after_sends_S, E1. }
  assert (gd_gateways d' = gd_gateways d1 -> gd_gateways d' !! key = Some (after_sends 1 g)) as Hone.
  { intros ->. rewrite Hg1, <- E1. done. }
  assert (dr_status r = "FAILED"%string -> succeeded out = false -> retried out = false -> made 1 g (S n) r) as Hlost.
  { intros H1 H2 H3. split; [lia|lia|]. right. split; [done|]. right. exists 0%nat. by rewrite E0. }
  destruct out as [status detail|text name retryable].
  - destruct (String.eqb status "DELIVERED") eqn:Ed.
    { intros [= <- <-]. exists 1%nat. split; [|split; [cbn; lia|by apply Hone]]. split; [lia|lia|]. left. split; [done|].
      exists 0%nat. by rewrite E0. }
    destruct (_is_retryable_status status) eqn:Er; [apply Hretry; cbn; by rewrite Ed, Er|].
    intros [= <- <-]. exists 1%nat. split; [apply Hlost; cbn; by rewrite ?Ed, ?Er|]. split; [cbn; lia|by apply Hone].
  - destruct retryable; cbn [negb]; [by apply Hretry|].
    intros [= <- <-]. exists 1%nat. split; [by apply Hlost|]. split; [cbn; lia|by apply Hone].
Qed.

(** Whatever the gateway does, a message is settled after [k] sends. *)
Lemma dispatch_trace ev d g :
  gd_gateways d !! nm_gateway m = Some g -> pow_defined py_pow d -> 0 < gd_max_attempts d ->
  exists d' r k, dispatch_message py_pow ev m d = (d', Ok r) /\ made k g (Z.to_nat (gd_max_attempts d)) r /\
    dr_attempt r = Z.of_nat k /\ gd_gateways d' !! nm_gateway m = Some (after_sends k g) /\
    gd_dlq d' = gd_dlq d ++ dead_letter ev m r.
Proof.
  intros Hg Hp Hm. destruct (dispatch_message_spec py_pow ev m d Hp Hm) as (d' & r & delays & E & _ & (_ & _ & _ & _ & Hq & _) & _).
  exists d', r. pose proof E as E'. unfold dispatch_message in E'. rewrite Hg in E'. unfold _dispatch_single in E'.
  apply attempts_trace in E' as (k & Hk & Ha & Hl); [|done|lia]. exists k. split; [done|]. split; [done|].
  split; [lia|]. by split.
Qed.
End trace.

(** The requests of the HTTP gateways: what is posted for a message, what was posted
    before, and what an answer means. *)
Section posting.
Context `{!network} (py_pow : f64 -> Z -> result f64) (m : NotificationMessage).
#[local] Set Default Proof Using "Type".

Definition posting (g : gateway) : option http_request :=
  match g with
  | Telegram g => Some (telegram_message_request (tw_config g) m)
  | Webhook g => match webhook_message_request (ww_config g) m with Ok q => Some q | Raise _ => None end
  | _ => None
  end.
Definition posted (g : gateway) : list http_request :=
  match g with Telegram g => tw_sent g | Webhook g => ww_sent g | _ => [] end.

(** The answer is a success: any 2xx for a webhook; for Telegram 200 with a body that
    does not say otherwise. *)
Definition accepted (g : gateway) (a : post_reply) : bool :=
  match g, a with
  | Webhook _, Answered n _ => (200 <=? n) && (n <? 300)
  | Telegram _, Answered n text =>
      (n =? 200) && match _decode_json text with Ok body => truthy (dget_or "ok" (VBool true) (default [] body)) | Raise _ => false end
  | _, _ => false
  end.
(** The answer is worth another attempt: overload, a server error, or no answer. *)
Definition try_again (g : gateway) (a : post_reply) : bool :=
  match g, a with
  | Webhook _, Answered n _ => retryable_status n
  | Telegram _, Answered n text =>
      match _decode_json text with Ok _ => (n =? 0) || retryable_status n | Raise _ => true end
  | _, _ => true
  end.

Definition answer (g : gateway) (q : http_request) (i : nat) : post_reply := net_http (posted g ++ replicate i q) q.

Lemma after_posts g q k :
  posting g = Some q -> posted (after_sends m k g) = posted g ++ replicate k q /\ posting (after_sends m k g) = Some q /\
  (forall a, accepted (after_sends m k g) a = accepted g a) /\ (forall a, try_again (after_sends m k g) a = try_again g a).
Proof.
  intros Hq. induction k as [|k (IH1 & IH2 & IH3 & IH4)]; [by rewrite app_nil_r|].
  change (after_sends m (S k) g) with (gw_send m (after_sends m k g)).1. destruct (after_sends m k g) as [t|w| |]; [| |done|done].
  - cbn [gw_send gateways gateway_send fst posted tw_sent posting tw_config] in *. injection IH2 as ->.
    rewrite IH1, replicate_S_end, app_assoc. split; [done|]. split; [done|]. split; [intros a; apply IH3|intros a; apply IH4].
  - cbn [gw_send gateways gateway_send posting] in *. destruct (webhook_message_request (ww_config w) m) as [q'|] eqn:Ew; [|done].
    injection IH2 as ->. cbn [fst posted ww_sent posting ww_config]. rewrite Ew. cbn [posted] in IH1.
    rewrite IH1, replicate_S_end, app_assoc. split; [done|]. split; [done|]. split; [intros a; apply IH3|intros a; apply IH4].
Qed.

(** The outcome of a send is decided by the answer. *)
Lemma posting_outcome g q :
  posting g = Some q ->
  succeeded (gw_send m g).2 = accepted g (net_http (posted g) q) /\
  retried (gw_send m g).2 = try_again g (net_http (posted g) q) && negb (accepted g (net_http (posted g) q)).
Proof.
  destruct g as [t|w| |]; cbn [posting]; [| |done|done].
  - intros [= <-]. cbn [gw_send gateways gateway_send posted snd]. destruct (net_http _ _) as [n text|x y|x y|x y]; [|by (split; vm_compute)..].
    unfold telegram_outcome, telegram_reply. cbn [accepted try_again]. destruct (_decode_json text) as [body|e]; [|rewrite andb_false_r; by (split; vm_compute)].
    unfold telegram_result. cbn [tr_status_code tr_body tr_error]. destruct ((n =? 200) && _) eqn:E1.
    { apply andb_true_iff in E1 as [->%Z.eqb_eq _]. by (split; vm_compute). }
    destruct ((n =? 0) || retryable_status n); by (split; vm_compute).
  - destruct (webhook_message_request (ww_config w) m) as [q'|] eqn:Ew; [|done]. intros [= ->].
    cbn [gw_send gateways gateway_send]. rewrite Ew. cbn [snd posted]. destruct (net_http _ _) as [n text|x y|x y|x y]; [|by (split; vm_compute)..].
    cbn [webhook_outcome accepted try_again outcome_of]. destruct ((200 <=? n) && (n <? 300)) eqn:E1; [by rewrite andb_false_r|].
    destruct (retryable_status n); by (split; vm_compute).
Qed.

Lemma answer_outcome g q i :
  posting g = Some q ->
  succeeded (outcome_at m i g) = accepted g (answer g q i) /\
  retried (outcome_at m i g) = try_again g (answer g q i) && negb (accepted g (answer g q i)).
Proof.
  intros Hq. destruct (after_posts g q i Hq) as (H1 & H2 & H3 & H4). unfold outcome_at, answer.
  destruct (posting_outcome _ _ H2) as [-> ->]. by rewrite H1, H3, H4.
Qed.
End posting.

(** A message for an HTTP gateway is posted [k] times, at least once and at most
    as often as there are attempts, always as the same request. Every answer but the last one
    was worth another attempt and not a success; the message counts as delivered
    exactly when the last answer is a success; and when it does not although
    attempts are left, the last answer forbids another. It is then in the dead
    letter queue. *)
Theorem messages_posted `{!network} py_pow ev m (d : GatewayDispatcher gateway) g q :
  gd_gateways d !! nm_gateway m = Some g -> posting m g = Some q ->
  pow_defined py_pow d -> 0 < gd_max_attempts d ->
  exists d' g' r k, dispatch_message py_pow ev m d = (d', Ok r) /\ gd_gateways d' !! nm_gateway m = Some g' /\
    dr_attempt r = Z.of_nat k /\ 1 <= Z.of_nat k <= gd_max_attempts d /\
    posted g' = posted g ++ replicate k q /\
    (forall i, (S i < k)%nat -> try_again g (answer g q i) = true /\ accepted g (answer g q i) = false) /\
    (dr_status r = "DELIVERED"%string <-> accepted g (answer g q (pred k)) = true) /\
    (dr_status r <> "DELIVERED"%string -> Z.of_nat k = gd_max_attempts d \/ try_again g (answer g q (pred k)) = false) /\
    gd_dlq d' = gd_dlq d ++ dead_letter ev m r.
Proof.
  intros Hg Hq Hp Hm. destruct (dispatch_trace py_pow m ev d g Hg Hp Hm) as (d' & r & k & E & [Hb Hbefore Hlast] & Ha & Hl & Hd).
  exists d', (after_sends m k g), r, k. split; [done|]. split; [done|]. split; [done|].
  assert (forall i, (S i < k)%nat -> try_again g (answer g q i) = true /\ accepted g (answer g q i) = false) as Hprev.
  { intros i Hi. specialize (Hbefore i Hi). rewrite (proj2 (answer_outcome m g q i Hq)) in Hbefore.
    by apply andb_true_iff in Hbefore as [? ?%negb_true_iff]. }
  assert (1 <= Z.of_nat k <= gd_max_attempts d /\
    (dr_status r = "DELIVERED"%string <-> accepted g (answer g q (pred k)) = true) /\
    (dr_status r <> "DELIVERED"%string -> Z.of_nat k = gd_max_attempts d \/ try_again g (answer g q (pred k)) = false)) as (H1 & H2 & H3).
  { destruct Hlast as [(Hs & j & -> & Hj)|(Hs & [(-> & Hr)|(j & -> & Hj & Hr)])].
    - rewrite (proj1 (answer_outcome m g q j Hq)) in Hj. cbn [pred]. rewrite Hs, Hj. split; [lia|]. split; [done|]. congruence.
    - split; [lia|]. specialize (Hr (pred (Z.to_nat (gd_max_attempts d))) ltac:(lia)).
      rewrite (proj2 (answer_outcome m g q _ Hq)) in Hr. apply andb_true_iff in Hr as [_ Hr%negb_true_iff]. rewrite Hs, Hr.
      split; [split; discriminate|]. intros _. left. lia.
    - rewrite (proj1 (answer_outcome m g q j Hq)) in Hj. rewrite (proj2 (answer_outcome m g q j Hq)), Hj, andb_true_r in Hr.
      cbn [pred]. rewrite Hs, Hj. split; [lia|]. split; [split; discriminate|]. by right. }
  split; [done|]. split; [by apply after_posts|]. split; [exact Hprev|]. by split.
Qed.

(** ** Examples *)

Module Example_gateways.

Definition message : NotificationMessage :=
  {| nm_message_id := "m-1"; nm_user_id := "ops-default"; nm_gateway := "webhook"; nm_severity := CRITICAL;
     nm_title := "[CRITICAL] risk.kill_switch"; nm_body := "kill switch on (drawdown > 5.0%)";
     nm_metadata := [("trace_id", VStr "t-1"); ("decision_id", VStr "d-1")]%string |}.

Lemma telegram_text_layout_witness :
  markdown (render_telegram_message_text message) = message_layout message.
Proof. apply telegram_text_layout; reflexivity. Defined.

(** A backslash at the end of the title hides the mark that closes it. *)
Definition slashed : NotificationMessage :=
  {| nm_message_id := "m-2"; nm_user_id := "ops"; nm_gateway := "telegram"; nm_severity := INFO;
     nm_title := String.append "a" (String backslash ""); nm_body := "b"; nm_metadata := [] |}.
Example backslash_breaks_layout :
  take 3 (markdown (render_telegram_message_text slashed)) = [Mark "*"; Text "a"; Text "*"] /\
  take 4 (message_layout slashed) = [Mark "*"; Text "a"; Text backslash; Mark "*"].
Proof. by vm_compute. Qed.

Definition config : WebhookGatewayConfig :=
  {| wh_url := "https://hooks.example/notify"; wh_headers := []; wh_timeout_seconds := flit 10 0; wh_secret := "s3cret" |}.
Definition hook : gateway := Webhook {| ww_config := config; ww_sent := [] |}.
Definition request : http_request :=
  match webhook_message_request config message with
  | Ok q => q
  | Raise _ => {| hr_method := ""; hr_url := ""; hr_body := None; hr_headers := []; hr_timeout := fzero |}
  end.

Lemma webhook_signs_other_text_witness :
  exists signed body, hr_body request = Some body /\
    assoc_get "X-Signature-256" (hr_headers request) = Some (signature (wh_secret config) signed) /\ signed <> body.
Proof. apply (webhook_signs_other_text config message request); vm_compute; reflexivity. Defined.

(** Two refusals, then success. *)
#[local] Instance net : network := {|
  net_http log _ := if (List.length log <? 2)%nat then Answered 503 "busy" else Answered 200 "ok"; net_smtp _ _ := None |}.

Definition dispatcher : GatewayDispatcher gateway :=
  {| gd_gateways := {[ "webhook"%string := hook ]}; gd_max_attempts := 3; gd_backoff_base_seconds := fzero;
     gd_backoff_multiplier := fone; gd_max_backoff_seconds := fone; gd_dlq := []; gd_slept := [] |}.
Definition event : NotificationEvent :=
  {| ne_notification_event_id := "e-1"; ne_trace_id := "t-1"; ne_decision_id := "d-1"; ne_mode := "MOCK";
     ne_event_type := "risk.kill_switch"; ne_severity := CRITICAL; ne_idempotency_key := "k"; ne_emitted_at := "2024-05-01T12:00:00Z";
     ne_service := "risk"; ne_payload := [] |}.
Definition pow (_ : f64) (_ : Z) : result f64 := Ok fone.

Lemma messages_posted_witness :
  exists d' g' r k, dispatch_message pow event message dispatcher = (d', Ok r) /\ gd_gateways d' !! "webhook"%string = Some g' /\
    dr_attempt r = Z.of_nat k /\ 1 <= Z.of_nat k <= 3 /\ posted g' = replicate k request /\
    (forall i, (S i < k)%nat -> try_again hook (answer hook request i) = true /\ accepted hook (answer hook request i) = false) /\
    (dr_status r = "DELIVERED"%string <-> accepted hook (answer hook request (pred k)) = true) /\
    (dr_status r <> "DELIVERED"%string -> Z.of_nat k = 3 \/ try_again hook (answer hook request (pred k)) = false) /\
    gd_dlq d' = dead_letter event message r.
Proof. apply (messages_posted pow event message dispatcher hook request); by vm_compute. Defined.

End Example_gateways.
