(* ===== verification/NotificationWorker.v ===== *)
(** * The notification worker

    [services/notification_service/settings.py]: the settings of the worker, read
    from an environment; [services/notification_service/worker.py]: its consumers, the
    worker's cycle around the service of [NotificationService.v], what it
    persists, the assembly from the settings and the polling loop. The environment, the
    HTTP servers, the SMTP server, the clocks and the content of the topology file are
    arguments. *)

From S2P Require Import Prelude PyStr PyFloat PyDecimal PyHash PyUuid PyTime PyVal Broker PyJson Http RabbitMq Notification.
From S2P Require Import PolicyRouter GatewayDispatch NotificationService Prometheus NotificationGateways.
From stdpp Require Import options.
From Stdlib Require Import Ascii String.

#[local] Open Scope Z_scope.

(** ** Settings *)

Record NotificationWorkerSettings := {
  st_enabled : bool;
  st_default_gateway : string;
  st_default_severity : NotificationSeverity;
  st_queue_name : string;
  st_consumer_backend : string;
  st_poll_timeout_seconds : f64;
  st_idle_sleep_seconds : f64;
  st_dedupe_window_seconds : f64;
  st_rate_limit_per_minute : Z;
  st_max_attempts : Z;
  st_backoff_base_seconds : f64;
  st_backoff_multiplier : f64;
  st_max_backoff_seconds : f64;
  st_gateway_timeout_seconds : f64;
  st_observability_max_records : Z;
  st_rabbitmq_http_api_url : string;
  st_rabbitmq_username : string;
  st_rabbitmq_password : string;
  st_telegram_bot_token : option string;
  st_telegram_default_chat_id : option string;
  st_runtime_require_database : bool }.

Definition settings_error {A} (msg : string) : result A := raise NotificationSettingsError msg.

Section source.
Context (source : string -> option string).

Definition _parse_bool (value key : string) : result bool :=
  let normalized := lower (strip value) in
  if bool_decide (normalized ∈ ["1"; "true"; "yes"; "y"; "on"]%string) then Ok true
  else if bool_decide (normalized ∈ ["0"; "false"; "no"; "n"; "off"]%string) then Ok false
  else settings_error (key +:+ " must be a boolean value").

Definition _parse_severity (value : string) : result NotificationSeverity :=
  let normalized := upper (strip value) in
  if String.eqb normalized "INFO" then Ok INFO
  else if String.eqb normalized "WARNING" then Ok WARNING
  else if String.eqb normalized "CRITICAL" then Ok CRITICAL
  else settings_error "NOTIFICATION_DEFAULT_SEVERITY must be INFO/WARNING/CRITICAL".

Definition _require_non_empty (key dflt : string) : result string :=
  let value := strip (default dflt (source key)) in
  if is_empty value then settings_error (key +:+ " is required") else Ok value.

Definition _normalize_optional (value : option string) : option string :=
  match value with
  | None => None
  | Some v => let normalized := strip v in if is_empty normalized then None else Some normalized
  end.

Definition _is_placeholder_secret (value : option string) : bool :=
  match value with
  | None => true
  | Some v => bool_decide (lower (strip v) ∈ [""; "changeme"; "change_me"; "set_me"; "<set-me>"; "your_token_here"]%string)
  end.

(** [except (TypeError, ValueError)]; the default is the text of a number. *)
Definition _parse_positive_int (key dflt : string) : result Z :=
  match int_of_val (VStr (default dflt (source key))) with
  | Ok parsed => if parsed <=? 0 then settings_error (key +:+ " must be > 0") else Ok parsed
  | Raise _ => settings_error (key +:+ " must be an integer")
  end.

Definition _parse_float (key dflt : string) : result f64 :=
  match float_of_val (VStr (default dflt (source key))) with
  | Ok x => Ok x
  | Raise _ => settings_error (key +:+ " must be numeric")
  end.
Definition _parse_positive_float (key dflt : string) : result f64 :=
  parsed ← _parse_float key dflt;
  if fleb parsed fzero then settings_error (key +:+ " must be > 0") else Ok parsed.
Definition _parse_non_negative_float (key dflt : string) : result f64 :=
  parsed ← _parse_float key dflt;
  if fltb parsed fzero then settings_error (key +:+ " must be >= 0") else Ok parsed.

Definition load_notification_worker_settings : result NotificationWorkerSettings :=
  enabled ← _parse_bool (default "true"%string (source "NOTIFY_ENABLED"%string)) "NOTIFY_ENABLED";
  gateway_text ← _require_non_empty "NOTIFY_DEFAULT_GATEWAY" "telegram";
  let default_gateway := lower (strip gateway_text) in
  queue_name ← _require_non_empty "NOTIFY_QUEUE_NAME" "notify.events.raw";
  backend_text ← _require_non_empty "NOTIFY_CONSUMER_BACKEND" "rabbitmq_http";
  let consumer_backend := lower (strip backend_text) in
  _ ← raise_if (negb (bool_decide (consumer_backend ∈ ["rabbitmq_http"; "inmemory"]%string))) NotificationSettingsError
        "NOTIFY_CONSUMER_BACKEND must be rabbitmq_http or inmemory";
  runtime_require_database ← _parse_bool (default "false"%string (source "RUNTIME_REQUIRE_DATABASE"%string)) "RUNTIME_REQUIRE_DATABASE";
  _ ← raise_if (runtime_require_database && String.eqb consumer_backend "inmemory") NotificationSettingsError
        "NOTIFY_CONSUMER_BACKEND=inmemory is disabled when RUNTIME_REQUIRE_DATABASE=true";
  severity_text ← _require_non_empty "NOTIFICATION_DEFAULT_SEVERITY" "WARNING";
  default_severity ← _parse_severity severity_text;
  poll_timeout_seconds ← _parse_positive_float "NOTIFY_POLL_TIMEOUT_SECONDS" "1.0";
  idle_sleep_seconds ← _parse_positive_float "NOTIFY_IDLE_SLEEP_SECONDS" "0.5";
  dedupe_window_seconds ← _parse_positive_float "NOTIFY_DEDUPE_WINDOW_SECONDS" "120.0";
  rate_limit_per_minute ← _parse_positive_int "NOTIFY_RATE_LIMIT_PER_MIN" "30";
  max_attempts ← _parse_positive_int "NOTIFY_MAX_ATTEMPTS" "3";
  backoff_base_seconds ← _parse_non_negative_float "NOTIFY_BACKOFF_BASE_SECONDS" "0.2";
  backoff_multiplier ← _parse_float "NOTIFY_BACKOFF_MULTIPLIER" "2.0";
  max_backoff_seconds ← _parse_positive_float "NOTIFY_BACKOFF_MAX_SECONDS" "2.0";
  gateway_timeout_seconds ← _parse_positive_float "NOTIFY_GATEWAY_TIMEOUT_SECONDS" "10.0";
  observability_max_records ← _parse_positive_int "NOTIFY_OBSERVABILITY_MAX_RECORDS" "200";
  rabbitmq_http_api_url ← _require_non_empty "NOTIFY_RABBITMQ_HTTP_API_URL" "http://rabbitmq:15672/api";
  rabbitmq_username ← _require_non_empty "RABBITMQ_DEFAULT_USER" "guest";
  rabbitmq_password ← _require_non_empty "RABBITMQ_DEFAULT_PASS" "guest";
  _ ← raise_if (fltb backoff_multiplier fone) NotificationSettingsError "NOTIFY_BACKOFF_MULTIPLIER must be >= 1.0";
  let telegram_bot_token := _normalize_optional (source "TELEGRAM_BOT_TOKEN"%string) in
  let telegram_default_chat_id := _normalize_optional (source "TELEGRAM_DEFAULT_CHAT_ID"%string) in
  let needs_telegram := enabled && String.eqb default_gateway "telegram" in
  _ ← raise_if (needs_telegram && _is_placeholder_secret telegram_bot_token) NotificationSettingsError
        "TELEGRAM_BOT_TOKEN is required when telegram gateway is enabled";
  _ ← raise_if (needs_telegram && _is_placeholder_secret telegram_default_chat_id) NotificationSettingsError
        "TELEGRAM_DEFAULT_CHAT_ID is required when telegram gateway is enabled";
  Ok {| st_enabled := enabled; st_default_gateway := default_gateway; st_default_severity := default_severity;
        st_queue_name := queue_name; st_consumer_backend := consumer_backend; st_poll_timeout_seconds := poll_timeout_seconds;
        st_idle_sleep_seconds := idle_sleep_seconds; st_dedupe_window_seconds := dedupe_window_seconds;
        st_rate_limit_per_minute := rate_limit_per_minute; st_max_attempts := max_attempts;
        st_backoff_base_seconds := backoff_base_seconds; st_backoff_multiplier := backoff_multiplier;
        st_max_backoff_seconds := max_backoff_seconds; st_gateway_timeout_seconds := gateway_timeout_seconds;
        st_observability_max_records := observability_max_records; st_rabbitmq_http_api_url := rabbitmq_http_api_url;
        st_rabbitmq_username := rabbitmq_username; st_rabbitmq_password := rabbitmq_password;
        st_telegram_bot_token := telegram_bot_token; st_telegram_default_chat_id := telegram_default_chat_id;
        st_runtime_require_database := runtime_require_database |}.
End source.

(** ** Consumers *)

Record RabbitMQHTTPConsumer := {
  rc_api_base_url : string;
  rc_username : string;
  rc_password : string;
  rc_request_timeout_seconds : f64;
  rc_declared_queues : list string;
  rc_sent : list http_request }.

Definition consumer_init (api_base_url username password : string) (request_timeout_seconds : f64) : RabbitMQHTTPConsumer :=
  {| rc_api_base_url := rstrip_with (Ascii.eqb "/") api_base_url; rc_username := username; rc_password := password;
     rc_request_timeout_seconds := request_timeout_seconds; rc_declared_queues := []; rc_sent := [] |}.

Definition set_rc_sent (l : list http_request) (c : RabbitMQHTTPConsumer) : RabbitMQHTTPConsumer :=
  {| rc_api_base_url := rc_api_base_url c; rc_username := rc_username c; rc_password := rc_password c;
     rc_request_timeout_seconds := rc_request_timeout_seconds c; rc_declared_queues := rc_declared_queues c; rc_sent := l |}.
Definition add_rc_declared (queue_name : string) (c : RabbitMQHTTPConsumer) : RabbitMQHTTPConsumer :=
  {| rc_api_base_url := rc_api_base_url c; rc_username := rc_username c; rc_password := rc_password c;
     rc_request_timeout_seconds := rc_request_timeout_seconds c; rc_declared_queues := queue_name :: rc_declared_queues c;
     rc_sent := rc_sent c |}.

Definition consumer_request (c : RabbitMQHTTPConsumer) (method path body : string) : http_request :=
  {| hr_method := method; hr_url := rc_api_base_url c +:+ path; hr_body := Some body;
     hr_headers := [("Content-Type", "application/json");
                    ("Authorization", "Basic " +:+ base64 (bytes_of (rc_username c +:+ ":" +:+ rc_password c)))]%string;
     hr_timeout := rc_request_timeout_seconds c |}.

Section consumer.
Context (server : http_server).

Definition send_request (method path body : string) : prog RabbitMQHTTPConsumer http_reply := fun c =>
  let q := consumer_request c method path body in (set_rc_sent (rc_sent c ++ [q]) c, Ok (server (rc_sent c) q)).

Definition worker_fetch (queue_name : string) : prog RabbitMQHTTPConsumer (list dict) :=
  payload ← lift (json_dumps json_plain (VDict [("count", VInt 1); ("ackmode", VStr "ack_requeue_false");
                    ("encoding", VStr "auto"); ("truncate", VInt 50000)]%string));
  reply ← send_request "POST" ("/queues/%2F/" +:+ quote queue_name +:+ "/get") payload;
  match reply with
  | HttpStatusError status body =>
      lift (raise (RabbitMQHTTPPollingError status body) ("RabbitMQ HTTP polling failed: " +:+ str_of_Z status +:+ " " +:+ body))
  | HttpError message => lift (settings_error ("RabbitMQ HTTP polling failed: " +:+ message))
  | HttpText raw =>
      parsed ← lift (if is_empty raw then Ok (VList []) else json_loads raw);
      mret (match parsed with
            | VList rows => omap (M := list) (fun row => match row with VDict d => Some d | _ => None end) rows
            | _ => []
            end)
  end.

Definition worker_declare_queue (queue_name : string) : prog RabbitMQHTTPConsumer unit :=
  payload ← lift (json_dumps json_plain (VDict [("durable", VBool true); ("auto_delete", VBool false); ("arguments", VDict [])]%string));
  reply ← send_request "PUT" ("/queues/%2F/" +:+ quote queue_name) payload;
  lift (match reply with
        | HttpText _ => Ok tt
        | HttpStatusError status body => settings_error ("RabbitMQ queue declare failed: " +:+ str_of_Z status +:+ " " +:+ body)
        | HttpError message => settings_error ("RabbitMQ queue declare failed: " +:+ message)
        end).

Definition _declare_queue (queue_name : string) : prog RabbitMQHTTPConsumer unit :=
  declared ← gets rc_declared_queues;
  if bool_decide (queue_name ∈ declared) then mret tt
  else _ ← worker_declare_queue queue_name; modify (add_rc_declared queue_name).

Definition envelope_of_rows (rows : list dict) : result (option dict) :=
  match rows with
  | [] => Ok None
  | row :: _ =>
      let wrong := settings_error "RabbitMQ HTTP payload is not a JSON object envelope" in
      match dget "payload" row with
      | VDict d => Ok (Some d)
      | VStr text => parsed ← json_loads text; match parsed with VDict d => Ok (Some d) | _ => wrong end
      | _ => wrong
      end
  end.

Definition queue_not_found (e : exc) : bool :=
  match exc_cls e with RabbitMQHTTPPollingError status body => (status =? 404) && contains "queue_not_found" body | _ => false end.

Definition rabbit_consume (queue_name : string) : prog RabbitMQHTTPConsumer (option dict) := fun c =>
  match worker_fetch queue_name c with
  | (c', Ok rows) => (c', envelope_of_rows rows)
  | (c', Raise e) => if queue_not_found e then (_ ← _declare_queue queue_name; mret None) c' else (c', Raise e)
  end.

Inductive NotificationEnvelopeConsumer :=
  | InMemoryConsumer (broker : InMemoryTopicBroker)
  | RabbitConsumer (c : RabbitMQHTTPConsumer).

(** [InMemoryNotificationEnvelopeConsumer.publish] *)
Definition consumer_publish (routing_key : string) (message : dict) (b : InMemoryTopicBroker) : result InMemoryTopicBroker :=
  '(b', _) ← Broker.publish routing_key (VDict message) b; Ok b'.

Definition consume_envelope (queue_name : string) : prog NotificationEnvelopeConsumer (option dict) := fun c =>
  match c with
  | InMemoryConsumer b =>
      match Broker.consume queue_name b with
      | Ok (b', m) => (InMemoryConsumer b', Ok m)
      | Raise e => (c, Raise e)
      end
  | RabbitConsumer r => let '(r', m) := rabbit_consume queue_name r in (RabbitConsumer r', m)
  end.
End consumer.

(** ** The worker *)

Definition _WORKER_SERVICE_NAME : string := "notification_worker".
Definition _WORKER_POLLS_METRIC : string := "open_trader_notification_worker_polls_total".
Definition _WORKER_LATENCY_METRIC : string := "open_trader_notification_worker_process_duration_seconds".
Definition _WORKER_DELIVERY_METRIC : string := "open_trader_notification_delivery_results_total".

(** The logger is the list of the payloads it has written. *)
Record NotificationWorker := {
  nw_consumer : NotificationEnvelopeConsumer;
  nw_service : NotificationService gateway;
  nw_queue_name : string;
  nw_poll_timeout_seconds : f64;
  nw_logger : option (list dict);
  nw_metrics : option PrometheusRegistry }.

Definition set_nw_consumer (c : NotificationEnvelopeConsumer) (w : NotificationWorker) : NotificationWorker :=
  {| nw_consumer := c; nw_service := nw_service w; nw_queue_name := nw_queue_name w;
     nw_poll_timeout_seconds := nw_poll_timeout_seconds w; nw_logger := nw_logger w; nw_metrics := nw_metrics w |}.
Definition set_nw_service (s : NotificationService gateway) (w : NotificationWorker) : NotificationWorker :=
  {| nw_consumer := nw_consumer w; nw_service := s; nw_queue_name := nw_queue_name w;
     nw_poll_timeout_seconds := nw_poll_timeout_seconds w; nw_logger := nw_logger w; nw_metrics := nw_metrics w |}.
Definition on_metrics (f : PrometheusRegistry -> PrometheusRegistry) (w : NotificationWorker) : NotificationWorker :=
  {| nw_consumer := nw_consumer w; nw_service := nw_service w; nw_queue_name := nw_queue_name w;
     nw_poll_timeout_seconds := nw_poll_timeout_seconds w; nw_logger := nw_logger w; nw_metrics := f <$> nw_metrics w |}.
Definition add_log (line : dict) (w : NotificationWorker) : NotificationWorker :=
  {| nw_consumer := nw_consumer w; nw_service := nw_service w; nw_queue_name := nw_queue_name w;
     nw_poll_timeout_seconds := nw_poll_timeout_seconds w; nw_logger := (fun l => l ++ [line]) <$> nw_logger w;
     nw_metrics := nw_metrics w |}.

Definition _record_poll_result (result : string) : NotificationWorker -> NotificationWorker :=
  on_metrics (inc_counter _WORKER_POLLS_METRIC "Notification worker poll outcomes"
    [("service"%string, _WORKER_SERVICE_NAME); ("result"%string, result)] fone).
Definition _record_latency (latency_seconds : f64) (w : NotificationWorker) : NotificationWorker :=
  on_metrics (observe_histogram _WORKER_LATENCY_METRIC "Notification worker envelope processing latency seconds"
    (fmax fzero latency_seconds) [("service"%string, _WORKER_SERVICE_NAME); ("queue"%string, nw_queue_name w)] _DEFAULT_BUCKETS) w.
Definition record_delivery_result (delivery : DeliveryResult) : NotificationWorker -> NotificationWorker :=
  on_metrics (inc_counter _WORKER_DELIVERY_METRIC "Notification delivery result counts by status and gateway"
    [("service"%string, _WORKER_SERVICE_NAME); ("gateway"%string, dr_gateway delivery); ("status"%string, dr_status delivery)] fone).
Definition _record_delivery_results (result : NotificationProcessingResult) (w : NotificationWorker) : NotificationWorker :=
  foldl (fun w delivery => record_delivery_result delivery w) w (pr_results result).

Definition render_metrics (w : NotificationWorker) : string := match nw_metrics w with None => "" | Some r => render r end.

(** The clock readings of one cycle. *)
Record readings := {
  rd_perf : nat -> f64;
  rd_log : nat -> Z;
  rd_service_perf : nat -> f64;
  rd_service_clock : nat -> Z;
  rd_now_seconds : f64 }.

Section worker.
Context `{!network} (server : http_server) (py_pow : f64 -> Z -> result f64).

Definition log_event (now : Z) (level event : string) (envelope context : dict) : NotificationWorker -> NotificationWorker :=
  let text key dflt := VStr (py_str (dget_or key (VStr dflt) envelope)) in
  add_log (_emit now _WORKER_SERVICE_NAME level event context
    [("trace_id", text "trace_id" "unknown"); ("decision_id", text "decision_id" "unknown"); ("mode", text "mode" "UNKNOWN")]%string).

(** The envelope is processed and the outcome is counted and logged. *)
Definition handle_envelope (y : readings) (queue_name : string) (event_type : val) (envelope : dict)
  : prog NotificationWorker (option NotificationProcessingResult) := fun w =>
  let latency := fmax fzero (fsub (rd_perf y 1%nat) (rd_perf y 0%nat)) in
  match zoom nw_service set_nw_service
          (process_envelope py_pow (rd_service_perf y) (rd_service_clock y) (rd_now_seconds y) (VDict envelope)) w with
  | (w1, Raise e) =>
      (log_event (rd_log y 1%nat) "ERROR" "notification.worker.envelope.failed" envelope
         [("queue_name", VStr queue_name); ("event_type", event_type); ("error_type", VStr (exc_name (exc_cls e)))]%string
         (_record_poll_result "failed" (_record_latency latency w1)), Raise e)
  | (w1, Ok result) =>
      (log_event (rd_log y 1%nat) "INFO" "notification.worker.envelope.processed" envelope
         [("queue_name", VStr queue_name); ("event_type", VStr (ne_event_type (pr_event result)));
          ("severity", VStr (severity_value (ne_severity (pr_event result))));
          ("messages_count", VInt (Z.of_nat (List.length (pr_messages result))));
          ("delivery_results_count", VInt (Z.of_nat (List.length (pr_results result))));
          ("latency_ms", VFloat (fmul latency thousand))]%string
         (_record_delivery_results result (_record_poll_result "processed" (_record_latency latency w1))), Ok (Some result))
  end.

Definition run_once (y : readings) : prog NotificationWorker (option NotificationProcessingResult) :=
  queue_name ← gets nw_queue_name;
  polled ← zoom nw_consumer set_nw_consumer (consume_envelope server queue_name);
  match polled with
  | None => _ ← modify (_record_poll_result "empty"); mret None
  | Some envelope =>
      let event_type := VStr (py_str (dget_or "event_type" (VStr "unknown") envelope)) in
      _ ← modify (log_event (rd_log y 0%nat) "INFO" "notification.worker.envelope.received" envelope
                    [("queue_name", VStr queue_name); ("event_type", event_type)]%string);
      handle_envelope y queue_name event_type envelope
  end.

(** ** The polling loop *)

(** The [while True] of [run_worker_loop] on the readings of its cycles: the exit
    code, or [None] when the loop is still running after them. The sleeps between the
    cycles show in the readings only. *)
Fixpoint poll_loop (once : bool) (max_idle_cycles idle_cycles : Z) (ys : list readings) (w : NotificationWorker)
  : NotificationWorker * option Z :=
  match ys with
  | [] => (w, None)
  | y :: ys' =>
      match run_once y w with
      | (w', Raise _) => poll_loop once max_idle_cycles idle_cycles ys' w'
      | (w', Ok None) =>
          let idle_cycles := idle_cycles + 1 in
          if once then (w', Some 0)
          else if (0 <? max_idle_cycles) && (max_idle_cycles <=? idle_cycles) then (w', Some 0)
          else poll_loop once max_idle_cycles idle_cycles ys' w'
      | (w', Ok (Some _)) => if once then (w', Some 0) else poll_loop once max_idle_cycles 0 ys' w'
      end
  end.
End worker.

(** ** What is persisted *)

(** The calls of the repository for one result; a call that raises is skipped. *)
Inductive repository_call :=
  | PersistEvent (event : NotificationEvent) (body payload_json : string)
  | PersistDelivery (event : NotificationEvent) (delivery : DeliveryResult) (logged_at : string)
  | PersistDlqEntry (notification_event_id : string) (delivery : DeliveryResult) (failure_reason : string) (moved_at : string).

(** [json.dumps(..., default=str)]: a Decimal is written as its text. *)
Fixpoint default_str (v : val) : val :=
  match v with
  | VDec d => VStr (py_str (VDec d))
  | VList l => VList (map default_str l)
  | VDict d => VDict (map (fun kv => (kv.1, default_str kv.2)) d)
  | _ => v
  end.

Definition _persist (now : Z) (result : NotificationProcessingResult) : list repository_call :=
  let event := pr_event result in
  let at_ := iso_z now in
  (match json_dumps json_utf8 (default_str (VDict (ne_payload event))) with
   | Ok text => [PersistEvent event text text]
   | Raise _ => []
   end) ++
  ((fun delivery => PersistDelivery event delivery at_) <$> pr_results result) ++
  ((fun delivery => PersistDlqEntry (ne_notification_event_id event) delivery (opt_or (dr_detail delivery) "delivery_failed") at_)
     <$> List.filter (fun delivery => negb (String.eqb (upper (strip (dr_status delivery))) "DELIVERED")) (pr_results result)).

(** ** Assembly *)

Section build.
Context (env : string -> option string) (topology : result InMemoryTopicBroker).

Definition _build_gateway (s : NotificationWorkerSettings) : result gateway :=
  if String.eqb (st_default_gateway s) "telegram" then
    match st_telegram_bot_token s, st_telegram_default_chat_id s with
    | Some token, Some chat_id =>
        if is_empty token || is_empty chat_id then settings_error "telegram gateway enabled but telegram secrets are missing"
        else c ← telegram_config token chat_id (st_gateway_timeout_seconds s); Ok (Telegram {| tw_config := c; tw_sent := [] |})
    | _, _ => settings_error "telegram gateway enabled but telegram secrets are missing"
    end
  else if String.eqb (st_default_gateway s) "email" then
    loaded ← load_email_gateway_from_env env;
    match loaded with
    | None => settings_error "email gateway enabled but SMTP settings are missing"
    | Some g => Ok (Email g)
    end
  else if String.eqb (st_default_gateway s) "webhook" then
    let webhook_url := strip (default ""%string (env "WEBHOOK_URL"%string)) in
    if is_empty webhook_url then settings_error "webhook gateway enabled but WEBHOOK_URL is missing"
    else c ← webhook_config webhook_url [] (st_gateway_timeout_seconds s) (strip (default ""%string (env "WEBHOOK_SECRET"%string)));
         Ok (Webhook {| ww_config := c; ww_sent := [] |})
  else Ok (InMemory {| mg_name := st_default_gateway s; mg_sent_messages := [] |}).

Definition build_notification_worker_from_settings (s : NotificationWorkerSettings) : result NotificationWorker :=
  g ← _build_gateway s;
  router ← router_init [{| np_user_id := "ops-default"; np_min_severity := st_default_severity s;
                           np_gateways := [st_default_gateway s]; np_strategy_ids := []; np_event_types := [] |}]
             (st_dedupe_window_seconds s) (st_rate_limit_per_minute s);
  dispatcher ← dispatcher_init {[ st_default_gateway s := g ]} (st_max_attempts s) (st_backoff_base_seconds s)
                 (st_backoff_multiplier s) (st_max_backoff_seconds s);
  observability ← collector_init (st_observability_max_records s);
  consumer ← (if String.eqb (st_consumer_backend s) "inmemory" then b ← topology; Ok (InMemoryConsumer b)
              else Ok (RabbitConsumer (consumer_init (st_rabbitmq_http_api_url s) (st_rabbitmq_username s)
                                         (st_rabbitmq_password s) (st_poll_timeout_seconds s))));
  Ok {| nw_consumer := consumer;
        nw_service := {| ns_policy_router := router; ns_dispatcher := dispatcher; ns_observability := Some observability |};
        nw_queue_name := st_queue_name s; nw_poll_timeout_seconds := st_poll_timeout_seconds s;
        nw_logger := Some []; nw_metrics := Some registry_init |}.

Definition run_worker_loop `{!network} (server : http_server) (py_pow : f64 -> Z -> result f64) (s : NotificationWorkerSettings)
    (once : bool) (max_idle_cycles : Z) (ys : list readings) : result (option Z) :=
  if negb (st_enabled s) then Ok (Some 0)
  else w ← build_notification_worker_from_settings s; Ok (poll_loop server py_pow once max_idle_cycles 0 ys w).2.

Record worker_args := { wa_validate_only : bool; wa_once : bool; wa_max_idle_cycles : Z }.

(** [main]: a configuration error is the exit code 1. *)
Definition main `{!network} (server : http_server) (py_pow : f64 -> Z -> result f64) (args : worker_args) (ys : list readings)
  : result (option Z) :=
  match load_notification_worker_settings env with
  | Raise e => if decide (exc_cls e = NotificationSettingsError) then Ok (Some 1) else Raise e
  | Ok s => if wa_validate_only args then Ok (Some 0)
            else run_worker_loop server py_pow s (wa_once args) (wa_max_idle_cycles args) ys
  end.
End build.

(** ** What the metrics count *)

Section metrics.
Context `{!network} (server : http_server) (py_pow : f64 -> Z -> result f64).
#[local] Set Default Proof Using "Type".

Inductive cycle_outcome := PollFailed | Empty | Failed | Processed (r : NotificationProcessingResult).

Definition outcome (y : readings) (w : NotificationWorker) : cycle_outcome :=
  match (consume_envelope server (nw_queue_name w) (nw_consumer w)).2 with
  | Raise _ => PollFailed
  | Ok None => Empty
  | Ok (Some envelope) =>
      match (process_envelope py_pow (rd_service_perf y) (rd_service_clock y) (rd_now_seconds y) (VDict envelope) (nw_service w)).2 with
      | Raise _ => Failed
      | Ok r => Processed r
      end
  end.

Definition poll_labels (result : string) : labels := [("result"%string, result); ("service"%string, _WORKER_SERVICE_NAME)].
Definition delivery_labels (gateway_name status : string) : labels :=
  [("gateway"%string, gateway_name); ("service"%string, _WORKER_SERVICE_NAME); ("status"%string, status)].

Definition poll_op (result : string) : metric_op :=
  Count _WORKER_POLLS_METRIC "Notification worker poll outcomes"
    [("service"%string, _WORKER_SERVICE_NAME); ("result"%string, result)] fone.
Definition latency_op (queue_name : string) (y : readings) : metric_op :=
  Observe _WORKER_LATENCY_METRIC "Notification worker envelope processing latency seconds"
    (fmax fzero (fmax fzero (fsub (rd_perf y 1%nat) (rd_perf y 0%nat))))
    [("service"%string, _WORKER_SERVICE_NAME); ("queue"%string, queue_name)] _DEFAULT_BUCKETS.
Definition delivery_op (delivery : DeliveryResult) : metric_op :=
  Count _WORKER_DELIVERY_METRIC "Notification delivery result counts by status and gateway"
    [("service"%string, _WORKER_SERVICE_NAME); ("gateway"%string, dr_gateway delivery); ("status"%string, dr_status delivery)] fone.

(** The calls of the registry in one cycle. *)
Definition cycle_ops (queue_name : string) (y : readings) (o : cycle_outcome) : list metric_op :=
  match o with
  | PollFailed => []
  | Empty => [poll_op "empty"]
  | Failed => [latency_op queue_name y; poll_op "failed"]
  | Processed r => latency_op queue_name y :: poll_op "processed" :: (delivery_op <$> pr_results r)
  end.

Lemma delivery_results_ops r w reg :
  nw_metrics w = Some reg ->
  nw_metrics (_record_delivery_results r w) = Some (foldl apply_op reg (delivery_op <$> pr_results r)) /\
  nw_queue_name (_record_delivery_results r w) = nw_queue_name w.
Proof.
  unfold _record_delivery_results. revert w reg. induction (pr_results r) as [|x l IH]; intros w reg Hw; [done|].
  rewrite fmap_cons. cbn [foldl].
  destruct (IH (record_delivery_result x w) (apply_op reg (delivery_op x))) as [H1 H2]; [cbn; by rewrite Hw|]. by split.
Qed.

Lemma run_once_ops y w reg :
  nw_metrics w = Some reg ->
  let w' := (run_once server py_pow y w).1 in
  nw_metrics w' = Some (foldl apply_op reg (cycle_ops (nw_queue_name w) y (outcome y w))) /\ nw_queue_name w' = nw_queue_name w.
Proof.
  intros Hw. destruct (run_once server py_pow y w) as [w' res] eqn:E. cbn [fst]. revert E. unfold run_once, outcome.
  rewrite gets_bind. cbv beta. unfold mbind at 1, prog_bind at 1, zoom at 1.
  destruct (consume_envelope server (nw_queue_name w) (nw_consumer w)) as [c [[envelope|]|e]]; cbn [snd].
  - rewrite modify_bind. unfold handle_envelope, zoom. cbn [log_event add_log set_nw_consumer nw_service nw_metrics nw_queue_name].
    destruct (process_envelope _ _ _ _ _ (nw_service w)) as [s [r|e]]; cbn [snd fst cycle_ops].
    + match goal with |- context [_record_delivery_results r ?v] => destruct (delivery_results_ops r v
        (apply_op (apply_op reg (latency_op (nw_queue_name w) y)) (poll_op "processed"))) as [H1 H2] end.
      { cbn. by rewrite Hw. }
      intros [= <- <-]. split; [exact H1|exact H2].
    + intros [= <- <-]. cbn. by rewrite Hw.
  - intros [= <- <-]. cbn. by rewrite Hw.
  - by intros [= <- <-].
Qed.

(** Cycles one after the other, with their outcomes. *)
Fixpoint run_cycles (ys : list readings) (w : NotificationWorker) : NotificationWorker * list (readings * cycle_outcome) :=
  match ys with
  | [] => (w, [])
  | y :: ys' => let '(w', os) := run_cycles ys' (run_once server py_pow y w).1 in (w', (y, outcome y w) :: os)
  end.

Lemma run_cycles_ops ys w reg :
  nw_metrics w = Some reg ->
  nw_metrics (run_cycles ys w).1 =
    Some (foldl apply_op reg ((run_cycles ys w).2 ≫= fun yo => cycle_ops (nw_queue_name w) yo.1 yo.2)).
Proof.
  revert w reg. induction ys as [|y ys IH]; intros w reg Hw; [done|]. cbn [run_cycles].
  destruct (run_once_ops y w reg Hw) as [H1 H2]. specialize (IH _ _ H1). rewrite H2 in IH.
  destruct (run_cycles ys _) as [w' os]. cbn [fst snd] in *. rewrite bind_cons, foldl_app. exact IH.
Qed.
End metrics.

(** The outcomes that count as a poll result, and the deliveries of the cycles. *)
Definition poll_result (o : cycle_outcome) : option string :=
  match o with PollFailed => None | Empty => Some "empty" | Failed => Some "failed" | Processed _ => Some "processed" end%string.
Definition deliveries (o : cycle_outcome) : list DeliveryResult := match o with Processed r => pr_results r | _ => [] end.

(** The value of a counter after [n] increments. *)
Definition counts (n : nat) : option f64 := match n with O => None | _ => Some (foldl fadd fzero (replicate n fone)) end.

Definition polls_with (result : string) (os : list (readings * cycle_outcome)) : nat :=
  List.length (List.filter (fun yo => bool_decide (poll_result yo.2 = Some result)) os).
Definition deliveries_with (gateway_name status : string) (os : list (readings * cycle_outcome)) : nat :=
  List.length (List.filter (fun d => String.eqb (dr_gateway d) gateway_name && String.eqb (dr_status d) status)
                 (os ≫= fun yo => deliveries yo.2)).

Lemma counted_app name l a b : counted name l (a ++ b) = counted name l a ++ counted name l b.
Proof. apply omap_app. Qed.

Lemma counted_deliveries rs gateway_name status :
  counted _WORKER_DELIVERY_METRIC (delivery_labels gateway_name status) (delivery_op <$> rs) =
    replicate (List.length (List.filter (fun d => String.eqb (dr_gateway d) gateway_name && String.eqb (dr_status d) status) rs)) fone.
Proof.
  induction rs as [|d rs IH]; [done|]. rewrite fmap_cons. change (delivery_op d :: ?l) with ([delivery_op d] ++ l).
  rewrite counted_app, IH. cbn [List.filter].
  assert (counted _WORKER_DELIVERY_METRIC (delivery_labels gateway_name status) [delivery_op d] =
    if String.eqb (dr_gateway d) gateway_name && String.eqb (dr_status d) status then [fone] else []) as ->.
  { unfold counted, delivery_op. cbn [omap list_omap]. change (_normalize_labels _) with (delivery_labels (dr_gateway d) (dr_status d)).
    destruct (String.eqb_spec (dr_gateway d) gateway_name) as [E1|E1], (String.eqb_spec (dr_status d) status) as [E2|E2]; cbn [andb].
    - by rewrite decide_True by (by rewrite E1, E2).
    - rewrite decide_False; [done|]. by intros [_ [= _ ?]].
    - rewrite decide_False; [done|]. by intros [_ [= ? _]].
    - rewrite decide_False; [done|]. by intros [_ [= ? _]]. }
  by destruct (_ && _).
Qed.

Lemma counted_other_deliveries rs result : counted _WORKER_POLLS_METRIC (poll_labels result) (delivery_op <$> rs) = [].
Proof. by induction rs. Qed.

Lemma counted_poll r result :
  counted _WORKER_POLLS_METRIC (poll_labels result) [poll_op r] = if String.eqb r result then [fone] else [].
Proof.
  unfold counted, poll_op. cbn [omap list_omap]. change (_normalize_labels _) with (poll_labels r).
  destruct (String.eqb_spec r result) as [->|Hr]; [by rewrite decide_True|]. rewrite decide_False; [done|]. by intros [_ [= ?]].
Qed.

Lemma counted_cycle queue_name y o result gateway_name status :
  counted _WORKER_POLLS_METRIC (poll_labels result) (cycle_ops queue_name y o) =
    replicate (if bool_decide (poll_result o = Some result) then 1 else 0) fone /\
  counted _WORKER_DELIVERY_METRIC (delivery_labels gateway_name status) (cycle_ops queue_name y o) =
    replicate (deliveries_with gateway_name status [(y, o)]) fone.
Proof.
  assert (forall r, counted _WORKER_POLLS_METRIC (poll_labels result) [poll_op r] =
    replicate (if bool_decide (Some r = Some result) then 1 else 0) fone) as Hp.
  { intros r. rewrite counted_poll. destruct (String.eqb_spec r result) as [->|Hr]; [by rewrite bool_decide_true|].
    rewrite bool_decide_false; [done|]. congruence. }
  destruct o as [| | |r]; cbn [cycle_ops poll_result].
  - split; [|done]. by rewrite bool_decide_false.
  - split; [apply Hp|done].
  - split; [|done]. change (latency_op queue_name y :: ?l) with ([latency_op queue_name y] ++ l). rewrite counted_app. apply Hp.
  - change (latency_op queue_name y :: poll_op "processed" :: ?l) with ([latency_op queue_name y] ++ [poll_op "processed"] ++ l).
    rewrite !counted_app, Hp, counted_other_deliveries, app_nil_r, counted_deliveries. split; [done|].
    unfold deliveries_with. cbn [mbind list_bind deliveries snd]. by rewrite app_nil_r.
Qed.

Lemma counted_cycles queue_name os result gateway_name status :
  let ops := os ≫= fun yo => cycle_ops queue_name yo.1 yo.2 in
  counted _WORKER_POLLS_METRIC (poll_labels result) ops = replicate (polls_with result os) fone /\
  counted _WORKER_DELIVERY_METRIC (delivery_labels gateway_name status) ops = replicate (deliveries_with gateway_name status os) fone.
Proof.
  cbv zeta. induction os as [|[y o] os [IH1 IH2]]; [done|]. rewrite bind_cons, !counted_app, IH1, IH2. cbn [fst snd].
  destruct (counted_cycle queue_name y o result gateway_name status) as [-> ->]. rewrite <- !replicate_add. split; f_equal.
  - unfold polls_with. cbn [List.filter snd]. by destruct (bool_decide _).
  - unfold deliveries_with. rewrite bind_cons. cbn [mbind list_bind snd]. rewrite app_nil_r, List.filter_app, List.length_app. done.
Qed.

(** C38. The metrics of the worker account for its cycles: whatever the queue, the servers and
    the gateways do, the poll counter of each result is the number of cycles that ended with
    it, and the delivery counter of a gateway and a status is the number of
    deliveries with them over all processed envelopes. Cycles whose poll raised are in
    no counter. *)
Theorem worker_metrics_account `{!network} server py_pow ys w :
  nw_metrics w = Some registry_init ->
  let '(w', os) := run_cycles server py_pow ys w in
  exists r, nw_metrics w' = Some r /\
    (forall result, counter_value r _WORKER_POLLS_METRIC (poll_labels result) = counts (polls_with result os)) /\
    (forall gateway_name status, counter_value r _WORKER_DELIVERY_METRIC (delivery_labels gateway_name status) =
       counts (deliveries_with gateway_name status os)).
Proof.
  intros Hw. pose proof (run_cycles_ops server py_pow ys w _ Hw) as Hr. destruct (run_cycles server py_pow ys w) as [w' os].
  cbn [fst snd] in Hr. eexists. split; [exact Hr|].
  assert (forall name l n, counted name l (os ≫= fun yo => cycle_ops (nw_queue_name w) yo.1 yo.2) = replicate n fone ->
    counter_value (run_ops (os ≫= fun yo => cycle_ops (nw_queue_name w) yo.1 yo.2)) name l = counts n) as Hc.
  { intros name l n Hn. rewrite counter_value_run, Hn. by destruct n. }
  split.
  - intros result. apply Hc. by destruct (counted_cycles (nw_queue_name w) os result "" "").
  - intros g st. apply Hc. by destruct (counted_cycles (nw_queue_name w) os "" g st).
Qed.

(** ** Settings that load build a worker *)

Lemma positive_float_Ok source key dflt x : _parse_positive_float source key dflt = Ok x -> fleb x fzero = false.
Proof. unfold _parse_positive_float. intros (y & _ & H)%bind_Ok. destruct (fleb y fzero) eqn:E; [done|]. by injection H as <-. Qed.
Lemma non_negative_float_Ok source key dflt x : _parse_non_negative_float source key dflt = Ok x -> fltb x fzero = false.
Proof. unfold _parse_non_negative_float. intros (y & _ & H)%bind_Ok. destruct (fltb y fzero) eqn:E; [done|]. by injection H as <-. Qed.
Lemma positive_int_Ok source key dflt n : _parse_positive_int source key dflt = Ok n -> (n <=? 0) = false.
Proof. unfold _parse_positive_int. destruct (int_of_val _) as [z|]; [|done]. destruct (z <=? 0) eqn:E; [done|]. by intros [= <-]. Qed.

(** A setting that is not a placeholder is a text with visible characters. *)
Lemma secret_Ok v : _is_placeholder_secret (_normalize_optional v) = false ->
  exists t, _normalize_optional v = Some t /\ is_empty t = false /\ is_empty (strip t) = false.
Proof.
  destruct v as [v|]; [|done]. cbn [_normalize_optional]. destruct (is_empty (strip v)) eqn:E; [done|]. intros _.
  exists (strip v). by rewrite strip_idemp.
Qed.

Record validated (env : string -> option string) (s : NotificationWorkerSettings) : Prop := {
  va_dedupe : fleb (st_dedupe_window_seconds s) fzero = false;
  va_rate : (st_rate_limit_per_minute s <=? 0) = false;
  va_attempts : (st_max_attempts s <=? 0) = false;
  va_base : fltb (st_backoff_base_seconds s) fzero = false;
  va_multiplier : fltb (st_backoff_multiplier s) fone = false;
  va_max_backoff : fleb (st_max_backoff_seconds s) fzero = false;
  va_timeout : fleb (st_gateway_timeout_seconds s) fzero = false;
  va_records : (st_observability_max_records s <=? 0) = false;
  va_backend : st_consumer_backend s = "rabbitmq_http"%string \/
               (st_consumer_backend s = "inmemory"%string /\ st_runtime_require_database s = false);
  va_token : st_enabled s = true -> st_default_gateway s = "telegram"%string ->
             exists t, st_telegram_bot_token s = Some t /\ is_empty t = false /\ is_empty (strip t) = false;
  va_chat : st_enabled s = true -> st_default_gateway s = "telegram"%string ->
            exists t, st_telegram_default_chat_id s = Some t /\ is_empty t = false /\ is_empty (strip t) = false }.

Lemma load_validated env s : load_notification_worker_settings env = Ok s -> validated env s.
Proof.
  unfold load_notification_worker_settings. cbv zeta.
  intros (enabled & _ & H)%bind_Ok. apply bind_Ok in H as (gw & _ & H). apply bind_Ok in H as (queue & _ & H).
  apply bind_Ok in H as (backend & _ & H). apply bind_Ok in H as ([] & Hb%raise_if_Ok & H).
  apply bind_Ok in H as (require & _ & H). apply bind_Ok in H as ([] & Hr%raise_if_Ok & H).
  apply bind_Ok in H as (sev & _ & H). apply bind_Ok in H as (severity & _ & H).
  apply bind_Ok in H as (poll & _ & H). apply bind_Ok in H as (idle & _ & H).
  apply bind_Ok in H as (dedupe & Hdedupe%positive_float_Ok & H). apply bind_Ok in H as (rate & Hrate%positive_int_Ok & H).
  apply bind_Ok in H as (attempts & Hattempts%positive_int_Ok & H). apply bind_Ok in H as (base & Hbase%non_negative_float_Ok & H).
  apply bind_Ok in H as (multiplier & _ & H). apply bind_Ok in H as (maxb & Hmaxb%positive_float_Ok & H).
  apply bind_Ok in H as (timeout & Htimeout%positive_float_Ok & H). apply bind_Ok in H as (records & Hrecords%positive_int_Ok & H).
  apply bind_Ok in H as (url & _ & H). apply bind_Ok in H as (user & _ & H). apply bind_Ok in H as (pass & _ & H).
  apply bind_Ok in H as ([] & Hmul%raise_if_Ok & H). apply bind_Ok in H as ([] & Ht%raise_if_Ok & H).
  apply bind_Ok in H as ([] & Hc%raise_if_Ok & H). injection H as <-. split; try done.
  - cbn [st_consumer_backend st_runtime_require_database]. apply negb_false_iff, bool_decide_eq_true in Hb.
    apply elem_of_cons in Hb as [->|Hb]; [by left|]. apply list_elem_of_singleton in Hb as E. rewrite E in Hr |- *. right.
    split; [done|]. by destruct require.
  - cbn. intros -> E. rewrite E in Ht. cbn in Ht. by apply secret_Ok.
  - cbn. intros -> E. rewrite E in Hc. cbn in Hc. by apply secret_Ok.
Qed.

(** Settings that pass validation build a worker: with the Telegram gateway, or with a
    gateway other than email and webhook, no constructor refuses the values that were
    read, and the worker starts with the configured limits, a consumer of the configured
    kind and empty metrics. (The email and webhook gateways read further variables
    that the validation does not look at.) *)
Theorem validated_worker_builds env topology s :
  load_notification_worker_settings env = Ok s -> st_enabled s = true ->
  (st_consumer_backend s = "inmemory"%string -> exists b, topology = Ok b) ->
  st_default_gateway s <> "email"%string -> st_default_gateway s <> "webhook"%string ->
  exists w g, build_notification_worker_from_settings env topology s = Ok w /\
    gd_gateways (ns_dispatcher (nw_service w)) = {[ st_default_gateway s := g ]} /\
    gd_max_attempts (ns_dispatcher (nw_service w)) = st_max_attempts s /\ 0 < st_max_attempts s /\
    rt_rate_limit_per_minute (ns_policy_router (nw_service w)) = st_rate_limit_per_minute s /\ 0 < st_rate_limit_per_minute s /\
    (match g with
     | Telegram t => st_default_gateway s = "telegram"%string /\ st_telegram_bot_token s = Some (tg_bot_token (tw_config t))
     | InMemory _ => st_default_gateway s <> "telegram"%string
     | _ => False
     end) /\
    nw_metrics w = Some registry_init /\ nw_queue_name w = st_queue_name s.
Proof.
  intros Hl He Htop Hn1 Hn2. destruct (load_validated _ _ Hl) as [V1 V2 V3 V4 V5 V6 V7 V8 V9 V10 V11].
  assert (exists g, _build_gateway env s = Ok g /\
    match g with
    | Telegram t => st_default_gateway s = "telegram"%string /\ st_telegram_bot_token s = Some (tg_bot_token (tw_config t))
    | InMemory _ => st_default_gateway s <> "telegram"%string
    | _ => False
    end) as (g & Eg & Hg).
  { unfold _build_gateway. destruct (String.eqb_spec (st_default_gateway s) "telegram") as [E|E].
    - destruct (V10 He E) as (t & -> & T1 & T2). destruct (V11 He E) as (c & -> & C1 & C2). rewrite T1, C1. cbn [orb].
      unfold telegram_config. rewrite T2, C2, V7. eexists. split; [reflexivity|]. done.
    - apply String.eqb_neq in Hn1, Hn2. rewrite Hn1, Hn2. eexists. split; [reflexivity|]. done. }
  assert (exists c, (if String.eqb (st_consumer_backend s) "inmemory" then b ← topology; Ok (InMemoryConsumer b)
              else Ok (RabbitConsumer (consumer_init (st_rabbitmq_http_api_url s) (st_rabbitmq_username s)
                                         (st_rabbitmq_password s) (st_poll_timeout_seconds s)))) = Ok c) as [c Ec].
  { destruct (String.eqb_spec (st_consumer_backend s) "inmemory") as [E|E]; [|by eexists]. destruct (Htop E) as [b ->]. by eexists. }
  unfold build_notification_worker_from_settings, router_init, dispatcher_init, collector_init.
  rewrite Eg, V1, V2, V3, V4, V5, V6, V8. cbn [raise_if mbind result_bind]. rewrite Ec. cbn [mbind result_bind].
  eexists _, g. split; [reflexivity|]. cbn. repeat split; try done; lia.
Qed.

(** ** The loop *)

Section loop.
Context `{!network} (server : http_server) (py_pow : f64 -> Z -> result f64).
#[local] Set Default Proof Using "Type".

(** Every cycle raises. *)
Inductive failing : list readings -> NotificationWorker -> NotificationWorker -> Prop :=
  | failing_nil w : failing [] w w
  | failing_cons y ys w w1 w2 e : run_once server py_pow y w = (w1, Raise e) -> failing ys w1 w2 -> failing (y :: ys) w w2.

(** [--once] is documented to process at most one cycle: the loop returns after the
    first cycle that does not raise, and as long as the cycles raise it goes on, however
    many there are. *)
Lemma once_goes_on_failing max_idle idle ys w w1 :
  failing ys w w1 ->
  poll_loop server py_pow true max_idle idle ys w = (w1, None) /\
  forall y w2 r rest, run_once server py_pow y w1 = (w2, Ok r) ->
    poll_loop server py_pow true max_idle idle (ys ++ y :: rest) w = (w2, Some 0).
Proof.
  induction 1 as [w|y ys w w1 w2 e Hr _ [IH1 IH2]].
  - split; [done|]. intros y w2 r rest E. cbn [app poll_loop]. rewrite E. by destruct r.
  - cbn [app poll_loop]. rewrite Hr. split; [done|]. exact IH2.
Qed.
End loop.

(** ** A worker on a queue in memory *)

Module Example_worker.

Definition env (key : string) : option string :=
  assoc_get key [("NOTIFY_CONSUMER_BACKEND", "inmemory"); ("NOTIFY_MAX_ATTEMPTS", " 2 "); ("TELEGRAM_BOT_TOKEN", "123:abc");
                 ("TELEGRAM_DEFAULT_CHAT_ID", "42")]%string.

Definition queued : result InMemoryTopicBroker :=
  b ← from_topology [VDict [("name"%string, VStr "notify.events.raw")]]
        [VDict [("queue", VStr "notify.events.raw"); ("routing_key", VStr "notify.#")]%string];
  '(b1, _) ← Broker.publish "notify.risk" (VDict NotificationService.Example.envelope) b;
  '(b2, _) ← Broker.publish "notify.risk" (VDict [("event_type"%string, VInt 3)]) b1;
  Ok b2.

Definition settings : NotificationWorkerSettings :=
  {| st_enabled := true; st_default_gateway := "telegram"; st_default_severity := WARNING; st_queue_name := "notify.events.raw";
     st_consumer_backend := "inmemory"; st_poll_timeout_seconds := flit 1 0; st_idle_sleep_seconds := flit 5 (-1);
     st_dedupe_window_seconds := flit 120 0; st_rate_limit_per_minute := 30; st_max_attempts := 2;
     st_backoff_base_seconds := flit 2 (-1); st_backoff_multiplier := flit 2 0; st_max_backoff_seconds := flit 2 0;
     st_gateway_timeout_seconds := flit 10 0; st_observability_max_records := 200;
     st_rabbitmq_http_api_url := "http://rabbitmq:15672/api"; st_rabbitmq_username := "guest"; st_rabbitmq_password := "guest";
     st_telegram_bot_token := Some "123:abc"%string; st_telegram_default_chat_id := Some "42"%string;
     st_runtime_require_database := false |}.

Lemma validated_worker_builds_witness :
  exists w g, build_notification_worker_from_settings env queued settings = Ok w /\
    gd_gateways (ns_dispatcher (nw_service w)) = {[ "telegram"%string := g ]} /\
    gd_max_attempts (ns_dispatcher (nw_service w)) = 2 /\ 0 < 2 /\
    rt_rate_limit_per_minute (ns_policy_router (nw_service w)) = 30 /\ 0 < 30 /\
    (match g with
     | Telegram t => "telegram"%string = "telegram"%string /\ Some "123:abc"%string = Some (tg_bot_token (tw_config t))
     | InMemory _ => "telegram"%string <> "telegram"%string
     | _ => False
     end) /\
    nw_metrics w = Some registry_init /\ nw_queue_name w = "notify.events.raw"%string.
Proof.
  apply (validated_worker_builds env queued settings); [vm_compute; reflexivity|reflexivity| |discriminate|discriminate].
  intros _. eexists. vm_compute. reflexivity.
Defined.

(** The webhook gateway is not checked by [--validate-only]: the settings load and the
    worker cannot be built. *)
Definition webhook_env (key : string) : option string := assoc_get key [("NOTIFY_DEFAULT_GATEWAY", "webhook")]%string.
Definition no_network : network := {| net_http _ _ := Answered 200 ""; net_smtp _ _ := None |}.
Definition no_server : http_server := fun _ _ => HttpText "[]".
Definition pow (_ : f64) (_ : Z) : result f64 := Ok fone.
Example webhook_not_validated :
  main webhook_env queued (H := no_network) no_server pow {| wa_validate_only := true; wa_once := true; wa_max_idle_cycles := 0 |} [] = Ok (Some 0) /\
  main webhook_env queued (H := no_network) no_server pow {| wa_validate_only := false; wa_once := true; wa_max_idle_cycles := 0 |} [] =
    settings_error "webhook gateway enabled but WEBHOOK_URL is missing".
Proof. by vm_compute. Qed.

Definition start : NotificationWorker :=
  match build_notification_worker_from_settings env queued settings with
  | Ok w => w
  | Raise _ => {| nw_consumer := RabbitConsumer (consumer_init "" "" "" fzero);
                  nw_service := {| ns_policy_router := {| rt_preferences := []; rt_dedupe_window_seconds := fone; rt_rate_limit_per_minute := 1;
                                     rt_dedupe_seen_at := ∅; rt_rate_events := ∅; rt_suppressed_dedupe := 0; rt_suppressed_rate_limit := 0 |};
                                   ns_dispatcher := {| gd_gateways := ∅; gd_max_attempts := 1; gd_backoff_base_seconds := fone;
                                     gd_backoff_multiplier := fone; gd_max_backoff_seconds := fone; gd_dlq := []; gd_slept := [] |};
                                   ns_observability := None |};
                  nw_queue_name := ""; nw_poll_timeout_seconds := fzero; nw_logger := None; nw_metrics := None |}
  end.
Definition reading : readings :=
  {| rd_perf n := f_of_Z (Z.of_nat n); rd_log n := 1000000; rd_service_perf n := fzero; rd_service_clock n := 1000000; rd_now_seconds := fone |}.

(** One envelope is processed, one fails, then the queue is empty. *)
Example three_cycles :
  poll_result <$> (run_cycles (H := no_network) no_server pow [reading; reading; reading] start).2.*2 =
    [Some "processed"; Some "failed"; Some "empty"]%string.
Proof. vm_compute. reflexivity. Qed.

Lemma worker_metrics_account_witness :
  let '(w', os) := run_cycles (H := no_network) no_server pow [reading; reading; reading] start in
  exists r, nw_metrics w' = Some r /\
    (forall result, counter_value r _WORKER_POLLS_METRIC (poll_labels result) = counts (polls_with result os)) /\
    (forall gateway_name status, counter_value r _WORKER_DELIVERY_METRIC (delivery_labels gateway_name status) =
       counts (deliveries_with gateway_name status os)).
Proof. apply (worker_metrics_account (H := no_network) no_server pow [reading; reading; reading] start). vm_compute. reflexivity. Defined.

End Example_worker.
