(* ===== verification/SqlTable.v ===== *)
(** * Tables of a database

    What the stores use of SQL: a table is the list of its rows in the order they
    were inserted, a statement is an operation on such lists. SQLite stores a
    float that is not a number as NULL; a second row with the same key, and a
    missing value in a NOT NULL column, raise [IntegrityError]. The lemmas are
    about tables whose rows have different keys. *)

From S2P Require Import Prelude PyStr PyFloat.
From stdpp Require Import options.
From Stdlib Require Import Ascii String.

#[local] Open Scope Z_scope.

(** ** Statements *)

Definition IntegrityError : exc_class := ExternalError "IntegrityError".

(** A float as SQLite stores it, and a NOT NULL column. *)
Definition real (x : f64) : option f64 := if is_nan x then None else Some x.
Definition not_null (column : string) (x : f64) : result f64 :=
  match real x with
  | Some y => Ok y
  | None => raise IntegrityError ("NOT NULL constraint failed: " +:+ column)
  end.

(** [INSERT]: [taken] are the rows a unique key of the new row conflicts with. *)
Definition insert_row {R} (key : string) (taken : R -> bool) (new : R) (t : list R) : result (list R) :=
  _ ← raise_if (existsb taken t) IntegrityError ("UNIQUE constraint failed: " +:+ key);
  Ok (t ++ [new]).

(** [INSERT ... ON CONFLICT (key) DO UPDATE]: the row with the same key is
    changed by [merge], otherwise the new row is added. *)
Fixpoint upsert_row {R} (same : R -> bool) (merge : R -> R) (new : R) (t : list R) : list R :=
  match t with
  | [] => [new]
  | r :: t' => if same r then merge r :: t' else r :: upsert_row same merge new t'
  end.

(** [UPDATE ... WHERE] *)
Definition update_rows {R} (p : R -> bool) (f : R -> R) (t : list R) : list R :=
  (fun r => if p r then f r else r) <$> t.

(** ** Tables with a key *)

Section keyed.
Context {R K : Type} `{!EqDecision K} (key : R -> K).
#[local] Set Default Proof Using "Type".

(** The row of a key. *)
Definition row_at (k : K) (t : list R) : option R := List.find (fun r => bool_decide (key r = k)) t.

Lemma row_at_cons k r t : row_at k (r :: t) = if bool_decide (key r = k) then Some r else row_at k t.
Proof. done. Qed.

Lemma row_at_Some k t r : row_at k t = Some r -> r ∈ t /\ key r = k.
Proof. unfold row_at. intros [Hi Hk]%find_some. split; [by apply list_elem_of_In|by apply bool_decide_eq_true in Hk]. Qed.

Lemma row_at_None k t : row_at k t = None <-> k ∉ key <$> t.
Proof.
  induction t as [|r t IH]; [split; [intros _; apply not_elem_of_nil|done]|].
  rewrite row_at_cons, fmap_cons, not_elem_of_cons. case_bool_decide as H; [|rewrite IH]; naive_solver.
Qed.

Lemma row_at_elem t r : NoDup (key <$> t) -> r ∈ t -> row_at (key r) t = Some r.
Proof.
  induction t as [|x t IH]; intros Hn Hr; [by apply elem_of_nil in Hr|]. rewrite row_at_cons.
  apply NoDup_cons in Hn as [Hx Hn]. apply elem_of_cons in Hr as [->|Hr]; [by rewrite bool_decide_true|].
  rewrite bool_decide_false; [by apply IH|]. intros E. apply Hx. rewrite E. by apply list_elem_of_fmap_2.
Qed.

Lemma row_at_app k t1 t2 :
  row_at k (t1 ++ t2) = match row_at k t1 with Some r => Some r | None => row_at k t2 end.
Proof. induction t1 as [|r t1 IH]; [done|]. cbn [app]. rewrite !row_at_cons. by case_bool_decide. Qed.

(** Only one row has a key. *)
Lemma filter_key k t : NoDup (key <$> t) ->
  List.filter (fun r => bool_decide (key r = k)) t = option_list (row_at k t).
Proof.
  induction t as [|r t IH]; intros Hn; [done|]. apply NoDup_cons in Hn as [Hr Hn]. rewrite row_at_cons. cbn [List.filter].
  case_bool_decide as E; [|by apply IH]. rewrite IH by done. by assert (row_at k t = None) as -> by (apply row_at_None; by rewrite <- E).
Qed.

Lemma existsb_key k t : existsb (fun r => bool_decide (key r = k)) t = false <-> k ∉ key <$> t.
Proof.
  induction t as [|r t IH]; [split; [intros _; apply not_elem_of_nil|done]|].
  cbn [existsb]. rewrite fmap_cons, not_elem_of_cons, orb_false_iff, IH, bool_decide_eq_false. naive_solver.
Qed.

Variable same : R -> bool.
Variables (merge : R -> R) (new : R).
Hypothesis same_key : forall r, same r = bool_decide (key r = key new).
Hypothesis merge_key : forall r, key r = key new -> key (merge r) = key r.

Lemma upsert_keys t :
  key <$> upsert_row same merge new t = (key <$> t) ++ (match row_at (key new) t with Some _ => [] | None => [key new] end).
Proof using same_key merge_key.
  induction t as [|r t IH]; [done|]. cbn [upsert_row]. rewrite same_key, row_at_cons.
  case_bool_decide; rewrite !fmap_cons; [by rewrite merge_key, app_nil_r by done|by rewrite IH].
Qed.

Lemma upsert_NoDup t : NoDup (key <$> t) -> NoDup (key <$> upsert_row same merge new t).
Proof using same_key merge_key.
  intros Hn. rewrite upsert_keys. destruct (row_at _ t) eqn:E; [by rewrite app_nil_r|].
  apply row_at_None in E. apply NoDup_app. split_and!; [done| |apply NoDup_singleton].
  intros x Hx ->%list_elem_of_singleton. done.
Qed.

Lemma row_at_upsert_eq t :
  row_at (key new) (upsert_row same merge new t) =
  Some (match row_at (key new) t with Some r => merge r | None => new end).
Proof using same_key merge_key.
  induction t as [|r t IH]; cbn [upsert_row]; [by rewrite row_at_cons, bool_decide_true|].
  rewrite same_key. case_bool_decide as E; rewrite !row_at_cons.
  - by rewrite merge_key, bool_decide_true by done.
  - by rewrite (bool_decide_false (key r = key new)).
Qed.

Lemma row_at_upsert_ne k t : k <> key new -> row_at k (upsert_row same merge new t) = row_at k t.
Proof using same_key merge_key.
  intros Hk. induction t as [|r t IH]; cbn [upsert_row]; [by rewrite row_at_cons, bool_decide_false by done|].
  rewrite same_key. case_bool_decide as E; rewrite !row_at_cons; [|by rewrite IH].
  rewrite (merge_key _ E), E, bool_decide_false by done. done.
Qed.

Lemma Forall_upsert (P : R -> Prop) t :
  Forall P t -> P new -> (forall r, P r -> P (merge r)) -> Forall P (upsert_row same merge new t).
Proof. intros Ht Hn Hm. induction Ht; cbn [upsert_row]; [by constructor|]. destruct (same _); constructor; auto. Qed.
End keyed.

Lemma insert_row_Ok {R} key taken (new : R) t t' :
  insert_row key taken new t = Ok t' -> existsb taken t = false /\ t' = t ++ [new].
Proof. unfold insert_row. destruct (existsb taken t); [done|]. by intros [= <-]. Qed.

Lemma find_ext {R} (p q : R -> bool) t : (forall r, r ∈ t -> p r = q r) -> List.find p t = List.find q t.
Proof.
  induction t as [|r t IH]; intros H; [done|]. cbn. rewrite H, IH; [done| |left]. intros x Hx. apply H. by right.
Qed.

Lemma filter_ext_elem {R} (p q : R -> bool) t : (forall r, r ∈ t -> p r = q r) -> List.filter p t = List.filter q t.
Proof.
  induction t as [|r t IH]; intros H; [done|]. cbn. rewrite H, IH; [done| |left]. intros x Hx. apply H. by right.
Qed.

Lemma eqb_decide (a b : string) : String.eqb a b = bool_decide (a = b).
Proof. destruct (String.eqb_spec a b); [by rewrite bool_decide_true|by rewrite bool_decide_false]. Qed.

Lemma eqb_decide_pair (a b c d : string) : String.eqb a b && String.eqb c d = bool_decide ((a, c) = (b, d)).
Proof.
  rewrite !eqb_decide. repeat case_bool_decide; naive_solver.
Qed.

Lemma not_null_Ok column x y : not_null column x = Ok y -> y = x.
Proof. unfold not_null, real. destruct (is_nan x); [done|]. by intros [= <-]. Qed.

(** ** [ORDER BY] of rows that arrive in order *)

Lemma insert_sorted_snoc {A} (le : A -> A -> bool) e l x :
  le e x = true -> insert_sorted le e (l ++ [x]) = insert_sorted le e l ++ [x].
Proof. intros He. induction l as [|y l IH]; simpl; [by rewrite He|]. destruct (le e y); [done|]. by rewrite IH. Qed.

Lemma sort_by_snoc {A} (le : A -> A -> bool) l x :
  Forall (fun e => le e x = true) l -> sort_by le (l ++ [x]) = sort_by le l ++ [x].
Proof. induction 1 as [|e l He _ IH]; simpl; [done|]. by rewrite IH, insert_sorted_snoc. Qed.
