(* ===== verification/OmsStore.v ===== *)
(** * The OMS state store

    [SQLAlchemyRuntimeOMSStateStore] of
    [services/workers/runtime_persistence.py]: orders, fills, lifecycle events,
    positions, mark prices and portfolio snapshots in the tables that
    [_ensure_schema] creates. A table is the list of its rows in the order they
    were inserted, a row is a record with the columns of the table; the SQL
    statements of the store become operations on these lists, with the
    constraints of the schema: a second row with the same key raises
    [IntegrityError], and so does a missing value in a NOT NULL column. SQLite
    stores a float that is not a number as NULL. Each statement is committed on
    its own, so what was written before an exception stays.

    Clock readings ([now]) and [uuid.uuid4()] ([u4]) are arguments, by call site. *)

From S2P Require Import Prelude PyStr PyFloat PyDecimal PyTime PyUuid PyVal SqlTable.
From S2P Require Import FillReconciliation PositionEngine PortfolioSnapshot.
From stdpp Require Import options.
From Stdlib Require Import Ascii String SpecFloat.

#[local] Open Scope Z_scope.

(** ** Rows and tables *)

Record exchange_row := {
  xr_id : string; xr_name : string; xr_api_key_encrypted : option string;
  xr_api_secret_encrypted : option string; xr_is_active : bool; xr_created_at : string }.

Record symbol_row := {
  yr_id : string; yr_exchange_id : string; yr_symbol : string; yr_base_asset : string;
  yr_quote_asset : string; yr_is_active : bool; yr_created_at : string }.

Record order_row := {
  or_id : string; or_exchange_id : string; or_symbol_id : string; or_signal_id : option string;
  or_exchange_order_id : option string; or_client_order_id : string; or_side : string; or_type : string;
  or_status : string; or_mode : string; or_price : option f64; or_quantity : f64;
  or_filled_quantity : f64; or_average_price : option f64; or_created_at : string; or_updated_at : string }.

Record fill_row := {
  fr_id : string; fr_order : string; fr_exchange_fill_id : string; fr_side : string; fr_mode : string;
  fr_quantity : f64; fr_price : f64; fr_fee : f64; fr_fee_currency : option string; fr_filled_at : string }.

Record position_row := {
  pr_id : string; pr_exchange_id : string; pr_symbol_id : string; pr_mode : string; pr_side : string;
  pr_quantity : f64; pr_entry_price : f64; pr_unrealized_pnl : f64; pr_realized_pnl : f64;
  pr_status : string; pr_opened_at : string; pr_closed_at : option string }.

Record snapshot_row := {
  sr_id : Z; sr_snapshot_time : string; sr_mode : string; sr_total_balance_usd : f64;
  sr_available_balance_usd : f64; sr_locked_balance_usd : f64; sr_unrealized_pnl : f64;
  sr_realized_pnl_total : f64; sr_created_at : string }.

Record event_row := {
  er_event_id : string; er_order_id : string; er_event_type : string; er_status : option string;
  er_fill_id : option string; er_fill_quantity : option f64; er_fill_price : option f64;
  er_fill_fee : option f64; er_fill_source : option string; er_created_at : string }.

Record mark_row := { mr_mode : string; mr_symbol : string; mr_mark_price : f64; mr_updated_at : string }.

Record database := {
  db_exchanges : list exchange_row;
  db_symbols : list symbol_row;
  db_orders : list order_row;
  db_fills : list fill_row;
  db_positions : list position_row;
  db_snapshots : list snapshot_row;
  db_events : list event_row;
  db_marks : list mark_row }.

(** The tables [_ensure_schema] creates. *)
Definition _ensure_schema : database :=
  {| db_exchanges := []; db_symbols := []; db_orders := []; db_fills := []; db_positions := [];
     db_snapshots := []; db_events := []; db_marks := [] |}.

Definition set_exchanges t db :=
  {| db_exchanges := t; db_symbols := db_symbols db; db_orders := db_orders db; db_fills := db_fills db;
     db_positions := db_positions db; db_snapshots := db_snapshots db; db_events := db_events db;
     db_marks := db_marks db |}.
Definition set_symbols t db :=
  {| db_exchanges := db_exchanges db; db_symbols := t; db_orders := db_orders db; db_fills := db_fills db;
     db_positions := db_positions db; db_snapshots := db_snapshots db; db_events := db_events db;
     db_marks := db_marks db |}.
Definition set_orders t db :=
  {| db_exchanges := db_exchanges db; db_symbols := db_symbols db; db_orders := t; db_fills := db_fills db;
     db_positions := db_positions db; db_snapshots := db_snapshots db; db_events := db_events db;
     db_marks := db_marks db |}.
Definition set_fills t db :=
  {| db_exchanges := db_exchanges db; db_symbols := db_symbols db; db_orders := db_orders db; db_fills := t;
     db_positions := db_positions db; db_snapshots := db_snapshots db; db_events := db_events db;
     db_marks := db_marks db |}.
Definition set_positions t db :=
  {| db_exchanges := db_exchanges db; db_symbols := db_symbols db; db_orders := db_orders db;
     db_fills := db_fills db; db_positions := t; db_snapshots := db_snapshots db; db_events := db_events db;
     db_marks := db_marks db |}.
Definition set_snapshots t db :=
  {| db_exchanges := db_exchanges db; db_symbols := db_symbols db; db_orders := db_orders db;
     db_fills := db_fills db; db_positions := db_positions db; db_snapshots := t; db_events := db_events db;
     db_marks := db_marks db |}.
Definition set_events t db :=
  {| db_exchanges := db_exchanges db; db_symbols := db_symbols db; db_orders := db_orders db;
     db_fills := db_fills db; db_positions := db_positions db; db_snapshots := db_snapshots db;
     db_events := t; db_marks := db_marks db |}.
Definition set_marks t db :=
  {| db_exchanges := db_exchanges db; db_symbols := db_symbols db; db_orders := db_orders db;
     db_fills := db_fills db; db_positions := db_positions db; db_snapshots := db_snapshots db;
     db_events := db_events db; db_marks := t |}.

(** ** Queries *)

(** [ORDER BY opened_at DESC LIMIT 1] *)
Definition latest (rows : list position_row) : option position_row :=
  head (sort_by (fun a b => str_leb (pr_opened_at b) (pr_opened_at a)) rows).

(** [JOIN symbols s ON s.id = ...] *)
Definition symbol_of (db : database) (id : string) : option symbol_row :=
  List.find (fun s => String.eqb (yr_id s) id) (db_symbols db).

(** ** Helpers of the store *)

(** [str(uuid.UUID(text))] *)
Definition uuid_canonical (text : string) : option string :=
  if uuid_valid text then uuid_str <$> int_of_hex_string (uuid_hex text) else None.

Definition _coerce_uuid (fresh : string) (value : string) : string :=
  let normalized := strip value in
  if is_empty normalized then fresh
  else match uuid_canonical normalized with
       | Some u => u
       | None => uuid_str (uuid5_url normalized)
       end.

(** [text.split(sep, 1)] *)
Fixpoint split_once (sep : ascii) (s : string) : option (string * string) :=
  match s with
  | EmptyString => None
  | String c s' =>
      if Ascii.eqb c sep then Some (EmptyString, s')
      else (fun p => (String c p.1, p.2)) <$> split_once sep s'
  end.

Definition _split_symbol (symbol : string) : string * string :=
  let normalized := upper (strip symbol) in
  match split_once "/" normalized with
  | None => (str_or normalized "UNKNOWN", "USD"%string)
  | Some (base, quote) => (str_or (strip base) "UNKNOWN", str_or (strip quote) "USD")
  end.

Definition _RUNTIME_EXCHANGE_NAME : string := "runtime_mock".
Definition _runtime_exchange_id : string := uuid_str (uuid5_url _RUNTIME_EXCHANGE_NAME).

Definition normal_symbol (symbol : string) : string := upper (strip symbol).

Definition insert_exchange (now : string) : prog database unit := fun db =>
  if existsb (fun x => String.eqb (xr_name x) _RUNTIME_EXCHANGE_NAME) (db_exchanges db) then (db, Ok tt)
  else
    (t ← lift (insert_row "exchanges.id" (fun x => String.eqb (xr_id x) _runtime_exchange_id)
           {| xr_id := _runtime_exchange_id; xr_name := _RUNTIME_EXCHANGE_NAME; xr_api_key_encrypted := None;
              xr_api_secret_encrypted := None; xr_is_active := true; xr_created_at := now |}
           (db_exchanges db));
     modify (set_exchanges t)) db.

Definition is_symbol (symbol : string) (s : symbol_row) : bool :=
  String.eqb (yr_exchange_id s) _runtime_exchange_id && String.eqb (yr_symbol s) symbol.

Definition symbol_uuid (symbol : string) : string :=
  uuid_str (uuid5_url (_runtime_exchange_id +:+ ":" +:+ symbol)).

Definition new_symbol (now symbol : string) : symbol_row :=
  {| yr_id := symbol_uuid symbol; yr_exchange_id := _runtime_exchange_id; yr_symbol := symbol;
     yr_base_asset := (_split_symbol symbol).1; yr_quote_asset := (_split_symbol symbol).2;
     yr_is_active := true; yr_created_at := now |}.

Definition _ensure_symbol_refs (now symbol : string) : prog database (string * string) :=
  let normalized := normal_symbol symbol in
  _ ← insert_exchange now;
  existing ← gets (fun db => List.find (is_symbol normalized) (db_symbols db));
  match existing with
  | Some s => mret (_runtime_exchange_id, yr_id s)
  | None =>
      symbols ← gets db_symbols;
      t ← lift (insert_row "symbols.id" (fun s => String.eqb (yr_id s) (symbol_uuid normalized))
                  (new_symbol now normalized) symbols);
      _ ← modify (set_symbols t);
      mret (_runtime_exchange_id, symbol_uuid normalized)
  end.

(** ** Orders *)

Definition find_order (id : string) (db : database) : option order_row :=
  List.find (fun o => String.eqb (or_id o) id) (db_orders db).

Definition order_of_row (row : order_row) (symbol : string) : ReconciliationOrder :=
  {| ro_order_id := or_id row; ro_symbol := symbol; ro_mode := or_mode row;
     ro_requested_quantity := dec_of_repr (or_quantity row); ro_status := or_status row;
     ro_filled_quantity := dec_of_repr (or_filled_quantity row);
     ro_average_price := dec_of_repr <$> or_average_price row |}.

Definition get_order (u4 : nat -> string) (order_id : string) (db : database) : option ReconciliationOrder :=
  row ← find_order (_coerce_uuid (u4 0%nat) order_id) db;
  s ← symbol_of db (or_symbol_id row);
  Some (order_of_row row (yr_symbol s)).

(** The update of a conflicting row keeps its key, [signal_id],
    [client_order_id] and [created_at]. *)
Definition merge_order (new old : order_row) : order_row :=
  {| or_id := or_id old; or_exchange_id := or_exchange_id new; or_symbol_id := or_symbol_id new;
     or_signal_id := or_signal_id old; or_exchange_order_id := or_exchange_order_id new;
     or_client_order_id := or_client_order_id old; or_side := or_side new; or_type := or_type new;
     or_status := or_status new; or_mode := or_mode new; or_price := or_price new;
     or_quantity := or_quantity new; or_filled_quantity := or_filled_quantity new;
     or_average_price := or_average_price new; or_created_at := or_created_at old;
     or_updated_at := or_updated_at new |}.

Definition order_values (u4 : nat -> string) (now_iso : string) (order : ReconciliationOrder)
    (refs : string * string) (existing : option order_row) : result order_row :=
  let average := match ro_average_price order with Some a => real (float_of_dec a) | None => None end in
  quantity ← not_null "orders.quantity" (float_of_dec (ro_requested_quantity order));
  filled ← not_null "orders.filled_quantity" (float_of_dec (ro_filled_quantity order));
  Ok {| or_id := _coerce_uuid (u4 1%nat) (ro_order_id order); or_exchange_id := refs.1; or_symbol_id := refs.2;
        or_signal_id := None; or_exchange_order_id := Some (ro_order_id order);
        or_client_order_id := ro_order_id order;
        or_side := match existing with Some o => or_side o | None => "BUY" end;
        or_type := match existing with Some o => or_type o | None => "MARKET" end;
        or_status := ro_status order; or_mode := ro_mode order; or_price := average; or_quantity := quantity;
        or_filled_quantity := filled; or_average_price := average;
        or_created_at := match existing with Some o => or_created_at o | None => now_iso end;
        or_updated_at := now_iso |}.

Definition upsert_order (now u4 : nat -> string) (order : ReconciliationOrder) : prog database unit :=
  refs ← _ensure_symbol_refs (now 0%nat) (ro_symbol order);
  existing ← gets (find_order (_coerce_uuid (u4 0%nat) (ro_order_id order)));
  row ← lift (order_values u4 (now 1%nat) order refs existing);
  modify (fun db => set_orders (upsert_row (fun o => String.eqb (or_id o) (or_id row)) (merge_order row) row
                                  (db_orders db)) db).

(** ** Lifecycle events and fills *)

Definition event_values (u4 : nat -> string) (now_iso order_id : string) (event : LifecycleEvent) : event_row :=
  let fill := le_fill event in
  let amount f := x ← fill; real (float_of_dec (f x)) in
  {| er_event_id := u4 0%nat; er_order_id := _coerce_uuid (u4 1%nat) order_id;
     er_event_type := le_event_type event; er_status := le_status event;
     er_fill_id := rf_fill_id <$> fill; er_fill_quantity := amount rf_quantity;
     er_fill_price := amount rf_price; er_fill_fee := amount rf_fee; er_fill_source := rf_source <$> fill;
     er_created_at := now_iso |}.

Definition fill_values (u4 : nat -> string) (now_iso order_id : string) (order_row : option order_row)
    (fill : ReconciliationFill) : result fill_row :=
  quantity ← not_null "fills.quantity" (float_of_dec (rf_quantity fill));
  price ← not_null "fills.price" (float_of_dec (rf_price fill));
  fee ← not_null "fills.fee" (float_of_dec (rf_fee fill));
  Ok {| fr_id := _coerce_uuid (u4 3%nat) (rf_fill_id fill); fr_order := _coerce_uuid (u4 4%nat) order_id;
        fr_exchange_fill_id := rf_fill_id fill;
        fr_side := match order_row with Some o => or_side o | None => "BUY" end;
        fr_mode := match order_row with Some o => or_mode o | None => "MOCK" end;
        fr_quantity := quantity; fr_price := price; fr_fee := fee; fr_fee_currency := Some "USD"%string;
        fr_filled_at := now_iso |}.

(** The update of a conflicting fill keeps its key and its order. *)
Definition merge_fill (new old : fill_row) : fill_row :=
  {| fr_id := fr_id old; fr_order := fr_order old; fr_exchange_fill_id := fr_exchange_fill_id new;
     fr_side := fr_side new; fr_mode := fr_mode new; fr_quantity := fr_quantity new; fr_price := fr_price new;
     fr_fee := fr_fee new; fr_fee_currency := fr_fee_currency new; fr_filled_at := fr_filled_at new |}.

Definition append_lifecycle_event (now_iso : string) (u4 : nat -> string) (order_id : string)
    (event : LifecycleEvent) : prog database unit :=
  let row := event_values u4 now_iso order_id event in
  events ← gets db_events;
  t ← lift (insert_row "runtime_oms_lifecycle_events.event_id"
              (fun e => String.eqb (er_event_id e) (er_event_id row)) row events);
  _ ← modify (set_events t);
  match le_fill event with
  | None => mret tt
  | Some fill =>
      order_row ← gets (find_order (_coerce_uuid (u4 2%nat) order_id));
      row ← lift (fill_values u4 now_iso order_id order_row fill);
      modify (fun db => set_fills (upsert_row (fun f => String.eqb (fr_id f) (fr_id row)) (merge_fill row) row
                                     (db_fills db)) db)
  end.

Definition event_leb (a b : event_row) : bool :=
  strs_leb [er_created_at a; er_event_id a] [er_created_at b; er_event_id b].

(** [Decimal(str(float(x or 0.0)))] of a column that may be NULL *)
Definition column_amount (x : option f64) : dec :=
  dec_of_repr (match x with Some (S754_zero _) | None => fzero | Some y => y end).

Definition fill_of_row (order_uuid : string) (row : event_row) : option ReconciliationFill :=
  (fun fill_id =>
     {| rf_fill_id := fill_id; rf_order_id := order_uuid; rf_quantity := column_amount (er_fill_quantity row);
        rf_price := column_amount (er_fill_price row); rf_fee := column_amount (er_fill_fee row);
        rf_source := str_or (default "runtime_worker"%string (er_fill_source row)) "runtime_worker" |})
    <$> er_fill_id row.

Definition event_of_row (order_uuid : string) (row : event_row) : LifecycleEvent :=
  {| le_event_type := er_event_type row; le_status := er_status row; le_fill := fill_of_row order_uuid row |}.

Definition load_lifecycle_events (u4 : nat -> string) (order_id : string) (db : database) : list LifecycleEvent :=
  imap (fun i => event_of_row (_coerce_uuid (u4 (S i)) order_id))
    (sort_by event_leb
       (List.filter (fun e => String.eqb (er_order_id e) (_coerce_uuid (u4 0%nat) order_id)) (db_events db))).

(** ** Positions *)

Definition position_of_row (row : position_row) (symbol : string) : PositionState :=
  {| ps_mode := pr_mode row; ps_symbol := symbol; ps_quantity := dec_of_repr (pr_quantity row);
     ps_average_entry_price := dec_of_repr (pr_entry_price row);
     ps_realized_pnl := dec_of_repr (pr_realized_pnl row); ps_status := pr_status row;
     ps_updated_at := default (pr_opened_at row) (pr_closed_at row) |}.

(** [... JOIN symbols s ... WHERE p.mode = :mode AND s.symbol = :symbol] *)
Definition at_symbol (db : database) (mode symbol : string) (p : position_row) : bool :=
  String.eqb (pr_mode p) mode &&
  match symbol_of db (pr_symbol_id p) with Some s => String.eqb (yr_symbol s) symbol | None => false end.

Definition get_position (mode symbol : string) (db : database) : option PositionState :=
  (fun row => position_of_row row symbol) <$> latest (List.filter (at_symbol db mode symbol) (db_positions db)).

Definition position_side (position : PositionState) : string :=
  if fltb fzero (float_of_dec (ps_quantity position)) then "LONG"
  else if fltb (float_of_dec (ps_quantity position)) fzero then "SHORT" else "FLAT".

(** The values both statements of [upsert_position] write, with the key and
    [opened_at] of the row. *)
Definition position_values (id opened_at : string) (refs : string * string) (position : PositionState)
  : result position_row :=
  quantity ← not_null "positions.quantity" (float_of_dec (ps_quantity position));
  entry ← not_null "positions.entry_price" (float_of_dec (ps_average_entry_price position));
  realized ← not_null "positions.realized_pnl" (float_of_dec (ps_realized_pnl position));
  Ok {| pr_id := id; pr_exchange_id := refs.1; pr_symbol_id := refs.2; pr_mode := ps_mode position;
        pr_side := position_side position; pr_quantity := quantity; pr_entry_price := entry;
        pr_unrealized_pnl := fzero; pr_realized_pnl := realized; pr_status := ps_status position;
        pr_opened_at := opened_at;
        pr_closed_at := if String.eqb (upper (ps_status position)) "CLOSED" then Some (ps_updated_at position)
                        else None |}.

Definition of_key (mode symbol_id : string) (p : position_row) : bool :=
  String.eqb (pr_mode p) mode && String.eqb (pr_symbol_id p) symbol_id.

(** [refs] are the ids of the exchange and the symbol. *)
Definition write_position (u4 : nat -> string) (refs : string * string) (position : PositionState)
  : prog database unit :=
  positions ← gets db_positions;
  match latest (List.filter (of_key (ps_mode position) refs.2) positions) with
  | None =>
      row ← lift (position_values (u4 0%nat) (ps_updated_at position) refs position);
      t ← lift (insert_row "positions.id" (fun p => String.eqb (pr_id p) (u4 0%nat)) row positions);
      modify (set_positions t)
  | Some old =>
      row ← lift (position_values (pr_id old) (pr_opened_at old) refs position);
      modify (set_positions (update_rows (fun p => String.eqb (pr_id p) (pr_id old)) (fun _ => row) positions))
  end.

Definition upsert_position (now u4 : nat -> string) (position : PositionState) : prog database unit :=
  refs ← _ensure_symbol_refs (now 0%nat) (ps_symbol position);
  write_position u4 refs position.

Definition listed_leb (a b : string * position_row) : bool :=
  if String.eqb a.1 b.1 then str_leb (pr_opened_at b.2) (pr_opened_at a.2) else str_leb a.1 b.1.

(** The rows of a mode with their symbols. *)
Definition rows_of_mode (mode : string) (db : database) : list (string * position_row) :=
  omap (fun p => if String.eqb (pr_mode p) mode
                 then (fun s => (yr_symbol s, p)) <$> symbol_of db (pr_symbol_id p) else None)
    (db_positions db).

(** [if symbol in deduped: continue; deduped[symbol] = ...] *)
Definition keep_first (deduped : list (string * PositionState)) (row : string * position_row)
  : list (string * PositionState) :=
  match assoc_get row.1 deduped with
  | Some _ => deduped
  | None => deduped ++ [(row.1, position_of_row row.2 row.1)]
  end.

Definition list_positions (mode : string) (db : database) : list PositionState :=
  snd <$> sort_by (fun a b => str_leb a.1 b.1)
    (foldl keep_first [] (sort_by listed_leb (rows_of_mode mode db))).

(** ** Mark prices and snapshots *)

Definition upsert_mark_price (now_iso mode symbol : string) (mark_price : dec) : prog database unit :=
  price ← lift (not_null "runtime_oms_mark_prices.mark_price" (float_of_dec mark_price));
  let row := {| mr_mode := mode; mr_symbol := symbol; mr_mark_price := price; mr_updated_at := now_iso |} in
  modify (fun db => set_marks
    (upsert_row (fun m => String.eqb (mr_mode m) mode && String.eqb (mr_symbol m) symbol) (fun _ => row) row
       (db_marks db)) db).

Definition load_mark_prices (mode : string) (db : database) : gmap string pynum :=
  foldl (fun d m => if String.eqb (mr_mode m) mode then <[mr_symbol m := PFloat (mr_mark_price m)]> d else d)
    ∅ (db_marks db).

(** The row id SQLite chooses: one more than the largest. *)
Definition next_id (t : list snapshot_row) : Z := foldl (fun m r => Z.max m (sr_id r)) 0 t + 1.

Definition insert_portfolio_snapshot (now_iso : string) (snapshot : PortfolioSnapshot) : prog database unit :=
  total ← lift (not_null "portfolio_snapshots.total_balance_usd" (float_of_dec (sn_total_balance_usd snapshot)));
  available ← lift (not_null "portfolio_snapshots.available_balance_usd"
                      (float_of_dec (sn_available_balance_usd snapshot)));
  locked ← lift (not_null "portfolio_snapshots.locked_balance_usd"
                   (float_of_dec (sn_locked_balance_usd snapshot)));
  unrealized ← lift (not_null "portfolio_snapshots.unrealized_pnl" (float_of_dec (sn_unrealized_pnl snapshot)));
  realized ← lift (not_null "portfolio_snapshots.realized_pnl_total"
                     (float_of_dec (sn_realized_pnl_total snapshot)));
  modify (fun db => set_snapshots
    (db_snapshots db ++
     [{| sr_id := next_id (db_snapshots db); sr_snapshot_time := sn_snapshot_time snapshot;
         sr_mode := sn_mode snapshot; sr_total_balance_usd := total; sr_available_balance_usd := available;
         sr_locked_balance_usd := locked; sr_unrealized_pnl := unrealized; sr_realized_pnl_total := realized;
         sr_created_at := now_iso |}]) db).

(** ** The invariant of the tables *)

Definition position_key (p : position_row) : string * string := (pr_mode p, pr_symbol_id p).
Definition mark_key (m : mark_row) : string * string := (mr_mode m, mr_symbol m).

(** Keys are unique, orders and positions refer to symbols of the runtime
    exchange, and there is one position for each mode and symbol. *)
Record db_ok (db : database) : Prop := {
  ok_symbol_ids : NoDup (yr_id <$> db_symbols db);
  ok_symbol_names : NoDup (yr_symbol <$> db_symbols db);
  ok_symbol_exchange : Forall (fun s => yr_exchange_id s = _runtime_exchange_id) (db_symbols db);
  ok_symbol_normal : Forall (fun s => normal_symbol (yr_symbol s) = yr_symbol s) (db_symbols db);
  ok_order_ids : NoDup (or_id <$> db_orders db);
  ok_order_symbols : Forall (fun o => or_symbol_id o ∈ yr_id <$> db_symbols db) (db_orders db);
  ok_fill_ids : NoDup (fr_id <$> db_fills db);
  ok_position_ids : NoDup (pr_id <$> db_positions db);
  ok_position_keys : NoDup (position_key <$> db_positions db);
  ok_position_symbols : Forall (fun p => pr_symbol_id p ∈ yr_id <$> db_symbols db) (db_positions db);
  ok_event_ids : NoDup (er_event_id <$> db_events db);
  ok_mark_keys : NoDup (mark_key <$> db_marks db) }.

(** The order side and the order type the store knows. *)
Definition sides_bought (db : database) : Prop :=
  Forall (fun o => or_side o = "BUY"%string /\ or_type o = "MARKET"%string) (db_orders db) /\
  Forall (fun f => fr_side f = "BUY"%string) (db_fills db).

Lemma ensure_schema_ok : db_ok _ensure_schema /\ sides_bought _ensure_schema.
Proof. repeat split; constructor. Qed.

(** ** Rows by symbol *)

Definition symbol_id (db : database) (symbol : string) : option string :=
  yr_id <$> row_at yr_symbol symbol (db_symbols db).

Definition position_at (db : database) (mode symbol : string) : option position_row :=
  sid ← symbol_id db symbol; row_at position_key (mode, sid) (db_positions db).

Lemma symbol_of_row db id : symbol_of db id = row_at yr_id id (db_symbols db).
Proof. apply find_ext. intros. apply eqb_decide. Qed.

Lemma find_order_row id db : find_order id db = row_at or_id id (db_orders db).
Proof. apply find_ext. intros. apply eqb_decide. Qed.

Lemma latest_option o : latest (option_list o) = o.
Proof. by destruct o. Qed.

(** The symbol of an id, and the id of a symbol. *)
Lemma symbol_id_of db id s :
  db_ok db -> symbol_of db id = Some s -> symbol_id db (yr_symbol s) = Some id.
Proof.
  intros Hok. rewrite symbol_of_row. intros [Hi <-]%row_at_Some. unfold symbol_id.
  by rewrite (row_at_elem yr_symbol) by (done || apply Hok).
Qed.

Lemma symbol_of_id db symbol id :
  db_ok db -> symbol_id db symbol = Some id -> exists s, symbol_of db id = Some s /\ yr_symbol s = symbol.
Proof.
  intros Hok (s & Hs & ->)%fmap_Some. apply row_at_Some in Hs as [Hi <-]. exists s.
  by rewrite symbol_of_row, (row_at_elem yr_id) by (done || apply Hok).
Qed.

Lemma at_symbol_key db mode symbol p :
  db_ok db -> at_symbol db mode symbol p =
    match symbol_id db symbol with Some sid => bool_decide (position_key p = (mode, sid)) | None => false end.
Proof.
  intros Hok. unfold at_symbol. destruct (symbol_id db symbol) as [sid|] eqn:Es.
  - destruct (symbol_of_id _ _ _ Hok Es) as (s & Hs & Hn).
    destruct (symbol_of db (pr_symbol_id p)) as [s'|] eqn:Ep.
    + rewrite eqb_decide_pair. unfold position_key. apply bool_decide_ext.
      split; intros [= -> E]; f_equal; [|congruence].
      pose proof (symbol_id_of _ _ _ Hok Ep). congruence.
    + rewrite andb_false_r. symmetry. apply bool_decide_false. intros [= _ E]. congruence.
  - destruct (symbol_of db (pr_symbol_id p)) as [s'|] eqn:Ep; [|apply andb_false_r].
    apply andb_false_iff. right. apply String.eqb_neq. intros <-.
    pose proof (symbol_id_of _ _ _ Hok Ep). congruence.
Qed.

Lemma get_position_row db mode symbol :
  db_ok db -> get_position mode symbol db = (fun r => position_of_row r symbol) <$> position_at db mode symbol.
Proof.
  intros Hok. unfold get_position, position_at.
  rewrite (filter_ext_elem _ _ _ (fun r _ => at_symbol_key db mode symbol r Hok)).
  destruct (symbol_id db symbol) as [sid|]; cbn [mbind option_bind].
  - by rewrite filter_key, latest_option by apply Hok.
  - clear Hok. by induction (db_positions db).
Qed.

(** ** Symbols are created on demand *)

(** Nothing but the runtime exchange and one new symbol is added. *)
Record extends_symbols (symbol : string) (db db' : database) : Prop := {
  es_orders : db_orders db' = db_orders db;
  es_fills : db_fills db' = db_fills db;
  es_positions : db_positions db' = db_positions db;
  es_snapshots : db_snapshots db' = db_snapshots db;
  es_events : db_events db' = db_events db;
  es_marks : db_marks db' = db_marks db;
  es_symbols : db_symbols db' = db_symbols db \/
    exists y, db_symbols db' = db_symbols db ++ [y] /\ yr_symbol y = symbol /\
      yr_exchange_id y = _runtime_exchange_id /\ normal_symbol symbol = symbol /\ yr_id y ∉ yr_id <$> db_symbols db /\
      symbol ∉ yr_symbol <$> db_symbols db }.

(** Upper-casing does not touch white space, so a normal symbol is normal. *)
Lemma char_upper_space c : is_space (char_upper c) = is_space c.
Proof. by destruct c as [[] [] [] [] [] [] [] []]. Qed.

Lemma strip_upper s : strip (upper s) = upper (strip s).
Proof.
  unfold strip, strip_with. assert (forall t, lstrip_with is_space (upper t) = upper (lstrip_with is_space t)) as ->.
  { induction t as [|c t IH]; [done|]. change (upper (String c t)) with (String (char_upper c) (upper t)).
    cbn [lstrip_with]. rewrite char_upper_space. by destruct (is_space c). }
  generalize (lstrip_with is_space s). intros t. induction t as [|c t IH]; [done|].
  change (upper (String c t)) with (String (char_upper c) (upper t)). cbn [rstrip_with]. rewrite IH, char_upper_space.
  by destruct (rstrip_with is_space t); [destruct (is_space c)|].
Qed.

Lemma normal_symbol_idemp s : normal_symbol (normal_symbol s) = normal_symbol s.
Proof. unfold normal_symbol. by rewrite strip_upper, strip_idemp, upper_idemp. Qed.

Lemma find_is_symbol symbol db :
  db_ok db -> List.find (is_symbol symbol) (db_symbols db) = row_at yr_symbol symbol (db_symbols db).
Proof.
  intros Hok. apply find_ext. intros s Hs. unfold is_symbol.
  rewrite (proj1 (Forall_forall _ _) (ok_symbol_exchange _ Hok) s Hs), String.eqb_refl. apply eqb_decide.
Qed.

Lemma insert_exchange_frame now db :
  exists t, (insert_exchange now db).1 = set_exchanges t db.
Proof.
  unfold insert_exchange, mbind, prog_bind, lift, modify. destruct (existsb _ _); [by exists (db_exchanges db); destruct db|].
  destruct (insert_row _ _ _ _) as [t|e]; [by exists t|by exists (db_exchanges db); destruct db].
Qed.

Lemma db_ok_exchanges t db : db_ok (set_exchanges t db) <-> db_ok db.
Proof. split; intros []; by split. Qed.

Lemma ensure_symbol_refs_spec now symbol db db' res :
  db_ok db -> _ensure_symbol_refs now symbol db = (db', res) ->
  extends_symbols (normal_symbol symbol) db db' /\
  (forall ex sid, res = Ok (ex, sid) ->
     ex = _runtime_exchange_id /\ symbol_id db' (normal_symbol symbol) = Some sid).
Proof.
  intros Hok. unfold _ensure_symbol_refs. unfold mbind at 1, prog_bind at 1.
  destruct (insert_exchange_frame now db) as [t Ht].
  destruct (insert_exchange now db) as [db1 [[]|e]]; cbn [fst] in Ht; subst db1; cycle 1.
  { intros [= <- <-]. split; [|done]. split; try done. by left. }
  rewrite gets_bind, find_is_symbol by (by apply db_ok_exchanges). cbn [db_symbols set_exchanges].
  destruct (row_at yr_symbol _ _) as [s|] eqn:Es.
  - intros [= <- <-]. split; [split; try done; by left|]. intros ex sid [= <- <-]. split; [done|].
    unfold symbol_id. cbn [db_symbols set_exchanges]. by rewrite Es.
  - rewrite gets_bind, lift_bind. cbn [db_symbols set_exchanges].
    destruct (insert_row _ _ _ _) as [t'|e] eqn:Ei; cycle 1.
    { intros [= <- <-]. split; [|done]. split; try done. by left. }
    apply insert_row_Ok in Ei as [Hid ->]. rewrite modify_bind. intros [= <- <-]. split.
    + split; try done. right. exists (new_symbol now (normal_symbol symbol)). split_and!; try done.
      * apply normal_symbol_idemp.
      * apply (existsb_key yr_id). rewrite <- Hid. clear. induction (db_symbols db) as [|y l IH]; [done|].
        cbn [existsb]. by rewrite IH, eqb_decide.
      * by apply row_at_None.
    + intros ex sid [= <- <-]. split; [done|]. unfold symbol_id. cbn [db_symbols set_exchanges set_symbols].
      by rewrite row_at_app, Es, row_at_cons, bool_decide_true.
Qed.

Lemma extends_symbols_in symbol db db' id :
  extends_symbols symbol db db' -> id ∈ yr_id <$> db_symbols db -> id ∈ yr_id <$> db_symbols db'.
Proof. intros [_ _ _ _ _ _ [->|(y & -> & _)]]; [done|]. rewrite fmap_app, elem_of_app. by left. Qed.

Lemma extends_symbols_ok symbol db db' : extends_symbols symbol db db' -> db_ok db -> db_ok db'.
Proof.
  intros Hx Hok. pose proof (fun id => extends_symbols_in _ _ _ id Hx) as Hin.
  destruct Hx as [Eo Ef Ep _ Ee Em Es]. destruct Hok as [H1 H2 H3 Hnorm H4 H5 H6 H7 H8 H9 H10 H11].
  split; rewrite ?Eo, ?Ef, ?Ep, ?Ee, ?Em; try done.
  1-4: destruct Es as [->|(y & -> & <- & Hy & Hnm & Hid & Hn)]; [done|].
  1-2: rewrite fmap_app, NoDup_app; split_and!; [done|by intros x Hx ->%list_elem_of_singleton|apply NoDup_singleton].
  1-2: by apply Forall_app_2; [|constructor].
  all: eapply Forall_impl; [done|]; intros x; apply Hin.
Qed.

(** A new symbol has no position yet. *)
Lemma extends_symbols_position symbol db db' mode x :
  db_ok db -> extends_symbols symbol db db' -> position_at db' mode x = position_at db mode x.
Proof.
  intros Hok [_ _ Ep _ _ _ Es]. unfold position_at, symbol_id. rewrite Ep.
  destruct Es as [->|(y & -> & Hy & _ & _ & Hid & Hn)]; [done|]. rewrite row_at_app.
  destruct (row_at yr_symbol x (db_symbols db)); [done|]. rewrite row_at_cons.
  case_bool_decide; [|done]. cbn [fmap option_fmap option_map mbind option_bind].
  apply row_at_None. intros (p & E & Hp)%list_elem_of_fmap. apply Hid.
  injection E as _ ->. by apply (proj1 (Forall_forall _ _) (ok_position_symbols _ Hok)).
Qed.

(** ** Positions are read back as they were stored *)

(** An amount that went through a REAL column. *)
Definition stored_amount (d : dec) : dec := dec_of_repr (float_of_dec d).

Definition stored_position (updated_at : string) (p : PositionState) : PositionState :=
  {| ps_mode := ps_mode p; ps_symbol := normal_symbol (ps_symbol p);
     ps_quantity := stored_amount (ps_quantity p);
     ps_average_entry_price := stored_amount (ps_average_entry_price p);
     ps_realized_pnl := stored_amount (ps_realized_pnl p); ps_status := ps_status p;
     ps_updated_at := updated_at |}.

Lemma position_values_Ok id opened refs p row :
  position_values id opened refs p = Ok row ->
  pr_id row = id /\ position_key row = (ps_mode p, refs.2) /\
  position_of_row row (normal_symbol (ps_symbol p)) =
    stored_position (if String.eqb (upper (ps_status p)) "CLOSED" then ps_updated_at p else opened) p.
Proof.
  unfold position_values. intros (q & Hq%not_null_Ok & H)%bind_Ok. apply bind_Ok in H as (e & He%not_null_Ok & H).
  apply bind_Ok in H as (r & Hr%not_null_Ok & H). injection H as <-. subst.
  split_and!; [done|done|]. unfold position_of_row, stored_position. cbn. by destruct (String.eqb _ _).
Qed.

Lemma update_rows_one t old row :
  NoDup (pr_id <$> t) -> old ∈ t ->
  exists t1 t2, t = t1 ++ old :: t2 /\
    update_rows (fun p => String.eqb (pr_id p) (pr_id old)) (fun _ => row) t = t1 ++ row :: t2.
Proof.
  intros Hn (t1 & t2 & ->)%list_elem_of_split. exists t1, t2. split; [done|].
  rewrite fmap_app, fmap_cons, NoDup_app in Hn. destruct Hn as (_ & H1 & [H2 _]%NoDup_cons).
  assert (forall t, pr_id old ∉ pr_id <$> t ->
    update_rows (fun p => String.eqb (pr_id p) (pr_id old)) (fun _ => row) t = t) as Hid.
  { induction t as [|r t IH]; [done|]. rewrite fmap_cons, not_elem_of_cons. intros [Hr Ht]. unfold update_rows.
    rewrite fmap_cons. rewrite (proj2 (String.eqb_neq _ _)) by congruence. f_equal. by apply IH. }
  unfold update_rows in *. rewrite fmap_app, fmap_cons, String.eqb_refl, (Hid t2) by done. rewrite Hid; [done|].
  intros Ho. by apply (H1 _ Ho); left.
Qed.

Lemma symbol_id_inj db x y sid : db_ok db -> symbol_id db x = Some sid -> symbol_id db y = Some sid -> x = y.
Proof.
  intros Hok (s & Hs & <-)%symbol_of_id (s' & Hs' & <-)%symbol_of_id; [congruence|done|done].
Qed.

(** Writing the row of a key. *)
Lemma position_at_write db t sid mode x row :
  db_ok db -> symbol_id db x = Some sid -> position_key row = (mode, sid) ->
  (forall k, row_at position_key k t =
     if bool_decide (k = (mode, sid)) then Some row else row_at position_key k (db_positions db)) ->
  position_at (set_positions t db) mode x = Some row /\
  (forall m y, (m, y) <> (mode, x) -> position_at (set_positions t db) m y = position_at db m y).
Proof.
  intros Hok Hs Hk Ht. unfold position_at. change (symbol_id (set_positions t db)) with (symbol_id db).
  cbn [db_positions set_positions]. rewrite Hs. cbn [mbind option_bind]. rewrite Ht, bool_decide_true by done. split; [done|].
  intros m y Hne. destruct (symbol_id db y) as [sid'|] eqn:Ey; [|done]. cbn [mbind option_bind].
  rewrite Ht, bool_decide_false; [done|]. intros [= -> ->]. apply Hne. f_equal. by eapply symbol_id_inj.
Qed.

Definition same_but_positions (db db' : database) : Prop :=
  db_orders db' = db_orders db /\ db_fills db' = db_fills db /\ db_snapshots db' = db_snapshots db /\
  db_events db' = db_events db /\ db_marks db' = db_marks db.

Lemma set_positions_ok t db :
  db_ok db -> NoDup (pr_id <$> t) -> NoDup (position_key <$> t) ->
  Forall (fun p => pr_symbol_id p ∈ yr_id <$> db_symbols db) t -> db_ok (set_positions t db).
Proof. intros []; by split. Qed.

Lemma of_key_filter mode sid t : NoDup (position_key <$> t) ->
  latest (List.filter (of_key mode sid) t) = row_at position_key (mode, sid) t.
Proof.
  intros Hn. rewrite <- (latest_option (row_at _ _ t)), <- filter_key by done. f_equal.
  apply filter_ext_elem. intros p _. apply eqb_decide_pair.
Qed.

Lemma symbol_id_elem db x sid : symbol_id db x = Some sid -> sid ∈ yr_id <$> db_symbols db.
Proof. intros (s & [Hs _]%row_at_Some & ->)%fmap_Some. by apply list_elem_of_fmap_2. Qed.

(** [db'] is [db] with [row] as the position of a mode and a symbol. *)
Definition wrote (db : database) (mode x : string) (row : position_row) (db' : database) : Prop :=
  db_ok db' /\ same_but_positions db db' /\ position_at db' mode x = Some row /\
  (forall m y, (m, y) <> (mode, x) -> position_at db' m y = position_at db m y).

Section write.
Context (db : database) (sid x mode : string) (row : position_row).
Hypotheses (Hok : db_ok db) (Hs : symbol_id db x = Some sid) (Hkey : position_key row = (mode, sid)).
#[local] Set Default Proof Using "All".

Lemma row_symbol : pr_symbol_id row ∈ yr_id <$> db_symbols db.
Proof. injection Hkey as _ ->. by eapply symbol_id_elem. Qed.

Lemma replace_position old :
  row_at position_key (mode, sid) (db_positions db) = Some old -> pr_id row = pr_id old ->
  wrote db mode x row
    (set_positions (update_rows (fun r => String.eqb (pr_id r) (pr_id old)) (fun _ => row) (db_positions db)) db).
Proof.
  intros [Hin Hold]%row_at_Some Hid.
  destruct (update_rows_one _ old row (ok_position_ids _ Hok) Hin) as (t1 & t2 & Et & ->).
  assert (position_key row = position_key old) as Hkk by congruence.
  pose proof (ok_position_ids _ Hok) as N1. pose proof (ok_position_keys _ Hok) as N2.
  pose proof (ok_position_symbols _ Hok) as F. rewrite Et in N1, N2, F.
  split; [|split; [by split_and!|]].
  - apply set_positions_ok; [done| | |].
    + by rewrite fmap_app, fmap_cons, Hid, <- fmap_cons, <- fmap_app.
    + by rewrite fmap_app, fmap_cons, Hkk, <- fmap_cons, <- fmap_app.
    + apply Forall_app in F as [F1 [_ F2]%Forall_cons]. apply Forall_app_2; [done|]. constructor; [apply row_symbol|done].
  - apply (position_at_write db _ sid); try done. intros k. rewrite Et, !row_at_app, !row_at_cons, Hkk, Hold.
    rewrite fmap_app, fmap_cons, NoDup_app in N2. destruct N2 as (_ & N2 & _).
    rewrite (bool_decide_ext (k = _) ((mode, sid) = k)) by done. case_bool_decide as Ek; [|done]. subst k.
    assert (row_at position_key (mode, sid) t1 = None) as ->; [|done].
    apply row_at_None. rewrite <- Hold. intros Hi. by apply (N2 _ Hi); left.
Qed.

Lemma add_position :
  row_at position_key (mode, sid) (db_positions db) = None ->
  existsb (fun r => String.eqb (pr_id r) (pr_id row)) (db_positions db) = false ->
  wrote db mode x row (set_positions (db_positions db ++ [row]) db).
Proof.
  intros Ho Hnew. split; [|split; [by split_and!|]].
  - apply set_positions_ok; [done| | |apply Forall_app_2; [apply Hok|constructor; [apply row_symbol|done]]];
      (rewrite fmap_app; apply NoDup_app; split_and!; [apply Hok| |apply NoDup_singleton]);
      intros i Hi ->%list_elem_of_singleton; revert Hi.
    + apply (existsb_key pr_id). rewrite <- Hnew. clear. induction (db_positions db) as [|y l IH]; [done|].
      cbn [existsb]. by rewrite IH, eqb_decide.
    + rewrite Hkey. by apply row_at_None.
  - apply (position_at_write db _ sid); try done. intros k. rewrite row_at_app, row_at_cons, Hkey.
    rewrite (bool_decide_ext (k = _) ((mode, sid) = k)) by done.
    case_bool_decide as Ek; [subst k; by rewrite Ho|]. by destruct (row_at _ k _).
Qed.
End write.

(** The opening time a position is stored with: that of the row it replaces. *)
Definition opening (db : database) (p : PositionState) (x : string) : string :=
  match position_at db (ps_mode p) x with Some old => pr_opened_at old | None => ps_updated_at p end.

Lemma write_position_spec u4 sid x p db db' res :
  db_ok db -> symbol_id db x = Some sid -> write_position u4 (_runtime_exchange_id, sid) p db = (db', res) ->
  match res with
  | Raise _ => db' = db
  | Ok _ => exists id row, position_values id (opening db p x) (_runtime_exchange_id, sid) p = Ok row /\
              wrote db (ps_mode p) x row db'
  end.
Proof.
  intros Hok Hs. unfold write_position, opening, position_at. rewrite gets_bind, Hs. cbn [snd mbind option_bind].
  rewrite of_key_filter by apply Hok.
  destruct (row_at position_key _ _) as [old|] eqn:Eo; rewrite lift_bind;
    (destruct (position_values _ _ _ _) as [row|e] eqn:Ev; [|by intros [= <- <-]]);
    destruct (position_values_Ok _ _ _ _ _ Ev) as (Hid & Hkey & _).
  - intros [= <- <-]. eexists _, row. split; [exact Ev|]. by apply (replace_position db sid).
  - rewrite lift_bind. destruct (insert_row _ _ _ _) as [t|e] eqn:Ei; [|by intros [= <- <-]].
    apply insert_row_Ok in Ei as [Hnew ->]. intros [= <- <-]. eexists _, row. split; [exact Ev|].
    apply (add_position db sid); try done. by rewrite Hid.
Qed.

(** The time a stored position is read with: when it was closed, or else when the
    row of its mode and symbol was opened first. *)
Definition stored_time (db : database) (p : PositionState) : string :=
  if String.eqb (upper (ps_status p)) "CLOSED" then ps_updated_at p else opening db p (normal_symbol (ps_symbol p)).

(** Storing a position changes what is read for its mode and symbol and nothing
    else; one that could not be stored leaves every position as it was. *)
Lemma upsert_position_spec now u4 p db db' res :
  db_ok db -> upsert_position now u4 p db = (db', res) ->
  db_ok db' /\ same_but_positions db db' /\
  (forall e, res = Raise e -> forall m y, get_position m y db' = get_position m y db) /\
  (res = Ok tt -> get_position (ps_mode p) (normal_symbol (ps_symbol p)) db' = Some (stored_position (stored_time db p) p) /\
     forall m y, (m, y) <> (ps_mode p, normal_symbol (ps_symbol p)) -> get_position m y db' = get_position m y db).
Proof.
  intros Hok. unfold upsert_position. unfold mbind, prog_bind.
  destruct (_ensure_symbol_refs _ _ db) as [db1 res1] eqn:Er.
  destruct (ensure_symbol_refs_spec _ _ _ _ _ Hok Er) as [Hx Hrefs].
  pose proof (extends_symbols_ok _ _ _ Hx Hok) as Hok1.
  pose proof (fun m y => extends_symbols_position _ _ _ m y Hok Hx) as Hp.
  assert (same_but_positions db db1) as Hs1 by (by destruct Hx; split_and!).
  destruct res1 as [[ex sid]|e]; cycle 1.
  { intros [= <- <-]. split_and!; try done. intros _ _ m y. by rewrite !get_position_row, Hp. }
  destruct (Hrefs ex sid) as [-> Hsid]; [done|]. intros Hw.
  pose proof (write_position_spec _ _ _ _ _ _ _ Hok1 Hsid Hw) as Hr. destruct res as [[]|e]; cycle 1.
  { subst db'. split_and!; try done. intros _ _ m y. by rewrite !get_position_row, Hp. }
  destruct Hr as (id' & row & (_ & _ & Hrow)%position_values_Ok & Hok' & (E1 & E2 & E3 & E4 & E5) & Hat & Hne).
  destruct Hs1 as (F1 & F2 & F3 & F4 & F5). split; [done|]. split; [split_and!; congruence|]. split; [done|].
  intros _. split.
  - rewrite get_position_row, Hat by done. cbn [fmap option_fmap option_map]. rewrite Hrow.
    unfold stored_time, opening. by rewrite Hp.
  - intros m y Hy. by rewrite !get_position_row, Hne, Hp by done.
Qed.

(** ** Orders are read back as they were stored *)

Lemma coerce_uuid_fresh u u' id : strip id <> ""%string -> _coerce_uuid u id = _coerce_uuid u' id.
Proof. unfold _coerce_uuid. by destruct (strip id). Qed.

(** The key of an order whose id is not blank. *)
Definition order_uuid (id : string) : string := _coerce_uuid "" id.

Definition stored_average (a : option dec) : option dec := d ← a; dec_of_repr <$> real (float_of_dec d).

Definition stored_order (o : ReconciliationOrder) : ReconciliationOrder :=
  {| ro_order_id := order_uuid (ro_order_id o); ro_symbol := normal_symbol (ro_symbol o); ro_mode := ro_mode o;
     ro_requested_quantity := stored_amount (ro_requested_quantity o); ro_status := ro_status o;
     ro_filled_quantity := stored_amount (ro_filled_quantity o);
     ro_average_price := stored_average (ro_average_price o) |}.

Lemma order_values_Ok u4 now_iso o refs existing row :
  order_values u4 now_iso o refs existing = Ok row ->
  or_id row = _coerce_uuid (u4 1%nat) (ro_order_id o) /\ or_symbol_id row = refs.2 /\
  or_side row = match existing with Some e => or_side e | None => "BUY"%string end /\
  or_type row = match existing with Some e => or_type e | None => "MARKET"%string end /\
  forall old, or_id old = order_uuid (ro_order_id o) ->
    order_of_row (merge_order row old) (normal_symbol (ro_symbol o)) = stored_order o.
Proof.
  unfold order_values. intros (q & Hq%not_null_Ok & H)%bind_Ok. apply bind_Ok in H as (f & Hf%not_null_Ok & H).
  injection H as <-. subst. split_and!; try done. intros old Hold. unfold order_of_row, stored_order. cbn. rewrite Hold.
  f_equal. by destruct (ro_average_price o).
Qed.

Lemma extends_symbols_of symbol db db' id :
  db_ok db -> extends_symbols symbol db db' -> id ∈ yr_id <$> db_symbols db -> symbol_of db' id = symbol_of db id.
Proof.
  intros Hok [_ _ _ _ _ _ Es] Hid. rewrite !symbol_of_row. destruct Es as [->|(y & -> & _ & _ & _ & Hy & _)]; [done|].
  rewrite row_at_app. destruct (row_at yr_id id _) eqn:E; [done|]. by apply row_at_None in E.
Qed.

Lemma get_order_row u4 id db : strip id <> ""%string ->
  get_order u4 id db = row ← row_at or_id (order_uuid id) (db_orders db);
                       s ← symbol_of db (or_symbol_id row); Some (order_of_row row (yr_symbol s)).
Proof. intros Hid. unfold get_order. by rewrite find_order_row, (coerce_uuid_fresh _ "" id). Qed.

Lemma extends_symbols_get_order symbol db db' u4 id :
  db_ok db -> extends_symbols symbol db db' -> strip id <> ""%string -> get_order u4 id db' = get_order u4 id db.
Proof.
  intros Hok Hx Hid. rewrite !get_order_row, (es_orders _ _ _ Hx) by done.
  destruct (row_at or_id _ _) as [row|] eqn:Er; [|done]. cbn [mbind option_bind].
  rewrite (extends_symbols_of _ _ _ _ Hok Hx); [done|]. apply row_at_Some in Er as [Hr _].
  by apply (proj1 (Forall_forall _ _) (ok_order_symbols _ Hok)).
Qed.

Lemma set_orders_ok t db :
  db_ok db -> NoDup (or_id <$> t) -> Forall (fun o => or_symbol_id o ∈ yr_id <$> db_symbols db) t ->
  db_ok (set_orders t db).
Proof. intros []; by split. Qed.

Definition same_but_orders (db db' : database) : Prop :=
  db_fills db' = db_fills db /\ db_positions db' = db_positions db /\ db_snapshots db' = db_snapshots db /\
  db_events db' = db_events db /\ db_marks db' = db_marks db /\
  forall m y, position_at db' m y = position_at db m y.

Definition put_order (row : order_row) (db : database) : database :=
  set_orders (upsert_row (fun o => String.eqb (or_id o) (or_id row)) (merge_order row) row (db_orders db)) db.

Lemma put_order_eq row o db u :
  db_ok db -> strip (ro_order_id o) <> ""%string -> or_id row = order_uuid (ro_order_id o) ->
  symbol_id db (normal_symbol (ro_symbol o)) = Some (or_symbol_id row) ->
  (forall old, or_id old = order_uuid (ro_order_id o) ->
     order_of_row (merge_order row old) (normal_symbol (ro_symbol o)) = stored_order o) ->
  get_order u (ro_order_id o) (put_order row db) = Some (stored_order o).
Proof.
  intros Hok Hne Hid Hsid Hread. rewrite get_order_row by done. cbn [db_orders put_order set_orders].
  rewrite <- Hid, (row_at_upsert_eq or_id); [|intros; apply eqb_decide|done]. cbn [mbind option_bind].
  destruct (symbol_of_id _ _ _ Hok Hsid) as (s & Hs & Hn).
  change (symbol_of (put_order row db)) with (symbol_of db).
  destruct (row_at or_id (or_id row) (db_orders db)) as [old|] eqn:Eo; cbn [or_symbol_id merge_order];
    rewrite Hs; cbn [mbind option_bind]; rewrite Hn; f_equal; [|by rewrite <- (Hread row)].
  apply Hread. by apply row_at_Some in Eo as [_ ->].
Qed.

Lemma put_order_ne row u id db :
  strip id <> ""%string -> order_uuid id <> or_id row -> get_order u id (put_order row db) = get_order u id db.
Proof.
  intros Hid Hne. rewrite !get_order_row by done. cbn [db_orders put_order set_orders].
  by rewrite (row_at_upsert_ne or_id) by (done || intros; apply eqb_decide).
Qed.

Lemma put_order_ok row db :
  db_ok db -> or_symbol_id row ∈ yr_id <$> db_symbols db -> db_ok (put_order row db).
Proof.
  intros Hok Hs. apply set_orders_ok; [done|apply (upsert_NoDup or_id); [intros; apply eqb_decide|done|apply Hok]|].
  apply Forall_upsert; [apply Hok|done|]. by intros.
Qed.

(** Storing an order changes what is read for its id and nothing else. *)
Lemma upsert_order_spec now u4 o db db' res :
  db_ok db -> strip (ro_order_id o) <> ""%string -> upsert_order now u4 o db = (db', res) ->
  db_ok db' /\ (sides_bought db -> sides_bought db') /\ same_but_orders db db' /\
  (res = Ok tt -> forall u, get_order u (ro_order_id o) db' = Some (stored_order o)) /\
  (forall u id, strip id <> ""%string -> order_uuid id <> order_uuid (ro_order_id o) \/ (exists e, res = Raise e) ->
     get_order u id db' = get_order u id db).
Proof.
  intros Hok Hne. unfold upsert_order. unfold mbind at 1, prog_bind at 1.
  destruct (_ensure_symbol_refs _ _ db) as [db1 res1] eqn:Er.
  destruct (ensure_symbol_refs_spec _ _ _ _ _ Hok Er) as [Hx Hrefs].
  pose proof (extends_symbols_ok _ _ _ Hx Hok) as Hok1.
  pose proof (fun m y => extends_symbols_position _ _ _ m y Hok Hx) as Hp.
  pose proof (fun u id => extends_symbols_get_order _ _ _ u id Hok Hx) as Hg.
  assert (same_but_orders db db1) as Hs1 by (by destruct Hx; split_and!).
  assert (sides_bought db -> sides_bought db1) as Hb1.
  { destruct Hx as [Eo Ef _ _ _ _ _]. unfold sides_bought. by rewrite Eo, Ef. }
  destruct res1 as [[ex sid]|e]; [|by intros [= <- <-]; split_and!; auto].
  destruct (Hrefs ex sid) as [-> Hsid]; [done|]. clear Er Hrefs. rewrite gets_bind, lift_bind.
  destruct (order_values _ _ _ _ _) as [row|e] eqn:Ev; [|by intros [= <- <-]; split_and!; auto].
  apply order_values_Ok in Ev as (Hid & Hsy & Hside & Htype & Hread). cbn [snd] in Hsy.
  rewrite (coerce_uuid_fresh _ "" _ Hne) in Hid. fold (order_uuid (ro_order_id o)) in Hid.
  rewrite find_order_row, (coerce_uuid_fresh _ "" _ Hne) in Hside, Htype. fold (order_uuid (ro_order_id o)) in Hside, Htype.
  intros [= <- <-]. fold (put_order row db1). split_and!.
  - apply put_order_ok; [done|]. rewrite Hsy. by eapply symbol_id_elem.
  - intros [B1 B2]%Hb1. split; [|done].
    assert (or_side row = "BUY"%string /\ or_type row = "MARKET"%string) as [S1 S2].
    { rewrite Hside, Htype. destruct (row_at or_id _ _) as [e|] eqn:Ee; [|done].
      apply row_at_Some in Ee as [Ee _]. by apply (proj1 (Forall_forall _ _) B1). }
    by apply Forall_upsert.
  - by destruct Hs1.
  - intros _ u. apply put_order_eq; try done. by rewrite Hsy.
  - intros u id Hidne [Hdiff|[e [=]]]. rewrite <- Hg by done. apply put_order_ne; [done|by rewrite Hid].
Qed.

(** ** Events are read back in the order they were appended *)

Definition stored_fill (order_id : string) (f : ReconciliationFill) : ReconciliationFill :=
  {| rf_fill_id := rf_fill_id f; rf_order_id := order_uuid order_id;
     rf_quantity := column_amount (real (float_of_dec (rf_quantity f)));
     rf_price := column_amount (real (float_of_dec (rf_price f)));
     rf_fee := column_amount (real (float_of_dec (rf_fee f)));
     rf_source := str_or (rf_source f) "runtime_worker" |}.

Definition stored_event (order_id : string) (ev : LifecycleEvent) : LifecycleEvent :=
  {| le_event_type := le_event_type ev; le_status := le_status ev;
     le_fill := stored_fill order_id <$> le_fill ev |}.

(** No event was stored after the clock reading [now_iso], and those of the same
    time have smaller ids. *)
Definition clock_later (now_iso event_id : string) (db : database) : Prop :=
  Forall (fun e => strs_leb [er_created_at e; er_event_id e] [now_iso; event_id] = true) (db_events db).

Lemma load_events_rows u4 order_id db : strip order_id <> ""%string ->
  load_lifecycle_events u4 order_id db =
    event_of_row (order_uuid order_id) <$>
      sort_by event_leb (List.filter (fun e => String.eqb (er_order_id e) (order_uuid order_id)) (db_events db)).
Proof.
  intros Hid. unfold load_lifecycle_events, order_uuid. rewrite (coerce_uuid_fresh (u4 0%nat) "") by done.
  generalize (sort_by event_leb (List.filter (fun e => String.eqb (er_order_id e) (_coerce_uuid "" order_id)) (db_events db))).
  intros l. transitivity (imap (fun _ => event_of_row (_coerce_uuid "" order_id)) l).
  - apply imap_ext. intros i e _. by rewrite (coerce_uuid_fresh (u4 (S i)) "").
  - induction l as [|e l IH]; [done|]. cbn [imap]. rewrite fmap_cons. f_equal. exact IH.
Qed.

Lemma event_values_read u4 now_iso order_id ev :
  strip order_id <> ""%string ->
  event_of_row (order_uuid order_id) (event_values u4 now_iso order_id ev) = stored_event order_id ev.
Proof. intros Hid. by destruct ev as [et st [f|]]. Qed.

Lemma set_events_ok t db : db_ok db -> NoDup (er_event_id <$> t) -> db_ok (set_events t db).
Proof. intros []; by split. Qed.
Lemma set_fills_ok t db : db_ok db -> NoDup (fr_id <$> t) -> db_ok (set_fills t db).
Proof. intros []; by split. Qed.

Definition same_but_events (db db' : database) : Prop :=
  db_symbols db' = db_symbols db /\ db_orders db' = db_orders db /\ db_positions db' = db_positions db /\
  db_snapshots db' = db_snapshots db /\ db_marks db' = db_marks db.

(** The row of a fill is written for the order the store knows by then. *)
Lemma fill_step_spec now_iso u4 order_id fill db db' res :
  db_ok db -> (row ← lift (fill_values u4 now_iso order_id (find_order (_coerce_uuid (u4 2%nat) order_id) db) fill);
   modify (fun db => set_fills (upsert_row (fun f => String.eqb (fr_id f) (fr_id row)) (merge_fill row) row
                                  (db_fills db)) db)) db = (db', res) ->
  db_ok db' /\ (sides_bought db -> sides_bought db') /\ same_but_events db db' /\ db_events db' = db_events db.
Proof.
  intros Hok. rewrite lift_bind. destruct (fill_values _ _ _ _ _) as [row|e] eqn:Ev; [|by intros [= <- <-]].
  intros [= <- <-]. split_and!; try done.
  - apply set_fills_ok; [done|]. apply (upsert_NoDup fr_id); [intros; apply eqb_decide|done|apply Hok].
  - intros [B1 B2]. split; [done|]. assert (fr_side row = "BUY"%string) as Hside.
    { unfold fill_values in Ev. apply bind_Ok in Ev as (q & _ & Ev). apply bind_Ok in Ev as (p & _ & Ev).
      apply bind_Ok in Ev as (f & _ & Ev). injection Ev as <-. cbn [fr_side]. rewrite find_order_row.
      destruct (row_at or_id _ _) as [o|] eqn:Eo; [|done]. apply row_at_Some in Eo as [Eo _].
      by apply (proj1 (Forall_forall _ _) B1). }
    by apply Forall_upsert.
Qed.

Lemma append_event_spec now_iso u4 order_id ev db db' res :
  db_ok db -> strip order_id <> ""%string -> append_lifecycle_event now_iso u4 order_id ev db = (db', res) ->
  db_ok db' /\ (sides_bought db -> sides_bought db') /\ same_but_events db db' /\
  (res = Ok tt -> db_events db' = db_events db ++ [event_values u4 now_iso order_id ev]) /\
  (res = Ok tt -> clock_later now_iso (u4 0%nat) db -> forall u,
     load_lifecycle_events u order_id db' = load_lifecycle_events u order_id db ++ [stored_event order_id ev]).
Proof.
  intros Hok Hid. unfold append_lifecycle_event. rewrite gets_bind, lift_bind.
  destruct (insert_row _ _ _ _) as [t|e] eqn:Ei; [|by intros [= <- <-]].
  apply insert_row_Ok in Ei as [Hnew ->]. rewrite modify_bind.
  set (row := event_values u4 now_iso order_id ev) in *. set (db1 := set_events _ db).
  assert (db_ok db1) as Hok1.
  { apply set_events_ok; [done|]. rewrite fmap_app. apply NoDup_app. split_and!; [apply Hok| |apply NoDup_singleton].
    intros i Hi ->%list_elem_of_singleton. revert Hi. apply (existsb_key er_event_id). rewrite <- Hnew. clear.
    induction (db_events db) as [|y l IH]; [done|]. cbn [existsb]. by rewrite IH, eqb_decide. }
  intros H. assert (db_ok db' /\ (sides_bought db1 -> sides_bought db') /\ same_but_events db1 db' /\
    db_events db' = db_events db1) as (Hok' & Hb & Hs & He).
  { destruct (le_fill ev) as [f|]; [rewrite gets_bind in H; exact (fill_step_spec _ _ _ _ _ _ _ Hok1 H)|]. by injection H as <- <-. }
  split_and!; [done|done|done| |].
  - intros _. by rewrite He.
  - intros _ Hlater u. rewrite !load_events_rows, He by done. cbn [db1 db_events set_events].
    assert (List.filter (fun e => String.eqb (er_order_id e) (order_uuid order_id)) (db_events db ++ [row]) =
      List.filter (fun e => String.eqb (er_order_id e) (order_uuid order_id)) (db_events db) ++ [row]) as ->.
    { rewrite List.filter_app. f_equal. cbn [List.filter row er_order_id event_values].
      by rewrite (coerce_uuid_fresh _ "" _ Hid), String.eqb_refl. }
    rewrite sort_by_snoc, fmap_app. { rewrite <- (event_values_read u4 now_iso) by done. done. }
    apply Forall_forall. intros e [He' _]%list_elem_of_In%List.filter_In. apply list_elem_of_In in He'.
    by apply (proj1 (Forall_forall _ _) Hlater) in He'.
Qed.

(** ** The positions of a mode *)

Lemma position_symbol db p : db_ok db -> p ∈ db_positions db ->
  exists s, symbol_of db (pr_symbol_id p) = Some s /\ position_at db (pr_mode p) (yr_symbol s) = Some p.
Proof.
  intros Hok Hp. pose proof (proj1 (Forall_forall _ _) (ok_position_symbols _ Hok) p Hp) as Hs.
  destruct (symbol_of db (pr_symbol_id p)) as [s|] eqn:Es.
  - exists s. split; [done|]. unfold position_at. rewrite (symbol_id_of _ _ _ Hok Es).
    apply (row_at_elem position_key _ p); [apply Hok|done].
  - rewrite symbol_of_row, row_at_None in Es. done.
Qed.

Lemma rows_of_mode_elem db mode x row :
  db_ok db -> (x, row) ∈ rows_of_mode mode db <-> position_at db mode x = Some row.
Proof.
  intros Hok. unfold rows_of_mode. rewrite list_elem_of_omap. split.
  - intros (p & Hp & H). destruct (String.eqb_spec (pr_mode p) mode) as [<-|]; [|done].
    destruct (position_symbol db p Hok Hp) as (s & Hs & Hat). rewrite Hs in H. cbn in H. by injection H as <- <-.
  - intros H. pose proof H as Hat. unfold position_at in H. destruct (symbol_id db x) as [sid|] eqn:Es; [|done].
    cbn [mbind option_bind] in H. apply row_at_Some in H as [Hin Hk]. injection Hk as Hm Hsid.
    exists row. split; [done|]. rewrite Hm, String.eqb_refl.
    destruct (symbol_of_id _ _ _ Hok Es) as (s & Hs & <-). rewrite Hsid, Hs. done.
Qed.

Lemma rows_of_mode_NoDup db mode : db_ok db -> NoDup (rows_of_mode mode db).*1.
Proof.
  intros Hok. assert (forall t, NoDup (position_key <$> t) -> (forall p, p ∈ t -> p ∈ db_positions db) ->
    NoDup (omap (fun p => if String.eqb (pr_mode p) mode
      then (fun s => (yr_symbol s, p)) <$> symbol_of db (pr_symbol_id p) else None) t).*1) as H;
    [|by apply H; [apply Hok|]].
  induction t as [|p t IH]; intros Hn Hin; [constructor|]. apply NoDup_cons in Hn as [Hp Hn].
  assert (forall q, q ∈ t -> q ∈ db_positions db) as Hin' by (intros q Hq; apply Hin; by right).
  specialize (IH Hn Hin'). cbn [omap list_omap]. destruct (String.eqb_spec (pr_mode p) mode) as [Hm|]; [|done].
  destruct (symbol_of db (pr_symbol_id p)) as [s|] eqn:Es; [|done]. cbn [fmap option_fmap option_map].
  rewrite fmap_cons. constructor; [|done]. intros ([x q] & Hx & Hq)%list_elem_of_fmap. cbn in Hx. subst x.
  apply list_elem_of_omap in Hq as (q' & Hq' & H). destruct (String.eqb_spec (pr_mode q') mode) as [Hm'|]; [|done].
  destruct (symbol_of db (pr_symbol_id q')) as [s'|] eqn:Es'; [|done]. cbn in H. injection H as Hname <-.
  apply Hp. apply list_elem_of_fmap. exists q'. split; [|done]. unfold position_key. rewrite Hm, Hm'. f_equal.
  apply symbol_id_of in Es, Es'; [congruence|done|done].
Qed.

Lemma keep_first_distinct rows acc :
  NoDup rows.*1 -> (forall x, x ∈ rows.*1 -> x ∉ acc.*1) ->
  foldl keep_first acc rows = acc ++ ((fun r => (r.1, position_of_row r.2 r.1)) <$> rows).
Proof.
  revert acc. induction rows as [|r rows IH]; intros acc Hn Hd; [by rewrite app_nil_r|].
  rewrite fmap_cons in Hn. apply NoDup_cons in Hn as [Hr Hn]. cbn [foldl]. unfold keep_first at 2.
  assert (assoc_get r.1 acc = None) as -> by (apply assoc_get_None, Hd; left). rewrite IH; [|done|].
  - by rewrite fmap_cons, <- app_assoc.
  - intros x Hx. rewrite fmap_app, elem_of_app. intros [Ha|Ha]; [|by apply list_elem_of_singleton in Ha as ->].
    by apply (Hd x); [right|].
Qed.

(** The positions listed for a mode are those that can be read one by one. *)
Lemma list_positions_elem db mode p :
  db_ok db -> p ∈ list_positions mode db <-> exists x, get_position mode x db = Some p.
Proof.
  intros Hok. unfold list_positions. rewrite keep_first_distinct, app_nil_l.
  2: { rewrite sort_by_perm. by apply rows_of_mode_NoDup. }
  2: { intros x _. apply not_elem_of_nil. }
  rewrite sort_by_perm, list_elem_of_fmap. split.
  - intros ([x q] & -> & Hq). apply list_elem_of_fmap in Hq as ([y row] & [= -> ->] & Hr). exists y. cbn [snd fst] in *.
    rewrite sort_by_perm in Hr. apply rows_of_mode_elem in Hr; [|done]. by rewrite get_position_row, Hr.
  - intros (x & Hx). rewrite get_position_row in Hx by done. apply fmap_Some in Hx as (row & Hr & ->).
    exists (x, position_of_row row x). split; [done|]. apply list_elem_of_fmap. exists (x, row). split; [done|].
    rewrite sort_by_perm. by apply rows_of_mode_elem.
Qed.

(** ** Mark prices *)

Definition mark_at (db : database) (mode symbol : string) : option f64 :=
  mr_mark_price <$> row_at mark_key (mode, symbol) (db_marks db).

Lemma load_mark_prices_lookup db mode symbol :
  db_ok db -> load_mark_prices mode db !! symbol = PFloat <$> mark_at db mode symbol.
Proof.
  intros Hok. unfold load_mark_prices, mark_at.
  assert (forall t (d : gmap string pynum), NoDup (mark_key <$> t) ->
    foldl (fun d m => if String.eqb (mr_mode m) mode then <[mr_symbol m := PFloat (mr_mark_price m)]> d else d) d t !! symbol =
    match row_at mark_key (mode, symbol) t with Some m => Some (PFloat (mr_mark_price m)) | None => d !! symbol end) as H.
  { induction t as [|m t IH]; intros d Hn; [done|]. rewrite fmap_cons in Hn. apply NoDup_cons in Hn as [Hm Hn].
    cbn [foldl]. rewrite IH, row_at_cons by done. case_bool_decide as Hk.
    - assert (row_at mark_key (mode, symbol) t = None) as -> by (apply row_at_None; by rewrite <- Hk).
      injection Hk as -> ->. by rewrite String.eqb_refl, lookup_insert_eq.
    - destruct (row_at mark_key _ t); [done|]. destruct (String.eqb_spec (mr_mode m) mode); [|done].
      rewrite lookup_insert_ne; [done|]. intros <-. apply Hk. unfold mark_key. congruence. }
  rewrite H by apply Hok. by destruct (row_at mark_key _ _).
Qed.

Lemma set_marks_ok t db : db_ok db -> NoDup (mark_key <$> t) -> db_ok (set_marks t db).
Proof. intros []; by split. Qed.

Lemma upsert_mark_spec now_iso mode symbol price db db' res :
  db_ok db -> upsert_mark_price now_iso mode symbol price db = (db', res) ->
  (exists t, db' = set_marks t db) /\ db_ok db' /\
  match res with
  | Raise _ => db' = db
  | Ok _ => mark_at db' mode symbol = Some (float_of_dec price) /\
            (forall m y, (m, y) <> (mode, symbol) -> mark_at db' m y = mark_at db m y)
  end.
Proof.
  intros Hok. unfold upsert_mark_price. rewrite lift_bind. destruct (not_null _ _) as [x|e] eqn:En.
  2: { intros [= <- <-]. split_and!; [|done|done]. exists (db_marks db). by destruct db. }
  apply not_null_Ok in En as ->. intros [= <- <-]. split; [by eexists|].
  set (row := {| mr_mode := mode; mr_symbol := symbol; mr_mark_price := float_of_dec price; mr_updated_at := now_iso |}).
  assert (forall r, String.eqb (mr_mode r) mode && String.eqb (mr_symbol r) symbol = bool_decide (mark_key r = mark_key row))
    as Hkey by (intros; apply eqb_decide_pair).
  assert (forall r, mark_key r = mark_key row -> mark_key row = mark_key r) as Hm by (by intros).
  split; [apply set_marks_ok; [done|apply (upsert_NoDup mark_key); [done|done|apply Hok]]|].
  unfold mark_at. cbn [db_marks set_marks]. split.
  - rewrite (row_at_upsert_eq mark_key _ _ row Hkey) by done. by destruct (row_at mark_key _ _).
  - intros m y Hne. by rewrite (row_at_upsert_ne mark_key _ _ row) by done.
Qed.

Lemma insert_snapshot_spec now_iso s db db' res :
  insert_portfolio_snapshot now_iso s db = (db', res) -> exists t, db' = set_snapshots t db.
Proof.
  unfold insert_portfolio_snapshot. rewrite !lift_bind.
  repeat (rewrite ?lift_bind; destruct (not_null _ _) as [?|?]; [|intros [= <- <-]; exists (db_snapshots db); by destruct db]).
  intros [= <- <-]. by eexists.
Qed.

(** Only normal symbols have positions. *)
Lemma get_position_normal db mode x p : db_ok db -> get_position mode x db = Some p -> normal_symbol x = x.
Proof.
  intros Hok. rewrite get_position_row by done. unfold position_at. destruct (symbol_id db x) as [sid|] eqn:Es; [|done].
  intros _. apply fmap_Some in Es as (s & [Hs <-]%row_at_Some & _).
  by apply (proj1 (Forall_forall _ _) (ok_symbol_normal _ Hok)).
Qed.

(** Storing a position does not touch the orders. *)
Lemma write_position_frame u4 refs p db : exists t, (write_position u4 refs p db).1 = set_positions t db.
Proof.
  unfold write_position. rewrite gets_bind. destruct (latest _); rewrite lift_bind;
    (destruct (position_values _ _ _ _) as [row|e]; [|by exists (db_positions db); destruct db]);
    [by eexists|]. rewrite lift_bind. destruct (insert_row _ _ _ _); [by eexists|]. by exists (db_positions db); destruct db.
Qed.

Lemma upsert_position_orders now u4 p db db' res u id :
  db_ok db -> strip id <> ""%string -> upsert_position now u4 p db = (db', res) ->
  get_order u id db' = get_order u id db.
Proof.
  intros Hok Hid. unfold upsert_position, mbind, prog_bind. destruct (_ensure_symbol_refs _ _ db) as [db1 res1] eqn:Er.
  destruct (ensure_symbol_refs_spec _ _ _ _ _ Hok Er) as [Hx _].
  pose proof (extends_symbols_get_order _ _ _ u id Hok Hx Hid) as Hg.
  destruct res1 as [refs|e]; [|by intros [= <- <-]]. intros Hw.
  destruct (write_position_frame u4 refs p db1) as [t Ht]. rewrite Hw in Ht. cbn [fst] in Ht. by subst db'.
Qed.

(** ** References between the tables *)

(** Symbols, orders and positions refer to a stored exchange, fills and events to
    a stored order, unless the id of the order is excused. *)
Record references (excused : string -> Prop) (db : database) : Prop := {
  rf_exchanges : Forall (fun x => xr_id x = _runtime_exchange_id) (db_exchanges db);
  rf_symbols : Forall (fun y => yr_exchange_id y ∈ xr_id <$> db_exchanges db) (db_symbols db);
  rf_orders : Forall (fun o => or_exchange_id o ∈ xr_id <$> db_exchanges db) (db_orders db);
  rf_positions : Forall (fun p => pr_exchange_id p ∈ xr_id <$> db_exchanges db) (db_positions db);
  rf_fills : Forall (fun f => fr_order f ∈ or_id <$> db_orders db \/ excused (fr_order f)) (db_fills db);
  rf_events : Forall (fun e => er_order_id e ∈ or_id <$> db_orders db \/ excused (er_order_id e)) (db_events db) }.

Lemma references_impl (P Q : string -> Prop) db : (forall id, P id -> Q id) -> references P db -> references Q db.
Proof. intros H []. split; try done; (eapply Forall_impl; [done|]); cbn; naive_solver. Qed.

(** An excuse for a stored order is not needed. *)
Lemma references_settled P id db :
  id ∈ or_id <$> db_orders db -> references (fun i => P i \/ i = id) db -> references P db.
Proof. intros H []. split; try done; (eapply Forall_impl; [done|]); cbn; naive_solver. Qed.

Section references.
Context (P : string -> Prop).
#[local] Set Default Proof Using "Type".

Lemma insert_exchange_references now db db' res :
  references P db -> insert_exchange now db = (db', res) ->
  references P db' /\ (res = Ok tt -> _runtime_exchange_id ∈ xr_id <$> db_exchanges db').
Proof.
  intros Hr. unfold insert_exchange. destruct (existsb _ _) eqn:Ex.
  - intros [= <- <-]. split; [done|]. intros _. apply existsb_exists in Ex as (x & Hx%list_elem_of_In & _).
    rewrite <- (proj1 (Forall_forall _ _) (rf_exchanges _ _ Hr) x Hx). by apply list_elem_of_fmap_2.
  - rewrite lift_bind. destruct (insert_row _ _ _ _) as [t|e] eqn:Ei; [|by intros [= <- <-]].
    apply insert_row_Ok in Ei as [_ ->]. intros [= <- <-]. destruct Hr as [H1 H2 H3 H4 H5 H6]. split.
    + split; cbn [set_exchanges db_exchanges db_symbols db_orders db_positions db_fills db_events]; try done.
      * apply Forall_app_2; [done|by constructor].
      * eapply Forall_impl; [exact H2|]. intros y Hy. rewrite fmap_app, elem_of_app. by left.
      * eapply Forall_impl; [exact H3|]. intros y Hy. rewrite fmap_app, elem_of_app. by left.
      * eapply Forall_impl; [exact H4|]. intros y Hy. rewrite fmap_app, elem_of_app. by left.
    + intros _. cbn [set_exchanges db_exchanges]. rewrite fmap_app, elem_of_app. right. by apply list_elem_of_singleton.
Qed.

Lemma symbol_refs_references now symbol db db' res :
  references P db -> _ensure_symbol_refs now symbol db = (db', res) ->
  references P db' /\ (forall refs, res = Ok refs -> refs.1 ∈ xr_id <$> db_exchanges db').
Proof.
  intros Hr. unfold _ensure_symbol_refs. unfold mbind at 1, prog_bind at 1.
  destruct (insert_exchange now db) as [db1 res1] eqn:Ei. apply insert_exchange_references in Ei as [Hr1 Hin]; [|done].
  destruct res1 as [[]|e]; [|by intros [= <- <-]]. specialize (Hin eq_refl). rewrite gets_bind.
  destruct (List.find _ _) as [y|]; [intros [= <- <-]; split; [done|]; by intros refs [= <-]|].
  rewrite gets_bind, lift_bind. destruct (insert_row _ _ _ _) as [t|e] eqn:Et; [|by intros [= <- <-]].
  apply insert_row_Ok in Et as [_ ->]. rewrite modify_bind. intros [= <- <-]. split; [|by intros refs [= <-]].
  destruct Hr1. split; try done. apply Forall_app_2; [done|by constructor].
Qed.

Lemma upsert_order_references now u4 o db db' res :
  strip (ro_order_id o) <> ""%string -> references P db -> upsert_order now u4 o db = (db', res) ->
  references P db' /\ (res = Ok tt -> order_uuid (ro_order_id o) ∈ or_id <$> db_orders db').
Proof.
  intros Hid Hr. unfold upsert_order. unfold mbind at 1, prog_bind at 1.
  destruct (_ensure_symbol_refs _ _ db) as [db1 res1] eqn:Er. apply symbol_refs_references in Er as [Hr1 Hin]; [|done].
  destruct res1 as [refs|e]; [|by intros [= <- <-]]. specialize (Hin refs eq_refl). rewrite gets_bind, lift_bind.
  destruct (order_values _ _ _ _ _) as [row|e] eqn:Ev; [|by intros [= <- <-]].
  assert (or_id row = order_uuid (ro_order_id o) /\ or_exchange_id row = refs.1) as [Ek Ex].
  { unfold order_values in Ev. apply bind_Ok in Ev as (q & _ & Ev). apply bind_Ok in Ev as (f & _ & Ev). injection Ev as <-.
    split; [by apply coerce_uuid_fresh|done]. }
  assert (forall t, incl (or_id <$> t) (or_id <$> upsert_row (fun o => String.eqb (or_id o) (or_id row)) (merge_order row) row t) /\
    or_id row ∈ or_id <$> upsert_row (fun o => String.eqb (or_id o) (or_id row)) (merge_order row) row t) as Hkeys.
  { induction t as [|r t [IH1 IH2]]; [split; [by intros x []|by left]|]. cbn [upsert_row].
    destruct (String.eqb_spec (or_id r) (or_id row)) as [E|E]; rewrite !fmap_cons.
    - split; [apply incl_refl|]. cbn. rewrite E. by left.
    - split; [apply incl_cons; [by left|by apply incl_tl]|by right]. }
  destruct (Hkeys (db_orders db1)) as [K1 K2]. intros [= <- <-].
  assert (forall i, i ∈ or_id <$> db_orders db1 -> i ∈ or_id <$> db_orders (put_order row db1)) as Hk.
  { intros i Hi%list_elem_of_In. by apply list_elem_of_In, K1. }
  split; [|intros _; by rewrite <- Ek]. fold (put_order row db1). destruct Hr1. split; try done.
  - cbn [put_order set_orders db_orders db_exchanges]. apply Forall_upsert; [done|by rewrite Ex|]. intros r _. cbn. by rewrite Ex.
  - eapply Forall_impl; [exact rf_fills0|]. intros f [Hf|Hf]; [left; by apply Hk|by right].
  - eapply Forall_impl; [exact rf_events0|]. intros f [Hf|Hf]; [left; by apply Hk|by right].
Qed.

Lemma append_event_references now_iso u4 order_id ev db db' res :
  strip order_id <> ""%string -> references P db -> append_lifecycle_event now_iso u4 order_id ev db = (db', res) ->
  references (fun i => P i \/ i = order_uuid order_id) db'.
Proof.
  intros Hid Hr. assert (references (fun i => P i \/ i = order_uuid order_id) db) as Hr' by (by eapply references_impl; [|done]; auto).
  clear Hr. unfold append_lifecycle_event. rewrite gets_bind, lift_bind.
  destruct (insert_row _ _ _ _) as [t|e] eqn:Ei; [|by intros [= <- <-]]. apply insert_row_Ok in Ei as [_ ->]. rewrite modify_bind.
  assert (references (fun i => P i \/ i = order_uuid order_id)
    (set_events (db_events db ++ [event_values u4 now_iso order_id ev]) db)) as Hr1.
  { destruct Hr'. split; try done. apply Forall_app_2; [done|]. constructor; [|done]. right. right. by apply coerce_uuid_fresh. }
  destruct (le_fill ev) as [fill|]; [|by intros [= <- <-]]. rewrite gets_bind, lift_bind.
  destruct (fill_values _ _ _ _ _) as [row|e] eqn:Ev; [|by intros [= <- <-]]. intros [= <- <-].
  assert (fr_order row = order_uuid order_id) as Ek.
  { unfold fill_values in Ev. apply bind_Ok in Ev as (q & _ & Ev). apply bind_Ok in Ev as (p & _ & Ev).
    apply bind_Ok in Ev as (f & _ & Ev). injection Ev as <-. by apply coerce_uuid_fresh. }
  destruct Hr1. split; try done. apply Forall_upsert; [done|right; by right|done].
Qed.

Lemma upsert_position_references now u4 p db db' res :
  references P db -> upsert_position now u4 p db = (db', res) -> references P db'.
Proof.
  intros Hr. unfold upsert_position. unfold mbind at 1, prog_bind at 1.
  destruct (_ensure_symbol_refs _ _ db) as [db1 res1] eqn:Er. apply symbol_refs_references in Er as [Hr1 Hin]; [|done].
  destruct res1 as [refs|e]; [|by intros [= <- <-]]. specialize (Hin refs eq_refl).
  assert (forall id opened row, position_values id opened refs p = Ok row -> pr_exchange_id row = refs.1) as Hex.
  { intros id opened row Ev. unfold position_values in Ev. apply bind_Ok in Ev as (q & _ & Ev). apply bind_Ok in Ev as (e & _ & Ev).
    apply bind_Ok in Ev as (r & _ & Ev). by injection Ev as <-. }
  unfold write_position. rewrite gets_bind. destruct (latest _) as [old|]; rewrite lift_bind;
    (destruct (position_values _ _ _ _) as [row|e] eqn:Ev; [|by intros [= <- <-]]); apply Hex in Ev.
  - intros [= <- <-]. destruct Hr1. split; try done. unfold update_rows. cbn [set_positions db_positions db_exchanges].
    apply Forall_fmap. eapply Forall_impl; [done|]. intros r Hrow. cbn. destruct (String.eqb _ _); [by rewrite Ev|done].
  - rewrite lift_bind. destruct (insert_row _ _ _ _) as [t|e] eqn:Ei; [|by intros [= <- <-]].
    apply insert_row_Ok in Ei as [_ ->]. intros [= <- <-]. destruct Hr1. split; try done.
    apply Forall_app_2; [done|]. constructor; [by rewrite Ev|done].
Qed.

Lemma upsert_mark_references now_iso mode symbol price db db' res :
  references P db -> upsert_mark_price now_iso mode symbol price db = (db', res) -> references P db'.
Proof.
  intros Hr. unfold upsert_mark_price. rewrite lift_bind. destruct (not_null _ _); intros [= <- <-]; [|done]. by destruct Hr.
Qed.
End references.

(** C30. What is stored is what is read, up to the forms the tables keep. From any
    consistent tables: an order that was stored is read under its id, with the UUID
    made of the id as its id, the upper case of its symbol and every amount rounded to
    a float (an average price that is not a number is dropped), and the
    orders of other ids are read as before. A position is read under its mode and
    the upper case of its symbol, with every amount rounded to a float; its time is
    the stored one when it is closed, and otherwise the time the first
    position of the mode and symbol was stored with; positions of other modes and
    symbols are read as before. An event stored with a later clock reading is read as
    the last one of its order, its fill with the UUID of the order and the amounts
    rounded, and the events of other orders are read as before. *)
Theorem stored_values_read_back db :
  db_ok db ->
  (forall now u4 o db' u, strip (ro_order_id o) <> ""%string -> upsert_order now u4 o db = (db', Ok tt) ->
     db_ok db' /\ get_order u (ro_order_id o) db' = Some (stored_order o) /\
     forall id, strip id <> ""%string -> order_uuid id <> order_uuid (ro_order_id o) ->
       get_order u id db' = get_order u id db) /\
  (forall now u4 p db', upsert_position now u4 p db = (db', Ok tt) ->
     db_ok db' /\
     get_position (ps_mode p) (normal_symbol (ps_symbol p)) db' = Some (stored_position (stored_time db p) p) /\
     forall m y, (m, y) <> (ps_mode p, normal_symbol (ps_symbol p)) -> get_position m y db' = get_position m y db) /\
  (forall now_iso u4 order_id ev db' u, strip order_id <> ""%string -> append_lifecycle_event now_iso u4 order_id ev db = (db', Ok tt) ->
     db_ok db' /\
     (clock_later now_iso (u4 0%nat) db ->
      load_lifecycle_events u order_id db' = load_lifecycle_events u order_id db ++ [stored_event order_id ev]) /\
     forall id, strip id <> ""%string -> order_uuid id <> order_uuid order_id ->
       load_lifecycle_events u id db' = load_lifecycle_events u id db).
Proof.
  intros Hok. split_and!.
  - intros now u4 o db' u Hid H. destruct (upsert_order_spec _ _ _ _ _ _ Hok Hid H) as (H1 & _ & _ & H2 & H3).
    split_and!; [done|by apply H2|]. intros id Hid' Hne. apply H3; [done|by left].
  - intros now u4 p db' H. destruct (upsert_position_spec _ _ _ _ _ _ Hok H) as (H1 & _ & _ & H2).
    destruct (H2 eq_refl). by split_and!.
  - intros now_iso u4 order_id ev db' u Hid H.
    destruct (append_event_spec _ _ _ _ _ _ _ Hok Hid H) as (H1 & _ & _ & He & H2). split_and!; [done|by intros Hl; apply H2|].
    intros id Hid' Hne. rewrite !load_events_rows, He, List.filter_app by done. cbn [List.filter event_values er_order_id].
    rewrite (coerce_uuid_fresh _ "" _ Hid). rewrite (proj2 (String.eqb_neq _ _)) by (by apply not_eq_sym). by rewrite app_nil_r.
Qed.

Module Example_store.
Definition now (k : nat) : string := "2024-05-01T12:00:00Z".
Definition u4 (k : nat) : string := uuid_str (Z.of_nat k).
Definition order : ReconciliationOrder :=
  {| ro_order_id := "ord-1"; ro_symbol := "btc/usdt"; ro_mode := "MOCK"; ro_requested_quantity := DFin 5 (-1);
     ro_status := "FILLED"; ro_filled_quantity := DFin 50 (-2); ro_average_price := Some (DFin 1 (-1)) |}.
Definition stored : database := (upsert_order now u4 order _ensure_schema).1.

(** The amounts come back in the shortest form of their float, the id as a UUID
    and the symbol in upper case; a position read with the symbol in lower case
    is not found. *)
Lemma stored_values_read_back_witness :
  upsert_order now u4 order _ensure_schema = (stored, Ok tt) /\
  get_order u4 "ord-1" stored = Some (stored_order order) /\
  (ro_symbol (stored_order order), ro_filled_quantity (stored_order order)) = ("BTC/USDT"%string, DFin 5 (-1)).
Proof.
  destruct (stored_values_read_back _ensure_schema (proj1 ensure_schema_ok)) as [H _].
  assert (upsert_order now u4 order _ensure_schema = (stored, Ok tt)) as E.
  { rewrite (surjective_pairing (upsert_order _ _ _ _)). f_equal. }
  split; [exact E|]. destruct (H now u4 order stored u4) as (_ & Hg & _); [discriminate|exact E|].
  split; [exact Hg|]. vm_compute. reflexivity.
Defined.

(** An average with more digits than a float has is not what was stored. *)
Example average_rounded : stored_amount (DFin 3333333333333333333333333333 (-27)) = DFin 33333333333333335 (-16).
Proof. vm_compute. reflexivity. Qed.
End Example_store.
