(* ===== verification/OmsStoredWorker.v ===== *)
(** * The OMS lifecycle worker on its store

    [OMSLifecycleWorkerRunner.run_once] of [services/workers/oms_lifecycle.py]
    with a state store: orders, events, positions and marks are read from and
    written to the database of OmsStore instead of the dicts of OmsLifecycle. A
    process keeps nothing that matters in memory, so a history here may restart
    it. [u4 k] are the random UUIDs of the [k]-th call of the store; clock sites
    0 to 4 are those of OmsLifecycle, 5 to 10 those of the store. *)

From S2P Require Import Prelude PyStr PyFloat PyDecimal PyTime PyUuid PyVal Envelope Broker.
From S2P Require Import OmsStateMachine FillReconciliation PositionEngine PortfolioSnapshot OmsLifecycle SqlTable OmsStore.
From stdpp Require Import options.
From Stdlib Require Import Ascii String SpecFloat.

#[local] Open Scope Z_scope.

(** ** The runner *)

Record StoredRunner := {
  sw_broker : InMemoryTopicBroker;
  sw_base_balance_usd : f64;
  sw_store : database;
  sw_last_activity : option activity }.

(** A new process on an existing database. *)
Definition stored_runner_init (broker : InMemoryTopicBroker) (base_balance_usd : f64) (state_store : database)
  : StoredRunner :=
  {| sw_broker := broker; sw_base_balance_usd := base_balance_usd; sw_store := state_store;
     sw_last_activity := None |}.

Definition set_sw_broker b r :=
  {| sw_broker := b; sw_base_balance_usd := sw_base_balance_usd r; sw_store := sw_store r;
     sw_last_activity := sw_last_activity r |}.
Definition set_sw_store db r :=
  {| sw_broker := sw_broker r; sw_base_balance_usd := sw_base_balance_usd r; sw_store := db;
     sw_last_activity := sw_last_activity r |}.
Definition set_sw_activity a r :=
  {| sw_broker := sw_broker r; sw_base_balance_usd := sw_base_balance_usd r; sw_store := sw_store r;
     sw_last_activity := Some a |}.

Definition on_store {A} (m : prog database A) : prog StoredRunner A := zoom sw_store set_sw_store m.

Section step.
Context (clock : nat -> Z) (u4 : nat -> nat -> string).

Definition store_now (site : nat) : nat -> string := fun k => iso_z (clock (site + k)%nat).

Definition reconciled_order (ids : event_ids) (existing : ReconciliationOrder) (rec : FillReconciliationResult)
  : ReconciliationOrder :=
  {| ro_order_id := ei_order_id ids; ro_symbol := ei_symbol ids; ro_mode := ei_mode ids;
     ro_requested_quantity := ro_requested_quantity existing; ro_status := state_str (fr_status rec);
     ro_filled_quantity := fr_filled_quantity rec; ro_average_price := fr_average_price rec |}.

(** The order part of a step: store the event, reconcile with all stored
    events, store the order. *)
Definition update_stored_order (ids : event_ids) (existing : ReconciliationOrder) (ev : LifecycleEvent)
  : prog database ReconciliationOrder :=
  _ ← append_lifecycle_event (store_now 5 0%nat) (u4 1%nat) (ei_order_id ids) ev;
  events ← gets (load_lifecycle_events (u4 2%nat) (ei_order_id ids));
  rec ← lift (reconcile existing events None);
  let updated_order := reconciled_order ids existing rec in
  _ ← upsert_order (store_now 6) (u4 3%nat) updated_order;
  mret updated_order.

(** The position part of a step. *)
Definition book_stored_fill (envelope payload : dict) (ids : event_ids) (ev : LifecycleEvent)
  : prog database unit :=
  match le_fill ev with
  | None => mret tt
  | Some fill =>
      current ← gets (get_position (ei_mode ids) (ei_symbol ids));
      update ← lift (apply_fill (iso_z (clock 3%nat)) current (position_fill clock envelope payload ids fill));
      _ ← upsert_position (store_now 8) (u4 4%nat) (pu_current update);
      upsert_mark_price (store_now 9 0%nat) (ei_mode ids) (ei_symbol ids) (rf_price fill)
  end.

(** The snapshot part of a step. *)
Definition stored_snapshot (base_balance_usd : f64) (ids : event_ids) (positions : list PositionState)
  : prog database PortfolioSnapshot :=
  mark_prices ← gets (load_mark_prices (ei_mode ids));
  total ← lift (fold_res (fun acc p => dadd acc (ps_realized_pnl p)) d0 positions);
  snapshot ← lift (build_snapshot (iso_z (clock 4%nat)) (ei_mode ids) (dec_of_repr base_balance_usd) d0
                     positions mark_prices (Some total) None);
  _ ← insert_portfolio_snapshot (store_now 10 0%nat) snapshot;
  mret snapshot.

(** What a step does with the store; the result is what it reports. *)
Definition process (base_balance_usd : f64) (envelope payload : dict) (ids : event_ids) : prog database activity :=
  requested ← lift (_resolve_requested_quantity (dget "quantity" payload));
  existing ← gets (fun db => default (new_order ids requested) (get_order (u4 0%nat) (ei_order_id ids) db));
  ev ← lift (_to_lifecycle_event clock envelope);
  updated ← update_stored_order ids existing ev;
  _ ← book_stored_fill envelope payload ids ev;
  positions ← gets (list_positions (ei_mode ids));
  snapshot ← stored_snapshot base_balance_usd ids positions;
  mret (activity_of envelope ids updated (Z.of_nat (List.length positions)) snapshot).

Definition handle_stored (envelope : dict) : prog StoredRunner bool := fun r =>
  match event_scope envelope with
  | None => (r, Ok false)
  | Some (ids, payload) =>
      (a ← on_store (process (sw_base_balance_usd r) envelope payload ids);
       _ ← modify (set_sw_activity a);
       mret true) r
  end.

Definition run_stored_once : prog StoredRunner bool := fun r =>
  match consume ORDER_UPDATES (sw_broker r) with
  | Raise e => (r, Raise e)
  | Ok (b, None) => (set_sw_broker b r, Ok false)
  | Ok (b, Some envelope) => handle_stored envelope (set_sw_broker b r)
  end.
End step.

(** ** What a step does to the tables *)

Lemma event_scope_ids envelope ids payload :
  event_scope envelope = Some (ids, payload) ->
  strip (ei_order_id ids) <> ""%string /\ strip (ei_symbol ids) = ei_symbol ids.
Proof.
  unfold event_scope. destruct (dget "payload" envelope) as [| | | | | | |]; try done.
  destruct (is_empty _ || is_empty _) eqn:E; [done|]. intros [= <- <-]. cbn [ei_order_id ei_symbol].
  apply orb_false_iff in E as [E _]. rewrite !strip_idemp. split; [|done]. intros H. by rewrite H in E.
Qed.

Definition positions_kept (db db' : database) : Prop :=
  (forall m y, get_position m y db' = get_position m y db) /\ (forall m y, mark_at db' m y = mark_at db m y).

#[global] Instance positions_kept_preorder : PreOrder positions_kept.
Proof.
  split; [by intros db|]. intros a b c [H1 H2] [H3 H4]. split; intros m y; [by rewrite H3|by rewrite H4].
Qed.

Lemma same_but_events_kept db db' : db_ok db -> db_ok db' -> same_but_events db db' -> positions_kept db db'.
Proof.
  intros Hok Hok' (Es & _ & Ep & _ & Em). split; intros m y.
  - rewrite !get_position_row by done. unfold position_at, symbol_id. by rewrite Es, Ep.
  - unfold mark_at. by rewrite Em.
Qed.

Lemma same_but_orders_kept db db' : db_ok db -> db_ok db' -> same_but_orders db db' -> positions_kept db db'.
Proof.
  intros Hok Hok' (_ & _ & _ & _ & Em & Hp). split; intros m y.
  - by rewrite !get_position_row, Hp.
  - unfold mark_at. by rewrite Em.
Qed.

(** The tables are consistent and every side is still BUY. *)
Definition store_ok (db : database) : Prop := db_ok db /\ sides_bought db.

(** A stored fill has a price. *)
Lemma append_event_priced now_iso u4 id ev f db db' :
  append_lifecycle_event now_iso u4 id ev db = (db', Ok tt) -> le_fill ev = Some f ->
  is_nan (float_of_dec (rf_price f)) = false.
Proof.
  intros H Hf. unfold append_lifecycle_event in H. rewrite gets_bind, lift_bind in H.
  destruct (insert_row _ _ _ _); [|done]. rewrite modify_bind, Hf, gets_bind, lift_bind in H.
  destruct (fill_values _ _ _ _ _) as [row|] eqn:Ev; [|done]. unfold fill_values in Ev.
  apply bind_Ok in Ev as (q & _ & Ev). apply bind_Ok in Ev as (p & Hp & _). unfold not_null, real in Hp.
  by destruct (is_nan _).
Qed.

Section steps.
Context (clock : nat -> Z) (u4 : nat -> nat -> string).
#[local] Set Default Proof Using "Type".

Lemma update_stored_order_spec ids existing ev db db' res :
  store_ok db -> strip (ei_order_id ids) <> ""%string ->
  update_stored_order clock u4 ids existing ev db = (db', res) ->
  store_ok db' /\ positions_kept db db' /\
  (forall o f, res = Ok o -> le_fill ev = Some f -> is_nan (float_of_dec (rf_price f)) = false).
Proof.
  intros [Hok Hb] Hid. unfold update_stored_order. unfold mbind at 1, prog_bind at 1.
  destruct (append_lifecycle_event _ _ _ _ db) as [db1 res1] eqn:Ea.
  destruct (append_event_spec _ _ _ _ _ _ _ Hok Hid Ea) as (Hok1 & Hb1 & Hs1 & _).
  pose proof (same_but_events_kept _ _ Hok Hok1 Hs1) as Hk1. specialize (Hb1 Hb).
  destruct res1 as [[]|e]; [|by intros [= <- <-]]. rewrite gets_bind, lift_bind.
  destruct (reconcile _ _ _) as [rec|e]; [|by intros [= <- <-]]. unfold mbind, prog_bind.
  destruct (upsert_order _ _ _ db1) as [db2 res2] eqn:Eu.
  destruct (upsert_order_spec _ _ (reconciled_order ids existing rec) _ _ _ Hok1 Hid Eu) as (Hok2 & Hb2 & Hs2 & _).
  pose proof (same_but_orders_kept _ _ Hok1 Hok2 Hs2) as Hk2. specialize (Hb2 Hb1).
  assert (positions_kept db db2) as Hk by (by transitivity db1).
  destruct res2 as [[]|e]; intros [= <- <-]; (split; [by split|]); (split; [done|]); intros o f Ho Hf; [|done].
  by eapply append_event_priced.
Qed.

(** The fill [f] is booked as [u] on the position of its mode and symbol. *)
Definition booked_in (db db' : database) (f : PositionFill) (u : PositionUpdate) : Prop :=
  (exists t, get_position (pf_mode f) (normal_symbol (pf_symbol f)) db' = Some (stored_position t (pu_current u))) /\
  (forall m y, (m, y) <> (pf_mode f, normal_symbol (pf_symbol f)) -> get_position m y db' = get_position m y db) /\
  mark_at db' (pf_mode f) (pf_symbol f) = Some (float_of_dec (pf_price f)) /\
  (forall m y, (m, y) <> (pf_mode f, pf_symbol f) -> mark_at db' m y = mark_at db m y).

Lemma apply_fill_current now position f u :
  apply_fill now position f = Ok u ->
  ps_mode (pu_current u) = pf_mode f /\ ps_symbol (pu_current u) = pf_symbol f.
Proof.
  unfold apply_fill. intros H. apply bind_Ok in H as (sg & _ & H). apply bind_Ok in H as (qa & _ & H).
  apply bind_Ok in H as ([] & _ & H). apply bind_Ok in H as ([[nq na] d] & _ & H). apply bind_Ok in H as (fee & _ & H).
  apply bind_Ok in H as (rd & _ & H). apply bind_Ok in H as (nr & _ & H). apply bind_Ok in H as (a & _ & H).
  apply bind_Ok in H as (o & _ & H). by injection H as <-.
Qed.

Lemma book_stored_fill_spec envelope payload ids ev db db' res :
  store_ok db -> (forall f, le_fill ev = Some f -> is_nan (float_of_dec (rf_price f)) = false) ->
  book_stored_fill clock u4 envelope payload ids ev db = (db', res) ->
  store_ok db' /\
  (positions_kept db db' /\ (res = Ok tt -> le_fill ev = None) \/
   exists fill u, let f := position_fill clock envelope payload ids fill in
     le_fill ev = Some fill /\ res = Ok tt /\
     apply_fill (iso_z (clock 3%nat)) (get_position (pf_mode f) (pf_symbol f) db) f = Ok u /\ booked_in db db' f u).
Proof.
  intros [Hok Hb] Hnan. unfold book_stored_fill. destruct (le_fill ev) as [fill|]; [|intros [= <- <-]; by split; [|left]].
  specialize (Hnan fill eq_refl). rewrite gets_bind, lift_bind.
  destruct (apply_fill _ _ _) as [u|e] eqn:Eu; [|by intros [= <- <-]; split; [|left]].
  destruct (apply_fill_current _ _ _ _ Eu) as [Hm Hs]. unfold mbind, prog_bind.
  destruct (upsert_position _ _ _ db) as [db1 res1] eqn:Ep.
  destruct (upsert_position_spec _ _ _ _ _ _ Hok Ep) as (Hok1 & (E1 & E2 & _ & _ & E5) & Hr & Hw).
  assert (sides_bought db1) as Hb1 by (unfold sides_bought; by rewrite E1, E2).
  assert (forall m y, mark_at db1 m y = mark_at db m y) as Hmk by (intros; unfold mark_at; by rewrite E5).
  destruct res1 as [[]|e].
  2: { intros [= <- <-]. split; [by split|]. left. split; [split; [by eapply Hr|done]|done]. }
  intros Hu. destruct (upsert_mark_spec _ _ _ _ _ _ _ Hok1 Hu) as ([t ->] & Hok2 & Hmark). split; [by split|].
  destruct res as [[]|e].
  2: { exfalso. unfold upsert_mark_price in Hu. rewrite lift_bind in Hu. unfold not_null, real in Hu. by rewrite Hnan in Hu. }
  right. exists fill, u. cbv zeta. destruct (Hw eq_refl) as [Ht Hne]. rewrite Hm, Hs in Ht, Hne.
  destruct Hmark as [M1 M2].
  assert (forall m y, get_position m y (set_marks t db1) = get_position m y db1) as Hg by done.
  split_and!; try done. split_and!; [by eexists|by intros; rewrite Hg; auto|done|].
  intros m y Hy. rewrite <- Hmk. by apply M2.
Qed.

Lemma stored_snapshot_spec base ids positions db db' res :
  store_ok db -> stored_snapshot clock base ids positions db = (db', res) -> store_ok db' /\ positions_kept db db'.
Proof.
  intros [Hok Hb]. unfold stored_snapshot. rewrite gets_bind, lift_bind. destruct (fold_res _ _ _); [|by intros [= <- <-]].
  rewrite lift_bind. destruct (build_snapshot _ _ _ _ _ _ _ _) as [sn|]; [|by intros [= <- <-]]. unfold mbind, prog_bind.
  destruct (insert_portfolio_snapshot _ _ db) as [db1 res1] eqn:Ei. apply insert_snapshot_spec in Ei as [t ->].
  assert (store_ok (set_snapshots t db)) by (split; [by destruct Hok; split|done]).
  by destruct res1 as [[]|e]; intros [= <- <-].
Qed.

(** A step keeps the tables consistent; it leaves the positions alone, or books
    the fill of its event. *)
Lemma process_stored_spec base envelope payload ids db db' res :
  store_ok db -> event_scope envelope = Some (ids, payload) ->
  process clock u4 base envelope payload ids db = (db', res) ->
  store_ok db' /\
  (positions_kept db db' /\ (forall a, res = Ok a -> booking clock envelope = None) \/
   exists now f u, booking clock envelope = Some (now, f) /\
     apply_fill now (get_position (pf_mode f) (pf_symbol f) db) f = Ok u /\ booked_in db db' f u).
Proof.
  intros Hok Hsc. unfold process, booking. rewrite Hsc, lift_bind.
  destruct (event_scope_ids _ _ _ Hsc) as [Hid _].
  destruct (_resolve_requested_quantity _) as [q|e]; [|intros [= <- <-]; split; [done|by left]].
  rewrite gets_bind, lift_bind. destruct (_to_lifecycle_event clock envelope) as [ev|e]; [|intros [= <- <-]; split; [done|by left]].
  unfold mbind at 1, prog_bind at 1. destruct (update_stored_order _ _ _ _ _ db) as [db1 res1] eqn:Eo.
  destruct (update_stored_order_spec _ _ _ _ _ _ Hok Hid Eo) as (Hok1 & [P1 M1] & Hnan).
  destruct res1 as [o|e]; [|intros [= <- <-]; split; [done|by left; split]].
  unfold mbind at 1, prog_bind at 1. destruct (book_stored_fill _ _ _ _ _ _ db1) as [db2 res2] eqn:Eb.
  apply book_stored_fill_spec in Eb as [Hok2 Hcase]; [|done|by intros f; apply (Hnan o)].
  assert (forall db3, positions_kept db2 db3 -> (positions_kept db db3 /\ (res2 = Ok tt -> le_fill ev = None)) \/
    exists now f u, (fun x => (iso_z (clock 3%nat), position_fill clock envelope payload ids x)) <$> le_fill ev = Some (now, f) /\
     apply_fill now (get_position (pf_mode f) (pf_symbol f) db) f = Ok u /\ booked_in db db3 f u) as Hend.
  { intros db3 [P3 M3]. destruct Hcase as [[[P2 M2] Hn]|(fill & u & Hf & _ & Hu & [t B1] & B2 & B3 & B4)].
    - left. split; [|done]. split; intros m y; [by rewrite P3, P2|by rewrite M3, M2].
    - right. eexists _, _, u. rewrite Hf. split; [done|]. rewrite P1 in Hu. split; [done|].
      split_and!; [exists t; by rewrite P3|intros m y Hy; by rewrite P3, B2 by done|by rewrite M3|].
      intros m y Hy. by rewrite M3, B4 by done. }
  destruct res2 as [[]|e]; cycle 1.
  { intros [= <- <-]. split; [done|]. destruct (Hend db2) as [[H _]|H]; [done|by left|by right]. }
  rewrite gets_bind. unfold mbind, prog_bind. destruct (stored_snapshot _ _ _ _ db2) as [db3 res3] eqn:Es.
  apply stored_snapshot_spec in Es as [Hok3 Hk3]; [|done].
  destruct (Hend db3 Hk3) as [[H Hn]|H]; destruct res3; intros [= <- <-]; (split; [done|]); auto.
  all: left; split; [done|]; intros b _; by rewrite Hn.
Qed.
End steps.

(** ** Histories *)

(** Steps of processes on one database: a process may stop and be started again,
    with another broker connection and another balance, at any time. *)
Inductive stored_run : StoredRunner -> list step -> Prop :=
  | stored_init b base : stored_run (stored_runner_init b base _ensure_schema) []
  | stored_broker r steps b : stored_run r steps -> stored_run (set_sw_broker b r) steps
  | stored_restart r steps b base :
      stored_run r steps -> stored_run (stored_runner_init b base (sw_store r)) steps
  | stored_step r steps clock u4 b envelope r' res :
      stored_run r steps -> consume ORDER_UPDATES (sw_broker r) = Ok (b, Some envelope) ->
      run_stored_once clock u4 r = (r', res) -> stored_run r' (steps ++ [Step clock envelope res]).

Lemma handle_stored_spec clock u4 envelope r r' res :
  store_ok (sw_store r) -> handle_stored clock u4 envelope r = (r', res) ->
  store_ok (sw_store r') /\
  (positions_kept (sw_store r) (sw_store r') /\ (res = Ok true -> booking clock envelope = None) \/
   exists now f u, booking clock envelope = Some (now, f) /\
     apply_fill now (get_position (pf_mode f) (pf_symbol f) (sw_store r)) f = Ok u /\
     booked_in (sw_store r) (sw_store r') f u).
Proof.
  intros Hok. unfold handle_stored. destruct (event_scope envelope) as [[ids payload]|] eqn:Hsc.
  - unfold on_store, zoom. unfold mbind at 1, prog_bind at 1.
    destruct (process _ _ _ _ _ _ (sw_store r)) as [db' [a|e]] eqn:Ep; intros [= <- <-]; cbn [sw_store set_sw_store set_sw_activity];
      apply process_stored_spec in Ep as [H1 [[H2 H3]|H]]; try done; (split; [done|]); auto.
    + left. split; [done|]. intros _. by eapply H3.
    + by left.
  - intros [= <- <-]. split; [done|]. by left.
Qed.

(** The position without its time stamp, which the store keeps differently. *)
Definition untimed (p : PositionState) : PositionState :=
  {| ps_mode := ps_mode p; ps_symbol := ps_symbol p; ps_quantity := ps_quantity p;
     ps_average_entry_price := ps_average_entry_price p; ps_realized_pnl := ps_realized_pnl p;
     ps_status := ps_status p; ps_updated_at := "" |}.

Definition is_normal (symbol : string) : bool := String.eqb (normal_symbol symbol) symbol.

(** The reference: each fill is applied to the stored position and the result is
    rounded to floats; a fill whose symbol is not written in upper case does not
    find the position. *)
Definition book_stored (position : option PositionState) (x : string * PositionFill)
  : result (option PositionState) :=
  u ← apply_fill x.1 (if is_normal (pf_symbol x.2) then position else None) x.2;
  Ok (Some (stored_position "" (pu_current u))).

Definition stored_ledger (h : list (string * PositionFill)) : result (option PositionState) :=
  fold_res book_stored None h.

Definition fills_for (mode symbol : string) (h : list (string * PositionFill)) : list (string * PositionFill) :=
  filter (fun x => pf_mode x.2 = mode /\ normal_symbol (pf_symbol x.2) = symbol) h.

Definition marks_for (mode symbol : string) (h : list (string * PositionFill)) : list (string * PositionFill) :=
  filter (fun x => pf_mode x.2 = mode /\ pf_symbol x.2 = symbol) h.

Definition ledger_in (db : database) (h : list (string * PositionFill)) : Prop :=
  forall mode symbol,
    stored_ledger (fills_for mode symbol h) = Ok (untimed <$> get_position mode symbol db) /\
    mark_at db mode symbol = (fun x => float_of_dec (pf_price x.2)) <$> last (marks_for mode symbol h).

Lemma apply_fill_untimed now p f u :
  apply_fill now (Some p) f = Ok u ->
  exists u', apply_fill now (Some (untimed p)) f = Ok u' /\ pu_current u' = pu_current u.
Proof.
  unfold apply_fill. cbn [ps_quantity ps_average_entry_price ps_realized_pnl untimed].
  change (validate_position_compatibility (untimed p) f) with (validate_position_compatibility p f). intros H.
  repeat (let a := fresh "a" in let E := fresh "E" in apply bind_Ok in H as (a & E & H); rewrite E;
          cbn [mbind result_bind]; match type of a with (_ * _ * _)%type => destruct a as [[? ?] ?] | _ => idtac end).
  injection H as <-. by eexists.
Qed.

Lemma fold_res_snoc {A B} (f : A -> B -> result A) a l x :
  fold_res f a (l ++ [x]) = a' ← fold_res f a l; f a' x.
Proof. rewrite fold_res_app. destruct (fold_res f a l) as [b|]; [|done]. simpl. by destruct (f b x). Qed.

(** Booking a fill extends the ledgers. *)
Lemma ledger_in_snoc db db' h now f u :
  db_ok db -> ledger_in db h -> apply_fill now (get_position (pf_mode f) (pf_symbol f) db) f = Ok u ->
  booked_in db db' f u -> ledger_in db' (h ++ [(now, f)]).
Proof.
  intros Hok Hl Hu ([t Hp] & Hpne & Hm & Hmne) mode symbol. destruct (Hl mode symbol) as [Hpos Hmark].
  unfold stored_ledger, fills_for, marks_for in *. rewrite !filter_app, !filter_cons, !filter_nil. cbn [snd]. split.
  - case_decide as Hd; cycle 1.
    { rewrite app_nil_r, Hpne; [done|]. intros [= -> ->]. naive_solver. }
    destruct Hd as [<- <-]. rewrite fold_res_snoc, Hpos, Hp. cbn [mbind result_bind fmap option_fmap option_map].
    assert (exists u', apply_fill now (if is_normal (pf_symbol f) then
      untimed <$> get_position (pf_mode f) (normal_symbol (pf_symbol f)) db else None) f = Ok u' /\
      pu_current u' = pu_current u) as (u' & Hu' & Hcur).
    { unfold is_normal. destruct (String.eqb_spec (normal_symbol (pf_symbol f)) (pf_symbol f)) as [E|E].
      - rewrite E. destruct (get_position _ _ db) as [p|]; [by apply apply_fill_untimed|by exists u].
      - destruct (get_position _ (pf_symbol f) db) eqn:Eg; [|by exists u]. by apply get_position_normal in Eg. }
    unfold book_stored. cbn [fst snd]. rewrite Hu'. cbn [mbind result_bind]. by rewrite Hcur.
  - case_decide as Hd; cycle 1.
    { rewrite app_nil_r, Hmne; [done|]. intros [= -> ->]. naive_solver. }
    destruct Hd as [<- <-]. by rewrite last_snoc, Hm.
Qed.

Lemma ledger_in_kept db db' h : positions_kept db db' -> ledger_in db h -> ledger_in db' h.
Proof. intros [Hp Hm] Hl mode symbol. by rewrite Hp, Hm. Qed.

Lemma stored_run_ok r steps : stored_run r steps -> store_ok (sw_store r).
Proof.
  induction 1 as [b base|r steps b Hr IH|r steps b base Hr IH|r steps clock u4 b envelope r' res Hr IH Hc Hs];
    [apply ensure_schema_ok|done|done|].
  unfold run_stored_once in Hs. rewrite Hc in Hs. by apply handle_stored_spec in Hs as [H _].
Qed.

(** C28. The worker on a database keeps ledgers: along any history, restarts
    included, the stored position of a mode and a symbol is what the position
    engine makes of the fills booked for them, each result rounded to floats,
    where a fill whose symbol is not in upper case starts from no position; the
    mark of a mode and a symbol is the price of their last fill. The fills booked
    are those of the consumed fill events, one each, in order: all of the steps
    that returned [True] and nothing besides what the steps consumed. *)
Theorem stored_runner_ledgers r steps :
  stored_run r steps ->
  exists h, ledger_in (sw_store r) h /\
    omap step_booking (filter (fun s => returned_true s = true) steps) `sublist_of` h /\
    h `sublist_of` omap step_booking steps.
Proof.
  induction 1 as [b base|r steps b Hr IH|r steps b base Hr IH|r steps clock u4 b envelope r' res Hr IH Hc Hs];
    [by exists []|done|done|].
  destruct IH as (h & Hl & Hlo & Hhi). pose proof (stored_run_ok _ _ Hr) as Hok.
  unfold run_stored_once in Hs. rewrite Hc in Hs.
  rewrite filter_app, !omap_app, filter_cons, filter_nil.
  apply handle_stored_spec in Hs as [_ [[Hk Hn]|(now & f & u & Hb & Ha & Hbk)]]; [| |done].
  - exists h. split; [by eapply ledger_in_kept|]. split; [|by apply sublist_inserts_r].
    case_decide as Hd; simpl; [|by rewrite app_nil_r]. unfold step_booking at 2. simpl.
    unfold returned_true in Hd. simpl in Hd. rewrite Hn, app_nil_r by (destruct res; congruence). done.
  - exists (h ++ [(now, f)]). split; [by eapply ledger_in_snoc; [apply Hok| | |]|]. split.
    + case_decide; simpl; [|by apply sublist_app, sublist_nil_l].
      unfold step_booking at 2. simpl. rewrite Hb. by apply sublist_app.
    + simpl. unfold step_booking at 2. simpl. rewrite Hb. by apply sublist_app.
Qed.

(** *** References *)

Section step_references.
Context (clock : nat -> Z) (u4 : nat -> nat -> string) (P : string -> Prop).
#[local] Set Default Proof Using "Type".

(** The order of an event is stored once the order part of the step succeeds. *)
Lemma update_order_references ids existing ev db db' res :
  strip (ei_order_id ids) <> ""%string -> references P db -> update_stored_order clock u4 ids existing ev db = (db', res) ->
  references (fun i => P i \/ i = order_uuid (ei_order_id ids)) db' /\ (forall o, res = Ok o -> references P db').
Proof.
  intros Hid Hr. unfold update_stored_order. unfold mbind at 1, prog_bind at 1.
  destruct (append_lifecycle_event _ _ _ _ db) as [db1 res1] eqn:Ea. apply (append_event_references P) in Ea as Hr1; [|done|done].
  destruct res1 as [[]|e]; [|by intros [= <- <-]]. rewrite gets_bind, lift_bind.
  destruct (reconcile _ _ _) as [rec|e]; [|by intros [= <- <-]]. unfold mbind, prog_bind.
  destruct (upsert_order _ _ _ db1) as [db2 res2] eqn:Eu.
  apply (upsert_order_references (fun i => P i \/ i = order_uuid (ei_order_id ids)) _ _ (reconciled_order ids existing rec)) in Eu as [Hr2 Hin]; [|done|exact Hr1].
  destruct res2 as [[]|e]; intros [= <- <-]; (split; [done|]); intros o Ho; [|done].
  eapply references_settled; [by apply Hin|exact Hr2].
Qed.

Lemma book_fill_references envelope payload ids ev db db' res :
  references P db -> book_stored_fill clock u4 envelope payload ids ev db = (db', res) -> references P db'.
Proof.
  intros Hr. unfold book_stored_fill. destruct (le_fill ev) as [fill|]; [|by intros [= <- <-]]. rewrite gets_bind, lift_bind.
  destruct (apply_fill _ _ _) as [u|e]; [|by intros [= <- <-]]. unfold mbind, prog_bind.
  destruct (upsert_position _ _ _ db) as [db1 res1] eqn:Ep. apply (upsert_position_references P) in Ep; [|done].
  destruct res1 as [[]|e]; [|by intros [= <- <-]]. by apply upsert_mark_references.
Qed.

Lemma snapshot_references base ids positions db db' res :
  references P db -> stored_snapshot clock base ids positions db = (db', res) -> references P db'.
Proof.
  intros Hr. unfold stored_snapshot. rewrite gets_bind, lift_bind. destruct (fold_res _ _ _); [|by intros [= <- <-]].
  rewrite lift_bind. destruct (build_snapshot _ _ _ _ _ _ _ _) as [sn|]; [|by intros [= <- <-]]. unfold mbind, prog_bind.
  destruct (insert_portfolio_snapshot _ _ db) as [db1 res1] eqn:Ei. apply insert_snapshot_spec in Ei as [t ->].
  by destruct res1 as [[]|e]; intros [= <- <-]; destruct Hr.
Qed.
End step_references.

Lemma process_references clock u4 P base envelope payload ids db db' res :
  strip (ei_order_id ids) <> ""%string -> references P db -> process clock u4 base envelope payload ids db = (db', res) ->
  references (fun i => P i \/ i = order_uuid (ei_order_id ids)) db' /\ (forall a, res = Ok a -> references P db').
Proof.
  intros Hid Hr. assert (references (fun i => P i \/ i = order_uuid (ei_order_id ids)) db) as Hr' by (by eapply references_impl; [|done]; auto).
  unfold process. rewrite lift_bind. destruct (_resolve_requested_quantity _) as [q|e]; [|by intros [= <- <-]].
  rewrite gets_bind, lift_bind. destruct (_to_lifecycle_event clock envelope) as [ev|e]; [|by intros [= <- <-]].
  unfold mbind at 1, prog_bind at 1. destruct (update_stored_order _ _ _ _ _ db) as [db1 res1] eqn:Eo.
  destruct res1 as [o|e]; cycle 1.
  { intros [= <- <-]. split; [|done]. exact (proj1 (update_order_references _ _ P _ _ _ _ _ _ Hid Hr Eo)). }
  assert (references P db1) as H1 by exact (proj2 (update_order_references _ _ P _ _ _ _ _ _ Hid Hr Eo) o eq_refl).
  unfold mbind at 1, prog_bind at 1. destruct (book_stored_fill _ _ _ _ _ _ db1) as [db2 res2] eqn:Eb.
  apply (book_fill_references _ _ P) in Eb; [|done]. rename Eb into H2.
  assert (forall db, references P db -> references (fun i => P i \/ i = order_uuid (ei_order_id ids)) db) as Hw
    by (intros d; apply references_impl; auto).
  destruct res2 as [[]|e]; [|intros [= <- <-]; split; [by apply Hw|done]].
  rewrite gets_bind. unfold mbind, prog_bind. destruct (stored_snapshot _ _ _ _ db2) as [db3 res3] eqn:Es.
  apply (snapshot_references _ P) in Es; [|done]. destruct res3; intros [= <- <-]; (split; [by apply Hw|done]).
Qed.

(** A step for the order with this key raised. *)
Definition raised_for (steps : list step) (key : string) : Prop :=
  exists s ids payload, s ∈ steps /\ event_scope (st_envelope s) = Some (ids, payload) /\
    order_uuid (ei_order_id ids) = key /\ is_ok (st_result s) = false.

Lemma stored_run_references r steps : stored_run r steps -> references (raised_for steps) (sw_store r).
Proof.
  induction 1 as [b base|r steps b Hr IH|r steps b base Hr IH|r steps clock u4 b envelope r' res Hr IH Hc Hs];
    [split; constructor|done|done|].
  set (s := Step clock envelope res).
  assert (forall id, raised_for steps id -> raised_for (steps ++ [s]) id) as Hmono.
  { intros id (s0 & ids & payload & Hin & H). exists s0, ids, payload. split; [apply elem_of_app; by left|exact H]. }
  unfold run_stored_once in Hs. rewrite Hc in Hs. unfold handle_stored in Hs.
  destruct (event_scope envelope) as [[ids payload]|] eqn:Hsc.
  2: { injection Hs as <- <-. by eapply references_impl. }
  destruct (event_scope_ids _ _ _ Hsc) as [Hid _]. unfold on_store, zoom in Hs. unfold mbind at 1, prog_bind at 1 in Hs.
  destruct (process _ _ _ _ _ _ _) as [db' res'] eqn:Ep.
  apply (process_references _ _ (raised_for steps)) in Ep as [H1 H2]; [|done|exact IH].
  destruct res' as [a|e]; injection Hs as <- <-; cbn [sw_store set_sw_store set_sw_activity set_sw_broker].
  - eapply references_impl; [exact Hmono|]. by apply (H2 a).
  - eapply references_impl; [|exact H1]. intros id [Hp| ->]; [by apply Hmono|].
    exists s, ids, payload. split; [apply elem_of_app; right; by apply list_elem_of_singleton|]. done.
Qed.

(** C29. Whatever the worker consumes, restarts and failing steps included, the tables
    stay consistent: keys are unique; every order and position has its symbol, every
    symbol, order and position its exchange; there is at most one position for each
    mode and symbol. Every fill and every lifecycle event has its order, unless a step
    for that order raised: the event and the fill are stored before the order
    ([fill_without_order]), which the foreign key of the migrations would refuse. And the
    store is never told the side of an order: every order is recorded as a market
    order to buy, and every fill as bought, sales included. *)
Theorem stored_tables_consistent r steps :
  stored_run r steps ->
  db_ok (sw_store r) /\ references (raised_for steps) (sw_store r) /\
  Forall (fun o => or_side o = "BUY"%string /\ or_type o = "MARKET"%string) (db_orders (sw_store r)) /\
  Forall (fun f => fr_side f = "BUY"%string) (db_fills (sw_store r)).
Proof. intros H. split; [apply (stored_run_ok _ _ H)|]. split; [by apply stored_run_references|apply (stored_run_ok _ _ H)]. Qed.

(** ** Errors *)

(** An open position without a mark: the mark of a symbol is kept under the
    symbol as the event writes it, the position under its upper case. *)
Definition flat (p : PositionState) : result bool := a ← dabs (ps_quantity p); dleb a (DFin 1 (-9)).
Definition unmarked_open (db : database) (mode symbol : string) : Prop :=
  exists p, get_position mode symbol db = Some p /\ flat p = Ok false /\ mark_at db mode symbol = None.

Lemma fold_res_raises {A B} (f : A -> B -> result A) x l a :
  x ∈ l -> (forall b, exists e, f b x = Raise e) -> exists e, fold_res f a l = Raise e.
Proof.
  intros Hx Hf. revert a. induction l as [|y l IH]; intros a; [by apply elem_of_nil in Hx|]. cbn [fold_res].
  apply elem_of_cons in Hx as [->|Hx]; [destruct (Hf a) as [e He]; rewrite He; by exists e|].
  destruct (f a y) as [b|e]; [by apply IH|by exists e].
Qed.

Lemma mark_position_raises mode marks p acc :
  flat p = Ok false -> marks !! ps_symbol p = None -> exists e, mark_position mode marks acc p = Raise e.
Proof.
  intros Hf Hm. destruct acc as [u v]. unfold mark_position. destruct (raise_if _ _ _); [|by eexists].
  cbn [mbind result_bind]. destruct (dadd v _); [|by eexists]. cbn [mbind result_bind]. unfold flat in Hf.
  destruct (dabs (ps_quantity p)); [|done]. cbn [mbind result_bind] in *. rewrite Hf, Hm. by eexists.
Qed.

Lemma get_position_symbol mode x db p : get_position mode x db = Some p -> ps_symbol p = x.
Proof. unfold get_position. intros (r & _ & ->)%fmap_Some. done. Qed.

(** A step that succeeds leaves no open position of its mode without a mark. *)
Lemma process_marked clock u4 base envelope payload ids db db' a symbol :
  store_ok db -> event_scope envelope = Some (ids, payload) ->
  process clock u4 base envelope payload ids db = (db', Ok a) -> ~ unmarked_open db' (ei_mode ids) symbol.
Proof.
  intros Hok Hsc H (p & Hp & Hflat & Hmark). pose proof (process_stored_spec _ _ _ _ _ _ _ _ _ Hok Hsc H) as [[Hok' _] _].
  unfold process in H. apply prog_bind_Ok in H as (d1 & q & _ & H). apply prog_bind_Ok in H as (d2 & o & _ & H).
  apply prog_bind_Ok in H as (d3 & ev & _ & H). apply prog_bind_Ok in H as (d4 & uo & _ & H).
  apply prog_bind_Ok in H as (d5 & [] & _ & H). rewrite gets_bind in H. apply prog_bind_Ok in H as (d6 & sn & Hs & H).
  injection H as <- <-. unfold stored_snapshot in Hs. rewrite gets_bind, lift_bind in Hs.
  destruct (fold_res _ _ _) as [total|] eqn:Et; [|done]. rewrite lift_bind in Hs.
  destruct (build_snapshot _ _ _ _ _ _ _ _) as [sn'|] eqn:Eb; [|done]. apply prog_bind_Ok in Hs as (d7 & [] & Hi & [= <- <-]).
  apply insert_snapshot_spec in Hi as [t ->]. cbn [default] in *.
  assert (exists e, fold_res (mark_position (upper (strip (ei_mode ids))) (load_mark_prices (ei_mode ids) d5)) (d0, d0)
            (list_positions (ei_mode ids) d5) = Raise e) as [e He].
  { apply (fold_res_raises _ p).
    - apply (list_positions_elem (set_snapshots t d5)); [done|]. by exists symbol.
    - intros acc. apply mark_position_raises; [done|].
      change (load_mark_prices (ei_mode ids) d5) with (load_mark_prices (ei_mode ids) (set_snapshots t d5)).
      rewrite load_mark_prices_lookup by done. apply get_position_symbol in Hp as ->. by rewrite Hmark. }
  unfold build_snapshot in Eb. by rewrite He in Eb.
Qed.

(** Steps one after the other, with their results. *)
Record arrival := Arrival { ar_clock : nat -> Z; ar_uuids : nat -> nat -> string; ar_envelope : dict }.

Fixpoint handle_all (l : list arrival) (r : StoredRunner) : StoredRunner * list (result bool) :=
  match l with
  | [] => (r, [])
  | x :: l' =>
      let '(r1, res) := handle_stored (ar_clock x) (ar_uuids x) (ar_envelope x) r in
      let '(r2, rs) := handle_all l' r1 in (r2, res :: rs)
  end.

(** An event for another mode or another symbol. *)
Definition elsewhere (mode symbol : string) (envelope : dict) : Prop :=
  forall ids payload, event_scope envelope = Some (ids, payload) ->
    (ei_mode ids, normal_symbol (ei_symbol ids)) <> (mode, symbol).

Definition fails_for (mode : string) (x : arrival) (res : result bool) : Prop :=
  forall ids payload, event_scope (ar_envelope x) = Some (ids, payload) -> ei_mode ids = mode -> exists e, res = Raise e.

Lemma handle_blocked x r r' res mode symbol :
  store_ok (sw_store r) -> unmarked_open (sw_store r) mode symbol -> elsewhere mode symbol (ar_envelope x) ->
  handle_stored (ar_clock x) (ar_uuids x) (ar_envelope x) r = (r', res) ->
  store_ok (sw_store r') /\ unmarked_open (sw_store r') mode symbol /\ fails_for mode x res.
Proof.
  intros Hok (p & Hp & Hflat & Hmark) Hel H. pose proof (handle_stored_spec _ _ _ _ _ _ Hok H) as [Hok' Hcase].
  assert (unmarked_open (sw_store r') mode symbol) as Hun.
  { exists p. destruct Hcase as [[[HP HM] _]|(now & f & u & Hb & _ & _ & B2 & _ & B4)]; [by rewrite HP, HM|].
    unfold booking in Hb. destruct (event_scope (ar_envelope x)) as [[ids payload]|] eqn:Hsc; [|done].
    destruct (_to_lifecycle_event _ _) as [ev|]; [|done]. apply fmap_Some in Hb as (fill & _ & [= -> ->]).
    specialize (Hel _ _ Hsc). rewrite B2, B4; [done| |intros E; apply Hel; by rewrite E].
    cbn. intros [= E1 E2]. apply Hel. subst mode symbol. f_equal.
    by eapply get_position_normal; [apply Hok|]. }
  split; [done|]. split; [done|]. intros ids payload Hsc <-. unfold handle_stored, on_store, zoom in H.
  rewrite Hsc in H. unfold mbind at 1, prog_bind at 1 in H.
  destruct (process _ _ _ _ _ _ (sw_store r)) as [db' [a|e]] eqn:Ep; injection H as <- <-; [|by exists e].
  by apply (process_marked _ _ _ _ _ _ _ _ _ symbol Hok Hsc) in Ep.
Qed.

(** Once an open position has no mark, which is what the fill of a symbol in
    lower case leaves behind, every event of its mode fails, whatever its symbol
    and whenever it comes, until a fill for exactly the stored symbol arrives. *)
Theorem unmarked_position_blocks_mode mode symbol l r r' rs :
  store_ok (sw_store r) -> unmarked_open (sw_store r) mode symbol ->
  Forall (fun x => elsewhere mode symbol (ar_envelope x)) l -> handle_all l r = (r', rs) ->
  unmarked_open (sw_store r') mode symbol /\ Forall2 (fails_for mode) l rs.
Proof.
  intros Hok Hun Hl. revert r rs Hok Hun. induction Hl as [|x l Hx Hl IH]; intros r rs Hok Hun; cbn [handle_all].
  - intros [= <- <-]. by split.
  - destruct (handle_stored _ _ _ r) as [r1 res] eqn:E1. destruct (handle_all l r1) as [r2 rs'] eqn:E2.
    intros [= <- <-]. destruct (handle_blocked x _ _ _ _ _ Hok Hun Hx E1) as (Hok1 & Hun1 & Hf).
    destruct (IH r1 rs' Hok1 Hun1 E2). split; [done|]. by constructor.
Qed.

(** Fills of another order id are not counted. *)
Lemma collect_foreign oid evs acc r :
  Forall (fun ev => forall f, le_fill ev = Some f -> rf_order_id f <> oid) evs ->
  fold_res (collect_event oid) acc evs = Ok r -> r.2 = acc.2.
Proof.
  intros Hf. revert acc. induction Hf as [|ev evs Hev _ IH]; intros acc H; [by injection H as <-|].
  cbn [fold_res] in H. apply bind_Ok in H as (acc' & Ha & H). rewrite (IH _ H). destruct acc as [ss fs].
  unfold collect_event in Ha. apply bind_Ok in Ha as (i & _ & Ha). destruct (le_fill ev) as [f|]; [|by injection Ha as <-].
  rewrite (proj2 (String.eqb_neq _ _) (Hev f eq_refl)) in Ha. by injection Ha as <-.
Qed.

Lemma reconcile_foreign order evs rec :
  Forall (fun ev => forall f, le_fill ev = Some f -> rf_order_id f <> ro_order_id order) evs ->
  ro_filled_quantity order = d0 -> ro_average_price order = None -> reconcile order evs None = Ok rec ->
  fr_filled_quantity rec = d0 /\ fr_average_price rec = None.
Proof.
  intros Hf Hq Ha H. unfold reconcile in H. apply bind_Ok in H as (st & _ & H). apply bind_Ok in H as ([ss fs] & Hc & H).
  apply collect_foreign in Hc; [|done]. cbn [snd] in Hc. subst fs. unfold settle in H. rewrite Hq, Ha in H.
  cbn [mbind result_bind dedupe_fills] in H. change (filled_quantity (dedupe_fills [])) with (Ok d0) in H.
  change (weighted_average_price (dedupe_fills [])) with (Ok (@None dec)) in H.
  change (dmax d0 d0) with (Ok d0) in H. cbn [mbind result_bind] in H.
  assert (dleb d0 FillReconciliation.EPSILON = Ok true) as E by reflexivity. rewrite E in H. cbn [mbind result_bind] in H.
  apply bind_Ok in H as (rq & _ & H). apply bind_Ok in H as (fs & _ & H). apply bind_Ok in H as (ch & _ & H).
  by injection H as <-.
Qed.

Lemma loaded_event_id u order_id db ev f :
  strip order_id <> ""%string -> ev ∈ load_lifecycle_events u order_id db -> le_fill ev = Some f ->
  rf_order_id f = order_uuid order_id.
Proof.
  intros Hid Hev Hf. rewrite load_events_rows in Hev by done. apply list_elem_of_fmap in Hev as (row & -> & _).
  unfold event_of_row, fill_of_row in Hf. by apply fmap_Some in Hf as (x & _ & ->).
Qed.

(** What the order part of such a step stores. *)
Lemma first_event_order clock u4 ids requested ev db db' o u :
  store_ok db -> strip (ei_order_id ids) <> ""%string -> order_uuid (ei_order_id ids) <> ei_order_id ids ->
  update_stored_order clock u4 ids (new_order ids requested) ev db = (db', Ok o) ->
  get_order u (ei_order_id ids) db' = Some (stored_order o) /\
  ro_filled_quantity o = d0 /\ ro_average_price o = None.
Proof.
  intros [Hok _] Hid Hne H. unfold update_stored_order in H. apply prog_bind_Ok in H as (db1 & [] & Ha & H).
  apply append_event_spec in Ha as (Hok1 & _); [|done|done]. rewrite gets_bind, lift_bind in H.
  destruct (reconcile _ _ _) as [rec|] eqn:Er; [|done]. apply prog_bind_Ok in H as (db2 & [] & Hu & [= <- <-]).
  destruct (upsert_order_spec _ _ (reconciled_order ids (new_order ids requested) rec) _ _ _ Hok1 Hid Hu)
    as (_ & _ & _ & Hg & _). split; [by apply Hg|].
  apply reconcile_foreign in Er; [done| |done|done]. apply Forall_forall. intros e He f Hf.
  by rewrite (loaded_event_id _ _ _ _ _ Hid He Hf).
Qed.

Lemma book_stored_fill_orders clock u4 envelope payload ids ev db db' res u id :
  store_ok db -> strip id <> ""%string -> book_stored_fill clock u4 envelope payload ids ev db = (db', res) ->
  get_order u id db' = get_order u id db.
Proof.
  intros [Hok _] Hid. unfold book_stored_fill. destruct (le_fill ev) as [fill|]; [|by intros [= <- <-]].
  rewrite gets_bind, lift_bind. destruct (apply_fill _ _ _) as [up|]; [|by intros [= <- <-]]. unfold mbind, prog_bind.
  destruct (upsert_position _ _ _ db) as [db1 res1] eqn:Ep.
  pose proof (upsert_position_orders _ _ _ _ _ _ u id Hok Hid Ep) as Hg.
  destruct (upsert_position_spec _ _ _ _ _ _ Hok Ep) as (Hok1 & _).
  destruct res1 as [[]|e]; [|by intros [= <- <-]]. intros Hm.
  by destruct (upsert_mark_spec _ _ _ _ _ _ _ Hok1 Hm) as ([t ->] & _).
Qed.

(** The first event of an order whose id is not a UUID in its canonical form:
    the store returns the events under the UUID made of the id, and the order,
    which is not stored yet, carries the id itself. The fill is booked on the
    position, and the order is stored with nothing filled. *)
Theorem first_fill_not_counted clock u4 envelope ids payload r r' u :
  store_ok (sw_store r) -> event_scope envelope = Some (ids, payload) ->
  get_order (u4 0%nat) (ei_order_id ids) (sw_store r) = None -> order_uuid (ei_order_id ids) <> ei_order_id ids ->
  handle_stored clock u4 envelope r = (r', Ok true) ->
  exists o, get_order u (ei_order_id ids) (sw_store r') = Some o /\
    ro_filled_quantity o = DFin 0 (-1) /\ ro_average_price o = None /\
    (forall now f, booking clock envelope = Some (now, f) ->
       exists p, get_position (pf_mode f) (normal_symbol (pf_symbol f)) (sw_store r') = Some p /\
         mark_at (sw_store r') (pf_mode f) (pf_symbol f) = Some (float_of_dec (pf_price f))).
Proof.
  intros Hok Hsc Hnone Hne H. pose proof (handle_stored_spec _ _ _ _ _ _ Hok H) as [_ Hcase].
  destruct (event_scope_ids _ _ _ Hsc) as [Hid _]. unfold handle_stored, on_store, zoom in H. rewrite Hsc in H.
  unfold mbind at 1, prog_bind at 1 in H. destruct (process _ _ _ _ _ _ (sw_store r)) as [db' [a|e]] eqn:Ep; [|done].
  injection H as <-. cbn [sw_store set_sw_store set_sw_activity] in *. unfold process in Ep.
  rewrite lift_bind in Ep. destruct (_resolve_requested_quantity _) as [q|]; [|done].
  rewrite gets_bind, Hnone, lift_bind in Ep. cbn [default] in Ep.
  destruct (_to_lifecycle_event clock envelope) as [ev|] eqn:Eev; [|done].
  apply prog_bind_Ok in Ep as (db1 & o & Ho & Ep). pose proof Ho as Ho'.
  apply update_stored_order_spec in Ho' as (Hok1 & _); [|done|done].
  apply prog_bind_Ok in Ep as (db2 & [] & Hb & Ep). rewrite gets_bind in Ep.
  apply prog_bind_Ok in Ep as (db3 & sn & Hs & [= <- _]).
  destruct (first_event_order _ _ _ _ _ _ _ _ u Hok Hid Hne Ho) as (Hg & Hq & Ha).
  exists (stored_order o). cbn [stored_order ro_filled_quantity ro_average_price]. rewrite Hq, Ha. split_and!; [|done|done|].
  - rewrite <- Hg, <- (book_stored_fill_orders _ _ _ _ _ _ _ _ _ u _ Hok1 Hid Hb).
    unfold stored_snapshot in Hs. rewrite gets_bind in Hs. apply prog_bind_Ok in Hs as (d4 & total & [= <- _] & Hs).
    apply prog_bind_Ok in Hs as (d5 & s5 & [= <- _] & Hs). apply prog_bind_Ok in Hs as (d6 & [] & Hi & [= <- _]).
    by apply insert_snapshot_spec in Hi as [t ->].
  - intros now f Hbk. destruct Hcase as [[_ Hn]|(now' & f' & up & Hb' & _ & [t Ht] & _ & Hm & _)].
    + by rewrite (Hn eq_refl) in Hbk.
    + rewrite Hbk in Hb'. injection Hb' as <- <-. by eexists.
Qed.

Module Example_stored.
Definition clock (_ : nat) : Z := 63850000000000000.
Definition uuids (n k i : nat) : string := uuid_str (Z.of_nat n * 1000000 + Z.of_nat k * 1000 + Z.of_nat i).
Definition fill_event (order_id symbol action emitted_at : string) : dict :=
  [("trace_id", VStr "11111111-1111-4111-8111-111111111111");
   ("decision_id", VStr "22222222-2222-4222-8222-222222222222"); ("mode", VStr "MOCK");
   ("idempotency_key", VStr "intent-1:filled"); ("event_type", VStr "oms.order.filled");
   ("emitted_at", VStr emitted_at);
   ("payload", VDict [("order_id", VStr order_id); ("action", VStr action); ("symbol", VStr symbol);
                      ("quantity", VFloat (flit 5 (-1))); ("fill_price", VFloat (flit 50000 0));
                      ("fee_paid", VFloat (flit 25 0)); ("mode", VStr "MOCK")])].
Definition start (l : list dict) : StoredRunner :=
  stored_runner_init (OmsLifecycle.Example.queued l) (flit 100000 0) _ensure_schema.

(** A sale is booked as a short position, a second one in another process adds
    to it. *)
Definition sale (k : string) : dict := fill_event "ord-1" "BTC/USDT" "SELL" k.
Definition first_day : dict := sale "2024-05-01T12:00:00Z".
Definition next_day : dict := sale "2024-05-02T12:00:00Z".
Definition after_one := (run_stored_once clock (uuids 1) (start [first_day])).1.
Definition restarted := stored_runner_init (OmsLifecycle.Example.queued [next_day]) (flit 100000 0) (sw_store after_one).
Definition after_two := (run_stored_once clock (uuids 2) restarted).1.
Definition two_steps : list step := [Step clock first_day (Ok true); Step clock next_day (Ok true)].
Definition short (r : StoredRunner) : option dec := ps_quantity <$> get_position "MOCK" "BTC/USDT" (sw_store r).

(** The fill of a symbol in lower case, and an event for another symbol. *)
Definition lower_case : dict := fill_event "ord-2" "btc/usdt" "BUY" "2024-05-01T12:00:00Z".
Definition other : dict := fill_event "ord-3" "ETH/USDT" "BUY" "2024-05-01T12:00:01Z".
Definition blocked := (handle_stored clock (uuids 1) lower_case (start [])).1.
Definition later : list arrival := [Arrival clock (uuids 2) other; Arrival clock (uuids 3) other].

Lemma with_result {S A} (x : S * A) a : x.2 = a -> x = (x.1, a).
Proof. intros <-. apply surjective_pairing. Qed.

Lemma two_steps_run : stored_run after_two two_steps.
Proof.
  apply (stored_step restarted [Step clock first_day (Ok true)] clock (uuids 2) (OmsLifecycle.Example.queued []) next_day).
  - apply (stored_restart after_one).
    apply (stored_step (start [first_day]) [] clock (uuids 1) (OmsLifecycle.Example.queued []) first_day).
    + apply stored_init.
    + vm_compute. reflexivity.
    + unfold after_one. apply with_result. vm_compute. reflexivity.
  - vm_compute. reflexivity.
  - unfold after_two. apply with_result. vm_compute. reflexivity.
Qed.

Lemma stored_runner_ledgers_witness :
  exists h, ledger_in (sw_store after_two) h /\
    omap step_booking (filter (fun s => returned_true s = true) two_steps) `sublist_of` h /\
    h `sublist_of` omap step_booking two_steps /\ short after_two = Some (DFin (-10) (-1)).
Proof.
  destruct (stored_runner_ledgers after_two two_steps two_steps_run) as (h & H1 & H2 & H3).
  exists h. split; [exact H1|]. split; [exact H2|]. split; [exact H3|]. vm_compute. reflexivity.
Defined.

Lemma stored_tables_consistent_witness :
  db_ok (sw_store after_two) /\ (fr_side <$> db_fills (sw_store after_two)) = ["BUY"; "BUY"]%string /\
  short after_two = Some (DFin (-10) (-1)).
Proof.
  destruct (stored_tables_consistent after_two two_steps two_steps_run) as (H1 & _ & _ & _).
  split; [exact H1|]. split; vm_compute; reflexivity.
Defined.

(** A fill of an infinite quantity: the reconciliation raises after the event and
    the fill are stored, and there is no order for them. *)
Definition endless : dict :=
  [("mode", VStr "MOCK"); ("event_type", VStr "oms.order.filled"); ("emitted_at", VStr "2024-05-01T12:00:00Z");
   ("payload", VDict [("order_id", VStr "33333333-3333-4333-8333-333333333333"); ("action", VStr "BUY"); ("symbol", VStr "BTC/USDT");
                      ("quantity", VFloat (S754_infinity false)); ("fill_price", VFloat (flit 50000 0));
                      ("fee_paid", VFloat fzero); ("mode", VStr "MOCK")])].

Example fill_without_order :
  let '(r, res) := handle_stored clock (uuids 1) endless (start []) in
  is_ok res = false /\ db_orders (sw_store r) = [] /\ List.length (db_fills (sw_store r)) = 1%nat.
Proof. vm_compute. done. Qed.

Lemma blocked_unmarked : store_ok (sw_store blocked) /\ unmarked_open (sw_store blocked) "MOCK" "BTC/USDT".
Proof.
  split.
  - apply (handle_stored_spec clock (uuids 1) lower_case (start []) blocked _ ensure_schema_ok
      (surjective_pairing (handle_stored clock (uuids 1) lower_case (start [])))).
  - unfold unmarked_open. destruct (get_position "MOCK" "BTC/USDT" (sw_store blocked)) as [p|] eqn:E;
      [|vm_compute in E; discriminate E].
    exists p. split; [done|]. vm_compute in E. injection E as <-. split; vm_compute; reflexivity.
Qed.

Lemma unmarked_position_blocks_mode_witness :
  (handle_stored clock (uuids 1) lower_case (start [])).2 =
    Raise (Exc PortfolioSnapshotEngineError "missing mark price for open position symbol: BTC/USDT") /\
  unmarked_open (sw_store (handle_all later blocked).1) "MOCK" "BTC/USDT" /\
  Forall2 (fails_for "MOCK") later (handle_all later blocked).2.
Proof.
  split; [vm_compute; reflexivity|].
  apply (unmarked_position_blocks_mode "MOCK" "BTC/USDT" later blocked).
  - apply blocked_unmarked.
  - apply blocked_unmarked.
  - repeat constructor; intros ids payload [= <- <-]; vm_compute; discriminate.
  - apply surjective_pairing.
Defined.

Lemma first_fill_not_counted_witness :
  exists o, get_order (uuids 0 0) "ord-1" (sw_store after_one) = Some o /\
    (ro_status o, ro_filled_quantity o, ro_average_price o) = ("FILLED"%string, DFin 0 (-1), None) /\
    short after_one = Some (DFin (-5) (-1)).
Proof.
  destruct (event_scope first_day) as [[ids payload]|] eqn:Hsc; [|discriminate Hsc].
  destruct (first_fill_not_counted clock (uuids 1) first_day ids payload (set_sw_broker (OmsLifecycle.Example.queued []) (start [first_day]))
    after_one (uuids 0 0)) as (o & Ho & _).
  - apply ensure_schema_ok.
  - exact Hsc.
  - reflexivity.
  - injection Hsc as <- <-. vm_compute. discriminate.
  - transitivity (run_stored_once clock (uuids 1) (start [first_day])); [vm_compute; reflexivity|].
    unfold after_one. apply with_result. vm_compute. reflexivity.
  - injection Hsc as <- <-. exists o. split; [exact Ho|]. split; [|vm_compute; reflexivity].
    vm_compute in Ho. injection Ho as <-. reflexivity.
Defined.
End Example_stored.
