(* ===== verification/SpotAdapters.v ===== *)
(** * Dispatch of real orders

    [services/api/internal_execution/adapters.py] and the bridge endpoint of
    [services/api/routers/internal.py]: a command is checked, turned into one
    signed request to the exchange (or answered locally when real dispatch is
    disabled) and its reply normalised. The environment, the clock and the HTTP
    client are the argument [io]; the state of a computation is the list of the
    requests sent so far. *)

From S2P Require Import Prelude PyStr PyFloat PyDecimal PyTime PyUuid PyHash PyVal PyJson Http.
From stdpp Require Import options.
From Stdlib Require Import Ascii String SpecFloat.

#[local] Open Scope Z_scope.

(** ** The outside *)

Record outside := {
  io_env : string -> option string;
  io_http : list http_request -> http_request -> http_reply;
  io_time : f64;
  io_now : Z;
}.

Definition sends (A : Type) : Type := prog (list http_request) A.

Definition send (io : outside) (r : http_request) : sends http_reply :=
  fun log => (log ++ [r], Ok (io_http io log r)).

Definition getenv (io : outside) (name dflt : string) : string := default dflt (io_env io name).

(** ** Constants *)

Definition _ALLOWED_EXCHANGES : list string := ["binance"; "bitget"].
Definition _ALLOWED_ORDER_TYPES : list string := ["MARKET"; "LIMIT"; "STOP_MARKET"; "TAKE_PROFIT_MARKET"].
Definition _ALLOWED_TIME_IN_FORCE : list string := ["GTC"; "IOC"; "FOK"].
Definition _REAL_MODE_ENV : string := "INTERNAL_EXECUTION_REAL_DISPATCH".

Definition one_of (s : string) (l : list string) : bool := existsb (String.eqb s) l.

Record DispatchOutcome := {
  do_order_id : string;
  do_status : string;
  do_raw_response : dict;
}.

(** ** Normalisation of the fields *)

Definition invalid_dispatch {A} (msg : string) : result A := raise InternalDispatchValidationError msg.

Definition normalize_exchange (exchange : string) : result string :=
  let normalized := lower (strip exchange) in
  if one_of normalized _ALLOWED_EXCHANGES then Ok normalized
  else invalid_dispatch ("unsupported exchange: " +:+ exchange +:+ "; allowed=['binance', 'bitget']").

Definition normalize_order_type (order_type : string) : result string :=
  let normalized := str_or (upper (strip order_type)) "MARKET" in
  if one_of normalized _ALLOWED_ORDER_TYPES then Ok normalized
  else invalid_dispatch "order_type must be one of MARKET, LIMIT, STOP_MARKET, TAKE_PROFIT_MARKET".

Definition normalize_time_in_force (value : option string) : result (option string) :=
  match value with
  | None => Ok None
  | Some v =>
      let normalized := upper (strip v) in
      if is_empty normalized then Ok None
      else if one_of normalized _ALLOWED_TIME_IN_FORCE then Ok (Some normalized)
      else invalid_dispatch "time_in_force must be one of GTC, IOC, FOK"
  end.

Definition is_some {A} (o : option A) : bool := match o with Some _ => true | None => false end.

(** [price is None or float(price) <= 0] *)
Definition not_positive (price : option f64) : bool :=
  match price with Some p => fleb p fzero | None => true end.

Definition validate_create_order_fields (order_type : string) (time_in_force : option string)
    (quantity : f64) (limit_price trigger_price : option f64) : result unit :=
  _ ← raise_if (fltb quantity (flit 1 (-9))) InternalDispatchValidationError
        "quantity must be positive for create operation";
  if String.eqb order_type "MARKET" then
    _ ← raise_if (is_some limit_price) InternalDispatchValidationError
          "limit_price is not allowed for MARKET orders";
    raise_if (is_some trigger_price) InternalDispatchValidationError
      "trigger_price is not allowed for MARKET orders"
  else if String.eqb order_type "LIMIT" then
    _ ← raise_if (not_positive limit_price) InternalDispatchValidationError
          "limit_price must be positive for LIMIT orders";
    _ ← raise_if (is_some trigger_price) InternalDispatchValidationError
          "trigger_price is not allowed for LIMIT orders";
    raise_if (negb (is_some time_in_force)) InternalDispatchValidationError
      "time_in_force is required for LIMIT orders"
  else if String.eqb order_type "STOP_MARKET" || String.eqb order_type "TAKE_PROFIT_MARKET" then
    _ ← raise_if (not_positive trigger_price) InternalDispatchValidationError
          "trigger_price must be positive for STOP_MARKET and TAKE_PROFIT_MARKET";
    raise_if (is_some limit_price) InternalDispatchValidationError
      "limit_price is not allowed for STOP_MARKET and TAKE_PROFIT_MARKET"
  else Ok tt.

Definition _to_exchange_symbol (symbol : string) : result string :=
  let normalized := replace "/" "" (upper (strip symbol)) in
  if is_empty normalized then invalid_dispatch "symbol must be non-empty" else Ok normalized.

Definition _resolve_exchange_side (action : string) : result string :=
  let normalized := upper (strip action) in
  if String.eqb normalized "BUY" then Ok "BUY"%string
  else if String.eqb normalized "SELL" || String.eqb normalized "CLOSE" then Ok "SELL"%string
  else if String.eqb normalized "CANCEL" then Ok "SELL"%string
  else invalid_dispatch ("unsupported action for exchange dispatch: " +:+ action).

Definition _binance_order_type (order_type : string) : string :=
  if String.eqb order_type "LIMIT" then "LIMIT"
  else if String.eqb order_type "STOP_MARKET" then "STOP_LOSS"
  else if String.eqb order_type "TAKE_PROFIT_MARKET" then "TAKE_PROFIT"
  else "MARKET".

Definition _bitget_time_in_force (value : string) : string :=
  let normalized := upper (strip value) in
  if String.eqb normalized "IOC" then "ioc" else if String.eqb normalized "FOK" then "fok" else "gtc".

(** [format(d, "f")]: positional notation. *)
Definition format_f (d : dec) : string :=
  match d with
  | DFin c e =>
      let '(c, e) := if (c =? 0) && (0 <? e) then (0, 0) else (c, e) in
      let ds := str_of_Z (Z.abs c) in
      let n := Z.of_nat (String.length ds) in
      let dot := e + n in
      (if c <? 0 then "-" else "") +:+
      (if dot <? 0 then "0." +:+ zeros (- dot) +:+ ds
       else if n <=? dot then ds +:+ zeros (dot - n)
       else str_or (str_take (Z.to_nat dot) ds) "0" +:+ "." +:+ str_drop (Z.to_nat dot) ds)
  | _ => dec_str d
  end.

Definition _decimal_string (value : val) : result string :=
  match value with
  | VNone => invalid_dispatch "numeric field is required"
  | _ =>
      d ← try_except (dec_of_string (py_str value))
            (fun c => bool_decide (c = InvalidOperation) || is_value_error c)
            (fun _ => invalid_dispatch ("invalid numeric field value: " +:+ py_str value));
      small ← dleb d d0;
      if small : bool then invalid_dispatch ("numeric field must be positive: " +:+ py_str value)
      else Ok (str_or (rstrip_with (Ascii.eqb ".") (rstrip_with (Ascii.eqb "0") (format_f d))) "0")
  end.

(** [str(payload.get(key, "")).strip()] *)
Definition field (key : string) (payload : dict) : string := strip (py_str (dget_or key (VStr "") payload)).

Definition _resolve_order_id (payload : dict) : string :=
  let decision_id := field "decision_id" payload in
  if negb (is_empty (field "exchange_order_id" payload)) then field "exchange_order_id" payload
  else if negb (is_empty (field "client_order_id" payload)) then field "client_order_id" payload
  else if negb (is_empty (field "command_id" payload)) then field "command_id" payload
  else if negb (is_empty decision_id) then "bridge-" +:+ str_take 8 decision_id else "bridge-unknown".

Definition _resolve_client_order_id (payload : dict) : string :=
  let candidate := field "client_order_id" payload in
  let command_id := field "command_id" payload in
  let idempotency_key := field "idempotency_key" payload in
  if negb (is_empty candidate) then str_take 32 candidate
  else if negb (is_empty command_id) then str_take 32 command_id
  else if is_empty idempotency_key then ""
  else str_take 32 (replace ":" "_" idempotency_key).

Definition status_names : list (string * string) :=
  [("NEW", "submitted"); ("LIVE", "submitted"); ("INIT", "submitted");
   ("PARTIALLY_FILLED", "partially_filled"); ("PARTIAL_FILL", "partially_filled");
   ("PARTIALLYFILLED", "partially_filled"); ("FILLED", "filled"); ("CANCELED", "canceled");
   ("CANCELLED", "canceled"); ("REJECTED", "rejected"); ("EXPIRED", "expired")]%string.

Definition _normalize_exchange_status (status : val) (fallback : string) : string :=
  let normalized := upper (strip (py_str (py_or status (VStr "")))) in
  if is_empty normalized then fallback
  else default (lower normalized) (assoc_get normalized status_names).

Definition _bitget_data_object (parsed : dict) : dict :=
  match dget "data" parsed with
  | VList (VDict item :: _) => item
  | VDict data => data
  | _ => []
  end.

(** ** HTTP *)

Definition upstream_error {A} (msg : string) : result A := raise InternalDispatchUpstreamError msg.

Definition _request_json (io : outside) (url method : string) (body : option string)
    (headers : list (string * string)) (timeout_seconds : f64) (provider : string) : sends val :=
  reply ← send io {| hr_method := method; hr_url := url; hr_body := body; hr_headers := headers;
                     hr_timeout := timeout_seconds |};
  lift match reply with
       | HttpText raw =>
           try_except (json_loads raw) (fun c => bool_decide (c = JSONDecodeError))
             (fun _ => upstream_error (provider +:+ " response is not valid JSON"))
       | HttpStatusError status detail =>
           upstream_error (provider +:+ " HTTP " +:+ str_of_Z status +:+ ": " +:+ detail)
       | HttpError message => upstream_error (provider +:+ " connection error: " +:+ message)
       end.

(** [str(int(time.time() * 1000))] *)
Definition timestamp_ms (io : outside) : result string :=
  n ← trunc_float (fmul (io_time io) (flit 1000 0)); Ok (str_of_Z n).

(** The parameters that are neither [None] nor blank, as text. *)
Definition rendered (params : dict) : list (string * string) :=
  omap (fun kv : string * val =>
    match kv.2 with
    | VNone => None
    | v => let r := strip (py_str v) in if is_empty r then None else Some (kv.1, r)
    end) params.

Definition hmac_of (secret text : string) : list Z := hmac_sha256 (bytes_of secret) (bytes_of text).

(** The [max(0.1, float(os.getenv(...)))] of both adapters. *)
Definition http_timeout (io : outside) : result f64 :=
  t ← float_of_val (VStr (getenv io "INTERNAL_EXECUTION_HTTP_TIMEOUT_SECONDS" "10.0"));
  Ok (fmax (flit 1 (-1)) t).

(** ** The signed Binance adapter *)

Record BinanceSignedSpotExecutionAdapter := {
  bn_base_url : string;
  bn_api_key : string;
  bn_api_secret : string;
  bn_timeout_seconds : f64;
  bn_recv_window_ms : Z;
}.

Definition rstrip_slash (s : string) : string := rstrip_with (Ascii.eqb "/") s.

Definition binance_init (io : outside) : result BinanceSignedSpotExecutionAdapter :=
  let api_key := strip (getenv io "BINANCE_API_KEY" "") in
  let api_secret := strip (getenv io "BINANCE_API_SECRET" "") in
  timeout_seconds ← http_timeout io;
  recv ← int_of_val (VStr (getenv io "BINANCE_RECV_WINDOW_MS" "5000"));
  if is_empty api_key || is_empty api_secret
  then invalid_dispatch
         "missing Binance credentials for real dispatch; set BINANCE_API_KEY and BINANCE_API_SECRET"
  else Ok {| bn_base_url := rstrip_slash (getenv io "BINANCE_BASE_URL" "https://api.binance.com");
             bn_api_key := api_key; bn_api_secret := api_secret;
             bn_timeout_seconds := timeout_seconds; bn_recv_window_ms := Z.max 1000 recv |}.

(** The query string that is signed, and the request that carries it. *)
Definition binance_query (a : BinanceSignedSpotExecutionAdapter) (timestamp : string) (params : dict) : string :=
  urlencode (rendered params ++
    [("recvWindow"%string, str_of_Z (bn_recv_window_ms a)); ("timestamp"%string, timestamp)]).

Definition binance_url (a : BinanceSignedSpotExecutionAdapter) (path query : string) : string :=
  bn_base_url a +:+ path +:+ "?" +:+ query +:+ "&signature=" +:+ words_hex (hmac_of (bn_api_secret a) query).

(** [code is not None and msg], with a negative code. *)
Definition binance_rejected (parsed : dict) : bool :=
  negb (is_none (dget "code" parsed)) && truthy (dget "msg" parsed) &&
  starts_with "-" (py_str (dget "code" parsed)).

Definition binance_signed_request (io : outside) (a : BinanceSignedSpotExecutionAdapter)
    (method path : string) (params : dict) : sends dict :=
  timestamp ← lift (timestamp_ms io);
  parsed ← _request_json io (binance_url a path (binance_query a timestamp params)) (upper method) None
             [("X-MBX-APIKEY"%string, bn_api_key a)] (bn_timeout_seconds a) "Binance";
  lift match parsed with
       | VDict d =>
           if binance_rejected d
           then upstream_error ("Binance order rejected (code=" +:+ py_str (dget "code" d) +:+ ")")
           else Ok d
       | _ => upstream_error "Binance response must be a JSON object"
       end.

(** The [raw_response] of the signed adapters. *)
Definition raw_response (io : outside) (exchange route : string) (payload response : dict) : dict :=
  [("exchange", VStr exchange); ("market", VStr "spot"); ("route", VStr route); ("payload", VDict payload);
   ("exchange_response", VDict response); ("processed_at", VStr (iso_z (io_now io)))]%string.

Definition text_field (key dflt : string) (payload : dict) : string := py_str (dget_or key (VStr dflt) payload).

Definition order_type_of (payload : dict) : string := upper (text_field "order_type" "MARKET" payload).

Definition is_trigger (order_type : string) : bool :=
  String.eqb order_type "STOP_MARKET" || String.eqb order_type "TAKE_PROFIT_MARKET".

Definition opt_field (key value : string) : dict := if is_empty value then [] else [(key, VStr value)].

Definition binance_create_params (payload : dict) : result dict :=
  let order_type := order_type_of payload in
  symbol ← _to_exchange_symbol (text_field "symbol" "" payload);
  side ← _resolve_exchange_side (text_field "action" "BUY" payload);
  quantity ← _decimal_string (dget "quantity" payload);
  limit ← (if String.eqb order_type "LIMIT"
           then price ← _decimal_string (dget "limit_price" payload);
                Ok [("timeInForce"%string, VStr (upper (text_field "time_in_force" "GTC" payload)));
                    ("price"%string, VStr price)]
           else Ok []);
  stop ← (if is_trigger order_type
          then price ← _decimal_string (dget "trigger_price" payload);
               Ok [("stopPrice"%string, VStr price)]
          else Ok []);
  Ok ([("symbol", VStr symbol); ("side", VStr side); ("type", VStr (_binance_order_type order_type));
       ("quantity", VStr quantity); ("newOrderRespType", VStr "RESULT")]%string ++
      opt_field "newClientOrderId" (_resolve_client_order_id payload) ++ limit ++ stop).

Definition binance_create_order (io : outside) (a : BinanceSignedSpotExecutionAdapter) (payload : dict)
  : sends DispatchOutcome :=
  params ← lift (binance_create_params payload);
  response ← binance_signed_request io a "POST" "/api/v3/order" params;
  mret {| do_order_id := py_str (py_or (dget "orderId" response) (VStr (_resolve_order_id payload)));
          do_status := _normalize_exchange_status (dget "status" response) "submitted";
          do_raw_response := raw_response io "binance" "binance.spot.orders.create" payload response |}.

(** Cancel and status name the order by its ids. *)
Definition binance_ref_params (payload : dict) : result dict :=
  symbol ← _to_exchange_symbol (text_field "symbol" "" payload);
  Ok ([("symbol"%string, VStr symbol)] ++ opt_field "orderId" (field "exchange_order_id" payload) ++
      opt_field "origClientOrderId" (field "client_order_id" payload)).

Definition known_order_id (found : val) (payload : dict) : string :=
  py_str (py_or found (py_or (VStr (field "exchange_order_id" payload))
    (py_or (VStr (field "client_order_id" payload)) (VStr (_resolve_order_id payload))))).

Definition binance_reference_order (io : outside) (a : BinanceSignedSpotExecutionAdapter)
    (method fallback route : string) (payload : dict) : sends DispatchOutcome :=
  params ← lift (binance_ref_params payload);
  response ← binance_signed_request io a method "/api/v3/order" params;
  mret {| do_order_id := known_order_id (dget "orderId" response) payload;
          do_status := _normalize_exchange_status (dget "status" response) fallback;
          do_raw_response := raw_response io "binance" route payload response |}.

Definition binance_cancel_order (io : outside) (a : BinanceSignedSpotExecutionAdapter) (payload : dict) :=
  binance_reference_order io a "DELETE" "canceled" "binance.spot.orders.cancel" payload.
Definition binance_get_order_status (io : outside) (a : BinanceSignedSpotExecutionAdapter) (payload : dict) :=
  binance_reference_order io a "GET" "submitted" "binance.spot.orders.status" payload.

(** ** The signed Bitget adapter *)

Record BitgetSignedSpotExecutionAdapter := {
  bg_base_url : string;
  bg_api_key : string;
  bg_api_secret : string;
  bg_passphrase : string;
  bg_timeout_seconds : f64;
}.

Definition bitget_init (io : outside) : result BitgetSignedSpotExecutionAdapter :=
  let api_key := strip (getenv io "BITGET_API_KEY" "") in
  let api_secret := strip (getenv io "BITGET_API_SECRET" "") in
  let passphrase := strip (getenv io "BITGET_API_PASSPHRASE" "") in
  timeout_seconds ← http_timeout io;
  if is_empty api_key || is_empty api_secret || is_empty passphrase
  then invalid_dispatch
         "missing Bitget credentials for real dispatch; set BITGET_API_KEY, BITGET_API_SECRET, BITGET_API_PASSPHRASE"
  else Ok {| bg_base_url := rstrip_slash (getenv io "BITGET_BASE_URL" "https://api.bitget.com");
             bg_api_key := api_key; bg_api_secret := api_secret; bg_passphrase := passphrase;
             bg_timeout_seconds := timeout_seconds |}.

Definition bitget_request_path (path : string) (query : dict) : string :=
  let query_string := urlencode (rendered query) in
  if is_empty query_string then path else path +:+ "?" +:+ query_string.

(** The text that is signed: time, method, path with query, body. *)
Definition bitget_prehash (timestamp method request_path payload_text : string) : string :=
  timestamp +:+ upper method +:+ request_path +:+ payload_text.

Definition bitget_headers (a : BitgetSignedSpotExecutionAdapter) (timestamp prehash : string)
  : list (string * string) :=
  [("ACCESS-KEY", bg_api_key a);
   ("ACCESS-SIGN", base64 (words_bytes (hmac_of (bg_api_secret a) prehash)));
   ("ACCESS-TIMESTAMP", timestamp); ("ACCESS-PASSPHRASE", bg_passphrase a);
   ("locale", "en-US"); ("Content-Type", "application/json")]%string.

Definition bitget_signed_request (io : outside) (a : BitgetSignedSpotExecutionAdapter)
    (method path : string) (query body : dict) : sends dict :=
  let request_path := bitget_request_path path query in
  payload_text ← lift (match body with [] => Ok ""%string | _ => json_dumps json_compact (VDict body) end);
  timestamp ← lift (timestamp_ms io);
  parsed ← _request_json io (bg_base_url a +:+ request_path) (upper method)
             (if is_empty payload_text then None else Some payload_text)
             (bitget_headers a timestamp (bitget_prehash timestamp method request_path payload_text))
             (bg_timeout_seconds a) "Bitget";
  lift match parsed with
       | VDict d =>
           let code := field "code" d in
           if one_of code [""; "00000"; "0"]%string then Ok d
           else upstream_error ("Bitget order rejected (code=" +:+ code +:+ ")")
       | _ => upstream_error "Bitget response must be a JSON object"
       end.

(** The path and the body of a new order. *)
Definition bitget_create_body (payload : dict) : result (string * dict) :=
  let order_type := order_type_of payload in
  symbol ← _to_exchange_symbol (text_field "symbol" "" payload);
  side ← lower <$> _resolve_exchange_side (text_field "action" "BUY" payload);
  let client := opt_field "clientOid" (_resolve_client_order_id payload) in
  if is_trigger order_type then
    trigger ← _decimal_string (dget "trigger_price" payload);
    size ← _decimal_string (dget "quantity" payload);
    Ok ("/api/v2/spot/trade/place-plan-order"%string,
        [("symbol", VStr symbol); ("side", VStr side); ("triggerPrice", VStr trigger);
         ("triggerType", VStr "mark_price"); ("orderType", VStr "market"); ("size", VStr size);
         ("planType", VStr "amount")]%string ++ client)
  else
    size ← _decimal_string (dget "quantity" payload);
    limit ← (if String.eqb order_type "LIMIT"
             then price ← _decimal_string (dget "limit_price" payload);
                  Ok [("price"%string, VStr price);
                      ("force"%string, VStr (_bitget_time_in_force (text_field "time_in_force" "GTC" payload)))]
             else Ok []);
    Ok ("/api/v2/spot/trade/place-order"%string,
        [("symbol", VStr symbol); ("side", VStr side);
         ("orderType", VStr (if String.eqb order_type "LIMIT" then "limit" else "market"));
         ("size", VStr size)]%string ++ client ++ limit).

Definition bitget_create_order (io : outside) (a : BitgetSignedSpotExecutionAdapter) (payload : dict)
  : sends DispatchOutcome :=
  '(path, body) ← lift (bitget_create_body payload);
  response ← bitget_signed_request io a "POST" path [] body;
  mret {| do_order_id := py_str (py_or (dget "orderId" (_bitget_data_object response))
                                   (VStr (_resolve_order_id payload)));
          do_status := "submitted";
          do_raw_response := raw_response io "bitget" "bitget.spot.orders.create" payload response |}.

Definition bitget_ref_params (payload : dict) : result dict :=
  symbol ← _to_exchange_symbol (text_field "symbol" "" payload);
  Ok ([("symbol"%string, VStr symbol)] ++ opt_field "orderId" (field "exchange_order_id" payload) ++
      opt_field "clientOid" (field "client_order_id" payload)).

Definition bitget_cancel_order (io : outside) (a : BitgetSignedSpotExecutionAdapter) (payload : dict)
  : sends DispatchOutcome :=
  body ← lift (bitget_ref_params payload);
  response ← bitget_signed_request io a "POST" "/api/v2/spot/trade/cancel-order" [] body;
  mret {| do_order_id := known_order_id (dget "orderId" (_bitget_data_object response)) payload;
          do_status := "canceled";
          do_raw_response := raw_response io "bitget" "bitget.spot.orders.cancel" payload response |}.

(** The first row of the reply; a row that is no mapping has no [get]. *)
Definition bitget_status_row (response : dict) : result dict :=
  match dget "data" response with
  | VList [] => Ok []
  | VList (VDict row :: _) => Ok row
  | VList (_ :: _) => raise AttributeError ("object has no attribute 'get'")
  | VDict row => Ok row
  | _ => Ok []
  end.

Definition bitget_get_order_status (io : outside) (a : BitgetSignedSpotExecutionAdapter) (payload : dict)
  : sends DispatchOutcome :=
  query ← lift (bitget_ref_params payload);
  response ← bitget_signed_request io a "GET" "/api/v2/spot/trade/orderInfo" query [];
  row ← lift (bitget_status_row response);
  mret {| do_order_id := known_order_id (dget "orderId" row) payload;
          do_status := _normalize_exchange_status (dget "status" row) "submitted";
          do_raw_response := raw_response io "bitget" "bitget.spot.orders.status" payload response |}.

(** ** The adapters *)

Inductive SpotExecutionAdapter :=
  | BinanceSpotExecutionAdapter
  | BitgetSpotExecutionAdapter
  | BinanceSigned (a : BinanceSignedSpotExecutionAdapter)
  | BitgetSigned (a : BitgetSignedSpotExecutionAdapter).

Definition _simulated_outcome (io : outside) (exchange route status : string) (payload : dict)
  : DispatchOutcome :=
  {| do_order_id := _resolve_order_id payload; do_status := status;
     do_raw_response :=
       [("exchange", VStr exchange); ("market", VStr "spot"); ("accepted", VBool true); ("route", VStr route);
        ("payload", VDict payload); ("processed_at", VStr (iso_z (io_now io)))]%string |}.

Definition create_order (io : outside) (a : SpotExecutionAdapter) (payload : dict) : sends DispatchOutcome :=
  match a with
  | BinanceSpotExecutionAdapter =>
      mret (_simulated_outcome io "binance" "binance.spot.orders.create" "submitted" payload)
  | BitgetSpotExecutionAdapter =>
      mret (_simulated_outcome io "bitget" "bitget.spot.orders.create" "submitted" payload)
  | BinanceSigned a => binance_create_order io a payload
  | BitgetSigned a => bitget_create_order io a payload
  end.

Definition cancel_order (io : outside) (a : SpotExecutionAdapter) (payload : dict) : sends DispatchOutcome :=
  match a with
  | BinanceSpotExecutionAdapter =>
      mret (_simulated_outcome io "binance" "binance.spot.orders.cancel" "canceled" payload)
  | BitgetSpotExecutionAdapter =>
      mret (_simulated_outcome io "bitget" "bitget.spot.orders.cancel" "canceled" payload)
  | BinanceSigned a => binance_cancel_order io a payload
  | BitgetSigned a => bitget_cancel_order io a payload
  end.

Definition get_order_status (io : outside) (a : SpotExecutionAdapter) (payload : dict) : sends DispatchOutcome :=
  match a with
  | BinanceSpotExecutionAdapter =>
      mret (_simulated_outcome io "binance" "binance.spot.orders.status" "submitted" payload)
  | BitgetSpotExecutionAdapter =>
      mret (_simulated_outcome io "bitget" "bitget.spot.orders.status" "submitted" payload)
  | BinanceSigned a => binance_get_order_status io a payload
  | BitgetSigned a => bitget_get_order_status io a payload
  end.

Definition _to_bool (raw : string) : bool := one_of (lower (strip raw)) ["1"; "true"; "yes"; "on"]%string.

Definition _resolve_real_dispatch (io : outside) (override : option bool) : bool :=
  match override with Some b => b | None => _to_bool (getenv io _REAL_MODE_ENV "false") end.

Definition get_spot_adapter (io : outside) (exchange : string) (enable_real_dispatch : option bool)
  : result SpotExecutionAdapter :=
  normalized ← normalize_exchange exchange;
  let use_real_dispatch := _resolve_real_dispatch io enable_real_dispatch in
  if String.eqb normalized "binance" then
    if use_real_dispatch then BinanceSigned <$> binance_init io else Ok BinanceSpotExecutionAdapter
  else if String.eqb normalized "bitget" then
    if use_real_dispatch then BitgetSigned <$> bitget_init io else Ok BitgetSpotExecutionAdapter
  else invalid_dispatch ("unsupported exchange: " +:+ exchange).

(** ** The bridge endpoint *)

Inductive operation := CREATE_ORDER | CANCEL_ORDER | GET_ORDER_STATUS.
Inductive command_action := BUY | SELL | CLOSE | CANCEL.

Definition operation_str (o : operation) : string :=
  match o with
  | CREATE_ORDER => "CREATE_ORDER" | CANCEL_ORDER => "CANCEL_ORDER" | GET_ORDER_STATUS => "GET_ORDER_STATUS"
  end.
Definition action_str (a : command_action) : string :=
  match a with BUY => "BUY" | SELL => "SELL" | CLOSE => "CLOSE" | CANCEL => "CANCEL" end.

Record ExecutionDispatchCommand := {
  ec_command_id : string;
  ec_operation : operation;
  ec_action : command_action;
  ec_exchange : string;
  ec_symbol : string;
  ec_quantity : f64;
  ec_order_type : string;
  ec_time_in_force : option string;
  ec_limit_price : option f64;
  ec_trigger_price : option f64;
  ec_reduce_only : bool;
  ec_idempotency_key : string;
  ec_client_order_id : option string;
  ec_exchange_order_id : option string;
  ec_trace_id : string;
  ec_decision_id : string;
}.

Definition opt_str (o : option string) : val := match o with Some s => VStr s | None => VNone end.
Definition opt_float (o : option f64) : val := match o with Some x => VFloat x | None => VNone end.

Definition command_payload (c : ExecutionDispatchCommand) (exchange order_type : string)
    (tif : option string) : dict :=
  [("command_id", VStr (ec_command_id c)); ("operation", VStr (operation_str (ec_operation c)));
   ("action", VStr (action_str (ec_action c))); ("exchange", VStr exchange); ("symbol", VStr (ec_symbol c));
   ("quantity", VFloat (ec_quantity c)); ("order_type", VStr order_type); ("time_in_force", opt_str tif);
   ("limit_price", opt_float (ec_limit_price c)); ("trigger_price", opt_float (ec_trigger_price c));
   ("reduce_only", VBool (ec_reduce_only c)); ("idempotency_key", VStr (ec_idempotency_key c));
   ("client_order_id", opt_str (ec_client_order_id c));
   ("exchange_order_id", opt_str (ec_exchange_order_id c)); ("trace_id", VStr (ec_trace_id c));
   ("decision_id", VStr (ec_decision_id c))]%string.

(** [(value or "").strip()] is empty. *)
Definition blank (o : option string) : bool := is_empty (strip (default ""%string o)).

Definition requires_ref (c : ExecutionDispatchCommand) (what : string) : result unit :=
  raise_if (blank (ec_exchange_order_id c) && blank (ec_client_order_id c)) InternalDispatchValidationError
    (what +:+ " operation requires exchange_order_id or client_order_id").

(** The body of the [try]. *)
Definition dispatch_command (io : outside) (c : ExecutionDispatchCommand) : sends DispatchOutcome :=
  exchange ← lift (normalize_exchange (ec_exchange c));
  order_type ← lift (normalize_order_type (ec_order_type c));
  tif ← lift (normalize_time_in_force (ec_time_in_force c));
  let payload := command_payload c exchange order_type tif in
  adapter ← lift (get_spot_adapter io exchange None);
  match ec_operation c with
  | CREATE_ORDER =>
      _ ← lift (validate_create_order_fields order_type tif (ec_quantity c) (ec_limit_price c)
                  (ec_trigger_price c));
      create_order io adapter payload
  | CANCEL_ORDER => _ ← lift (requires_ref c "cancel"); cancel_order io adapter payload
  | GET_ORDER_STATUS => _ ← lift (requires_ref c "status"); get_order_status io adapter payload
  end.

Definition http_error {A} (status : Z) (detail : string) : result A := raise (HTTPException status) detail.

Definition _validate_bridge_api_key (io : outside) (authorization : option string) : result unit :=
  let expected_key := strip (getenv io "REAL_EXECUTION_BRIDGE_API_KEY" "") in
  if is_empty expected_key
  then http_error 503 "execution bridge not configured: REAL_EXECUTION_BRIDGE_API_KEY is required"
  else if String.eqb (strip (default ""%string authorization)) ("Bearer " +:+ expected_key) then Ok tt
  else http_error 401 "invalid bridge authorization".

(** The exceptions of the [try] become HTTP errors. *)
Definition to_http (r : result DispatchOutcome) : result DispatchOutcome :=
  match r with
  | Ok o => Ok o
  | Raise e =>
      if bool_decide (exc_cls e = InternalDispatchValidationError) then http_error 422 (exc_msg e)
      else if bool_decide (exc_cls e = InternalDispatchUpstreamError) then http_error 502 (exc_msg e)
      else Raise e
  end.

Definition dispatch_execution_command (io : outside) (authorization : option string)
    (c : ExecutionDispatchCommand) : sends DispatchOutcome := fun log =>
  match _validate_bridge_api_key io authorization with
  | Ok _ => let '(log', r) := dispatch_command io c log in (log', to_http r)
  | Raise e => (log, Raise e)
  end.

(** ** Numerals

    The numeral sent to the exchange denotes the decimal it was made from. *)

(** [s] is a plain numeral with coefficient [c] and [k] fraction digits. *)
Definition denotes (s : string) (d : dec) : Prop :=
  exists c k, parse_mantissa s = Some (c, k) /\ 0 <= k /\
    match d with DFin c0 e => (e < 0 /\ c * 10 ^ (- e) = c0 * 10 ^ k) | _ => False end.

Lemma repeat_zero_decimal k : decimal (repeat_char "0" k) 0 /\ String.length (repeat_char "0" k) = k.
Proof.
  induction k as [|k [IH Hl]]; [split; [constructor|done]|]. simpl. split; [|by rewrite Hl].
  apply (decimal_cons "0" _ 0 eq_refl IH).
Qed.

Lemma take_drop_str n s : str_take n s +:+ str_drop n s = s.
Proof. revert s. induction n as [|n IH]; intros [|c s]; try done. cbn [str_take str_drop]. by rewrite append_cons, IH. Qed.

Lemma drop_str_length n s : String.length (str_drop n s) = (String.length s - n)%nat.
Proof. revert s. induction n as [|n IH]; intros [|c s]; try done. cbn [str_drop]. by rewrite IH. Qed.

(** Positional notation of a positive decimal with a fraction. *)
Lemma format_f_split c e :
  0 < c -> e < 0 ->
  exists i f x y, format_f (DFin c e) = i +:+ String "." f /\ i <> ""%string /\ decimal i x /\ decimal f y /\
    Z.of_nat (String.length f) = - e /\ x * 10 ^ (- e) + y = c.
Proof.
  intros Hc He. unfold format_f. rewrite (proj2 (Z.ltb_ge 0 e)) by lia. rewrite andb_false_r.
  rewrite (proj2 (Z.ltb_ge c 0)) by lia. change ("" +:+ ?s) with s.
  destruct (str_of_Z_decimal (Z.abs c)) as (h & p & Hs & Hd & _); [lia|]. rewrite Hs, Z.abs_eq in * by lia.
  set (ds := String h p) in *. set (n := Z.of_nat (String.length ds)).
  destruct (Z.ltb_spec (e + n) 0) as [Hneg|Hpos].
  - destruct (repeat_zero_decimal (Z.to_nat (- (e + n)))) as [Hz Hl].
    exists "0"%string, (zeros (- (e + n)) +:+ ds), 0, c. unfold zeros. rewrite append_length, Hl.
    split; [done|]. split; [done|]. split; [apply (decimal_one "0" eq_refl)|].
    split; [apply decimal_app; exists 0, c; by rewrite Z.mul_0_l|]. split; lia.
  - rewrite (proj2 (Z.leb_gt _ _)) by lia. set (k := Z.to_nat (e + n)).
    rewrite <- (take_drop_str k ds) in Hd. apply decimal_app in Hd as (x & y & Hx & Hy & Hxy).
    assert (Hlen : Z.of_nat (String.length (str_drop k ds)) = - e) by (rewrite drop_str_length; subst k; lia).
    rewrite Hlen in Hxy. unfold str_or. destruct (str_take k ds) as [|h' t] eqn:Ht; simpl (is_empty _).
    + exists "0"%string, (str_drop k ds), 0, y. inversion Hx; subst. split; [done|]. split; [done|].
      split; [apply (decimal_one "0" eq_refl)|]. split; [done|]. split; lia.
    + exists (String h' t), (str_drop k ds), x, y. split; [done|]. split; [done|].
      split; [done|]. split; [done|]. split; lia.
Qed.

Lemma rstrip_with_app p a b :
  rstrip_with p (a +:+ b) = if is_empty (rstrip_with p b) then rstrip_with p a else a +:+ rstrip_with p b.
Proof.
  induction a as [|c a IH]; [change ("" +:+ ?s) with s; by destruct (rstrip_with p b)|].
  rewrite append_cons. cbn [rstrip_with]. rewrite IH. destruct (rstrip_with p b) as [|d r]; [done|].
  simpl (is_empty _). cbv iota. rewrite append_cons. by destruct a.
Qed.

Lemma rstrip_with_none (p : ascii -> bool) s :
  str_forallb (fun c => negb (p c)) s = true -> rstrip_with p s = s.
Proof.
  induction s as [|c s IH]; [done|]. cbn [str_forallb rstrip_with]. intros [Hc Hs]%andb_true_iff.
  rewrite (IH Hs). apply negb_true_iff in Hc. rewrite Hc. by destruct s.
Qed.

Lemma rstrip_zeros f y :
  decimal f y -> exists y' j, decimal (rstrip_with (Ascii.eqb "0") f) y' /\ y = y' * 10 ^ Z.of_nat j /\
    String.length f = (String.length (rstrip_with (Ascii.eqb "0") f) + j)%nat.
Proof.
  induction 1 as [|c s n Hc Hs (y' & j & Hy & -> & Hl)]; [exists 0, 0%nat; split; [constructor|done]|].
  cbn [rstrip_with]. destruct (rstrip_with (Ascii.eqb "0") s) as [|d r] eqn:E.
  - inversion Hy; subst. simpl in Hl. destruct (Ascii.eqb_spec "0" c) as [<-|Hne].
    + exists 0, (S j). split; [constructor|]. simpl. by rewrite Hl, Z.mul_0_l.
    + exists (char_code c - 48), j. split; [by apply decimal_one|]. simpl. rewrite Hl. split; [lia|lia].
  - exists ((char_code c - 48) * 10 ^ Z.of_nat (String.length (String d r)) + y'), j.
    split; [by constructor|]. split; [|cbn [String.length] in *; lia].
    rewrite Hl, Nat2Z.inj_add, Z.pow_add_r by lia. ring.
Qed.

Lemma digits_no_dot s n : decimal s n -> str_forallb (fun c => negb (Ascii.eqb "." c)) s = true.
Proof.
  intros H%decimal_digits. eapply str_forallb_impl; [|exact H]. intros c.
  by destruct c as [[] [] [] [] [] [] [] []].
Qed.

Lemma cut_at_none p s : str_forallb (fun c => negb (p c)) s = true -> cut_at p s = (s, None).
Proof.
  induction s as [|c s IH]; [done|]. cbn [str_forallb cut_at]. intros [Hc Hs]%andb_true_iff.
  apply negb_true_iff in Hc. by rewrite Hc, IH.
Qed.

Lemma cut_at_found p c s t :
  str_forallb (fun c => negb (p c)) s = true -> p c = true -> cut_at p (s +:+ String c t) = (s, Some t).
Proof.
  intros Hs Hc. revert Hs. induction s as [|d s IH]; [simpl; by rewrite Hc|].
  cbn [str_forallb]. intros [Hd Hs]%andb_true_iff. rewrite append_cons. cbn [cut_at].
  apply negb_true_iff in Hd. by rewrite Hd, IH.
Qed.

Lemma digit_run_decimal s n : decimal s n -> s <> ""%string -> digit_run s = Some (n, Z.of_nat (String.length s)).
Proof.
  intros H Hne. unfold digit_run.
  pose proof (decimal_read _ _ 0 false "" H ltac:(by left)) as Hr. rewrite append_nil_r in Hr. rewrite Hr.
  simpl. rewrite (count_digits_decimal _ _ H). by rewrite Z.mul_0_l.
Qed.

(** The numeral without its trailing zeros denotes the decimal. *)
Lemma format_f_denotes c e :
  0 < c -> e < 0 ->
  denotes (str_or (rstrip_with (Ascii.eqb ".") (rstrip_with (Ascii.eqb "0") (format_f (DFin c e)))) "0") (DFin c e).
Proof.
  intros Hc He. destruct (format_f_split c e Hc He) as (i & f & x & y & -> & Hi & Hx & Hy & Hlen & Hv).
  destruct (rstrip_zeros f y Hy) as (y' & j & Hy' & -> & Hl).
  rewrite rstrip_with_app. cbn [rstrip_with].
  set (f' := rstrip_with (Ascii.eqb "0") f) in *. destruct f' as [|d r] eqn:Ef.
  - simpl (Ascii.eqb "0" "."). cbv iota. simpl (is_empty _). cbv iota.
    rewrite rstrip_with_app. cbn [rstrip_with]. simpl (Ascii.eqb _ _). cbv iota. simpl (is_empty ""). cbv iota.
    rewrite (rstrip_with_none _ i) by (by eapply digits_no_dot). unfold str_or.
    destruct i as [|h t]; [done|]. simpl (is_empty _). cbv iota. exists x, 0.
    unfold parse_mantissa. rewrite (cut_at_none _ (String h t)) by (by eapply digits_no_dot).
    rewrite (digit_run_decimal _ _ Hx) by done. inversion Hy'; subst. simpl. split; [done|]. split; [done|]. lia.
  - simpl (is_empty _). cbv iota. change (String "." (String d r)) with (String "." "" +:+ String d r).
    rewrite <- append_assoc, rstrip_with_app.
    assert (Hnz : rstrip_with (Ascii.eqb ".") (String d r) = String d r).
    { apply rstrip_with_none. by eapply digits_no_dot. }
    rewrite Hnz. simpl (is_empty (String d r)). cbv iota.
    rewrite append_assoc. change (String "." "" +:+ ?s) with (String "." s).
    unfold str_or. assert (is_empty (i +:+ String "." (String d r)) = false) as -> by (by destruct i).
    exists (x * 10 ^ Z.of_nat (String.length (String d r)) + y'), (Z.of_nat (String.length (String d r))).
    unfold parse_mantissa. rewrite (cut_at_found _ _ i) by (done || by eapply digits_no_dot).
    assert (is_empty i = false) as -> by (by destruct i).
    rewrite (digit_run_decimal _ _ Hx) by done. rewrite (digit_run_decimal _ _ Hy') by done.
    simpl (is_empty _). cbn [mbind option_bind]. split; [done|]. split; [lia|]. split; [done|].
    rewrite <- Hv, <- Hlen, Hl, Nat2Z.inj_add, Z.pow_add_r by lia. ring.
Qed.

Lemma dleb_zero_pos c e : dleb (DFin c e) d0 = Ok false -> 0 < c.
Proof.
  unfold dleb, dcompare, d0. rewrite Z.mul_0_l.
  destruct (Z.compare_spec (c * 10 ^ (e - Z.min e 0)) 0) as [| |H]; try done. intros _.
  pose proof (Z.pow_nonneg 10 (e - Z.min e 0) ltac:(lia)). nia.
Qed.

Lemma decimal_string_denotes v s c e :
  dec_of_string (py_str v) = Ok (DFin c e) -> e < 0 -> _decimal_string v = Ok s -> denotes s (DFin c e).
Proof.
  intros Hd He. assert (Hv : v <> VNone) by (intros ->; by vm_compute in Hd).
  unfold _decimal_string. destruct v; [done|..]; rewrite Hd; cbn [try_except mbind result_bind];
    intros H; apply bind_Ok in H as (small & Hs & H); destruct small; try done; injection H as <-;
    (apply format_f_denotes; [by apply dleb_zero_pos in Hs|done]).
Qed.

(** ** What a dispatched order asks for *)

(** The decimal a float is sent as, and whether it is written with a fraction
    (every positive float below 10^16 is). *)
Definition has_fraction (x : f64) : bool :=
  match dec_of_string (float_repr x) with Ok (DFin _ e) => e <? 0 | _ => false end.

Definition opt_fraction (o : option f64) : bool := match o with Some x => has_fraction x | None => true end.

(** The value is a numeral that denotes the float's decimal. *)
Definition numeral_of (x : f64) (v : val) : Prop :=
  exists s d, v = VStr s /\ dec_of_string (float_repr x) = Ok d /\ denotes s d.

Definition side_of (a : command_action) : string := match a with BUY => "BUY" | _ => "SELL" end.

(** The parameters ask for the order of the command: its side, its quantity, and
    the price its type needs, under the names the exchange uses. *)
Record asks (c : ExecutionDispatchCommand) (order_type : string) (size price stop : string)
    (side : string) (params : dict) : Prop := {
  asks_symbol : dget "symbol" params = VStr (replace "/" "" (upper (strip (ec_symbol c))));
  asks_side : dget "side" params = VStr side;
  asks_quantity : numeral_of (ec_quantity c) (dget size params);
  asks_price : if String.eqb order_type "LIMIT"
               then exists p, ec_limit_price c = Some p /\ fleb p fzero = false /\ numeral_of p (dget price params)
               else dget price params = VNone;
  asks_stop : if is_trigger order_type
              then exists p, ec_trigger_price c = Some p /\ fleb p fzero = false /\ numeral_of p (dget stop params)
              else dget stop params = VNone;
}.

(** The request that carries a new order to each exchange, signed with the
    secret of the environment. *)
Inductive order_request (io : outside) (c : ExecutionDispatchCommand) (order_type : string) : http_request -> Prop :=
  | binance_order a ts params :
      binance_init io = Ok a -> timestamp_ms io = Ok ts ->
      asks c order_type "quantity" "price" "stopPrice" (side_of (ec_action c)) params ->
      dget "type" params = VStr (_binance_order_type order_type) ->
      order_request io c order_type
        {| hr_method := "POST"; hr_url := binance_url a "/api/v3/order" (binance_query a ts params);
           hr_body := None; hr_headers := [("X-MBX-APIKEY"%string, bn_api_key a)];
           hr_timeout := bn_timeout_seconds a |}
  | bitget_order a ts path body text :
      bitget_init io = Ok a -> timestamp_ms io = Ok ts ->
      asks c order_type "size" "price" "triggerPrice" (lower (side_of (ec_action c))) body ->
      json_dumps json_compact (VDict body) = Ok text ->
      order_request io c order_type
        {| hr_method := "POST"; hr_url := bg_base_url a +:+ path; hr_body := Some text;
           hr_headers := bitget_headers a ts (bitget_prehash ts "POST" path text);
           hr_timeout := bg_timeout_seconds a |}.

Lemma float_numeral x s : has_fraction x = true -> _decimal_string (VFloat x) = Ok s -> numeral_of x (VStr s).
Proof.
  unfold has_fraction. intros Hf Hs. destruct (dec_of_string (float_repr x)) as [[c e| |]|] eqn:E; try done.
  apply Z.ltb_lt in Hf. exists s, (DFin c e). split; [done|]. split; [done|].
  by eapply (decimal_string_denotes (VFloat x)).
Qed.

Lemma one_of_elem s l : one_of s l = true <-> s ∈ l.
Proof.
  unfold one_of. rewrite existsb_exists. split.
  - intros (x & Hx & He). apply String.eqb_eq in He. subst. by apply list_elem_of_In.
  - intros H. exists s. split; [by apply list_elem_of_In|by apply String.eqb_eq].
Qed.

Lemma side_resolved a : _resolve_exchange_side (action_str a) = Ok (side_of a).
Proof. by destruct a. Qed.

Lemma symbol_resolved s x : _to_exchange_symbol s = Ok x -> x = replace "/" "" (upper (strip s)).
Proof. unfold _to_exchange_symbol. destruct (is_empty _); [done|]. by intros [= <-]. Qed.

(** The price fields of an accepted order. *)
Lemma validated_prices ot tif q lp tp :
  ot ∈ _ALLOWED_ORDER_TYPES -> validate_create_order_fields ot tif q lp tp = Ok tt ->
  (if String.eqb ot "LIMIT" then exists p, lp = Some p /\ fleb p fzero = false else lp = None) /\
  (if is_trigger ot then exists p, tp = Some p /\ fleb p fzero = false else tp = None).
Proof.
  intros Ho H. unfold validate_create_order_fields in H. apply bind_Ok in H as (u & _ & H).
  unfold _ALLOWED_ORDER_TYPES in Ho. rewrite !elem_of_cons, elem_of_nil in Ho.
  destruct Ho as [->|[->|[->|[->|[]]]]]; cbn [String.eqb Ascii.eqb Bool.eqb is_trigger orb] in H |- *;
    apply bind_Ok in H as (u1 & H1 & H); apply raise_if_Ok in H1.
  - apply raise_if_Ok in H. split; [by destruct lp|by destruct tp].
  - apply bind_Ok in H as (u2 & H2 & _). apply raise_if_Ok in H2. split; [|by destruct tp].
    destruct lp as [p|]; [by exists p|done].
  - apply raise_if_Ok in H. split; [by destruct lp|]. destruct tp as [p|]; [by exists p|done].
  - apply raise_if_Ok in H. split; [by destruct lp|]. destruct tp as [p|]; [by exists p|done].
Qed.

Section order_params.
Context (c : ExecutionDispatchCommand) (exchange ot : string) (tif : option string).
Context (Hot : ot ∈ _ALLOWED_ORDER_TYPES).
Context (Hval : validate_create_order_fields ot tif (ec_quantity c) (ec_limit_price c) (ec_trigger_price c) = Ok tt).
Context (Hfr : has_fraction (ec_quantity c) && opt_fraction (ec_limit_price c) &&
               opt_fraction (ec_trigger_price c) = true).
#[local] Abbreviation payload := (command_payload c exchange ot tif).

Lemma order_type_kept : order_type_of payload = ot.
Proof using Hot.
  clear Hval Hfr. unfold order_type_of, text_field. simpl. unfold _ALLOWED_ORDER_TYPES in Hot.
  rewrite !elem_of_cons, elem_of_nil in Hot. by destruct Hot as [->|[->|[->|[->|[]]]]].
Qed.

Lemma quantity_numeral s : _decimal_string (dget "quantity" payload) = Ok s -> numeral_of (ec_quantity c) (VStr s).
Proof using Hfr. rewrite !andb_true_iff in Hfr. apply float_numeral. tauto. Qed.

Lemma limit_numeral s :
  String.eqb ot "LIMIT" = true -> _decimal_string (dget "limit_price" payload) = Ok s ->
  exists p, ec_limit_price c = Some p /\ fleb p fzero = false /\ numeral_of p (VStr s).
Proof using Hot Hval Hfr.
  intros El Hs. destruct (validated_prices _ _ _ _ _ Hot Hval) as [Hl _]. rewrite El in Hl.
  destruct Hl as (p & Ep & Hp). exists p. split; [done|]. split; [done|].
  rewrite !andb_true_iff, Ep in Hfr. apply float_numeral; [tauto|].
  by change (dget "limit_price" payload) with (opt_float (ec_limit_price c)) in Hs; rewrite Ep in Hs.
Qed.

Lemma trigger_numeral s :
  is_trigger ot = true -> _decimal_string (dget "trigger_price" payload) = Ok s ->
  exists p, ec_trigger_price c = Some p /\ fleb p fzero = false /\ numeral_of p (VStr s).
Proof using Hot Hval Hfr.
  intros Et Hs. destruct (validated_prices _ _ _ _ _ Hot Hval) as [_ Ht]. rewrite Et in Ht.
  destruct Ht as (p & Ep & Hp). exists p. split; [done|]. split; [done|].
  rewrite !andb_true_iff, Ep in Hfr. apply float_numeral; [tauto|].
  by change (dget "trigger_price" payload) with (opt_float (ec_trigger_price c)) in Hs; rewrite Ep in Hs.
Qed.

(** The guards of the two builders, as hypotheses about their results. *)
#[local] Ltac order_fields H :=
  rewrite order_type_kept in H; cbv zeta in H;
  let s := fresh "symbol" in let Hs := fresh "Hsym" in
  apply bind_Ok in H as (s & Hs%symbol_resolved & H);
  change (text_field "symbol" "" payload) with (ec_symbol c) in Hs; subst s;
  change (text_field "action" "BUY" payload) with (action_str (ec_action c)) in H;
  rewrite side_resolved in H; cbn [mbind result_bind fmap result_fmap] in H.

(** Each field of the spec is a lookup among concrete names. *)
#[local] Ltac ask :=
  unfold opt_field; destruct (is_empty (_resolve_client_order_id _)); try done; eauto.

Lemma binance_params_ask params :
  binance_create_params payload = Ok params ->
  asks c ot "quantity" "price" "stopPrice" (side_of (ec_action c)) params /\
  dget "type" params = VStr (_binance_order_type ot).
Proof using Hot Hval Hfr.
  intros H. unfold binance_create_params in H. order_fields H.
  apply bind_Ok in H as (q & Hq%quantity_numeral & H). apply bind_Ok in H as (limit & Hlim & H).
  apply bind_Ok in H as (stop & Hstop & H). injection H as <-.
  destruct (String.eqb ot "LIMIT") eqn:El, (is_trigger ot) eqn:Et.
  - by apply String.eqb_eq in El; subst.
  - injection Hstop as <-. apply bind_Ok in Hlim as (ps & Hps%limit_numeral & Hlim); [|done].
    injection Hlim as <-. split; [split; rewrite ?El, ?Et|]; ask.
  - injection Hlim as <-. apply bind_Ok in Hstop as (ps & Hps%trigger_numeral & Hstop); [|done].
    injection Hstop as <-. split; [split; rewrite ?El, ?Et|]; ask.
  - injection Hlim as <-. injection Hstop as <-. split; [split; rewrite ?El, ?Et|]; ask.
Qed.

Lemma bitget_body_ask path body :
  bitget_create_body payload = Ok (path, body) ->
  asks c ot "size" "price" "triggerPrice" (lower (side_of (ec_action c))) body /\ body <> [].
Proof using Hot Hval Hfr.
  intros H. unfold bitget_create_body in H. order_fields H. destruct (is_trigger ot) eqn:Et.
  - apply bind_Ok in H as (ps & Hps%trigger_numeral & H); [|done].
    apply bind_Ok in H as (q & Hq%quantity_numeral & H). injection H as <- <-.
    assert (El : String.eqb ot "LIMIT" = false) by (destruct (String.eqb_spec ot "LIMIT"); by subst).
    split; [split; rewrite ?El, ?Et|done]; ask.
  - apply bind_Ok in H as (q & Hq%quantity_numeral & H). apply bind_Ok in H as (limit & Hlim & H).
    injection H as <- <-. destruct (String.eqb ot "LIMIT") eqn:El.
    + apply bind_Ok in Hlim as (ps & Hps%limit_numeral & Hlim); [|done]. injection Hlim as <-.
      split; [split; rewrite ?El, ?Et|done]; ask.
    + injection Hlim as <-. split; [split; rewrite ?El, ?Et|done]; ask.
Qed.
End order_params.

(** ** Requests sent by a computation *)

Definition silent {A} (m : sends A) : Prop := forall log, (m log).1 = log.
Definition sends_one {A} (m : sends A) : Prop := forall log, (m log).1 = log \/ exists r, (m log).1 = log ++ [r].

Create HintDb sending.

Lemma silent_lift {A} (r : result A) : silent (lift r).
Proof. done. Qed.
Lemma silent_ret {A} (x : A) : silent (mret x).
Proof. done. Qed.
Lemma silent_one {A} (m : sends A) : silent m -> sends_one m.
Proof. intros H log. by left. Qed.
Lemma sends_one_send io r : sends_one (send io r).
Proof. intros log. right. by exists r. Qed.
Lemma sends_one_then {A B} (m : sends A) (f : A -> sends B) :
  silent m -> (forall a, sends_one (f a)) -> sends_one (m ≫= f).
Proof.
  intros Hm Hf log. unfold mbind, prog_bind. specialize (Hm log).
  destruct (m log) as [log' [a|e]]; simpl in *; subst; [apply Hf|by left].
Qed.
Lemma then_silent {A B} (m : sends A) (f : A -> sends B) :
  sends_one m -> (forall a, silent (f a)) -> sends_one (m ≫= f).
Proof.
  intros Hm Hf log. unfold mbind, prog_bind. specialize (Hm log).
  destruct (m log) as [log' [a|e]]; simpl in *; [|done]. specialize (Hf a log'). by rewrite Hf.
Qed.
Lemma silent_then {A B} (m : sends A) (f : A -> sends B) :
  silent m -> (forall a, silent (f a)) -> silent (m ≫= f).
Proof.
  intros Hm Hf log. unfold mbind, prog_bind. specialize (Hm log).
  destruct (m log) as [log' [a|e]]; simpl in *; subst; [apply Hf|done].
Qed.
#[local] Hint Resolve silent_lift silent_ret sends_one_send : sending.
#[local] Hint Extern 2 (sends_one (_ ≫= _)) =>
  first [apply sends_one_then; [solve [auto with sending]|intros] | apply then_silent; [|intros]] : sending.
#[local] Hint Extern 2 (silent (_ ≫= _)) => (apply silent_then; intros) : sending.

Lemma request_json_one io url method body headers t provider :
  sends_one (_request_json io url method body headers t provider).
Proof. unfold _request_json. auto with sending. Qed.
#[local] Hint Resolve request_json_one : sending.

Lemma binance_request_one io a method path params : sends_one (binance_signed_request io a method path params).
Proof. unfold binance_signed_request. auto with sending. Qed.
Lemma bitget_request_one io a method path query body : sends_one (bitget_signed_request io a method path query body).
Proof. unfold bitget_signed_request. cbv zeta. auto 10 with sending. Qed.
#[local] Hint Resolve binance_request_one bitget_request_one : sending.

(** An adapter sends at most one request, a simulated one none. *)
Definition signed (a : SpotExecutionAdapter) : bool :=
  match a with BinanceSigned _ | BitgetSigned _ => true | _ => false end.

Lemma operation_sends io (op : operation) a payload :
  let m := match op with
           | CREATE_ORDER => create_order io a payload
           | CANCEL_ORDER => cancel_order io a payload
           | GET_ORDER_STATUS => get_order_status io a payload
           end in
  if signed a then sends_one m else silent m.
Proof.
  destruct op, a; cbn [signed create_order cancel_order get_order_status]; auto with sending;
    unfold binance_create_order, binance_cancel_order, binance_get_order_status, binance_reference_order,
      bitget_create_order, bitget_cancel_order, bitget_get_order_status; auto 10 with sending.
  apply sends_one_then; [auto with sending|]. intros [path body]. auto with sending.
Qed.

(** What has to hold before a request leaves. *)
Record permitted (io : outside) (authorization : option string) (c : ExecutionDispatchCommand) : Prop := {
  pm_key : exists key, key <> ""%string /\ strip (getenv io "REAL_EXECUTION_BRIDGE_API_KEY" "") = key /\
                       strip (default ""%string authorization) = "Bearer " +:+ key;
  pm_real : _to_bool (getenv io _REAL_MODE_ENV "false") = true;
  pm_exchange : lower (strip (ec_exchange c)) ∈ _ALLOWED_EXCHANGES;
  pm_order : match ec_operation c with
             | CREATE_ORDER =>
                 exists ot tif, normalize_order_type (ec_order_type c) = Ok ot /\
                   normalize_time_in_force (ec_time_in_force c) = Ok tif /\
                   validate_create_order_fields ot tif (ec_quantity c) (ec_limit_price c) (ec_trigger_price c) = Ok tt
             | _ => blank (ec_exchange_order_id c) && blank (ec_client_order_id c) = false
             end;
}.

Lemma bridge_key_ok io auth u :
  _validate_bridge_api_key io auth = Ok u ->
  exists key, key <> ""%string /\ strip (getenv io "REAL_EXECUTION_BRIDGE_API_KEY" "") = key /\
              strip (default ""%string auth) = "Bearer " +:+ key.
Proof.
  unfold _validate_bridge_api_key. destruct (is_empty _) eqn:E; [done|].
  destruct (String.eqb_spec (strip (default ""%string auth)) ("Bearer " +:+ strip (getenv io "REAL_EXECUTION_BRIDGE_API_KEY" "")))
    as [He|]; [|done]. intros _. eexists. split; [|split; [reflexivity|done]].
  intros H. by rewrite H in E.
Qed.

Lemma adapter_signed io exchange a :
  get_spot_adapter io exchange None = Ok a -> signed a = true ->
  _to_bool (getenv io _REAL_MODE_ENV "false") = true.
Proof.
  unfold get_spot_adapter, _resolve_real_dispatch. intros H. apply bind_Ok in H as (n & _ & H).
  cbv zeta in H. destruct (_to_bool _); [done|].
  destruct (String.eqb n "binance"); [by injection H as <-|].
  by destruct (String.eqb n "bitget"); [injection H as <-|].
Qed.

Lemma normalize_exchange_ok e x : normalize_exchange e = Ok x -> x = lower (strip e) /\ x ∈ _ALLOWED_EXCHANGES.
Proof.
  unfold normalize_exchange. destruct (one_of _ _) eqn:E; [|done]. intros [= <-]. split; [done|].
  by apply one_of_elem.
Qed.

Lemma sends_lift {A B} (r : result A) (f : A -> sends B) log :
  (lift r ≫= f) log = match r with Ok a => f a log | Raise e => (log, Raise e) end.
Proof. apply lift_bind. Qed.

(** C13. No request leaves the bridge unless the command is authorised with the
    configured key, real dispatch is switched on, the exchange is known, and the
    order fields are valid (a create) or name an order (a cancel or a status
    query); and a command sends at most one request, whatever the exchange
    answers. *)
Theorem real_dispatch_guarded io authorization c log :
  (dispatch_execution_command io authorization c log).1 = log \/
  (permitted io authorization c /\
   exists r, (dispatch_execution_command io authorization c log).1 = log ++ [r]).
Proof.
  unfold dispatch_execution_command.
  destruct (_validate_bridge_api_key io authorization) as [u|e] eqn:Hkey; [|by left].
  apply bridge_key_ok in Hkey. unfold dispatch_command. rewrite !sends_lift.
  destruct (normalize_exchange _) as [x|] eqn:Hx; [|by left]. rewrite sends_lift.
  destruct (normalize_order_type _) as [ot|] eqn:Hot; [|by left]. rewrite sends_lift.
  destruct (normalize_time_in_force _) as [tif|] eqn:Htif; [|by left]. cbv zeta. rewrite sends_lift.
  destruct (get_spot_adapter _ _ _) as [a|] eqn:Ha; [|by left].
  apply normalize_exchange_ok in Hx as [-> Hx].
  pose proof (operation_sends io (ec_operation c) a
                (command_payload c (lower (strip (ec_exchange c))) ot tif)) as Hs. cbv zeta in Hs.
  pose proof (adapter_signed _ _ _ Ha) as Hr.
  assert (Hgo : forall (r : result unit) m,
            (if signed a then sends_one m else silent m) ->
            (r = Ok tt -> permitted io authorization c \/ signed a = false) ->
            (let '(log', o) := (_ ← lift r; m : sends DispatchOutcome) log in (log', to_http o)).1 = log \/
            permitted io authorization c /\
            exists q, (let '(log', o) := (_ ← lift r; m : sends DispatchOutcome) log in (log', to_http o)).1 = log ++ [q]).
  { intros r m Hm Hp. rewrite sends_lift. destruct r as [[]|]; [|by left].
    destruct (signed a); [|specialize (Hm log); destruct (m log); by left].
    destruct (Hp eq_refl) as [Hp'|]; [|done].
    destruct (Hm log) as [E|[q E]]; destruct (m log); simpl in *; [by left|right; eauto]. }
  destruct (ec_operation c) eqn:Hop; apply Hgo; try exact Hs; intros Hv;
    (destruct (signed a); [left|by right]); (split; [done|by apply Hr|done|rewrite Hop]).
  - by exists ot, tif.
  - by apply raise_if_Ok in Hv.
  - by apply raise_if_Ok in Hv.
Qed.

Lemma normalize_order_type_ok t ot : normalize_order_type t = Ok ot -> ot ∈ _ALLOWED_ORDER_TYPES.
Proof. unfold normalize_order_type. destruct (one_of _ _) eqn:E; [|done]. intros [= <-]. by apply one_of_elem. Qed.

(** A reply that is accepted came from the one request sent. *)
Lemma request_json_sent io url method body headers t provider log log' v :
  _request_json io url method body headers t provider log = (log', Ok v) ->
  log' = log ++ [{| hr_method := method; hr_url := url; hr_body := body; hr_headers := headers; hr_timeout := t |}].
Proof.
  unfold _request_json. intros H. apply prog_bind_Ok in H as (log1 & reply & Hs & H).
  unfold send in Hs. injection Hs as <- _. by injection H as <- _.
Qed.

Lemma binance_request_sent io a method path params log log' d :
  binance_signed_request io a method path params log = (log', Ok d) ->
  exists ts, timestamp_ms io = Ok ts /\
    log' = log ++ [{| hr_method := upper method; hr_url := binance_url a path (binance_query a ts params);
                      hr_body := None; hr_headers := [("X-MBX-APIKEY"%string, bn_api_key a)];
                      hr_timeout := bn_timeout_seconds a |}].
Proof.
  unfold binance_signed_request. rewrite sends_lift. destruct (timestamp_ms io) as [ts|]; [|done]. intros H.
  apply prog_bind_Ok in H as (log1 & v & Hv%request_json_sent & H). exists ts. split; [done|].
  subst log1. by injection H as <- _.
Qed.

Lemma bitget_request_sent io a method path query body log log' d :
  body <> [] -> bitget_signed_request io a method path query body log = (log', Ok d) ->
  exists ts text, timestamp_ms io = Ok ts /\ json_dumps json_compact (VDict body) = Ok text /\
    log' = log ++ [{| hr_method := upper method; hr_url := bg_base_url a +:+ bitget_request_path path query;
                      hr_body := Some text;
                      hr_headers := bitget_headers a ts
                                      (bitget_prehash ts method (bitget_request_path path query) text);
                      hr_timeout := bg_timeout_seconds a |}].
Proof.
  intros Hb. unfold bitget_signed_request. cbv zeta. rewrite sends_lift. destruct body as [|kv body]; [done|].
  destruct (json_dumps json_compact (VDict (kv :: body))) as [text|] eqn:Ed; [|done].
  rewrite sends_lift. destruct (timestamp_ms io) as [ts|]; [|done]. intros H.
  apply prog_bind_Ok in H as (log1 & v & Hv%request_json_sent & H). exists ts, text. split; [done|]. split; [done|].
  injection H as <- _. subst log1.
  assert (is_empty text = false) as ->; [|done].
  rewrite dumps_dict in Ed. apply bind_Ok in Ed as (ms & _ & Ed). by injection Ed as <-.
Qed.

Lemma signed_adapter io exchange a :
  _to_bool (getenv io _REAL_MODE_ENV "false") = true -> get_spot_adapter io exchange None = Ok a ->
  (exists b, a = BinanceSigned b /\ binance_init io = Ok b) \/ (exists b, a = BitgetSigned b /\ bitget_init io = Ok b).
Proof.
  unfold get_spot_adapter, _resolve_real_dispatch. intros Hr H. apply bind_Ok in H as (n & _ & H).
  cbv zeta in H. rewrite Hr in H. destruct (String.eqb n "binance").
  - left. destruct (binance_init io) as [b|]; [|done]. injection H as <-. by exists b.
  - right. destruct (String.eqb n "bitget"); [|done]. destruct (bitget_init io) as [b|]; [|done].
    injection H as <-. by exists b.
Qed.

(** C12. A create command that the bridge answers with success (real dispatch on)
    sent exactly one signed request, and it asks the exchange for the order of
    the command: its symbol, its side, a numeral equal to its quantity, and
    exactly the positive price that its order type needs. *)
Theorem dispatched_order_exact io authorization c log log' out :
  ec_operation c = CREATE_ORDER -> _to_bool (getenv io _REAL_MODE_ENV "false") = true ->
  has_fraction (ec_quantity c) && opt_fraction (ec_limit_price c) && opt_fraction (ec_trigger_price c) = true ->
  dispatch_execution_command io authorization c log = (log', Ok out) ->
  exists ot r, normalize_order_type (ec_order_type c) = Ok ot /\ log' = log ++ [r] /\ order_request io c ot r.
Proof.
  intros Hop Hreal Hfr. unfold dispatch_execution_command.
  destruct (_validate_bridge_api_key io authorization) as [u|e]; [|done].
  destruct (dispatch_command io c log) as [log1 [o|e]] eqn:Hd;
    [|simpl; intros H; by repeat (case_bool_decide; try done)].
  intros [= <- _]. unfold dispatch_command in Hd. rewrite Hop, sends_lift in Hd.
  destruct (normalize_exchange _) as [x|]; [|done]. rewrite sends_lift in Hd.
  destruct (normalize_order_type _) as [ot|] eqn:Hot; [|done]. rewrite sends_lift in Hd.
  apply normalize_order_type_ok in Hot as Hal.
  destruct (normalize_time_in_force _) as [tif|]; [|done]. cbv zeta in Hd. rewrite sends_lift in Hd.
  destruct (get_spot_adapter _ _ _) as [a|] eqn:Ha; [|done]. rewrite sends_lift in Hd.
  destruct (validate_create_order_fields _ _ _ _ _) as [[]|] eqn:Hval; [|done].
  exists ot. apply signed_adapter in Ha as [(b & -> & Hb)|(b & -> & Hb)]; [| |done]; cbn [create_order] in Hd.
  - unfold binance_create_order in Hd. rewrite sends_lift in Hd.
    destruct (binance_create_params _) as [params|] eqn:Hp; [|done].
    apply prog_bind_Ok in Hd as (log2 & d & Hs%binance_request_sent & Hd). injection Hd as <- _.
    destruct Hs as (ts & Hts & ->). eexists. split; [done|]. split; [done|].
    destruct (binance_params_ask _ _ _ _ Hal Hval Hfr _ Hp). by apply binance_order.
  - unfold bitget_create_order in Hd. rewrite sends_lift in Hd.
    destruct (bitget_create_body _) as [[path body]|] eqn:Hp; [|done].
    destruct (bitget_body_ask _ _ _ _ Hal Hval Hfr _ _ Hp) as [Hask Hne].
    apply prog_bind_Ok in Hd as (log2 & d & Hs & Hd). injection Hd as <- _.
    apply bitget_request_sent in Hs as (ts & text & Hts & Hj & ->); [|done].
    eexists. split; [done|]. split; [done|]. by eapply bitget_order.
Qed.

(** A command without a client order id: the id sent is the text [None], the
    same for every such command, and not the command id. *)
Lemma missing_client_id_is_none c exchange ot tif :
  ec_client_order_id c = None ->
  _resolve_client_order_id (command_payload c exchange ot tif) = "None"%string.
Proof.
  intros H. unfold _resolve_client_order_id, field.
  change (dget_or "client_order_id" (VStr "") (command_payload c exchange ot tif)) with
    (opt_str (ec_client_order_id c)). by rewrite H.
Qed.

(** Trailing zeros of a whole number are dropped. *)
Example decimal_string_whole :
  _decimal_string (VInt 100) = Ok "1"%string /\ _decimal_string (VFloat (flit 2 16)) = Ok "2"%string /\
  _decimal_string (VFloat (flit 100 0)) = Ok "100"%string.
Proof. by vm_compute. Qed.

(** ** A concrete dispatch *)
Module Example_dispatch.

Definition env (name : string) : option string :=
  assoc_get name
    [("REAL_EXECUTION_BRIDGE_API_KEY", "k"); ("INTERNAL_EXECUTION_REAL_DISPATCH", "true");
     ("BINANCE_API_KEY", "key"); ("BINANCE_API_SECRET", "secret")]%string.

(** The exchange accepts the first order and names it 7. *)
Definition exchange_reply (log : list http_request) (r : http_request) : http_reply :=
  match log with
  | [] => HttpText (quoted "{'orderId': 7, 'status': 'NEW'}")
  | _ => HttpStatusError 429 "slow down"
  end.

Definition io : outside :=
  {| io_env := env; io_http := exchange_reply; io_time := flit 17 8; io_now := 63871000000000000 |}.

Definition command : ExecutionDispatchCommand :=
  {| ec_command_id := "cmd-1"; ec_operation := CREATE_ORDER; ec_action := CLOSE; ec_exchange := " Binance";
     ec_symbol := "btc/usdt"; ec_quantity := flit 1250 (-3); ec_order_type := "limit";
     ec_time_in_force := Some "gtc"%string; ec_limit_price := Some (flit 50000 0); ec_trigger_price := None;
     ec_reduce_only := false; ec_idempotency_key := "i"; ec_client_order_id := None;
     ec_exchange_order_id := None; ec_trace_id := "t"; ec_decision_id := "d" |}.

Definition dispatched : list http_request * result DispatchOutcome :=
  dispatch_execution_command io (Some "Bearer k"%string) command [].

Definition outcome : option DispatchOutcome := match dispatched.2 with Ok o => Some o | Raise _ => None end.

Example outcome_ex :
  (fun o => (do_order_id o, do_status o)) <$> outcome = Some ("7"%string, "submitted"%string) /\
  (dispatch_execution_command io (Some "Bearer x"%string) command []).1 = [] /\
  is_ok (dispatch_execution_command io (Some "Bearer k"%string) command dispatched.1).2 = false.
Proof. by vm_compute. Qed.

Lemma dispatched_order_exact_witness :
  exists ot r, normalize_order_type (ec_order_type command) = Ok ot /\ dispatched.1 = [] ++ [r] /\
               order_request io command ot r.
Proof.
  destruct dispatched as [log' [o|e]] eqn:E; [|exfalso; by vm_compute in E].
  apply (dispatched_order_exact io (Some "Bearer k"%string) command [] log' o).
  - reflexivity.
  - vm_compute. reflexivity.
  - vm_compute. reflexivity.
  - exact E.
Defined.
End Example_dispatch.
