(* ===== verification/ExecutionLifecycle.v ===== *)
(** * The execution lifecycle worker

    [services/workers/execution_lifecycle.py]: the worker tracks the real orders
    it reads from its intent queue, learns their status from a private stream
    (primary) or from signed REST queries (fallback), and publishes an order
    event for every change. A tracked order is a shared object in the code; here
    it lives in the worker's dict and is read and written there by its key.

    The stream connector and the status poller are interfaces of the code; here
    they are type classes over the state the implementation keeps. The monotonic
    and the wall clock are functions of the number of readings made so far. *)

From S2P Require Import Prelude PyStr PyFloat PyTime PyUuid PyVal Envelope Broker Http SpotAdapters.
From stdpp Require Import options.
From Stdlib Require Import Ascii String SpecFloat.

#[local] Open Scope Z_scope.

(** ** Data *)

Definition _TERMINAL_STATUSES : list string := ["filled"; "canceled"; "rejected"; "expired"].
Definition _FILL_EVENT_TYPES : list string := ["oms.order.partially_filled"; "oms.order.filled"].

Record LifecycleStatusSnapshot := {
  ls_exchange : string;
  ls_symbol : string;
  ls_status : string;
  ls_exchange_order_id : option string;
  ls_client_order_id : option string;
  ls_filled_quantity_total : f64;
  ls_average_price : option f64;
  ls_fee_total : option f64;
  ls_raw_response : dict;
}.

Record TrackedLifecycleOrder := {
  to_tracking_key : string;
  to_trace_id : string;
  to_decision_id : string;
  to_mode : string;
  to_idempotency_key : string;
  to_strategy_id : string;
  to_exchange : string;
  to_symbol : string;
  to_action : string;
  to_order_type : string;
  to_time_in_force : option string;
  to_limit_price : option f64;
  to_trigger_price : option f64;
  to_reduce_only : bool;
  to_requested_quantity : f64;
  to_client_order_id : option string;
  to_exchange_order_id : option string;
  to_status : string;
  to_reported_filled_quantity : f64;
  to_reported_fee_total : f64;
  to_average_price : option f64;
  to_emitted_events : Z;
  to_terminal_marked_at : option f64;
}.

Definition is_terminal (o : TrackedLifecycleOrder) : bool := one_of (to_status o) _TERMINAL_STATUSES.

(** ** Normalisers *)

Definition _to_float (value : val) (dflt : f64) : result f64 :=
  match value with
  | VNone => Ok dflt
  | v => try_except (float_of_val v) (fun c => bool_decide (c = TypeError) || is_value_error c)
           (fun _ => Ok dflt)
  end.

Definition _positive_or_none (value : val) : result (option f64) :=
  match value with
  | VNone => Ok None
  | v => number ← _to_float v fzero; Ok (if fleb number fzero then None else Some number)
  end.

Definition _strip_or_none (value : val) : option string :=
  match value with
  | VNone => None
  | v => let r := strip (py_str v) in if is_empty r then None else Some r
  end.

Definition status_alias : list (string * string) :=
  [("new", "submitted"); ("open", "submitted"); ("live", "submitted"); ("init", "submitted");
   ("pending", "submitted"); ("partially_filled", "partially_filled"); ("partial_fill", "partially_filled");
   ("partiallyfilled", "partially_filled"); ("filled", "filled"); ("closed", "filled");
   ("cancelled", "canceled"); ("canceled", "canceled"); ("cancel", "canceled"); ("rejected", "rejected");
   ("reject", "rejected"); ("expired", "expired")]%string.

Definition _normalize_status (status : val) : string :=
  let normalized := lower (strip (py_str (py_or status (VStr "")))) in
  if is_empty normalized then "submitted" else default normalized (assoc_get normalized status_alias).

Definition event_types : list (string * string) :=
  [("submitted", "oms.order.submitted"); ("partially_filled", "oms.order.partially_filled");
   ("filled", "oms.order.filled"); ("canceled", "oms.order.canceled"); ("rejected", "oms.order.rejected");
   ("expired", "oms.order.expired")]%string.

Definition _status_to_event_type (status : string) : option string :=
  assoc_get (_normalize_status (VStr status)) event_types.

Fixpoint _first_positive_float (data : dict) (keys : list string) : result f64 :=
  match keys with
  | [] => Ok fzero
  | key :: keys' =>
      if has_key key data then
        value ← _to_float (dget key data) fzero;
        if fltb fzero value then Ok value else _first_positive_float data keys'
      else _first_positive_float data keys'
  end.

Definition _first_positive_or_none (data : dict) (keys : list string) : result (option f64) :=
  value ← _first_positive_float data keys; Ok (if fleb value fzero then None else Some value).

Definition _bitget_status_data (response : dict) : dict :=
  match dget "data" response with
  | VDict data => data
  | VList (VDict first :: _) => first
  | _ => response
  end.

Definition _extract_filled_quantity_total (exchange : string) (response : dict) : result f64 :=
  if String.eqb exchange "binance" then fmax fzero <$> _to_float (dget "executedQty" response) fzero
  else if String.eqb exchange "bitget" then
    fmax fzero <$> _first_positive_float (_bitget_status_data response)
      ["baseVolume"; "filledSize"; "fillQuantity"; "dealSize"; "filledAmount"]
  else fmax fzero <$> _first_positive_float response ["filled"; "filledQty"; "executedQty"].

(** [a or b] for prices: a price from [_positive_or_none] is never zero. *)
Definition price_or (a : result (option f64)) (b : result (option f64)) : result (option f64) :=
  p ← a; match p with Some x => Ok (Some x) | None => b end.

Definition _extract_average_price (exchange : string) (response : dict) (filled : f64) : result (option f64) :=
  if String.eqb exchange "binance" then
    cumulative_quote ← _to_float (dget "cummulativeQuoteQty" response) fzero;
    if fltb fzero filled && fltb fzero cumulative_quote then Ok (Some (fdiv cumulative_quote filled))
    else price_or (_positive_or_none (dget "price" response)) (_positive_or_none (dget "avgPrice" response))
  else if String.eqb exchange "bitget" then
    _first_positive_or_none (_bitget_status_data response) ["priceAvg"; "avgPrice"; "dealAvgPrice"; "price"]
  else _first_positive_or_none response ["avgPrice"; "average"; "price"].

(** [total += max(0.0, _to_float(row.get(key), default=0.0))] over the rows that
    are mappings. *)
Definition sum_rows (key : string) (rows : list val) : result f64 :=
  fold_res (fun total row =>
    match row with
    | VDict d => x ← _to_float (dget key d) fzero; Ok (fadd total (fmax fzero x))
    | _ => Ok total
    end) fzero rows.

Definition positive (x : f64) : option f64 := if fltb fzero x then Some x else None.

Definition _extract_fee_total (exchange : string) (response : dict) : result (option f64) :=
  if String.eqb exchange "binance" then
    match dget "fills" response with
    | VList fills => positive <$> sum_rows "commission" fills
    | _ => Ok None
    end
  else if String.eqb exchange "bitget" then
    positive <$> _first_positive_float (_bitget_status_data response) ["fee"; "totalFee"]
  else positive <$> _first_positive_float response ["fee"; "feePaid"; "totalFee"].

Definition _snapshot_from_dispatch_outcome (order : TrackedLifecycleOrder) (outcome : DispatchOutcome)
  : result LifecycleStatusSnapshot :=
  let raw_response := do_raw_response outcome in
  let exchange_response := match dget "exchange_response" raw_response with VDict d => d | _ => [] end in
  let normalized_exchange := lower (strip (to_exchange order)) in
  let status := _normalize_status (VStr (do_status outcome)) in
  let exchange_order_id :=
    match _strip_or_none (dget "orderId" exchange_response) with
    | Some i => Some i
    | None => to_exchange_order_id order
    end in
  let client_order_id :=
    match _strip_or_none (dget "clientOrderId" exchange_response),
          _strip_or_none (dget "clientOid" exchange_response) with
    | Some i, _ => Some i
    | None, Some i => Some i
    | None, None => to_client_order_id order
    end in
  filled ← _extract_filled_quantity_total normalized_exchange exchange_response;
  average_price ← _extract_average_price normalized_exchange exchange_response filled;
  fee_total ← _extract_fee_total normalized_exchange exchange_response;
  Ok {| ls_exchange := normalized_exchange; ls_symbol := to_symbol order; ls_status := status;
        ls_exchange_order_id := exchange_order_id; ls_client_order_id := client_order_id;
        ls_filled_quantity_total := filled; ls_average_price := average_price; ls_fee_total := fee_total;
        ls_raw_response := raw_response |}.

Definition _extract_ccxt_fee_total (order : dict) : result (option f64) :=
  cost ← match dget "fee" order with
         | VDict fee => _to_float (dget "cost" fee) fzero
         | _ => Ok fzero
         end;
  if fltb fzero cost then Ok (Some cost)
  else match dget "fees" order with
       | VList fees => positive <$> sum_rows "cost" fees
       | _ => Ok None
       end.

(** The order items in whatever the stream delivers. *)
Definition ccxt_values (orders : val) : list val :=
  match orders with
  | VDict d => match dget "orders" d with VList l => l | _ => [orders] end
  | VList l => l
  | _ => []
  end.

Definition ccxt_snapshot (exchange symbol : string) (item : dict) : result LifecycleStatusSnapshot :=
  let status := _normalize_status (dget_or "status" (VStr "submitted") item) in
  filled ← fmax fzero <$> _to_float (dget "filled" item) fzero;
  let status := if String.eqb status "submitted" && fltb fzero filled then "partially_filled"%string else status in
  average_price ← price_or (_positive_or_none (dget "average" item)) (_positive_or_none (dget "price" item));
  fee_total ← _extract_ccxt_fee_total item;
  Ok {| ls_exchange := exchange;
        ls_symbol := upper (strip (py_str (py_or (dget_or "symbol" (VStr symbol) item) (VStr symbol))));
        ls_status := status; ls_exchange_order_id := _strip_or_none (dget "id" item);
        ls_client_order_id := _strip_or_none (dget "clientOrderId" item);
        ls_filled_quantity_total := filled; ls_average_price := average_price; ls_fee_total := fee_total;
        ls_raw_response := item |}.

Definition _normalize_ccxt_orders (exchange symbol : string) (orders : val)
  : result (list LifecycleStatusSnapshot) :=
  map_res (ccxt_snapshot exchange symbol)
    (omap (fun v => match v with VDict d => Some d | _ => None end) (ccxt_values orders)).

(** An id that is there and not empty. *)
Definition present (o : option string) : option string :=
  match o with Some s => if is_empty s then None else Some s | None => None end.

Definition _resolve_order_id (order : TrackedLifecycleOrder) : string :=
  match present (to_exchange_order_id order), present (to_client_order_id order) with
  | Some i, _ => i
  | None, Some i => i
  | None, None => uuid_str (uuid5_url ("real-order:" +:+ to_idempotency_key order))
  end.

(** ** Connectors and pollers *)

Class PrivateOrderStreamConnector (C : Type) := {
  supports_private_stream : C -> bool;
  poll_updates : list TrackedLifecycleOrder -> f64 -> prog C (list LifecycleStatusSnapshot);
}.

Class OrderStatusPoller (P : Type) := {
  fetch_status : TrackedLifecycleOrder -> prog P (option LifecycleStatusSnapshot);
}.

Record NoopPrivateOrderStreamConnector := Noop {}.

#[export] Instance noop_connector : PrivateOrderStreamConnector NoopPrivateOrderStreamConnector :=
  {| supports_private_stream _ := false; poll_updates _ _ := mret [] |}.

(** A CCXT Pro client: [watch_orders], when it has one, by call; the argument is
    the symbol, if any, and the time allowed. A call that times out raises. *)
Record ccxt_client := { cx_watch_orders : option (nat -> option string -> f64 -> result val) }.

Record CCXTProPrivateOrderStreamConnector := {
  cc_watch_timeout_seconds : f64;
  cc_clients : list (string * ccxt_client);
  cc_calls : nat;
}.

(** A call of a client, the next in number. *)
Definition call_watch (w : nat -> option string -> f64 -> result val) (symbol : option string) (timeout_seconds : f64)
  : prog CCXTProPrivateOrderStreamConnector val := fun c =>
  ({| cc_watch_timeout_seconds := cc_watch_timeout_seconds c; cc_clients := cc_clients c;
      cc_calls := S (cc_calls c) |}, w (cc_calls c) symbol timeout_seconds).

Definition _watch_orders (client : ccxt_client) (symbol : string) (timeout_seconds : f64)
  : prog CCXTProPrivateOrderStreamConnector val := fun c =>
  match cx_watch_orders client with
  | None => (c, Ok (VList []))
  | Some w =>
      let '(c1, r) := call_watch w (Some symbol) timeout_seconds c in
      match r with
      | Ok v => (c1, Ok v)
      | Raise e => if bool_decide (exc_cls e = TypeError) then call_watch w None timeout_seconds c1 else (c1, Raise e)
      end
  end.

(** The symbol that is watched on each exchange: that of its first open order. *)
Definition watched_symbols (clients : list (string * ccxt_client)) (orders : list TrackedLifecycleOrder)
  : list (string * string) :=
  foldl (fun acc order =>
    if is_terminal order then acc
    else if is_some (assoc_get (to_exchange order) clients) then
      if is_some (assoc_get (to_exchange order) acc) then acc
      else acc ++ [(to_exchange order, to_symbol order)]
    else acc) [] orders.

Definition poll_exchange (request_timeout : f64) (acc : list LifecycleStatusSnapshot) (es : string * string)
  : prog CCXTProPrivateOrderStreamConnector (list LifecycleStatusSnapshot) := fun c =>
  match assoc_get es.1 (cc_clients c) with
  | None => (c, Ok acc)
  | Some client =>
      let '(c1, r) := _watch_orders client es.2 request_timeout c in
      match r with
      | Raise _ => (c1, Ok acc)
      | Ok orders => (c1, snaps ← _normalize_ccxt_orders es.1 es.2 orders; Ok (acc ++ snaps))
      end
  end.

Fixpoint poll_exchanges (request_timeout : f64) (acc : list LifecycleStatusSnapshot) (l : list (string * string))
  : prog CCXTProPrivateOrderStreamConnector (list LifecycleStatusSnapshot) :=
  match l with
  | [] => mret acc
  | es :: l' => acc ← poll_exchange request_timeout acc es; poll_exchanges request_timeout acc l'
  end.

Definition ccxt_poll_updates (tracked_orders : list TrackedLifecycleOrder) (timeout_seconds : f64)
  : prog CCXTProPrivateOrderStreamConnector (list LifecycleStatusSnapshot) := fun c =>
  match tracked_orders, cc_clients c with
  | [], _ | _, [] => (c, Ok [])
  | _, _ =>
      let request_timeout :=
        if fltb fzero timeout_seconds
        then fmin (cc_watch_timeout_seconds c) (fmax (flit 1 (-1)) timeout_seconds)
        else cc_watch_timeout_seconds c in
      poll_exchanges request_timeout [] (watched_symbols (cc_clients c) tracked_orders) c
  end.

#[export] Instance ccxt_connector : PrivateOrderStreamConnector CCXTProPrivateOrderStreamConnector :=
  {| supports_private_stream c := match cc_clients c with [] => false | _ => true end;
     poll_updates := ccxt_poll_updates |}.

Definition _ccxt_private_stream_credentials (env : string -> option string) (exchange : string) : option dict :=
  let get k := strip (default ""%string (env k)) in
  if String.eqb exchange "binance" then
    let api_key := get "BINANCE_API_KEY" in
    let api_secret := get "BINANCE_API_SECRET" in
    if is_empty api_key || is_empty api_secret then None
    else Some [("apiKey"%string, VStr api_key); ("secret"%string, VStr api_secret)]
  else if String.eqb exchange "bitget" then
    let api_key := get "BITGET_API_KEY" in
    let api_secret := get "BITGET_API_SECRET" in
    let passphrase := get "BITGET_API_PASSPHRASE" in
    if is_empty api_key || is_empty api_secret || is_empty passphrase then None
    else Some [("apiKey"%string, VStr api_key); ("secret"%string, VStr api_secret);
               ("password"%string, VStr passphrase)]
  else None.

(** The [ccxt.pro] module, when it can be imported: a factory per exchange name,
    which may fail. *)
Definition ccxt_module : Type := option (string -> option (dict -> option ccxt_client)).

Definition _load_clients (module : ccxt_module) (env : string -> option string) (exchanges : list string)
  : list (string * ccxt_client) :=
  match module with
  | None => []
  | Some factory_of =>
      foldl (fun acc exchange =>
        let normalized := lower (strip exchange) in
        if is_empty normalized then acc
        else match factory_of normalized, _ccxt_private_stream_credentials env normalized with
             | Some factory, Some credentials =>
                 match factory (("enableRateLimit"%string, VBool true) :: credentials) with
                 | Some client => assoc_set normalized client acc
                 | None => acc
                 end
             | _, _ => acc
             end) [] exchanges
  end.

Definition ccxt_init (module : ccxt_module) (env : string -> option string) (exchanges : list string)
    (watch_timeout_seconds : f64) : CCXTProPrivateOrderStreamConnector :=
  {| cc_watch_timeout_seconds := fmax (flit 1 (-1)) watch_timeout_seconds;
     cc_clients := _load_clients module env exchanges; cc_calls := 0 |}.

(** The REST poller keeps one adapter per exchange; the requests it sends are
    logged as in the adapters. *)
Record SignedRESTOrderStatusPoller := {
  rp_enable_real_dispatch : bool;
  rp_adapters : list (string * SpotExecutionAdapter);
  rp_sent : list http_request;
}.

Definition set_sent (l : list http_request) (p : SignedRESTOrderStatusPoller) :=
  {| rp_enable_real_dispatch := rp_enable_real_dispatch p; rp_adapters := rp_adapters p; rp_sent := l |}.
Definition set_adapters (l : list (string * SpotExecutionAdapter)) (p : SignedRESTOrderStatusPoller) :=
  {| rp_enable_real_dispatch := rp_enable_real_dispatch p; rp_adapters := l; rp_sent := rp_sent p |}.

(** An exception other than a [ValueError] leaves [_resolve_adapter]. *)
Definition _resolve_adapter (io : outside) (exchange : string)
  : prog SignedRESTOrderStatusPoller (option SpotExecutionAdapter) := fun p =>
  let normalized := lower (strip exchange) in
  if is_empty normalized then (p, Ok None)
  else match assoc_get normalized (rp_adapters p) with
       | Some a => (p, Ok (Some a))
       | None =>
           match get_spot_adapter io normalized (Some (rp_enable_real_dispatch p)) with
           | Ok a => (set_adapters (assoc_set normalized a (rp_adapters p)) p, Ok (Some a))
           | Raise e => (p, if is_value_error (exc_cls e) then Ok None else Raise e)
           end
       end.

Definition status_payload (order : TrackedLifecycleOrder) : dict :=
  [("command_id", VStr ("status-" +:+ to_decision_id order)); ("operation", VStr "GET_ORDER_STATUS");
   ("action", VStr "CANCEL"); ("exchange", VStr (to_exchange order)); ("symbol", VStr (to_symbol order));
   ("quantity", VFloat fzero); ("order_type", VStr (to_order_type order));
   ("time_in_force", opt_str (to_time_in_force order)); ("limit_price", opt_float (to_limit_price order));
   ("trigger_price", opt_float (to_trigger_price order)); ("reduce_only", VBool (to_reduce_only order));
   ("idempotency_key", VStr (to_idempotency_key order +:+ ":status"));
   ("client_order_id", opt_str (to_client_order_id order));
   ("exchange_order_id", opt_str (to_exchange_order_id order)); ("trace_id", VStr (to_trace_id order));
   ("decision_id", VStr (to_decision_id order))]%string.

Definition rest_fetch_status (io : list http_request -> outside) (order : TrackedLifecycleOrder)
  : prog SignedRESTOrderStatusPoller (option LifecycleStatusSnapshot) := fun p =>
  let io := io (rp_sent p) in
  match _resolve_adapter io (to_exchange order) p with
  | (p1, Raise e) => (p1, Raise e)
  | (p1, Ok None) => (p1, Ok None)
  | (p1, Ok (Some adapter)) =>
      let '(sent, r) := get_order_status io adapter (status_payload order) (rp_sent p1) in
      (set_sent sent p1,
       match r with
       | Ok outcome => Some <$> _snapshot_from_dispatch_outcome order outcome
       | Raise _ => Ok None
       end)
  end.

(** The readings of the environment and the clock depend on what was sent. *)
#[export] Instance rest_poller (io : list http_request -> outside) : OrderStatusPoller SignedRESTOrderStatusPoller :=
  {| fetch_status := rest_fetch_status io |}.

(** ** The worker *)

(** The settings of the constructor. *)
Record lifecycle_settings := {
  st_intent_queue_name : string;
  st_stream_stale_after_seconds : f64;
  st_fallback_poll_interval_seconds : f64;
  st_terminal_retention_seconds : f64;
  st_max_tracked_orders : Z;
}.

Definition lifecycle_settings_init (intent_queue_name : string)
    (stream_stale_after fallback_poll_interval terminal_retention : f64) (max_tracked_orders : Z) :=
  {| st_intent_queue_name := intent_queue_name;
     st_stream_stale_after_seconds := fmax fzero stream_stale_after;
     st_fallback_poll_interval_seconds := fmax fzero fallback_poll_interval;
     st_terminal_retention_seconds := fmax fzero terminal_retention;
     st_max_tracked_orders := Z.max 10 max_tracked_orders |}.

Record lifecycle_counters := {
  lc_last_private_update : option f64;
  lc_last_fallback_poll : f64;
  lc_intents_tracked_total : Z;
  lc_private_updates_total : Z;
  lc_rest_fallback_polls_total : Z;
  lc_rest_fallback_updates_total : Z;
  lc_last_activity : dict;
}.

(** The clocks: [time.monotonic()] and [datetime.now], by reading. *)
Record clocks := { ck_monotonic : nat -> f64; ck_wall : nat -> Z }.

Section worker.
Context {C P : Type} `{PrivateOrderStreamConnector C} `{OrderStatusPoller P}.

Record ExecutionLifecycleWorker := Worker {
  lw_broker : InMemoryTopicBroker;
  lw_connector : C;
  lw_poller : P;
  lw_settings : lifecycle_settings;
  lw_tracked_orders : list (string * TrackedLifecycleOrder);
  lw_counters : lifecycle_counters;
  lw_monotonic_reads : nat;
  lw_wall_reads : nat;
}.

Definition worker_init (broker : InMemoryTopicBroker) (connector : C) (poller : P)
    (settings : lifecycle_settings) : ExecutionLifecycleWorker :=
  {| lw_broker := broker; lw_connector := connector; lw_poller := poller; lw_settings := settings;
     lw_tracked_orders := [];
     lw_counters := {| lc_last_private_update := None; lc_last_fallback_poll := fzero;
                       lc_intents_tracked_total := 0; lc_private_updates_total := 0;
                       lc_rest_fallback_polls_total := 0; lc_rest_fallback_updates_total := 0;
                       lc_last_activity := [] |};
     lw_monotonic_reads := 0; lw_wall_reads := 0 |}.

Definition set_broker (b : InMemoryTopicBroker) (w : ExecutionLifecycleWorker) : ExecutionLifecycleWorker :=
  let 'Worker _ c p s t k m n := w in Worker b c p s t k m n.
Definition set_connector (c : C) (w : ExecutionLifecycleWorker) : ExecutionLifecycleWorker :=
  let 'Worker b _ p s t k m n := w in Worker b c p s t k m n.
Definition set_poller (p : P) (w : ExecutionLifecycleWorker) : ExecutionLifecycleWorker :=
  let 'Worker b c _ s t k m n := w in Worker b c p s t k m n.
Definition set_tracked (t : list (string * TrackedLifecycleOrder)) (w : ExecutionLifecycleWorker)
  : ExecutionLifecycleWorker :=
  let 'Worker b c p s _ k m n := w in Worker b c p s t k m n.
Definition set_counters (k : lifecycle_counters) (w : ExecutionLifecycleWorker) : ExecutionLifecycleWorker :=
  let 'Worker b c p s t _ m n := w in Worker b c p s t k m n.

Abbreviation step := (prog ExecutionLifecycleWorker).

Definition monotonic (ck : clocks) : step f64 := fun w =>
  let 'Worker b c p s t k m n := w in (Worker b c p s t k (S m) n, Ok (ck_monotonic ck m)).
Definition _utc_now_iso (ck : clocks) : step string := fun w =>
  let 'Worker b c p s t k m n := w in (Worker b c p s t k m (S n), Ok (iso_z (ck_wall ck n))).

Definition put_order (o : TrackedLifecycleOrder) : step unit :=
  modify (fun w => set_tracked (assoc_set (to_tracking_key o) o (lw_tracked_orders w)) w).

Definition _open_orders (w : ExecutionLifecycleWorker) : list TrackedLifecycleOrder :=
  filter (fun o => is_terminal o = false) (lw_tracked_orders w).*2.

(** *** Eviction *)

Definition removable (now retention : f64) (force : bool) (o : TrackedLifecycleOrder) : bool :=
  is_terminal o &&
  match to_terminal_marked_at o with
  | None => true
  | Some marked_at => force || fleb retention (fsub now marked_at)
  end.

Definition _evict_terminal_orders (ck : clocks) (force : bool) : step unit := fun w =>
  match lw_tracked_orders w with
  | [] => (w, Ok tt)
  | _ =>
      (now ← monotonic ck;
       modify (fun w =>
         set_tracked (filter (fun ko => removable now (st_terminal_retention_seconds (lw_settings w)) force ko.2 = false)
                        (lw_tracked_orders w)) w)) w
  end.

(** *** Intents *)

(** What an accepted intent asks to track. *)
Record intent_fields := {
  if_idempotency_key : string;
  if_exchange : string;
  if_symbol : string;
  if_action : string;
  if_quantity : f64;
  if_client_order_id : option string;
  if_exchange_order_id : option string;
}.

Definition intent_envelope_ok (envelope : dict) : result bool :=
  match validate_envelope (VDict envelope) with
  | Ok _ =>
      Ok (String.eqb (upper (py_str (dget_or "mode" (VStr "") envelope))) "REAL" &&
          String.eqb (py_str (dget_or "event_type" (VStr "") envelope)) "execution.intent.created" &&
          is_dict (dget "payload" envelope))
  | Raise e => if bool_decide (exc_cls e = EnvelopeValidationError) then Ok false else Raise e
  end.

Definition payload_of (envelope : dict) : dict := match dget "payload" envelope with VDict d => d | _ => [] end.

Definition text_at (key dflt : string) (d : dict) : string := strip (py_str (dget_or key (VStr dflt) d)).

(** The guards of [_track_execution_intent]; [None] is the early [return None]. *)
Definition intent_scope (envelope : dict) : result (option intent_fields) :=
  ok ← intent_envelope_ok envelope;
  if negb ok then Ok None
  else
    let payload := payload_of envelope in
    let idempotency_key := text_at "idempotency_key" "" envelope in
    let exchange := lower (text_at "exchange" "binance" payload) in
    let symbol := upper (text_at "symbol" "" payload) in
    let action := upper (text_at "action" "" payload) in
    quantity ← fabs <$> float_of_val (py_or (dget_or "quantity" (VFloat fzero) payload) (VFloat fzero));
    if is_empty idempotency_key || is_empty exchange || is_empty symbol ||
       negb (one_of action ["BUY"; "SELL"; "CLOSE"]) then Ok None
    else if fleb quantity fzero then Ok None
    else Ok (Some {| if_idempotency_key := idempotency_key; if_exchange := exchange; if_symbol := symbol;
                     if_action := action; if_quantity := quantity;
                     if_client_order_id := _strip_or_none (dget "client_order_id" payload);
                     if_exchange_order_id := _strip_or_none (dget "exchange_order_id" payload) |}).

(** The assignments to an order that is tracked already. *)
Definition retrack (f : intent_fields) (o : TrackedLifecycleOrder) : TrackedLifecycleOrder :=
  {| to_tracking_key := to_tracking_key o; to_trace_id := to_trace_id o; to_decision_id := to_decision_id o;
     to_mode := to_mode o; to_idempotency_key := to_idempotency_key o; to_strategy_id := to_strategy_id o;
     to_exchange := to_exchange o; to_symbol := to_symbol o; to_action := if_action f;
     to_order_type := to_order_type o; to_time_in_force := to_time_in_force o;
     to_limit_price := to_limit_price o; to_trigger_price := to_trigger_price o;
     to_reduce_only := to_reduce_only o; to_requested_quantity := if_quantity f;
     to_client_order_id := match if_client_order_id f with Some i => Some i | None => to_client_order_id o end;
     to_exchange_order_id := match if_exchange_order_id f with Some i => Some i | None => to_exchange_order_id o end;
     to_status := to_status o; to_reported_filled_quantity := to_reported_filled_quantity o;
     to_reported_fee_total := to_reported_fee_total o; to_average_price := to_average_price o;
     to_emitted_events := to_emitted_events o; to_terminal_marked_at := to_terminal_marked_at o |}.

Definition new_tracked (envelope : dict) (f : intent_fields) : result TrackedLifecycleOrder :=
  let payload := payload_of envelope in
  trace_id ← dict_index "trace_id" envelope;
  decision_id ← dict_index "decision_id" envelope;
  limit_price ← _positive_or_none (dget "limit_price" payload);
  trigger_price ← _positive_or_none (dget "trigger_price" payload);
  Ok {| to_tracking_key := if_idempotency_key f; to_trace_id := py_str trace_id;
        to_decision_id := py_str decision_id; to_mode := "REAL"; to_idempotency_key := if_idempotency_key f;
        to_strategy_id := py_str (dget_or "strategy_id" (VStr "") payload);
        to_exchange := if_exchange f; to_symbol := if_symbol f; to_action := if_action f;
        to_order_type := upper (py_str (py_or (dget_or "order_type" (VStr "MARKET") payload) (VStr "MARKET")));
        to_time_in_force := _strip_or_none (dget "time_in_force" payload);
        to_limit_price := limit_price; to_trigger_price := trigger_price;
        to_reduce_only := truthy (dget_or "reduce_only" (VBool false) payload);
        to_requested_quantity := if_quantity f; to_client_order_id := if_client_order_id f;
        to_exchange_order_id := if_exchange_order_id f; to_status := "submitted";
        to_reported_filled_quantity := fzero; to_reported_fee_total := fzero; to_average_price := None;
        to_emitted_events := 0; to_terminal_marked_at := None |}.

Definition full (w : ExecutionLifecycleWorker) : bool :=
  st_max_tracked_orders (lw_settings w) <=? Z.of_nat (List.length (lw_tracked_orders w)).

(** Room for a new order, after evicting terminal orders if there is none. *)
Definition make_room (ck : clocks) : step bool := fun w =>
  if full w then
    (_ ← _evict_terminal_orders ck true; gets (fun w => negb (full w))) w
  else (w, Ok true).

Definition track_new (ck : clocks) (envelope : dict) (f : intent_fields) : step (option TrackedLifecycleOrder) :=
  room ← make_room ck;
  if room : bool
  then o ← lift (new_tracked envelope f); _ ← put_order o; mret (Some o)
  else mret None.

Definition _track_execution_intent (ck : clocks) (envelope : dict) : step (option TrackedLifecycleOrder) :=
  scope ← lift (intent_scope envelope);
  match scope with
  | None => mret None
  | Some f =>
      existing ← gets (fun w => assoc_get (if_idempotency_key f) (lw_tracked_orders w));
      match existing with
      | Some o => _ ← put_order (retrack f o); mret (Some (retrack f o))
      | None => track_new ck envelope f
      end
  end.

(** *** Snapshots *)

(** The first tracked order with [test]. *)
Definition find_order (test : TrackedLifecycleOrder -> bool) (w : ExecutionLifecycleWorker)
  : option TrackedLifecycleOrder := List.find test (lw_tracked_orders w).*2.

Definition same_id (id : string) (o : option string) : bool :=
  match present o with Some i => String.eqb i id | None => false end.

Definition by_exchange_id (exchange : string) (snap : LifecycleStatusSnapshot) (o : TrackedLifecycleOrder) : bool :=
  match present (ls_exchange_order_id snap) with
  | Some i => String.eqb (to_exchange o) exchange && same_id (strip i) (to_exchange_order_id o)
  | None => false
  end.

Definition by_client_id (exchange : string) (snap : LifecycleStatusSnapshot) (o : TrackedLifecycleOrder) : bool :=
  match present (ls_client_order_id snap) with
  | Some i => String.eqb (to_exchange o) exchange && same_id (strip i) (to_client_order_id o)
  | None => false
  end.

Definition by_symbol (exchange symbol : string) (o : TrackedLifecycleOrder) : bool :=
  String.eqb (to_exchange o) exchange && String.eqb (to_symbol o) symbol.

Definition _resolve_order (snap : LifecycleStatusSnapshot) (w : ExecutionLifecycleWorker)
  : option TrackedLifecycleOrder :=
  let exchange := lower (strip (ls_exchange snap)) in
  if is_empty exchange then None
  else match find_order (by_exchange_id exchange snap) w with
       | Some o => Some o
       | None =>
           match find_order (by_client_id exchange snap) w with
           | Some o => Some o
           | None =>
               let symbol := upper (strip (ls_symbol snap)) in
               if is_empty symbol then None
               else match List.filter (by_symbol exchange symbol) (lw_tracked_orders w).*2 with
                    | [o] => Some o
                    | _ => None
                    end
           end
       end.

Definition or_id (o : option string) (snap : option string) : option string :=
  match present o, present snap with
  | Some _, _ | None, None => o
  | None, Some i => Some i
  end.

(** [order.exchange_order_id = ...] and [order.client_order_id = ...], where the
    order has none. *)
Definition learn_ids (snap : LifecycleStatusSnapshot) (o : TrackedLifecycleOrder) : TrackedLifecycleOrder :=
  {| to_tracking_key := to_tracking_key o; to_trace_id := to_trace_id o; to_decision_id := to_decision_id o;
     to_mode := to_mode o; to_idempotency_key := to_idempotency_key o; to_strategy_id := to_strategy_id o;
     to_exchange := to_exchange o; to_symbol := to_symbol o; to_action := to_action o;
     to_order_type := to_order_type o; to_time_in_force := to_time_in_force o;
     to_limit_price := to_limit_price o; to_trigger_price := to_trigger_price o;
     to_reduce_only := to_reduce_only o; to_requested_quantity := to_requested_quantity o;
     to_client_order_id := or_id (to_client_order_id o) (ls_client_order_id snap);
     to_exchange_order_id := or_id (to_exchange_order_id o) (ls_exchange_order_id snap);
     to_status := to_status o; to_reported_filled_quantity := to_reported_filled_quantity o;
     to_reported_fee_total := to_reported_fee_total o; to_average_price := to_average_price o;
     to_emitted_events := to_emitted_events o; to_terminal_marked_at := to_terminal_marked_at o |}.

(** What a snapshot changes about an order. *)
Record change := {
  cg_status : string;
  cg_event_type : string;
  cg_quantity : f64;
  cg_total_filled : f64;
  cg_fee_total : f64;
  cg_fee_delta : f64;
  cg_average_price : option f64;
}.

(** A total that an exchange reports never goes below what was reported. *)
Definition raised_total (reported total : f64) : f64 :=
  let total := fmax fzero total in if fltb total reported then reported else total.

Definition is_fill_event (event_type : string) : bool := one_of event_type _FILL_EVENT_TYPES.

(** The quantity of the event: for a fill the advance of the total (for an order
    that is filled without an advance, the open remainder), else the order's. *)
Definition event_quantity (o : TrackedLifecycleOrder) (status event_type : string) (fill_delta : f64) : f64 :=
  if is_fill_event event_type then
    if fleb fill_delta fzero && String.eqb status "filled"
    then fmax fzero (fsub (to_requested_quantity o) (to_reported_filled_quantity o))
    else fill_delta
  else to_requested_quantity o.

(** [None] is [return False]. *)
Definition plan_change (o : TrackedLifecycleOrder) (snap : LifecycleStatusSnapshot) : option change :=
  let status := _normalize_status (VStr (ls_status snap)) in
  let total_filled := raised_total (to_reported_filled_quantity o) (ls_filled_quantity_total snap) in
  let fill_delta := fmax fzero (fsub total_filled (to_reported_filled_quantity o)) in
  let fee_total := raised_total (to_reported_fee_total o) (default fzero (ls_fee_total snap)) in
  let fee_delta := fmax fzero (fsub fee_total (to_reported_fee_total o)) in
  let average_price :=
    match ls_average_price snap with
    | Some p => if fleb p fzero then to_average_price o else Some p
    | None => to_average_price o
    end in
  if String.eqb status (to_status o) && fleb fill_delta fzero && fleb fee_delta fzero then None
  else match _status_to_event_type status with
       | None => None
       | Some event_type =>
           let quantity := event_quantity o status event_type fill_delta in
           if fleb quantity fzero then None
           else Some {| cg_status := status; cg_event_type := event_type; cg_quantity := quantity;
                        cg_total_filled := total_filled; cg_fee_total := fee_total; cg_fee_delta := fee_delta;
                        cg_average_price := average_price |}
       end.

Definition lifecycle_event (source now : string) (o : TrackedLifecycleOrder) (c : change) : dict :=
  [("trace_id", VStr (to_trace_id o)); ("decision_id", VStr (to_decision_id o)); ("mode", VStr (to_mode o));
   ("idempotency_key", VStr (to_idempotency_key o +:+ ":" +:+ source +:+ ":" +:+ str_of_Z (to_emitted_events o)));
   ("event_type", VStr (cg_event_type c)); ("emitted_at", VStr now);
   ("payload", VDict
     [("strategy_id", VStr (to_strategy_id o)); ("order_id", VStr (_resolve_order_id o));
      ("exchange_order_id", opt_str (to_exchange_order_id o));
      ("client_order_id", opt_str (to_client_order_id o)); ("exchange", VStr (to_exchange o));
      ("symbol", VStr (to_symbol o)); ("mode", VStr (to_mode o)); ("action", VStr (to_action o));
      ("order_type", VStr (to_order_type o)); ("time_in_force", opt_str (to_time_in_force o));
      ("limit_price", opt_float (to_limit_price o)); ("trigger_price", opt_float (to_trigger_price o));
      ("reduce_only", VBool (to_reduce_only o)); ("quantity", VFloat (cg_quantity c));
      ("fill_price", opt_float (cg_average_price c));
      ("fee_paid", VFloat (if fltb fzero (cg_fee_delta c) then cg_fee_delta c else fzero));
      ("status", VStr (upper (cg_status c))); ("source", VStr source)]);
   ("service", VStr "execution_lifecycle_worker")]%string.

Definition count_event (o : TrackedLifecycleOrder) : TrackedLifecycleOrder :=
  {| to_tracking_key := to_tracking_key o; to_trace_id := to_trace_id o; to_decision_id := to_decision_id o;
     to_mode := to_mode o; to_idempotency_key := to_idempotency_key o; to_strategy_id := to_strategy_id o;
     to_exchange := to_exchange o; to_symbol := to_symbol o; to_action := to_action o;
     to_order_type := to_order_type o; to_time_in_force := to_time_in_force o;
     to_limit_price := to_limit_price o; to_trigger_price := to_trigger_price o;
     to_reduce_only := to_reduce_only o; to_requested_quantity := to_requested_quantity o;
     to_client_order_id := to_client_order_id o; to_exchange_order_id := to_exchange_order_id o;
     to_status := to_status o; to_reported_filled_quantity := to_reported_filled_quantity o;
     to_reported_fee_total := to_reported_fee_total o; to_average_price := to_average_price o;
     to_emitted_events := to_emitted_events o + 1; to_terminal_marked_at := to_terminal_marked_at o |}.

(** The order after its event was published. *)
Definition settle (c : change) (o : TrackedLifecycleOrder) : TrackedLifecycleOrder :=
  {| to_tracking_key := to_tracking_key o; to_trace_id := to_trace_id o; to_decision_id := to_decision_id o;
     to_mode := to_mode o; to_idempotency_key := to_idempotency_key o; to_strategy_id := to_strategy_id o;
     to_exchange := to_exchange o; to_symbol := to_symbol o; to_action := to_action o;
     to_order_type := to_order_type o; to_time_in_force := to_time_in_force o;
     to_limit_price := to_limit_price o; to_trigger_price := to_trigger_price o;
     to_reduce_only := to_reduce_only o; to_requested_quantity := to_requested_quantity o;
     to_client_order_id := to_client_order_id o; to_exchange_order_id := to_exchange_order_id o;
     to_status := cg_status c;
     to_reported_filled_quantity := fmax (to_reported_filled_quantity o) (cg_total_filled c);
     to_reported_fee_total := fmax (to_reported_fee_total o) (cg_fee_total c);
     to_average_price := cg_average_price c;
     to_emitted_events := to_emitted_events o; to_terminal_marked_at := to_terminal_marked_at o |}.

Definition mark_terminal (now : f64) (o : TrackedLifecycleOrder) : TrackedLifecycleOrder :=
  {| to_tracking_key := to_tracking_key o; to_trace_id := to_trace_id o; to_decision_id := to_decision_id o;
     to_mode := to_mode o; to_idempotency_key := to_idempotency_key o; to_strategy_id := to_strategy_id o;
     to_exchange := to_exchange o; to_symbol := to_symbol o; to_action := to_action o;
     to_order_type := to_order_type o; to_time_in_force := to_time_in_force o;
     to_limit_price := to_limit_price o; to_trigger_price := to_trigger_price o;
     to_reduce_only := to_reduce_only o; to_requested_quantity := to_requested_quantity o;
     to_client_order_id := to_client_order_id o; to_exchange_order_id := to_exchange_order_id o;
     to_status := to_status o; to_reported_filled_quantity := to_reported_filled_quantity o;
     to_reported_fee_total := to_reported_fee_total o; to_average_price := to_average_price o;
     to_emitted_events := to_emitted_events o; to_terminal_marked_at := Some now |}.

Definition broker_publish (routing_key : string) (message : dict) : step unit := fun w =>
  match publish routing_key (VDict message) (lw_broker w) with
  | Ok (b, _) => (set_broker b w, Ok tt)
  | Raise e => (w, Raise e)
  end.

Definition set_activity (a : dict) (k : lifecycle_counters) : lifecycle_counters :=
  {| lc_last_private_update := lc_last_private_update k; lc_last_fallback_poll := lc_last_fallback_poll k;
     lc_intents_tracked_total := lc_intents_tracked_total k;
     lc_private_updates_total := lc_private_updates_total k;
     lc_rest_fallback_polls_total := lc_rest_fallback_polls_total k;
     lc_rest_fallback_updates_total := lc_rest_fallback_updates_total k; lc_last_activity := a |}.

Definition record_activity (a : dict) : step unit :=
  modify (fun w => set_counters (set_activity a (lw_counters w)) w).

Definition snapshot_activity (source event_type : string) (o : TrackedLifecycleOrder) : dict :=
  [("event", VStr event_type); ("source", VStr source); ("trace_id", VStr (to_trace_id o));
   ("decision_id", VStr (to_decision_id o)); ("mode", VStr (to_mode o));
   ("order_id", VStr (_resolve_order_id o)); ("exchange", VStr (to_exchange o));
   ("symbol", VStr (to_symbol o)); ("status", VStr (to_status o));
   ("filled_quantity_total", VFloat (to_reported_filled_quantity o));
   ("average_price", opt_float (to_average_price o))]%string.

(** The part of [_apply_snapshot] after the guards. *)
Definition emit_change (ck : clocks) (source : string) (o : TrackedLifecycleOrder) (c : change) : step bool :=
  let o := count_event o in
  _ ← put_order o;
  now ← _utc_now_iso ck;
  let event := lifecycle_event source now o c in
  _ ← lift (validate_envelope (VDict event));
  _ ← broker_publish (cg_event_type c) event;
  let settled := settle c o in
  _ ← put_order settled;
  _ ← (if is_terminal settled
       then t ← monotonic ck; put_order (mark_terminal t settled)
       else mret tt);
  _ ← record_activity (snapshot_activity source (cg_event_type c) settled);
  mret true.

Definition _apply_snapshot (ck : clocks) (source : string) (snap : LifecycleStatusSnapshot) : step bool :=
  order ← gets (_resolve_order snap);
  match order with
  | None => mret false
  | Some o =>
      let o := learn_ids snap o in
      _ ← put_order o;
      match plan_change o snap with
      | None => mret false
      | Some c => emit_change ck source o c
      end
  end.

(** *** The REST fallback *)

Definition _should_poll_rest_fallback (ck : clocks) : step bool := fun w =>
  match _open_orders w with
  | [] => (w, Ok false)
  | _ =>
      (now ← monotonic ck;
       gets (fun w =>
         let k := lw_counters w in
         if fltb (fsub now (lc_last_fallback_poll k)) (st_fallback_poll_interval_seconds (lw_settings w)) then false
         else if negb (supports_private_stream (lw_connector w)) then true
         else match lc_last_private_update k with
              | None => true
              | Some t => fleb (st_stream_stale_after_seconds (lw_settings w)) (fsub now t)
              end)) w
  end.

Definition count_poll (k : lifecycle_counters) : lifecycle_counters :=
  {| lc_last_private_update := lc_last_private_update k; lc_last_fallback_poll := lc_last_fallback_poll k;
     lc_intents_tracked_total := lc_intents_tracked_total k;
     lc_private_updates_total := lc_private_updates_total k;
     lc_rest_fallback_polls_total := lc_rest_fallback_polls_total k + 1;
     lc_rest_fallback_updates_total := lc_rest_fallback_updates_total k; lc_last_activity := lc_last_activity k |}.
Definition count_update (k : lifecycle_counters) : lifecycle_counters :=
  {| lc_last_private_update := lc_last_private_update k; lc_last_fallback_poll := lc_last_fallback_poll k;
     lc_intents_tracked_total := lc_intents_tracked_total k;
     lc_private_updates_total := lc_private_updates_total k;
     lc_rest_fallback_polls_total := lc_rest_fallback_polls_total k;
     lc_rest_fallback_updates_total := lc_rest_fallback_updates_total k + 1;
     lc_last_activity := lc_last_activity k |}.

(** The loop body, for the order object at [key]. *)
Definition poll_order (ck : clocks) (did_work : bool) (key : string) : step bool :=
  order ← gets (fun w => assoc_get key (lw_tracked_orders w));
  match order with
  | None => mret did_work
  | Some o =>
      snapshot ← zoom lw_poller set_poller (fetch_status o);
      match snapshot with
      | None => mret did_work
      | Some snap =>
          published ← _apply_snapshot ck "rest_fallback" snap;
          _ ← (if published : bool then modify (fun w => set_counters (count_update (lw_counters w)) w) else mret tt);
          mret (did_work || published)
      end
  end.

Fixpoint poll_orders (ck : clocks) (did_work : bool) (keys : list string) : step bool :=
  match keys with
  | [] => mret did_work
  | k :: keys' => did_work ← poll_order ck did_work k; poll_orders ck did_work keys'
  end.

Definition _poll_rest_fallback (ck : clocks) : step bool :=
  _ ← modify (fun w => set_counters (count_poll (lw_counters w)) w);
  open_orders ← gets _open_orders;
  poll_orders ck false (to_tracking_key <$> open_orders).

(** *** One step *)

Definition intent_activity (o : TrackedLifecycleOrder) : dict :=
  [("event", VStr "intent_tracked"); ("trace_id", VStr (to_trace_id o));
   ("decision_id", VStr (to_decision_id o)); ("mode", VStr (to_mode o)); ("exchange", VStr (to_exchange o));
   ("symbol", VStr (to_symbol o)); ("status", VStr (to_status o)); ("order_type", VStr (to_order_type o));
   ("requested_quantity", VFloat (to_requested_quantity o))]%string.

Definition count_intent (k : lifecycle_counters) : lifecycle_counters :=
  {| lc_last_private_update := lc_last_private_update k; lc_last_fallback_poll := lc_last_fallback_poll k;
     lc_intents_tracked_total := lc_intents_tracked_total k + 1;
     lc_private_updates_total := lc_private_updates_total k;
     lc_rest_fallback_polls_total := lc_rest_fallback_polls_total k;
     lc_rest_fallback_updates_total := lc_rest_fallback_updates_total k; lc_last_activity := lc_last_activity k |}.
Definition count_private (now : f64) (n : nat) (k : lifecycle_counters) : lifecycle_counters :=
  {| lc_last_private_update := Some now; lc_last_fallback_poll := lc_last_fallback_poll k;
     lc_intents_tracked_total := lc_intents_tracked_total k;
     lc_private_updates_total := lc_private_updates_total k + Z.of_nat n;
     lc_rest_fallback_polls_total := lc_rest_fallback_polls_total k;
     lc_rest_fallback_updates_total := lc_rest_fallback_updates_total k; lc_last_activity := lc_last_activity k |}.
Definition mark_poll (now : f64) (k : lifecycle_counters) : lifecycle_counters :=
  {| lc_last_private_update := lc_last_private_update k; lc_last_fallback_poll := now;
     lc_intents_tracked_total := lc_intents_tracked_total k;
     lc_private_updates_total := lc_private_updates_total k;
     lc_rest_fallback_polls_total := lc_rest_fallback_polls_total k;
     lc_rest_fallback_updates_total := lc_rest_fallback_updates_total k; lc_last_activity := lc_last_activity k |}.

Definition broker_consume : step (option dict) := fun w =>
  match consume (st_intent_queue_name (lw_settings w)) (lw_broker w) with
  | Ok (b, m) => (set_broker b w, Ok m)
  | Raise e => (w, Raise e)
  end.

Definition take_intent (ck : clocks) : step bool :=
  intent ← broker_consume;
  match intent with
  | None => mret false
  | Some envelope =>
      tracked ← _track_execution_intent ck envelope;
      match tracked with
      | None => mret false
      | Some o =>
          _ ← modify (fun w => set_counters (count_intent (lw_counters w)) w);
          _ ← record_activity (intent_activity o);
          mret true
      end
  end.

Fixpoint apply_snapshots (ck : clocks) (source : string) (did_work : bool) (snaps : list LifecycleStatusSnapshot)
  : step bool :=
  match snaps with
  | [] => mret did_work
  | snap :: snaps' =>
      published ← _apply_snapshot ck source snap;
      apply_snapshots ck source (did_work || published) snaps'
  end.

Definition poll_private (ck : clocks) (timeout_seconds : f64) (did_work : bool) : step bool :=
  open_orders ← gets _open_orders;
  match open_orders with
  | [] => mret did_work
  | _ =>
      updates ← zoom lw_connector set_connector (poll_updates open_orders timeout_seconds);
      _ ← match updates with
          | [] => mret tt
          | _ => now ← monotonic ck;
                 modify (fun w => set_counters (count_private now (List.length updates) (lw_counters w)) w)
          end;
      apply_snapshots ck "private_stream" did_work updates
  end.

Definition poll_rest (ck : clocks) (did_work : bool) : step bool :=
  should ← _should_poll_rest_fallback ck;
  if should : bool then
    fallback_did_work ← _poll_rest_fallback ck;
    now ← monotonic ck;
    _ ← modify (fun w => set_counters (mark_poll now (lw_counters w)) w);
    mret (did_work || fallback_did_work)
  else mret did_work.

Definition run_once (ck : clocks) (timeout_seconds : f64) : step bool :=
  did_work ← take_intent ck;
  did_work ← poll_private ck timeout_seconds did_work;
  did_work ← poll_rest ck did_work;
  _ ← _evict_terminal_orders ck false;
  mret did_work.

Definition activity_snapshot (w : ExecutionLifecycleWorker) : dict :=
  let k := lw_counters w in
  let count l := VInt (Z.of_nat (List.length (l : list TrackedLifecycleOrder))) in
  [("tracked_orders_total", count (lw_tracked_orders w).*2);
   ("open_orders_total", count (_open_orders w));
   ("terminal_orders_total", count (List.filter is_terminal (lw_tracked_orders w).*2));
   ("private_stream_enabled", VBool (supports_private_stream (lw_connector w)));
   ("intents_tracked_total", VInt (lc_intents_tracked_total k));
   ("private_updates_total", VInt (lc_private_updates_total k));
   ("rest_fallback_polls_total", VInt (lc_rest_fallback_polls_total k));
   ("rest_fallback_updates_total", VInt (lc_rest_fallback_updates_total k))]%string ++
  match lc_last_activity k with [] => [] | a => [("last_activity"%string, VDict a)] end.
End worker.
