(* ===== verification/ExecutionTracking.v ===== *)
(** * What the execution lifecycle worker guarantees

    Invariants of the tracked orders, the exact effect of a status snapshot,
    redelivery, the events of a step, and the behaviours of the stream and of
    the fallback that leave orders unattended. The definitions are those of
    ExecutionLifecycle. *)

From S2P Require Import Prelude PyStr PyFloat PyTime PyUuid PyVal Envelope Broker Http SpotAdapters ExecutionLifecycle.
From S2P Require PyDecimal FillReconciliation PositionEngine OmsLifecycle.
From stdpp Require Import options.
From Stdlib Require Import Ascii String SpecFloat.

#[local] Open Scope Z_scope.

(** ** Tracked orders *)

Record order_ok (key : string) (o : TrackedLifecycleOrder) : Prop := {
  oo_key : to_tracking_key o = key;
  oo_idempotency_key : to_idempotency_key o = key;
  oo_nonblank : strip key <> ""%string;
  oo_trace : uuid_valid (to_trace_id o) = true;
  oo_decision : uuid_valid (to_decision_id o) = true;
  oo_mode : to_mode o = "REAL"%string;
  oo_requested : fleb (to_requested_quantity o) fzero = false;
  oo_filled : fleb fzero (to_reported_filled_quantity o) = true;
  oo_fee : fleb fzero (to_reported_fee_total o) = true;
}.

(** The fields that the order keeps from its first intent. *)
Definition same_order (o o' : TrackedLifecycleOrder) : Prop :=
  to_tracking_key o' = to_tracking_key o /\ to_idempotency_key o' = to_idempotency_key o /\
  to_trace_id o' = to_trace_id o /\ to_decision_id o' = to_decision_id o /\ to_mode o' = to_mode o /\
  to_exchange o' = to_exchange o /\ to_symbol o' = to_symbol o.

Lemma learn_ids_ok k snap o : order_ok k o -> order_ok k (learn_ids snap o).
Proof. by intros []. Qed.
Lemma retrack_ok k f o : fleb (if_quantity f) fzero = false -> order_ok k o -> order_ok k (retrack f o).
Proof. by intros ? []. Qed.
Lemma count_event_ok k o : order_ok k o -> order_ok k (count_event o).
Proof. by intros []. Qed.
Lemma mark_terminal_ok k t o : order_ok k o -> order_ok k (mark_terminal t o).
Proof. by intros []. Qed.

Lemma fmax_nonneg a b : fleb fzero a = true -> fleb fzero (fmax a b) = true.
Proof. unfold fmax. intros H. destruct (fltb a b) eqn:E; [|done]. apply fltb_fleb in E. by eapply fleb_trans. Qed.

Lemma settle_ok k c o : order_ok k o -> order_ok k (settle c o).
Proof. intros []. split; try done; by apply fmax_nonneg. Qed.

Section tracking.
Context {C P : Type} `{PrivateOrderStreamConnector C} `{OrderStatusPoller P}.
#[local] Abbreviation W := (@ExecutionLifecycleWorker C P).
Implicit Types (w : W).

Record tracking (w : W) : Prop := {
  tk_keys : NoDup (lw_tracked_orders w).*1;
  tk_orders k o : (k, o) ∈ lw_tracked_orders w -> order_ok k o;
  tk_bound : Z.of_nat (List.length (lw_tracked_orders w)) <= st_max_tracked_orders (lw_settings w);
  tk_broker : bindings_declared (lw_broker w);
}.

(** Setters and lookups. *)
Lemma get_tracked t w : lw_tracked_orders (set_tracked t w) = t.
Proof. by destruct w. Qed.
Lemma set_tracked_twice t t' w : set_tracked t' (set_tracked t w) = set_tracked t' w.
Proof. by destruct w. Qed.
Lemma set_tracked_same w : set_tracked (lw_tracked_orders w) w = w.
Proof. by destruct w. Qed.

Lemma values_elem w o : tracking w -> o ∈ (lw_tracked_orders w).*2 ->
  assoc_get (to_tracking_key o) (lw_tracked_orders w) = Some o /\ order_ok (to_tracking_key o) o.
Proof.
  intros T Ho. apply list_elem_of_fmap in Ho as ([k o'] & -> & Hin). simpl.
  pose proof (tk_orders _ T _ _ Hin) as Hok. rewrite (oo_key _ _ Hok).
  split; [|done]. apply elem_assoc_get; [by apply tk_keys|done].
Qed.

(** Rewriting an order that is there keeps the invariant. *)
Lemma put_tracking w o :
  tracking w -> order_ok (to_tracking_key o) o -> to_tracking_key o ∈ (lw_tracked_orders w).*1 ->
  tracking (set_tracked (assoc_set (to_tracking_key o) o (lw_tracked_orders w)) w).
Proof.
  intros T Ho Hk. pose proof (assoc_set_present _ o _ Hk) as Hp. destruct T as [Hnd Hok Hb Hbr].
  destruct w as [b c p s t k m n]. simpl in *. split; simpl; [by rewrite Hp| |by rewrite <- (length_fmap fst), Hp, length_fmap|done].
  intros k' o'. rewrite assoc_set_elem by done. intros [[= -> ->]|[_ Hin]]; [done|by apply Hok].
Qed.

(** ** Resolution *)

Lemma resolve_elem snap w o : _resolve_order snap w = Some o -> o ∈ (lw_tracked_orders w).*2.
Proof.
  unfold _resolve_order, find_order. cbv zeta. destruct (is_empty _); [done|].
  destruct (List.find (by_exchange_id _ _) _) eqn:E1.
  { intros [= <-]. apply List.find_some in E1 as [E1 _]. by apply list_elem_of_In. }
  destruct (List.find (by_client_id _ _) _) eqn:E2.
  { intros [= <-]. apply List.find_some in E2 as [E2 _]. by apply list_elem_of_In. }
  destruct (is_empty _); [done|].
  destruct (List.filter _ _) as [|x [|]] eqn:E3; try done. intros [= <-].
  assert (Hin : In x (List.filter (by_symbol (lower (strip (ls_exchange snap))) (upper (strip (ls_symbol snap))))
                        (lw_tracked_orders w).*2)) by (rewrite E3; by left).
  apply List.filter_In in Hin as [Hin _]. by apply list_elem_of_In.
Qed.

(** The order object after it learned its ids is the one that is found again. *)
Lemma or_id_present a b i : present a = Some i -> or_id a b = a.
Proof. unfold or_id. by intros ->. Qed.

Lemma or_id_idem a b : or_id (or_id a b) b = or_id a b.
Proof.
  unfold or_id. destruct (present a) eqn:Ea; [by rewrite Ea|]. destruct (present b) as [i|] eqn:Eb; [|by rewrite Ea].
  assert (present (Some i) = Some i) as ->; [|done].
  unfold present in Eb |- *. destruct b as [s|]; [|done]. destruct (is_empty s) eqn:E; [done|].
  injection Eb as <-. by rewrite E.
Qed.

Definition knows (snap : LifecycleStatusSnapshot) (o o' : TrackedLifecycleOrder) : Prop :=
  to_exchange o' = to_exchange o /\ to_symbol o' = to_symbol o /\
  to_exchange_order_id o' = or_id (to_exchange_order_id o) (ls_exchange_order_id snap) /\
  to_client_order_id o' = or_id (to_client_order_id o) (ls_client_order_id snap).

Lemma by_exchange_id_kept exchange snap o o' :
  knows snap o o' -> by_exchange_id exchange snap o = true -> by_exchange_id exchange snap o' = true.
Proof.
  intros (E & _ & Ex & _). unfold by_exchange_id. destruct (present _) as [i|]; [|done]. rewrite E, Ex.
  intros [-> Hs]%andb_true_iff. simpl. unfold same_id in Hs.
  destruct (present (to_exchange_order_id o)) eqn:Ep; [|done]. rewrite (or_id_present _ _ _ Ep). unfold same_id. by rewrite Ep.
Qed.

Lemma by_client_id_kept exchange snap o o' :
  knows snap o o' -> by_client_id exchange snap o = true -> by_client_id exchange snap o' = true.
Proof.
  intros (E & _ & _ & Ex). unfold by_client_id. destruct (present _) as [i|]; [|done]. rewrite E, Ex.
  intros [-> Hs]%andb_true_iff. simpl. unfold same_id in Hs.
  destruct (present (to_client_order_id o)) eqn:Ep; [|done]. rewrite (or_id_present _ _ _ Ep). unfold same_id. by rewrite Ep.
Qed.

Lemma find_unique {A} (f : A -> bool) l1 x l2 :
  x ∉ l1 -> x ∉ l2 -> List.find f (l1 ++ x :: l2) = Some x -> List.find f l1 = None /\ f x = true.
Proof.
  intros H1 H2. rewrite find_middle. destruct (List.find f l1) as [y|] eqn:E.
  - intros [= ->]. apply List.find_some in E as [E _]. by apply list_elem_of_In in E.
  - destruct (f x); [done|]. intros E2. apply List.find_some in E2 as [E2 _]. by apply list_elem_of_In in E2.
Qed.

Lemma filter_unique {A} (f : A -> bool) l1 x l2 y :
  x ∉ l1 -> x ∉ l2 -> f y = f x ->
  List.filter f (l1 ++ x :: l2) = [x] -> List.filter f (l1 ++ y :: l2) = [y].
Proof.
  intros H1 H2 Hy. rewrite !filter_middle, Hy. intros E.
  assert (Hout : forall l, x ∉ l -> x ∉ List.filter f l).
  { intros l Hl. rewrite list_elem_of_In, List.filter_In, <- list_elem_of_In. tauto. }
  apply Hout in H1, H2. destruct (List.filter f l1) as [|a la]; [|injection E as -> E; set_solver].
  destruct (f x); [by injection E as ->|]. simpl in *. rewrite E in H2. set_solver.
Qed.

(** A tracked order among the values: once, and replaced in place. *)
Lemma tracked_once w o :
  tracking w -> assoc_get (to_tracking_key o) (lw_tracked_orders w) = Some o ->
  exists l1 l2, (lw_tracked_orders w).*2 = l1 ++ o :: l2 /\ o ∉ l1 /\ o ∉ l2 /\
    forall o', (assoc_set (to_tracking_key o) o' (lw_tracked_orders w)).*2 = l1 ++ o' :: l2.
Proof.
  intros T Hg. destruct (assoc_set_values _ _ _ Hg) as (l1 & l2 & Hv & Hset). exists l1, l2.
  assert (Hnd : NoDup (to_tracking_key <$> (lw_tracked_orders w).*2)).
  { replace (to_tracking_key <$> (lw_tracked_orders w).*2) with (lw_tracked_orders w).*1; [by apply tk_keys|].
    rewrite <- list_fmap_compose. apply list_fmap_ext. intros i [k x] Hx. simpl. symmetry.
    apply (oo_key k). apply (tk_orders _ T). by eapply list_elem_of_lookup_2. }
  apply NoDup_fmap_1 in Hnd. rewrite Hv in Hnd. apply NoDup_app in Hnd as (_ & Hd & Hnd).
  apply NoDup_cons in Hnd as [Hnd _]. split; [done|]. split; [|done]. intros Hin. apply (Hd _ Hin). left.
Qed.

Lemma resolve_again snap w w' o o' :
  tracking w -> _resolve_order snap w = Some o -> knows snap o o' ->
  lw_tracked_orders w' = assoc_set (to_tracking_key o) o' (lw_tracked_orders w) ->
  _resolve_order snap w' = Some o'.
Proof.
  intros T Hr Hk Ht. destruct (values_elem w o T (resolve_elem _ _ _ Hr)) as [Hg _].
  destruct (tracked_once w o T Hg) as (l1 & l2 & Hv & Hn1 & Hn2 & Hset).
  revert Hr. unfold _resolve_order, find_order. rewrite Ht, Hset, Hv. cbv zeta.
  destruct (is_empty _); [done|]. set (X := by_exchange_id _ snap). set (Y := by_client_id _ snap).
  destruct (List.find X (l1 ++ o :: l2)) as [y|] eqn:EX.
  { intros [= ->]. apply find_unique in EX as [E1 E2]; [|done..].
    rewrite find_middle, E1. subst X. by rewrite (by_exchange_id_kept _ _ _ _ Hk E2). }
  rewrite find_middle in EX. destruct (List.find X l1) eqn:EX1; [done|].
  destruct (X o); [done|]. rewrite (find_middle X), EX1, EX. destruct (X o'); [by intros|].
  destruct (List.find Y (l1 ++ o :: l2)) as [y|] eqn:EC.
  { intros [= ->]. apply find_unique in EC as [E1 E2]; [|done..].
    rewrite find_middle, E1. subst Y. by rewrite (by_client_id_kept _ _ _ _ Hk E2). }
  rewrite find_middle in EC. destruct (List.find Y l1) eqn:EC1; [done|].
  destruct (Y o); [done|]. rewrite (find_middle Y), EC1, EC. destruct (is_empty _); [done|].
  destruct (Y o'); [by intros|]. destruct (List.filter _ (l1 ++ o :: l2)) as [|z [|]] eqn:EF; try done.
  intros [= ->]. rewrite (filter_unique _ _ o _ o' Hn1 Hn2); [done| |done].
  destruct Hk as (E1 & E2 & _). unfold by_symbol. by rewrite E1, E2.
Qed.

(** ** The effect of a snapshot *)

Definition closed (t : f64) (o : TrackedLifecycleOrder) : TrackedLifecycleOrder :=
  if is_terminal o then mark_terminal t o else o.

(** Everything but the tracked orders, the broker, the activity and the clock
    readings stays. *)
Definition same_outside (w w' : W) : Prop :=
  lw_connector w' = lw_connector w /\ lw_poller w' = lw_poller w /\ lw_settings w' = lw_settings w /\
  lc_last_private_update (lw_counters w') = lc_last_private_update (lw_counters w) /\
  lc_last_fallback_poll (lw_counters w') = lc_last_fallback_poll (lw_counters w).

Lemma same_outside_refl w : same_outside w w.
Proof. by repeat split. Qed.

(** What the code promises for a snapshot: an order it does not resolve changes
    nothing; a snapshot without news only teaches ids; one with news publishes
    one event and settles the order. *)
Definition snapshot_effect (source : string) (snap : LifecycleStatusSnapshot) (w w' : W) (b : bool)
    (log : list (string * dict)) : Prop :=
  match _resolve_order snap w with
  | None => w' = w /\ b = false /\ log = []
  | Some o =>
      let o1 := learn_ids snap o in
      match plan_change o1 snap with
      | None =>
          b = false /\ log = [] /\
          w' = set_tracked (assoc_set (to_tracking_key o) o1 (lw_tracked_orders w)) w
      | Some c =>
          let o2 := count_event o1 in
          b = true /\
          (exists now, in_range now = true /\
                       log = [(cg_event_type c, lifecycle_event source (iso_z now) o2 c)]) /\
          exists t, lw_tracked_orders w' =
                    assoc_set (to_tracking_key o) (closed t (settle c o2)) (lw_tracked_orders w)
      end
  end.

Lemma event_types_nonblank s e : _status_to_event_type s = Some e -> e ∈ event_types.*2.
Proof.
  unfold _status_to_event_type. intros He%assoc_get_elem. by apply (list_elem_of_fmap_2 snd) in He.
Qed.

Lemma plan_event_type o snap c : plan_change o snap = Some c -> cg_event_type c ∈ event_types.*2.
Proof.
  unfold plan_change. cbv zeta. destruct (_ && _); [done|].
  destruct (_status_to_event_type _) as [e|] eqn:E; [|done]. destruct (fleb _ _); [done|].
  intros [= <-]. by apply event_types_nonblank in E.
Qed.

Lemma event_type_strip e : e ∈ event_types.*2 -> strip e <> ""%string.
Proof.
  intros He. assert (Hall : Forall (fun e => strip e <> ""%string) event_types.*2)
    by (repeat constructor; by vm_compute). rewrite Forall_forall in Hall. by apply Hall.
Qed.

Lemma strip_append_nonblank s t : strip s <> ""%string -> strip (s +:+ t) <> ""%string.
Proof.
  intros Hs Ht. apply Hs. clear Hs. unfold strip, strip_with in *.
  induction s as [|c s IH]; [done|]. rewrite append_cons in Ht. cbn [lstrip_with] in Ht |- *.
  destruct (is_space c) eqn:E; [by apply IH|]. exfalso. revert Ht.
  destruct (rstrip_with_head is_space c (s +:+ t) E) as [r ->]. done.
Qed.

(** The events of a tracked order satisfy the message contract. *)
Lemma lifecycle_event_valid k source now o c :
  order_ok k o -> in_range now = true -> cg_event_type c ∈ event_types.*2 ->
  well_formed (lifecycle_event source (iso_z now) o c).
Proof.
  intros [] Hn Hc. split.
  - eexists. split; [reflexivity|done].
  - eexists. split; [reflexivity|done].
  - eexists. split; [reflexivity|]. rewrite oo_mode0. unfold ALLOWED_MODES. set_solver.
  - eexists. split; [reflexivity|]. apply strip_append_nonblank. congruence.
  - eexists. split; [reflexivity|]. by apply event_type_strip.
  - eexists. split; [reflexivity|]. by apply valid_stamp_iso.
  - by eexists.
Qed.

Section clocked.
Context (ck : clocks) (Hck : forall n, in_range (ck_wall ck n) = true).

Lemma settled_tracking w o o' :
  tracking w -> assoc_get (to_tracking_key o) (lw_tracked_orders w) = Some o ->
  order_ok (to_tracking_key o) o' ->
  forall w', lw_tracked_orders w' = assoc_set (to_tracking_key o) o' (lw_tracked_orders w) ->
    lw_settings w' = lw_settings w -> bindings_declared (lw_broker w') -> tracking w'.
Proof.
  intros T Hg Ho' w' Ht Hs Hb.
  assert (Hk : to_tracking_key o' ∈ (lw_tracked_orders w).*1).
  { rewrite (oo_key _ _ Ho'). apply assoc_get_elem in Hg. by apply (list_elem_of_fmap_2 fst) in Hg. }
  pose proof (oo_key _ _ Ho') as Hkey. rewrite <- Hkey in Ht, Ho'.
  destruct (put_tracking w o' T Ho' Hk) as [A B D E].
  destruct w, w'. simpl in *. subst. by split.
Qed.

(** Publishing the event of a change cannot fail. *)
Lemma emit_change_run source o c w :
  tracking w -> assoc_get (to_tracking_key o) (lw_tracked_orders w) = Some o ->
  cg_event_type c ∈ event_types.*2 ->
  exists w' now t, emit_change ck source o c w = (w', Ok true) /\ in_range now = true /\
    emits (lw_broker w) (lw_broker w') [(cg_event_type c, lifecycle_event source (iso_z now) (count_event o) c)] /\
    lw_tracked_orders w' =
      assoc_set (to_tracking_key o) (closed t (settle c (count_event o))) (lw_tracked_orders w) /\
    same_outside w w'.
Proof using Hck.
  intros T Hg Hc. pose proof (tk_orders _ T _ _ (assoc_get_elem _ _ _ Hg)) as Hok.
  destruct w as [b cn p s t k m n]. simpl in *.
  destruct (publish_emits b (cg_event_type c)
              (lifecycle_event source (iso_z (ck_wall ck n)) (count_event o) c) (tk_broker _ T))
    as (b' & receipt & Hp & He).
  pose proof (well_formed_validates _ (lifecycle_event_valid _ source _ _ c (count_event_ok _ _ Hok) (Hck n) Hc)) as Hv.
  unfold emit_change, put_order, broker_publish, record_activity. cbv zeta.
  unfold modify, mbind, prog_bind, _utc_now_iso, lift. cbn [set_tracked lw_tracked_orders lw_broker].
  rewrite Hv, Hp. cbn [set_broker set_tracked lw_tracked_orders to_tracking_key settle count_event].
  rewrite !assoc_set_set. fold (settle c (count_event o)). unfold closed.
  destruct (is_terminal (settle c (count_event o))) eqn:Et.
  - eexists _, (ck_wall ck n), (ck_monotonic ck m). split.
    + unfold monotonic. cbn [set_tracked lw_tracked_orders to_tracking_key mark_terminal settle count_event].
      rewrite assoc_set_set. reflexivity.
    + split; [apply Hck|]. split; [exact He|]. by repeat split.
  - eexists _, (ck_wall ck n), fzero. split; [reflexivity|]. split; [apply Hck|]. split; [exact He|]. by repeat split.
Qed.

(** A change leaves nothing of its snapshot to report. *)
Lemma raised_total_nonneg r x : fleb fzero r = true -> fleb fzero (raised_total r x) = true.
Proof.
  intros Hr. unfold raised_total. destruct (fltb _ _); [done|]. by apply fmax_nonneg.
Qed.

Lemma raised_total_settled r x :
  fleb fzero r = true ->
  let r' := fmax r (raised_total r x) in
  fleb (fmax fzero (fsub (raised_total r' x) r')) fzero = true.
Proof.
  intros Hr. cbv zeta. set (x' := fmax fzero x).
  assert (Hx : fleb fzero x' = true) by (by apply fmax_nonneg).
  destruct (fleb_not_nan _ _ Hr) as [_ Nr]. destruct (fleb_not_nan _ _ Hx) as [_ Nx].
  unfold raised_total. fold x'. destruct (fltb x' r) eqn:E1.
  - assert (fmax r r = r) as -> by (unfold fmax; by destruct (fltb r r)). rewrite E1.
    by apply fsub_equal; apply fleb_refl.
  - pose proof (not_fltb_fleb _ _ E1 Nx Nr) as Hle.
    assert (fmax r x' = if fltb r x' then x' else r) as -> by done.
    destruct (fltb r x') eqn:E2; [rewrite fltb_irrefl; by apply fsub_equal; apply fleb_refl|].
    rewrite E1. apply fsub_equal; [|done]. by apply not_fltb_fleb.
Qed.

Lemma plan_settled k o snap c o' :
  order_ok k o -> plan_change o snap = Some c ->
  to_status o' = cg_status c ->
  to_reported_filled_quantity o' = fmax (to_reported_filled_quantity o) (cg_total_filled c) ->
  to_reported_fee_total o' = fmax (to_reported_fee_total o) (cg_fee_total c) ->
  plan_change o' snap = None.
Proof.
  intros Ho Hp. unfold plan_change in Hp. cbv zeta in Hp. destruct (_ && _); [done|].
  destruct (_status_to_event_type _); [|done]. destruct (fleb _ _); [done|]. injection Hp as <-. simpl.
  intros E1 E2 E3. unfold plan_change. cbv zeta. rewrite E1, E2, E3, String.eqb_refl.
  by rewrite !raised_total_settled by apply Ho.
Qed.

(** Applying a snapshot never raises and does what it promises. *)
Lemma apply_snapshot_run source snap w :
  tracking w ->
  exists w' b log, _apply_snapshot ck source snap w = (w', Ok b) /\ snapshot_effect source snap w w' b log /\
    tracking w' /\ emits (lw_broker w) (lw_broker w') log /\ same_outside w w'.
Proof using Hck.
  intros T. unfold _apply_snapshot, gets, mbind, prog_bind, snapshot_effect.
  destruct (_resolve_order snap w) as [o|] eqn:Hr; [|by exists w, false, []; auto using emits_refl, same_outside_refl].
  destruct (values_elem w o T (resolve_elem _ _ _ Hr)) as [Hg Hok]. cbv zeta.
  pose proof (learn_ids_ok _ snap _ Hok) as Hok1.
  assert (Hk : to_tracking_key (learn_ids snap o) ∈ (lw_tracked_orders w).*1)
    by (apply assoc_get_elem in Hg; by apply (list_elem_of_fmap_2 fst) in Hg).
  pose proof (put_tracking w (learn_ids snap o) T Hok1 Hk) as T1.
  unfold put_order, modify. set (w1 := set_tracked _ w) in *.
  assert (Hg1 : assoc_get (to_tracking_key o) (lw_tracked_orders w1) = Some (learn_ids snap o))
    by (subst w1; rewrite get_tracked; apply assoc_get_set_eq).
  destruct (plan_change (learn_ids snap o) snap) as [c|] eqn:Hp.
  - destruct (emit_change_run source (learn_ids snap o) c w1 T1 Hg1 (plan_event_type _ _ _ Hp))
      as (w' & now & t & E & Hn & He & Ht & Hs).
    exists w', true, [(cg_event_type c, lifecycle_event source (iso_z now) (count_event (learn_ids snap o)) c)].
    assert (Hb1 : lw_broker w1 = lw_broker w /\ same_outside w w1) by (by destruct w; repeat split).
    destruct Hb1 as [Hb1 Hs1]. rewrite Hb1 in He.
    assert (Htr : lw_tracked_orders w' = assoc_set (to_tracking_key o)
                    (closed t (settle c (count_event (learn_ids snap o)))) (lw_tracked_orders w)).
    { rewrite Ht. subst w1. rewrite get_tracked. apply assoc_set_set. }
    split; [exact E|]. split; [split; [done|split; [by exists now|by exists t]]|]. split; [|split; [done|]].
    + eapply (settled_tracking w o); [done|done| |exact Htr| |].
      * unfold closed. destruct (is_terminal _); [apply mark_terminal_ok|]; by apply settle_ok, count_event_ok.
      * destruct Hs as (_ & _ & -> & _), Hs1 as (_ & _ & -> & _). done.
      * apply (emits_declared _ _ _ He). by destruct T.
    + unfold same_outside in *. naive_solver congruence.
  - exists w1, false, []. split; [done|]. split; [done|]. split; [done|].
    destruct w. split; [apply emits_refl|by repeat split].
Qed.

Lemma learn_ids_known snap o o' : knows snap o o' -> learn_ids snap o' = o'.
Proof.
  intros (_ & _ & E1 & E2). destruct o'. unfold learn_ids. simpl in *. subst. by rewrite !or_id_idem.
Qed.

(** The second delivery of a snapshot changes nothing. *)
Lemma snapshot_twice source source' snap w :
  tracking w ->
  let w1 := (_apply_snapshot ck source snap w).1 in
  _apply_snapshot ck source' snap w1 = (w1, Ok false).
Proof using Hck.
  intros T. destruct (apply_snapshot_run source snap w T) as (w1 & b & log & E & Heff & T1 & _). rewrite E.
  cbn [fst]. unfold snapshot_effect in Heff. unfold _apply_snapshot, gets, mbind, prog_bind.
  destruct (_resolve_order snap w) as [o|] eqn:Hr; [|destruct Heff as (-> & _); by rewrite Hr].
  destruct (values_elem w o T (resolve_elem _ _ _ Hr)) as [Hg Hok]. cbv zeta in Heff.
  assert (Hfin : exists o', knows snap o o' /\ to_tracking_key o' = to_tracking_key o /\
                   plan_change o' snap = None /\
                   lw_tracked_orders w1 = assoc_set (to_tracking_key o) o' (lw_tracked_orders w)).
  { destruct (plan_change (learn_ids snap o) snap) as [c|] eqn:Hp.
    - destruct Heff as (_ & _ & t & Ht). exists (closed t (settle c (count_event (learn_ids snap o)))).
      unfold closed in *. split; [by destruct (is_terminal _)|]. split; [by destruct (is_terminal _)|].
      split; [|done]. apply (plan_settled _ _ snap c _ (learn_ids_ok _ snap _ Hok) Hp); by destruct (is_terminal _).
    - destruct Heff as (_ & _ & ->). exists (learn_ids snap o). rewrite get_tracked. by repeat split. }
  destruct Hfin as (o' & Hk & Hkey & Hplan & Ht).
  rewrite (resolve_again snap w w1 o o' T Hr Hk Ht). rewrite (learn_ids_known _ _ _ Hk), Hplan.
  unfold put_order, modify. rewrite assoc_set_same; [by rewrite set_tracked_same|].
  rewrite Ht, Hkey. apply assoc_get_set_eq.
Qed.

(** ** Steps that only report

    Streams, pollers and snapshots leave the set of tracked orders alone, never
    lower what an order has reported, and publish events of tracked orders. *)

Definition order_event (keys : list string) (km : string * dict) : Prop :=
  exists source now o c, km = (cg_event_type c, lifecycle_event source (iso_z now) o c) /\
    to_tracking_key o ∈ keys /\ order_ok (to_tracking_key o) o /\ in_range now = true /\
    cg_event_type c ∈ event_types.*2 /\ fleb (cg_quantity c) fzero = false.

Record reports (w w' : W) (log : list (string * dict)) : Prop := {
  rp_tracking : tracking w';
  rp_emits : emits (lw_broker w) (lw_broker w') log;
  rp_events : Forall (order_event (lw_tracked_orders w).*1) log;
  rp_settings : lw_settings w' = lw_settings w;
  rp_keys : (lw_tracked_orders w').*1 = (lw_tracked_orders w).*1;
  rp_totals k o : assoc_get k (lw_tracked_orders w) = Some o ->
    exists o', assoc_get k (lw_tracked_orders w') = Some o' /\ same_order o o' /\
      fleb (to_reported_filled_quantity o) (to_reported_filled_quantity o') = true /\
      fleb (to_reported_fee_total o) (to_reported_fee_total o') = true;
}.

Lemma nonneg_refl x : fleb fzero x = true -> fleb x x = true.
Proof. intros [_ N]%fleb_not_nan. by apply fleb_refl. Qed.

Lemma reports_same w w' :
  tracking w -> lw_tracked_orders w' = lw_tracked_orders w -> lw_broker w' = lw_broker w ->
  lw_settings w' = lw_settings w -> reports w w' [].
Proof.
  intros T Et Eb Es. split; [| |constructor|done|by rewrite Et|].
  - destruct T. destruct w, w'. simpl in *. subst. by split.
  - rewrite Eb. apply emits_refl.
  - intros k o Hk. rewrite Et. exists o. pose proof (tk_orders _ T _ _ (assoc_get_elem _ _ _ Hk)) as [].
    split; [done|]. split; [by repeat split|]. split; by apply nonneg_refl.
Qed.

Lemma reports_trans w1 w2 w3 l1 l2 : reports w1 w2 l1 -> reports w2 w3 l2 -> reports w1 w3 (l1 ++ l2).
Proof.
  intros [T1 E1 V1 S1 K1 R1] [T2 E2 V2 S2 K2 R2].
  split; [done|by eapply emits_trans| |by rewrite S2|by rewrite K2|].
  - apply Forall_app. split; [done|]. by rewrite <- K1.
  - intros k o Hk. destruct (R1 k o Hk) as (o1 & Hk1 & Hs1 & Hf1 & He1).
    destruct (R2 k o1 Hk1) as (o2 & Hk2 & Hs2 & Hf2 & He2). exists o2. split; [done|].
    split; [unfold same_order in *; naive_solver congruence|]. split; by eapply fleb_trans.
Qed.

Definition reporting {A} (m : prog W A) : Prop := forall w, tracking w -> exists log, reports w (m w).1 log.

Create HintDb report.

Lemma reporting_bind {A B} (m : prog W A) (f : A -> prog W B) :
  reporting m -> (forall a, reporting (f a)) -> reporting (m ≫= f).
Proof.
  intros Hm Hf w T. unfold mbind, prog_bind. destruct (Hm w T) as [l1 R1].
  destruct (m w) as [w1 [a|e]]; simpl in *; [|by exists l1].
  destruct (Hf a w1 (rp_tracking _ _ _ R1)) as [l2 R2]. exists (l1 ++ l2). by eapply reports_trans.
Qed.

(** Anything that leaves orders, broker and settings alone. *)
Lemma reporting_frame {A} (m : prog W A) :
  (forall w, lw_tracked_orders (m w).1 = lw_tracked_orders w /\ lw_broker (m w).1 = lw_broker w /\
             lw_settings (m w).1 = lw_settings w) -> reporting m.
Proof. intros Hm w T. exists []. destruct (Hm w) as (E1 & E2 & E3). by apply reports_same. Qed.

Lemma reporting_ret {A} (a : A) : reporting (mret a).
Proof. by apply reporting_frame. Qed.
Lemma reporting_gets {A} (f : W -> A) : reporting (gets f).
Proof. by apply reporting_frame. Qed.
Lemma reporting_counters (f : W -> lifecycle_counters) : reporting (modify (fun w => set_counters (f w) w)).
Proof. apply reporting_frame. by intros []. Qed.
Lemma reporting_monotonic : reporting (monotonic ck).
Proof. apply reporting_frame. by intros []. Qed.
Lemma reporting_poller {A} (m : prog P A) : reporting (zoom lw_poller set_poller m).
Proof. apply reporting_frame. intros []. unfold zoom. simpl. by destruct (m _). Qed.
Lemma reporting_connector {A} (m : prog C A) : reporting (zoom lw_connector set_connector m).
Proof. apply reporting_frame. intros []. unfold zoom. simpl. by destruct (m _). Qed.

Lemma plan_quantity o snap c : plan_change o snap = Some c -> fleb (cg_quantity c) fzero = false.
Proof.
  unfold plan_change. cbv zeta. destruct (_ && _); [done|]. destruct (_status_to_event_type _); [|done].
  destruct (fleb _ _) eqn:E; [done|]. by intros [= <-].
Qed.

(** An order and its successor, with what it has reported. *)
Definition advances (o o' : TrackedLifecycleOrder) : Prop :=
  same_order o o' /\ fleb (to_reported_filled_quantity o) (to_reported_filled_quantity o') = true /\
  fleb (to_reported_fee_total o) (to_reported_fee_total o') = true.

Lemma order_advances_refl k o : order_ok k o -> advances o o.
Proof. intros []. split; [by repeat split|]. split; by apply nonneg_refl. Qed.

Lemma order_advances_settled k t snap c o :
  order_ok k o -> advances o (closed t (settle c (count_event (learn_ids snap o)))).
Proof.
  intros []. pose proof (fleb_not_nan _ _ oo_filled0) as [_ N1]. pose proof (fleb_not_nan _ _ oo_fee0) as [_ N2].
  unfold closed. destruct (is_terminal _); (split; [by repeat split|]; split; by apply fmax_lb).
Qed.

(** A snapshot that resolves to an order rewrites that order. *)
Lemma effect_update source snap w w' b log o :
  tracking w -> snapshot_effect source snap w w' b log -> _resolve_order snap w = Some o ->
  Forall (order_event (lw_tracked_orders w).*1) log /\
  exists o', advances o o' /\ lw_tracked_orders w' = assoc_set (to_tracking_key o) o' (lw_tracked_orders w).
Proof.
  intros T Heff Hr. unfold snapshot_effect in Heff. cbv zeta in Heff. rewrite Hr in Heff.
  destruct (values_elem w o T (resolve_elem _ _ _ Hr)) as [Hg Hok].
  destruct (plan_change (learn_ids snap o) snap) as [c|] eqn:Hp.
  - destruct Heff as (_ & (now & Hn & ->) & t & Ht). split.
    + constructor; [|done]. exists source, now, (count_event (learn_ids snap o)), c. split; [done|].
      split; [apply assoc_get_elem in Hg; by apply (list_elem_of_fmap_2 fst) in Hg|].
      split; [by apply count_event_ok, learn_ids_ok|]. split; [done|].
      split; [by eapply plan_event_type|by eapply plan_quantity].
    + eexists. split; [by eapply order_advances_settled|exact Ht].
  - destruct Heff as (_ & -> & ->). split; [constructor|]. exists (learn_ids snap o). rewrite get_tracked.
    split; [|done]. by apply (order_advances_refl _ _ Hok).
Qed.

Lemma reporting_snapshot source snap : reporting (_apply_snapshot ck source snap).
Proof using Hck.
  intros w T. destruct (apply_snapshot_run source snap w T) as (w' & b & log & E & Heff & T' & He & Ho).
  rewrite E. exists log. cbn [fst]. destruct (_resolve_order snap w) as [o|] eqn:Hr.
  2: { unfold snapshot_effect in Heff. rewrite Hr in Heff. destruct Heff as (-> & _ & ->). by apply reports_same. }
  destruct (effect_update _ _ _ _ _ _ _ T Heff Hr) as (Hl & o' & Hadv & Ht).
  destruct (values_elem w o T (resolve_elem _ _ _ Hr)) as [Hg Hok].
  split; [done|done|done|by destruct Ho as (_ & _ & -> & _)| |].
  - rewrite Ht. apply assoc_set_present. apply assoc_get_elem in Hg. by apply (list_elem_of_fmap_2 fst) in Hg.
  - intros k x Hk. rewrite Ht. destruct (decide (k = to_tracking_key o)) as [->|Hne].
    + rewrite Hg in Hk. injection Hk as <-. exists o'. by rewrite assoc_get_set_eq.
    + exists x. rewrite assoc_get_set_ne by done. split; [done|].
      apply (order_advances_refl k). by apply (tk_orders _ T), assoc_get_elem.
Qed.

#[local] Hint Resolve reporting_ret reporting_gets reporting_counters reporting_monotonic reporting_poller
  reporting_connector reporting_snapshot : report.
#[local] Hint Extern 2 (reporting (_ ≫= _)) => (apply reporting_bind; [|intros]) : report.
#[local] Hint Extern 3 (reporting (match ?x with _ => _ end)) => (destruct x) : report.

Lemma reporting_snapshots source did_work snaps : reporting (apply_snapshots ck source did_work snaps).
Proof using Hck. revert did_work. induction snaps as [|s snaps IH]; intros; simpl; auto with report. Qed.

Lemma reporting_poll_orders did_work keys : reporting (poll_orders ck did_work keys).
Proof using Hck.
  revert did_work. induction keys as [|k keys IH]; intros did_work; cbn [poll_orders]; [auto with report|].
  apply reporting_bind; [|intros; apply IH]. unfold poll_order. auto 12 with report.
Qed.
#[local] Hint Resolve reporting_snapshots reporting_poll_orders : report.

Lemma reporting_should_poll : reporting (_should_poll_rest_fallback ck).
Proof.
  intros w T. unfold _should_poll_rest_fallback. destruct (_open_orders w); [exists []; by apply reports_same|].
  assert (Hr : reporting (monotonic ck ≫= fun now => gets (fun w : W =>
         let k := lw_counters w in
         if fltb (fsub now (lc_last_fallback_poll k)) (st_fallback_poll_interval_seconds (lw_settings w)) then false
         else if negb (supports_private_stream (lw_connector w)) then true
         else match lc_last_private_update k with
              | None => true
              | Some t => fleb (st_stream_stale_after_seconds (lw_settings w)) (fsub now t)
              end))) by auto with report.
  by apply Hr.
Qed.

Lemma reporting_poll_private timeout did_work : reporting (poll_private ck timeout did_work).
Proof using Hck.
  unfold poll_private. apply reporting_bind; [auto with report|]. intros [|o l]; auto 8 with report.
Qed.

Lemma reporting_poll_rest did_work : reporting (poll_rest ck did_work).
Proof using Hck.
  unfold poll_rest. apply reporting_bind; [apply reporting_should_poll|]. intros []; [|auto with report].
  apply reporting_bind; [|auto 8 with report]. unfold _poll_rest_fallback. auto 8 with report.
Qed.

(** ** Intake and eviction *)

Lemma evict_step force w :
  tracking w ->
  let w' := (_evict_terminal_orders ck force w).1 in
  tracking w' /\ lw_broker w' = lw_broker w /\ lw_settings w' = lw_settings w /\
  lw_tracked_orders w' `sublist_of` lw_tracked_orders w /\
  (forall k o, (k, o) ∈ lw_tracked_orders w -> is_terminal o = false -> (k, o) ∈ lw_tracked_orders w').
Proof.
  intros T. cbv zeta. unfold _evict_terminal_orders. destruct (lw_tracked_orders w) as [|ko l] eqn:E.
  { simpl. split; [done|]. split; [done|]. split; [done|]. rewrite E. split; [done|auto]. }
  destruct w as [b c p s t k m n]. simpl in E. subst t. unfold mbind, prog_bind, modify, monotonic.
  cbn [fst set_tracked lw_tracked_orders lw_settings lw_broker].
  set (keep := filter _ (ko :: l)).
  assert (Hsub : keep `sublist_of` ko :: l) by apply sublist_filter.
  split; [|split; [done|split; [done|split; [done|]]]].
  - destruct T as [Hnd Hok Hb Hbr]. cbn [lw_tracked_orders lw_settings lw_broker] in *.
    split; cbn [lw_tracked_orders lw_settings lw_broker]; [|..|done].
    + eapply sublist_NoDup; [exact Hnd|]. by apply (fmap_sublist fst).
    + intros k' o' Hin. apply Hok. by eapply elem_of_sublist.
    + apply sublist_length in Hsub. lia.
  - intros k' o' Hin Ho. apply list_elem_of_filter. split; [|done].
    cbn [snd]. unfold removable. by rewrite Ho.
Qed.

Lemma intent_scope_ok envelope f :
  intent_scope envelope = Ok (Some f) ->
  well_formed envelope /\ strip (if_idempotency_key f) <> ""%string /\ fleb (if_quantity f) fzero = false.
Proof.
  unfold intent_scope. intros Hs. apply bind_Ok in Hs as (ok & Hv & Hs). destruct ok; [|done].
  cbv zeta in Hs. cbn [negb] in Hs. apply bind_Ok in Hs as (q & _ & Hs).
  destruct (is_empty (text_at "idempotency_key" "" envelope) || _ || _ || _) eqn:Eg; [done|].
  destruct (fleb q fzero) eqn:Eq; [done|]. injection Hs as <-. simpl. split; [|split; [|done]].
  - unfold intent_envelope_ok in Hv. destruct (validate_envelope (VDict envelope)) as [u|e] eqn:Ev.
    + by eapply validates_well_formed.
    + by destruct (bool_decide _).
  - rewrite !orb_false_iff in Eg. destruct Eg as [[[Ek _] _] _]. unfold text_at in *. rewrite strip_idemp.
    intros Hk. by rewrite Hk in Ek.
Qed.

Lemma new_tracked_ok envelope f o :
  intent_scope envelope = Ok (Some f) -> new_tracked envelope f = Ok o ->
  to_tracking_key o = if_idempotency_key f /\ order_ok (if_idempotency_key f) o.
Proof.
  intros Hs Hn. destruct (intent_scope_ok _ _ Hs) as (Hw & Hk & Hq). unfold new_tracked in Hn. cbv zeta in Hn.
  destruct (wf_trace _ Hw) as (t & Et & Vt). destruct (wf_decision _ Hw) as (d & Ed & Vd).
  unfold dict_index in Hn. rewrite Et, Ed in Hn. cbn [mbind result_bind] in Hn.
  apply bind_Ok in Hn as (lp & _ & Hn). apply bind_Ok in Hn as (tp & _ & Hn). injection Hn as <-.
  split; [done|]. by split.
Qed.

Lemma make_room_step w w' b :
  tracking w -> make_room ck w = (w', Ok b) ->
  tracking w' /\ lw_broker w' = lw_broker w /\ lw_settings w' = lw_settings w /\
  lw_tracked_orders w' `sublist_of` lw_tracked_orders w /\ b = negb (full w').
Proof.
  intros T. unfold make_room. destruct (full w) eqn:Ef.
  - intros Hm. apply prog_bind_Ok in Hm as (w1 & u & He & Hg). injection Hg as <- <-.
    pose proof (evict_step true w T) as Hs. rewrite He in Hs. cbv zeta in Hs. naive_solver.
  - intros [= <- <-]. by rewrite Ef.
Qed.

(** Taking up an intent keeps the invariant, also when it raises on the way. *)
Lemma track_step envelope w :
  tracking w ->
  let w' := (_track_execution_intent ck envelope w).1 in
  tracking w' /\ lw_broker w' = lw_broker w /\ lw_settings w' = lw_settings w.
Proof.
  intros T. cbv zeta. unfold _track_execution_intent. rewrite lift_bind.
  destruct (intent_scope envelope) as [[f|]|] eqn:Es; [|done..].
  destruct (intent_scope_ok _ _ Es) as (_ & Hk & Hq). rewrite gets_bind.
  destruct (assoc_get (if_idempotency_key f) (lw_tracked_orders w)) as [o|] eqn:Eg.
  - pose proof (assoc_get_elem _ _ _ Eg) as Hin. pose proof (tk_orders _ T _ _ Hin) as Hok.
    pose proof (put_tracking w (retrack f o) T) as Hp. cbn [to_tracking_key retrack] in Hp.
    rewrite (oo_key _ _ Hok) in Hp. unfold put_order. rewrite modify_bind. cbn [fst to_tracking_key retrack mret prog_ret].
    rewrite (oo_key _ _ Hok). split; [|by destruct w]. apply Hp; [by apply retrack_ok|].
    by apply (list_elem_of_fmap_2 fst) in Hin.
  - unfold track_new, mbind, prog_bind. destruct (make_room ck w) as [w1 [b|e]] eqn:Em.
    + destruct (make_room_step w w1 b T Em) as (T1 & Hb & Hs & Hsub & ->).
      destruct (full w1) eqn:Ef; [done|]. cbn [negb]. unfold lift.
      destruct (new_tracked envelope f) as [o|] eqn:En; [|done].
      destruct (new_tracked_ok _ _ _ Es En) as [Ek Hok]. unfold put_order, modify. cbn [fst].
      assert (Hf : to_tracking_key o ∉ (lw_tracked_orders w1).*1).
      { rewrite Ek. intros Hin. apply assoc_get_None in Eg. apply Eg.
        eapply elem_of_sublist; [exact Hin|]. by apply (fmap_sublist fst). }
      unfold full in Ef. destruct T1 as [Hnd Hall Hbd Hbr]. destruct w1. simpl in *.
      split; [|done]. split; simpl; [|..|done].
      * by apply assoc_set_NoDup.
      * intros k' o' Hin. apply assoc_set_elem in Hin as [[= -> ->]|[_ Hin]]; [|by apply Hall|done]. by rewrite Ek.
      * rewrite assoc_set_fresh, length_app by done. simpl. lia.
    + exfalso. unfold make_room in Em. destruct (full w); [|done]. unfold mbind, prog_bind in Em.
      unfold _evict_terminal_orders in Em. destruct (lw_tracked_orders w); [done|].
      unfold mbind, prog_bind, monotonic in Em. by destruct w.
Qed.

(** The broker after the queue was read. *)
Definition consumed (w : W) (b : InMemoryTopicBroker) : Prop :=
  b = lw_broker w \/ exists m, consume (st_intent_queue_name (lw_settings w)) (lw_broker w) = Ok (b, m).

Lemma take_intent_step w :
  tracking w ->
  let w' := (take_intent ck w).1 in
  tracking w' /\ consumed w (lw_broker w') /\ lw_settings w' = lw_settings w.
Proof.
  intros T. cbv zeta. unfold take_intent, mbind, prog_bind, broker_consume.
  destruct (consume _ (lw_broker w)) as [[b m]|e] eqn:Ec; [|split; [done|split; [by left|done]]].
  assert (T1 : tracking (set_broker b w)).
  { pose proof (consume_declared _ _ _ _ Ec (tk_broker _ T)). destruct T, w. by split. }
  assert (Hc : consumed w b) by (right; by exists m).
  assert (Hb : lw_broker (set_broker b w) = b /\ lw_settings (set_broker b w) = lw_settings w) by (by destruct w).
  destruct Hb as [Hb Hs]. destruct m as [envelope|]; [|simpl; by rewrite Hb, Hs].
  pose proof (track_step envelope _ T1) as (T2 & Hb2 & Hs2).
  destruct (_track_execution_intent ck envelope (set_broker b w)) as [w2 [[o|]|e]]; simpl in *;
    [|by rewrite Hb2, Hs2, Hb, Hs..].
  destruct w2 as [b2 c2 p2 s2 t2 k2 m2 n2]. simpl in *. rewrite Hb in Hb2. rewrite Hs in Hs2. subst b2 s2.
  split; [|done]. destruct T2. by split.
Qed.

(** A step: the queue is read, snapshots report, terminal orders are evicted. *)
Lemma run_once_step timeout w :
  tracking w ->
  let w' := (run_once ck timeout w).1 in
  tracking w' /\
  exists w1 w2 log, consumed w (lw_broker w1) /\ reports w1 w2 log /\
    (w' = w2 \/ lw_tracked_orders w' `sublist_of` lw_tracked_orders w2 /\ lw_broker w' = lw_broker w2) /\
    Forall (fun km => well_formed km.2 /\ dict_get "mode" km.2 = Some (VStr "REAL") /\
                      dict_get "event_type" km.2 = Some (VStr km.1)) log.
Proof using Hck.
  intros T. cbv zeta. destruct (take_intent_step w T) as (T1 & Hc & Hs).
  set (w1 := (take_intent ck w).1) in *.
  assert (Hrest : forall b, reporting (d ← poll_private ck timeout b; poll_rest ck d)).
  { intros b. apply reporting_bind; [apply reporting_poll_private|intros; apply reporting_poll_rest]. }
  assert (Hgood : forall keys log, Forall (order_event keys) log ->
            Forall (fun km => well_formed km.2 /\ dict_get "mode" km.2 = Some (VStr "REAL") /\
                              dict_get "event_type" km.2 = Some (VStr km.1)) log).
  { intros keys log Hl. eapply Forall_impl; [exact Hl|]. intros km (src & now & o & c & -> & _ & Hok & Hn & He & _). simpl.
    split; [by eapply lifecycle_event_valid|]. rewrite (oo_mode _ _ Hok). done. }
  unfold run_once, mbind, prog_bind. destruct (take_intent ck w) as [wx [b|e]] eqn:Et; simpl in w1; subst w1.
  2: { split; [done|]. exists wx, wx, []. split; [done|]. split; [by apply reports_same|]. split; [by left|constructor]. }
  specialize (Hrest b). unfold mbind, prog_bind in Hrest. destruct (Hrest wx T1) as [log R].
  destruct (poll_private ck timeout b wx) as [w2 [d|e]]; simpl in R.
  2: { split; [by apply R|]. exists wx, w2, log. split; [done|]. split; [done|].
       split; [by left|]. eapply Hgood, R. }
  destruct (poll_rest ck d w2) as [w3 [d'|e]]; simpl in R.
  2: { split; [by apply R|]. exists wx, w3, log. split; [done|]. split; [done|].
       split; [by left|]. eapply Hgood, R. }
  destruct (evict_step false w3 (rp_tracking _ _ _ R)) as (T4 & Hb & _ & Hsub & _).
  destruct (_evict_terminal_orders ck false w3) as [w4 [u|e]]; simpl in *;
    (split; [done|]; exists wx, w3, log; split; [done|]; split; [done|]; split; [by right|]; eapply Hgood, R).
Qed.
End clocked.

(** ** Reachable workers *)

(** A worker after any number of steps, with any clocks and any behaviour of
    the stream and the poller; between steps others use the broker. *)
Inductive runs (settings : lifecycle_settings) : W -> Prop :=
  | runs_init b c p : bindings_declared b -> runs settings (worker_init b c p settings)
  | runs_step ck timeout w :
      (forall n, in_range (ck_wall ck n) = true) -> runs settings w -> runs settings (run_once ck timeout w).1
  | runs_broker b w : bindings_declared b -> runs settings w -> runs settings (set_broker b w).

Lemma runs_tracking settings w : 0 <= st_max_tracked_orders settings -> runs settings w -> tracking w.
Proof.
  intros Hm. induction 1 as [b c p Hb|ck timeout w Hck _ IH|b w Hb _ IH].
  - split; [constructor|by intros k o ?%not_elem_of_nil|done|done].
  - by apply run_once_step.
  - destruct IH, w. by split.
Qed.

(** C23. Whatever the exchange streams, replies or fails with, and however long
    the worker runs, the orders it tracks stay within the configured limit under
    distinct non-blank keys, each with the ids of a valid REAL intent, a
    requested quantity that is not zero or negative, and reported totals that
    are numbers and not negative. *)
Theorem tracked_orders_invariant queue stale interval retention max_tracked w :
  let settings := lifecycle_settings_init queue stale interval retention max_tracked in
  runs settings w ->
  NoDup (lw_tracked_orders w).*1 /\
  Z.of_nat (List.length (lw_tracked_orders w)) <= st_max_tracked_orders (lw_settings w) /\
  forall k o, (k, o) ∈ lw_tracked_orders w -> order_ok k o.
Proof.
  intros settings Hr. apply runs_tracking in Hr; [|simpl; lia]. by destruct Hr.
Qed.

(** A step of a reachable worker publishes only what it should, however the
    exchange behaves and also when the step raises: after the queue is read and
    an intent taken up, no order ever lowers the filled quantity or the fee it
    has reported, and every message published is a valid REAL envelope of a
    tracked order with a quantity that is not zero or negative, routed by its
    own event type. *)
Theorem run_once_reports settings ck timeout w :
  0 <= st_max_tracked_orders settings -> runs settings w -> (forall n, in_range (ck_wall ck n) = true) ->
  exists w1 w2 log, consumed w (lw_broker w1) /\ reports w1 w2 log /\
    (let w' := (run_once ck timeout w).1 in
     w' = w2 \/ lw_tracked_orders w' `sublist_of` lw_tracked_orders w2 /\ lw_broker w' = lw_broker w2) /\
    Forall (fun km => well_formed km.2 /\ dict_get "mode" km.2 = Some (VStr "REAL") /\
                      dict_get "event_type" km.2 = Some (VStr km.1)) log.
Proof. intros Hm Hr Hck. by apply (run_once_step ck Hck timeout w), (runs_tracking settings). Qed.

(** C15. A redelivered snapshot is silent: whatever a snapshot did the first
    time (resolve to an order by id or by symbol, teach it its ids, publish a
    change or nothing), delivering the same snapshot again, from either source,
    publishes nothing, returns False and leaves the worker exactly as it was. *)
Theorem redelivered_snapshot_silent settings ck source source' snap w :
  0 <= st_max_tracked_orders settings -> runs settings w -> (forall n, in_range (ck_wall ck n) = true) ->
  let w1 := (_apply_snapshot ck source snap w).1 in
  _apply_snapshot ck source' snap w1 = (w1, Ok false).
Proof. intros Hm Hr Hck. by apply (snapshot_twice ck Hck), (runs_tracking settings). Qed.
End tracking.

(** ** Behaviours of the reports *)

Lemma fmax_small a b : fltb a b = false -> fmax a b = a.
Proof. unfold fmax. by intros ->. Qed.

Lemma filled_quantity o d :
  event_quantity o "filled" "oms.order.filled" d =
  if fleb d fzero then fmax fzero (fsub (to_requested_quantity o) (to_reported_filled_quantity o)) else d.
Proof. unfold event_quantity. simpl. by destruct (fleb d fzero). Qed.

(** An order that is reported filled without a total is counted twice: the
    event carries the open remainder, but the order does not record it as
    reported, so a later snapshot with the true total publishes a second filled
    event with the same quantity. *)
Theorem filled_remainder_counted_twice key o snap1 snap2 c1 :
  order_ok key o ->
  _normalize_status (VStr (ls_status snap1)) = "filled"%string ->
  fltb (to_reported_filled_quantity o) (fmax fzero (ls_filled_quantity_total snap1)) = false ->
  plan_change o snap1 = Some c1 ->
  _normalize_status (VStr (ls_status snap2)) = "filled"%string ->
  ls_filled_quantity_total snap2 = to_requested_quantity o ->
  fltb (to_reported_filled_quantity o) (to_requested_quantity o) = true ->
  cg_quantity c1 = fmax fzero (fsub (to_requested_quantity o) (to_reported_filled_quantity o)) /\
  exists c2, plan_change (settle c1 (count_event o)) snap2 = Some c2 /\
    cg_event_type c1 = "oms.order.filled"%string /\ cg_event_type c2 = "oms.order.filled"%string /\
    cg_quantity c2 = cg_quantity c1.
Proof.
  intros Hok S1 Hno Hp S2 Ht Hlt. pose proof (oo_filled _ _ Hok) as Hr.
  set (r := to_reported_filled_quantity o) in *. set (q := to_requested_quantity o) in *.
  destruct (fleb_not_nan _ _ Hr) as [_ Nr].
  assert (Hraise : fmax r (raised_total r (ls_filled_quantity_total snap1)) = r).
  { unfold raised_total. destruct (fltb (fmax fzero _) r); [apply fmax_small, fltb_irrefl|by apply fmax_small]. }
  assert (Hdelta : fleb (fmax fzero (fsub (raised_total r (ls_filled_quantity_total snap1)) r)) fzero = true).
  { unfold raised_total. destruct (fltb (fmax fzero _) r) eqn:E; [by apply fsub_equal; apply fleb_refl|].
    assert (Hx : fleb fzero (fmax fzero (ls_filled_quantity_total snap1)) = true) by (by apply fmax_nonneg).
    destruct (fleb_not_nan _ _ Hx) as [_ Nx]. by apply fsub_equal; apply not_fltb_fleb. }
  unfold plan_change in Hp. cbv zeta in Hp. fold r in Hp. rewrite S1, Hdelta in Hp.
  destruct (_ && _); [done|]. change (_status_to_event_type "filled") with (Some "oms.order.filled"%string) in Hp.
  cbv iota beta in Hp. rewrite filled_quantity, Hdelta in Hp. fold r q in Hp.
  destruct (fleb (fmax fzero (fsub q r)) fzero) eqn:Hq; [done|]. injection Hp as <-. split; [done|].
  assert (Hraise2 : raised_total r q = q).
  { unfold raised_total. assert (fmax fzero q = q) as ->.
    { unfold fmax. by rewrite (fleb_fltb_trans _ _ _ Hr Hlt). }
    destruct (fltb q r) eqn:E; [|done]. pose proof (fltb_trans _ _ _ E Hlt) as Hqq.
    by rewrite fltb_irrefl in Hqq. }
  eexists. split; [|split; [reflexivity|split]].
  - unfold plan_change, settle, count_event. cbv zeta.
    cbn [to_status to_reported_filled_quantity to_reported_fee_total to_average_price cg_status cg_total_filled].
    fold r. rewrite Hraise, S2, Ht, Hraise2, Hq, andb_false_r.
    change (_status_to_event_type "filled") with (Some "oms.order.filled"%string).
    cbv iota beta. rewrite filled_quantity, !Hq. reflexivity.
  - reflexivity.
  - reflexivity.
Qed.

(** While a stream delivers, the fallback rests, whatever orders are open. *)
Lemma fallback_rests {C P : Type} `{PrivateOrderStreamConnector C} `{OrderStatusPoller P} ck
    (w : @ExecutionLifecycleWorker C P) t :
  supports_private_stream (lw_connector w) = true ->
  lc_last_private_update (lw_counters w) = Some t ->
  fleb (st_stream_stale_after_seconds (lw_settings w)) (fsub (ck_monotonic ck (lw_monotonic_reads w)) t) = false ->
  (_should_poll_rest_fallback ck w).2 = Ok false.
Proof.
  intros Hs Ht Hf. unfold _should_poll_rest_fallback. destruct (_open_orders w); [done|].
  destruct w as [b c p s tr k m n]. simpl in *. rewrite Hs, Ht, Hf. by destruct (fltb _ _).
Qed.

(** The stream watches one symbol per exchange: that of the first open order. *)
Lemma watched_first clients orders e sym :
  (e, sym) ∈ watched_symbols clients orders ->
  exists o, List.find (fun o => negb (is_terminal o) && String.eqb (to_exchange o) e) orders = Some o /\
            to_symbol o = sym.
Proof.
  unfold watched_symbols.
  set (step := fun acc order => _).
  assert (Hgen : forall l seen acc,
    (forall e sym, (e, sym) ∈ acc -> exists o,
       List.find (fun o => negb (is_terminal o) && String.eqb (to_exchange o) e) seen = Some o /\ to_symbol o = sym) ->
    (forall e, e ∉ acc.*1 -> is_some (assoc_get e clients) = true ->
       List.find (fun o => negb (is_terminal o) && String.eqb (to_exchange o) e) seen = None) ->
    (e, sym) ∈ foldl step acc l -> exists o,
      List.find (fun o => negb (is_terminal o) && String.eqb (to_exchange o) e) (seen ++ l) = Some o /\
      to_symbol o = sym).
  { induction l as [|x l IH]; intros seen acc Ha Hn; cbn [foldl]; [by rewrite app_nil_r; apply Ha|].
    rewrite (cons_middle x seen l), app_assoc. apply IH.
    - intros e' s'. unfold step. intros Hin.
      assert (Hold : (e', s') ∈ acc -> exists o,
        List.find (fun o => negb (is_terminal o) && String.eqb (to_exchange o) e') (seen ++ [x]) = Some o /\
        to_symbol o = s').
      { intros (o & Ho & Hs)%Ha. exists o. by rewrite find_middle, Ho. }
      destruct (is_terminal x) eqn:Ex; [by apply Hold|].
      destruct (is_some (assoc_get (to_exchange x) clients)) eqn:Ec; [|by apply Hold].
      destruct (assoc_get (to_exchange x) acc) eqn:Eg; [by apply Hold|].
      apply elem_of_app in Hin as [Hin|[= -> ->]%list_elem_of_singleton]; [by apply Hold|].
      exists x. apply assoc_get_None in Eg. rewrite find_middle, (Hn _ Eg Ec), Ex, String.eqb_refl. done.
    - intros e' He Hc. unfold step in He. rewrite find_middle.
      assert (Hsub : e' ∉ acc.*1).
      { intros Hin. apply He. clear -Hin.
        repeat match goal with |- context [if ?b then _ else _] => destruct b end; rewrite ?fmap_app; set_solver. }
      rewrite (Hn e' Hsub Hc). destruct (is_terminal x) eqn:Ex; [done|]. cbn [negb andb].
      destruct (String.eqb_spec (to_exchange x) e') as [<-|]; [|done]. exfalso. apply He.
      rewrite Hc. apply assoc_get_None in Hsub. rewrite Hsub. simpl. rewrite fmap_app. set_solver. }
  intros Hin. apply (Hgen orders [] []); [by intros ? ? ?%not_elem_of_nil|done|done].
Qed.

(** An order whose exchange id is not known is queried under the id [None]. *)
Lemma unknown_id_queried_as_none o params :
  to_exchange_order_id o = None -> binance_ref_params (status_payload o) = Ok params ->
  dget "orderId" params = VStr "None".
Proof.
  intros Ho. unfold binance_ref_params. intros H. apply bind_Ok in H as (symbol & _ & H). injection H as <-.
  unfold field. change (dget_or "exchange_order_id" (VStr "") (status_payload o)) with (opt_str (to_exchange_order_id o)).
  by rewrite Ho.
Qed.

(** A fill that arrives with the end of an order is swallowed: when a
    snapshot closes an order (canceled, rejected, expired) and its total is above
    what was reported, the one event published is the closing event with the
    requested quantity, and the order counts the total as reported; so no fill
    event carries the difference, then or later. *)
Theorem closing_snapshot_swallows_fill key o snap c :
  order_ok key o -> plan_change o snap = Some c -> is_fill_event (cg_event_type c) = false ->
  fltb (to_reported_filled_quantity o) (ls_filled_quantity_total snap) = true ->
  cg_quantity c = to_requested_quantity o /\
  to_reported_filled_quantity (settle c (count_event o)) = ls_filled_quantity_total snap /\
  forall snap', fleb (ls_filled_quantity_total snap') (ls_filled_quantity_total snap) = true ->
    fleb (fmax fzero (fsub (raised_total (ls_filled_quantity_total snap) (ls_filled_quantity_total snap'))
                       (ls_filled_quantity_total snap))) fzero = true.
Proof.
  intros Hok Hp Hf Hlt. pose proof (oo_filled _ _ Hok) as Hr.
  pose proof (fleb_fltb_trans _ _ _ Hr Hlt) as Hpos. set (x := ls_filled_quantity_total snap) in *.
  assert (Hx : fmax fzero x = x) by (unfold fmax; by rewrite Hpos).
  assert (Hraise : raised_total (to_reported_filled_quantity o) x = x).
  { unfold raised_total. rewrite Hx. destruct (fltb x _) eqn:E; [|done].
    pose proof (fltb_trans _ _ _ E Hlt) as Hxx. by rewrite fltb_irrefl in Hxx. }
  unfold plan_change in Hp. cbv zeta in Hp. destruct (_ && _); [done|].
  destruct (_status_to_event_type _) as [e|]; [|done]. destruct (fleb _ _); [done|]. injection Hp as <-.
  simpl in Hf |- *. fold x. rewrite Hraise. split; [unfold event_quantity; by rewrite Hf|].
  split; [unfold fmax; by rewrite Hlt|].
  intros snap' Hle. destruct (fleb_not_nan _ _ Hle) as [_ Nx]. unfold raised_total.
  destruct (fltb (fmax fzero _) x) eqn:E; [by apply fsub_equal; apply fleb_refl|].
  assert (Hle' : fleb (fmax fzero (ls_filled_quantity_total snap')) x = true)
    by (apply fmax_ub; [by apply fltb_fleb|done]).
  destruct (fleb_not_nan _ _ Hle') as [Nx' _]. apply fsub_equal; [done|]. by apply not_fltb_fleb.
Qed.

(** [float(x or 0.0)] *)
Definition or_zero (x : f64) : f64 := match x with S754_zero _ => fzero | _ => x end.

(** The OMS books exactly what the worker publishes: the fill that the OMS
    worker derives from a fill event has the action of the order as its side and
    the published quantity, fee and average price, each the decimal of the
    float's text; an average price that is not known is booked as zero. *)
Theorem fill_event_booked key source now o c clock t f :
  order_ok key o -> is_fill_event (cg_event_type c) = true ->
  OmsLifecycle.booking clock (lifecycle_event source now o c) = Some (t, f) ->
  PositionEngine.pf_mode f = "REAL"%string /\ PositionEngine.pf_side f = upper (to_action o) /\
  PyDecimal.dabs (PyDecimal.dec_of_repr (fabs (or_zero (cg_quantity c)))) = Ok (PositionEngine.pf_quantity f) /\
  PositionEngine.pf_price f = PyDecimal.dec_of_repr (or_zero (default fzero (cg_average_price c))) /\
  PositionEngine.pf_fee f =
    PyDecimal.dec_of_repr (or_zero (if fltb fzero (cg_fee_delta c) then cg_fee_delta c else fzero)).
Proof.
  intros Hok Hf. unfold OmsLifecycle.booking, OmsLifecycle._to_lifecycle_event.
  change (py_str (dget_or "event_type" (VStr "") (lifecycle_event source now o c))) with (cg_event_type c).
  set (scope := OmsLifecycle.event_scope _).
  assert (Hscope : scope = None \/ exists oid sym mode, scope = Some (OmsLifecycle.Ids oid sym mode,
            payload_of (lifecycle_event source now o c)) /\ mode = "REAL"%string).
  { subst scope. unfold OmsLifecycle.event_scope. set (ev := lifecycle_event source now o c).
    change (dget "payload" ev) with (VDict (payload_of ev)). cbv iota zeta.
    destruct (_ || _); [by left|right]. eexists _, _, _. split; [reflexivity|].
    change (dget_or "mode" (VStr "MOCK") (payload_of ev)) with (VStr (to_mode o)). by rewrite (oo_mode _ _ Hok). }
  destruct Hscope as [->|(oid & sym & mode & -> & ->)]; [done|].
  assert (Htype : (cg_event_type c =? "oms.order.filled")%string || (cg_event_type c =? "oms.order.partially_filled")%string = true).
  { unfold is_fill_event, one_of, _FILL_EVENT_TYPES in Hf. simpl in Hf. rewrite orb_false_r in Hf. by rewrite orb_comm. }
  change (dget "payload" (lifecycle_event source now o c)) with (VDict (payload_of (lifecycle_event source now o c))).
  cbv iota zeta. rewrite Htype. cbn [negb]. set (pay := payload_of _).
  destruct (is_empty (py_str (dget_or "order_id" (VStr "") pay))); [done|].
  change (dget_or "quantity" (VFloat fzero) pay) with (VFloat (cg_quantity c)).
  change (dget_or "fill_price" (dget_or "price" (VFloat fzero) pay) pay) with (opt_float (cg_average_price c)).
  change (dget_or "fee_paid" (dget_or "fee" (VFloat fzero) pay) pay) with
    (VFloat (if fltb fzero (cg_fee_delta c) then cg_fee_delta c else fzero)).
  assert (Hz : forall x, OmsLifecycle.float_or_zero (VFloat x) = Ok (or_zero x)) by (by intros []).
  assert (Hp : OmsLifecycle.float_or_zero (opt_float (cg_average_price c)) = Ok (or_zero (default fzero (cg_average_price c)))).
  { destruct (cg_average_price c); [apply Hz|done]. }
  rewrite !Hz, Hp. cbn [mbind result_bind]. unfold OmsLifecycle._position_fill_to_reconciliation_fill.
  cbn [PositionEngine.pf_quantity PositionEngine.pf_price PositionEngine.pf_fee].
  destruct (PyDecimal.dabs _) as [q|]; [|done]. cbn [mbind result_bind fmap option_fmap option_map]. intros [= <- <-].
  by repeat split.
Qed.

(** ** A concrete worker *)
Module Example_tracking.

(** A stream and a poller that play recorded snapshots. *)
Record tape := Tape { tp_left : list (list LifecycleStatusSnapshot) }.

Definition play (t : tape) : tape * result (list LifecycleStatusSnapshot) :=
  match tp_left t with [] => (t, Ok []) | x :: l => (Tape l, Ok x) end.

#[local] Instance tape_connector : PrivateOrderStreamConnector tape :=
  {| supports_private_stream _ := true; poll_updates _ _ := play |}.
#[local] Instance tape_poller : OrderStatusPoller tape :=
  {| fetch_status _ t := let '(t', r) := play t in (t', head <$> r) |}.

Definition snap (status : string) (total : f64) (price : option f64) : LifecycleStatusSnapshot :=
  {| ls_exchange := "binance"; ls_symbol := "BTC/USDT"; ls_status := status;
     ls_exchange_order_id := Some "77"%string; ls_client_order_id := None; ls_filled_quantity_total := total;
     ls_average_price := price; ls_fee_total := None; ls_raw_response := [] |}.

Definition intent : dict :=
  [("trace_id", VStr "11111111-1111-4111-8111-111111111111");
   ("decision_id", VStr "22222222-2222-4222-8222-222222222222"); ("mode", VStr "REAL");
   ("idempotency_key", VStr "intent-1"); ("event_type", VStr "execution.intent.created");
   ("emitted_at", VStr "2024-05-01T12:00:00Z");
   ("payload", VDict [("exchange", VStr "binance"); ("symbol", VStr "BTC/USDT"); ("action", VStr "BUY");
                      ("quantity", VFloat (flit 2 0)); ("strategy_id", VStr "s-1")])]%string.

Definition INTENTS : string := "execution.intent.real.lifecycle".

Definition broker (l : list dict) : InMemoryTopicBroker :=
  {| br_queues := {[INTENTS := l; "oms.order.filled"%string := []; "oms.order.partially_filled"%string := []]};
     br_bindings := ∅ |}.

Definition settings : lifecycle_settings :=
  lifecycle_settings_init INTENTS (flit 15 0) (flit 5 0) (flit 600 0) 10000.

Definition ck : clocks := {| ck_monotonic n := f_of_Z (Z.of_nat n); ck_wall _ := 63850000000000000 |}.

Definition start (stream : list (list LifecycleStatusSnapshot)) : @ExecutionLifecycleWorker tape tape :=
  worker_init (broker [intent]) (Tape stream) (Tape []) settings.

(** Steps in a row. *)
Fixpoint steps (n : nat) (w : @ExecutionLifecycleWorker tape tape) : @ExecutionLifecycleWorker tape tape :=
  match n with O => w | S n => steps n (run_once ck fzero w).1 end.

Definition messages (key : string) (w : @ExecutionLifecycleWorker tape tape) : list dict :=
  default [] (br_queues (lw_broker w) !! key).
Definition quantities (key : string) (w : @ExecutionLifecycleWorker tape tape) : list val :=
  (fun m => dget "quantity" (payload_of m)) <$> messages key w.

(** An order for 2 that fills in two parts, one that is filled without a total,
    and one that is canceled after a part was filled. *)
Definition in_parts := steps 3 (start
  [[snap "partially_filled" (flit 5 (-1)) (Some (flit 50000 0))]; [snap "closed" (flit 2 0) None]]).
Definition without_total := steps 3 (start
  [[snap "closed" fzero None]; [snap "closed" (flit 2 0) None]]).
Definition canceled := steps 3 (start
  [[snap "canceled" (flit 5 (-1)) (Some (flit 50000 0))]; [snap "canceled" (flit 5 (-1)) None]]).

Example in_parts_ex :
  quantities "oms.order.partially_filled" in_parts = [VFloat (flit 5 (-1))] /\
  quantities "oms.order.filled" in_parts = [VFloat (flit 15 (-1))].
Proof. by vm_compute. Qed.

Example canceled_ex :
  quantities "oms.order.partially_filled" canceled = [] /\ quantities "oms.order.filled" canceled = [] /\
  (fun o => to_reported_filled_quantity o) <$> (lw_tracked_orders canceled).*2 = [flit 5 (-1)].
Proof. by vm_compute. Qed.

(** The OMS worker on the two parts: the order it keeps was created by the
    first event, so it asks for 0.5 and is full with it, while the position has
    both parts; and an order filled without a price is held at price zero. *)
Definition oms (n : nat) (w : @ExecutionLifecycleWorker tape tape) : OmsLifecycle.OMSLifecycleWorkerRunner :=
  let queue := messages "oms.order.partially_filled" w ++ messages "oms.order.filled" w in
  match n with
  | 1%nat => (OmsLifecycle.Example.once queue).1
  | _ => (OmsLifecycle.Example.twice queue).1
  end.
Definition booked_order (r : OmsLifecycle.OMSLifecycleWorkerRunner) :=
  (fun o => (FillReconciliation.ro_status o, FillReconciliation.ro_requested_quantity o,
             FillReconciliation.ro_filled_quantity o)) <$> OmsLifecycle.rn_orders r !! "77"%string.
Definition booked_position (r : OmsLifecycle.OMSLifecycleWorkerRunner) :=
  (fun p => (PositionEngine.ps_quantity p, PositionEngine.ps_average_entry_price p)) <$>
  assoc_get "BTC/USDT" (OmsLifecycle.rn_positions r).

Example oms_order_shrinks :
  booked_order (oms 2 in_parts) =
    Some ("FILLED"%string, PyDecimal.DFin 5 (-1), PyDecimal.DFin 5 (-1)) /\
  fst <$> booked_position (oms 2 in_parts) = Some (PyDecimal.DFin 20 (-1)).
Proof. by vm_compute. Qed.

Example oms_price_zero :
  booked_position (oms 1 without_total) = Some (PyDecimal.DFin 20 (-1), PyDecimal.DFin 0 (-1)).
Proof. by vm_compute. Qed.

Lemma wall_ok n : in_range (ck_wall ck n) = true.
Proof. reflexivity. Qed.

Lemma broker_ok l : bindings_declared (broker l).
Proof. intros p s q Hp. unfold broker in Hp. simpl in Hp. by rewrite lookup_empty in Hp. Qed.

Lemma steps_run n w : runs settings w -> runs settings (steps n w).
Proof. revert w. induction n as [|n IH]; intros w Hw; [done|]. apply IH. by apply runs_step. Qed.

Lemma start_run stream : runs settings (start stream).
Proof. constructor. apply broker_ok. Qed.

Lemma tracked_orders_invariant_witness :
  NoDup (lw_tracked_orders in_parts).*1 /\
  Z.of_nat (List.length (lw_tracked_orders in_parts)) <= st_max_tracked_orders (lw_settings in_parts) /\
  forall k o, (k, o) ∈ lw_tracked_orders in_parts -> order_ok k o.
Proof.
  apply (tracked_orders_invariant INTENTS (flit 15 0) (flit 5 0) (flit 600 0) 10000 in_parts).
  apply steps_run, start_run.
Defined.

Lemma run_once_reports_witness :
  exists w1 w2 log, consumed (start [[snap "closed" (flit 2 0) None]]) (lw_broker w1) /\ reports w1 w2 log /\
    (let w' := (run_once ck fzero (start [[snap "closed" (flit 2 0) None]])).1 in
     w' = w2 \/ lw_tracked_orders w' `sublist_of` lw_tracked_orders w2 /\ lw_broker w' = lw_broker w2) /\
    Forall (fun km => well_formed km.2 /\ dict_get "mode" km.2 = Some (VStr "REAL") /\
                      dict_get "event_type" km.2 = Some (VStr km.1)) log.
Proof.
  apply (run_once_reports settings ck fzero (start [[snap "closed" (flit 2 0) None]])).
  - vm_compute. discriminate.
  - apply start_run.
  - exact wall_ok.
Defined.

Lemma redelivered_snapshot_silent_witness :
  let w1 := (_apply_snapshot ck "private_stream" (snap "closed" (flit 2 0) None) (steps 1 (start []))).1 in
  _apply_snapshot ck "rest_fallback" (snap "closed" (flit 2 0) None) w1 = (w1, Ok false).
Proof.
  apply (redelivered_snapshot_silent settings ck "private_stream" "rest_fallback" (snap "closed" (flit 2 0) None)
           (steps 1 (start []))).
  - vm_compute. discriminate.
  - apply steps_run, start_run.
  - exact wall_ok.
Defined.

(** The order of the intent, once tracked. *)
Definition order : TrackedLifecycleOrder :=
  match (lw_tracked_orders (steps 1 (start []))).*2 with
  | o :: _ => o
  | [] => learn_ids (snap "" fzero None) {| to_tracking_key := ""; to_trace_id := ""; to_decision_id := "";
      to_mode := ""; to_idempotency_key := ""; to_strategy_id := ""; to_exchange := ""; to_symbol := "";
      to_action := ""; to_order_type := ""; to_time_in_force := None; to_limit_price := None;
      to_trigger_price := None; to_reduce_only := false; to_requested_quantity := fzero;
      to_client_order_id := None; to_exchange_order_id := None; to_status := "";
      to_reported_filled_quantity := fzero; to_reported_fee_total := fzero; to_average_price := None;
      to_emitted_events := 0; to_terminal_marked_at := None |}
  end.
Lemma order_is_ok : order_ok "intent-1" order.
Proof. split; vm_compute; congruence. Qed.

Definition change_of (s : LifecycleStatusSnapshot) : change :=
  default {| cg_status := ""; cg_event_type := ""; cg_quantity := fzero; cg_total_filled := fzero;
             cg_fee_total := fzero; cg_fee_delta := fzero; cg_average_price := None |} (plan_change order s).

Lemma filled_remainder_counted_twice_witness :
  cg_quantity (change_of (snap "closed" fzero None)) = flit 2 0 /\
  exists c2, plan_change (settle (change_of (snap "closed" fzero None)) (count_event order))
               (snap "filled" (flit 2 0) None) = Some c2 /\
    cg_quantity c2 = cg_quantity (change_of (snap "closed" fzero None)).
Proof.
  destruct (filled_remainder_counted_twice "intent-1" order (snap "closed" fzero None) (snap "filled" (flit 2 0) None)
              (change_of (snap "closed" fzero None)) order_is_ok) as [_ (c2 & H1 & _ & _ & H2)];
    [vm_compute; reflexivity..|].
  split; [vm_compute; reflexivity|]. exists c2. split; [exact H1|exact H2].
Defined.

Lemma closing_snapshot_swallows_fill_witness :
  cg_event_type (change_of (snap "canceled" (flit 5 (-1)) None)) = "oms.order.canceled"%string /\
  to_reported_filled_quantity
    (settle (change_of (snap "canceled" (flit 5 (-1)) None)) (count_event order)) = flit 5 (-1).
Proof.
  split; [vm_compute; reflexivity|].
  apply (closing_snapshot_swallows_fill "intent-1" order (snap "canceled" (flit 5 (-1)) None)
           (change_of (snap "canceled" (flit 5 (-1)) None)) order_is_ok); vm_compute; reflexivity.
Defined.

Definition fill_change : change := change_of (snap "partially_filled" (flit 5 (-1)) (Some (flit 50000 0))).
Definition the_booking : option (string * PositionEngine.PositionFill) :=
  OmsLifecycle.booking OmsLifecycle.Example.clock (lifecycle_event "private_stream" "2024-05-01T12:00:00Z" order fill_change).

Lemma fill_event_booked_witness :
  exists t f, the_booking = Some (t, f) /\ PositionEngine.pf_side f = "BUY"%string /\
    PositionEngine.pf_price f = PyDecimal.dec_of_repr (flit 50000 0).
Proof.
  destruct the_booking as [[t f]|] eqn:E; [|exfalso; by vm_compute in E].
  exists t, f. split; [reflexivity|].
  destruct (fill_event_booked "intent-1" "private_stream" "2024-05-01T12:00:00Z" order fill_change
              OmsLifecycle.Example.clock t f order_is_ok eq_refl E) as (_ & Hs & _ & Hp & _).
  split; [exact Hs|exact Hp].
Defined.
End Example_tracking.
