(* ===== verification/OrderBook.v ===== *)
(** * Order book synchronisation

    [services/market_ingestion/contracts.py] (levels, snapshots, deltas),
    [order_book_sync.py] (the sync engine) and [gap_detection.py]. A side of the
    book is a dict with float keys: an association list in insertion order
    whose keys are compared with [==], so [0.0] and [-0.0] are one key and a
    NaN key is never found again. *)

From S2P Require Import Prelude PyStr PyFloat PyTime PyVal.
From stdpp Require Import options.
From Stdlib Require Import Ascii String SpecFloat.

#[local] Open Scope Z_scope.

(** ** Contracts *)

Record OrderBookLevel := Level { lv_price : f64; lv_amount : f64 }.

Record OrderBookSnapshot := {
  sn_exchange : string;
  sn_symbol : string;
  sn_sequence : option Z;
  sn_timestamp_ms : option Z;
  sn_bids : list OrderBookLevel;
  sn_asks : list OrderBookLevel;
}.

Record OrderBookDelta := {
  de_exchange : string;
  de_symbol : string;
  de_sequence_start : option Z;
  de_sequence_end : option Z;
  de_timestamp_ms : option Z;
  de_bids : list OrderBookLevel;
  de_asks : list OrderBookLevel;
}.

(** ** Sides of the book *)

Definition side := list (f64 * f64).

Fixpoint side_get (p : f64) (b : side) : option f64 :=
  match b with
  | [] => None
  | (q, a) :: b' => if feqb p q then Some a else side_get p b'
  end.

(** [book[p] = a]: an equal key stays where and what it is. *)
Fixpoint side_set (p a : f64) (b : side) : side :=
  match b with
  | [] => [(p, a)]
  | (q, x) :: b' => if feqb p q then (q, a) :: b' else (q, x) :: side_set p a b'
  end.

(** [book.pop(p, None)] *)
Fixpoint side_pop (p : f64) (b : side) : side :=
  match b with
  | [] => []
  | (q, x) :: b' => if feqb p q then b' else (q, x) :: side_pop p b'
  end.

Definition apply_level (b : side) (level : OrderBookLevel) : side :=
  if fleb (lv_amount level) fzero then side_pop (lv_price level) b
  else side_set (lv_price level) (lv_amount level) b.

Definition _apply_side_updates (b : side) (updates : list OrderBookLevel) : side :=
  foldl apply_level b updates.

(** [{level.price: level.amount for level in levels if level.amount > 0}] *)
Definition load_side (levels : list OrderBookLevel) : side :=
  foldl (fun b level => side_set (lv_price level) (lv_amount level) b) []
    (List.filter (fun level => fltb fzero (lv_amount level)) levels).

(** ** The engine *)

Record OrderBookSyncEngine := {
  ob_exchange : string;
  ob_symbol : string;
  ob_sequence : option Z;
  ob_bids : side;
  ob_asks : side;
  ob_initialized : bool;
}.

Definition engine_init (exchange symbol : string) : OrderBookSyncEngine :=
  {| ob_exchange := exchange; ob_symbol := symbol; ob_sequence := None; ob_bids := []; ob_asks := [];
     ob_initialized := false |}.

Definition _validate_scope (exchange symbol : string) (e : OrderBookSyncEngine) : result unit :=
  raise_if (negb (String.eqb exchange (ob_exchange e)) || negb (String.eqb symbol (ob_symbol e)))
    OrderBookSyncError "Delta/snapshot scope does not match engine scope".

Definition load_snapshot (snapshot : OrderBookSnapshot) (e : OrderBookSyncEngine)
  : result OrderBookSyncEngine :=
  _ ← _validate_scope (sn_exchange snapshot) (sn_symbol snapshot) e;
  Ok {| ob_exchange := ob_exchange e; ob_symbol := ob_symbol e; ob_sequence := sn_sequence snapshot;
        ob_bids := load_side (sn_bids snapshot); ob_asks := load_side (sn_asks snapshot);
        ob_initialized := true |}.

(** The sequence after the delta; [None] for a stale delta. *)
Definition next_sequence (current start end_ : option Z) : result (option (option Z)) :=
  match current, start, end_ with
  | Some s, Some st, Some en =>
      let expected := s + 1 in
      if en <? expected then Ok None
      else if expected <? st then
        raise OrderBookSequenceGapError
          ("Expected sequence " +:+ str_of_Z expected +:+ " but received " +:+ str_of_Z st)
      else Ok (Some (Some en))
  | _, _, Some en => Ok (Some (Some en))
  | _, _, None => Ok (Some current)
  end.

(** Returns the engine after the call and what the call returns; every check
    comes before the first mutation, so an exception leaves the engine as it
    was. *)
Definition apply_delta (delta : OrderBookDelta) (e : OrderBookSyncEngine)
  : result (OrderBookSyncEngine * bool) :=
  _ ← raise_if (negb (ob_initialized e)) OrderBookNotInitializedError
        "Call load_snapshot before apply_delta";
  _ ← _validate_scope (de_exchange delta) (de_symbol delta) e;
  next ← next_sequence (ob_sequence e) (de_sequence_start delta) (de_sequence_end delta);
  match next with
  | None => Ok (e, false)
  | Some sequence =>
      Ok ({| ob_exchange := ob_exchange e; ob_symbol := ob_symbol e; ob_sequence := sequence;
             ob_bids := _apply_side_updates (ob_bids e) (de_bids delta);
             ob_asks := _apply_side_updates (ob_asks e) (de_asks delta);
             ob_initialized := ob_initialized e |}, true)
  end.

(** [l[:depth]] *)
Definition slice_to {A} (depth : Z) (l : list A) : list A :=
  if 0 <=? depth then take (Z.to_nat depth) l
  else take (Z.to_nat (Z.of_nat (List.length l) + depth)) l.

Definition level_dict (pa : f64 * f64) : val :=
  VDict [("price", VFloat pa.1); ("amount", VFloat pa.2)].
Definition opt_int (n : option Z) : val := match n with Some k => VInt k | None => VNone end.

(** Stable sorts by price, bids from the highest. *)
Definition best_bids (b : side) : side := sort_by (fun x y => negb (fltb x.1 y.1)) b.
Definition best_asks (b : side) : side := sort_by (fun x y => negb (fltb y.1 x.1)) b.

Definition materialize_snapshot (depth : Z) (e : OrderBookSyncEngine) : dict :=
  [("exchange", VStr (ob_exchange e)); ("symbol", VStr (ob_symbol e));
   ("sequence", opt_int (ob_sequence e));
   ("bids", VList (level_dict <$> slice_to depth (best_bids (ob_bids e))));
   ("asks", VList (level_dict <$> slice_to depth (best_asks (ob_asks e))))].

(** ** Gap detection *)

Record GapDetectionResult := {
  gr_has_gap : bool;
  gr_expected_sequence : option Z;
  gr_received_sequence_start : option Z;
  gr_received_sequence_end : option Z;
  gr_gap_size : Z;
  gr_action : string;
}.

Definition evaluate (current_sequence incoming_start incoming_end : option Z) : GapDetectionResult :=
  match current_sequence, incoming_start, incoming_end with
  | Some current, Some start, Some end_ =>
      let expected := current + 1 in
      let answer gap size action :=
        {| gr_has_gap := gap; gr_expected_sequence := Some expected;
           gr_received_sequence_start := incoming_start; gr_received_sequence_end := incoming_end;
           gr_gap_size := size; gr_action := action |} in
      if end_ <? expected then answer false 0 "ignore_stale"%string
      else if expected <? start then answer true (start - expected) "resync"%string
      else answer false 0 "accept"%string
  | _, _, _ =>
      {| gr_has_gap := false; gr_expected_sequence := None;
         gr_received_sequence_start := incoming_start; gr_received_sequence_end := incoming_end;
         gr_gap_size := 0; gr_action := "accept" |}
  end.

Definition build_resync_request (exchange symbol : string) (r : GapDetectionResult) (reason : string)
    (now : Z) : dict :=
  [("exchange", VStr exchange); ("symbol", VStr symbol); ("reason", VStr reason);
   ("expected_sequence", opt_int (gr_expected_sequence r));
   ("received_sequence_start", opt_int (gr_received_sequence_start r));
   ("received_sequence_end", opt_int (gr_received_sequence_end r));
   ("gap_size", VInt (gr_gap_size r)); ("requested_at", VStr (iso_z now))].

(** ** The abstract book

    What a stream of level updates means: the amount at a price is that of the
    last update for the price, unless that update removed it. *)
Definition update (p : f64) (acc : option f64) (level : OrderBookLevel) : option f64 :=
  if feqb p (lv_price level) then
    if fleb (lv_amount level) fzero then None else Some (lv_amount level)
  else acc.
Definition quoted (levels : list OrderBookLevel) (p : f64) : option f64 := foldl (update p) None levels.

(** Keys of a side are distinct. *)
Fixpoint distinct (b : side) : Prop :=
  match b with
  | [] => True
  | (q, _) :: b' => (forall p, feqb p q = true -> side_get p b' = None) /\ distinct b'
  end.

Lemma feqb_sym x y : feqb x y = feqb y x.
Proof.
  rewrite !feqb_flex. destruct (flex x), (flex y); try done. by apply bool_decide_ext.
Qed.

Lemma feqb_trans x y z : feqb x y = true -> feqb y z = feqb x z.
Proof.
  rewrite !feqb_flex. destruct (flex x), (flex y), (flex z); try done.
  intros ->%bool_decide_eq_true. done.
Qed.

Lemma feqb_r p q r : feqb q r = true -> feqb p q = feqb p r.
Proof.
  intros H. rewrite (feqb_sym p q), (feqb_sym p r). apply feqb_trans. by rewrite feqb_sym.
Qed.

Lemma side_get_ext p q b : feqb p q = true -> side_get p b = side_get q b.
Proof.
  intros H. induction b as [|[r a] b IH]; [done|]. simpl.
  by rewrite <- (feqb_trans p q r H), IH.
Qed.

Lemma side_get_set p q a b : side_get p (side_set q a b) = if feqb p q then Some a else side_get p b.
Proof.
  induction b as [|[r x] b IH]; [done|]. simpl. destruct (feqb q r) eqn:E; simpl.
  - rewrite (feqb_r p q r E). by destruct (feqb p r).
  - destruct (feqb p r) eqn:E1; [|done]. destruct (feqb p q) eqn:E2; [|done].
    rewrite (feqb_trans p q r E2) in E. congruence.
Qed.

Lemma side_get_pop p q b :
  distinct b -> side_get p (side_pop q b) = if feqb p q then None else side_get p b.
Proof.
  induction b as [|[r x] b IH]; simpl; [by destruct (feqb p q)|]. intros [Hr Hb].
  destruct (feqb q r) eqn:E; simpl.
  - rewrite (feqb_r p q r E). destruct (feqb p r) eqn:E2; [by apply Hr|done].
  - destruct (feqb p r) eqn:E1; [|by apply IH]. destruct (feqb p q) eqn:E2; [|done].
    rewrite (feqb_trans p q r E2) in E. congruence.
Qed.

Lemma distinct_set p a b : distinct b -> distinct (side_set p a b).
Proof.
  induction b as [|[r x] b IH]; simpl; [done|]. intros [Hr Hb]. destruct (feqb p r) eqn:E; simpl; [done|].
  split; [|by apply IH]. intros q Hq. rewrite side_get_set. destruct (feqb q p) eqn:E1; [|by apply Hr].
  rewrite (feqb_trans q p r E1) in E. congruence.
Qed.

Lemma distinct_pop p b : distinct b -> distinct (side_pop p b).
Proof.
  induction b as [|[r x] b IH]; simpl; [done|]. intros [Hr Hb]. destruct (feqb p r) eqn:E; simpl; [done|].
  split; [|by apply IH]. intros q Hq. rewrite side_get_pop by done.
  destruct (feqb q p); [done|]. by apply Hr.
Qed.

(** One level update does what it means. *)
Lemma apply_level_spec b level p :
  distinct b ->
  distinct (apply_level b level) /\ side_get p (apply_level b level) = update p (side_get p b) level.
Proof.
  intros Hb. unfold apply_level, update. destruct (fleb (lv_amount level) fzero).
  - split; [by apply distinct_pop|]. by apply side_get_pop.
  - split; [by apply distinct_set|]. apply side_get_set.
Qed.

Lemma apply_side_spec levels b p :
  distinct b ->
  distinct (_apply_side_updates b levels) /\
  side_get p (_apply_side_updates b levels) = foldl (update p) (side_get p b) levels.
Proof.
  unfold _apply_side_updates. revert b. induction levels as [|l levels IH]; intros b Hb; [done|].
  simpl. destruct (apply_level_spec b l p Hb) as [H1 H2].
  destruct (IH _ H1) as [H3 H4]. split; [done|]. by rewrite H4, H2.
Qed.

Lemma load_side_spec levels p :
  distinct (load_side levels) /\
  side_get p (load_side levels) = quoted (List.filter (fun l => fltb fzero (lv_amount l)) levels) p.
Proof.
  unfold load_side, quoted. set (ls := List.filter _ levels).
  assert (Hpos : Forall (fun l => fltb fzero (lv_amount l) = true) ls).
  { apply Forall_forall. intros l Hl. apply list_elem_of_In, filter_In in Hl. apply Hl. }
  change (@None f64) with (side_get p []). assert (Hd : distinct []) by done.
  revert Hd. generalize ([] : side). induction Hpos as [|l ls Hl _ IH]; intros b Hd; [done|]. simpl.
  assert (Hu : update p (side_get p b) l = side_get p (side_set (lv_price l) (lv_amount l) b)).
  { unfold update. rewrite side_get_set. by rewrite (fltb_not_fleb _ _ Hl). }
  rewrite Hu. apply IH. by apply distinct_set.
Qed.

(** ** The engine and the gap detector *)

Definition in_scope (d : OrderBookDelta) (e : OrderBookSyncEngine) : Prop :=
  de_exchange d = ob_exchange e /\ de_symbol d = ob_symbol e.

Lemma scope_ok exchange symbol e :
  exchange = ob_exchange e -> symbol = ob_symbol e -> _validate_scope exchange symbol e = Ok tt.
Proof. intros -> ->. unfold _validate_scope. by rewrite !String.eqb_refl. Qed.

Lemma apply_delta_eq d e :
  ob_initialized e = true -> in_scope d e ->
  apply_delta d e =
    match next_sequence (ob_sequence e) (de_sequence_start d) (de_sequence_end d) with
    | Raise exc => Raise exc
    | Ok None => Ok (e, false)
    | Ok (Some s) =>
        Ok ({| ob_exchange := ob_exchange e; ob_symbol := ob_symbol e; ob_sequence := s;
               ob_bids := _apply_side_updates (ob_bids e) (de_bids d);
               ob_asks := _apply_side_updates (ob_asks e) (de_asks d);
               ob_initialized := ob_initialized e |}, true)
    end.
Proof.
  intros Hi [H1 H2]. unfold apply_delta. rewrite Hi. simpl. rewrite scope_ok by done. simpl.
  by destruct (next_sequence _ _ _).
Qed.

(** The gap detector and the sync engine never disagree: for an initialised
    engine and a delta of its market, the detector says [accept] exactly when
    the engine applies the delta, [ignore_stale] exactly when the engine skips
    it unchanged, and [resync] exactly when the engine raises a sequence gap;
    no other outcome is possible. *)
Theorem gap_detection_agrees d e :
  ob_initialized e = true -> in_scope d e ->
  let action := gr_action (evaluate (ob_sequence e) (de_sequence_start d) (de_sequence_end d)) in
  (action = "accept"%string <-> exists e', apply_delta d e = Ok (e', true)) /\
  (action = "ignore_stale"%string <-> apply_delta d e = Ok (e, false)) /\
  (action = "resync"%string <-> exists msg, apply_delta d e = Raise (Exc OrderBookSequenceGapError msg)) /\
  action ∈ ["accept"; "ignore_stale"; "resync"]%string.
Proof.
  intros Hi Hs action. rewrite apply_delta_eq by done. unfold action, evaluate, next_sequence.
  destruct (ob_sequence e) as [s|], (de_sequence_start d) as [st|], (de_sequence_end d) as [en|];
    try destruct (en <? s + 1); try destruct (s + 1 <? st); simpl;
    (split; [split; [intros H|intros [e' H]]|split; [split; intros H|split; [split; [intros H|intros [msg H]]|]]]);
    try discriminate H; eauto; set_solver.
Qed.

(** ** Streams of deltas *)

Definition feed (e : OrderBookSyncEngine) (ds : list OrderBookDelta) : result OrderBookSyncEngine :=
  fold_res (fun e d => r ← apply_delta d e; Ok r.1) e ds.

(** The deltas a stream applies, starting at sequence [s]. *)
Fixpoint accepted (s : option Z) (ds : list OrderBookDelta) : list OrderBookDelta :=
  match ds with
  | [] => []
  | d :: ds' =>
      match next_sequence s (de_sequence_start d) (de_sequence_end d) with
      | Ok (Some s') => d :: accepted s' ds'
      | Ok None => accepted s ds'
      | Raise _ => []
      end
  end.

(** The applied deltas leave no hole: each starts no later than right after the
    sequence reached so far and ends beyond it. *)
Inductive contiguous : option Z -> list OrderBookDelta -> option Z -> Prop :=
  | cont_nil s : contiguous s [] s
  | cont_next s st en d ds s' :
      de_sequence_start d = Some st -> de_sequence_end d = Some en -> st <= s + 1 <= en ->
      contiguous (Some en) ds s' -> contiguous (Some s) (d :: ds) s'
  | cont_unknown s d ds s' :
      s = None \/ de_sequence_start d = None \/ de_sequence_end d = None ->
      contiguous (match de_sequence_end d with Some en => Some en | None => s end) ds s' ->
      contiguous s (d :: ds) s'.

Lemma next_sequence_cont s d ds s1 s' :
  next_sequence s (de_sequence_start d) (de_sequence_end d) = Ok (Some s1) ->
  contiguous s1 ds s' -> contiguous s (d :: ds) s'.
Proof.
  intros H Hc.
  assert (Hu : (s = None \/ de_sequence_start d = None \/ de_sequence_end d = None) ->
    s1 = (match de_sequence_end d with Some en => Some en | None => s end) -> contiguous s (d :: ds) s').
  { intros Hn ->. by apply cont_unknown. }
  unfold next_sequence in H.
  destruct s as [s|]; [|apply Hu; [by left|]; by destruct (de_sequence_end d); simplify_eq].
  destruct (de_sequence_start d) as [st|] eqn:Es;
    [|apply Hu; [right; by left|]; by destruct (de_sequence_end d); simplify_eq].
  destruct (de_sequence_end d) as [en|] eqn:Ee; [|apply Hu; [right; by right|]; by simplify_eq].
  destruct (en <? s + 1) eqn:E1; [done|]. destruct (s + 1 <? st) eqn:E2; [done|]. simplify_eq.
  eapply cont_next; [done|done|lia|done].
Qed.

(** Skipped deltas only repeat what is known. *)
Lemma feed_cons e d ds e' :
  ob_initialized e = true -> feed e (d :: ds) = Ok e' ->
  (next_sequence (ob_sequence e) (de_sequence_start d) (de_sequence_end d) = Ok None /\ feed e ds = Ok e') \/
  (exists s, next_sequence (ob_sequence e) (de_sequence_start d) (de_sequence_end d) = Ok (Some s) /\
     feed {| ob_exchange := ob_exchange e; ob_symbol := ob_symbol e; ob_sequence := s;
             ob_bids := _apply_side_updates (ob_bids e) (de_bids d);
             ob_asks := _apply_side_updates (ob_asks e) (de_asks d); ob_initialized := true |} ds = Ok e').
Proof.
  intros Hi H. unfold feed in *. cbn [fold_res] in H. unfold apply_delta in H. rewrite Hi in H.
  simpl in H. apply bind_Ok in H as (e1 & H1 & H).
  apply bind_Ok in H1 as (r & Hr & [= <-]). apply bind_Ok in Hr as ([] & _ & Hr).
  apply bind_Ok in Hr as (next & Hn & Hr). destruct next as [s|]; injection Hr as <-.
  - right. by exists s.
  - left. done.
Qed.

Lemma feed_spec e ds e' :
  ob_initialized e = true -> distinct (ob_bids e) -> distinct (ob_asks e) -> feed e ds = Ok e' ->
  let acc := accepted (ob_sequence e) ds in
  (forall p, side_get p (ob_bids e') = foldl (update p) (side_get p (ob_bids e)) (flat_map de_bids acc)) /\
  (forall p, side_get p (ob_asks e') = foldl (update p) (side_get p (ob_asks e)) (flat_map de_asks acc)) /\
  distinct (ob_bids e') /\ distinct (ob_asks e') /\
  contiguous (ob_sequence e) acc (ob_sequence e').
Proof.
  revert e. induction ds as [|d ds IH]; intros e Hi Hb Ha H.
  { injection H as <-. simpl. repeat (split; [done|]). constructor. }
  cbv zeta. cbn [accepted]. destruct (feed_cons _ _ _ _ Hi H) as [[En H1]|(s & En & H1)]; rewrite En.
  { by apply IH. }
  destruct (apply_side_spec (de_bids d) (ob_bids e) fzero Hb) as [Db _].
  destruct (apply_side_spec (de_asks d) (ob_asks e) fzero Ha) as [Da _].
  apply IH in H1; [|reflexivity|exact Db|exact Da]. destruct H1 as (B & A & DB & DA & C). cbn [ob_bids ob_asks ob_sequence] in *.
  split; [|split; [|split; [done|split; [done|]]]].
  - intros p. cbn [flat_map]. rewrite foldl_app, <- (proj2 (apply_side_spec (de_bids d) (ob_bids e) p Hb)).
    apply B.
  - intros p. cbn [flat_map]. rewrite foldl_app, <- (proj2 (apply_side_spec (de_asks d) (ob_asks e) p Ha)).
    apply A.
  - by eapply next_sequence_cont.
Qed.

(** C7. The synchronised book is the replay of its updates. Load a snapshot and
    feed any stream of deltas; if no gap is reported, then on each side the
    amount at every price is that of the last update for the price among the
    snapshot's positive levels and the applied deltas, in order (and there is
    none when that update removed it); and the applied deltas cover the
    sequence numbers from the snapshot's to the engine's without a hole. *)
Theorem book_refines_replay e0 e sn ds e' :
  load_snapshot sn e0 = Ok e -> feed e ds = Ok e' ->
  let acc := accepted (sn_sequence sn) ds in
  let positive := List.filter (fun l => fltb fzero (lv_amount l)) in
  (forall p, side_get p (ob_bids e') = quoted (positive (sn_bids sn) ++ flat_map de_bids acc) p) /\
  (forall p, side_get p (ob_asks e') = quoted (positive (sn_asks sn) ++ flat_map de_asks acc) p) /\
  contiguous (sn_sequence sn) acc (ob_sequence e').
Proof.
  intros Hl Hf. unfold load_snapshot in Hl. apply bind_Ok in Hl as ([] & _ & [= <-]).
  destruct (load_side_spec (sn_bids sn) fzero) as [Db _].
  destruct (load_side_spec (sn_asks sn) fzero) as [Da _].
  apply feed_spec in Hf; [|reflexivity|exact Db|exact Da]. destruct Hf as (B & A & _ & _ & C).
  cbn [ob_bids ob_asks ob_sequence] in *. cbv zeta.
  split; [|split; [|exact C]]; intros p.
  - rewrite B. unfold quoted. rewrite foldl_app. by rewrite (proj2 (load_side_spec (sn_bids sn) p)).
  - rewrite A. unfold quoted. rewrite foldl_app. by rewrite (proj2 (load_side_spec (sn_asks sn) p)).
Qed.

(** ** Redelivery *)

Definition numbered (d : OrderBookDelta) : Prop :=
  is_Some (de_sequence_start d) /\ is_Some (de_sequence_end d).

Lemma next_numbered s d next :
  numbered d -> next_sequence (Some s) (de_sequence_start d) (de_sequence_end d) = Ok next ->
  exists s', default (Some s) next = Some s' /\ s <= s' /\ forall en, de_sequence_end d = Some en -> en <= s'.
Proof.
  intros [[st Hs] [en He]] H. unfold next_sequence in H. rewrite Hs, He in H.
  destruct (en <? s + 1) eqn:E1; simplify_eq.
  - exists s. split; [done|]. split; [lia|]. intros en' [= <-]%(eq_trans (eq_sym He)). lia.
  - destruct (s + 1 <? st) eqn:E2; simplify_eq. exists en. split; [done|]. split; [lia|].
    intros en' [= <-]%(eq_trans (eq_sym He)). lia.
Qed.

Lemma feed_sequence e s ds e' :
  ob_initialized e = true -> ob_sequence e = Some s -> Forall numbered ds -> feed e ds = Ok e' ->
  ob_initialized e' = true /\ ob_exchange e' = ob_exchange e /\ ob_symbol e' = ob_symbol e /\
  exists s', ob_sequence e' = Some s' /\ s <= s' /\
    forall d en, d ∈ ds -> de_sequence_end d = Some en -> en <= s'.
Proof.
  intros Hi Hs Hn. revert e s Hi Hs. induction Hn as [|d ds Hd Hds IH]; intros e s Hi Hs H.
  { injection H as <-. repeat (split; [done|]). exists s. split; [done|]. split; [lia|]. set_solver. }
  destruct (feed_cons _ _ _ _ Hi H) as [[En H1]|(s1 & En & H1)]; rewrite Hs in En;
    destruct (next_numbered s d _ Hd En) as (s2 & E2 & L2 & B2); simpl in E2.
  - injection E2 as <-. destruct (IH e s Hi Hs H1) as (A1 & A2 & A3 & s' & A4 & A5 & A6).
    repeat (split; [done|]). exists s'. split; [done|]. split; [done|].
    intros d' en [->|Hin]%elem_of_cons He; [|by apply (A6 d')]. apply B2 in He. lia.
  - subst s1. destruct (IH {| ob_exchange := ob_exchange e; ob_symbol := ob_symbol e;
      ob_sequence := Some s2; ob_bids := _apply_side_updates (ob_bids e) (de_bids d);
      ob_asks := _apply_side_updates (ob_asks e) (de_asks d); ob_initialized := true |} s2 eq_refl eq_refl H1)
      as (A1 & A2 & A3 & s' & A4 & A5 & A6).
    repeat (split; [done|]). exists s'. split; [done|]. split; [lia|].
    intros d' en [->|Hin]%elem_of_cons He; [|by apply (A6 d')]. apply B2 in He. lia.
Qed.

(** Redelivery is harmless: once a stream of numbered deltas has been fed,
    feeding any of its deltas again is skipped and leaves the book as it is. *)
Theorem redelivered_delta_ignored e s ds e' d :
  ob_initialized e = true -> ob_sequence e = Some s -> Forall numbered ds -> feed e ds = Ok e' ->
  d ∈ ds -> in_scope d e -> apply_delta d e' = Ok (e', false).
Proof.
  intros Hi Hs Hn Hf Hd [S1 S2].
  destruct (feed_sequence _ _ _ _ Hi Hs Hn Hf) as (I & X & Y & s' & Q & _ & B).
  rewrite apply_delta_eq; [|done|split; congruence]. rewrite Forall_forall in Hn.
  destruct (Hn d Hd) as [[st Est] [en Een]]. specialize (B d en Hd Een).
  unfold next_sequence. rewrite Q, Est, Een. by rewrite (proj2 (Z.ltb_lt en (s' + 1))) by lia.
Qed.

(** ** A concrete stream *)

Module Example.
Definition lv (p a : Z) : OrderBookLevel := Level (flit p 0) (flit a 0).
Definition snapshot : OrderBookSnapshot :=
  {| sn_exchange := "binance"; sn_symbol := "BTC/USDT"; sn_sequence := Some 100; sn_timestamp_ms := None;
     sn_bids := [lv 50000 1; lv 49990 2]; sn_asks := [lv 50010 3] |}.
Definition delta (st en : Z) (bids asks : list OrderBookLevel) : OrderBookDelta :=
  {| de_exchange := "binance"; de_symbol := "BTC/USDT"; de_sequence_start := Some st;
     de_sequence_end := Some en; de_timestamp_ms := None; de_bids := bids; de_asks := asks |}.
(** The first delta overlaps the snapshot, the second is stale, the third removes
    a level. *)
Definition d1 : OrderBookDelta := delta 99 103 [lv 50000 5] [].
Definition d2 : OrderBookDelta := delta 98 100 [lv 50000 9] [].
Definition d3 : OrderBookDelta := delta 104 104 [lv 49990 0] [lv 50010 1].
Definition gap : OrderBookDelta := delta 107 108 [] [].
Definition engine : OrderBookSyncEngine :=
  {| ob_exchange := "binance"; ob_symbol := "BTC/USDT"; ob_sequence := Some 100;
     ob_bids := load_side (sn_bids snapshot); ob_asks := load_side (sn_asks snapshot);
     ob_initialized := true |}.
Definition synced : OrderBookSyncEngine :=
  {| ob_exchange := "binance"; ob_symbol := "BTC/USDT"; ob_sequence := Some 104;
     ob_bids := _apply_side_updates (_apply_side_updates (ob_bids engine) (de_bids d1)) (de_bids d3);
     ob_asks := _apply_side_updates (_apply_side_updates (ob_asks engine) (de_asks d1)) (de_asks d3);
     ob_initialized := true |}.
End Example.

Lemma gap_detection_agrees_witness :
  exists msg, apply_delta Example.gap Example.synced = Raise (Exc OrderBookSequenceGapError msg).
Proof.
  destruct (gap_detection_agrees Example.gap Example.synced) as (_ & _ & [H _] & _).
  - reflexivity.
  - split; reflexivity.
  - apply H. reflexivity.
Defined.

Lemma book_refines_replay_witness :
  side_get (flit 50000 0) (ob_bids Example.synced) = Some (flit 5 0) /\
  side_get (flit 49990 0) (ob_bids Example.synced) = None /\
  contiguous (Some 100) [Example.d1; Example.d3] (Some 104).
Proof.
  destruct (book_refines_replay (engine_init "binance" "BTC/USDT") Example.engine Example.snapshot
              [Example.d1; Example.d2; Example.d3] Example.synced eq_refl eq_refl) as (B & _ & C).
  split; [rewrite B; vm_compute; reflexivity|]. split; [rewrite B; vm_compute; reflexivity|]. exact C.
Defined.

Lemma redelivered_delta_ignored_witness :
  apply_delta Example.d1 Example.synced = Ok (Example.synced, false).
Proof.
  apply (redelivered_delta_ignored Example.engine 100 [Example.d1; Example.d2; Example.d3]).
  - reflexivity.
  - reflexivity.
  - repeat constructor; by eexists.
  - reflexivity.
  - left.
  - split; reflexivity.
Defined.
