(* ===== verification/Kline.v ===== *)
(** * Kline validation

    [services/market_ingestion/kline_validator.py]: a series of bars is checked
    for order, for consistency of each bar, and for missing bars. *)

From S2P Require Import Prelude PyStr PyFloat.
From stdpp Require Import options.
From Stdlib Require Import Ascii String.

#[local] Open Scope Z_scope.

Record KlineBar := {
  kb_open_time_ms : Z;
  kb_open : f64;
  kb_high : f64;
  kb_low : f64;
  kb_close : f64;
  kb_volume : f64;
}.

Record KlineValidationResult := {
  kv_is_valid : bool;
  kv_missing_open_times : list Z;
  kv_errors : list string;
}.

(** The first adjacent pair out of order ends the loop. *)
Fixpoint monotonic (bars : list KlineBar) : bool :=
  match bars with
  | b1 :: (b2 :: _) as rest => if kb_open_time_ms b2 <=? kb_open_time_ms b1 then false else monotonic rest
  | _ => true
  end.

Definition bar_errors (bar : KlineBar) : list string :=
  let max_oc := fmax (kb_open bar) (kb_close bar) in
  let min_oc := fmin (kb_open bar) (kb_close bar) in
  (if fltb (kb_high bar) max_oc || fltb min_oc (kb_low bar) || fltb (kb_high bar) (kb_low bar)
   then ["Kline high/low consistency violated at " +:+ str_of_Z (kb_open_time_ms bar)] else []) ++
  (if fltb (kb_volume bar) fzero
   then ["Kline volume must be non-negative at " +:+ str_of_Z (kb_open_time_ms bar)] else []).

(** [range(start, stop, step)], [step <> 0]. *)
Definition py_range (start stop step : Z) : list Z :=
  let count := if 0 <? step then (stop - start + step - 1) / step
               else (start - stop - step - 1) / (- step) in
  (fun k => start + Z.of_nat k * step) <$> seq 0 (Z.to_nat count).

(** One adjacent pair of the sorted series. *)
Definition pair_gap (interval_ms prev_open curr_open : Z) : result (list Z * list string) :=
  let gap := curr_open - prev_open in
  if gap <=? 0 then Ok ([], [])
  else if interval_ms =? 0 then raise ZeroDivisionError "integer modulo by zero"
  else
    let errors := if negb (gap mod interval_ms =? 0)
                  then ["Kline interval mismatch between " +:+ str_of_Z prev_open +:+ " and " +:+
                        str_of_Z curr_open] else [] in
    Ok (if interval_ms <? gap then py_range (prev_open + interval_ms) curr_open interval_ms else [], errors).

Fixpoint gaps (interval_ms : Z) (times : list Z) : result (list Z * list string) :=
  match times with
  | prev_open :: (curr_open :: _) as rest =>
      r ← pair_gap interval_ms prev_open curr_open;
      rs ← gaps interval_ms rest;
      Ok (r.1 ++ rs.1, r.2 ++ rs.2)
  | _ => Ok ([], [])
  end.

Definition sorted_times (bars : list KlineBar) : list Z :=
  kb_open_time_ms <$> sort_by (fun a b => kb_open_time_ms a <=? kb_open_time_ms b) bars.

Definition validate (interval_ms : Z) (bars : list KlineBar) : result KlineValidationResult :=
  match bars with
  | [] => Ok {| kv_is_valid := true; kv_missing_open_times := []; kv_errors := [] |}
  | _ =>
      let order := if monotonic bars then []
                   else ["Kline open times must be strictly monotonic increasing"%string] in
      r ← gaps interval_ms (sorted_times bars);
      let errors := order ++ flat_map bar_errors bars ++ r.2 in
      let missing := r.1 in
      Ok {| kv_is_valid := match errors, missing with [], [] => true | _, _ => false end;
            kv_missing_open_times := missing; kv_errors := errors |}
  end.

(** ** What the report says *)

Lemma py_range_spec start stop step t :
  0 < step -> t ∈ py_range start stop step <-> start <= t < stop /\ (t - start) mod step = 0.
Proof.
  intros Hs. unfold py_range. rewrite (proj2 (Z.ltb_lt 0 step) Hs). rewrite list_elem_of_fmap. split.
  - intros (k & -> & Hk). apply elem_of_seq in Hk.
    assert (Hk' : Z.of_nat k < (stop - start + step - 1) / step) by lia.
    replace (start + Z.of_nat k * step - start) with (Z.of_nat k * step) by lia.
    rewrite Z_mod_mult. split; [|done]. split; [nia|].
    assert (H : Z.of_nat k * step + step <= stop - start + step - 1); [|lia].
    transitivity (step * ((stop - start + step - 1) / step)); [nia|]. by apply Z.mul_div_le.
  - intros [[H1 H2] Hm]. apply Z.mod_divide in Hm as [k Hk]; [|lia].
    assert (Hk0 : 0 <= k) by nia. exists (Z.to_nat k). rewrite Z2Nat.id by done. split; [lia|].
    apply elem_of_seq. split; [lia|]. simpl. apply Z2Nat.inj_lt; [done| |].
    + apply Z.div_pos; [lia|done].
    + apply Z.lt_le_trans with ((k * step + step) / step); [|apply Z.div_le_mono; lia].
      rewrite Z.div_add_l by lia. rewrite Z.div_same by lia. lia.
Qed.

(** Strictly between two bars, on the grid of the first. *)
Definition between (interval a b t : Z) : Prop := a < t < b /\ (t - a) mod interval = 0.

Lemma mod_shift a k interval : 0 < interval -> (a - k * interval) mod interval = a mod interval.
Proof. intros H. replace (a - k * interval) with (a + - k * interval) by lia. apply Z_mod_plus_full. Qed.

Lemma between_far interval a b t : 0 < interval -> between interval a b t -> interval <= t - a < b - a.
Proof.
  intros Hi [[H1 H2] Hm]. split; [|lia]. apply Z.mod_divide in Hm as [k Hk]; [|lia].
  assert (Hk0 : 0 < k) by nia. nia.
Qed.

Lemma pair_gap_spec interval a b :
  0 < interval ->
  exists r, pair_gap interval a b = Ok r /\
    (forall t, t ∈ r.1 <-> between interval a b t) /\
    (a < b -> (r.1 = [] /\ r.2 = [] <-> b = a + interval)).
Proof.
  intros Hi. unfold pair_gap. rewrite (proj2 (Z.eqb_neq interval 0)) by lia.
  destruct (b - a <=? 0) eqn:E0.
  { exists ([], []). split; [done|]. split; [|lia]. intros t. simpl. rewrite elem_of_nil.
    split; [done|]. intros [? _]. lia. }
  eexists. split; [reflexivity|]. cbn [fst snd].
  assert (Hmem : forall t, t ∈ (if interval <? b - a then py_range (a + interval) b interval else []) <->
    between interval a b t).
  { intros t. destruct (interval <? b - a) eqn:E1.
    - rewrite py_range_spec by done. replace (t - (a + interval)) with (t - a - 1 * interval) by lia.
      rewrite mod_shift by done. split; [intros [? ?]; split; lia|]. intros H.
      pose proof (between_far _ _ _ _ Hi H). destruct H. lia.
    - rewrite elem_of_nil. split; [done|]. intros H. pose proof (between_far _ _ _ _ Hi H). lia. }
  split; [exact Hmem|]. intros Hab. split.
  - intros [Hn He]. destruct (_ =? 0) eqn:Em in He; [|done].
    assert (Hm : (b - a) mod interval = 0) by lia. apply Z.mod_divide in Hm as [k Hk]; [|lia].
    assert (Hk0 : 0 < k) by nia. destruct (decide (k = 1)) as [->|]; [lia|].
    assert (H : between interval a b (a + interval)).
    { split; [nia|]. replace (a + interval - a) with (1 * interval) by lia. apply Z_mod_mult. }
    apply Hmem in H. rewrite Hn in H. by apply elem_of_nil in H.
  - intros ->. replace (a + interval - a) with (1 * interval) by lia. rewrite Z_mod_mult.
    rewrite (proj2 (Z.ltb_ge interval (1 * interval))) by lia. done.
Qed.

(** Adjacent bars are exactly one interval apart. *)
Fixpoint consecutive (interval : Z) (times : list Z) : Prop :=
  match times with
  | a :: (b :: _) as rest => b = a + interval /\ consecutive interval rest
  | _ => True
  end.

Lemma gaps_spec interval times :
  0 < interval -> Sorted Z.le times ->
  exists r, gaps interval times = Ok r /\
    (forall t, t ∈ r.1 <-> exists l a b l', times = l ++ a :: b :: l' /\ between interval a b t) /\
    (Sorted Z.lt times -> (r.1 = [] /\ r.2 = [] <-> consecutive interval times)).
Proof.
  intros Hi. induction times as [|a times IH]; intros Hs.
  { exists ([], []). split; [done|]. split; [|done]. intros t. split; [intros []%elem_of_nil|].
    intros (l & ? & ? & ? & E & _). by destruct l. }
  destruct times as [|b times].
  { exists ([], []). split; [done|]. split; [|done]. intros t. split; [intros []%elem_of_nil|].
    intros (l & ? & ? & ? & E & _). by destruct l as [|? [|]]. }
  inversion Hs as [|? ? Hs' Hhd]; subst. destruct (IH Hs') as (rs & Ers & Hm & Hc).
  destruct (pair_gap_spec interval a b Hi) as (r & Er & Hp & Hq).
  exists (r.1 ++ rs.1, r.2 ++ rs.2). split.
  { change (gaps interval (a :: b :: times)) with
      (r ← pair_gap interval a b; rs ← gaps interval (b :: times); Ok (r.1 ++ rs.1, r.2 ++ rs.2)).
    by rewrite Er, Ers. }
  cbn [fst snd]. split.
  - intros t. rewrite elem_of_app, Hp, Hm. split.
    + intros [H|(l & x & y & l' & E & H)]; [by exists [], a, b, times|].
      exists (a :: l), x, y, l'. split; [|done]. simpl. by rewrite <- E.
    + intros ([|z l] & x & y & l' & E & H); [injection E as -> -> ->; by left|].
      right. injection E as -> E. by exists l, x, y, l'.
  - intros Hlt. inversion Hlt as [|? ? Hlt' Hlhd]; subst. inversion Hlhd; subst.
    specialize (Hc Hlt'). specialize (Hq ltac:(done)). cbn [consecutive]. rewrite <- Hc, <- Hq.
    split.
    + intros [E1 E2]. apply app_eq_nil in E1 as [-> ->], E2 as [-> ->]. done.
    + intros [[-> ->] [-> ->]]. done.
Qed.

Lemma monotonic_Sorted bars :
  monotonic bars = true <-> Sorted Z.lt (kb_open_time_ms <$> bars).
Proof.
  induction bars as [|a bars IH]; [split; [constructor|done]|].
  destruct bars as [|b bars]; [split; [repeat constructor|done]|].
  cbn [monotonic]. destruct (kb_open_time_ms b <=? kb_open_time_ms a) eqn:E.
  - split; [done|]. intros H. inversion H as [|? ? _ Hhd]; subst. inversion Hhd; subst. lia.
  - rewrite IH. split.
    + intros H. constructor; [exact H|]. constructor. lia.
    + intros H. by inversion H.
Qed.

Lemma sort_sorted bars :
  Sorted Z.lt (kb_open_time_ms <$> bars) ->
  sort_by (fun a b => kb_open_time_ms a <=? kb_open_time_ms b) bars = bars.
Proof.
  induction bars as [|a bars IH]; [done|]. csimpl. intros H. inversion H as [|? ? H1 Hhd]; subst.
  rewrite (IH H1). destruct bars as [|b bars]; [done|]. simpl. inversion Hhd; subst.
  by rewrite (proj2 (Z.leb_le _ _)) by lia.
Qed.

Lemma sorted_times_Sorted bars : Sorted Z.le (sorted_times bars).
Proof.
  unfold sorted_times. assert (H : Sorted (fun a b => (kb_open_time_ms a <=? kb_open_time_ms b) = true)
    (sort_by (fun a b => kb_open_time_ms a <=? kb_open_time_ms b) bars)) by (apply sort_by_Sorted; lia).
  induction H as [|x l _ IH Hhd]; [constructor|]. csimpl. constructor; [done|].
  destruct Hhd; csimpl; constructor. lia.
Qed.

(** In a sorted list, two adjacent elements enclose [t] as soon as any two do
    and [t] is not in the list. *)
Lemma enclosed times t :
  Sorted Z.le times -> t ∉ times ->
  (exists l a b l', times = l ++ a :: b :: l' /\ a < t < b) <->
  (exists a b, a ∈ times /\ b ∈ times /\ a < t < b).
Proof.
  intros Hs Ht. split.
  { intros (l & a & b & l' & -> & H). exists a, b. set_solver. }
  apply Sorted_StronglySorted in Hs; [|intros x y z; lia].
  induction Hs as [|x l Hs IH Hx]; intros (a & b & Ha & Hb & H); [by apply elem_of_nil in Ha|].
  assert (Hxt : x < t).
  { apply elem_of_cons in Ha as [->|Ha]; [lia|]. rewrite Forall_forall in Hx. specialize (Hx a Ha). lia. }
  destruct l as [|y l]; [apply list_elem_of_singleton in Hb; lia|].
  destruct (decide (t < y)); [by exists [], x, y, l|].
  destruct IH as (l1 & a1 & b1 & l2 & E & H1); [set_solver| |by exists (x :: l1), a1, b1, l2; rewrite E].
  exists y, b. split; [left|]. split; [|assert (t <> y) by set_solver; lia].
  apply elem_of_cons in Hb as [->|Hb]; [lia|done].
Qed.

Lemma mod_diff interval t0 a t :
  0 < interval -> (a - t0) mod interval = 0 -> ((t - a) mod interval = 0 <-> (t - t0) mod interval = 0).
Proof.
  intros Hi Ha. apply Z.mod_divide in Ha as [k Hk]; [|lia].
  replace (t - a) with (t - t0 - k * interval) by lia. by rewrite mod_shift.
Qed.

(** A bar whose four prices and volume make sense. *)
Definition sound_bar (bar : KlineBar) : Prop :=
  fltb (kb_high bar) (fmax (kb_open bar) (kb_close bar)) = false /\
  fltb (fmin (kb_open bar) (kb_close bar)) (kb_low bar) = false /\
  fltb (kb_high bar) (kb_low bar) = false /\ fltb (kb_volume bar) fzero = false.

Lemma bar_errors_nil bar : bar_errors bar = [] <-> sound_bar bar.
Proof.
  unfold bar_errors, sound_bar. destruct (fltb (kb_high bar) (fmax _ _)), (fltb (fmin _ _) _),
    (fltb (kb_high bar) (kb_low bar)), (fltb (kb_volume bar) fzero); simpl; split; try done; by intros (? & ? & ? & ?).
Qed.

Lemma flat_map_nil {A B} (f : A -> list B) l : flat_map f l = [] <-> Forall (fun x => f x = []) l.
Proof.
  induction l as [|x l IH]; [split; [constructor|done]|]. simpl. rewrite Forall_cons, <- IH. split.
  - by intros [-> ->]%app_eq_nil.
  - by intros [-> ->].
Qed.

(** The empty series is no special case. *)
Lemma validate_eq interval bars :
  validate interval bars =
    (r ← gaps interval (sorted_times bars);
     let errors := (if monotonic bars then []
                    else ["Kline open times must be strictly monotonic increasing"%string]) ++
                   flat_map bar_errors bars ++ r.2 in
     Ok {| kv_is_valid := match errors, r.1 with [], [] => true | _, _ => false end;
           kv_missing_open_times := r.1; kv_errors := errors |}).
Proof. by destruct bars. Qed.

(** The kline report is exact, for a positive interval. The validator
    returns; it calls a series valid exactly when its bars follow each other at
    one interval and each is sound; and when the open times lie on one grid,
    the open times it reports missing are exactly the grid points between the
    first and the last bar that have no bar. *)
Theorem kline_report_exact interval bars :
  0 < interval ->
  exists r, validate interval bars = Ok r /\
    (kv_is_valid r = true <->
       consecutive interval (kb_open_time_ms <$> bars) /\ Forall sound_bar bars) /\
    forall t0, Forall (fun b => (kb_open_time_ms b - t0) mod interval = 0) bars ->
    forall t, t ∈ kv_missing_open_times r <->
      (exists a b, a ∈ kb_open_time_ms <$> bars /\ b ∈ kb_open_time_ms <$> bars /\ a < t < b) /\
      (t - t0) mod interval = 0 /\ t ∉ kb_open_time_ms <$> bars.
Proof.
  intros Hi.
  assert (Hperm : sorted_times bars ≡ₚ kb_open_time_ms <$> bars).
  { unfold sorted_times. by rewrite sort_by_perm. }
  pose proof (sorted_times_Sorted bars) as Hsort.
  destruct (gaps_spec interval (sorted_times bars) Hi Hsort) as (r & Er & Hm & Hc).
  rewrite validate_eq, Er. eexists. split; [reflexivity|].
  cbn [kv_is_valid kv_missing_open_times]. split.
  - assert (Hmono : monotonic bars = true -> sorted_times bars = kb_open_time_ms <$> bars).
    { intros H%monotonic_Sorted. unfold sorted_times. by rewrite sort_sorted. }
    rewrite <- (Forall_iff _ _ _ bar_errors_nil), <- flat_map_nil. destruct (monotonic bars) eqn:Em; simpl.
    + rewrite Hmono in Hc by done. apply monotonic_Sorted in Em. rewrite <- (Hc Em).
      destruct (flat_map bar_errors bars); simpl; [|by split; [|intros [_ ?]]].
      destruct r as [[|] [|]]; simpl; naive_solver.
    + split; [done|]. intros [H _]. exfalso. rewrite <- not_true_iff_false in Em. apply Em.
      apply monotonic_Sorted. clear -H Hi. induction (kb_open_time_ms <$> bars) as [|a l IH]; [constructor|].
      destruct l as [|b l]; [repeat constructor|]. destruct H as [-> H]. constructor; [by apply IH|].
      constructor. lia.
  - intros t0 Hgrid t. rewrite Hm. setoid_rewrite <- Hperm. clear Hc Er.
    assert (Hg : forall x, x ∈ sorted_times bars -> (x - t0) mod interval = 0).
    { intros x Hx. rewrite Hperm in Hx. apply list_elem_of_fmap in Hx as (b & -> & Hb).
      rewrite Forall_forall in Hgrid. by apply Hgrid. }
    split.
    + intros (l & a & b & l' & E & Hb). assert (Ha : a ∈ sorted_times bars) by (rewrite E; set_solver).
      assert (Hb' : b ∈ sorted_times bars) by (rewrite E; set_solver). destruct Hb as [Hb Hmod].
      split; [by exists a, b|]. split; [apply (mod_diff interval t0 a t Hi (Hg a Ha)); done|].
      rewrite E in Hsort |- *. apply Sorted_StronglySorted in Hsort; [|intros x y z; lia].
      apply StronglySorted_app in Hsort as (H1 & _ & H2). inversion H2 as [|? ? H3 H4]; subst.
      inversion H3; subst. intros [Ht|[->|[->|Ht]%elem_of_cons]%elem_of_cons]%elem_of_app; [|lia|lia|].
      * specialize (H1 t a Ht ltac:(left)). lia.
      * rewrite Forall_forall in *. match goal with H : forall x, x ∈ l' -> b <= x |- _ => specialize (H t Ht) end. lia.
    + intros (He & Hmod & Ht). apply enclosed in He as (l & a & b & l' & E & Hb); [|done|done].
      exists l, a, b, l'. split; [done|]. split; [done|]. apply (mod_diff interval t0 a); [done|apply Hg|done].
      rewrite E. set_solver.
Qed.

(** ** A concrete series *)

Module Example.
Definition bar (t : Z) : KlineBar :=
  {| kb_open_time_ms := t; kb_open := flit 100 0; kb_high := flit 110 0; kb_low := flit 90 0;
     kb_close := flit 105 0; kb_volume := flit 1 0 |}.
(** The bars at 120 and 240 are missing. *)
Definition bars : list KlineBar := [bar 0; bar 60; bar 180; bar 300].
End Example.

Lemma kline_report_exact_witness :
  exists r, validate 60 Example.bars = Ok r /\ kv_is_valid r = false /\
    kv_missing_open_times r = [120; 240] /\ 120 ∈ kv_missing_open_times r.
Proof.
  destruct (kline_report_exact 60 Example.bars eq_refl) as (r & E & _ & Hm).
  exists r. split; [exact E|]. assert (Hr : r = {| kv_is_valid := false; kv_missing_open_times := [120; 240];
    kv_errors := [] |}) by (vm_compute in E; injection E as <-; reflexivity).
  split; [rewrite Hr; reflexivity|]. split; [rewrite Hr; reflexivity|]. apply (Hm 0).
  - repeat constructor.
  - split; [exists 60, 180; split; [right; left|]; split; [do 2 right; left|lia]|]. split; [reflexivity|].
    vm_compute. set_solver.
Defined.
