(* ===== verification/MarketPipeline.v ===== *)
(** * Market ingestion

    [services/market_ingestion/]: [contracts.py] ([parse_levels]),
    [exchange_adapter.py] (raw exchange payloads to snapshots and deltas),
    [canonical_pipeline.py] (deltas and kline reports to envelopes on the
    broker), [integration_harness.py] (replay of a fixture),
    [connection_resilience.py] (backoff). A client is
    what it returns for a symbol and a limit; the clients of the repository are
    in [ExchangeClients.v]. Sorting
    by price is modelled for prices that are numbers. *)

From S2P Require Import Prelude PyStr PyFloat PyTime PyUuid PyHash PyVal Envelope Broker Notification.
From S2P Require Import OrderBook Kline.
From stdpp Require Import options.
From Stdlib Require Import Ascii String SpecFloat.

#[local] Open Scope Z_scope.

(** ** Levels *)

(** [level[0]] and [level[1]], or nothing when [len(level) < 2]. *)
Definition level_pair (level : val) : result (option (val * val)) :=
  match level with
  | VList (p :: a :: _) => Ok (Some (p, a))
  | VList _ => Ok None
  | VStr (String p (String a _)) => Ok (Some (VStr (String p ""), VStr (String a "")))
  | VStr _ => Ok None
  | VDict (_ :: _ :: _) => raise KeyError "0"
  | VDict _ => Ok None
  | _ => raise TypeError "object has no len()"
  end.

Definition parse_level (allow_zero : bool) (level : val) : result (option OrderBookLevel) :=
  pa ← level_pair level;
  match pa with
  | None => Ok None
  | Some (p, a) =>
      price ← float_of_val p;
      amount ← float_of_val a;
      if fltb amount fzero then Ok None
      else if feqb amount fzero && negb allow_zero then Ok None
      else Ok (Some (Level price amount))
  end.

(** Best price first: bids descending, asks ascending, both stable. *)
Definition sort_levels (is_bid : bool) (levels : list OrderBookLevel) : list OrderBookLevel :=
  sort_by (fun x y => if is_bid then negb (fltb (lv_price x) (lv_price y))
                      else negb (fltb (lv_price y) (lv_price x))) levels.

Definition parse_levels (levels : list val) (side_ : string) (allow_zero : bool)
  : result (list OrderBookLevel) :=
  parsed ← map_res (parse_level allow_zero) levels;
  Ok (sort_levels (String.eqb side_ "bid") (omap id parsed)).

(** ** The adapter *)

Definition _parse_optional_int (value : val) : result (option Z) :=
  match value with
  | VNone => Ok None
  | _ => try_except (n ← int_of_val value; Ok (Some n))
           (fun c => match c with TypeError => true | _ => is_value_error c end)
           (fun _ => Ok None)
  end.

Definition _normalize_delta_source (value : string) : result string :=
  let normalized := lower (strip value) in
  if bool_decide (normalized ∈ ["websocket"; "ws"]%string) then Ok "websocket"%string
  else if bool_decide (normalized ∈ ["rest"; "restful"; "http"]%string) then Ok "rest"%string
  else raise AdapterConfigurationError "delta_source must be 'websocket' or 'rest'".

Definition _normalize_snapshot (exchange symbol : string) (raw : dict) : result OrderBookSnapshot :=
  match dget "bids" raw, dget "asks" raw with
  | VList bids, VList asks =>
      sequence ← _parse_optional_int (py_or (dget "nonce" raw) (dget "sequence" raw));
      timestamp_ms ← _parse_optional_int (dget "timestamp" raw);
      bs ← parse_levels bids "bid" false;
      as_ ← parse_levels asks "ask" false;
      Ok {| sn_exchange := exchange; sn_symbol := symbol; sn_sequence := sequence;
            sn_timestamp_ms := timestamp_ms; sn_bids := bs; sn_asks := as_ |}
  | _, _ => raise AdapterPayloadError "Snapshot payload must contain list bids and asks"
  end.

Definition _normalize_delta (exchange symbol : string) (raw : dict) : result OrderBookDelta :=
  match dget "bids" raw, dget "asks" raw with
  | VList bids, VList asks =>
      start ← _parse_optional_int (py_or (dget "U" raw) (dget "sequence_start" raw));
      end_ ← _parse_optional_int (py_or (dget "u" raw) (dget "sequence_end" raw));
      range ← match start, end_ with
              | None, None =>
                  nonce ← _parse_optional_int (py_or (dget "nonce" raw) (dget "sequence" raw));
                  Ok (nonce, nonce)
              | _, _ => Ok (start, end_)
              end;
      timestamp_ms ← _parse_optional_int (dget "timestamp" raw);
      bs ← parse_levels bids "bid" true;
      as_ ← parse_levels asks "ask" true;
      Ok {| de_exchange := exchange; de_symbol := symbol; de_sequence_start := range.1;
            de_sequence_end := range.2; de_timestamp_ms := timestamp_ms; de_bids := bs; de_asks := as_ |}
  | _, _ => raise AdapterPayloadError "Delta payload must contain list bids and asks"
  end.

(** The clients answer with a payload or raise. *)
Definition client := string -> Z -> result dict.
Record CCXTIngestionAdapter := {
  ad_exchange : string;
  ad_rest_client : client;
  ad_ws_client : client;
  ad_delta_source : string;
}.

Definition bootstrap_snapshot (ad : CCXTIngestionAdapter) (symbol : string) (limit : Z)
  : result OrderBookSnapshot :=
  raw ← ad_rest_client ad symbol limit;
  _normalize_snapshot (ad_exchange ad) symbol raw.

Definition poll_delta (ad : CCXTIngestionAdapter) (symbol : string) (limit : Z)
    (source_override : option string) : result OrderBookDelta :=
  source ← _normalize_delta_source (default (ad_delta_source ad) source_override);
  raw ← (if String.eqb source "rest" then ad_rest_client ad symbol limit
         else ad_ws_client ad symbol limit);
  _normalize_delta (ad_exchange ad) symbol raw.

(** ** The canonical pipeline *)

Definition lv_dict (level : OrderBookLevel) : val :=
  VDict [("price", VFloat (lv_price level)); ("amount", VFloat (lv_amount level))].

Definition normalize_order_book_delta (delta : OrderBookDelta) : dict :=
  [("exchange", VStr (de_exchange delta)); ("symbol", VStr (de_symbol delta));
   ("timestamp_ms", opt_int (de_timestamp_ms delta));
   ("sequence_start", opt_int (de_sequence_start delta));
   ("sequence_end", opt_int (de_sequence_end delta));
   ("bids", VList (lv_dict <$> de_bids delta)); ("asks", VList (lv_dict <$> de_asks delta))].

(** The clock reading and the two random UUIDs of one envelope. *)
Record draws := Draws { dw_now : Z; dw_trace : Z; dw_decision : Z }.

Definition canonical_envelope (service_name : string) (dw : draws) (event_type mode : string)
    (payload : dict) (idempotency_key : string) : dict :=
  [("trace_id", VStr (uuid_str (dw_trace dw))); ("decision_id", VStr (uuid_str (dw_decision dw)));
   ("mode", VStr mode); ("idempotency_key", VStr idempotency_key); ("event_type", VStr event_type);
   ("emitted_at", VStr (iso_z (dw_now dw))); ("payload", VDict payload); ("service", VStr service_name)].

Definition _build_envelope (service_name : string) (dw : draws) (event_type mode : string)
    (payload : dict) (idempotency_key : string) : result dict :=
  let envelope := canonical_envelope service_name dw event_type mode payload idempotency_key in
  _ ← validate_envelope (VDict envelope);
  Ok envelope.

Definition or_na (n : option Z) : string := match n with Some k => str_of_Z k | None => "na" end.

Definition delta_key (delta : OrderBookDelta) : string :=
  "market.canonical.orderbook_delta:" +:+ de_exchange delta +:+ ":" +:+ de_symbol delta +:+ ":" +:+
  or_na (de_sequence_end delta).

Definition delta_envelope (service_name : string) (dw : draws) (delta : OrderBookDelta) (mode : string)
  : result dict :=
  _build_envelope service_name dw "market.canonical.orderbook_delta" mode
    (normalize_order_book_delta delta) (delta_key delta).

Definition publish_order_book_delta (service_name : string) (dw : draws) (delta : OrderBookDelta)
    (mode : string) : prog InMemoryTopicBroker dict :=
  envelope ← lift (delta_envelope service_name dw delta mode);
  _ ← broker_publish "market.canonical" envelope;
  mret envelope.

Definition publish_kline_validation (service_name : string) (dw : draws) (exchange symbol : string)
    (interval_ms : Z) (bars : list KlineBar) (mode : string) : prog InMemoryTopicBroker dict :=
  validation ← lift (validate interval_ms bars);
  let payload :=
    [("exchange", VStr exchange); ("symbol", VStr symbol); ("interval_ms", VInt interval_ms);
     ("bar_count", VInt (Z.of_nat (List.length bars)));
     ("validation", VDict
        [("is_valid", VBool (kv_is_valid validation));
         ("missing_open_times", VList (VInt <$> kv_missing_open_times validation));
         ("errors", VList (VStr <$> kv_errors validation))])] in
  let first_open := or_na (kb_open_time_ms <$> head bars) in
  let last_open := or_na (kb_open_time_ms <$> last bars) in
  envelope ← lift (_build_envelope service_name dw "market.canonical.kline_validation" mode payload
    ("market.canonical.kline_validation:" +:+ exchange +:+ ":" +:+ symbol +:+ ":" +:+ first_open +:+
     ":" +:+ last_open));
  _ ← broker_publish "market.canonical" envelope;
  mret envelope.

(** ** The replay harness

    [json.dumps(..., sort_keys=True)] is an argument: the digest is taken of
    its text. *)
Definition digest_part (envelope : dict) : dict :=
  [("routing_key", VStr "market.canonical"); ("event_type", dget "event_type" envelope);
   ("mode", dget "mode" envelope); ("idempotency_key", dget "idempotency_key" envelope);
   ("payload", dget "payload" envelope)].

Definition _stable_digest (dumps : list dict -> string) (messages : list dict) : string :=
  sha256_hex (dumps (digest_part <$> messages)).

(** The capturing publisher keeps the envelopes in order; [dw i] are the draws
    for the [i]-th delta. *)
Fixpoint replay_from (i : nat) (dw : nat -> draws) (fixture : list OrderBookDelta) (mode : string)
  : result (list dict) :=
  match fixture with
  | [] => Ok []
  | delta :: rest =>
      envelope ← delta_envelope "market_ingestion" (dw i) delta mode;
      messages ← replay_from (S i) dw rest mode;
      Ok (envelope :: messages)
  end.

Definition replay_orderbook_fixture (dumps : list dict -> string) (dw : nat -> draws)
    (fixture : list OrderBookDelta) (mode : string) : result (list dict * string) :=
  messages ← replay_from 0 dw fixture mode;
  Ok (messages, _stable_digest dumps messages).

Definition verify_deterministic_orderbook_replay (dumps : list dict -> string)
    (dw1 dw2 : nat -> draws) (fixture : list OrderBookDelta) (mode : string) : result bool :=
  first ← replay_orderbook_fixture dumps dw1 fixture mode;
  second ← replay_orderbook_fixture dumps dw2 fixture mode;
  Ok (String.eqb first.2 second.2).

(** ** Connection resilience *)

Record BackoffConfig := {
  bc_base_delay_seconds : f64;
  bc_max_delay_seconds : f64;
  bc_backoff_multiplier : f64;
  bc_jitter_ratio : f64;
  bc_stale_after_seconds : f64;
}.

Record ConnectionResilienceManager := {
  cm_config : BackoffConfig;
  cm_last_heartbeat_seconds : option f64;
  cm_disconnect_attempts : Z;
}.

Definition mark_heartbeat (now_seconds : f64) (m : ConnectionResilienceManager) :=
  {| cm_config := cm_config m; cm_last_heartbeat_seconds := Some now_seconds;
     cm_disconnect_attempts := cm_disconnect_attempts m |}.

Definition is_stale (now_seconds : f64) (m : ConnectionResilienceManager) : bool :=
  match cm_last_heartbeat_seconds m with
  | None => true
  | Some last => fltb (bc_stale_after_seconds (cm_config m)) (fsub now_seconds last)
  end.

Definition ftwo : f64 := flit 2 0.

(** [py_pow] is C's [pow]; [random] the draw of [random_fn]. *)
Definition next_backoff_seconds (py_pow : f64 -> Z -> result f64) (random : f64) (attempt : Z)
    (m : ConnectionResilienceManager) : result f64 :=
  let c := cm_config m in
  raw ← (if attempt <=? 1 then Ok (bc_base_delay_seconds c)
         else p ← py_pow (bc_backoff_multiplier c) (attempt - 1);
              Ok (fmul (bc_base_delay_seconds c) p));
  let capped := fmin raw (bc_max_delay_seconds c) in
  let jitter_window := fmul capped (bc_jitter_ratio c) in
  let jitter_offset := fmul (fsub (fmul random ftwo) fone) jitter_window in
  Ok (fmax fzero (fmin (bc_max_delay_seconds c) (fadd capped jitter_offset))).

Definition record_disconnect (py_pow : f64 -> Z -> result f64) (random : f64)
    (m : ConnectionResilienceManager) : ConnectionResilienceManager * result f64 :=
  let m' := {| cm_config := cm_config m; cm_last_heartbeat_seconds := cm_last_heartbeat_seconds m;
               cm_disconnect_attempts := cm_disconnect_attempts m + 1 |} in
  (m', next_backoff_seconds py_pow random (cm_disconnect_attempts m') m').

Definition record_reconnect_success (now_seconds : f64) (m : ConnectionResilienceManager) :=
  mark_heartbeat now_seconds
    {| cm_config := cm_config m; cm_last_heartbeat_seconds := cm_last_heartbeat_seconds m;
       cm_disconnect_attempts := 0 |}.

(** ** What the adapter hands over *)

(** How one entry is read, apart from the code: a list, or a text, of at least
    two items is a price and an amount. *)
Inductive entry : val -> val -> val -> Prop :=
  | entry_list p a rest : entry (VList (p :: a :: rest)) p a
  | entry_text c1 c2 rest : entry (VStr (String c1 (String c2 rest))) (VStr (String c1 "")) (VStr (String c2 "")).

(** An entry is a level with the price and the amount that [float] makes of its
    items, unless the amount is below zero, or zero where zero is not allowed; an
    entry with fewer items is skipped. *)
Inductive reads (allow_zero : bool) : val -> option OrderBookLevel -> Prop :=
  | reads_level v p a price amount :
      entry v p a -> float_of_val p = Ok price -> float_of_val a = Ok amount ->
      fltb amount fzero = false -> (feqb amount fzero = true -> allow_zero = true) ->
      reads allow_zero v (Some (Level price amount))
  | reads_unwanted v p a price amount :
      entry v p a -> float_of_val p = Ok price -> float_of_val a = Ok amount ->
      fltb amount fzero = true \/ (feqb amount fzero = true /\ allow_zero = false) -> reads allow_zero v None
  | reads_short v : (forall p a, ~ entry v p a) -> reads allow_zero v None.

(** What is in the entries are numbers: [float] does not make a nan of them. *)
Definition numeric (v : val) : Prop :=
  forall p a, entry v p a ->
    (forall x, float_of_val p = Ok x -> is_nan x = false) /\ (forall x, float_of_val a = Ok x -> is_nan x = false).

(** A level of numbers, with an amount that is not negative, and not zero unless
    zero means removal. *)
Definition sound_level (allow_zero : bool) (l : OrderBookLevel) : Prop :=
  is_nan (lv_price l) = false /\
  (if allow_zero then fleb fzero (lv_amount l) = true else fltb fzero (lv_amount l) = true).

Definition best_first (is_bid : bool) (x y : OrderBookLevel) : Prop :=
  if is_bid then fleb (lv_price y) (lv_price x) = true else fleb (lv_price x) (lv_price y) = true.

Lemma sort_levels_perm is_bid ls : sort_levels is_bid ls ≡ₚ ls.
Proof. apply sort_by_perm. Qed.

Lemma sort_levels_sorted is_bid ls :
  Forall (fun l => is_nan (lv_price l) = false) ls -> Sorted (best_first is_bid) (sort_levels is_bid ls).
Proof.
  intros Hn. set (le := fun x y => if is_bid then negb (fltb (lv_price x) (lv_price y))
                               else negb (fltb (lv_price y) (lv_price x))).
  assert (Hs : Sorted (fun a b => le a b = true) (sort_levels is_bid ls)).
  { apply sort_by_Sorted. intros a b. unfold le. destruct is_bid; rewrite !negb_true_iff, negb_false_iff;
      intros H; float_order. }
  assert (Hn' : Forall (fun l => is_nan (lv_price l) = false) (sort_levels is_bid ls))
    by (by rewrite sort_levels_perm).
  induction Hs as [|x l Hs IH Hhd]; [constructor|]. apply Forall_cons in Hn' as [Hx Hl].
  constructor; [by apply IH|]. destruct Hhd as [|y l Hxy]; constructor. apply Forall_cons in Hl as [Hy _].
  unfold le in Hxy. unfold best_first. destruct is_bid; apply negb_true_iff in Hxy; by apply not_fltb_fleb.
Qed.

Lemma level_pair_entry v pa :
  level_pair v = Ok pa ->
  match pa with Some (p, a) => entry v p a | None => forall p a, ~ entry v p a end.
Proof.
  destruct v as [| | | | |[|c1 [|c2 t]]|[|x [|y l]]|[|x [|y d]]]; cbn; try done; intros [= <-]; try constructor; intros p a H; inversion H.
Qed.

Lemma parse_level_reads allow_zero v l : parse_level allow_zero v = Ok l -> reads allow_zero v l.
Proof.
  unfold parse_level. intros H. apply bind_Ok in H as (pa & E%level_pair_entry & H).
  destruct pa as [[p a]|]; [|injection H as <-; by apply reads_short].
  apply bind_Ok in H as (price & Hp & H). apply bind_Ok in H as (amount & Ha & H).
  destruct (fltb amount fzero) eqn:E1; [injection H as <-; by eapply reads_unwanted; try done; left|].
  destruct (feqb amount fzero && negb allow_zero) eqn:E2; injection H as <-.
  - apply andb_true_iff in E2 as [E2 E3]. eapply reads_unwanted; try done. right. split; [done|by destruct allow_zero].
  - eapply reads_level; try done. intros Hz. rewrite Hz in E2. by destruct allow_zero.
Qed.

Definition reads_nan (v : val) : bool := match float_of_val v with Ok x => is_nan x | Raise _ => false end.

Lemma list_numeric l :
  match l with p :: a :: _ => reads_nan p || reads_nan a | _ => false end = false -> numeric (VList l).
Proof.
  intros H p a He. inversion He; subst. apply orb_false_iff in H as [H1 H2]. unfold reads_nan in *.
  split; intros x Hx; [by rewrite Hx in H1|by rewrite Hx in H2].
Qed.

Lemma reads_sound allow_zero v l : reads allow_zero v (Some l) -> numeric v -> sound_level allow_zero l.
Proof.
  intros H Hn. inversion H as [v' p a price amount He Hp Ha Hneg Hz| |]; subst. destruct (Hn p a He) as [Np Na].
  specialize (Np _ Hp). specialize (Na _ Ha). split; [done|]. cbn [lv_amount lv_price].
  destruct allow_zero; [by apply not_fltb_fleb|]. destruct (feqb amount fzero) eqn:E; [by specialize (Hz eq_refl)|].
  clear -Hneg E Na. by destruct amount as [[]|[]| |[] m e].
Qed.

(** C21. Parsed levels are well typed and nothing is lost: when [parse_levels]
    returns, its levels are, in some order, exactly those the entries read as,
    with the floats of their first two items; entries with fewer items and
    amounts below zero (and zero, in a snapshot) are left out. When what the
    entries hold are numbers, so are all prices, every amount is at least zero, and
    above zero in a snapshot, and the levels are sorted with the best price first. A
    nan is not filtered out ([nan_level_passes]). *)
Theorem parse_levels_typed levels side_ allow_zero out :
  parse_levels levels side_ allow_zero = Ok out ->
  (exists parsed, Forall2 (reads allow_zero) levels parsed /\ out ≡ₚ omap id parsed) /\
  (Forall numeric levels ->
     Forall (sound_level allow_zero) out /\ Sorted (best_first (String.eqb side_ "bid")) out).
Proof.
  intros H. unfold parse_levels in H. apply bind_Ok in H as (parsed & Hp & [= <-]).
  apply map_res_Forall2 in Hp. split.
  - exists parsed. split; [|apply sort_levels_perm]. by eapply Forall2_impl; [done|apply parse_level_reads].
  - intros Hn. assert (Forall (sound_level allow_zero) (omap id parsed)) as Hs.
    { induction Hp as [|v o vs os Ho _ IH]; [constructor|]. apply Forall_cons in Hn as [Hv Hn].
      destruct o as [l|]; simpl; [|by apply IH]. constructor; [|by apply IH]. by eapply reads_sound; [apply parse_level_reads|]. }
    split; [by rewrite sort_levels_perm|]. apply sort_levels_sorted. eapply Forall_impl; [done|]. by intros l [].
Qed.

(** ** Replays *)

Lemma canonical_wf service dw et mode payload key :
  in_range (dw_now dw) = true -> mode ∈ ALLOWED_MODES -> strip et <> ""%string -> strip key <> ""%string ->
  well_formed (canonical_envelope service dw et mode payload key).
Proof. intros Hn Hm He Hk. unfold canonical_envelope. wf_envelope. Qed.

Lemma delta_envelope_ok service dw delta mode :
  in_range (dw_now dw) = true -> mode ∈ ALLOWED_MODES ->
  delta_envelope service dw delta mode =
    Ok (canonical_envelope service dw "market.canonical.orderbook_delta" mode
          (normalize_order_book_delta delta) (delta_key delta)).
Proof.
  intros Hn Hm. unfold delta_envelope, _build_envelope. rewrite well_formed_validates; [done|].
  apply canonical_wf; auto with envelope.
Qed.

Lemma delta_envelope_bad_mode service dw delta mode :
  mode ∉ ALLOWED_MODES -> in_range (dw_now dw) = true ->
  is_ok (delta_envelope service dw delta mode) = false.
Proof.
  intros Hm _. destruct (delta_envelope service dw delta mode) as [e|] eqn:E; [|done].
  unfold delta_envelope, _build_envelope in E. apply bind_Ok in E as (u & Hv & _).
  apply validates_well_formed in Hv as [_ _ (s & Hs & Hin) _ _ _ _]. unfold canonical_envelope in Hs.
  simpl in Hs. injection Hs as <-. done.
Qed.

Lemma replay_digests i dw fixture mode :
  (forall k, in_range (dw_now (dw k)) = true) -> mode ∈ ALLOWED_MODES ->
  exists messages, replay_from i dw fixture mode = Ok messages /\
    digest_part <$> messages =
      (fun delta => digest_part (canonical_envelope "" (Draws 0 0 0) "market.canonical.orderbook_delta" mode
                                   (normalize_order_book_delta delta) (delta_key delta))) <$> fixture.
Proof.
  intros Hc Hm. revert i. induction fixture as [|delta fixture IH]; intros i; [by exists []|].
  cbn [replay_from]. rewrite delta_envelope_ok by done. destruct (IH (S i)) as (ms & E & Hd).
  cbn [mbind result_bind]. rewrite E. eexists. split; [reflexivity|]. rewrite !fmap_cons, Hd. reflexivity.
Qed.

(** Replaying a fixture is deterministic: in a supported mode every replay
    succeeds, and two replays of the same deltas always give the same digest,
    whatever random ids and clock readings they draw; in any other mode a
    non-empty replay raises. *)
Theorem replay_deterministic dumps dw1 dw2 fixture mode :
  (forall k, in_range (dw_now (dw1 k)) = true) -> (forall k, in_range (dw_now (dw2 k)) = true) ->
  (mode ∈ ALLOWED_MODES ->
     verify_deterministic_orderbook_replay dumps dw1 dw2 fixture mode = Ok true) /\
  (mode ∉ ALLOWED_MODES -> fixture <> [] ->
     is_ok (verify_deterministic_orderbook_replay dumps dw1 dw2 fixture mode) = false).
Proof.
  intros H1 H2. unfold verify_deterministic_orderbook_replay, replay_orderbook_fixture. split.
  - intros Hm. destruct (replay_digests 0 dw1 fixture mode H1 Hm) as (m1 & E1 & D1).
    destruct (replay_digests 0 dw2 fixture mode H2 Hm) as (m2 & E2 & D2).
    rewrite E1, E2. cbn [mbind result_bind fst snd]. unfold _stable_digest. rewrite D1, D2.
    by rewrite String.eqb_refl.
  - intros Hm Hf. destruct fixture as [|delta fixture]; [done|]. cbn [replay_from].
    pose proof (delta_envelope_bad_mode "market_ingestion" (dw1 0%nat) delta mode Hm (H1 0%nat)) as Hb.
    by destruct (delta_envelope _ _ _ _).
Qed.

(** ** Backoff *)

(** The reconnect delay is always within bounds: whenever a backoff is
    computed, for any configuration whose maximum is a non-negative number and
    any random draw, even one that is not a number, it lies between zero and
    [max_delay_seconds]. *)
Theorem backoff_within_bounds py_pow random m m' delay :
  fleb fzero (bc_max_delay_seconds (cm_config m)) = true ->
  record_disconnect py_pow random m = (m', Ok delay) ->
  cm_disconnect_attempts m' = cm_disconnect_attempts m + 1 /\
  fleb fzero delay = true /\ fleb delay (bc_max_delay_seconds (cm_config m)) = true.
Proof.
  intros Hmax H. injection H as <- H. simpl in *. split; [done|].
  apply bind_Ok in H as (raw & _ & [= <-]). simpl.
  set (x := fmin (bc_max_delay_seconds (cm_config m)) _).
  assert (Hx : fleb x (bc_max_delay_seconds (cm_config m)) = true).
  { apply fmin_ub. by apply fleb_not_nan in Hmax as [_ ?]. }
  split; [by apply fmax_lb|by apply fmax_ub].
Qed.

(** ** Concrete inputs *)

Module Example.
Definition raw_levels : list val :=
  [VList [VInt 100; VStr "1.5"]; VList [VInt 101]; VList [VStr "102"; VInt 2; VInt 9]; VList [VInt 99; VInt 0]].
Definition levels : list OrderBookLevel := [Level (flit 102 0) (flit 2 0); Level (flit 100 0) (flit 15 (-1))].
Definition delta : OrderBookDelta :=
  {| de_exchange := "binance"; de_symbol := "BTC/USDT"; de_sequence_start := Some 1;
     de_sequence_end := Some 2; de_timestamp_ms := None; de_bids := levels; de_asks := [] |}.
Definition dw (seed : Z) (k : nat) : draws := Draws 63850000000000000 (seed + Z.of_nat k) (2 * seed).
Definition manager : ConnectionResilienceManager :=
  {| cm_config := {| bc_base_delay_seconds := fone; bc_max_delay_seconds := flit 30 0;
                     bc_backoff_multiplier := flit 2 0; bc_jitter_ratio := flit 2 (-1);
                     bc_stale_after_seconds := flit 15 0 |};
     cm_last_heartbeat_seconds := None; cm_disconnect_attempts := 7 |}.
Definition power (x : f64) (n : Z) : result f64 := Ok (Z.iter n (fmul x) fone).
End Example.

Lemma parse_levels_typed_witness :
  parse_levels Example.raw_levels "bid" false = Ok Example.levels /\
  Forall (sound_level false) Example.levels /\ Sorted (best_first true) Example.levels.
Proof.
  assert (E : parse_levels Example.raw_levels "bid" false = Ok Example.levels) by (vm_compute; reflexivity).
  split; [exact E|]. apply (parse_levels_typed _ _ _ _ E).
  repeat (constructor; [apply list_numeric; vm_compute; reflexivity|]). constructor.
Defined.

(** A nan as price or amount is taken for a level, in a snapshot too. *)
Example nan_level_passes :
  parse_levels [VList [VStr "nan"; VStr "nan"]] "bid" false = Ok [Level S754_nan S754_nan].
Proof. vm_compute. reflexivity. Qed.

Lemma replay_deterministic_witness :
  verify_deterministic_orderbook_replay (fun _ => "text"%string) (Example.dw 5) (Example.dw 77)
    [Example.delta; Example.delta] "MOCK" = Ok true.
Proof.
  apply replay_deterministic.
  - intros k. reflexivity.
  - intros k. reflexivity.
  - unfold ALLOWED_MODES. set_solver.
Defined.

Lemma backoff_within_bounds_witness :
  exists m' delay, record_disconnect Example.power S754_nan Example.manager = (m', Ok delay) /\
    fleb delay (flit 30 0) = true.
Proof.
  eexists _, _. split; [reflexivity|].
  apply (backoff_within_bounds Example.power S754_nan Example.manager
           (record_disconnect Example.power S754_nan Example.manager).1); vm_compute; reflexivity.
Defined.
