(* ===== verification/MarketStore.v ===== *)
(** * Market data in the database

    [services/market_ingestion/sqlalchemy_store.py] (the timeseries tables),
    [SQLAlchemyRuntimeMarketStore] of [services/workers/runtime_persistence.py]
    (what the market worker writes to them),
    [services/market_ingestion/persistence_writers.py] and
    [services/market_ingestion/pipeline_metrics.py]. The tables are those of the
    migration [20260214_0002_timeseries_schema]: every column is NOT NULL, the
    keys are (time, exchange, symbol) and (time, exchange, symbol, interval).
    Clock readings are arguments. *)

From S2P Require Import Prelude PyStr PyFloat PyDecimal PyTime PyVal PyJson SqlTable.
From S2P Require Import OrderBook Kline.
From stdpp Require Import options.
From Stdlib Require Import Ascii String SpecFloat.

#[local] Open Scope Z_scope.

(** ** Times *)

(** [round(x)] to an integer, ties to even. *)
Definition round_half_even (x : f64) : Z :=
  match x with
  | S754_finite s m e =>
      let a := if 0 <=? e then Zpos m * 2 ^ e
               else let d := 2 ^ (- e) in
                    let q := Zpos m / d in
                    let r := 2 * (Zpos m mod d) in
                    if (r <? d) || ((r =? d) && Z.even q) then q else q + 1 in
      if s then - a else a
  | _ => 0
  end.

(** Microseconds from the start of the calendar to 1970. *)
Definition EPOCH_US : Z := 719162 * US_DAY.

(** [datetime.fromtimestamp(t, tz=timezone.utc)]: whole seconds, and the fraction
    in microseconds. *)
Definition fromtimestamp (t : f64) : result Z :=
  secs ← trunc_float t;
  whole ← py_float_of_int secs;
  let us := EPOCH_US + secs * US_SECOND + round_half_even (fmul (fsub t whole) (flit 1000000 0)) in
  if in_range us then Ok us else raise ValueError "year is out of range".

(** [datetime.fromtimestamp(timestamp_ms / 1000.0, ...).isoformat()] with [Z] *)
Definition iso_of_ms (timestamp_ms : Z) : result string :=
  ms ← py_float_of_int timestamp_ms;
  us ← fromtimestamp (fdiv ms (flit 1000 0));
  Ok (iso_z us).

Definition is_conversion_error (c : exc_class) : bool :=
  match c with TypeError | ValueError => true | _ => false end.

Definition _as_iso (value : val) : result (option string) :=
  let of_int := timestamp_ms ← try_except (Some <$> int_of_val value) is_conversion_error (fun _ => Ok None);
                match timestamp_ms with None => Ok None | Some n => Some <$> iso_of_ms n end in
  match value with
  | VNone => Ok None
  | VStr s => if is_empty (strip s) then of_int else Ok (Some s)
  | _ => of_int
  end.

Definition _to_float (value : val) (dflt : f64) : result f64 :=
  try_except (float_of_val value) is_conversion_error (fun _ => Ok dflt).

Definition _to_int (value : val) : result (option Z) :=
  match value with
  | VNone => Ok None
  | _ => try_except (Some <$> int_of_val value) is_conversion_error (fun _ => Ok None)
  end.

(** ** The timeseries tables *)

Record book_row := {
  bk_snapshot_time : string; bk_exchange : string; bk_symbol : string; bk_bids : string; bk_asks : string;
  bk_best_bid : f64; bk_best_ask : f64; bk_spread_bps : f64 }.

Record kline_row := {
  kr_time : string; kr_exchange : string; kr_symbol : string; kr_interval : string; kr_open : f64;
  kr_high : f64; kr_low : f64; kr_close : f64; kr_volume : f64; kr_quote_volume : f64; kr_trades : Z }.

Record timeseries := { ts_books : list book_row; ts_klines : list kline_row }.

Definition set_books t s := {| ts_books := t; ts_klines := ts_klines s |}.
Definition set_klines t s := {| ts_books := ts_books s; ts_klines := t |}.

Definition book_key (r : book_row) : string * string * string := (bk_snapshot_time r, bk_exchange r, bk_symbol r).
Definition kline_key (r : kline_row) : string * string * string * string :=
  (kr_time r, kr_exchange r, kr_symbol r, kr_interval r).

Definition put_book (row : book_row) (s : timeseries) : timeseries :=
  set_books (upsert_row (fun r => bool_decide (book_key r = book_key row)) (fun _ => row) row (ts_books s)) s.
Definition put_kline (row : kline_row) (s : timeseries) : timeseries :=
  set_klines (upsert_row (fun r => bool_decide (kline_key r = kline_key row)) (fun _ => row) row (ts_klines s)) s.

(** [row[key]] *)
Definition row_item (k : string) (row : dict) : result val :=
  match dict_get k row with Some v => Ok v | None => raise KeyError k end.

Definition book_values (now : string) (row : dict) : result book_row :=
  snapshot_time ← _as_iso (dget "snapshot_time" row);
  best_bid ← _to_float (dget "best_bid" row) fzero;
  best_ask ← _to_float (dget "best_ask" row) fzero;
  spread_bps ← _to_float (dget "spread_bps" row) fzero;
  exchange ← row_item "exchange" row;
  symbol ← row_item "symbol" row;
  bids ← json_dumps json_plain (dget_or "bids" (VList []) row);
  asks ← json_dumps json_plain (dget_or "asks" (VList []) row);
  best_bid ← not_null "orderbook_snapshots.best_bid" best_bid;
  best_ask ← not_null "orderbook_snapshots.best_ask" best_ask;
  spread_bps ← not_null "orderbook_snapshots.spread_bps" spread_bps;
  Ok {| bk_snapshot_time := default now snapshot_time; bk_exchange := py_str exchange; bk_symbol := py_str symbol;
        bk_bids := bids; bk_asks := asks; bk_best_bid := best_bid; bk_best_ask := best_ask;
        bk_spread_bps := spread_bps |}.

Definition upsert_orderbook_snapshot (now : string) (row : dict) : prog timeseries unit :=
  values ← lift (book_values now row);
  modify (put_book values).

Definition interval_of_ms (interval_ms : val) : result string :=
  match interval_ms with
  | VNone => Ok "1m"
  | _ =>
      ms_value ← int_of_val interval_ms;
      Ok (if ms_value =? 60000 then "1m" else if ms_value =? 300000 then "5m"
          else if ms_value =? 900000 then "15m" else if ms_value =? 3600000 then "1h"
          else str_of_Z ms_value +:+ "ms")
  end.

Definition _normalize_interval (row : dict) : result string :=
  match dget "interval" row with
  | VStr s => if is_empty (strip s) then interval_of_ms (dget "interval_ms" row) else Ok s
  | _ => interval_of_ms (dget "interval_ms" row)
  end.

Definition kline_values (now : string) (row : dict) : result kline_row :=
  interval ← _normalize_interval row;
  open_time ← _as_iso (dget "open_time" row);
  open_time ← match open_time with Some t => Ok (Some t) | None => _as_iso (dget "open_time_ms" row) end;
  exchange ← row_item "exchange" row;
  symbol ← row_item "symbol" row;
  let column name := x ← _to_float (dget name row) fzero; not_null ("klines." +:+ name) x in
  open_ ← column "open";
  high ← column "high";
  low ← column "low";
  close ← column "close";
  volume ← column "volume";
  quote_volume ← column "quote_volume";
  trades ← int_of_val (py_or (dget_or "trades" (VInt 0) row) (VInt 0));
  Ok {| kr_time := default now open_time; kr_exchange := py_str exchange; kr_symbol := py_str symbol;
        kr_interval := interval; kr_open := open_; kr_high := high; kr_low := low; kr_close := close;
        kr_volume := volume; kr_quote_volume := quote_volume; kr_trades := trades |}.

Definition upsert_kline (now : string) (row : dict) : prog timeseries unit :=
  values ← lift (kline_values now row);
  modify (put_kline values).

(** ** What the market worker stores *)

Definition level_of (price amount : f64) : val := VDict [("price", VFloat price); ("amount", VFloat amount)].

(** [(price, amount)] of the levels that are mappings with positive amounts. *)
Definition normalize_level (raw : val) : result (option (f64 * f64)) :=
  match raw with
  | VDict d =>
      price ← _to_float (dget "price" d) fzero;
      amount ← _to_float (dget "amount" d) fzero;
      Ok (if fleb price fzero || fleb amount fzero then None else Some (price, amount))
  | _ => Ok None
  end.

Definition _normalize_levels (value : val) : result (list (f64 * f64)) :=
  match value with
  | VList l => xs ← map_res normalize_level l; Ok (omap (M := list) (fun x => x) xs)
  | _ => Ok []
  end.

(** [max(..., default=0.0)] and [min(..., default=0.0)]: the first of the best. *)
Definition best_by (better : f64 -> f64 -> bool) (l : list f64) : f64 :=
  match l with [] => fzero | x :: l' => foldl (fun b y => if better y b then y else b) x l' end.
Definition max_price (l : list f64) : f64 := best_by (fun y b => fltb b y) l.
Definition min_price (l : list f64) : f64 := best_by (fun y b => fltb y b) l.

Definition _compute_spread_bps (best_bid best_ask : f64) : f64 :=
  if fleb best_bid fzero || fleb best_ask fzero then fzero
  else
    let mid := fdiv (fadd best_bid best_ask) (flit 2 0) in
    if fleb mid fzero then fzero else fmul (fdiv (fsub best_ask best_bid) mid) (flit 10000 0).

Definition text_at (k : string) (payload : dict) : string := strip (py_str (dget_or k (VStr "") payload)).

(** [now] and [now'] are the readings of the worker's store and of the
    timeseries store. *)
Definition persist_orderbook_envelope (now now' : string) (envelope : dict) : prog timeseries unit :=
  match dget "payload" envelope with
  | VDict payload =>
      let exchange := text_at "exchange" payload in
      let symbol := text_at "symbol" payload in
      _ ← lift (raise_if (is_empty exchange || is_empty symbol) ValueError
                  "market envelope payload requires exchange and symbol");
      bids ← lift (_normalize_levels (dget "bids" payload));
      asks ← lift (_normalize_levels (dget "asks" payload));
      let best_bid := max_price bids.*1 in
      let best_ask := min_price (List.filter (fun p => fltb fzero p) asks.*1) in
      let spread_bps := _compute_spread_bps best_bid best_ask in
      snapshot_time ← lift (_as_iso (dget "timestamp_ms" payload));
      upsert_orderbook_snapshot now'
        [("snapshot_time", VStr (default now snapshot_time)); ("exchange", VStr exchange);
         ("symbol", VStr symbol); ("bids", VList ((fun l => level_of l.1 l.2) <$> bids));
         ("asks", VList ((fun l => level_of l.1 l.2) <$> asks)); ("best_bid", VFloat best_bid);
         ("best_ask", VFloat best_ask); ("spread_bps", VFloat spread_bps)]
  | _ => lift (raise ValueError "market envelope payload must be a mapping")
  end.

Definition kline_dict (exchange symbol interval : string) (open_time_ms : Z) (bar : dict) : result dict :=
  let number k := _to_float (dget k bar) fzero in
  open_ ← number "open";
  high ← number "high";
  low ← number "low";
  close ← number "close";
  volume ← number "volume";
  quote_volume ← number "quote_volume";
  trades ← number "trades";
  trades ← trunc_float trades;
  Ok [("exchange", VStr exchange); ("symbol", VStr symbol); ("interval", VStr interval);
      ("open_time_ms", VInt open_time_ms); ("open", VFloat open_); ("high", VFloat high); ("low", VFloat low);
      ("close", VFloat close); ("volume", VFloat volume); ("quote_volume", VFloat quote_volume);
      ("trades", VInt trades)].

Definition persist_bar (now exchange symbol interval : string) (bar : dict) : prog timeseries unit :=
  open_time_ms ← lift (_to_int (dget "open_time_ms" bar));
  open_time_ms ← lift (match open_time_ms with Some n => Ok (Some n) | None => _to_int (dget "open_time" bar) end);
  match open_time_ms with
  | None => mret tt
  | Some n => row ← lift (kline_dict exchange symbol interval n bar); upsert_kline now row
  end.

Definition persist_kline_rows (now exchange symbol interval : string) (bars : list dict) : prog timeseries unit :=
  let normalized_exchange := strip exchange in
  let normalized_symbol := strip symbol in
  let normalized_interval := str_or (strip interval) "1m" in
  _ ← lift (raise_if (is_empty normalized_exchange || is_empty normalized_symbol) ValueError
              "persist_kline_rows requires non-empty exchange and symbol");
  for_each (persist_bar now normalized_exchange normalized_symbol normalized_interval) bars.

(** ** The persistence writers *)

Definition _as_utc_iso (timestamp_ms : option Z) : result val :=
  match timestamp_ms with None => Ok VNone | Some n => VStr <$> iso_of_ms n end.

Definition _spread_bps (best_bid best_ask : option f64) : option f64 :=
  match best_bid, best_ask with
  | Some b, Some a => if fleb b fzero then None else Some (fmul (fdiv (fsub a b) b) (flit 10000 0))
  | _, _ => None
  end.

Definition opt_num (x : option f64) : val := match x with Some y => VFloat y | None => VNone end.

Definition snapshot_row (snapshot : OrderBookSnapshot) : result dict :=
  let best_bid := lv_price <$> head (sn_bids snapshot) in
  let best_ask := lv_price <$> head (sn_asks snapshot) in
  let levels l := VList ((fun x => level_of (lv_price x) (lv_amount x)) <$> l) in
  snapshot_time ← _as_utc_iso (sn_timestamp_ms snapshot);
  Ok [("table", VStr "orderbook_snapshots"); ("exchange", VStr (sn_exchange snapshot));
      ("symbol", VStr (sn_symbol snapshot)); ("sequence", opt_int (sn_sequence snapshot));
      ("snapshot_time", snapshot_time); ("bids", levels (sn_bids snapshot)); ("asks", levels (sn_asks snapshot));
      ("best_bid", opt_num best_bid); ("best_ask", opt_num best_ask);
      ("spread_bps", opt_num (_spread_bps best_bid best_ask))].

Definition persist_orderbook_snapshot (now : string) (snapshot : OrderBookSnapshot) : prog timeseries dict :=
  row ← lift (snapshot_row snapshot);
  _ ← upsert_orderbook_snapshot now row;
  mret row.

(** [deduped[bar.open_time_ms] = bar] *)
Fixpoint put_bar (bar : KlineBar) (deduped : list KlineBar) : list KlineBar :=
  match deduped with
  | [] => [bar]
  | b :: l => if kb_open_time_ms b =? kb_open_time_ms bar then bar :: l else b :: put_bar bar l
  end.

Definition distinct_bars (bars : list KlineBar) : list KlineBar :=
  sort_by (fun a b => kb_open_time_ms a <=? kb_open_time_ms b) (foldl (fun d b => put_bar b d) [] bars).

Definition bar_row (exchange symbol : string) (interval_ms : Z) (bar : KlineBar) : result dict :=
  open_time ← iso_of_ms (kb_open_time_ms bar);
  Ok [("table", VStr "klines"); ("exchange", VStr exchange); ("symbol", VStr symbol);
      ("interval_ms", VInt interval_ms); ("open_time_ms", VInt (kb_open_time_ms bar)); ("open_time", VStr open_time);
      ("open", VFloat (kb_open bar)); ("high", VFloat (kb_high bar)); ("low", VFloat (kb_low bar));
      ("close", VFloat (kb_close bar)); ("volume", VFloat (kb_volume bar))].

Definition persist_klines (now exchange symbol : string) (interval_ms : Z) (bars : list KlineBar)
  : prog timeseries Z :=
  let deduped := distinct_bars bars in
  _ ← for_each (fun bar => row ← lift (bar_row exchange symbol interval_ms bar); upsert_kline now row) deduped;
  mret (Z.of_nat (List.length deduped)).

(** ** Metrics *)

Record MarketPipelineMetrics := {
  mm_delta_timestamps : list f64;
  mm_delta_lags_ms : list f64;
  mm_reconnect_timestamps : list f64;
  mm_resync_timestamps : list f64 }.

Definition metrics_init : MarketPipelineMetrics :=
  {| mm_delta_timestamps := []; mm_delta_lags_ms := []; mm_reconnect_timestamps := []; mm_resync_timestamps := [] |}.

Definition record_delta_processed (lag_ms now_seconds : f64) (m : MarketPipelineMetrics) : MarketPipelineMetrics :=
  {| mm_delta_timestamps := mm_delta_timestamps m ++ [now_seconds];
     mm_delta_lags_ms := mm_delta_lags_ms m ++ [lag_ms];
     mm_reconnect_timestamps := mm_reconnect_timestamps m; mm_resync_timestamps := mm_resync_timestamps m |}.
Definition record_reconnect (now_seconds : f64) (m : MarketPipelineMetrics) : MarketPipelineMetrics :=
  {| mm_delta_timestamps := mm_delta_timestamps m; mm_delta_lags_ms := mm_delta_lags_ms m;
     mm_reconnect_timestamps := mm_reconnect_timestamps m ++ [now_seconds];
     mm_resync_timestamps := mm_resync_timestamps m |}.
Definition record_resync_request (now_seconds : f64) (m : MarketPipelineMetrics) : MarketPipelineMetrics :=
  {| mm_delta_timestamps := mm_delta_timestamps m; mm_delta_lags_ms := mm_delta_lags_ms m;
     mm_reconnect_timestamps := mm_reconnect_timestamps m;
     mm_resync_timestamps := mm_resync_timestamps m ++ [now_seconds] |}.

(** ** What is stored *)

(** No price of the list is better than the best. *)
Lemma best_by_spec (better : f64 -> f64 -> bool) l :
  (forall a b c, better a b = true -> better b c = true -> better a c = true) -> (forall a, better a a = false) ->
  (l <> [] -> best_by better l ∈ l) /\ forall p, p ∈ l -> better p (best_by better l) = false.
Proof.
  intros Htr Hirr. destruct l as [|x l]; [split; [done|]; intros p Hp; by apply elem_of_nil in Hp|]. cbn [best_by].
  assert (forall l x, (foldl (fun b y => if better y b then y else b) x l ∈ x :: l) /\
    forall p, (better p x = false \/ p ∈ l) -> better p (foldl (fun b y => if better y b then y else b) x l) = false) as H.
  { clear l x. induction l as [|y l IH]; intros x; cbn [foldl].
    - split; [left|]. intros p [Hp|Hp]; [done|by apply elem_of_nil in Hp].
    - destruct (better y x) eqn:E.
      + destruct (IH y) as [H1 H2]. split; [set_solver|]. intros p [Hp|Hp].
        * apply H2. left. destruct (better p y) eqn:Ep; [|done]. by rewrite (Htr _ _ _ Ep E) in Hp.
        * apply elem_of_cons in Hp as [->|Hp]; apply H2; [left; apply Hirr|by right].
      + destruct (IH x) as [H1 H2]. split; [set_solver|]. intros p [Hp|Hp]; [apply H2; by left|].
        apply elem_of_cons in Hp as [->|Hp]; apply H2; [by left|by right]. }
  destruct (H l x) as [H1 H2]. split; [by intros _|]. intros p [->|Hp]%elem_of_cons; apply H2; [left; apply Hirr|by right].
Qed.

Lemma put_book_same row s : put_book row (put_book row s) = put_book row s.
Proof.
  unfold put_book, set_books. destruct s as [t k]. cbn [ts_books ts_klines]. f_equal.
  induction t as [|r t IH]; cbn [upsert_row]; [by rewrite bool_decide_true|].
  case_bool_decide as E; cbn [upsert_row]; [by rewrite bool_decide_true|]. rewrite bool_decide_false by done. by rewrite IH.
Qed.

(** The levels of a payload with positive price and amount. *)
Definition levels_of (payload : dict) (k : string) (levels : list (f64 * f64)) : Prop :=
  _normalize_levels (dget k payload) = Ok levels.

Lemma persist_orderbook_inv now now' envelope s s' :
  persist_orderbook_envelope now now' envelope s = (s', Ok tt) ->
  exists payload bids asks row, dget "payload" envelope = VDict payload /\
    levels_of payload "bids" bids /\ levels_of payload "asks" asks /\
    bk_best_bid row = max_price bids.*1 /\
    bk_best_ask row = min_price (List.filter (fun p => fltb fzero p) asks.*1) /\
    bk_exchange row = text_at "exchange" payload /\ bk_symbol row = text_at "symbol" payload /\
    s' = put_book row s.
Proof.
  unfold persist_orderbook_envelope. destruct (dget "payload" envelope) as [| | | | | | |payload]; try done. intros H.
  apply prog_bind_Ok in H as (s1 & [] & [= <- _] & H). apply prog_bind_Ok in H as (s2 & bids & [= <- Hb] & H).
  apply prog_bind_Ok in H as (s3 & asks & [= <- Ha] & H). apply prog_bind_Ok in H as (s4 & t & [= <- _] & H).
  unfold upsert_orderbook_snapshot in H. apply prog_bind_Ok in H as (s5 & row & [= <- Hr] & [= <-]).
  exists payload, bids, asks, row. unfold book_values in Hr.
  apply bind_Ok in Hr as (t1 & _ & Hr). apply bind_Ok in Hr as (b1 & Hb1 & Hr). apply bind_Ok in Hr as (a1 & Ha1 & Hr).
  apply bind_Ok in Hr as (p1 & _ & Hr). apply bind_Ok in Hr as (ex & Hex & Hr). apply bind_Ok in Hr as (sy & Hsy & Hr).
  apply bind_Ok in Hr as (j1 & _ & Hr). apply bind_Ok in Hr as (j2 & _ & Hr).
  apply bind_Ok in Hr as (b2 & ->%not_null_Ok & Hr). apply bind_Ok in Hr as (a2 & ->%not_null_Ok & Hr).
  apply bind_Ok in Hr as (p2 & _ & Hr). injection Hr as <-. cbn [bk_best_bid bk_best_ask bk_exchange bk_symbol].
  injection Hb1 as <-. injection Ha1 as <-. injection Hex as <-. injection Hsy as <-. done.
Qed.

(** The order book row the market worker stores for an envelope: the best bid is
    a bid with positive amount of the payload and none is above it, the best ask
    likewise, there is one row for a time, an exchange and a symbol, and storing
    changes no other. These are the levels of the message, which for a websocket
    delta are the changed levels only. *)
Theorem stored_book_summary now now' envelope s s' :
  persist_orderbook_envelope now now' envelope s = (s', Ok tt) ->
  exists payload bids asks row, dget "payload" envelope = VDict payload /\
    levels_of payload "bids" bids /\ levels_of payload "asks" asks /\
    row_at book_key (book_key row) (ts_books s') = Some row /\
    (forall k, k <> book_key row -> row_at book_key k (ts_books s') = row_at book_key k (ts_books s)) /\
    (NoDup (book_key <$> ts_books s) -> NoDup (book_key <$> ts_books s')) /\
    ts_klines s' = ts_klines s /\
    bk_exchange row = text_at "exchange" payload /\ bk_symbol row = text_at "symbol" payload /\
    (bids = [] -> bk_best_bid row = fzero) /\ (bids <> [] -> bk_best_bid row ∈ bids.*1) /\
    (forall p, p ∈ bids.*1 -> fltb (bk_best_bid row) p = false) /\
    (forall p, p ∈ asks.*1 -> fltb fzero p = true -> bk_best_ask row ∈ asks.*1 /\ fltb p (bk_best_ask row) = false).
Proof.
  intros H. destruct (persist_orderbook_inv _ _ _ _ _ H) as (payload & bids & asks & row & Hp & Hb & Ha & Eb & Ea & Ex & Es & ->).
  exists payload, bids, asks, row. do 3 (split; [done|]).
  assert (forall r, bool_decide (book_key r = book_key row) = bool_decide (book_key r = book_key row)) as Hk by done.
  assert (forall r, book_key r = book_key row -> book_key row = book_key r) as Hm by (by intros).
  split; [|split; [|split; [|split; [done|split; [done|split; [done|]]]]]].
  - cbn [put_book set_books ts_books]. rewrite (row_at_upsert_eq book_key _ _ _ Hk Hm). by destruct (row_at book_key _ _).
  - intros k Hne. by apply (row_at_upsert_ne book_key).
  - intros Hn. by apply (upsert_NoDup book_key).
  - destruct (best_by_spec (fun y b => fltb b y) bids.*1) as [B1 B2].
    { intros a b c Hab Hbc. by apply (fltb_trans _ _ _ Hbc). } { apply fltb_irrefl. }
    destruct (best_by_spec (fun y b => fltb y b) (List.filter (fun p => fltb fzero p) asks.*1)) as [A1 A2].
    { intros a b c Hab Hbc. by apply (fltb_trans _ _ _ Hab). } { apply fltb_irrefl. }
    rewrite Eb, Ea. split_and!; [by intros ->|intros Hne; apply B1; by destruct bids|done|].
    intros p Hp' Hpos. assert (p ∈ List.filter (fun p => fltb fzero p) asks.*1) as Hin.
    { apply list_elem_of_In, List.filter_In. split; [by apply list_elem_of_In|done]. }
    split; [|by apply A2]. assert (List.filter (fun p => fltb fzero p) asks.*1 <> []) as Hne
      by (intros E; rewrite E in Hin; by apply elem_of_nil in Hin).
    apply A1 in Hne. apply list_elem_of_In, List.filter_In in Hne as [Hne _]. by apply list_elem_of_In in Hne.
Qed.

Module Example_market_store.
Definition level (p a : Z) : val := VDict [("price", VFloat (flit p 0)); ("amount", VFloat (flit a 0))].
(** A delta that removes the best bid (amount 0) and changes a lower one. *)
Definition envelope : dict :=
  [("payload", VDict [("exchange", VStr "binance"); ("symbol", VStr "BTC/USDT"); ("timestamp_ms", VInt 1714564800000);
     ("bids", VList [level 50000 0; level 49000 3; level 48000 1]); ("asks", VList [level 50010 2])])].
Definition empty : timeseries := {| ts_books := []; ts_klines := [] |}.
Definition stored : timeseries := (persist_orderbook_envelope "" "" envelope empty).1.

Example stored_time : bk_snapshot_time <$> ts_books stored = ["2024-05-01T12:00:00Z"%string].
Proof. vm_compute. reflexivity. Qed.

Lemma stored_book_summary_witness :
  persist_orderbook_envelope "" "" envelope empty = (stored, Ok tt) /\
  (exists row, row_at book_key (book_key row) (ts_books stored) = Some row /\ bk_best_bid row = flit 49000 0).
Proof.
  assert (persist_orderbook_envelope "" "" envelope empty = (stored, Ok tt)) as E by (vm_compute; reflexivity).
  split; [exact E|]. destruct (stored_book_summary "" "" envelope empty stored E)
    as (payload & bids & asks & row & Hp & Hb & Ha & Hrow & _ & _ & _ & _ & _ & _ & _ & _ & _).
  exists row. split; [exact Hrow|]. destruct (row_at_Some _ _ _ _ Hrow) as [Hin _].
  vm_compute in Hin. apply list_elem_of_singleton in Hin as ->. vm_compute. reflexivity.
Defined.
End Example_market_store.
