(* ===== verification/MarketRuntime.v ===== *)
(** * The market runtime worker

    [MarketIngestionRuntimeWorker] and [MultiExchangeMarketIngestionRuntimeWorker]
    of [services/workers/runtime_pipeline.py]: a cycle polls the websocket of an
    exchange, checks the delta against the order book it keeps, falls back to a
    REST snapshot when the stream is stale, broken or out of sequence, publishes
    the delta, stores it and polls candles when they are due. The answers of the
    exchange, the clocks and the random numbers of one cycle are the record
    [cycle], by call site. *)

From S2P Require Import Prelude PyStr PyFloat PyDecimal PyTime PyUuid PyVal Envelope Broker SqlTable.
From S2P Require Import Notification OrderBook MarketPipeline MarketStore.
From stdpp Require Import options.
From Stdlib Require Import Ascii String SpecFloat.

#[local] Open Scope Z_scope.

(** ** Configuration and state *)

Record market_config := {
  mc_exchange : string;
  mc_delta_source : string;
  mc_service_name : string;
  mc_symbol : string;
  mc_mode : string;
  mc_depth : Z;
  mc_notification_bridge : option NotificationEventBridge;
  mc_has_store : bool;
  mc_has_kline_client : bool;
  mc_kline_intervals : list string;
  mc_kline_poll_interval_seconds : f64;
  mc_kline_fetch_limit : Z;
  mc_ws_stale_after_seconds : f64;
  mc_ws_probe_interval_seconds : f64 }.

Definition _source_is_websocket (value : string) : bool :=
  let v := lower (strip value) in String.eqb v "websocket" || String.eqb v "ws".

Record market_worker := {
  mk_bootstrapped : bool;
  mk_last_kline_poll : option f64;
  mk_next_ws_probe : f64;
  mk_last_delta_source : option string;
  mk_last_fallback_reason : option string;
  mk_last_envelope_summary : dict;
  mk_sync_engine : option OrderBookSyncEngine;
  mk_resilience : option ConnectionResilienceManager;
  mk_metrics : option MarketPipelineMetrics;
  mk_broker : InMemoryTopicBroker;
  mk_store : timeseries }.

(** What the constructor makes of its arguments. *)
Definition config_init (exchange delta_source service_name symbol mode : string) (depth : Z)
    (bridge : option NotificationEventBridge) (has_store has_kline_client : bool) (kline_intervals : list string)
    (kline_poll_interval_seconds : f64) (kline_fetch_limit : Z) (ws_stale_after ws_probe_interval : f64)
  : market_config :=
  {| mc_exchange := exchange; mc_delta_source := delta_source; mc_service_name := service_name;
     mc_symbol := symbol; mc_mode := mode; mc_depth := depth; mc_notification_bridge := bridge;
     mc_has_store := has_store; mc_has_kline_client := has_kline_client;
     mc_kline_intervals := List.filter (fun i => negb (is_empty i)) (strip <$> kline_intervals);
     mc_kline_poll_interval_seconds := fmax fone kline_poll_interval_seconds;
     mc_kline_fetch_limit := Z.max 1 kline_fetch_limit;
     mc_ws_stale_after_seconds := fmax fzero ws_stale_after;
     mc_ws_probe_interval_seconds := fmax (flit 1 (-1)) ws_probe_interval |}.

Definition backoff_config (stale_after : f64) : BackoffConfig :=
  {| bc_base_delay_seconds := fone; bc_max_delay_seconds := flit 30 0; bc_backoff_multiplier := flit 2 0;
     bc_jitter_ratio := flit 2 (-1); bc_stale_after_seconds := stale_after |}.

Definition worker_init (c : market_config) (broker : InMemoryTopicBroker) (store : timeseries) : market_worker :=
  let ws := _source_is_websocket (mc_delta_source c) in
  {| mk_bootstrapped := false; mk_last_kline_poll := None; mk_next_ws_probe := fzero;
     mk_last_delta_source := None; mk_last_fallback_reason := None; mk_last_envelope_summary := [];
     mk_sync_engine := if ws then Some (engine_init (mc_exchange c) (mc_symbol c)) else None;
     mk_resilience :=
       if ws then Some {| cm_config := backoff_config (fmax (flit 1 (-1)) (mc_ws_stale_after_seconds c));
                          cm_last_heartbeat_seconds := None; cm_disconnect_attempts := 0 |} else None;
     mk_metrics := if ws then Some metrics_init else None; mk_broker := broker; mk_store := store |}.

Definition set_bootstrapped w :=
  {| mk_bootstrapped := true; mk_last_kline_poll := mk_last_kline_poll w; mk_next_ws_probe := mk_next_ws_probe w;
     mk_last_delta_source := mk_last_delta_source w; mk_last_fallback_reason := mk_last_fallback_reason w;
     mk_last_envelope_summary := mk_last_envelope_summary w; mk_sync_engine := mk_sync_engine w;
     mk_resilience := mk_resilience w; mk_metrics := mk_metrics w; mk_broker := mk_broker w; mk_store := mk_store w |}.
Definition set_kline_poll t w :=
  {| mk_bootstrapped := mk_bootstrapped w; mk_last_kline_poll := Some t; mk_next_ws_probe := mk_next_ws_probe w;
     mk_last_delta_source := mk_last_delta_source w; mk_last_fallback_reason := mk_last_fallback_reason w;
     mk_last_envelope_summary := mk_last_envelope_summary w; mk_sync_engine := mk_sync_engine w;
     mk_resilience := mk_resilience w; mk_metrics := mk_metrics w; mk_broker := mk_broker w; mk_store := mk_store w |}.
Definition set_next_probe t w :=
  {| mk_bootstrapped := mk_bootstrapped w; mk_last_kline_poll := mk_last_kline_poll w; mk_next_ws_probe := t;
     mk_last_delta_source := mk_last_delta_source w; mk_last_fallback_reason := mk_last_fallback_reason w;
     mk_last_envelope_summary := mk_last_envelope_summary w; mk_sync_engine := mk_sync_engine w;
     mk_resilience := mk_resilience w; mk_metrics := mk_metrics w; mk_broker := mk_broker w; mk_store := mk_store w |}.
Definition set_source source reason w :=
  {| mk_bootstrapped := mk_bootstrapped w; mk_last_kline_poll := mk_last_kline_poll w;
     mk_next_ws_probe := mk_next_ws_probe w; mk_last_delta_source := Some source;
     mk_last_fallback_reason := reason; mk_last_envelope_summary := mk_last_envelope_summary w;
     mk_sync_engine := mk_sync_engine w; mk_resilience := mk_resilience w; mk_metrics := mk_metrics w;
     mk_broker := mk_broker w; mk_store := mk_store w |}.
Definition set_summary d w :=
  {| mk_bootstrapped := mk_bootstrapped w; mk_last_kline_poll := mk_last_kline_poll w;
     mk_next_ws_probe := mk_next_ws_probe w; mk_last_delta_source := mk_last_delta_source w;
     mk_last_fallback_reason := mk_last_fallback_reason w; mk_last_envelope_summary := d;
     mk_sync_engine := mk_sync_engine w; mk_resilience := mk_resilience w; mk_metrics := mk_metrics w;
     mk_broker := mk_broker w; mk_store := mk_store w |}.
Definition set_engine e w :=
  {| mk_bootstrapped := mk_bootstrapped w; mk_last_kline_poll := mk_last_kline_poll w;
     mk_next_ws_probe := mk_next_ws_probe w; mk_last_delta_source := mk_last_delta_source w;
     mk_last_fallback_reason := mk_last_fallback_reason w; mk_last_envelope_summary := mk_last_envelope_summary w;
     mk_sync_engine := Some e; mk_resilience := mk_resilience w; mk_metrics := mk_metrics w;
     mk_broker := mk_broker w; mk_store := mk_store w |}.
(** Mutations of the components that only exist in websocket mode. *)
Definition on_resilience (f : ConnectionResilienceManager -> ConnectionResilienceManager) w :=
  {| mk_bootstrapped := mk_bootstrapped w; mk_last_kline_poll := mk_last_kline_poll w;
     mk_next_ws_probe := mk_next_ws_probe w; mk_last_delta_source := mk_last_delta_source w;
     mk_last_fallback_reason := mk_last_fallback_reason w; mk_last_envelope_summary := mk_last_envelope_summary w;
     mk_sync_engine := mk_sync_engine w; mk_resilience := f <$> mk_resilience w; mk_metrics := mk_metrics w;
     mk_broker := mk_broker w; mk_store := mk_store w |}.
Definition on_metrics (f : MarketPipelineMetrics -> MarketPipelineMetrics) w :=
  {| mk_bootstrapped := mk_bootstrapped w; mk_last_kline_poll := mk_last_kline_poll w;
     mk_next_ws_probe := mk_next_ws_probe w; mk_last_delta_source := mk_last_delta_source w;
     mk_last_fallback_reason := mk_last_fallback_reason w; mk_last_envelope_summary := mk_last_envelope_summary w;
     mk_sync_engine := mk_sync_engine w; mk_resilience := mk_resilience w; mk_metrics := f <$> mk_metrics w;
     mk_broker := mk_broker w; mk_store := mk_store w |}.
Definition set_mk_broker b w :=
  {| mk_bootstrapped := mk_bootstrapped w; mk_last_kline_poll := mk_last_kline_poll w;
     mk_next_ws_probe := mk_next_ws_probe w; mk_last_delta_source := mk_last_delta_source w;
     mk_last_fallback_reason := mk_last_fallback_reason w; mk_last_envelope_summary := mk_last_envelope_summary w;
     mk_sync_engine := mk_sync_engine w; mk_resilience := mk_resilience w; mk_metrics := mk_metrics w;
     mk_broker := b; mk_store := mk_store w |}.
Definition set_mk_store s w :=
  {| mk_bootstrapped := mk_bootstrapped w; mk_last_kline_poll := mk_last_kline_poll w;
     mk_next_ws_probe := mk_next_ws_probe w; mk_last_delta_source := mk_last_delta_source w;
     mk_last_fallback_reason := mk_last_fallback_reason w; mk_last_envelope_summary := mk_last_envelope_summary w;
     mk_sync_engine := mk_sync_engine w; mk_resilience := mk_resilience w; mk_metrics := mk_metrics w;
     mk_broker := mk_broker w; mk_store := s |}.

(** What the outside world answers in one cycle: the exchange ([cy_rest 0] is the
    bootstrap, [cy_rest 1] the fallback or the REST poll), the monotonic clock,
    [time.time()], the wall clock, random UUIDs and the jitter. *)
Record cycle := {
  cy_rest : nat -> result dict;
  cy_ws : result dict;
  cy_klines : string -> result (list dict);
  cy_monotonic : nat -> f64;
  cy_time : nat -> f64;
  cy_now : nat -> Z;
  cy_uuid : nat -> Z;
  cy_draws : draws;
  cy_random : f64;
  cy_pow : f64 -> Z -> result f64 }.

(** ** Operations *)

Section worker.
Context (c : market_config) (y : cycle).

Definition adapter (site : nat) : CCXTIngestionAdapter :=
  {| ad_exchange := mc_exchange c; ad_rest_client := fun _ _ => cy_rest y site; ad_ws_client := fun _ _ => cy_ws y;
     ad_delta_source := mc_delta_source c |}.

Definition fetch_snapshot (site : nat) : result OrderBookSnapshot :=
  bootstrap_snapshot (adapter site) (mc_symbol c) (mc_depth c).

Definition _snapshot_to_delta (snapshot : OrderBookSnapshot) : OrderBookDelta :=
  {| de_exchange := sn_exchange snapshot; de_symbol := sn_symbol snapshot;
     de_sequence_start := sn_sequence snapshot; de_sequence_end := sn_sequence snapshot;
     de_timestamp_ms := sn_timestamp_ms snapshot; de_bids := sn_bids snapshot; de_asks := sn_asks snapshot |}.

(** [if self._sync_engine is not None: self._sync_engine.load_snapshot(snapshot)] *)
Definition load_into_engine (snapshot : OrderBookSnapshot) : prog market_worker unit :=
  engine ← gets mk_sync_engine;
  match engine with
  | None => mret tt
  | Some e => e' ← lift (load_snapshot snapshot e); modify (set_engine e')
  end.

Definition _fetch_rest_snapshot_delta (reason : string) : prog market_worker OrderBookDelta :=
  snapshot ← lift (fetch_snapshot 1);
  _ ← load_into_engine snapshot;
  _ ← modify (on_metrics (record_resync_request (cy_time y 1%nat)));
  _ ← modify (set_source "rest" (Some reason));
  _ ← modify (set_next_probe (fadd (cy_monotonic y 4%nat) (mc_ws_probe_interval_seconds c)));
  mret (_snapshot_to_delta snapshot).

(** [publish_system_health_event] of the bridge, when there is one. *)
Definition notify_connectivity (site : nat) (severity : string) (e : exc) (details : dict)
  : prog market_worker unit :=
  match mc_notification_bridge c with
  | None => mret tt
  | Some b =>
      _ ← zoom mk_broker set_mk_broker
            (publish_system_health_event b (cy_now y site) (cy_now y (S site)) (cy_uuid y (S site))
               (uuid_str (cy_uuid y site)) (mc_mode c) "system.exchange.connectivity_issue" severity
               (exc_name (exc_cls e))
               ([("symbol", VStr (mc_symbol c)); ("error", VStr (exc_msg e))] ++ details));
      mret tt
  end.

Definition _apply_integrity_to_websocket_delta (delta : OrderBookDelta) : prog market_worker OrderBookDelta :=
  engine ← gets mk_sync_engine;
  match engine with
  | None => mret delta
  | Some e =>
      let action := gr_action (evaluate (ob_sequence e) (de_sequence_start delta) (de_sequence_end delta)) in
      if String.eqb action "ignore_stale" then _fetch_rest_snapshot_delta "websocket_stale_delta"
      else if String.eqb action "resync" then _fetch_rest_snapshot_delta "sequence_gap_resync"
      else
        match apply_delta delta e with
        | Raise (Exc OrderBookSequenceGapError _) => _fetch_rest_snapshot_delta "sequence_gap_exception"
        | Raise exc => lift (Raise exc)
        | Ok (_, false) => _fetch_rest_snapshot_delta "delta_rejected_as_stale"
        | Ok (e', true) =>
            _ ← modify (set_engine e');
            _ ← modify (on_resilience (record_reconnect_success (cy_monotonic y 5%nat)));
            mret delta
        end
  end.

(** The handler of a failed websocket poll. *)
Definition websocket_failed (e : exc) : prog market_worker OrderBookDelta :=
  resilience ← gets mk_resilience;
  _ ← match resilience with
      | None => mret tt
      | Some m =>
          let '(m', backoff) := record_disconnect (cy_pow y) (cy_random y) m in
          _ ← modify (on_resilience (fun _ => m'));
          backoff ← lift backoff;
          modify (set_next_probe (fadd (cy_monotonic y 3%nat) (fmax (mc_ws_probe_interval_seconds c) backoff)))
      end;
  _ ← modify (on_metrics (record_reconnect (cy_time y 0%nat)));
  _ ← notify_connectivity 0 "WARNING" e [("fallback", VStr "rest")];
  _fetch_rest_snapshot_delta "websocket_error_fallback".

Definition _poll_websocket_delta_with_integrity : prog market_worker OrderBookDelta :=
  let now := cy_monotonic y 1%nat in
  resilience ← gets mk_resilience;
  probe ← gets mk_next_ws_probe;
  let stale := match resilience with Some m => is_stale now m | None => false end in
  if stale && fltb now probe then _fetch_rest_snapshot_delta "stream_stale_cutover"
  else
    match poll_delta (adapter 1) (mc_symbol c) (mc_depth c) (Some "websocket"%string) with
    | Raise e => websocket_failed e
    | Ok delta =>
        _ ← modify (set_source "websocket" None);
        _apply_integrity_to_websocket_delta delta
    end.

Definition _record_processed_delta_metrics (delta : OrderBookDelta) : prog market_worker unit :=
  metrics ← gets mk_metrics;
  match metrics with
  | None => mret tt
  | Some _ =>
      lag_ms ← lift (match de_timestamp_ms delta with
                     | None => Ok fzero
                     | Some ts => now_ms ← trunc_float (fmul (cy_time y 2%nat) (flit 1000 0));
                                  py_float_of_int (Z.max 0 (now_ms - ts))
                     end);
      modify (on_metrics (record_delta_processed lag_ms (cy_time y 3%nat)))
  end.

(** The price of the first level, [0.0] when there is none. *)
Definition first_price (levels : val) : result f64 :=
  match levels with
  | VList (VDict level :: _) => float_of_val (py_or (dget_or "price" (VFloat fzero) level) (VFloat fzero))
  | _ => Ok fzero
  end.

Definition _market_envelope_summary (envelope : dict) : result dict :=
  match dget "payload" envelope with
  | VDict payload =>
      best_bid ← first_price (dget "bids" payload);
      best_ask ← first_price (dget "asks" payload);
      let str_at k d := VStr (py_str (dget_or k (VStr "") d)) in
      Ok [("trace_id", str_at "trace_id" envelope); ("decision_id", str_at "decision_id" envelope);
          ("exchange", str_at "exchange" payload); ("symbol", str_at "symbol" payload);
          ("timestamp_ms", dget "timestamp_ms" payload); ("sequence_start", dget "sequence_start" payload);
          ("sequence_end", dget "sequence_end" payload); ("best_bid", VFloat best_bid); ("best_ask", VFloat best_ask)]
  | _ => Ok []
  end.

Definition on_timeseries {A} (m : prog timeseries A) : prog market_worker A := zoom mk_store set_mk_store m.

Definition poll_interval (interval : string) : prog market_worker unit :=
  bars ← lift (cy_klines y interval);
  on_timeseries (persist_kline_rows (iso_z (cy_now y 6%nat)) (mc_exchange c) (mc_symbol c) interval bars).

Definition _poll_klines_if_due : prog market_worker unit :=
  if negb (mc_has_kline_client c) || bool_decide (mc_kline_intervals c = []) || negb (mc_has_store c) then mret tt
  else
    last ← gets mk_last_kline_poll;
    let now := cy_monotonic y 6%nat in
    if match last with Some t => fltb (fsub now t) (mc_kline_poll_interval_seconds c) | None => false end
    then mret tt
    else
      _ ← for_each poll_interval (mc_kline_intervals c);
      modify (set_kline_poll now).

(** The first cycle loads a snapshot. *)
Definition bootstrap : prog market_worker unit :=
  done_ ← gets mk_bootstrapped;
  if done_ : bool then mret tt
  else
    snapshot ← lift (fetch_snapshot 0);
    _ ← load_into_engine snapshot;
    _ ← modify (on_resilience (mark_heartbeat (cy_monotonic y 0%nat)));
    modify set_bootstrapped.

Definition next_delta : prog market_worker OrderBookDelta :=
  if _source_is_websocket (mc_delta_source c) then _poll_websocket_delta_with_integrity
  else
    delta ← lift (poll_delta (adapter 1) (mc_symbol c) (mc_depth c) None);
    _ ← modify (set_source (mc_delta_source c) None);
    mret delta.

(** What comes after the delta of a cycle. *)
Definition publish_and_store (delta : OrderBookDelta) : prog market_worker dict :=
  _ ← _record_processed_delta_metrics delta;
  envelope ← zoom mk_broker set_mk_broker
               (publish_order_book_delta (mc_service_name c) (cy_draws y) delta (mc_mode c));
  summary ← lift (_market_envelope_summary envelope);
  _ ← modify (set_summary summary);
  _ ← (if mc_has_store c
       then on_timeseries (persist_orderbook_envelope (iso_z (cy_now y 4%nat)) (iso_z (cy_now y 5%nat)) envelope)
       else mret tt);
  _ ← _poll_klines_if_due;
  mret envelope.

(** The body of [run_once] without its handler. *)
Definition run_body : prog market_worker dict :=
  _ ← bootstrap;
  delta ← next_delta;
  publish_and_store delta.

Definition run_once : prog market_worker dict := fun w =>
  match run_body w with
  | (w', Ok envelope) => (w', Ok envelope)
  | (w', Raise e) => (_ ← notify_connectivity 2 "CRITICAL" e []; lift (Raise e)) w'
  end.
End worker.

(** ** The published delta and the book *)

(** The delta that says what a snapshot says. *)
Definition whole_book (sn : OrderBookSnapshot) (delta : OrderBookDelta) : Prop :=
  delta = {| de_exchange := sn_exchange sn; de_symbol := sn_symbol sn; de_sequence_start := sn_sequence sn;
             de_sequence_end := sn_sequence sn; de_timestamp_ms := sn_timestamp_ms sn;
             de_bids := sn_bids sn; de_asks := sn_asks sn |}.

(** What a step to the next message does to the book: the delta the websocket
    answered with is accepted by the book, or the snapshot that REST answered
    with replaces it. *)
Definition follows (c : market_config) (y : cycle) (source : option string) (delta : OrderBookDelta)
    (e e' : OrderBookSyncEngine) : Prop :=
  (source = Some "websocket"%string /\
   poll_delta (adapter c y 1) (mc_symbol c) (mc_depth c) (Some "websocket"%string) = Ok delta /\
   apply_delta delta e = Ok (e', true)) \/
  (source = Some "rest"%string /\
   exists sn, fetch_snapshot c y 1 = Ok sn /\ whole_book sn delta /\ load_snapshot sn e = Ok e').

(** Operations that leave a part of the state alone. *)
Definition keeps {T A} (part : market_worker -> T) (m : prog market_worker A) : Prop :=
  forall w w' r, m w = (w', r) -> part w' = part w.

(** Parts that no output of the worker touches. *)
Class Inner {T} (part : market_worker -> T) : Prop := {
  inner_metrics f w : part (on_metrics f w) = part w;
  inner_summary d w : part (set_summary d w) = part w;
  inner_kline_poll t w : part (set_kline_poll t w) = part w;
  inner_broker b w : part (set_mk_broker b w) = part w;
  inner_store s w : part (set_mk_store s w) = part w }.

(** The book with its source, and all that decides where the next message comes
    from. *)
Definition book (w : market_worker) := (mk_sync_engine w, mk_last_delta_source w).
Definition link (w : market_worker) :=
  (mk_bootstrapped w, mk_sync_engine w, mk_resilience w, mk_next_ws_probe w, mk_last_delta_source w).

#[local] Instance book_inner : Inner book.
Proof. by split. Qed.
#[local] Instance link_inner : Inner link.
Proof. by split. Qed.

Create HintDb market discriminated.

Section keeps.
Context {T : Type} (part : market_worker -> T).
#[local] Set Default Proof Using "Type".

Lemma fixes_bind {A B} (m : prog market_worker A) (f : A -> prog market_worker B) :
  keeps part m -> (forall a, keeps part (f a)) -> keeps part (m ≫= f).
Proof.
  intros Hm Hf w w' r. unfold mbind, prog_bind. destruct (m w) as [w1 [a|e]] eqn:E; apply Hm in E.
  - intros H%Hf. congruence.
  - intros [= <- <-]. done.
Qed.
Lemma fixes_lift {A} (r : result A) : keeps part (lift r).
Proof. by intros w w' x [= <- <-]. Qed.
Lemma fixes_ret {A} (a : A) : keeps part (mret a).
Proof. by intros w w' x [= <- <-]. Qed.
Lemma fixes_gets {A} (f : market_worker -> A) : keeps part (gets f).
Proof. by intros w w' x [= <- <-]. Qed.
Lemma fixes_modify f : (forall w, part (f w) = part w) -> keeps part (modify f).
Proof. intros Hf w w' x [= <- <-]. apply Hf. Qed.
Lemma fixes_for_each {A} (f : A -> prog market_worker unit) l : (forall a, keeps part (f a)) -> keeps part (for_each f l).
Proof. intros Hf. induction l as [|a l IH]; cbn [for_each]; [apply fixes_ret|]. by apply fixes_bind. Qed.
End keeps.
#[local] Hint Resolve fixes_bind fixes_lift fixes_ret fixes_gets fixes_modify fixes_for_each
  inner_metrics inner_summary inner_kline_poll : market.

Section outputs.
Context {T : Type} (part : market_worker -> T) `{!Inner part} (c : market_config) (y : cycle).
#[local] Set Default Proof Using "Type*".

Lemma fixes_broker {A} (m : prog InMemoryTopicBroker A) : keeps part (zoom mk_broker set_mk_broker m).
Proof. intros w w' r. unfold zoom. destruct (m _) as [b x]; intros [= <- <-]. apply inner_broker. Qed.
Lemma fixes_store {A} (m : prog timeseries A) : keeps part (on_timeseries m).
Proof. intros w w' r. unfold on_timeseries, zoom. destruct (m _) as [b x]; intros [= <- <-]. apply inner_store. Qed.
#[local] Hint Resolve fixes_broker fixes_store : market.

Lemma fixes_notify site severity e details : keeps part (notify_connectivity c y site severity e details).
Proof. unfold notify_connectivity. destruct (mc_notification_bridge c); auto with market. Qed.

Lemma fixes_record delta : keeps part (_record_processed_delta_metrics y delta).
Proof. unfold _record_processed_delta_metrics. apply fixes_bind; [auto with market|]. intros [m|]; auto with market. Qed.

Lemma fixes_klines : keeps part (_poll_klines_if_due c y).
Proof.
  unfold _poll_klines_if_due. destruct (_ || _ || _); [auto with market|]. apply fixes_bind; [auto with market|].
  intros last. destruct (match last with Some t => _ | None => false end); [auto with market|].
  unfold poll_interval. auto 6 with market.
Qed.

Lemma fixes_publish delta : keeps part (publish_and_store c y delta).
Proof.
  unfold publish_and_store. apply fixes_bind; [apply fixes_record|]. intros _. apply fixes_bind; [apply fixes_broker|].
  intros env. apply fixes_bind; [apply fixes_lift|]. intros summary. apply fixes_bind; [auto with market|]. intros _.
  apply fixes_bind; [destruct (mc_has_store c); auto with market|]. intros _.
  apply fixes_bind; [apply fixes_klines|]. intros _. apply fixes_ret.
Qed.
End outputs.

Section frames.
Context (c : market_config) (y : cycle).
#[local] Set Default Proof Using "Type".

Lemma fetch_rest_spec reason w w' delta e :
  mk_sync_engine w = Some e -> _fetch_rest_snapshot_delta c y reason w = (w', Ok delta) ->
  exists e', mk_sync_engine w' = Some e' /\ follows c y (mk_last_delta_source w') delta e e'.
Proof.
  intros He H. unfold _fetch_rest_snapshot_delta, load_into_engine in H. rewrite lift_bind in H.
  destruct (fetch_snapshot c y 1) as [sn|] eqn:Es; [|done]. unfold mbind at 1, prog_bind at 1 in H.
  rewrite gets_bind, He, lift_bind in H. destruct (load_snapshot sn e) as [e'|] eqn:El; [|done].
  injection H as <- <-. exists e'. split; [done|]. right. split; [done|]. by exists sn.
Qed.

Lemma integrity_spec delta w w' delta' e :
  mk_sync_engine w = Some e -> mk_last_delta_source w = Some "websocket"%string ->
  poll_delta (adapter c y 1) (mc_symbol c) (mc_depth c) (Some "websocket"%string) = Ok delta ->
  _apply_integrity_to_websocket_delta c y delta w = (w', Ok delta') ->
  exists e', mk_sync_engine w' = Some e' /\ follows c y (mk_last_delta_source w') delta' e e'.
Proof.
  intros He Hs Hpoll H. unfold _apply_integrity_to_websocket_delta in H. rewrite gets_bind, He in H.
  destruct (String.eqb _ "ignore_stale"); [by eapply fetch_rest_spec|].
  destruct (String.eqb _ "resync"); [by eapply fetch_rest_spec|].
  destruct (apply_delta delta e) as [[e' []]|[cls msg]] eqn:Ed.
  - injection H as <- <-. exists e'. split; [done|]. left. by split.
  - by eapply fetch_rest_spec.
  - destruct cls; try done. by eapply fetch_rest_spec.
Qed.

Lemma websocket_failed_spec exc w w' delta e :
  mk_sync_engine w = Some e -> websocket_failed c y exc w = (w', Ok delta) ->
  exists e', mk_sync_engine w' = Some e' /\ follows c y (mk_last_delta_source w') delta e e'.
Proof.
  intros He H. unfold websocket_failed in H. rewrite gets_bind in H.
  apply prog_bind_Ok in H as (w1 & [] & H1 & H). apply prog_bind_Ok in H as (w2 & [] & H2 & H).
  apply prog_bind_Ok in H as (w3 & [] & H3 & H). refine (fetch_rest_spec _ w3 w' delta e _ H).
  apply (fixes_notify book) in H3. injection H3 as -> _. injection H2 as <-. cbn [mk_sync_engine on_metrics].
  revert H1. destruct (mk_resilience w) as [m|]; [|by intros [= <-]].
  destruct (record_disconnect _ _ m) as [m' b]. intros H1.
  assert (keeps mk_sync_engine (_ ← modify (on_resilience (fun _ => m')); b' ← lift b;
    modify (set_next_probe (fadd (cy_monotonic y 3) (fmax (mc_ws_probe_interval_seconds c) b'))))) as Hk by auto with market.
  by rewrite (Hk _ _ _ H1).
Qed.

Lemma next_delta_spec w w' delta e :
  _source_is_websocket (mc_delta_source c) = true -> mk_sync_engine w = Some e ->
  next_delta c y w = (w', Ok delta) ->
  exists e', mk_sync_engine w' = Some e' /\ follows c y (mk_last_delta_source w') delta e e'.
Proof.
  intros Hws He H. unfold next_delta in H. rewrite Hws in H. unfold _poll_websocket_delta_with_integrity in H.
  rewrite !gets_bind in H. destruct (_ && _); [by eapply fetch_rest_spec|].
  destruct (poll_delta _ _ _ _) as [d|exc] eqn:Ep; [|by eapply websocket_failed_spec].
  rewrite modify_bind in H. eapply integrity_spec in H; [exact H|done|done|exact Ep].
Qed.
End frames.

(** The book the cycle starts from: the one it has, or that of the first snapshot. *)
Definition starts_from (c : market_config) (y : cycle) (w : market_worker) (e : OrderBookSyncEngine) : Prop :=
  if mk_bootstrapped w then mk_sync_engine w = Some e
  else exists e0 sn, mk_sync_engine w = Some e0 /\ fetch_snapshot c y 0 = Ok sn /\ load_snapshot sn e0 = Ok e.

Lemma bootstrap_spec c y w w' e0 :
  mk_sync_engine w = Some e0 -> bootstrap c y w = (w', Ok tt) ->
  exists e, mk_sync_engine w' = Some e /\ starts_from c y w e.
Proof.
  intros He H. unfold bootstrap, starts_from in *. rewrite gets_bind in H.
  destruct (mk_bootstrapped w); [by injection H as <-; exists e0|].
  rewrite lift_bind in H. destruct (fetch_snapshot c y 0) as [sn|] eqn:Es; [|done].
  unfold load_into_engine in H. unfold mbind at 1, prog_bind at 1 in H. rewrite gets_bind, He, lift_bind in H.
  destruct (load_snapshot sn e0) as [e|] eqn:El; [|done]. injection H as <-. exists e. split; [done|]. by exists e0, sn.
Qed.

(** *** What a cycle publishes *)

Definition DELTA : string := "market.canonical.orderbook_delta".
Definition not_delta (km : string * dict) : Prop := dict_get "event_type" km.2 <> Some (VStr DELTA).

(** A step that publishes no order book delta, also when it raises. *)
Definition quiet {A} (m : prog market_worker A) : Prop := forall w w' r, m w = (w', r) -> bindings_declared (mk_broker w) ->
  exists log, emits (mk_broker w) (mk_broker w') log /\ Forall not_delta log.

Lemma quiet_keeps {A} (m : prog market_worker A) : keeps mk_broker m -> quiet m.
Proof. intros Hk w w' r H _. exists []. rewrite (Hk _ _ _ H). split; [apply emits_refl|constructor]. Qed.

Lemma quiet_bind {A B} (m : prog market_worker A) (f : A -> prog market_worker B) :
  quiet m -> (forall a, quiet (f a)) -> quiet (m ≫= f).
Proof.
  intros Hm Hf w w' r. unfold mbind, prog_bind. destruct (m w) as [w1 [a|e]] eqn:E.
  - intros H Hd. destruct (Hm _ _ _ E Hd) as (l1 & E1 & N1). destruct (Hf a _ _ _ H) as (l2 & E2 & N2); [by eapply emits_declared|].
    exists (l1 ++ l2). split; [by eapply emits_trans|by apply Forall_app].
  - intros [= <- <-] Hd. by eapply Hm.
Qed.

Section publishing.
Context (c : market_config) (y : cycle).
#[local] Set Default Proof Using "Type".

Lemma quiet_notify site severity e details : quiet (notify_connectivity c y site severity e details).
Proof.
  unfold notify_connectivity. destruct (mc_notification_bridge c) as [b|]; [|apply quiet_keeps; auto with market].
  apply quiet_bind; [|intros _; apply quiet_keeps; auto with market].
  intros w w' r H Hd. unfold zoom, publish_system_health_event, _publish_from_source in H. cbv zeta in H.
  rewrite lift_bind in H. set (env := notification_envelope _ _ _ _ _) in H.
  destruct (validate_envelope (VDict env)) as [[]|x]; [|injection H as <- <-; by exists []; split; [apply emits_refl|]].
  unfold mbind, prog_bind in H. destruct (broker_publish_emits (nb_routing_key b) env (mk_broker w) Hd) as (b' & receipt & E & He).
  rewrite E in H. injection H as <- <-. eexists. split; [exact He|]. constructor; [|done]. unfold not_delta. cbn. discriminate.
Qed.

Lemma keeps_load_engine sn : keeps mk_broker (load_into_engine sn).
Proof. unfold load_into_engine. apply fixes_bind; [auto with market|]. intros [e|]; auto with market. Qed.

Lemma quiet_rest reason : quiet (_fetch_rest_snapshot_delta c y reason).
Proof.
  apply quiet_keeps. unfold _fetch_rest_snapshot_delta. apply fixes_bind; [auto with market|]. intros sn.
  apply fixes_bind; [apply keeps_load_engine|]. auto 8 with market.
Qed.

Lemma quiet_bootstrap : quiet (bootstrap c y).
Proof.
  apply quiet_keeps. unfold bootstrap. apply fixes_bind; [auto with market|]. intros []; [auto with market|].
  apply fixes_bind; [auto with market|]. intros sn. apply fixes_bind; [apply keeps_load_engine|]. auto with market.
Qed.

Lemma quiet_websocket_failed e : quiet (websocket_failed c y e).
Proof.
  unfold websocket_failed. apply quiet_bind; [apply quiet_keeps; auto with market|]. intros resilience.
  apply quiet_bind.
  { apply quiet_keeps. destruct resilience as [m|]; [|auto with market]. destruct (record_disconnect _ _ m). auto with market. }
  intros _. apply quiet_bind; [apply quiet_keeps; auto with market|]. intros _.
  apply quiet_bind; [apply quiet_notify|]. intros _. apply quiet_rest.
Qed.

Lemma quiet_integrity delta : quiet (_apply_integrity_to_websocket_delta c y delta).
Proof.
  unfold _apply_integrity_to_websocket_delta. apply quiet_bind; [apply quiet_keeps; auto with market|]. intros [e|]; [|apply quiet_keeps; auto with market].
  destruct (String.eqb _ "ignore_stale"); [apply quiet_rest|]. destruct (String.eqb _ "resync"); [apply quiet_rest|].
  destruct (apply_delta delta e) as [[e' []]|[cls msg]]; [apply quiet_keeps; auto with market|apply quiet_rest|].
  destruct cls; try (apply quiet_keeps; solve [auto with market]). apply quiet_rest.
Qed.

Lemma quiet_next_delta : quiet (next_delta c y).
Proof.
  unfold next_delta. destruct (_source_is_websocket _); [|apply quiet_keeps; auto with market].
  unfold _poll_websocket_delta_with_integrity. apply quiet_bind; [apply quiet_keeps; auto with market|]. intros resilience.
  apply quiet_bind; [apply quiet_keeps; auto with market|]. intros probe. destruct (_ && _); [apply quiet_rest|].
  destruct (poll_delta _ _ _ _); [|apply quiet_websocket_failed]. apply quiet_bind; [apply quiet_keeps; auto with market|].
  intros _. apply quiet_integrity.
Qed.

Lemma keeps_store_after (envelope : dict) : keeps mk_broker
  (summary ← lift (_market_envelope_summary envelope);
   _ ← modify (set_summary summary);
   _ ← (if mc_has_store c
        then on_timeseries (persist_orderbook_envelope (iso_z (cy_now y 4%nat)) (iso_z (cy_now y 5%nat)) envelope)
        else mret tt);
   _ ← _poll_klines_if_due c y;
   mret envelope).
Proof.
  assert (forall A (m : prog timeseries A), keeps mk_broker (on_timeseries m)) as Hts.
  { intros A m w w' r. unfold on_timeseries, zoom. destruct (m _). by intros [= <- <-]. }
  apply fixes_bind; [auto with market|]. intros summary. apply fixes_bind; [auto with market|]. intros _.
  apply fixes_bind; [destruct (mc_has_store c); auto with market|]. intros _. apply fixes_bind; [|auto with market].
  unfold _poll_klines_if_due. destruct (_ || _ || _); [auto with market|]. apply fixes_bind; [auto with market|].
  intros last. destruct (match last with Some t => _ | None => false end); [auto with market|].
  apply fixes_bind; [|auto with market]. apply fixes_for_each. intros interval. unfold poll_interval. auto with market.
Qed.

(** Publishing sends the one message of the delta, or fails before. *)
Lemma publish_logged delta w w' r :
  publish_and_store c y delta w = (w', r) -> bindings_declared (mk_broker w) ->
  (mk_broker w' = mk_broker w /\ is_ok r = false) \/
  exists message, emits (mk_broker w) (mk_broker w') [("market.canonical"%string, message)] /\
    dict_get "event_type" message = Some (VStr DELTA) /\ dget "payload" message = VDict (normalize_order_book_delta delta) /\
    (forall envelope, r = Ok envelope -> envelope = message).
Proof.
  intros H Hd. unfold publish_and_store in H. unfold mbind at 1, prog_bind at 1 in H.
  assert (keeps mk_broker (_record_processed_delta_metrics y delta)) as Hk.
  { unfold _record_processed_delta_metrics. apply fixes_bind; [auto with market|]. intros [m|]; auto with market. }
  destruct (_record_processed_delta_metrics y delta w) as [w1 r1] eqn:E1. apply Hk in E1.
  destruct r1 as [[]|e]; [|injection H as <- <-; by left]. rewrite <- E1 in Hd |- *. clear Hk E1 w. unfold mbind at 1, prog_bind at 1, zoom at 1 in H.
  unfold publish_order_book_delta in H. rewrite lift_bind in H.
  destruct (delta_envelope _ _ _ _) as [message|e] eqn:Em; [|injection H as <- <-; by left].
  unfold mbind at 1, prog_bind at 1 in H.
  destruct (broker_publish_emits "market.canonical" message (mk_broker w1) Hd) as (b' & receipt & E & He). rewrite E in H. cbn [mret prog_ret] in H.
  right. exists message. assert (mk_broker w' = b') as ->.
  { apply keeps_store_after in H. exact H. }
  split; [exact He|]. unfold delta_envelope, _build_envelope in Em. apply bind_Ok in Em as (u & _ & [= <-]). split_and!; try done.
  intros envelope ->. apply prog_bind_Ok in H as (we & summary & _ & H). apply prog_bind_Ok in H as (wf & [] & _ & H).
  apply prog_bind_Ok in H as (wg & [] & _ & H). by apply prog_bind_Ok in H as (wh & [] & _ & [= _ <-]).
Qed.
End publishing.

(** What a cycle leaves on the broker: no order book delta and an exception, or
    one delta, which took the book of the worker to its new state. *)
Definition published_by (c : market_config) (y : cycle) (w w' : market_worker) (r : result dict) (log : list (string * dict)) : Prop :=
  (Forall not_delta log /\ is_ok r = false) \/
  exists e e' delta message before after,
    log = before ++ ("market.canonical"%string, message) :: after /\ Forall not_delta before /\ Forall not_delta after /\
    dict_get "event_type" message = Some (VStr DELTA) /\ dget "payload" message = VDict (normalize_order_book_delta delta) /\
    starts_from c y w e /\ mk_sync_engine w' = Some e' /\ follows c y (mk_last_delta_source w') delta e e' /\
    (forall envelope, r = Ok envelope -> envelope = message).

Lemma body_publishes c y w w' r e0 :
  _source_is_websocket (mc_delta_source c) = true -> mk_sync_engine w = Some e0 -> bindings_declared (mk_broker w) ->
  run_body c y w = (w', r) ->
  exists log, emits (mk_broker w) (mk_broker w') log /\ published_by c y w w' r log.
Proof.
  intros Hws He Hd H. unfold run_body in H. unfold mbind at 1, prog_bind at 1 in H.
  destruct (bootstrap c y w) as [w1 r1] eqn:E1. destruct (quiet_bootstrap c y _ _ _ E1 Hd) as (l1 & L1 & N1).
  destruct r1 as [[]|x]; [|injection H as <- <-; exists l1; by split; [|left]].
  destruct (bootstrap_spec _ _ _ _ _ He E1) as (e & Hea & Hst). pose proof (emits_declared _ _ _ L1 Hd) as Hd1.
  unfold mbind at 1, prog_bind at 1 in H. destruct (next_delta c y w1) as [w2 r2] eqn:E2.
  destruct (quiet_next_delta c y _ _ _ E2 Hd1) as (l2 & L2 & N2). pose proof (emits_trans _ _ _ _ _ L1 L2) as L12.
  assert (Forall not_delta (l1 ++ l2)) as N12 by (by apply Forall_app).
  destruct r2 as [delta|x]; [|injection H as <- <-; exists (l1 ++ l2); by split; [|left]].
  destruct (next_delta_spec _ _ _ _ _ _ Hws Hea E2) as (e' & Heb & Hf).
  pose proof (fixes_publish book _ _ _ _ _ _ H) as Hk. injection Hk as Hk1 Hk2.
  destruct (publish_logged _ _ _ _ _ _ H (emits_declared _ _ _ L2 Hd1)) as [[Hb Hr]|(message & L3 & Ht & Hpl & Hr)].
  - exists (l1 ++ l2). rewrite Hb. by split; [|left].
  - exists ((l1 ++ l2) ++ [("market.canonical"%string, message)]). split; [by eapply emits_trans|]. right.
    exists e, e', delta, message, (l1 ++ l2), []. rewrite Hk1, Hk2. by split_and!.
Qed.

(** C31. In websocket mode, whatever the exchange answers and whether or not the cycle
    raises, a cycle publishes at most one order book delta, and exactly one when it
    returns, which is the envelope it returns. That delta takes the worker's own order
    book to its new state: it is the delta of the websocket, and the book accepted
    it in sequence, or it is the REST snapshot of the cycle, which replaced the book. So a
    stale delta and one after a gap are never published. Everything else on the broker is
    notifications. *)
Theorem published_delta_follows_book c y w w' r e0 :
  _source_is_websocket (mc_delta_source c) = true -> mk_sync_engine w = Some e0 -> bindings_declared (mk_broker w) ->
  run_once c y w = (w', r) ->
  exists log, emits (mk_broker w) (mk_broker w') log /\
    ((Forall not_delta log /\ is_ok r = false) \/
     exists e e' delta message before after,
       log = before ++ ("market.canonical"%string, message) :: after /\ Forall not_delta before /\ Forall not_delta after /\
       dict_get "event_type" message = Some (VStr DELTA) /\ dget "payload" message = VDict (normalize_order_book_delta delta) /\
       starts_from c y w e /\ mk_sync_engine w' = Some e' /\ follows c y (mk_last_delta_source w') delta e e' /\
       (forall envelope, r = Ok envelope -> envelope = message)).
Proof.
  intros Hws He Hd H. unfold run_once in H. destruct (run_body c y w) as [w1 [env|x]] eqn:Eb.
  - injection H as <- <-. exact (body_publishes _ _ _ _ _ _ Hws He Hd Eb).
  - destruct (body_publishes _ _ _ _ _ _ Hws He Hd Eb) as (log & L1 & Hp).
    unfold mbind, prog_bind in H. destruct (notify_connectivity _ _ _ _ _ _ w1) as [w2 r2] eqn:En.
    destruct (quiet_notify _ _ _ _ _ _ _ _ _ En (emits_declared _ _ _ L1 Hd)) as (l2 & L2 & N2).
    pose proof (fixes_notify book _ _ _ _ _ _ _ _ _ En) as Hk. injection Hk as Hk1 Hk2.
    assert (w' = w2 /\ is_ok r = false) as [-> Hr] by (by destruct r2 as [[]|]; injection H as <- <-).
    exists (log ++ l2). split; [by eapply emits_trans|].
    destruct Hp as [[Hn _]|(e & e' & delta & message & before & after & -> & Nb & Na & Ht & Hpl & Hst & Hen & Hf & _)].
    + left. split; [by apply Forall_app|done].
    + right. exists e, e', delta, message, before, (after ++ l2). rewrite Hk1, Hk2, <- app_assoc.
      split_and!; try done; [by apply Forall_app|]. intros envelope ->. done.
Qed.

(** ** A stale stream is not polled again *)

(** Cycles one after the other. *)
Fixpoint run_cycles (c : market_config) (ys : list cycle) (w : market_worker) : market_worker * list (result dict) :=
  match ys with
  | [] => (w, [])
  | y :: ys' => let '(w1, r) := run_once c y w in let '(w2, rs) := run_cycles c ys' w1 in (w2, r :: rs)
  end.

(** The same cycle with another answer of the websocket. *)
Definition with_ws (answer : cycle -> result dict) (y : cycle) : cycle :=
  {| cy_rest := cy_rest y; cy_ws := answer y; cy_klines := cy_klines y; cy_monotonic := cy_monotonic y;
     cy_time := cy_time y; cy_now := cy_now y; cy_uuid := cy_uuid y; cy_draws := cy_draws y;
     cy_random := cy_random y; cy_pow := cy_pow y |}.

(** A cycle starts less than the probe interval after the snapshot of the one
    before it. *)
Fixpoint frequent (c : market_config) (probe : f64) (ys : list cycle) : Prop :=
  match ys with
  | [] => True
  | y :: ys' => fltb (cy_monotonic y 1) probe = true /\
                frequent c (fadd (cy_monotonic y 4) (mc_ws_probe_interval_seconds c)) ys'
  end.

(** A stale manager, and REST answers. *)
Definition silent (c : market_config) (m : ConnectionResilienceManager) (y : cycle) : Prop :=
  is_stale (cy_monotonic y 1) m = true /\ exists sn, fetch_snapshot c y 1 = Ok sn.

Record cut_over (c : market_config) (m : ConnectionResilienceManager) (w : market_worker) : Prop := {
  cut_bootstrapped : mk_bootstrapped w = true;
  cut_engine : exists e, mk_sync_engine w = Some e /\ ob_exchange e = mc_exchange c /\ ob_symbol e = mc_symbol c;
  cut_resilience : mk_resilience w = Some m }.

Lemma fetch_snapshot_scope c y k sn :
  fetch_snapshot c y k = Ok sn -> sn_exchange sn = mc_exchange c /\ sn_symbol sn = mc_symbol c.
Proof.
  unfold fetch_snapshot, bootstrap_snapshot. intros (raw & _ & H)%bind_Ok. unfold _normalize_snapshot in H.
  destruct (dget "bids" raw); try done. destruct (dget "asks" raw); try done. cbn [ad_exchange adapter] in H.
  repeat (let a := fresh in let E := fresh in apply bind_Ok in H as (a & E & H)). by injection H as <-.
Qed.

Definition cutover_body (c : market_config) (y : cycle) : prog market_worker dict :=
  delta ← _fetch_rest_snapshot_delta c y "stream_stale_cutover";
  publish_and_store c y delta.

(** The cycle takes the REST snapshot. *)
Lemma run_body_cut_over c m y w :
  _source_is_websocket (mc_delta_source c) = true -> cut_over c m w -> silent c m y ->
  fltb (cy_monotonic y 1) (mk_next_ws_probe w) = true -> run_body c y w = cutover_body c y w.
Proof.
  intros Hws [Hb _ Hm] [Hst _] Hp. assert (bootstrap c y w = (w, Ok tt)) as Hboot by (unfold bootstrap; by rewrite gets_bind, Hb).
  unfold run_body, cutover_body. unfold mbind at 1, prog_bind at 1. rewrite Hboot. unfold mbind, prog_bind, next_delta.
  rewrite Hws. unfold _poll_websocket_delta_with_integrity. by rewrite !gets_bind, Hm, Hst, Hp.
Qed.

Lemma fetch_rest_ok c y reason w e sn :
  mk_sync_engine w = Some e -> ob_exchange e = mc_exchange c -> ob_symbol e = mc_symbol c ->
  fetch_snapshot c y 1 = Ok sn ->
  exists e', load_snapshot sn e = Ok e' /\
    _fetch_rest_snapshot_delta c y reason w =
      (set_next_probe (fadd (cy_monotonic y 4) (mc_ws_probe_interval_seconds c))
         (set_source "rest" (Some reason) (on_metrics (record_resync_request (cy_time y 1)) (set_engine e' w))),
       Ok (_snapshot_to_delta sn)).
Proof.
  intros He Hx Hy Hsn. destruct (fetch_snapshot_scope _ _ _ _ Hsn) as [S1 S2].
  unfold _fetch_rest_snapshot_delta. rewrite lift_bind, Hsn. unfold load_into_engine. unfold mbind at 1, prog_bind at 1.
  rewrite gets_bind, He, lift_bind. unfold load_snapshot. rewrite scope_ok by congruence. cbn [mbind result_bind].
  eexists. split; reflexivity.
Qed.

Lemma cutover_body_spec c m y w :
  cut_over c m w -> silent c m y ->
  cut_over c m (cutover_body c y w).1 /\ mk_last_delta_source (cutover_body c y w).1 = Some "rest"%string /\
  mk_next_ws_probe (cutover_body c y w).1 = fadd (cy_monotonic y 4) (mc_ws_probe_interval_seconds c).
Proof.
  intros [Hb (e & He & Hx & Hy) Hm] [_ (sn & Hsn)].
  destruct (fetch_rest_ok c y "stream_stale_cutover" w e sn He Hx Hy Hsn) as (e' & Hl & Hf).
  assert (ob_exchange e' = ob_exchange e /\ ob_symbol e' = ob_symbol e) as [X1 X2].
  { unfold load_snapshot in Hl. by apply bind_Ok in Hl as (u & _ & [= <-]). }
  unfold cutover_body. unfold mbind, prog_bind. rewrite Hf. cbv beta iota.
  match goal with |- context [publish_and_store c y ?d ?w1] =>
    pose proof (fixes_publish link c y d w1 _ _ (surjective_pairing _)) as Hk end.
  split_and!; [|exact (f_equal snd Hk)|exact (f_equal (fun x => x.1.2) Hk)]. split.
  - exact (eq_trans (f_equal (fun x => x.1.1.1.1) Hk) Hb).
  - exists e'. split; [exact (f_equal (fun x => x.1.1.1.2) Hk)|]. split; congruence.
  - exact (eq_trans (f_equal (fun x => x.1.1.2) Hk) Hm).
Qed.

Lemma cut_over_link c m w w' : link w' = link w -> cut_over c m w -> cut_over c m w'.
Proof.
  unfold link. intros [= E1 E2 E3 E4 E5] [Hb (e & He & Hs) Hm]. split; [congruence| |congruence].
  exists e. split; [congruence|done].
Qed.

Lemma run_once_cut_over c m y w answer :
  _source_is_websocket (mc_delta_source c) = true -> cut_over c m w -> silent c m y ->
  fltb (cy_monotonic y 1) (mk_next_ws_probe w) = true ->
  run_once c (with_ws answer y) w = run_once c y w /\
  cut_over c m (run_once c y w).1 /\ mk_last_delta_source (run_once c y w).1 = Some "rest"%string /\
  mk_next_ws_probe (run_once c y w).1 = fadd (cy_monotonic y 4) (mc_ws_probe_interval_seconds c).
Proof.
  intros Hws Hc Hs Hp. pose proof (run_body_cut_over _ _ _ _ Hws Hc Hs Hp) as E.
  pose proof (run_body_cut_over c m (with_ws answer y) w Hws Hc Hs Hp) as E'.
  change (cutover_body c (with_ws answer y) w) with (cutover_body c y w) in E'.
  destruct (cutover_body_spec c m y w Hc Hs) as (C1 & C2 & C3). unfold run_once. rewrite E, E'.
  destruct (cutover_body c y w) as [w' [env|exc]]; [done|]. split; [done|]. cbn [fst] in C1, C2, C3.
  match goal with |- context [(?m w').1] => assert (keeps link m) as Hk by (apply fixes_bind; [apply fixes_notify; apply _|intros; apply fixes_lift]);
    pose proof (Hk w' _ _ (surjective_pairing _)) as Hl end.
  split; [by eapply cut_over_link|]. injection Hl as _ _ _ -> ->. done.
Qed.

(** The time of the next websocket probe is put off by every REST snapshot, also
    by those taken because the stream is stale. A worker in websocket mode whose
    stream has gone stale and whose cycles follow each other faster than the probe
    interval takes every message from REST: it never asks the websocket again,
    whatever the websocket would answer, so the stream cannot recover. *)
Theorem stale_stream_never_probed c m answer ys w :
  _source_is_websocket (mc_delta_source c) = true -> cut_over c m w -> Forall (silent c m) ys ->
  frequent c (mk_next_ws_probe w) ys ->
  run_cycles c (with_ws answer <$> ys) w = run_cycles c ys w /\
  cut_over c m (run_cycles c ys w).1 /\
  (ys <> [] -> mk_last_delta_source (run_cycles c ys w).1 = Some "rest"%string).
Proof.
  intros Hws Hc Hl. revert w Hc. induction Hl as [|y ys Hy Hl IH]; intros w Hc Hf; [done|]. destruct Hf as [Hp Hf].
  destruct (run_once_cut_over c m y w answer Hws Hc Hy Hp) as (E & Hc1 & Hs1 & Hp1).
  rewrite fmap_cons. cbn [run_cycles]. rewrite E. destruct (run_once c y w) as [w1 r]. cbn [fst] in *.
  rewrite <- Hp1 in Hf. destruct (IH w1 Hc1 Hf) as (E2 & Hc2 & Hs2). rewrite E2.
  destruct (run_cycles c ys w1) as [w2 rs] eqn:Er. cbn [fst] in *. split; [done|]. split; [done|]. intros _.
  destruct ys as [|y' ys]; [|by apply Hs2]. by injection Er as <- <-.
Qed.

(** ** Several exchanges in one process *)

(** [MultiExchangeMarketIngestionRuntimeWorker.run_once]: the workers run one
    after the other on one broker and one database; the result is the last
    envelope. *)
Fixpoint run_workers (l : list (market_config * cycle * market_worker)) (b : InMemoryTopicBroker) (s : timeseries)
    (last_envelope : option dict) : list market_worker * result dict :=
  match l with
  | [] => ([], match last_envelope with
               | Some env => Ok env
               | None => raise RuntimeError "multi-exchange market worker executed with no workers"
               end)
  | (c, y, w) :: l' =>
      match run_once c y (set_mk_store s (set_mk_broker b w)) with
      | (w', Ok env) =>
          let '(ws, r) := run_workers l' (mk_broker w') (mk_store w') (Some env) in (w' :: ws, r)
      | (w', Raise e) => (w' :: (snd <$> l'), Raise e)
      end
  end.

Definition multi_worker_init (workers : list market_worker) : result (list market_worker) :=
  _ ← raise_if (bool_decide (List.length workers = 0%nat)) ValueError "workers must be non-empty"; Ok workers.

(** A worker that fails ends the cycle: those after it are not run. *)
Lemma failing_exchange_starves l1 c y w l2 b s last :
  (forall b s, exists e, (run_once c y (set_mk_store s (set_mk_broker b w))).2 = Raise e) ->
  exists ws e, run_workers (l1 ++ (c, y, w) :: l2) b s last = (ws ++ (snd <$> l2), Raise e) /\
    (List.length ws <= S (List.length l1))%nat.
Proof.
  intros Hfail. revert b s last. induction l1 as [|[[c1 y1] v1] l1 IH]; intros b s last; cbn [app run_workers].
  - destruct (Hfail b s) as [e He]. destruct (run_once c y _) as [w' r]. cbn [snd] in He. subst r.
    exists [w'], e. split; [done|]. cbn. lia.
  - destruct (run_once c1 y1 _) as [w' [env|e]].
    + destruct (IH (mk_broker w') (mk_store w') (Some env)) as (ws & e & -> & Hl). exists (w' :: ws), e. split; [done|].
      cbn [List.length]. lia.
    + exists (w' :: (snd <$> l1) ++ [w]), e. rewrite fmap_app, fmap_cons. cbn [app snd]. rewrite <- app_assoc.
      split; [done|]. cbn [List.length]. rewrite length_app, length_fmap. cbn. lia.
Qed.

Module Example_runtime.
Definition config : market_config :=
  config_init "binance" "websocket" "market_ingestion" "BTC/USDT" "MOCK" 20 None true false [] (flit 60 0) 200
    (flit 15 0) (flit 5 0).
Definition level (p a : Z) : val := VList [VInt p; VInt a].
Definition snapshot (nonce : Z) : dict :=
  [("nonce", VInt nonce); ("timestamp", VInt 1714564800000); ("bids", VList [level 50000 1; level 49000 2]);
   ("asks", VList [level 50010 1])].
Definition stream_delta (st en : Z) : dict :=
  [("U", VInt st); ("u", VInt en); ("timestamp", VInt 1714564800000); ("bids", VList [level 50000 0]);
   ("asks", VList [level 50005 3])].
Definition at_time (t : Z) (rest : dict) (ws : result dict) : cycle :=
  {| cy_rest := fun _ => Ok rest; cy_ws := ws; cy_klines := fun _ => Ok []; cy_monotonic := fun _ => flit t 0;
     cy_time := fun _ => flit 1714564800 0; cy_now := fun _ => 63850000000000000; cy_uuid := fun k => Z.of_nat k;
     cy_draws := Draws 63850000000000000 7 8; cy_random := flit 5 (-1); cy_pow := fun x _ => Ok x |}.
Definition start : market_worker :=
  worker_init config {| br_queues := ∅; br_bindings := ∅ |} {| ts_books := []; ts_klines := [] |}.

(** A delta of the stream, then the stream breaks. *)
Definition c1 : cycle := at_time 0 (snapshot 100) (Ok (stream_delta 99 103)).
Definition c2 : cycle := at_time 20 (snapshot 200) (raise RuntimeError "connection lost").
Definition w1 : market_worker := (run_once config c1 start).1.
Definition w2 : market_worker := (run_once config c2 w1).1.
Definition published : result dict := (run_once config c1 start).2.
(** The stream is back, and no one asks. *)
Definition later : list cycle := (fun t => at_time t (snapshot (180 + t)) (Ok (stream_delta 201 202))) <$> [21; 24; 27; 30].
Definition manager : ConnectionResilienceManager :=
  default {| cm_config := backoff_config fone; cm_last_heartbeat_seconds := None; cm_disconnect_attempts := 0 |}
    (mk_resilience w2).

Lemma published_delta_follows_book_witness :
  exists log e e' delta, emits (mk_broker start) (mk_broker w1) log /\ starts_from config c1 start e /\
    mk_sync_engine w1 = Some e' /\ apply_delta delta e = Ok (e', true) /\ List.length (List.filter (fun km => String.eqb km.1 "market.canonical") log) = 1%nat.
Proof.
  destruct (published_delta_follows_book config c1 start w1 published (engine_init "binance" "BTC/USDT"))
    as (log & Hlog & [[_ Hr]|(e & e' & delta & message & before & after & -> & _ & _ & _ & _ & H1 & H2 & H3 & _)]).
  - vm_compute. reflexivity.
  - vm_compute. reflexivity.
  - intros q s x Hq. vm_compute in Hq. discriminate Hq.
  - apply surjective_pairing.
  - vm_compute in Hr. discriminate Hr.
  - exists [("market.canonical"%string, message)], e, e', delta. split_and!; [|exact H1|exact H2| |reflexivity].
    + destruct Hlog as [Hb Hq]. split; [exact Hb|]. intros q. rewrite Hq. reflexivity.
    + destruct H3 as [(_ & _ & H3)|[H3 _]]; [exact H3|]. vm_compute in H3. discriminate H3.
Defined.

Lemma stale_stream_never_probed_witness :
  run_cycles config (with_ws (fun _ => raise RuntimeError "still down") <$> later) w2 = run_cycles config later w2 /\
  mk_last_fallback_reason w2 = Some "websocket_error_fallback"%string /\
  mk_last_delta_source (run_cycles config later w2).1 = Some "rest"%string.
Proof.
  destruct (stale_stream_never_probed config manager (fun _ => raise RuntimeError "still down") later w2) as (H1 & _ & H3).
  - vm_compute. reflexivity.
  - split; [vm_compute; reflexivity| |vm_compute; reflexivity].
    destruct (mk_sync_engine w2) as [e|] eqn:E; [|vm_compute in E; discriminate E].
    exists e. vm_compute in E. injection E as <-. split; [reflexivity|]. split; reflexivity.
  - unfold later. repeat constructor; try (vm_compute; reflexivity); eexists; vm_compute; reflexivity.
  - repeat split; vm_compute; reflexivity.
  - split; [exact H1|]. split; [vm_compute; reflexivity|]. apply H3. discriminate.
Defined.
End Example_runtime.
