(* ===== verification/Agents.v ===== *)
(** * The decision agents

    [services/agent_orchestrator/contracts.py], [market_context_agent.py],
    [planner_agent.py], [risk_agent.py], [execution_decision_agent.py] and
    [guardrail_validation.py]: a market payload becomes a context, a plan, a
    risk assessment, an execution decision and a guardrail verdict. Contexts and
    constraints are dicts, as in the code; strategy limits are floats. *)

From S2P Require Import Prelude PyStr PyFloat PyDecimal PyVal.
From stdpp Require Import options.
From Stdlib Require Import Ascii String SpecFloat Qabs.

#[local] Open Scope Z_scope.

(** ** Contracts *)

Record StrategyConfig := {
  sc_strategy_id : string;
  sc_symbol : string;
  sc_mode : string;
  sc_order_size : f64;
  sc_planner_buy_threshold : f64;
  sc_planner_sell_threshold : f64;
  sc_risk_max_notional_usd : f64;
  sc_risk_max_position_size : f64;
  sc_risk_max_drawdown_pct : f64;
  sc_risk_min_confidence : f64;
  sc_max_leverage : f64;
  sc_allowed_actions : list string;
}.

Record PlannerDecision := {
  pd_action : string;
  pd_confidence : f64;
  pd_target_quantity : f64;
  pd_rationale : list string;
  pd_metrics : dict;
}.

Record RiskSignal := {
  rs_name : string;
  rs_passed : bool;
  rs_value : f64;
  rs_limit : f64;
  rs_message : string;
}.

Record RiskAssessment := {
  ra_approved : bool;
  ra_approved_quantity : f64;
  ra_signals : list RiskSignal;
  ra_blocked_by : list string;
  ra_risk_score : f64;
  ra_rationale : list string;
}.

Record ExecutionDecision := {
  ed_action : string;
  ed_quantity : f64;
  ed_confidence : f64;
  ed_rationale : list string;
  ed_constraints : dict;
}.

Record GuardrailViolation := { gv_code : string; gv_message : string; gv_details : dict }.

Record GuardrailValidationResult := {
  gr_allowed : bool;
  gr_blocked_by : list string;
  gr_violations : list GuardrailViolation;
  gr_checks : list (string * bool);
}.

Record MarketContextOutput := {
  mc_context : dict;
  mc_microstructure : dict;
  mc_news : dict;
  mc_quality : dict;
  mc_notes : list string;
}.

(** ** Market context *)

Definition type_or_value (c : exc_class) : bool :=
  match c with TypeError => true | _ => is_value_error c end.

Definition _to_float (value : val) (default : f64) : result f64 :=
  try_except (float_of_val value) type_or_value (fun _ => Ok default).
Definition _to_int (value : val) (default : Z) : result Z :=
  try_except (int_of_val value) type_or_value (fun _ => Ok default).

(** One level of the book, [None] when it is skipped. *)
Definition book_level (level : val) : result (option (f64 * f64)) :=
  match level with
  | VDict d =>
      try_except
        (pv ← dict_index "price" d; price ← float_of_val pv;
         av ← dict_index "amount" d; size ← float_of_val av;
         Ok (Some (price, fmax fzero size)))
        (fun c => match c with KeyError => true | _ => type_or_value c end)
        (fun _ => Ok None)
  | _ => Ok None
  end.

(** [max(l, key=...)] and [min(l, key=...)]: the first extreme element. *)
Definition first_max (x : f64 * f64) (l : list (f64 * f64)) : f64 * f64 :=
  foldl (fun best y => if fltb best.1 y.1 then y else best) x l.
Definition first_min (x : f64 * f64) (l : list (f64 * f64)) : f64 * f64 :=
  foldl (fun best y => if fltb y.1 best.1 then y else best) x l.

Definition _extract_level (levels : val) (side : string) : result (option f64 * f64) :=
  match levels with
  | VList l =>
      parsed ← map_res book_level l;
      match omap id parsed with
      | [] => Ok (None, fzero)
      | x :: rest =>
          let best := if String.eqb side "bid" then first_max x rest else first_min x rest in
          Ok (Some best.1, best.2)
      end
  | _ => Ok (None, fzero)
  end.

Definition _microstructure_regime (has_orderbook : bool) (orderbook_imbalance : f64) : string :=
  if negb has_orderbook then "unknown"
  else if fleb (flit 2 (-1)) orderbook_imbalance then "bid_dominant"
  else if fleb orderbook_imbalance (flit (-2) (-1)) then "ask_dominant"
  else "balanced".

Definition NO_NEWS : string := "news_unavailable".

Definition _extract_news (payload : dict) : result (string * f64 * Z * bool) :=
  match dget "news" payload with
  | VDict news =>
      let summary := str_or (strip (py_str (dget_or "summary" (VStr NO_NEWS) news))) NO_NEWS in
      sentiment ← _to_float (dget "sentiment" news) fzero;
      source_count ← _to_int (dget "source_count" news) 0;
      Ok (summary, sentiment, source_count, String.eqb summary NO_NEWS)
  | _ => Ok (NO_NEWS, fzero, 0, true)
  end.

Definition _context_score (has_orderbook has_news : bool) : f64 :=
  let s1 := if has_orderbook then fadd fzero (flit 8 (-1)) else fzero in
  let s2 := if has_news then fadd s1 (flit 2 (-1)) else s1 in
  fmin fone s2.

(** Mid price and spread of the two best levels. *)
Definition mid_and_spread (best_bid best_ask : option f64) (payload : dict) : result (f64 * f64) :=
  match best_bid, best_ask with
  | Some b, Some a =>
      mid_price ← py_fdiv (fadd b a) (flit 2 0);
      if fltb fzero mid_price
      then s ← py_fdiv (fsub a b) mid_price; Ok (mid_price, fmul s (flit 10000 0))
      else Ok (mid_price, fzero)
  | _, _ => mid_price ← _to_float (dget "mid_price" payload) fzero; Ok (mid_price, fzero)
  end.

Definition imbalance_of (bid_size ask_size : f64) : result f64 :=
  let total := fadd bid_size ask_size in
  if fltb fzero total then py_fdiv (fsub bid_size ask_size) total else Ok fzero.

Definition opt_float (x : option f64) : val := match x with Some f => VFloat f | None => VNone end.

Definition enrich (payload : dict) (strategy : StrategyConfig) : result MarketContextOutput :=
  '(best_bid, best_bid_size) ← _extract_level (dget "bids" payload) "bid";
  '(best_ask, best_ask_size) ← _extract_level (dget "asks" payload) "ask";
  '(mid_price, spread_bps) ← mid_and_spread best_bid best_ask payload;
  orderbook_imbalance ← imbalance_of best_bid_size best_ask_size;
  let has_orderbook := match best_bid, best_ask with Some _, Some _ => true | _, _ => false end in
  let regime := _microstructure_regime has_orderbook orderbook_imbalance in
  '(news_summary, news_sentiment, news_source_count, news_fallback) ← _extract_news payload;
  current_position ← _to_float (dget "current_position" payload) fzero;
  drawdown_pct ← _to_float (dget "drawdown_pct" payload) fzero;
  Ok {| mc_context :=
          [("exchange", dget_or "exchange" (VStr "unknown") payload);
           ("symbol", dget_or "symbol" (VStr (sc_symbol strategy)) payload);
           ("timestamp_ms", dget "timestamp_ms" payload);
           ("best_bid", opt_float best_bid); ("best_ask", opt_float best_ask);
           ("best_bid_size", VFloat best_bid_size); ("best_ask_size", VFloat best_ask_size);
           ("mid_price", VFloat mid_price); ("spread_bps", VFloat spread_bps);
           ("orderbook_imbalance", VFloat orderbook_imbalance); ("microstructure_regime", VStr regime);
           ("current_position", VFloat current_position); ("drawdown_pct", VFloat drawdown_pct);
           ("news_summary", VStr news_summary); ("news_sentiment", VFloat news_sentiment);
           ("news_source_count", VInt news_source_count)];
        mc_microstructure :=
          [("spread_bps", VFloat spread_bps); ("orderbook_imbalance", VFloat orderbook_imbalance);
           ("regime", VStr regime)];
        mc_news :=
          [("summary", VStr news_summary); ("sentiment", VFloat news_sentiment);
           ("source_count", VInt news_source_count); ("is_fallback", VBool news_fallback)];
        mc_quality :=
          [("has_orderbook", VBool has_orderbook); ("has_news", VBool (negb news_fallback));
           ("context_score", VFloat (_context_score has_orderbook (negb news_fallback)))];
        mc_notes := (if has_orderbook then [] else ["orderbook_unavailable"%string]) ++
                    (if news_fallback then [NO_NEWS] else []) |}.

(** ** Planner *)

Definition _select_action (imbalance : f64) (strategy : StrategyConfig) : string :=
  if fleb (sc_planner_buy_threshold strategy) imbalance then "BUY"
  else if fleb imbalance (fneg (sc_planner_sell_threshold strategy)) then "SELL"
  else "HOLD".

(** [float(market_context.get(key, 0.0))] *)
Definition ctx_float (key : string) (market_context : dict) : result f64 :=
  float_of_val (dget_or key (VFloat fzero) market_context).

Definition build_plan (market_context : dict) (strategy : StrategyConfig) : result PlannerDecision :=
  b ← ctx_float "best_bid_size" market_context;
  a ← ctx_float "best_ask_size" market_context;
  let bid_size := fmax fzero b in
  let ask_size := fmax fzero a in
  imbalance ← imbalance_of bid_size ask_size;
  let action := _select_action imbalance strategy in
  let confidence := fmin fone (fabs imbalance) in
  let scaled := fmul (sc_order_size strategy) (fmax confidence (sc_risk_min_confidence strategy)) in
  let target_quantity :=
    if String.eqb action "HOLD" then fzero else if String.eqb action "BUY" then scaled else fneg scaled in
  mid_price ← ctx_float "mid_price" market_context;
  Ok {| pd_action := action; pd_confidence := confidence; pd_target_quantity := target_quantity;
        pd_rationale :=
          ["orderbook imbalance=" +:+ format_fixed 4 imbalance;
           "buy_threshold=" +:+ format_fixed 4 (sc_planner_buy_threshold strategy);
           "sell_threshold=" +:+ format_fixed 4 (sc_planner_sell_threshold strategy)];
        pd_metrics :=
          [("orderbook_imbalance", VFloat imbalance); ("mid_price", VFloat mid_price);
           ("best_bid_size", VFloat bid_size); ("best_ask_size", VFloat ask_size)] |}.

(** ** Risk *)

Definition EXECUTABLE : list string := ["BUY"; "SELL"; "CLOSE"].

Definition signal (name : string) (passed : bool) (value limit : f64) (message : string) : RiskSignal :=
  {| rs_name := name; rs_passed := passed; rs_value := value; rs_limit := limit; rs_message := message |}.

Definition risk_signals (plan : PlannerDecision) (strategy : StrategyConfig)
    (proposed_notional projected_position drawdown_pct : f64) : list RiskSignal :=
  let positive := fltb fzero (fabs (pd_target_quantity plan)) in
  [signal "confidence_minimum" (fleb (sc_risk_min_confidence strategy) (pd_confidence plan))
     (pd_confidence plan) (sc_risk_min_confidence strategy)
     "Planner confidence must meet minimum threshold";
   signal "actionable_plan" (bool_decide (pd_action plan ∈ EXECUTABLE) && positive)
     (if positive then fone else fzero) fone "Plan action must produce a non-zero executable quantity";
   signal "notional_limit" (fleb proposed_notional (sc_risk_max_notional_usd strategy))
     proposed_notional (sc_risk_max_notional_usd strategy)
     "Planned notional must remain within max_notional_usd";
   signal "position_limit" (fleb projected_position (sc_risk_max_position_size strategy))
     projected_position (sc_risk_max_position_size strategy)
     "Projected position must remain within max_position_size";
   signal "drawdown_limit" (fleb drawdown_pct (sc_risk_max_drawdown_pct strategy))
     drawdown_pct (sc_risk_max_drawdown_pct strategy)
     "Current drawdown must remain within risk threshold"].

Definition evaluate (plan : PlannerDecision) (market_context : dict) (strategy : StrategyConfig)
  : result RiskAssessment :=
  mid_price ← ctx_float "mid_price" market_context;
  position ← ctx_float "current_position" market_context;
  drawdown_pct ← ctx_float "drawdown_pct" market_context;
  let proposed_quantity := fabs (pd_target_quantity plan) in
  let proposed_notional := fmul proposed_quantity mid_price in
  let projected_position := fadd (fabs position) proposed_quantity in
  let signals := risk_signals plan strategy proposed_notional projected_position drawdown_pct in
  let blocked_by := rs_name <$> filter (fun s => rs_passed s = false) signals in
  let approved := Z.of_nat (List.length blocked_by) =? 0 in
  risk_score ← py_fdiv (f_of_Z (Z.of_nat (List.length blocked_by))) (f_of_Z (Z.of_nat (List.length signals)));
  Ok {| ra_approved := approved;
        ra_approved_quantity := if approved then pd_target_quantity plan else fzero;
        ra_signals := signals; ra_blocked_by := blocked_by; ra_risk_score := risk_score;
        ra_rationale :=
          ["proposed_notional=" +:+ format_fixed 2 proposed_notional;
           "projected_position=" +:+ format_fixed 6 projected_position;
           "drawdown_pct=" +:+ format_fixed 4 drawdown_pct] |}.

(** ** Execution decision *)

Definition ALLOWED_ACTIONS : list string := ["BUY"; "SELL"; "HOLD"; "CLOSE"].

Definition _normalize_action (action : string) : string :=
  let normalized := upper action in
  if bool_decide (normalized ∈ ALLOWED_ACTIONS) then normalized else "HOLD".

Definition _resolve_quantity (action : string) (plan : PlannerDecision) (risk : RiskAssessment)
    (current_position default_size : f64) : f64 :=
  if String.eqb action "HOLD" then fzero
  else if String.eqb action "CLOSE" then
    if feqb current_position fzero then fzero else fneg current_position
  else
    let base :=
      if feqb (ra_approved_quantity risk) fzero
      then if negb (feqb (pd_target_quantity plan) fzero) then pd_target_quantity plan else default_size
      else ra_approved_quantity risk in
    if String.eqb action "BUY" then fabs base
    else if String.eqb action "SELL" then fneg (fabs base)
    else fzero.

Definition _normalize_action_quantity (action : string) (quantity : f64) : string * f64 :=
  if String.eqb action "BUY" && fleb quantity fzero then ("HOLD"%string, fzero)
  else if String.eqb action "SELL" && fleb fzero quantity then ("HOLD"%string, fzero)
  else if String.eqb action "CLOSE" && feqb quantity fzero then ("HOLD"%string, fzero)
  else if String.eqb action "HOLD" then ("HOLD"%string, fzero)
  else (action, quantity).

Definition _clamp_confidence (confidence : f64) : f64 := clamp01 confidence.

Definition schema_valid (action : string) (quantity : f64) : bool :=
  let known := bool_decide (action ∈ ALLOWED_ACTIONS) in
  if String.eqb action "BUY" then known && fltb fzero quantity
  else if String.eqb action "SELL" then known && fltb quantity fzero
  else if String.eqb action "CLOSE" then known && negb (feqb quantity fzero)
  else if String.eqb action "HOLD" then known && feqb quantity fzero
  else known.

Definition strs (l : list string) : val := VList (VStr <$> l).

Definition _constraints (action : string) (quantity : f64) (risk : RiskAssessment)
    (strategy : StrategyConfig) : dict :=
  [("schema_valid", VBool (schema_valid action quantity)); ("allowed_actions", strs ALLOWED_ACTIONS);
   ("risk_approved", VBool (ra_approved risk)); ("blocked_by", strs (ra_blocked_by risk));
   ("mode", VStr (sc_mode strategy))].

Definition decision (action : string) (quantity : f64) (plan : PlannerDecision) (risk : RiskAssessment)
    (strategy : StrategyConfig) (rationale : list string) : ExecutionDecision :=
  {| ed_action := action; ed_quantity := quantity; ed_confidence := _clamp_confidence (pd_confidence plan);
     ed_rationale := rationale; ed_constraints := _constraints action quantity risk strategy |}.

Definition propose_action (plan : PlannerDecision) (risk : RiskAssessment) (market_context : dict)
    (strategy : StrategyConfig) : result ExecutionDecision :=
  if negb (ra_approved risk) then
    Ok (decision "HOLD" fzero plan risk strategy
          ["risk_not_approved"%string; "blocked_by=" +:+ join "," (ra_blocked_by risk)])
  else
    let action := _normalize_action (pd_action plan) in
    current_position ← ctx_float "current_position" market_context;
    let quantity := _resolve_quantity action plan risk current_position (sc_order_size strategy) in
    let '(action', quantity') := _normalize_action_quantity action quantity in
    Ok (decision action' quantity' plan risk strategy
          ["planner_action=" +:+ pd_action plan;
           "risk_approved_quantity=" +:+ format_fixed 8 (ra_approved_quantity risk);
           "final_action=" +:+ action'; "final_quantity=" +:+ format_fixed 8 quantity']).

(** ** Guardrails *)

(** [Decimal(str(v))] *)
Definition dec_of_val (v : val) : result dec :=
  match v with
  | VFloat x => Ok (dec_of_repr x)
  | VInt n => Ok (DFin n 0)
  | VDec d => Ok d
  | _ => dec_of_string (py_str v)
  end.

(** [max(v, x)] of a dynamic value and a float: [v] unless [x > v]. *)
Definition val_max (v : val) (x : f64) : result val :=
  let pick (above : result bool) := g ← above; Ok (if g : bool then VFloat x else v) in
  match v with
  | VFloat y => pick (Ok (fltb y x))
  | VInt n => pick (dltb (DFin n 0) (dec_of_float x))
  | VBool b => pick (dltb (DFin (if b then 1 else 0) 0) (dec_of_float x))
  | VDec d => pick (dltb d (dec_of_float x))
  | _ => raise TypeError "'>' not supported between instances"
  end.

Definition _quantity_semantics_valid (action : string) (quantity : dec) : result bool :=
  if String.eqb action "BUY" then dltb d0 quantity
  else if String.eqb action "SELL" then dltb quantity d0
  else if String.eqb action "CLOSE" then Ok (negb (deqb quantity d0))
  else if String.eqb action "HOLD" then Ok (deqb quantity d0)
  else Ok false.

(** The amounts the limits are checked against. *)
Record exposure := {
  ex_projected_position : dec;
  ex_projected_notional : dec;
  ex_projected_leverage : dec;
}.

Definition project (market_context : dict) (quantity : dec) : result exposure :=
  mv ← val_max (dget_or "mid_price" (VFloat fzero) market_context) fzero;
  mid_price ← dec_of_val mv;
  current_position ← dec_of_val (dget_or "current_position" (VFloat fzero) market_context);
  projected_position ← dadd current_position quantity;
  a ← dabs quantity;
  projected_notional ← dmul a mid_price;
  priced ← dltb d0 mid_price;
  ev ← val_max (dget_or "equity_usd" (VFloat (if priced : bool then float_of_dec mid_price else fone))
                  market_context) fone;
  equity_usd ← dec_of_val ev;
  projected_leverage ←
    (if priced : bool then
       v ← dmul projected_position mid_price; av ← dabs v; ddiv av equity_usd
     else Ok d0);
  Ok {| ex_projected_position := projected_position; ex_projected_notional := projected_notional;
        ex_projected_leverage := projected_leverage |}.

(** A failed check is a violation with its code. *)
Definition violation (passed : bool) (code message : string) (details : dict) : list GuardrailViolation :=
  if passed then [] else [{| gv_code := code; gv_message := message; gv_details := details |}].

(** [(not executable_action) or (...)] *)
Definition unless_idle (executable : bool) (check : result bool) : result bool :=
  if negb executable then Ok true else check.

Definition validate (strategy : StrategyConfig) (market_context : dict) (risk : RiskAssessment)
    (decision : ExecutionDecision) : result GuardrailValidationResult :=
  let symbol := py_str (dget_or "symbol" (VStr "") market_context) in
  let action := upper (ed_action decision) in
  let quantity := dec_of_repr (ed_quantity decision) in
  let confidence := dec_of_repr (ed_confidence decision) in
  ex ← project market_context quantity;
  let action_allowed := bool_decide (action ∈ sc_allowed_actions strategy) in
  semantics ← _quantity_semantics_valid action quantity;
  let symbol_ok := String.eqb symbol (sc_symbol strategy) in
  let executable := bool_decide (action ∈ EXECUTABLE) in
  confident ← unless_idle executable (dleb (dec_of_repr (sc_risk_min_confidence strategy)) confidence);
  let aligned := negb executable || ra_approved risk in
  notional_ok ← unless_idle executable
    (dleb (ex_projected_notional ex) (dec_of_repr (sc_risk_max_notional_usd strategy)));
  position_ok ← unless_idle executable
    (a ← dabs (ex_projected_position ex); dleb a (dec_of_repr (sc_risk_max_position_size strategy)));
  leverage_ok ← unless_idle executable
    (dleb (ex_projected_leverage ex) (dec_of_repr (sc_max_leverage strategy)));
  let violations :=
    violation action_allowed "action_schema" "action not in allowed action set"
      [("action", VStr action); ("allowed_actions", strs (sc_allowed_actions strategy))] ++
    violation semantics "quantity_semantics" "quantity sign does not match action semantics"
      [("action", VStr action); ("quantity", VDec quantity)] ++
    violation symbol_ok "symbol_constraint" "market symbol does not match strategy symbol"
      [("market_symbol", VStr symbol); ("strategy_symbol", VStr (sc_symbol strategy))] ++
    violation confident "confidence_threshold" "decision confidence below required threshold"
      [("confidence", VDec confidence); ("minimum", VFloat (sc_risk_min_confidence strategy))] ++
    violation aligned "risk_alignment" "executable action requires approved risk assessment"
      [("risk_approved", VBool (ra_approved risk)); ("blocked_by", strs (ra_blocked_by risk))] ++
    violation notional_ok "notional_limit" "projected notional exceeds strategy notional limit"
      [("projected_notional", VDec (ex_projected_notional ex));
       ("max_notional", VFloat (sc_risk_max_notional_usd strategy))] ++
    violation position_ok "position_limit" "projected position exceeds strategy max position size"
      [("projected_position", VDec (ex_projected_position ex));
       ("max_position_size", VFloat (sc_risk_max_position_size strategy))] ++
    violation leverage_ok "leverage_limit" "projected leverage exceeds configured max leverage"
      [("projected_leverage", VDec (ex_projected_leverage ex));
       ("max_leverage", VFloat (sc_max_leverage strategy))] in
  Ok {| gr_allowed := Z.of_nat (List.length violations) =? 0; gr_blocked_by := gv_code <$> violations;
        gr_violations := violations;
        gr_checks := [("action_allowed", action_allowed); ("quantity_semantics", semantics);
                      ("symbol_constraint", symbol_ok); ("confidence_threshold", confident);
                      ("risk_alignment", aligned); ("notional_limit", notional_ok);
                      ("position_limit", position_ok); ("leverage_limit", leverage_ok)]%string |}.

(** ** What an allowed decision satisfies *)

(** Every check of the guardrails, as the code computes it. *)
Record guarded (strategy : StrategyConfig) (market_context : dict) (risk : RiskAssessment)
    (d : ExecutionDecision) (ex : exposure) : Prop := {
  gd_action : upper (ed_action d) ∈ sc_allowed_actions strategy;
  gd_semantics : _quantity_semantics_valid (upper (ed_action d)) (dec_of_repr (ed_quantity d)) = Ok true;
  gd_symbol : py_str (dget_or "symbol" (VStr "") market_context) = sc_symbol strategy;
  gd_limits : upper (ed_action d) ∈ EXECUTABLE ->
    ra_approved risk = true /\
    dleb (dec_of_repr (sc_risk_min_confidence strategy)) (dec_of_repr (ed_confidence d)) = Ok true /\
    dleb (ex_projected_notional ex) (dec_of_repr (sc_risk_max_notional_usd strategy)) = Ok true /\
    (exists a, dabs (ex_projected_position ex) = Ok a /\
       dleb a (dec_of_repr (sc_risk_max_position_size strategy)) = Ok true) /\
    dleb (ex_projected_leverage ex) (dec_of_repr (sc_max_leverage strategy)) = Ok true;
}.

Lemma violation_nil passed code message details :
  violation passed code message details = [] <-> passed = true.
Proof. by destruct passed. Qed.

Lemma length_zero {A} (l : list A) : (Z.of_nat (List.length l) =? 0) = true <-> l = [].
Proof. by destruct l. Qed.

Lemma unless_idle_Ok e (m : result bool) :
  unless_idle e m = Ok true -> e = true -> m = Ok true.
Proof. by destruct e. Qed.

Lemma validate_guarded strategy market_context risk d g :
  validate strategy market_context risk d = Ok g -> gr_allowed g = true ->
  exists ex, project market_context (dec_of_repr (ed_quantity d)) = Ok ex /\
    guarded strategy market_context risk d ex.
Proof.
  intros H Ha. unfold validate in H. cbv zeta in H.
  apply bind_Ok in H as (ex & Ex & H). apply bind_Ok in H as (sem & Es & H).
  apply bind_Ok in H as (conf & Ec & H). apply bind_Ok in H as (ntl & En & H).
  apply bind_Ok in H as (pos & Ep & H). apply bind_Ok in H as (lev & El & H).
  injection H as <-. cbn [gr_allowed] in Ha. apply length_zero in Ha.
  repeat (apply app_eq_nil in Ha as [?%violation_nil Ha]). apply violation_nil in Ha. subst.
  exists ex. split; [done|]. split.
  - by apply bool_decide_eq_true in H.
  - done.
  - by apply String.eqb_eq.
  - intros Hx. apply (bool_decide_eq_true_2 _) in Hx. rewrite Hx in *.
    split; [by destruct (ra_approved risk)|]. split; [exact Ec|]. split; [exact En|]. split; [|exact El].
    apply bind_Ok in Ep as (a & Ea & Ep). by exists a.
Qed.

(** *** The limits, read off the market payload *)

(** A level of the book with a price. *)
Definition quotes (level : val) (price : f64) : Prop :=
  exists d pv av amount, level = VDict d /\ dict_get "price" d = Some pv /\ float_of_val pv = Ok price /\
    dict_get "amount" d = Some av /\ float_of_val av = Ok amount.

(** A quoted price that no other quoted price beats, if there is any. *)
Definition best_quote (beats : f64 -> f64 -> bool) (levels : val) (best : option f64) : Prop :=
  match best with
  | Some b => exists l, levels = VList l /\ (exists level, level ∈ l /\ quotes level b) /\
                forall level p, level ∈ l -> quotes level p -> beats p b = false
  | None => forall l level p, levels = VList l -> level ∈ l -> ~ quotes level p
  end.

(** A number of the payload; zero when it is not one. *)
Definition amount_in (payload : dict) (key : string) (x : f64) : Prop :=
  float_of_val (dget key payload) = Ok x \/ (exists e, float_of_val (dget key payload) = Raise e /\ x = fzero).

(** The middle of the highest bid and the lowest ask; without both, the
    payload's own mid price. *)
Definition market_mid (payload : dict) (mid : f64) : Prop :=
  exists bid ask, best_quote (fun p b => fltb b p) (dget "bids" payload) bid /\
    best_quote (fun p a => fltb p a) (dget "asks" payload) ask /\
    match bid, ask with
    | Some b, Some a => mid = fdiv (fadd b a) (flit 2 0)
    | _, _ => amount_in payload "mid_price" mid
    end.

(** The position after the order and its notional are within the strategy's limits, and so
    is the leverage, for which the price of one unit stands in for the equity. *)
Definition within_limits (strategy : StrategyConfig) (mid position quantity : f64) : Prop :=
  let price := dec_of_repr (if fltb mid fzero then fzero else mid) in
  let order := dec_of_repr quantity in
  exists projected held units notional,
    dadd (dec_of_repr position) order = Ok projected /\ dabs projected = Ok held /\
    dleb held (dec_of_repr (sc_risk_max_position_size strategy)) = Ok true /\
    dabs order = Ok units /\ dmul units price = Ok notional /\
    dleb notional (dec_of_repr (sc_risk_max_notional_usd strategy)) = Ok true /\
    (dltb d0 price = Ok true ->
     exists value size leverage, dmul projected price = Ok value /\ dabs value = Ok size /\
       ddiv size (dec_of_repr (if fltb (float_of_dec price) fone then fone else float_of_dec price)) = Ok leverage /\
       dleb leverage (dec_of_repr (sc_max_leverage strategy)) = Ok true).

Lemma book_level_quotes level :
  match book_level level with
  | Ok (Some ps) => quotes level ps.1 /\ forall p, quotes level p -> p = ps.1
  | Ok None => forall p, ~ quotes level p
  | Raise _ => True
  end.
Proof.
  destruct level as [| | | | | | |d]; cbn [book_level]; try (intros p (? & ? & ? & ? & ? & _); done).
  unfold dict_index, try_except. destruct (dict_get "price" d) as [pv|] eqn:Ep; cbn [mbind result_bind].
  2: { intros p (d' & pv & av & x & [= <-] & E & _). congruence. }
  destruct (float_of_val pv) as [price|e] eqn:Ef; cbn [mbind result_bind].
  2: { destruct (match exc_cls e with KeyError => true | _ => _ end); [|done]. intros p (d' & pv' & av & x & [= <-] & E & F & _). congruence. }
  destruct (dict_get "amount" d) as [av|] eqn:Ea; cbn [mbind result_bind].
  2: { intros p (d' & pv' & av & x & [= <-] & _ & _ & E & _). congruence. }
  destruct (float_of_val av) as [amount|e] eqn:Eg; cbn [mbind result_bind].
  2: { destruct (match exc_cls e with KeyError => true | _ => _ end); [|done]. intros p (d' & pv' & av' & x & [= <-] & _ & _ & E & F). congruence. }
  split; [by exists d, pv, av, amount|]. intros p (d' & pv' & av' & x & [= <-] & E & F & _). cbn [fst]. congruence.
Qed.

(** The first extreme element of a fold is not beaten. *)
Lemma first_extreme (beats : f64 -> f64 -> bool) (x : f64 * f64) l :
  (forall a b, beats a b = true -> beats b a = false) ->
  (forall a b c, beats a b = true -> beats b c = true -> beats a c = true) -> beats x.1 x.1 = false ->
  let best := foldl (fun best y => if beats y.1 best.1 then y else best) x l in
  best ∈ x :: l /\ forall y, y ∈ x :: l -> beats y.1 best.1 = false.
Proof.
  intros Hasym Htrans Hx. cbv zeta.
  enough (forall seen x, x ∈ seen -> (forall y, y ∈ seen -> beats y.1 x.1 = false) ->
    let best := foldl (fun best y => if beats y.1 best.1 then y else best) x l in
    best ∈ seen ++ l /\ forall y, y ∈ seen ++ l -> beats y.1 best.1 = false) as H.
  { apply (H [x] x); [by left|]. by intros y ->%list_elem_of_singleton. }
  clear x Hx. induction l as [|z l IH]; intros seen x Hin Hb; cbn [foldl]; [by rewrite app_nil_r|].
  replace (seen ++ z :: l) with ((seen ++ [z]) ++ l) by (by rewrite <- app_assoc). apply IH; destruct (beats z.1 x.1) eqn:E.
  - apply elem_of_app. right. by apply list_elem_of_singleton.
  - apply elem_of_app. by left.
  - intros y Hy. apply elem_of_app in Hy as [Hy|Hy].
    + destruct (beats y.1 z.1) eqn:E2; [|done]. pose proof (Htrans _ _ _ E2 E) as E3. by rewrite (Hb y Hy) in E3.
    + apply list_elem_of_singleton in Hy as ->. destruct (beats z.1 z.1) eqn:E2; [|done]. by rewrite (Hasym _ _ E2) in E2.
  - intros y Hy. apply elem_of_app in Hy as [Hy|Hy]; [by apply Hb|]. by apply list_elem_of_singleton in Hy as ->.
Qed.

Lemma extract_level_best levels side best size :
  _extract_level levels side = Ok (best, size) ->
  best_quote (if String.eqb side "bid" then fun p b => fltb b p else fun p a => fltb p a) levels best.
Proof.
  unfold _extract_level. destruct levels as [| | | | | |l|]; try (intros [= <- _]; cbn; intros; discriminate).
  intros (parsed & Hp%map_res_Forall2 & H)%bind_Ok.
  assert (forall ps, ps ∈ omap id parsed -> exists level, level ∈ l /\ quotes level ps.1) as Hsound.
  { intros ps (o & Ho & Eo)%list_elem_of_omap. cbn in Eo. subst o. apply list_elem_of_lookup in Ho as (i & Hi).
    destruct (Forall2_lookup_r _ _ _ _ _ Hp Hi) as (level & Hl & Hb). exists level. split; [by eapply list_elem_of_lookup_2|].
    pose proof (book_level_quotes level) as Hq. rewrite Hb in Hq. apply Hq. }
  assert (forall level p, level ∈ l -> quotes level p -> exists ps, ps ∈ omap id parsed /\ ps.1 = p) as Hcomplete.
  { intros level p Hl Hq. apply list_elem_of_lookup in Hl as (i & Hi). destruct (Forall2_lookup_l _ _ _ _ _ Hp Hi) as (o & Ho & Hb).
    pose proof (book_level_quotes level) as Hs. rewrite Hb in Hs. destruct o as [ps|]; [|by apply Hs in Hq]. destruct Hs as [_ Hs].
    exists ps. split; [|symmetry; by apply Hs]. apply list_elem_of_omap. exists (Some ps). split; [by eapply list_elem_of_lookup_2|done]. }
  destruct (omap id parsed) as [|x rest].
  - injection H as <- _. intros l' level p [= <-] Hl Hq. destruct (Hcomplete _ _ Hl Hq) as (ps & Hps & _). by apply elem_of_nil in Hps.
  - cbv zeta in H. injection H as <- _. destruct (String.eqb side "bid").
    + destruct (first_extreme (fun p b => fltb b p) x rest) as [Hin Hb]; [intros; float_order|intros; float_order|by apply fltb_irrefl|].
      exists l. split; [done|]. split; [by apply Hsound|]. intros level p Hl Hq. destruct (Hcomplete _ _ Hl Hq) as (ps & Hps & <-). by apply Hb.
    + destruct (first_extreme (fun p a => fltb p a) x rest) as [Hin Hb]; [intros; float_order|intros; float_order|by apply fltb_irrefl|].
      exists l. split; [done|]. split; [by apply Hsound|]. intros level p Hl Hq. destruct (Hcomplete _ _ Hl Hq) as (ps & Hps & <-). by apply Hb.
Qed.

Lemma to_float_amount payload key x : _to_float (dget key payload) fzero = Ok x -> amount_in payload key x.
Proof.
  unfold _to_float, try_except, amount_in. destruct (float_of_val _) as [y|e]; [by left|].
  destruct (type_or_value _); [|done]. intros [= <-]. right. by exists e.
Qed.

(** What the context says is what the payload says. *)
Lemma enrich_view payload strategy out :
  enrich payload strategy = Ok out ->
  exists mid pos, market_mid payload mid /\ amount_in payload "current_position" pos /\
    dict_get "mid_price" (mc_context out) = Some (VFloat mid) /\
    dict_get "current_position" (mc_context out) = Some (VFloat pos) /\
    dict_get "symbol" (mc_context out) = Some (dget_or "symbol" (VStr (sc_symbol strategy)) payload) /\
    dict_get "equity_usd" (mc_context out) = None.
Proof.
  unfold enrich. intros H. apply bind_Ok in H as ([bid bsize] & Hbid & H). apply bind_Ok in H as ([ask asize] & Hask & H).
  apply bind_Ok in H as ([mid spread] & Hmid & H). apply bind_Ok in H as (imb & _ & H). cbv zeta in H.
  apply bind_Ok in H as ([[[ns nse] nc] nf] & _ & H). apply bind_Ok in H as (pos & Hpos & H). apply bind_Ok in H as (dd & _ & H).
  injection H as <-. exists mid, pos. split_and!; try done; [|by apply to_float_amount].
  apply extract_level_best in Hbid, Hask. exists bid, ask. split; [exact Hbid|]. split; [exact Hask|].
  unfold mid_and_spread in Hmid.
  destruct bid as [b|], ask as [a|]; try (apply bind_Ok in Hmid as (m & Hm & [= <- _]); by apply to_float_amount).
  apply bind_Ok in Hmid as (m & Hm & Hmid). injection Hm as <-.
  destruct (fltb fzero _); [apply bind_Ok in Hmid as (sp & _ & Hmid)|]; by injection Hmid as <- _.
Qed.

Lemma val_max_float x y : val_max (VFloat x) y = Ok (VFloat (if fltb x y then y else x)).
Proof. cbn. by destruct (fltb x y). Qed.

(** What an allowed, executable decision satisfies, in terms of the payload. *)
Lemma guarded_within strategy context risk d ex mid pos :
  dict_get "mid_price" context = Some (VFloat mid) -> dict_get "current_position" context = Some (VFloat pos) ->
  dict_get "equity_usd" context = None -> project context (dec_of_repr (ed_quantity d)) = Ok ex ->
  guarded strategy context risk d ex -> upper (ed_action d) ∈ EXECUTABLE -> within_limits strategy mid pos (ed_quantity d).
Proof.
  intros Hm Hp He H G Hx. destruct (gd_limits _ _ _ _ _ G Hx) as (_ & _ & Hn & (held & Hheld & Hpos) & Hl).
  unfold project, dget_or in H. rewrite Hm, Hp, He in H. cbn [default] in H. unfold id in H. rewrite val_max_float in H.
  cbn [mbind result_bind dec_of_val] in H. unfold within_limits. cbv zeta.
  set (price := dec_of_repr (if fltb mid fzero then fzero else mid)) in *.
  apply bind_Ok in H as (projected & E1 & H). apply bind_Ok in H as (units & E2 & H). apply bind_Ok in H as (notional & E3 & H).
  apply bind_Ok in H as (priced & E4 & H). rewrite val_max_float in H. cbn [mbind result_bind dec_of_val] in H.
  apply bind_Ok in H as (leverage & E5 & H). injection H as <-. cbn [ex_projected_position ex_projected_notional ex_projected_leverage] in *.
  exists projected, held, units, notional. split_and!; try done.
  intros E. rewrite E in E4. injection E4 as <-. apply bind_Ok in E5 as (v & Ev & E5). apply bind_Ok in E5 as (av & Eav & E5).
  by exists v, av, leverage.
Qed.

(** Amounts as exchanges quote them. *)
Record quoted_amounts (market_context : dict) (d : ExecutionDecision) (mid pos q : Q) : Prop := {
  qa_mid : exists m, dget_or "mid_price" (VFloat fzero) market_context = VFloat m /\
             fleb fzero m = true /\ isdec 8 (dec_of_repr m) mid /\ (0 < mid <= p10 6)%Q;
  qa_pos : exists p, dget_or "current_position" (VFloat fzero) market_context = VFloat p /\
             isdec 8 (dec_of_repr p) pos;
  qa_qty : isdec 8 (dec_of_repr (ed_quantity d)) q;
  qa_bound : (Qabs pos + Qabs q < p10 5)%Q;
}.

Lemma val_max_keep m x : fleb x m = true -> val_max (VFloat m) x = Ok (VFloat m).
Proof.
  intros Hm. unfold val_max. destruct (fltb m x) eqn:E; [|done]. apply fltb_not_fleb in E. congruence.
Qed.

(** A projection computes the exact position and notional. *)
Lemma project_exact market_context d mid pos q ex :
  quoted_amounts market_context d mid pos q ->
  project market_context (dec_of_repr (ed_quantity d)) = Ok ex ->
  isdec 8 (ex_projected_position ex) (pos + q) /\ isdec 16 (ex_projected_notional ex) (Qabs q * mid).
Proof.
  intros [(m & Em & Hm & Vm & Bm) (p & Ep & Vp) Vq Hb] H. unfold project in H. rewrite Em, Ep in H.
  rewrite (val_max_keep _ _ Hm) in H. cbn [mbind result_bind dec_of_val] in H.
  pose proof (Qabs_nonneg pos). pose proof (Qabs_nonneg q). pose proof (Qabs_triangle pos q) as T.
  destruct (dadd_isdec 8 5 _ _ _ _ Vp Vq) as (pp & Epp & Vpp); try done; [lra|].
  destruct (dabs_isdec 8 5 _ _ Vq) as (a & Eaq & Va); try done; [lra|].
  destruct (dmul_isdec 8 8 11 a (dec_of_repr m) (Qabs q) mid Va Vm) as (n & En & Vn); try done.
  { rewrite Qabs_Qmult, (Qabs_pos (Qabs q)), (Qabs_pos mid) by lra.
    change (p10 11) with (p10 5 * p10 6)%Q. pose proof (p10_pos 6). nra. }
  rewrite Epp in H. cbn [mbind result_bind] in H. rewrite Eaq in H. cbn [mbind result_bind] in H.
  rewrite En in H. cbn [mbind result_bind] in H.
  apply bind_Ok in H as (priced & _ & H). apply bind_Ok in H as (ev & _ & H).
  apply bind_Ok in H as (eq & _ & H). apply bind_Ok in H as (lev & _ & H). by injection H as <-.
Qed.

Lemma semantics_sign action x q :
  isdec 8 x q -> _quantity_semantics_valid action x = Ok true ->
  (action = "BUY"%string -> 0 < q)%Q /\ (action = "SELL"%string -> q < 0)%Q.
Proof.
  intros Vx H. unfold _quantity_semantics_valid in H. split; intros ->; cbn in H.
  - rewrite (dltb_isdec 8 8 _ _ 0 q (isdec_0 8 ltac:(done)) Vx) in H. injection H as H. by apply qltb_true in H.
  - rewrite (dltb_isdec 8 8 _ _ q 0 Vx (isdec_0 8 ltac:(done))) in H. injection H as H. by apply qltb_true in H.
Qed.

(** C22. The guardrails decide on exact amounts: with the mid price, position and
    quantity on the exchanges' grid of eight decimals, an allowed BUY, SELL or
    CLOSE is of the strategy's symbol, in an action the strategy allows, with a
    risk approval and a quantity of the right sign, and its notional and the
    projected position are, as exact rationals, within the strategy's limits. *)
Theorem guardrail_exact strategy market_context risk d g mid pos q lim_n lim_p :
  validate strategy market_context risk d = Ok g -> gr_allowed g = true ->
  upper (ed_action d) ∈ EXECUTABLE ->
  quoted_amounts market_context d mid pos q ->
  isdec 16 (dec_of_repr (sc_risk_max_notional_usd strategy)) lim_n ->
  isdec 16 (dec_of_repr (sc_risk_max_position_size strategy)) lim_p ->
  upper (ed_action d) ∈ sc_allowed_actions strategy /\
  py_str (dget_or "symbol" (VStr "") market_context) = sc_symbol strategy /\
  ra_approved risk = true /\
  (Qabs q * mid <= lim_n)%Q /\ (Qabs (pos + q) <= lim_p)%Q /\
  (upper (ed_action d) = "BUY"%string -> 0 < q)%Q /\ (upper (ed_action d) = "SELL"%string -> q < 0)%Q.
Proof.
  intros H Ha Hx Hq Vn Vp. destruct (validate_guarded _ _ _ _ _ H Ha) as (ex & Hp & [Ga Gs Gy Gl]).
  destruct (Gl Hx) as (Hr & _ & Hn & (a & Ea & Hpos) & _).
  destruct (project_exact _ _ _ _ _ _ Hq Hp) as [Vpos Vntl].
  split; [done|]. split; [done|]. split; [done|].
  rewrite (dleb_isdec 16 16 _ _ _ _ Vntl Vn) in Hn. injection Hn as Hn%qleb_true.
  destruct Hq as [_ _ Vq Hb]. pose proof (Qabs_triangle pos q).
  destruct (dabs_isdec 8 5 _ _ Vpos) as (a' & Ea' & Va); try done; [lra|].
  rewrite Ea in Ea'. injection Ea' as <-.
  rewrite (dleb_isdec 8 16 _ _ _ _ Va Vp) in Hpos. injection Hpos as Hpos%qleb_true.
  split; [done|]. split; [done|]. by apply semantics_sign with (x := dec_of_repr (ed_quantity d)).
Qed.

(** ** Decisions *)

Lemma normalize_quantity_schema action quantity a q :
  action ∈ ALLOWED_ACTIONS -> is_nan quantity = false ->
  _normalize_action_quantity action quantity = (a, q) ->
  a ∈ ALLOWED_ACTIONS /\ schema_valid a q = true.
Proof.
  intros Ha Hn. unfold _normalize_action_quantity, schema_valid.
  unfold ALLOWED_ACTIONS in Ha. rewrite !elem_of_cons, elem_of_nil in Ha.
  destruct Ha as [->|[->|[->|[->|[]]]]]; simpl.
  - destruct (fleb quantity fzero) eqn:E; intros [= <- <-]; (split; [set_solver|]); [done|].
    simpl. by apply fleb_false.
  - destruct (fleb fzero quantity) eqn:E; intros [= <- <-]; (split; [set_solver|]); [done|].
    simpl. by apply fleb_false.
  - intros [= <- <-]. split; [set_solver|done].
  - destruct (feqb quantity fzero) eqn:E; intros [= <- <-]; (split; [set_solver|]); [done|].
    simpl. by rewrite E.
Qed.

Lemma normalize_keeps_nan action quantity :
  action <> "HOLD"%string -> is_nan quantity = true ->
  is_nan (_normalize_action_quantity action quantity).2 = true.
Proof.
  intros Hh%String.eqb_neq Hn. destruct quantity; try done. unfold _normalize_action_quantity.
  rewrite Hh. by destruct (String.eqb action "BUY"), (String.eqb action "SELL"), (String.eqb action "CLOSE").
Qed.

Lemma normalize_action_allowed action : _normalize_action action ∈ ALLOWED_ACTIONS.
Proof. unfold _normalize_action. case_bool_decide; [done|]. unfold ALLOWED_ACTIONS. set_solver. Qed.

(** Proposed decisions are well typed: the action is one of the four known
    ones, the confidence lies between 0 and 1 whatever the plan says, and
    unless the quantity is not a number the constraints declare the decision
    valid under the schema (the sign of the quantity matches the action); a
    plan the risk assessment did not approve is always a HOLD of zero. *)
Theorem decision_well_typed plan risk market_context strategy d :
  propose_action plan risk market_context strategy = Ok d ->
  ed_action d ∈ ALLOWED_ACTIONS /\
  fleb fzero (ed_confidence d) = true /\ fleb (ed_confidence d) fone = true /\
  dict_get "schema_valid" (ed_constraints d) = Some (VBool (schema_valid (ed_action d) (ed_quantity d))) /\
  (is_nan (ed_quantity d) = false -> schema_valid (ed_action d) (ed_quantity d) = true) /\
  (ra_approved risk = false -> ed_action d = "HOLD"%string /\ ed_quantity d = fzero).
Proof.
  unfold propose_action. destruct (ra_approved risk); simpl negb; cbv iota; intros H.
  - apply bind_Ok in H as (cp & _ & H).
    set (action := _normalize_action (pd_action plan)) in *.
    set (quantity := _resolve_quantity action plan risk cp (sc_order_size strategy)) in *.
    pose proof (normalize_action_allowed (pd_action plan)) as Ha. fold action in Ha.
    destruct (_normalize_action_quantity action quantity) as [a q] eqn:E. injection H as <-.
    pose proof (clamp01_bounds (pd_confidence plan)) as [Hlo Hhi].
    assert (Hs : is_nan quantity = false -> a ∈ ALLOWED_ACTIONS /\ schema_valid a q = true)
      by (intros Hn; by apply (normalize_quantity_schema action quantity)).
    destruct (decide (action = "HOLD"%string)) as [Eh|Hne].
    { assert (is_nan quantity = false) as Hn by (unfold quantity; by rewrite Eh).
      destruct (Hs Hn). by repeat split. }
    destruct (is_nan quantity) eqn:Hn; [|destruct (Hs eq_refl); by repeat split].
    pose proof (normalize_keeps_nan _ _ Hne Hn) as Hq. rewrite E in Hq. simpl in Hq.
    assert (a = action) as ->.
    { unfold _normalize_action_quantity in E. destruct quantity; try done. apply String.eqb_neq in Hne.
      rewrite Hne in E. destruct (String.eqb action "BUY"), (String.eqb action "SELL"),
        (String.eqb action "CLOSE"); by injection E as <- <-. }
    repeat (split; [done|]). split; [|done]. cbn. congruence.
  - injection H as <-. pose proof (clamp01_bounds (pd_confidence plan)) as [Hlo Hhi].
    split; [unfold ALLOWED_ACTIONS; set_solver|]. by repeat split.
Qed.

(** ** A concrete decision *)

Module Example.
Definition strategy : StrategyConfig :=
  {| sc_strategy_id := "strat-1"; sc_symbol := "BTC/USDT"; sc_mode := "MOCK"; sc_order_size := flit 1 0;
     sc_planner_buy_threshold := flit 2 (-1); sc_planner_sell_threshold := flit 2 (-1);
     sc_risk_max_notional_usd := flit 100000 0; sc_risk_max_position_size := flit 10 0;
     sc_risk_max_drawdown_pct := flit 1 (-1); sc_risk_min_confidence := flit 25 (-2);
     sc_max_leverage := flit 3 0; sc_allowed_actions := ["BUY"; "SELL"; "HOLD"; "CLOSE"] |}.
Definition level (p a : Z) : val := VDict [("price", VInt p); ("amount", VInt a)].
(** A book with three times as much on the bid as on the ask. *)
Definition payload (position drawdown : f64) : dict :=
  [("exchange", VStr "binance"); ("symbol", VStr "BTC/USDT"); ("timestamp_ms", VInt 1700000000000);
   ("bids", VList [level 49990 3; level 49980 9]); ("asks", VList [level 50010 1]);
   ("current_position", VFloat position); ("drawdown_pct", VFloat drawdown)].
Definition context (position drawdown : f64) : dict :=
  match enrich (payload position drawdown) strategy with Ok o => mc_context o | Raise _ => [] end.
Definition no_plan : PlannerDecision :=
  {| pd_action := ""; pd_confidence := fzero; pd_target_quantity := fzero; pd_rationale := [];
     pd_metrics := [] |}.
Definition no_risk : RiskAssessment :=
  {| ra_approved := false; ra_approved_quantity := fzero; ra_signals := []; ra_blocked_by := [];
     ra_risk_score := fzero; ra_rationale := [] |}.
Definition or_else {A} (dflt : A) (m : result A) : A := match m with Ok a => a | Raise _ => dflt end.
Definition plan (position drawdown : f64) : PlannerDecision :=
  or_else no_plan (build_plan (context position drawdown) strategy).
Definition risk (position drawdown : f64) : RiskAssessment :=
  or_else no_risk (evaluate (plan position drawdown) (context position drawdown) strategy).
Definition decided (position drawdown : f64) : ExecutionDecision :=
  or_else (decision "" fzero no_plan no_risk strategy [])
    (propose_action (plan position drawdown) (risk position drawdown) (context position drawdown) strategy).
Definition verdict (position drawdown : f64) : GuardrailValidationResult :=
  or_else {| gr_allowed := false; gr_blocked_by := []; gr_violations := []; gr_checks := [] |}
    (validate strategy (context position drawdown) (risk position drawdown) (decided position drawdown)).
End Example.

(** Without an equity in the context (and [enrich] never adds one) the equity
    defaults to the price of one unit, so the leverage that is limited is the
    size of the position: holding 4 units is refused at a leverage limit of 3,
    although it is within the position and notional limits. *)
Lemma leverage_is_position_size :
  let pos := flit 325 (-2) in
  dict_get "equity_usd" (Example.context pos fzero) = None /\
  ed_action (Example.decided pos fzero) = "BUY"%string /\
  gr_blocked_by (Example.verdict pos fzero) = ["leverage_limit"%string] /\
  ex_projected_leverage <$> project (Example.context pos fzero) (dec_of_repr (ed_quantity (Example.decided pos fzero))) =
    Ok (DFin 375 (-2)).
Proof. vm_compute. done. Qed.

Lemma guardrail_exact_witness :
  ed_action (Example.decided fone fzero) = "BUY"%string /\
  (Qabs (1 # 2) * 50000 <= 100000)%Q /\ (Qabs (1 + (1 # 2)) <= 10)%Q.
Proof.
  split; [vm_compute; reflexivity|].
  destruct (guardrail_exact Example.strategy (Example.context fone fzero) (Example.risk fone fzero)
    (Example.decided fone fzero) (Example.verdict fone fzero) 50000 1 (1 # 2) 100000 10)
    as (_ & _ & _ & Hn & Hp & _).
  - vm_compute. reflexivity.
  - vm_compute. reflexivity.
  - vm_compute. apply list_elem_of_here.
  - split.
    + exists (flit 50000 0). split; [vm_compute; reflexivity|]. split; [vm_compute; reflexivity|].
      split; [dec_compute|]. split; dec_compute.
    + exists fone. split; [vm_compute; reflexivity|]. dec_compute.
    + dec_compute.
    + dec_compute.
  - dec_compute.
  - dec_compute.
  - exact (conj Hn Hp).
Defined.

Lemma decision_well_typed_witness :
  propose_action (Example.plan fone fzero) (Example.risk fone fzero) (Example.context fone fzero)
    Example.strategy = Ok (Example.decided fone fzero) /\
  ed_action (Example.decided fone fzero) ∈ ALLOWED_ACTIONS.
Proof.
  assert (H : propose_action (Example.plan fone fzero) (Example.risk fone fzero)
    (Example.context fone fzero) Example.strategy = Ok (Example.decided fone fzero))
    by (vm_compute; reflexivity).
  split; [exact H|]. destruct (decision_well_typed _ _ _ _ _ H) as [Ha _]. exact Ha.
Defined.
