(* ===== verification/LlmGateway.v ===== *)
(** * The LLM gateway

    [services/llm_gateway/contracts.py], [quota.py], [persistence.py] and
    [gateway.py]: a request goes to the providers in order, each with retries,
    under a hard token and cost quota. Provider clients are arguments: what a
    client returns or raises (a time-out included) may depend on how many calls
    were made before. Stores and the metrics sink are any instances of their
    interfaces. The log lines of the soft quota alerts are left out. *)

From S2P Require Import Prelude PyStr PyFloat PyDecimal PyTime PyVal.
From stdpp Require Import options.
From Stdlib Require Import Ascii String SpecFloat.

#[local] Open Scope Z_scope.

(** ** Contracts *)

Record ProviderSettings := {
  pv_alias : string;
  pv_model : string;
  pv_timeout_ms : Z;
  pv_max_retries : Z;
  pv_enabled : bool;
  pv_prompt_cost_per_1k_tokens : f64;
  pv_completion_cost_per_1k_tokens : f64;
  pv_extra : dict;
}.

Record GatewaySettings := {
  gs_providers : gmap string ProviderSettings;
  gs_default_provider_order : list string;
  gs_retry_base_ms : Z;
  gs_retry_max_ms : Z;
}.

Record LLMRequest := {
  rq_trace_id : string;
  rq_decision_id : string;
  rq_strategy_id : string;
  rq_agent_name : string;
  rq_messages : list dict;
  rq_temperature : f64;
  rq_max_tokens : Z;
  rq_metadata : dict;
}.

Record token_usage := { tu_prompt : Z; tu_completion : Z; tu_total : Z }.

Record LLMResponse := {
  rp_provider : string;
  rp_model : string;
  rp_content : string;
  rp_raw_payload : dict;
  rp_usage : token_usage;
  rp_latency_ms : Z;
  rp_attempt_count : Z;
}.

Record LLMCallRecord := {
  cr_llm_call_id : string;
  cr_request : LLMRequest;
  cr_provider : string;
  cr_model : string;
  cr_prompt_payload : dict;
  cr_response_payload : dict;
  cr_usage : token_usage;
  cr_latency_ms : f64;
  cr_estimated_cost : f64;
  cr_created_at : string;
}.

Record QuotaLimits := {
  ql_daily_token_limit : option Z;
  ql_monthly_cost_limit : option f64;
  ql_is_hard_limit : bool;
}.
Record QuotaUsage := { qu_daily_tokens : Z; qu_monthly_cost : f64 }.

(** The scope of a quota: strategy and agent. *)
Definition quota_scope : Type := string * string.

Class LLMQuotaStore (Q : Type) := {
  get_limits : quota_scope -> prog Q QuotaLimits;
  get_usage : quota_scope -> prog Q QuotaUsage;
  increment_usage : quota_scope -> Z -> f64 -> prog Q QuotaUsage;
}.
Class LLMCallStore (C : Type) := { persist_call : LLMCallRecord -> prog C unit }.
Class LLMMetricsSink (M : Type) := {
  record_llm_call : LLMRequest -> string -> string -> token_usage -> f64 -> f64 -> string -> prog M unit;
}.

(** ** Pure parts *)

Definition float_of_digits (x : f64) (d : Z) : f64 :=
  match x with
  | S754_finite s m e =>
      let '(num, den) := fratio m e in
      let '(n, dn) := scale10 num den d in
      f_of_dec s (div_half_even n dn) (- d)
  | _ => x
  end.

(** [round(x, 8)] of a float. *)
Definition round8 (x : f64) : f64 := float_of_digits x 8.

Definition _estimate_cost (prompt_tokens completion_tokens : Z) (provider : ProviderSettings) : result f64 :=
  p ← py_float_of_int prompt_tokens;
  p1 ← py_fdiv p (flit 1000 0);
  c ← py_float_of_int completion_tokens;
  c1 ← py_fdiv c (flit 1000 0);
  Ok (round8 (fadd (fmul p1 (pv_prompt_cost_per_1k_tokens provider))
                   (fmul c1 (pv_completion_cost_per_1k_tokens provider)))).

Definition message_length (message : dict) : Z :=
  Z.of_nat (String.length (py_str (dget_or "role" (VStr "") message)) +
            String.length (py_str (dget_or "content" (VStr "") message))).

Definition _estimate_prompt_tokens (messages : list dict) : Z :=
  Z.max 1 (foldl Z.add 0 (message_length <$> messages) / 4).

Definition _extract_content (payload : dict) : string :=
  match dget "content" payload with
  | VStr s => s
  | _ =>
      match dget "choices" payload with
      | VList (VDict first :: _) =>
          let text := match dget "text" first with VStr s => s | _ => "" end in
          match dget "message" first with
          | VDict message => match dget "content" message with VStr s => s | _ => text end
          | _ => text
          end
      | _ => ""
      end
  end.

Definition no_usage : token_usage := {| tu_prompt := 0; tu_completion := 0; tu_total := 0 |}.

(** [int(usage.get(key, dflt) or 0)] *)
Definition usage_count (key : string) (dflt : Z) (usage : dict) : result Z :=
  int_of_val (py_or (dget_or key (VInt dflt) usage) (VInt 0)).

Definition _extract_usage (payload : dict) : result token_usage :=
  match dget "usage" payload with
  | VDict usage =>
      prompt ← usage_count "prompt_tokens" 0 usage;
      completion ← usage_count "completion_tokens" 0 usage;
      total ← usage_count "total_tokens" (prompt + completion) usage;
      Ok {| tu_prompt := prompt; tu_completion := completion; tu_total := total |}
  | _ => Ok no_usage
  end.

Definition dict_merge (d extra : dict) : dict := foldl (fun acc kv => dict_set kv.1 kv.2 acc) d extra.

Definition _request_kwargs (now : Z) (request : LLMRequest) (provider : ProviderSettings) : dict :=
  dict_merge (dict_merge
    [("trace_id", VStr (rq_trace_id request)); ("decision_id", VStr (rq_decision_id request));
     ("strategy_id", VStr (rq_strategy_id request)); ("agent_name", VStr (rq_agent_name request));
     ("temperature", VFloat (rq_temperature request)); ("max_tokens", VInt (rq_max_tokens request));
     ("requested_at", VStr (iso_z now))]
    (pv_extra provider)) (rq_metadata request).

Definition _retry_delay_seconds (settings : GatewaySettings) (attempt_idx : Z) : result f64 :=
  let delay_ms := gs_retry_base_ms settings * 2 ^ attempt_idx in
  let bounded := Z.min delay_ms (gs_retry_max_ms settings) in
  x ← py_float_of_int (Z.max bounded 0);
  py_fdiv x (flit 1000 0).

Definition _get_provider (settings : GatewaySettings) (alias : string) : result ProviderSettings :=
  match gs_providers settings !! alias with
  | Some p => Ok p
  | None => raise ProviderNotConfiguredError ("Provider settings not found for alias: " +:+ alias)
  end.

(** The costs of the enabled providers, in order. *)
Fixpoint projected_costs (settings : GatewaySettings) (prompt completion : Z) (aliases : list string)
  : result (list f64) :=
  match aliases with
  | [] => Ok []
  | alias :: rest =>
      provider ← _get_provider settings alias;
      if pv_enabled provider then
        c ← _estimate_cost prompt completion provider;
        cs ← projected_costs settings prompt completion rest;
        Ok (c :: cs)
      else projected_costs settings prompt completion rest
  end.

Definition _minimum_projected_cost (settings : GatewaySettings) (aliases : list string)
    (prompt completion : Z) : result f64 :=
  costs ← projected_costs settings prompt completion aliases;
  Ok (match costs with [] => fzero | c :: cs => foldl fmin c cs end).

(** [exc.__class__.__name__], with time-outs named. *)
Definition failure_reason (e : exc) : string :=
  let name := exc_name (exc_cls e) in if String.eqb name "TimeoutError" then "timeout" else name.

(** The prompt as it is persisted. *)
Definition prompt_payload (request : LLMRequest) : dict :=
  [("messages", VList (VDict <$> rq_messages request)); ("temperature", VFloat (rq_temperature request));
   ("max_tokens", VInt (rq_max_tokens request)); ("metadata", VDict (rq_metadata request))].

(** ** The gateway *)

(** [client.complete(model, messages, request_kwargs)] of the n-th call. *)
Definition client : Type := nat -> string -> list dict -> dict -> result dict.

(** Readings: the monotonic clock before and after a call, the time put in the
    request, and id and time of a record, by the number of calls so far. *)
Record readings := {
  rd_mono : nat -> nat -> f64;
  rd_requested : nat -> Z;
  rd_uuid : nat -> string;
  rd_now : nat -> Z;
}.

Section gateway.
Context {Q C M : Type} `{!LLMQuotaStore Q} `{!LLMCallStore C} `{!LLMMetricsSink M}.

(** [gw_called] logs the calls made to providers, [gw_slept] the waits. *)
Record LLMGateway := {
  gw_settings : GatewaySettings;
  gw_provider_clients : gmap string client;
  gw_call_store : option C;
  gw_quota_store : option Q;
  gw_metrics : option M;
  gw_called : list string;
  gw_slept : list f64;
}.

Definition put_stores (c : option C) (q : option Q) (m : option M) (g : LLMGateway) : LLMGateway :=
  {| gw_settings := gw_settings g; gw_provider_clients := gw_provider_clients g; gw_call_store := c;
     gw_quota_store := q; gw_metrics := m; gw_called := gw_called g; gw_slept := gw_slept g |}.
Definition log_call (alias : string) (g : LLMGateway) : LLMGateway :=
  {| gw_settings := gw_settings g; gw_provider_clients := gw_provider_clients g;
     gw_call_store := gw_call_store g; gw_quota_store := gw_quota_store g; gw_metrics := gw_metrics g;
     gw_called := gw_called g ++ [alias]; gw_slept := gw_slept g |}.
Definition log_sleep (d : f64) (g : LLMGateway) : LLMGateway :=
  {| gw_settings := gw_settings g; gw_provider_clients := gw_provider_clients g;
     gw_call_store := gw_call_store g; gw_quota_store := gw_quota_store g; gw_metrics := gw_metrics g;
     gw_called := gw_called g; gw_slept := gw_slept g ++ [d] |}.

(** A call of an optional collaborator: nothing happens without one. *)
Definition on_calls (m : prog C unit) : prog LLMGateway unit := fun g =>
  match gw_call_store g with
  | None => (g, Ok tt)
  | Some c => let '(c', r) := m c in (put_stores (Some c') (gw_quota_store g) (gw_metrics g) g, r)
  end.
Definition on_metrics (m : prog M unit) : prog LLMGateway unit := fun g =>
  match gw_metrics g with
  | None => (g, Ok tt)
  | Some s => let '(s', r) := m s in (put_stores (gw_call_store g) (gw_quota_store g) (Some s') g, r)
  end.
Definition on_quota {A} (q : Q) (m : prog Q A) : prog LLMGateway A := fun g =>
  let '(q', r) := m q in (put_stores (gw_call_store g) (Some q') (gw_metrics g) g, r).

Definition scope_of (request : LLMRequest) : quota_scope := (rq_strategy_id request, rq_agent_name request).

Definition _record_llm_metrics (request : LLMRequest) (provider model : string) (usage : token_usage)
    (latency_ms cost : f64) (status : string) : prog LLMGateway unit :=
  on_metrics (record_llm_call request provider model usage latency_ms cost status).

(** The common shape of the three [_persist_*_record] methods. *)
Definition persist_record (rd : readings) (request : LLMRequest) (provider model : string)
    (response_payload : dict) (usage : token_usage) (latency_ms cost : f64) : prog LLMGateway unit := fun g =>
  let n := List.length (gw_called g) in
  on_calls (persist_call
    {| cr_llm_call_id := rd_uuid rd n; cr_request := request; cr_provider := provider; cr_model := model;
       cr_prompt_payload := prompt_payload request; cr_response_payload := response_payload;
       cr_usage := usage; cr_latency_ms := latency_ms; cr_estimated_cost := cost;
       cr_created_at := iso_z (rd_now rd n) |}) g.

Definition _persist_success_record (rd : readings) (request : LLMRequest) (response : LLMResponse) (cost : f64)
  : prog LLMGateway unit :=
  latency ← lift (py_float_of_int (rp_latency_ms response));
  persist_record rd request (rp_provider response) (rp_model response)
    [("status", VStr "succeeded"); ("content", VStr (rp_content response));
     ("raw_payload", VDict (rp_raw_payload response)); ("attempt_count", VInt (rp_attempt_count response))]
    (rp_usage response) latency cost.

Definition _persist_failure_record (rd : readings) (request : LLMRequest) (provider model : string)
    (errors : list string) : prog LLMGateway unit :=
  persist_record rd request provider model
    [("status", VStr "failed"); ("provider_errors", VList (VStr <$> errors))] no_usage fzero fzero.

Definition _persist_quota_block_record (rd : readings) (request : LLMRequest) (reason : string)
    (projected_tokens : Z) (projected_cost : f64) : prog LLMGateway unit :=
  persist_record rd request "quota_guard" "quota_guard"
    [("status", VStr "quota_blocked"); ("reason", VStr reason); ("projected_tokens", VInt projected_tokens);
     ("projected_cost", VFloat projected_cost)] no_usage fzero fzero.

(** Record the block and raise. *)
Definition quota_blocked (rd : readings) (request : LLMRequest) (reason message : string) (tokens : Z)
    (cost : f64) : prog LLMGateway unit :=
  _ ← _persist_quota_block_record rd request reason tokens cost;
  _ ← _record_llm_metrics request "quota_guard" "quota_guard" no_usage fzero fzero "quota_blocked";
  lift (raise LLMQuotaExceededError (reason +:+ ": " +:+ message)).

(** The checks once limits and usage are known. *)
Definition check_quota (rd : readings) (request : LLMRequest) (aliases : list string) (limits : QuotaLimits)
    (usage : QuotaUsage) : prog LLMGateway unit := fun g =>
  let prompt := _estimate_prompt_tokens (rq_messages request) in
  let completion := Z.max (rq_max_tokens request) 0 in
  let daily := qu_daily_tokens usage + (prompt + completion) in
  let minimum := _minimum_projected_cost (gw_settings g) aliases prompt completion in
  let over := match ql_daily_token_limit limits with
              | Some limit => if limit <? daily then Some limit else None
              | None => None
              end in
  match over with
  | Some limit =>
      (cost ← lift minimum;
       quota_blocked rd request "daily_token_limit_exceeded"
         ("projected=" +:+ str_of_Z daily +:+ " limit=" +:+ str_of_Z limit) daily cost) g
  | None =>
      match ql_monthly_cost_limit limits with
      | None => (g, Ok tt)
      | Some limit =>
          (cost ← lift minimum;
           let monthly := fadd (qu_monthly_cost usage) cost in
           if fltb limit monthly then
             quota_blocked rd request "monthly_cost_limit_exceeded"
               ("projected=" +:+ format_fixed 8 monthly +:+ " limit=" +:+ format_fixed 8 limit)
               (prompt + completion) monthly
           else mret tt) g
      end
  end.

(** The usage is only read under a hard limit. *)
Definition check_usage (rd : readings) (request : LLMRequest) (aliases : list string) (limits : QuotaLimits)
  : prog LLMGateway unit := fun g =>
  if negb (ql_is_hard_limit limits) then (g, Ok tt)
  else
    match gw_quota_store g with
    | None => (g, Ok tt)
    | Some q =>
        (usage ← on_quota q (get_usage (scope_of request));
         check_quota rd request aliases limits usage) g
    end.

Definition _enforce_hard_quota_limits (rd : readings) (request : LLMRequest) (aliases : list string)
  : prog LLMGateway unit := fun g =>
  match gw_quota_store g with
  | None => (g, Ok tt)
  | Some q =>
      (limits ← on_quota q (get_limits (scope_of request)); check_usage rd request aliases limits) g
  end.

Definition _increment_quota_usage (request : LLMRequest) (tokens : Z) (cost : f64) : prog LLMGateway unit :=
  fun g =>
  match gw_quota_store g with
  | None => (g, Ok tt)
  | Some q => (_ ← on_quota q (increment_usage (scope_of request) tokens cost); mret tt) g
  end.

(** The body of the [try]: one call of a provider and everything after it. *)
Definition attempt (rd : readings) (request : LLMRequest) (alias : string) (provider : ProviderSettings)
    (complete : client) (attempt_idx : Z) : prog LLMGateway LLMResponse := fun g =>
  let n := List.length (gw_called g) in
  (_ ← modify (log_call alias);
   raw ← lift (complete n (pv_model provider) (rq_messages request)
                 (_request_kwargs (rd_requested rd n) request provider));
   latency ← lift (trunc_float (fmul (fsub (rd_mono rd n 1%nat) (rd_mono rd n 0%nat)) (flit 1000 0)));
   usage ← lift (_extract_usage raw);
   let response :=
     {| rp_provider := alias; rp_model := pv_model provider; rp_content := _extract_content raw;
        rp_raw_payload := raw; rp_usage := usage; rp_latency_ms := Z.max latency 0;
        rp_attempt_count := attempt_idx + 1 |} in
   cost ← lift (_estimate_cost (tu_prompt usage) (tu_completion usage) provider);
   _ ← _increment_quota_usage request (tu_total usage) cost;
   _ ← _persist_success_record rd request response cost;
   latency_f ← lift (py_float_of_int (rp_latency_ms response));
   _ ← _record_llm_metrics request alias (pv_model provider) usage latency_f cost "succeeded";
   mret response) g.

(** [for attempt_idx in range(...)]: a response, or the errors of every attempt. *)
Fixpoint attempts (n : nat) (attempt_idx : Z) (rd : readings) (request : LLMRequest) (alias : string)
    (provider : ProviderSettings) (complete : client) (errors : list string)
  : prog LLMGateway (LLMResponse + list string) := fun g =>
  match n with
  | O => (g, Ok (inr errors))
  | S n' =>
      match attempt rd request alias provider complete attempt_idx g with
      | (g', Ok response) => (g', Ok (inl response))
      | (g', Raise e) =>
          let errors' := errors ++
            [alias +:+ ":attempt" +:+ str_of_Z (attempt_idx + 1) +:+ ":" +:+ failure_reason e] in
          if attempt_idx <? pv_max_retries provider then
            (delay ← lift (_retry_delay_seconds (gw_settings g') attempt_idx);
             _ ← modify (log_sleep delay);
             attempts n' (attempt_idx + 1) rd request alias provider complete errors') g'
          else (g', Ok (inr errors'))
      end
  end.

(** The loop over the providers; [last] is the last provider tried. *)
Fixpoint providers (rd : readings) (request : LLMRequest) (aliases : list string)
    (last : option (string * string)) (errors : list string)
  : prog LLMGateway (LLMResponse + option (string * string) * list string) := fun g =>
  match aliases with
  | [] => (g, Ok (inr (last, errors)))
  | alias :: rest =>
      match _get_provider (gw_settings g) alias with
      | Raise e => (g, Raise e)
      | Ok provider =>
          if negb (pv_enabled provider) then
            providers rd request rest last (errors ++ [alias +:+ ": provider_disabled"]) g
          else
            match gw_provider_clients g !! alias with
            | None =>
                (g, raise ProviderNotConfiguredError ("Provider client not configured: " +:+ alias))
            | Some complete =>
                (out ← attempts (Z.to_nat (pv_max_retries provider + 1)) 0 rd request alias provider
                         complete errors;
                 match out with
                 | inl response => mret (inl response)
                 | inr errors' => providers rd request rest (Some (alias, pv_model provider)) errors'
                 end) g
            end
      end
  end.

(** A request over a known order of providers. *)
Definition generate_from (rd : readings) (request : LLMRequest) (aliases : list string)
  : prog LLMGateway LLMResponse :=
  match aliases with
  | [] => lift (raise LLMRetryExhaustedError "No provider aliases configured for gateway request")
  | _ =>
      _ ← _enforce_hard_quota_limits rd request aliases;
      out ← providers rd request aliases None [];
      match out with
      | inl response => mret response
      | inr (last, errors) =>
          let provider := match last with Some (a, _) => str_or a "unknown" | None => "unknown" end in
          let model := match last with Some (_, m) => str_or m "unknown" | None => "unknown" end in
          _ ← _persist_failure_record rd request provider model errors;
          _ ← _record_llm_metrics request provider model no_usage fzero fzero "failed";
          lift (raise LLMRetryExhaustedError ("LLM request failed across configured providers: " +:+
            match errors with [] => "unknown_gateway_error" | _ => join "; " errors end))
      end
  end.

(** [provider_order or self.settings.default_provider_order] *)
Definition order_of (g : LLMGateway) (provider_order : list string) : list string :=
  match provider_order with [] => gs_default_provider_order (gw_settings g) | l => l end.

Definition generate (rd : readings) (request : LLMRequest) (provider_order : list string)
  : prog LLMGateway LLMResponse := fun g => generate_from rd request (order_of g provider_order) g.
End gateway.
Arguments LLMGateway : clear implicits.

(** ** Bounded work *)

Section bounds.
Context {Q C M : Type} `{!LLMQuotaStore Q} `{!LLMCallStore C} `{!LLMMetricsSink M}.
#[local] Abbreviation GW := (LLMGateway Q C M).

(** The gateway is the same but for its collaborators and [new] calls. *)
Definition advances (g g' : GW) (new : list string) : Prop :=
  gw_settings g' = gw_settings g /\ gw_provider_clients g' = gw_provider_clients g /\
  gw_called g' = gw_called g ++ new.

Lemma advances_refl g : advances g g [].
Proof. unfold advances. by rewrite app_nil_r. Qed.

Lemma advances_trans g1 g2 g3 l1 l2 : advances g1 g2 l1 -> advances g2 g3 l2 -> advances g1 g3 (l1 ++ l2).
Proof. intros (S1 & C1 & L1) (S2 & C2 & L2). unfold advances. by rewrite S2, C2, L2, L1, <- app_assoc. Qed.

(** At most [n] calls, to providers that satisfy [ok], whatever the outcome. *)
Definition within {A} (st : GatewaySettings) (ok : string -> Prop) (n : nat) (m : prog GW A) : Prop :=
  forall g, gw_settings g = st ->
  exists new, advances g (m g).1 new /\ (List.length new <= n)%nat /\ Forall ok new.

Lemma within_weaken {A} st ok n n' (m : prog GW A) : (n <= n')%nat -> within st ok n m -> within st ok n' m.
Proof. intros Hn Hm g Hg. destruct (Hm g Hg) as (new & Ha & Hl & Ho). exists new. split; [done|]. split; [lia|done]. Qed.

Lemma within_bind {A B} st ok n1 n2 (m : prog GW A) (f : A -> prog GW B) :
  within st ok n1 m -> (forall a, within st ok n2 (f a)) -> within st ok (n1 + n2) (m ≫= f).
Proof.
  intros Hm Hf g Hg. destruct (Hm g Hg) as (l1 & A1 & H1 & O1). unfold mbind, prog_bind.
  destruct (m g) as [g1 [a|e]]; simpl in A1.
  - destruct (Hf a g1) as (l2 & A2 & H2 & O2); [by destruct A1 as [-> _]|].
    exists (l1 ++ l2). split; [by eapply advances_trans|]. rewrite List.length_app.
    split; [lia|by apply Forall_app].
  - exists l1. split; [done|]. split; [lia|done].
Qed.

(** A step without calls. *)
Lemma within_quiet {A} st ok (m : prog GW A) : (forall g, advances g (m g).1 []) -> within st ok 0 m.
Proof. intros Hm g _. exists []. split; [apply Hm|]. split; [simpl; lia|done]. Qed.

Lemma within_bind_quiet {A B} st ok n (m : prog GW A) (f : A -> prog GW B) :
  within st ok 0 m -> (forall a, within st ok n (f a)) -> within st ok n (m ≫= f).
Proof. intros Hm Hf. by apply (within_bind st ok 0 n). Qed.

Lemma lift_quiet {A} st ok (r : result A) : within st ok 0 (lift r).
Proof. apply within_quiet. intros g. apply advances_refl. Qed.
Lemma ret_quiet {A} st ok (a : A) : within st ok 0 (mret a).
Proof. apply within_quiet. intros g. apply advances_refl. Qed.
Lemma calls_quiet st ok m : within st ok 0 (on_calls m).
Proof.
  apply within_quiet. intros g. unfold on_calls. destruct (gw_call_store g) as [c|]; [|apply advances_refl].
  destruct (m c). unfold advances. simpl. by rewrite app_nil_r.
Qed.
Lemma metrics_quiet st ok m : within st ok 0 (on_metrics m).
Proof.
  apply within_quiet. intros g. unfold on_metrics. destruct (gw_metrics g) as [c|]; [|apply advances_refl].
  destruct (m c). unfold advances. simpl. by rewrite app_nil_r.
Qed.
Lemma quota_quiet {A} st ok q (m : prog Q A) : within st ok 0 (on_quota q m).
Proof.
  apply within_quiet. intros g. unfold on_quota. destruct (m q). unfold advances. simpl. by rewrite app_nil_r.
Qed.

Create HintDb quiet.
#[local] Hint Resolve lift_quiet ret_quiet calls_quiet metrics_quiet quota_quiet : quiet.

Lemma record_quiet st ok rd request provider model payload usage latency cost :
  within st ok 0 (persist_record rd request provider model payload usage latency cost).
Proof. intros g Hg. unfold persist_record. by apply (calls_quiet st ok _ g). Qed.
#[local] Hint Resolve record_quiet : quiet.

Ltac quiet :=
  repeat (first [solve [auto with quiet] | apply within_bind_quiet; [solve [auto with quiet]|intros ?]]).

Lemma blocked_quiet st ok rd request reason message tokens cost :
  within st ok 0 (quota_blocked rd request reason message tokens cost).
Proof. unfold quota_blocked, _persist_quota_block_record, _record_llm_metrics. quiet. Qed.
#[local] Hint Resolve blocked_quiet : quiet.

Lemma success_quiet st ok rd request response cost :
  within st ok 0 (_persist_success_record rd request response cost).
Proof. unfold _persist_success_record. quiet. Qed.
Lemma llm_metrics_quiet st ok request provider model usage latency cost status :
  within st ok 0 (_record_llm_metrics request provider model usage latency cost status).
Proof. apply metrics_quiet. Qed.
#[local] Hint Resolve success_quiet llm_metrics_quiet : quiet.

Lemma check_quota_quiet st ok rd request aliases limits usage :
  within st ok 0 (check_quota rd request aliases limits usage).
Proof.
  intros g Hg. unfold check_quota. cbv zeta.
  destruct (match ql_daily_token_limit limits with Some _ => _ | None => _ end) as [limit|].
  - match goal with |- exists new, advances g (?m g).1 new /\ _ => cut (within st ok 0 m); [by intros H; apply H|] end.
    quiet.
  - destruct (ql_monthly_cost_limit limits) as [limit|]; [|by apply (ret_quiet st ok tt g)].
    match goal with |- exists new, advances g (?m g).1 new /\ _ => cut (within st ok 0 m); [by intros H; apply H|] end.
    apply within_bind_quiet; [auto with quiet|]. intros cost. destruct (fltb _ _); auto with quiet.
Qed.

Lemma enforce_quiet st ok rd request aliases : within st ok 0 (_enforce_hard_quota_limits rd request aliases).
Proof.
  intros g Hg. unfold _enforce_hard_quota_limits. destruct (gw_quota_store g) as [q|];
    [|by apply (ret_quiet st ok tt g)].
  revert g Hg. apply within_bind_quiet; [auto with quiet|]. intros limits g Hg. unfold check_usage.
  destruct (negb _); [by apply (ret_quiet st ok tt g)|].
  destruct (gw_quota_store g) as [q1|]; [|by apply (ret_quiet st ok tt g)].
  revert g Hg. apply within_bind_quiet; [auto with quiet|]. intros usage. apply check_quota_quiet.
Qed.

Lemma increment_quiet st ok request tokens cost : within st ok 0 (_increment_quota_usage request tokens cost).
Proof.
  intros g Hg. unfold _increment_quota_usage. destruct (gw_quota_store g) as [q|];
    [|by apply (ret_quiet st ok tt g)].
  revert g Hg. quiet.
Qed.
#[local] Hint Resolve increment_quiet : quiet.

(** An attempt is one call. *)
Lemma attempt_within st ok rd request alias provider complete idx :
  ok alias -> within st ok 1 (attempt rd request alias provider complete idx).
Proof.
  intros Hok g Hg. unfold attempt. cbv zeta.
  match goal with |- exists new, advances g (?m g).1 new /\ _ => cut (within st ok (1 + 0) m); [by intros H; apply H|] end.
  apply within_bind.
  - clear g Hg. intros g Hg. exists [alias]. split; [done|]. split; [simpl; lia|by apply Forall_singleton].
  - intros _. quiet.
Qed.

Lemma sleep_quiet st ok d : within st ok 0 (modify (log_sleep d)).
Proof. apply within_quiet. intros g. unfold advances. simpl. by rewrite app_nil_r. Qed.
#[local] Hint Resolve sleep_quiet : quiet.

Lemma attempts_within st ok n idx rd request alias provider complete errors :
  ok alias -> within st ok n (attempts n idx rd request alias provider complete errors).
Proof.
  intros Hok. revert idx errors. induction n as [|n IH]; intros idx errors g Hg; cbn [attempts].
  { by apply (ret_quiet st ok (inr errors) g). }
  destruct (attempt_within st ok rd request alias provider complete idx Hok g Hg) as (l1 & A1 & H1 & O1).
  destruct (attempt rd request alias provider complete idx g) as [g1 [response|e]]; simpl in A1.
  { exists l1. split; [done|]. split; [lia|done]. }
  destruct (idx <? pv_max_retries provider); [|exists l1; split; [done|]; split; [lia|done]].
  match goal with |- exists new, advances g (?m g1).1 new /\ _ =>
    assert (H : within st ok n m) by (apply within_bind_quiet; [solve [auto with quiet]|intros d];
      apply within_bind_quiet; [solve [auto with quiet]|intros _]; apply IH) end.
  destruct (H g1) as (l2 & A2 & H2 & O2); [by destruct A1 as [-> _]|].
  exists (l1 ++ l2). split; [by eapply advances_trans|]. rewrite List.length_app.
  split; [lia|by apply Forall_app].
Qed.

(** ** The budget of a request *)

Definition provider_budget (st : GatewaySettings) (alias : string) : nat :=
  match gs_providers st !! alias with
  | Some p => if pv_enabled p then Z.to_nat (pv_max_retries p + 1) else 0
  | None => 0
  end.
Definition budget (st : GatewaySettings) (aliases : list string) : nat :=
  sum_list (provider_budget st <$> aliases).

Definition usable (st : GatewaySettings) (aliases : list string) (alias : string) : Prop :=
  alias ∈ aliases /\ exists p, gs_providers st !! alias = Some p /\ pv_enabled p = true.

Lemma providers_within st all rd request aliases last errors :
  (forall a, a ∈ aliases -> a ∈ all) ->
  within st (usable st all) (budget st aliases) (providers rd request aliases last errors).
Proof.
  revert last errors. induction aliases as [|alias rest IH]; intros last errors Hsub g Hg; cbn [providers].
  { by apply (ret_quiet st (usable st all) (inr (last, errors)) g). }
  assert (Hrest : forall a, a ∈ rest -> a ∈ all) by (intros a Ha; apply Hsub; by right).
  unfold _get_provider. rewrite Hg. unfold budget, provider_budget. csimpl. fold (budget st rest).
  destruct (gs_providers st !! alias) as [p|] eqn:Ep; cycle 1.
  { exists []. split; [apply advances_refl|]. split; [simpl; lia|done]. }
  destruct (pv_enabled p) eqn:Een; cbn [negb]; [|by apply IH].
  destruct (gw_provider_clients g !! alias) as [complete|]; cycle 1.
  { exists []. split; [apply advances_refl|]. split; [simpl; lia|done]. }
  revert g Hg. apply within_bind.
  - apply attempts_within. split; [apply Hsub; by left|]. by exists p.
  - intros [response|errors']; [|by apply IH].
    eapply within_weaken; [|apply ret_quiet]. lia.
Qed.

(** A request does a bounded amount of work whatever the providers, stores
    and metrics do: it returns or raises after calling only enabled providers
    of its order, at most one more time each than their configured retries
    (none when a provider is disabled). *)
Theorem generate_bounded rd request provider_order (g : GW) :
  exists new, gw_called (generate rd request provider_order g).1 = gw_called g ++ new /\
    (List.length new <= budget (gw_settings g) (order_of g provider_order))%nat /\
    Forall (usable (gw_settings g) (order_of g provider_order)) new.
Proof.
  unfold generate. set (st := gw_settings g). set (aliases := order_of g provider_order).
  assert (H : within st (usable st aliases) (budget st aliases) (generate_from rd request aliases)).
  { unfold generate_from. destruct aliases as [|a l]; [eapply within_weaken; [|apply lift_quiet]; lia|].
    apply within_bind_quiet; [apply enforce_quiet|]. intros _.
    rewrite <- (Nat.add_0_r (budget st _)). apply within_bind; [by apply providers_within|].
    intros [response|[last errors]]; [apply ret_quiet|]. cbv zeta.
    apply within_bind_quiet; [apply record_quiet|intros _]. quiet. }
  destruct (H g eq_refl) as (new & (_ & _ & Hc) & Hl & Ho). by exists new.
Qed.

(** ** Quota *)

(** The collaborators other than the quota store leave its state alone. *)
Lemma blocked_raises rd request reason message tokens cost (g : GW) :
  let '(g', r) := quota_blocked rd request reason message tokens cost g in
  gw_quota_store g' = gw_quota_store g /\ exists e, r = Raise e.
Proof.
  unfold quota_blocked, _persist_quota_block_record, persist_record, _record_llm_metrics, on_calls,
    on_metrics, mbind, prog_bind, lift.
  destruct (gw_call_store g) as [c|]; [destruct (persist_call _ c) as [c' [[]|e]]|]; simpl; eauto;
    (destruct (gw_metrics g) as [s|]; [destruct (record_llm_call _ _ _ _ _ _ _ s) as [s' [[]|e]]|]);
    simpl; eauto.
Qed.

(** Tokens a request may use at most. *)
Definition projected_tokens (request : LLMRequest) : Z :=
  _estimate_prompt_tokens (rq_messages request) + Z.max (rq_max_tokens request) 0.

(** The hard quota stops a request before it costs anything: when the tokens
    used today and those the request may use exceed the daily limit, it raises,
    no provider has been called, and the usage recorded is unchanged. *)
Theorem quota_stops_request rd request provider_order (g : GW) q q1 q2 limits usage limit :
  order_of g provider_order <> [] -> gw_quota_store g = Some q ->
  get_limits (scope_of request) q = (q1, Ok limits) -> ql_is_hard_limit limits = true ->
  get_usage (scope_of request) q1 = (q2, Ok usage) -> ql_daily_token_limit limits = Some limit ->
  limit < qu_daily_tokens usage + projected_tokens request ->
  exists g' e, generate rd request provider_order g = (g', Raise e) /\
    gw_called g' = gw_called g /\ gw_quota_store g' = Some q2.
Proof.
  intros Ho Hq Hl Hh Hu Hd Hlt. unfold generate.
  destruct (enforce_quiet (gw_settings g) (fun _ => False) rd request (order_of g provider_order) g eq_refl)
    as (new & (_ & _ & Hc) & Hlen & _).
  assert (new = []) as -> by (by apply nil_length_inv; lia). rewrite app_nil_r in Hc.
  assert (Hr : exists g' e, _enforce_hard_quota_limits rd request (order_of g provider_order) g = (g', Raise e) /\
    gw_quota_store g' = Some q2).
  { unfold _enforce_hard_quota_limits, check_usage, on_quota, mbind, prog_bind, check_quota. rewrite Hq, Hl.
    cbv zeta iota beta. rewrite Hh. cbn [negb put_stores gw_quota_store]. rewrite Hu. cbv iota beta.
    rewrite Hd. unfold projected_tokens in Hlt. rewrite (proj2 (Z.ltb_lt _ _) Hlt). unfold lift.
    destruct (_minimum_projected_cost _ _ _ _) as [cost|e]; unfold mbind, prog_bind; [|by eexists _, e]. cbv beta iota.
    match goal with |- context [quota_blocked rd request ?a ?b ?c ?d ?g0] =>
      pose proof (blocked_raises rd request a b c d g0) as Hb; destruct (quota_blocked rd request a b c d g0)
    end.
    destruct Hb as [Hq2 [e ->]]. eexists _, e. split; [reflexivity|]. by rewrite Hq2. }
  destruct Hr as (g' & e & E & Hq'). rewrite E in Hc. exists g', e. split; [|by split].
  unfold generate_from. destruct (order_of g provider_order); [done|].
  unfold mbind at 1, prog_bind at 1. by rewrite E.
Qed.
End bounds.

(** ** Concrete requests *)

Module Example.
(** A quota store with one limit and one usage, a call store that answers by a
    script, and a metrics sink that ignores what it is told. *)
Record quota := { qs_limit : Z; qs_tokens : Z; qs_cost : f64 }.
#[global] Instance quota_store : LLMQuotaStore quota := {
  get_limits _ := gets (fun q =>
    {| ql_daily_token_limit := Some (qs_limit q); ql_monthly_cost_limit := None; ql_is_hard_limit := true |});
  get_usage _ := gets (fun q => {| qu_daily_tokens := qs_tokens q; qu_monthly_cost := qs_cost q |});
  increment_usage _ tokens cost := fun q =>
    ({| qs_limit := qs_limit q; qs_tokens := qs_tokens q + tokens; qs_cost := fadd (qs_cost q) cost |},
     Ok {| qu_daily_tokens := qs_tokens q + tokens; qu_monthly_cost := fadd (qs_cost q) cost |});
}.
#[global] Instance call_store : LLMCallStore (list (result unit)) := {
  persist_call _ := fun script => match script with [] => ([], Ok tt) | r :: rest => (rest, r) end;
}.
#[global] Instance metrics_sink : LLMMetricsSink unit := { record_llm_call _ _ _ _ _ _ _ := mret tt }.

Definition provider : ProviderSettings :=
  {| pv_alias := "a"; pv_model := "m"; pv_timeout_ms := 1000; pv_max_retries := 1; pv_enabled := true;
     pv_prompt_cost_per_1k_tokens := fone; pv_completion_cost_per_1k_tokens := fone; pv_extra := [] |}.
Definition settings : GatewaySettings :=
  {| gs_providers := {["a"%string := provider]}; gs_default_provider_order := ["a"%string];
     gs_retry_base_ms := 100; gs_retry_max_ms := 2000 |}.
Definition answer : client := fun _ _ _ _ =>
  Ok [("content", VStr "{}"); ("usage", VDict [("prompt_tokens", VInt 60); ("completion_tokens", VInt 40)])].
Definition gateway (limit : Z) (script : list (result unit)) : LLMGateway quota (list (result unit)) unit :=
  {| gw_settings := settings; gw_provider_clients := {["a"%string := answer]}; gw_call_store := Some script;
     gw_quota_store := Some {| qs_limit := limit; qs_tokens := 0; qs_cost := fzero |}; gw_metrics := Some tt;
     gw_called := []; gw_slept := [] |}.
Definition request : LLMRequest :=
  {| rq_trace_id := "t"; rq_decision_id := "d"; rq_strategy_id := "s"; rq_agent_name := "planner";
     rq_messages := [[("role", VStr "user"); ("content", VStr "hello")]]; rq_temperature := fzero;
     rq_max_tokens := 100; rq_metadata := [] |}.
Definition rd : readings :=
  {| rd_mono := fun _ _ => fzero; rd_requested := fun _ => 63850000000000000; rd_uuid := fun _ => "id";
     rd_now := fun _ => 63850000000000000 |}.
Definition tokens_used (g : LLMGateway quota (list (result unit)) unit) : option Z := qs_tokens <$> gw_quota_store g.
End Example.

(** A failing call store makes the gateway pay twice: the store is inside the
    [try] of the attempt, after the quota has been charged, so an answer that
    could not be recorded is asked for again. *)
Lemma unrecorded_answer_charged_twice :
  let ok := generate Example.rd Example.request [] (Example.gateway 1000 []) in
  let failing := generate Example.rd Example.request []
    (Example.gateway 1000 [raise (ExternalError "OperationalError") "database is locked"]) in
  Example.tokens_used ok.1 = Some 100 /\ gw_called ok.1 = ["a"%string] /\
  Example.tokens_used failing.1 = Some 200 /\ gw_called failing.1 = ["a"; "a"]%string /\
  is_ok failing.2 = true.
Proof. vm_compute. done. Qed.

Lemma quota_stops_request_witness :
  exists g' e, generate Example.rd Example.request [] (Example.gateway 50 []) = (g', Raise e) /\
    gw_called g' = [] /\ Example.tokens_used g' = Some 0.
Proof.
  destruct (quota_stops_request Example.rd Example.request [] (Example.gateway 50 [])
    {| Example.qs_limit := 50; Example.qs_tokens := 0; Example.qs_cost := fzero |}
    {| Example.qs_limit := 50; Example.qs_tokens := 0; Example.qs_cost := fzero |}
    {| Example.qs_limit := 50; Example.qs_tokens := 0; Example.qs_cost := fzero |}
    {| ql_daily_token_limit := Some 50; ql_monthly_cost_limit := None; ql_is_hard_limit := true |}
    {| qu_daily_tokens := 0; qu_monthly_cost := fzero |} 50) as (g' & e & H & Hc & Hq);
    try reflexivity; try discriminate.
  exists g', e. split; [exact H|]. split; [exact Hc|]. unfold Example.tokens_used. rewrite Hq. reflexivity.
Defined.
