(* ===== verification/LlmStores.v ===== *)
(** * The database stores of the LLM gateway

    [services/llm_gateway/sqlalchemy_stores.py]: the calls and the quotas on
    tables, as instances of the store interfaces of [LlmGateway.v]. The clock is read
    from the state: reading it takes the next of the given times. *)

From S2P Require Import Prelude PyStr PyFloat PyTime PyVal PyJson LlmGateway SqlTable.
From stdpp Require Import options.
From Stdlib Require Import Ascii String.

#[local] Open Scope Z_scope.

(** ** Tables *)

Record call_row := {
  cl_llm_call_id : string; cl_trace_id : string; cl_decision_id : string; cl_strategy_id : string; cl_agent_name : string;
  cl_provider : string; cl_model : string; cl_prompt_payload : string; cl_response_payload : string;
  cl_prompt_tokens : Z; cl_completion_tokens : Z; cl_total_tokens : Z; cl_latency_ms : f64; cl_estimated_cost : f64;
  cl_created_at : string }.

Record limit_row := {
  lm_scope : quota_scope; lm_daily_token_limit : Z; lm_monthly_cost_limit : f64; lm_is_hard_limit : Z; lm_created_at : string }.

(** A row of [llm_usage_daily] or [llm_usage_monthly]; the period is the date or the month. *)
Record usage_row := {
  us_scope : quota_scope; us_period : string; us_total_tokens : Z; us_estimated_cost : f64; us_created_at : string }.

Record llm_db := {
  ld_calls : list call_row;
  ld_limits : list limit_row;
  ld_daily : list usage_row;
  ld_monthly : list usage_row;
  ld_clock : nat -> Z;
  ld_tick : nat }.

Definition set_calls (t : list call_row) (db : llm_db) : llm_db :=
  {| ld_calls := t; ld_limits := ld_limits db; ld_daily := ld_daily db; ld_monthly := ld_monthly db; ld_clock := ld_clock db; ld_tick := ld_tick db |}.
Definition set_daily (t : list usage_row) (db : llm_db) : llm_db :=
  {| ld_calls := ld_calls db; ld_limits := ld_limits db; ld_daily := t; ld_monthly := ld_monthly db; ld_clock := ld_clock db; ld_tick := ld_tick db |}.
Definition set_monthly (t : list usage_row) (db : llm_db) : llm_db :=
  {| ld_calls := ld_calls db; ld_limits := ld_limits db; ld_daily := ld_daily db; ld_monthly := t; ld_clock := ld_clock db; ld_tick := ld_tick db |}.

(** [datetime.now(timezone.utc)] *)
Definition read_clock : prog llm_db Z := fun db =>
  ({| ld_calls := ld_calls db; ld_limits := ld_limits db; ld_daily := ld_daily db; ld_monthly := ld_monthly db;
      ld_clock := ld_clock db; ld_tick := S (ld_tick db) |}, Ok (ld_clock db (ld_tick db))).

(** [now.date().isoformat()] and [now.strftime("%Y-%m")] *)
Definition date_key (now : Z) : string := str_take 10 (isoformat (utc now)).
Definition month_key (now : Z) : string := str_take 7 (isoformat (utc now)).

(** ** Calls *)

Definition call_values (record : LLMCallRecord) : result call_row :=
  prompt ← json_dumps json_plain (VDict (cr_prompt_payload record));
  response ← json_dumps json_plain (VDict (cr_response_payload record));
  latency ← not_null "llm_calls.latency_ms" (cr_latency_ms record);
  cost ← not_null "llm_calls.estimated_cost" (cr_estimated_cost record);
  Ok {| cl_llm_call_id := cr_llm_call_id record; cl_trace_id := rq_trace_id (cr_request record);
        cl_decision_id := rq_decision_id (cr_request record); cl_strategy_id := rq_strategy_id (cr_request record);
        cl_agent_name := rq_agent_name (cr_request record); cl_provider := cr_provider record; cl_model := cr_model record;
        cl_prompt_payload := prompt; cl_response_payload := response; cl_prompt_tokens := tu_prompt (cr_usage record);
        cl_completion_tokens := tu_completion (cr_usage record); cl_total_tokens := tu_total (cr_usage record);
        cl_latency_ms := latency; cl_estimated_cost := cost; cl_created_at := cr_created_at record |}.

Definition persist_call_row (record : LLMCallRecord) : prog llm_db unit :=
  row ← lift (call_values record);
  calls ← gets ld_calls;
  calls' ← lift (insert_row "llm_calls.llm_call_id" (fun r => String.eqb (cl_llm_call_id r) (cl_llm_call_id row)) row calls);
  modify (set_calls calls').

#[export] Instance sql_call_store : LLMCallStore llm_db := { persist_call := persist_call_row }.

(** ** Quotas *)

(** [ORDER BY created_at DESC LIMIT 1] *)
Definition latest_limit (scope : quota_scope) (t : list limit_row) : option limit_row :=
  head (sort_by (fun a b => str_leb (lm_created_at b) (lm_created_at a)) (List.filter (fun r => bool_decide (lm_scope r = scope)) t)).

Definition limits_of (row : option limit_row) : QuotaLimits :=
  match row with
  | None => {| ql_daily_token_limit := None; ql_monthly_cost_limit := None; ql_is_hard_limit := false |}
  | Some r => {| ql_daily_token_limit := Some (lm_daily_token_limit r); ql_monthly_cost_limit := Some (lm_monthly_cost_limit r);
                 ql_is_hard_limit := negb (lm_is_hard_limit r =? 0) |}
  end.

Definition sql_get_limits (scope : quota_scope) : prog llm_db QuotaLimits := gets (fun db => limits_of (latest_limit scope (ld_limits db))).

Definition usage_key (r : usage_row) : quota_scope * string := (us_scope r, us_period r).

Definition usage_at (scope : quota_scope) (now : Z) (db : llm_db) : QuotaUsage :=
  {| qu_daily_tokens := match row_at usage_key (scope, date_key now) (ld_daily db) with Some r => us_total_tokens r | None => 0 end;
     qu_monthly_cost := match row_at usage_key (scope, month_key now) (ld_monthly db) with Some r => us_estimated_cost r | None => fzero end |}.

Definition sql_get_usage (scope : quota_scope) : prog llm_db QuotaUsage :=
  now ← read_clock;
  gets (usage_at scope now).

(** [INSERT ... ON CONFLICT (strategy_id, agent_name, period) DO UPDATE]: both columns
    are added to. *)
Definition add_usage (table : string) (new : usage_row) (t : list usage_row) : result (list usage_row) :=
  added ← not_null (table +:+ ".estimated_cost") (us_estimated_cost new);
  cost ← not_null (table +:+ ".estimated_cost")
           (match row_at usage_key (usage_key new) t with Some r => fadd (us_estimated_cost r) added | None => added end);
  Ok (upsert_row (fun r => bool_decide (usage_key r = usage_key new))
        (fun r => {| us_scope := us_scope r; us_period := us_period r; us_total_tokens := us_total_tokens r + us_total_tokens new;
                     us_estimated_cost := cost; us_created_at := us_created_at r |}) new t).

Definition usage_values (scope : quota_scope) (period : string) (tokens : Z) (cost : f64) (now : Z) : usage_row :=
  {| us_scope := scope; us_period := period; us_total_tokens := tokens; us_estimated_cost := cost; us_created_at := iso_z now |}.

Definition sql_increment_usage (scope : quota_scope) (added_tokens : Z) (added_cost : f64) : prog llm_db QuotaUsage :=
  now ← read_clock;
  daily ← gets ld_daily;
  daily' ← lift (add_usage "llm_usage_daily" (usage_values scope (date_key now) added_tokens added_cost now) daily);
  _ ← modify (set_daily daily');
  monthly ← gets ld_monthly;
  monthly' ← lift (add_usage "llm_usage_monthly" (usage_values scope (month_key now) added_tokens added_cost now) monthly);
  _ ← modify (set_monthly monthly');
  sql_get_usage scope.

#[export] Instance sql_quota_store : LLMQuotaStore llm_db := {
  get_limits := sql_get_limits; get_usage := sql_get_usage; increment_usage := sql_increment_usage }.

(** ** What the tables add up *)

(** A charge that was recorded. *)
Record charge := { ch_scope : quota_scope; ch_at : Z; ch_tokens : Z; ch_cost : f64 }.

Definition tokens_on (scope : quota_scope) (date : string) (h : list charge) : Z :=
  foldr Z.add 0 (ch_tokens <$> List.filter (fun c => bool_decide ((ch_scope c, date_key (ch_at c)) = (scope, date))) h).
Definition costs_in (scope : quota_scope) (month : string) (h : list charge) : list f64 :=
  ch_cost <$> List.filter (fun c => bool_decide ((ch_scope c, month_key (ch_at c)) = (scope, month))) h.
Definition sum_costs (costs : list f64) : f64 := match costs with [] => fzero | c :: cs => foldl fadd c cs end.

(** A store whose usage tables were empty, after the charges [h]; reading and storing calls
    do not count. *)
Inductive recorded : llm_db -> list charge -> Prop :=
  | recorded_empty db : ld_daily db = [] -> ld_monthly db = [] -> recorded db []
  | recorded_charge db h scope tokens cost db' u :
      recorded db h -> increment_usage scope tokens cost db = (db', Ok u) ->
      recorded db' (h ++ [{| ch_scope := scope; ch_at := ld_clock db (ld_tick db); ch_tokens := tokens; ch_cost := cost |}])
  | recorded_read db h scope : recorded db h -> recorded (get_usage scope db).1 h
  | recorded_limits db h scope : recorded db h -> recorded (get_limits scope db).1 h
  | recorded_call db h record : recorded db h -> recorded (persist_call record db).1 h.

Definition tables_add_up (db : llm_db) (h : list charge) : Prop :=
  (forall scope date, match row_at usage_key (scope, date) (ld_daily db) with Some r => us_total_tokens r | None => 0 end = tokens_on scope date h) /\
  (forall scope month, us_estimated_cost <$> row_at usage_key (scope, month) (ld_monthly db) =
     match costs_in scope month h with [] => None | cs => Some (sum_costs cs) end).

Lemma add_usage_rows table new t t' :
  add_usage table new t = Ok t' ->
  (forall k, k <> usage_key new -> row_at usage_key k t' = row_at usage_key k t) /\
  exists r, row_at usage_key (usage_key new) t' = Some r /\
    us_total_tokens r = match row_at usage_key (usage_key new) t with Some o => us_total_tokens o | None => 0 end + us_total_tokens new /\
    us_estimated_cost r = match row_at usage_key (usage_key new) t with
                          | Some o => fadd (us_estimated_cost o) (us_estimated_cost new)
                          | None => us_estimated_cost new
                          end.
Proof.
  unfold add_usage. intros (added & ->%not_null_Ok & H)%bind_Ok. apply bind_Ok in H as (cost & Hc%not_null_Ok & [= <-]).
  set (merge := fun r => {| us_scope := us_scope r; us_period := _; us_total_tokens := _; us_estimated_cost := _; us_created_at := _ |}). assert (forall r, usage_key r = usage_key new -> usage_key (merge r) = usage_key r) as Hm by done.
  split; [intros k Hk; by apply row_at_upsert_ne|]. rewrite row_at_upsert_eq by done. eexists. split; [reflexivity|].
  destruct (row_at usage_key (usage_key new) t) as [o|]; [split; [done|exact Hc]|]. split; [lia|done].
Qed.

Lemma filter_snoc {A} (p : A -> bool) l x : List.filter p (l ++ [x]) = List.filter p l ++ (if p x then [x] else []).
Proof. rewrite List.filter_app. cbn. by destruct (p x). Qed.

Lemma tokens_on_snoc scope date h c :
  tokens_on scope date (h ++ [c]) =
    tokens_on scope date h + (if bool_decide ((ch_scope c, date_key (ch_at c)) = (scope, date)) then ch_tokens c else 0).
Proof.
  unfold tokens_on. rewrite filter_snoc, fmap_app, foldr_app. case_bool_decide; cbn [fmap list_fmap foldr].
  - rewrite Z.add_0_r. generalize (ch_tokens <$> List.filter (fun c => bool_decide ((ch_scope c, date_key (ch_at c)) = (scope, date))) h).
    intros l. induction l as [|x l IH]; cbn; lia.
  - lia.
Qed.

Lemma costs_in_snoc scope month h c :
  costs_in scope month (h ++ [c]) =
    costs_in scope month h ++ (if bool_decide ((ch_scope c, month_key (ch_at c)) = (scope, month)) then [ch_cost c] else []).
Proof. unfold costs_in. rewrite filter_snoc, fmap_app. by case_bool_decide. Qed.

Lemma sum_costs_snoc cs c : cs <> [] -> sum_costs (cs ++ [c]) = fadd (sum_costs cs) c.
Proof. destruct cs as [|x cs]; [done|]. intros _. cbn [app sum_costs]. by rewrite foldl_app. Qed.

Lemma recorded_adds_up db h : recorded db h -> tables_add_up db h.
Proof.
  induction 1 as [db H1 H2|db h scope tokens cost db' u _ [IH1 IH2] Hi|db h scope _ IH|db h scope _ IH|db h record _ IH].
  - split; [intros; by rewrite H1|intros; by rewrite H2].
  - cbn [increment_usage sql_quota_store] in Hi. unfold sql_increment_usage, read_clock in Hi. unfold mbind at 1, prog_bind at 1 in Hi.
    rewrite gets_bind, lift_bind in Hi. destruct (add_usage "llm_usage_daily" _ _) as [daily|] eqn:Ed; [|done].
    rewrite modify_bind, gets_bind, lift_bind in Hi. destruct (add_usage "llm_usage_monthly" _ _) as [monthly|] eqn:Em; [|done].
    rewrite modify_bind in Hi. injection Hi as <- _. cbn [ld_daily ld_monthly set_daily set_monthly] in *.
    apply add_usage_rows in Ed as [D1 (rd & D2 & D3 & _)]. apply add_usage_rows in Em as [M1 (rm & M2 & _ & M3)].
    set (now := ld_clock db (ld_tick db)) in *.
    change (usage_key (usage_values scope (date_key now) tokens cost now)) with (scope, date_key now) in D1, D2, D3.
    change (usage_key (usage_values scope (month_key now) tokens cost now)) with (scope, month_key now) in M1, M2, M3.
    cbn [usage_values us_total_tokens us_estimated_cost] in D3, M3.
    split.
    + intros s date. rewrite tokens_on_snoc. cbn [ch_scope ch_at ch_tokens]. case_bool_decide as E.
      * injection E as -> <-. cbn [ld_daily]. rewrite D2, D3, IH1. done.
      * cbn [ld_daily]. rewrite D1 by congruence. rewrite IH1. lia.
    + intros s month. rewrite costs_in_snoc. cbn [ch_scope ch_at ch_cost]. case_bool_decide as E.
      * injection E as -> <-. cbn [ld_monthly]. rewrite M2. cbn [fmap option_fmap option_map]. rewrite M3.
        specialize (IH2 s (month_key now)). destruct (costs_in s (month_key now) h) as [|c cs] eqn:Ec.
        -- by destruct (row_at usage_key (s, month_key now) (ld_monthly db)).
        -- destruct (row_at usage_key (s, month_key now) (ld_monthly db)) as [o|]; [|done]. injection IH2 as IH2.
           cbn [app]. f_equal. change (c :: cs ++ [cost]) with ((c :: cs) ++ [cost]). by rewrite sum_costs_snoc, IH2.
      * cbn [ld_monthly]. rewrite app_nil_r, M1 by congruence. apply IH2.
  - exact IH.
  - exact IH.
  - cbn [persist_call sql_call_store]. unfold persist_call_row. rewrite lift_bind. destruct (call_values record); [|exact IH].
    rewrite gets_bind, lift_bind. destruct (insert_row _ _ _ _); exact IH.
Qed.

(** C16. The usage the gateway is told is what was charged: whatever was charged, read and
    stored, in whatever order and at whatever times, the tokens reported for a strategy
    and an agent are the sum of those charged to them on the day of the question, and
    the cost is the sum of the costs charged in its month, added in their order. *)
Theorem quota_usage_exact db h scope :
  recorded db h ->
  let now := ld_clock db (ld_tick db) in
  exists db', get_usage scope db =
    (db', Ok {| qu_daily_tokens := tokens_on scope (date_key now) h; qu_monthly_cost := sum_costs (costs_in scope (month_key now) h) |}) /\
    recorded db' h.
Proof.
  intros Hr now. pose proof (recorded_read db h scope Hr) as Hr'. destruct (recorded_adds_up _ _ Hr) as [H1 H2].
  destruct (get_usage scope db) as [db' r] eqn:E. exists db'. split; [|exact Hr'].
  cbn [get_usage sql_quota_store] in E. unfold sql_get_usage, read_clock, mbind, prog_bind, gets in E. injection E as <- <-.
  f_equal. f_equal. unfold usage_at. cbn [ld_daily ld_monthly]. fold now. rewrite H1. f_equal. specialize (H2 scope (month_key now)).
  destruct (row_at usage_key (scope, month_key now) (ld_monthly db)) as [r|]; cbn in H2; destruct (costs_in _ _ _); try done.
  by injection H2.
Qed.

(** ** Two charges and a question *)

Module Example_quota.
Definition scope : quota_scope := ("s-1", "planner")%string.
(** Noon, an hour later, and then the next day. *)
Definition clock (n : nat) : Z := 63850161600000000 + nth n [0; 3600; 3600; 3600] 90000 * 1000000.
Definition db0 : llm_db :=
  {| ld_calls := []; ld_limits := []; ld_daily := []; ld_monthly := []; ld_clock := clock; ld_tick := 0 |}.
Definition db1 : llm_db := (increment_usage scope 120 (flit 25 (-2)) db0).1.
Definition db2 : llm_db := (increment_usage scope 30 (flit 5 (-1)) db1).1.

Definition history : list charge :=
  ([] ++ [{| ch_scope := scope; ch_at := ld_clock db0 (ld_tick db0); ch_tokens := 120; ch_cost := flit 25 (-2) |}]) ++
  [{| ch_scope := scope; ch_at := ld_clock db1 (ld_tick db1); ch_tokens := 30; ch_cost := flit 5 (-1) |}].

Lemma recorded_db2 : recorded db2 history.
Proof.
  refine (recorded_charge db1 _ scope 30 (flit 5 (-1)) db2 {| qu_daily_tokens := 150; qu_monthly_cost := flit 75 (-2) |} _ _).
  - refine (recorded_charge db0 [] scope 120 (flit 25 (-2)) db1 {| qu_daily_tokens := 120; qu_monthly_cost := flit 25 (-2) |} _ _);
      [by constructor|]. apply with_state. vm_compute. reflexivity.
  - apply with_state. vm_compute. reflexivity.
Qed.

Lemma quota_usage_exact_witness :
  let now := ld_clock db2 (ld_tick db2) in
  exists db', get_usage scope db2 =
    (db', Ok {| qu_daily_tokens := tokens_on scope (date_key now) history; qu_monthly_cost := sum_costs (costs_in scope (month_key now) history) |}) /\
    recorded db' history.
Proof. exact (quota_usage_exact db2 history scope recorded_db2). Defined.

Example usage_now : (get_usage scope db2).2 = Ok {| qu_daily_tokens := 0; qu_monthly_cost := flit 75 (-2) |}.
Proof. vm_compute. reflexivity. Qed.
End Example_quota.
