(* ===== verification/ExchangeClients.v ===== *)
(** * Exchange clients

    The clients behind the adapter of [MarketPipeline.v]:
    [services/market_ingestion/binance_http_adapter.py] and
    [bitget_http_adapter.py] (REST), [ccxt_pro_adapter.py] (CCXT Pro with a fallback),
    and the synthetic clients and the runner of [services/workers/market.py]. The
    exchange's HTTP server, the CCXT Pro client and the clocks are arguments. *)

From S2P Require Import Prelude PyStr PyFloat PyHash PyVal PyJson Http OrderBook MarketPipeline LlmGateway.
From stdpp Require Import options.
From Stdlib Require Import Ascii String SpecFloat.

#[local] Open Scope Z_scope.

(** ** What the two REST clients share *)

(** The constructor's arguments and the exception class of a client. *)
Record http_client := {
  hc_name : string;
  hc_error : exc_class;
  hc_base_url : string;
  hc_depth_path : string;
  hc_klines_path : string;
  hc_timeout_seconds : f64 }.

Definition client_init (name : string) (error : exc_class) (base_url depth_path klines_path : string) (timeout_seconds : f64) : http_client :=
  {| hc_name := name; hc_error := error; hc_base_url := rstrip_with (Ascii.eqb "/") base_url; hc_depth_path := depth_path;
     hc_klines_path := klines_path; hc_timeout_seconds := timeout_seconds |}.
Definition binance_init (base_url : string) (timeout_seconds : f64) : http_client :=
  client_init "Binance" BinanceHTTPAdapterError base_url "/api/v3/depth" "/api/v3/klines" timeout_seconds.
Definition bitget_init (base_url : string) (timeout_seconds : f64) : http_client :=
  client_init "Bitget" BitgetHTTPAdapterError base_url "/api/v2/spot/market/orderbook" "/api/v2/spot/market/candles" timeout_seconds.

Definition exchange_symbol (symbol : string) : string := upper (replace "/" "" symbol).

Definition get_request (c : http_client) (url : string) : http_request :=
  {| hr_method := "GET"; hr_url := url; hr_body := None; hr_headers := []; hr_timeout := hc_timeout_seconds c |}.

Definition only_json_error (c : exc_class) : bool := bool_decide (c = JSONDecodeError).
Definition type_or_value_error (c : exc_class) : bool := match c with TypeError => true | _ => is_value_error c end.

Section server.
Context (server : http_request -> http_reply).

(** [_request_json]; [what] is how the message names the response. *)
Definition _request_json (c : http_client) (what url : string) : result val :=
  raw ← match server (get_request c url) with
        | HttpText raw => Ok raw
        | HttpStatusError status detail => raise (hc_error c) (hc_name c +:+ " HTTP " +:+ str_of_Z status +:+ ": " +:+ detail)
        | HttpError message => raise (hc_error c) (hc_name c +:+ " connection error: " +:+ message)
        end;
  try_except (json_loads raw) only_json_error (fun _ => raise (hc_error c) (hc_name c +:+ " " +:+ what +:+ " is not valid JSON")).

Definition depth_url (c : http_client) (symbol : string) (limit : option Z) : string :=
  hc_base_url c +:+ hc_depth_path c +:+ "?" +:+
  urlencode (("symbol"%string, exchange_symbol symbol) :: match limit with Some n => [("limit"%string, str_of_Z n)] | None => [] end).

(** [list(value)] *)
Definition py_list (v : val) : result (list val) :=
  match v with
  | VList l => Ok l
  | VStr s => Ok ((fun c => VStr (String c "")) <$> String.list_ascii_of_string s)
  | VDict d => Ok (VStr <$> d.*1)
  | _ => raise TypeError "object is not iterable"
  end.

Definition book_payload (nonce timestamp : Z) (bids asks : list val) : dict :=
  [("nonce", VInt nonce); ("timestamp", VInt timestamp); ("bids", VList bids); ("asks", VList asks)]%string.

(** ** Binance *)

(** [now_ms] is [int(time.time() * 1000)] *)
Definition binance_request_depth (now_ms : Z) (c : http_client) (symbol : string) (limit : option Z) : result dict :=
  parsed ← _request_json c "depth response" (depth_url c symbol limit);
  match parsed with
  | VDict d =>
      _ ← raise_if (negb (has_key "bids" d) || negb (has_key "asks" d)) (hc_error c) "Binance depth response must include bids and asks";
      nonce ← int_of_val (py_or (dget_or "lastUpdateId" (VInt 0) d) (VInt 0));
      bids ← py_list (dget "bids" d);
      asks ← py_list (dget "asks" d);
      Ok (book_payload nonce now_ms bids asks)
  | _ => raise (hc_error c) "Binance depth response must be a JSON object"
  end.

Definition kline_row (open_time_ms : Z) (open high low close volume quote_volume : f64) (trades : Z) : dict :=
  [("open_time_ms", VInt open_time_ms); ("open", VFloat open); ("high", VFloat high); ("low", VFloat low); ("close", VFloat close);
   ("volume", VFloat volume); ("quote_volume", VFloat quote_volume); ("trades", VInt trades)]%string.

(** A row that is too short or does not convert is skipped. *)
Definition skip_bad (m : result dict) : result (option (dict)) :=
  try_except (row ← m; Ok (Some row)) type_or_value_error (fun _ => Ok None).

Definition binance_bar (item : val) : result (option dict) :=
  match item with
  | VList (t :: o :: h :: l :: c :: v :: _ :: q :: n :: _) =>
      skip_bad (open_time ← int_of_val t; open ← float_of_val o; high ← float_of_val h; low ← float_of_val l;
                close ← float_of_val c; volume ← float_of_val v; quote_volume ← float_of_val q; trades ← int_of_val n;
                Ok (kline_row open_time open high low close volume quote_volume trades))
  | _ => Ok None
  end.

Definition open_time (row : dict) : Z := match dget "open_time_ms" row with VInt n => n | _ => 0 end.
Definition sort_bars (bars : list dict) : list dict := sort_by (fun a b => open_time a <=? open_time b) bars.

Definition collect_bars (parse : val -> result (option dict)) (items : list val) : result (list dict) :=
  parsed ← map_res parse items; Ok (sort_bars (omap (M := list) id parsed)).

Definition binance_request_klines (c : http_client) (symbol interval : string) (limit : Z) : result (list dict) :=
  let url := hc_base_url c +:+ hc_klines_path c +:+ "?" +:+
             urlencode [("symbol", exchange_symbol symbol); ("interval", str_or (strip interval) "1m");
                        ("limit", str_of_Z (Z.max 1 limit))]%string in
  parsed ← _request_json c "response" url;
  match parsed with
  | VList items => collect_bars binance_bar items
  | _ => raise (hc_error c) "Binance kline response must be a JSON array"
  end.

(** ** Bitget *)

Definition _parse_int (value : val) : result (option Z) :=
  match value with
  | VNone => Ok None
  | _ => try_except (n ← int_of_val value; Ok (Some n)) type_or_value_error (fun _ => Ok None)
  end.

Definition check_code (c : http_client) (what : string) (d : dict) : result unit :=
  raise_if (negb (bool_decide (strip (py_str (dget_or "code" (VStr "") d)) ∈ [""; "00000"; "0"]%string))) (hc_error c)
    ("Bitget " +:+ what +:+ " response returned error code: " +:+ py_str (dget "code" d)).

Definition first_some (a b : result (option Z)) : result (option Z) :=
  x ← a; match x with Some n => Ok (Some n) | None => b end.

Definition bitget_request_depth (now_ms : Z) (c : http_client) (symbol : string) (limit : option Z) : result dict :=
  parsed ← _request_json c "depth response" (depth_url c symbol limit);
  match parsed with
  | VDict d =>
      _ ← check_code c "depth" d;
      data ← match dget "data" d with
             | VList [] => raise (hc_error c) "Bitget depth response data list is empty"
             | VList (x :: _) => Ok x
             | raw_data => Ok raw_data
             end;
      match data with
      | VDict data =>
          match dget "bids" data, dget "asks" data with
          | VList bids, VList asks =>
              ts ← first_some (_parse_int (dget "ts" data)) (_parse_int (dget "requestTime" d));
              let timestamp := default now_ms ts in
              version ← _parse_int (dget "version" data);
              let nonce := match version with Some n => if n =? 0 then timestamp else n | None => timestamp end in
              Ok (book_payload nonce timestamp bids asks)
          | _, _ => raise (hc_error c) "Bitget depth response must include list bids and asks"
          end
      | _ => raise (hc_error c) "Bitget depth response data must be an object"
      end
  | _ => raise (hc_error c) "Bitget depth response must be a JSON object"
  end.

Definition _normalize_bitget_granularity (interval : string) : string :=
  let normalized := lower (strip interval) in
  default (str_or normalized "1min")
    (assoc_get normalized [("1m", "1min"); ("3m", "3min"); ("5m", "5min"); ("15m", "15min"); ("30m", "30min"); ("1h", "1h");
                           ("4h", "4h"); ("6h", "6h"); ("12h", "12h"); ("1d", "1day")]%string).

Definition bitget_bar (item : val) : result (option dict) :=
  match item with
  | VList (t :: o :: h :: l :: c :: v :: q :: rest) =>
      skip_bad (trades ← match rest with n :: _ => _parse_int n | [] => Ok None end;
                open_time ← int_of_val t; open ← float_of_val o; high ← float_of_val h; low ← float_of_val l;
                close ← float_of_val c; volume ← float_of_val v; quote_volume ← float_of_val q;
                Ok (kline_row open_time open high low close volume quote_volume (default 0 trades)))
  | _ => Ok None
  end.

Definition bitget_request_klines (c : http_client) (symbol interval : string) (limit : Z) : result (list dict) :=
  let url := hc_base_url c +:+ hc_klines_path c +:+ "?" +:+
             urlencode [("symbol", exchange_symbol symbol); ("granularity", _normalize_bitget_granularity interval);
                        ("limit", str_of_Z (Z.max 1 limit))]%string in
  parsed ← _request_json c "response" url;
  match parsed with
  | VDict d =>
      _ ← check_code c "kline" d;
      match dget "data" d with
      | VList rows => collect_bars bitget_bar rows
      | _ => raise (hc_error c) "Bitget kline response data must be a list"
      end
  | _ => raise (hc_error c) "Bitget kline response must be a JSON object"
  end.
End server.

(** ** The clients as the adapter sees them *)

(** [fetch_order_book] and [watch_order_book] of the HTTP clients are the same request. *)
Definition binance_client (server : http_request -> http_reply) (now_ms : Z) (c : http_client) : MarketPipeline.client :=
  fun symbol limit => binance_request_depth server now_ms c symbol (Some limit).
Definition bitget_client (server : http_request -> http_reply) (now_ms : Z) (c : http_client) : MarketPipeline.client :=
  fun symbol limit => bitget_request_depth server now_ms c symbol (Some limit).

(** ** CCXT Pro with a fallback *)

(** The exchange object of [ccxt.pro]. *)
Record ccxt_pro := {
  cp_fetch_order_book : MarketPipeline.client;
  cp_watch_order_book : MarketPipeline.client;
  cp_fetch_ohlcv : string -> string -> Z -> result val }.

Record CCXTProOrderBookClient := {
  cc_exchange : string;
  cc_timeout_ms : Z;
  cc_fallback_rest : MarketPipeline.client;
  cc_fallback_ws : MarketPipeline.client;
  cc_fallback_klines : string -> string -> Z -> result (list dict);
  cc_client : option ccxt_pro;
  cc_init_error : option string }.

(** [factory] imports [ccxt.pro] and makes the exchange object with the timeout;
    whatever it raises is remembered. *)
Definition ccxt_init (factory : string -> Z -> result ccxt_pro) (exchange : string) (rest ws : MarketPipeline.client)
    (klines : string -> string -> Z -> result (list dict)) (timeout_ms : Z) : result CCXTProOrderBookClient :=
  let normalized := lower (strip exchange) in
  _ ← raise_if (is_empty normalized) ValueError "exchange must be non-empty";
  let timeout := Z.max 1000 timeout_ms in
  let made := factory normalized timeout in
  Ok {| cc_exchange := normalized; cc_timeout_ms := timeout; cc_fallback_rest := rest; cc_fallback_ws := ws; cc_fallback_klines := klines;
        cc_client := match made with Ok c => Some c | Raise _ => None end;
        cc_init_error := match made with Ok _ => None | Raise e => Some (exc_name (exc_cls e) +:+ ": " +:+ exc_msg e) end |}.

Definition using_ccxt_pro (c : CCXTProOrderBookClient) : bool := match cc_client c with Some _ => true | None => false end.

Definition ccxt_fetch_order_book (c : CCXTProOrderBookClient) : MarketPipeline.client := fun symbol limit =>
  match cc_client c with
  | Some p => match cp_fetch_order_book p symbol limit with Ok r => Ok r | Raise _ => cc_fallback_rest c symbol limit end
  | None => cc_fallback_rest c symbol limit
  end.
Definition ccxt_watch_order_book (c : CCXTProOrderBookClient) : MarketPipeline.client := fun symbol limit =>
  match cc_client c with
  | Some p => match cp_watch_order_book p symbol limit with Ok r => Ok r | Raise _ => cc_fallback_ws c symbol limit end
  | None => cc_fallback_ws c symbol limit
  end.

Definition _normalize_ohlcv_row (row : val) : result (option dict) :=
  match row with
  | VList (t :: o :: h :: l :: c :: v :: _) =>
      open_time_ms ← int_of_val t;
      open_price ← float_of_val o; high_price ← float_of_val h; low_price ← float_of_val l;
      close_price ← float_of_val c; volume ← float_of_val v;
      Ok (Some (kline_row open_time_ms open_price high_price low_price close_price volume (fmul volume close_price) 0))
  | _ => Ok None
  end.

(** The rows of CCXT Pro when every one converts, else those of the fallback. *)
Definition ccxt_rows (p : ccxt_pro) (symbol interval : string) (limit : Z) : option (list dict) :=
  match cp_fetch_ohlcv p symbol interval limit with
  | Ok (VList rows) => match map_res _normalize_ohlcv_row rows with Ok l => Some (omap (M := list) id l) | Raise _ => None end
  | _ => None
  end.
Definition ccxt_fetch_klines (c : CCXTProOrderBookClient) (symbol interval : string) (limit : Z) : result (list dict) :=
  match cc_client c ≫= fun p => ccxt_rows p symbol interval limit with
  | Some rows => Ok rows
  | None => cc_fallback_klines c symbol interval limit
  end.

(** ** Synthetic clients *)

Definition half : f64 := flit 5 (-1).

Definition _build_order_book_payload (base_price : f64) (sequence timestamp_ms : Z) : dict :=
  let bid_0 := float_of_digits (fsub base_price half) 4 in
  let ask_0 := float_of_digits (fadd base_price half) 4 in
  [("nonce", VInt sequence); ("U", VInt sequence); ("u", VInt sequence); ("timestamp", VInt timestamp_ms);
   ("bids", VList [VList [VFloat bid_0; VFloat (flit 5 0)]; VList [VFloat (float_of_digits (fsub bid_0 fone) 4); VFloat (flit 25 (-1))]]);
   ("asks", VList [VList [VFloat ask_0; VFloat (flit 4 0)]; VList [VFloat (float_of_digits (fadd ask_0 fone) 4); VFloat (flit 2 0)]])]%string.

(** [max(base_price, 1.0)] *)
Definition synthetic_price (base_price : f64) : f64 := fmax base_price fone.

Definition synthetic_fetch (now_ms : Z) (base_price : f64) : dict := _build_order_book_payload base_price 1000 now_ms.

Definition synthetic_klines (now_ms : Z) (base_price : f64) : list dict :=
  [kline_row (now_ms - 60000) (fsub base_price (flit 3 0)) (fadd base_price (flit 8 0)) (fsub base_price (flit 10 0))
     (fadd base_price (flit 2 0)) (flit 25 0) (fmul (flit 25 0) base_price) 80].

(** [watch_order_book]: the sequence after the call and the payload. *)
Definition synthetic_watch (now_ms : Z) (base_price : f64) (sequence : Z) : Z * dict :=
  let sequence := sequence + 1 in
  let price_shift := fmul (f_of_Z (sequence mod 6 - 3)) half in
  (sequence, _build_order_book_payload (fadd base_price price_shift) sequence now_ms).

(** ** The runner *)

Definition _first_level_price (levels : val) : result f64 :=
  match levels with
  | VList (VDict first :: _) => float_of_val (py_or (dget_or "price" (VFloat fzero) first) (VFloat fzero))
  | _ => Ok fzero
  end.

Definition _market_activity_from_envelope (envelope : dict) : result dict :=
  match dget "payload" envelope with
  | VDict payload =>
      best_bid ← _first_level_price (dget "bids" payload);
      best_ask ← _first_level_price (dget "asks" payload);
      let text key d := VStr (py_str (dget_or key (VStr "") d)) in
      Ok [("trace_id", text "trace_id" envelope); ("decision_id", text "decision_id" envelope); ("exchange", text "exchange" payload);
          ("symbol", text "symbol" payload); ("timestamp_ms", dget "timestamp_ms" payload);
          ("sequence_start", dget "sequence_start" payload); ("sequence_end", dget "sequence_end" payload);
          ("best_bid", VFloat best_bid); ("best_ask", VFloat best_ask)]%string
  | _ => Ok []
  end.

Record MarketWorkerRunner := {
  mr_min_cycle_interval_seconds : f64;
  mr_last_run_monotonic : option f64;
  mr_last_activity : dict }.

Definition runner_init (min_cycle_interval_seconds : f64) : MarketWorkerRunner :=
  {| mr_min_cycle_interval_seconds := fmax fzero min_cycle_interval_seconds; mr_last_run_monotonic := None; mr_last_activity := [] |}.

(** The sleep a cycle starts with, at the clock reading [now]. *)
Definition cycle_delay (now : f64) (r : MarketWorkerRunner) : option f64 :=
  match mr_last_run_monotonic r with
  | Some last =>
      if fltb fzero (mr_min_cycle_interval_seconds r) then
        let remaining := fsub (mr_min_cycle_interval_seconds r) (fsub now last) in
        if fltb fzero remaining then Some remaining else None
      else None
  | None => None
  end.

(** One cycle: the worker's envelope or exception, and the activity it reports;
    [finally] keeps the cadence when it raises. *)
Definition runner_once (cycle_started : f64) (envelope : result dict) (worker_activity : dict) (r : MarketWorkerRunner)
  : MarketWorkerRunner * result bool :=
  let outcome := e ← envelope;
                 match worker_activity with [] => _market_activity_from_envelope e | a => Ok a end in
  ({| mr_min_cycle_interval_seconds := mr_min_cycle_interval_seconds r; mr_last_run_monotonic := Some cycle_started;
      mr_last_activity := match outcome with Ok a => a | Raise _ => mr_last_activity r end |},
   _ ← outcome; Ok true).

(** ** The bars *)

Lemma collect_bars_exact parse items bars :
  collect_bars parse items = Ok bars ->
  StronglySorted (fun a b => (open_time a <=? open_time b) = true) bars /\
  bars ≡ₚ omap (M := list) (fun item => match parse item with Ok r => r | Raise _ => None end) items.
Proof.
  unfold collect_bars. intros (parsed & Hp & [= <-])%bind_Ok. split.
  - apply (sort_by_strong_on (fun _ => True)); [intros; lia|intros; lia|by apply Forall_true].
  - unfold sort_bars. rewrite sort_by_perm. apply map_res_Forall2 in Hp.
    induction Hp as [|item r items parsed Hr _ IH]; [done|]. cbn [omap list_omap]. rewrite Hr. by destruct r; cbn; rewrite IH.
Qed.

(** ** Polling the book as if it were a stream *)

(** A delta whose range is one id, or no id at all. *)
Definition one_id (delta : OrderBookDelta) (nonce : Z) : Prop :=
  if nonce =? 0 then de_sequence_start delta = None /\ de_sequence_end delta = None
  else de_sequence_start delta = Some nonce /\ de_sequence_end delta = Some nonce.

Lemma payload_one_id exchange symbol nonce timestamp bids asks delta :
  _normalize_delta exchange symbol (book_payload nonce timestamp bids asks) = Ok delta ->
  one_id delta nonce /\ de_exchange delta = exchange /\ de_symbol delta = symbol.
Proof.
  unfold _normalize_delta, book_payload. cbn [dget dict_get default String.eqb Ascii.eqb Bool.eqb]. unfold one_id.
  intros (start & [= <-] & H)%bind_Ok. apply bind_Ok in H as (en & [= <-] & H). apply bind_Ok in H as (range & Hr & H).
  apply bind_Ok in H as (ts & _ & H). apply bind_Ok in H as (bs & _ & H). apply bind_Ok in H as (as_ & _ & [= <-]).
  apply bind_Ok in Hr as (n & Hn & [= <-]). cbn [de_sequence_start de_sequence_end de_exchange de_symbol fst snd].
  split; [|done]. revert Hn. unfold id, py_or. cbn [truthy]. destruct (nonce =? 0) eqn:E; cbn [negb _parse_optional_int int_of_val mbind result_bind try_except]; intros [= <-]; done.
Qed.

(** The server's answer to the depth request. *)
Definition answers (server : http_request -> http_reply) (c : http_client) (symbol : string) (limit : Z) (d : dict) : Prop :=
  exists raw, server (get_request c (depth_url c symbol (Some limit))) = HttpText raw /\ json_loads raw = Ok (VDict d).

(** The update id of a Binance answer; 0 when it has none. *)
Definition binance_id (d : dict) (n : Z) : Prop :=
  dict_get "lastUpdateId" d = Some (VInt n) \/ (dict_get "lastUpdateId" d = None /\ n = 0).

(** The update id of a Bitget answer: its version, or its time when there is no
    version. *)
Definition bitget_id (d : dict) (n : Z) : Prop :=
  exists data, (dget "data" d = VDict data \/ exists rest, dget "data" d = VList (VDict data :: rest)) /\
    ((int_of_val (dget "version" data) = Ok n /\ n <> 0) \/
     ((dget "version" data = VNone \/ int_of_val (dget "version" data) = Ok 0) /\
      (int_of_val (dget "ts" data) = Ok n \/ (dget "ts" data = VNone /\ int_of_val (dget "requestTime" d) = Ok n)))).

Lemma request_json_answer server c symbol limit what d :
  answers server c symbol limit d -> _request_json server c what (depth_url c symbol (Some limit)) = Ok (VDict d).
Proof. intros (raw & Hs & Hj). unfold _request_json. rewrite Hs. cbn [mbind result_bind]. by rewrite Hj. Qed.

Lemma binance_payload server now_ms c symbol limit d n raw :
  answers server c symbol limit d -> binance_id d n -> binance_client server now_ms c symbol limit = Ok raw ->
  exists timestamp bids asks, raw = book_payload n timestamp bids asks.
Proof.
  intros Ha Hid H. unfold binance_client, binance_request_depth in H. rewrite (request_json_answer _ _ _ _ _ _ Ha) in H.
  cbn [mbind result_bind] in H. apply bind_Ok in H as (u & _ & H).
  assert (int_of_val (py_or (dget_or "lastUpdateId" (VInt 0) d) (VInt 0)) = Ok n) as Hn.
  { unfold dget_or. destruct Hid as [->|[-> ->]]; [|done]. cbn [default]. unfold id, py_or. cbn [truthy].
    by destruct (Z.eqb_spec n 0) as [->|]. }
  rewrite Hn in H. cbn [mbind result_bind] in H. apply bind_Ok in H as (bids & _ & H). apply bind_Ok in H as (asks & _ & [= <-]).
  by eexists _, _, _.
Qed.

Lemma parse_int_Ok v n : int_of_val v = Ok n -> _parse_int v = Ok (Some n).
Proof. unfold _parse_int. intros H. destruct v; [done|by rewrite H..]. Qed.

Lemma bitget_payload server now_ms c symbol limit d n raw :
  answers server c symbol limit d -> bitget_id d n -> bitget_client server now_ms c symbol limit = Ok raw ->
  exists timestamp bids asks, raw = book_payload n timestamp bids asks.
Proof.
  intros Ha (data & Hd & Hid) H. unfold bitget_client, bitget_request_depth in H. rewrite (request_json_answer _ _ _ _ _ _ Ha) in H.
  cbn [mbind result_bind] in H. apply bind_Ok in H as (u & _ & H). apply bind_Ok in H as (data' & Hd' & H).
  assert (data' = VDict data) as ->. { destruct Hd as [E|[rest E]]; rewrite E in Hd'; by injection Hd' as <-. }
  destruct (dget "bids" data) as [| | | | | |bids|]; try done. destruct (dget "asks" data) as [| | | | | |asks|]; try done.
  apply bind_Ok in H as (ts & Hts & H). cbv zeta in H. apply bind_Ok in H as (version & Hv & [= <-]). eexists _, _, _.
  f_equal. destruct Hid as [[Hn Hnz]|[Hver Ht]].
  - rewrite (parse_int_Ok _ _ Hn) in Hv. injection Hv as <-. apply Z.eqb_neq in Hnz. by rewrite Hnz.
  - assert (default now_ms ts = n) as Hdef.
    { unfold first_some in Hts. destruct Ht as [Ht|[Hnone Ht]].
      - rewrite (parse_int_Ok _ _ Ht) in Hts. by injection Hts as <-.
      - rewrite Hnone in Hts. cbn [_parse_int mbind result_bind] in Hts. rewrite (parse_int_Ok _ _ Ht) in Hts. by injection Hts as <-. }
    destruct Hver as [E|E]; [rewrite E in Hv; by injection Hv as <-|]. rewrite (parse_int_Ok _ _ E) in Hv. by injection Hv as <-.
Qed.

(** C40. With the HTTP clients as the websocket client, as the market workers are built
    without CCXT Pro, a polled "delta" is a whole book numbered by a single update id, that
    of the exchange's answer: [lastUpdateId] of Binance, the version of Bitget, or its time
    when it has no version. An order book at the update id [s] takes it when the id is
    [s + 1], and then is at that id; an id that is not newer is ignored, and any later id,
    which is what a poll sees as soon as the book has changed twice, is reported as
    a gap. A book without an id (0) is taken without any check and leaves the id [s]. *)
Theorem polled_delta_taken_iff_next server now_ms c ad symbol limit d n delta e s :
  (ad_ws_client ad = binance_client server now_ms c /\ binance_id d n \/
   ad_ws_client ad = bitget_client server now_ms c /\ bitget_id d n) ->
  answers server c symbol limit d ->
  poll_delta ad symbol limit (Some "websocket"%string) = Ok delta ->
  ob_initialized e = true -> ob_exchange e = ad_exchange ad -> ob_symbol e = symbol -> ob_sequence e = Some s ->
  match apply_delta delta e with
  | Ok (e', true) => (n = s + 1 /\ ob_sequence e' = Some n) \/ (n = 0 /\ ob_sequence e' = Some s)
  | Ok (e', false) => n <> 0 /\ n <= s /\ e' = e
  | Raise x => n <> 0 /\ s + 1 < n /\ exc_cls x = OrderBookSequenceGapError
  end.
Proof.
  intros Hws Ha Hp Hi He Hy Hs. unfold poll_delta in Hp. cbn [default] in Hp. unfold id in Hp.
  apply bind_Ok in Hp as (source & [= <-] & Hp). cbn [String.eqb Ascii.eqb Bool.eqb] in Hp. apply bind_Ok in Hp as (raw & Hraw & Hn).
  assert (exists ts bids asks, raw = book_payload n ts bids asks) as (ts & bids & asks & ->).
  { destruct Hws as [[E Hid]|[E Hid]]; rewrite E in Hraw; [by eapply binance_payload|by eapply bitget_payload]. }
  apply payload_one_id in Hn as (Hone & Hex & Hsy). unfold one_id in Hone.
  unfold apply_delta, _validate_scope. rewrite Hi, Hex, Hsy, He, Hy, !String.eqb_refl, Hs. cbn [raise_if negb orb mbind result_bind].
  destruct (Z.eqb_spec n 0) as [->|Hnz]; destruct Hone as [-> ->]; cbn [next_sequence mbind result_bind]; [by right|].
  destruct (Z.ltb_spec n (s + 1)); cbn [mbind result_bind]; [split_and!; [done|lia|done]|].
  destruct (Z.ltb_spec (s + 1) n); cbn [mbind result_bind raise]; [by split_and!|]. left. split; [lia|done].
Qed.

(** ** A poll of the depth endpoint *)

Module Example_polling.

Definition server (_ : http_request) : http_reply :=
  HttpText (PyJson.quoted "{'lastUpdateId': 1005, 'bids': [['64000.10', '0.5']], 'asks': [['64000.20', '0.7'], ['64001', '0']]}").
Definition binance : http_client := binance_init "https://api.binance.com/" (flit 10 0).
Definition adapter : CCXTIngestionAdapter :=
  {| ad_exchange := "binance"; ad_rest_client := binance_client server 1700000000000 binance;
     ad_ws_client := binance_client server 1700000000000 binance; ad_delta_source := "websocket" |}.
Definition book : OrderBookSyncEngine :=
  {| ob_exchange := "binance"; ob_symbol := "BTC/USDT"; ob_sequence := Some 1000; ob_bids := []; ob_asks := []; ob_initialized := true |}.

Definition polled : OrderBookDelta :=
  {| de_exchange := "binance"; de_symbol := "BTC/USDT"; de_sequence_start := Some 1005; de_sequence_end := Some 1005;
     de_timestamp_ms := Some 1700000000000; de_bids := [Level (flit 6400010 (-2)) half];
     de_asks := [Level (flit 6400020 (-2)) (flit 7 (-1)); Level (flit 64001 0) fzero] |}.

Definition answer : dict :=
  [("lastUpdateId", VInt 1005); ("bids", VList [VList [VStr "64000.10"; VStr "0.5"]]);
   ("asks", VList [VList [VStr "64000.20"; VStr "0.7"]; VList [VStr "64001"; VStr "0"]])]%string.

Lemma polled_delta_taken_iff_next_witness :
  match apply_delta polled book with
  | Ok (e', true) => (1005 = 1000 + 1 /\ ob_sequence e' = Some 1005) \/ (1005 = 0 /\ ob_sequence e' = Some 1000)
  | Ok (e', false) => 1005 <> 0 /\ 1005 <= 1000 /\ e' = book
  | Raise x => 1005 <> 0 /\ 1000 + 1 < 1005 /\ exc_cls x = OrderBookSequenceGapError
  end.
Proof.
  apply (polled_delta_taken_iff_next server 1700000000000 binance adapter "BTC/USDT" 100 answer 1005 polled book 1000);
    [left; split; [reflexivity|left; reflexivity]| |vm_compute; reflexivity|reflexivity..].
  eexists. split; [reflexivity|]. vm_compute. reflexivity.
Defined.

(** The polled delta is five ids ahead: a gap. *)
Example polled_is_gap : is_ok (apply_delta polled book) = false.
Proof. reflexivity. Qed.

Example klines_sorted :
  (bars ← collect_bars binance_bar [VList [VInt 120; VStr "1"; VStr "2"; VStr "0.5"; VStr "1.5"; VStr "10"; VInt 179; VStr "15"; VInt 3];
                              VList [VInt 60; VStr "x"; VStr "2"; VStr "0.5"; VStr "1.5"; VStr "10"; VInt 119; VStr "15"; VInt 3];
                              VList [VInt 0; VStr "1"; VStr "2"; VStr "0.5"; VStr "1.5"; VStr "10"; VInt 59; VStr "15"; VInt 3];
                              VStr "short"];
   Ok (List.map open_time bars)) = Ok [0; 120].
Proof. vm_compute. reflexivity. Qed.

End Example_polling.
