(* ===== verification/LlmRuntime.v ===== *)
(** * LLM suggestions

    [services/agent_orchestrator/llm_runtime.py] and the three
    [_apply_*_llm_suggestion] methods of [orchestrator.py]: an answer of the LLM
    gateway is parsed into a suggestion, and the suggestion is merged into the
    heuristic plan, risk assessment or execution decision. The gateway and
    [json.loads] are arguments; the text of the prompts is not modelled, a call
    carries what the prompt is built from. *)

From S2P Require Import Prelude PyStr PyFloat PyDecimal PyVal Agents.
From stdpp Require Import options.
From Stdlib Require Import Ascii String SpecFloat.

#[local] Open Scope Z_scope.

Record PlannerSuggestion := {
  psg_action : option string;
  psg_confidence : option f64;
  psg_target_quantity : option f64;
  psg_rationale : list string;
  psg_provider : string;
  psg_model : string;
}.

Record RiskSuggestion := {
  rsg_approved : option bool;
  rsg_approved_quantity : option f64;
  rsg_risk_score : option f64;
  rsg_blocked_by : list string;
  rsg_rationale : list string;
  rsg_provider : string;
  rsg_model : string;
}.

Record ExecutionSuggestion := {
  esg_action : option string;
  esg_quantity : option f64;
  esg_confidence : option f64;
  esg_constraints : dict;
  esg_rationale : list string;
  esg_provider : string;
  esg_model : string;
}.

(** ** Reading an answer *)

Definition _optional_upper (value : val) : option string :=
  match value with
  | VStr s => let normalized := upper (strip s) in if is_empty normalized then None else Some normalized
  | _ => None
  end.

Definition _optional_float (value : val) : result (option f64) :=
  match value with
  | VNone => Ok None
  | _ => try_except (Some <$> float_of_val value) type_or_value (fun _ => Ok None)
  end.

Definition _optional_bool (value : val) : option bool :=
  match value with
  | VBool b => Some b
  | VStr s =>
      let normalized := lower (strip s) in
      if bool_decide (normalized ∈ ["true"; "1"; "yes"; "y"; "on"]%string) then Some true
      else if bool_decide (normalized ∈ ["false"; "0"; "no"; "n"; "off"]%string) then Some false
      else None
  | _ => None
  end.

(** [_normalize_tokens] and [_normalize_rationale] have the same body. *)
Definition _normalize_tokens (value : val) : list string :=
  match value with
  | VList l => filter (fun text => is_empty text = false) ((fun item => strip (py_str item)) <$> l)
  | _ => []
  end.

Definition _parse_response_payload (json_loads : string -> result val) (content : string) : result dict :=
  let value := strip content in
  if is_empty value then Ok []
  else
    parsed ← try_except (json_loads value) (fun c => bool_decide (c = JSONDecodeError)) (fun _ => Ok VNone);
    Ok (match parsed with VDict d => d | _ => [] end).

(** ** The runtime *)

Record LLMResponse := { lr_provider : string; lr_model : string; lr_content : string }.

(** What a prompt is built from. *)
Inductive llm_call :=
  | PlannerCall (market_context : dict) (strategy : StrategyConfig) (plan : PlannerDecision)
  | RiskCall (market_context : dict) (strategy : StrategyConfig) (risk : RiskAssessment) (plan : PlannerDecision)
  | ExecutionCall (market_context : dict) (strategy : StrategyConfig) (decision : ExecutionDecision)
      (plan : PlannerDecision) (risk : RiskAssessment).

Record LLMDecisionRuntime := {
  llm_generate : llm_call -> result LLMResponse;
  llm_json_loads : string -> result val;
}.

Definition ask (rt : LLMDecisionRuntime) (call : llm_call) : result (LLMResponse * dict) :=
  response ← llm_generate rt call;
  payload ← _parse_response_payload (llm_json_loads rt) (lr_content response);
  Ok (response, payload).

Definition suggest_plan (rt : LLMDecisionRuntime) (market_context : dict) (strategy : StrategyConfig)
    (plan : PlannerDecision) : result PlannerSuggestion :=
  '(response, payload) ← ask rt (PlannerCall market_context strategy plan);
  confidence ← _optional_float (dget "confidence" payload);
  target_quantity ← _optional_float (dget "target_quantity" payload);
  Ok {| psg_action := _optional_upper (dget "action" payload); psg_confidence := confidence;
        psg_target_quantity := target_quantity;
        psg_rationale := _normalize_tokens (dget "rationale" payload);
        psg_provider := lr_provider response; psg_model := lr_model response |}.

Definition suggest_risk (rt : LLMDecisionRuntime) (market_context : dict) (strategy : StrategyConfig)
    (risk : RiskAssessment) (plan : PlannerDecision) : result RiskSuggestion :=
  '(response, payload) ← ask rt (RiskCall market_context strategy risk plan);
  approved_quantity ← _optional_float (dget "approved_quantity" payload);
  risk_score ← _optional_float (dget "risk_score" payload);
  Ok {| rsg_approved := _optional_bool (dget "approved" payload);
        rsg_approved_quantity := approved_quantity; rsg_risk_score := risk_score;
        rsg_blocked_by := _normalize_tokens (dget "blocked_by" payload);
        rsg_rationale := _normalize_tokens (dget "rationale" payload);
        rsg_provider := lr_provider response; rsg_model := lr_model response |}.

Definition suggest_execution (rt : LLMDecisionRuntime) (market_context : dict) (strategy : StrategyConfig)
    (decision : ExecutionDecision) (plan : PlannerDecision) (risk : RiskAssessment)
  : result ExecutionSuggestion :=
  '(response, payload) ← ask rt (ExecutionCall market_context strategy decision plan risk);
  quantity ← _optional_float (dget "quantity" payload);
  confidence ← _optional_float (dget "confidence" payload);
  Ok {| esg_action := _optional_upper (dget "action" payload); esg_quantity := quantity;
        esg_confidence := confidence;
        esg_constraints := match dget "constraints" payload with VDict c => c | _ => [] end;
        esg_rationale := _normalize_tokens (dget "rationale" payload);
        esg_provider := lr_provider response; esg_model := lr_model response |}.

(** ** Merging a suggestion *)

(** [suggestion.action if suggestion.action in {...} else action] *)
Definition merge_action (suggested : option string) (action : string) : string :=
  match suggested with
  | Some a => if bool_decide (a ∈ ALLOWED_ACTIONS) then a else action
  | None => action
  end.

Definition merge_confidence (suggested : option f64) (confidence : f64) : f64 :=
  match suggested with Some c => clamp01 c | None => confidence end.

Definition merge_rationale (rationale extra : list string) (provider model : string) : list string :=
  rationale ++ extra ++
  (if negb (is_empty (strip provider)) && negb (is_empty (strip model))
   then ["llm_provider=" +:+ strip provider +:+ "/" +:+ strip model] else []).

(** [dict.update] *)
Definition dict_update (d extra : dict) : dict := foldl (fun acc kv => dict_set kv.1 kv.2 acc) d extra.

Definition fallback (stage : string) (e : exc) : string :=
  "llm_" +:+ stage +:+ "_fallback=" +:+ exc_name (exc_cls e).

Definition _apply_planner_llm_suggestion (rt : LLMDecisionRuntime) (strategy : StrategyConfig)
    (market_context : dict) (plan : PlannerDecision) : PlannerDecision :=
  match suggest_plan rt market_context strategy plan with
  | Raise e =>
      {| pd_action := pd_action plan; pd_confidence := pd_confidence plan;
         pd_target_quantity := pd_target_quantity plan;
         pd_rationale := pd_rationale plan ++ [fallback "planner" e]; pd_metrics := pd_metrics plan |}
  | Ok s =>
      {| pd_action := merge_action (psg_action s) (pd_action plan);
         pd_confidence := merge_confidence (psg_confidence s) (pd_confidence plan);
         pd_target_quantity := default (pd_target_quantity plan) (psg_target_quantity s);
         pd_rationale := merge_rationale (pd_rationale plan) (psg_rationale s) (psg_provider s) (psg_model s);
         pd_metrics := pd_metrics plan |}
  end.

Definition _apply_risk_llm_suggestion (rt : LLMDecisionRuntime) (strategy : StrategyConfig)
    (market_context : dict) (plan : PlannerDecision) (risk : RiskAssessment) : RiskAssessment :=
  match suggest_risk rt market_context strategy risk plan with
  | Raise e =>
      {| ra_approved := ra_approved risk; ra_approved_quantity := ra_approved_quantity risk;
         ra_signals := ra_signals risk; ra_blocked_by := ra_blocked_by risk;
         ra_risk_score := ra_risk_score risk; ra_rationale := ra_rationale risk ++ [fallback "risk" e] |}
  | Ok s =>
      {| ra_approved := default (ra_approved risk) (rsg_approved s);
         ra_approved_quantity := default (ra_approved_quantity risk) (rsg_approved_quantity s);
         ra_signals := ra_signals risk;
         ra_blocked_by := match rsg_blocked_by s with [] => ra_blocked_by risk | l => l end;
         ra_risk_score := match rsg_risk_score s with Some x => clamp01 x | None => ra_risk_score risk end;
         ra_rationale := merge_rationale (ra_rationale risk) (rsg_rationale s) (rsg_provider s) (rsg_model s) |}
  end.

Definition _apply_execution_llm_suggestion (rt : LLMDecisionRuntime) (strategy : StrategyConfig)
    (market_context : dict) (plan : PlannerDecision) (risk : RiskAssessment) (d : ExecutionDecision)
  : ExecutionDecision :=
  match suggest_execution rt market_context strategy d plan risk with
  | Raise e =>
      {| ed_action := ed_action d; ed_quantity := ed_quantity d; ed_confidence := ed_confidence d;
         ed_rationale := ed_rationale d ++ [fallback "execution" e]; ed_constraints := ed_constraints d |}
  | Ok s =>
      {| ed_action := merge_action (esg_action s) (ed_action d);
         ed_quantity := default (ed_quantity d) (esg_quantity s);
         ed_confidence := merge_confidence (esg_confidence s) (ed_confidence d);
         ed_rationale := merge_rationale (ed_rationale d) (esg_rationale s) (esg_provider s) (esg_model s);
         ed_constraints := dict_update (ed_constraints d) (esg_constraints s) |}
  end.
