(* ===== verification/AgentMemory.v ===== *)
(** * Decision memory and runtime metrics

    [services/agent_orchestrator/memory_layer.py] over any short- and long-term
    store (the classes state what the layer calls), and
    [services/agent_orchestrator/metrics_tracing.py] as far as the stages of a
    decision use it: the totals of [record_llm_call], which the LLM gateway
    calls, are left out. *)

From S2P Require Import Prelude PyStr PyFloat PyTime PyVal.
From stdpp Require Import options.
From Stdlib Require Import Ascii String.

#[local] Open Scope Z_scope.

(** ** Stores *)

Record DecisionMemoryRecord := {
  dm_trace_id : string;
  dm_decision_id : string;
  dm_strategy_id : string;
  dm_mode : string;
  dm_status : string;
  dm_summary : dict;
  dm_lifecycle : list dict;
  dm_persisted_at : string;
}.

(** The scope of a decision's slots. *)
Record scope := Scope { sp_mode : string; sp_strategy_id : string; sp_decision_id : string }.

#[export] Instance scope_eq_dec : EqDecision scope.
Proof. solve_decision. Defined.

Record DecisionMemorySnapshot := {
  ms_scope : scope;
  ms_source : string;
  ms_slots : list (string * dict);
}.

Class ShortTermMemoryStore (S : Type) := {
  write_slot : scope -> string -> dict -> Z -> prog S unit;
  read_slots : scope -> prog S (list (string * val));
}.

Class LongTermMemoryStore (L : Type) := {
  store_summary : DecisionMemoryRecord -> prog L unit;
  read_decision_summary : string -> prog L (option DecisionMemoryRecord);
}.

(** [_NoopShortTermMemoryStore] and [_NoopLongTermMemoryStore]. *)
#[export] Instance noop_short_term : ShortTermMemoryStore unit := {
  write_slot _ _ _ _ := mret tt;
  read_slots _ := mret [];
}.
#[export] Instance noop_long_term : LongTermMemoryStore unit := {
  store_summary _ := mret tt;
  read_decision_summary _ := mret None;
}.

(** [_normalize] turns tuples into lists and keys into strings, which values
    here are already; [_ensure_mapping] wraps what is not a mapping. *)
Definition _ensure_mapping (v : val) : dict := match v with VDict d => d | _ => [("value"%string, v)] end.

(** ** The layer *)

Section layer.
Context {S L : Type} `{!ShortTermMemoryStore S} `{!LongTermMemoryStore L}.

Record AgentMemoryLayer := Memory {
  am_short_term : S;
  am_long_term : L;
  am_decision_ttl_seconds : Z;
}.

Definition short {A} (m : prog S A) : prog AgentMemoryLayer A :=
  zoom am_short_term (fun s l => Memory s (am_long_term l) (am_decision_ttl_seconds l)) m.
Definition long {A} (m : prog L A) : prog AgentMemoryLayer A :=
  zoom am_long_term (fun x l => Memory (am_short_term l) x (am_decision_ttl_seconds l)) m.

Definition write_decision_slot (sc : scope) (slot : string) (payload : dict) : prog AgentMemoryLayer unit :=
  fun l => short (write_slot sc slot (_ensure_mapping (VDict payload)) (am_decision_ttl_seconds l)) l.

Definition read_decision_memory (sc : scope) : prog AgentMemoryLayer DecisionMemorySnapshot :=
  slots ← short (read_slots sc);
  match slots with
  | _ :: _ =>
      mret {| ms_scope := sc; ms_source := "redis";
              ms_slots := (fun kv => (kv.1, _ensure_mapping kv.2)) <$> slots |}
  | [] =>
      archived ← long (read_decision_summary (sp_decision_id sc));
      match archived with
      | None => mret {| ms_scope := sc; ms_source := "empty"; ms_slots := [] |}
      | Some record =>
          let summary := _ensure_mapping (VDict (dm_summary record)) in
          _ ← write_decision_slot sc "summary" summary;
          mret {| ms_scope := sc; ms_source := "postgres"; ms_slots := [("summary"%string, summary)] |}
      end
  end.

Definition persist_decision_summary (now : Z) (trace_id : string) (sc : scope) (status : string)
    (market_context plan risk execution_decision guardrail : dict) (lifecycle : list dict)
  : prog AgentMemoryLayer DecisionMemoryRecord :=
  let summary :=
    [("status", VStr status); ("market_context", VDict market_context); ("plan", VDict plan);
     ("risk", VDict risk); ("execution_decision", VDict execution_decision);
     ("guardrail", VDict guardrail)]%string in
  let record :=
    {| dm_trace_id := trace_id; dm_decision_id := sp_decision_id sc; dm_strategy_id := sp_strategy_id sc;
       dm_mode := sp_mode sc; dm_status := status; dm_summary := summary; dm_lifecycle := lifecycle;
       dm_persisted_at := iso_z now |} in
  _ ← long (store_summary record);
  _ ← write_decision_slot sc "summary" summary;
  mret record.
End layer.
Arguments AgentMemoryLayer : clear implicits.

(** ** Metrics *)

Record TraceSpan := {
  ts_trace_id : string;
  ts_decision_id : string;
  ts_mode : string;
  ts_stage : string;
  ts_status : string;
  ts_latency_ms : f64;
  ts_error_type : option string;
  ts_started_at : string;
  ts_completed_at : string;
}.

Record AgentRuntimeMetrics := {
  rm_stage_runs : gmap string Z;
  rm_stage_failures : gmap string Z;
  rm_stage_latency_ms : gmap string (list f64);
  rm_spans : list TraceSpan;
}.

Definition agent_metrics_init : AgentRuntimeMetrics :=
  {| rm_stage_runs := ∅; rm_stage_failures := ∅; rm_stage_latency_ms := ∅; rm_spans := [] |}.

Definition count (key : string) (m : gmap string Z) : gmap string Z :=
  <[key := default 0 (m !! key) + 1]> m.

(** [record_stage_success] ([error_type] is [None]) and [record_stage_failure].
    The two clock readings of the span are the last arguments. *)
Definition record_stage (trace_id decision_id mode stage : string) (latency_ms : f64)
    (error_type : option string) (t0 t1 : Z) (m : AgentRuntimeMetrics) : AgentRuntimeMetrics :=
  {| rm_stage_runs := count stage (rm_stage_runs m);
     rm_stage_failures :=
       match error_type with Some _ => count stage (rm_stage_failures m) | None => rm_stage_failures m end;
     rm_stage_latency_ms :=
       <[stage := default [] (rm_stage_latency_ms m !! stage) ++ [latency_ms]]> (rm_stage_latency_ms m);
     rm_spans := rm_spans m ++
       [{| ts_trace_id := trace_id; ts_decision_id := decision_id; ts_mode := mode; ts_stage := stage;
           ts_status := match error_type with Some _ => "failed" | None => "succeeded" end;
           ts_latency_ms := latency_ms; ts_error_type := error_type;
           ts_started_at := iso_z t0; ts_completed_at := iso_z t1 |}] |}.
