(* ===== verification/Auth.v ===== *)
(** * Authentication of the API

    [services/api/auth.py], the settings it reads ([services/api/settings.py])
    and the token endpoints of [services/api/routers/system.py]. PyJWT is the
    argument [jwt]; the Redis client that keeps revoked token ids is any
    [RevocationStore]. Clock readings are whole UTC seconds: the integer part of
    [datetime.timestamp()] is that of the instant for all dates of this
    millennium's first centuries, where doubles are finer than a microsecond. *)

From S2P Require Import Prelude PyStr PyFloat PyVal.
From stdpp Require Import options gmap strings countable.
From Stdlib Require Import Ascii String.

#[local] Open Scope Z_scope.

(** ** Settings *)

Record APISettings := {
  as_app_name : string;
  as_app_version : string;
  as_default_mode : string;
  as_jwt_issuer : string;
  as_jwt_audience : string;
  as_cors_allowed_origins : list string;
  as_llm_runtime_enabled : bool;
  as_litellm_base_url : string;
  as_llm_quick_provider_order : list string;
  as_llm_deep_provider_order : list string;
  as_read_only_mode : bool;
  as_strict_database_mode : bool;
  as_jwt_max_lifetime_hours : Z;
  as_jwt_private_key : string;
  as_jwt_public_key : string;
}.

Definition _parse_bool (value setting_name : string) : result bool :=
  let normalized := lower (strip value) in
  if existsb (String.eqb normalized) ["1"; "true"; "yes"; "y"; "on"]%string then Ok true
  else if existsb (String.eqb normalized) ["0"; "false"; "no"; "n"; "off"]%string then Ok false
  else raise ValueError (setting_name +:+ " must be a boolean value").

Definition _parse_csv (value : string) : list string :=
  List.filter (fun item => negb (is_empty item)) (strip <$> split_on "," value).

(** A key from the environment, or the text of the file the environment names;
    [files] is the text of the files that exist. *)
Definition key_setting (env files : string -> option string) (name file_name : string) : string :=
  let key := strip (default ""%string (env name)) in
  if negb (is_empty key) then key
  else
    let key_file := strip (default ""%string (env file_name)) in
    if is_empty key_file then ""%string
    else match files key_file with Some text => strip text | None => ""%string end.

(** [env] is the environment after [load_dotenv_file]. *)
Definition load_api_settings (env files : string -> option string) : result APISettings :=
  let getenv name dflt := default dflt (env name) in
  let text name dflt := str_or (strip (getenv name dflt)) dflt in
  let default_mode := str_or (upper (strip (getenv "EXECUTION_MODE_DEFAULT" "MOCK"))) "MOCK" in
  _ ← raise_if (negb (existsb (String.eqb default_mode) ["MOCK"; "REAL"]%string)) ValueError
        "EXECUTION_MODE_DEFAULT must be MOCK or REAL";
  llm_enabled ← _parse_bool (getenv "LLM_RUNTIME_ENABLED" "false") "LLM_RUNTIME_ENABLED";
  read_only ← _parse_bool (getenv "API_READ_ONLY_MODE" "false") "API_READ_ONLY_MODE";
  strict ← _parse_bool (getenv "API_STRICT_DATABASE_MODE" "true") "API_STRICT_DATABASE_MODE";
  hours ← int_of_val (VStr (getenv "JWT_MAX_LIFETIME_HOURS" "1"));
  Ok {| as_app_name := text "APP_NAME" "open-trader"; as_app_version := text "APP_VERSION" "0.1.0";
        as_default_mode := default_mode; as_jwt_issuer := text "JWT_ISSUER" "open-trader";
        as_jwt_audience := text "JWT_AUDIENCE" "open-trader-api";
        as_cors_allowed_origins :=
          _parse_csv (getenv "API_CORS_ALLOWED_ORIGINS" "http://localhost:3000,http://127.0.0.1:3000");
        as_llm_runtime_enabled := llm_enabled;
        as_litellm_base_url := strip (getenv "LLM_BASE_URL" (getenv "LITELLM_BASE_URL" ""));
        as_llm_quick_provider_order := _parse_csv (getenv "LLM_QUICK_PROVIDER_ORDER" "default");
        as_llm_deep_provider_order := _parse_csv (getenv "LLM_DEEP_PROVIDER_ORDER" "default");
        as_read_only_mode := read_only; as_strict_database_mode := strict; as_jwt_max_lifetime_hours := hours;
        as_jwt_private_key := key_setting env files "JWT_PRIVATE_KEY" "JWT_PRIVATE_KEY_FILE";
        as_jwt_public_key := key_setting env files "JWT_PUBLIC_KEY" "JWT_PUBLIC_KEY_FILE" |}%string.

(** ** Roles *)

Inductive UserRole := VIEWER | OPERATOR | ADMIN.

#[export] Instance role_eq_dec : EqDecision UserRole.
Proof. solve_decision. Defined.

Definition role_value (r : UserRole) : string :=
  match r with VIEWER => "viewer" | OPERATOR => "operator" | ADMIN => "admin" end.

(** [UserRole(value)] for a value of the enum *)
Definition role_of (value : string) : option UserRole :=
  if String.eqb value "viewer" then Some VIEWER
  else if String.eqb value "operator" then Some OPERATOR
  else if String.eqb value "admin" then Some ADMIN else None.

Record AuthPrincipal := { ap_user_id : string; ap_role : UserRole }.

Definition http_error {A} (status : Z) (detail : string) : result A := raise (HTTPException status) detail.

Definition require_roles (allowed : list UserRole) (principal : AuthPrincipal) : result AuthPrincipal :=
  if existsb (fun r => String.eqb (role_value (ap_role principal)) (role_value r)) allowed
  then Ok principal else http_error 403 "Insufficient role".

Definition require_viewer : AuthPrincipal -> result AuthPrincipal := require_roles [VIEWER; OPERATOR; ADMIN].
Definition require_operator : AuthPrincipal -> result AuthPrincipal := require_roles [OPERATOR; ADMIN].
Definition require_admin : AuthPrincipal -> result AuthPrincipal := require_roles [ADMIN].

(** ** Tokens *)

Definition _ACCESS_TOKEN_LIFETIME_MINUTES : Z := 15.
Definition _REFRESH_TOKEN_LIFETIME_DAYS : Z := 7.

(** [jwt.encode(payload, key, algorithm)] and [jwt.decode(token, key,
    algorithms, issuer, audience, options)] at a time, where [options] are the
    required claims. *)
Record jwt_lib := {
  jwt_encode : dict -> string -> string -> result string;
  jwt_decode : Z -> string -> string -> list string -> string -> string -> list string -> result dict;
}.

(** The commands sent to Redis, each with the clock reading at which the server
    runs it: [SETEX key ttl value] and [EXISTS key]. *)
Class RevocationStore (R : Type) := {
  setex : Z -> string -> Z -> string -> prog R unit;
  exists_key : Z -> string -> prog R Z;
}.

(** The subclasses of [jwt.InvalidTokenError]. *)
Definition jwt_errors : list string :=
  ["InvalidTokenError"; "DecodeError"; "InvalidSignatureError"; "ExpiredSignatureError"; "InvalidAudienceError";
   "InvalidIssuerError"; "InvalidIssuedAtError"; "ImmatureSignatureError"; "MissingRequiredClaimError";
   "InvalidAlgorithmError"; "InvalidSubjectError"; "InvalidJTIError"]%string.

Definition is_invalid_token (c : exc_class) : bool :=
  match c with ExternalError name => existsb (String.eqb name) jwt_errors | _ => false end.

Definition is_number (v : val) : bool := match v with VBool _ | VInt _ | VFloat _ => true | _ => false end.

(** [iat], or [nbf] when it is not a number *)
Definition issued_at (payload : dict) : option val :=
  if is_number (dget "iat" payload) then Some (dget "iat" payload)
  else if is_number (dget "nbf" payload) then Some (dget "nbf" payload) else None.

Definition lifetime_seconds (payload : dict) : result (option Z) :=
  if is_number (dget "exp" payload) then
    match issued_at payload with
    | None => Ok None
    | Some i => e ← int_of_val (dget "exp" payload); n ← int_of_val i; Ok (Some (e - n))
    end
  else Ok None.

Definition _validate_token_lifetime (payload : dict) (settings : APISettings) : result unit :=
  lifetime ← lifetime_seconds payload;
  match lifetime with
  | Some n => if as_jwt_max_lifetime_hours settings * 3600 <? n
              then http_error 401 "JWT lifetime exceeds maximum allowed" else Ok tt
  | None => Ok tt
  end.

(** Whether the warning is logged. *)
Definition _warn_if_long_lived (payload : dict) : result bool :=
  lifetime ← lifetime_seconds payload;
  Ok match lifetime with Some n => 900 <? n | None => false end.

Record token_pair := { tp_access_token : string; tp_refresh_token : string }.

Definition token_claims (user_id role : string) (settings : APISettings) (now lifetime : Z) (jti type : string) : dict :=
  [("sub", VStr user_id); ("role", VStr role); ("iss", VStr (as_jwt_issuer settings));
   ("aud", VStr (as_jwt_audience settings)); ("iat", VInt now); ("exp", VInt (now + lifetime));
   ("jti", VStr jti); ("type", VStr type)]%string.

Section auth.
Context (jwt : jwt_lib) {R : Type} `{!RevocationStore R} (redis_url : string).

(** [try: ... except Exception: pass] around the Redis calls, which are skipped
    without a URL. *)
Definition best_effort {A} (dflt : A) (m : prog R A) : prog R A := fun r =>
  if is_empty (strip redis_url) then (r, Ok dflt)
  else match m r with (r', Ok a) => (r', Ok a) | (r', Raise _) => (r', Ok dflt) end.

Definition _store_refresh_jti (now : Z) (jti : string) (ttl_seconds : Z) : prog R unit :=
  best_effort tt (setex now ("jwt:refresh:" +:+ jti) ttl_seconds "1").

Definition _is_jti_revoked (now : Z) (jti : string) : prog R bool :=
  best_effort false (n ← exists_key now ("jwt:revoked:" +:+ jti); mret (0 <? n)).

Definition _revoke_jti (now : Z) (jti : string) : prog R unit :=
  best_effort tt (setex now ("jwt:revoked:" +:+ jti) (8 * 86400) "1").

(** [jtis] are the two fresh ids, [uuid.uuid4().hex] each. *)
Definition generate_token_pair (now : Z) (jtis : string * string) (user_id role : string) (settings : APISettings)
  : prog R token_pair :=
  _ ← lift (if is_empty (as_jwt_private_key settings)
            then http_error 500 "No JWT private key configured — cannot generate tokens" else Ok tt);
  let access_payload := token_claims user_id role settings now (_ACCESS_TOKEN_LIFETIME_MINUTES * 60) jtis.1 "access" in
  access_token ← lift (jwt_encode jwt access_payload (as_jwt_private_key settings) "RS256");
  let refresh_payload :=
    token_claims user_id role settings now (_REFRESH_TOKEN_LIFETIME_DAYS * 86400) jtis.2 "refresh" ++
    [("access_jti"%string, VStr jtis.1)] in
  refresh_token ← lift (jwt_encode jwt refresh_payload (as_jwt_private_key settings) "RS256");
  _ ← _store_refresh_jti now jtis.2 (_REFRESH_TOKEN_LIFETIME_DAYS * 86400);
  mret {| tp_access_token := access_token; tp_refresh_token := refresh_token |}.

Definition decode_refresh (now : Z) (refresh_token : string) (settings : APISettings) : result dict :=
  match jwt_decode jwt now refresh_token (as_jwt_public_key settings) ["RS256"%string] (as_jwt_issuer settings)
          (as_jwt_audience settings) ["exp"; "sub"; "type"; "jti"]%string with
  | Ok payload => Ok payload
  | Raise e =>
      if bool_decide (exc_cls e = ExternalError "ExpiredSignatureError") then http_error 401 "Refresh token expired"
      else if is_invalid_token (exc_cls e) then http_error 401 ("Invalid refresh token: " +:+ exc_msg e)
      else Raise e
  end.

Definition refresh_access_token (now : Z) (jtis : string * string) (refresh_token : string) (settings : APISettings)
  : prog R token_pair :=
  _ ← lift (if is_empty (as_jwt_public_key settings) || is_empty (as_jwt_private_key settings)
            then http_error 500 "JWT keys not configured" else Ok tt);
  payload ← lift (decode_refresh now refresh_token settings);
  _ ← lift (match dget "type" payload with
            | VStr t => if String.eqb t "refresh" then Ok tt else http_error 401 "Token is not a refresh token"
            | _ => http_error 401 "Token is not a refresh token"
            end);
  let jti := py_str (dget_or "jti" (VStr "") payload) in
  revoked ← _is_jti_revoked now jti;
  _ ← lift (if revoked : bool then http_error 401 "Refresh token has been revoked" else Ok tt);
  _ ← _revoke_jti now jti;
  sub ← lift (dict_index "sub" payload);
  generate_token_pair now jtis (py_str sub) (py_str (dget_or "role" (VStr "viewer") payload)) settings.

(** ** Verification *)

(** The message of the first matching [except] clause. *)
Definition decode_failure (e : exc) : result dict :=
  match exc_cls e with
  | ExternalError name =>
      if String.eqb name "ExpiredSignatureError" then http_error 401 "JWT expired"
      else if String.eqb name "InvalidIssuerError" then http_error 401 "JWT issuer mismatch"
      else if String.eqb name "InvalidAudienceError" then http_error 401 "JWT audience mismatch"
      else if String.eqb name "InvalidSignatureError" then http_error 401 "Invalid JWT signature"
      else if String.eqb name "DecodeError" then http_error 401 "Malformed JWT"
      else if is_invalid_token (exc_cls e) then http_error 401 "Invalid JWT encoding"
      else Raise e
  | _ => Raise e
  end.

(** [nbf] is a number in the future. *)
Definition not_active (payload : dict) (now : Z) : result bool :=
  let nbf := dget "nbf" payload in
  if is_number nbf then n ← int_of_val nbf; Ok (now <? n) else Ok false.

Definition claimed_role (payload : dict) : result UserRole :=
  match role_of (lower (strip (py_str (dget_or "role" (VStr "") payload)))) with
  | Some r => Ok r
  | None => http_error 401 "JWT has invalid role claim"
  end.

Definition is_access (payload : dict) : bool :=
  match dget_or "type" (VStr "access") payload with VStr t => String.eqb t "access" | _ => false end.

Definition _decode_and_validate_token (now : Z) (token : string) (settings : APISettings) : prog R AuthPrincipal :=
  _ ← lift (if is_empty (as_jwt_public_key settings)
            then http_error 500 "No JWT public key configured — RS256 verification required" else Ok tt);
  payload ← lift (match jwt_decode jwt now token (as_jwt_public_key settings) ["RS256"%string]
                          (as_jwt_issuer settings) (as_jwt_audience settings) ["exp"; "sub"]%string with
                  | Ok payload => Ok payload
                  | Raise e => decode_failure e
                  end);
  _ ← lift (_validate_token_lifetime payload settings);
  _ ← lift (_warn_if_long_lived payload);
  early ← lift (not_active payload now);
  _ ← lift (if early : bool then http_error 401 "JWT not active yet" else Ok tt);
  let subject := strip (py_str (dget_or "sub" (VStr "") payload)) in
  _ ← lift (if is_empty subject then http_error 401 "JWT missing sub claim" else Ok tt);
  role ← lift (claimed_role payload);
  _ ← lift (if is_access payload then Ok tt else http_error 401 "Refresh tokens cannot be used for API access");
  revoked ← (if truthy (dget "jti" payload) then _is_jti_revoked now (py_str (dget "jti" payload)) else mret false);
  _ ← lift (if revoked : bool then http_error 401 "Token has been revoked" else Ok tt);
  mret {| ap_user_id := subject; ap_role := role |}.

(** [credentials] are the scheme and the token of the Authorization header. *)
Definition get_current_principal (now : Z) (credentials : option (string * string)) (settings : APISettings)
  : prog R AuthPrincipal :=
  match credentials with
  | None => lift (http_error 401 "Missing bearer token")
  | Some (scheme, token) =>
      if String.eqb (lower scheme) "bearer" then _decode_and_validate_token now token settings
      else lift (http_error 401 "Invalid auth scheme")
  end.

(** ** The token endpoints *)

(** [POST /auth/token]: [inl] is the answer with status 400. *)
Definition create_token_pair (now : Z) (jtis : string * string) (user_id role : string) (settings : APISettings)
  : prog R (string + token_pair) :=
  let normalized := lower (strip role) in
  match role_of normalized with
  | None => mret (inl ("Invalid role: " +:+ normalized))
  | Some _ => pair ← generate_token_pair now jtis user_id normalized settings; mret (inr pair)
  end.

(** ** Who is let in *)

Lemma best_effort_blank {A} (dflt : A) (m : prog R A) r :
  is_empty (strip redis_url) = true -> best_effort dflt m r = (r, Ok dflt).
Proof using Type. intros H. unfold best_effort. by rewrite H. Qed.

Lemma guard_Ok {A} (b : bool) status detail (f : unit -> prog R A) r r' a :
  (lift (if b then http_error status detail else Ok tt) ≫= f) r = (r', Ok a) -> b = false /\ f tt r = (r', Ok a).
Proof using Type. rewrite lift_bind. by destruct b. Qed.

Lemma role_of_value value r : role_of value = Some r <-> value = role_value r.
Proof using Type.
  unfold role_of. split.
  - repeat case_match; intros [= <-]; by apply String.eqb_eq.
  - intros ->. by destruct r.
Qed.

(** A claim that is a number, as seconds. *)
Definition claims (key : string) (payload : dict) (n : Z) : Prop :=
  is_number (dget key payload) = true /\ int_of_val (dget key payload) = Ok n.

Lemma lifetime_within payload settings exp issued :
  _validate_token_lifetime payload settings = Ok tt -> claims "exp" payload exp ->
  claims "iat" payload issued \/ is_number (dget "iat" payload) = false /\ claims "nbf" payload issued ->
  exp - issued <= as_jwt_max_lifetime_hours settings * 3600.
Proof using Type.
  intros H [E1 E2] Hi. unfold _validate_token_lifetime, lifetime_seconds, issued_at in H. rewrite E1, E2 in H.
  assert ((if is_number (dget "iat" payload) then Some (dget "iat" payload)
    else if is_number (dget "nbf" payload) then Some (dget "nbf" payload) else None) =
    Some (if is_number (dget "iat" payload) then dget "iat" payload else dget "nbf" payload)) as Hs.
  { destruct Hi as [[-> _]|[-> [-> _]]]; done. }
  rewrite Hs in H. assert (int_of_val (if is_number (dget "iat" payload) then dget "iat" payload else dget "nbf" payload) = Ok issued) as Hn.
  { destruct Hi as [[-> ?]|[-> [_ ?]]]; done. }
  rewrite Hn in H. cbn [mbind result_bind] in H. by destruct (Z.ltb_spec (as_jwt_max_lifetime_hours settings * 3600) (exp - issued)).
Qed.

(** The lifetime of a token that carries neither [iat] nor [nbf] is not limited. *)
Lemma undated_token_unchecked payload settings :
  dict_get "iat" payload = None -> dict_get "nbf" payload = None -> _validate_token_lifetime payload settings = Ok tt.
Proof using Type.
  intros H1 H2. unfold _validate_token_lifetime, lifetime_seconds, issued_at, dget. rewrite H1, H2. cbn [default is_number].
  by destruct (is_number _).
Qed.

(** C25. A request gets a principal only with a bearer token that PyJWT accepts
    under RS256 with the configured public key, issuer and audience, with [exp]
    and [sub] present. The principal's id is the trimmed, non-blank subject and
    its role the named one of the three; the token is of type access; a token with
    a numeric [exp] that says when it was issued, or else from when it is valid,
    expires no later after that than the configured hours (a token that says
    neither is not checked, [undated_token_unchecked]); its [nbf] is not in the future;
    and Redis, when it is configured and answers, does not list its id as revoked. *)
Theorem principal_authentic now credentials settings r r' p :
  get_current_principal now credentials settings r = (r', Ok p) ->
  exists scheme token payload,
    credentials = Some (scheme, token) /\ lower scheme = "bearer"%string /\
    as_jwt_public_key settings <> ""%string /\
    jwt_decode jwt now token (as_jwt_public_key settings) ["RS256"%string] (as_jwt_issuer settings)
      (as_jwt_audience settings) ["exp"; "sub"]%string = Ok payload /\
    ap_user_id p = strip (py_str (dget_or "sub" (VStr "") payload)) /\ ap_user_id p <> ""%string /\
    role_value (ap_role p) = lower (strip (py_str (dget_or "role" (VStr "") payload))) /\
    dget_or "type" (VStr "access") payload = VStr "access" /\
    (forall exp issued, claims "exp" payload exp ->
       claims "iat" payload issued \/ is_number (dget "iat" payload) = false /\ claims "nbf" payload issued ->
       exp - issued <= as_jwt_max_lifetime_hours settings * 3600) /\
    (forall n, claims "nbf" payload n -> n <= now) /\
    (forall n, truthy (dget "jti" payload) = true -> is_empty (strip redis_url) = false ->
       exists_key now ("jwt:revoked:" +:+ py_str (dget "jti" payload)) r = (r', Ok n) -> n <= 0).
Proof using Type.
  destruct credentials as [[scheme token]|]; [|done]. unfold get_current_principal.
  destruct (String.eqb_spec (lower scheme) "bearer") as [Hs|]; [|done].
  unfold _decode_and_validate_token. intros [Hpub H]%guard_Ok.
  apply prog_bind_Ok in H as (s1 & payload & Hd & H).
  injection Hd as <- Hd.
  assert (jwt_decode jwt now token (as_jwt_public_key settings) ["RS256"%string] (as_jwt_issuer settings)
            (as_jwt_audience settings) ["exp"; "sub"]%string = Ok payload) as Hdec.
  { destruct (jwt_decode _ _ _ _ _ _ _ _) as [|e]; [done|].
    exfalso. revert Hd. unfold decode_failure. by repeat case_match. }
  clear Hd. apply prog_bind_Ok in H as (s1 & [] & [= <- Hlife] & H).
  apply prog_bind_Ok in H as (s1 & w & [= <- _] & H).
  apply prog_bind_Ok in H as (s1 & early & [= <- Hearly] & H). apply guard_Ok in H as [-> H].
  apply guard_Ok in H as [Hsub H]. apply prog_bind_Ok in H as (s1 & role & [= <- Hrole] & H).
  rewrite lift_bind in H. destruct (is_access payload) eqn:Hacc; [|done].
  apply prog_bind_Ok in H as (s2 & revoked & Hrev & H). apply guard_Ok in H as [-> H].
  injection H as <- <-. exists scheme, token, payload. cbn.
  split_and!; try done.
  - intros E. by rewrite E in Hpub.
  - intros E. by rewrite E in Hsub.
  - revert Hrole. unfold claimed_role. destruct (role_of _) eqn:E; [|done]. intros [= <-].
    symmetry. by apply role_of_value.
  - revert Hacc. unfold is_access. destruct (dget_or "type" _ _); try done. by intros ->%String.eqb_eq.
  - intros exp issued He Hi. by apply (lifetime_within payload settings).
  - intros n [Hn1 Hn2]. unfold not_active in Hearly. rewrite Hn1, Hn2 in Hearly. simpl in Hearly.
    injection Hearly as Hlt. by apply Z.ltb_ge.
  - intros n Ht Hu He. rewrite Ht in Hrev. unfold _is_jti_revoked, best_effort in Hrev. rewrite Hu in Hrev.
    unfold mbind, prog_bind in Hrev. rewrite He in Hrev. injection Hrev as Hz. by apply Z.ltb_ge.
Qed.

(** ** Issued tokens *)

(** What PyJWT documents for a token signed with the private half of the key
    pair, for payloads of strings and integers without [nbf]: [encode] returns a
    token, which [decode] under the public key, the payload's issuer and audience
    and RS256 accepts as that payload until it expires, provided the required
    claims are there, and refuses as expired from then on. *)
Definition plain (v : val) : bool := match v with VStr _ | VInt _ => true | _ => false end.

Record signable (payload : dict) (iss aud : string) (iat exp : Z) (required : list string) : Prop := {
  sg_plain : forallb (fun kv => plain kv.2) payload = true;
  sg_nbf : dict_get "nbf" payload = None;
  sg_iss : dict_get "iss" payload = Some (VStr iss);
  sg_aud : dict_get "aud" payload = Some (VStr aud);
  sg_iat : dict_get "iat" payload = Some (VInt iat);
  sg_exp : dict_get "exp" payload = Some (VInt exp);
  sg_required : forall claim, claim ∈ required -> is_Some (dict_get claim payload);
}.

Record jwt_laws (private public : string) : Prop := {
  encode_total payload :
    forallb (fun kv => plain kv.2) payload = true -> exists token, jwt_encode jwt payload private "RS256" = Ok token;
  decode_issued payload token iss aud iat exp required now :
    jwt_encode jwt payload private "RS256" = Ok token -> signable payload iss aud iat exp required ->
    iat <= now < exp -> jwt_decode jwt now token public ["RS256"%string] iss aud required = Ok payload;
  decode_expired payload token iss aud iat exp required now :
    jwt_encode jwt payload private "RS256" = Ok token -> signable payload iss aud iat exp required ->
    iat <= now -> exp <= now ->
    exists msg, jwt_decode jwt now token public ["RS256"%string] iss aud required =
      raise (ExternalError "ExpiredSignatureError") msg;
}.

Lemma claims_signable user role settings now lifetime jti type extra required :
  forallb (fun kv => plain kv.2) extra = true -> dict_get "nbf" extra = None ->
  (forall claim, claim ∈ required -> claim ∈ ["sub"; "role"; "exp"; "jti"; "type"]%string) ->
  signable (token_claims user role settings now lifetime jti type ++ extra) (as_jwt_issuer settings)
    (as_jwt_audience settings) now (now + lifetime) required.
Proof using Type.
  intros Hp Hn Hr. split; try done.
  intros claim Hc. specialize (Hr _ Hc). 
  repeat (apply elem_of_cons in Hr as [->|Hr]; [eexists; reflexivity|]). by apply not_elem_of_nil in Hr.
Qed.

(** The refresh payload of a pair. *)
Definition refresh_claims (user role : string) (settings : APISettings) (now : Z) (jtis : string * string) : dict :=
  token_claims user role settings now (_REFRESH_TOKEN_LIFETIME_DAYS * 86400) jtis.2 "refresh" ++
  [("access_jti"%string, VStr jtis.1)].

Lemma generate_token_pair_inv now jtis user role settings r r' pair :
  generate_token_pair now jtis user role settings r = (r', Ok pair) ->
  is_empty (as_jwt_private_key settings) = false /\
  jwt_encode jwt (token_claims user role settings now 900 jtis.1 "access" ++ []) (as_jwt_private_key settings) "RS256"
    = Ok (tp_access_token pair) /\
  jwt_encode jwt (refresh_claims user role settings now jtis) (as_jwt_private_key settings) "RS256"
    = Ok (tp_refresh_token pair).
Proof using Type.
  unfold generate_token_pair. intros [Hk H]%guard_Ok.
  apply prog_bind_Ok in H as (s1 & access & [= <- Ha] & H).
  apply prog_bind_Ok in H as (s1 & refresh & [= <- Hr] & H).
  apply prog_bind_Ok in H as (s1 & [] & _ & [= _ <-]). by rewrite app_nil_r.
Qed.

Lemma generate_token_pair_total now jtis user role settings public r :
  jwt_laws (as_jwt_private_key settings) public -> as_jwt_private_key settings <> ""%string ->
  exists r' pair, generate_token_pair now jtis user role settings r = (r', Ok pair).
Proof using Type.
  intros L Hk. unfold generate_token_pair. rewrite lift_bind.
  destruct (as_jwt_private_key settings) as [|c k] eqn:Ek; [done|]. cbn [is_empty].
  destruct (encode_total _ _ L (token_claims user role settings now (_ACCESS_TOKEN_LIFETIME_MINUTES * 60) jtis.1 "access"))
    as [access Ha]; [done|].
  rewrite lift_bind, Ha.
  destruct (encode_total _ _ L (refresh_claims user role settings now jtis)) as [refresh Hr]; [done|].
  unfold refresh_claims in Hr. rewrite lift_bind, Hr. unfold _store_refresh_jti, best_effort, mbind, prog_bind.
  destruct (is_empty (strip redis_url)); [by do 2 eexists|].
  destruct (setex _ _ _ _ r) as [r' [[]|]]; by do 2 eexists.
Qed.

Lemma access_token_accepted now now' settings token user ro jti s :
  let payload := (token_claims user (role_value ro) settings now 900 jti "access" ++ [])%list in
  jwt_decode jwt now' token (as_jwt_public_key settings) ["RS256"%string] (as_jwt_issuer settings)
    (as_jwt_audience settings) ["exp"; "sub"]%string = Ok payload ->
  as_jwt_public_key settings <> ""%string -> 1 <= as_jwt_max_lifetime_hours settings ->
  strip user <> ""%string -> _is_jti_revoked now' jti s = (s, Ok false) ->
  _decode_and_validate_token now' token settings s = (s, Ok {| ap_user_id := strip user; ap_role := ro |}).
Proof using Type.
  intros payload Hd Hk Hh Hu Hr. unfold _decode_and_validate_token.
  rewrite lift_bind. destruct (as_jwt_public_key settings) as [|c k] eqn:Ek; [done|]. cbn [is_empty].
  rewrite lift_bind, Hd.
  assert (_validate_token_lifetime payload settings = Ok tt) as ->.
  { change (_validate_token_lifetime payload settings) with
      (if as_jwt_max_lifetime_hours settings * 3600 <? now + 900 - now
       then http_error 401 "JWT lifetime exceeds maximum allowed" else Ok tt).
    by destruct (Z.ltb_spec (as_jwt_max_lifetime_hours settings * 3600) (now + 900 - now)); [lia|]. }
  rewrite lift_bind. change (_warn_if_long_lived payload) with (Ok (900 <? now + 900 - now)).
  rewrite lift_bind. change (not_active payload now') with (Ok false). rewrite 2!lift_bind.
  change (strip (py_str (dget_or "sub" (VStr "") payload))) with (strip user).
  rewrite lift_bind. destruct (strip user) as [|c' u] eqn:Eu; [done|]. cbn [is_empty].
  rewrite lift_bind. assert (claimed_role payload = Ok ro) as -> by (by destruct ro).
  change (is_access payload) with true. rewrite lift_bind.
  change (dget "jti" payload) with (VStr jti). change (py_str (VStr jti)) with jti.
  destruct (truthy (VStr jti)); [|done].
  unfold mbind at 1, prog_bind at 1. by rewrite Hr.
Qed.

Lemma refresh_token_refused now now' settings token user ro jtis s :
  jwt_decode jwt now' token (as_jwt_public_key settings) ["RS256"%string] (as_jwt_issuer settings)
    (as_jwt_audience settings) ["exp"; "sub"]%string = Ok (refresh_claims user (role_value ro) settings now jtis) ->
  as_jwt_public_key settings <> ""%string ->
  exists msg, _decode_and_validate_token now' token settings s = (s, http_error 401 msg).
Proof using Type.
  set (payload := refresh_claims user (role_value ro) settings now jtis). intros Hd Hk.
  unfold _decode_and_validate_token.
  rewrite lift_bind. destruct (as_jwt_public_key settings) as [|c k] eqn:Ek; [done|]. cbn [is_empty].
  rewrite lift_bind, Hd, lift_bind.
  change (_validate_token_lifetime payload settings) with
    (if as_jwt_max_lifetime_hours settings * 3600 <? now + 7 * 86400 - now
     then http_error 401 "JWT lifetime exceeds maximum allowed" else Ok tt).
  destruct (_ <? _); [by eexists|].
  change (_warn_if_long_lived payload) with (Ok (900 <? now + 7 * 86400 - now)).
  rewrite lift_bind. change (not_active payload now') with (Ok false). rewrite 2!lift_bind.
  change (strip (py_str (dget_or "sub" (VStr "") payload))) with (strip user).
  rewrite lift_bind. destruct (is_empty (strip user)); [by eexists|].
  rewrite lift_bind. assert (claimed_role payload = Ok ro) as -> by (by destruct ro).
  change (is_access payload) with false. rewrite lift_bind. by eexists.
Qed.

(** The token endpoint, which asks for no credentials, issues a pair for any
    non-blank user and any of the three roles, and the API lets the bearer of the
    access token in as that user with that role for fifteen minutes, unless its
    id is revoked. The refresh token of the pair is never accepted for API
    access: it is refused with status 401 at every later time. *)
Theorem issued_tokens now jtis user role ro settings r :
  jwt_laws (as_jwt_private_key settings) (as_jwt_public_key settings) ->
  as_jwt_private_key settings <> ""%string -> as_jwt_public_key settings <> ""%string ->
  1 <= as_jwt_max_lifetime_hours settings -> strip user <> ""%string -> role_of (lower (strip role)) = Some ro ->
  exists r' pair, create_token_pair now jtis user role settings r = (r', Ok (inr pair)) /\
    (forall now' s, now <= now' < now + 900 -> _is_jti_revoked now' jtis.1 s = (s, Ok false) ->
       get_current_principal now' (Some ("Bearer"%string, tp_access_token pair)) settings s =
         (s, Ok {| ap_user_id := strip user; ap_role := ro |})) /\
    (forall now' s, now <= now' ->
       exists msg, get_current_principal now' (Some ("Bearer"%string, tp_refresh_token pair)) settings s =
         (s, http_error 401 msg)).
Proof using Type.
  intros L Hpriv Hpub Hh Hu Hro. unfold create_token_pair. rewrite Hro.
  apply role_of_value in Hro as ->.
  destruct (generate_token_pair_total now jtis user (role_value ro) settings _ r L Hpriv) as (r' & pair & H).
  unfold mbind at 1, prog_bind at 1. rewrite H. exists r', pair. split; [done|].
  apply generate_token_pair_inv in H as (_ & Ha & Hr).
  assert (forall required, (forall claim, claim ∈ required -> claim ∈ ["sub"; "role"; "exp"; "jti"; "type"]%string) ->
    signable (refresh_claims user (role_value ro) settings now jtis) (as_jwt_issuer settings)
      (as_jwt_audience settings) now (now + 7 * 86400) required) as Hsr by (intros; by apply claims_signable).
  assert (forall claim, claim ∈ ["exp"; "sub"]%string -> claim ∈ ["sub"; "role"; "exp"; "jti"; "type"]%string)
    as Hreq by set_solver.
  split; intros now' s Hn.
  - intros Hrev. apply access_token_accepted with (now := now) (jti := jtis.1); try done.
    apply (decode_issued _ _ L _ _ _ _ now (now + 900) _ _ Ha); [by apply claims_signable|done].
  - change (get_current_principal now' (Some ("Bearer"%string, tp_refresh_token pair)) settings s) with
      (_decode_and_validate_token now' (tp_refresh_token pair) settings s).
    destruct (Z.lt_ge_cases now' (now + 7 * 86400)) as [Hlt|Hge].
    + apply (refresh_token_refused now _ _ _ user ro jtis); [|done].
      by apply (decode_issued _ _ L _ _ _ _ now (now + 7 * 86400) _ _ Hr); [apply Hsr|].
    + destruct (decode_expired _ _ L _ _ _ _ now (now + 7 * 86400) _ now' Hr (Hsr _ Hreq) Hn Hge) as [msg Hd].
      exists "JWT expired"%string. unfold _decode_and_validate_token. rewrite lift_bind.
      destruct (as_jwt_public_key settings); [done|]. cbn [is_empty]. by rewrite lift_bind, Hd.
Qed.

(** ** Rotation *)

(** A key the store reports, and reports without changing. *)
Definition live (now : Z) (key : string) (r : R) : Prop := exists_key now key r = (r, Ok 1).

(** What Redis documents for [SETEX]: once it answers, the key is there until the
    time to live has passed; whether or not it answers, no other key goes away,
    nor does the key itself before that time. [EXISTS] removes nothing. *)
Class RevocationLaws : Prop := {
  setex_live t key ttl value r r' t' :
    setex t key ttl value r = (r', Ok tt) -> t <= t' < t + ttl -> live t' key r';
  setex_keeps t key ttl value r t' key' :
    t <= t' -> key' <> key \/ t' < t + ttl -> live t' key' r -> live t' key' (setex t key ttl value r).1;
  exists_keeps t key r t' key' : live t' key' r -> live t' key' (exists_key t key r).1;
}.

(** The requests that reach this module, each at its time. *)
Inductive auth_request :=
  | RequestToken (jtis : string * string) (user role : string)
  | RequestRefresh (jtis : string * string) (token : string)
  | RequestAccess (credentials : option (string * string)).

Definition serve (settings : APISettings) (now : Z) (q : auth_request) (r : R) : R :=
  match q with
  | RequestToken jtis user role => (create_token_pair now jtis user role settings r).1
  | RequestRefresh jtis token => (refresh_access_token now jtis token settings r).1
  | RequestAccess credentials => (get_current_principal now credentials settings r).1
  end.

Definition serve_all (settings : APISettings) (history : list (Z * auth_request)) (r : R) : R :=
  fold_left (fun r q => serve settings q.1 q.2 r) history r.

Lemma refresh_revoked_neq jti jti' : ("jwt:revoked:" +:+ jti <> "jwt:refresh:" +:+ jti')%string.
Proof using Type. intros E. by injection E. Qed.

Section rotation.
Context `{!RevocationLaws}.

(** From [now] on and until [T], the id is listed as revoked. *)
Definition revoked_until (T now : Z) (jti : string) (r : R) : Prop :=
  forall t, now <= t < T -> live t ("jwt:revoked:" +:+ jti) r.

(** What a request at [now] leaves revoked. *)
Abbreviation keeps T now jti m := (preserves (revoked_until T now jti) m).

Lemma keeps_best_effort {A} T now jti (dflt : A) (m : prog R A) :
  keeps T now jti m -> keeps T now jti (best_effort dflt m).
Proof using Type.
  intros Hm r Hr. unfold best_effort. destruct (is_empty _); [done|].
  specialize (Hm r Hr). by destruct (m r) as [r1 [a|e]].
Qed.

Lemma keeps_store T now jti id ttl : keeps T now jti (_store_refresh_jti now id ttl).
Proof using All.
  apply keeps_best_effort. intros r Hr t Ht. apply setex_keeps; [lia| |by apply Hr].
  left. apply refresh_revoked_neq.
Qed.

Lemma keeps_revoke T now jti id : T <= now + 8 * 86400 -> keeps T now jti (_revoke_jti now id).
Proof using All.
  intros HT. apply keeps_best_effort. intros r Hr t Ht. apply setex_keeps; [lia|right; lia|by apply Hr].
Qed.

Lemma keeps_is_revoked T now jti id : keeps T now jti (_is_jti_revoked now id).
Proof using All.
  apply keeps_best_effort, preserves_bind; [|intros n; apply preserves_ret].
  intros r Hr t Ht. by apply exists_keeps, Hr.
Qed.

#[local] Hint Resolve keeps_store keeps_revoke keeps_is_revoked : preserve.

Lemma keeps_generate T now jti jtis user role settings : keeps T now jti (generate_token_pair now jtis user role settings).
Proof using All. unfold generate_token_pair. auto 12 with preserve. Qed.

#[local] Hint Resolve keeps_generate : preserve.

Lemma serve_keeps T settings now q jti r :
  T <= now + 8 * 86400 -> revoked_until T now jti r -> revoked_until T now jti (serve settings now q r).
Proof using All.
  intros HT. destruct q as [jtis user role|jtis token|credentials]; simpl.
  - enough (keeps T now jti (create_token_pair now jtis user role settings)) as K by apply K.
    unfold create_token_pair. destruct (role_of _); auto with preserve.
  - enough (keeps T now jti (refresh_access_token now jtis token settings)) as K by apply K.
    unfold refresh_access_token. auto 20 with preserve.
  - enough (keeps T now jti (get_current_principal now credentials settings)) as K by apply K.
    unfold get_current_principal. destruct credentials as [[scheme token]|]; [|auto with preserve].
    destruct (String.eqb _ _); [|auto with preserve]. unfold _decode_and_validate_token.
    repeat first [apply preserves_bind; [|intros ?] | destruct (truthy _) | solve [auto with preserve]].
Qed.

Lemma revoked_until_mono T now now' jti r : now <= now' -> revoked_until T now jti r -> revoked_until T now' jti r.
Proof using Type. intros Hn Hr t Ht. apply Hr. lia. Qed.

Lemma serve_all_keeps T settings history jti now now' r :
  T <= now + 8 * 86400 -> Sorted Z.le (now :: history.*1 ++ [now']) -> revoked_until T now jti r ->
  revoked_until T now' jti (serve_all settings history r).
Proof using All.
  revert now r. induction history as [|[t q] history IH]; intros now r HT Hs Hr;
    apply Sorted_inv in Hs as [Hs Hh]; apply HdRel_inv in Hh; simpl in Hh.
  { by apply (revoked_until_mono T now). }
  apply (IH t (serve settings t q r)); [lia|done|]. apply serve_keeps; [lia|]. by apply (revoked_until_mono T now).
Qed.

(** A refresh that passes the checks lists the id it used, provided Redis is
    configured and answers. *)
Lemma refresh_revokes now jtis token settings payload r r' pair :
  decode_refresh now token settings = Ok payload ->
  refresh_access_token now jtis token settings r = (r', Ok pair) ->
  is_empty (strip redis_url) = false ->
  let jti := py_str (dget_or "jti" (VStr "") payload) in
  (forall s, (setex now ("jwt:revoked:" +:+ jti) (8 * 86400) "1" s).2 = Ok tt) ->
  revoked_until (now + 8 * 86400) now jti r'.
Proof using All.
  intros Hd Href Hu jti Hset. unfold refresh_access_token in Href. apply guard_Ok in Href as [_ Href].
  rewrite lift_bind, Hd in Href. apply prog_bind_Ok in Href as (s1 & [] & [= <- _] & Href).
  apply prog_bind_Ok in Href as (s1 & b & _ & Href). apply guard_Ok in Href as [_ Href].
  apply prog_bind_Ok in Href as (s2 & [] & Hrev & Href).
  apply prog_bind_Ok in Href as (s3 & sub & [= <- _] & Hgen).
  eapply (f_equal fst) in Hgen. simpl in Hgen. rewrite <- Hgen. apply keeps_generate. clear Hgen.
  unfold _revoke_jti, best_effort in Hrev. rewrite Hu in Hrev. fold jti in Hrev.
  specialize (Hset s1). destruct (setex _ _ _ _ s1) as [s4 o] eqn:E. simpl in Hset. subst o.
  injection Hrev as <-. intros t Ht. by apply (setex_live _ _ _ _ _ _ _ E).
Qed.

Lemma revoked_refresh_refused now jtis token settings payload r :
  decode_refresh now token settings = Ok payload -> dget "type" payload = VStr "refresh" ->
  as_jwt_private_key settings <> ""%string -> as_jwt_public_key settings <> ""%string ->
  is_empty (strip redis_url) = false ->
  live now ("jwt:revoked:" +:+ py_str (dget_or "jti" (VStr "") payload)) r ->
  refresh_access_token now jtis token settings r = (r, http_error 401 "Refresh token has been revoked").
Proof using Type.
  intros Hd Ht Hpriv Hpub Hu Hl. unfold refresh_access_token. rewrite lift_bind.
  assert (is_empty (as_jwt_public_key settings) || is_empty (as_jwt_private_key settings) = false) as ->.
  { by destruct (as_jwt_public_key settings), (as_jwt_private_key settings). }
  rewrite lift_bind, Hd, lift_bind, Ht. cbn [String.eqb]. cbn.
  unfold mbind at 1, prog_bind at 1, _is_jti_revoked, best_effort. rewrite Hu.
  unfold mbind at 1, prog_bind at 1. by rewrite Hl.
Qed.

(** Refresh tokens are used once. After a pair was issued at [issued] and its
    refresh token was exchanged at [now] with Redis answering, then whatever
    requests are served in between, every later attempt to exchange that token is
    refused with status 401: it is listed as revoked for eight days, and its own
    seven days end first. *)
Theorem refresh_token_used_once issued now now' jtis jtis1 jtis2 user role settings history r0 r0' r r1 pair pair1 :
  jwt_laws (as_jwt_private_key settings) (as_jwt_public_key settings) ->
  is_empty (strip redis_url) = false ->
  generate_token_pair issued jtis user role settings r0 = (r0', Ok pair) ->
  issued <= now -> Sorted Z.le (now :: history.*1 ++ [now']) ->
  refresh_access_token now jtis1 (tp_refresh_token pair) settings r = (r1, Ok pair1) ->
  (forall s, (setex now ("jwt:revoked:" +:+ jtis.2) (8 * 86400) "1" s).2 = Ok tt) ->
  let r2 := serve_all settings history r1 in
  exists msg, refresh_access_token now' jtis2 (tp_refresh_token pair) settings r2 = (r2, http_error 401 msg).
Proof using All.
  intros L Hu Hgen Hn Hs Href Hset r2. apply generate_token_pair_inv in Hgen as (Hpriv & _ & Htok).
  assert (signable (refresh_claims user role settings issued jtis) (as_jwt_issuer settings)
      (as_jwt_audience settings) issued (issued + 7 * 86400) ["exp"; "sub"; "type"; "jti"]%string) as Hsg.
  { apply claims_signable; [done|done|set_solver]. }
  assert (forall t, issued <= t < issued + 7 * 86400 ->
    decode_refresh t (tp_refresh_token pair) settings = Ok (refresh_claims user role settings issued jtis)) as Hdec.
  { intros t Ht. unfold decode_refresh. by rewrite (decode_issued _ _ L _ _ _ _ _ _ _ _ Htok Hsg Ht). }
  assert (forall t, issued <= t -> issued + 7 * 86400 <= t ->
    decode_refresh t (tp_refresh_token pair) settings = http_error 401 "Refresh token expired") as Hexp.
  { intros t Ht1 Ht2. unfold decode_refresh.
    by destruct (decode_expired _ _ L _ _ _ _ _ _ _ _ Htok Hsg Ht1 Ht2) as [msg ->]. }
  assert (now <= now') as Hn'.
  { apply Sorted_StronglySorted in Hs; [|intros ???; lia]. apply StronglySorted_inv in Hs as [_ Hs].
    apply Forall_app in Hs as [_ Hs]. exact (proj1 (Forall_singleton _ _) Hs). }
  assert (as_jwt_public_key settings <> ""%string) as Hpub.
  { intros E. unfold refresh_access_token in Href. by rewrite E in Href. }
  assert (as_jwt_private_key settings <> ""%string) as Hpriv' by (intros E; by rewrite E in Hpriv).
  destruct (Z.lt_ge_cases now' (issued + 7 * 86400)) as [Hlt|Hge].
  - exists "Refresh token has been revoked"%string.
    apply (revoked_refresh_refused _ _ _ _ (refresh_claims user role settings issued jtis)); try done.
    { apply Hdec. lia. }
    enough (revoked_until (now + 8 * 86400) now' jtis.2 r2) as Hrev by (apply (Hrev now'); lia).
    apply (serve_all_keeps _ _ _ _ now); [lia|done|].
    apply (refresh_revokes _ _ _ _ _ _ _ _ (Hdec now ltac:(lia)) Href Hu Hset).
  - exists "Refresh token expired"%string. unfold refresh_access_token. rewrite lift_bind.
    destruct (as_jwt_public_key settings), (as_jwt_private_key settings); try done.
    cbn [is_empty orb]. rewrite lift_bind, Hexp; [done|lia|lia].
Qed.
End rotation.
End auth.

(** ** Models of the parameters

    A token format without cryptography that satisfies [jwt_laws], and a Redis
    that keeps the expiry time of each key. *)

Fixpoint bits (p : positive) : string :=
  match p with xI p => String "1" (bits p) | xO p => String "0" (bits p) | xH => EmptyString end.

Fixpoint unbits (s : string) : positive :=
  match s with
  | EmptyString => xH
  | String c s => if Ascii.eqb c "1" then xI (unbits s) else xO (unbits s)
  end.

Lemma unbits_bits p : unbits (bits p) = p.
Proof. induction p as [p IH|p IH|]; simpl; congruence. Qed.

Definition flat (v : val) : string + Z :=
  match v with VStr s => inl s | VInt n => inr n | _ => inl ""%string end.
Definition unflat (x : string + Z) : val := match x with inl s => VStr s | inr n => VInt n end.

Definition claim_is (key value : string) (payload : dict) : bool :=
  match dget key payload with VStr s => String.eqb s value | _ => false end.

Definition open_jwt : jwt_lib := {|
  jwt_encode payload _ _ := Ok (bits (encode (prod_map id flat <$> payload)));
  jwt_decode now token _ _ iss aud required :=
    match decode (A := list (string * (string + Z))) (unbits token) with
    | None => raise (ExternalError "DecodeError") "Invalid token"
    | Some l =>
        let payload := prod_map id unflat <$> l in
        if negb (claim_is "iss" iss payload) then raise (ExternalError "InvalidIssuerError") "Invalid issuer"
        else if negb (claim_is "aud" aud payload) then raise (ExternalError "InvalidAudienceError") "Invalid audience"
        else if negb (forallb (fun k => bool_decide (is_Some (dict_get k payload))) required)
        then raise (ExternalError "MissingRequiredClaimError") "Missing claim"
        else match dget "exp" payload with
             | VInt e => if now <? e then Ok payload else raise (ExternalError "ExpiredSignatureError") "Signature has expired"
             | _ => raise (ExternalError "DecodeError") "Expiration Time claim (exp) must be an integer."
             end
    end |}.

Lemma unflat_flat (payload : dict) :
  forallb (fun kv => plain kv.2) payload = true -> prod_map id unflat <$> (prod_map id flat <$> payload) = payload.
Proof.
  induction payload as [|[k v] payload IH]; [done|]. cbn [forallb]. intros [Hv Hp]%andb_prop.
  rewrite !fmap_cons, (IH Hp). by destruct v.
Qed.

Lemma open_jwt_decode payload token iss aud iat exp required now private public :
  jwt_encode open_jwt payload private "RS256" = Ok token -> signable payload iss aud iat exp required ->
  jwt_decode open_jwt now token public ["RS256"%string] iss aud required =
    if now <? exp then Ok payload else raise (ExternalError "ExpiredSignatureError") "Signature has expired".
Proof.
  intros [= <-] S. cbn [jwt_decode open_jwt]. rewrite unbits_bits, decode_encode, (unflat_flat _ (sg_plain _ _ _ _ _ _ S)).
  unfold claim_is, dget. rewrite (sg_iss _ _ _ _ _ _ S), (sg_aud _ _ _ _ _ _ S), (sg_exp _ _ _ _ _ _ S).
  simpl. rewrite !String.eqb_refl. simpl.
  assert (forallb (fun k => bool_decide (is_Some (dict_get k payload))) required = true) as ->; [|done].
  apply forallb_forall. intros k Hk%list_elem_of_In. apply bool_decide_eq_true, (sg_required _ _ _ _ _ _ S), Hk.
Qed.

Lemma open_jwt_laws private public : jwt_laws open_jwt private public.
Proof.
  split.
  - intros payload _. by eexists.
  - intros * He S Hn. rewrite (open_jwt_decode _ _ _ _ _ _ _ _ _ _ He S). by destruct (Z.ltb_spec now exp); [|lia].
  - intros * He S _ Hn. eexists. rewrite (open_jwt_decode _ _ _ _ _ _ _ _ _ _ He S).
    by destruct (Z.ltb_spec now exp); [lia|].
Qed.

Abbreviation expiries := (gmap string Z).

#[export] Instance memory_store : RevocationStore expiries := {|
  setex t key ttl _ m := (<[key := t + ttl]> m, Ok tt);
  exists_key t key m := (m, Ok match m !! key with Some e => if t <? e then 1 else 0 | None => 0 end);
|}.

#[export] Instance memory_store_laws : RevocationLaws (R := expiries).
Proof.
  split.
  - intros t key ttl value r r' t' [= <-] Ht. unfold live. simpl. rewrite lookup_insert_eq.
    by destruct (Z.ltb_spec t' (t + ttl)); [|lia].
  - intros t key ttl value r t' key' Ht Hk. unfold live. simpl. intros [= Hl].
    destruct (decide (key' = key)) as [->|Hne]; [|by rewrite lookup_insert_ne, Hl].
    rewrite lookup_insert_eq. destruct Hk as [|Hk]; [done|]. by destruct (Z.ltb_spec t' (t + ttl)); [|lia].
  - done.
Qed.

Definition local_settings : APISettings := {|
  as_app_name := "open-trader"; as_app_version := "0.1.0"; as_default_mode := "MOCK"; as_jwt_issuer := "open-trader";
  as_jwt_audience := "open-trader-api"; as_cors_allowed_origins := []; as_llm_runtime_enabled := false;
  as_litellm_base_url := ""; as_llm_quick_provider_order := []; as_llm_deep_provider_order := [];
  as_read_only_mode := false; as_strict_database_mode := true; as_jwt_max_lifetime_hours := 1;
  as_jwt_private_key := "private"; as_jwt_public_key := "public" |}%string.

Definition demo_pair : token_pair :=
  match (generate_token_pair open_jwt "redis://cache" 1000 ("a1", "r1") "mallory" "admin" local_settings (∅ : expiries)).2 with
  | Ok tokens => tokens
  | Raise _ => {| tp_access_token := ""; tp_refresh_token := "" |}
  end%string.

Definition demo_issued : expiries :=
  (generate_token_pair open_jwt "redis://cache" 1000 ("a1", "r1") "mallory" "admin" local_settings ∅).1%string.

Definition demo_refreshed : expiries :=
  (refresh_access_token open_jwt "redis://cache" 2000 ("a2", "r2") (tp_refresh_token demo_pair) local_settings demo_issued).1%string.

Lemma principal_authentic_witness :
  exists scheme token payload,
    Some ("Bearer", tp_access_token demo_pair)%string = Some (scheme, token) /\ lower scheme = "bearer"%string /\
    as_jwt_public_key local_settings <> ""%string /\
    jwt_decode open_jwt 1500 token (as_jwt_public_key local_settings) ["RS256"%string] (as_jwt_issuer local_settings)
      (as_jwt_audience local_settings) ["exp"; "sub"]%string = Ok payload /\
    ("mallory" = strip (py_str (dget_or "sub" (VStr "") payload)))%string /\ ("mallory" <> "")%string /\
    role_value ADMIN = lower (strip (py_str (dget_or "role" (VStr "") payload))) /\
    dget_or "type" (VStr "access") payload = VStr "access" /\
    (forall exp issued, claims "exp" payload exp ->
       claims "iat" payload issued \/ is_number (dget "iat" payload) = false /\ claims "nbf" payload issued ->
       exp - issued <= as_jwt_max_lifetime_hours local_settings * 3600) /\
    (forall n, claims "nbf" payload n -> n <= 1500) /\
    (forall n, truthy (dget "jti" payload) = true -> is_empty (strip "redis://cache") = false ->
       exists_key 1500 ("jwt:revoked:" +:+ py_str (dget "jti" payload)) demo_issued = (demo_issued, Ok n) -> n <= 0).
Proof.
  apply (principal_authentic open_jwt "redis://cache" 1500 (Some ("Bearer", tp_access_token demo_pair)%string)
           local_settings demo_issued demo_issued {| ap_user_id := "mallory"; ap_role := ADMIN |}).
  vm_cast_no_check (eq_refl (demo_issued, Ok {| ap_user_id := "mallory"; ap_role := ADMIN |})).
Defined.

Lemma issued_tokens_witness :
  exists r' pair, create_token_pair open_jwt "" 1000 ("a1", "r1") " mallory " "Admin" local_settings (∅ : expiries)
                    = (r', Ok (inr pair)) /\
    (forall now' s, 1000 <= now' < 1000 + 900 -> _is_jti_revoked (R := expiries) "" now' "a1" s = (s, Ok false) ->
       get_current_principal open_jwt "" now' (Some ("Bearer", tp_access_token pair)) local_settings s =
         (s, Ok {| ap_user_id := "mallory"; ap_role := ADMIN |})) /\
    (forall now' s, 1000 <= now' ->
       exists msg, get_current_principal (R := expiries) open_jwt "" now' (Some ("Bearer", tp_refresh_token pair)) local_settings s =
         (s, http_error 401 msg)).
Proof.
  apply (issued_tokens open_jwt "" 1000 ("a1", "r1")%string " mallory " "Admin" ADMIN local_settings ∅).
  - apply open_jwt_laws.
  - done.
  - done.
  - done.
  - done.
  - by vm_compute.
Defined.

Lemma refresh_token_used_once_witness :
  let r2 := serve_all open_jwt "redis://cache" local_settings
    [(2500, RequestAccess (Some ("Bearer", tp_access_token demo_pair)))] demo_refreshed in
  exists msg, refresh_access_token open_jwt "redis://cache" 3000 ("a3", "r3") (tp_refresh_token demo_pair) local_settings r2
    = (r2, http_error 401 msg).
Proof.
  apply (refresh_token_used_once open_jwt "redis://cache" 1000 2000 3000 ("a1", "r1")%string ("a2", "r2")%string
           ("a3", "r3")%string "mallory" "admin" local_settings
           [(2500, RequestAccess (Some ("Bearer", tp_access_token demo_pair)%string))] ∅ demo_issued demo_issued
           demo_refreshed demo_pair
           (match (refresh_access_token open_jwt "redis://cache" 2000 ("a2", "r2")%string (tp_refresh_token demo_pair)
                     local_settings demo_issued).2 with Ok tokens => tokens | Raise _ => demo_pair end)).
  - apply open_jwt_laws.
  - by vm_compute.
  - vm_cast_no_check (eq_refl (demo_issued, Ok demo_pair)).
  - lia.
  - cbn. repeat first [apply Sorted_nil | apply HdRel_nil | apply Sorted_cons | apply HdRel_cons | lia].
  - vm_cast_no_check (eq_refl (refresh_access_token open_jwt "redis://cache" 2000 ("a2", "r2")%string
      (tp_refresh_token demo_pair) local_settings demo_issued)).
  - done.
Defined.
