(* ===== verification/RateLimiter.v ===== *)
(** * Rate limiting of the API

    [services/api/rate_limiter.py] and the middleware of [services/api/app.py]
    that uses it: sliding windows of request times per client, in memory or (as it
    is meant) in Redis. The clock reading of a request is an argument. *)

From S2P Require Import Prelude PyStr PyFloat PyVal.
From stdpp Require Import options.
From Stdlib Require Import Ascii String SpecFloat.

#[local] Open Scope Z_scope.

(** ** The in-memory limiter *)

Record InMemoryRateLimiter := {
  rl_window_seconds : Z;
  rl_max_requests : Z;
  rl_max_buckets : Z;
  rl_cleanup_interval : Z;
  rl_windows : list (string * list f64);
  rl_request_count : Z }.

Definition limiter_init (window_seconds max_requests : Z) : InMemoryRateLimiter :=
  {| rl_window_seconds := window_seconds; rl_max_requests := max_requests; rl_max_buckets := 10000;
     rl_cleanup_interval := 1000; rl_windows := []; rl_request_count := 0 |}.

Definition set_windows (ws : list (string * list f64)) (l : InMemoryRateLimiter) : InMemoryRateLimiter :=
  {| rl_window_seconds := rl_window_seconds l; rl_max_requests := rl_max_requests l;
     rl_max_buckets := rl_max_buckets l; rl_cleanup_interval := rl_cleanup_interval l; rl_windows := ws;
     rl_request_count := rl_request_count l |}.
Definition count_request (l : InMemoryRateLimiter) : InMemoryRateLimiter :=
  {| rl_window_seconds := rl_window_seconds l; rl_max_requests := rl_max_requests l;
     rl_max_buckets := rl_max_buckets l; rl_cleanup_interval := rl_cleanup_interval l; rl_windows := rl_windows l;
     rl_request_count := rl_request_count l + 1 |}.

(** [now - seconds] *)
Definition before (now : f64) (seconds : Z) : f64 := fsub now (f_of_Z seconds).

(** [not v or v[-1] < stale_cutoff] *)
Definition stale_bucket (stale_cutoff : f64) (v : list f64) : bool :=
  match last v with None => true | Some t => fltb t stale_cutoff end.

(** The periodic cleanup. *)
Definition cleanup (now : f64) (l : InMemoryRateLimiter) : result InMemoryRateLimiter :=
  if rl_cleanup_interval l =? 0 then raise ZeroDivisionError "integer modulo by zero"
  else if rl_request_count l mod rl_cleanup_interval l =? 0 then
    let stale_cutoff := before now (rl_window_seconds l * 2) in
    Ok (set_windows (List.filter (fun kv => negb (stale_bucket stale_cutoff kv.2)) (rl_windows l)) l)
  else Ok l.

(** [while bucket and bucket[0] < cutoff: bucket.popleft()] *)
Fixpoint drop_old (cutoff : f64) (bucket : list f64) : list f64 :=
  match bucket with
  | [] => []
  | t :: b => if fltb t cutoff then drop_old cutoff b else bucket
  end.

Definition is_allowed (now : f64) (key : string) : prog InMemoryRateLimiter (bool * dict) :=
  _ ← modify count_request;
  counted ← gets (fun l => l);
  cleaned ← lift (cleanup now counted);
  _ ← modify (fun _ => cleaned);
  let windows := rl_windows cleaned in
  if match assoc_get key windows with None => rl_max_buckets cleaned <=? Z.of_nat (List.length windows) | Some _ => false end
  then mret (false, [("reason", VStr "bucket_limit"); ("retry_after", VInt (rl_window_seconds cleaned))])
  else
    let bucket := drop_old (before now (rl_window_seconds cleaned)) (default [] (assoc_get key windows)) in
    _ ← modify (set_windows (assoc_set key bucket windows));
    if rl_max_requests cleaned <=? Z.of_nat (List.length bucket) then
      match bucket with
      | [] => lift (raise IndexError "deque index out of range")
      | oldest :: _ =>
          wait ← lift (trunc_float (fsub (fadd oldest (f_of_Z (rl_window_seconds cleaned))) now));
          mret (false, [("reason", VStr "rate_limit"); ("retry_after", VInt (Z.max 0 wait))])
      end
    else
      _ ← modify (set_windows (assoc_set key (bucket ++ [now]) windows));
      mret (true, [("remaining", VInt (rl_max_requests cleaned - Z.of_nat (List.length (bucket ++ [now]))))]).

(** ** The Redis limiter *)

Record RedisRateLimiter := {
  rr_redis_url : string;
  rr_window_seconds : Z;
  rr_max_requests : Z;
  rr_fallback : option InMemoryRateLimiter;
  rr_redis_available : bool }.

Definition redis_init (redis_url : string) (window_seconds max_requests : Z) : RedisRateLimiter :=
  {| rr_redis_url := redis_url; rr_window_seconds := window_seconds; rr_max_requests := max_requests;
     rr_fallback := None; rr_redis_available := true |}.

Definition set_fallback (f : InMemoryRateLimiter) (r : RedisRateLimiter) : RedisRateLimiter :=
  {| rr_redis_url := rr_redis_url r; rr_window_seconds := rr_window_seconds r; rr_max_requests := rr_max_requests r;
     rr_fallback := Some f; rr_redis_available := rr_redis_available r |}.
Definition set_unavailable (r : RedisRateLimiter) : RedisRateLimiter :=
  {| rr_redis_url := rr_redis_url r; rr_window_seconds := rr_window_seconds r; rr_max_requests := rr_max_requests r;
     rr_fallback := rr_fallback r; rr_redis_available := false |}.

(** The first thing [_check_redis] does after reading the clock is to read
    [self._window_seconds]; the class has [window_seconds] and no such attribute. *)
Definition _check_redis (now : f64) (key : string) : prog RedisRateLimiter (bool * dict) :=
  lift (raise AttributeError "'RedisRateLimiter' object has no attribute '_window_seconds'").

Definition _get_fallback (r : RedisRateLimiter) : InMemoryRateLimiter :=
  match rr_fallback r with Some f => f | None => limiter_init (rr_window_seconds r) (rr_max_requests r) end.

Definition ask_fallback (now : f64) (key : string) : prog RedisRateLimiter (bool * dict) :=
  zoom _get_fallback set_fallback (is_allowed now key).

Definition redis_is_allowed (now : f64) (key : string) : prog RedisRateLimiter (bool * dict) := fun r =>
  if negb (rr_redis_available r) then ask_fallback now key r
  else match _check_redis now key r with
       | (r', Ok answer) => (r', Ok answer)
       | (r', Raise _) => ask_fallback now key (set_unavailable r')
       end.

(** ** The middleware *)

Inductive RateLimiter := InMemory (l : InMemoryRateLimiter) | Redis (r : RedisRateLimiter).

Definition limiter_is_allowed (now : f64) (key : string) : prog RateLimiter (bool * dict) := fun l =>
  match l with
  | InMemory m => let '(m', r) := is_allowed now key m in (InMemory m', r)
  | Redis d => let '(d', r) := redis_is_allowed now key d in (Redis d', r)
  end.

Record app_limiters := { al_general : RateLimiter; al_internal : RateLimiter }.

Definition create_limiters (redis_url : string) : app_limiters :=
  if is_empty (strip redis_url)
  then {| al_general := InMemory (limiter_init 60 300); al_internal := InMemory (limiter_init 60 30) |}
  else {| al_general := Redis (redis_init (strip redis_url) 60 300);
          al_internal := Redis (redis_init (strip redis_url) 60 30) |}.

(** The request is passed on, or answered with 429 and [Retry-After]. *)
Inductive verdict := Passed | Limited (retry_after : val).

Record request := { rq_now : f64; rq_client : option string; rq_path : string }.

Definition is_health (path : string) : bool := String.prefix "/health/" path.
Definition is_internal (path : string) : bool := String.prefix "/internal/" path.

Definition limiter_key (q : request) : string :=
  default "unknown"%string (rq_client q) +:+ ":" +:+ (if is_internal (rq_path q) then "internal" else "general").

Definition rate_limit_middleware (q : request) : prog app_limiters verdict :=
  if is_health (rq_path q) then mret Passed
  else
    answer ← (if is_internal (rq_path q)
              then zoom al_internal (fun l a => {| al_general := al_general a; al_internal := l |})
                     (limiter_is_allowed (rq_now q) (limiter_key q))
              else zoom al_general (fun l a => {| al_general := l; al_internal := al_internal a |})
                     (limiter_is_allowed (rq_now q) (limiter_key q)));
    mret (if answer.1 : bool then Passed else Limited (dget_or "retry_after" (VInt 60) answer.2)).

(** ** The Redis limiter is the in-memory limiter *)

Definition memory_of (l : RateLimiter) : InMemoryRateLimiter :=
  match l with InMemory m => m | Redis r => _get_fallback r end.

(** Whatever limiter is configured, requests are judged by the in-memory one:
    the Redis limiter fails on its first request, before it talks to Redis, and
    never tries again. *)
Lemma limiter_in_memory now key l :
  let '(l', r) := limiter_is_allowed now key l in is_allowed now key (memory_of l) = (memory_of l', r).
Proof.
  destruct l as [m|d]; cbn [limiter_is_allowed memory_of]; [by destruct (is_allowed now key m)|].
  unfold redis_is_allowed, _check_redis, lift, ask_fallback, zoom. destruct d as [url ws mx [f|] []]; cbn [negb rr_redis_available];
    unfold set_unavailable, set_fallback, _get_fallback; cbn [rr_fallback rr_window_seconds rr_max_requests];
    by destruct (is_allowed _ _ _).
Qed.

(** ** The window *)

Definition recent (cutoff t : f64) : bool := negb (fltb t cutoff).

Lemma fltb_fleb_trans x y z : fltb x y = true -> fleb y z = true -> fltb x z = true.
Proof.
  intros H1 H2. destruct (fltb x z) eqn:E; [done|]. exfalso.
  destruct (fleb_not_nan _ _ H2) as [_ Nz]. destruct (fleb_not_nan _ _ (fltb_fleb _ _ H1)) as [Nx _].
  pose proof (not_fltb_fleb _ _ E Nx Nz) as H3. pose proof (fleb_fltb_trans _ _ _ H3 H1) as H4.
  apply fltb_not_fleb in H4. congruence.
Qed.

Lemma old_not_recent c t : fltb t c = true -> recent c t = false.
Proof. unfold recent. by intros ->. Qed.

Lemma filter_drop_old c c' b :
  fleb c c' = true -> List.filter (recent c') (drop_old c b) = List.filter (recent c') b.
Proof.
  intros Hc. induction b as [|t b IH]; [done|]. cbn [drop_old]. destruct (fltb t c) eqn:E; [|done].
  rewrite IH. cbn [List.filter]. by rewrite (old_not_recent c' t) by exact (fltb_fleb_trans _ _ _ E Hc).
Qed.

Lemma filter_length_le {A} (p : A -> bool) l : (List.length (List.filter p l) <= List.length l)%nat.
Proof. induction l as [|x l IH]; cbn; [lia|]. destruct (p x); cbn; lia. Qed.

Definition bucket_of (l : InMemoryRateLimiter) (key : string) : list f64 := default [] (assoc_get key (rl_windows l)).

(** The times of the requests of a key that were passed on, oldest first. *)
Definition times (key : string) (log : list (string * f64)) : list f64 :=
  (List.filter (fun e => String.eqb e.1 key) log).*2.

(** What the buckets know at the time [now], with [c] the last cutoff. *)
Record window_ok (l : InMemoryRateLimiter) (log : list (string * f64)) (now c : f64) : Prop := {
  wk_recent : forall key c', fleb c c' = true ->
    List.filter (recent c') (bucket_of l key) = List.filter (recent c') (times key log);
  wk_sorted : forall key, StronglySorted (fun a b => fleb a b = true) (bucket_of l key);
  wk_past : forall key, Forall (fun t => fleb t now = true) (bucket_of l key);
  wk_keys : NoDup (rl_windows l).*1 }.

Lemma window_ok_later l log now c now' c' :
  window_ok l log now c -> fleb now now' = true -> fleb c c' = true -> window_ok l log now' c'.
Proof.
  intros [H1 H2 H3 H4] Hn Hc. split; [|done| |done].
  - intros key c2 Hc2. apply H1. exact (fleb_trans _ _ _ Hc Hc2).
  - intros key. eapply Forall_impl; [apply H3|]. intros t Ht. exact (fleb_trans _ _ _ Ht Hn).
Qed.

Lemma stale_bucket_old c' stale v :
  StronglySorted (fun a b => fleb a b = true) v -> fleb stale c' = true -> stale_bucket stale v = true ->
  List.filter (recent c') v = [].
Proof.
  intros Hs Hc. unfold stale_bucket. destruct (last v) as [t|] eqn:El; [|by apply last_None in El as ->].
  intros Ht. apply last_Some in El as [v' ->]. assert (Forall (fun x => fltb x c' = true) (v' ++ [t])) as Hall.
  { assert (fltb t c' = true) as Htc by exact (fltb_fleb_trans _ _ _ Ht Hc). apply Forall_app_2; [|by constructor].
    clear Ht. induction v' as [|x v' IH]; [constructor|]. cbn [app] in Hs. inversion Hs as [|? ? Hs' Hx]; subst.
    constructor; [|by apply IH]. apply Forall_app in Hx as [_ Hx]. apply Forall_inv in Hx. exact (fleb_fltb_trans _ _ _ Hx Htc). }
  clear Hs Ht. induction Hall as [|x l Hx _ IH]; [done|]. cbn [List.filter]. by rewrite (old_not_recent _ _ Hx).
Qed.

Lemma assoc_get_filter (p : list f64 -> bool) key (d : list (string * list f64)) :
  NoDup d.*1 -> assoc_get key (List.filter (fun kv => p kv.2) d) =
    match assoc_get key d with Some v => if p v then Some v else None | None => None end.
Proof.
  induction d as [|[k v] d IH]; intros Hn; [done|]. rewrite fmap_cons in Hn. apply NoDup_cons in Hn as [Hk Hn].
  cbn [List.filter assoc_get snd]. destruct (p v) eqn:Ep; cbn [assoc_get]; destruct (String.eqb_spec key k) as [->|Hne].
  - by rewrite Ep.
  - by apply IH.
  - rewrite Ep, IH by done. by assert (assoc_get k d = None) as -> by (by apply assoc_get_None).
  - by apply IH.
Qed.

Lemma NoDup_filter_keys {A} (p : string * A -> bool) (d : list (string * A)) : NoDup d.*1 -> NoDup (List.filter p d).*1.
Proof.
  induction d as [|[k v] d IH]; intros Hn; [done|]. rewrite fmap_cons in Hn. apply NoDup_cons in Hn as [Hk Hn].
  cbn [List.filter]. destruct (p (k, v)); [|by apply IH]. rewrite fmap_cons. constructor; [|by apply IH].
  intros ([k' v'] & E & Hin)%list_elem_of_fmap. cbn in E. subst k'. apply Hk. apply list_elem_of_In, List.filter_In in Hin as [Hin _].
  apply list_elem_of_In in Hin. by apply (list_elem_of_fmap_2 fst) in Hin.
Qed.

Lemma cleanup_ok now l l' log c :
  window_ok l log now c -> fleb (before now (rl_window_seconds l * 2)) c = true -> cleanup now l = Ok l' ->
  window_ok l' log now c /\ rl_window_seconds l' = rl_window_seconds l /\ rl_max_requests l' = rl_max_requests l.
Proof.
  intros Hw Hst. unfold cleanup. destruct (_ =? 0); [done|]. destruct (_ =? 0); [|by intros [= <-]]. intros [= <-].
  split; [|done]. destruct Hw as [H1 H2 H3 H4].
  set (p := fun v => negb (stale_bucket (before now (rl_window_seconds l * 2)) v)).
  assert (forall key, bucket_of (set_windows (List.filter (fun kv => p kv.2) (rl_windows l)) l) key =
    if p (bucket_of l key) then bucket_of l key else []) as Hb.
  { intros key. unfold bucket_of. cbn [rl_windows set_windows]. rewrite assoc_get_filter by done.
    destruct (assoc_get key (rl_windows l)) as [v|]; cbn [default]; by destruct (p _). }
  split.
  - intros key c' Hc. rewrite <- H1, Hb by done. destruct (p (bucket_of l key)) eqn:Ep; [done|].
    unfold p in Ep. apply negb_false_iff in Ep. symmetry. eapply stale_bucket_old; [apply H2| |exact Ep]. exact (fleb_trans _ _ _ Hst Hc).
  - intros key. rewrite Hb. destruct (p _); [done|constructor].
  - intros key. rewrite Hb. destruct (p _); [done|constructor].
  - by apply NoDup_filter_keys.
Qed.

Lemma drop_old_sorted c b :
  StronglySorted (fun a b => fleb a b = true) b -> StronglySorted (fun a b => fleb a b = true) (drop_old c b).
Proof. induction 1 as [|t b Hb IH Ht]; cbn [drop_old]; [constructor|]. destruct (fltb t c); [done|by constructor]. Qed.

Lemma drop_old_Forall (P : f64 -> Prop) c b : Forall P b -> Forall P (drop_old c b).
Proof. induction 1 as [|t b Ht Hb IH]; cbn [drop_old]; [constructor|]. destruct (fltb t c); [done|by constructor]. Qed.

(** The bucket holds exactly the requests of the window. *)
Lemma drop_old_recent c b :
  StronglySorted (fun a b => fleb a b = true) b -> drop_old c b = List.filter (recent c) b.
Proof.
  induction 1 as [|t b Hb IH Ht]; cbn [drop_old List.filter]; [done|]. destruct (fltb t c) eqn:E.
  - by rewrite (old_not_recent _ _ E).
  - unfold recent at 1. rewrite E. cbn [negb]. f_equal. clear IH Hb.
    induction Ht as [|x b Hx _ IHb]; cbn [List.filter]; [done|]. unfold recent at 1.
    destruct (fltb x c) eqn:Ex; cbn [negb]; [|by rewrite <- IHb].
    pose proof (fleb_fltb_trans _ _ _ Hx Ex). congruence.
Qed.

Lemma sorted_snoc b now :
  StronglySorted (fun a b => fleb a b = true) b -> Forall (fun t => fleb t now = true) b ->
  StronglySorted (fun a b => fleb a b = true) (b ++ [now]).
Proof.
  induction 1 as [|t b Hb IH Ht]; intros Hn; cbn [app]; [by repeat constructor|]. inversion Hn; subst.
  constructor; [by apply IH|]. apply Forall_app_2; [done|by constructor].
Qed.

Lemma times_app key log e : times key (log ++ [e]) = times key log ++ (if String.eqb e.1 key then [e.2] else []).
Proof. unfold times. rewrite List.filter_app, fmap_app. cbn [List.filter]. by destruct (String.eqb e.1 key). Qed.

(** Writing one bucket. *)
Lemma set_bucket_ok l log log' now c key b :
  window_ok l log now c ->
  (forall c', fleb c c' = true -> List.filter (recent c') b = List.filter (recent c') (times key log')) ->
  (forall k, k <> key -> times k log' = times k log) ->
  StronglySorted (fun a b => fleb a b = true) b -> Forall (fun t => fleb t now = true) b ->
  window_ok (set_windows (assoc_set key b (rl_windows l)) l) log' now c.
Proof.
  intros [H1 H2 H3 H4] Hb Hlog Hs Hp.
  assert (forall k, bucket_of (set_windows (assoc_set key b (rl_windows l)) l) k =
    if decide (k = key) then b else bucket_of l k) as E.
  { intros k. unfold bucket_of. cbn [rl_windows set_windows]. case_decide as Hk.
    - subst k. by rewrite assoc_get_set_eq.
    - by rewrite assoc_get_set_ne. }
  split.
  - intros k c' Hc. rewrite E. case_decide as Hk; [subst k; by apply Hb|]. rewrite Hlog by done. by apply H1.
  - intros k. rewrite E. by case_decide.
  - intros k. rewrite E. by case_decide.
  - by apply assoc_set_NoDup.
Qed.

Definition allowed (r : result (bool * dict)) : bool := match r with Ok (true, _) => true | _ => false end.

(** The limiter's settings. *)
Definition configured (max_requests : Z) (l : InMemoryRateLimiter) : Prop :=
  rl_window_seconds l = 60 /\ rl_max_requests l = max_requests /\ rl_max_buckets l = 10000 /\ rl_cleanup_interval l = 1000.

Definition window_count (now : f64) (key : string) (log : list (string * f64)) : Z :=
  Z.of_nat (List.length (List.filter (recent (before now 60)) (times key log))).

Definition extend (log : list (string * f64)) (key : string) (now : f64) (ok : bool) : list (string * f64) :=
  if ok then log ++ [(key, now)] else log.

Lemma is_allowed_eq max now key l :
  configured max l -> exists l1, cleanup now (count_request l) = Ok l1 /\ configured max l1 /\ 
    (List.length (rl_windows l1) <= List.length (rl_windows l))%nat /\
    is_allowed now key l =
      if match assoc_get key (rl_windows l1) with None => 10000 <=? Z.of_nat (List.length (rl_windows l1)) | Some _ => false end
      then (l1, Ok (false, [("reason", VStr "bucket_limit"); ("retry_after", VInt 60)]))
      else
        let bucket := drop_old (before now 60) (bucket_of l1 key) in
        let l2 := set_windows (assoc_set key bucket (rl_windows l1)) l1 in
        if max <=? Z.of_nat (List.length bucket) then
          (l2, match bucket with
               | [] => raise IndexError "deque index out of range"
               | oldest :: _ =>
                   wait ← trunc_float (fsub (fadd oldest (f_of_Z 60)) now);
                   Ok (false, [("reason", VStr "rate_limit"); ("retry_after", VInt (Z.max 0 wait))])
               end)
        else (set_windows (assoc_set key (bucket ++ [now]) (rl_windows l1)) l1,
              Ok (true, [("remaining", VInt (max - Z.of_nat (List.length (bucket ++ [now]))))])).
Proof.
  intros (Hw & Hm & Hb & Hc).
  assert (exists l1, cleanup now (count_request l) = Ok l1 /\ configured max l1 /\
    (List.length (rl_windows l1) <= List.length (rl_windows l))%nat) as (l1 & E & C1 & Hlen).
  { unfold cleanup. cbn [count_request rl_cleanup_interval]. rewrite Hc. cbn [Z.eqb].
    destruct (_ =? 0); eexists; (split; [reflexivity|]); (split; [by repeat split|]); cbn [rl_windows set_windows count_request]; [|lia].
    apply filter_length_le. }
  exists l1. do 3 (split; [done|]). destruct C1 as (Hw1 & Hm1 & Hb1 & _).
  unfold is_allowed. rewrite modify_bind, gets_bind. cbv beta. rewrite lift_bind, E, modify_bind. cbv beta zeta.
  rewrite Hw1, Hm1, Hb1. case_match; [done|]. rewrite modify_bind. unfold bucket_of.
  destruct (max <=? _); [|reflexivity]. destruct (drop_old _ _); [reflexivity|]. rewrite lift_bind. by destruct (trunc_float _).
Qed.

(** One question to the limiter: the buckets keep describing the passed requests,
    and the request is passed exactly when there is room in its window, unless the
    limiter holds too many buckets. *)
Lemma is_allowed_window max now key l log :
  configured max l -> window_ok l log now (before now 60) -> fleb now now = true ->
  fleb (before now 120) (before now 60) = true ->
  let '(l', r) := is_allowed now key l in
  let ok := allowed r in
  configured max l' /\ window_ok l' (extend log key now ok) now (before now 60) /\
  (ok = true -> window_count now key log < max) /\
  (window_count now key log < max -> Z.of_nat (List.length (rl_windows l)) < 10000 -> ok = true).
Proof.
  intros Hcf Hw Hn Hst. destruct (is_allowed_eq max now key l Hcf) as (l1 & E1 & C1 & Hlen & ->).
  assert (window_ok l1 log now (before now 60)) as W1.
  { destruct Hcf as (Hws & _). eapply (cleanup_ok now (count_request l)); [by destruct Hw|by cbn; rewrite Hws|exact E1]. }
  assert (drop_old (before now 60) (bucket_of l1 key) = List.filter (recent (before now 60)) (times key log)) as Ed.
  { rewrite drop_old_recent by apply W1. apply W1. apply fleb_refl. by destruct (fleb_not_nan _ _ Hst). }
  assert (window_ok (set_windows (assoc_set key (drop_old (before now 60) (bucket_of l1 key)) (rl_windows l1)) l1) log
            now (before now 60)) as W2.
  { eapply set_bucket_ok; [exact W1| |done|apply drop_old_sorted, W1|apply drop_old_Forall, W1].
    intros c' Hc. rewrite filter_drop_old by done. by apply W1. }
  destruct (match assoc_get key (rl_windows l1) with Some _ => _ | None => _ end) eqn:Em.
  { cbv zeta. cbn [allowed extend]. split; [done|]. split; [done|]. split; [done|]. intros _ Hl. destruct (assoc_get key _); [done|lia]. }
  cbv zeta. unfold window_count. rewrite <- Ed. destruct (max <=? _) eqn:El.
  - assert (allowed match drop_old (before now 60) (bucket_of l1 key) with
      | [] => raise IndexError "deque index out of range"
      | oldest :: _ => wait ← trunc_float (fsub (fadd oldest (f_of_Z 60)) now);
                   Ok (false, [("reason", VStr "rate_limit"); ("retry_after", VInt (Z.max 0 wait))]) end = false) as ->.
    { destruct (drop_old _ _); [done|]. by destruct (trunc_float _). }
    split; [done|]. split; [exact W2|]. split; [done|]. lia.
  - cbn [allowed extend]. split; [done|]. split; [|split; [lia|done]].
    eapply set_bucket_ok; [exact W1| | |apply sorted_snoc; [apply drop_old_sorted, W1|apply drop_old_Forall, W1]|].
    + intros c' Hc. rewrite times_app. cbn [fst snd]. rewrite String.eqb_refl, !List.filter_app, filter_drop_old by done.
      f_equal. by apply W1.
    + intros k Hk. rewrite times_app. cbn [fst]. destruct (String.eqb_spec key k); [congruence|]. by rewrite app_nil_r.
    + apply Forall_app_2; [apply drop_old_Forall, W1|by constructor].
Qed.

(** ** The application *)

Definition passes (r : result verdict) : bool := match r with Ok Passed => true | _ => false end.

(** The requests the middleware sees, one after the other; the passed ones are kept. *)
Fixpoint serve (qs : list request) (a : app_limiters) (passed : list request) : app_limiters * list request :=
  match qs with
  | [] => (a, passed)
  | q :: qs' => let '(a', r) := rate_limit_middleware q a in serve qs' a' (if passes r then passed ++ [q] else passed)
  end.

(** The clock readings of a sequence of requests do not go back, and neither do
    the starts of their windows. *)
Definition follows (t t' : f64) : bool := fleb t t' && fleb (before t 60) (before t' 60).
Definition reading_ok (t : f64) : bool := fleb t t && fleb (before t 120) (before t 60).
Fixpoint clock_ok (qs : list request) : bool :=
  match qs with
  | [] => true
  | q :: qs' =>
      reading_ok (rq_now q) && match qs' with [] => true | q' :: _ => follows (rq_now q) (rq_now q') end && clock_ok qs'
  end.

Definition limit_of (internal : bool) : Z := if internal then 30 else 300.

(** The log of one of the two limiters. *)
Definition limited_by (internal : bool) (p : request) : bool :=
  negb (is_health (rq_path p)) && Bool.eqb (is_internal (rq_path p)) internal.
Definition log_of (internal : bool) (passed : list request) : list (string * f64) :=
  (fun p => (limiter_key p, rq_now p)) <$> List.filter (limited_by internal) passed.

Lemma log_of_snoc internal passed q :
  log_of internal (passed ++ [q]) =
    log_of internal passed ++ (if limited_by internal q then [(limiter_key q, rq_now q)] else []).
Proof. unfold log_of. rewrite List.filter_app, fmap_app. cbn [List.filter]. by destruct (limited_by internal q). Qed.

(** The limiter of a class of requests, and that it has its buckets right. *)
Definition limiter_of (internal : bool) (a : app_limiters) : InMemoryRateLimiter :=
  memory_of (if internal then al_internal a else al_general a).

Definition limits_ok (a : app_limiters) (passed : list request) (now : f64) : Prop :=
  forall internal, configured (limit_of internal) (limiter_of internal a) /\
    window_ok (limiter_of internal a) (log_of internal passed) now (before now 60).

Lemma limits_ok_later a passed now now' : limits_ok a passed now -> follows now now' = true -> limits_ok a passed now'.
Proof.
  intros H [H1 H2]%andb_true_iff internal. destruct (H internal) as [C W]. split; [done|]. by eapply window_ok_later.
Qed.

(** The middleware asks the limiter of the request's class, and leaves the other alone. *)
Lemma middleware_asks q a :
  is_health (rq_path q) = false ->
  let i := is_internal (rq_path q) in
  let '(a', r) := rate_limit_middleware q a in
  exists r0, is_allowed (rq_now q) (limiter_key q) (limiter_of i a) = (limiter_of i a', r0) /\
    limiter_of (negb i) a' = limiter_of (negb i) a /\ passes r = allowed r0.
Proof.
  intros Hh. unfold rate_limit_middleware. rewrite Hh. unfold mbind, prog_bind, zoom.
  destruct (is_internal (rq_path q)); cbn [limiter_of negb].
  - pose proof (limiter_in_memory (rq_now q) (limiter_key q) (al_internal a)) as H.
    destruct (limiter_is_allowed _ _ _) as [l' [[[] m]|e]]; (eexists; split; [exact H|done]).
  - pose proof (limiter_in_memory (rq_now q) (limiter_key q) (al_general a)) as H.
    destruct (limiter_is_allowed _ _ _) as [l' [[[] m]|e]]; (eexists; split; [exact H|done]).
Qed.

Lemma middleware_keeps q a passed :
  limits_ok a passed (rq_now q) -> reading_ok (rq_now q) = true ->
  let '(a', r) := rate_limit_middleware q a in
  limits_ok a' (if passes r then passed ++ [q] else passed) (rq_now q).
Proof.
  intros H [Hn Hst]%andb_true_iff. destruct (is_health (rq_path q)) eqn:Hh.
  { unfold rate_limit_middleware. rewrite Hh. cbn [passes mret prog_ret]. intros internal. specialize (H internal).
    rewrite log_of_snoc. unfold limited_by. rewrite Hh. by rewrite app_nil_r. }
  pose proof (middleware_asks q a Hh) as Hm. cbv zeta in Hm. destruct (rate_limit_middleware q a) as [a' r].
  destruct Hm as (r0 & Ha & Ho & Hp). rewrite Hp. set (i := is_internal (rq_path q)) in *.
  assert (forall j, limited_by j q = Bool.eqb i j) as Hl by (intros j; unfold limited_by; by rewrite Hh).
  intros j. destruct (decide (j = i)) as [->|Hj].
  - destruct (H i) as [C W]. pose proof (is_allowed_window _ _ (limiter_key q) _ _ C W Hn Hst) as Hw.
    rewrite Ha in Hw. destruct Hw as (C' & W' & _). split; [done|]. unfold extend in W'.
    destruct (allowed r0); [|done]. rewrite log_of_snoc, Hl, Bool.eqb_reflx. done.
  - assert (j = negb i) as -> by (by destruct i, j). rewrite Ho.
    destruct (allowed r0); [|done]. rewrite log_of_snoc, Hl. destruct i; cbn [Bool.eqb negb]; rewrite app_nil_r; apply H.
Qed.

Lemma serve_limits_ok qs q a passed :
  clock_ok (qs ++ [q]) = true -> limits_ok a passed (rq_now (hd q qs)) ->
  limits_ok (serve qs a passed).1 (serve qs a passed).2 (rq_now q).
Proof.
  revert a passed. induction qs as [|p qs IH]; intros a passed Hc H; [done|].
  cbn [app clock_ok] in Hc. apply andb_true_iff in Hc as [[Hr Hf]%andb_true_iff Hc]. cbn [hd] in H.
  pose proof (middleware_keeps p a passed H Hr) as Hk. cbn [serve]. destruct (rate_limit_middleware p a) as [a' r].
  apply IH; [done|]. eapply limits_ok_later; [exact Hk|]. by destruct qs.
Qed.

Lemma limits_ok_init redis_url now : limits_ok (create_limiters redis_url) [] now.
Proof.
  intros internal. unfold create_limiters. destruct (is_empty _); destruct internal;
    (split; [done|]); (split; [done|constructor|constructor|constructor]).
Qed.

Lemma append_inj_r (a b s : string) : a +:+ s = b +:+ s -> a = b.
Proof.
  revert b. induction a as [|c a IH]; intros [|c' b] E; [done| | |].
  - apply (f_equal String.length) in E. rewrite append_cons in E. cbn [String.length] in E. rewrite !append_length in E. cbn in E. lia.
  - apply (f_equal String.length) in E. rewrite append_cons in E. cbn [String.length] in E. rewrite !append_length in E. cbn in E. lia.
  - rewrite !append_cons in E. injection E as -> E. by rewrite (IH b).
Qed.

Definition client_ip (q : request) : string := default "unknown"%string (rq_client q).

(** The passed requests of the client of [q], of the same class, that fall in the
    minute before [q]. *)
Definition last_minute (q : request) (passed : list request) : list request :=
  List.filter (fun p => recent (before (rq_now q) 60) (rq_now p))
    (List.filter (fun p => String.eqb (client_ip p) (client_ip q))
       (List.filter (limited_by (is_internal (rq_path q))) passed)).

Lemma same_key p q :
  is_internal (rq_path p) = is_internal (rq_path q) ->
  String.eqb (limiter_key p) (limiter_key q) = String.eqb (client_ip p) (client_ip q).
Proof.
  intros Hi. unfold limiter_key. rewrite Hi. change (default "unknown"%string (rq_client p)) with (client_ip p).
  change (default "unknown"%string (rq_client q)) with (client_ip q).
  destruct (String.eqb_spec (client_ip p) (client_ip q)) as [->|Hne]; [apply String.eqb_refl|].
  apply String.eqb_neq. intros E. by apply append_inj_r in E.
Qed.

Lemma last_minute_count q passed :
  Z.of_nat (List.length (last_minute q passed)) =
    window_count (rq_now q) (limiter_key q) (log_of (is_internal (rq_path q)) passed).
Proof.
  unfold last_minute, window_count, times, log_of. f_equal. induction passed as [|p passed IH]; [done|].
  cbn [List.filter]. destruct (limited_by _ p) eqn:El; [|done]. rewrite fmap_cons. cbn [List.filter fst].
  unfold limited_by in El. apply andb_true_iff in El as [_ El%Bool.eqb_prop]. rewrite (same_key _ _ El).
  destruct (String.eqb _ _); [|done]. rewrite fmap_cons. cbn [List.filter snd]. destruct (recent _ _); cbn [List.length]; lia.
Qed.

(** C32. Whatever requests came before, a request outside [/health/] is passed on
    only if fewer than 300 requests of its client (30 for [/internal/] paths) were
    passed on in the minute before it, and it is passed on when there were fewer and the
    limiter holds fewer than 10000 buckets; this holds with and without a Redis
    URL, and the two limiters do not count each other's requests. The clock must
    not go back. *)
Theorem requests_rate_limited redis_url qs q :
  clock_ok (qs ++ [q]) = true -> is_health (rq_path q) = false ->
  let '(a, passed) := serve qs (create_limiters redis_url) [] in
  let n := Z.of_nat (List.length (last_minute q passed)) in
  let limit := limit_of (is_internal (rq_path q)) in
  let '(_, r) := rate_limit_middleware q a in
  (passes r = true -> n < limit) /\
  (n < limit -> Z.of_nat (List.length (rl_windows (limiter_of (is_internal (rq_path q)) a))) < 10000 -> passes r = true).
Proof.
  intros Hc Hh. pose proof (serve_limits_ok qs q _ [] Hc (limits_ok_init redis_url _)) as H.
  assert (reading_ok (rq_now q) = true) as [Hn Hst]%andb_true_iff.
  { clear H. induction qs as [|p qs IH]; cbn [app clock_ok] in Hc; [by apply andb_true_iff in Hc as [[? _]%andb_true_iff _]|].
    apply IH. by apply andb_true_iff in Hc as [_ Hc]. }
  destruct (serve qs _ []) as [a passed]. cbn [fst snd] in H. cbv zeta. rewrite last_minute_count.
  destruct (H (is_internal (rq_path q))) as [C W].
  pose proof (is_allowed_window _ _ (limiter_key q) _ _ C W Hn Hst) as Hw.
  pose proof (middleware_asks q a Hh) as Hm. cbv zeta in Hm. destruct (rate_limit_middleware q a) as [a' r].
  destruct Hm as (r0 & Ha & _ & ->). rewrite Ha in Hw. by destruct Hw as (_ & _ & H1 & H2).
Qed.

(** ** A client that asks too often *)

Module Example_limiter.

Definition at_time (t : Z) (path : string) : request := {| rq_now := f_of_Z t; rq_client := Some "10.0.0.7"%string; rq_path := path |}.

(** 31 requests of an internal endpoint in 31 seconds. *)
Definition burst : list request := (fun i => at_time (1700000000 + Z.of_nat i) "/internal/jobs") <$> List.seq 0 30.

Example burst_limited :
  (fun path => (rate_limit_middleware (at_time 1700000031 path) (serve burst (create_limiters "redis://cache") []).1).2)
    <$> ["/internal/jobs"; "/ops/orders"; "/health/live"]%string =
  [Ok (Limited (VInt 29)); Ok Passed; Ok Passed].
Proof. vm_compute. reflexivity. Qed.

Lemma requests_rate_limited_witness :
  let q := at_time 1700000031 "/internal/jobs" in
  let '(a, passed) := serve burst (create_limiters "redis://cache") [] in
  let n := Z.of_nat (List.length (last_minute q passed)) in
  let limit := limit_of (is_internal (rq_path q)) in
  let '(_, r) := rate_limit_middleware q a in
  (passes r = true -> n < limit) /\
  (n < limit -> Z.of_nat (List.length (rl_windows (limiter_of (is_internal (rq_path q)) a))) < 10000 -> passes r = true).
Proof.
  apply (requests_rate_limited "redis://cache" burst (at_time 1700000031 "/internal/jobs"));
    [vm_compute; reflexivity|reflexivity].
Defined.

End Example_limiter.
