(* ===== verification/NewsIngestion.v ===== *)
(** * News ingestion

    [services/news_ingestion]: the connector framework
    ([source_connectors.py]), normalisation and deduplication
    ([ingestion_service.py]); tagging and the quality counters are in
    [NewsTagging.v]. The state [S] is everything the code
    reads or changes: the sources behind the connectors, the clock, the id
    factory and the stores. *)

From S2P Require Import Prelude PyStr PyFloat PyTime PyHash PyVal.
From stdpp Require Import options.
From Stdlib Require Import Ascii String.

#[local] Open Scope Z_scope.

(** ** Records *)

Record NewsSourceRecord := {
  nr_source : string;
  nr_source_item_id : string;
  nr_published_at : string;
  nr_title : string;
  nr_url : option string;
  nr_content : string;
  nr_metadata : dict;
}.

Record ConnectorFetchResult := {
  fr_source : string;
  fr_connector_kind : string;
  fr_items : list NewsSourceRecord;
  fr_degraded : bool;
  fr_error : option string;
  fr_fetched_at : string;
}.

Record ConnectorCycleResult := {
  cy_results : list ConnectorFetchResult;
  cy_items : list NewsSourceRecord;
  cy_total_items : Z;
  cy_sources_total : Z;
  cy_degraded_sources : list string;
}.

Definition _ALLOWED_KINDS : list string := ["api"; "custom"; "rss"; "social"]%string.

Record NormalizedNewsItem := {
  ni_news_id : string;
  ni_source : string;
  ni_source_item_id : string;
  ni_url : string;
  ni_title : string;
  ni_body : option string;
  ni_published_at : string;
  ni_ingested_at : string;
  ni_content_hash : string;
  ni_language : string;
  ni_raw_payload : dict;
}.

Record NewsIngestionOutcome := {
  no_source : string;
  no_source_item_id : string;
  no_inserted : bool;
  no_dedupe_reason : option string;
  no_item : option NormalizedNewsItem;
}.

Record NewsIngestionBatchResult := {
  nb_total_records : Z;
  nb_inserted_count : Z;
  nb_duplicate_count : Z;
  nb_outcomes : list NewsIngestionOutcome;
}.

(** What a source callable yields: records, or mappings still to be read. *)
Inductive source_item := SourceRecord (r : NewsSourceRecord) | SourceMapping (d : dict).

(** ** Connectors *)

Section connectors.
Context {S : Type} (utc_now_iso : prog S string).

(** [_normalize_record] of [source_connectors.py] *)
Definition read_mapping (item : dict) (default_source : string) : prog S NewsSourceRecord :=
  let text key dflt := strip (py_str (dget_or key (VStr dflt) item)) in
  let published := text "published_at"%string ""%string in
  published_at ← (if is_empty published then utc_now_iso else mret published);
  mret {| nr_source := str_or (text "source" default_source) default_source;
          nr_source_item_id := text "source_item_id" ""; nr_published_at := published_at;
          nr_title := text "title" "";
          nr_url := match dget "url" item with VNone => None | v => Some (strip (py_str v)) end;
          nr_content := py_str (dget_or "content" (VStr "") item);
          nr_metadata := match dget "metadata" item with VDict m => m | _ => [] end |}%string.

Definition validate_record (record : NewsSourceRecord) : result unit :=
  _ ← raise_if (is_empty (strip (nr_source record))) ValueError "record.source must be non-empty";
  _ ← raise_if (is_empty (strip (nr_source_item_id record))) ValueError "record.source_item_id must be non-empty";
  _ ← raise_if (is_empty (strip (nr_title record))) ValueError "record.title must be non-empty";
  raise_if (is_empty (strip (nr_published_at record))) ValueError "record.published_at must be non-empty".

Definition _normalize_source_record (item : source_item) (default_source : string) : prog S NewsSourceRecord :=
  record ← match item with SourceRecord r => mret r | SourceMapping d => read_mapping d default_source end;
  _ ← lift (validate_record record);
  mret record.

(** A connector: its identity, and [fetch(since=..., limit=...)]. *)
Record NewsSourceConnector := {
  cn_connector_id : string;
  cn_connector_kind : string;
  cn_fetch : option string -> Z -> prog S ConnectorFetchResult;
}.

Fixpoint map_prog {A B} (f : A -> prog S B) (l : list A) : prog S (list B) :=
  match l with
  | [] => mret []
  | x :: l' => y ← f x; ys ← map_prog f l'; mret (y :: ys)
  end.

Definition fetch (connector_id connector_kind : string) (fetcher : option string -> Z -> prog S (list source_item))
    (since : option string) (limit : Z) : prog S ConnectorFetchResult :=
  _ ← lift (raise_if (limit <=? 0) ValueError "limit must be positive");
  raw_items ← fetcher since limit;
  normalized_items ← map_prog (fun item => _normalize_source_record item connector_id) raw_items;
  fetched_at ← utc_now_iso;
  mret {| fr_source := connector_id; fr_connector_kind := connector_kind; fr_items := normalized_items;
          fr_degraded := false; fr_error := None; fr_fetched_at := fetched_at |}.

(** [CallableSourceConnector] *)
Definition callable_connector (connector_id connector_kind : string)
    (fetcher : option string -> Z -> prog S (list source_item)) : result NewsSourceConnector :=
  let normalized_id := strip connector_id in
  let normalized_kind := lower (strip connector_kind) in
  _ ← raise_if (is_empty normalized_id) ConnectorRegistrationError "connector_id must be non-empty";
  _ ← raise_if (negb (existsb (String.eqb normalized_kind) _ALLOWED_KINDS)) ConnectorRegistrationError
        ("unsupported connector_kind: " +:+ connector_kind +:+ "; allowed=" +:+ py_repr (VList (VStr <$> _ALLOWED_KINDS)));
  Ok {| cn_connector_id := normalized_id; cn_connector_kind := normalized_kind;
        cn_fetch := fetch normalized_id normalized_kind fetcher |}.

(** [SourceConnectorRegistry]: the connectors in registration order. *)
Definition SourceConnectorRegistry := list NewsSourceConnector.

Definition find_connector (connector_id : string) (registry : SourceConnectorRegistry) : option NewsSourceConnector :=
  List.find (fun c => String.eqb (cn_connector_id c) connector_id) registry.

Definition register (registry : SourceConnectorRegistry) (connector : NewsSourceConnector)
  : result SourceConnectorRegistry :=
  match find_connector (cn_connector_id connector) registry with
  | Some _ => raise ConnectorRegistrationError ("connector already registered: " +:+ cn_connector_id connector)
  | None => Ok (registry ++ [connector])
  end.

Definition get_connector (registry : SourceConnectorRegistry) (connector_id : string) : result NewsSourceConnector :=
  match find_connector connector_id registry with
  | Some c => Ok c
  | None => raise ConnectorNotFoundError ("connector not found: " +:+ connector_id)
  end.

Definition list_connector_ids (registry : SourceConnectorRegistry) : list string :=
  sort_by str_leb (cn_connector_id <$> registry).

Definition list_connectors (registry : SourceConnectorRegistry) : list NewsSourceConnector :=
  omap (fun key => find_connector key registry) (list_connector_ids registry).

(** One step of the cycle: the connector's result, or a degraded one. *)
Definition fetch_isolated (since : option string) (limit : Z) (connector : NewsSourceConnector)
  : prog S ConnectorFetchResult := fun s =>
  match cn_fetch connector since limit s with
  | (s', Ok r) => (s', Ok r)
  | (s', Raise e) =>
      (fetched_at ← utc_now_iso;
       mret {| fr_source := cn_connector_id connector; fr_connector_kind := cn_connector_kind connector;
               fr_items := []; fr_degraded := true;
               fr_error := Some (exc_name (exc_cls e) +:+ ": " +:+ exc_msg e); fr_fetched_at := fetched_at |}) s'
  end.

Definition selected (registry : SourceConnectorRegistry) (source_filter : list string) : list NewsSourceConnector :=
  List.filter (fun c => bool_decide (source_filter = []) || existsb (String.eqb (cn_connector_id c)) source_filter)
    (list_connectors registry).

(** The accumulators of the loop: results, items and degraded sources. *)
Fixpoint fetch_loop (since : option string) (limit : Z) (connectors : list NewsSourceConnector)
    (results : list ConnectorFetchResult) (items : list NewsSourceRecord) (degraded : list string)
  : prog S ConnectorCycleResult :=
  match connectors with
  | [] => mret {| cy_results := results; cy_items := items; cy_total_items := Z.of_nat (List.length items);
                  cy_sources_total := Z.of_nat (List.length results); cy_degraded_sources := degraded |}
  | connector :: rest =>
      result ← fetch_isolated since limit connector;
      fetch_loop since limit rest (results ++ [result]) (items ++ fr_items result)
        (if fr_degraded result then degraded ++ [fr_source result] else degraded)
  end.

Definition fetch_cycle (registry : SourceConnectorRegistry) (since : option string) (limit_per_source : Z)
    (source_filter : list string) : prog S ConnectorCycleResult :=
  _ ← lift (raise_if (limit_per_source <=? 0) ValueError "limit_per_source must be positive");
  fetch_loop since limit_per_source (selected registry source_filter) [] [] [].

(** ** Isolation of the sources *)

Section isolation.
Context (Hclock : forall s, exists s' t, utc_now_iso s = (s', Ok t)).

(** What a connector contributes to a cycle: the result of its fetch, or an
    empty degraded result when the fetch raised. *)
Definition contributes (since : option string) (limit : Z) (c : NewsSourceConnector) (r : ConnectorFetchResult) : Prop :=
  exists s1 s2, cn_fetch c since limit s1 = (s2, Ok r) \/
    (exists e, cn_fetch c since limit s1 = (s2, Raise e)) /\ fr_degraded r = true /\ fr_items r = [] /\
      fr_source r = cn_connector_id c.

Lemma fetch_isolated_ok since limit c s :
  exists s' r, fetch_isolated since limit c s = (s', Ok r) /\ contributes since limit c r.
Proof using All.
  unfold fetch_isolated. destruct (cn_fetch c since limit s) as [s1 [r|e]] eqn:E.
  - exists s1, r. split; [done|]. exists s, s1. by left.
  - destruct (Hclock s1) as (s2 & t & Ht). unfold mbind, prog_bind. rewrite Ht. do 2 eexists. split; [done|].
    exists s, s1. right. split_and!; [by exists e|done|done|done].
Qed.

Lemma fetch_loop_ok since limit cs rs its ds s :
  exists s' news, Forall2 (contributes since limit) cs news /\
    fetch_loop since limit cs rs its ds s =
      (s', Ok {| cy_results := rs ++ news; cy_items := its ++ (news ≫= fr_items);
                 cy_total_items := Z.of_nat (List.length (its ++ (news ≫= fr_items)));
                 cy_sources_total := Z.of_nat (List.length (rs ++ news));
                 cy_degraded_sources := ds ++ (fr_source <$> List.filter fr_degraded news) |}).
Proof using All.
  revert rs its ds s. induction cs as [|c cs IH]; intros rs its ds s.
  { exists s, []. split; [constructor|]. cbn. by rewrite !app_nil_r. }
  destruct (fetch_isolated_ok since limit c s) as (s1 & r & Hr & Hc).
  destruct (IH (rs ++ [r]) (its ++ fr_items r) (if fr_degraded r then ds ++ [fr_source r] else ds) s1)
    as (s2 & news & Hall & Hl).
  exists s2, (r :: news). split; [by constructor|]. simpl. unfold mbind, prog_bind. rewrite Hr, Hl. csimpl.
  rewrite <- !app_assoc. by destruct (fr_degraded r); [rewrite fmap_cons, <- app_assoc|].
Qed.

(** A fetch cycle with a positive limit never raises, whatever the sources
    do: every selected connector contributes exactly one result in order, its own
    when its fetch returns and an empty degraded one otherwise, the items are
    those of the results in order, and the degraded sources are exactly the
    sources of the degraded results. *)
Theorem fetch_cycle_isolates registry since limit source_filter s :
  0 < limit ->
  exists s' cycle, fetch_cycle registry since limit source_filter s = (s', Ok cycle) /\
    Forall2 (contributes since limit) (selected registry source_filter) (cy_results cycle) /\
    cy_items cycle = cy_results cycle ≫= fr_items /\
    cy_total_items cycle = Z.of_nat (List.length (cy_items cycle)) /\
    cy_sources_total cycle = Z.of_nat (List.length (selected registry source_filter)) /\
    cy_degraded_sources cycle = fr_source <$> List.filter fr_degraded (cy_results cycle).
Proof using All.
  intros Hlim. unfold fetch_cycle. rewrite lift_bind.
  destruct (Z.leb_spec limit 0); [lia|]. cbn [raise_if].
  destruct (fetch_loop_ok since limit (selected registry source_filter) [] [] [] s) as (s' & news & Hall & Hl).
  exists s'. eexists. split; [exact Hl|]. cbn [cy_results cy_items cy_total_items cy_sources_total cy_degraded_sources].
  change (@nil ConnectorFetchResult ++ news) with news. split_and!; try done.
  by rewrite (Forall2_length _ _ _ Hall).
Qed.
End isolation.
End connectors.

Arguments NewsSourceConnector : clear implicits.
Arguments SourceConnectorRegistry : clear implicits.

(** ** Ingestion *)

Class NewsItemStore (S : Type) := {
  has_source_item : string -> string -> prog S bool;
  has_hash : string -> prog S bool;
  persist_item : NormalizedNewsItem -> prog S unit;
}.

(** The URL does not enter the hash. *)
Definition _content_hash (title : string) (body : option string) : string :=
  sha256_hex (join (String (ascii_of_nat 10) "") [strip title; strip (default ""%string body)]).

Section ingestion.
Context {S : Type} `{!NewsItemStore S} (uuid_factory now_factory : prog S string).

(** [_normalize_record] of [ingestion_service.py] *)
Definition _normalize_record (record : NewsSourceRecord) : prog S NormalizedNewsItem :=
  let source := strip (nr_source record) in
  let source_item_id := strip (nr_source_item_id record) in
  let title := strip (nr_title record) in
  let url := strip (default ""%string (nr_url record)) in
  let published_at := strip (nr_published_at record) in
  _ ← lift (raise_if (is_empty source) NewsIngestionError "record.source must be non-empty");
  _ ← lift (raise_if (is_empty source_item_id) NewsIngestionError "record.source_item_id must be non-empty");
  _ ← lift (raise_if (is_empty title) NewsIngestionError "record.title must be non-empty");
  _ ← lift (raise_if (is_empty url) NewsIngestionError "record.url must be non-empty");
  _ ← lift (raise_if (is_empty published_at) NewsIngestionError "record.published_at must be non-empty");
  let text := strip (nr_content record) in
  let body := if is_empty text then None else Some text in
  let metadata := nr_metadata record in
  let language := str_or (lower (strip (py_str (dget_or "language" (VStr "en") metadata)))) "en" in
  let content_hash := _content_hash title body in
  ingested_at ← now_factory;
  let raw_payload :=
    [("source", VStr source); ("source_item_id", VStr source_item_id); ("url", VStr url); ("title", VStr title);
     ("content", VStr (default ""%string body)); ("published_at", VStr published_at); ("metadata", VDict metadata)]%string in
  news_id ← uuid_factory;
  mret {| ni_news_id := news_id; ni_source := source; ni_source_item_id := source_item_id; ni_url := url;
          ni_title := title; ni_body := body; ni_published_at := published_at; ni_ingested_at := ingested_at;
          ni_content_hash := content_hash; ni_language := language; ni_raw_payload := raw_payload |}.

Definition outcome_of (item : NormalizedNewsItem) (dedupe_reason : option string) : NewsIngestionOutcome :=
  {| no_source := ni_source item; no_source_item_id := ni_source_item_id item;
     no_inserted := match dedupe_reason with None => true | Some _ => false end;
     no_dedupe_reason := dedupe_reason;
     no_item := match dedupe_reason with None => Some item | Some _ => None end |}.

(** The body of the loop. *)
Definition ingest_record (record : NewsSourceRecord) : prog S NewsIngestionOutcome :=
  item ← _normalize_record record;
  known ← has_source_item (ni_source item) (ni_source_item_id item);
  if known : bool then mret (outcome_of item (Some "duplicate_source_item"%string))
  else
    seen ← has_hash (ni_content_hash item);
    if seen : bool then mret (outcome_of item (Some "duplicate_hash"%string))
    else _ ← persist_item item; mret (outcome_of item None).

Fixpoint ingest_loop (records : list NewsSourceRecord) (outcomes : list NewsIngestionOutcome)
    (inserted_count duplicate_count : Z) : prog S NewsIngestionBatchResult :=
  match records with
  | [] => mret {| nb_total_records := Z.of_nat (List.length outcomes); nb_inserted_count := inserted_count;
                  nb_duplicate_count := duplicate_count; nb_outcomes := outcomes |}
  | record :: rest =>
      outcome ← ingest_record record;
      ingest_loop rest (outcomes ++ [outcome])
        (if no_inserted outcome then inserted_count + 1 else inserted_count)
        (if no_inserted outcome then duplicate_count else duplicate_count + 1)
  end.

Definition ingest (records : list NewsSourceRecord) : prog S NewsIngestionBatchResult := ingest_loop records [] 0 0.

(** An outcome says inserted exactly when it carries the item. *)
Definition outcome_ok (o : NewsIngestionOutcome) : Prop :=
  no_inserted o = match no_item o with Some _ => true | None => false end.

Lemma ingest_record_outcome r s s' o : ingest_record r s = (s', Ok o) -> outcome_ok o.
Proof using Type.
  intros (s1 & item & _ & H)%prog_bind_Ok. apply prog_bind_Ok in H as (s2 & [] & _ & H); [by injection H as _ <-|].
  apply prog_bind_Ok in H as (s3 & [] & _ & H); [by injection H as _ <-|].
  apply prog_bind_Ok in H as (s4 & [] & _ & H). by injection H as _ <-.
Qed.

Lemma ingest_outcomes records s s' batch : ingest records s = (s', Ok batch) -> Forall outcome_ok (nb_outcomes batch).
Proof using Type.
  unfold ingest.
  enough (forall outs a b s, Forall outcome_ok outs -> ingest_loop records outs a b s = (s', Ok batch) ->
    Forall outcome_ok (nb_outcomes batch)) as Hall by (intros H; by eapply Hall; [|exact H]).
  induction records as [|r records IH]; intros outs a b s0 Ho; cbn [ingest_loop]; [by intros [= _ <-]|].
  intros (s1 & o & Hr & H)%prog_bind_Ok. eapply IH; [|exact H]. apply Forall_app. split; [done|].
  apply Forall_singleton. by eapply ingest_record_outcome.
Qed.
End ingestion.

(** ** The in-memory store

    The items by source and source id, in insertion order, and the hashes. *)
Record InMemoryNewsItemStore := {
  ns_items : list NormalizedNewsItem;
  ns_hashes : list string;
}.

Definition item_key (item : NormalizedNewsItem) : string * string := (ni_source item, ni_source_item_id item).

(** [self._items_by_source_item[key] = item] *)
Fixpoint put_item (item : NormalizedNewsItem) (items : list NormalizedNewsItem) : list NormalizedNewsItem :=
  match items with
  | [] => [item]
  | x :: items' => if bool_decide (item_key x = item_key item) then item :: items' else x :: put_item item items'
  end.

Definition store_persist (item : NormalizedNewsItem) (st : InMemoryNewsItemStore) : InMemoryNewsItemStore :=
  {| ns_items := put_item item (ns_items st);
     ns_hashes := if bool_decide (ni_content_hash item ∈ ns_hashes st) then ns_hashes st
                  else ns_hashes st ++ [ni_content_hash item] |}.

Definition list_items (st : InMemoryNewsItemStore) : list NormalizedNewsItem := ns_items st.

#[export] Instance memory_items {W} : NewsItemStore (InMemoryNewsItemStore * W) := {|
  has_source_item source source_item_id :=
    gets (fun s => bool_decide ((source, source_item_id) ∈ item_key <$> ns_items s.1));
  has_hash content_hash := gets (fun s => bool_decide (content_hash ∈ ns_hashes s.1));
  persist_item item := modify (fun s => (store_persist item s.1, s.2));
|}.

Lemma put_item_fresh item items : item_key item ∉ item_key <$> items -> put_item item items = items ++ [item].
Proof.
  induction items as [|x items IH]; [done|]. rewrite fmap_cons, not_elem_of_cons. intros [Hne Hni]. simpl.
  rewrite bool_decide_eq_false_2 by congruence. by rewrite IH.
Qed.

(** The keys and the hashes of the items are distinct, and the hashes are theirs. *)
Definition store_ok (st : InMemoryNewsItemStore) : Prop :=
  NoDup (item_key <$> ns_items st) /\ NoDup (ns_hashes st) /\ ns_hashes st = ni_content_hash <$> ns_items st.

Definition record_key (r : NewsSourceRecord) : string * string := (strip (nr_source r), strip (nr_source_item_id r)).

Definition record_hash (r : NewsSourceRecord) : string :=
  let text := strip (nr_content r) in
  _content_hash (strip (nr_title r)) (if is_empty text then None else Some text).

(** A record the service can normalise. *)
Definition complete (r : NewsSourceRecord) : bool :=
  negb (is_empty (strip (nr_source r))) && negb (is_empty (strip (nr_source_item_id r))) &&
  negb (is_empty (strip (nr_title r))) && negb (is_empty (strip (default ""%string (nr_url r)))) &&
  negb (is_empty (strip (nr_published_at r))).

(** The record is in the store, under its own key or as a copy of its content. *)
Definition covered (st : InMemoryNewsItemStore) (r : NewsSourceRecord) : bool :=
  bool_decide (record_key r ∈ item_key <$> ns_items st) || bool_decide (record_hash r ∈ ns_hashes st).

Section memory.
Context {W : Type} (uuid_factory now_factory : prog (InMemoryNewsItemStore * W) string).
Context (Huuid : forall st w, exists w' id, uuid_factory (st, w) = ((st, w'), Ok id)).
Context (Hnow : forall st w, exists w' t, now_factory (st, w) = ((st, w'), Ok t)).

Abbreviation ingest' := (ingest uuid_factory now_factory).
Abbreviation ingest_record' := (ingest_record uuid_factory now_factory).

Lemma normalize_complete r st w :
  complete r = true ->
  exists w' item, _normalize_record uuid_factory now_factory r (st, w) = ((st, w'), Ok item) /\
    item_key item = record_key r /\ ni_content_hash item = record_hash r.
Proof using All.
  unfold complete. rewrite !andb_true_iff, !negb_true_iff. intros [[[[H1 H2] H3] H4] H5].
  unfold _normalize_record. rewrite H1, H2, H3, H4, H5. cbn [raise_if].
  destruct (Hnow st w) as (w1 & t & Ht), (Huuid st w1) as (w2 & id & Hid).
  rewrite !lift_bind. unfold mbind, prog_bind. rewrite Ht, Hid. by do 2 eexists.
Qed.

Lemma normalize_incomplete r s :
  complete r = false -> exists msg, _normalize_record uuid_factory now_factory r s = (s, raise NewsIngestionError msg).
Proof using Type.
  unfold complete, _normalize_record. intros H. rewrite lift_bind.
  destruct (is_empty (strip (nr_source r))); [by eexists|]. simpl in H. cbn [raise_if]. rewrite lift_bind.
  destruct (is_empty (strip (nr_source_item_id r))); [by eexists|]. simpl in H. cbn [raise_if]. rewrite lift_bind.
  destruct (is_empty (strip (nr_title r))); [by eexists|]. simpl in H. cbn [raise_if]. rewrite lift_bind.
  destruct (is_empty (strip (default _ (nr_url r)))); [by eexists|]. simpl in H. cbn [raise_if]. rewrite lift_bind.
  destruct (is_empty (strip (nr_published_at r))); [by eexists|done].
Qed.

Lemma ingest_record_covered r st w :
  complete r = true -> covered st r = true ->
  exists w' o, ingest_record' r (st, w) = ((st, w'), Ok o) /\ no_inserted o = false /\ no_item o = None.
Proof using All.
  intros Hr Hc. destruct (normalize_complete r st w Hr) as (w1 & item & Hn & Hk & Hh).
  unfold ingest_record, mbind, prog_bind. rewrite Hn. cbn [has_source_item has_hash memory_items gets fst].
  unfold covered in Hc. rewrite <- Hk, <- Hh in Hc. unfold item_key in Hc at 1.
  destruct (bool_decide (_ ∈ item_key <$> _)); [by do 2 eexists|]. simpl in Hc. cbn [fst]. rewrite Hc.
  by do 2 eexists.
Qed.

Lemma ingest_record_new r st w :
  complete r = true -> covered st r = false -> store_ok st ->
  exists w' item, let st' := store_persist item st in
    ingest_record' r (st, w) = ((st', w'), Ok (outcome_of item None)) /\
    ns_items st' = ns_items st ++ [item] /\ store_ok st' /\ covered st' r = true.
Proof using All.
  intros Hr Hc (Hk & Hh & Heq). destruct (normalize_complete r st w Hr) as (w1 & item & Hn & Hik & Hih).
  unfold covered in Hc. rewrite <- Hik, <- Hih in Hc. apply orb_false_iff in Hc as [Hc1 Hc2].
  exists w1, item. cbv zeta.
  assert (ns_items (store_persist item st) = ns_items st ++ [item]) as Hi.
  { apply put_item_fresh. by apply bool_decide_eq_false in Hc1. }
  assert (ns_hashes (store_persist item st) = ns_hashes st ++ [ni_content_hash item]) as Hhs.
  { cbn [store_persist ns_hashes]. by rewrite Hc2. }
  split_and!; [| |split_and!|].
  - unfold ingest_record, mbind, prog_bind. rewrite Hn. cbn [has_source_item has_hash memory_items gets fst].
    cbn [fst].
    rewrite (bool_decide_eq_false_2 _ (proj1 (bool_decide_eq_false _) Hc1)). cbn [fst]. by rewrite Hc2.
  - done.
  - rewrite Hi, fmap_app. apply NoDup_app. split_and!; [done| |apply NoDup_singleton].
    intros k Hkin ->%list_elem_of_singleton. by apply bool_decide_eq_false in Hc1.
  - rewrite Hhs. apply NoDup_app. split_and!; [done| |apply NoDup_singleton].
    intros k Hkin ->%list_elem_of_singleton. by apply bool_decide_eq_false in Hc2.
  - by rewrite Hhs, Hi, fmap_app, Heq.
  - unfold covered. rewrite <- Hik, Hi, fmap_app. apply orb_true_iff. left. apply bool_decide_eq_true. set_solver.
Qed.

Lemma covered_mono st st' more r :
  store_ok st -> store_ok st' -> ns_items st' = ns_items st ++ more -> covered st r = true -> covered st' r = true.
Proof using Type.
  intros (_ & _ & H1) (_ & _ & H2) Hi. unfold covered. rewrite H1, H2, Hi, !fmap_app, !orb_true_iff, !bool_decide_eq_true.
  rewrite !elem_of_app. tauto.
Qed.

Lemma ingest_loop_ok records outs a b st w :
  store_ok st -> Forall (fun r => complete r = true) records ->
  exists st' w' news,
    ingest_loop uuid_factory now_factory records outs a b (st, w) =
      ((st', w'), Ok {| nb_total_records := Z.of_nat (List.length (outs ++ news));
                        nb_inserted_count := a + Z.of_nat (List.length (omap no_item news));
                        nb_duplicate_count := b + (Z.of_nat (List.length news) - Z.of_nat (List.length (omap no_item news)));
                        nb_outcomes := outs ++ news |}) /\
    List.length news = List.length records /\ store_ok st' /\ ns_items st' = ns_items st ++ omap no_item news /\
    Forall (fun r => covered st' r = true) records.
Proof using All.
  intros Hst Hr. revert outs a b st w Hst. induction Hr as [|r records Hr _ IH]; intros outs a b st w Hst.
  { exists st, w, []. cbn. rewrite !app_nil_r, !Z.add_0_r. by split_and!. }
  simpl. destruct (covered st r) eqn:Hc.
  - destruct (ingest_record_covered r st w Hr Hc) as (w1 & o & Ho & Hi & Hn).
    destruct (IH (outs ++ [o]) a (b + 1) st w1 Hst) as (st' & w' & news & Hl & Hlen & Hst' & Hit & Hcov).
    exists st', w', (o :: news). unfold mbind, prog_bind. rewrite Ho, Hi, Hl. csimpl. rewrite Hn, <- app_assoc.
    split_and!; [do 3 f_equal; lia|by rewrite Hlen|done|done|].
    constructor; [|done]. by apply (covered_mono st st' (omap no_item news)).
  - destruct (ingest_record_new r st w Hr Hc Hst) as (w1 & item & Ho & Hi & Hst1 & Hc1).
    destruct (IH (outs ++ [outcome_of item None]) (a + 1) b _ w1 Hst1) as (st' & w' & news & Hl & Hlen & Hst' & Hit & Hcov).
    exists st', w', (outcome_of item None :: news). unfold mbind, prog_bind. rewrite Ho. cbn [no_inserted outcome_of].
    rewrite Hl. csimpl. rewrite <- app_assoc. split_and!; [do 3 f_equal; lia|by rewrite Hlen|done| |].
    + rewrite Hit, Hi. by rewrite <- app_assoc.
    + constructor; [|done]. by apply (covered_mono _ st' _ _ Hst1 Hst' Hit).
Qed.

(** C26. Ingesting records that are all complete stores each piece of news once:
    every record has one outcome, inserted and duplicate records add up, the
    inserted items are appended to the store, whose keys and whose content hashes
    stay distinct, and every record is in the store under its own key or as a
    copy of its content. Delivering any of the records again changes nothing. *)
Theorem ingest_deduplicates records st w :
  store_ok st -> Forall (fun r => complete r = true) records ->
  exists st' w' batch, ingest' records (st, w) = ((st', w'), Ok batch) /\
    store_ok st' /\ ns_items st' = ns_items st ++ omap no_item (nb_outcomes batch) /\
    nb_total_records batch = Z.of_nat (List.length records) /\
    nb_inserted_count batch = Z.of_nat (List.length (omap no_item (nb_outcomes batch))) /\
    nb_inserted_count batch + nb_duplicate_count batch = nb_total_records batch /\
    Forall (fun r => covered st' r = true) records /\
    (forall again w1, (forall r, r ∈ again -> r ∈ records) ->
       exists w2 batch2, ingest' again (st', w1) = ((st', w2), Ok batch2) /\ nb_inserted_count batch2 = 0).
Proof using All.
  intros Hst Hr. destruct (ingest_loop_ok records [] 0 0 st w Hst Hr) as (st' & w' & news & Hl & Hlen & Hst' & Hi & Hc).
  do 3 eexists. split; [exact Hl|]. cbn [nb_outcomes nb_total_records nb_inserted_count nb_duplicate_count].
  change ([] ++ news) with news. split_and!; try done; try lia.
  intros again w1 Hag.
  assert (forall l w0, (forall r, r ∈ l -> r ∈ records) -> forall outs b, exists w2 outs' b',
    ingest_loop uuid_factory now_factory l outs 0 b (st', w0) =
      ((st', w2), Ok {| nb_total_records := Z.of_nat (List.length outs'); nb_inserted_count := 0;
                        nb_duplicate_count := b'; nb_outcomes := outs' |})) as Hall.
  { induction l as [|r l IH]; intros w0 Hl0 outs b; [by do 3 eexists|].
    assert (r ∈ records) as Hin by (apply Hl0; left).
    destruct (ingest_record_covered r st' w0) as (w3 & o & Ho & Hins & _).
    { by apply (proj1 (Forall_forall _ _) Hr). }
    { by apply (proj1 (Forall_forall _ _) Hc). }
    simpl. unfold mbind, prog_bind. rewrite Ho, Hins. apply IH. intros x Hx. apply Hl0. by right. }
  destruct (Hall again w1 Hag [] 0) as (w2 & outs' & b' & H). by do 2 eexists.
Qed.

Lemma ingest_loop_app l1 l2 outs a b s :
  ingest_loop uuid_factory now_factory (l1 ++ l2) outs a b s =
  match ingest_loop uuid_factory now_factory l1 outs a b s with
  | (s', Ok batch) =>
      ingest_loop uuid_factory now_factory l2 (nb_outcomes batch) (nb_inserted_count batch) (nb_duplicate_count batch) s'
  | (s', Raise e) => (s', Raise e)
  end.
Proof using Type.
  revert outs a b s. induction l1 as [|r l1 IH]; intros outs a b s; [done|]. simpl. unfold mbind, prog_bind.
  by destruct (ingest_record' r s) as [s1 [o|e]].
Qed.

(** A record that is not complete, for instance one without a URL, which the
    connectors let through, ends the batch with an exception: the records before
    it are already stored, those after it are not looked at. *)
Lemma ingest_poisoned l1 r l2 st w :
  store_ok st -> Forall (fun r => complete r = true) l1 -> complete r = false ->
  exists st' w' batch msg, ingest' l1 (st, w) = ((st', w'), Ok batch) /\
    Forall (fun r => covered st' r = true) l1 /\
    ingest' (l1 ++ r :: l2) (st, w) = ((st', w'), raise NewsIngestionError msg).
Proof using All.
  intros Hst Hl1 Hr. destruct (ingest_loop_ok l1 [] 0 0 st w Hst Hl1) as (st' & w' & news & Hl & _ & _ & _ & Hc).
  destruct (normalize_incomplete r (st', w') Hr) as [msg Hn].
  exists st', w'. do 2 eexists. split_and!; [exact Hl|done|]. unfold ingest. rewrite ingest_loop_app, Hl.
  simpl. unfold ingest_record, mbind, prog_bind. by rewrite Hn.
Qed.
End memory.

(** ** Example: two feeds with a shared story *)
Module Example_news.

Definition ids : prog (InMemoryNewsItemStore * Z) string := fun s => ((s.1, s.2 + 1), Ok (str_of_Z s.2)).
Definition clock : prog (InMemoryNewsItemStore * Z) string := fun s => (s, Ok "2026-01-01T00:00:00Z"%string).

Definition story (source id title : string) : NewsSourceRecord :=
  {| nr_source := source; nr_source_item_id := id; nr_published_at := "2026-01-01"; nr_title := title;
     nr_url := Some "https://feed/1"%string; nr_content := "text"; nr_metadata := [] |}.

Definition stories : list NewsSourceRecord := [story "a" "1" "Up"; story "b" "1" "Up"; story "a" "1" "Down"]%string.

Definition no_news : InMemoryNewsItemStore := {| ns_items := []; ns_hashes := [] |}.

Lemma no_news_ok : store_ok no_news.
Proof. split_and!; constructor. Qed.

Lemma ingest_deduplicates_witness :
  exists st' w' batch, ingest ids clock stories (no_news, 0) = ((st', w'), Ok batch) /\
    store_ok st' /\ ns_items st' = ns_items no_news ++ omap no_item (nb_outcomes batch) /\
    nb_total_records batch = Z.of_nat (List.length stories) /\
    nb_inserted_count batch = Z.of_nat (List.length (omap no_item (nb_outcomes batch))) /\
    nb_inserted_count batch + nb_duplicate_count batch = nb_total_records batch /\
    Forall (fun r => covered st' r = true) stories /\
    (forall again w1, (forall r, r ∈ again -> r ∈ stories) ->
       exists w2 batch2, ingest ids clock again (st', w1) = ((st', w2), Ok batch2) /\ nb_inserted_count batch2 = 0).
Proof.
  apply (ingest_deduplicates ids clock).
  - intros st w. by exists (w + 1), (str_of_Z w).
  - intros st w. by exists w, "2026-01-01T00:00:00Z"%string.
  - exact no_news_ok.
  - by repeat constructor.
Defined.

(** One story of the three is new. *)
Example one_story_new :
  match (ingest ids clock stories (no_news, 0)).2 with
  | Ok batch => (nb_inserted_count batch, no_dedupe_reason <$> nb_outcomes batch)
  | Raise _ => (0, [])
  end = (1, [None; Some "duplicate_hash"; Some "duplicate_source_item"]%string).
Proof. vm_compute. reflexivity. Qed.
End Example_news.
