(* ===== verification/NewsTagging.v ===== *)
(** * Tagging of news and quality metrics

    [tagging_relevance.py] and [quality_metrics.py] of
    [services/news_ingestion]. Counts of keywords are exact integers; the scores
    are binary floats. *)

From S2P Require Import Prelude PyStr PyFloat PyTime PyVal NewsIngestion.
From stdpp Require Import options.
From Stdlib Require Import Ascii String.

#[local] Open Scope Z_scope.

Record NewsTag := {
  nt_news_id : string;
  nt_symbol : option string;
  nt_topic : string;
  nt_relevance_score : f64;
  nt_sentiment_score : f64;
}.

Record TaggingBatchResult := {
  tb_total_items : Z;
  tb_tagged_items : Z;
  tb_tags : list NewsTag;
}.

Definition keyword_map := list (string * list string).

Definition _SYMBOL_KEYWORDS : keyword_map :=
  [("BTC", ["btc"; "bitcoin"; "etf"]); ("ETH", ["eth"; "ethereum"; "staking"; "merge"]); ("SOL", ["sol"; "solana"])]%string.

Definition _TOPIC_KEYWORDS : keyword_map :=
  [("etf", ["etf"; "inflow"; "outflow"]); ("security", ["hack"; "exploit"; "breach"; "security"]);
   ("exchange", ["exchange"; "listing"; "delisting"]); ("macro", ["macro"; "rates"; "liquidity"; "inflation"]);
   ("regulation", ["sec"; "regulation"; "regulatory"]); ("market", ["market"; "volatility"; "price action"]);
   ("protocol", ["upgrade"; "fork"; "protocol"; "validator"])]%string.

Definition _POSITIVE_WORDS : list string :=
  ["bullish"; "optimism"; "surge"; "strong"; "approval"; "growth"; "demand"; "stable"]%string.

Definition _NEGATIVE_WORDS : list string :=
  ["bearish"; "fear"; "panic"; "hack"; "exploit"; "risk"; "liquidation"; "drop"]%string.

Definition newline : string := String (ascii_of_nat 10) "".

Definition _normalize_text (item : NormalizedNewsItem) : string :=
  lower (strip (ni_title item +:+ newline +:+ default ""%string (ni_body item))).

Definition count_if {A} (p : A -> bool) (l : list A) : Z := Z.of_nat (List.length (List.filter p l)).

(** [sum(1 for keyword in keywords if keyword in text)] *)
Definition keyword_hits (text : string) (keywords : list string) : Z := count_if (fun k => contains k text) keywords.

Definition better_match (text : string) (best : option string * Z) (entry : string * list string) : option string * Z :=
  let hits := keyword_hits text entry.2 in
  if best.2 <? hits then (Some entry.1, hits) else best.

Definition _best_match (text : string) (keywords : keyword_map) : option string * Z :=
  foldl (better_match text) (None, 0) keywords.

(** [[a-z0-9_]] *)
Definition is_word_char (c : ascii) : bool :=
  let n := char_code c in ((97 <=? n) && (n <=? 122)) || is_digit c || (n =? 95).

Definition in_words (words : list string) (token : string) : bool := existsb (String.eqb token) words.

(** Quotient of two small integers as a float. *)
Definition int_ratio (a b : Z) : f64 := fdiv (f_of_Z a) (f_of_Z b).

(** [max(-1.0, min(1.0, x))] *)
Definition clamp11 (x : f64) : f64 := fmax (flit (-1) 0) (fmin fone x).

Definition _sentiment_score (text : string) : f64 :=
  let tokens := runs (fun c => negb (is_word_char c)) text in
  let positive_hits := count_if (in_words _POSITIVE_WORDS) tokens in
  let negative_hits := count_if (in_words _NEGATIVE_WORDS) tokens in
  let total := positive_hits + negative_hits in
  if total =? 0 then fzero else clamp11 (int_ratio (positive_hits - negative_hits) total).

Definition _relevance_score (symbol_hits topic_hits : Z) (sentiment_score : f64) (has_symbol has_topic : bool) : f64 :=
  let weighted := fadd (fadd (fmul (f_of_Z symbol_hits) (flit 12 (-1))) (f_of_Z topic_hits)) (fabs sentiment_score) in
  let base := fmin fone (fdiv weighted (flit 4 0)) in
  let base := if has_symbol then fmax base (flit 6 (-1)) else if has_topic then fmax base (flit 35 (-2)) else base in
  clamp01 base.

Definition tag_item (symbol_keywords topic_keywords : keyword_map) (item : NormalizedNewsItem) : NewsTag :=
  let text := _normalize_text item in
  let '(symbol, symbol_hits) := _best_match text symbol_keywords in
  let '(best_topic, topic_hits) := _best_match text topic_keywords in
  let topic := default "general"%string best_topic in
  let sentiment_score := _sentiment_score text in
  {| nt_news_id := ni_news_id item; nt_symbol := symbol; nt_topic := topic;
     nt_relevance_score :=
       _relevance_score symbol_hits topic_hits sentiment_score (match symbol with Some _ => true | None => false end)
         (negb (String.eqb topic "general"));
     nt_sentiment_score := sentiment_score |}.

Class NewsTagStore (S : Type) := { persist_tag : NewsTag -> prog S unit }.

Section tagging.
Context {S : Type} `{!NewsTagStore S}.

(** [symbol_keywords or _SYMBOL_KEYWORDS] *)
Definition keywords_or (given dflt : keyword_map) : keyword_map := match given with [] => dflt | _ => given end.

Fixpoint tag_loop (symbol_keywords topic_keywords : keyword_map) (items : list NormalizedNewsItem)
    (total_items : Z) (tags : list NewsTag) : prog S TaggingBatchResult :=
  match items with
  | [] => mret {| tb_total_items := total_items; tb_tagged_items := Z.of_nat (List.length tags); tb_tags := tags |}
  | item :: rest =>
      let tag := tag_item symbol_keywords topic_keywords item in
      _ ← persist_tag tag;
      tag_loop symbol_keywords topic_keywords rest (total_items + 1) (tags ++ [tag])
  end.

Definition tag_items (symbol_keywords topic_keywords : keyword_map) (items : list NormalizedNewsItem)
  : prog S TaggingBatchResult :=
  tag_loop (keywords_or symbol_keywords _SYMBOL_KEYWORDS) (keywords_or topic_keywords _TOPIC_KEYWORDS) items 0 [].
End tagging.

(** [InMemoryNewsTagStore] *)
#[export] Instance memory_tags {W} : NewsTagStore (list NewsTag * W) := {|
  persist_tag tag := modify (fun s => (s.1 ++ [tag], s.2)) |}.

(** ** What tags say *)

Lemma clamp11_bounds x : fleb (flit (-1) 0) (clamp11 x) = true /\ fleb (clamp11 x) fone = true.
Proof. unfold clamp11. split; [by apply fmax_lb|]. apply fmax_ub; [done|by apply fmin_ub]. Qed.

Lemma fmax_lb_r a b : is_nan a = false -> is_nan b = false -> fleb b (fmax a b) = true.
Proof.
  intros Ha Hb. unfold fmax. destruct (fltb a b) eqn:E; [by apply fleb_refl|]. by apply not_fltb_fleb.
Qed.

Lemma fmin_glb a b c : fleb c a = true -> fleb c b = true -> fleb c (fmin a b) = true.
Proof. unfold fmin. by destruct (fltb b a). Qed.

Lemma clamp01_lb c x : fleb c fone = true -> fleb c x = true -> fleb c (clamp01 x) = true.
Proof.
  intros H1 H2. unfold clamp01. apply fleb_trans with (fmin fone x); [by apply fmin_glb|].
  apply fmax_lb_r; [done|by apply fmin_not_nan].
Qed.

Lemma sentiment_bounds text :
  fleb (flit (-1) 0) (_sentiment_score text) = true /\ fleb (_sentiment_score text) fone = true.
Proof. unfold _sentiment_score. destruct (_ =? 0); [done|]. apply clamp11_bounds. Qed.

Lemma relevance_floor symbol_hits topic_hits sentiment has_symbol has_topic :
  let r := _relevance_score symbol_hits topic_hits sentiment has_symbol has_topic in
  (has_symbol = true -> fleb (flit 6 (-1)) r = true) /\
  (has_symbol = false -> has_topic = true -> fleb (flit 35 (-2)) r = true).
Proof.
  unfold _relevance_score. split; [intros ->|intros -> ->]; cbv zeta;
    (apply clamp01_lb; [done|]; apply fmax_lb_r; [by apply fmin_not_nan|done]).
Qed.

(** The first entry with the most keywords in the text, when there is one with
    any. *)
Definition match_spec (text : string) (m : keyword_map) (found : option string * Z) : Prop :=
  (forall e, e ∈ m -> keyword_hits text e.2 <= found.2) /\
  match found.1 with
  | None => found.2 = 0
  | Some name => 0 < found.2 /\ exists l1 ks l2, m = l1 ++ (name, ks) :: l2 /\ keyword_hits text ks = found.2 /\
      forall e, e ∈ l1 -> keyword_hits text e.2 < found.2
  end.

Lemma best_match_spec text m : match_spec text m (_best_match text m).
Proof.
  unfold _best_match. induction m as [|e m IH] using rev_ind.
  { split; [|done]. intros e He. by apply elem_of_nil in He. }
  rewrite foldl_snoc. destruct IH as [Hmax Hfound]. unfold better_match at 1.
  set (best := foldl (better_match text) (None, 0) m) in *.
  assert (0 <= best.2) as Hpos by (destruct best as [[name|] n]; simpl in *; lia).
  destruct (Z.ltb_spec best.2 (keyword_hits text e.2)) as [Hlt|Hge]; split; simpl.
  - intros x [Hx|Hx]%elem_of_app; [specialize (Hmax x Hx); lia|]. by apply list_elem_of_singleton in Hx as ->.
  - split; [lia|]. exists m, e.2, []. split_and!; [by destruct e|done|].
    intros x Hx. specialize (Hmax x Hx). lia.
  - intros x [Hx|Hx]%elem_of_app; [by apply Hmax|]. by apply list_elem_of_singleton in Hx as ->.
  - destruct best.1 as [name|]; [|done]. destruct Hfound as (Hp & l1 & ks & l2 & -> & Hk & Hl).
    split; [done|]. exists l1, ks, (l2 ++ [e]). split_and!; [by rewrite <- app_assoc|done|done].
Qed.

(** Every tag has a relevance in [0, 1] and a sentiment in [-1, 1]. Its symbol
    is the first of those with the most keywords in the text and is missing only
    when the text has no symbol keyword; its topic is found likewise and is
    general otherwise. An item about a symbol scores at least 0.6, one with only
    a topic at least 0.35. *)
Theorem tag_scores symbols topics item :
  let text := _normalize_text item in
  let tag := tag_item symbols topics item in
  nt_news_id tag = ni_news_id item /\
  fleb fzero (nt_relevance_score tag) = true /\ fleb (nt_relevance_score tag) fone = true /\
  fleb (flit (-1) 0) (nt_sentiment_score tag) = true /\ fleb (nt_sentiment_score tag) fone = true /\
  (exists hits, match_spec text symbols (nt_symbol tag, hits)) /\
  (exists topic hits, match_spec text topics (topic, hits) /\ nt_topic tag = default "general"%string topic) /\
  (nt_symbol tag <> None -> fleb (flit 6 (-1)) (nt_relevance_score tag) = true) /\
  (nt_symbol tag = None -> nt_topic tag <> "general"%string -> fleb (flit 35 (-2)) (nt_relevance_score tag) = true).
Proof.
  intros text tag. unfold tag, tag_item. fold text.
  pose proof (best_match_spec text symbols) as Hs. pose proof (best_match_spec text topics) as Ht.
  destruct (_best_match text symbols) as [symbol sh], (_best_match text topics) as [topic th].
  cbn [nt_news_id nt_relevance_score nt_sentiment_score nt_symbol nt_topic].
  pose proof (sentiment_bounds text) as [Hl Hu].
  pose proof (relevance_floor sh th (_sentiment_score text) (match symbol with Some _ => true | None => false end)
    (negb (String.eqb (default "general"%string topic) "general"))) as [F1 F2].
  split_and!; try done; try apply clamp01_bounds.
  - by exists sh.
  - by exists topic, th.
  - intros Hsym. apply F1. by destruct symbol.
  - intros -> Htop. apply F2; [done|]. by apply negb_true_iff, String.eqb_neq.
Qed.

Lemma tag_items_memory {W} symbols topics items tags (w : W) :
  tag_items symbols topics items (tags, w) =
    ((tags ++ (tag_item (keywords_or symbols _SYMBOL_KEYWORDS) (keywords_or topics _TOPIC_KEYWORDS) <$> items), w),
     Ok {| tb_total_items := Z.of_nat (List.length items); tb_tagged_items := Z.of_nat (List.length items);
           tb_tags := tag_item (keywords_or symbols _SYMBOL_KEYWORDS) (keywords_or topics _TOPIC_KEYWORDS) <$> items |}).
Proof.
  unfold tag_items. set (tg := tag_item _ _).
  assert (forall n acc tags, tag_loop (keywords_or symbols _SYMBOL_KEYWORDS) (keywords_or topics _TOPIC_KEYWORDS)
    items n acc (tags, w) =
    ((tags ++ (tg <$> items), w),
     Ok {| tb_total_items := n + Z.of_nat (List.length items);
           tb_tagged_items := Z.of_nat (List.length (acc ++ (tg <$> items))); tb_tags := acc ++ (tg <$> items) |})) as Hall.
  { induction items as [|item items IH]; intros n acc ts.
    { cbn. by rewrite !app_nil_r, Z.add_0_r. }
    cbn [tag_loop persist_tag memory_tags]. rewrite modify_bind. cbn [fst snd]. rewrite IH. csimpl.
    rewrite <- !app_assoc. do 3 f_equal; lia. }
  rewrite Hall. simpl. by rewrite length_fmap.
Qed.

(** ** Quality metrics *)

Record NewsQualityMetrics := {
  qm_connector_cycles_total : Z;
  qm_source_fetch_attempts_total : Z;
  qm_source_fetch_errors_total : Z;
  qm_news_items_inserted_total : Z;
  qm_news_items_duplicates_total : Z;
  qm_summaries_generated_total : Z;
  qm_alerts_total : Z;
  qm_latest_published_at_seconds : option f64;
  qm_summary_lags_seconds : list f64;
}.

Definition quality_init : NewsQualityMetrics := {|
  qm_connector_cycles_total := 0; qm_source_fetch_attempts_total := 0; qm_source_fetch_errors_total := 0;
  qm_news_items_inserted_total := 0; qm_news_items_duplicates_total := 0; qm_summaries_generated_total := 0;
  qm_alerts_total := 0; qm_latest_published_at_seconds := None; qm_summary_lags_seconds := [] |}.

(** [len(set(l))] *)
Definition distinct (l : list string) : Z := Z.of_nat (List.length (remove_dups l)).

Definition record_connector_cycle (sources_total : Z) (degraded_sources : list string) (m : NewsQualityMetrics)
  : NewsQualityMetrics :=
  let source_count := Z.max 0 sources_total in
  let degraded_count := Z.min source_count (distinct degraded_sources) in
  {| qm_connector_cycles_total := qm_connector_cycles_total m + 1;
     qm_source_fetch_attempts_total := qm_source_fetch_attempts_total m + source_count;
     qm_source_fetch_errors_total := qm_source_fetch_errors_total m + degraded_count;
     qm_news_items_inserted_total := qm_news_items_inserted_total m;
     qm_news_items_duplicates_total := qm_news_items_duplicates_total m;
     qm_summaries_generated_total := qm_summaries_generated_total m; qm_alerts_total := qm_alerts_total m;
     qm_latest_published_at_seconds := qm_latest_published_at_seconds m;
     qm_summary_lags_seconds := qm_summary_lags_seconds m |}.

Section metrics.
(** The offset of the local time zone at a naive time. *)
Context (local_offset : Z -> Z).

Definition EPOCH_US : Z := days_of_ymd 1970 1 1 * US_DAY.

Definition _iso_to_unix_seconds (value : string) : result f64 :=
  match fromisoformat (replace "Z" "+00:00" value) with
  | None => raise ValueError ("Invalid isoformat string: " +:+ repr_str (replace "Z" "+00:00" value))
  | Some t =>
      us ← astimezone_utc (dt_us t) (default (local_offset (dt_us t)) (dt_off t));
      Ok (flit (us - EPOCH_US) (-6))
  end.

Definition set_latest (latest : option f64) (m : NewsQualityMetrics) : NewsQualityMetrics :=
  {| qm_connector_cycles_total := qm_connector_cycles_total m;
     qm_source_fetch_attempts_total := qm_source_fetch_attempts_total m;
     qm_source_fetch_errors_total := qm_source_fetch_errors_total m;
     qm_news_items_inserted_total := qm_news_items_inserted_total m;
     qm_news_items_duplicates_total := qm_news_items_duplicates_total m;
     qm_summaries_generated_total := qm_summaries_generated_total m; qm_alerts_total := qm_alerts_total m;
     qm_latest_published_at_seconds := latest; qm_summary_lags_seconds := qm_summary_lags_seconds m |}.

Definition add_items (inserted duplicates : Z) (m : NewsQualityMetrics) : NewsQualityMetrics :=
  {| qm_connector_cycles_total := qm_connector_cycles_total m;
     qm_source_fetch_attempts_total := qm_source_fetch_attempts_total m;
     qm_source_fetch_errors_total := qm_source_fetch_errors_total m;
     qm_news_items_inserted_total := qm_news_items_inserted_total m + Z.max 0 inserted;
     qm_news_items_duplicates_total := qm_news_items_duplicates_total m + Z.max 0 duplicates;
     qm_summaries_generated_total := qm_summaries_generated_total m; qm_alerts_total := qm_alerts_total m;
     qm_latest_published_at_seconds := qm_latest_published_at_seconds m;
     qm_summary_lags_seconds := qm_summary_lags_seconds m |}.

Definition note_published (outcome : NewsIngestionOutcome) : prog NewsQualityMetrics unit :=
  match no_inserted outcome, no_item outcome with
  | true, Some item =>
      published_seconds ← lift (_iso_to_unix_seconds (ni_published_at item));
      modify (fun m => set_latest (Some match qm_latest_published_at_seconds m with
                                        | None => published_seconds
                                        | Some latest => fmax latest published_seconds
                                        end) m)
  | _, _ => mret tt
  end.

Definition record_ingestion_batch (batch : NewsIngestionBatchResult) : prog NewsQualityMetrics unit :=
  _ ← modify (add_items (nb_inserted_count batch) (nb_duplicate_count batch));
  for_each note_published (nb_outcomes batch).

Definition count_summary (m : NewsQualityMetrics) : NewsQualityMetrics :=
  {| qm_connector_cycles_total := qm_connector_cycles_total m;
     qm_source_fetch_attempts_total := qm_source_fetch_attempts_total m;
     qm_source_fetch_errors_total := qm_source_fetch_errors_total m;
     qm_news_items_inserted_total := qm_news_items_inserted_total m;
     qm_news_items_duplicates_total := qm_news_items_duplicates_total m;
     qm_summaries_generated_total := qm_summaries_generated_total m + 1; qm_alerts_total := qm_alerts_total m;
     qm_latest_published_at_seconds := qm_latest_published_at_seconds m;
     qm_summary_lags_seconds := qm_summary_lags_seconds m |}.

Definition add_lag (lag : f64) (m : NewsQualityMetrics) : NewsQualityMetrics :=
  {| qm_connector_cycles_total := qm_connector_cycles_total m;
     qm_source_fetch_attempts_total := qm_source_fetch_attempts_total m;
     qm_source_fetch_errors_total := qm_source_fetch_errors_total m;
     qm_news_items_inserted_total := qm_news_items_inserted_total m;
     qm_news_items_duplicates_total := qm_news_items_duplicates_total m;
     qm_summaries_generated_total := qm_summaries_generated_total m; qm_alerts_total := qm_alerts_total m;
     qm_latest_published_at_seconds := qm_latest_published_at_seconds m;
     qm_summary_lags_seconds := qm_summary_lags_seconds m ++ [lag] |}.

Definition record_summary_generated (generated_at window_end : string) : prog NewsQualityMetrics unit :=
  _ ← modify count_summary;
  g ← lift (_iso_to_unix_seconds generated_at);
  e ← lift (_iso_to_unix_seconds window_end);
  modify (add_lag (fmax fzero (fsub g e))).

Definition record_alert (m : NewsQualityMetrics) : NewsQualityMetrics :=
  {| qm_connector_cycles_total := qm_connector_cycles_total m;
     qm_source_fetch_attempts_total := qm_source_fetch_attempts_total m;
     qm_source_fetch_errors_total := qm_source_fetch_errors_total m;
     qm_news_items_inserted_total := qm_news_items_inserted_total m;
     qm_news_items_duplicates_total := qm_news_items_duplicates_total m;
     qm_summaries_generated_total := qm_summaries_generated_total m; qm_alerts_total := qm_alerts_total m + 1;
     qm_latest_published_at_seconds := qm_latest_published_at_seconds m;
     qm_summary_lags_seconds := qm_summary_lags_seconds m |}.

Definition opt_float (o : option f64) : val := match o with Some x => VFloat x | None => VNone end.

Definition error_ratio (m : NewsQualityMetrics) : f64 :=
  int_ratio (qm_source_fetch_errors_total m) (qm_source_fetch_attempts_total m).

Definition quality_snapshot (now_seconds : f64) (m : NewsQualityMetrics) : dict :=
  let attempts := qm_source_fetch_attempts_total m in
  let coverage_ratio := if attempts =? 0 then fone else clamp01 (fsub fone (error_ratio m)) in
  let error_rate := if attempts =? 0 then fzero else clamp01 (error_ratio m) in
  let freshness := (fun p => fmax fzero (fsub now_seconds p)) <$> qm_latest_published_at_seconds m in
  let lags := qm_summary_lags_seconds m in
  let stat f := match lags with [] => None | x :: l => Some (f x l) end in
  [("counters", VDict
     [("connector_cycles_total", VInt (qm_connector_cycles_total m)); ("source_fetch_attempts_total", VInt attempts);
      ("source_fetch_errors_total", VInt (qm_source_fetch_errors_total m));
      ("news_items_inserted_total", VInt (qm_news_items_inserted_total m));
      ("news_items_duplicates_total", VInt (qm_news_items_duplicates_total m));
      ("summaries_generated_total", VInt (qm_summaries_generated_total m)); ("alerts_total", VInt (qm_alerts_total m))]);
   ("quality", VDict
     [("coverage_ratio", VFloat coverage_ratio); ("error_rate", VFloat error_rate);
      ("freshness_seconds_latest", opt_float freshness);
      ("summarization_lag_seconds_avg", opt_float (stat (fun x l => fdiv (fsum (x :: l)) (f_of_Z (Z.of_nat (List.length (x :: l)))))));
      ("summarization_lag_seconds_latest", opt_float (stat (fun x l => List.last l x)));
      ("summarization_lag_seconds_max", opt_float (stat fmax_list))])]%string.
End metrics.

(** Along any sequence of recordings, errors never exceed attempts. *)
Definition quality_ok (m : NewsQualityMetrics) : Prop :=
  0 <= qm_source_fetch_errors_total m <= qm_source_fetch_attempts_total m /\
  0 <= qm_news_items_inserted_total m /\ 0 <= qm_news_items_duplicates_total m /\
  0 <= qm_summaries_generated_total m - Z.of_nat (List.length (qm_summary_lags_seconds m)) /\
  Forall (fun x => fleb fzero x = true) (qm_summary_lags_seconds m).

Inductive quality_call :=
  | CallCycle (sources_total : Z) (degraded_sources : list string)
  | CallBatch (batch : NewsIngestionBatchResult)
  | CallSummary (generated_at window_end : string)
  | CallAlert.

(** One recording; what was counted before an exception stays counted. *)
Definition quality_step (local_offset : Z -> Z) (m : NewsQualityMetrics) (c : quality_call) : NewsQualityMetrics :=
  match c with
  | CallCycle n degraded => record_connector_cycle n degraded m
  | CallBatch batch => (record_ingestion_batch local_offset batch m).1
  | CallSummary g e => (record_summary_generated local_offset g e m).1
  | CallAlert => record_alert m
  end.

Ltac quality_simpl :=
  unfold quality_ok, record_connector_cycle, add_items, count_summary, add_lag, distinct, quality_init;
  cbn [qm_connector_cycles_total qm_source_fetch_attempts_total qm_source_fetch_errors_total
       qm_news_items_inserted_total qm_news_items_duplicates_total qm_summaries_generated_total qm_alerts_total
       qm_latest_published_at_seconds qm_summary_lags_seconds].

Lemma note_published_ok local_offset o m : quality_ok m -> quality_ok (note_published local_offset o m).1.
Proof.
  intros H. unfold note_published. destruct (no_inserted o), (no_item o) as [item|]; try done.
  rewrite lift_bind. by destruct (_iso_to_unix_seconds _ _).
Qed.

Lemma quality_step_ok local_offset m c : quality_ok m -> quality_ok (quality_step local_offset m c).
Proof.
  intros H. destruct c as [n degraded|batch|g e|]; simpl.
  - destruct H as (H1 & H2 & H3 & H4 & H5). quality_simpl. split_and!; try done; lia.
  - unfold record_ingestion_batch. rewrite modify_bind. apply for_each_inv; [intros; by apply note_published_ok|].
    destruct H as (H1 & H2 & H3 & H4 & H5). quality_simpl. split_and!; try done; lia.
  - unfold record_summary_generated. rewrite modify_bind, lift_bind.
    assert (quality_ok (count_summary m)) as Hc.
    { destruct H as (H1 & H2 & H3 & H4 & H5). quality_simpl. split_and!; try done; lia. }
    destruct (_iso_to_unix_seconds _ g) as [x|]; [|done]. rewrite lift_bind.
    destruct (_iso_to_unix_seconds _ e) as [y|]; [|done].
    destruct H as (H1 & H2 & H3 & H4 & H5). unfold modify. cbn [fst]. quality_simpl.
    rewrite length_app. cbn [List.length].
    split_and!; try done; try lia. apply Forall_app. split; [done|]. apply Forall_singleton. by apply fmax_lb.
  - done.
Qed.

(** Along any sequence of recordings errors stay below attempts, the counters
    are not negative, no lag is, and there are no more lags than summaries. *)
Lemma quality_invariant local_offset calls : quality_ok (foldl (quality_step local_offset) quality_init calls).
Proof.
  assert (forall m, quality_ok m -> quality_ok (foldl (quality_step local_offset) m calls)) as Hall.
  { induction calls as [|c calls IH]; intros m Hm; [done|]. simpl. by apply IH, quality_step_ok. }
  apply Hall. quality_simpl. split_and!; try done; lia.
Qed.
