(* ===== verification/NewsSummaries.v ===== *)
(** * News summaries

    [services/news_summarizer]: the rolling summariser
    ([summarizer_service.py]), the resilience policy ([resilience.py]) and the
    bridge that puts a summary into market payloads
    ([context_injection_bridge.py]). *)

From S2P Require Import Prelude PyStr PyFloat PyTime PyVal Envelope Agents NewsIngestion NewsTagging.
From stdpp Require Import options.
From Stdlib Require Import Ascii String ZifyBool.

#[local] Open Scope Z_scope.

Record NewsSummaryArtifact := {
  sa_summary_id : string;
  sa_symbol_scope : string;
  sa_window_start : string;
  sa_window_end : string;
  sa_summary_text : string;
  sa_token_count : Z;
  sa_generated_at : string;
  sa_source_news_ids : list string;
}.

Class NewsSummaryStore (S : Type) := { persist_summary : NewsSummaryArtifact -> prog S unit }.

(** [InMemoryNewsSummaryStore] *)
#[export] Instance memory_summaries {W} : NewsSummaryStore (list NewsSummaryArtifact * W) := {|
  persist_summary summary := modify (fun s => (s.1 ++ [summary], s.2)) |}.

(** ** Selection *)

Definition _tag_matches_scope (scope : string) (tag : NewsTag) : bool :=
  if String.eqb scope "GLOBAL" then true
  else match nt_symbol tag with None => false | Some symbol => String.eqb (upper symbol) scope end.

(** [key(a) >= key(b)] for the sort key, a tuple of two floats and the id:
    tuples compare at the first place where they differ. *)
Definition tag_geb (a b : NewsTag) : bool :=
  if negb (feqb (nt_relevance_score a) (nt_relevance_score b)) then fltb (nt_relevance_score b) (nt_relevance_score a)
  else if negb (feqb (nt_sentiment_score a) (nt_sentiment_score b))
       then fltb (nt_sentiment_score b) (nt_sentiment_score a)
  else str_leb (nt_news_id b) (nt_news_id a).

(** [{item.news_id: item for item in items}]: the last item of an id counts. *)
Definition item_of (items : list NormalizedNewsItem) (news_id : string) : option NormalizedNewsItem :=
  List.find (fun item => String.eqb (ni_news_id item) news_id) (rev items).

Fixpoint select_ids (items : list NormalizedNewsItem) (max_items : Z) (tags : list NewsTag) (ids : list string)
  : list string :=
  match tags with
  | [] => ids
  | tag :: rest =>
      if bool_decide (nt_news_id tag ∈ ids) then select_ids items max_items rest ids
      else match item_of items (nt_news_id tag) with
           | None => select_ids items max_items rest ids
           | Some _ =>
               let ids' := ids ++ [nt_news_id tag] in
               if max_items <=? Z.of_nat (List.length ids') then ids' else select_ids items max_items rest ids'
           end
  end.

Definition scoped (scope : string) (tags : list NewsTag) : list NewsTag :=
  sort_by tag_geb (List.filter (_tag_matches_scope scope) tags).

(** [sum(...) / len(...)] over a non-empty list of tags. *)
Definition average (score : NewsTag -> f64) (tags : list NewsTag) : f64 :=
  fdiv (fsum (score <$> tags)) (f_of_Z (Z.of_nat (List.length tags))).

Definition summary_text (scope window_start window_end : string) (items : list NormalizedNewsItem)
    (scoped_tags : list NewsTag) (ids : list string) : string :=
  match ids with
  | [] => "news_unavailable"
  | _ =>
      let selected_tags := List.filter (fun tag => bool_decide (nt_news_id tag ∈ ids)) scoped_tags in
      let headlines := join "; " (ni_title <$> omap (item_of items) ids) in
      scope +:+ " news from " +:+ window_start +:+ " to " +:+ window_end +:+ ": " +:+
      str_of_Z (Z.of_nat (List.length ids)) +:+ " items. Top headlines: " +:+ headlines +:+ ". avg_relevance=" +:+
      format_fixed 2 (average nt_relevance_score selected_tags) +:+ ", avg_sentiment=" +:+
      format_fixed 2 (average nt_sentiment_score selected_tags) +:+ "."
  end.

Section summarizer.
Context {S : Type} `{!NewsSummaryStore S} (uuid_factory now_factory : prog S string).

Definition summarize_window (symbol_scope window_start window_end : string) (items : list NormalizedNewsItem)
    (tags : list NewsTag) (max_items : Z) : prog S NewsSummaryArtifact :=
  _ ← lift (raise_if (max_items <=? 0) ValueError "max_items must be positive");
  let scope := str_or (upper (strip symbol_scope)) "GLOBAL" in
  let scoped_tags := scoped scope tags in
  let ids := select_ids items max_items scoped_tags [] in
  let text := summary_text scope window_start window_end items scoped_tags ids in
  summary_id ← uuid_factory;
  generated_at ← now_factory;
  let artifact := {| sa_summary_id := summary_id; sa_symbol_scope := scope; sa_window_start := window_start;
                     sa_window_end := window_end; sa_summary_text := text;
                     sa_token_count := Z.of_nat (List.length (words text)); sa_generated_at := generated_at;
                     sa_source_news_ids := ids |} in
  _ ← persist_summary artifact;
  mret artifact.
End summarizer.

(** ** Resilience *)

Record NewsResilienceAlert := {
  ra_event_type : string;
  ra_severity : string;
  ra_reason : string;
  ra_details : dict;
}.

Record NewsResilienceDecision := {
  rd_degraded : bool;
  rd_reason : string;
  rd_news_payload : dict;
  rd_alerts : list NewsResilienceAlert;
}.

Record NewsResiliencePolicy := {
  np_stale_after_seconds : f64;
  np_alert_routing_key : string;
  np_service_name : string;
}.

Definition policy_init (stale_after_seconds : f64) (alert_routing_key service_name : string)
  : result NewsResiliencePolicy :=
  _ ← raise_if (fleb stale_after_seconds fzero) ValueError "stale_after_seconds must be positive";
  Ok {| np_stale_after_seconds := stale_after_seconds; np_alert_routing_key := alert_routing_key;
        np_service_name := service_name |}.

Definition _fallback_payload (reason : string) : dict :=
  [("summary", VStr "news_unavailable"); ("sentiment", VFloat fzero); ("source_count", VInt 0);
   ("is_fallback", VBool true); ("reason", VStr reason)]%string.

Definition _sentiment_hint (text : string) : f64 :=
  let lowered := lower text in
  let positive_hits := keyword_hits lowered ["bull"; "strong"; "inflow"; "approval"; "growth"]%string in
  let negative_hits := keyword_hits lowered ["bear"; "panic"; "hack"; "exploit"; "drop"]%string in
  let total := positive_hits + negative_hits in
  if total =? 0 then fzero else clamp11 (int_ratio (positive_hits - negative_hits) total).

Definition degraded_decision (event_type reason : string) (details : dict) : NewsResilienceDecision :=
  {| rd_degraded := true; rd_reason := reason; rd_news_payload := _fallback_payload reason;
     rd_alerts := [{| ra_event_type := event_type; ra_severity := "WARNING"; ra_reason := reason; ra_details := details |}] |}.

Section resilience.
(** The offset of the local time zone at a naive time, and the clock in UTC
    microseconds. *)
Context (local_offset : Z -> Z) (clock : Z).

Definition _parse_iso (value : string) : result Z :=
  match fromisoformat (replace "Z" "+00:00" value) with
  | None => raise ValueError ("Invalid isoformat string: " +:+ repr_str (replace "Z" "+00:00" value))
  | Some t => astimezone_utc (dt_us t) (default (local_offset (dt_us t)) (dt_off t))
  end.

Definition _to_utc (value : option datetime) : result Z :=
  match value with
  | None => Ok clock
  | Some t => match dt_off t with None => Ok (dt_us t) | Some off => astimezone_utc (dt_us t) off end
  end.

(** [max(0.0, (now - generated).total_seconds())] *)
Definition age_seconds (now generated : Z) : f64 := fmax fzero (flit (now - generated) (-6)).

Definition evaluate (policy : NewsResiliencePolicy) (summary : option NewsSummaryArtifact) (now : option datetime)
  : result NewsResilienceDecision :=
  now_utc ← _to_utc now;
  match summary with
  | None =>
      Ok (degraded_decision "news.resilience.unavailable" "missing_summary"
            [("stale_after_seconds"%string, VFloat (np_stale_after_seconds policy))])
  | Some summary =>
      if String.eqb (strip (sa_summary_text summary)) "news_unavailable" then
        Ok (degraded_decision "news.resilience.unavailable" "upstream_unavailable"
              [("summary_id"%string, VStr (sa_summary_id summary))])
      else
        generated_at ← _parse_iso (sa_generated_at summary);
        let age := age_seconds now_utc generated_at in
        if fltb (np_stale_after_seconds policy) age then
          Ok (degraded_decision "news.resilience.stale" "stale_summary"
                [("summary_id", VStr (sa_summary_id summary)); ("age_seconds", VFloat age);
                 ("stale_after_seconds", VFloat (np_stale_after_seconds policy))]%string)
        else
          Ok {| rd_degraded := false; rd_reason := "ok";
                rd_news_payload :=
                  [("summary", VStr (sa_summary_text summary));
                   ("sentiment", VFloat (_sentiment_hint (sa_summary_text summary)));
                   ("source_count", VInt (Z.of_nat (List.length (sa_source_news_ids summary))));
                   ("is_fallback", VBool false); ("summary_id", VStr (sa_summary_id summary))];
                rd_alerts := [] |}%string
  end.
End resilience.

Section publishing.
Context {S : Type} (utc_now_iso : prog S string) (publisher : option (string -> dict -> prog S unit)).

(** [validate_envelope(envelope); await publisher.publish(...)] *)
Definition publish_validated (publish : string -> dict -> prog S unit) (routing_key : string) (envelope : dict)
  : prog S dict :=
  _ ← lift (validate_envelope (VDict envelope));
  _ ← publish routing_key envelope;
  mret envelope.

Definition alert_envelope (policy : NewsResiliencePolicy) (alert : NewsResilienceAlert) (index : Z)
    (trace_id decision_id mode emitted_at : string) : dict :=
  [("trace_id", VStr trace_id); ("decision_id", VStr decision_id); ("mode", VStr mode);
   ("idempotency_key", VStr ("news.alert:" +:+ decision_id +:+ ":" +:+ str_of_Z index +:+ ":" +:+ ra_event_type alert));
   ("event_type", VStr (ra_event_type alert)); ("emitted_at", VStr emitted_at);
   ("payload", VDict [("severity", VStr (ra_severity alert)); ("reason", VStr (ra_reason alert));
                      ("details", VDict (ra_details alert)); ("news_payload", VDict (_fallback_payload (ra_reason alert)))]);
   ("service", VStr (np_service_name policy))]%string.

Fixpoint publish_alerts_from (policy : NewsResiliencePolicy) (publish : string -> dict -> prog S unit) (index : Z)
    (alerts : list NewsResilienceAlert) (trace_id decision_id mode : string) : prog S (list dict) :=
  match alerts with
  | [] => mret []
  | alert :: rest =>
      emitted_at ← utc_now_iso;
      envelope ← publish_validated publish (np_alert_routing_key policy)
                   (alert_envelope policy alert index trace_id decision_id mode emitted_at);
      envelopes ← publish_alerts_from policy publish (index + 1) rest trace_id decision_id mode;
      mret (envelope :: envelopes)
  end.

Definition publish_alerts (policy : NewsResiliencePolicy) (alerts : list NewsResilienceAlert)
    (trace_id decision_id mode : string) : prog S (list dict) :=
  match publisher with
  | None => mret []
  | Some publish => publish_alerts_from policy publish 0 alerts trace_id decision_id mode
  end.

(** ** The bridge *)

Definition is_fallback_of (summary : NewsSummaryArtifact) (is_fallback : option bool) : bool :=
  match is_fallback with Some b => b | None => String.eqb (sa_summary_text summary) "news_unavailable" end.

Definition context_payload (summary : NewsSummaryArtifact) (strategy_id : string) (sentiment : f64) (source_count : Z)
    (is_fallback : option bool) : dict :=
  [("strategy_id", VStr strategy_id); ("symbol_scope", VStr (sa_symbol_scope summary));
   ("window_start", VStr (sa_window_start summary)); ("window_end", VStr (sa_window_end summary));
   ("summary_id", VStr (sa_summary_id summary)); ("summary_text", VStr (sa_summary_text summary));
   ("token_count", VInt (sa_token_count summary)); ("generated_at", VStr (sa_generated_at summary));
   ("source_news_ids", VList (VStr <$> sa_source_news_ids summary));
   ("news", VDict [("summary", VStr (sa_summary_text summary)); ("sentiment", VFloat sentiment);
                   ("source_count", VInt (Z.max 0 source_count));
                   ("is_fallback", VBool (is_fallback_of summary is_fallback))])]%string.

Definition publish_summary_context (context_routing_key service_name : string) (summary : NewsSummaryArtifact)
    (strategy_id mode trace_id decision_id : string) (sentiment : f64) (source_count : Z) (is_fallback : option bool)
  : prog S dict :=
  match publisher with
  | None => lift (raise RuntimeError "publisher is not configured")
  | Some publish =>
      emitted_at ← utc_now_iso;
      publish_validated publish context_routing_key
        [("trace_id", VStr trace_id); ("decision_id", VStr decision_id); ("mode", VStr mode);
         ("idempotency_key", VStr ("news.context:" +:+ sa_summary_id summary +:+ ":" +:+ strategy_id));
         ("event_type", VStr "news.context.summary_ready"); ("emitted_at", VStr emitted_at);
         ("payload", VDict (context_payload summary strategy_id sentiment source_count is_fallback));
         ("service", VStr service_name)]%string
  end.
End publishing.

Definition inject_into_market_payload (market_payload : dict) (summary : NewsSummaryArtifact) (sentiment : f64)
    (source_count : Z) (is_fallback : option bool) : dict :=
  dict_set "news"
    (VDict [("summary", VStr (sa_summary_text summary)); ("sentiment", VFloat sentiment);
            ("source_count", VInt (Z.max 0 source_count)); ("is_fallback", VBool (is_fallback_of summary is_fallback));
            ("summary_id", VStr (sa_summary_id summary)); ("window_start", VStr (sa_window_start summary));
            ("window_end", VStr (sa_window_end summary)); ("generated_at", VStr (sa_generated_at summary))]%string)
    market_payload.

(** ** What agents get to see *)

(** The payload of a resilience decision, put into a market payload. *)
Definition with_news (d : NewsResilienceDecision) (market_payload : dict) : dict :=
  dict_set "news" (VDict (rd_news_payload d)) market_payload.

Lemma extract_news_set payload text x n rest :
  strip text <> ""%string ->
  _extract_news (dict_set "news" (VDict (("summary", VStr text) :: ("sentiment", VFloat x) ::
                                         ("source_count", VInt n) :: rest)%string) payload) =
    Ok (strip text, x, n, String.eqb (strip text) NO_NEWS).
Proof.
  intros Hne. unfold _extract_news. unfold dget at 1. rewrite dict_get_set_eq. cbn [default from_option id].
  set (news := (("summary", VStr text) :: _)%string).
  change (py_str (dget_or "summary" (VStr NO_NEWS) news)) with text. cbv zeta.
  change (_to_float (dget "sentiment" news) fzero) with (Ok x).
  change (_to_int (dget "source_count" news) 0) with (Ok n). cbn [mbind result_bind].
  assert (str_or (strip text) NO_NEWS = strip text) as ->; [|done]. unfold str_or. by destruct (strip text).
Qed.

(** A summary that may be used at [now]: present, available and not older than
    the limit. *)
Definition usable (local_offset : Z -> Z) (policy : NewsResiliencePolicy) (summary : option NewsSummaryArtifact) (now : Z)
  : Prop :=
  exists s generated, summary = Some s /\ strip (sa_summary_text s) <> "news_unavailable"%string /\
    _parse_iso local_offset (sa_generated_at s) = Ok generated /\
    fltb (np_stale_after_seconds policy) (age_seconds now generated) = false.

(** The resilience policy lets a summary through exactly when there is one, it
    is not the placeholder, and it is not older than the configured limit. A
    decision that degrades carries the fallback payload and exactly one alert with
    its reason; put into a market payload, the market context agent takes it for
    missing news with neutral sentiment. A summary that passes reaches the agent
    with its trimmed text, its number of sources and a sentiment hint, and without
    an alert. *)
Theorem resilience_decides local_offset clock policy summary now now_utc d market_payload :
  _to_utc clock now = Ok now_utc -> evaluate local_offset clock policy summary now = Ok d ->
  (rd_degraded d = false <-> usable local_offset policy summary now_utc) /\
  (rd_degraded d = true -> rd_news_payload d = _fallback_payload (rd_reason d) /\
     (exists a, rd_alerts d = [a] /\ ra_reason a = rd_reason d) /\
     _extract_news (with_news d market_payload) = Ok ("news_unavailable"%string, fzero, 0, true)) /\
  (forall s, summary = Some s -> rd_degraded d = false -> strip (sa_summary_text s) <> ""%string ->
     rd_alerts d = [] /\
     _extract_news (with_news d market_payload) =
       Ok (strip (sa_summary_text s), _sentiment_hint (sa_summary_text s),
           Z.of_nat (List.length (sa_source_news_ids s)), false)).
Proof.
  intros Hnow. unfold evaluate. rewrite Hnow. cbn [mbind result_bind].
  assert (forall et reason details, Ok (degraded_decision et reason details) = Ok d ->
    (usable local_offset policy summary now_utc -> False) ->
    (rd_degraded d = false <-> usable local_offset policy summary now_utc) /\
    (rd_degraded d = true -> rd_news_payload d = _fallback_payload (rd_reason d) /\
       (exists a, rd_alerts d = [a] /\ ra_reason a = rd_reason d) /\
       _extract_news (with_news d market_payload) = Ok ("news_unavailable"%string, fzero, 0, true)) /\
    (forall s, summary = Some s -> rd_degraded d = false -> strip (sa_summary_text s) <> ""%string ->
       rd_alerts d = [] /\
       _extract_news (with_news d market_payload) =
         Ok (strip (sa_summary_text s), _sentiment_hint (sa_summary_text s),
             Z.of_nat (List.length (sa_source_news_ids s)), false))) as Hdeg.
  { intros et reason details [= <-] Hno. split_and!; [by split|intros _|done].
    split_and!; [done|by eexists|]. unfold _extract_news, with_news, dget at 1. by rewrite dict_get_set_eq. }
  destruct summary as [s|]; [|intros H; eapply Hdeg; [exact H|]; by intros (? & ? & [=] & _)].
  destruct (String.eqb_spec (strip (sa_summary_text s)) "news_unavailable") as [Htxt|Htxt].
  { intros H. eapply Hdeg; [exact H|]. by intros (? & ? & [= <-] & ? & _). }
  destruct (_parse_iso local_offset (sa_generated_at s)) as [g|] eqn:Hg; [|done]. cbn [mbind result_bind].
  destruct (fltb _ _) eqn:Hf.
  { intros H. eapply Hdeg; [exact H|]. intros (s' & g' & [= <-] & _ & Hg' & Hf'). congruence. }
  intros [= <-]. cbn [rd_degraded rd_alerts]. split_and!; [|done|].
  { split; [|done]. intros _. by exists s, g. }
  intros s' [= <-] _ Hne. split; [done|]. unfold with_news. cbn [rd_news_payload].
  rewrite extract_news_set by done. by assert (String.eqb (strip (sa_summary_text s)) NO_NEWS = false) as -> by (by apply String.eqb_neq).
Qed.

(** A summary injected into a market payload is what the market context agent
    reads back: its trimmed text, the sentiment and the number of sources given,
    and the fallback flag exactly when the text is the placeholder, whatever flag
    was passed along. All other entries of the payload are kept. *)
Theorem injected_summary_read_back market_payload summary sentiment source_count is_fallback :
  strip (sa_summary_text summary) <> ""%string -> 0 <= source_count ->
  let payload := inject_into_market_payload market_payload summary sentiment source_count is_fallback in
  _extract_news payload =
    Ok (strip (sa_summary_text summary), sentiment, source_count,
        String.eqb (strip (sa_summary_text summary)) "news_unavailable") /\
  (forall key, key <> "news"%string -> dict_get key payload = dict_get key market_payload).
Proof.
  intros Hne Hc payload. split.
  - unfold payload, inject_into_market_payload. rewrite extract_news_set by done. by rewrite Z.max_r.
  - intros key Hk. by apply dict_get_set_ne.
Qed.

(** ** Which news a summary tells *)

(** The order on the keys of floats. *)
Lemma lex_ltb_trans a b c : lex_ltb a b = true -> lex_ltb b c = true -> lex_ltb a c = true.
Proof. destruct a as [[? ?] ?], b as [[? ?] ?], c as [[? ?] ?]. unfold lex_ltb. simpl. lia. Qed.
Lemma lex_ltb_total a b : a <> b -> lex_ltb a b = false -> lex_ltb b a = true.
Proof.
  destruct a as [[a1 a2] a3], b as [[b1 b2] b3]. unfold lex_ltb. simpl. intros Hne Hl.
  destruct (decide (a1 = b1)), (decide (a2 = b2)), (decide (a3 = b3)); subst; try done; lia.
Qed.
Lemma lex_ltb_irrefl a : lex_ltb a a = false.
Proof. destruct a as [[? ?] ?]. unfold lex_ltb. simpl. lia. Qed.

Definition scored (tag : NewsTag) : Prop :=
  is_nan (nt_relevance_score tag) = false /\ is_nan (nt_sentiment_score tag) = false.

Lemma scored_keys tag : scored tag ->
  exists k1 k2, flex (nt_relevance_score tag) = Some k1 /\ flex (nt_sentiment_score tag) = Some k2.
Proof.
  intros [H1 H2]. destruct (flex (nt_relevance_score tag)) eqn:E1; [|apply flex_nan in E1; congruence].
  destruct (flex (nt_sentiment_score tag)) eqn:E2; [|apply flex_nan in E2; congruence]. by do 2 eexists.
Qed.

Lemma tag_geb_keys a b ka1 ka2 kb1 kb2 :
  flex (nt_relevance_score a) = Some ka1 -> flex (nt_sentiment_score a) = Some ka2 ->
  flex (nt_relevance_score b) = Some kb1 -> flex (nt_sentiment_score b) = Some kb2 ->
  tag_geb a b = if decide (ka1 = kb1) then if decide (ka2 = kb2) then str_leb (nt_news_id b) (nt_news_id a)
                                          else lex_ltb kb2 ka2
                else lex_ltb kb1 ka1.
Proof.
  intros A1 A2 B1 B2. unfold tag_geb. rewrite !feqb_flex, !fltb_flex, A1, A2, B1, B2.
  by destruct (decide (ka1 = kb1)), (decide (ka2 = kb2)); repeat case_bool_decide.
Qed.

Lemma tag_geb_total a b : scored a -> scored b -> tag_geb a b = false -> tag_geb b a = true.
Proof.
  intros (a1 & a2 & A1 & A2)%scored_keys (b1 & b2 & B1 & B2)%scored_keys.
  rewrite (tag_geb_keys a b a1 a2 b1 b2), (tag_geb_keys b a b1 b2 a1 a2) by done.
  destruct (decide (a1 = b1)), (decide (a2 = b2)); subst; rewrite ?decide_True by done; rewrite ?decide_False by congruence;
    eauto using str_leb_total, lex_ltb_total.
Qed.

Lemma tag_geb_trans a b c :
  scored a -> scored b -> scored c -> tag_geb a b = true -> tag_geb b c = true -> tag_geb a c = true.
Proof.
  intros (a1 & a2 & A1 & A2)%scored_keys (b1 & b2 & B1 & B2)%scored_keys (c1 & c2 & C1 & C2)%scored_keys.
  rewrite (tag_geb_keys a b a1 a2 b1 b2), (tag_geb_keys b c b1 b2 c1 c2), (tag_geb_keys a c a1 a2 c1 c2) by done.
  pose proof (lex_ltb_trans c1 b1 a1). pose proof (lex_ltb_trans c2 b2 a2).
  pose proof (lex_ltb_irrefl c1). pose proof (lex_ltb_irrefl c2).
  pose proof (lex_ltb_irrefl b1). pose proof (lex_ltb_irrefl b2).
  repeat case_decide; subst; try tauto; try congruence; eauto using str_leb_trans.
  all: try (exfalso; pose proof (lex_ltb_trans b1 c1 b1); pose proof (lex_ltb_trans b2 c2 b2); intuition congruence).
  all: try (intros; exfalso; intuition congruence).
Qed.

(** The ids selected after [ids] from tags in descending order: at most up to the
    limit, each once, of known items; and those left out come after all of them. *)
Definition selects (items : list NormalizedNewsItem) (max_items : Z) (tags : list NewsTag) (ids res : list string) : Prop :=
  exists news, res = ids ++ news /\ NoDup res /\ Z.of_nat (List.length res) <= max_items /\
    (forall id, id ∈ news -> is_Some (item_of items id) /\ exists tag, tag ∈ tags /\ nt_news_id tag = id) /\
    (forall tag, tag ∈ tags -> is_Some (item_of items (nt_news_id tag)) -> nt_news_id tag ∉ res ->
       Z.of_nat (List.length res) = max_items /\
       forall id, id ∈ news -> exists best, best ∈ tags /\ nt_news_id best = id /\ tag_geb best tag = true).

(** A tag that is already selected or has no item changes nothing. *)
Lemma selects_skip items max_items tag tags ids res :
  nt_news_id tag ∈ ids \/ item_of items (nt_news_id tag) = None ->
  selects items max_items tags ids res -> selects items max_items (tag :: tags) ids res.
Proof.
  intros Hwhy (news & -> & H1 & H2 & H3 & H4). exists news. split_and!; try done.
  - intros id Hid. destruct (H3 id Hid) as (Hi & t & Ht & He). split; [done|]. exists t. split; [by right|done].
  - intros t [->|Ht]%elem_of_cons Hi Hni; [exfalso; destruct Hwhy as [Hw|Hw]|].
    + apply Hni, elem_of_app. by left.
    + rewrite Hw in Hi. by destruct Hi.
    + destruct (H4 t Ht Hi Hni) as [Hl Hb]. split; [done|]. intros id Hid.
      destruct (Hb id Hid) as (best & Hbin & He & Hg). exists best. split_and!; [by right|done|done].
Qed.

Lemma select_ids_spec items max_items tags ids :
  StronglySorted (fun a b => tag_geb a b = true) tags -> NoDup ids -> Z.of_nat (List.length ids) < max_items ->
  selects items max_items tags ids (select_ids items max_items tags ids).
Proof.
  intros Hs. revert ids. induction Hs as [|tag tags Hs IH Htag]; intros ids Hnd Hlt.
  { exists []. simpl. rewrite app_nil_r. split_and!; try done; try lia; intros x Hx; by apply elem_of_nil in Hx. }
  simpl. destruct (bool_decide (nt_news_id tag ∈ ids)) eqn:Hin.
  { apply selects_skip; [left; by apply bool_decide_eq_true in Hin|by apply IH]. }
  destruct (item_of items (nt_news_id tag)) as [item|] eqn:Hitem; [|apply selects_skip; [by right|by apply IH]].
  apply bool_decide_eq_false in Hin. rewrite Forall_forall in Htag.
  assert (NoDup (ids ++ [nt_news_id tag])) as Hnd'.
  { apply NoDup_app. split_and!; [done| |apply NoDup_singleton]. by intros x Hx ->%list_elem_of_singleton. }
  destruct (Z.leb_spec max_items (Z.of_nat (List.length (ids ++ [nt_news_id tag])))) as [Hfull|Hmore].
  - exists [nt_news_id tag]. rewrite length_app in *. simpl in *. split_and!; try done; [lia| |].
    + intros id ->%list_elem_of_singleton. split; [by eexists|]. exists tag. split; [by left|done].
    + intros t [->|Ht]%elem_of_cons Hi Hni; [exfalso; apply Hni, elem_of_app; right; by left|]. split; [lia|].
      intros id ->%list_elem_of_singleton. exists tag. split_and!; [by left|done|by apply Htag].
  - destruct (IH (ids ++ [nt_news_id tag]) Hnd' Hmore) as (news & E & H1 & H2 & H3 & H4).
    exists (nt_news_id tag :: news). rewrite E in *. rewrite <- app_assoc in *. simpl in *. split_and!; try done.
    + intros id [->|Hid]%elem_of_cons; [split; [by eexists|]; exists tag; split; [by left|done]|].
      destruct (H3 id Hid) as (Hi & t & Ht & He). split; [done|]. exists t. split; [by right|done].
    + intros t [->|Ht]%elem_of_cons Hi Hni; [exfalso; apply Hni, elem_of_app; right; by left|].
      destruct (H4 t Ht Hi Hni) as [Hl Hb]. split; [done|].
      intros id [->|Hid]%elem_of_cons; [exists tag; split_and!; [by left|done|by apply Htag]|].
      destruct (Hb id Hid) as (best & Hbin & He & Hg). exists best. split_and!; [by right|done|done].
Qed.

Lemma spaced_not_unavailable a b : (a +:+ String " " b <> "news_unavailable")%string.
Proof.
  intros E. assert (contains " " (a +:+ String " " b) = true) as H; [|by rewrite E in H].
  clear E. induction a as [|c a IH]; [by destruct b|]. rewrite append_cons. cbn [contains]. rewrite IH. apply orb_true_r.
Qed.

(** A summary names at most the requested number of items, each once, all known
    and with a tag in its scope. An item in scope that it leaves out is left out
    because the summary is full, and every item it names has a tag that ranks at
    least as high in relevance, then sentiment, then id. The text is the
    placeholder exactly when no item qualifies. *)
Theorem summary_tells_best {S} `{!NewsSummaryStore S} uuid_factory now_factory symbol_scope window_start window_end items tags
    max_items (s s' : S) artifact :
  Forall scored tags ->
  summarize_window uuid_factory now_factory symbol_scope window_start window_end items tags max_items s = (s', Ok artifact) ->
  let ids := sa_source_news_ids artifact in
  let scope := sa_symbol_scope artifact in
  NoDup ids /\ Z.of_nat (List.length ids) <= max_items /\
  (forall id, id ∈ ids -> is_Some (item_of items id) /\
     exists tag, tag ∈ tags /\ _tag_matches_scope scope tag = true /\ nt_news_id tag = id) /\
  (forall tag, tag ∈ tags -> _tag_matches_scope scope tag = true -> is_Some (item_of items (nt_news_id tag)) ->
     nt_news_id tag ∉ ids -> Z.of_nat (List.length ids) = max_items /\
     forall id, id ∈ ids -> exists best, best ∈ tags /\ nt_news_id best = id /\ tag_geb best tag = true) /\
  (sa_summary_text artifact = "news_unavailable"%string <-> ids = []).
Proof.
  intros Hsc. unfold summarize_window. rewrite lift_bind. destruct (Z.leb_spec max_items 0); [done|]. cbn [raise_if].
  intros H1. apply prog_bind_Ok in H1 as (s1 & id & _ & H1). apply prog_bind_Ok in H1 as (s2 & t & _ & H1).
  apply prog_bind_Ok in H1 as (s3 & [] & _ & H1). injection H1 as <- <-.
  cbn [sa_source_news_ids sa_symbol_scope sa_summary_text]. set (scope := str_or _ _).
  assert (forall t, t ∈ scoped scope tags <-> t ∈ tags /\ _tag_matches_scope scope t = true) as Hin.
  { intros t'. unfold scoped. rewrite sort_by_perm, !list_elem_of_In. apply filter_In. }
  destruct (select_ids_spec items max_items (scoped scope tags) []) as (news & E & Hnd & Hle & Hid & Hmax).
  - apply (sort_by_strong_on scored); [apply tag_geb_total|apply tag_geb_trans|]. apply Forall_forall. intros t' Ht'.
    rewrite list_elem_of_In in Ht'. apply filter_In in Ht' as [Ht' _]. rewrite <- list_elem_of_In in Ht'.
    by apply (proj1 (Forall_forall _ _) Hsc).
  - constructor.
  - simpl. lia.
  - change ([] ++ news) with news in E. rewrite E in *. split_and!; try done.
    + intros i Hi. destruct (Hid i Hi) as (Hsome & t' & [Ht1 Ht2]%Hin & He). split; [done|]. by exists t'.
    + intros t' Ht Hm Hi Hni. destruct (Hmax t') as [Hl Hb]; [by apply Hin|done|done|]. split; [done|].
      intros i Hin'. destruct (Hb i Hin') as (best & [Hb1 _]%Hin & He & Hg). by exists best.
    + unfold summary_text. destruct news as [|n news]; [done|]. split; [|done]. intros Ht.
      by apply spaced_not_unavailable in Ht.
Qed.

(** ** Example: one summary, fresh and stale *)
Module Example_summary.

Definition item (id title : string) : NormalizedNewsItem :=
  {| ni_news_id := id; ni_source := "feed"; ni_source_item_id := id; ni_url := "https://feed"; ni_title := title;
     ni_body := None; ni_published_at := ""; ni_ingested_at := ""; ni_content_hash := ""; ni_language := "en";
     ni_raw_payload := [] |}.

Definition items : list NormalizedNewsItem := [item "n1" "Bitcoin ETF approval"; item "n2" "Exchange listing"]%string.
Definition tags : list NewsTag := tag_item _SYMBOL_KEYWORDS _TOPIC_KEYWORDS <$> items.

Definition ids : prog (list NewsSummaryArtifact * Z) string := fun s => ((s.1, s.2 + 1), Ok (str_of_Z s.2)).
Definition clock : prog (list NewsSummaryArtifact * Z) string := fun s => (s, Ok "2026-01-01T00:00:00Z"%string).

Definition summary : NewsSummaryArtifact :=
  {| sa_summary_id := "7"; sa_symbol_scope := "GLOBAL"; sa_window_start := "a"; sa_window_end := "b";
     sa_summary_text := "GLOBAL news from a to b: 1 items. Top headlines: Bitcoin ETF approval. avg_relevance=1.00, avg_sentiment=1.00.";
     sa_token_count := 15; sa_generated_at := "2026-01-01T00:00:00Z"; sa_source_news_ids := ["n1"] |}%string.

Lemma summary_tells_best_witness :
  NoDup ["n1"%string] /\ Z.of_nat (List.length ["n1"%string]) <= 1 /\
  (forall id, id ∈ ["n1"%string] -> is_Some (item_of items id) /\
     exists tag, tag ∈ tags /\ _tag_matches_scope "GLOBAL" tag = true /\ nt_news_id tag = id) /\
  (forall tag, tag ∈ tags -> _tag_matches_scope "GLOBAL" tag = true -> is_Some (item_of items (nt_news_id tag)) ->
     nt_news_id tag ∉ ["n1"%string] -> Z.of_nat (List.length ["n1"%string]) = 1 /\
     forall id, id ∈ ["n1"%string] -> exists best, best ∈ tags /\ nt_news_id best = id /\ tag_geb best tag = true) /\
  (sa_summary_text summary = "news_unavailable"%string <-> ["n1"%string] = []).
Proof.
  apply (summary_tells_best ids clock " global " "a" "b" items tags 1 ([], 7) ([summary], 8) summary).
  - by repeat constructor.
  - by vm_compute.
Defined.

Definition policy : NewsResiliencePolicy :=
  {| np_stale_after_seconds := flit 300 0; np_alert_routing_key := "news.alerts"; np_service_name := "news_summarizer" |}.

Definition at_noon : datetime := utc (days_of_ymd 2026 1 1 * US_DAY + 60 * US_SECOND).

Definition fresh : NewsResilienceDecision :=
  match evaluate (fun _ => 0) 0 policy (Some summary) (Some at_noon) with
  | Ok d => d
  | Raise _ => degraded_decision "" "" []
  end.

Lemma resilience_decides_witness :
  (rd_degraded fresh = false <-> usable (fun _ => 0) policy (Some summary) (dt_us at_noon)) /\
  (rd_degraded fresh = true -> rd_news_payload fresh = _fallback_payload (rd_reason fresh) /\
     (exists a, rd_alerts fresh = [a] /\ ra_reason a = rd_reason fresh) /\
     _extract_news (with_news fresh []) = Ok ("news_unavailable"%string, fzero, 0, true)) /\
  (forall s, Some summary = Some s -> rd_degraded fresh = false -> strip (sa_summary_text s) <> ""%string ->
     rd_alerts fresh = [] /\
     _extract_news (with_news fresh []) =
       Ok (strip (sa_summary_text s), _sentiment_hint (sa_summary_text s),
           Z.of_nat (List.length (sa_source_news_ids s)), false)).
Proof.
  apply (resilience_decides (fun _ => 0) 0 policy (Some summary) (Some at_noon) (dt_us at_noon) fresh []).
  - by vm_compute.
  - by vm_compute.
Defined.

Example fresh_not_degraded : rd_degraded fresh = false.
Proof. by vm_compute. Qed.

Lemma injected_summary_read_back_witness :
  let payload := inject_into_market_payload [("symbol", VStr "BTC/USDT")]%string summary fone 1 None in
  _extract_news payload =
    Ok (strip (sa_summary_text summary), fone, 1, String.eqb (strip (sa_summary_text summary)) "news_unavailable") /\
  (forall key, key <> "news"%string -> dict_get key payload = dict_get key [("symbol", VStr "BTC/USDT")]%string).
Proof. apply (injected_summary_read_back [("symbol", VStr "BTC/USDT")]%string summary fone 1 None); by vm_compute. Defined.
End Example_summary.
