(* ===== verification/NewsWorker.v ===== *)
(** * The news worker

    [services/workers/news.py] with its sources: the social connector
    ([services/news_ingestion/x_provider_connector.py]) and the feed reader of
    [services/workers/helpers.py]. A cycle fetches from all connectors, ingests
    the records, tags the new items and summarises them. HTTP, the XML parser,
    the clock and the id factory are arguments; the state [S] holds the stores
    and the world outside. *)

From S2P Require Import Prelude PyStr PyFloat PyHash PyVal PyJson Http Envelope.
From S2P Require Import NewsIngestion NewsTagging NewsSummaries.
From stdpp Require Import options.
From Stdlib Require Import Ascii String.

#[local] Open Scope Z_scope.

(** ** Feeds *)

(** An element of the parsed feed: tag, attributes, text and children. *)
Inductive element := Element (tag : string) (attrib : list (string * string)) (text : option string) (children : list element).

Definition el_tag (e : element) : string := let '(Element t _ _ _) := e in t.
Definition el_attrib (e : element) : list (string * string) := let '(Element _ a _ _) := e in a.
Definition el_text (e : element) : option string := let '(Element _ _ t _) := e in t.
Definition el_children (e : element) : list element := let '(Element _ _ _ c) := e in c.

(** [e.findall(".//tag")]: the descendants with the tag, in document order. *)
Fixpoint findall_deep (tag : string) (e : element) : list element :=
  let '(Element _ _ _ children) := e in
  (fix go (l : list element) : list element :=
     match l with
     | [] => []
     | c :: l' => (if String.eqb (el_tag c) tag then [c] else []) ++ findall_deep tag c ++ go l'
     end) children.

(** [e.findall(tag)] and [e.find(tag)] look at the children only. *)
Definition findall (tag : string) (e : element) : list element :=
  List.filter (fun c => String.eqb (el_tag c) tag) (el_children e).

Definition nonblank_text (e : element) : option string :=
  match el_text e with Some t => if is_empty (strip t) then None else Some (strip t) | None => None end.

Fixpoint _first_child_text (e : element) (tags : list string) : string :=
  match tags with
  | [] => ""
  | tag :: rest =>
      match findall tag e with
      | child :: _ => match nonblank_text child with Some t => t | None => _first_child_text e rest end
      | [] => _first_child_text e rest
      end
  end.

(** [s.partition(c)] without the separator. *)
Fixpoint before (p : ascii -> bool) (s : string) : string :=
  match s with EmptyString => "" | String c s' => if p c then "" else String c (before p s') end.

(** What follows the last [@], or all of it. *)
Definition after_userinfo (netloc : string) : string := List.last (split_on "@" netloc) ""%string.

Definition is_alpha (c : ascii) : bool :=
  let n := char_code c in ((65 <=? n) && (n <=? 90)) || ((97 <=? n) && (n <=? 122)).

Definition is_scheme (s : string) : bool :=
  match s with
  | EmptyString => false
  | String c _ => is_alpha c && str_forallb (fun c => is_alpha c || is_digit c || existsb (Ascii.eqb c) ["+"; "-"; "."]%char) s
  end.

(** Leading control characters and spaces, and tabs and line ends anywhere, are
    dropped from a URL. *)
Fixpoint drop_breaks (s : string) : string :=
  match s with
  | EmptyString => ""
  | String c s' =>
      let n := char_code c in
      if (n =? 9) || (n =? 10) || (n =? 13) then drop_breaks s' else String c (drop_breaks s')
  end.

(** [urlparse(url).hostname] for hosts without brackets: the part after the
    scheme's [//] up to a slash, question mark or hash, without user and port, in
    lower case; [None] when there is none. *)
Definition url_hostname (url : string) : option string :=
  let url := drop_breaks (lstrip_with (fun c => char_code c <=? 32) url) in
  let scheme := before (Ascii.eqb ":") url in
  let rest := if starts_with (scheme +:+ ":") url && is_scheme scheme
              then str_drop (S (String.length scheme)) url else url in
  if starts_with "//" rest then
    let netloc := before (fun c => existsb (Ascii.eqb c) ["/"; "?"; "#"]%char) (str_drop 2 rest) in
    let host := before (Ascii.eqb ":") (after_userinfo netloc) in
    if is_empty host then None else Some (lower host)
  else None.

Definition _infer_source_name (feed_url : string) : string :=
  let hostname := lower (default "unknown"%string (url_hostname feed_url)) in
  str_or (if starts_with "www." hostname then str_drop 4 hostname else hostname) "unknown".

Definition _NEWS_SOURCE_ITEM_ID_MAX_LEN : nat := 128.

Definition _build_source_item_id (source link : string) : string :=
  let source_key := lower (strip (str_or source "unknown")) in
  let candidate := source_key +:+ ":" +:+ strip link in
  if (String.length candidate <=? _NEWS_SOURCE_ITEM_ID_MAX_LEN)%nat then candidate
  else (if is_empty source_key then "unknown" else str_take 63 source_key) +:+ ":" +:+ sha256_hex candidate.

Definition _default_news_rss_feeds : list string :=
  ["https://www.coindesk.com/arc/outboundfeeds/rss/"; "https://cointelegraph.com/rss"]%string.

Definition feed_record (source title link published_at content : string) : dict :=
  [("source", VStr source); ("source_item_id", VStr (_build_source_item_id source link)); ("title", VStr title);
   ("url", VStr link); ("published_at", VStr published_at); ("content", VStr content);
   ("metadata", VDict [("language", VStr "en")])]%string.

Definition atom (tag : string) : string := "{http://www.w3.org/2005/Atom}" +:+ tag.

(** The first non-blank [href] of the entry's links. *)
Definition entry_link (entry : element) : string :=
  default ""%string
    (List.find (fun h => negb (is_empty h))
       ((fun n => strip (default ""%string (snd <$> List.find (fun a => String.eqb a.1 "href") (el_attrib n))))
          <$> findall (atom "link") entry)).

Section sources.
Context {S : Type} (utc_now_iso : prog S string) (http : http_request -> prog S http_reply)
        (parse_xml : string -> result element).

Definition or_now (value : string) : prog S string := if is_empty value then utc_now_iso else mret value.

(** Clock readings are taken in the order of the items. *)
Fixpoint rss_items (source : string) (limit : Z) (nodes : list element) (items : list dict) : prog S (list dict * bool) :=
  match nodes with
  | [] => mret (items, false)
  | item :: rest =>
      let title := _first_child_text item ["title"%string] in
      let link := _first_child_text item ["link"%string] in
      published_at ← or_now (_first_child_text item ["pubDate"; "published"]%string);
      let description := _first_child_text item ["description"; "summary"]%string in
      if is_empty title || is_empty link then rss_items source limit rest items
      else
        let items' := items ++ [feed_record source title link published_at description] in
        if limit <=? Z.of_nat (List.length items') then mret (items', true) else rss_items source limit rest items'
  end.

Fixpoint atom_entries (source : string) (limit : Z) (nodes : list element) (items : list dict) : prog S (list dict) :=
  match nodes with
  | [] => mret items
  | entry :: rest =>
      if limit <=? Z.of_nat (List.length items) then mret items
      else
        let title := _first_child_text entry [atom "title"] in
        let updated := _first_child_text entry [atom "updated"] in
        let content := _first_child_text entry [atom "summary"] in
        let link := entry_link entry in
        if is_empty title || is_empty link then atom_entries source limit rest items
        else
          published_at ← or_now updated;
          atom_entries source limit rest (items ++ [feed_record source title link published_at content])
  end.

Definition _parse_rss_items (feed_url rss_xml : string) (limit : Z) : prog S (list dict) :=
  root ← lift (parse_xml rss_xml);
  let source := _infer_source_name feed_url in
  '(items, done) ← rss_items source limit (findall_deep "item" root) [];
  if done : bool then mret items else atom_entries source limit (findall_deep (atom "entry") root) items.

(** httpx raises its own exceptions, which end in the framework. *)
Definition reply_text (reply : http_reply) : result string :=
  match reply with
  | HttpText raw => Ok raw
  | HttpStatusError _ detail => raise (ExternalError "HTTPStatusError") detail
  | HttpError message => raise (ExternalError "HTTPError") message
  end.

Definition _http_get_text (url : string) (timeout_seconds : f64) : prog S string :=
  reply ← http {| hr_method := "GET"; hr_url := url; hr_body := None; hr_headers := []; hr_timeout := timeout_seconds |};
  lift (reply_text reply).

Definition _fetch_rss_records (feed_url : string) (timeout_seconds : f64) (limit : Z) : prog S (list dict) :=
  if limit <=? 0 then mret []
  else rss_xml ← _http_get_text feed_url timeout_seconds; _parse_rss_items feed_url rss_xml limit.

(** ** The social connector *)

Record XProviderConnector := {
  xc_connector_id : string;
  xc_api_base_url : string;
  xc_bearer_token : string;
  xc_query : string;
  xc_timeout_seconds : f64;
}.

Definition x_connector_init (connector_id api_base_url bearer_token query : string) (timeout_seconds : f64)
  : result XProviderConnector :=
  _ ← raise_if (is_empty (strip connector_id)) ValueError "connector_id must be non-empty";
  _ ← raise_if (is_empty (strip api_base_url)) ValueError "api_base_url must be non-empty";
  _ ← raise_if (is_empty (strip bearer_token)) ValueError "bearer_token must be non-empty";
  _ ← raise_if (is_empty (strip query)) ValueError "query must be non-empty";
  Ok {| xc_connector_id := strip connector_id; xc_api_base_url := rstrip_with (Ascii.eqb "/") api_base_url;
        xc_bearer_token := strip bearer_token; xc_query := strip query;
        xc_timeout_seconds := fmax fone timeout_seconds |}.

Definition _short_title (text_value : string) : string :=
  let value := join " " (words text_value) in
  if (String.length value <=? 96)%nat then value else rstrip_with is_space (str_take 93 value) +:+ "...".

Definition x_error {A} (msg : string) : result A := raise XProviderConnectorError msg.

Definition _default_fetch_json (url : string) (headers : list (string * string)) (timeout_seconds : f64) : prog S dict :=
  reply ← http {| hr_method := "GET"; hr_url := url; hr_body := None; hr_headers := headers; hr_timeout := timeout_seconds |};
  raw ← lift (match reply with
              | HttpText raw => Ok raw
              | HttpStatusError status detail => x_error ("X provider HTTP " +:+ str_of_Z status +:+ ": " +:+ detail)
              | HttpError message => x_error ("X provider connection error: " +:+ message)
              end);
  parsed ← lift (match json_loads raw with
                 | Ok v => Ok v
                 | Raise e => if bool_decide (exc_cls e = JSONDecodeError)
                              then x_error "X provider response is not valid JSON" else Raise e
                 end);
  lift (match parsed with
        | VDict d =>
            match dget "errors" d with
            | VList (e :: es) => x_error ("X provider returned errors: " +:+ py_repr (VList (e :: es)))
            | _ => Ok d
            end
        | _ => x_error "X provider response must be a JSON object"
        end).

Definition x_params (c : XProviderConnector) (since : option string) (limit : Z) : list (string * string) :=
  [("query", xc_query c); ("max_results", str_of_Z (Z.min (Z.max 10 limit) 100));
   ("tweet.fields", "created_at,lang,author_id,public_metrics")]%string ++
  match since with Some t => if is_empty t then [] else [("start_time"%string, t)] | None => [] end.

Definition x_record (connector_id tweet_id text_value published_at author_id : string) (item : dict) : dict :=
  [("source", VStr connector_id); ("source_item_id", VStr tweet_id); ("published_at", VStr published_at);
   ("title", VStr (_short_title text_value)); ("url", VStr ("https://x.com/i/web/status/" +:+ tweet_id));
   ("content", VStr text_value);
   ("metadata", VDict
     [("provider", VStr "x"); ("author_id", VStr author_id);
      ("language", VStr (str_or (lower (strip (py_str (dget_or "lang" (VStr "en") item)))) "en"));
      ("public_metrics", match dget "public_metrics" item with VDict d => VDict d | _ => VDict [] end)])]%string.

Fixpoint x_rows (c : XProviderConnector) (rows : list val) : prog S (list dict) :=
  match rows with
  | [] => mret []
  | VDict item :: rest =>
      let text_value := strip (py_str (dget_or "text" (VStr "") item)) in
      let tweet_id := strip (py_str (dget_or "id" (VStr "") item)) in
      if is_empty tweet_id || is_empty text_value then x_rows c rest
      else
        published_at ← or_now (strip (py_str (dget_or "created_at" (VStr "") item)));
        let author_id := str_or (strip (py_str (dget_or "author_id" (VStr "") item))) "unknown" in
        records ← x_rows c rest;
        mret (x_record (xc_connector_id c) tweet_id text_value published_at author_id item :: records)
  | _ :: rest => x_rows c rest
  end.

Definition fetch_records (c : XProviderConnector) (since : option string) (limit : Z) : prog S (list dict) :=
  if limit <=? 0 then mret []
  else
    payload ← _default_fetch_json (xc_api_base_url c +:+ "?" +:+ urlencode (x_params c since limit))
                [("Authorization", "Bearer " +:+ xc_bearer_token c); ("Accept", "application/json")]%string
                (xc_timeout_seconds c);
    match dget "data" payload with
    | VList rows => x_rows c (take (Z.to_nat limit) rows)
    | _ => mret []
    end.
End sources.

(** ** The worker *)

(** What the constructor keeps of its arguments, once trimmed. *)
Record news_config := {
  nc_source_mode : string;
  nc_rss_feeds : list string;
  nc_fetch_timeout_seconds : f64;
  nc_x_enabled : bool;
  nc_x_api_base_url : string;
  nc_x_bearer_token : string;
  nc_x_query : string;
}.

Definition news_config_of (source_mode : string) (rss_feeds : list string) (fetch_timeout_seconds : f64) (x_enabled : bool)
    (x_api_base_url : string) (x_bearer_token : option string) (x_query : string) : news_config :=
  {| nc_source_mode := str_or (lower (strip source_mode)) "mock";
     nc_rss_feeds := List.filter (fun f => negb (is_empty f)) (strip <$> rss_feeds);
     nc_fetch_timeout_seconds := fmax fone fetch_timeout_seconds; nc_x_enabled := x_enabled;
     nc_x_api_base_url := strip x_api_base_url; nc_x_bearer_token := strip (default ""%string x_bearer_token);
     nc_x_query := str_or (strip x_query) "bitcoin OR ethereum OR solana" |}.

Section worker.
Context {S : Type} `{!NewsItemStore S, !NewsTagStore S, !NewsSummaryStore S}.
Context (utc_now_iso uuid4 : prog S string) (unix_time : prog S Z) (http : http_request -> prog S http_reply)
        (parse_xml : string -> result element).

Definition mock_record (now_iso : string) (now : Z) : dict :=
  [("source", VStr "mock.crypto"); ("source_item_id", VStr ("mock-" +:+ str_of_Z now)); ("published_at", VStr now_iso);
   ("title", VStr "Bitcoin volatility cools as ETF inflows stabilize");
   ("url", VStr "https://example.local/news/mock-bitcoin");
   ("content", VStr "Risk appetite improves and exchange flows normalize.");
   ("metadata", VDict [("language", VStr "en")])]%string.

Definition _fetch_mock_records (since : option string) (limit : Z) : prog S (list dict) :=
  if limit <=? 0 then mret []
  else now_iso ← utc_now_iso; now ← unix_time; mret [mock_record now_iso now].

(** A source callable that yields mappings. *)
Definition mappings (fetcher : option string -> Z -> prog S (list dict)) (since : option string) (limit : Z)
  : prog S (list source_item) := ds ← fetcher since limit; mret (SourceMapping <$> ds).

Definition register_source (connector_id kind : string) (fetcher : option string -> Z -> prog S (list dict))
    (registry : SourceConnectorRegistry S) : result (SourceConnectorRegistry S) :=
  c ← callable_connector utc_now_iso connector_id kind (mappings fetcher);
  register registry c.

Fixpoint register_feeds (config : news_config) (idx : Z) (feeds : list string) (registry : SourceConnectorRegistry S)
  : result (SourceConnectorRegistry S) :=
  match feeds with
  | [] => Ok registry
  | feed_url :: rest =>
      registry' ← register_source ("rss." +:+ _infer_source_name feed_url +:+ "." +:+ str_of_Z (idx + 1)) "rss"
                    (fun _ limit => _fetch_rss_records utc_now_iso http parse_xml feed_url (nc_fetch_timeout_seconds config) limit)
                    registry;
      register_feeds config (idx + 1) rest registry'
  end.

Definition build_registry (config : news_config) : result (SourceConnectorRegistry S) :=
  if String.eqb (nc_source_mode config) "real" then
    let feeds := match nc_rss_feeds config with [] => _default_news_rss_feeds | fs => fs end in
    registry ← register_feeds config 0 feeds [];
    if nc_x_enabled config && negb (is_empty (nc_x_bearer_token config)) then
      x ← x_connector_init "social.x" (nc_x_api_base_url config) (nc_x_bearer_token config) (nc_x_query config)
            (nc_fetch_timeout_seconds config);
      register_source "social.x" "social" (fetch_records utc_now_iso http x) registry
    else Ok registry
  else register_source "mock.crypto" "custom" _fetch_mock_records [].

(** The items of the inserted outcomes. *)
Definition inserted_items (batch : NewsIngestionBatchResult) : list NormalizedNewsItem :=
  omap (fun o => if no_inserted o then no_item o else None) (nb_outcomes batch).

(** The worker's own state is its last activity. *)
Definition on_stores {A} (m : prog S A) : prog (dict * S) A := zoom snd (fun s w => (w.1, s)) m.

Definition set_activity (activity : dict) : prog (dict * S) unit := modify (fun w => (activity, w.2)).
Definition note_activity (key : string) (value : dict) : prog (dict * S) unit :=
  modify (fun w => (dict_set key (VDict value) w.1, w.2)).

Definition run_once (source_mode : string) (registry : SourceConnectorRegistry S) : prog (dict * S) bool :=
  cycle ← on_stores (fetch_cycle utc_now_iso registry None 10 []);
  _ ← set_activity
        [("event", VStr "news.fetch_cycle"); ("source_mode", VStr source_mode);
         ("sources_total", VInt (cy_sources_total cycle));
         ("degraded_sources", VList (VStr <$> cy_degraded_sources cycle));
         ("records_fetched_total", VInt (cy_total_items cycle))]%string;
  if cy_total_items cycle =? 0 then mret false
  else
    batch ← on_stores (ingest uuid4 utc_now_iso (cy_items cycle));
    let inserted := inserted_items batch in
    _ ← note_activity "ingestion"
          [("total_records", VInt (nb_total_records batch)); ("inserted_count", VInt (nb_inserted_count batch));
           ("duplicate_count", VInt (nb_duplicate_count batch))]%string;
    match inserted with
    | [] => mret false
    | _ =>
        tag_result ← on_stores (tag_items [] [] inserted);
        window_start ← on_stores utc_now_iso;
        window_end ← on_stores utc_now_iso;
        summary ← on_stores (summarize_window uuid4 utc_now_iso "GLOBAL" window_start window_end inserted
                               (tb_tags tag_result) 5);
        _ ← note_activity "tagging" [("tagged_items"%string, VInt (tb_tagged_items tag_result))];
        _ ← note_activity "summary"
              [("summary_id", VStr (sa_summary_id summary));
               ("source_count", VInt (Z.of_nat (List.length (sa_source_news_ids summary))));
               ("token_count", VInt (sa_token_count summary))]%string;
        mret true
    end.
End worker.

(** ** What the sources yield *)

Lemma blank_strip s : str_forallb is_space s = true <-> strip s = ""%string.
Proof.
  split; [|intros E; destruct (str_forallb is_space s) eqn:F; [done|by apply strip_nonempty in F]].
  induction s as [|c s IH]; [done|]. simpl. destruct (is_space c) eqn:Ec; [|done]. intros Hs.
  unfold strip, strip_with in *. simpl. rewrite Ec. by apply IH.
Qed.

Lemma blank_app a b : str_forallb is_space (a +:+ b) = str_forallb is_space a && str_forallb is_space b.
Proof. induction a as [|c a IH]; [done|]. rewrite append_cons. simpl. rewrite IH. by destruct (is_space c). Qed.

Lemma strip_stripped s : is_empty (strip s) = false -> strip (strip s) <> ""%string.
Proof. intros H E. rewrite strip_idemp in E. by rewrite E in H. Qed.

(** The words of a text that is not blank start with a character that is no
    space. *)
Lemma words_visible s : str_forallb is_space s = false -> str_forallb is_space (join " " (words s)) = false.
Proof.
  unfold words, runs.
  assert (forall t, let '(w, ws) := runs_go is_space t in
    (str_forallb is_space t = false -> w <> ""%string \/ ws <> []) /\
    (forall c w', w = String c w' -> is_space c = false) /\
    (forall v, v ∈ ws -> exists c v', v = String c v' /\ is_space c = false)) as Hruns.
  { induction t as [|c t IH]; simpl; [split_and!; [done|done|intros v Hv; by apply elem_of_nil in Hv]|].
    destruct (runs_go is_space t) as [w ws]. destruct IH as (H1 & H2 & H3).
    destruct (is_space c) eqn:Ec; simpl.
    - split_and!; [|done|].
      + intros Ht. right. destruct (H1 Ht) as [Hw|Hw]; destruct w; done.
      + intros v Hv. destruct w as [|d w]; [by apply H3|]. apply elem_of_cons in Hv as [->|Hv]; [|by apply H3].
        exists d, w. split; [done|]. by apply (H2 d w).
    - split_and!; [by left|by intros ?? [= <- <-]|done]. }
  intros Hs. specialize (Hruns s). destruct (runs_go is_space s) as [w ws]. destruct Hruns as (H1 & H2 & H3).
  assert (exists c v rest, match w with EmptyString => ws | _ => w :: ws end = String c v :: rest /\ is_space c = false)
    as (c & v & rest & -> & Hc).
  { destruct w as [|c w].
    - destruct (H1 Hs) as [|Hne]; [done|]. destruct ws as [|v ws]; [done|].
      destruct (H3 v ltac:(left)) as (c & v' & -> & Hc). by exists c, v', ws.
    - exists c, w, ws. split; [done|]. by apply (H2 c w). }
  destruct rest; simpl; by rewrite Hc.
Qed.

Lemma short_title_visible t : strip t <> ""%string -> strip (_short_title t) <> ""%string.
Proof.
  intros Ht. apply strip_nonempty. unfold _short_title.
  assert (str_forallb is_space t = false) as Hb.
  { destruct (str_forallb is_space t) eqn:E; [|done]. by apply blank_strip in E. }
  destruct (_ <=? _)%nat; [by apply words_visible|]. rewrite blank_app. apply andb_false_iff. by right.
Qed.

Lemma first_child_text_visible e tags : is_empty (_first_child_text e tags) = false -> strip (_first_child_text e tags) <> ""%string.
Proof.
  induction tags as [|tag tags IH]; [done|]. simpl. destruct (findall tag e) as [|child rest]; [done|].
  unfold nonblank_text. destruct (el_text child) as [t|]; [|done]. destruct (is_empty (strip t)) eqn:E; [done|].
  intros _. by apply strip_stripped.
Qed.

Lemma entry_link_visible e : is_empty (entry_link e) = false -> strip (entry_link e) <> ""%string.
Proof.
  unfold entry_link. destruct (List.find _ _) as [h|] eqn:E; [|done]. simpl. intros Hh.
  apply find_some in E as [Hin _]. apply list_elem_of_In, list_elem_of_fmap in Hin as (n & -> & _).
  by apply strip_stripped.
Qed.

#[local] Arguments _first_child_text : simpl never.

(** A mapping from which the framework reads a record that can be ingested. *)
Definition good_mapping (d : dict) : Prop :=
  forall key, key ∈ ["source_item_id"; "title"; "url"]%string ->
    exists t, dict_get key d = Some (VStr t) /\ strip t <> ""%string.

Lemma feed_record_good source title link published content :
  strip title <> ""%string -> strip link <> ""%string -> good_mapping (feed_record source title link published content).
Proof.
  intros Ht Hl key Hk. repeat (apply elem_of_cons in Hk as [->|Hk]); [| | |by apply elem_of_nil in Hk].
  - eexists. split; [reflexivity|]. apply strip_nonempty. unfold _build_source_item_id.
    destruct (_ <=? _)%nat; rewrite blank_app; apply andb_false_iff; by right.
  - by exists title.
  - by exists link.
Qed.

Lemma x_record_good id tweet text published author item :
  strip tweet <> ""%string -> strip text <> ""%string -> good_mapping (x_record id tweet text published author item).
Proof.
  intros Ht Hx key Hk. repeat (apply elem_of_cons in Hk as [->|Hk]); [| | |by apply elem_of_nil in Hk].
  - by exists tweet.
  - eexists. split; [reflexivity|]. by apply short_title_visible.
  - eexists. split; [reflexivity|]. apply strip_nonempty. rewrite blank_app. done.
Qed.

Lemma mock_record_good now_iso now : good_mapping (mock_record now_iso now).
Proof.
  intros key Hk. repeat (apply elem_of_cons in Hk as [->|Hk]); [| | |by apply elem_of_nil in Hk];
    eexists; (split; [reflexivity|]); by apply strip_nonempty.
Qed.

Section sound.
Context {S : Type} (utc_now_iso : prog S string) (unix_time : prog S Z) (http : http_request -> prog S http_reply)
        (parse_xml : string -> result element).
(** The clock prints something. *)
Context (Hclock : forall s s' t, utc_now_iso s = (s', Ok t) -> strip t <> ""%string).
(** A property of the state that clock and HTTP leave alone. *)
Context (P : S -> Prop) (Pclock : preserves P utc_now_iso) (Ptime : preserves P unix_time)
        (Phttp : forall q, preserves P (http q)).

#[local] Hint Resolve Pclock Ptime Phttp : preserve.

(** A source whose fetches leave [P] alone and yield good mappings. *)
Definition good_source (fetcher : option string -> Z -> prog S (list dict)) : Prop :=
  forall since limit, preserves P (fetcher since limit) /\
    forall s s' ds, fetcher since limit s = (s', Ok ds) -> Forall good_mapping ds.

Lemma preserves_or_now v : preserves P (or_now utc_now_iso v).
Proof using Pclock. unfold or_now. destruct (is_empty v); auto with preserve. Qed.
#[local] Hint Resolve preserves_or_now : preserve.

Lemma rss_items_good source limit nodes items :
  preserves P (rss_items utc_now_iso source limit nodes items) /\
  (Forall good_mapping items -> forall s s' res, rss_items utc_now_iso source limit nodes items s = (s', Ok res) ->
     Forall good_mapping res.1).
Proof using Pclock.
  revert items. induction nodes as [|item nodes IH]; intros items; simpl.
  { split; [auto with preserve|]. by intros Hi s s' res [= _ <-]. }
  split.
  - apply preserves_bind; [auto with preserve|]. intros published.
    destruct (_ || _); [apply IH|]. destruct (_ <=? _); [auto with preserve|apply IH].
  - intros Hi s s' res (s1 & published & _ & H)%prog_bind_Ok.
    destruct (is_empty (_first_child_text item ["title"%string])) eqn:Et; [by apply (proj2 (IH items) Hi _ _ _ H)|].
    destruct (is_empty (_first_child_text item ["link"%string])) eqn:El; [by apply (proj2 (IH items) Hi _ _ _ H)|].
    simpl in H.
    set (items' := (items ++ [_])%list) in H.
    assert (Forall good_mapping items') as Hi'.
    { apply Forall_app. split; [done|]. apply Forall_singleton, feed_record_good; by apply first_child_text_visible. }
    destruct (_ <=? _); [by injection H as _ <-|by apply (proj2 (IH items') Hi' _ _ _ H)].
Qed.

Lemma atom_entries_good source limit nodes items :
  preserves P (atom_entries utc_now_iso source limit nodes items) /\
  (Forall good_mapping items -> forall s s' res, atom_entries utc_now_iso source limit nodes items s = (s', Ok res) ->
     Forall good_mapping res).
Proof using Pclock.
  revert items. induction nodes as [|entry nodes IH]; intros items; simpl.
  { split; [auto with preserve|]. by intros Hi s s' res [= _ <-]. }
  destruct (_ <=? _); [split; [auto with preserve|by intros Hi s s' res [= _ <-]]|].
  destruct (is_empty (_first_child_text entry [atom "title"])) eqn:Et; [apply IH|].
  destruct (is_empty (entry_link entry)) eqn:El; [apply IH|]. simpl. split.
  - apply preserves_bind; [auto with preserve|]. intros published. apply IH.
  - intros Hi s s' res (s1 & published & _ & H)%prog_bind_Ok. refine (proj2 (IH _) _ _ _ _ H).
    apply Forall_app. split; [done|]. apply Forall_singleton, feed_record_good;
      [by apply first_child_text_visible|by apply entry_link_visible].
Qed.

Lemma rss_source_good feed_url timeout :
  good_source (fun _ limit => _fetch_rss_records utc_now_iso http parse_xml feed_url timeout limit).
Proof using Pclock Phttp.
  intros since limit. unfold _fetch_rss_records. destruct (limit <=? 0); [split; [auto with preserve|by intros s s' ds [= _ <-]]|].
  unfold _http_get_text, _parse_rss_items. split.
  - apply preserves_bind; [auto with preserve|]. intros raw. apply preserves_bind; [auto with preserve|]. intros root.
    apply preserves_bind; [apply rss_items_good|]. intros [items []]; [auto with preserve|apply atom_entries_good].
  - intros s s' ds (s1 & raw & _ & H)%prog_bind_Ok. apply prog_bind_Ok in H as (s2 & root & _ & H).
    apply prog_bind_Ok in H as (s3 & [items b] & Hr & H). apply rss_items_good in Hr; [|constructor]. simpl in Hr.
    destruct b; [by injection H as _ <-|]. by eapply atom_entries_good.
Qed.

Lemma x_rows_good c rows :
  preserves P (x_rows utc_now_iso c rows) /\
  forall s s' ds, x_rows utc_now_iso c rows s = (s', Ok ds) -> Forall good_mapping ds.
Proof using Pclock.
  induction rows as [|row rows [IH1 IH2]]; simpl; [split; [auto with preserve|by intros s s' ds [= _ <-]]|].
  destruct row as [| | | | | | |item]; try by split.
  destruct (is_empty (strip (py_str (dget_or "id" (VStr "") item)))) eqn:Ei; [by split|].
  destruct (is_empty (strip (py_str (dget_or "text" (VStr "") item)))) eqn:Et; [by split|]. simpl. split.
  - auto with preserve.
  - intros s s' ds (s1 & published & _ & H)%prog_bind_Ok. apply prog_bind_Ok in H as (s2 & records & Hr & H).
    injection H as _ <-. constructor; [|by eapply IH2]. apply x_record_good; by apply strip_stripped.
Qed.

Lemma x_source_good c : good_source (fetch_records utc_now_iso http c).
Proof using Pclock Phttp.
  intros since limit. unfold fetch_records. destruct (limit <=? 0); [split; [auto with preserve|by intros s s' ds [= _ <-]]|].
  unfold _default_fetch_json. split.
  - apply preserves_bind; [auto with preserve|]. intros payload. destruct (dget "data" payload); auto with preserve.
    apply x_rows_good.
  - intros s s' ds (s1 & payload & _ & H)%prog_bind_Ok.
    destruct (dget "data" payload); try by injection H as _ <-. by eapply x_rows_good.
Qed.

Lemma mock_source_good : good_source (_fetch_mock_records utc_now_iso unix_time).
Proof using Pclock Ptime.
  intros since limit. unfold _fetch_mock_records. destruct (limit <=? 0); [split; [auto with preserve|by intros s s' ds [= _ <-]]|].
  split; [auto with preserve|]. intros s s' ds (s1 & t & _ & H)%prog_bind_Ok.
  apply prog_bind_Ok in H as (s2 & n & _ & H). injection H as _ <-. apply Forall_singleton, mock_record_good.
Qed.

(** ** What the framework hands to ingestion *)

Lemma read_mapping_complete d dflt s s' r :
  good_mapping d -> strip dflt <> ""%string -> read_mapping utc_now_iso d dflt s = (s', Ok r) -> complete r = true.
Proof using Hclock.
  intros Hd Hdf (s1 & published & Hp & H)%prog_bind_Ok. injection H as _ <-.
  destruct (Hd "source_item_id"%string) as (sid & Hid & Vid); [by left|].
  destruct (Hd "title"%string) as (title & Ht & Vt); [right; by left|].
  destruct (Hd "url"%string) as (url & Hu & Vu); [do 2 right; by left|].
  unfold complete, dget_or, dget. cbn [nr_source nr_source_item_id nr_title nr_url nr_published_at].
  rewrite Hid, Ht, Hu. cbn [default from_option id py_str]. rewrite !strip_idemp.
  assert (forall t, strip t <> ""%string -> negb (is_empty (strip t)) = true) as Hne.
  { intros t Hv. by destruct (strip t). }
  rewrite !andb_true_iff. split_and!; try by apply Hne.
  - set (t := py_str _). unfold str_or. destruct (is_empty (strip t)) eqn:E; [by apply Hne|]. by rewrite strip_idemp, E.
  - apply Hne. destruct (is_empty (strip (py_str (default (VStr "") (dict_get "published_at" d))))) eqn:E.
    + unfold dget_or in Hp. rewrite E in Hp. by apply Hclock in Hp.
    + unfold dget_or in Hp. rewrite E in Hp. injection Hp as _ <-. by apply strip_stripped.
Qed.

Lemma preserves_normalize item dflt : preserves P (_normalize_source_record utc_now_iso item dflt).
Proof using Pclock.
  unfold _normalize_source_record, read_mapping. destruct item as [r|d]; [auto with preserve|].
  apply preserves_bind; [|auto with preserve]. apply preserves_bind; [|auto with preserve].
  destruct (is_empty _); auto with preserve.
Qed.

Lemma normalize_all_complete ds dflt s s' rs :
  strip dflt <> ""%string -> Forall good_mapping ds ->
  map_prog (fun item => _normalize_source_record utc_now_iso item dflt) (SourceMapping <$> ds) s = (s', Ok rs) ->
  Forall (fun r => complete r = true) rs.
Proof using Hclock.
  intros Hdf Hds. revert s s' rs. induction Hds as [|d ds Hd _ IH]; intros s s' rs; [by intros [= _ <-]|].
  rewrite fmap_cons. cbn [map_prog].
  intros (s1 & r & Hr & H)%prog_bind_Ok. apply prog_bind_Ok in H as (s2 & rest & Hrest & H). injection H as _ <-.
  apply prog_bind_Ok in Hr as (s3 & r' & Hread & Hr). apply prog_bind_Ok in Hr as (s4 & [] & _ & Hr).
  injection Hr as _ <-. constructor; [by eapply read_mapping_complete|by eapply IH].
Qed.

Lemma preserves_map_prog {A B} (f : A -> prog S B) l : (forall a, preserves P (f a)) -> preserves P (map_prog f l).
Proof using Type. intros Hf. induction l as [|a l IH]; simpl; auto with preserve. Qed.

(** A connector whose fetches leave [P] alone and whose records can be ingested. *)
Definition sound_connector (c : NewsSourceConnector S) : Prop :=
  forall since limit, preserves P (cn_fetch c since limit) /\
    forall s s' r, cn_fetch c since limit s = (s', Ok r) -> Forall (fun r => complete r = true) (fr_items r).

Lemma register_source_sound id kind fetcher registry registry' :
  good_source fetcher -> Forall sound_connector registry ->
  register_source utc_now_iso id kind fetcher registry = Ok registry' -> Forall sound_connector registry'.
Proof using Hclock Pclock.
  intros Hf Hreg. unfold register_source, callable_connector, register.
  destruct (is_empty (strip id)) eqn:Eid; [done|]. cbn [raise_if mbind result_bind].
  destruct (negb _); [done|]. cbn [raise_if mbind result_bind cn_connector_id].
  destruct (find_connector _ _); [done|]. intros [= <-]. apply Forall_app. split; [done|]. apply Forall_singleton.
  intros since limit. cbn [cn_fetch]. unfold fetch, mappings. destruct (Hf since limit) as [Hp Hy]. split.
  - apply preserves_bind; [auto with preserve|]. intros _. apply preserves_bind; [auto with preserve|]. intros raw.
    apply preserves_bind; [|auto with preserve]. apply preserves_map_prog. intros item. apply preserves_normalize.
  - intros s s' r (s1 & [] & _ & H)%prog_bind_Ok. apply prog_bind_Ok in H as (s2 & raw & Hraw & H).
    apply prog_bind_Ok in Hraw as (s3 & ds & Hds & Hraw). injection Hraw as _ <-.
    apply prog_bind_Ok in H as (s4 & rs & Hrs & H). apply prog_bind_Ok in H as (s5 & t & _ & H).
    injection H as _ <-. cbn [fr_items]. eapply normalize_all_complete; [|by eapply Hy|exact Hrs]. by apply strip_stripped.
Qed.

Lemma register_feeds_sound config idx feeds registry registry' :
  Forall sound_connector registry -> register_feeds utc_now_iso http parse_xml config idx feeds registry = Ok registry' ->
  Forall sound_connector registry'.
Proof using Hclock Pclock Phttp.
  revert idx registry. induction feeds as [|feed feeds IH]; intros idx registry Hreg; simpl; [by intros [= <-]|].
  intros (r1 & H1 & H2)%bind_Ok. eapply IH; [|exact H2]. eapply register_source_sound; [|exact Hreg|exact H1].
  apply rss_source_good.
Qed.

Lemma build_registry_sound config registry :
  build_registry utc_now_iso unix_time http parse_xml config = Ok registry -> Forall sound_connector registry.
Proof using All.
  unfold build_registry. destruct (String.eqb _ _).
  - intros (r1 & H1 & H2)%bind_Ok. apply register_feeds_sound in H1; [|constructor].
    destruct (_ && _); [|by injection H2 as <-]. apply bind_Ok in H2 as (x & _ & H2).
    eapply register_source_sound; [apply x_source_good|exact H1|exact H2].
  - intros H. eapply register_source_sound; [apply mock_source_good|constructor|exact H].
Qed.
End sound.

(** ** A cycle with the in-memory stores

    Items, tags and summaries, and the world outside. *)
Abbreviation news_stores W := (InMemoryNewsItemStore * (list NewsTag * (list NewsSummaryArtifact * W)))%type.

#[export] Instance second_tags {A W} : NewsTagStore (A * (list NewsTag * W)) := {|
  persist_tag tag := modify (fun s => (s.1, (s.2.1 ++ [tag], s.2.2))) |}.

#[export] Instance third_summaries {A B W} : NewsSummaryStore (A * (B * (list NewsSummaryArtifact * W))) := {|
  persist_summary summary := modify (fun s => (s.1, (s.2.1, (s.2.2.1 ++ [summary], s.2.2.2)))) |}.

Definition in_world {W A} (m : prog W A) : prog (news_stores W) A :=
  zoom (fun s => s.2.2.2) (fun w s => (s.1, (s.2.1, (s.2.2.1, w)))) m.

(** The stores hold what they held. *)
Definition stores_are {W} (items : InMemoryNewsItemStore) (tags : list NewsTag) (sums : list NewsSummaryArtifact)
    (s : news_stores W) : Prop := s.1 = items /\ s.2.1 = tags /\ s.2.2.1 = sums.

Definition tags_are {W} (tags : list NewsTag) (sums : list NewsSummaryArtifact) (s : news_stores W) : Prop :=
  s.2.1 = tags /\ s.2.2.1 = sums.

Lemma in_world_stores {W A} (m : prog W A) items tags sums : preserves (stores_are items tags sums) (in_world m).
Proof. intros s Hs. unfold in_world, zoom. destruct (m _) as [w r]. exact Hs. Qed.

Lemma in_world_tags {W A} (m : prog W A) tags sums : preserves (tags_are tags sums) (in_world m).
Proof. intros s Hs. unfold in_world, zoom. destruct (m _) as [w r]. exact Hs. Qed.

Lemma ingest_keeps_tags {W} (uuid now : prog W string) records tags sums :
  preserves (tags_are tags sums) (ingest (in_world uuid) (in_world now) records).
Proof.
  pose proof (in_world_tags uuid tags sums) as Hu. pose proof (in_world_tags now tags sums) as Hn.
  assert (forall r, preserves (tags_are tags sums) (ingest_record (in_world uuid) (in_world now) r)) as Hr.
  { intros r. unfold ingest_record, _normalize_record. apply preserves_bind; [auto 12 with preserve|]. intros item.
    apply preserves_bind; [cbn; auto with preserve|]. intros [|]; [auto with preserve|].
    apply preserves_bind; [cbn; auto with preserve|]. intros [|]; [auto with preserve|].
    apply preserves_bind; [|auto with preserve]. by intros s. }
  unfold ingest. enough (forall outs a b, preserves (tags_are tags sums)
    (ingest_loop (in_world uuid) (in_world now) records outs a b)) as Hall by apply Hall.
  induction records as [|r records IH]; intros outs a b; cbn [ingest_loop]; [auto with preserve|].
  apply preserves_bind; [apply Hr|]. intros o. apply IH.
Qed.

Lemma tag_items_second {A W} items (x : A) tags (w : W) :
  exists result, tag_items [] [] items (x, (tags, w)) =
    ((x, (tags ++ (tag_item _SYMBOL_KEYWORDS _TOPIC_KEYWORDS <$> items), w)), Ok result) /\
    tb_tags result = tag_item _SYMBOL_KEYWORDS _TOPIC_KEYWORDS <$> items.
Proof.
  unfold tag_items. cbn [keywords_or]. set (tg := tag_item _ _).
  assert (forall n acc tags, exists result, tag_loop _SYMBOL_KEYWORDS _TOPIC_KEYWORDS items n acc (x, (tags, w)) =
    ((x, (tags ++ (tg <$> items), w)), Ok result) /\ tb_tags result = acc ++ (tg <$> items)) as Hall; [|apply Hall].
  induction items as [|item items IH]; intros n acc ts.
  { eexists. cbn. rewrite !app_nil_r. by split. }
  cbn [tag_loop persist_tag second_tags]. rewrite modify_bind. cbn [fst snd].
  destruct (IH (n + 1) (acc ++ [tg item]) (ts ++ [tg item])) as (result & Hr & Ht).
  exists result. rewrite fmap_cons. rewrite <- app_assoc in Hr, Ht. by split.
Qed.

Lemma item_of_known items id : is_Some (item_of items id) -> id ∈ ni_news_id <$> items.
Proof.
  unfold item_of. intros [item Hf]. apply find_some in Hf as [Hin He]. apply String.eqb_eq in He as <-.
  apply list_elem_of_fmap_2. apply list_elem_of_In. by apply in_rev.
Qed.

Lemma clamp01_not_nan x : is_nan (clamp01 x) = false.
Proof. by destruct (fleb_not_nan _ _ (proj1 (clamp01_bounds x))). Qed.

Lemma tagged_scored symbols topics items : Forall scored (tag_item symbols topics <$> items).
Proof.
  apply Forall_forall. intros t (item & -> & _)%list_elem_of_fmap. unfold tag_item.
  destruct (_best_match _ symbols) as [symbol sh], (_best_match _ topics) as [topic th].
  split; cbn [nt_relevance_score nt_sentiment_score].
  - apply clamp01_not_nan.
  - by destruct (fleb_not_nan _ _ (proj1 (sentiment_bounds (_normalize_text item)))).
Qed.

Lemma selected_registered {S} (registry : SourceConnectorRegistry S) filter c :
  c ∈ selected registry filter -> c ∈ registry.
Proof.
  unfold selected, list_connectors. rewrite list_elem_of_In, filter_In, <- list_elem_of_In. intros [Hin _].
  apply list_elem_of_omap in Hin as (key & _ & Hf). apply find_some in Hf as [Hin _]. by apply list_elem_of_In.
Qed.

Section pipeline.
Context {W : Type} (now uuid : prog W string) (time : prog W Z) (web : http_request -> prog W http_reply)
        (parse_xml : string -> result element).
Context (Hnow : forall w, exists w' t, now w = (w', Ok t) /\ strip t <> ""%string).
Context (Huuid : forall w, exists w' id, uuid w = (w', Ok id)).

Lemma in_world_total {A} (m : prog W A) (Hm : forall w, exists w' a, m w = (w', Ok a)) items rest :
  exists rest' a, in_world m (items, rest) = ((items, rest'), Ok a).
Proof using Type.
  destruct (Hm rest.2.2) as (w' & a & Ha). unfold in_world, zoom. cbn [fst snd]. rewrite Ha. by do 2 eexists.
Qed.

Lemma now_total w : exists w' t, now w = (w', Ok t).
Proof using Hnow. destruct (Hnow w) as (w' & t & Ht & _). by exists w', t. Qed.

(** The cycle gives records that can be ingested and leaves the stores alone. *)
Lemma cycle_ok config registry items tags sums w :
  build_registry (in_world now) (in_world time) (fun q => in_world (web q)) parse_xml config = Ok registry ->
  exists w' cycle, fetch_cycle (in_world now) registry None 10 [] (items, (tags, (sums, w))) =
    ((items, (tags, (sums, w'))), Ok cycle) /\ Forall (fun r => complete r = true) (cy_items cycle) /\
    cy_total_items cycle = Z.of_nat (List.length (cy_items cycle)).
Proof using Hnow.
  intros Hreg.
  assert (forall items tags sums, Forall (sound_connector (stores_are items tags sums)) registry) as Hsound.
  { intros i t u. eapply build_registry_sound; [| | | |exact Hreg].
    - intros s s' txt. unfold in_world, zoom. destruct (Hnow s.2.2.2) as (w' & t' & Ht & Hv). rewrite Ht.
      by intros [= _ <-].
    - apply in_world_stores.
    - apply in_world_stores.
    - intros q. apply in_world_stores. }
  destruct (fetch_loop_ok (in_world now)) with (since := @None string) (limit := 10) (cs := selected registry [])
    (rs := @nil ConnectorFetchResult) (its := @nil NewsSourceRecord) (ds := @nil string) (s := (items, (tags, (sums, w))))
    as (s' & news & Hall & Hl).
  { intros [i rest]. destruct (in_world_total now now_total i rest) as (rest' & t & Ht). by do 2 eexists. }
  assert (stores_are items tags sums s') as (H1 & H2 & H3).
  { apply (f_equal fst) in Hl. simpl in Hl. rewrite <- Hl.
    assert (forall cs rs its ds, (forall c, c ∈ cs -> c ∈ registry) ->
      preserves (stores_are items tags sums) (fetch_loop (in_world now) None 10 cs rs its ds)) as Hp.
    { induction cs as [|c cs IH]; intros rs its ds Hcs; cbn [fetch_loop]; [auto with preserve|].
      apply preserves_bind; [|intros r; apply IH; intros x Hx; apply Hcs; by right].
      intros s0 Hs0. unfold fetch_isolated. pose proof (Hsound items tags sums) as Hs. rewrite Forall_forall in Hs.
      destruct (Hs c ltac:(apply Hcs; left) None 10) as [Hk _]. specialize (Hk s0 Hs0).
      destruct (cn_fetch c None 10 s0) as [s1 [r|e]]; [done|].
      apply (preserves_bind (stores_are items tags sums)); [apply in_world_stores|auto with preserve|done]. }
    apply Hp; [|done]. intros c. apply selected_registered. }
  destruct s' as [i' [t' [u' w']]]. cbn in H1, H2, H3. subst. exists w'. eexists.
  split; [unfold fetch_cycle; rewrite lift_bind; exact Hl|]. cbn [cy_items cy_total_items]. split; [|done].
  change (@nil NewsSourceRecord ++ (news ≫= fr_items)) with (news ≫= fr_items).
  apply Forall_forall. intros r Hr. apply list_elem_of_bind in Hr as (res & Hr & Hres).
  apply list_elem_of_lookup in Hres as [k Hk]. destruct (Forall2_lookup_r _ _ _ _ _ Hall Hk) as (c & Hc & Hcon).
  destruct Hcon as (s1 & s2 & [Hf|(_ & _ & He & _)]); [|rewrite He in Hr; by apply elem_of_nil in Hr].
  pose proof (Hsound items tags sums) as Hs. rewrite Forall_forall in Hs.
  assert (c ∈ registry) as Hcr by (apply (selected_registered registry []); by eapply list_elem_of_lookup_2).
  destruct (Hs c Hcr None 10) as [_ Hcomp]. specialize (Hcomp _ _ _ Hf). rewrite Forall_forall in Hcomp. by apply Hcomp.
Qed.

Lemma on_stores_bind {S A B} (m : prog S A) (f : A -> prog (dict * S) B) activity st st' a :
  m st = (st', Ok a) -> (on_stores m ≫= f) (activity, st) = f a (activity, st').
Proof using Type. intros Hm. unfold mbind, prog_bind, on_stores, zoom. cbn [snd]. by rewrite Hm. Qed.

(** What one cycle adds: the new items, a tag for each of them in order, and, when
    there is any, a summary that tells at most five of them. *)
Definition cycle_adds (items items' : InMemoryNewsItemStore) (tags tags' : list NewsTag)
    (sums sums' : list NewsSummaryArtifact) (b : bool) : Prop :=
  store_ok items' /\ exists new told,
    ns_items items' = ns_items items ++ new /\
    tags' = tags ++ (tag_item _SYMBOL_KEYWORDS _TOPIC_KEYWORDS <$> new) /\
    sums' = sums ++ told /\ b = negb (bool_decide (new = [])) /\ List.length told = (if b then 1 else 0)%nat /\
    Forall (fun a => Z.of_nat (List.length (sa_source_news_ids a)) <= 5 /\
                     forall id, id ∈ sa_source_news_ids a -> id ∈ ni_news_id <$> new) told.

Lemma summarize_total items tags sums w scope start_ end_ new news_tags :
  Forall scored news_tags ->
  exists w' artifact, summarize_window (in_world uuid) (in_world now) scope start_ end_ new news_tags 5 (items, (tags, (sums, w))) =
    ((items, (tags, (sums ++ [artifact], w'))), Ok artifact) /\
    Z.of_nat (List.length (sa_source_news_ids artifact)) <= 5 /\
    forall id, id ∈ sa_source_news_ids artifact -> id ∈ ni_news_id <$> new.
Proof using Hnow Huuid.
  intros Hsc. unfold summarize_window. rewrite lift_bind. cbn [raise_if Z.leb Z.compare].
  destruct (Huuid w) as (w1 & id & Hid), (Hnow w1) as (w2 & t & Ht & _).
  unfold mbind, prog_bind, in_world, zoom. cbn [fst snd]. rewrite Hid. cbn [fst snd]. rewrite Ht.
  cbn [persist_summary third_summaries modify fst snd]. do 2 eexists. split; [reflexivity|]. cbn [sa_source_news_ids].
  set (sc := str_or _ _).
  destruct (select_ids_spec new 5 (scoped sc news_tags) []) as (ids & E & _ & Hle & Hin & _).
  - apply (sort_by_strong_on scored); [apply tag_geb_total|apply tag_geb_trans|]. apply Forall_forall. intros x Hx.
    rewrite list_elem_of_In in Hx. apply filter_In in Hx as [Hx _]. rewrite <- list_elem_of_In in Hx.
    by apply (proj1 (Forall_forall _ _) Hsc).
  - constructor.
  - simpl. lia.
  - rewrite E in *. split; [exact Hle|]. intros x Hx. by apply item_of_known, Hin.
Qed.

Lemma inserted_items_all batch :
  Forall outcome_ok (nb_outcomes batch) ->
  inserted_items batch = omap no_item (nb_outcomes batch).
Proof using Type.
  unfold inserted_items. induction 1 as [|o os Ho _ IH]; [done|]. csimpl. unfold outcome_ok in Ho. rewrite Ho, IH.
  by destruct (no_item o).
Qed.

(** C27. A cycle of the worker never fails, whatever the feeds, the social API and
    the network do: it returns, the item store stays without duplicates, each new
    item is stored and tagged once, in order, and when there is a new item exactly
    one summary is stored, which tells at most five of the new items. The cycle
    reports work exactly when there was a new item. *)
Theorem news_cycle_accounts config registry mode activity items tags sums w :
  store_ok items ->
  build_registry (in_world now) (in_world time) (fun q => in_world (web q)) parse_xml config = Ok registry ->
  exists activity' items' tags' sums' w' b,
    run_once (in_world now) (in_world uuid) mode registry (activity, (items, (tags, (sums, w)))) =
      ((activity', (items', (tags', (sums', w')))), Ok b) /\
    cycle_adds items items' tags tags' sums sums' b.
Proof using Hnow Huuid.
  intros Hok Hreg. destruct (cycle_ok config registry items tags sums w Hreg) as (w1 & cycle & Hc & Hcomp & Htot).
  unfold run_once, set_activity, note_activity. rewrite (on_stores_bind _ _ _ _ _ _ Hc), modify_bind. cbn [fst snd].
  assert (forall (act : dict) (w0 : W), exists activity' items' tags' sums' w' b,
    ((act, (items, (tags, (sums, w0)))), Ok false) = ((activity', (items', (tags', (sums', w')))), Ok b) /\
    cycle_adds items items' tags tags' sums sums' b) as Hidle.
  { intros act w0. do 6 eexists. split; [reflexivity|]. split; [done|]. exists [], []. rewrite !app_nil_r. by split_and!. }
  destruct (Z.eqb_spec (cy_total_items cycle) 0) as [Hz|Hz]; [apply Hidle|].
  destruct (ingest_loop_ok (in_world uuid) (in_world now)) with (records := cy_items cycle)
    (outs := @nil NewsIngestionOutcome) (a := 0) (b := 0) (st := items) (w := (tags, (sums, w1)))
    as (items' & rest & outs & Hl & _ & Hok' & Hi & _); [| |done|done|].
  { intros st r. apply (in_world_total uuid Huuid). }
  { intros st r. apply (in_world_total now now_total). }
  set (batch := {| nb_total_records := _ |}) in Hl.
  assert (tags_are tags sums (items', rest)) as [H1 H2].
  { pose proof (ingest_keeps_tags uuid now (cy_items cycle) tags sums (items, (tags, (sums, w1)))) as Hk.
    unfold ingest in Hk. rewrite Hl in Hk. by apply Hk. }
  destruct rest as [t' [u' w2]]. cbn in H1, H2. subst t' u'.
  rewrite (on_stores_bind (ingest (in_world uuid) (in_world now) (cy_items cycle)) _ _ _ _ _ Hl), modify_bind. cbn [fst snd].
  rewrite (inserted_items_all batch) by (eapply ingest_outcomes; exact Hl).
  change (omap no_item (nb_outcomes batch)) with (omap no_item outs).
  destruct (omap no_item outs) as [|item new'] eqn:Enew.
  { do 6 eexists. split; [reflexivity|]. split; [done|]. exists [], []. rewrite !app_nil_r. rewrite app_nil_r in Hi.
    by split_and!. }
  set (new := item :: new') in *.
  destruct (tag_items_second new items' tags (sums, w2)) as (tr & Htag & Htags).
  rewrite (on_stores_bind _ _ _ _ _ _ Htag).
  destruct (Hnow w2) as (w3 & t3 & Ht3 & _), (Hnow w3) as (w4 & t4 & Ht4 & _).
  rewrite (on_stores_bind (in_world now) _ _ _ (items', (tags ++ (tag_item _SYMBOL_KEYWORDS _TOPIC_KEYWORDS <$> new), (sums, w3))) t3)
    by (unfold in_world, zoom; cbn [fst snd]; by rewrite Ht3).
  rewrite (on_stores_bind (in_world now) _ _ _ (items', (tags ++ (tag_item _SYMBOL_KEYWORDS _TOPIC_KEYWORDS <$> new), (sums, w4))) t4)
    by (unfold in_world, zoom; cbn [fst snd]; by rewrite Ht4).
  destruct (summarize_total items' (tags ++ (tag_item _SYMBOL_KEYWORDS _TOPIC_KEYWORDS <$> new)) sums w4 "GLOBAL" t3 t4 new
    (tb_tags tr)) as (w5 & artifact & Hsum & Hle & Hin); [rewrite Htags; apply tagged_scored|].
  rewrite (on_stores_bind _ _ _ _ _ _ Hsum), !modify_bind. cbn [fst snd].
  do 6 eexists. split; [reflexivity|]. split; [done|]. exists new, [artifact]. split_and!; try done.
  apply Forall_singleton. by split.
Qed.
End pipeline.

(** ** Example: a cycle of the mock source *)
Module Example_worker.

Definition now : prog Z string := fun w => (w, Ok "2026-01-01T00:00:00Z"%string).
Definition uuid : prog Z string := fun w => (w + 1, Ok (str_of_Z w)).
Definition time : prog Z Z := fun w => (w, Ok 1767225600).
Definition web (q : http_request) : prog Z http_reply := fun w => (w, Ok (HttpError "unreachable")).
Definition no_xml (s : string) : result element := raise (ExternalError "ParseError") "no element found".

Definition config : news_config := news_config_of "mock" [] (flit 8 0) false "" None "".

Definition registry : SourceConnectorRegistry (news_stores Z) :=
  match build_registry (in_world now) (in_world time) (fun q => in_world (web q)) no_xml config with
  | Ok r => r
  | Raise _ => []
  end.

Definition no_news : InMemoryNewsItemStore := {| ns_items := []; ns_hashes := [] |}.

Lemma news_cycle_accounts_witness :
  exists activity' items' tags' sums' w' b,
    run_once (in_world now) (in_world uuid) "mock" registry ([], (no_news, ([], ([], 0)))) =
      ((activity', (items', (tags', (sums', w')))), Ok b) /\
    cycle_adds no_news items' [] tags' [] sums' b.
Proof.
  apply (news_cycle_accounts now uuid time web no_xml) with (config := config).
  - intros w. exists w, "2026-01-01T00:00:00Z"%string. split; [done|]. by vm_compute.
  - intros w. by exists (w + 1), (str_of_Z w).
  - split_and!; constructor.
  - reflexivity.
Defined.

(** The first cycle finds the mock story, the second finds nothing new. *)
Example mock_cycles :
  let run s := run_once (in_world now) (in_world uuid) "mock" registry s in
  let s1 := run ([], (no_news, ([], ([], 0)))) in
  (s1.2, (run s1.1).2) = (Ok true, Ok false).
Proof. vm_compute. reflexivity. Qed.
End Example_worker.
