(* ===== verification/NewsStores.v ===== *)
(** * The news tables

    [SQLAlchemyNewsItemStore], [SQLAlchemyNewsTagStore] and [SQLAlchemyNewsSummaryStore] of
    [services/workers/runtime_persistence.py], as instances of the store interfaces of the
    news components. [W] is what the clock and the id factories of the services work on;
    the times the stores write themselves are read from the state. Every statement is
    committed on its own. *)

From S2P Require Import Prelude PyStr PyFloat PyTime PyVal PyJson SqlTable NewsIngestion NewsTagging NewsSummaries.
From stdpp Require Import options.
From Stdlib Require Import Ascii String.

#[local] Open Scope Z_scope.

(** ** Tables *)

Record item_row := {
  iw_news_id : string; iw_source : string; iw_source_item_id : string; iw_url : string; iw_title : string; iw_body : option string;
  iw_published_at : string; iw_ingested_at : string; iw_hash : string; iw_language : string; iw_raw_payload : string;
  iw_created_at : string }.

Record tag_row := {
  tw_news_id : string; tw_symbol : option string; tw_topic : option string; tw_relevance_score : f64; tw_sentiment_score : f64;
  tw_created_at : string }.

Record summary_row := {
  sw_summary_id : string; sw_symbol_scope : string; sw_window_start : string; sw_window_end : string; sw_summary_text : string;
  sw_token_count : Z; sw_generated_at : string }.

Record source_row := { cw_summary_id : string; cw_news_id : string; cw_created_at : string }.

Record news_db := {
  nw_items : list item_row; nw_tags : list tag_row; nw_summaries : list summary_row; nw_sources : list source_row;
  nw_clock : nat -> Z; nw_tick : nat }.

Definition set_items t db := {| nw_items := t; nw_tags := nw_tags db; nw_summaries := nw_summaries db; nw_sources := nw_sources db;
  nw_clock := nw_clock db; nw_tick := nw_tick db |}.
Definition set_tags t db := {| nw_items := nw_items db; nw_tags := t; nw_summaries := nw_summaries db; nw_sources := nw_sources db;
  nw_clock := nw_clock db; nw_tick := nw_tick db |}.
Definition set_summaries t db := {| nw_items := nw_items db; nw_tags := nw_tags db; nw_summaries := t; nw_sources := nw_sources db;
  nw_clock := nw_clock db; nw_tick := nw_tick db |}.
Definition set_sources t db := {| nw_items := nw_items db; nw_tags := nw_tags db; nw_summaries := nw_summaries db; nw_sources := t;
  nw_clock := nw_clock db; nw_tick := nw_tick db |}.

Definition clock_reading : prog news_db Z := fun db =>
  ({| nw_items := nw_items db; nw_tags := nw_tags db; nw_summaries := nw_summaries db; nw_sources := nw_sources db;
      nw_clock := nw_clock db; nw_tick := S (nw_tick db) |}, Ok (nw_clock db (nw_tick db))).

(** [_utc_now_iso()], and [CURRENT_TIMESTAMP] as SQLite prints it *)
Definition news_clock : prog news_db string := now ← clock_reading; mret (iso_z now).
Definition sql_clock : prog news_db string := now ← clock_reading; mret (replace "T" " " (str_take 19 (isoformat (utc now)))).

(** ** Items *)

Definition item_row_key (r : item_row) : string * string := (iw_source r, iw_source_item_id r).

Definition sql_has_source_item (source source_item_id : string) : prog news_db bool :=
  gets (fun db => existsb (fun r => bool_decide (item_row_key r = (source, source_item_id))) (nw_items db)).

Definition sql_has_hash (content_hash : string) : prog news_db bool :=
  gets (fun db => existsb (fun r => String.eqb (iw_hash r) content_hash) (nw_items db)).

Definition item_values (item : NormalizedNewsItem) (created_at : string) : result item_row :=
  raw ← json_dumps json_plain (VDict (ni_raw_payload item));
  Ok {| iw_news_id := ni_news_id item; iw_source := ni_source item; iw_source_item_id := ni_source_item_id item; iw_url := ni_url item;
        iw_title := ni_title item; iw_body := ni_body item; iw_published_at := ni_published_at item; iw_ingested_at := ni_ingested_at item;
        iw_hash := ni_content_hash item; iw_language := ni_language item; iw_raw_payload := raw; iw_created_at := created_at |}.

(** The conflicting row keeps its id, its key and its creation time. *)
Definition merge_item (new old : item_row) : item_row :=
  {| iw_news_id := iw_news_id old; iw_source := iw_source old; iw_source_item_id := iw_source_item_id old; iw_url := iw_url new;
     iw_title := iw_title new; iw_body := iw_body new; iw_published_at := iw_published_at new; iw_ingested_at := iw_ingested_at new;
     iw_hash := iw_hash new; iw_language := iw_language new; iw_raw_payload := iw_raw_payload new; iw_created_at := iw_created_at old |}.

(** [ON CONFLICT (source, source_item_id)]: a news id that another item has is an error. *)
Definition put_item_row (row : item_row) (t : list item_row) : result (list item_row) :=
  if existsb (fun r => bool_decide (item_row_key r = item_row_key row)) t
  then Ok (upsert_row (fun r => bool_decide (item_row_key r = item_row_key row)) (merge_item row) row t)
  else insert_row "news_items.news_id" (fun r => String.eqb (iw_news_id r) (iw_news_id row)) row t.

Definition sql_persist_item (item : NormalizedNewsItem) : prog news_db unit :=
  created_at ← sql_clock;
  row ← lift (item_values item created_at);
  items ← gets nw_items;
  items' ← lift (put_item_row row items);
  modify (set_items items').

(** ** Tags and summaries *)

Definition sql_persist_tag (tag : NewsTag) : prog news_db unit :=
  created_at ← news_clock;
  relevance ← lift (not_null "news_tags.relevance_score" (nt_relevance_score tag));
  sentiment ← lift (not_null "news_tags.sentiment_score" (nt_sentiment_score tag));
  modify (fun db => set_tags (nw_tags db ++
    [{| tw_news_id := nt_news_id tag; tw_symbol := nt_symbol tag; tw_topic := Some (nt_topic tag); tw_relevance_score := relevance;
        tw_sentiment_score := sentiment; tw_created_at := created_at |}]) db).

Definition window_key (r : summary_row) : string * string * string := (sw_symbol_scope r, sw_window_start r, sw_window_end r).

Definition summary_values (a : NewsSummaryArtifact) : summary_row :=
  {| sw_summary_id := sa_summary_id a; sw_symbol_scope := sa_symbol_scope a; sw_window_start := sa_window_start a;
     sw_window_end := sa_window_end a; sw_summary_text := sa_summary_text a; sw_token_count := sa_token_count a;
     sw_generated_at := sa_generated_at a |}.

(** The new summary of a window takes the place of the old one, with a new id. *)
Definition put_summary_row (row : summary_row) (t : list summary_row) : result (list summary_row) :=
  _ ← raise_if (existsb (fun r => String.eqb (sw_summary_id r) (sw_summary_id row) && negb (bool_decide (window_key r = window_key row))) t)
        IntegrityError "UNIQUE constraint failed: news_summaries.summary_id";
  Ok (upsert_row (fun r => bool_decide (window_key r = window_key row)) (fun _ => row) row t).

Definition source_key (r : source_row) : string * string := (cw_summary_id r, cw_news_id r).

Definition persist_source (summary_id news_id : string) : prog news_db unit :=
  created_at ← news_clock;
  modify (fun db => set_sources
    (if existsb (fun r => bool_decide (source_key r = (summary_id, news_id))) (nw_sources db) then nw_sources db
     else nw_sources db ++ [{| cw_summary_id := summary_id; cw_news_id := news_id; cw_created_at := created_at |}]) db).

Definition sql_persist_summary (a : NewsSummaryArtifact) : prog news_db unit :=
  summaries ← gets nw_summaries;
  summaries' ← lift (put_summary_row (summary_values a) summaries);
  _ ← modify (set_summaries summaries');
  for_each (persist_source (sa_summary_id a)) (sa_source_news_ids a).

Definition on_db {W A} (m : prog news_db A) : prog (news_db * W) A := zoom fst (fun db s => (db, s.2)) m.

#[export] Instance sql_items {W} : NewsItemStore (news_db * W) := {
  has_source_item source id := on_db (sql_has_source_item source id); has_hash h := on_db (sql_has_hash h);
  persist_item item := on_db (sql_persist_item item) }.
#[export] Instance sql_tags {W} : NewsTagStore (news_db * W) := { persist_tag tag := on_db (sql_persist_tag tag) }.
#[export] Instance sql_summaries {W} : NewsSummaryStore (news_db * W) := { persist_summary a := on_db (sql_persist_summary a) }.

(** ** The tables deduplicate as the store in memory does *)

Definition on_world {X W A} (m : prog W A) : prog (X * W) A := zoom snd (fun w s => (s.1, w)) m.

(** The columns of a row are the fields of the item. *)
Definition row_of (row : item_row) (item : NormalizedNewsItem) : Prop :=
  iw_news_id row = ni_news_id item /\ item_row_key row = item_key item /\ iw_hash row = ni_content_hash item /\
  iw_url row = ni_url item /\ iw_title row = ni_title item /\ iw_body row = ni_body item /\ iw_published_at row = ni_published_at item /\
  iw_ingested_at row = ni_ingested_at item /\ iw_language row = ni_language item /\
  json_dumps json_plain (VDict (ni_raw_payload item)) = Ok (iw_raw_payload row).

Definition stored_as (db : news_db) (st : InMemoryNewsItemStore) : Prop :=
  Forall2 row_of (nw_items db) (ns_items st) /\ ns_hashes st = ni_content_hash <$> ns_items st.

Lemma row_keys rows items : Forall2 row_of rows items -> item_row_key <$> rows = item_key <$> items.
Proof. induction 1 as [|r i rows items (_ & E & _) _ IH]; [done|]. by rewrite !fmap_cons, E, IH. Qed.
Lemma row_hashes rows items : Forall2 row_of rows items -> iw_hash <$> rows = ni_content_hash <$> items.
Proof. induction 1 as [|r i rows items (_ & _ & E & _) _ IH]; [done|]. by rewrite !fmap_cons, E, IH. Qed.

Lemma existsb_hash h rows : existsb (fun r => String.eqb (iw_hash r) h) rows = bool_decide (h ∈ iw_hash <$> rows).
Proof.
  induction rows as [|r rows IH]; [done|]. cbn [existsb]. rewrite fmap_cons, IH. apply eq_true_iff_eq.
  rewrite orb_true_iff, !bool_decide_eq_true, elem_of_cons, String.eqb_eq. naive_solver.
Qed.

Lemma source_item_agrees db st source id :
  stored_as db st ->
  existsb (fun r => bool_decide (item_row_key r = (source, id))) (nw_items db) = bool_decide ((source, id) ∈ item_key <$> ns_items st).
Proof.
  intros [H _]. rewrite <- (row_keys _ _ H). destruct (existsb _ _) eqn:E; symmetry.
  - apply bool_decide_eq_true. destruct (decide ((source, id) ∈ item_row_key <$> nw_items db)) as [|Hn]; [done|].
    by rewrite (proj2 (existsb_key item_row_key _ _) Hn) in E.
  - apply bool_decide_eq_false. by apply existsb_key.
Qed.

Lemma sql_clock_bind {A} (f : string -> prog news_db A) db :
  (sql_clock ≫= f) db = f (replace "T" " " (str_take 19 (isoformat (utc (nw_clock db (nw_tick db)))))) (clock_reading db).1.
Proof. done. Qed.

Section refinement.
Context {W : Type} (uuid_factory now_factory : prog W string).
Abbreviation table_ingest := (ingest (S := news_db * W) (on_world uuid_factory) (on_world now_factory)).
Abbreviation memory_ingest := (ingest (S := InMemoryNewsItemStore * W) (on_world uuid_factory) (on_world now_factory)).

(** Normalising a record does not look at the store. *)
Lemma normalize_same X Y record (x : X) (y : Y) (w : W) item s' :
  _normalize_record (S := X * W) (on_world uuid_factory) (on_world now_factory) record (x, w) = (s', Ok item) ->
  exists w', s' = (x, w') /\
    _normalize_record (S := Y * W) (on_world uuid_factory) (on_world now_factory) record (y, w) = ((y, w'), Ok item).
Proof.
  unfold _normalize_record. rewrite !lift_bind. destruct (raise_if (is_empty (strip (nr_source record))) _ _); [|done].
  destruct (raise_if (is_empty (strip (nr_source_item_id record))) _ _); [|done].
  destruct (raise_if (is_empty (strip (nr_title record))) _ _); [|done].
  destruct (raise_if (is_empty (strip (default ""%string (nr_url record)))) _ _); [|done].
  destruct (raise_if (is_empty (strip (nr_published_at record))) _ _); [|done].
  unfold on_world, zoom, mbind, prog_bind. cbn [snd fst]. destruct (now_factory w) as [w1 [t|]]; [|done]. cbn [snd fst].
  destruct (uuid_factory w1) as [w2 [id|]]; [|done]. cbn [snd fst]. intros [= <- <-]. by exists w2.
Qed.

Lemma persist_same db st item db' (w : W) :
  stored_as db st -> item_key item ∉ item_key <$> ns_items st -> ni_content_hash item ∉ ns_hashes st ->
  sql_persist_item item db = (db', Ok tt) -> stored_as db' (store_persist item st).
Proof using Type.
  intros [Hr Hh] Hk Hn. unfold sql_persist_item. rewrite sql_clock_bind, lift_bind. unfold item_values. destruct (json_dumps _ _) as [raw|] eqn:Ed; [|done]. cbn [mbind result_bind].
  rewrite gets_bind, lift_bind. change (nw_items (clock_reading db).1) with (nw_items db).
  destruct (put_item_row _ _) as [rows|] eqn:Ep; [|done]. intros [= <-]. unfold stored_as. cbn [set_items nw_items].
  unfold put_item_row in Ep. cbn [item_row_key] in Ep.
  match type of Ep with context [existsb (fun r => bool_decide (item_row_key r = ?k)) ?t] => assert (existsb (fun r => bool_decide (item_row_key r = k)) t = false) as E0 end.
  { apply existsb_key. rewrite (row_keys _ _ Hr). exact Hk. }
  rewrite E0 in Ep. apply insert_row_Ok in Ep as [_ ->].
  cbn [store_persist ns_items ns_hashes]. rewrite put_item_fresh by done. rewrite bool_decide_eq_false_2 by done. split.
  - apply Forall2_app; [done|]. constructor; [|constructor]. by split_and!.
  - by rewrite fmap_app, Hh.
Qed.

(** One record: the outcome is the same, and the stores still agree. *)
Lemma record_same record db st (w : W) s' outcome :
  stored_as db st -> ingest_record (S := news_db * W) (on_world uuid_factory) (on_world now_factory) record (db, w) = (s', Ok outcome) ->
  exists st', ingest_record (S := InMemoryNewsItemStore * W) (on_world uuid_factory) (on_world now_factory) record (st, w) = ((st', s'.2), Ok outcome) /\
    stored_as s'.1 st'.
Proof using Type.
  intros HR H. unfold ingest_record in H. apply prog_bind_Ok in H as (s1 & item & Hn & H).
  destruct (normalize_same _ _ _ db st _ _ _ Hn) as (w1 & -> & Hm).
  unfold ingest_record, mbind, prog_bind. rewrite Hm. cbn [has_source_item has_hash persist_item memory_items gets fst snd].
  apply prog_bind_Ok in H as (s2 & known & Hk & H). cbn [has_source_item sql_items] in Hk.
  unfold on_db, zoom, sql_has_source_item, gets in Hk. cbn [fst snd] in Hk. injection Hk as <- <-.
  rewrite (source_item_agrees _ _ _ _ HR) in H.
  destruct (bool_decide (_ ∈ item_key <$> _)) eqn:Ek; [injection H as <- <-; by exists st|].
  apply prog_bind_Ok in H as (s3 & seen & Hh & H). cbn [has_hash sql_items] in Hh.
  unfold on_db, zoom, sql_has_hash, gets in Hh. cbn [fst snd] in Hh. injection Hh as <- <-.
  destruct HR as [HR1 HR2]. rewrite existsb_hash, (row_hashes _ _ HR1), <- HR2 in H. cbn [fst snd].
  destruct (bool_decide (_ ∈ ns_hashes _)) eqn:Eh; [injection H as <- <-; by exists st|].
  apply prog_bind_Ok in H as (s4 & [] & Hp & H). injection H as <- <-. cbn [persist_item sql_items] in Hp. unfold on_db, zoom in Hp. cbn [fst snd] in Hp.
  destruct (sql_persist_item item db) as [db' r] eqn:Es. injection Hp as <- ->. exists (store_persist item st). split; [done|].
  apply bool_decide_eq_false in Ek, Eh. by eapply persist_same.
Qed.

(** C18. The news tables refine the store in memory: whatever records are ingested, when
    the run over the tables returns, the run over the store in memory, started in a store with
    the same items, returns the same batch - the same items inserted, the same
    duplicates refused for the same reason - and ends in a store with the items of the
    tables. *)
Theorem tables_refine_memory records db st (w : W) s' batch :
  stored_as db st -> table_ingest records (db, w) = (s', Ok batch) ->
  exists st', memory_ingest records (st, w) = ((st', s'.2), Ok batch) /\ stored_as s'.1 st'.
Proof using Type.
  unfold ingest. generalize (@nil NewsIngestionOutcome) as outs. generalize 0 at 1 3 as a. generalize 0 as b.
  revert db st w. induction records as [|record records IH]; intros db st w b a outs HR H; cbn [ingest_loop] in H |- *.
  { injection H as <- <-. by exists st. }
  apply prog_bind_Ok in H as (s1 & outcome & H1 & H). destruct s1 as [db1 w1].
  destruct (record_same _ _ _ _ _ _ HR H1) as (st1 & E1 & HR1). cbn [fst snd] in E1, HR1.
  destruct (IH _ _ _ _ _ _ HR1 H) as (st' & E & HR'). exists st'. split; [|exact HR'].
  unfold mbind, prog_bind. rewrite E1. exact E.
Qed.
End refinement.

(** ** Two feeds with one story *)

Module Example_news.
Definition noon : Z := 63850161600000000.
Definition db0 : news_db := {| nw_items := []; nw_tags := []; nw_summaries := []; nw_sources := []; nw_clock := fun _ => noon; nw_tick := 0 |}.
Definition st0 : InMemoryNewsItemStore := {| ns_items := []; ns_hashes := [] |}.
Definition ids : prog nat string := fun n => (S n, Ok ("n-" +:+ str_of_Z (Z.of_nat n))).
Definition now : prog nat string := fun n => (n, Ok (iso_z noon)).
Definition story (source id : string) : NewsSourceRecord :=
  {| nr_source := source; nr_source_item_id := id; nr_published_at := "2024-05-01T11:00:00Z"; nr_title := "Bitcoin ETF inflows";
     nr_url := Some "https://example.com/a"; nr_content := "Inflows stay positive."; nr_metadata := [] |}.
Definition records : list NewsSourceRecord := [story "coindesk" "1"; story "theblock" "7"; story "coindesk" "1"].
Definition run := ingest (S := news_db * nat) (on_world ids) (on_world now) records (db0, 0%nat).
Definition batch : NewsIngestionBatchResult :=
  match run.2 with Ok b => b | Raise _ => {| nb_total_records := 0; nb_inserted_count := 0; nb_duplicate_count := 0; nb_outcomes := [] |} end.

Lemma tables_refine_memory_witness :
  (no_dedupe_reason <$> nb_outcomes batch) = [None; Some "duplicate_hash"; Some "duplicate_source_item"]%string /\
  exists st', ingest (S := InMemoryNewsItemStore * nat) (on_world ids) (on_world now) records (st0, 0%nat) = ((st', run.1.2), Ok batch) /\
    stored_as run.1.1 st'.
Proof.
  split; [vm_compute; reflexivity|].
  refine (tables_refine_memory ids now records db0 st0 0%nat run.1 batch _ _).
  - split; [constructor|reflexivity].
  - refine (with_state run (Ok batch) _). vm_compute. reflexivity.
Defined.

(** The sources of a window's first summary stay under the id the second one replaced. *)
Example regenerated_summary_orphans_sources :
  let artifact id := {| sa_summary_id := id; sa_symbol_scope := "BTC"; sa_window_start := "a"; sa_window_end := "b"; sa_summary_text := "t";
                        sa_token_count := 1; sa_generated_at := "g"; sa_source_news_ids := ["n-1"] |}%string in
  let db := (sql_persist_summary (artifact "s-2"%string) (sql_persist_summary (artifact "s-1"%string) db0).1).1 in
  (sw_summary_id <$> nw_summaries db) = ["s-2"%string] /\ (cw_summary_id <$> nw_sources db) = ["s-1"; "s-2"]%string.
Proof. vm_compute. done. Qed.
End Example_news.
