(* ===== verification/Replay.v ===== *)
(** * Replay of a decision

    [services/agent_orchestrator/replay_service.py] over any trace store and
    long-term memory store: [ReplayTraceStore] states what the service calls.
    The records of a decision are sorted, laid out as a graph and digested, and
    the report compares the outcome with what the runs show. Payloads are
    values whose keys are strings already, so [_normalize] is the identity on
    them (a tuple is a list here). *)

From S2P Require Import Prelude PyStr PyFloat PyHash PyVal PyJson AgentMemory LlmGateway.
From stdpp Require Import options.
From Stdlib Require Import Ascii String.

#[local] Open Scope Z_scope.

Record DecisionTraceRecord := {
  tr_decision_id : string;
  tr_trace_id : string;
  tr_strategy_id : string;
  tr_mode : string;
  tr_status : string;
  tr_started_at : string;
  tr_completed_at : option string;
}.

Record AgentRunRecord := {
  ar_agent_run_id : string;
  ar_decision_id : string;
  ar_agent_name : string;
  ar_input_ref : option string;
  ar_output_ref : option string;
  ar_latency_ms : option f64;
  ar_status : string;
  ar_started_at : string;
  ar_completed_at : option string;
}.

Record AgentMessageRecord := {
  mg_message_id : string;
  mg_agent_run_id : string;
  mg_role : string;
  mg_payload_json : val;
  mg_created_at : string;
}.

Record ReplayGraphNode := {
  gn_node_id : string;
  gn_node_type : string;
  gn_label : string;
  gn_payload : dict;
}.

Record ReplayGraphEdge := {
  ge_from_node_id : string;
  ge_to_node_id : string;
  ge_relation : string;
}.

Record DecisionReplayResult := {
  rr_decision_id : string;
  rr_trace_id : string;
  rr_strategy_id : string;
  rr_mode : string;
  rr_status : string;
  rr_summary : dict;
  rr_lifecycle : list dict;
  rr_agent_runs : list dict;
  rr_llm_calls : list dict;
  rr_graph_nodes : list ReplayGraphNode;
  rr_graph_edges : list ReplayGraphEdge;
  rr_deterministic_digest : string;
  rr_diff : option dict;
}.

Class ReplayTraceStore (T : Type) := {
  read_decision_trace : string -> prog T (option DecisionTraceRecord);
  list_agent_runs : string -> prog T (list AgentRunRecord);
  list_agent_messages : string -> prog T (list AgentMessageRecord);
  list_llm_calls : string -> prog T (list LLMCallRecord);
}.

(** ** Order and payloads of the records *)

Definition _run_sort_key (r : AgentRunRecord) : list string :=
  [ar_started_at r; ar_agent_name r; ar_agent_run_id r].
Definition _message_sort_key (r : AgentMessageRecord) : list string := [mg_created_at r; mg_message_id r].
Definition _llm_call_sort_key (r : LLMCallRecord) : list string := [cr_created_at r; cr_llm_call_id r].

(** [sorted(records, key=key)] *)
Definition sorted_on {A} (key : A -> list string) (l : list A) : list A :=
  sort_by (fun a b => strs_leb (key a) (key b)) l.

Definition opt_text (o : option string) : val := match o with Some s => VStr s | None => VNone end.

Definition _agent_message_payload (r : AgentMessageRecord) : dict :=
  [("message_id", VStr (mg_message_id r)); ("agent_run_id", VStr (mg_agent_run_id r)); ("role", VStr (mg_role r));
   ("payload_json", VDict (_ensure_mapping (mg_payload_json r))); ("created_at", VStr (mg_created_at r))]%string.

Definition _llm_call_payload (r : LLMCallRecord) : dict :=
  let q := cr_request r in
  [("llm_call_id", VStr (cr_llm_call_id r)); ("trace_id", VStr (rq_trace_id q));
   ("decision_id", VStr (rq_decision_id q)); ("strategy_id", VStr (rq_strategy_id q));
   ("agent_name", VStr (rq_agent_name q)); ("provider", VStr (cr_provider r)); ("model", VStr (cr_model r));
   ("prompt_payload", VDict (cr_prompt_payload r)); ("response_payload", VDict (cr_response_payload r));
   ("prompt_tokens", VInt (tu_prompt (cr_usage r))); ("completion_tokens", VInt (tu_completion (cr_usage r)));
   ("total_tokens", VInt (tu_total (cr_usage r))); ("latency_ms", VFloat (cr_latency_ms r));
   ("estimated_cost", VFloat (cr_estimated_cost r)); ("created_at", VStr (cr_created_at r))]%string.

Definition run_payload (r : AgentRunRecord) (messages : list AgentMessageRecord) : dict :=
  [("agent_run_id", VStr (ar_agent_run_id r)); ("decision_id", VStr (ar_decision_id r));
   ("agent_name", VStr (ar_agent_name r)); ("input_ref", opt_text (ar_input_ref r));
   ("output_ref", opt_text (ar_output_ref r));
   ("latency_ms", match ar_latency_ms r with Some x => VFloat x | None => VNone end);
   ("status", VStr (ar_status r)); ("started_at", VStr (ar_started_at r));
   ("completed_at", opt_text (ar_completed_at r));
   ("messages", VList ((fun m => VDict (_agent_message_payload m)) <$> messages))]%string.

(** ** The graph *)

Definition decision_payload (t : DecisionTraceRecord) : dict :=
  [("decision_id", VStr (tr_decision_id t)); ("trace_id", VStr (tr_trace_id t));
   ("strategy_id", VStr (tr_strategy_id t)); ("mode", VStr (tr_mode t)); ("status", VStr (tr_status t));
   ("started_at", VStr (tr_started_at t)); ("completed_at", opt_text (tr_completed_at t))]%string.

Definition decision_node (t : DecisionTraceRecord) : ReplayGraphNode :=
  {| gn_node_id := "decision:" +:+ tr_decision_id t; gn_node_type := "decision_trace";
     gn_label := "Decision " +:+ tr_decision_id t; gn_payload := decision_payload t |}.

Definition summary_nodes (t : DecisionTraceRecord) (summary : dict) : list ReplayGraphNode :=
  match summary with
  | [] => []
  | _ => [{| gn_node_id := "memory:" +:+ tr_decision_id t; gn_node_type := "memory_summary";
             gn_label := "Long-term summary"; gn_payload := summary |}]
  end.

Definition run_node (r : AgentRunRecord) : ReplayGraphNode :=
  {| gn_node_id := "agent_run:" +:+ ar_agent_run_id r; gn_node_type := "agent_run"; gn_label := ar_agent_name r;
     gn_payload :=
       [("agent_run_id", VStr (ar_agent_run_id r)); ("agent_name", VStr (ar_agent_name r));
        ("status", VStr (ar_status r)); ("started_at", VStr (ar_started_at r));
        ("completed_at", opt_text (ar_completed_at r))]%string |}.

Definition llm_node (r : LLMCallRecord) : ReplayGraphNode :=
  {| gn_node_id := "llm_call:" +:+ cr_llm_call_id r; gn_node_type := "llm_call";
     gn_label := rq_agent_name (cr_request r); gn_payload := _llm_call_payload r |}.

Definition edge (t : DecisionTraceRecord) (relation : string) (n : ReplayGraphNode) : ReplayGraphEdge :=
  {| ge_from_node_id := "decision:" +:+ tr_decision_id t; ge_to_node_id := gn_node_id n; ge_relation := relation |}.

(** [asdict] of a node and of an edge *)
Definition node_dict (n : ReplayGraphNode) : dict :=
  [("node_id", VStr (gn_node_id n)); ("node_type", VStr (gn_node_type n)); ("label", VStr (gn_label n));
   ("payload", VDict (gn_payload n))]%string.
Definition edge_dict (e : ReplayGraphEdge) : dict :=
  [("from_node_id", VStr (ge_from_node_id e)); ("to_node_id", VStr (ge_to_node_id e));
   ("relation", VStr (ge_relation e))]%string.

(** ** Digest and differences *)

Definition _stable_digest (value : dict) : result string :=
  encoded ← json_dumps json_canonical (VDict value);
  Ok (sha256_hex encoded).

Definition has_status (s : string) (d : dict) : bool :=
  match dget "status" d with VStr x => String.eqb x s | _ => false end.

Definition count_of {A} (l : list A) : Z := Z.of_nat (List.length l).

Definition replay_issues (original_status : string) (runs calls : list dict) : list string :=
  let failed_runs := List.filter (has_status "failed") runs in
  let error_calls := List.filter (has_status "error") calls in
  (match failed_runs with [] => [] | _ => [str_of_Z (count_of failed_runs) +:+ " agent run(s) failed during replay"] end) ++
  (match runs with [] => ["No agent runs found in replay trace"%string] | _ => [] end) ++
  (match error_calls with
   | [] => []
   | _ => [str_of_Z (count_of error_calls) +:+ " LLM call(s) errored during original execution"] end) ++
  (if String.eqb original_status "failed" && match failed_runs with [] => true | _ => false end
        && match error_calls with [] => true | _ => false end
   then ["Original decision failed but replay found no failures"%string] else []).

Definition _compute_replay_diff (original_status : string) (runs calls : list dict) : option dict :=
  match replay_issues original_status runs calls with
  | [] => None
  | issues =>
      Some [("has_differences", VBool true); ("issues", VList (VStr <$> issues));
            ("original_status", VStr original_status); ("replay_run_count", VInt (count_of runs));
            ("replay_llm_call_count", VInt (count_of calls));
            ("failed_run_count", VInt (count_of (List.filter (has_status "failed") runs)));
            ("error_call_count", VInt (count_of (List.filter (has_status "error") calls)))]%string
  end.

(** What the stores hold about a decision, in the order of the report. *)
Record decision_records := {
  dr_trace : DecisionTraceRecord;
  dr_archived : option DecisionMemoryRecord;
  dr_runs : list (AgentRunRecord * list AgentMessageRecord);
  dr_calls : list LLMCallRecord;
}.

Definition dict_list (l : list dict) : val := VList (VDict <$> l).

Definition replay_report (r : decision_records) : result DecisionReplayResult :=
  let t := dr_trace r in
  let summary := match dr_archived r with Some a => dm_summary a | None => [] end in
  let lifecycle := match dr_archived r with Some a => dm_lifecycle a | None => [] end in
  let runs := (fun rm => run_payload rm.1 rm.2) <$> dr_runs r in
  let calls := _llm_call_payload <$> dr_calls r in
  let graph_nodes :=
    decision_node t :: summary_nodes t summary ++ ((fun rm => run_node rm.1) <$> dr_runs r) ++
    (llm_node <$> dr_calls r) in
  let graph_edges :=
    (edge t "has_summary" <$> summary_nodes t summary) ++
    ((fun rm => edge t "has_run" (run_node rm.1)) <$> dr_runs r) ++
    ((fun c => edge t "has_llm_call" (llm_node c)) <$> dr_calls r) in
  digest ← _stable_digest
    [("decision", VDict (decision_payload t)); ("summary", VDict summary); ("lifecycle", dict_list lifecycle);
     ("agent_runs", dict_list runs); ("llm_calls", dict_list calls);
     ("graph_nodes", dict_list (node_dict <$> graph_nodes));
     ("graph_edges", dict_list (edge_dict <$> graph_edges))]%string;
  Ok {| rr_decision_id := tr_decision_id t; rr_trace_id := tr_trace_id t; rr_strategy_id := tr_strategy_id t;
        rr_mode := tr_mode t; rr_status := tr_status t; rr_summary := summary; rr_lifecycle := lifecycle;
        rr_agent_runs := runs; rr_llm_calls := calls; rr_graph_nodes := graph_nodes;
        rr_graph_edges := graph_edges; rr_deterministic_digest := digest;
        rr_diff := _compute_replay_diff (tr_status t) runs calls |}.

(** ** The service *)

Section service.
Context {T L : Type} `{!ReplayTraceStore T} `{!LongTermMemoryStore L}.

Record DecisionReplayService := Replayer {
  rp_trace_store : T;
  rp_long_term_store : option L;
}.

Definition traces {A} (m : prog T A) : prog DecisionReplayService A :=
  zoom rp_trace_store (fun t s => Replayer t (rp_long_term_store s)) m.

(** [archived] when a long-term store is configured. *)
Definition read_archived (decision_id : string) : prog DecisionReplayService (option DecisionMemoryRecord) :=
  fun s => match rp_long_term_store s with
           | None => (s, Ok None)
           | Some l => let '(l', r) := read_decision_summary decision_id l in
                       (Replayer (rp_trace_store s) (Some l'), r)
           end.

Fixpoint read_messages (runs : list AgentRunRecord)
  : prog DecisionReplayService (list (AgentRunRecord * list AgentMessageRecord)) :=
  match runs with
  | [] => mret []
  | run :: runs' =>
      messages ← traces (list_agent_messages (ar_agent_run_id run));
      rest ← read_messages runs';
      mret ((run, sorted_on _message_sort_key messages) :: rest)
  end.

Definition replay_decision (decision_id : string) : prog DecisionReplayService DecisionReplayResult :=
  found ← traces (read_decision_trace decision_id);
  match found with
  | None => lift (raise DecisionReplayNotFoundError ("Decision trace not found: " +:+ decision_id))
  | Some trace =>
      archived ← read_archived decision_id;
      runs ← traces (list_agent_runs decision_id);
      with_messages ← read_messages (sorted_on _run_sort_key runs);
      calls ← traces (list_llm_calls decision_id);
      lift (replay_report {| dr_trace := trace; dr_archived := archived; dr_runs := with_messages;
                             dr_calls := sorted_on _llm_call_sort_key calls |})
  end.
End service.
Arguments DecisionReplayService : clear implicits.
Arguments Replayer {T L}.

(** ** Determinism *)

Section determinism.
Context {A : Type} (key : A -> list string).

(** Records with distinct ids, in any order, are sorted alike: the last
    component of every sort key is the id. *)
Lemma sorted_on_perm (id : A -> string) l1 l2 :
  (forall a, exists p, key a = p ++ [id a]) -> NoDup (id <$> l1) -> l1 ≡ₚ l2 ->
  sorted_on key l1 = sorted_on key l2.
Proof.
  intros Hid Hnd Hp. unfold sorted_on. apply sort_by_unique; auto using strs_leb_total.
  - intros a b c. apply strs_leb_trans.
  - intros a b Ha Hb H1 H2. pose proof (strs_leb_antisym _ _ H1 H2) as E.
    destruct (Hid a) as [p Ep], (Hid b) as [q Eq]. rewrite Ep, Eq in E. apply app_inj_tail in E as [_ E].
    apply list_elem_of_lookup in Ha as [i Hi], Hb as [j Hj].
    assert (Hij : i = j).
    { apply (NoDup_lookup (id <$> l1) i j (id a)); [done|..]; rewrite list_lookup_fmap;
        [by rewrite Hi|by rewrite Hj; simpl; congruence]. }
    congruence.
Qed.
End determinism.

Lemma sorted_on_elem {A} (key : A -> list string) l x : x ∈ sorted_on key l <-> x ∈ l.
Proof. unfold sorted_on. by rewrite sort_by_perm. Qed.

Lemma runs_sorted l1 l2 :
  NoDup (ar_agent_run_id <$> l1) -> l1 ≡ₚ l2 -> sorted_on _run_sort_key l1 = sorted_on _run_sort_key l2.
Proof. apply sorted_on_perm. intros a. by exists [ar_started_at a; ar_agent_name a]. Qed.

Lemma messages_sorted l1 l2 :
  NoDup (mg_message_id <$> l1) -> l1 ≡ₚ l2 -> sorted_on _message_sort_key l1 = sorted_on _message_sort_key l2.
Proof. apply sorted_on_perm. intros a. by exists [mg_created_at a]. Qed.

Lemma calls_sorted l1 l2 :
  NoDup (cr_llm_call_id <$> l1) -> l1 ≡ₚ l2 -> sorted_on _llm_call_sort_key l1 = sorted_on _llm_call_sort_key l2.
Proof. apply sorted_on_perm. intros a. by exists [cr_created_at a]. Qed.

(** Two answers that name the same records, each once, in any order. *)
Definition same_rows {A} (id : A -> string) (r1 r2 : result (list A)) : Prop :=
  match r1, r2 with
  | Ok l1, Ok l2 => NoDup (id <$> l1) /\ l1 ≡ₚ l2
  | Raise e1, Raise e2 => e1 = e2
  | _, _ => False
  end.

(** A simulation between two trace stores: every query answers the same up to
    the order of the rows, and leads to related stores again. *)
Record same_traces {T1 T2 : Type} `{!ReplayTraceStore T1} `{!ReplayTraceStore T2} (R : T1 -> T2 -> Prop) : Prop := {
  st_trace : forall d s1 s2, R s1 s2 ->
    R (read_decision_trace d s1).1 (read_decision_trace d s2).1 /\
    (read_decision_trace d s1).2 = (read_decision_trace d s2).2;
  st_runs : forall d s1 s2, R s1 s2 ->
    R (list_agent_runs d s1).1 (list_agent_runs d s2).1 /\
    same_rows ar_agent_run_id (list_agent_runs d s1).2 (list_agent_runs d s2).2;
  st_messages : forall d s1 s2, R s1 s2 ->
    R (list_agent_messages d s1).1 (list_agent_messages d s2).1 /\
    same_rows mg_message_id (list_agent_messages d s1).2 (list_agent_messages d s2).2;
  st_calls : forall d s1 s2, R s1 s2 ->
    R (list_llm_calls d s1).1 (list_llm_calls d s2).1 /\
    same_rows cr_llm_call_id (list_llm_calls d s1).2 (list_llm_calls d s2).2;
}.

Section replay.
Context {T1 T2 L : Type} `{!ReplayTraceStore T1} `{!ReplayTraceStore T2} `{!LongTermMemoryStore L}.
Context (R : T1 -> T2 -> Prop) (Hsame : same_traces R).

(** Services over related trace stores and one long-term store. *)
Definition alike (s1 : DecisionReplayService T1 L) (s2 : DecisionReplayService T2 L) : Prop :=
  R (rp_trace_store s1) (rp_trace_store s2) /\ rp_long_term_store s1 = rp_long_term_store s2.

(** Programs on the two services that return related results. *)
Definition agree {A B} (Q : A -> B -> Prop) (m1 : prog (DecisionReplayService T1 L) A)
    (m2 : prog (DecisionReplayService T2 L) B) : Prop :=
  forall s1 s2, alike s1 s2 ->
    alike (m1 s1).1 (m2 s2).1 /\
    match (m1 s1).2, (m2 s2).2 with
    | Ok a, Ok b => Q a b
    | Raise e1, Raise e2 => e1 = e2
    | _, _ => False
    end.

Lemma agree_bind {A B A' B'} (Q : A -> B -> Prop) (Q' : A' -> B' -> Prop) m1 m2 f1 f2 :
  agree Q m1 m2 -> (forall a b, Q a b -> agree Q' (f1 a) (f2 b)) -> agree Q' (m1 ≫= f1) (m2 ≫= f2).
Proof using Type.
  intros Hm Hf s1 s2 Hs. specialize (Hm s1 s2 Hs). unfold mbind, prog_bind.
  destruct (m1 s1) as [s1' [a|e1]], (m2 s2) as [s2' [b|e2]]; simpl in *; try tauto.
  destruct Hm as [Hs' HQ]. by apply Hf.
Qed.

Lemma agree_pure {A} (r : result A) : agree eq (lift r) (lift r).
Proof using Type. intros s1 s2 Hs. by destruct r. Qed.

Lemma agree_traces {A B} (Q : result A -> result B -> Prop) (m1 : prog T1 A) (m2 : prog T2 B) (P : A -> B -> Prop) :
  (forall t1 t2, R t1 t2 -> R (m1 t1).1 (m2 t2).1 /\ Q (m1 t1).2 (m2 t2).2) ->
  (forall r1 r2, Q r1 r2 -> match r1, r2 with
                            | Ok a, Ok b => P a b | Raise e1, Raise e2 => e1 = e2 | _, _ => False end) ->
  agree P (traces m1) (traces m2).
Proof using Type.
  intros Hm HQ [t1 l1] [t2 l2] [Ht Hl]. unfold traces, zoom, alike in *. simpl in *.
  specialize (Hm t1 t2 Ht). destruct (m1 t1), (m2 t2); simpl in *. destruct Hm as [? Hq].
  split; [done|]. by apply HQ.
Qed.

Lemma agree_rows {A} (id : A -> string) (m1 : prog T1 (list A)) (m2 : prog T2 (list A)) :
  (forall t1 t2, R t1 t2 -> R (m1 t1).1 (m2 t2).1 /\ same_rows id (m1 t1).2 (m2 t2).2) ->
  agree (fun l1 l2 => NoDup (id <$> l1) /\ l1 ≡ₚ l2) (traces m1) (traces m2).
Proof using Type. intros Hm. eapply (agree_traces (same_rows id)); [exact Hm|]. by intros [] []. Qed.

Lemma agree_archived d : agree eq (read_archived d) (read_archived d).
Proof using Type.
  intros [t1 l1] [t2 l2] [Ht Hl]. unfold read_archived, alike in *. simpl in *. subst l2.
  destruct l1 as [l|]; simpl; [|done]. destruct (read_decision_summary d l) as [l' [r|e]]; simpl; auto.
Qed.

Lemma agree_messages runs : agree eq (read_messages runs) (read_messages runs).
Proof using Hsame.
  induction runs as [|r runs IH]; simpl; [by intros s1 s2 Hs|].
  eapply agree_bind; [apply (agree_rows mg_message_id), (st_messages _ Hsame)|].
  intros l1 l2 [Hnd Hp]. eapply agree_bind; [exact IH|]. intros rest ? <-.
  by rewrite (messages_sorted l1 l2 Hnd Hp).
Qed.

(** C24. A replay does not depend on the order in which the trace store returns
    its rows: two stores that answer every query with the same records, each
    once but in any order, give the same report, graph, digest and differences
    for a decision, or the same error. *)
Theorem replay_order_independent decision_id s1 s2 :
  alike s1 s2 -> (replay_decision decision_id s1).2 = (replay_decision decision_id s2).2.
Proof using Hsame.
  intros Hs.
  cut (agree eq (replay_decision decision_id) (replay_decision decision_id)).
  { intros H. destruct (H s1 s2 Hs) as [_ Hr].
    destruct (replay_decision decision_id s1).2, (replay_decision decision_id s2).2;
      solve [by f_equal | done]. }
  unfold replay_decision. eapply (agree_bind eq).
  { eapply (agree_traces eq); [apply (st_trace _ Hsame)|]. by intros [] ? <-. }
  intros [trace|] ? <-; [|apply agree_pure].
  eapply agree_bind; [apply agree_archived|]. intros archived ? <-.
  eapply agree_bind; [apply (agree_rows ar_agent_run_id), (st_runs _ Hsame)|]. intros r1 r2 [Hnd Hp].
  rewrite (runs_sorted r1 r2 Hnd Hp).
  eapply agree_bind; [apply agree_messages|]. intros ms ? <-.
  eapply agree_bind; [apply (agree_rows cr_llm_call_id), (st_calls _ Hsame)|]. intros c1 c2 [Hnd' Hp'].
  rewrite (calls_sorted c1 c2 Hnd' Hp').
  apply agree_pure.
Qed.
End replay.

(** ** The graph of a report *)

Definition node_ids (r : DecisionReplayResult) : list string := gn_node_id <$> rr_graph_nodes r.

(** A star: one edge from the decision to every other node, in their order. *)
Definition star (r : DecisionReplayResult) : Prop :=
  exists rest, node_ids r = ("decision:" +:+ rr_decision_id r) :: rest /\
    (ge_to_node_id <$> rr_graph_edges r) = rest /\
    Forall (fun e => ge_from_node_id e = ("decision:" +:+ rr_decision_id r)) (rr_graph_edges r).

Lemma prefixed_inj (p : string) {A} (f : A -> string) (l : list A) : NoDup (f <$> l) -> NoDup ((fun a => p +:+ f a) <$> l).
Proof.
  intros H. change (fun a => p +:+ f a) with (append p ∘ f). rewrite list_fmap_compose.
  apply NoDup_fmap_2; [|done]. intros x y. apply append_inj_l.
Qed.

(** Ids under different prefixes differ. *)
Lemma prefixes_apart {A B} (p q : string) (f : A -> string) (g : B -> string) (l1 : list A) (l2 : list B) x :
  (forall a b, (p +:+ a) <> (q +:+ b)) -> x ∈ (fun a => p +:+ f a) <$> l1 -> x ∉ (fun b => q +:+ g b) <$> l2.
Proof.
  intros Hne (a & -> & _)%list_elem_of_fmap (b & E & _)%list_elem_of_fmap. by destruct (Hne (f a) (g b)).
Qed.

Lemma prefix_head c d a b : c <> d -> String c a <> String d b.
Proof. congruence. Qed.

Lemma summary_node_ids t s :
  gn_node_id <$> summary_nodes t s = match s with [] => [] | _ => ["memory:" +:+ tr_decision_id t] end.
Proof. by destruct s. Qed.

Lemma report_star r res : replay_report r = Ok res -> star res.
Proof.
  unfold replay_report. intros (digest & _ & [= <-])%bind_Ok.
  unfold star, node_ids. simpl. eexists. split; [done|]. split.
  - rewrite !fmap_app, <- !list_fmap_compose. by destruct (dr_archived r).
  - rewrite !Forall_app, !Forall_fmap. split; [by apply Forall_true|].
    split; by apply Forall_true.
Qed.

Lemma report_nodes_distinct r res :
  replay_report r = Ok res -> NoDup ((ar_agent_run_id ∘ fst) <$> dr_runs r) -> NoDup (cr_llm_call_id <$> dr_calls r) ->
  NoDup (node_ids res).
Proof.
  unfold replay_report. intros (digest & _ & [= <-])%bind_Ok Hr Hc. unfold node_ids. simpl.
  rewrite !fmap_app, summary_node_ids, <- !list_fmap_compose.
  change (gn_node_id ∘ llm_node) with (fun c => "llm_call:" +:+ cr_llm_call_id c).
  change (gn_node_id ∘ (fun rm => run_node rm.1))
    with (fun rm : AgentRunRecord * list AgentMessageRecord => "agent_run:" +:+ (ar_agent_run_id ∘ fst) rm).
  apply (prefixed_inj "agent_run:") in Hr. apply (prefixed_inj "llm_call:") in Hc.
  set (sm := match _ with [] => [] | _ => _ end).
  assert (Hsm : sm = [] \/ sm = ["memory:" +:+ tr_decision_id (dr_trace r)])
    by (unfold sm; destruct (match dr_archived r with Some _ => _ | None => _ end); auto).
  assert (Hrc : NoDup (((fun rm => "agent_run:" +:+ (ar_agent_run_id ∘ fst) rm) <$> dr_runs r) ++
                       ((fun c => "llm_call:" +:+ cr_llm_call_id c) <$> dr_calls r))).
  { apply NoDup_app. split_and!; [done| |done]. intros x. by apply prefixes_apart. }
  constructor.
  - rewrite !elem_of_app. intros [H|[H|H]].
    + destruct Hsm as [E|E]; rewrite E in H; set_solver.
    + by apply list_elem_of_fmap in H as (? & ? & _).
    + by apply list_elem_of_fmap in H as (? & ? & _).
  - destruct Hsm as [-> | ->]; [done|]. constructor; [|done].
    rewrite elem_of_app, !list_elem_of_fmap. intros [(? & ? & _)|(? & ? & _)]; done.
Qed.

Section graph.
Context {T L : Type} `{!ReplayTraceStore T} `{!LongTermMemoryStore L}.

(** The store returns every run and every call once. *)
Definition rows_once : Prop :=
  (forall d t l, (list_agent_runs d t).2 = Ok l -> NoDup (ar_agent_run_id <$> l)) /\
  (forall d t l, (list_llm_calls d t).2 = Ok l -> NoDup (cr_llm_call_id <$> l)).

Lemma sorted_ids {A} (key : A -> list string) (id : A -> string) l :
  NoDup (id <$> l) -> NoDup (id <$> sorted_on key l).
Proof using Type. unfold sorted_on. by rewrite sort_by_perm. Qed.

Lemma read_messages_runs runs (s s' : DecisionReplayService T L) ms :
  read_messages runs s = (s', Ok ms) -> ms.*1 = runs.
Proof using Type.
  revert s s' ms. induction runs as [|r runs IH]; simpl; intros s s' ms H.
  - by injection H as <- <-.
  - apply prog_bind_Ok in H as (s1 & m & _ & (s2 & rest & Hr & Hm)%prog_bind_Ok). injection Hm as <- <-.
    simpl. f_equal. by eapply IH.
Qed.

Lemma traces_Ok {A} (m : prog T A) (s s' : DecisionReplayService T L) a :
  traces m s = (s', Ok a) -> (m (rp_trace_store s)).2 = Ok a.
Proof using Type. unfold traces, zoom. destruct (m (rp_trace_store s)). by intros [= _ ->]. Qed.

(** The graph of a replayed decision is a star of distinct nodes: the
    decision, its summary when there is one, one node per agent run and one per
    LLM call, and exactly one edge from the decision to each of them. *)
Theorem replay_graph_star decision_id (s s' : DecisionReplayService T L) r :
  rows_once -> replay_decision decision_id s = (s', Ok r) ->
  star r /\ NoDup (node_ids r) /\
  List.length (rr_graph_edges r) =
    ((if (0 <? List.length (rr_summary r))%nat then 1 else 0) +
     List.length (rr_agent_runs r) + List.length (rr_llm_calls r))%nat.
Proof using Type.
  intros [Hruns Hcalls] H. unfold replay_decision in H.
  apply prog_bind_Ok in H as (s1 & found & _ & H). destruct found as [trace|]; [|done].
  apply prog_bind_Ok in H as (s2 & archived & _ & H).
  apply prog_bind_Ok in H as (s3 & runs & Hr%traces_Ok%Hruns & H).
  apply prog_bind_Ok in H as (s4 & ms & Hms%read_messages_runs & H).
  apply prog_bind_Ok in H as (s5 & calls & Hc%traces_Ok%Hcalls & H).
  injection H as _ H. split; [by eapply report_star|]. split.
  - eapply report_nodes_distinct; [exact H|simpl..].
    + rewrite list_fmap_compose, Hms. by apply sorted_ids.
    + by apply sorted_ids.
  - unfold replay_report in H. apply bind_Ok in H as (digest & _ & [= <-]). simpl.
    rewrite !length_app, !length_fmap. unfold summary_nodes.
    destruct (match archived with Some _ => _ | None => _ end); simpl; lia.
Qed.
End graph.

(** The payload of a call has no status, so the differences never mention an
    LLM call that failed. *)
Lemma replay_ignores_failed_calls (calls : list LLMCallRecord) :
  List.filter (has_status "error") (_llm_call_payload <$> calls) = [].
Proof. induction calls as [|c calls IH]; [done|]. exact IH. Qed.

(** ** Examples *)

Module Example_replay.
#[local] Open Scope string_scope.

(** A store that holds the records of one decision. *)
Record rows := { rw_runs : list AgentRunRecord; rw_calls : list LLMCallRecord }.

Definition trace : DecisionTraceRecord :=
  {| tr_decision_id := "d-1"; tr_trace_id := "t-1"; tr_strategy_id := "s"; tr_mode := "MOCK"; tr_status := "failed";
     tr_started_at := "2024-01-01T00:00:00Z"; tr_completed_at := None |}.

#[local] Instance rows_store : ReplayTraceStore rows := {
  read_decision_trace d := lift (Ok (if String.eqb d "d-1" then Some trace else None));
  list_agent_runs d := gets (fun s => if String.eqb d "d-1" then rw_runs s else []);
  list_agent_messages d := mret [];
  list_llm_calls d := gets (fun s => if String.eqb d "d-1" then rw_calls s else []);
}.

Definition run (id name : string) : AgentRunRecord :=
  {| ar_agent_run_id := id; ar_decision_id := "d-1"; ar_agent_name := name; ar_input_ref := None;
     ar_output_ref := Some "out"; ar_latency_ms := Some fone; ar_status := "succeeded";
     ar_started_at := "2024-01-01T00:00:00Z"; ar_completed_at := None |}.

Definition call : LLMCallRecord :=
  {| cr_llm_call_id := "c-1";
     cr_request := {| rq_trace_id := "t-1"; rq_decision_id := "d-1"; rq_strategy_id := "s"; rq_agent_name := "risk";
                      rq_messages := []; rq_temperature := fone; rq_max_tokens := 10; rq_metadata := [] |};
     cr_provider := "p"; cr_model := "m"; cr_prompt_payload := []; cr_response_payload := [("status", VStr "failed")];
     cr_usage := {| tu_prompt := 1; tu_completion := 0; tu_total := 1 |}; cr_latency_ms := fone;
     cr_estimated_cost := fone; cr_created_at := "2024-01-01T00:00:01Z" |}.

Definition store1 : rows := {| rw_runs := [run "r-2" "risk"; run "r-1" "planner"]; rw_calls := [call] |}.
Definition store2 : rows := {| rw_runs := [run "r-1" "planner"; run "r-2" "risk"]; rw_calls := [call] |}.

Definition service (s : rows) : DecisionReplayService rows unit := Replayer s None.

Definition stored (s1 s2 : rows) : Prop := s1 = store1 /\ s2 = store2.

Lemma stored_same : same_traces stored.
Proof.
  split; intros d s1 s2 [-> ->]; simpl; (split; [done|]); try done.
  - destruct (String.eqb d "d-1"); simpl; (split; [|by constructor]); [|constructor].
    repeat constructor; set_solver.
  - split; constructor.
  - destruct (String.eqb d "d-1"); simpl; (split; [|done]); repeat constructor; set_solver.
Qed.

Definition report : result DecisionReplayResult := (replay_decision "d-1" (service store1)).2.

Lemma replay_order_independent_witness :
  alike stored (service store1) (service store2) /\
  (replay_decision "d-1" (service store1)).2 = (replay_decision "d-1" (service store2)).2 /\ is_ok report = true.
Proof.
  split; [by repeat split|]. split; [|by vm_compute].
  apply (replay_order_independent stored stored_same "d-1"). by repeat split.
Defined.

(** A store with fixed answers. *)
#[local] Instance fixed_store : ReplayTraceStore unit := {
  read_decision_trace d := mret (Some trace);
  list_agent_runs d := mret (rw_runs store1);
  list_agent_messages d := mret [];
  list_llm_calls d := mret (rw_calls store1);
}.

Definition fixed_report : option DecisionReplayResult :=
  match (replay_decision "d-1" (Replayer tt (@None unit))).2 with Ok r => Some r | Raise _ => None end.

Lemma replay_graph_star_witness :
  exists r, fixed_report = Some r /\
    (star r /\ NoDup (node_ids r) /\
     List.length (rr_graph_edges r) =
       ((if (0 <? List.length (rr_summary r))%nat then 1 else 0) +
        List.length (rr_agent_runs r) + List.length (rr_llm_calls r))%nat) /\
    rr_diff r <> None.
Proof.
  destruct fixed_report as [r|] eqn:E; [|by vm_compute in E].
  exists r. split; [done|]. split.
  - unfold fixed_report in E.
    destruct (replay_decision "d-1" (Replayer tt (@None unit))) as [s' [r'|e]] eqn:Er; simpl in E; [|done].
    injection E as <-. apply (replay_graph_star "d-1" (Replayer tt (@None unit)) s' r'); [|done].
    split; intros d t l [= <-]; vm_compute; repeat constructor; set_solver.
  - vm_compute in E. injection E as <-. done.
Defined.

(** The decision failed and its LLM call failed, yet the report says that the
    replay found no failures. *)
Example failed_call_not_seen :
  (r ← fixed_report; rr_diff r) =
  Some [("has_differences", VBool true);
        ("issues", VList [VStr "Original decision failed but replay found no failures"]);
        ("original_status", VStr "failed"); ("replay_run_count", VInt 2); ("replay_llm_call_count", VInt 1);
        ("failed_run_count", VInt 0); ("error_call_count", VInt 0)].
Proof. by vm_compute. Qed.
End Example_replay.
