(* ===== verification/DecisionStores.v ===== *)
(** * The memory stores of the agents' decisions

    [services/agent_orchestrator/sqlalchemy_memory_store.py]: the short- and long-term
    memory on tables and the short-term memory with expiry in process, as instances of
    the interfaces of [AgentMemory.v]. Clocks are read from the state. A query without an
    order returns its rows in the order of the table. *)

From S2P Require Import Prelude PyStr PyFloat PyTime PyVal PyJson SqlTable MarketStore AgentMemory.
From stdpp Require Import options.
From Stdlib Require Import Ascii String.

#[local] Open Scope Z_scope.

(** ** Short-term memory in process *)

Record InMemoryTTLShortTermStore := {
  tt_slots : list ((scope * string) * (dict * f64));
  tt_clock : nat -> f64;
  tt_tick : nat }.

Section assoc_by.
Context {K A : Type} `{!EqDecision K}.
Fixpoint put_key (k : K) (v : A) (d : list (K * A)) : list (K * A) :=
  match d with
  | [] => [(k, v)]
  | (k', v') :: d' => if decide (k = k') then (k', v) :: d' else (k', v') :: put_key k v d'
  end.
End assoc_by.

Definition ttl_write_slot (sc : scope) (slot : string) (payload : dict) (ttl_seconds : Z) : prog InMemoryTTLShortTermStore unit := fun s =>
  let expires_at := fadd (tt_clock s (tt_tick s)) (f_of_Z (Z.max ttl_seconds 1)) in
  ({| tt_slots := put_key (sc, slot) (payload, expires_at) (tt_slots s); tt_clock := tt_clock s; tt_tick := S (tt_tick s) |}, Ok tt).

Definition ttl_read_slots (sc : scope) : prog InMemoryTTLShortTermStore (list (string * val)) := fun s =>
  let now := tt_clock s (tt_tick s) in
  let live := List.filter (fun e => negb (fleb e.2.2 now)) (tt_slots s) in
  ({| tt_slots := live; tt_clock := tt_clock s; tt_tick := S (tt_tick s) |},
   Ok ((fun e => (e.1.2, VDict e.2.1)) <$> List.filter (fun e => bool_decide (e.1.1 = sc)) live)).

#[export] Instance ttl_short_term : ShortTermMemoryStore InMemoryTTLShortTermStore := {
  write_slot := ttl_write_slot; read_slots := ttl_read_slots }.

(** ** Short-term memory on a table *)

Record slot_row := {
  so_scope : scope; so_slot : string; so_payload_json : string; so_expires_at : string; so_updated_at : string }.

Record slot_db := { sd_slots : list slot_row; sd_clock : nat -> Z; sd_tick : nat }.

Definition set_slots (t : list slot_row) (db : slot_db) : slot_db := {| sd_slots := t; sd_clock := sd_clock db; sd_tick := sd_tick db |}.
Definition slot_clock : prog slot_db Z := fun db =>
  ({| sd_slots := sd_slots db; sd_clock := sd_clock db; sd_tick := S (sd_tick db) |}, Ok (sd_clock db (sd_tick db))).

(** [datetime.now(timezone.utc).timestamp()] is the quotient rounded to a float. *)
Definition _utc_future_iso (now ttl_seconds : Z) : result string :=
  us ← fromtimestamp (fadd (flit (now - EPOCH_US) (-6)) (f_of_Z (Z.max ttl_seconds 1)));
  Ok (iso_z us).

Definition slot_key (r : slot_row) : scope * string := (so_scope r, so_slot r).

Definition sql_write_slot (sc : scope) (slot : string) (payload : dict) (ttl_seconds : Z) : prog slot_db unit :=
  now ← slot_clock;
  expires_at ← lift (_utc_future_iso now (Z.max ttl_seconds 1));
  text ← lift (json_dumps json_plain (VDict payload));
  updated ← slot_clock;
  modify (fun db => set_slots
    (upsert_row (fun r => bool_decide (slot_key r = (sc, slot)))
       (fun r => {| so_scope := so_scope r; so_slot := so_slot r; so_payload_json := text; so_expires_at := expires_at;
                    so_updated_at := iso_z updated |})
       {| so_scope := sc; so_slot := slot; so_payload_json := text; so_expires_at := expires_at; so_updated_at := iso_z updated |}
       (sd_slots db)) db).

(** [expires_at <= :now_iso] compares texts. *)
Definition expired (now_iso : string) (r : slot_row) : bool := str_leb (so_expires_at r) now_iso.

Definition slot_value (r : slot_row) : result (string * val) :=
  parsed ← json_loads (so_payload_json r); Ok (so_slot r, VDict (_ensure_mapping parsed)).

Definition sql_read_slots (sc : scope) : prog slot_db (list (string * val)) :=
  now ← slot_clock;
  _ ← modify (fun db => set_slots (List.filter (fun r => negb (expired (iso_z now) r)) (sd_slots db)) db);
  rows ← gets (fun db => List.filter (fun r => bool_decide (so_scope r = sc) && negb (expired (iso_z now) r)) (sd_slots db));
  lift (map_res slot_value rows).

#[export] Instance sql_short_term : ShortTermMemoryStore slot_db := { write_slot := sql_write_slot; read_slots := sql_read_slots }.

(** ** Long-term memory *)

Record memory_row := {
  mw_decision_id : string; mw_trace_id : string; mw_strategy_id : string; mw_mode : string; mw_status : string;
  mw_summary_json : string; mw_lifecycle_json : string; mw_persisted_at : string }.

Definition memory_values (record : DecisionMemoryRecord) : result memory_row :=
  summary ← json_dumps json_plain (VDict (dm_summary record));
  lifecycle ← json_dumps json_plain (VList (VDict <$> dm_lifecycle record));
  Ok {| mw_decision_id := dm_decision_id record; mw_trace_id := dm_trace_id record; mw_strategy_id := dm_strategy_id record;
        mw_mode := dm_mode record; mw_status := dm_status record; mw_summary_json := summary; mw_lifecycle_json := lifecycle;
        mw_persisted_at := dm_persisted_at record |}.

(** Every column but the key takes the new value. *)
Definition sql_store_summary (record : DecisionMemoryRecord) : prog (list memory_row) unit :=
  row ← lift (memory_values record);
  modify (upsert_row (fun r => bool_decide (mw_decision_id r = mw_decision_id row)) (fun _ => row) row).

(** Iterating the parsed lifecycle: a list, the keys of a mapping or the characters of a
    text. *)
Definition lifecycle_items (v : val) : result (list val) :=
  match v with
  | VList l => Ok l
  | VDict d => Ok (VStr <$> d.*1)
  | VStr s => Ok ((fun c => VStr (String c "")) <$> String.list_ascii_of_string s)
  | _ => raise TypeError "object is not iterable"
  end.

Definition record_of_row (r : memory_row) : result DecisionMemoryRecord :=
  summary ← json_loads (mw_summary_json r);
  lifecycle ← json_loads (mw_lifecycle_json r);
  items ← lifecycle_items lifecycle;
  Ok {| dm_trace_id := mw_trace_id r; dm_decision_id := mw_decision_id r; dm_strategy_id := mw_strategy_id r; dm_mode := mw_mode r;
        dm_status := mw_status r; dm_summary := _ensure_mapping summary; dm_lifecycle := _ensure_mapping <$> items;
        dm_persisted_at := mw_persisted_at r |}.

Definition sql_read_summary (decision_id : string) : prog (list memory_row) (option DecisionMemoryRecord) :=
  row ← gets (row_at mw_decision_id decision_id);
  match row with
  | None => mret None
  | Some r => lift (record ← record_of_row r; Ok (Some record))
  end.

#[export] Instance sql_long_term : LongTermMemoryStore (list memory_row) := {
  store_summary := sql_store_summary; read_decision_summary := sql_read_summary }.

(** ** What is remembered *)

Definition record_safe (record : DecisionMemoryRecord) : Prop :=
  json_safe (VDict (dm_summary record)) = true /\ json_safe (VList (VDict <$> dm_lifecycle record)) = true.

Lemma loads_dumps v s : json_safe v = true -> json_dumps json_plain v = Ok s -> json_loads s = Ok v.
Proof. intros Hs E. pose proof (json_roundtrip _ json_plain_reads v Hs) as H. rewrite E in H. exact H. Qed.

Lemma ensure_dicts (l : list dict) : _ensure_mapping <$> (VDict <$> l) = l.
Proof. induction l as [|d l IH]; [done|]. rewrite !fmap_cons, IH. done. Qed.

(** A record that was stored is read under its id, the others are untouched. *)
Lemma summary_read_back record t t' :
  record_safe record -> store_summary record t = (t', Ok tt) ->
  read_decision_summary (dm_decision_id record) t' = (t', Ok (Some record)) /\
  forall id, id <> dm_decision_id record -> row_at mw_decision_id id t' = row_at mw_decision_id id t.
Proof.
  intros [Hs Hl]. cbn [store_summary sql_long_term]. unfold sql_store_summary. rewrite lift_bind.
  destruct (memory_values record) as [row|] eqn:Ev; [|done]. intros [= <-].
  unfold memory_values in Ev. apply bind_Ok in Ev as (summary & E1 & Ev). apply bind_Ok in Ev as (lifecycle & E2 & [= <-]).
  cbn [mw_decision_id]. split; [|intros id Hid; by apply row_at_upsert_ne].
  cbn [read_decision_summary sql_long_term]. unfold sql_read_summary. rewrite gets_bind.
  match goal with |- context [upsert_row ?s ?m ?n ?t] => assert (row_at mw_decision_id (dm_decision_id record) (upsert_row s m n t) = Some n) as -> end.
  { match goal with |- row_at _ _ (upsert_row ?s ?m ?n ?t) = _ =>
      assert (forall r, mw_decision_id r = mw_decision_id n -> mw_decision_id (m r) = mw_decision_id r) as Hm by (intros r Hr; by rewrite Hr);
      pose proof (row_at_upsert_eq mw_decision_id s m n (fun r => eq_refl) Hm t) as H end.
    cbn [mw_decision_id] in H. rewrite H. by destruct (row_at mw_decision_id (dm_decision_id record) t). }
  unfold record_of_row. cbn [mw_summary_json mw_lifecycle_json mw_decision_id mw_trace_id mw_strategy_id mw_mode mw_status mw_persisted_at].
  rewrite (loads_dumps _ _ Hs E1), (loads_dumps _ _ Hl E2). cbn [mbind result_bind lifecycle_items]. rewrite ensure_dicts.
  by destruct record.
Qed.

(** Every stored payload parses. *)
Definition readable (db : slot_db) : Prop := Forall (fun r => exists v, slot_value r = Ok v) (sd_slots db).

Lemma slot_clock_bind {A} (f : Z -> prog slot_db A) db :
  (slot_clock ≫= f) db = f (sd_clock db (sd_tick db)) {| sd_slots := sd_slots db; sd_clock := sd_clock db; sd_tick := S (sd_tick db) |}.
Proof. done. Qed.

(** A written slot holds its payload. *)
Lemma slot_written sc slot payload ttl db db' :
  json_safe (VDict payload) = true -> write_slot sc slot payload ttl db = (db', Ok tt) -> readable db ->
  readable db' /\ exists r, row_at slot_key (sc, slot) (sd_slots db') = Some r /\ slot_value r = Ok (slot, VDict payload).
Proof.
  intros Hs. cbn [write_slot sql_short_term]. unfold sql_write_slot. rewrite slot_clock_bind, lift_bind.
  destruct (_utc_future_iso _ _) as [deadline|]; [|done]. rewrite lift_bind.
  destruct (json_dumps _ _) as [text|] eqn:Ed; [|done]. rewrite slot_clock_bind.
  intros [= <-] Hr. unfold readable in *. cbn [sd_slots set_slots].
  match goal with |- context [upsert_row ?s ?m ?n ?t] => set (merge := m); set (new := n) end.
  assert (forall r, so_payload_json r = text -> slot_value r = Ok (so_slot r, VDict payload)) as Hv.
  { intros r Hr'. unfold slot_value. by rewrite Hr', (loads_dumps _ _ Hs Ed). }
  split.
  - apply Forall_upsert; [done| |intros r _]; eexists; by apply Hv.
  - assert (forall r, slot_key r = slot_key new -> slot_key (merge r) = slot_key r) as Hm by done.
    change (sc, slot) with (slot_key new). rewrite (row_at_upsert_eq _ _ _ _ (fun r => eq_refl) Hm). eexists. split; [done|].
    destruct (row_at _ _ _) as [o|] eqn:Eo; [|by apply Hv]. apply row_at_Some in Eo as [_ Eo]. injection Eo as E1 E2.
    rewrite Hv by done. f_equal. f_equal. exact E2.
Qed.

(** A slot that can be written: the deadline is a date of the calendar. *)
Lemma slot_writes sc slot payload ttl db :
  json_safe (VDict payload) = true -> (forall n, exists s, _utc_future_iso (sd_clock db n) (Z.max ttl 1) = Ok s) ->
  exists db', write_slot sc slot payload ttl db = (db', Ok tt).
Proof.
  intros Hs Hd. cbn [write_slot sql_short_term]. unfold sql_write_slot. rewrite slot_clock_bind, lift_bind.
  destruct (Hd (sd_tick db)) as [deadline ->]. rewrite lift_bind.
  pose proof (json_roundtrip _ json_plain_reads _ Hs) as H. destruct (json_dumps _ _) as [text|]; [|done].
  rewrite slot_clock_bind. by eexists.
Qed.

Lemma row_at_filter {R K} `{!EqDecision K} (key : R -> K) (p : R -> bool) k t r :
  row_at key k t = Some r -> p r = true -> row_at key k (List.filter p t) = Some r.
Proof.
  induction t as [|x t IH]; [done|]. rewrite row_at_cons. cbn [List.filter]. case_bool_decide as E.
  - intros [= ->] ->. by rewrite row_at_cons, bool_decide_true.
  - intros H Hp. destruct (p x); [|by apply IH]. rewrite row_at_cons, bool_decide_false by done. by apply IH.
Qed.

(** The reading of a scope: its live slots, in the order of the table. *)
Lemma slots_read sc db :
  readable db ->
  let now := iso_z (sd_clock db (sd_tick db)) in
  exists db' slots, read_slots sc db = (db', Ok slots) /\ readable db' /\ sd_clock db' = sd_clock db /\
    (forall r v, r ∈ sd_slots db -> so_scope r = sc -> expired now r = false -> slot_value r = Ok v -> v ∈ slots) /\
    ((forall r, r ∈ sd_slots db -> so_scope r = sc -> expired now r = true) -> slots = []) /\
    (forall k r, row_at slot_key k (sd_slots db) = Some r -> expired now r = false -> row_at slot_key k (sd_slots db') = Some r).
Proof.
  intros Hr now. cbn [read_slots sql_short_term]. unfold sql_read_slots. rewrite slot_clock_bind, modify_bind, gets_bind.
  cbn [sd_slots set_slots]. fold now. set (live := List.filter (fun r => negb (expired now r)) (sd_slots db)).
  assert (forall r, r ∈ live <-> r ∈ sd_slots db /\ expired now r = false) as Hlive.
  { intros r. unfold live. rewrite !list_elem_of_In, filter_In, negb_true_iff. done. }
  set (rows := List.filter _ live).
  assert (forall r, r ∈ rows <-> r ∈ live /\ so_scope r = sc) as Hrows.
  { intros r. unfold rows. rewrite !list_elem_of_In, filter_In, andb_true_iff, bool_decide_eq_true, negb_true_iff, <- !list_elem_of_In, Hlive. tauto. }
  assert (Forall (fun r => exists v, slot_value r = Ok v) live) as Hl.
  { apply Forall_forall. intros r [Hin _]%Hlive. unfold readable in Hr. rewrite Forall_forall in Hr. by apply Hr. }
  assert (exists slots, map_res slot_value rows = Ok slots) as [slots Es].
  { assert (Forall (fun r => exists v, slot_value r = Ok v) rows) as Hall.
    { apply Forall_forall. rewrite Forall_forall in Hl. intros r [Hin _]%Hrows. by apply Hl. }
    apply Forall_exists_Forall2_l in Hall as [slots H]. exists slots. by apply map_res_Forall2. }
  eexists _, slots. unfold lift. rewrite Es. split_and!; [done|exact Hl|done| | |].
  - intros r v Hin Hsc Hx Hv. apply map_res_Forall2 in Es.
    assert (r ∈ rows) as (i & Hi)%list_elem_of_lookup by (apply Hrows; split; [by apply Hlive|done]).
    destruct (Forall2_lookup_l _ _ _ _ _ Es Hi) as (v' & Hv' & E). rewrite Hv in E. injection E as ->. by eapply list_elem_of_lookup_2.
  - intros Hx. assert (rows = []) as E; [|rewrite E in Es; by injection Es].
    destruct rows as [|r l]; [done|]. destruct (Hrows r) as [H _]. destruct H as [[Hin Hf]%Hlive Hsc]; [by left|].
    by rewrite Hx in Hf.
  - intros k r Hk Hx. cbn [sd_slots set_slots]. apply row_at_filter; [done|by rewrite Hx].
Qed.

Definition decision_memory := AgentMemoryLayer slot_db (list memory_row).

(** C35. A decision's summary is not forgotten: once it was persisted, reading the memory
    of the decision gives the summary back, whatever the clock shows - from the short-term
    table before the deadline of its slot, and from the archive after it, when no other
    slot of the decision outlives it. A summary taken from the archive is put back in the
    short-term table. *)
Theorem summary_recalled (l l' : decision_memory) now trace_id sc status market_context plan risk execution_decision guardrail lifecycle record :
  let db := am_short_term l' in
  let at_iso := iso_z (sd_clock db (sd_tick db)) in
  readable (am_short_term l) -> record_safe record ->
  persist_decision_summary now trace_id sc status market_context plan risk execution_decision guardrail lifecycle l = (l', Ok record) ->
  (forall n, exists s, _utc_future_iso (sd_clock db n) (Z.max (am_decision_ttl_seconds l') 1) = Ok s) ->
  exists r, row_at slot_key (sc, "summary"%string) (sd_slots db) = Some r /\
    ((forall r', r' ∈ sd_slots db -> so_scope r' = sc -> str_leb (so_expires_at r') (so_expires_at r) = true) ->
     exists l'' snapshot, read_decision_memory sc l' = (l'', Ok snapshot) /\
       ("summary"%string, dm_summary record) ∈ ms_slots snapshot /\
       ms_source snapshot = (if str_leb (so_expires_at r) at_iso then "postgres" else "redis")%string /\
       exists r'', row_at slot_key (sc, "summary"%string) (sd_slots (am_short_term l'')) = Some r'' /\
         slot_value r'' = Ok ("summary"%string, VDict (dm_summary record))).
Proof.
  cbn zeta. intros Hr Hsafe. unfold persist_decision_summary. set (summary := [("status"%string, _); _; _; _; _; _]).
  intros (l1 & [] & E1 & H)%prog_bind_Ok Hd. apply prog_bind_Ok in H as (l2 & [] & E2 & H).
  injection H as -> <-. cbn [dm_summary]. destruct Hsafe as [Hs Hl]. cbn [dm_summary dm_lifecycle] in Hs, Hl.
  unfold long, zoom in E1. destruct (store_summary _ _) as [t' x] eqn:Es. injection E1 as <- ->.
  apply summary_read_back in Es as [Hread _]; [|by split]. cbn [dm_decision_id] in Hread.
  unfold write_decision_slot, short, zoom in E2. cbn [am_short_term am_long_term am_decision_ttl_seconds _ensure_mapping] in E2.
  destruct (write_slot _ _ _ _ _) as [db x] eqn:Ew. injection E2 as <- ->. cbn [am_short_term am_long_term am_decision_ttl_seconds] in *.
  destruct (slot_written _ _ _ _ _ _ Hs Ew Hr) as [Hr' (r & Hrow & Hv)]. exists r. split; [done|]. intros Hout.
  destruct (row_at_Some _ _ _ _ Hrow) as [Hin Hkey]. injection Hkey as Hsc Hslot.
  destruct (slots_read sc db Hr') as (db2 & slots & Erd & Hr2 & Hc & Hlive & Hdead & Hkept).
  unfold read_decision_memory, short, zoom. unfold mbind at 1, prog_bind at 1. cbn [am_short_term am_long_term am_decision_ttl_seconds].
  rewrite Erd. unfold expired in Hlive, Hdead, Hkept. destruct (str_leb (so_expires_at r) _) eqn:Ex.
  - rewrite Hdead by (intros r' Hi Hs'; exact (str_leb_trans _ _ _ (Hout r' Hi Hs') Ex)).
    unfold long, zoom, mbind at 1, prog_bind at 1. cbn [am_short_term am_long_term am_decision_ttl_seconds]. rewrite Hread. cbn [dm_summary _ensure_mapping].
    destruct (slot_writes sc "summary" summary (am_decision_ttl_seconds l) db2 Hs) as [db3 Ew3]; [by rewrite Hc|].
    unfold write_decision_slot, short, zoom, mbind, prog_bind. cbn [am_short_term am_long_term am_decision_ttl_seconds _ensure_mapping]. rewrite Ew3.
    eexists _, _. split_and!; [done|cbn [ms_slots]; by apply list_elem_of_singleton|done|]. by apply (slot_written _ _ _ _ _ _ Hs Ew3 Hr2).
  - pose proof (Hlive r _ Hin Hsc Ex Hv) as Hel. destruct slots as [|kv slots]; [by apply elem_of_nil in Hel|].
    eexists _, _. split_and!; [done| |done|].
    + cbn [ms_slots]. apply list_elem_of_fmap. by exists ("summary"%string, VDict summary).
    + exists r. cbn [am_short_term]. split; [by apply Hkept|done].
Qed.

(** ** A summary after its slot expired *)

Module Example_memory.
Definition sc : scope := Scope "MOCK" "s-1" "d-1".
(** Persisted at noon, asked for a day later. *)
Definition noon : Z := 63850161600000000.
Definition clock (n : nat) : Z := match n with O | S O => noon | _ => noon + 86400 * 1000000 end.
Definition memory : decision_memory :=
  Memory {| sd_slots := []; sd_clock := clock; sd_tick := 0 |} [] 3600.
Definition persist : prog decision_memory DecisionMemoryRecord :=
  persist_decision_summary noon "t-1" sc "executed" [("symbol"%string, VStr "BTCUSDT")] [] [] [] [] [].
Definition persisted : decision_memory := (persist memory).1.
Definition record : DecisionMemoryRecord :=
  {| dm_trace_id := "t-1"; dm_decision_id := "d-1"; dm_strategy_id := "s-1"; dm_mode := "MOCK"; dm_status := "executed";
     dm_summary := [("status"%string, VStr "executed"); ("market_context"%string, VDict [("symbol"%string, VStr "BTCUSDT")]);
                    ("plan"%string, VDict []); ("risk"%string, VDict []); ("execution_decision"%string, VDict []); ("guardrail"%string, VDict [])];
     dm_lifecycle := []; dm_persisted_at := iso_z noon |}.

Lemma summary_recalled_witness :
  exists l'' snapshot, read_decision_memory sc persisted = (l'', Ok snapshot) /\
    ("summary"%string, dm_summary record) ∈ ms_slots snapshot /\ ms_source snapshot = "postgres"%string.
Proof.
  destruct (summary_recalled memory persisted noon "t-1" sc "executed" [("symbol"%string, VStr "BTCUSDT")] [] [] [] [] [] record)
    as (r & Hrow & H).
  - constructor.
  - split; vm_compute; reflexivity.
  - apply with_state. vm_compute. reflexivity.
  - intros [|[|n]]; eexists; vm_compute; reflexivity.
  - vm_compute in Hrow. injection Hrow as <-. destruct H as (l'' & snapshot & H1 & H2 & H3 & _).
    + intros r' Hr' _. assert (Forall (fun x => str_leb (so_expires_at x) "2024-05-01T13:00:00Z" = true) (sd_slots (am_short_term persisted))) as HF.
      { vm_compute. repeat constructor. }
      rewrite Forall_forall in HF. exact (HF r' Hr').
    + exists l'', snapshot. split; [exact H1|]. split; [exact H2|]. rewrite H3. vm_compute. reflexivity.
Defined.
End Example_memory.
