(* ===== verification/TraceStore.v ===== *)
(** * The stored traces of decisions

    [services/agent_orchestrator/sqlalchemy_trace_store.py]: the trace of a decision
    cycle with its agent runs, their messages and the news it used, on tables; an instance
    of the trace store that the replay service of [Replay.v] reads. Times and fresh UUIDs
    are read from the state: each reading takes the next one. Every statement is committed
    on its own, so what raises keeps what was written before. *)

From S2P Require Import Prelude PyStr PyFloat PyTime PyUuid PyVal PyJson SqlTable OmsStore LlmGateway LlmStores Replay.
From stdpp Require Import options.
From Stdlib Require Import Ascii String.

#[local] Open Scope Z_scope.

(** ** Tables *)

Record TraceAgentRun := {
  ta_agent_name : string; ta_status : string; ta_latency_ms : option f64; ta_started_at : string;
  ta_completed_at : option string; ta_input_payload : dict; ta_output_payload : dict }.

Record trace_row := {
  tc_decision_id : string; tc_trace_id : string; tc_strategy_id : string; tc_mode : string; tc_status : string;
  tc_started_at : string; tc_completed_at : option string; tc_created_at : string }.

Record run_row := {
  rn_id : string; rn_decision_id : string; rn_agent_name : string; rn_input_ref : option string; rn_output_ref : option string;
  rn_latency_ms : option f64; rn_status : string; rn_started_at : string; rn_completed_at : option string; rn_created_at : string }.

Record message_row := {
  mr_id : string; mr_run_id : string; mr_role : string; mr_payload_json : string; mr_created_at : string }.

Record link_row := { lk_decision_id : string; lk_summary_id : string; lk_news_id : string; lk_linked_at : string }.

(** [llm_calls] is the table the call store of the gateway writes. *)
Record trace_db := {
  tb_traces : list trace_row; tb_runs : list run_row; tb_messages : list message_row; tb_links : list link_row;
  tb_calls : list call_row;
  tb_clock : nat -> Z; tb_tick : nat; tb_uuid4 : nat -> string; tb_next : nat }.

Definition set_tables (traces : list trace_row) (runs : list run_row) (messages : list message_row) (links : list link_row)
    (db : trace_db) : trace_db :=
  {| tb_traces := traces; tb_runs := runs; tb_messages := messages; tb_links := links; tb_calls := tb_calls db;
     tb_clock := tb_clock db; tb_tick := tb_tick db; tb_uuid4 := tb_uuid4 db; tb_next := tb_next db |}.
Definition set_traces t db := set_tables t (tb_runs db) (tb_messages db) (tb_links db) db.
Definition set_runs t db := set_tables (tb_traces db) t (tb_messages db) (tb_links db) db.
Definition set_messages t db := set_tables (tb_traces db) (tb_runs db) t (tb_links db) db.
Definition set_links t db := set_tables (tb_traces db) (tb_runs db) (tb_messages db) t db.

(** [datetime.now(timezone.utc)] and [str(uuid.uuid4())] *)
Definition trace_clock : prog trace_db Z := fun db =>
  ({| tb_traces := tb_traces db; tb_runs := tb_runs db; tb_messages := tb_messages db; tb_links := tb_links db; tb_calls := tb_calls db;
      tb_clock := tb_clock db; tb_tick := S (tb_tick db); tb_uuid4 := tb_uuid4 db; tb_next := tb_next db |}, Ok (tb_clock db (tb_tick db))).
Definition advance (n : nat) (db : trace_db) : trace_db :=
  {| tb_traces := tb_traces db; tb_runs := tb_runs db; tb_messages := tb_messages db; tb_links := tb_links db; tb_calls := tb_calls db;
     tb_clock := tb_clock db; tb_tick := tb_tick db; tb_uuid4 := tb_uuid4 db; tb_next := n + tb_next db |}.
Definition fresh_uuid : prog trace_db string := fun db => (advance 1 db, Ok (tb_uuid4 db (tb_next db))).

Definition _try_uuid (value : string) : option string :=
  let raw := strip value in if is_empty raw then None else uuid_canonical raw.

Definition coerce_id (value : string) : prog trace_db string :=
  let raw := strip value in
  if is_empty raw then fresh_uuid
  else mret (match _try_uuid raw with Some u => u | None => uuid_str (uuid5_url raw) end).

(** [INSERT ... ON CONFLICT DO NOTHING] *)
Definition insert_new {R} (taken : R -> bool) (new : R) (t : list R) : list R := if existsb taken t then t else t ++ [new].

(** ** Writing a cycle *)

Definition _persist_agent_message (agent_run_id role : string) (payload_json : dict) (created_at : string) : prog trace_db unit :=
  message_id ← fresh_uuid;
  text ← lift (json_dumps json_plain (VDict payload_json));
  modify (fun db => set_messages
    (insert_new (fun r => String.eqb (mr_id r) message_id)
       {| mr_id := message_id; mr_run_id := agent_run_id; mr_role := role; mr_payload_json := text; mr_created_at := created_at |}
       (tb_messages db)) db).

Definition or_text (o : option string) (d : string) : string :=
  match o with Some s => if is_empty s then d else s | None => d end.

Definition run_values (run_id decision_id created_at : string) (run : TraceAgentRun) : run_row :=
  {| rn_id := run_id; rn_decision_id := decision_id; rn_agent_name := ta_agent_name run;
     rn_input_ref := Some ("agent_message:" +:+ run_id +:+ ":input"); rn_output_ref := Some ("agent_message:" +:+ run_id +:+ ":output");
     rn_latency_ms := (x ← ta_latency_ms run; real x); rn_status := ta_status run; rn_started_at := ta_started_at run;
     rn_completed_at := ta_completed_at run; rn_created_at := created_at |}.

Definition persist_run (decision_id created_at : string) (run : TraceAgentRun) : prog trace_db unit :=
  run_id ← fresh_uuid;
  _ ← modify (fun db => set_runs (insert_new (fun r => String.eqb (rn_id r) run_id) (run_values run_id decision_id created_at run) (tb_runs db)) db);
  _ ← _persist_agent_message run_id "input" (ta_input_payload run) (ta_started_at run);
  _persist_agent_message run_id "output" (ta_output_payload run) (or_text (ta_completed_at run) (ta_started_at run)).

Definition link_key (r : link_row) : string * string * string := (lk_decision_id r, lk_summary_id r, lk_news_id r).

Definition persist_link (decision_id created_at : string) (link : string * string) : prog trace_db unit :=
  match _try_uuid link.1, _try_uuid link.2 with
  | Some summary_id, Some news_id =>
      modify (fun db => set_links
        (insert_new (fun r => bool_decide (link_key r = (decision_id, summary_id, news_id)))
           {| lk_decision_id := decision_id; lk_summary_id := summary_id; lk_news_id := news_id; lk_linked_at := created_at |}
           (tb_links db)) db)
  | _, _ => mret tt
  end.

Definition merge_trace (new old : trace_row) : trace_row :=
  {| tc_decision_id := tc_decision_id old; tc_trace_id := tc_trace_id new; tc_strategy_id := tc_strategy_id new; tc_mode := tc_mode new;
     tc_status := tc_status new; tc_started_at := tc_started_at new; tc_completed_at := tc_completed_at new; tc_created_at := tc_created_at old |}.

Definition persist_cycle (trace_id decision_id strategy_id mode status started_at : string) (completed_at : option string)
    (runs : list TraceAgentRun) (decision_news_links : list (string * string)) : prog trace_db unit :=
  normalized_decision_id ← coerce_id decision_id;
  normalized_strategy_id ← coerce_id strategy_id;
  let normalized_mode := or_text (Some (upper (strip mode))) "MOCK" in
  let normalized_trace_id := or_text (Some (strip trace_id)) normalized_decision_id in
  now ← trace_clock;
  let created_at := iso_z now in
  let row := {| tc_decision_id := normalized_decision_id; tc_trace_id := normalized_trace_id; tc_strategy_id := normalized_strategy_id;
                tc_mode := normalized_mode; tc_status := status; tc_started_at := started_at; tc_completed_at := completed_at;
                tc_created_at := created_at |} in
  _ ← modify (fun db => set_traces (upsert_row (fun r => bool_decide (tc_decision_id r = normalized_decision_id)) (merge_trace row) row (tb_traces db)) db);
  _ ← for_each (persist_run normalized_decision_id created_at) runs;
  for_each (persist_link normalized_decision_id created_at) decision_news_links.

(** ** Reading a trace *)

Definition non_empty (o : option string) : option string := s ← o; if is_empty s then None else Some s.

Definition trace_of_row (r : trace_row) : DecisionTraceRecord :=
  {| tr_decision_id := tc_decision_id r; tr_trace_id := tc_trace_id r; tr_strategy_id := tc_strategy_id r; tr_mode := tc_mode r;
     tr_status := tc_status r; tr_started_at := tc_started_at r; tr_completed_at := non_empty (tc_completed_at r) |}.

Definition run_of_row (r : run_row) : AgentRunRecord :=
  {| ar_agent_run_id := rn_id r; ar_decision_id := rn_decision_id r; ar_agent_name := rn_agent_name r;
     ar_input_ref := non_empty (rn_input_ref r); ar_output_ref := non_empty (rn_output_ref r); ar_latency_ms := rn_latency_ms r;
     ar_status := rn_status r; ar_started_at := rn_started_at r; ar_completed_at := non_empty (rn_completed_at r) |}.

Definition _parse_json_mapping (value : string) : dict :=
  if is_empty (strip value) then []
  else match json_loads value with Ok (VDict d) => d | _ => [] end.

Definition message_of_row (r : message_row) : AgentMessageRecord :=
  {| mg_message_id := mr_id r; mg_agent_run_id := mr_run_id r; mg_role := mr_role r;
     mg_payload_json := VDict (_parse_json_mapping (mr_payload_json r)); mg_created_at := mr_created_at r |}.

(** [float(x or 0.0)] *)
Definition or_zero (x : f64) : f64 := if feqb x fzero then fzero else x.

(** The record keeps the identity of the request and not its messages. *)
Definition call_of_row (r : call_row) : LLMCallRecord :=
  {| cr_llm_call_id := cl_llm_call_id r;
     cr_request := {| rq_trace_id := cl_trace_id r; rq_decision_id := cl_decision_id r; rq_strategy_id := cl_strategy_id r;
                      rq_agent_name := cl_agent_name r; rq_messages := []; rq_temperature := fzero; rq_max_tokens := 0; rq_metadata := [] |};
     cr_provider := cl_provider r; cr_model := cl_model r; cr_prompt_payload := _parse_json_mapping (cl_prompt_payload r);
     cr_response_payload := _parse_json_mapping (cl_response_payload r);
     cr_usage := {| tu_prompt := cl_prompt_tokens r; tu_completion := cl_completion_tokens r; tu_total := cl_total_tokens r |};
     cr_latency_ms := or_zero (cl_latency_ms r); cr_estimated_cost := or_zero (cl_estimated_cost r); cr_created_at := cl_created_at r |}.

(** [ORDER BY a ASC, b ASC] *)
Definition order_by2 {R} (a b : R -> string) : list R -> list R := sort_by (fun x y => strs_leb [a x; b x] [a y; b y]).

Definition sql_read_decision_trace (decision_id : string) : prog trace_db (option DecisionTraceRecord) :=
  id ← coerce_id decision_id;
  gets (fun db => trace_of_row <$> row_at tc_decision_id id (tb_traces db)).

Definition sql_list_agent_runs (decision_id : string) : prog trace_db (list AgentRunRecord) :=
  id ← coerce_id decision_id;
  gets (fun db => run_of_row <$> order_by2 rn_started_at rn_id (List.filter (fun r => String.eqb (rn_decision_id r) id) (tb_runs db))).

Definition sql_list_agent_messages (agent_run_id : string) : prog trace_db (list AgentMessageRecord) :=
  gets (fun db => message_of_row <$>
    order_by2 mr_created_at mr_id (List.filter (fun r => String.eqb (mr_run_id r) agent_run_id) (tb_messages db))).

Definition sql_list_llm_calls (decision_id : string) : prog trace_db (list LLMCallRecord) :=
  id ← coerce_id decision_id;
  gets (fun db => call_of_row <$>
    order_by2 cl_created_at cl_llm_call_id (List.filter (fun r => String.eqb (cl_decision_id r) id) (tb_calls db))).

#[export] Instance sql_trace_store : ReplayTraceStore trace_db := {
  read_decision_trace := sql_read_decision_trace; list_agent_runs := sql_list_agent_runs;
  list_agent_messages := sql_list_agent_messages; list_llm_calls := sql_list_llm_calls }.

(** ** What a cycle leaves in the tables *)

(** The UUIDs still to come are new. *)
Definition fresh_from (db : trace_db) : Prop :=
  (forall i j, tb_uuid4 db i = tb_uuid4 db j -> i = j) /\
  forall n, (tb_next db <= n)%nat ->
    tb_uuid4 db n ∉ rn_id <$> tb_runs db /\ tb_uuid4 db n ∉ mr_id <$> tb_messages db /\ tb_uuid4 db n ∉ mr_run_id <$> tb_messages db.

Definition message (message_id run_id role text created_at : string) : message_row :=
  {| mr_id := message_id; mr_run_id := run_id; mr_role := role; mr_payload_json := text; mr_created_at := created_at |}.

Lemma insert_new_fresh {R} (key : R -> string) k new t :
  k ∉ key <$> t -> insert_new (fun r => String.eqb (key r) k) new t = t ++ [new].
Proof.
  intros Hk. unfold insert_new. destruct (existsb _ t) eqn:E; [|done]. apply existsb_exists in E as (r & Hr & E%String.eqb_eq).
  destruct Hk. apply list_elem_of_fmap. exists r. split; [done|by apply list_elem_of_In].
Qed.

Lemma fresh_bind {A} (f : string -> prog trace_db A) db : (fresh_uuid ≫= f) db = f (tb_uuid4 db (tb_next db)) (advance 1 db).
Proof. done. Qed.

Lemma message_stored run_id role payload created_at db db' :
  tb_uuid4 db (tb_next db) ∉ mr_id <$> tb_messages db ->
  _persist_agent_message run_id role payload created_at db = (db', Ok tt) ->
  exists text, json_dumps json_plain (VDict payload) = Ok text /\
    db' = set_messages (tb_messages db ++ [message (tb_uuid4 db (tb_next db)) run_id role text created_at]) (advance 1 db).
Proof.
  intros Hf. unfold _persist_agent_message. rewrite fresh_bind, lift_bind. destruct (json_dumps _ _) as [text|] eqn:Ed; [|done].
  unfold modify. cbn [tb_messages advance]. rewrite (insert_new_fresh mr_id) by done. intros [= <-]. by exists text.
Qed.

Lemma run_stored d c run db db' :
  fresh_from db -> persist_run d c run db = (db', Ok tt) ->
  let id := tb_uuid4 db (tb_next db) in
  exists t1 t2 m1 m2, json_dumps json_plain (VDict (ta_input_payload run)) = Ok t1 /\ json_dumps json_plain (VDict (ta_output_payload run)) = Ok t2 /\
    db' = set_tables (tb_traces db) (tb_runs db ++ [run_values id d c run])
            (tb_messages db ++ [message m1 id "input" t1 (ta_started_at run); message m2 id "output" t2 (or_text (ta_completed_at run) (ta_started_at run))])
            (tb_links db) (advance 3 db) /\
    fresh_from db'.
Proof.
  intros [Hinj Hnew] H id. unfold persist_run in H. rewrite fresh_bind, modify_bind in H.
  cbn [tb_runs advance] in H. rewrite (insert_new_fresh rn_id) in H by (apply Hnew; lia). fold id in H.
  apply prog_bind_Ok in H as (db1 & [] & H1 & H2).
  apply message_stored in H1 as (t1 & E1 & ->); [|cbn; apply Hnew; lia].
  apply message_stored in H2 as (t2 & E2 & ->).
  2: { cbn. rewrite fmap_app, elem_of_app. intros [Hin|Hin]; [revert Hin; apply Hnew; lia|].
       apply list_elem_of_singleton, Hinj in Hin. lia. }
  exists t1, t2. eexists _, _. split_and!; [done|done|cbn; unfold set_messages, set_runs, set_tables, advance; cbn; by rewrite <- app_assoc|].
  split; [exact Hinj|]. cbn. intros n Hn. destruct (Hnew n ltac:(lia)) as (A & B & C).
  rewrite !fmap_app, !elem_of_app. cbn. rewrite !elem_of_cons, !elem_of_nil.
  split_and!; intros H; destruct_or! H; try done; apply Hinj in H; lia.
Qed.

Lemma mapping_parsed d text : json_safe (VDict d) = true -> json_dumps json_plain (VDict d) = Ok text -> _parse_json_mapping text = d.
Proof.
  intros Hs Hd. pose proof (json_roundtrip _ json_plain_reads _ Hs) as Hl. rewrite Hd in Hl. change (json_loads text = Ok (VDict d)) in Hl.
  assert (exists t, text = String "{" t) as [t ->].
  { rewrite dumps_dict in Hd. apply bind_Ok in Hd as (ms & _ & [= <-]). unfold json_members. by eexists. }
  unfold _parse_json_mapping, strip, strip_with. rewrite lstrip_with_head by done.
  destruct (rstrip_with_head is_space "{" t) as [u ->]; [done|]. cbn [is_empty]. by rewrite Hl.
Qed.

Definition run_safe (run : TraceAgentRun) : Prop :=
  json_safe (VDict (ta_input_payload run)) = true /\ json_safe (VDict (ta_output_payload run)) = true.

Definition messages_of (id : string) (db : trace_db) : list message_row :=
  List.filter (fun r => String.eqb (mr_run_id r) id) (tb_messages db).

(** The two messages of a run hold its payloads. *)
Definition run_messages (id : string) (run : TraceAgentRun) (rows : list message_row) : Prop :=
  exists t1 t2 m1 m2, _parse_json_mapping t1 = ta_input_payload run /\ _parse_json_mapping t2 = ta_output_payload run /\
    rows = [message m1 id "input" t1 (ta_started_at run); message m2 id "output" t2 (or_text (ta_completed_at run) (ta_started_at run))].

Lemma messages_of_other id db rows : id ∉ mr_run_id <$> rows ->
  List.filter (fun r => String.eqb (mr_run_id r) id) (tb_messages db ++ rows) = messages_of id db.
Proof.
  intros Hid. rewrite List.filter_app. fold (messages_of id db). rewrite <- (app_nil_r (messages_of id db)) at 2. f_equal.
  induction rows as [|r rows IH]; [done|]. cbn [List.filter]. rewrite fmap_cons, not_elem_of_cons in Hid.
  destruct Hid as [Hne Hid]. destruct (String.eqb_spec (mr_run_id r) id); [congruence|]. by apply IH.
Qed.

Lemma messages_of_none id db : id ∉ mr_run_id <$> tb_messages db -> messages_of id db = [].
Proof. intros Hid. exact (messages_of_other id (set_messages [] db) _ Hid). Qed.

Lemma runs_stored d c runs db db' :
  fresh_from db -> Forall run_safe runs -> for_each (persist_run d c) runs db = (db', Ok tt) ->
  exists ids, List.length ids = List.length runs /\ NoDup ids /\ Forall (fun id => id ∉ mr_run_id <$> tb_messages db) ids /\
    tb_runs db' = tb_runs db ++ zip_with (fun id run => run_values id d c run) ids runs /\
    Forall2 (fun id run => run_messages id run (messages_of id db')) ids runs /\
    (forall id, id ∉ ids -> messages_of id db' = messages_of id db) /\ tb_traces db' = tb_traces db.
Proof.
  revert db. induction runs as [|run runs IH]; intros db Hf Hs H.
  { injection H as <-. exists []. cbn. rewrite app_nil_r. split_and!; try done; constructor. }
  apply Forall_cons in Hs as [[Hs1 Hs2] Hs]. cbn [for_each] in H. apply prog_bind_Ok in H as (db1 & [] & H1 & H).
  destruct (run_stored _ _ _ _ _ Hf H1) as (t1 & t2 & m1 & m2 & E1 & E2 & E & Hf1).
  destruct (IH db1 Hf1 Hs H) as (ids & Hlen & Hn & Hnew & Hruns & Hmsg & Hother & Htr).
  set (id := tb_uuid4 db (tb_next db)) in *. destruct Hf as [_ Hf]. destruct (Hf (tb_next db) ltac:(lia)) as (_ & _ & Hid).
  rewrite E in Hnew, Hruns, Hother, Htr. cbn [set_tables tb_messages tb_runs tb_traces] in Hnew, Hruns, Htr.
  assert (id ∉ ids) as Hni.
  { rewrite Forall_forall in Hnew. intros Hin. apply (Hnew id Hin). rewrite fmap_app, elem_of_app. right. by left. }
  exists (id :: ids). cbn [List.length zip_with]. split_and!.
  - by rewrite Hlen.
  - by constructor.
  - constructor; [done|]. eapply Forall_impl; [exact Hnew|]. intros x Hx Hin. apply Hx. rewrite fmap_app, elem_of_app. by left.
  - rewrite Hruns, <- app_assoc. done.
  - constructor; [|exact Hmsg]. exists t1, t2, m1, m2. split_and!; [by apply mapping_parsed|by apply mapping_parsed|].
    rewrite (Hother id Hni). unfold messages_of. cbn [set_tables tb_messages]. rewrite List.filter_app. fold (messages_of id db).
    rewrite messages_of_none by done. cbn [app List.filter message mr_run_id]. by rewrite !String.eqb_refl.
  - intros x [Hx1 Hx2]%not_elem_of_cons. rewrite (Hother x Hx2). unfold messages_of at 1. cbn [set_tables tb_messages].
    apply messages_of_other. cbn. rewrite !not_elem_of_cons. split_and!; [done|done|apply not_elem_of_nil].
  - done.
Qed.

(** ** A cycle is read back *)

Definition decision_uuid (value : string) : string :=
  match _try_uuid (strip value) with Some u => u | None => uuid_str (uuid5_url (strip value)) end.

Lemma coerce_known {A} value (f : string -> prog trace_db A) db :
  strip value <> ""%string -> (coerce_id value ≫= f) db = f (decision_uuid value) db.
Proof. intros Hv. unfold coerce_id. destruct (strip value) eqn:E; [done|]. cbn [is_empty]. unfold decision_uuid. by rewrite E. Qed.

Lemma coerce_fresh value db : fresh_from db ->
  exists u db', coerce_id value db = (db', Ok u) /\ fresh_from db' /\ tb_runs db' = tb_runs db /\ tb_traces db' = tb_traces db /\
    (strip value <> ""%string -> u = decision_uuid value).
Proof.
  intros [Hi Hn]. unfold coerce_id, decision_uuid. destruct (strip value) as [|a s] eqn:E; cbn [is_empty].
  - eexists _, _. split; [done|]. split_and!; [|done..]. split; [exact Hi|]. intros n H. apply Hn. cbn in H. lia.
  - eexists _, _. split; [done|]. by split_and!.
Qed.

Lemma sort_by_fmap {A B} (f : A -> B) (le : A -> A -> bool) (le' : B -> B -> bool) l :
  (forall x y, le x y = le' (f x) (f y)) -> f <$> sort_by le l = sort_by le' (f <$> l).
Proof.
  intros Hle. induction l as [|x l IH]; [done|]. rewrite fmap_cons. cbn [sort_by]. rewrite <- IH. generalize (sort_by le l). intros k.
  induction k as [|y k IHk]; [done|]. rewrite fmap_cons. cbn [insert_sorted]. rewrite <- Hle. destruct (le x y); [done|].
  by rewrite fmap_cons, IHk.
Qed.

Lemma links_keep d c links db : let db' := (for_each (persist_link d c) links db).1 in
  tb_traces db' = tb_traces db /\ tb_runs db' = tb_runs db /\ tb_messages db' = tb_messages db.
Proof.
  apply (for_each_inv (fun s => tb_traces s = tb_traces db /\ tb_runs s = tb_runs db /\ tb_messages s = tb_messages db)); [|done].
  intros x s _ H. unfold persist_link. by destruct (_try_uuid x.1), (_try_uuid x.2).
Qed.

(** What the reader is shown of a run. *)
Definition run_record (decision_id id : string) (run : TraceAgentRun) : AgentRunRecord :=
  {| ar_agent_run_id := id; ar_decision_id := decision_id; ar_agent_name := ta_agent_name run;
     ar_input_ref := Some ("agent_message:" +:+ id +:+ ":input"); ar_output_ref := Some ("agent_message:" +:+ id +:+ ":output");
     ar_latency_ms := (x ← ta_latency_ms run; real x); ar_status := ta_status run; ar_started_at := ta_started_at run;
     ar_completed_at := non_empty (ta_completed_at run) |}.

Definition message_record (message_id run_id role : string) (payload : dict) (created_at : string) : AgentMessageRecord :=
  {| mg_message_id := message_id; mg_agent_run_id := run_id; mg_role := role; mg_payload_json := VDict payload; mg_created_at := created_at |}.

Lemma order_by2_fmap {A B} (f : A -> B) (a b : A -> string) (a' b' : B -> string) l :
  (forall x, a x = a' (f x) /\ b x = b' (f x)) -> f <$> order_by2 a b l = order_by2 a' b' (f <$> l).
Proof. intros H. apply sort_by_fmap. intros x y. destruct (H x) as [-> ->], (H y) as [-> ->]. done. Qed.

Lemma written_runs d c ids runs : List.length ids = List.length runs ->
  run_of_row <$> List.filter (fun r => String.eqb (rn_decision_id r) d) (zip_with (fun id run => run_values id d c run) ids runs) =
  zip_with (run_record d) ids runs.
Proof.
  revert runs. induction ids as [|x ids IH]; intros [|r runs] Hlen; try done. cbn [zip_with List.filter run_values rn_decision_id].
  rewrite String.eqb_refl, fmap_cons, IH by (cbn in Hlen; lia). done.
Qed.

Lemma written_messages id run rows : run_messages id run rows -> exists m1 m2,
  message_of_row <$> rows =
    [message_record m1 id "input" (ta_input_payload run) (ta_started_at run);
     message_record m2 id "output" (ta_output_payload run) (or_text (ta_completed_at run) (ta_started_at run))].
Proof.
  intros (t1 & t2 & m1 & m2 & P1 & P2 & ->). exists m1, m2. rewrite !fmap_cons.
  unfold message_of_row, message, message_record. cbn [mr_payload_json mr_id mr_run_id mr_role mr_created_at]. by rewrite P1, P2.
Qed.

(** A persisted decision cycle can be replayed: the trace is read back under the
    decision's id, with the trace id, mode and status it was given; the runs are the ones
    already stored for the decision and those of the cycle, each under a new id, ordered
    by their start; and each run of the cycle has two messages, which hold its input and
    its output. Persisting a cycle again therefore adds its runs again. *)
Theorem cycle_read_back trace_id decision_id strategy_id mode status started_at completed_at runs links db db' :
  strip decision_id <> ""%string -> fresh_from db -> Forall run_safe runs ->
  persist_cycle trace_id decision_id strategy_id mode status started_at completed_at runs links db = (db', Ok tt) ->
  let id := decision_uuid decision_id in
  let earlier := List.filter (fun r => String.eqb (rn_decision_id r) id) (tb_runs db) in
  (exists strategy, (strip strategy_id <> ""%string -> strategy = decision_uuid strategy_id) /\
     read_decision_trace decision_id db' = (db', Ok (Some
       {| tr_decision_id := id; tr_trace_id := or_text (Some (strip trace_id)) id; tr_strategy_id := strategy;
          tr_mode := or_text (Some (upper (strip mode))) "MOCK"; tr_status := status; tr_started_at := started_at;
          tr_completed_at := non_empty completed_at |}))) /\
  exists ids, NoDup ids /\ List.length ids = List.length runs /\
    list_agent_runs decision_id db' =
      (db', Ok (order_by2 ar_started_at ar_agent_run_id ((run_of_row <$> earlier) ++ zip_with (run_record id) ids runs))) /\
    Forall2 (fun run_id run => exists m1 m2, list_agent_messages run_id db' = (db', Ok (order_by2 mg_created_at mg_message_id
      [message_record m1 run_id "input" (ta_input_payload run) (ta_started_at run);
       message_record m2 run_id "output" (ta_output_payload run) (or_text (ta_completed_at run) (ta_started_at run))]))) ids runs.
Proof.
  intros Hd Hf Hs H id earlier. unfold persist_cycle in H. rewrite coerce_known in H by done. fold id in H.
  destruct (coerce_fresh strategy_id db Hf) as (strategy & db1 & E1 & Hf1 & Er & Et & Hst).
  apply prog_bind_Ok in H as (db1' & st' & E & H). rewrite E1 in E. injection E as <- <-.
  unfold trace_clock in H. unfold mbind at 1, prog_bind at 1 in H. rewrite modify_bind in H.
  set (row := {| tc_decision_id := id; tc_trace_id := _; tc_strategy_id := _; tc_mode := _; tc_status := _; tc_started_at := _; tc_completed_at := _; tc_created_at := _ |}) in H.
  apply prog_bind_Ok in H as (db2 & [] & H2 & H3).
  apply runs_stored in H2 as (ids & Hlen & Hn & _ & Hruns & Hmsg & _ & Htr); [|exact Hf1|exact Hs]. cbn [set_traces set_tables tb_runs tb_traces] in Hruns, Htr.
  pose proof (links_keep id (tc_created_at row) links db2) as (K1 & K2 & K3). cbn [tc_created_at row] in K1, K2, K3. rewrite H3 in K1, K2, K3. cbn [fst] in K1, K2, K3.
  split.
  - exists strategy. split; [done|]. cbn [read_decision_trace sql_trace_store]. unfold sql_read_decision_trace. rewrite coerce_known by done.
    fold id. unfold gets. do 2 f_equal. rewrite K1, Htr.
    assert (forall r, tc_decision_id r = tc_decision_id row -> tc_decision_id (merge_trace row r) = tc_decision_id r) as Hm by done.
    rewrite (row_at_upsert_eq tc_decision_id _ (merge_trace row) row (fun r => eq_refl) Hm). cbn [fmap option_fmap option_map].
    destruct (row_at _ _ _) as [o|] eqn:Eo; [|done]. apply row_at_Some in Eo as [_ Eo]. unfold trace_of_row, merge_trace. cbn [tc_decision_id tc_trace_id tc_strategy_id tc_mode tc_status tc_started_at tc_completed_at]. by rewrite Eo.
  - exists ids. split_and!; [done|done| |].
    + cbn [list_agent_runs sql_trace_store]. unfold sql_list_agent_runs. rewrite coerce_known by done. fold id. unfold gets. do 2 f_equal.
      rewrite K2, Hruns, Er, (order_by2_fmap run_of_row _ _ ar_started_at ar_agent_run_id), List.filter_app, fmap_app, written_runs by done. done.
    + eapply Forall2_impl; [exact Hmsg|]. intros x run (m1 & m2 & E)%written_messages. exists m1, m2.
      cbn [list_agent_messages sql_trace_store]. unfold sql_list_agent_messages, gets. rewrite K3. fold (messages_of x db2).
      by rewrite (order_by2_fmap message_of_row _ _ mg_created_at mg_message_id), E by done.
Qed.

(** ** A stored cycle, and a call that is not found *)

Module Example_trace.
Definition uuid4 (n : nat) : string := String.string_of_list_ascii (replicate n "a"%char).
Definition db0 : trace_db :=
  {| tb_traces := []; tb_runs := []; tb_messages := []; tb_links := []; tb_calls := []; tb_clock := fun _ => 63850161600000000;
     tb_tick := 0; tb_uuid4 := uuid4; tb_next := 1 |}.
Definition planner : TraceAgentRun :=
  {| ta_agent_name := "planner"; ta_status := "succeeded"; ta_latency_ms := Some (flit 125 (-1)); ta_started_at := "2024-05-01T12:00:00Z";
     ta_completed_at := None; ta_input_payload := [("symbol"%string, VStr "BTCUSDT")]; ta_output_payload := [("side"%string, VStr "BUY")] |}.
Definition cycle : prog trace_db unit :=
  persist_cycle "t-1" "d-1" "s-1" "mock" "executed" "2024-05-01T12:00:00Z" None [planner] [("x", "y")]%string.
Definition db1 : trace_db := (cycle db0).1.

Lemma uuid4_inj i j : uuid4 i = uuid4 j -> i = j.
Proof.
  intros E. apply (f_equal (fun s => List.length (String.list_ascii_of_string s))) in E. unfold uuid4 in E.
  by rewrite !String.list_ascii_of_string_of_list_ascii, !length_replicate in E.
Qed.

Lemma cycle_read_back_witness :
  (exists strategy, read_decision_trace "d-1" db1 = (db1, Ok (Some
     {| tr_decision_id := decision_uuid "d-1"; tr_trace_id := "t-1"; tr_strategy_id := strategy; tr_mode := "MOCK"; tr_status := "executed";
        tr_started_at := "2024-05-01T12:00:00Z"; tr_completed_at := None |}))) /\
  exists id m1 m2, list_agent_messages id db1 = (db1, Ok (order_by2 mg_created_at mg_message_id
     [message_record m1 id "input" (ta_input_payload planner) (ta_started_at planner);
      message_record m2 id "output" (ta_output_payload planner) (ta_started_at planner)])).
Proof.
  destruct (cycle_read_back "t-1" "d-1" "s-1" "mock" "executed" "2024-05-01T12:00:00Z" None [planner] [("x", "y")]%string db0 db1)
    as [(strategy & _ & Ht) (ids & _ & Hl & _ & Hm)].
  - done.
  - split; [exact uuid4_inj|]. intros n _. split_and!; apply not_elem_of_nil.
  - constructor; [split; reflexivity|constructor].
  - apply with_state. vm_compute. reflexivity.
  - split; [exists strategy; exact Ht|]. destruct ids as [|id [|? ?]]; [discriminate Hl| |discriminate Hl]. exists id. inversion Hm as [|? ? ? ? H _]. exact H.
Defined.

(** The gateway stores a call under the decision's id as it is, the replay asks for it
    under the id's UUID. *)
Example call_not_listed :
  let request := {| rq_trace_id := "t-1"; rq_decision_id := "d-1"; rq_strategy_id := "s-1"; rq_agent_name := "planner"; rq_messages := [];
                    rq_temperature := fzero; rq_max_tokens := 10; rq_metadata := [] |} in
  let call := {| cr_llm_call_id := "c-1"; cr_request := request; cr_provider := "openai"; cr_model := "m"; cr_prompt_payload := [];
                 cr_response_payload := []; cr_usage := {| tu_prompt := 1; tu_completion := 1; tu_total := 2 |}; cr_latency_ms := fone;
                 cr_estimated_cost := fzero; cr_created_at := "2024-05-01T12:00:00Z" |} in
  let llm := (persist_call call {| ld_calls := []; ld_limits := []; ld_daily := []; ld_monthly := []; ld_clock := fun _ => 0; ld_tick := 0 |}).1 in
  let db := {| tb_traces := []; tb_runs := []; tb_messages := []; tb_links := []; tb_calls := ld_calls llm; tb_clock := fun _ => 0;
               tb_tick := 0; tb_uuid4 := uuid4; tb_next := 1 |} in
  List.length (ld_calls llm) = 1%nat /\ (list_llm_calls "d-1" db).2 = Ok [].
Proof. vm_compute. done. Qed.
End Example_trace.
