(* ===== verification/ControlPlane.v ===== *)
(** * The state of the control plane

    [services/api/state.py]: the trading mode, the strategies, the risk
    controls, notification preferences, replay requests and the read models the
    API serves. [ControlPlaneState] is a mutable object: an operation maps the
    state to the new state together with what it returns or raises. The clock
    and fresh UUIDs are arguments, one per reading. Dicts are association lists
    in insertion order. *)

From S2P Require Import Prelude PyStr PyFloat PyTime PyVal Broker FillReconciliation PositionEngine PortfolioSnapshot RiskControls LlmGateway AgentMemory Replay.
From stdpp Require Import options.
From Stdlib Require Import Ascii String.

#[local] Open Scope Z_scope.

Definition _VALID_MODES : list string := ["MOCK"; "REAL"].
Definition _VALID_STATES : list string := ["ENABLED"; "DISABLED"; "PAUSED"].
Definition _VALID_NOTIFICATION_SEVERITIES : list string := ["INFO"; "WARNING"; "CRITICAL"].

Definition member (s : string) (l : list string) : bool := existsb (String.eqb s) l.

(** ** Records *)

Record StrategyRuntimeRecord := {
  sy_strategy_id : string;
  sy_symbol : string;
  sy_mode : string;
  sy_state : string;
  sy_updated_at : string;
  sy_changed_by : string;
  sy_reason : option string;
}.

Record ModeAuditRecord := {
  ma_event_id : string;
  ma_mode : string;
  ma_changed_by : string;
  ma_reason : string;
  ma_changed_at : string;
}.

Record LLMUsageRecord := {
  lu_strategy_id : string;
  lu_agent_name : string;
  lu_daily_tokens : Z;
  lu_monthly_cost : f64;
  lu_total_calls : Z;
  lu_breach_count : Z;
  lu_daily_token_limit : option Z;
  lu_monthly_cost_limit : option f64;
  lu_is_hard_limit : bool;
  lu_daily_utilization_ratio : option f64;
  lu_monthly_utilization_ratio : option f64;
  lu_window_date : string;
  lu_window_month : string;
}.

Record LLMBreachRecord := {
  lb_llm_call_id : string;
  lb_strategy_id : string;
  lb_agent_name : string;
  lb_trace_id : string;
  lb_decision_id : string;
  lb_reason : string;
  lb_projected_tokens : option Z;
  lb_projected_cost : option f64;
  lb_created_at : string;
}.

(** The fields copied from the call are kept as the record of the call. *)
Record LLMCallLogRecord := {
  ll_record : LLMCallRecord;
  ll_status : string;
  ll_mode : option string;
  ll_tier : option string;
  ll_prompt_preview : option string;
  ll_response_preview : option string;
}.

Record ReplayRequestRecord := {
  rq_request_id : string;
  rq_for_decision_id : string;
  rq_status : string;
  rq_requested_by : string;
  rq_requested_at : string;
  rq_result : DecisionReplayResult;
}.

Record NewsPanelItem := {
  ni_news_id : string;
  ni_source : string;
  ni_title : string;
  ni_url : string;
  ni_published_at : string;
  ni_symbol : option string;
  ni_topic : string;
  ni_relevance_score : f64;
  ni_sentiment_score : f64;
}.

Record NewsPanelSummary := {
  nu_summary_id : string;
  nu_symbol_scope : string;
  nu_window_start : string;
  nu_window_end : string;
  nu_summary_text : string;
  nu_generated_at : string;
  nu_source_news_ids : list string;
  nu_avg_sentiment : f64;
}.

Record NewsImpactRecord := {
  nr_symbol : string;
  nr_headline_count : Z;
  nr_avg_sentiment : f64;
  nr_max_relevance : f64;
  nr_latest_published_at : option string;
  nr_latest_summary : option string;
}.

Record NotificationPreferenceRecord := {
  np_user_id : string;
  np_min_severity : string;
  np_gateways : list string;
  np_strategy_ids : list string;
  np_event_types : list string;
  np_updated_at : string;
  np_updated_by : string;
}.

Record NotificationDeliveryRecord := {
  nd_notification_event_id : string;
  nd_trace_id : string;
  nd_decision_id : string;
  nd_event_type : string;
  nd_severity : string;
  nd_gateway : string;
  nd_delivery_status : string;
  nd_attempt : Z;
  nd_detail : option string;
  nd_logged_at : string;
}.

Record NotificationTraceRecord := {
  nt_notification_event_id : string;
  nt_trace_id : string;
  nt_decision_id : string;
  nt_stage : string;
  nt_status : string;
  nt_latency_ms : f64;
  nt_gateway : option string;
  nt_attempt : option Z;
  nt_started_at : string;
  nt_completed_at : string;
}.

(** The sections of [notification_metrics] that are set. *)
Record metrics_sections := {
  nm_totals : option dict;
  nm_suppression : option dict;
  nm_gateway_status : option dict;
  nm_retry_attempt_histogram : option dict;
  nm_generated_at : option string;
}.

Record ControlPlaneState := {
  cs_mode : string;
  cs_strategies : list (string * StrategyRuntimeRecord);
  cs_mode_history : list ModeAuditRecord;
  cs_orders : list ReconciliationOrder;
  cs_positions : list PositionState;
  cs_portfolio_snapshots : list PortfolioSnapshot.PortfolioSnapshot;
  cs_risk_controls : RiskControlPlane;
  cs_risk_events : list RiskControlEvent;
  cs_llm_call_records : list LLMCallRecord;
  cs_llm_quota_limits : list (string * string * dict);
  cs_replay_traces : list (string * DecisionTraceRecord);
  cs_replay_agent_runs : list (string * list AgentRunRecord);
  cs_replay_agent_messages : list (string * list AgentMessageRecord);
  cs_replay_llm_calls : list (string * list LLMCallRecord);
  cs_replay_summaries : list (string * DecisionMemoryRecord);
  cs_replay_requests : list (string * ReplayRequestRecord);
  cs_news_items : list NewsPanelItem;
  cs_news_summaries : list NewsPanelSummary;
  cs_notification_preferences : list (string * NotificationPreferenceRecord);
  cs_notification_metrics : metrics_sections;
  cs_notification_delivery_logs : list NotificationDeliveryRecord;
  cs_notification_trace_spans : list NotificationTraceRecord;
}.

(** The read models, which the operations below only read. *)
Definition with_core (mode : string) (strategies : list (string * StrategyRuntimeRecord))
    (history : list ModeAuditRecord) (controls : RiskControlPlane) (events : list RiskControlEvent)
    (requests : list (string * ReplayRequestRecord))
    (preferences : list (string * NotificationPreferenceRecord)) (s : ControlPlaneState) : ControlPlaneState :=
  {| cs_mode := mode; cs_strategies := strategies; cs_mode_history := history; cs_orders := cs_orders s;
     cs_positions := cs_positions s; cs_portfolio_snapshots := cs_portfolio_snapshots s;
     cs_risk_controls := controls; cs_risk_events := events; cs_llm_call_records := cs_llm_call_records s;
     cs_llm_quota_limits := cs_llm_quota_limits s; cs_replay_traces := cs_replay_traces s;
     cs_replay_agent_runs := cs_replay_agent_runs s; cs_replay_agent_messages := cs_replay_agent_messages s;
     cs_replay_llm_calls := cs_replay_llm_calls s; cs_replay_summaries := cs_replay_summaries s;
     cs_replay_requests := requests; cs_news_items := cs_news_items s; cs_news_summaries := cs_news_summaries s;
     cs_notification_preferences := preferences; cs_notification_metrics := cs_notification_metrics s;
     cs_notification_delivery_logs := cs_notification_delivery_logs s;
     cs_notification_trace_spans := cs_notification_trace_spans s |}.

Definition set_mode_core (mode : string) (strategies : list (string * StrategyRuntimeRecord))
    (history : list ModeAuditRecord) (s : ControlPlaneState) : ControlPlaneState :=
  with_core mode strategies history (cs_risk_controls s) (cs_risk_events s) (cs_replay_requests s)
    (cs_notification_preferences s) s.
Definition set_strategies (l : list (string * StrategyRuntimeRecord)) (s : ControlPlaneState) : ControlPlaneState :=
  set_mode_core (cs_mode s) l (cs_mode_history s) s.
Definition set_risk (p : RiskControlPlane) (l : list RiskControlEvent) (s : ControlPlaneState) : ControlPlaneState :=
  with_core (cs_mode s) (cs_strategies s) (cs_mode_history s) p l (cs_replay_requests s)
    (cs_notification_preferences s) s.
Definition set_requests (l : list (string * ReplayRequestRecord)) (s : ControlPlaneState) : ControlPlaneState :=
  with_core (cs_mode s) (cs_strategies s) (cs_mode_history s) (cs_risk_controls s) (cs_risk_events s) l
    (cs_notification_preferences s) s.
Definition set_preferences (l : list (string * NotificationPreferenceRecord)) (s : ControlPlaneState)
  : ControlPlaneState :=
  with_core (cs_mode s) (cs_strategies s) (cs_mode_history s) (cs_risk_controls s) (cs_risk_events s)
    (cs_replay_requests s) l s.

#[local] Abbreviation action := (prog ControlPlaneState).

(** ** Normalisation *)

Definition _normalize_mode (mode : string) : result string :=
  let normalized := upper (strip mode) in
  _ ← raise_if (negb (member normalized _VALID_MODES)) ValueError "mode must be MOCK or REAL";
  Ok normalized.

Definition _normalize_strategy_state (state : string) : result string :=
  let normalized := upper (strip state) in
  _ ← raise_if (negb (member normalized _VALID_STATES)) ValueError
        "strategy state must be ENABLED, DISABLED, or PAUSED";
  Ok normalized.

Definition _normalize_notification_severity (value : string) : result string :=
  let normalized := upper (strip value) in
  _ ← raise_if (negb (member normalized _VALID_NOTIFICATION_SEVERITIES)) ValueError
        "notification severity must be INFO, WARNING, or CRITICAL";
  Ok normalized.

Definition _normalize_user_id (value : string) : result string :=
  let normalized := strip value in
  _ ← raise_if (is_empty normalized) ValueError "user_id must be non-empty";
  Ok normalized.

Definition _default_symbol (strategy_id : string) : string :=
  if contains "eth" (lower strategy_id) then "ETH/USDT" else "BTC/USDT".

Definition _normalize_non_empty_values (values : list string) (lowercase : bool) : list string :=
  dedupe_by id ((fun text => if lowercase then lower text else text) <$>
                List.filter (fun text => negb (is_empty text)) (strip <$> values)).

Definition _ratio (value : val) (limit : option val) : result (option f64) :=
  match limit with
  | None => Ok None
  | Some l =>
      limit ← float_of_val l;
      if fleb limit fzero then Ok None else value ← float_of_val value; Ok (Some (fdiv value limit))
  end.

Definition _optional_int (value : val) : result (option Z) :=
  match value with VNone => Ok None | _ => Some <$> int_of_val value end.

Definition _optional_float (value : val) : result (option f64) :=
  match value with VNone => Ok None | _ => Some <$> float_of_val value end.

Definition newline : ascii := ascii_of_N 10.

Definition _trim_preview (value : string) : string :=
  let text := str_map (fun c => if Ascii.eqb c newline then " "%char else c) (strip value) in
  if (String.length text <=? 180)%nat then text else str_take 177 text +:+ "...".

(** The first non-blank text content, for [reversed(messages)]. *)
Fixpoint first_content (messages : list val) : option string :=
  match messages with
  | [] => None
  | VDict item :: rest =>
      match dget "content" item with
      | VNone => first_content rest
      | content => let text := strip (py_str content) in
                   if is_empty text then first_content rest else Some (_trim_preview text)
      end
  | _ :: rest => first_content rest
  end.

Definition _extract_prompt_preview (prompt_payload : dict) : option string :=
  match dget "messages" prompt_payload with
  | VList messages => first_content (rev messages)
  | _ => None
  end.

Definition _extract_response_preview (response_payload : dict) : option string :=
  match dget "content" response_payload with
  | VNone => None
  | content => let text := strip (py_str content) in
               if is_empty text then None else Some (_trim_preview text)
  end.

(** ** Mode and strategies *)

Definition set_mode (now : Z) (event_id mode actor reason : string) : action (bool * string) := fun s =>
  match _normalize_mode mode with
  | Raise e => (s, Raise e)
  | Ok normalized_mode =>
      if String.eqb normalized_mode (cs_mode s)
      then (set_mode_core normalized_mode (cs_strategies s) (cs_mode_history s) s, Ok (false, iso_z now))
      else
        let moved (record : StrategyRuntimeRecord) : StrategyRuntimeRecord :=
          {| sy_strategy_id := sy_strategy_id record; sy_symbol := sy_symbol record; sy_mode := normalized_mode;
             sy_state := sy_state record; sy_updated_at := iso_z now; sy_changed_by := actor;
             sy_reason := Some reason |} in
        let audit :=
          {| ma_event_id := event_id; ma_mode := normalized_mode; ma_changed_by := actor; ma_reason := reason;
             ma_changed_at := iso_z now |} in
        (set_mode_core normalized_mode ((fun kr => (kr.1, moved kr.2)) <$> cs_strategies s)
           (audit :: cs_mode_history s) s, Ok (true, iso_z now))
  end.

Definition list_strategies (s : ControlPlaneState) : list StrategyRuntimeRecord :=
  snd <$> sort_by (fun a b => str_leb a.1 b.1) (cs_strategies s).

(** [max(1, int(limit))] *)
Definition safe_limit (limit : Z) : nat := Z.to_nat (Z.max 1 limit).

Definition list_mode_history (limit : Z) (s : ControlPlaneState) : list ModeAuditRecord :=
  take (safe_limit limit) (cs_mode_history s).

Definition set_strategy_state (now : Z) (strategy_id state actor reason : string)
  : action StrategyRuntimeRecord := fun s =>
  match (normalized_state ← _normalize_strategy_state state;
         _ ← raise_if (is_empty (strip strategy_id)) ValueError "strategy_id must be non-empty";
         Ok normalized_state) with
  | Raise e => (s, Raise e)
  | Ok normalized_state =>
      let key := strip strategy_id in
      let updated :=
        {| sy_strategy_id := key;
           sy_symbol := match assoc_get key (cs_strategies s) with
                        | Some existing => sy_symbol existing
                        | None => _default_symbol key
                        end;
           sy_mode := cs_mode s; sy_state := normalized_state; sy_updated_at := iso_z now;
           sy_changed_by := actor; sy_reason := Some reason |} in
      (set_strategies (assoc_set key updated (cs_strategies s)) s, Ok updated)
  end.

(** ** Orders, positions and snapshots *)

(** [value.strip().upper() if value else None], and a filter that is skipped
    when it is falsy. *)
Definition upper_filter (o : option string) : option string :=
  match o with Some v => if is_empty v then None else Some (upper (strip v)) | None => None end.
Definition passes (filter : option string) (value : string) : bool :=
  match filter with Some f => is_empty f || String.eqb value f | None => true end.

Definition list_orders (status mode : option string) (s : ControlPlaneState) : list ReconciliationOrder :=
  List.filter (fun o => passes (upper_filter status) (upper (strip (ro_status o))) &&
                        passes (upper_filter mode) (upper (strip (ro_mode o)))) (cs_orders s).

Definition list_positions (mode symbol : option string) (s : ControlPlaneState) : list PositionState :=
  List.filter (fun p => passes (upper_filter mode) (upper (strip (ps_mode p))) &&
                        passes (upper_filter symbol) (upper (strip (ps_symbol p)))) (cs_positions s).

(** [max(l, key=key)]: the first of the greatest. *)
Definition max_on {A} (key : A -> string) (l : list A) : option A :=
  foldl (fun best x => match best with
                       | None => Some x
                       | Some b => if str_leb (key x) (key b) then Some b else Some x
                       end) None l.

Definition latest_snapshot (mode : option string) (s : ControlPlaneState) : option PortfolioSnapshot.PortfolioSnapshot :=
  let candidates :=
    match mode with
    | None => cs_portfolio_snapshots s
    | Some m => List.filter (fun p => String.eqb (upper (strip (sn_mode p))) (upper (strip m))) (cs_portfolio_snapshots s)
    end in
  max_on sn_snapshot_time candidates.

(** ** Risk controls *)

(** A method of [self.risk_controls] *)
Definition on_controls {A} (m : RiskControls.op A) : action A := fun s =>
  let '(p, r) := m (cs_risk_controls s) in (set_risk p (cs_risk_events s) s, r).

Definition _capture_risk_events : action (list RiskControlEvent) :=
  drained ← on_controls drain_events;
  _ ← modify (fun s => set_risk (cs_risk_controls s) (cs_risk_events s ++ drained) s);
  mret drained.

Definition _last_risk_event : action RiskControlEvent :=
  events ← _capture_risk_events;
  lift (match last events with
        | None => raise RuntimeError "risk control action did not emit an event"
        | Some e => Ok e
        end).

Record risk_status_payload := {
  rt_state : RiskControlState;
  rt_blocked_by : list string;
}.

(** The two clock readings are those of [snapshot] and of the evaluation. *)
Definition risk_status (t1 t2 : Z) : action (risk_status_payload * list RiskControlEvent) :=
  snapshot ← on_controls (RiskControls.snapshot t1 None);
  gate ← on_controls (evaluate_order_allowed t2 None);
  recent ← _capture_risk_events;
  mret ({| rt_state := snapshot; rt_blocked_by := rg_blocked_by gate |}, recent).

Definition trip_circuit_breaker (now : Z) (reason actor : string) (cooldown_seconds : option Z)
  : action RiskControlEvent :=
  _ ← on_controls (RiskControls.trip_circuit_breaker now reason actor None cooldown_seconds); _last_risk_event.
Definition reset_circuit_breaker (now : Z) (reason actor : string) : action RiskControlEvent :=
  _ ← on_controls (RiskControls.reset_circuit_breaker now reason actor None); _last_risk_event.
Definition enable_kill_switch (now : Z) (reason actor : string) : action RiskControlEvent :=
  _ ← on_controls (RiskControls.enable_kill_switch now reason actor None); _last_risk_event.
Definition disable_kill_switch (now : Z) (reason actor : string) : action RiskControlEvent :=
  _ ← on_controls (RiskControls.disable_kill_switch now reason actor None); _last_risk_event.

(** ** LLM usage *)

Definition date_text (now : Z) : string :=
  let '(y, m, d) := ymd_of_days (now / US_DAY) in
  dpad 4 y +:+ "-" +:+ dpad 2 m +:+ "-" +:+ dpad 2 d.
(** [strftime("%Y-%m")]: the year is not padded. *)
Definition month_text (now : Z) : string :=
  let '(y, m, _) := ymd_of_days (now / US_DAY) in str_of_Z y +:+ "-" +:+ dpad 2 m.

Record aggregate := {
  ag_daily_tokens : Z;
  ag_monthly_cost : f64;
  ag_total_calls : Z;
  ag_breach_count : Z;
}.

Definition no_calls : aggregate :=
  {| ag_daily_tokens := 0; ag_monthly_cost := fzero; ag_total_calls := 0; ag_breach_count := 0 |}.

Definition usage_key : Type := string * string.
Definition key_of (r : LLMCallRecord) : usage_key := (rq_strategy_id (cr_request r), rq_agent_name (cr_request r)).

Definition response_status (dflt : string) (r : LLMCallRecord) : string :=
  lower (strip (py_str (dget_or "status" (VStr dflt) (cr_response_payload r)))).

Definition add_call (date_window month_window : string) (r : LLMCallRecord) (a : aggregate) : aggregate :=
  {| ag_daily_tokens := if starts_with date_window (cr_created_at r)
                        then ag_daily_tokens a + tu_total (cr_usage r) else ag_daily_tokens a;
     ag_monthly_cost := if starts_with month_window (cr_created_at r)
                        then fadd (ag_monthly_cost a) (cr_estimated_cost r) else ag_monthly_cost a;
     ag_total_calls := ag_total_calls a + 1;
     ag_breach_count := if String.eqb (response_status "" r) "quota_blocked"
                        then ag_breach_count a + 1 else ag_breach_count a |}.

(** [grouped.setdefault(key, ...)] and the update of the aggregate. *)
Fixpoint group_call (date_window month_window : string) (r : LLMCallRecord) (g : list (usage_key * aggregate))
  : list (usage_key * aggregate) :=
  match g with
  | [] => [(key_of r, add_call date_window month_window r no_calls)]
  | (k, a) :: g' =>
      if decide (k = key_of r) then (k, add_call date_window month_window r a) :: g'
      else (k, a) :: group_call date_window month_window r g'
  end.

Definition grouped_calls (date_window month_window : string) (l : list LLMCallRecord) : list (usage_key * aggregate) :=
  foldl (fun g r => group_call date_window month_window r g) [] l.

Fixpoint quota_limits (key : usage_key) (l : list (string * string * dict)) : dict :=
  match l with
  | [] => []
  | (s, a, d) :: l' => if decide ((s, a) = key) then d else quota_limits key l'
  end.

(** [value is not None and current != value] *)
Definition differs (filter : option string) (current : string) : bool :=
  match filter with Some f => negb (String.eqb current f) | None => false end.

Definition usage_record (date_window month_window : string) (s : ControlPlaneState) (ka : usage_key * aggregate)
  : result LLMUsageRecord :=
  let '(key, a) := ka in
  let limits := quota_limits key (cs_llm_quota_limits s) in
  daily_limit ← _optional_int (dget "daily_token_limit" limits);
  monthly_limit ← _optional_float (dget "monthly_cost_limit" limits);
  daily_ratio ← _ratio (VInt (ag_daily_tokens a)) (VInt <$> daily_limit);
  monthly_ratio ← _ratio (VFloat (ag_monthly_cost a)) (VFloat <$> monthly_limit);
  Ok {| lu_strategy_id := key.1; lu_agent_name := key.2; lu_daily_tokens := ag_daily_tokens a;
        lu_monthly_cost := ag_monthly_cost a; lu_total_calls := ag_total_calls a;
        lu_breach_count := ag_breach_count a; lu_daily_token_limit := daily_limit;
        lu_monthly_cost_limit := monthly_limit;
        lu_is_hard_limit := truthy (dget_or "is_hard_limit" (VBool false) limits);
        lu_daily_utilization_ratio := daily_ratio; lu_monthly_utilization_ratio := monthly_ratio;
        lu_window_date := date_window; lu_window_month := month_window |}.

Definition wanted (strategy_id agent_name : option string) (key : usage_key) : bool :=
  negb (differs strategy_id key.1) && negb (differs agent_name key.2).

Definition usage_leb (a b : LLMUsageRecord) : bool :=
  strs_leb [lu_strategy_id a; lu_agent_name a] [lu_strategy_id b; lu_agent_name b].

Definition list_llm_usage (clock : Z) (strategy_id agent_name : option string) (now : option datetime)
    (s : ControlPlaneState) : result (list LLMUsageRecord) :=
  now_utc ← _to_utc clock now;
  let date_window := date_text now_utc in
  let month_window := month_text now_utc in
  items ← map_res (usage_record date_window month_window s)
            (List.filter (fun ka => wanted strategy_id agent_name ka.1)
               (grouped_calls date_window month_window (cs_llm_call_records s)));
  Ok (sort_by usage_leb items).

(** [items.sort(key=key, reverse=True)], then [items[:limit]] *)
Definition newest {A} (limit : Z) (key : A -> string) (l : list A) : list A :=
  take (safe_limit limit) (sort_by (fun a b => str_leb (key b) (key a)) l).

(** Why a call counts as a breach, if it does. *)
Definition breach_of (include_failures : bool) (r : LLMCallRecord)
  : result (option (string * option Z * option f64)) :=
  let payload := cr_response_payload r in
  let status := response_status "" r in
  if String.eqb status "quota_blocked" then
    projected_tokens ← _optional_int (dget "projected_tokens" payload);
    projected_cost ← _optional_float (dget "projected_cost" payload);
    Ok (Some (py_str (dget_or "reason" (VStr "unknown_quota_block") payload), projected_tokens, projected_cost))
  else if include_failures && String.eqb status "failed" then
    let reason := match dget "provider_errors" payload with
                  | VList (e :: _) => str_or (strip (py_str e)) "provider_failure"
                  | _ => "provider_failure"
                  end in
    Ok (Some (reason, None, None))
  else Ok None.

Definition breach_record (strategy_id agent_name : option string) (include_failures : bool) (r : LLMCallRecord)
  : result (list LLMBreachRecord) :=
  found ← breach_of include_failures r;
  match found with
  | None => Ok []
  | Some (reason, tokens, cost) =>
      if wanted strategy_id agent_name (key_of r)
      then Ok [{| lb_llm_call_id := cr_llm_call_id r; lb_strategy_id := rq_strategy_id (cr_request r);
                  lb_agent_name := rq_agent_name (cr_request r); lb_trace_id := rq_trace_id (cr_request r);
                  lb_decision_id := rq_decision_id (cr_request r); lb_reason := reason;
                  lb_projected_tokens := tokens; lb_projected_cost := cost; lb_created_at := cr_created_at r |}]
      else Ok []
  end.

Definition list_llm_breaches (strategy_id agent_name : option string) (include_failures : bool) (limit : Z)
    (s : ControlPlaneState) : result (list LLMBreachRecord) :=
  items ← map_res (breach_record strategy_id agent_name include_failures) (cs_llm_call_records s);
  Ok (newest limit lb_created_at (mjoin items)).

Definition strip_filter (o : option string) : option string :=
  match o with Some v => if is_empty v then None else Some (strip v) | None => None end.
Definition lower_filter (o : option string) : option string := lower <$> strip_filter o.

Definition call_status (r : LLMCallRecord) : string := str_or (response_status "succeeded" r) "succeeded".

Definition metadata_text (key : string) (r : LLMCallRecord) : option string :=
  match dget_or "metadata" (VDict []) (cr_prompt_payload r) with
  | VDict metadata => match dget key metadata with VNone => None | v => Some (py_str v) end
  | _ => None
  end.

Definition call_log (r : LLMCallRecord) : LLMCallLogRecord :=
  {| ll_record := r; ll_status := call_status r; ll_mode := metadata_text "mode" r;
     ll_tier := metadata_text "tier" r; ll_prompt_preview := _extract_prompt_preview (cr_prompt_payload r);
     ll_response_preview := _extract_response_preview (cr_response_payload r) |}.

Definition list_llm_call_logs (strategy_id agent_name status : option string) (limit : Z) (s : ControlPlaneState)
  : list LLMCallLogRecord :=
  newest limit (fun l => cr_created_at (ll_record l))
    (call_log <$> List.filter (fun r => passes (strip_filter strategy_id) (rq_strategy_id (cr_request r)) &&
                                        passes (strip_filter agent_name) (rq_agent_name (cr_request r)) &&
                                        passes (lower_filter status) (call_status r)) (cs_llm_call_records s)).

(** ** Replay *)

(** [_StateReplayTraceStore] and [_StateReplayLongTermStore] read the state. *)
#[export] Instance state_traces : ReplayTraceStore ControlPlaneState := {
  read_decision_trace decision_id := gets (fun s => assoc_get decision_id (cs_replay_traces s));
  list_agent_runs decision_id := gets (fun s => default [] (assoc_get decision_id (cs_replay_agent_runs s)));
  list_agent_messages agent_run_id := gets (fun s => default [] (assoc_get agent_run_id (cs_replay_agent_messages s)));
  list_llm_calls decision_id := gets (fun s => default [] (assoc_get decision_id (cs_replay_llm_calls s)));
}.

Definition set_summaries (l : list (string * DecisionMemoryRecord)) (s : ControlPlaneState) : ControlPlaneState :=
  {| cs_mode := cs_mode s; cs_strategies := cs_strategies s; cs_mode_history := cs_mode_history s;
     cs_orders := cs_orders s; cs_positions := cs_positions s;
     cs_portfolio_snapshots := cs_portfolio_snapshots s; cs_risk_controls := cs_risk_controls s;
     cs_risk_events := cs_risk_events s; cs_llm_call_records := cs_llm_call_records s;
     cs_llm_quota_limits := cs_llm_quota_limits s; cs_replay_traces := cs_replay_traces s;
     cs_replay_agent_runs := cs_replay_agent_runs s; cs_replay_agent_messages := cs_replay_agent_messages s;
     cs_replay_llm_calls := cs_replay_llm_calls s; cs_replay_summaries := l;
     cs_replay_requests := cs_replay_requests s; cs_news_items := cs_news_items s;
     cs_news_summaries := cs_news_summaries s; cs_notification_preferences := cs_notification_preferences s;
     cs_notification_metrics := cs_notification_metrics s;
     cs_notification_delivery_logs := cs_notification_delivery_logs s;
     cs_notification_trace_spans := cs_notification_trace_spans s |}.

#[export] Instance state_long_term : LongTermMemoryStore ControlPlaneState := {
  store_summary record := modify (fun s => set_summaries (assoc_set (dm_decision_id record) record (cs_replay_summaries s)) s);
  read_decision_summary decision_id := gets (fun s => assoc_get decision_id (cs_replay_summaries s));
}.

(** Both stores of the service are views of this state, and a replay only
    reads them. *)
Definition replay_decision (decision_id : string) : action DecisionReplayResult := fun s =>
  (s, (Replay.replay_decision decision_id (Replayer s (Some s))).2).

Definition submit_replay_request (now : Z) (request_id decision_id requested_by : string)
  : action ReplayRequestRecord :=
  result ← replay_decision decision_id;
  let record :=
    {| rq_request_id := request_id; rq_for_decision_id := decision_id; rq_status := "COMPLETED";
       rq_requested_by := requested_by; rq_requested_at := iso_z now; rq_result := result |} in
  _ ← modify (fun s => set_requests (assoc_set request_id record (cs_replay_requests s)) s);
  mret record.

Definition get_replay_request (request_id : string) (s : ControlPlaneState) : option ReplayRequestRecord :=
  assoc_get request_id (cs_replay_requests s).

Definition newest_first {A} (key : A -> string) (l : list A) : list A :=
  sort_by (fun a b => str_leb (key b) (key a)) l.

Definition list_replay_traces (s : ControlPlaneState) : list DecisionTraceRecord :=
  newest_first tr_started_at (snd <$> cs_replay_traces s).

Definition list_replay_requests (limit : Z) (s : ControlPlaneState) : list ReplayRequestRecord :=
  newest limit rq_requested_at (snd <$> cs_replay_requests s).

(** ** News *)

Definition list_news_items (symbol : option string) (limit : Z) (s : ControlPlaneState) : list NewsPanelItem :=
  newest limit ni_published_at
    (List.filter (fun i => negb (differs (upper_filter symbol) (upper (default ""%string (ni_symbol i)))))
       (cs_news_items s)).

Definition list_news_summaries (symbol_scope : option string) (limit : Z) (s : ControlPlaneState)
  : list NewsPanelSummary :=
  newest limit nu_generated_at
    (List.filter (fun i => negb (differs (upper_filter symbol_scope) (upper (nu_symbol_scope i))))
       (cs_news_summaries s)).

Record news_row := {
  nw_headline_count : Z;
  nw_sentiment_total : f64;
  nw_max_relevance : f64;
  nw_latest_published_at : option string;
  nw_latest_summary : option string;
}.

Definition no_news : news_row :=
  {| nw_headline_count := 0; nw_sentiment_total := fzero; nw_max_relevance := fzero;
     nw_latest_published_at := None; nw_latest_summary := None |}.

(** [row = grouped.setdefault(symbol, ...)] and its update *)
Definition update_row (symbol : string) (f : news_row -> news_row) (g : list (string * news_row))
  : list (string * news_row) :=
  assoc_set symbol (f (default no_news (assoc_get symbol g))) g.

Definition add_headline (i : NewsPanelItem) (row : news_row) : news_row :=
  {| nw_headline_count := nw_headline_count row + 1;
     nw_sentiment_total := fadd (nw_sentiment_total row) (ni_sentiment_score i);
     nw_max_relevance := fmax (nw_max_relevance row) (ni_relevance_score i);
     nw_latest_published_at :=
       match nw_latest_published_at row with
       | None => Some (ni_published_at i)
       | Some latest => if str_leb (ni_published_at i) latest then Some latest else Some (ni_published_at i)
       end;
     nw_latest_summary := nw_latest_summary row |}.

Definition add_summary (u : NewsPanelSummary) (row : news_row) : news_row :=
  {| nw_headline_count := nw_headline_count row; nw_sentiment_total := nw_sentiment_total row;
     nw_max_relevance := nw_max_relevance row; nw_latest_published_at := nw_latest_published_at row;
     nw_latest_summary := match nw_latest_summary row with
                          | None => Some (nu_summary_text u) | Some t => Some t end |}.

(** [item.symbol or "GLOBAL"] *)
Definition news_symbol (i : NewsPanelItem) : string :=
  upper (str_or (default ""%string (ni_symbol i)) "GLOBAL").

Definition grouped_news (s : ControlPlaneState) : list (string * news_row) :=
  foldl (fun g u => update_row (upper (nu_symbol_scope u)) (add_summary u) g)
    (foldl (fun g i => update_row (news_symbol i) (add_headline i) g) [] (cs_news_items s))
    (cs_news_summaries s).

Definition impact_record (kr : string * news_row) : result NewsImpactRecord :=
  let '(symbol, row) := kr in
  avg ← (if nw_headline_count row =? 0 then Ok fzero
         else n ← float_of_val (VInt (nw_headline_count row)); py_fdiv (nw_sentiment_total row) n);
  Ok {| nr_symbol := symbol; nr_headline_count := nw_headline_count row; nr_avg_sentiment := avg;
        nr_max_relevance := nw_max_relevance row; nr_latest_published_at := nw_latest_published_at row;
        nr_latest_summary := nw_latest_summary row |}.

(** [a <= b] for the keys [(symbol != "GLOBAL", headline_count, max_relevance)] *)
Definition impact_leb (a b : NewsImpactRecord) : bool :=
  let rank r := if String.eqb (nr_symbol r) "GLOBAL" then 0 else 1 in
  if rank a =? rank b then
    if nr_headline_count a =? nr_headline_count b then fleb (nr_max_relevance a) (nr_max_relevance b)
    else nr_headline_count a <? nr_headline_count b
  else rank a <? rank b.

Definition list_news_impact (limit : Z) (s : ControlPlaneState) : result (list NewsImpactRecord) :=
  records ← map_res impact_record (grouped_news s);
  Ok (take (safe_limit limit) (sort_by (fun a b => impact_leb b a) records)).

(** ** Notifications *)

Definition list_notification_preferences (user_id : option string) (s : ControlPlaneState)
  : result (list NotificationPreferenceRecord) :=
  match user_id with
  | None => Ok (sort_by (fun a b => str_leb (np_user_id a) (np_user_id b)) (snd <$> cs_notification_preferences s))
  | Some u =>
      normalized_user_id ← _normalize_user_id u;
      Ok (match assoc_get normalized_user_id (cs_notification_preferences s) with Some r => [r] | None => [] end)
  end.

Definition preference_record (now : Z) (user_id min_severity : string) (gateways strategy_ids event_types : list string)
    (actor : string) : result NotificationPreferenceRecord :=
  normalized_user_id ← _normalize_user_id user_id;
  normalized_severity ← _normalize_notification_severity min_severity;
  let normalized_gateways := _normalize_non_empty_values gateways true in
  _ ← raise_if (match normalized_gateways with [] => true | _ => false end) ValueError
        "gateways must include at least one value";
  Ok {| np_user_id := normalized_user_id; np_min_severity := normalized_severity;
        np_gateways := normalized_gateways; np_strategy_ids := _normalize_non_empty_values strategy_ids false;
        np_event_types := _normalize_non_empty_values event_types false; np_updated_at := iso_z now;
        np_updated_by := str_or (strip actor) "unknown" |}.

Definition upsert_notification_preference (now : Z) (user_id min_severity : string)
    (gateways strategy_ids event_types : list string) (actor : string) : action NotificationPreferenceRecord :=
  record ← lift (preference_record now user_id min_severity gateways strategy_ids event_types actor);
  _ ← modify (fun s => set_preferences (assoc_set (np_user_id record) record (cs_notification_preferences s)) s);
  mret record.

(** [dict.pop(key, None)] *)
Definition assoc_pop {A} (key : string) (d : list (string * A)) : list (string * A) :=
  List.filter (fun kv => negb (String.eqb kv.1 key)) d.

Definition delete_notification_preference (user_id : string) : action bool := fun s =>
  match _normalize_user_id user_id with
  | Raise e => (s, Raise e)
  | Ok key => (set_preferences (assoc_pop key (cs_notification_preferences s)) s,
               Ok match assoc_get key (cs_notification_preferences s) with Some _ => true | None => false end)
  end.

Definition zero_totals : dict :=
  (fun k => (k, VInt 0)) <$> ["received_total"; "filtered_total"; "dispatched_total"; "delivered_total";
                              "failed_total"; "retryable_total"; "dlq_total"]%string.

Definition notification_metrics_snapshot (now : Z) (s : ControlPlaneState) : dict :=
  let m := cs_notification_metrics s in
  [("totals", VDict (dict_merge zero_totals (default [] (nm_totals m))));
   ("suppression", VDict (dict_merge [("dedupe", VInt 0); ("rate_limit", VInt 0)] (default [] (nm_suppression m))));
   ("gateway_status", VDict (default [] (nm_gateway_status m)));
   ("retry_attempt_histogram", VDict (default [] (nm_retry_attempt_histogram m)));
   ("generated_at", VStr (str_or (strip (default ""%string (nm_generated_at m))) (iso_z now)))]%string.

Definition list_notification_delivery_logs (limit : Z) (gateway status severity : option string)
    (s : ControlPlaneState) : list NotificationDeliveryRecord :=
  newest limit nd_logged_at
    (List.filter (fun i => passes (lower_filter gateway) (lower (strip (nd_gateway i))) &&
                           passes (upper_filter status) (upper (strip (nd_delivery_status i))) &&
                           passes (upper_filter severity) (upper (strip (nd_severity i))))
       (cs_notification_delivery_logs s)).

Definition list_notification_trace_spans (limit : Z) (trace_id stage : option string) (s : ControlPlaneState)
  : list NotificationTraceRecord :=
  newest limit nt_completed_at
    (List.filter (fun i => passes (strip_filter trace_id) (nt_trace_id i) &&
                           passes (lower_filter stage) (lower (strip (nt_stage i))))
       (cs_notification_trace_spans s)).

(** ** The initial state *)

Definition bootstrap_strategy (strategy_id symbol mode now : string) : StrategyRuntimeRecord :=
  {| sy_strategy_id := strategy_id; sy_symbol := symbol; sy_mode := mode; sy_state := "ENABLED";
     sy_updated_at := now; sy_changed_by := "system"; sy_reason := Some "bootstrap"%string |}.

Definition bootstrap_limits (daily : Z) (monthly : f64) (now : string) : dict :=
  [("daily_token_limit", VInt daily); ("monthly_cost_limit", VFloat monthly); ("is_hard_limit", VBool true);
   ("updated_at", VStr now)]%string.

Definition bootstrap_item (news_id source title url now symbol topic : string) (relevance sentiment : f64)
  : NewsPanelItem :=
  {| ni_news_id := news_id; ni_source := source; ni_title := title; ni_url := url; ni_published_at := now;
     ni_symbol := Some symbol; ni_topic := topic; ni_relevance_score := relevance;
     ni_sentiment_score := sentiment |}.

Definition bootstrap_summary (summary_id scope now text : string) (ids : list string) (sentiment : f64)
  : NewsPanelSummary :=
  {| nu_summary_id := summary_id; nu_symbol_scope := scope; nu_window_start := now; nu_window_end := now;
     nu_summary_text := text; nu_generated_at := now; nu_source_news_ids := ids; nu_avg_sentiment := sentiment |}.

Definition bootstrap_span (ids : string * string * string) (stage status : string) (latency : f64)
    (gateway : option string) (attempt : option Z) (now : string) : NotificationTraceRecord :=
  {| nt_notification_event_id := ids.1.1; nt_trace_id := ids.1.2; nt_decision_id := ids.2; nt_stage := stage;
     nt_status := status; nt_latency_ms := latency; nt_gateway := gateway; nt_attempt := attempt;
     nt_started_at := now; nt_completed_at := now |}.

(** [RiskControlPlane()] with its default arguments *)
Definition default_controls : RiskControlPlane :=
  {| rc_threshold := 3; rc_cooldown_seconds := 60; rc_kill_switch_enabled := false;
     rc_consecutive_failures := 0; rc_circuit_breaker_open_until := None; rc_events := [] |}.

(** [uuid4 k] is the [k]-th fresh id. *)
Definition build_default_state (clock : Z) (uuid4 : nat -> string) (default_mode : string)
  : result ControlPlaneState :=
  normalized_mode ← _normalize_mode default_mode;
  let now := iso_z clock in
  let news_items :=
    [bootstrap_item (uuid4 0%nat) "coindesk" "Bitcoin ETF inflows stay positive as volatility compresses"
       "https://example.com/news/btc-etf-inflows" now "BTC" "etf" (flit 86 (-2)) (flit 42 (-2));
     bootstrap_item (uuid4 1%nat) "theblock" "Ethereum staking demand rises ahead of protocol upgrade"
       "https://example.com/news/eth-staking-upgrade" now "ETH" "protocol" (flit 79 (-2)) (flit 36 (-2))] in
  let ids := (uuid4 4%nat, uuid4 5%nat, uuid4 6%nat) in
  Ok {| cs_mode := normalized_mode;
        cs_strategies :=
          [("btc-momentum", bootstrap_strategy "btc-momentum" "BTC/USDT" normalized_mode now);
           ("eth-mean-revert", bootstrap_strategy "eth-mean-revert" "ETH/USDT" normalized_mode now)]%string;
        cs_mode_history :=
          [{| ma_event_id := "bootstrap-mode"; ma_mode := normalized_mode; ma_changed_by := "system";
              ma_reason := "bootstrap"; ma_changed_at := now |}];
        cs_orders := []; cs_positions := []; cs_portfolio_snapshots := [];
        cs_risk_controls := default_controls; cs_risk_events := []; cs_llm_call_records := [];
        cs_llm_quota_limits :=
          [("btc-momentum", "planner", bootstrap_limits 5000 (flit 150 0) now);
           ("btc-momentum", "risk", bootstrap_limits 4000 (flit 120 0) now)]%string;
        cs_replay_traces := []; cs_replay_agent_runs := []; cs_replay_agent_messages := [];
        cs_replay_llm_calls := []; cs_replay_summaries := []; cs_replay_requests := [];
        cs_news_items := news_items;
        cs_news_summaries :=
          [bootstrap_summary (uuid4 2%nat) "BTC" now
             "BTC flow remains constructive with sustained ETF demand and stable funding."
             [uuid4 0%nat] (flit 42 (-2));
           bootstrap_summary (uuid4 3%nat) "GLOBAL" now
             "Macro sentiment is neutral-positive with no high-severity security incidents."
             [uuid4 0%nat; uuid4 1%nat] (flit 39 (-2))];
        cs_notification_preferences :=
          [("ops-default"%string,
            {| np_user_id := "ops-default"; np_min_severity := "WARNING"; np_gateways := ["telegram"%string];
               np_strategy_ids := []; np_event_types := []; np_updated_at := now; np_updated_by := "system" |})];
        cs_notification_metrics :=
          {| nm_totals := Some [("received_total", VInt 8); ("filtered_total", VInt 2); ("dispatched_total", VInt 6);
                                ("delivered_total", VInt 5); ("failed_total", VInt 1); ("retryable_total", VInt 2);
                                ("dlq_total", VInt 1)]%string;
             nm_suppression := Some [("dedupe", VInt 1); ("rate_limit", VInt 1)]%string;
             nm_gateway_status := Some [("telegram:DELIVERED", VInt 5); ("telegram:FAILED", VInt 1)]%string;
             nm_retry_attempt_histogram := Some [("1", VInt 4); ("2", VInt 1); ("3", VInt 1)]%string;
             nm_generated_at := Some now |};
        cs_notification_delivery_logs :=
          [{| nd_notification_event_id := ids.1.1; nd_trace_id := ids.1.2; nd_decision_id := ids.2;
              nd_event_type := "notify.risk.event"; nd_severity := "CRITICAL"; nd_gateway := "telegram";
              nd_delivery_status := "DELIVERED"; nd_attempt := 2; nd_detail := None; nd_logged_at := now |}];
        cs_notification_trace_spans :=
          [bootstrap_span ids "policy_router" "routed" (flit 14 (-1)) None None now;
           bootstrap_span ids "gateway_dispatch" "succeeded" (flit 42 0) (Some "telegram"%string) (Some 2) now] |}.
