(* ===== verification/ControlHistory.v ===== *)
(** * Histories of the control plane

    What holds of [ControlPlane.ControlPlaneState] after any sequence of API
    commands, what the commands on the risk controls return, and that the usage
    report of the language models accounts for every recorded call. *)

From S2P Require Import Prelude PyStr PyFloat PyTime PyVal RiskControls LlmGateway AgentMemory Replay ControlPlane.
From stdpp Require Import options.
From Stdlib Require Import Ascii String.

#[local] Open Scope Z_scope.

(** ** Commands *)

Inductive command :=
  | SetMode (now : Z) (event_id mode actor reason : string)
  | SetStrategyState (now : Z) (strategy_id state actor reason : string)
  | RiskStatus (t1 t2 : Z)
  | TripBreaker (now : Z) (reason actor : string) (cooldown_seconds : option Z)
  | ResetBreaker (now : Z) (reason actor : string)
  | EnableKillSwitch (now : Z) (reason actor : string)
  | DisableKillSwitch (now : Z) (reason actor : string)
  | SubmitReplay (now : Z) (request_id decision_id requested_by : string)
  | UpsertPreference (now : Z) (user_id min_severity : string) (gateways strategy_ids event_types : list string)
      (actor : string)
  | DeletePreference (user_id : string).

Definition serve_one (s : ControlPlaneState) (c : command) : ControlPlaneState :=
  match c with
  | SetMode now e m a r => (set_mode now e m a r s).1
  | SetStrategyState now i st a r => (set_strategy_state now i st a r s).1
  | RiskStatus t1 t2 => (risk_status t1 t2 s).1
  | TripBreaker now r a cd => (trip_circuit_breaker now r a cd s).1
  | ResetBreaker now r a => (reset_circuit_breaker now r a s).1
  | EnableKillSwitch now r a => (enable_kill_switch now r a s).1
  | DisableKillSwitch now r a => (disable_kill_switch now r a s).1
  | SubmitReplay now q d b => (submit_replay_request now q d b s).1
  | UpsertPreference now u sev g si ev a => (upsert_notification_preference now u sev g si ev a s).1
  | DeletePreference u => (delete_notification_preference u s).1
  end.

(** The state after the commands, whatever each of them returned or raised. *)
Definition serve (cs : list command) (s : ControlPlaneState) : ControlPlaneState := foldl serve_one s cs.

(** ** The invariant *)

Record strategy_ok (mode key : string) (r : StrategyRuntimeRecord) : Prop := {
  so_key : sy_strategy_id r = key;
  so_trimmed : strip key = key /\ key <> ""%string;
  so_mode : sy_mode r = mode;
  so_state : sy_state r ∈ _VALID_STATES;
}.

Record preference_ok (key : string) (r : NotificationPreferenceRecord) : Prop := {
  po_key : np_user_id r = key;
  po_trimmed : strip key = key /\ key <> ""%string;
  po_severity : np_min_severity r ∈ _VALID_NOTIFICATION_SEVERITIES;
  po_gateways : np_gateways r <> [];
  po_distinct : NoDup (np_gateways r) /\ NoDup (np_strategy_ids r) /\ NoDup (np_event_types r);
}.

(** Newest first, every entry changes the mode of the one before it. *)
Definition alternates (mode : string) (history : list ModeAuditRecord) : Prop :=
  ma_mode <$> head history = Some mode /\
  forall i a b, history !! i = Some a -> history !! S i = Some b -> ma_mode a <> ma_mode b.

Record sound (s : ControlPlaneState) : Prop := {
  sd_mode : cs_mode s ∈ _VALID_MODES;
  sd_keys : NoDup (cs_strategies s).*1;
  sd_strategies : forall k r, (k, r) ∈ cs_strategies s -> strategy_ok (cs_mode s) k r;
  sd_history : alternates (cs_mode s) (cs_mode_history s);
  sd_users : NoDup (cs_notification_preferences s).*1;
  sd_preferences : forall k r, (k, r) ∈ cs_notification_preferences s -> preference_ok k r;
  sd_captured : rc_events (cs_risk_controls s) = [];
  sd_kill : kill_of_log false (cs_risk_events s) = rc_kill_switch_enabled (cs_risk_controls s);
  sd_open : open_of_log false (cs_risk_events s) = breaker_set (cs_risk_controls s);
}.

Lemma member_elem s l : member s l = true <-> s ∈ l.
Proof.
  unfold member. rewrite existsb_exists, list_elem_of_In. split.
  - intros (x & Hx & ->%String.eqb_eq). done.
  - intros H. exists s. by rewrite String.eqb_refl.
Qed.

Lemma normalized_member (l : list string) (c : exc_class) msg s n :
  (_ ← raise_if (negb (member s l)) c msg; Ok s) = Ok n -> s = n /\ n ∈ l.
Proof.
  intros (u & Hr & [= <-])%bind_Ok. apply raise_if_Ok, negb_false_iff, member_elem in Hr. done.
Qed.

(** ** Preservation *)

Lemma set_mode_sound now e m a r s : sound s -> sound (set_mode now e m a r s).1.
Proof.
  intros Hs. unfold set_mode. destruct (_normalize_mode m) as [n|] eqn:En; [|done].
  unfold _normalize_mode in En. apply normalized_member in En as [_ Hn].
  destruct (String.eqb_spec n (cs_mode s)) as [->|Hne].
  - destruct Hs. by constructor.
  - destruct Hs. constructor; simpl; try done.
    + by rewrite <- list_fmap_compose.
    + intros k r' ([k0 r0] & [= -> ->] & Hin)%list_elem_of_fmap.
      destruct (sd_strategies0 _ _ Hin). by constructor.
    + destruct sd_history0 as [Hh Ha]. split; [done|].
      intros [|i] x y; [|apply Ha]. intros [= <-] Hy. simpl in Hy |- *.
      destruct (cs_mode_history s) as [|z l]; [done|]. injection Hy as <-. simpl in Hh. congruence.
Qed.

Lemma assoc_set_ok {A} (P : string -> A -> Prop) k v d :
  NoDup d.*1 -> (forall k' v', (k', v') ∈ d -> P k' v') -> P k v ->
  forall k' v', (k', v') ∈ assoc_set k v d -> P k' v'.
Proof. intros Hnd Hd Hk k' v' Hin. apply assoc_set_elem in Hin as [[= -> ->]|[_ Hin]]; auto. Qed.

Lemma set_strategy_state_sound now i st a r s : sound s -> sound (set_strategy_state now i st a r s).1.
Proof.
  intros Hs. unfold set_strategy_state.
  destruct (_normalize_strategy_state st ≫= _) as [n|] eqn:En; [|done].
  apply bind_Ok in En as (n' & Hn & (u & Hi%raise_if_Ok & [= ->])%bind_Ok).
  unfold _normalize_strategy_state in Hn. apply normalized_member in Hn as [_ Hn].
  destruct Hs. constructor; simpl; try done.
  - by apply assoc_set_NoDup.
  - apply assoc_set_ok; [done..|]. constructor; simpl; try done.
    split; [apply strip_idemp|]. intros E. by rewrite E in Hi.
Qed.

Lemma preference_record_ok now u sev g si ev a r :
  preference_record now u sev g si ev a = Ok r -> preference_ok (np_user_id r) r.
Proof.
  unfold preference_record. intros (uid & Hu & (n & Hn & (v & Hg%raise_if_Ok & [= <-])%bind_Ok)%bind_Ok)%bind_Ok.
  unfold _normalize_user_id in Hu. apply bind_Ok in Hu as (w & Hu%raise_if_Ok & [= <-]).
  unfold _normalize_notification_severity in Hn. apply normalized_member in Hn as [_ Hn].
  constructor; simpl; try done.
  - split; [apply strip_idemp|]. intros E. by rewrite E in Hu.
  - by destruct (_normalize_non_empty_values g true).
  - assert (forall l b, NoDup (_normalize_non_empty_values l b)) as H; [|by split_and!].
    intros l b. unfold _normalize_non_empty_values. rewrite <- (list_fmap_id (dedupe_by _ _)). apply dedupe_go_NoDup.
Qed.

Lemma upsert_sound now u sev g si ev a s :
  sound s -> sound (upsert_notification_preference now u sev g si ev a s).1.
Proof.
  intros Hs. unfold upsert_notification_preference. rewrite lift_bind.
  destruct (preference_record now u sev g si ev a) as [r|] eqn:E; [|done]. apply preference_record_ok in E.
  destruct Hs. constructor; simpl; try done.
  - by apply assoc_set_NoDup.
  - by apply assoc_set_ok.
Qed.

Lemma assoc_pop_sublist {A} k (d : list (string * A)) : assoc_pop k d `sublist_of` d.
Proof.
  induction d as [|[k' v] d IH]; simpl; [done|]. destruct (negb _); by constructor.
Qed.

Lemma delete_sound u s : sound s -> sound (delete_notification_preference u s).1.
Proof.
  intros Hs. unfold delete_notification_preference. destruct (_normalize_user_id u) as [k|]; [|done].
  destruct Hs. constructor; simpl; try done.
  - eapply sublist_NoDup; [exact sd_users0|]. by apply fmap_sublist, assoc_pop_sublist.
  - intros k' r Hin. apply sd_preferences0. eapply elem_of_sublist; [exact Hin|apply assoc_pop_sublist].
Qed.

Lemma submit_replay_sound now q d b s : sound s -> sound (submit_replay_request now q d b s).1.
Proof.
  intros Hs. unfold submit_replay_request, mbind, prog_bind, ControlPlane.replay_decision.
  destruct (Replay.replay_decision _ _).2; [|done]. destruct Hs. by constructor.
Qed.

(** *** Risk controls *)

(** The state once the pending events have been captured. *)
Definition captured (p : RiskControlPlane) (s : ControlPlaneState) : ControlPlaneState :=
  set_risk (set_events [] p) (cs_risk_events s ++ rc_events p) s.

Lemma last_risk_event_eq s :
  _last_risk_event s =
    (captured (cs_risk_controls s) s,
     match last (rc_events (cs_risk_controls s)) with
     | None => raise RuntimeError "risk control action did not emit an event"
     | Some e => Ok e
     end).
Proof. done. Qed.

Lemma risk_command_eq (m : RiskControls.op unit) s :
  (on_controls m ≫= fun _ => _last_risk_event) s =
    match m (cs_risk_controls s) with
    | (p, Ok _) => (captured p s, match last (rc_events p) with
                                  | None => raise RuntimeError "risk control action did not emit an event"
                                  | Some e => Ok e
                                  end)
    | (p, Raise e) => (set_risk p (cs_risk_events s) s, Raise e)
    end.
Proof.
  unfold mbind, prog_bind, on_controls. by destruct (m (cs_risk_controls s)) as [p [u|e]].
Qed.

Lemma captured_sound p s : sound s -> accounted (cs_risk_controls s) p -> sound (captured p s).
Proof.
  intros Hs (new & E & K & O). destruct Hs. rewrite sd_captured0 in E. simpl in E.
  constructor; simpl; try done; unfold kill_of_log, open_of_log in *; rewrite E, foldl_app.
  - by rewrite sd_kill0.
  - by rewrite sd_open0.
Qed.

Lemma risk_command_sound (m : RiskControls.op unit) s :
  (forall p, accounted p (m p).1) -> (forall p e, (m p).2 = Raise e -> (m p).1 = p) ->
  sound s -> sound ((on_controls m ≫= fun _ => _last_risk_event) s).1.
Proof.
  intros Ha Hr Hs. rewrite risk_command_eq. specialize (Ha (cs_risk_controls s)). specialize (Hr (cs_risk_controls s)).
  destruct (m (cs_risk_controls s)) as [p [u|e]]; simpl in *; [by apply captured_sound|].
  rewrite (Hr e eq_refl). by destruct Hs.
Qed.

Lemma trip_raises now r a cd p e :
  (RiskControls.trip_circuit_breaker now r a None cd p).2 = Raise e ->
  (RiskControls.trip_circuit_breaker now r a None cd p).1 = p.
Proof.
  unfold RiskControls.trip_circuit_breaker, with_now. simpl. destruct (_ <=? 0); [done|]. by destruct (_ ≫= _).
Qed.

Lemma risk_status_eq t1 t2 s :
  let p1 := _auto_reset_if_expired t1 (cs_risk_controls s) in
  let p2 := _auto_reset_if_expired t2 p1 in
  risk_status t1 t2 s =
    (captured p2 s,
     Ok ({| rt_state := {| rs_kill_switch_enabled := rc_kill_switch_enabled p1;
                           rs_circuit_breaker_open := _is_circuit_breaker_open t1 p1;
                           rs_consecutive_failures := rc_consecutive_failures p1;
                           rs_circuit_breaker_open_until := iso_z <$> rc_circuit_breaker_open_until p1 |};
            rt_blocked_by := (if rc_kill_switch_enabled p2 then ["kill_switch"%string] else []) ++
                             (if _is_circuit_breaker_open t2 p2 then ["circuit_breaker"%string] else []) |},
         rc_events p2)).
Proof. done. Qed.

Lemma serve_one_sound c s : sound s -> sound (serve_one s c).
Proof.
  intros Hs. destruct c as [now e m a r|now i st a r|t1 t2|now r a cd|now r a|now r a|now r a|now q d b|
    now u sev g si ev a|u]; cbn [serve_one].
  - by apply set_mode_sound.
  - by apply set_strategy_state_sound.
  - rewrite risk_status_eq. apply captured_sound; [done|]. eapply accounted_trans; apply accounted_auto_reset.
  - apply risk_command_sound; [intros; apply accounted_trip|apply trip_raises|done].
  - apply risk_command_sound; [intros p; apply (accounted_call (now, CReset r a None)); done| |done].
    intros p e. unfold RiskControls.reset_circuit_breaker, with_now. simpl. by destruct (_ && _).
  - apply risk_command_sound; [intros p; apply (accounted_call (now, CEnable r a None)); done| |done].
    intros p e. unfold RiskControls.enable_kill_switch, with_now. simpl. by destruct (rc_kill_switch_enabled p).
  - apply risk_command_sound; [intros p; apply (accounted_call (now, CDisable r a None)); done| |done].
    intros p e. unfold RiskControls.disable_kill_switch, with_now. simpl. by destruct (negb _).
  - by apply submit_replay_sound.
  - by apply upsert_sound.
  - by apply delete_sound.
Qed.

Lemma serve_sound cs s : sound s -> sound (serve cs s).
Proof. revert s. induction cs as [|c cs IH]; intros s Hs; [done|]. apply IH. by apply serve_one_sound. Qed.

Lemma default_state_sound clock uuid4 mode s : build_default_state clock uuid4 mode = Ok s -> sound s.
Proof.
  unfold build_default_state. intros (n & Hn & [= <-])%bind_Ok.
  unfold _normalize_mode in Hn. apply normalized_member in Hn as [_ Hn].
  constructor; simpl; try done.
  - repeat constructor; set_solver.
  - intros k r Hin. set_unfold in Hin.
    destruct Hin as [[= -> ->]|[[= -> ->]|[]]]; constructor; simpl; try done; set_solver.
  - repeat constructor; set_solver.
  - intros k r Hin. set_unfold in Hin. destruct Hin as [[= -> ->]|[]]. constructor; simpl; try done; [set_solver|].
    split_and!; repeat constructor; set_solver.
Qed.

(** C14. Along any sequence of API commands, the ones that raise included, the
    control plane stays consistent: a valid mode that every strategy follows,
    strategies and preferences under their own trimmed ids with valid states,
    severities and gateways, a mode history that ends at the current mode and
    changes it with every entry, and a captured risk log that replays to the
    position of the kill switch and the breaker with nothing left pending. *)
Theorem control_plane_sound clock uuid4 mode s0 commands :
  build_default_state clock uuid4 mode = Ok s0 -> sound (serve commands s0).
Proof. intros H. by eapply serve_sound, default_state_sound. Qed.

(** ** Commands on the kill switch *)

Definition switch_event (on : bool) (now : Z) (reason actor : string) : RiskControlEvent :=
  {| rv_event_type := if on then "risk.kill_switch.enabled" else "risk.kill_switch.disabled";
     rv_control := "kill_switch"; rv_status := if on then "ENABLED" else "DISABLED"; rv_reason := reason;
     rv_actor := actor; rv_occurred_at := iso_z now; rv_metadata := [] |}.

Definition switch_command (on : bool) (now : Z) (reason actor : string) : prog ControlPlaneState RiskControlEvent :=
  if on then enable_kill_switch now reason actor else disable_kill_switch now reason actor.

(** A kill switch command is exact but not idempotent: in any state the
    commands can reach, a command that moves the switch returns the event of
    this change and appends it to the log; a command that finds the switch
    already there raises RuntimeError, and changes nothing. *)
Theorem kill_switch_command clock uuid4 mode s0 commands on now reason actor :
  build_default_state clock uuid4 mode = Ok s0 ->
  let s := serve commands s0 in
  let '(s', r) := switch_command on now reason actor s in
  rc_kill_switch_enabled (cs_risk_controls s') = on /\
  (rc_kill_switch_enabled (cs_risk_controls s) = negb on ->
     r = Ok (switch_event on now reason actor) /\
     cs_risk_events s' = cs_risk_events s ++ [switch_event on now reason actor]) /\
  (rc_kill_switch_enabled (cs_risk_controls s) = on ->
     r = raise RuntimeError "risk control action did not emit an event" /\ cs_risk_events s' = cs_risk_events s).
Proof.
  intros H s. assert (Hs : sound s) by (by eapply serve_sound, default_state_sound).
  destruct Hs as [_ _ _ _ _ _ Hc _ _].
  destruct on; unfold switch_command, enable_kill_switch, disable_kill_switch; rewrite risk_command_eq;
    unfold RiskControls.enable_kill_switch, RiskControls.disable_kill_switch, with_now; simpl;
    destruct (rc_kill_switch_enabled (cs_risk_controls s)) eqn:Ek; simpl; rewrite ?Hc; simpl;
    split_and!; try done; intros _; by rewrite ?app_nil_r.
Qed.

Definition disables_switch (c : command) : bool := match c with DisableKillSwitch _ _ _ => true | _ => false end.

Lemma risk_command_kill (m : RiskControls.op unit) s :
  rc_kill_switch_enabled (m (cs_risk_controls s)).1 = true ->
  rc_kill_switch_enabled (cs_risk_controls ((on_controls m ≫= fun _ => _last_risk_event) s).1) = true.
Proof. rewrite risk_command_eq. by destruct (m (cs_risk_controls s)) as [p [u|e]]. Qed.

Lemma serve_one_kill c s :
  disables_switch c = false -> rc_kill_switch_enabled (cs_risk_controls s) = true ->
  rc_kill_switch_enabled (cs_risk_controls (serve_one s c)) = true.
Proof.
  intros Hc Hk. destruct c as [now e m a r|now i st a r|t1 t2|now r a cd|now r a|now r a|now r a|now q d b|
    now u sev g si ev a|u]; cbn [serve_one]; try done.
  - unfold set_mode. destruct (_normalize_mode m); [|done]. by destruct (String.eqb _ _).
  - unfold set_strategy_state. by destruct (_ ≫= _).
  - rewrite risk_status_eq. simpl. by rewrite !auto_reset_kill.
  - apply risk_command_kill. by apply trip_kill.
  - apply risk_command_kill. by apply (call_kill (now, CReset r a None)).
  - apply risk_command_kill. by apply (call_kill (now, CEnable r a None)).
  - unfold submit_replay_request, mbind, prog_bind, ControlPlane.replay_decision.
    by destruct (Replay.replay_decision _ _).2.
  - unfold upsert_notification_preference. rewrite lift_bind. by destruct (preference_record _ _ _ _ _ _ _).
  - unfold delete_notification_preference. by destruct (_normalize_user_id u).
Qed.

(** Once the kill switch is on, the status reports it as a blocker until a
    command disables it. *)
Lemma status_reports_kill_switch commands t1 t2 s :
  rc_kill_switch_enabled (cs_risk_controls s) = true ->
  Forall (fun c => disables_switch c = false) commands ->
  exists p events, (risk_status t1 t2 (serve commands s)).2 = Ok (p, events) /\
    rs_kill_switch_enabled (rt_state p) = true /\ "kill_switch"%string ∈ rt_blocked_by p.
Proof.
  intros Hk Hc. revert s Hk. induction Hc as [|c cs Hc _ IH]; intros s Hk.
  - rewrite risk_status_eq. simpl. eexists _, _. split; [done|]. simpl. rewrite !auto_reset_kill, Hk.
    split; [done|]. left.
  - apply IH. by apply serve_one_kill.
Qed.

(** ** The usage report *)

Section usage.
Context (date_window month_window : string).

#[local] Abbreviation group := (group_call date_window month_window).
#[local] Abbreviation add := (add_call date_window month_window).

(** The recorded calls of one strategy and agent, in order. *)
Definition calls_of (k : usage_key) (l : list LLMCallRecord) : list LLMCallRecord :=
  filter (fun r => key_of r = k) l.

Definition aggregated (l : list LLMCallRecord) : aggregate := foldl (fun a r => add r a) no_calls l.

(** What a group stands for: each key once, with the aggregate of its calls. *)
Definition groups (g : list (usage_key * aggregate)) (l : list LLMCallRecord) : Prop :=
  NoDup g.*1 /\ (forall k a, (k, a) ∈ g -> a = aggregated (calls_of k l)) /\
  (forall k, k ∈ g.*1 <-> calls_of k l <> []).

Lemma group_keys r g : (group r g).*1 = if decide (key_of r ∈ g.*1) then g.*1 else g.*1 ++ [key_of r].
Proof using Type.
  induction g as [|[k a] g IH]; [done|]. cbn [group_call].
  destruct (decide (k = key_of r)) as [->|Hne]; csimpl.
  - rewrite decide_True; [done|]. left.
  - rewrite IH. destruct (decide (key_of r ∈ g.*1)) as [Hin|Hin].
    + rewrite decide_True; [done|]. by right.
    + rewrite decide_False; [done|]. intros [|]%elem_of_cons; congruence.
Qed.

Lemma group_elem r g k a :
  NoDup g.*1 -> (k, a) ∈ group r g ->
  (k <> key_of r /\ (k, a) ∈ g) \/
  (k = key_of r /\ ((exists a0, (k, a0) ∈ g /\ a = add r a0) \/ (k ∉ g.*1 /\ a = add r no_calls))).
Proof using Type.
  induction g as [|[k0 a0] g IH]; simpl; intros Hnd Hin.
  - apply list_elem_of_singleton in Hin as [= -> ->]. right. split; [done|]. right. split; [apply not_elem_of_nil|done].
  - apply NoDup_cons in Hnd as [Hk0 Hnd]. destruct (decide (k0 = key_of r)) as [->|Hne].
    + apply elem_of_cons in Hin as [[= -> ->]|Hin].
      * right. split; [done|]. left. exists a0. split; [left|done].
      * left. split; [|by right]. intros ->. apply Hk0. by apply (list_elem_of_fmap_2 fst) in Hin.
    + apply elem_of_cons in Hin as [[= -> ->]|Hin]; [left; split; [done|left]|].
      destruct (IH Hnd Hin) as [[? ?]|[-> [(a1 & ? & ->)|[? ->]]]].
      * left. split; [done|by right].
      * right. split; [done|]. left. exists a1. split; [by right|done].
      * right. split; [done|]. right. split; [|done]. intros [E|]%elem_of_cons; [by symmetry in E|done].
Qed.

Lemma calls_of_snoc k l r : calls_of k (l ++ [r]) = calls_of k l ++ (if decide (key_of r = k) then [r] else []).
Proof using Type. unfold calls_of. rewrite filter_app. f_equal. Qed.

Lemma group_groups g l r : groups g l -> groups (group r g) (l ++ [r]).
Proof using Type.
  intros (Hnd & Ha & Hk). split_and!.
  - rewrite group_keys. destruct (decide _); [done|]. apply NoDup_app. split_and!; [done| |apply NoDup_singleton].
    intros x Hx ->%list_elem_of_singleton. done.
  - intros k a Hin. rewrite calls_of_snoc.
    destruct (group_elem r g k a Hnd Hin) as [[Hne Hg]|[-> [(a0 & Hg & ->)|[Hn ->]]]].
    + rewrite decide_False by congruence. rewrite app_nil_r. by apply Ha.
    + rewrite decide_True by done. unfold aggregated. rewrite foldl_app. simpl. f_equal. by apply Ha.
    + rewrite decide_True by done. rewrite Hk in Hn. destruct (calls_of (key_of r) l); [done|]. by destruct Hn.
  - intros k. rewrite group_keys, calls_of_snoc. destruct (decide (key_of r = k)) as [<-|Hne].
    + split; [by intros _ [_ ?]%app_nil|]. intros _. destruct (decide _); [done|]. set_solver.
    + rewrite app_nil_r, <- Hk. destruct (decide _); set_solver.
Qed.

Lemma grouped_calls_groups l : groups (grouped_calls date_window month_window l) l.
Proof using Type.
  induction l as [|r l IH] using rev_ind.
  - split_and!; [constructor|by intros k a ?%elem_of_nil|]. intros k. split; [by intros ?%elem_of_nil|done].
  - unfold grouped_calls. rewrite foldl_app. by apply group_groups.
Qed.

Definition in_day (r : LLMCallRecord) : bool := starts_with date_window (cr_created_at r).
Definition in_month (r : LLMCallRecord) : bool := starts_with month_window (cr_created_at r).
Definition blocked (r : LLMCallRecord) : bool := String.eqb (response_status "" r) "quota_blocked".

Definition sum_Z (l : list Z) : Z := foldr Z.add 0 l.

Lemma sum_Z_app l1 l2 : sum_Z (l1 ++ l2) = sum_Z l1 + sum_Z l2.
Proof using Type. induction l1 as [|x l1 IH]; simpl; [done|]. rewrite IH. lia. Qed.

Definition count_of_calls (p : LLMCallRecord -> bool) (l : list LLMCallRecord) : Z :=
  Z.of_nat (List.length (List.filter p l)).

Lemma aggregated_eq l :
  aggregated l =
    {| ag_daily_tokens := sum_Z ((fun r => tu_total (cr_usage r)) <$> List.filter in_day l);
       ag_monthly_cost := foldl fadd fzero (cr_estimated_cost <$> List.filter in_month l);
       ag_total_calls := Z.of_nat (List.length l);
       ag_breach_count := count_of_calls blocked l |}.
Proof using Type.
  induction l as [|r l IH] using rev_ind; [done|]. unfold aggregated, count_of_calls in *.
  rewrite foldl_app, IH, !List.filter_app, !fmap_app, foldl_app, sum_Z_app, !length_app. cbn.
  unfold add_call, blocked, in_day, in_month in *. simpl.
  f_equal; repeat destruct (starts_with _ _); repeat destruct (String.eqb _ _); simpl; lia || done.
Qed.
End usage.

Definition item_key (i : LLMUsageRecord) : usage_key := (lu_strategy_id i, lu_agent_name i).

(** The row of a key accounts for exactly these calls. *)
Record accounts_for (now : Z) (calls : list LLMCallRecord) (i : LLMUsageRecord) : Prop := {
  af_calls : lu_total_calls i = Z.of_nat (List.length calls);
  af_breaches : lu_breach_count i = count_of_calls blocked calls;
  af_tokens : lu_daily_tokens i = sum_Z ((fun r => tu_total (cr_usage r)) <$> List.filter (in_day (date_text now)) calls);
  af_cost : lu_monthly_cost i =
    foldl fadd fzero (cr_estimated_cost <$> List.filter (in_month (month_text now)) calls);
}.

Lemma usage_record_row now s k a i :
  usage_record (date_text now) (month_text now) s (k, a) = Ok i ->
  item_key i = k /\ forall calls, a = aggregated (date_text now) (month_text now) calls -> accounts_for now calls i.
Proof.
  unfold usage_record. intros (dl & _ & (ml & _ & (dr & _ & (mr & _ & [= <-])%bind_Ok)%bind_Ok)%bind_Ok)%bind_Ok.
  split; [by destruct k|]. intros calls ->. rewrite aggregated_eq. by constructor.
Qed.

Lemma filter_elem {A} (p : A -> bool) l x : x ∈ List.filter p l <-> x ∈ l /\ p x = true.
Proof. rewrite !list_elem_of_In. apply List.filter_In. Qed.

Lemma filter_fst_NoDup {A B} (p : A * B -> bool) l : NoDup l.*1 -> NoDup (List.filter p l).*1.
Proof.
  intros H. eapply sublist_NoDup; [exact H|]. apply fmap_sublist. clear H.
  induction l as [|x l IH]; simpl; [done|]. destruct (p x); by constructor.
Qed.

(** The usage report is complete and exact: in the report for a moment, the
    rows are sorted, there is exactly one row for every strategy and agent that
    passes the filters and has a recorded call, and its totals, tokens of the
    day, cost of the month and quota breaches are those of exactly the calls
    recorded for that strategy and agent. *)
Theorem usage_report_exact clock strategy_id agent_name now s items :
  list_llm_usage clock strategy_id agent_name now s = Ok items ->
  exists t, _to_utc clock now = Ok t /\
    Sorted (fun a b => usage_leb a b = true) items /\ NoDup (item_key <$> items) /\
    (forall k, k ∈ item_key <$> items <->
       wanted strategy_id agent_name k = true /\ calls_of k (cs_llm_call_records s) <> []) /\
    (forall i, i ∈ items -> accounts_for t (calls_of (item_key i) (cs_llm_call_records s)) i).
Proof.
  unfold list_llm_usage. intros (t & Ht & (rows & Hr & [= <-])%bind_Ok)%bind_Ok. exists t. split; [done|].
  set (g := grouped_calls _ _ _) in Hr.
  destruct (grouped_calls_groups (date_text t) (month_text t) (cs_llm_call_records s)) as (Hnd & Ha & Hk).
  fold g in Hnd, Ha, Hk. apply map_res_Forall2 in Hr.
  assert (Hkeys : item_key <$> rows = (List.filter (fun ka => wanted strategy_id agent_name ka.1) g).*1).
  { clear -Hr. induction Hr as [|[k a] i l ys Hi _ IH]; csimpl; [done|].
    apply usage_record_row in Hi as [-> _]. by rewrite IH. }
  split_and!.
  - apply sort_by_Sorted. intros a b. apply strs_leb_total.
  - rewrite sort_by_perm, Hkeys. by apply filter_fst_NoDup.
  - intros k. rewrite sort_by_perm, Hkeys, list_elem_of_fmap, <- Hk. split.
    + intros ([k' a] & -> & [Hin Hw]%filter_elem). split; [done|]. by apply (list_elem_of_fmap_2 fst) in Hin.
    + intros [Hw ([k' a] & -> & Hin)%list_elem_of_fmap]. exists (k', a). split; [done|]. by apply filter_elem.
  - intros i. rewrite sort_by_perm. intros (j & Hj)%list_elem_of_lookup.
    destruct (Forall2_lookup_r _ _ _ _ _ Hr Hj) as ([k a] & Hka & Hu).
    apply list_elem_of_lookup_2, filter_elem in Hka as [Hka _].
    destruct (usage_record_row _ _ _ _ _ Hu) as [-> Hacc]. by apply Hacc, Ha.
Qed.

(** ** Examples *)

Module Example_control.
#[local] Open Scope string_scope.

Definition t0 : Z := days_of_ymd 2024 3 1 * US_DAY.
Definition ids (k : nat) : string := "id-" +:+ str_of_Z (Z.of_nat k).

Definition call (id : string) (tokens : Z) (status at_ : string) : LLMCallRecord :=
  {| cr_llm_call_id := id;
     cr_request := {| rq_trace_id := "t"; rq_decision_id := "d"; rq_strategy_id := "btc-momentum"; rq_agent_name := "risk";
                      rq_messages := []; rq_temperature := fone; rq_max_tokens := 10; rq_metadata := [] |};
     cr_provider := "p"; cr_model := "m"; cr_prompt_payload := []; cr_response_payload := [("status", VStr status)];
     cr_usage := {| tu_prompt := tokens; tu_completion := 0; tu_total := tokens |}; cr_latency_ms := fone;
     cr_estimated_cost := fone; cr_created_at := at_ |}.

Definition initial : ControlPlaneState :=
  match build_default_state t0 ids " mock " with Ok s => s | Raise _ => with_core "" [] [] default_controls [] [] []
    {| cs_mode := ""; cs_strategies := []; cs_mode_history := []; cs_orders := []; cs_positions := [];
       cs_portfolio_snapshots := []; cs_risk_controls := default_controls; cs_risk_events := [];
       cs_llm_call_records := []; cs_llm_quota_limits := []; cs_replay_traces := []; cs_replay_agent_runs := [];
       cs_replay_agent_messages := []; cs_replay_llm_calls := []; cs_replay_summaries := []; cs_replay_requests := [];
       cs_news_items := []; cs_news_summaries := []; cs_notification_preferences := [];
       cs_notification_metrics := {| nm_totals := None; nm_suppression := None; nm_gateway_status := None;
                                     nm_retry_attempt_histogram := None; nm_generated_at := None |};
       cs_notification_delivery_logs := []; cs_notification_trace_spans := [] |} end.

Definition commands : list command :=
  [SetMode t0 "e1" "real" "ann" "go live"; SetStrategyState t0 " doge " "paused" "ann" "test";
   SetStrategyState t0 "x" "broken" "ann" "test"; EnableKillSwitch t0 "halt" "ann";
   EnableKillSwitch t0 "halt" "bob"; UpsertPreference t0 "ann" "info" [" Email "; "email"] [] [] "ann";
   DeletePreference "ops-default"; TripBreaker t0 "loss" "ann" (Some 30); RiskStatus t0 t0].

Lemma control_plane_sound_witness :
  build_default_state t0 ids " mock " = Ok initial /\ sound (serve commands initial) /\
  cs_mode (serve commands initial) = "REAL" /\ (cs_strategies (serve commands initial)).*1 = ["btc-momentum"; "eth-mean-revert"; "doge"].
Proof.
  split; [by vm_compute|]. split; [|by vm_compute].
  apply (control_plane_sound t0 ids " mock "). by vm_compute.
Defined.

Lemma kill_switch_command_witness :
  build_default_state t0 ids " mock " = Ok initial /\
  rc_kill_switch_enabled (cs_risk_controls (serve commands initial)) = true /\
  let s := serve commands initial in
  let '(s', r) := switch_command true t0 "again" "bob" s in
  rc_kill_switch_enabled (cs_risk_controls s') = true /\
  (rc_kill_switch_enabled (cs_risk_controls s) = negb true ->
     r = Ok (switch_event true t0 "again" "bob") /\
     cs_risk_events s' = (cs_risk_events s ++ [switch_event true t0 "again" "bob"])%list) /\
  (rc_kill_switch_enabled (cs_risk_controls s) = true ->
     r = raise RuntimeError "risk control action did not emit an event" /\ cs_risk_events s' = cs_risk_events s).
Proof.
  split; [by vm_compute|]. split; [by vm_compute|].
  exact (kill_switch_command t0 ids " mock " initial commands true t0 "again" "bob" ltac:(by vm_compute)).
Defined.

Definition with_calls : ControlPlaneState :=
  let s := initial in
  {| cs_mode := cs_mode s; cs_strategies := cs_strategies s; cs_mode_history := cs_mode_history s;
     cs_orders := []; cs_positions := []; cs_portfolio_snapshots := []; cs_risk_controls := cs_risk_controls s;
     cs_risk_events := []; 
     cs_llm_call_records :=
       [call "c1" 10 "succeeded" "2024-03-01T01:00:00Z"; call "c2" 7 "quota_blocked" "2024-03-01T02:00:00Z";
        call "c3" 5 "succeeded" "2024-02-28T01:00:00Z"];
     cs_llm_quota_limits := cs_llm_quota_limits s; cs_replay_traces := []; cs_replay_agent_runs := [];
     cs_replay_agent_messages := []; cs_replay_llm_calls := []; cs_replay_summaries := []; cs_replay_requests := [];
     cs_news_items := []; cs_news_summaries := []; cs_notification_preferences := cs_notification_preferences s;
     cs_notification_metrics := cs_notification_metrics s; cs_notification_delivery_logs := [];
     cs_notification_trace_spans := [] |}.

Definition report : list LLMUsageRecord :=
  match list_llm_usage t0 None (Some "risk") None with_calls with Ok l => l | Raise _ => [] end.

Lemma usage_report_exact_witness :
  (exists t, _to_utc t0 None = Ok t /\
     Sorted (fun a b => usage_leb a b = true) report /\ NoDup (item_key <$> report) /\
     (forall k, k ∈ item_key <$> report <->
        wanted None (Some "risk") k = true /\ calls_of k (cs_llm_call_records with_calls) <> []) /\
     (forall i, i ∈ report -> accounts_for t (calls_of (item_key i) (cs_llm_call_records with_calls)) i)) /\
  (fun i => (lu_total_calls i, lu_daily_tokens i, lu_breach_count i)) <$> report = [(3, 17, 1)].
Proof.
  split; [|by vm_compute]. apply (usage_report_exact t0 None (Some "risk") None with_calls). by vm_compute.
Defined.
End Example_control.
