(* ===== verification/ApiRepository.v ===== *)
(** * The repository of the API

    [services/api/repositories.py]: the control plane's own tables and what the API reads of
    the tables of the other components - the OMS tables of [OmsStore.v], the time series of
    [MarketStore.v], the calls and limits of [LlmStores.v], the traces of [TraceStore.v],
    the decision memory of [DecisionStores.v] and the news of [NewsStores.v].
    [load_state] puts the state of [ControlPlane.v] together. A table that does not exist
    raises an error that says so; times are texts, as the stores write them; a query orders
    rows of equal rank as the table does. *)

From S2P Require Import Prelude PyStr PyFloat PyDecimal PyTime PyVal PyJson SqlTable FillReconciliation PositionEngine PortfolioSnapshot.
From S2P Require Import OmsStore MarketStore LlmGateway LlmStores AgentMemory Replay DecisionStores TraceStore NewsStores RiskControls ControlPlane.
From stdpp Require Import options.
From Stdlib Require Import Ascii String.

#[local] Open Scope Z_scope.

(** ** Tables *)

Record preference_row := {
  pf_user_id : string; pf_min_severity : string; pf_gateways_json : string; pf_strategy_ids_json : string; pf_event_types_json : string;
  pf_updated_at : string; pf_updated_by : string }.

Record request_row := {
  qr_request_id : string; qr_decision_id : string; qr_status : string; qr_requested_by : string; qr_requested_at : string;
  qr_result_json : string }.

Record notification_row := {
  nn_notification_event_id : string; nn_trace_id : string; nn_decision_id : string; nn_event_type : string; nn_severity : string;
  nn_title : string; nn_body : string; nn_payload_json : option string; nn_idempotency_key : option string; nn_emitted_at : string }.

Record dlq_row := {
  dq_notification_event_id : string; dq_gateway : string; dq_failure_reason : string; dq_failed_attempts : Z;
  dq_last_error : option string; dq_moved_at : string }.

(** The tables the repository writes; the rows of four of them have the fields of the
    records of the state. *)
Record control_tables := {
  ct_modes : list ModeAuditRecord;
  ct_strategies : list StrategyRuntimeRecord;
  ct_preferences : list preference_row;
  ct_deliveries : list NotificationDeliveryRecord;
  ct_spans : list NotificationTraceRecord;
  ct_requests : list request_row;
  ct_notifications : list notification_row;
  ct_dlq : list dlq_row }.

Record api_db := {
  ad_tables : list string;
  ad_control : control_tables;
  ad_oms : database;
  ad_series : timeseries;
  ad_calls : list call_row;
  ad_limits : list limit_row;
  ad_traces : list trace_row;
  ad_runs : list run_row;
  ad_messages : list message_row;
  ad_memory : list memory_row;
  ad_news : news_db }.

Definition set_control (t : control_tables) (db : api_db) : api_db :=
  {| ad_tables := ad_tables db; ad_control := t; ad_oms := ad_oms db; ad_series := ad_series db; ad_calls := ad_calls db;
     ad_limits := ad_limits db; ad_traces := ad_traces db; ad_runs := ad_runs db; ad_messages := ad_messages db;
     ad_memory := ad_memory db; ad_news := ad_news db |}.

Definition put_modes t c := {| ct_modes := t; ct_strategies := ct_strategies c; ct_preferences := ct_preferences c;
  ct_deliveries := ct_deliveries c; ct_spans := ct_spans c; ct_requests := ct_requests c; ct_notifications := ct_notifications c; ct_dlq := ct_dlq c |}.
Definition put_strategies t c := {| ct_modes := ct_modes c; ct_strategies := t; ct_preferences := ct_preferences c;
  ct_deliveries := ct_deliveries c; ct_spans := ct_spans c; ct_requests := ct_requests c; ct_notifications := ct_notifications c; ct_dlq := ct_dlq c |}.
Definition put_preferences t c := {| ct_modes := ct_modes c; ct_strategies := ct_strategies c; ct_preferences := t;
  ct_deliveries := ct_deliveries c; ct_spans := ct_spans c; ct_requests := ct_requests c; ct_notifications := ct_notifications c; ct_dlq := ct_dlq c |}.
Definition put_deliveries t c := {| ct_modes := ct_modes c; ct_strategies := ct_strategies c; ct_preferences := ct_preferences c;
  ct_deliveries := t; ct_spans := ct_spans c; ct_requests := ct_requests c; ct_notifications := ct_notifications c; ct_dlq := ct_dlq c |}.
Definition put_spans t c := {| ct_modes := ct_modes c; ct_strategies := ct_strategies c; ct_preferences := ct_preferences c;
  ct_deliveries := ct_deliveries c; ct_spans := t; ct_requests := ct_requests c; ct_notifications := ct_notifications c; ct_dlq := ct_dlq c |}.
Definition put_requests t c := {| ct_modes := ct_modes c; ct_strategies := ct_strategies c; ct_preferences := ct_preferences c;
  ct_deliveries := ct_deliveries c; ct_spans := ct_spans c; ct_requests := t; ct_notifications := ct_notifications c; ct_dlq := ct_dlq c |}.
Definition put_notifications t c := {| ct_modes := ct_modes c; ct_strategies := ct_strategies c; ct_preferences := ct_preferences c;
  ct_deliveries := ct_deliveries c; ct_spans := ct_spans c; ct_requests := ct_requests c; ct_notifications := t; ct_dlq := ct_dlq c |}.
Definition put_dlq t c := {| ct_modes := ct_modes c; ct_strategies := ct_strategies c; ct_preferences := ct_preferences c;
  ct_deliveries := ct_deliveries c; ct_spans := ct_spans c; ct_requests := ct_requests c; ct_notifications := ct_notifications c; ct_dlq := t |}.

(** ** Statements *)

Definition missing_table {A} (table : string) : result A :=
  raise (ExternalError "ProgrammingError") ("relation " +:+ table +:+ " does not exist").

(** The rows of a table. *)
Definition relation {R} (db : api_db) (table : string) (rows : list R) : result (list R) :=
  if member table (ad_tables db) then Ok rows else missing_table table.

(** A statement that changes a table of the repository. *)
Definition execute (table : string) (f : control_tables -> result control_tables) : prog api_db unit := fun db =>
  if member table (ad_tables db) then
    match f (ad_control db) with Ok t => (set_control t db, Ok tt) | Raise e => (db, Raise e) end
  else (db, missing_table table).

Definition _is_missing_relation_error (e : exc) : bool :=
  let message := lower (exc_msg e) in
  existsb (fun marker => contains marker message) ["no such table"; "does not exist"; "undefined table"; "undefinedtable"]%string.

Definition _load_optional {A} (loader : result A) (dflt : A) : result A :=
  match loader with
  | Ok a => Ok a
  | Raise e => if _is_missing_relation_error e then Ok dflt else Raise e
  end.

(** [ORDER BY key DESC LIMIT max(1, limit)] *)
Definition newest_rows {R} (limit : Z) (key : R -> string) (rows : list R) : list R :=
  take (Z.to_nat (Z.max 1 limit)) (sort_by (fun a b => str_leb (key b) (key a)) rows).

Definition _safe_json_dict (value : string) : dict :=
  let text_value := strip value in
  if is_empty text_value then [] else match json_loads text_value with Ok (VDict d) => d | _ => [] end.
Definition _safe_json_list (value : string) : list val :=
  let text_value := strip value in
  if is_empty text_value then [] else match json_loads text_value with Ok (VList l) => l | _ => [] end.

(** [Decimal(str(float(x or 0.0)))] *)
Definition dec_column (x : f64) : dec := dec_of_repr (or_zero x).

(** ** Writing *)

Definition upsert_strategy_state (record : StrategyRuntimeRecord) : prog api_db unit :=
  execute "strategy_runtime_state"
    (fun c => Ok (put_strategies (upsert_row (fun r => bool_decide (sy_strategy_id r = sy_strategy_id record)) (fun _ => record) record (ct_strategies c)) c)).

Definition persist_mode_change (event_id mode changed_by reason changed_at : string) (strategies : list StrategyRuntimeRecord) : prog api_db unit :=
  let normalized_mode := upper (strip mode) in
  _ ← lift (raise_if (negb (member normalized_mode ["MOCK"; "REAL"]%string)) ValueError "mode must be MOCK or REAL");
  _ ← execute "mode_audit_events" (fun c =>
        t ← insert_row "mode_audit_events.event_id" (fun r => String.eqb (ma_event_id r) event_id)
              {| ma_event_id := event_id; ma_mode := normalized_mode; ma_changed_by := changed_by; ma_reason := reason; ma_changed_at := changed_at |}
              (ct_modes c);
        Ok (put_modes t c));
  for_each upsert_strategy_state strategies.

Definition texts_json (l : list string) : result string := json_dumps json_plain (VList (VStr <$> l)).

Definition preference_values (record : NotificationPreferenceRecord) : result preference_row :=
  gateways ← texts_json (np_gateways record);
  strategies ← texts_json (np_strategy_ids record);
  events ← texts_json (np_event_types record);
  Ok {| pf_user_id := np_user_id record; pf_min_severity := np_min_severity record; pf_gateways_json := gateways;
        pf_strategy_ids_json := strategies; pf_event_types_json := events; pf_updated_at := np_updated_at record;
        pf_updated_by := np_updated_by record |}.

Definition persist_preference (record : NotificationPreferenceRecord) : prog api_db unit :=
  row ← lift (preference_values record);
  execute "notification_preferences"
    (fun c => Ok (put_preferences (upsert_row (fun r => bool_decide (pf_user_id r = pf_user_id row)) (fun _ => row) row (ct_preferences c)) c)).

(** Whether a row was deleted. *)
Definition remove_preference (user_id : string) : prog api_db bool :=
  before ← gets (fun db => ct_preferences (ad_control db));
  _ ← execute "notification_preferences"
        (fun c => Ok (put_preferences (List.filter (fun r => negb (String.eqb (pf_user_id r) user_id)) (ct_preferences c)) c));
  mret (existsb (fun r => String.eqb (pf_user_id r) user_id) before).

Definition persist_notification_event (row : notification_row) : prog api_db unit :=
  execute "notification_events" (fun c => Ok (put_notifications
    (insert_new (fun r => String.eqb (nn_notification_event_id r) (nn_notification_event_id row)) row (ct_notifications c)) c)).

Definition persist_notification_dlq_entry (row : dlq_row) : prog api_db unit :=
  execute "notification_delivery_dlq" (fun c => Ok (put_dlq (ct_dlq c ++ [row]) c)).

Definition persist_notification_delivery (record : NotificationDeliveryRecord) : prog api_db unit :=
  execute "notification_deliveries" (fun c => Ok (put_deliveries (ct_deliveries c ++ [record]) c)).

Definition persist_notification_trace_span (record : NotificationTraceRecord) : prog api_db unit :=
  execute "notification_trace_spans" (fun c => Ok (put_spans (ct_spans c ++ [record]) c)).

(** The result of a replay as JSON; what differed from the stored outcome is not kept. *)
Definition node_payload (n : ReplayGraphNode) : val :=
  VDict [("node_id", VStr (gn_node_id n)); ("node_type", VStr (gn_node_type n)); ("label", VStr (gn_label n));
         ("payload", VDict (gn_payload n))]%string.
Definition edge_payload (e : ReplayGraphEdge) : val :=
  VDict [("from_node_id", VStr (ge_from_node_id e)); ("to_node_id", VStr (ge_to_node_id e)); ("relation", VStr (ge_relation e))]%string.

Definition _replay_result_to_payload (r : DecisionReplayResult) : dict :=
  [("decision_id", VStr (rr_decision_id r)); ("trace_id", VStr (rr_trace_id r)); ("strategy_id", VStr (rr_strategy_id r));
   ("mode", VStr (rr_mode r)); ("status", VStr (rr_status r)); ("summary", VDict (rr_summary r));
   ("lifecycle", VList (VDict <$> rr_lifecycle r)); ("agent_runs", VList (VDict <$> rr_agent_runs r));
   ("llm_calls", VList (VDict <$> rr_llm_calls r)); ("graph_nodes", VList (node_payload <$> rr_graph_nodes r));
   ("graph_edges", VList (edge_payload <$> rr_graph_edges r)); ("deterministic_digest", VStr (rr_deterministic_digest r))]%string.

(** [_safe_json_dict] of a value that was parsed already *)
Definition nested_dict (v : val) : dict := match v with VDict d => d | VStr s => _safe_json_dict s | _ => [] end.
Definition mappings (v : val) : list dict :=
  match v with VList l => omap (M := list) (fun x => match x with VDict d => Some d | _ => None end) l | _ => [] end.
Definition text_of (key : string) (d : dict) : string := py_str (dget_or key (VStr "") d).

Definition _payload_to_replay_result (payload : dict) : DecisionReplayResult :=
  {| rr_decision_id := text_of "decision_id" payload; rr_trace_id := text_of "trace_id" payload;
     rr_strategy_id := text_of "strategy_id" payload;
     rr_mode := py_str (let m := dget_or "mode" (VStr "MOCK") payload in if truthy m then m else VStr "MOCK");
     rr_status := text_of "status" payload; rr_summary := nested_dict (dget "summary" payload);
     rr_lifecycle := mappings (dget "lifecycle" payload); rr_agent_runs := mappings (dget "agent_runs" payload);
     rr_llm_calls := mappings (dget "llm_calls" payload);
     rr_graph_nodes := (fun d => {| gn_node_id := text_of "node_id" d; gn_node_type := text_of "node_type" d; gn_label := text_of "label" d;
                                    gn_payload := nested_dict (dget "payload" d) |}) <$> mappings (dget "graph_nodes" payload);
     rr_graph_edges := (fun d => {| ge_from_node_id := text_of "from_node_id" d; ge_to_node_id := text_of "to_node_id" d;
                                    ge_relation := text_of "relation" d |}) <$> mappings (dget "graph_edges" payload);
     rr_deterministic_digest := text_of "deterministic_digest" payload; rr_diff := None |}.

Definition persist_replay_request (record : ReplayRequestRecord) : prog api_db unit :=
  text ← lift (json_dumps json_plain (VDict (_replay_result_to_payload (rq_result record))));
  let row := {| qr_request_id := rq_request_id record; qr_decision_id := rq_for_decision_id record; qr_status := rq_status record;
                qr_requested_by := rq_requested_by record; qr_requested_at := rq_requested_at record; qr_result_json := text |} in
  execute "replay_requests" (fun c => Ok (put_requests
    (upsert_row (fun r => bool_decide (qr_request_id r = qr_request_id row))
       (fun r => {| qr_request_id := qr_request_id r; qr_decision_id := qr_decision_id r; qr_status := qr_status row;
                    qr_requested_by := qr_requested_by row; qr_requested_at := qr_requested_at row; qr_result_json := qr_result_json row |})
       row (ct_requests c)) c)).

(** ** Loading the state *)

(** [{key(row): row for row in rows}] *)
Definition dict_by {A} (key : A -> string) (l : list A) : list (string * A) := foldl (fun d x => assoc_set (key x) x d) [] l.

(** [grouped.setdefault(key(row), []).append(row)] *)
Definition group_by {A} (key : A -> string) (l : list A) : list (string * list A) :=
  foldl (fun d x => assoc_set (key x) (default [] (assoc_get (key x) d) ++ [x]) d) [] l.

Definition loaded_mode (r : ModeAuditRecord) : ModeAuditRecord :=
  {| ma_event_id := ma_event_id r; ma_mode := upper (strip (ma_mode r)); ma_changed_by := ma_changed_by r; ma_reason := ma_reason r;
     ma_changed_at := ma_changed_at r |}.

Definition loaded_strategy (mode : string) (r : StrategyRuntimeRecord) : StrategyRuntimeRecord :=
  {| sy_strategy_id := sy_strategy_id r; sy_symbol := sy_symbol r; sy_mode := str_or (upper (strip (sy_mode r))) mode;
     sy_state := str_or (upper (strip (sy_state r))) "ENABLED"; sy_updated_at := sy_updated_at r; sy_changed_by := sy_changed_by r;
     sy_reason := sy_reason r |}.

(** Mode, mode history and strategies. *)
Definition _hydrate_mode_and_strategies (db : api_db) (state : ControlPlaneState)
  : result (string * list ModeAuditRecord * list (string * StrategyRuntimeRecord)) :=
  modes ← relation db "mode_audit_events" (ct_modes (ad_control db));
  strategies ← relation db "strategy_runtime_state" (ct_strategies (ad_control db));
  let mode_rows := newest_rows 500 ma_changed_at modes in
  let strategy_rows := sort_by (fun a b => str_leb (sy_strategy_id a) (sy_strategy_id b)) strategies in
  let mode := match mode_rows with
              | [] => cs_mode state
              | r :: _ => let latest := upper (strip (ma_mode r)) in if member latest ["MOCK"; "REAL"]%string then latest else cs_mode state
              end in
  Ok (mode, match mode_rows with [] => cs_mode_history state | _ => loaded_mode <$> mode_rows end,
      match strategy_rows with [] => cs_strategies state | _ => dict_by sy_strategy_id (loaded_strategy mode <$> strategy_rows) end).

(** [JOIN symbols s ON s.id = ...] *)
Definition joined {A} (db : api_db) (symbol_id : A -> string) (rows : list A) : list (A * string) :=
  omap (M := list) (fun r => s ← symbol_of (ad_oms db) (symbol_id r); Some (r, yr_symbol s)) rows.

Definition _list_orders (limit : Z) (db : api_db) : result (list ReconciliationOrder) :=
  orders ← relation db "orders" (db_orders (ad_oms db));
  _ ← relation db "symbols" (db_symbols (ad_oms db));
  Ok ((fun rs : order_row * string =>
         {| ro_order_id := OmsStore.or_id rs.1; ro_symbol := rs.2; ro_mode := str_or (or_mode rs.1) "MOCK";
            ro_requested_quantity := dec_column (or_quantity rs.1); ro_status := str_or (or_status rs.1) "OPEN";
            ro_filled_quantity := dec_column (or_filled_quantity rs.1); ro_average_price := dec_of_repr <$> or_average_price rs.1 |})
      <$> newest_rows limit (fun rs => or_updated_at rs.1) (joined db or_symbol_id orders)).

Definition position_updated_at (r : position_row) : string := default (pr_opened_at r) (pr_closed_at r).

(** [if mode:] *)
Definition mode_filter {A} (mode : option string) (mode_of : A -> string) (rows : list A) : list A :=
  match mode with
  | Some m => if is_empty m then rows else List.filter (fun r => String.eqb (mode_of r) (upper (strip m))) rows
  | None => rows
  end.

Definition _list_positions (limit : Z) (mode : option string) (db : api_db) : result (list PositionState) :=
  positions ← relation db "positions" (db_positions (ad_oms db));
  _ ← relation db "symbols" (db_symbols (ad_oms db));
  Ok ((fun rs : position_row * string =>
         {| ps_mode := str_or (pr_mode rs.1) "MOCK"; ps_symbol := rs.2; ps_quantity := dec_column (pr_quantity rs.1);
            ps_average_entry_price := dec_column (pr_entry_price rs.1); ps_realized_pnl := dec_column (pr_realized_pnl rs.1);
            ps_status := str_or (pr_status rs.1) "OPEN"; ps_updated_at := position_updated_at rs.1 |})
      <$> newest_rows limit (fun rs => position_updated_at rs.1) (mode_filter mode (fun rs => pr_mode rs.1) (joined db pr_symbol_id positions))).

Definition loaded_snapshot (r : OmsStore.snapshot_row) : PortfolioSnapshot.PortfolioSnapshot :=
  {| sn_snapshot_time := sr_snapshot_time r; sn_mode := str_or (sr_mode r) "MOCK"; sn_total_balance_usd := dec_column (sr_total_balance_usd r);
     sn_available_balance_usd := dec_column (sr_available_balance_usd r); sn_locked_balance_usd := dec_column (sr_locked_balance_usd r);
     sn_unrealized_pnl := dec_column (sr_unrealized_pnl r); sn_realized_pnl_total := dec_column (sr_realized_pnl_total r) |}.

Definition _list_portfolio_snapshots (limit : Z) (mode : option string) (db : api_db) : result (list PortfolioSnapshot.PortfolioSnapshot) :=
  rows ← relation db "portfolio_snapshots" (db_snapshots (ad_oms db));
  Ok (loaded_snapshot <$> newest_rows limit sr_snapshot_time (mode_filter mode sr_mode rows)).

(** The columns of a call as [TraceStore.v] reads them; texts are stripped before parsing. *)
Definition loaded_call (r : call_row) : LLMCallRecord :=
  let c := call_of_row r in
  {| cr_llm_call_id := cr_llm_call_id c; cr_request := cr_request c; cr_provider := cr_provider c; cr_model := cr_model c;
     cr_prompt_payload := _safe_json_dict (cl_prompt_payload r); cr_response_payload := _safe_json_dict (cl_response_payload r);
     cr_usage := cr_usage c; cr_latency_ms := cr_latency_ms c; cr_estimated_cost := cr_estimated_cost c; cr_created_at := cr_created_at c |}.

Definition _list_llm_calls (limit : Z) (db : api_db) : result (list LLMCallRecord) :=
  rows ← relation db "llm_calls" (ad_calls db);
  Ok (loaded_call <$> newest_rows limit cl_created_at rows).

(** Keyed by strategy and agent; the last row of a key counts. *)
Fixpoint put_limits (key : string * string) (limits : dict) (l : list (string * string * dict)) : list (string * string * dict) :=
  match l with
  | [] => [(key, limits)]
  | (k, x) :: l' => if bool_decide (k = key) then (k, limits) :: l' else (k, x) :: put_limits key limits l'
  end.

Definition _load_llm_quota_limits (db : api_db) : result (list (string * string * dict)) :=
  rows ← relation db "llm_quota_limits" (ad_limits db);
  Ok (foldl (fun d r =>
        if is_empty (lm_scope r).1 || is_empty (lm_scope r).2 then d
        else put_limits (lm_scope r)
               [("daily_token_limit", VInt (lm_daily_token_limit r)); ("monthly_cost_limit", VFloat (or_zero (lm_monthly_cost_limit r)));
                ("is_hard_limit", VBool (negb (Z.eqb (lm_is_hard_limit r) 0))); ("updated_at", VStr (lm_created_at r))]%string d) [] rows).

(** [str(x) if x is not None else None] keeps an empty text. *)
Definition loaded_trace (r : trace_row) : DecisionTraceRecord :=
  {| tr_decision_id := tc_decision_id r; tr_trace_id := tc_trace_id r; tr_strategy_id := tc_strategy_id r; tr_mode := str_or (tc_mode r) "MOCK";
     tr_status := tc_status r; tr_started_at := tc_started_at r; tr_completed_at := tc_completed_at r |}.

Definition _load_replay_traces (limit : Z) (db : api_db) : result (list (string * DecisionTraceRecord)) :=
  rows ← relation db "decision_traces" (ad_traces db);
  Ok (dict_by tr_decision_id (loaded_trace <$> newest_rows limit tc_started_at rows)).

Definition loaded_run (r : run_row) : AgentRunRecord :=
  {| ar_agent_run_id := rn_id r; ar_decision_id := rn_decision_id r; ar_agent_name := rn_agent_name r; ar_input_ref := rn_input_ref r;
     ar_output_ref := rn_output_ref r; ar_latency_ms := rn_latency_ms r; ar_status := rn_status r; ar_started_at := rn_started_at r;
     ar_completed_at := rn_completed_at r |}.

(** [WHERE column = ANY(:ids) ORDER BY time ASC] *)
Definition among {R} (ids : list string) (column time : R -> string) (rows : list R) : list R :=
  sort_by (fun a b => str_leb (time a) (time b)) (List.filter (fun r => member (column r) ids) rows).

Definition _load_replay_agent_runs (decision_ids : list string) (db : api_db) : result (list (string * list AgentRunRecord)) :=
  match decision_ids with
  | [] => Ok []
  | _ => rows ← relation db "agent_runs" (ad_runs db);
         Ok (group_by ar_decision_id (loaded_run <$> among decision_ids rn_decision_id rn_started_at rows))
  end.

Definition loaded_message (r : message_row) : AgentMessageRecord :=
  {| mg_message_id := mr_id r; mg_agent_run_id := mr_run_id r; mg_role := mr_role r;
     mg_payload_json := VDict (_safe_json_dict (mr_payload_json r)); mg_created_at := mr_created_at r |}.

Definition _load_replay_agent_messages (agent_run_ids : list string) (db : api_db) : result (list (string * list AgentMessageRecord)) :=
  match agent_run_ids with
  | [] => Ok []
  | _ => rows ← relation db "agent_messages" (ad_messages db);
         Ok (group_by mg_agent_run_id (loaded_message <$> among agent_run_ids mr_run_id mr_created_at rows))
  end.

Definition _load_replay_llm_calls (decision_ids : list string) (db : api_db) : result (list (string * list LLMCallRecord)) :=
  match decision_ids with
  | [] => Ok []
  | _ => rows ← relation db "llm_calls" (ad_calls db);
         Ok (group_by (fun c => rq_decision_id (cr_request c)) (loaded_call <$> among decision_ids cl_decision_id cl_created_at rows))
  end.

Definition loaded_summary (r : memory_row) : DecisionMemoryRecord :=
  {| dm_trace_id := mw_trace_id r; dm_decision_id := mw_decision_id r; dm_strategy_id := mw_strategy_id r; dm_mode := str_or (mw_mode r) "MOCK";
     dm_status := mw_status r; dm_summary := _safe_json_dict (mw_summary_json r);
     dm_lifecycle := mappings (VList (_safe_json_list (mw_lifecycle_json r))); dm_persisted_at := mw_persisted_at r |}.

Definition _load_replay_summaries (limit : Z) (db : api_db) : result (list (string * DecisionMemoryRecord)) :=
  rows ← relation db "runtime_decision_memory" (ad_memory db);
  Ok (dict_by dm_decision_id (loaded_summary <$> newest_rows limit mw_persisted_at rows)).

Definition loaded_request (r : request_row) : ReplayRequestRecord :=
  {| rq_request_id := strip (qr_request_id r); rq_for_decision_id := qr_decision_id r; rq_status := qr_status r;
     rq_requested_by := qr_requested_by r; rq_requested_at := qr_requested_at r;
     rq_result := _payload_to_replay_result (_safe_json_dict (qr_result_json r)) |}.

Definition _load_replay_requests (limit : Z) (db : api_db) : result (list (string * ReplayRequestRecord)) :=
  rows ← relation db "replay_requests" (ct_requests (ad_control db));
  Ok (dict_by rq_request_id (List.filter (fun r => negb (is_empty (rq_request_id r))) (loaded_request <$> newest_rows limit qr_requested_at rows))).

(** The newest tag of each item. *)
Definition top_tag_by_news (rows : list tag_row) : list (string * tag_row) :=
  foldl (fun d r => if is_empty (tw_news_id r) then d
                    else match assoc_get (tw_news_id r) d with Some _ => d | None => assoc_set (tw_news_id r) r d end) [] rows.

Definition panel_item (tags : list (string * tag_row)) (r : item_row) : NewsPanelItem :=
  let tag := assoc_get (iw_news_id r) tags in
  {| ni_news_id := iw_news_id r; ni_source := iw_source r; ni_title := iw_title r; ni_url := iw_url r; ni_published_at := iw_published_at r;
     ni_symbol := (t ← tag; s ← tw_symbol t; if is_empty (strip s) then None else Some s);
     ni_topic := match tag with Some t => match tw_topic t with Some s => str_or s "general" | None => "general" end | None => "general" end;
     ni_relevance_score := match tag with Some t => or_zero (tw_relevance_score t) | None => fzero end;
     ni_sentiment_score := match tag with Some t => or_zero (tw_sentiment_score t) | None => fzero end |}.

Definition _list_news_items (limit : Z) (db : api_db) : result (list NewsPanelItem) :=
  items ← relation db "news_items" (nw_items (ad_news db));
  tags ← relation db "news_tags" (nw_tags (ad_news db));
  let top := top_tag_by_news (newest_rows (Z.max 1 (limit * 4)) tw_created_at tags) in
  Ok (panel_item top <$> newest_rows limit iw_published_at items).

(** [AVG]: the sum over the count, added in the order of the table; NULL without rows. *)
Definition sql_avg (l : list f64) : option f64 :=
  match l with [] => None | _ => Some (fdiv (foldl fadd fzero l) (f_of_Z (Z.of_nat (List.length l)))) end.

Definition _summary_avg_sentiment (summary_id : string) (db : api_db) : result f64 :=
  tags ← relation db "news_tags" (nw_tags (ad_news db));
  sources ← relation db "news_summary_sources" (nw_sources (ad_news db));
  let ids := cw_news_id <$> List.filter (fun r => String.eqb (cw_summary_id r) summary_id) sources in
  Ok match sql_avg (tw_sentiment_score <$> List.filter (fun t => member (tw_news_id t) ids) tags) with Some a => or_zero a | None => fzero end.

Definition panel_summary (db : api_db) (sources : list source_row) (r : summary_row) : result NewsPanelSummary :=
  avg_sentiment ← _summary_avg_sentiment (sw_summary_id r) db;
  Ok {| nu_summary_id := sw_summary_id r; nu_symbol_scope := str_or (sw_symbol_scope r) "GLOBAL"; nu_window_start := sw_window_start r;
        nu_window_end := sw_window_end r; nu_summary_text := sw_summary_text r; nu_generated_at := sw_generated_at r;
        nu_source_news_ids := cw_news_id <$> List.filter (fun s => String.eqb (cw_summary_id s) (sw_summary_id r) &&
          negb (is_empty (cw_summary_id s)) && negb (is_empty (cw_news_id s))) sources;
        nu_avg_sentiment := avg_sentiment |}.

Definition _list_news_summaries (limit : Z) (db : api_db) : result (list NewsPanelSummary) :=
  rows ← relation db "news_summaries" (nw_summaries (ad_news db));
  sources ← relation db "news_summary_sources" (nw_sources (ad_news db));
  map_res (panel_summary db sources) (newest_rows limit sw_generated_at rows).

(** ** Notifications *)

Definition listed_texts (json : string) : list string :=
  List.filter (fun s => negb (is_empty (strip s))) (py_str <$> _safe_json_list json).

Definition loaded_preference (r : preference_row) : NotificationPreferenceRecord :=
  {| np_user_id := strip (pf_user_id r); np_min_severity := pf_min_severity r; np_gateways := listed_texts (pf_gateways_json r);
     np_strategy_ids := listed_texts (pf_strategy_ids_json r); np_event_types := listed_texts (pf_event_types_json r);
     np_updated_at := pf_updated_at r; np_updated_by := pf_updated_by r |}.

Definition _list_notification_preferences (db : api_db) : result (list (string * NotificationPreferenceRecord)) :=
  rows ← relation db "notification_preferences" (ct_preferences (ad_control db));
  Ok (dict_by np_user_id (List.filter (fun r => negb (is_empty (np_user_id r)))
        (loaded_preference <$> sort_by (fun a b => str_leb (pf_user_id a) (pf_user_id b)) rows))).

Definition _list_notification_deliveries (limit : Z) (db : api_db) : result (list NotificationDeliveryRecord) :=
  rows ← relation db "notification_deliveries" (ct_deliveries (ad_control db));
  Ok (newest_rows limit nd_logged_at rows).

Definition loaded_span (r : NotificationTraceRecord) : NotificationTraceRecord :=
  {| nt_notification_event_id := nt_notification_event_id r; nt_trace_id := nt_trace_id r; nt_decision_id := nt_decision_id r; nt_stage := nt_stage r;
     nt_status := nt_status r; nt_latency_ms := or_zero (nt_latency_ms r); nt_gateway := nt_gateway r; nt_attempt := nt_attempt r;
     nt_started_at := nt_started_at r; nt_completed_at := nt_completed_at r |}.

Definition _list_notification_trace_spans (limit : Z) (db : api_db) : result (list NotificationTraceRecord) :=
  rows ← relation db "notification_trace_spans" (ct_spans (ad_control db));
  Ok (loaded_span <$> newest_rows limit nt_completed_at rows).

(** [d[key] = d.get(key, 0) + 1] *)
Definition bump (key : string) (d : dict) : dict :=
  dict_set key (VInt (match dict_get key d with Some (VInt n) => n + 1 | _ => 1 end)) d.

Definition delivery_status (r : NotificationDeliveryRecord) : string := upper (strip (nd_delivery_status r)).
Definition delivered_one (r : NotificationDeliveryRecord) : bool := String.eqb (delivery_status r) "DELIVERED".
Definition retryable_one (r : NotificationDeliveryRecord) : bool :=
  negb (delivered_one r) && member (delivery_status r) ["RETRYABLE"; "RETRYABLE_ERROR"; "FAILED_RETRYABLE"]%string.
Definition failed_one (r : NotificationDeliveryRecord) : bool := negb (delivered_one r) && negb (retryable_one r).
Definition counted {A} (p : A -> bool) (l : list A) : val := VInt (Z.of_nat (List.length (List.filter p l))).

Definition _build_notification_metrics (now : Z) (logs : list NotificationDeliveryRecord) : metrics_sections :=
  {| nm_totals := Some [("received_total", counted (fun _ => true) logs); ("filtered_total", VInt 0); ("dispatched_total", counted (fun _ => true) logs);
                        ("delivered_total", counted delivered_one logs); ("failed_total", counted failed_one logs);
                        ("retryable_total", counted retryable_one logs); ("dlq_total", VInt 0)]%string;
     nm_suppression := Some [("dedupe", VInt 0); ("rate_limit", VInt 0)]%string;
     nm_gateway_status := Some (foldl (fun d r => bump (nd_gateway r +:+ ":" +:+ delivery_status r) d) [] logs);
     nm_retry_attempt_histogram := Some (foldl (fun d r => bump (str_of_Z (Z.max 1 (nd_attempt r))) d) [] logs);
     nm_generated_at := Some (iso_z now) |}.

(** ** The state *)

Definition load_state (clock metrics_now : Z) (uuid4 : nat -> string) (default_mode : string) (db : api_db) : result ControlPlaneState :=
  state ← build_default_state clock uuid4 default_mode;
  '(mode, history, strategies) ← _load_optional (_hydrate_mode_and_strategies db state) (cs_mode state, cs_mode_history state, cs_strategies state);
  orders ← _load_optional (_list_orders 1000 db) [];
  positions ← _load_optional (_list_positions 1000 None db) [];
  snapshots ← _load_optional (_list_portfolio_snapshots 1000 None db) [];
  calls ← _load_optional (_list_llm_calls 5000 db) [];
  limits ← _load_optional (_load_llm_quota_limits db) [];
  traces ← _load_optional (_load_replay_traces 500 db) [];
  runs ← _load_optional (_load_replay_agent_runs traces.*1 db) [];
  messages ← _load_optional (_load_replay_agent_messages runs.*1 db) [];
  llm_calls ← _load_optional (_load_replay_llm_calls traces.*1 db) [];
  summaries ← _load_optional (_load_replay_summaries 500 db) [];
  requests ← _load_optional (_load_replay_requests 500 db) [];
  items ← _load_optional (_list_news_items 500 db) [];
  news ← _load_optional (_list_news_summaries 200 db) [];
  preferences ← _load_optional (_list_notification_preferences db) [];
  deliveries ← _load_optional (_list_notification_deliveries 500 db) [];
  spans ← _load_optional (_list_notification_trace_spans 500 db) [];
  Ok {| cs_mode := mode; cs_strategies := strategies; cs_mode_history := history; cs_orders := orders; cs_positions := positions;
        cs_portfolio_snapshots := snapshots; cs_risk_controls := cs_risk_controls state; cs_risk_events := cs_risk_events state;
        cs_llm_call_records := calls; cs_llm_quota_limits := limits; cs_replay_traces := traces; cs_replay_agent_runs := runs;
        cs_replay_agent_messages := messages; cs_replay_llm_calls := llm_calls; cs_replay_summaries := summaries;
        cs_replay_requests := requests; cs_news_items := items; cs_news_summaries := news;
        cs_notification_preferences := match preferences with [] => cs_notification_preferences state | _ => preferences end;
        cs_notification_metrics := _build_notification_metrics metrics_now deliveries; cs_notification_delivery_logs := deliveries;
        cs_notification_trace_spans := spans |}.

(** ** Market data, history, signals and trades *)

Definition row_filter {A} (value : option string) (column : A -> string) (rows : list A) : list A :=
  match value with Some v => List.filter (fun r => String.eqb (column r) v) rows | None => rows end.

Definition kline_payload (r : kline_row) : dict :=
  [("time", VStr (kr_time r)); ("exchange", VStr (kr_exchange r)); ("symbol", VStr (kr_symbol r)); ("interval", VStr (kr_interval r));
   ("open", VFloat (or_zero (kr_open r))); ("high", VFloat (or_zero (kr_high r))); ("low", VFloat (or_zero (kr_low r)));
   ("close", VFloat (or_zero (kr_close r))); ("volume", VFloat (or_zero (kr_volume r))); ("quote_volume", VFloat (or_zero (kr_quote_volume r)));
   ("trades", VInt (kr_trades r))]%string.

(** The newest bars, oldest first. *)
Definition list_market_klines (symbol interval : string) (exchange : option string) (limit : Z) (db : api_db) : result (list dict) :=
  rows ← relation db "klines" (ts_klines (ad_series db));
  Ok (kline_payload <$> reverse (newest_rows limit kr_time
        (row_filter exchange kr_exchange (List.filter (fun r => String.eqb (kr_symbol r) symbol && String.eqb (kr_interval r) interval) rows)))).

Definition latest_orderbook_snapshot (symbol : string) (exchange : option string) (db : api_db) : result (option dict) :=
  rows ← relation db "orderbook_snapshots" (ts_books (ad_series db));
  Ok ((fun r => [("snapshot_time", VStr (bk_snapshot_time r)); ("exchange", VStr (bk_exchange r)); ("symbol", VStr (bk_symbol r));
                 ("best_bid", VFloat (or_zero (bk_best_bid r))); ("best_ask", VFloat (or_zero (bk_best_ask r)));
                 ("spread_bps", VFloat (or_zero (bk_spread_bps r))); ("bids", VList (_safe_json_list (bk_bids r)));
                 ("asks", VList (_safe_json_list (bk_asks r)))]%string)
      <$> head (newest_rows 1 bk_snapshot_time (row_filter exchange bk_exchange (List.filter (fun r => String.eqb (bk_symbol r) symbol) rows)))).

Definition list_portfolio_history (mode : option string) (limit : Z) (db : api_db) : result (list PortfolioSnapshot.PortfolioSnapshot) :=
  rows ← relation db "portfolio_snapshots" (db_snapshots (ad_oms db));
  Ok (loaded_snapshot <$> reverse (newest_rows limit sr_snapshot_time (row_filter mode sr_mode rows))).

(** [float(d.get(key, 0.0) or 0.0)] *)
Definition float_field (key : string) (d : dict) : result f64 :=
  let v := dget_or key (VFloat fzero) d in if truthy v then float_of_val v else Ok fzero.

(** What was decided, as a summary tells it. *)
Definition signal_fields (summary : dict) : result (string * f64 * f64) :=
  match dget "execution_decision" summary with
  | VDict d => quantity ← float_field "quantity" d; confidence ← float_field "confidence" d;
               Ok (py_str (dget_or "action" (VStr "HOLD") d), quantity, confidence)
  | _ => Ok ("HOLD"%string, fzero, fzero)
  end.

Definition signal_payload (r : memory_row) : result dict :=
  '(action, quantity, confidence) ← signal_fields (_safe_json_dict (mw_summary_json r));
  Ok [("decision_id", VStr (mw_decision_id r)); ("trace_id", VStr (mw_trace_id r)); ("strategy_id", VStr (mw_strategy_id r));
      ("mode", VStr (mw_mode r)); ("status", VStr (mw_status r)); ("action", VStr action); ("quantity", VFloat quantity);
      ("confidence", VFloat confidence); ("created_at", VStr (mw_persisted_at r))]%string.

Definition list_latest_signals (limit : Z) (db : api_db) : result (list dict) :=
  rows ← relation db "runtime_decision_memory" (ad_memory db);
  map_res signal_payload (newest_rows limit mw_persisted_at rows).

(** A fill with its order, the symbol of it and the exchange, when they are there. *)
Definition trade_row (db : api_db) (f : fill_row) : option (fill_row * string * string) :=
  o ← List.find (fun o => String.eqb (OmsStore.or_id o) (fr_order f)) (db_orders (ad_oms db));
  s ← symbol_of (ad_oms db) (or_symbol_id o);
  Some (f, yr_symbol s,
        match List.find (fun e => String.eqb (xr_id e) (or_exchange_id o)) (db_exchanges (ad_oms db)) with
        | Some e => str_or (xr_name e) "unknown" | None => "unknown"%string end).

Definition trade_payload (t : fill_row * string * string) : dict :=
  let '(f, symbol, exchange) := t in
  [("fill_id", VStr (fr_id f)); ("order_id", VStr (fr_order f)); ("exchange_fill_id", VStr (fr_exchange_fill_id f)); ("exchange", VStr exchange);
   ("symbol", VStr symbol); ("mode", VStr (fr_mode f)); ("side", VStr (fr_side f)); ("quantity", VFloat (or_zero (fr_quantity f)));
   ("price", VFloat (or_zero (fr_price f))); ("fee", VFloat (or_zero (fr_fee f)));
   ("fee_currency", VStr (match fr_fee_currency f with Some c => c | None => "None" end)); ("filled_at", VStr (fr_filled_at f))]%string.

Definition list_latest_trades (mode symbol : option string) (limit : Z) (db : api_db) : result (list dict) :=
  fills ← relation db "fills" (db_fills (ad_oms db));
  _ ← relation db "orders" (db_orders (ad_oms db));
  _ ← relation db "symbols" (db_symbols (ad_oms db));
  _ ← relation db "exchanges" (db_exchanges (ad_oms db));
  Ok (trade_payload <$> newest_rows limit (fun t => fr_filled_at t.1.1)
        (row_filter symbol (fun t => t.1.2) (omap (M := list) (trade_row db) (row_filter mode fr_mode fills)))).

(** ** Health *)

Definition _parse_datetime_utc (value : string) : result (option Z) :=
  let text_value := strip value in
  if is_empty text_value then Ok None
  else match fromisoformat (replace "Z" "+00:00" text_value) with
       | None => Ok None
       | Some t => match dt_off t with
                   | None => Ok (Some (dt_us t))
                   | Some off => us ← astimezone_utc (dt_us t) off; Ok (Some us)
                   end
       end.

Definition _datetime_to_iso (value : option string) : result (option string) :=
  match value with
  | None => Ok None
  | Some text => '(o : option Z) ← _parse_datetime_utc text; Ok (match o with Some us => Some (iso_z us) | None => None end)
  end.

Definition _normalize_optional_mode (mode : option string) : option string :=
  m ← mode; let normalized := upper (strip m) in if is_empty normalized then None else Some normalized.

(** [MAX] of a text column *)
Definition sql_max (l : list string) : option string :=
  foldl (fun best x => match best with None => Some x | Some b => if str_leb x b then Some b else Some x end) None l.

Record stage_status := {
  st_stage : string; st_healthy : bool; st_status : string; st_records_total : Z; st_latest_at : option string;
  st_age_seconds : option f64; st_stale_after_seconds : f64; st_detail : option string }.

(** [times] are the times of the records, or the error of the query. *)
Definition _pipeline_stage_snapshot (now : Z) (stage : string) (times : result (list string)) (stale_after : f64) : result stage_status :=
  let report healthy status total latest age detail :=
    Ok {| st_stage := stage; st_healthy := healthy; st_status := status; st_records_total := total; st_latest_at := latest;
          st_age_seconds := age; st_stale_after_seconds := stale_after; st_detail := detail |} in
  match times with
  | Raise e => if _is_missing_relation_error e then report false "missing_table"%string 0 None None (Some (exc_msg e)) else Raise e
  | Ok l =>
      let total := Z.of_nat (List.length l) in
      latest_at ← _datetime_to_iso (sql_max l);
      if total <=? 0 then report false "empty"%string 0 None None (Some "no records persisted"%string)
      else match latest_at with
           | None => report false "invalid_timestamp"%string total None None (Some "latest timestamp could not be parsed"%string)
           | Some latest =>
               parsed ← _parse_datetime_utc latest;
               match parsed with
               | None => report false "invalid_timestamp"%string total (Some latest) None (Some "latest timestamp is not UTC ISO"%string)
               | Some us =>
                   let age := fmax fzero (flit (now - us) (-6)) in
                   let is_stale := fltb stale_after age in
                   report (negb is_stale) (if is_stale then "stale" else "healthy")%string total (Some latest) (Some age) None
               end
           end
  end.

Definition column {R} (db : api_db) (table : string) (mode : option string) (mode_of time : R -> string) (rows : list R) : result (list string) :=
  rows ← relation db table rows; Ok (time <$> row_filter mode mode_of rows).

(** The clock is read for each stage, and once for the report. *)
Definition pipeline_stages (now : nat -> Z) (mode : option string) (db : api_db) : result (list stage_status) :=
  let any {R} (_ : R) := ""%string in
  klines ← _pipeline_stage_snapshot (now 0%nat) "market.klines" (column db "klines" None any kr_time (ts_klines (ad_series db))) (flit 180 0);
  books ← _pipeline_stage_snapshot (now 1%nat) "market.orderbook" (column db "orderbook_snapshots" None any bk_snapshot_time (ts_books (ad_series db))) (flit 120 0);
  news ← _pipeline_stage_snapshot (now 2%nat) "news.items" (column db "news_items" None any iw_published_at (nw_items (ad_news db))) (flit 1800 0);
  decisions ← _pipeline_stage_snapshot (now 3%nat) "agent.decisions" (column db "runtime_decision_memory" mode mw_mode mw_persisted_at (ad_memory db)) (flit 600 0);
  calls ← _pipeline_stage_snapshot (now 4%nat) "llm.calls" (column db "llm_calls" None any cl_created_at (ad_calls db)) (flit 900 0);
  fills ← _pipeline_stage_snapshot (now 5%nat) "trading.fills" (column db "fills" mode fr_mode fr_filled_at (db_fills (ad_oms db))) (flit 900 0);
  snapshots ← _pipeline_stage_snapshot (now 6%nat) "portfolio.snapshots" (column db "portfolio_snapshots" mode sr_mode sr_snapshot_time (db_snapshots (ad_oms db))) (flit 900 0);
  Ok [klines; books; news; decisions; calls; fills; snapshots].

Record health_report := { hr_generated_at : string; hr_overall_healthy : bool; hr_mode_filter : option string; hr_stages : list stage_status }.

Definition pipeline_health_snapshot (now : nat -> Z) (mode : option string) (db : api_db) : result health_report :=
  let normalized_mode := _normalize_optional_mode mode in
  stages ← pipeline_stages now normalized_mode db;
  Ok {| hr_generated_at := iso_z (now 7%nat); hr_overall_healthy := forallb st_healthy stages; hr_mode_filter := normalized_mode; hr_stages := stages |}.

Record llm_status := { ls_total_calls : Z; ls_succeeded_calls : Z; ls_failed_calls : Z; ls_latest_call_at : option string }.

(** [response_payload->>'status' = status] *)
Definition call_has_status (status : string) (r : call_row) : bool :=
  match json_loads (cl_response_payload r) with
  | Ok (VDict d) => match dict_get "status" d with Some (VStr s) => String.eqb s status | _ => false end
  | _ => false
  end.

Definition llm_runtime_status_snapshot (db : api_db) : result llm_status :=
  rows ← relation db "llm_calls" (ad_calls db);
  latest ← _datetime_to_iso (sql_max (cl_created_at <$> rows));
  let total p := Z.of_nat (List.length (List.filter p rows)) in
  Ok {| ls_total_calls := total (fun _ => true); ls_succeeded_calls := total (call_has_status "succeeded");
        ls_failed_calls := total (call_has_status "failed"); ls_latest_call_at := latest |}.

(** ** What a loaded state shows *)

Lemma dict_by_keys {A} (key : A -> string) l k : k ∈ (dict_by key l).*1 <-> k ∈ key <$> l.
Proof.
  unfold dict_by. enough (forall d, k ∈ (foldl (fun d x => assoc_set (key x) x d) d l).*1 <-> k ∈ d.*1 \/ k ∈ key <$> l) as H.
  { rewrite H. cbn. rewrite elem_of_nil. tauto. }
  induction l as [|x l IH]; intros d; cbn [foldl]; [cbn; rewrite elem_of_nil; tauto|].
  rewrite IH, assoc_set_keys, fmap_cons, elem_of_cons. tauto.
Qed.

Lemma group_by_keys {A} (key : A -> string) l k : k ∈ (group_by key l).*1 <-> k ∈ key <$> l.
Proof.
  unfold group_by. match goal with |- context [foldl ?f] => enough (forall d, k ∈ (foldl f d l).*1 <-> k ∈ d.*1 \/ k ∈ key <$> l) as H end.
  { rewrite H. cbn. rewrite elem_of_nil. tauto. }
  induction l as [|x l IH]; intros d; cbn [foldl]; [cbn; rewrite elem_of_nil; tauto|].
  rewrite IH, assoc_set_keys, fmap_cons, elem_of_cons. tauto.
Qed.

Lemma member_In s l : member s l = true <-> s ∈ l.
Proof. unfold member. rewrite existsb_exists. setoid_rewrite String.eqb_eq. rewrite list_elem_of_In. naive_solver. Qed.

Lemma newest_rows_elem {R} limit (key : R -> string) rows x : x ∈ newest_rows limit key rows -> x ∈ rows.
Proof. unfold newest_rows. intros H%elem_of_take. destruct H as (i & H & _). apply list_elem_of_lookup_2 in H. by rewrite sort_by_perm in H. Qed.

Lemma among_elem {R} ids (column time : R -> string) rows x : x ∈ among ids column time rows <-> x ∈ rows /\ column x ∈ ids.
Proof. unfold among. rewrite sort_by_perm, list_elem_of_In, filter_In, <- list_elem_of_In, member_In. done. Qed.

(** A loader that may miss its table. *)
Lemma load_optional_Ok {A} (loader : result A) dflt a : _load_optional loader dflt = Ok a -> loader = Ok a \/ a = dflt.
Proof. unfold _load_optional. destruct loader as [x|e]; [by left|]. destruct (_is_missing_relation_error e); [|done]. right. by simplify_eq. Qed.

(** The runs are grouped by decision. *)
Lemma run_keys_are_decisions ids db runs k :
  _load_optional (_load_replay_agent_runs ids db) [] = Ok runs -> k ∈ runs.*1 -> k ∈ ids.
Proof.
  intros [H| ->]%load_optional_Ok Hk; [|by apply elem_of_nil in Hk]. unfold _load_replay_agent_runs in H.
  destruct ids as [|i ids]; [injection H as <-; by apply elem_of_nil in Hk|]. revert Hk H. generalize (i :: ids). intros l Hk H.
  apply bind_Ok in H as (rows & _ & [= <-]). apply (proj1 (group_by_keys _ _ _)) in Hk.
  apply list_elem_of_fmap in Hk as (x & -> & Hx). apply list_elem_of_fmap in Hx as (r & -> & Hr). apply among_elem in Hr as [_ Hr]. exact Hr.
Qed.

Lemma trace_keys_are_rows limit db traces k :
  _load_optional (_load_replay_traces limit db) [] = Ok traces -> k ∈ traces.*1 -> exists t, t ∈ ad_traces db /\ tc_decision_id t = k.
Proof.
  intros [H| ->]%load_optional_Ok Hk; [|by apply elem_of_nil in Hk]. unfold _load_replay_traces in H.
  apply bind_Ok in H as (rows & Hr & [= <-]). unfold relation in Hr. destruct (member _ _); [|done]. injection Hr as <-.
  apply (proj1 (dict_by_keys _ _ _)) in Hk. apply list_elem_of_fmap in Hk as (x & -> & Hx). apply list_elem_of_fmap in Hx as (t & -> & Ht).
  exists t. split; [by apply newest_rows_elem in Ht|done].
Qed.

(** The messages are asked for with the ids of decisions. *)
Lemma messages_of_decisions ids db messages :
  (forall m, m ∈ ad_messages db -> mr_run_id m ∉ ids) -> _load_optional (_load_replay_agent_messages ids db) [] = Ok messages -> messages = [].
Proof.
  intros Hno [H| ->]%load_optional_Ok; [|done]. unfold _load_replay_agent_messages in H. destruct ids as [|i ids]; [by injection H|].
  revert Hno H. generalize (i :: ids). intros l Hno H. apply bind_Ok in H as (rows & Hr & [= <-]).
  unfold relation in Hr. destruct (member _ _); [|done]. injection Hr as <-.
  assert (among l mr_run_id mr_created_at (ad_messages db) = []) as ->; [|done].
  destruct (among _ _ _ _) as [|m rest] eqn:E; [done|]. exfalso.
  assert (m ∈ among l mr_run_id mr_created_at (ad_messages db)) as Hm by (rewrite E; by left). apply among_elem in Hm as [Hm Hi]. by apply (Hno m).
Qed.

Ltac load_inv H := repeat (let a := fresh "a" in let E := fresh "E" in apply bind_Ok in H as (a & E & H)).

(** The parts of a loaded state. *)
Lemma load_state_inv clock now uuid4 mode db s :
  load_state clock now uuid4 mode db = Ok s ->
  exists s0 hydrated preferences, build_default_state clock uuid4 mode = Ok s0 /\
    _load_optional (_hydrate_mode_and_strategies db s0) (cs_mode s0, cs_mode_history s0, cs_strategies s0) = Ok hydrated /\
    cs_mode s = hydrated.1.1 /\ cs_mode_history s = hydrated.1.2 /\ cs_strategies s = hydrated.2 /\
    cs_risk_controls s = cs_risk_controls s0 /\ cs_risk_events s = cs_risk_events s0 /\
    _load_optional (_load_replay_traces 500 db) [] = Ok (cs_replay_traces s) /\
    _load_optional (_load_replay_agent_runs (cs_replay_traces s).*1 db) [] = Ok (cs_replay_agent_runs s) /\
    _load_optional (_load_replay_agent_messages (cs_replay_agent_runs s).*1 db) [] = Ok (cs_replay_agent_messages s) /\
    _load_optional (_load_replay_requests 500 db) [] = Ok (cs_replay_requests s) /\
    _load_optional (_list_notification_preferences db) [] = Ok preferences /\
    cs_notification_preferences s = match preferences with [] => cs_notification_preferences s0 | _ => preferences end.
Proof.
  intros H. unfold load_state in H. apply bind_Ok in H as (s0 & E0 & H). apply bind_Ok in H as ([[m h] st] & E1 & H).
  load_inv H. injection H as <-. eexists s0, (m, h, st), _. cbn. by split_and!.
Qed.

(** C37. A replay through the API never shows what an agent was given or decided: the state the
    repository loads has no message of any run, since the messages are asked for with the
    ids of the decisions in place of the ids of the runs, and no run has the id of a
    decision. *)
Theorem loaded_messages_missing clock now uuid4 mode db s :
  load_state clock now uuid4 mode db = Ok s ->
  (forall m t, m ∈ ad_messages db -> t ∈ ad_traces db -> mr_run_id m <> tc_decision_id t) ->
  cs_replay_agent_messages s = [].
Proof.
  intros (s0 & hy & pf & _ & _ & _ & _ & _ & _ & _ & Ht & Hr & Hm & _)%load_state_inv Hno.
  apply messages_of_decisions in Hm; [done|]. intros m Hin Hk. apply (run_keys_are_decisions _ _ _ _ Hr) in Hk.
  apply (trace_keys_are_rows _ _ _ _ Ht) in Hk as (t & Ht' & E). by apply (Hno m t).
Qed.

(** ** Commands survive a reload *)

Lemma execute_Ok table f db db' :
  execute table f db = (db', Ok tt) -> exists t, f (ad_control db) = Ok t /\ db' = set_control t db /\ member table (ad_tables db) = true.
Proof. unfold execute. destruct (member _ _); [|done]. destruct (f _) as [t|]; [|done]. intros [= <-]. by exists t. Qed.

(** A dict of rows with distinct keys. *)
Lemma dict_by_get {A} (key : A -> string) l x : NoDup (key <$> l) -> x ∈ l -> assoc_get (key x) (dict_by key l) = Some x.
Proof.
  unfold dict_by. enough (forall d, NoDup (key <$> l) ->
    (x ∈ l -> assoc_get (key x) (foldl (fun d x => assoc_set (key x) x d) d l) = Some x) /\
    (key x ∉ key <$> l -> assoc_get (key x) (foldl (fun d x => assoc_set (key x) x d) d l) = assoc_get (key x) d)) as H.
  { intros Hn. by apply H. }
  induction l as [|y l IH]; intros d Hn; [split; [by intros H%elem_of_nil|done]|].
  apply NoDup_cons in Hn as [Hy Hn]. cbn [foldl]. destruct (IH (assoc_set (key y) y d) Hn) as [IH1 IH2]. split.
  - intros [->|Hx]%elem_of_cons; [|by apply IH1]. rewrite IH2 by done. apply assoc_get_set_eq.
  - rewrite fmap_cons, not_elem_of_cons. intros [Hne Hni]. rewrite IH2 by done. by apply assoc_get_set_ne.
Qed.

(** The newest row comes first. *)
Lemma newest_first_row {R} (key : R -> string) rows x :
  Forall (fun r => str_leb (key x) (key r) = false) rows ->
  sort_by (fun a b => str_leb (key b) (key a)) (rows ++ [x]) = x :: sort_by (fun a b => str_leb (key b) (key a)) rows.
Proof. induction 1 as [|r rows Hr _ IH]; [done|]. cbn [app sort_by]. rewrite IH. cbn [insert_sorted]. by rewrite Hr. Qed.

(** The strategies a command writes. *)
Lemma strategies_written l db db' :
  for_each upsert_strategy_state l db = (db', Ok tt) -> NoDup (sy_strategy_id <$> l) ->
  NoDup (sy_strategy_id <$> ct_strategies (ad_control db)) ->
  NoDup (sy_strategy_id <$> ct_strategies (ad_control db')) /\ ad_tables db' = ad_tables db /\ ct_modes (ad_control db') = ct_modes (ad_control db) /\
  (forall r, r ∈ l -> r ∈ ct_strategies (ad_control db')) /\ (l <> [] -> member "strategy_runtime_state" (ad_tables db) = true) /\
  (forall r, r ∈ ct_strategies (ad_control db) -> sy_strategy_id r ∉ sy_strategy_id <$> l -> r ∈ ct_strategies (ad_control db')).
Proof.
  revert db. induction l as [|x l IH]; intros db H Hl Hn.
  { injection H as <-. split_and!; try done. by intros r Hr%elem_of_nil. }
  apply NoDup_cons in Hl as [Hx Hl]. apply prog_bind_Ok in H as (db1 & [] & H1 & H).
  apply execute_Ok in H1 as (t & E & -> & Ht). injection E as <-.
  set (up := upsert_row _ _ x _) in H.
  assert (forall r, sy_strategy_id r = sy_strategy_id x -> sy_strategy_id ((fun _ => x) r) = sy_strategy_id r) as Hm by (intros r Hr; by rewrite Hr).
  assert (NoDup (sy_strategy_id <$> up)) as Hup by (by apply (upsert_NoDup sy_strategy_id _ _ _ (fun r => eq_refl) Hm)).
  destruct (IH _ H Hl Hup) as (N & T & M & A & _ & K). cbn [set_control ad_control ad_tables put_strategies ct_strategies ct_modes] in *.
  assert (x ∈ up) as Hin.
  { pose proof (row_at_upsert_eq sy_strategy_id _ (fun _ => x) x (fun r => eq_refl) Hm (ct_strategies (ad_control db))) as E.
    fold up in E. assert (row_at sy_strategy_id (sy_strategy_id x) up = Some x) as E' by (rewrite E; by destruct (row_at sy_strategy_id (sy_strategy_id x) (ct_strategies (ad_control db)))).
    by apply row_at_Some in E' as [? _]. }
  split_and!; try done.
  - intros r [->|Hr]%elem_of_cons; [by apply K|by apply A].
  - intros r Hr. rewrite fmap_cons, not_elem_of_cons. intros [Hne Hni]. apply K; [|done].
    pose proof (row_at_elem sy_strategy_id _ _ Hn Hr) as E. rewrite <- (row_at_upsert_ne sy_strategy_id _ (fun _ => x) x (fun r => eq_refl) Hm) in E by done.
    by apply row_at_Some in E as [? _].
Qed.

(** A strategy in one of the two modes and one of the three states. *)
Definition proper_strategy (r : StrategyRuntimeRecord) : Prop :=
  sy_mode r ∈ ["MOCK"; "REAL"]%string /\ sy_state r ∈ _VALID_STATES.

Lemma proper_strategy_loaded mode r : proper_strategy r -> loaded_strategy mode r = r.
Proof.
  destruct r as [i y m st u b re]. unfold proper_strategy, loaded_strategy, _VALID_STATES. cbn. rewrite !elem_of_cons, !elem_of_nil.
  intros [[->|[->|[]]] [->|[->|[->|[]]]]]; done.
Qed.

(** C17. A mode change survives the reload of the next request: when the new mode and the
    strategies were persisted, at a time later than every recorded change, the state loaded
    afterwards is in the new mode; its history starts with the change, with the mode, the
    user, the reason and the time it was made with; every strategy that was written is loaded
    field by field as it was written, and every other stored strategy as it was stored (for
    strategies in one of the two modes and one of the three states, with unique ids). *)
Theorem mode_change_survives event_id mode changed_by reason changed_at strategies db db' clock now uuid4 dflt s :
  persist_mode_change event_id mode changed_by reason changed_at strategies db = (db', Ok tt) ->
  Forall (fun r => str_leb changed_at (ma_changed_at r) = false) (ct_modes (ad_control db)) ->
  NoDup (sy_strategy_id <$> strategies) -> strategies <> [] -> NoDup (sy_strategy_id <$> ct_strategies (ad_control db)) ->
  load_state clock now uuid4 dflt db' = Ok s ->
  cs_mode s = upper (strip mode) /\ (cs_mode s = "MOCK" \/ cs_mode s = "REAL")%string /\
  head (cs_mode_history s) = Some {| ma_event_id := event_id; ma_mode := upper (strip mode); ma_changed_by := changed_by;
                                     ma_reason := reason; ma_changed_at := changed_at |} /\
  (forall r, r ∈ strategies -> proper_strategy r -> assoc_get (sy_strategy_id r) (cs_strategies s) = Some r) /\
  (forall r, r ∈ ct_strategies (ad_control db) -> sy_strategy_id r ∉ sy_strategy_id <$> strategies -> proper_strategy r ->
     assoc_get (sy_strategy_id r) (cs_strategies s) = Some r).
Proof.
  intros H Hat Hns Hne Hnt Hs. unfold persist_mode_change in H. rewrite lift_bind in H.
  destruct (member (upper (strip mode)) ["MOCK"; "REAL"]%string) eqn:Em; [|done]. cbn [negb raise_if] in H.
  apply prog_bind_Ok in H as (db1 & [] & H1 & H). apply execute_Ok in H1 as (t & E & -> & Htab).
  apply bind_Ok in E as (rows & Er & [= <-]). apply insert_row_Ok in Er as [_ ->].
  apply strategies_written in H as (N & T & M & A & Htab2 & K); [|done|exact Hnt].
  cbn [set_control ad_control ad_tables put_modes ct_modes ct_strategies] in T, M, Htab2.
  apply load_state_inv in Hs as (s0 & hy & pf & _ & Hh & E1 & E2 & E3 & _).
  assert (_hydrate_mode_and_strategies db' s0 = Ok hy) as Hy.
  { unfold _load_optional in Hh. destruct (_hydrate_mode_and_strategies db' s0) as [x|e] eqn:Eh; [exact Hh|]. exfalso.
    unfold _hydrate_mode_and_strategies, relation in Eh. by rewrite T, Htab, Htab2 in Eh. }
  unfold _hydrate_mode_and_strategies, relation in Hy. rewrite T, Htab, (Htab2 Hne), M in Hy. cbn [mbind result_bind] in Hy.
  unfold newest_rows in Hy. rewrite newest_first_row in Hy by exact Hat. change (Z.to_nat (Z.max 1 500)) with (S 499) in Hy. cbn [take] in Hy.
  cbn [ma_mode] in Hy. rewrite strip_upper, strip_idemp, upper_idemp, Em in Hy. injection Hy as <-. cbn [fst snd] in E1, E2, E3.
  assert (forall r, r ∈ ct_strategies (ad_control db') -> proper_strategy r -> assoc_get (sy_strategy_id r) (cs_strategies s) = Some r) as Hload.
  { intros r Hr Hp. rewrite E3.
    assert (r ∈ sort_by (fun a b => str_leb (sy_strategy_id a) (sy_strategy_id b)) (ct_strategies (ad_control db'))) as Hin by (by rewrite sort_by_perm).
    assert (NoDup (sy_strategy_id <$> sort_by (fun a b => str_leb (sy_strategy_id a) (sy_strategy_id b)) (ct_strategies (ad_control db')))) as Hnd
      by (by rewrite sort_by_perm).
    destruct (sort_by _ _) as [|r0 rest]; [by apply elem_of_nil in Hin|]. revert Hin Hnd. generalize (r0 :: rest). intros l Hin Hnd.
    rewrite <- (proper_strategy_loaded (upper (strip mode)) r Hp) at 2.
    change (sy_strategy_id r) with (sy_strategy_id (loaded_strategy (upper (strip mode)) r)). apply dict_by_get.
    - rewrite <- list_fmap_compose. exact Hnd.
    - by apply list_elem_of_fmap_2. }
  split_and!; [done| | | |].
  - rewrite E1. revert Em. unfold member. cbn [existsb]. rewrite !orb_true_iff, !String.eqb_eq. intros [?|[?|?]]; [by left|by right|done].
  - rewrite E2. cbn [head]. unfold loaded_mode. cbn [ma_event_id ma_mode ma_changed_by ma_reason ma_changed_at].
    by rewrite strip_upper, strip_idemp, upper_idemp.
  - intros r Hr. apply Hload. by apply A.
  - intros r Hr Hni. apply Hload. by apply K.
Qed.

(** ** Payloads are read back *)

Lemma rstrip_closed p s c : p c = false -> rstrip_with p (s +:+ String c "") = s +:+ String c "".
Proof.
  intros Hc. induction s as [|a s IH].
  - change (""%string +:+ String c "") with (String c ""). cbn [rstrip_with]. by rewrite Hc.
  - change (String a s +:+ String c "") with (String a (s +:+ String c "")). cbn [rstrip_with]. rewrite IH.
    destruct (s +:+ String c "") eqn:E; [by destruct s|done].
Qed.

Lemma strip_wrapped a s c : is_space a = false -> is_space c = false -> strip (String a (s +:+ String c "")) = String a (s +:+ String c "").
Proof.
  intros Ha Hc. unfold strip, strip_with. rewrite lstrip_with_head by done. exact (rstrip_closed is_space (String a s) c Hc).
Qed.

Lemma safe_dict_read d text : json_safe (VDict d) = true -> json_dumps json_plain (VDict d) = Ok text -> _safe_json_dict text = d.
Proof.
  intros Hs Hd. pose proof (loads_dumps _ _ Hs Hd) as Hl. unfold _safe_json_dict.
  assert (strip text = text /\ is_empty text = false) as [-> ->]; [|by rewrite Hl].
  rewrite dumps_dict in Hd. apply bind_Ok in Hd as (ms & _ & [= <-]). unfold json_members. split; [|done]. by apply strip_wrapped.
Qed.

Lemma safe_list_read l text : json_safe (VList l) = true -> json_dumps json_plain (VList l) = Ok text -> _safe_json_list text = l.
Proof.
  intros Hs Hd. pose proof (loads_dumps _ _ Hs Hd) as Hl. unfold _safe_json_list.
  assert (strip text = text /\ is_empty text = false) as [-> ->]; [|by rewrite Hl].
  rewrite dumps_list in Hd. apply bind_Ok in Hd as (ms & _ & [= <-]). split; [|done]. by apply strip_wrapped.
Qed.

Lemma mappings_dicts (l : list dict) : mappings (VList (VDict <$> l)) = l.
Proof. unfold mappings. induction l as [|d l IH]; [done|]. rewrite fmap_cons. cbn [omap list_omap]. by rewrite IH. Qed.

(** A result as it is read back: without the comparison, and in mode MOCK when it
    has none. *)
Definition reloaded (r : DecisionReplayResult) : DecisionReplayResult :=
  {| rr_decision_id := rr_decision_id r; rr_trace_id := rr_trace_id r; rr_strategy_id := rr_strategy_id r;
     rr_mode := if is_empty (rr_mode r) then "MOCK" else rr_mode r;
     rr_status := rr_status r; rr_summary := rr_summary r; rr_lifecycle := rr_lifecycle r; rr_agent_runs := rr_agent_runs r;
     rr_llm_calls := rr_llm_calls r; rr_graph_nodes := rr_graph_nodes r; rr_graph_edges := rr_graph_edges r;
     rr_deterministic_digest := rr_deterministic_digest r; rr_diff := None |}.

Lemma nodes_read (l : list ReplayGraphNode) :
  (fun d => {| gn_node_id := text_of "node_id" d; gn_node_type := text_of "node_type" d; gn_label := text_of "label" d;
               gn_payload := nested_dict (dget "payload" d) |}) <$> mappings (VList (node_payload <$> l)) = l.
Proof. induction l as [|n l IH]; [done|]. cbn [fmap list_fmap mappings omap list_omap node_payload] in *. rewrite IH. by destruct n. Qed.

Lemma edges_read (l : list ReplayGraphEdge) :
  (fun d => {| ge_from_node_id := text_of "from_node_id" d; ge_to_node_id := text_of "to_node_id" d; ge_relation := text_of "relation" d |})
    <$> mappings (VList (edge_payload <$> l)) = l.
Proof. induction l as [|n l IH]; [done|]. cbn [fmap list_fmap mappings omap list_omap edge_payload] in *. rewrite IH. by destruct n. Qed.

Lemma replay_payload_read r : _payload_to_replay_result (_replay_result_to_payload r) = reloaded r.
Proof.
  unfold _payload_to_replay_result, reloaded.
  f_equal; try reflexivity.
  - change (dget_or "mode" (VStr "MOCK") (_replay_result_to_payload r)) with (VStr (rr_mode r)). by destruct (rr_mode r).
  - change (dget "lifecycle" (_replay_result_to_payload r)) with (VList (VDict <$> rr_lifecycle r)). apply mappings_dicts.
  - change (dget "agent_runs" (_replay_result_to_payload r)) with (VList (VDict <$> rr_agent_runs r)). apply mappings_dicts.
  - change (dget "llm_calls" (_replay_result_to_payload r)) with (VList (VDict <$> rr_llm_calls r)). apply mappings_dicts.
  - exact (nodes_read (rr_graph_nodes r)).
  - exact (edges_read (rr_graph_edges r)).
Qed.

(** Rows under keys without blanks at the ends. *)
Definition tidy (id : string) : Prop := strip id = id /\ id <> ""%string.

Lemma not_blank id : tidy id -> is_empty (strip id) = false.
Proof. intros [-> H]. by destruct id. Qed.

(** Reading the one row of a key out of a loaded dict. *)
Lemma loaded_get {R A} (key : R -> string) (load : R -> A) (id_of : A -> string) (keep : A -> bool) rows rows' r :
  (forall x, id_of (load x) = strip (key x)) -> rows' ≡ₚ rows -> NoDup (key <$> rows) -> Forall (fun x => tidy (key x)) rows ->
  (forall x, keep (load x) = negb (is_empty (strip (key x)))) -> r ∈ rows ->
  assoc_get (key r) (dict_by id_of (List.filter keep (load <$> rows'))) = Some (load r).
Proof.
  intros Hid Hp Hn Ht Hk Hr. rewrite <- Hp in Hn, Ht, Hr. assert (List.filter keep (load <$> rows') = load <$> rows') as ->.
  { clear Hn Hr Hp. induction Ht as [|x l Hx _ IH]; [done|]. rewrite fmap_cons. cbn [List.filter]. rewrite Hk, (not_blank _ Hx). cbn [negb]. by rewrite IH. }
  rewrite Forall_forall in Ht. assert (id_of (load r) = key r) as <- by (rewrite Hid; apply (Ht r Hr)).
  apply dict_by_get; [|by apply list_elem_of_fmap_2].
  replace (id_of <$> (load <$> rows')) with (key <$> rows'); [done|]. rewrite <- list_fmap_compose. apply list_fmap_ext.
  intros i x Hx. cbn. rewrite Hid. symmetry. apply (Ht x). by eapply list_elem_of_lookup_2.
Qed.

Lemma upsert_fresh {R} (key : R -> string) merge new t :
  key new ∉ key <$> t -> upsert_row (fun r => bool_decide (key r = key new)) merge new t = t ++ [new].
Proof.
  induction t as [|r t IH]; [done|]. rewrite fmap_cons, not_elem_of_cons. intros [Hne Hni]. cbn [upsert_row].
  rewrite bool_decide_false by congruence. by rewrite IH.
Qed.

(** A row with fewer than [limit] others that are as new is among the newest. *)
Lemma newest_kept {R} limit (key : R -> string) rows x :
  x ∈ rows -> Z.of_nat (List.length (List.filter (fun r => str_leb (key x) (key r)) rows)) <= limit -> x ∈ newest_rows limit key rows.
Proof.
  intros Hx Hc. unfold newest_rows. set (l := sort_by _ rows).
  assert (StronglySorted (fun a b => str_leb (key b) (key a) = true) l) as Hs.
  { apply (sort_by_strong_on (fun _ => True)); [| |by apply Forall_true].
    - intros a b _ _. apply str_leb_total.
    - intros a b c _ _ _ H1 H2. by eapply str_leb_trans. }
  assert (l ≡ₚ rows) as Hp by apply sort_by_perm. rewrite <- Hp in Hx. apply list_elem_of_split in Hx as (l1 & l2 & El).
  assert (List.length (List.filter (fun r => str_leb (key x) (key r)) rows) = List.length (List.filter (fun r => str_leb (key x) (key r)) l)) as Hlen.
  { clear -Hp. induction Hp; cbn [List.filter]; repeat case_match; cbn [List.length]; congruence. }
  rewrite Hlen, El, List.filter_app, length_app in Hc. rewrite El in Hs. cbn [List.filter] in Hc.
  assert (List.filter (fun r => str_leb (key x) (key r)) l1 = l1) as E1.
  { clear -Hs. induction l1 as [|a l1 IH]; [done|]. cbn [app] in Hs. apply StronglySorted_cons in Hs as [Ha Hs].
    rewrite Forall_app, Forall_cons in Ha. destruct Ha as (_ & Ha & _). cbn [List.filter]. by rewrite Ha, IH. }
  assert (str_leb (key x) (key x) = true) as Er by (destruct (str_leb (key x) (key x)) eqn:E; [done|by rewrite (str_leb_total _ _ E) in E]).
  rewrite E1, Er in Hc. cbn [List.length] in Hc. rewrite El.
  apply list_elem_of_lookup. exists (List.length l1). rewrite lookup_take_lt by lia. by apply list_lookup_middle.
Qed.

Lemma newest_sub {R B} limit (key : R -> string) (f : R -> B) rows :
  NoDup (f <$> rows) -> NoDup (f <$> newest_rows limit key rows) /\ forall x, x ∈ newest_rows limit key rows -> x ∈ rows.
Proof.
  unfold newest_rows. intros Hn. rewrite <- (sort_by_perm (fun a b => str_leb (key b) (key a)) rows) in Hn.
  rewrite <- (take_drop (Z.to_nat (Z.max 1 limit)) (sort_by _ rows)), fmap_app in Hn. apply NoDup_app in Hn as (Hn & _).
  split; [done|]. intros x Hx. rewrite <- (sort_by_perm (fun a b => str_leb (key b) (key a)) rows). apply (subseteq_take (Z.to_nat (Z.max 1 limit))), Hx.
Qed.

(** C36. A replay request survives the reload: the state that is loaded after a request was
    persisted under a new id finds it under that id, with the decision, the status, the
    requester, the time, and the result of the replay - summary, lifecycle, runs, calls,
    graph and digest - as it was computed. What changes is that the comparison with the
    stored outcome is lost, and that a result without a mode is read as one in mode MOCK. The
    conditions: fewer than 500 of the stored requests are as new, since only the
    newest 500 are loaded; the ids of the request and of the stored requests are
    distinct, not blank and without surrounding white space; and the result is what JSON can
    carry ([json_safe]). *)
Theorem replay_request_read_back record db db' clock now uuid4 dflt s :
  persist_replay_request record db = (db', Ok tt) -> load_state clock now uuid4 dflt db' = Ok s ->
  json_safe (VDict (_replay_result_to_payload (rq_result record))) = true ->
  tidy (rq_request_id record) -> Forall (fun r => tidy (qr_request_id r)) (ct_requests (ad_control db)) ->
  NoDup (qr_request_id <$> ct_requests (ad_control db)) -> rq_request_id record ∉ qr_request_id <$> ct_requests (ad_control db) ->
  Z.of_nat (List.length (List.filter (fun r => str_leb (rq_requested_at record) (qr_requested_at r)) (ct_requests (ad_control db)))) < 500 ->
  assoc_get (rq_request_id record) (cs_replay_requests s) =
    Some {| rq_request_id := rq_request_id record; rq_for_decision_id := rq_for_decision_id record; rq_status := rq_status record;
            rq_requested_by := rq_requested_by record; rq_requested_at := rq_requested_at record; rq_result := reloaded (rq_result record) |}.
Proof.
  intros H Hs Hsafe Ht Hts Hn Hnew Hlen. unfold persist_replay_request in H. rewrite lift_bind in H.
  destruct (json_dumps _ _) as [text|] eqn:Ed; [|done]. apply execute_Ok in H as (t & E & -> & Htab). injection E as <-.
  apply load_state_inv in Hs as (s0 & hy & pf & _ & _ & _ & _ & _ & _ & _ & _ & _ & _ & Hreq & _).
  unfold _load_replay_requests, relation in Hreq. cbn [set_control ad_tables ad_control put_requests ct_requests] in Hreq. rewrite Htab in Hreq.
  set (row := {| qr_request_id := rq_request_id record; qr_decision_id := _; qr_status := _; qr_requested_by := _; qr_requested_at := _; qr_result_json := text |}) in Hreq.
  match type of Hreq with context [upsert_row ?same ?m row ?t] =>
    assert (upsert_row same m row t = t ++ [row]) as Eu by exact (upsert_fresh qr_request_id m row t Hnew); rewrite Eu in Hreq end. cbn [mbind result_bind _load_optional] in Hreq. injection Hreq as <-.
  set (rows := ct_requests (ad_control db) ++ [row]). transitivity (Some (loaded_request row)).
  - destruct (newest_sub 500 qr_requested_at qr_request_id rows) as [Hnd Hsub].
    { unfold rows. rewrite fmap_app. apply NoDup_app. split_and!; [done| |apply NoDup_singleton]. intros x Hx ->%list_elem_of_singleton. done. }
    apply (loaded_get qr_request_id loaded_request rq_request_id (fun r => negb (is_empty (rq_request_id r))) (newest_rows 500 qr_requested_at rows) (newest_rows 500 qr_requested_at rows) row); try done.
    + apply Forall_forall. intros x Hx%Hsub. unfold rows in Hx. apply elem_of_app in Hx as [Hx|Hx]; [|by apply list_elem_of_singleton in Hx as ->].
      by apply (proj1 (Forall_forall _ _) Hts).
    + apply newest_kept; [apply elem_of_app; right; by apply list_elem_of_singleton|]. unfold rows. rewrite List.filter_app, length_app.
      cbn [row qr_requested_at]. match goal with |- Z.of_nat (_ + ?n) <= _ => assert (n <= 1)%nat end; [|lia].
      cbn [List.filter]. case_match; cbn; lia.
  - unfold loaded_request. cbn [row qr_request_id qr_decision_id qr_status qr_requested_by qr_requested_at qr_result_json].
    rewrite (proj1 Ht), (safe_dict_read _ _ Hsafe Ed), replay_payload_read by done. done.
Qed.

(** A preference that can be stored and read back. *)
Definition preference_safe (p : NotificationPreferenceRecord) : Prop :=
  Forall (fun l => json_safe (VList (VStr <$> l)) = true /\ Forall (fun s => is_empty (strip s) = false) l)
    [np_gateways p; np_strategy_ids p; np_event_types p].

Lemma texts_read l text : json_safe (VList (VStr <$> l)) = true -> Forall (fun s => is_empty (strip s) = false) l ->
  texts_json l = Ok text -> listed_texts text = l.
Proof.
  intros Hs Hl Hd. unfold listed_texts. rewrite (safe_list_read _ _ Hs Hd). clear Hs Hd.
  induction Hl as [|x l Hx _ IH]; [done|]. rewrite !fmap_cons. cbn [List.filter py_str]. rewrite Hx. cbn [negb]. by rewrite IH.
Qed.

(** A notification preference survives the reload: the state that is loaded after the
    preference was persisted has it under the user's id, with the gateways, strategies and
    event types it was given. *)
Theorem preference_survives p db db' clock now uuid4 dflt s :
  persist_preference p db = (db', Ok tt) -> load_state clock now uuid4 dflt db' = Ok s -> preference_safe p -> tidy (np_user_id p) ->
  Forall (fun r => tidy (pf_user_id r)) (ct_preferences (ad_control db)) -> NoDup (pf_user_id <$> ct_preferences (ad_control db)) ->
  assoc_get (np_user_id p) (cs_notification_preferences s) = Some p.
Proof.
  intros H Hs Hsafe Ht Hts Hn. unfold persist_preference in H. rewrite lift_bind in H. destruct (preference_values p) as [row|] eqn:Ev; [|done].
  apply execute_Ok in H as (t & E & -> & Htab). injection E as <-. unfold preference_values in Ev.
  apply bind_Ok in Ev as (g & E1 & Ev). apply bind_Ok in Ev as (st & E2 & Ev). apply bind_Ok in Ev as (ev & E3 & [= <-]).
  apply load_state_inv in Hs as (s0 & hy & pf & _ & _ & _ & _ & _ & _ & _ & _ & _ & _ & _ & Hp & ->).
  unfold _list_notification_preferences, relation in Hp. cbn [set_control ad_tables ad_control put_preferences ct_preferences] in Hp. rewrite Htab in Hp.
  set (row := {| pf_user_id := np_user_id p; pf_min_severity := _; pf_gateways_json := g; pf_strategy_ids_json := _; pf_event_types_json := _; pf_updated_at := _; pf_updated_by := _ |}) in Hp.
  set (rows := upsert_row _ _ row _) in Hp. cbn [mbind result_bind _load_optional] in Hp. injection Hp as <-.
  assert (forall r, pf_user_id r = pf_user_id row -> pf_user_id ((fun _ => row) r) = pf_user_id r) as Hm by (intros r Hr; by rewrite Hr).
  assert (row ∈ rows) as Hin.
  { pose proof (row_at_upsert_eq pf_user_id _ (fun _ => row) row (fun r => eq_refl) Hm (ct_preferences (ad_control db))) as E. fold rows in E.
    assert (row_at pf_user_id (pf_user_id row) rows = Some row) as E' by (rewrite E; by destruct (row_at pf_user_id (pf_user_id row) (ct_preferences (ad_control db)))).
    by apply row_at_Some in E' as [? _]. }
  assert (assoc_get (np_user_id p) (dict_by np_user_id (List.filter (fun r => negb (is_empty (np_user_id r)))
    (loaded_preference <$> sort_by (fun a b => str_leb (pf_user_id a) (pf_user_id b)) rows))) = Some (loaded_preference row)) as G.
  { apply (loaded_get pf_user_id loaded_preference np_user_id (fun r => negb (is_empty (np_user_id r))) rows _ row); try done.
    - apply sort_by_perm.
    - by apply (upsert_NoDup pf_user_id _ _ _ (fun r => eq_refl) Hm).
    - by apply Forall_upsert. }
  destruct (dict_by _ _) as [|x d] eqn:Ed; [done|]. rewrite G. f_equal. unfold preference_safe in Hsafe. rewrite !Forall_cons in Hsafe.
  destruct Hsafe as ([S1 B1] & [S2 B2] & [S3 B3] & _). unfold loaded_preference. cbn [row pf_user_id pf_min_severity pf_gateways_json pf_strategy_ids_json pf_event_types_json pf_updated_at pf_updated_by].
  rewrite (proj1 Ht), (texts_read _ _ S1 B1 E1), (texts_read _ _ S2 B2 E2), (texts_read _ _ S3 B3 E3). by destruct p.
Qed.

(** ** Concrete databases *)

Module Example_repository.
Definition TABLES : list string :=
  ["mode_audit_events"; "strategy_runtime_state"; "notification_preferences"; "notification_deliveries"; "notification_trace_spans";
   "replay_requests"; "orders"; "symbols"; "exchanges"; "positions"; "fills"; "portfolio_snapshots"; "klines"; "orderbook_snapshots"; "llm_calls";
   "llm_quota_limits"; "decision_traces"; "agent_runs"; "agent_messages"; "runtime_decision_memory"; "news_items"; "news_tags";
   "news_summaries"; "news_summary_sources"]%string.
Definition no_control : control_tables :=
  {| ct_modes := []; ct_strategies := []; ct_preferences := []; ct_deliveries := []; ct_spans := []; ct_requests := []; ct_notifications := []; ct_dlq := [] |}.
Definition db0 : api_db :=
  {| ad_tables := TABLES; ad_control := no_control; ad_oms := _ensure_schema; ad_series := {| ts_books := []; ts_klines := [] |}; ad_calls := [];
     ad_limits := []; ad_traces := []; ad_runs := []; ad_messages := []; ad_memory := []; ad_news := NewsStores.Example_news.db0 |}.

(** The tables after the cycle of [TraceStore.v]. *)
Definition traced : trace_db := TraceStore.Example_trace.db1.
Definition db_traced : api_db :=
  {| ad_tables := TABLES; ad_control := no_control; ad_oms := _ensure_schema; ad_series := {| ts_books := []; ts_klines := [] |}; ad_calls := [];
     ad_limits := []; ad_traces := tb_traces traced; ad_runs := tb_runs traced; ad_messages := tb_messages traced; ad_memory := [];
     ad_news := NewsStores.Example_news.db0 |}.

Definition noon : Z := 63850161600000000.
Definition ids (k : nat) : string := "id-" +:+ str_of_Z (Z.of_nat k).
Definition load (db : api_db) : result ControlPlaneState := load_state noon noon ids "MOCK" db.

Lemma loaded_messages_missing_witness :
  List.length (ad_messages db_traced) = 2%nat /\
  exists s, load db_traced = Ok s /\ List.length (cs_replay_agent_runs s) = 1%nat /\ cs_replay_agent_messages s = [].
Proof.
  split; [vm_compute; reflexivity|]. destruct (load db_traced) as [s|e] eqn:E; [|vm_compute in E; discriminate E].
  exists s. split; [reflexivity|]. split; [vm_compute in E; injection E as <-; reflexivity|].
  apply (loaded_messages_missing noon noon ids "MOCK" db_traced s E).
  intros m t Hm Ht Heq. assert (forallb (fun m => forallb (fun t => negb (String.eqb (mr_run_id m) (tc_decision_id t))) (ad_traces db_traced)) (ad_messages db_traced) = true) as Hb
    by (vm_compute; reflexivity).
  rewrite forallb_forall in Hb. specialize (Hb m (proj1 (list_elem_of_In _ _) Hm)). rewrite forallb_forall in Hb.
  specialize (Hb t (proj1 (list_elem_of_In _ _) Ht)). rewrite Heq, String.eqb_refl in Hb. discriminate Hb.
Defined.

Definition strategy : StrategyRuntimeRecord := bootstrap_strategy "btc-momentum" "BTC/USDT" "REAL" "2024-05-01T12:00:00Z".
Definition changed : api_db := (persist_mode_change "e-1" "real" "ops" "go live" "2024-05-01T12:00:00Z" [strategy] db0).1.

Lemma mode_change_survives_witness : exists s, load changed = Ok s /\ cs_mode s = "REAL"%string /\
  ma_event_id <$> head (cs_mode_history s) = Some "e-1"%string /\ assoc_get "btc-momentum" (cs_strategies s) = Some strategy.
Proof.
  destruct (load changed) as [s|e] eqn:E; [|vm_compute in E; discriminate E]. exists s. split; [reflexivity|].
  destruct (mode_change_survives "e-1" "real" "ops" "go live" "2024-05-01T12:00:00Z" [strategy] db0 changed noon noon ids "MOCK" s) as (H1 & _ & H2 & H3 & _).
  - refine (with_state (persist_mode_change "e-1" "real" "ops" "go live" "2024-05-01T12:00:00Z" [strategy] db0) (Ok tt) _). vm_compute. reflexivity.
  - constructor.
  - apply NoDup_singleton.
  - discriminate.
  - constructor.
  - exact E.
  - split; [rewrite H1; vm_compute; reflexivity|]. split; [rewrite H2; reflexivity|].
    apply (H3 strategy); [left|]. split; [right; left|left].
Defined.

Definition outcome : DecisionReplayResult :=
  {| rr_decision_id := "d-1"; rr_trace_id := "t-1"; rr_strategy_id := "s-1"; rr_mode := "MOCK"; rr_status := "executed"; rr_summary := [("status"%string, VStr "executed")];
     rr_lifecycle := [[("event"%string, VStr "x")]]; rr_agent_runs := []; rr_llm_calls := [];
     rr_graph_nodes := [{| gn_node_id := "decision:d-1"; gn_node_type := "decision_trace"; gn_label := "Decision d-1"; gn_payload := [] |}];
     rr_graph_edges := [{| ge_from_node_id := "a"; ge_to_node_id := "b"; ge_relation := "r" |}]; rr_deterministic_digest := "abc"; rr_diff := Some [] |}.
Definition request : ReplayRequestRecord :=
  {| rq_request_id := "r-1"; rq_for_decision_id := "d-1"; rq_status := "COMPLETED"; rq_requested_by := "ops"; rq_requested_at := "2024-05-01T12:00:00Z"; rq_result := outcome |}.
Definition requested : api_db := (persist_replay_request request db0).1.

Lemma replay_request_read_back_witness : exists s, load requested = Ok s /\ rq_result <$> assoc_get "r-1" (cs_replay_requests s) = Some (reloaded outcome).
Proof.
  destruct (load requested) as [s|e] eqn:E; [|vm_compute in E; discriminate E]. exists s. split; [reflexivity|].
  change "r-1"%string with (rq_request_id request). rewrite (replay_request_read_back request db0 requested noon noon ids "MOCK" s); [reflexivity|..].
  - refine (with_state (persist_replay_request request db0) (Ok tt) _). vm_compute. reflexivity.
  - exact E.
  - vm_compute. reflexivity.
  - split; [vm_compute; reflexivity|discriminate].
  - constructor.
  - constructor.
  - apply not_elem_of_nil.
  - cbn. lia.
Defined.

Definition preference : NotificationPreferenceRecord :=
  {| np_user_id := "alice"; np_min_severity := "WARNING"; np_gateways := ["telegram"; "email"]%string; np_strategy_ids := []; np_event_types := ["risk"%string];
     np_updated_at := "2024-05-01T12:00:00Z"; np_updated_by := "ops" |}.
Definition preferred : api_db := (persist_preference preference db0).1.

Lemma preference_survives_witness : exists s, load preferred = Ok s /\ assoc_get "alice" (cs_notification_preferences s) = Some preference.
Proof.
  destruct (load preferred) as [s|e] eqn:E; [|vm_compute in E; discriminate E]. exists s. split; [reflexivity|].
  apply (preference_survives preference db0 preferred noon noon ids "MOCK" s).
  - refine (with_state (persist_preference preference db0) (Ok tt) _). vm_compute. reflexivity.
  - exact E.
  - repeat constructor.
  - split; [vm_compute; reflexivity|discriminate].
  - constructor.
  - constructor.
Defined.
End Example_repository.
