(* ===== verification/ApiRouters.v ===== *)
(** * The request handlers of the API

    [services/api/dependencies.py] and the routers [control.py], [ops.py],
    [governance.py] and [replay.py] of
    [services/api/routers]: each request first gets the state of the control plane, which is
    loaded anew from the repository when there is one, and then works on it. Who may call
    a handler is decided in [Auth.v]; here the caller is an argument. Errors of the
    repository while writing are logged and forgotten. Responses are the records and payloads
    the handlers return, before FastAPI prints them; the limits its query parameters
    impose are checked by it. Times and fresh ids are read from the state of the app. *)

From S2P Require Import Prelude PyStr PyFloat PyDecimal PyTime PyVal PyJson FillReconciliation PositionEngine PortfolioSnapshot RiskControls.
From S2P Require Import AgentMemory Replay ControlPlane ControlHistory ApiRepository.
From stdpp Require Import options.
From Stdlib Require Import Ascii String.

#[local] Open Scope Z_scope.

Record app := {
  ap_state : ControlPlaneState;
  ap_repository : option api_db;
  ap_strict_database_mode : bool;
  ap_default_mode : string;
  ap_events : list (string * dict);
  ap_clock : nat -> Z; ap_tick : nat;
  ap_uuid4 : nat -> string; ap_next : nat }.

Definition set_state (s : ControlPlaneState) (a : app) : app :=
  {| ap_state := s; ap_repository := ap_repository a; ap_strict_database_mode := ap_strict_database_mode a; ap_default_mode := ap_default_mode a;
     ap_events := ap_events a; ap_clock := ap_clock a; ap_tick := ap_tick a; ap_uuid4 := ap_uuid4 a; ap_next := ap_next a |}.
Definition set_repository (db : option api_db) (a : app) : app :=
  {| ap_state := ap_state a; ap_repository := db; ap_strict_database_mode := ap_strict_database_mode a; ap_default_mode := ap_default_mode a;
     ap_events := ap_events a; ap_clock := ap_clock a; ap_tick := ap_tick a; ap_uuid4 := ap_uuid4 a; ap_next := ap_next a |}.
Definition post_event (routing_key : string) (payload : dict) (a : app) : app :=
  {| ap_state := ap_state a; ap_repository := ap_repository a; ap_strict_database_mode := ap_strict_database_mode a; ap_default_mode := ap_default_mode a;
     ap_events := ap_events a ++ [(routing_key, payload)]; ap_clock := ap_clock a; ap_tick := ap_tick a; ap_uuid4 := ap_uuid4 a; ap_next := ap_next a |}.
Definition spend (ticks ids : nat) (a : app) : app :=
  {| ap_state := ap_state a; ap_repository := ap_repository a; ap_strict_database_mode := ap_strict_database_mode a; ap_default_mode := ap_default_mode a;
     ap_events := ap_events a; ap_clock := ap_clock a; ap_tick := ticks + ap_tick a; ap_uuid4 := ap_uuid4 a; ap_next := ids + ap_next a |}.

Definition clock : prog app Z := fun a => (spend 1 0 a, Ok (ap_clock a (ap_tick a))).
Definition fresh_id : prog app string := fun a => (spend 0 1 a, Ok (ap_uuid4 a (ap_next a))).

Definition http_error {A} (status : Z) (detail : string) : result A := raise (HTTPException status) detail.

(** The state the repository gives at this moment: two readings of the clock, and the ids
    of the default state. *)
Definition reload (a : app) (db : api_db) : result ControlPlaneState :=
  load_state (ap_clock a (ap_tick a)) (ap_clock a (S (ap_tick a))) (fun k => ap_uuid4 a (ap_next a + k)%nat) (ap_default_mode a) db.

(** [get_control_plane_state] *)
Definition get_control_plane_state : prog app ControlPlaneState := fun a =>
  match ap_repository a with
  | None => (a, Ok (ap_state a))
  | Some db =>
      match reload a db with
      | Ok refreshed => (set_state refreshed (spend 2 7 a), Ok refreshed)
      | Raise _ => if ap_strict_database_mode a then (spend 2 7 a, http_error 503 "Control-plane repository unavailable")
                   else (spend 2 7 a, Ok (ap_state a))
      end
  end.

(** The handlers change the state object the app holds. *)
Definition on_state {A} (m : prog ControlPlaneState A) : prog app A := zoom ap_state set_state m.

(** [if repository is not None: try: ... except Exception: log] *)
Definition attempt {A} (m : prog api_db A) : prog app unit := fun a =>
  match ap_repository a with
  | None => (a, Ok tt)
  | Some db => (set_repository (Some (m db).1) a, Ok tt)
  end.

(** [ExecutionMode(text)] *)
Definition execution_mode (text : string) : result string :=
  if member text ["MOCK"; "REAL"]%string then Ok text else raise ValueError (py_repr (VStr text) +:+ " is not a valid ExecutionMode").

(** ** control.py *)

Record mode_response := { mo_mode : string; mo_updated_at : string; mo_changed_by : option string; mo_reason : option string }.

Definition _last_mode_update_time (s : ControlPlaneState) : string :=
  match list_mode_history 1 s with [] => ""%string | r :: _ => ma_changed_at r end.

Definition get_mode : prog app mode_response :=
  s ← get_control_plane_state;
  m ← lift (execution_mode (cs_mode s));
  mret {| mo_mode := m; mo_updated_at := _last_mode_update_time s; mo_changed_by := None; mo_reason := None |}.

Definition _mode_audit_model (r : ModeAuditRecord) : result ModeAuditRecord := _ ← execution_mode (ma_mode r); Ok r.

Definition get_mode_history (limit : Z) : prog app (list ModeAuditRecord) :=
  s ← get_control_plane_state; lift (map_res _mode_audit_model (list_mode_history limit s)).

Definition update_mode (mode reason user : string) : prog app mode_response :=
  s ← get_control_plane_state;
  let old_mode := cs_mode s in
  now ← clock;
  event_id ← fresh_id;
  outcome ← on_state (set_mode now event_id mode user reason);
  let changed : bool := outcome.1 in
  let changed_at : string := outcome.2 in
  s' ← gets ap_state;
  stored_id ← fresh_id;
  _ ← (if changed then attempt (persist_mode_change stored_id (cs_mode s') user reason changed_at (list_strategies s')) else mret tt);
  _ ← (if changed then for_each (fun r => modify (post_event "strategy.state.changed"
             [("strategy_id", VStr (sy_strategy_id r)); ("old_state", VStr old_mode); ("new_state", VStr (cs_mode s'))]%string)) (list_strategies s')
       else mret tt);
  m ← lift (execution_mode (cs_mode s'));
  mret {| mo_mode := m; mo_updated_at := changed_at; mo_changed_by := Some user; mo_reason := Some reason |}.

(** [StrategyRecordResponse] checks the mode and the state. *)
Definition _strategy_model (r : StrategyRuntimeRecord) : result StrategyRuntimeRecord :=
  _ ← execution_mode (sy_mode r);
  _ ← raise_if (negb (member (sy_state r) _VALID_STATES)) ValueError "state is not a valid StrategyRuntimeState";
  Ok r.

Definition get_strategies : prog app (list StrategyRuntimeRecord) :=
  s ← get_control_plane_state; lift (map_res _strategy_model (list_strategies s)).

Definition update_strategy_state (strategy_id state reason user : string) : prog app StrategyRuntimeRecord :=
  s ← get_control_plane_state;
  let old_state := match assoc_get strategy_id (cs_strategies s) with Some r => sy_state r | None => "unknown"%string end in
  now ← clock;
  updated ← on_state (set_strategy_state now strategy_id state user reason);
  _ ← attempt (upsert_strategy_state updated);
  _ ← modify (post_event "strategy.state.changed"
        [("strategy_id", VStr strategy_id); ("old_state", VStr old_state); ("new_state", VStr (sy_state updated))]%string);
  lift (_strategy_model updated).

(** ** ops.py: the risk controls *)

Definition get_risk_status : prog app (risk_status_payload * list RiskControlEvent) :=
  _ ← get_control_plane_state;
  t1 ← clock;
  t2 ← clock;
  out ← on_state (risk_status t1 t2);
  mret (out.1, drop (List.length out.2 - 10) out.2).

Definition post_trip_circuit_breaker (reason user : string) (cooldown_seconds : option Z) : prog app RiskControlEvent :=
  _ ← get_control_plane_state; now ← clock; on_state (ControlPlane.trip_circuit_breaker now reason user cooldown_seconds).
Definition post_reset_circuit_breaker (reason user : string) : prog app RiskControlEvent :=
  _ ← get_control_plane_state; now ← clock; on_state (ControlPlane.reset_circuit_breaker now reason user).
Definition post_enable_kill_switch (reason user : string) : prog app RiskControlEvent :=
  _ ← get_control_plane_state; now ← clock; on_state (ControlPlane.enable_kill_switch now reason user).
Definition post_disable_kill_switch (reason user : string) : prog app RiskControlEvent :=
  _ ← get_control_plane_state; now ← clock; on_state (ControlPlane.disable_kill_switch now reason user).

(** ** ops.py: notification preferences *)

(** [except ValueError as exc: raise HTTPException(422)] *)
Definition unprocessable {A} (m : prog app A) : prog app A := fun a =>
  match m a with
  | (a', Raise e) => if is_value_error (exc_cls e) then (a', http_error 422 (exc_msg e)) else (a', Raise e)
  | x => x
  end.

Definition get_preferences (user_id : option string) : prog app (list NotificationPreferenceRecord) :=
  s ← get_control_plane_state; unprocessable (lift (list_notification_preferences user_id s)).

Definition put_preference (user_id min_severity : string) (gateways strategy_ids event_types : list string) (user : string)
  : prog app NotificationPreferenceRecord :=
  _ ← get_control_plane_state;
  now ← clock;
  updated ← unprocessable (on_state (upsert_notification_preference now user_id min_severity gateways strategy_ids event_types user));
  _ ← attempt (persist_preference updated);
  mret updated.

Definition delete_preference (user_id : string) : prog app unit :=
  _ ← get_control_plane_state;
  deleted ← unprocessable (on_state (delete_notification_preference user_id));
  _ ← lift (if deleted : bool then Ok tt else http_error 404 "Notification preference not found");
  attempt (remove_preference user_id).

(** ** replay.py *)

Definition post_replay_request (decision_id user : string) : prog app ReplayRequestRecord :=
  _ ← get_control_plane_state;
  request_id ← fresh_id;
  now ← clock;
  record ← (fun a => match on_state (submit_replay_request now request_id decision_id user) a with
                     | (a', Raise e) => if bool_decide (exc_cls e = DecisionReplayNotFoundError) then (a', http_error 404 (exc_msg e)) else (a', Raise e)
                     | x => x
                     end);
  _ ← attempt (persist_replay_request record);
  mret record.

Definition get_request (request_id : string) : prog app ReplayRequestRecord :=
  s ← get_control_plane_state;
  lift (match get_replay_request request_id s with Some r => Ok r | None => http_error 404 "Replay request not found" end).

Definition get_replay_catalog (decision_limit request_limit : Z) : prog app (list DecisionTraceRecord * list ReplayRequestRecord) :=
  s ← get_control_plane_state;
  mret (take (Z.to_nat decision_limit) (list_replay_traces s), list_replay_requests request_limit s).

(** ** ops.py: reading *)

(** [except Exception as exc: raise HTTPException(503)] *)
Definition or_unavailable {A} (detail : string) (r : result A) : result A := match r with Ok a => Ok a | Raise _ => http_error 503 detail end.

Definition _order_model (o : ReconciliationOrder) : result dict :=
  mode ← execution_mode (upper (strip (ro_mode o)));
  Ok [("order_id", VStr (ro_order_id o)); ("symbol", VStr (ro_symbol o)); ("mode", VStr mode); ("status", VStr (ro_status o));
      ("requested_quantity", VFloat (float_of_dec (ro_requested_quantity o))); ("filled_quantity", VFloat (float_of_dec (ro_filled_quantity o)));
      ("average_price", match ro_average_price o with Some p => VFloat (float_of_dec p) | None => VNone end)]%string.

Definition _position_model (p : PositionState) : result dict :=
  mode ← execution_mode (upper (strip (ps_mode p)));
  Ok [("mode", VStr mode); ("symbol", VStr (ps_symbol p)); ("quantity", VFloat (float_of_dec (ps_quantity p)));
      ("average_entry_price", VFloat (float_of_dec (ps_average_entry_price p))); ("realized_pnl", VFloat (float_of_dec (ps_realized_pnl p)));
      ("status", VStr (ps_status p)); ("updated_at", VStr (ps_updated_at p))]%string.

Definition _snapshot_model (s : PortfolioSnapshot.PortfolioSnapshot) : result dict :=
  mode ← execution_mode (upper (strip (sn_mode s)));
  Ok [("snapshot_time", VStr (sn_snapshot_time s)); ("mode", VStr mode); ("total_balance_usd", VFloat (float_of_dec (sn_total_balance_usd s)));
      ("available_balance_usd", VFloat (float_of_dec (sn_available_balance_usd s))); ("locked_balance_usd", VFloat (float_of_dec (sn_locked_balance_usd s)));
      ("unrealized_pnl", VFloat (float_of_dec (sn_unrealized_pnl s))); ("realized_pnl_total", VFloat (float_of_dec (sn_realized_pnl_total s)))]%string.

Definition get_orders (status mode : option string) : prog app (list dict) :=
  s ← get_control_plane_state; lift (map_res _order_model (list_orders status mode s)).
Definition get_positions (mode symbol : option string) : prog app (list dict) :=
  s ← get_control_plane_state; lift (map_res _position_model (list_positions mode symbol s)).

Definition get_latest_portfolio_snapshot (mode : option string) : prog app dict :=
  s ← get_control_plane_state;
  lift (match latest_snapshot mode s with Some p => _snapshot_model p | None => http_error 404 "No portfolio snapshot found" end).

(** Without a repository the oldest snapshots up to the limit are returned. *)
Definition get_portfolio_history (mode : option string) (limit : Z) : prog app (list dict) :=
  s ← get_control_plane_state;
  repository ← gets ap_repository;
  match repository with
  | Some db => items ← lift (or_unavailable "portfolio repository unavailable" (list_portfolio_history mode limit db)); lift (map_res _snapshot_model items)
  | None =>
      let snapshots := match mode with
                       | Some m => if is_empty m then cs_portfolio_snapshots s
                                   else List.filter (fun p => String.eqb (upper (strip (sn_mode p))) (upper (strip m))) (cs_portfolio_snapshots s)
                       | None => cs_portfolio_snapshots s end in
      lift (map_res _snapshot_model (take (Z.to_nat limit) (sort_by (fun a b => str_leb (sn_snapshot_time a) (sn_snapshot_time b)) snapshots)))
  end.

Definition get_market_klines (symbol interval : string) (exchange : option string) (limit : Z) : prog app (list dict) :=
  repository ← gets ap_repository;
  match repository with
  | None => mret []
  | Some db => lift (or_unavailable "market data repository unavailable" (list_market_klines symbol interval exchange limit db))
  end.

(** The levels that are mappings. *)
Definition level_model (v : val) : result (list (f64 * f64)) :=
  match v with
  | VDict d => price ← float_field "price" d; amount ← float_field "amount" d; Ok [(price, amount)]
  | _ => Ok []
  end.
Definition _orderbook_level_models (levels : val) : result (list (f64 * f64)) :=
  match levels with VList l => ls ← map_res level_model l; Ok (List.concat ls) | _ => Ok [] end.

Definition get_latest_orderbook_snapshot (symbol : string) (exchange : option string) : prog app (dict * list (f64 * f64) * list (f64 * f64)) :=
  repository ← gets ap_repository;
  match repository with
  | None => lift (http_error 404 "No orderbook snapshot found")
  | Some db =>
      payload ← lift (or_unavailable "market data repository unavailable" (latest_orderbook_snapshot symbol exchange db));
      match payload with
      | None => lift (http_error 404 "No orderbook snapshot found")
      | Some p => lift (bids ← _orderbook_level_models (dget "bids" p); asks ← _orderbook_level_models (dget "asks" p); Ok (p, bids, asks))
      end
  end.

Definition summary_signal (r : DecisionMemoryRecord) : result dict :=
  '(action, quantity, confidence) ← signal_fields (dm_summary r);
  Ok [("decision_id", VStr (dm_decision_id r)); ("trace_id", VStr (dm_trace_id r)); ("strategy_id", VStr (dm_strategy_id r));
      ("mode", VStr (dm_mode r)); ("status", VStr (dm_status r)); ("action", VStr action); ("quantity", VFloat quantity);
      ("confidence", VFloat confidence); ("created_at", VStr (dm_persisted_at r))]%string.

Definition get_latest_signals (limit : Z) : prog app (list dict) :=
  s ← get_control_plane_state;
  repository ← gets ap_repository;
  match repository with
  | Some db => lift (or_unavailable "signal repository unavailable" (list_latest_signals limit db))
  | None => lift (map_res summary_signal (take (Z.to_nat limit) (newest_first dm_persisted_at (snd <$> cs_replay_summaries s))))
  end.

Definition get_latest_trades (mode symbol : option string) (limit : Z) : prog app (list dict) :=
  repository ← gets ap_repository;
  match repository with
  | None => mret []
  | Some db => lift (or_unavailable "trade repository unavailable" (list_latest_trades mode symbol limit db))
  end.

Definition get_pipeline_health (mode : option string) : prog app health_report := fun a =>
  match ap_repository a with
  | None => (a, http_error 503 "pipeline repository unavailable")
  | Some db => (spend 8 0 a, or_unavailable "pipeline health query failed" (pipeline_health_snapshot (fun k => ap_clock a (ap_tick a + k)%nat) mode db))
  end.

Definition get_llm_runtime_status : prog app llm_status :=
  repository ← gets ap_repository;
  let none := {| ls_total_calls := 0; ls_succeeded_calls := 0; ls_failed_calls := 0; ls_latest_call_at := None |} in
  mret match repository with
       | Some db => match llm_runtime_status_snapshot db with Ok s => s | Raise _ => none end
       | None => none
       end.

Definition _news_summary_model (u : NewsPanelSummary) : dict :=
  [("summary_id", VStr (nu_summary_id u)); ("symbol_scope", VStr (nu_symbol_scope u)); ("window_start", VStr (nu_window_start u));
   ("window_end", VStr (nu_window_end u)); ("summary_text", VStr (nu_summary_text u)); ("generated_at", VStr (nu_generated_at u));
   ("source_count", VInt (Z.of_nat (List.length (nu_source_news_ids u)))); ("avg_sentiment", VFloat (nu_avg_sentiment u))]%string.

Definition get_news_items (symbol : option string) (limit : Z) : prog app (list NewsPanelItem) :=
  s ← get_control_plane_state; mret (list_news_items symbol limit s).
Definition get_news_summaries (symbol_scope : option string) (limit : Z) : prog app (list dict) :=
  s ← get_control_plane_state; mret (_news_summary_model <$> list_news_summaries symbol_scope limit s).
Definition get_news_impact (limit : Z) : prog app (list NewsImpactRecord) :=
  s ← get_control_plane_state; lift (list_news_impact limit s).

Definition get_notification_metrics : prog app dict :=
  s ← get_control_plane_state; now ← clock; mret (notification_metrics_snapshot now s).
Definition get_notification_deliveries (limit : Z) (gateway status severity : option string) : prog app (list NotificationDeliveryRecord) :=
  s ← get_control_plane_state; mret (list_notification_delivery_logs limit gateway status severity s).
Definition get_notification_traces (limit : Z) (trace_id stage : option string) : prog app (list NotificationTraceRecord) :=
  s ← get_control_plane_state; mret (list_notification_trace_spans limit trace_id stage s).

(** ** governance.py *)

Definition get_llm_usage (strategy_id agent_name : option string) : prog app (list LLMUsageRecord) :=
  s ← get_control_plane_state; now ← clock; lift (list_llm_usage now strategy_id agent_name None s).
Definition get_llm_breaches (strategy_id agent_name : option string) (include_failures : bool) (limit : Z) : prog app (list LLMBreachRecord) :=
  s ← get_control_plane_state; lift (list_llm_breaches strategy_id agent_name include_failures limit s).

(** The texts of prompts and answers are shown to administrators only. *)
Definition _call_model (include_previews : bool) (r : LLMCallLogRecord) : LLMCallLogRecord :=
  {| ll_record := ll_record r; ll_status := ll_status r; ll_mode := ll_mode r; ll_tier := ll_tier r;
     ll_prompt_preview := if include_previews then ll_prompt_preview r else None;
     ll_response_preview := if include_previews then ll_response_preview r else None |}.

Definition get_llm_calls (is_admin : bool) (strategy_id agent_name status : option string) (limit : Z) : prog app (list LLMCallLogRecord) :=
  s ← get_control_plane_state; mret (_call_model is_admin <$> list_llm_call_logs strategy_id agent_name status limit s).

(** ** What a request leaves behind *)

Lemma got_state a db s : ap_repository a = Some db -> reload a db = Ok s ->
  get_control_plane_state a = (set_state s (spend 2 7 a), Ok s).
Proof. intros Hr Hs. unfold get_control_plane_state. by rewrite Hr, Hs. Qed.

(** The repository answers, whatever the time. *)
Definition loads (a : app) : Prop :=
  exists db, ap_repository a = Some db /\ forall c n u, exists s, load_state c n u (ap_default_mode a) db = Ok s.

Lemma loaded_controls c n u m db s : load_state c n u m db = Ok s -> cs_risk_controls s = default_controls /\ cs_risk_events s = [].
Proof.
  intros (s0 & hy & pf & H0 & _ & _ & _ & _ & -> & -> & _)%load_state_inv. unfold build_default_state in H0.
  apply bind_Ok in H0 as (m' & _ & [= <-]). done.
Qed.

(** A risk command with a repository starts from controls that were never used, and leaves the
    repository as it was. *)
Lemma risk_command_starts_anew {A} (m : Z -> prog ControlPlaneState A) a :
  loads a -> exists s t, cs_risk_controls s = default_controls /\ cs_risk_events s = [] /\
    let '(a', r) := (_ ← get_control_plane_state; now ← clock; on_state (m now)) a in r = (m t s).2 /\ loads a'.
Proof.
  intros (db & Hdb & Hl). destruct (Hl (ap_clock a (ap_tick a)) (ap_clock a (S (ap_tick a))) (fun k => ap_uuid4 a (ap_next a + k)%nat)) as [s Hs].
  exists s, (ap_clock a (2 + ap_tick a)%nat). destruct (loaded_controls _ _ _ _ _ _ Hs) as [E1 E2]. split; [done|]. split; [done|].
  unfold mbind, prog_bind. rewrite (got_state a db s Hdb Hs). unfold clock, on_state, zoom. cbn [ap_state set_state spend ap_clock ap_tick].
  destruct (m _ s) as [s' r] eqn:Em. cbn [snd]. split; [done|]. exists db. split; [exact Hdb|exact Hl].
Qed.

Lemma switch_from_default now reason actor s :
  cs_risk_controls s = default_controls ->
  (ControlPlane.enable_kill_switch now reason actor s).2 = Ok (switch_event true now reason actor) /\
  (ControlPlane.disable_kill_switch now reason actor s).2 = raise RuntimeError "risk control action did not emit an event".
Proof.
  intros E. unfold ControlPlane.enable_kill_switch, ControlPlane.disable_kill_switch. rewrite !risk_command_eq, E. done.
Qed.

(** C33. The kill switch does not hold when the API has a repository: enabling it is
    acknowledged with the event of the change, but the next request loads the state anew, with
    risk controls nobody has used: the status that is then reported says that the kill
    switch is off and blocks nothing, and the request that disables it fails with an
    internal error. *)
Theorem kill_switch_forgotten reason user a :
  loads a ->
  let '(a1, r) := post_enable_kill_switch reason user a in
  (exists now, r = Ok (switch_event true now reason user)) /\
  (exists payload events, (get_risk_status a1).2 = Ok (payload, events) /\
     rs_kill_switch_enabled (rt_state payload) = false /\ rt_blocked_by payload = []) /\
  (post_disable_kill_switch reason user a1).2 = raise RuntimeError "risk control action did not emit an event".
Proof.
  intros Hl. destruct (risk_command_starts_anew (fun now => ControlPlane.enable_kill_switch now reason user) a Hl) as (s & t & Ec & _ & H).
  unfold post_enable_kill_switch. destruct ((_ ← get_control_plane_state; _) a) as [a1 r]. destruct H as [-> Hl1].
  split; [exists t; by apply switch_from_default|]. split.
  - clear s t Ec. destruct Hl1 as (db & Hdb & Hl1).
    destruct (Hl1 (ap_clock a1 (ap_tick a1)) (ap_clock a1 (S (ap_tick a1))) (fun k => ap_uuid4 a1 (ap_next a1 + k)%nat)) as [s Hs].
    destruct (loaded_controls _ _ _ _ _ _ Hs) as [Ec _]. unfold get_risk_status. unfold mbind at 1, prog_bind at 1. rewrite (got_state a1 db s Hdb Hs).
    unfold mbind, prog_bind, clock, on_state, zoom. cbn [ap_state set_state spend ap_clock ap_tick]. rewrite risk_status_eq, Ec. eexists _, _. split; [reflexivity|]. done.
  - destruct (risk_command_starts_anew (fun now => ControlPlane.disable_kill_switch now reason user) a1 Hl1) as (s1 & t1 & Ec1 & _ & H).
    unfold post_disable_kill_switch. destruct ((_ ← get_control_plane_state; _) a1) as [a2 r]. destruct H as [-> _]. by apply switch_from_default.
Qed.

Lemma removed_nothing user_id db : ct_preferences (ad_control db) = [] -> (remove_preference user_id db).1 = db.
Proof.
  intros E. unfold remove_preference. rewrite gets_bind. unfold mbind, prog_bind, execute. destruct (member _ _); [|done].
  cbn [fst]. unfold set_control, put_preferences. rewrite E. cbn [List.filter]. destruct db as [t [m s p d sp rq nn dq] o se c l tr ru ms mm nw]. cbn in *. by subst p.
Qed.

Lemma loaded_default_preference c n u m db s :
  load_state c n u m db = Ok s -> ct_preferences (ad_control db) = [] ->
  exists p, cs_notification_preferences s = [("ops-default"%string, p)] /\ np_user_id p = "ops-default"%string.
Proof.
  intros (s0 & hy & pf & H0 & _ & _ & _ & _ & _ & _ & _ & _ & _ & _ & Hp & ->)%load_state_inv E.
  assert (pf = []) as ->.
  { apply load_optional_Ok in Hp as [Hp|]; [|done]. unfold _list_notification_preferences, relation in Hp. rewrite E in Hp.
    destruct (member _ _); [|done]. by injection Hp. }
  unfold build_default_state in H0. apply bind_Ok in H0 as (m' & _ & [= <-]). by eexists.
Qed.

(** The default notification preference cannot be deleted when the API has a repository
    and no preference was ever stored: the request is answered as done, and the
    next one lists the preference again. *)
Theorem deleted_default_preference_returns a db :
  ap_repository a = Some db -> ct_preferences (ad_control db) = [] -> loads a ->
  let '(a1, r) := delete_preference "ops-default" a in
  r = Ok tt /\ exists p, (get_preferences None a1).2 = Ok [p] /\ np_user_id p = "ops-default"%string.
Proof.
  intros Hdb Hp (db' & Hdb' & Hl). rewrite Hdb in Hdb'. injection Hdb' as <-.
  destruct (Hl (ap_clock a (ap_tick a)) (ap_clock a (S (ap_tick a))) (fun k => ap_uuid4 a (ap_next a + k)%nat)) as [s Hs].
  destruct (loaded_default_preference _ _ _ _ _ _ Hs Hp) as (p & Ep & _).
  unfold delete_preference. unfold mbind at 1, prog_bind at 1. rewrite (got_state a db s Hdb Hs).
  unfold unprocessable, on_state, zoom, mbind, prog_bind. cbn [ap_state set_state spend].
  unfold delete_notification_preference. change (_normalize_user_id "ops-default") with (Ok "ops-default"%string : result string). rewrite Ep. cbn [assoc_get String.eqb].
  change (assoc_get "ops-default" [("ops-default"%string, p)]) with (Some p). unfold lift, attempt. cbn [ap_repository set_state spend]. rewrite Hdb. split; [done|].
  rewrite removed_nothing by done.
  set (a1 := set_repository _ _).
  destruct (Hl (ap_clock a1 (ap_tick a1)) (ap_clock a1 (S (ap_tick a1))) (fun k => ap_uuid4 a1 (ap_next a1 + k)%nat)) as [s1 Hs1].
  destruct (loaded_default_preference _ _ _ _ _ _ Hs1 Hp) as (p1 & Ep1 & Eu). exists p1. split; [|exact Eu].
  unfold get_preferences. unfold mbind at 1, prog_bind at 1. rewrite (got_state a1 db s1 eq_refl Hs1). unfold unprocessable, lift, list_notification_preferences. by rewrite Ep1.
Qed.

(** ** An app with an empty database *)

Module Example_app.
Definition initial : ControlPlaneState := ControlHistory.Example_control.initial.
Definition the_app : app :=
  {| ap_state := initial; ap_repository := Some ApiRepository.Example_repository.db0; ap_strict_database_mode := true; ap_default_mode := "MOCK";
     ap_events := []; ap_clock := fun _ => ApiRepository.Example_repository.noon; ap_tick := 0; ap_uuid4 := ApiRepository.Example_repository.ids; ap_next := 0 |}.

Lemma app_loads : loads the_app.
Proof. exists ApiRepository.Example_repository.db0. split; [reflexivity|]. intros c n u. eexists. reflexivity. Qed.

Lemma kill_switch_forgotten_witness :
  (exists now, (post_enable_kill_switch "stop" "ops" the_app).2 = Ok (switch_event true now "stop" "ops")) /\
  (post_disable_kill_switch "stop" "ops" (post_enable_kill_switch "stop" "ops" the_app).1).2 = raise RuntimeError "risk control action did not emit an event".
Proof.
  pose proof (kill_switch_forgotten "stop" "ops" the_app app_loads) as H. destruct (post_enable_kill_switch _ _ the_app) as [a1 r].
  destruct H as (H1 & _ & H3). split; [exact H1|exact H3].
Defined.

Lemma deleted_default_preference_returns_witness :
  (delete_preference "ops-default" the_app).2 = Ok tt /\
  exists p, (get_preferences None (delete_preference "ops-default" the_app).1).2 = Ok [p] /\ np_user_id p = "ops-default"%string.
Proof.
  pose proof (deleted_default_preference_returns the_app ApiRepository.Example_repository.db0 eq_refl eq_refl app_loads) as H.
  destruct (delete_preference "ops-default" the_app) as [a1 r]. exact H.
Defined.
End Example_app.
