(* ===== verification/Orchestrator.v ===== *)
(** * The agent orchestrator

    [services/agent_orchestrator/orchestrator.py]: [handle_market_event] runs a
    market event through the agents, with optional LLM suggestions after the
    planner, the risk agent and the execution agent, records every stage in the
    decision memory and the metrics, publishes an execution intent when
    everything allows it, and then the lifecycle events (with a notification
    each, when there is a bridge). Publisher and bridge share the in-memory
    broker; the memory stores are any instances of their interfaces. *)

From S2P Require Import Prelude PyStr PyFloat PyDecimal PyTime PyUuid PyVal Envelope Broker Notification.
From S2P Require Import Simulation SimulationWorker Agents LlmRuntime AgentMemory.
From stdpp Require Import options.
From Stdlib Require Import Ascii String SpecFloat.

#[local] Open Scope Z_scope.

(** The readings of one run: the monotonic clock and the span times by stage,
    the time of each envelope by event type, the time of the summary, and the
    time and random UUID of each notification. *)
Record readings := {
  rd_mono : string -> nat -> f64;
  rd_span : string -> nat -> Z;
  rd_emit : string -> Z;
  rd_persist : Z;
  rd_notify : nat -> Z;
  rd_uuid4 : nat -> Z;
}.

(** ** Payloads *)

Definition plan_dict (plan : PlannerDecision) : dict :=
  [("action", VStr (pd_action plan)); ("confidence", VFloat (pd_confidence plan));
   ("target_quantity", VFloat (pd_target_quantity plan)); ("rationale", strs (pd_rationale plan));
   ("metrics", VDict (pd_metrics plan))].

Definition signal_dict (s : RiskSignal) : val :=
  VDict [("name", VStr (rs_name s)); ("passed", VBool (rs_passed s)); ("value", VFloat (rs_value s));
         ("limit", VFloat (rs_limit s)); ("message", VStr (rs_message s))].

Definition risk_summary (risk : RiskAssessment) : dict :=
  [("approved", VBool (ra_approved risk)); ("approved_quantity", VFloat (ra_approved_quantity risk));
   ("blocked_by", strs (ra_blocked_by risk)); ("risk_score", VFloat (ra_risk_score risk))].
Definition risk_dict (risk : RiskAssessment) : dict :=
  risk_summary risk ++ [("signals"%string, VList (signal_dict <$> ra_signals risk))].

Definition decision_dict (d : ExecutionDecision) : dict :=
  [("action", VStr (ed_action d)); ("quantity", VFloat (ed_quantity d));
   ("confidence", VFloat (ed_confidence d)); ("rationale", strs (ed_rationale d));
   ("constraints", VDict (ed_constraints d))].

Definition violation_dict (v : GuardrailViolation) : val :=
  VDict [("code", VStr (gv_code v)); ("message", VStr (gv_message v)); ("details", VDict (gv_details v))].

Definition guardrail_dict (g : GuardrailValidationResult) : dict :=
  [("allowed", VBool (gr_allowed g)); ("blocked_by", strs (gr_blocked_by g));
   ("checks", VDict ((fun kv => (kv.1, VBool kv.2)) <$> gr_checks g));
   ("violations", VList (violation_dict <$> gr_violations g))].

Definition context_slot (o : MarketContextOutput) : dict :=
  [("market_context", VDict (mc_context o)); ("microstructure", VDict (mc_microstructure o));
   ("news", VDict (mc_news o)); ("quality", VDict (mc_quality o)); ("notes", strs (mc_notes o))].

(** [{key: d[key] for key in keys}] *)
Definition fields (keys : list string) (d : dict) : result dict :=
  map_res (fun k => v ← dict_index k d; Ok (k, v)) keys.

(** ** Envelopes *)

(** Who decides: the ids of a run. *)
Record run_ids := Ids { ri_trace : string; ri_decision : string; ri_mode : string; ri_service : string }.

Definition agent_envelope (rd : readings) (ids : run_ids) (event_type idempotency_key : string)
    (payload : dict) : dict :=
  [("trace_id", VStr (ri_trace ids)); ("decision_id", VStr (ri_decision ids)); ("mode", VStr (ri_mode ids));
   ("idempotency_key", VStr idempotency_key); ("event_type", VStr event_type);
   ("emitted_at", VStr (iso_z (rd_emit rd event_type))); ("payload", VDict payload);
   ("service", VStr (ri_service ids))].

Definition _build_envelope (rd : readings) (ids : run_ids) (event_type idempotency_key : string)
    (payload : dict) : result dict :=
  let envelope := agent_envelope rd ids event_type idempotency_key payload in
  _ ← validate_envelope (VDict envelope);
  Ok envelope.

(** What the agents decided. *)
Record decided := {
  de_context : MarketContextOutput;
  de_plan : PlannerDecision;
  de_risk : RiskAssessment;
  de_decision : ExecutionDecision;
  de_guardrail : GuardrailValidationResult;
}.

Definition status_of (x : decided) : string :=
  if negb (ra_approved (de_risk x)) then "RISK_REJECTED"
  else if negb (gr_allowed (de_guardrail x)) then "GUARDRAIL_REJECTED"
  else "RISK_APPROVED".

(** The first three lifecycle events. *)
Definition opening_events (rd : readings) (ids : run_ids) (strategy : StrategyConfig) (x : decided)
  : result (list dict) :=
  let o := de_context x in
  let plan := de_plan x in
  let sid := VStr (sc_strategy_id strategy) in
  let key k := k +:+ ":" +:+ ri_decision ids in
  symbol ← dict_index "symbol" (mc_context o);
  received ← _build_envelope rd ids "agent.decision.received" (key "agent.decision.received")
    [("strategy_id", sid); ("symbol", symbol)];
  news ← fields ["summary"; "sentiment"; "source_count"] (mc_news o);
  enriched ← _build_envelope rd ids "agent.decision.context_enriched" (key "agent.decision.context_enriched")
    [("strategy_id", sid); ("symbol", symbol); ("microstructure", VDict (mc_microstructure o));
     ("news", VDict news); ("quality", VDict (mc_quality o)); ("notes", strs (mc_notes o))];
  planned ← _build_envelope rd ids "agent.decision.planned" (key "agent.decision.planned")
    [("strategy_id", sid); ("symbol", symbol); ("action", VStr (pd_action plan));
     ("target_quantity", VFloat (pd_target_quantity plan)); ("confidence", VFloat (pd_confidence plan));
     ("metrics", VDict (pd_metrics plan))];
  Ok [received; enriched; planned].

(** The three events after the status is known. *)
Definition verdict_events (rd : readings) (ids : run_ids) (strategy : StrategyConfig) (x : decided)
  : result (list dict) :=
  let risk := de_risk x in
  let d := de_decision x in
  let g := de_guardrail x in
  let sid := VStr (sc_strategy_id strategy) in
  symbol ← dict_index "symbol" (mc_context (de_context x));
  risk_event ← _build_envelope rd ids
    (if ra_approved risk then "agent.decision.risk_approved" else "agent.decision.risk_rejected")
    ("agent.decision.risk:" +:+ ri_decision ids +:+ ":" +:+ status_of x)
    [("strategy_id", sid); ("symbol", symbol); ("approved", VBool (ra_approved risk));
     ("blocked_by", strs (ra_blocked_by risk)); ("risk_score", VFloat (ra_risk_score risk))];
  proposed ← _build_envelope rd ids "agent.decision.action_proposed"
    ("agent.decision.action_proposed:" +:+ ri_decision ids)
    [("strategy_id", sid); ("symbol", symbol); ("action", VStr (ed_action d));
     ("quantity", VFloat (ed_quantity d)); ("confidence", VFloat (ed_confidence d));
     ("constraints", VDict (ed_constraints d))];
  guard_event ← _build_envelope rd ids
    (if gr_allowed g then "agent.decision.guardrail_passed" else "agent.decision.guardrail_rejected")
    ("agent.decision.guardrail:" +:+ ri_decision ids +:+ ":" +:+ (if gr_allowed g then "pass" else "reject"))
    ([("strategy_id"%string, sid); ("symbol"%string, symbol)] ++ guardrail_dict g);
  Ok [risk_event; proposed; guard_event].

Definition should_publish_intent (x : decided) : bool :=
  ra_approved (de_risk x) && gr_allowed (de_guardrail x) &&
  truthy (dget_or "schema_valid" (VBool false) (ed_constraints (de_decision x))) &&
  bool_decide (ed_action (de_decision x) ∈ EXECUTABLE) && negb (feqb (ed_quantity (de_decision x)) fzero).

(** The payload of the execution intent. *)
Definition intent_payload (ids : run_ids) (strategy : StrategyConfig) (x : decided) : result dict :=
  let context := mc_context (de_context x) in
  let d := de_decision x in
  let c := ed_constraints d in
  let exchange := str_or (lower (strip (py_str (dget_or "exchange" (VStr "binance") context)))) "binance" in
  let order_type := str_or (upper (strip (py_str (dget_or "order_type" (VStr "MARKET") c)))) "MARKET" in
  let good_for := if String.eqb order_type "LIMIT" then VStr "GTC" else VNone in
  let time_in_force :=
    match dget "time_in_force" c with
    | VStr t => if is_empty (strip t) then good_for else VStr t
    | _ => good_for
    end in
  let client_order_id := py_str (dget_or "client_order_id"
    (VStr (sc_strategy_id strategy +:+ "-" +:+ str_take 12 (ri_decision ids))) c) in
  symbol ← dict_index "symbol" context;
  market ← fields ["mid_price"; "best_bid"; "best_ask"; "spread_bps"; "orderbook_imbalance";
                   "microstructure_regime"; "news_summary"; "news_sentiment"] context;
  Ok [("strategy_id", VStr (sc_strategy_id strategy)); ("symbol", symbol); ("action", VStr (ed_action d));
      ("quantity", VFloat (ed_quantity d)); ("confidence", VFloat (ed_confidence d));
      ("exchange", VStr exchange); ("order_type", VStr order_type); ("time_in_force", time_in_force);
      ("limit_price", dget "limit_price" c); ("trigger_price", dget "trigger_price" c);
      ("reduce_only", VBool (String.eqb (ed_action d) "CLOSE")); ("client_order_id", VStr client_order_id);
      ("rationale", strs (ed_rationale d)); ("constraints", VDict c); ("market_context", VDict market)].

(** ** The orchestrator *)

Section orchestrator.
Context {S L : Type} `{!ShortTermMemoryStore S} `{!LongTermMemoryStore L}.

Record AgentOrchestrator := {
  ao_broker : InMemoryTopicBroker;
  ao_metrics : AgentRuntimeMetrics;
  ao_memory : AgentMemoryLayer S L;
  ao_llm_runtime : option LLMDecisionRuntime;
  ao_notification_bridge : option NotificationEventBridge;
  ao_service_name : string;
}.

Definition put_broker (b : InMemoryTopicBroker) (o : AgentOrchestrator) : AgentOrchestrator :=
  {| ao_broker := b; ao_metrics := ao_metrics o; ao_memory := ao_memory o;
     ao_llm_runtime := ao_llm_runtime o; ao_notification_bridge := ao_notification_bridge o;
     ao_service_name := ao_service_name o |}.
Definition put_metrics (m : AgentRuntimeMetrics) (o : AgentOrchestrator) : AgentOrchestrator :=
  {| ao_broker := ao_broker o; ao_metrics := m; ao_memory := ao_memory o;
     ao_llm_runtime := ao_llm_runtime o; ao_notification_bridge := ao_notification_bridge o;
     ao_service_name := ao_service_name o |}.
Definition put_memory (m : AgentMemoryLayer S L) (o : AgentOrchestrator) : AgentOrchestrator :=
  {| ao_broker := ao_broker o; ao_metrics := ao_metrics o; ao_memory := m;
     ao_llm_runtime := ao_llm_runtime o; ao_notification_bridge := ao_notification_bridge o;
     ao_service_name := ao_service_name o |}.

Definition memory {A} (m : prog (AgentMemoryLayer S L) A) : prog AgentOrchestrator A :=
  zoom ao_memory put_memory m.

(** [_run_sync_stage] and [_run_async_stage]: the metrics see the outcome. *)
Definition run_stage {A} (rd : readings) (ids : run_ids) (stage : string) (m : prog AgentOrchestrator A)
  : prog AgentOrchestrator A := fun o =>
  let latency := fmul (fsub (rd_mono rd stage 1%nat) (rd_mono rd stage 0%nat)) (flit 1000 0) in
  let record o error := put_metrics (record_stage (ri_trace ids) (ri_decision ids) (ri_mode ids) stage latency
      error (rd_span rd stage 0%nat) (rd_span rd stage 1%nat) (ao_metrics o)) o in
  match m o with
  | (o', Ok a) => (record o' None, Ok a)
  | (o', Raise e) => (record o' (Some (exc_name (exc_cls e))), Raise e)
  end.

(** A stage that only runs with an LLM runtime. *)
Definition llm_stage {A} (rd : readings) (ids : run_ids) (stage : string)
    (apply : LLMDecisionRuntime -> A -> A) (a : A) : prog AgentOrchestrator A :=
  rt ← gets ao_llm_runtime;
  match rt with
  | Some rt => run_stage rd ids stage (mret (apply rt a))
  | None => mret a
  end.

(** From the memory read to the guardrail slot. *)
Definition decide_event (rd : readings) (ids : run_ids) (sc : scope) (payload : dict)
    (strategy : StrategyConfig) : prog AgentOrchestrator decided :=
  let slot name d := memory (write_decision_slot sc name d) in
  _ ← run_stage rd ids "memory_read" (memory (read_decision_memory sc));
  out ← run_stage rd ids "market_context_agent" (lift (enrich payload strategy));
  let context := mc_context out in
  _ ← slot "context"%string (context_slot out);
  plan0 ← run_stage rd ids "planner_agent" (lift (build_plan context strategy));
  plan ← llm_stage rd ids "planner_llm"
    (fun rt plan => _apply_planner_llm_suggestion rt strategy context plan) plan0;
  _ ← slot "plan"%string (plan_dict plan);
  risk0 ← run_stage rd ids "risk_agent" (lift (evaluate plan context strategy));
  risk ← llm_stage rd ids "risk_llm"
    (fun rt risk => _apply_risk_llm_suggestion rt strategy context plan risk) risk0;
  _ ← slot "risk"%string (risk_dict risk);
  d0' ← run_stage rd ids "execution_decision_agent" (lift (propose_action plan risk context strategy));
  d ← llm_stage rd ids "execution_decision_llm"
    (fun rt d => _apply_execution_llm_suggestion rt strategy context plan risk d) d0';
  _ ← slot "execution_decision"%string (decision_dict d);
  g ← run_stage rd ids "guardrail_validation" (lift (Agents.validate strategy context risk d));
  _ ← slot "guardrail"%string (guardrail_dict g);
  mret {| de_context := out; de_plan := plan; de_risk := risk; de_decision := d; de_guardrail := g |}.

(** Build, route and publish the intent; the lifecycle event that announces it
    is built before it is published. *)
Definition publish_intent (rd : readings) (ids : run_ids) (strategy : StrategyConfig) (x : decided)
  : prog AgentOrchestrator (option dict * list dict) :=
  if should_publish_intent x then
    payload ← lift (intent_payload ids strategy x);
    intent ← lift (_build_envelope rd ids "execution.intent.created"
      ("execution.intent:" +:+ lower (ri_mode ids) +:+ ":" +:+ ri_decision ids) payload);
    routing_key ← lift (route_execution_intent (VDict intent));
    _ ← lift (assert_no_mode_leakage routing_key (VDict intent));
    symbol ← lift (dict_index "symbol" (mc_context (de_context x)));
    published ← lift (_build_envelope rd ids "agent.decision.intent_published"
      ("agent.decision.intent_published:" +:+ ri_decision ids)
      [("strategy_id", VStr (sc_strategy_id strategy)); ("symbol", symbol);
       ("routing_key", VStr routing_key); ("action", VStr (ed_action (de_decision x)))]);
    _ ← zoom ao_broker put_broker (broker_publish routing_key intent);
    mret (Some intent, [published])
  else mret (None, []).

(** One turn of the loop over the lifecycle events. *)
Definition publish_lifecycle (rd : readings) (ievent : nat * dict) : prog AgentOrchestrator unit := fun o =>
  let '(i, event) := ievent in
  zoom ao_broker put_broker
    (_ ← broker_publish "strategy.decision.lifecycle" event;
     match ao_notification_bridge o with
     | Some bridge => _ ← publish_strategy_event bridge (rd_notify rd i) (rd_uuid4 rd i) event; mret tt
     | None => mret tt
     end) o.

Record OrchestrationResult := {
  or_ids : run_ids;
  or_status : string;
  or_lifecycle : list dict;
  or_decided : decided;
  or_execution_intent : option dict;
}.

(** Everything after the checks on the envelope. *)
Definition orchestrate (rd : readings) (ids : run_ids) (payload : dict) (strategy : StrategyConfig)
  : prog AgentOrchestrator OrchestrationResult :=
  let sc := Scope (ri_mode ids) (sc_strategy_id strategy) (ri_decision ids) in
  x ← decide_event rd ids sc payload strategy;
  opening ← lift (opening_events rd ids strategy x);
  _ ← memory (write_decision_slot sc "status" [("status", VStr (status_of x))]);
  verdict ← lift (verdict_events rd ids strategy x);
  '(intent, announced) ← publish_intent rd ids strategy x;
  let lifecycle := opening ++ verdict ++ announced in
  _ ← run_stage rd ids "memory_persist"
    (memory (persist_decision_summary (rd_persist rd) (ri_trace ids) sc (status_of x)
       (mc_context (de_context x)) (plan_dict (de_plan x)) (risk_summary (de_risk x))
       (decision_dict (de_decision x)) (guardrail_dict (de_guardrail x)) lifecycle));
  _ ← for_each (publish_lifecycle rd) (imap pair lifecycle);
  mret {| or_ids := ids; or_status := status_of x; or_lifecycle := lifecycle; or_decided := x;
          or_execution_intent := intent |}.

Definition handle_market_event (rd : readings) (envelope : val) (strategy : StrategyConfig)
  : prog AgentOrchestrator OrchestrationResult := fun o =>
  match validate_envelope envelope, envelope with
  | Raise e, _ => (o, Raise e)
  | Ok _, VDict env =>
      (_ ← lift (raise_if (negb (starts_with "market.canonical" (py_str (dget_or "event_type" (VStr "") env))))
            ValueError "AgentOrchestrator expects market.canonical envelopes");
       mode ← lift (dict_index "mode" env);
       trace_id ← lift (dict_index "trace_id" env);
       decision_id ← lift (dict_index "decision_id" env);
       payload ← lift (dict_index "payload" env);
       (* a valid envelope has a mapping as payload *)
       orchestrate rd (Ids (py_str trace_id) (py_str decision_id) (py_str mode) (ao_service_name o))
         (match payload with VDict p => p | _ => [] end) strategy) o
  | Ok _, _ => (o, raise TypeError "envelope is not a mapping")
  end.
End orchestrator.
Arguments AgentOrchestrator : clear implicits.

(** ** Frames: what a stage publishes *)

Create HintDb frame.

(** ** The decision without its surroundings *)

(** A suggestion of the model, when there is one. *)
Definition with_llm {A} (llm : option LLMDecisionRuntime) (f : LLMDecisionRuntime -> A -> A) (a : A) : A :=
  match llm with Some rt => f rt a | None => a end.

(** What the agents, the model and the guardrails make of a market payload, as one
    function of it. *)
Definition decision_of (llm : option LLMDecisionRuntime) (payload : dict) (strategy : StrategyConfig) : result decided :=
  out ← enrich payload strategy;
  let context := mc_context out in
  plan0 ← build_plan context strategy;
  let plan := with_llm llm (fun rt plan => _apply_planner_llm_suggestion rt strategy context plan) plan0 in
  risk0 ← evaluate plan context strategy;
  let risk := with_llm llm (fun rt risk => _apply_risk_llm_suggestion rt strategy context plan risk) risk0 in
  proposed ← propose_action plan risk context strategy;
  let d := with_llm llm (fun rt d => _apply_execution_llm_suggestion rt strategy context plan risk d) proposed in
  g ← Agents.validate strategy context risk d;
  Ok {| de_context := out; de_plan := plan; de_risk := risk; de_decision := d; de_guardrail := g |}.

Lemma decision_of_inv llm payload strategy x :
  decision_of llm payload strategy = Ok x ->
  enrich payload strategy = Ok (de_context x) /\
  Agents.validate strategy (mc_context (de_context x)) (de_risk x) (de_decision x) = Ok (de_guardrail x).
Proof.
  unfold decision_of. cbv zeta. intros (out & Eo & H)%bind_Ok. apply bind_Ok in H as (p & _ & H). apply bind_Ok in H as (r & _ & H).
  apply bind_Ok in H as (d & _ & H). by apply bind_Ok in H as (g & Eg & [= <-]).
Qed.

Section frames.
Context {S L : Type} `{!ShortTermMemoryStore S} `{!LongTermMemoryStore L}.
#[local] Abbreviation AO := (AgentOrchestrator S L).

(** A step that leaves a part of the orchestrator alone; memory and metrics are
    not in that part. *)
Definition keeps {T A} (part : AO -> T) (m : prog AO A) : Prop := forall o, part (m o).1 = part o.

Class Inner {T} (part : AO -> T) : Prop := {
  inner_memory m o : part (put_memory m o) = part o;
  inner_metrics m o : part (put_metrics m o) = part o }.

#[export] Instance broker_inner : Inner ao_broker.
Proof. by split. Qed.
#[export] Instance llm_inner : Inner ao_llm_runtime.
Proof. by split. Qed.

Section part.
Context {T : Type} (part : AO -> T) `{!Inner part}.
#[local] Set Default Proof Using "Type".

Lemma keeps_ret {A} (a : A) : keeps part (mret a).
Proof. done. Qed.
Lemma keeps_lift {A} (r : result A) : keeps part (lift r).
Proof. done. Qed.
Lemma keeps_gets {A} (f : AO -> A) : keeps part (gets f).
Proof. done. Qed.
Lemma keeps_memory {A} (m : prog (AgentMemoryLayer S L) A) : keeps part (memory m).
Proof using Inner0. intros o. unfold memory, zoom. destruct (m (ao_memory o)). apply inner_memory. Qed.
Lemma keeps_bind {A B} (m : prog AO A) (f : A -> prog AO B) :
  keeps part m -> (forall a, keeps part (f a)) -> keeps part (m ≫= f).
Proof.
  intros Hm Hf o. unfold mbind, prog_bind. pose proof (Hm o) as E. destruct (m o) as [o' [a|e]]; simpl in *;
    [by rewrite Hf|done].
Qed.
Lemma keeps_stage {A} rd ids stage (m : prog AO A) : keeps part m -> keeps part (run_stage rd ids stage m).
Proof using Inner0.
  intros Hm o. unfold run_stage. pose proof (Hm o) as E. destruct (m o) as [o' [a|e]]; simpl in *; by rewrite inner_metrics.
Qed.

#[local] Hint Resolve keeps_ret keeps_lift keeps_gets keeps_memory keeps_stage : frame.

Lemma keeps_llm {A} rd ids stage (f : LLMDecisionRuntime -> A -> A) a :
  keeps part (llm_stage rd ids stage f a).
Proof using Inner0. apply keeps_bind; [auto with frame|]. intros [rt|]; auto with frame. Qed.

End part.

#[local] Hint Resolve keeps_ret keeps_lift keeps_gets keeps_memory keeps_stage keeps_llm broker_inner llm_inner : frame.

Lemma decide_keeps rd ids sc payload strategy : keeps ao_broker (decide_event rd ids sc payload strategy).
Proof. unfold decide_event. repeat (apply keeps_bind; [auto with frame|intros ?]). auto with frame. Qed.

(** What a step that returns has run. *)
Lemma stage_Ok {A} rd ids stage (m : prog AO A) o o' a :
  run_stage rd ids stage m o = (o', Ok a) -> exists o1, m o = (o1, Ok a).
Proof. unfold run_stage. destruct (m o) as [o1 [b|e]]; intros [= <- <-]. by exists o1. Qed.

Lemma llm_stage_Ok {A} rd ids stage (f : LLMDecisionRuntime -> A -> A) a (o o' : AO) b :
  llm_stage rd ids stage f a o = (o', Ok b) -> b = with_llm (ao_llm_runtime o) f a.
Proof.
  unfold llm_stage. rewrite gets_bind. destruct (ao_llm_runtime o) as [rt|]; [|by intros [= _ <-]].
  intros (o1 & [= _ <-])%stage_Ok. done.
Qed.

Lemma keeps_Ok {T A} (part : AO -> T) (m : prog AO A) o o' r : keeps part m -> m o = (o', r) -> part o' = part o.
Proof. intros Hk E. specialize (Hk o). by rewrite E in Hk. Qed.

(** The run decides what the reference decides, whatever memory and metrics do. *)
Lemma decide_reference rd ids sc payload strategy (o o' : AO) x :
  decide_event rd ids sc payload strategy o = (o', Ok x) -> decision_of (ao_llm_runtime o) payload strategy = Ok x.
Proof.
  unfold decide_event. cbv zeta. intros H.
  repeat match type of H with
  | (mbind _ _) _ = _ => let s := fresh "s" in let a := fresh "a" in let E := fresh "E" in let K := fresh "K" in
      apply prog_bind_Ok in H as (s & a & E & H);
      pose proof E as K; apply (keeps_Ok ao_llm_runtime) in K; [|solve [auto with frame]]
  end.
  injection H as _ <-. unfold decision_of.
  repeat match goal with
  | E : llm_stage _ _ _ _ _ _ = _ |- _ => apply llm_stage_Ok in E
  | E : run_stage _ _ _ (lift _) _ = _ |- _ => apply stage_Ok in E as (? & E); injection E as _ E
  end.
  repeat match goal with
  | E : ?f = Ok ?a |- context [?f] => rewrite E; cbn [mbind result_bind]; cbv zeta
  | E : ?a = with_llm (ao_llm_runtime ?s) _ _ |- _ =>
      replace (ao_llm_runtime s) with (ao_llm_runtime o) in E by congruence; rewrite <- E
  end.
  done.
Qed.

(** A step whose publications all satisfy [P], also when it raises. *)
Definition posts {A} (P : string * dict -> Prop) (m : prog AO A) : Prop := forall o,
  bindings_declared (ao_broker o) ->
  exists log, emits (ao_broker o) (ao_broker (m o).1) log /\ Forall P log.

Lemma keeps_posts {A} P (m : prog AO A) : keeps ao_broker m -> posts P m.
Proof. intros Hm o _. exists []. rewrite Hm. split; [apply emits_refl|constructor]. Qed.

Lemma posts_bind {A B} P (m : prog AO A) (f : A -> prog AO B) :
  posts P m -> (forall a, posts P (f a)) -> posts P (m ≫= f).
Proof.
  intros Hm Hf o Hd. destruct (Hm o Hd) as (l1 & E1 & P1). unfold mbind, prog_bind.
  destruct (m o) as [o1 [a|e]]; simpl in *; [|by exists l1].
  destruct (Hf a o1) as (l2 & E2 & P2); [by eapply emits_declared|].
  exists (l1 ++ l2). split; [by eapply emits_trans|by apply Forall_app].
Qed.

Lemma posts_each {A} (P : string * dict -> Prop) (f : A -> prog AO unit) l :
  Forall (fun a => posts P (f a)) l -> posts P (for_each f l).
Proof.
  induction 1 as [|a l Ha Hl IH]; [by apply keeps_posts|]. apply posts_bind; [done|intros _; exact IH].
Qed.
End frames.

(** ** Intents *)

Definition INTENT : string := "execution.intent.created".

Definition other_event (ev : dict) : Prop := dict_get "event_type" ev <> Some (VStr INTENT).
Definition not_intent (km : string * dict) : Prop := other_event km.2.

(** An intent the guardrails stand behind: the message on routing key [k] carries
    the action and the quantity of the decision [x] on the market payload, which has a
    risk approval, and the amounts of that payload - its position and the mid price
    of its book - keep the order within the limits of the strategy. *)
Definition guarded_intent (strategy : StrategyConfig) (mode : string) (payload : dict) (x : decided)
    (k : string) (m : dict) : Prop :=
  let d := de_decision x in
  exists intent symbol mid position,
    well_formed m /\ dict_get "mode" m = Some (VStr mode) /\ routing_key_for_mode mode = Ok k /\
    dict_get "payload" m = Some (VDict intent) /\
    dict_get "action" intent = Some (VStr (ed_action d)) /\
    dict_get "quantity" intent = Some (VFloat (ed_quantity d)) /\
    dict_get "symbol" intent = Some symbol /\
    symbol = dget_or "symbol" (VStr (sc_symbol strategy)) payload /\ py_str symbol = sc_symbol strategy /\
    ra_approved (de_risk x) = true /\
    ed_action d ∈ EXECUTABLE /\ upper (ed_action d) ∈ sc_allowed_actions strategy /\
    feqb (ed_quantity d) fzero = false /\
    (ed_action d = "BUY"%string -> dltb d0 (dec_of_repr (ed_quantity d)) = Ok true) /\
    (ed_action d = "SELL"%string -> dltb (dec_of_repr (ed_quantity d)) d0 = Ok true) /\
    dleb (dec_of_repr (sc_risk_min_confidence strategy)) (dec_of_repr (ed_confidence d)) = Ok true /\
    market_mid payload mid /\ amount_in payload "current_position" position /\
    within_limits strategy mid position (ed_quantity d).

(** A decision that may be published is within the limits. *)
Lemma published_within llm payload strategy x :
  decision_of llm payload strategy = Ok x -> should_publish_intent x = true ->
  let d := de_decision x in
  exists mid position,
    dict_get "symbol" (mc_context (de_context x)) = Some (dget_or "symbol" (VStr (sc_symbol strategy)) payload) /\
    py_str (dget_or "symbol" (VStr (sc_symbol strategy)) payload) = sc_symbol strategy /\
    ra_approved (de_risk x) = true /\ ed_action d ∈ EXECUTABLE /\ upper (ed_action d) ∈ sc_allowed_actions strategy /\
    feqb (ed_quantity d) fzero = false /\
    (ed_action d = "BUY"%string -> dltb d0 (dec_of_repr (ed_quantity d)) = Ok true) /\
    (ed_action d = "SELL"%string -> dltb (dec_of_repr (ed_quantity d)) d0 = Ok true) /\
    dleb (dec_of_repr (sc_risk_min_confidence strategy)) (dec_of_repr (ed_confidence d)) = Ok true /\
    market_mid payload mid /\ amount_in payload "current_position" position /\
    within_limits strategy mid position (ed_quantity d).
Proof.
  intros H Hs. cbv zeta. apply decision_of_inv in H as [He Hv]. unfold should_publish_intent in Hs. bool_hyps.
  match goal with H : gr_allowed _ = true |- _ =>
    destruct (validate_guarded _ _ _ _ _ Hv H) as (ex & Hpr & G) end.
  match goal with H : bool_decide _ = true |- _ => apply bool_decide_eq_true in H as Hact end.
  assert (upper (ed_action (de_decision x)) = ed_action (de_decision x)) as Hup.
  { revert Hact. unfold EXECUTABLE. rewrite !elem_of_cons, elem_of_nil. by intros [->|[->|[->|[]]]]. }
  destruct (enrich_view _ _ _ He) as (mid & pos & Hmid & Hpos & C1 & C2 & C3 & C4).
  assert (upper (ed_action (de_decision x)) ∈ EXECUTABLE) as Hx by (by rewrite Hup).
  destruct (gd_limits _ _ _ _ _ G Hx) as (_ & Hconf & _).
  exists mid, pos. split_and!; try done.
  - pose proof (gd_symbol _ _ _ _ _ G) as Hsy. unfold dget_or at 1 in Hsy. by rewrite C3 in Hsy.
  - apply (gd_action _ _ _ _ _ G).
  - intros E. pose proof (gd_semantics _ _ _ _ _ G) as Hsem. by rewrite Hup, E in Hsem.
  - intros E. pose proof (gd_semantics _ _ _ _ _ G) as Hsem. by rewrite Hup, E in Hsem.
  - by eapply guarded_within.
Qed.

Lemma agent_envelope_inv rd ids et key payload ev :
  _build_envelope rd ids et key payload = Ok ev ->
  ev = agent_envelope rd ids et key payload /\ well_formed ev.
Proof.
  unfold _build_envelope. cbv zeta. intros H. apply bind_Ok in H as ([] & Hv & H). injection H as <-.
  split; [done|]. by eapply validates_well_formed.
Qed.

Ltac agent_events :=
  repeat match goal with
  | H : mbind _ _ = Ok _ |- _ => apply bind_Ok in H as (? & ? & H)
  | H : Ok _ = Ok _ |- _ => injection H as <-
  | H : _build_envelope _ _ _ _ _ = Ok _ |- _ => apply agent_envelope_inv in H as [-> _]
  end;
  repeat (constructor; [unfold other_event, agent_envelope; simpl; try (case_match; discriminate); discriminate|]);
  constructor.

Lemma opening_other rd ids strategy x l :
  opening_events rd ids strategy x = Ok l -> Forall other_event l.
Proof.
  unfold opening_events. cbv zeta. intros H. agent_events.
Qed.

Lemma verdict_other rd ids strategy x l :
  verdict_events rd ids strategy x = Ok l -> Forall other_event l.
Proof. unfold verdict_events. cbv zeta. intros H. agent_events. Qed.

Section publishing.
Context {S L : Type} `{!ShortTermMemoryStore S} `{!LongTermMemoryStore L}.
#[local] Abbreviation AO := (AgentOrchestrator S L).

(** Publishing the intent sends nothing, or one guarded intent. *)
Lemma publish_intent_spec rd ids llm payload strategy x (o : AO) :
  decision_of llm payload strategy = Ok x ->
  bindings_declared (ao_broker o) ->
  let '(o', out) := publish_intent rd ids strategy x o in
  (o' = o /\ (forall r, out = Ok r -> r = (None, []))) \/
  exists k m b', o' = put_broker b' o /\ emits (ao_broker o) b' [(k, m)] /\
    dict_get "event_type" m = Some (VStr INTENT) /\ guarded_intent strategy (ri_mode ids) payload x k m /\
    forall r, out = Ok r -> r.1 = Some m /\ Forall other_event r.2.
Proof.
  intros Hv Hd. unfold publish_intent. destruct (should_publish_intent x) eqn:Hs; cycle 1.
  { left. split; [done|]. by intros r [= <-]. }
  unfold mbind, prog_bind, lift.
  destruct (intent_payload ids strategy x) as [body|e] eqn:Ep; [|by left; split].
  destruct (_build_envelope rd ids _ _ body) as [intent|e] eqn:Ei; [|by left; split].
  destruct (route_execution_intent (VDict intent)) as [k|e] eqn:Er; [|by left; split].
  destruct (assert_no_mode_leakage k (VDict intent)) as [[]|e]; [|by left; split].
  destruct (dict_index "symbol" _) as [symbol|e] eqn:Esym; [|by left; split].
  destruct (_build_envelope rd ids "agent.decision.intent_published" _ _) as [pub|e] eqn:Eb; [|by left; split].
  destruct (broker_publish_emits k intent (ao_broker o) Hd) as (b' & receipt & E & He).
  unfold zoom. rewrite E. right. exists k, intent, b'. split; [done|]. split; [done|].
  apply agent_envelope_inv in Ei as [-> Hwf]. split; [done|].
  apply agent_envelope_inv in Eb as [-> _]. split; cycle 1.
  { intros r [= <-]. split; [done|]. constructor; [|constructor]. unfold other_event. done. }
  destruct (published_within _ _ _ _ Hv Hs) as (mid & pos & Hsym & Hrest).
  unfold route_execution_intent in Er. apply bind_Ok in Er as ([] & _ & Er).
  apply bind_Ok in Er as ([] & _ & Er). simpl in Er.
  unfold intent_payload in Ep. cbv zeta in Ep. apply bind_Ok in Ep as (sym & Es & Ep).
  apply bind_Ok in Ep as (market & _ & Ep). injection Ep as <-.
  unfold dict_index in Es. rewrite Hsym in Es. injection Es as <-.
  eexists _, _, mid, pos. do 2 (split; [done|]). split; [exact Er|]. do 5 (split; [reflexivity|]). exact Hrest.
Qed.

Lemma notification_other bridge now uuid4 event :
  other_event (notification_envelope bridge now uuid4 "notify.strategy.event" event).
Proof. unfold other_event, notification_envelope. simpl. discriminate. Qed.

Lemma publish_lifecycle_posts rd ievent :
  other_event ievent.2 -> posts (S := S) (L := L) not_intent (publish_lifecycle rd ievent).
Proof.
  destruct ievent as [i event]. simpl. intros He o Hd. unfold publish_lifecycle, zoom, mbind, prog_bind.
  destruct (broker_publish_emits "strategy.decision.lifecycle" event (ao_broker o) Hd) as (b1 & r1 & -> & H1).
  destruct (ao_notification_bridge o) as [bridge|]; cycle 1.
  { exists [("strategy.decision.lifecycle"%string, event)]. by split; [|apply Forall_singleton]. }
  unfold publish_strategy_event, _publish_from_source, mbind, prog_bind, lift.
  set (env := notification_envelope bridge (rd_notify rd i) (rd_uuid4 rd i) "notify.strategy.event" event).
  destruct (validate_envelope (VDict env)) as [[]|e]; cycle 1.
  { exists [("strategy.decision.lifecycle"%string, event)]. by split; [|apply Forall_singleton]. }
  destruct (broker_publish_emits (nb_routing_key bridge) env b1) as (b2 & r2 & -> & H2);
    [by eapply emits_declared|].
  exists [("strategy.decision.lifecycle"%string, event); (nb_routing_key bridge, env)]. split.
  - exact (emits_trans _ _ _ _ _ H1 H2).
  - constructor; [done|]. apply Forall_singleton. apply notification_other.
Qed.
End publishing.

(** ** Every published intent is guarded *)

Section safety.
Context {S L : Type} `{!ShortTermMemoryStore S} `{!LongTermMemoryStore L}.
#[local] Abbreviation AO := (AgentOrchestrator S L).

(** What [orchestrate] publishes once the agents have decided. *)
Lemma persist_and_announce_posts rd ids sc x lifecycle (res : OrchestrationResult) :
  Forall other_event lifecycle ->
  posts (S := S) (L := L) not_intent
    (_ ← run_stage rd ids "memory_persist"
       (memory (persist_decision_summary (rd_persist rd) (ri_trace ids) sc (status_of x)
          (mc_context (de_context x)) (plan_dict (de_plan x)) (risk_summary (de_risk x))
          (decision_dict (de_decision x)) (guardrail_dict (de_guardrail x)) lifecycle));
     _ ← for_each (publish_lifecycle rd) (imap pair lifecycle);
     mret res).
Proof.
  intros Hl. apply posts_bind; [apply keeps_posts, (keeps_stage ao_broker), (keeps_memory ao_broker)|intros _].
  apply posts_bind; [|intros _; apply keeps_posts, keeps_ret]. apply posts_each.
  apply Forall_forall. intros [i ev] Hin. apply publish_lifecycle_posts. simpl.
  apply list_elem_of_lookup in Hin as (j & Hj). rewrite list_lookup_imap in Hj.
  destruct (lifecycle !! j) as [ev'|] eqn:Ej; [|done]. injection Hj as <- <-.
  rewrite Forall_forall in Hl. by apply Hl, list_elem_of_lookup_2 with j.
Qed.

(** What a run publishes: nothing but other events, or one guarded intent first. *)
Definition safe_log (llm : option LLMDecisionRuntime) (strategy : StrategyConfig) (mode : string) (payload : dict)
    (log : list (string * dict)) : Prop :=
  Forall not_intent log \/
  exists x k m rest, decision_of llm payload strategy = Ok x /\ log = (k, m) :: rest /\
    dict_get "event_type" m = Some (VStr INTENT) /\ guarded_intent strategy mode payload x k m /\ Forall not_intent rest.

Lemma orchestrate_safe rd ids payload strategy (o : AO) :
  bindings_declared (ao_broker o) ->
  exists log, emits (ao_broker o) (ao_broker (orchestrate rd ids payload strategy o).1) log /\
    safe_log (ao_llm_runtime o) strategy (ri_mode ids) payload log.
Proof.
  intros Hd. unfold orchestrate. cbv zeta. set (sc := Scope _ _ _).
  assert (Hnone : forall b, b = ao_broker o -> exists log, emits (ao_broker o) b log /\
    safe_log (ao_llm_runtime o) strategy (ri_mode ids) payload log).
  { intros b ->. exists []. split; [apply emits_refl|by left]. }
  unfold mbind at 1, prog_bind at 1.
  pose proof (decide_keeps rd ids sc payload strategy o) as K1.
  destruct (decide_event rd ids sc payload strategy o) as [o1 [x|e]] eqn:Ed; [|by apply Hnone].
  apply decide_reference in Ed as Hv. cbn [fst] in K1. unfold mbind at 1, prog_bind at 1, lift at 1.
  destruct (opening_events rd ids strategy x) as [opening|e] eqn:Eo; [|by apply Hnone].
  unfold mbind at 1, prog_bind at 1.
  pose proof (keeps_memory ao_broker (write_decision_slot sc "status" [("status"%string, VStr (status_of x))]) o1) as K2.
  destruct (memory _ o1) as [o2 [[]|e]]; cbn [fst] in K2; [|apply Hnone; cbn [fst]; congruence].
  unfold mbind at 1, prog_bind at 1, lift at 1.
  destruct (verdict_events rd ids strategy x) as [verdict|e] eqn:Ev; [|apply Hnone; cbn [fst]; congruence].
  rewrite <- K1, <- K2 in Hd.
  pose proof (publish_intent_spec rd ids _ payload strategy x o2 Hv Hd) as Hi.
  unfold mbind at 1, prog_bind at 1.
  destruct (publish_intent rd ids strategy x o2) as [o3 [[intent announced]|e]].
  - assert (Hother : Forall other_event announced ->
      Forall other_event (opening ++ verdict ++ announced)).
    { intros Ha. apply Forall_app. split; [exact (opening_other _ _ _ _ _ Eo)|].
      apply Forall_app. split; [exact (verdict_other _ _ _ _ _ Ev)|done]. }
    destruct Hi as [[-> Hr]|(k & m & b' & -> & He & Ht & Hg & Hr)].
    + pose proof (Hr _ eq_refl) as Er. injection Er as -> ->.
      destruct (persist_and_announce_posts rd ids sc x (opening ++ verdict ++ [])
        {| or_ids := ids; or_status := status_of x; or_lifecycle := opening ++ verdict ++ [];
           or_decided := x; or_execution_intent := None |} (Hother (Forall_nil_2 _)) o2 Hd)
        as (log & Hl & Hn).
      exists log. rewrite K2, K1 in Hl. split; [exact Hl|by left].
    + destruct (Hr _ eq_refl) as [Hm Ha].
      destruct (persist_and_announce_posts rd ids sc x (opening ++ verdict ++ announced)
        {| or_ids := ids; or_status := status_of x; or_lifecycle := opening ++ verdict ++ announced;
           or_decided := x; or_execution_intent := intent |} (Hother Ha) (put_broker b' o2))
        as (log & Hl & Hn); [by eapply emits_declared|].
      exists ((k, m) :: log). split; [|right; by exists x, k, m, log].
      rewrite K2, K1 in He. exact (emits_trans _ _ _ _ _ He Hl).
  - destruct Hi as [[-> _]|(k & m & b' & -> & He & Ht & Hg & _)]; [apply Hnone; cbn [fst]; congruence|].
    exists [(k, m)]. rewrite K2, K1 in He. split; [exact He|]. right. by exists x, k, m, [].
Qed.

(** C1. No agent, language model or memory store can get an order past the
    guardrails: whatever the LLM runtime answers (or raises), whatever the
    stores do, and whether or not the run ends in an exception, handling a
    market event publishes at most one execution intent, before everything
    else, on the routing key of the event's own mode. That intent is a valid
    envelope with the action and quantity of the decision that the agents, the
    model and the guardrails take on the event's payload ([decision_of]); the final
    risk assessment approves; symbol, action, sign and confidence are what
    the strategy allows; and with the position of the payload and the mid price
    of its book, the projected position, the notional and the leverage
    (with the price of one unit in place of the equity) are within the strategy's
    limits. *)
Theorem published_intents_guarded rd envelope strategy (o : AO) :
  bindings_declared (ao_broker o) ->
  exists log, emits (ao_broker o) (ao_broker (handle_market_event rd envelope strategy o).1) log /\
    (Forall not_intent log \/
     exists env mode payload x k m rest, envelope = VDict env /\ dict_get "mode" env = Some (VStr mode) /\
       dict_get "payload" env = Some (VDict payload) /\ decision_of (ao_llm_runtime o) payload strategy = Ok x /\
       log = (k, m) :: rest /\ dict_get "event_type" m = Some (VStr INTENT) /\
       guarded_intent strategy mode payload x k m /\ Forall not_intent rest).
Proof.
  intros Hd. unfold handle_market_event.
  assert (Hnone : exists log, emits (ao_broker o) (ao_broker o) log /\ Forall not_intent log)
    by (exists []; split; [apply emits_refl|done]).
  destruct Hnone as (l0 & He0 & Hn0).
  destruct (validate_envelope envelope) as [u|e] eqn:Hv; [|exists l0; by split; [|left]].
  destruct u. apply validate_envelope_iff in Hv as (env & -> & [_ _ (mode & Hm & _) _ _ _ (payload & Hpl)]).
  unfold mbind, prog_bind, lift. destruct (raise_if _ _ _) as [u|e]; [|exists l0; by split; [|left]].
  unfold dict_index. rewrite Hm. destruct (dict_get "trace_id" env) as [tr|]; [|exists l0; by split; [|left]].
  destruct (dict_get "decision_id" env) as [dc|]; [|exists l0; by split; [|left]].
  rewrite Hpl.
  destruct (orchestrate_safe rd (Ids (py_str tr) (py_str dc) (py_str (VStr mode)) (ao_service_name o))
    payload strategy o Hd) as (log & He & [Hl|(x & k & m & rest & Hl)]).
  - exists log. split; [exact He|by left].
  - exists log. split; [exact He|]. right. exists env, mode, payload, x, k, m, rest. cbn [ri_mode py_str] in Hl. tauto.
Qed.
End safety.

(** ** Concrete runs *)

Module Example.
Definition market_event (position drawdown : f64) : dict :=
  [("trace_id", VStr "11111111-1111-4111-8111-111111111111");
   ("decision_id", VStr "22222222-2222-4222-8222-222222222222"); ("mode", VStr "MOCK");
   ("idempotency_key", VStr "market.canonical.orderbook_delta:binance:BTC/USDT:42");
   ("event_type", VStr "market.canonical.orderbook_delta"); ("emitted_at", VStr "2024-05-01T12:00:00Z");
   ("payload", VDict (Agents.Example.payload position drawdown))].
Definition broker : InMemoryTopicBroker :=
  {| br_queues := {["intents"%string := ([] : list dict)]};
     br_bindings := {["execution.intent.*"%string := {["intents"%string]}]} |}.
Definition orchestrator (llm : option LLMDecisionRuntime) : AgentOrchestrator unit unit :=
  {| ao_broker := broker; ao_metrics := agent_metrics_init; ao_memory := Memory tt tt 900;
     ao_llm_runtime := llm; ao_notification_bridge := Some default_bridge;
     ao_service_name := "agent_orchestrator" |}.
Definition rd : readings :=
  {| rd_mono := fun _ _ => fzero; rd_span := fun _ _ => 63850000000000000;
     rd_emit := fun _ => 63850000000000000; rd_persist := 63850000000000000;
     rd_notify := fun _ => 63850000000000000; rd_uuid4 := fun i => Z.of_nat i |}.
Definition handled (llm : option LLMDecisionRuntime) (position drawdown : f64) :=
  handle_market_event rd (VDict (market_event position drawdown)) Agents.Example.strategy (orchestrator llm).
Definition intents (out : AgentOrchestrator unit unit * result OrchestrationResult) : option nat :=
  List.length <$> br_queues (ao_broker out.1) !! "intents"%string.

(** A model that approves whatever the risk agent says. *)
Definition yes_man : LLMDecisionRuntime :=
  {| llm_generate := fun call =>
       Ok {| lr_provider := "openai"; lr_model := "m";
             lr_content := match call with RiskCall _ _ _ _ => "{approve}" | _ => "" end |};
     llm_json_loads := fun s =>
       if String.eqb s "{approve}" then Ok (VDict [("approved"%string, VBool true)])
       else raise JSONDecodeError "Expecting value" |}.
End Example.

Lemma published_intents_guarded_witness :
  Example.intents (Example.handled None fone fzero) = Some 1%nat /\
  exists log, emits Example.broker (ao_broker (Example.handled None fone fzero).1) log.
Proof.
  split; [vm_compute; reflexivity|].
  destruct (published_intents_guarded Example.rd (VDict (Example.market_event fone fzero))
    Agents.Example.strategy (Example.orchestrator None)) as (log & He & _).
  - intros p s q Hp Hs. simpl in Hp. apply lookup_singleton_Some in Hp as [<- <-].
    apply elem_of_singleton in Hs as ->. by eexists.
  - exists log. exact He.
Defined.

(** A model can overrule the risk agent: at a drawdown of 50 % with a limit of
    10 % the agents alone reject the plan; a model that answers the risk prompt
    with an approval gets the order published, since the drawdown limit is not
    among the guardrails. *)
Lemma llm_overrules_drawdown_limit :
  ra_blocked_by (Agents.Example.risk fone (flit 5 (-1))) = ["drawdown_limit"%string] /\
  Example.intents (Example.handled None fone (flit 5 (-1))) = Some 0%nat /\
  Example.intents (Example.handled (Some Example.yes_man) fone (flit 5 (-1))) = Some 1%nat.
Proof. vm_compute. done. Qed.
