(* ===== verification/OrchestratorWorker.v ===== *)
(** * The orchestrator worker

    [services/workers/orchestrator.py] and [AgentOrchestratorRuntimeWorker] of
    [services/workers/runtime_pipeline.py]: the next market event is consumed from the
    broker, the orchestrator of [Orchestrator.v] decides on it, and the runner stores the
    cycle in the trace store of [TraceStore.v]: one run per agent with what it was given
    and what it decided. The consumer shares the in-memory broker with the orchestrator.
    Readings of the clock are arguments. *)

From S2P Require Import Prelude PyStr PyFloat PyTime PyUuid PyVal PyJson Envelope Broker OmsStore Agents LlmRuntime AgentMemory Replay TraceStore Orchestrator.
From stdpp Require Import options.
From Stdlib Require Import Ascii String.

#[local] Open Scope Z_scope.

(** ** Payloads of the stages *)

(** [asdict]: the fields in the order of their declaration. *)
Definition risk_asdict (risk : RiskAssessment) : dict :=
  [("approved", VBool (ra_approved risk)); ("approved_quantity", VFloat (ra_approved_quantity risk));
   ("signals", VList (signal_dict <$> ra_signals risk)); ("blocked_by", strs (ra_blocked_by risk));
   ("risk_score", VFloat (ra_risk_score risk)); ("rationale", strs (ra_rationale risk))].

Definition guardrail_asdict (g : GuardrailValidationResult) : dict :=
  [("allowed", VBool (gr_allowed g)); ("blocked_by", strs (gr_blocked_by g)); ("violations", VList (violation_dict <$> gr_violations g));
   ("checks", VDict ((fun kv => (kv.1, VBool kv.2)) <$> gr_checks g))].

Definition strategy_asdict (s : StrategyConfig) : dict :=
  [("strategy_id", VStr (sc_strategy_id s)); ("symbol", VStr (sc_symbol s)); ("mode", VStr (sc_mode s));
   ("order_size", VFloat (sc_order_size s)); ("planner_buy_threshold", VFloat (sc_planner_buy_threshold s));
   ("planner_sell_threshold", VFloat (sc_planner_sell_threshold s)); ("risk_max_notional_usd", VFloat (sc_risk_max_notional_usd s));
   ("risk_max_position_size", VFloat (sc_risk_max_position_size s)); ("risk_max_drawdown_pct", VFloat (sc_risk_max_drawdown_pct s));
   ("risk_min_confidence", VFloat (sc_risk_min_confidence s)); ("max_leverage", VFloat (sc_max_leverage s));
   ("allowed_actions", strs (sc_allowed_actions s))].

Definition _safe_mapping (v : val) : dict := match v with VDict d => d | _ => [] end.
Definition _safe_list (v : val) : list val := match v with VList l => l | _ => [] end.

Definition _context_stage_input (last_market_envelope : option dict) : dict :=
  match last_market_envelope with
  | None => []
  | Some envelope =>
      match dget "payload" envelope with
      | VDict payload =>
          [("exchange", dget "exchange" payload); ("symbol", dget "symbol" payload); ("timestamp_ms", dget "timestamp_ms" payload);
           ("bids", VList (_safe_list (dget "bids" payload))); ("asks", VList (_safe_list (dget "asks" payload)));
           ("news", VDict (_safe_mapping (dget "news" payload)))]
      | _ => []
      end
  end.

Definition _context_stage_output (x : decided) : dict :=
  let o := de_context x in
  [("context", VDict (mc_context o)); ("microstructure", VDict (mc_microstructure o)); ("news", VDict (mc_news o));
   ("quality", VDict (mc_quality o)); ("notes", strs (mc_notes o))].
Definition _planner_stage_input (x : decided) : dict := [("market_context"%string, VDict (mc_context (de_context x)))].
Definition _planner_stage_output (x : decided) : dict := plan_dict (de_plan x).
Definition _risk_stage_input (x : decided) (strategy : StrategyConfig) : dict :=
  [("plan", VDict (plan_dict (de_plan x))); ("market_context", VDict (mc_context (de_context x)));
   ("strategy", VDict (strategy_asdict strategy))].
Definition _risk_stage_output (x : decided) : dict := risk_asdict (de_risk x).
Definition _execution_stage_input (x : decided) : dict :=
  [("plan", VDict (plan_dict (de_plan x))); ("risk", VDict (risk_asdict (de_risk x)));
   ("market_context", VDict (mc_context (de_context x)))].
Definition _execution_stage_output (x : decided) : dict := decision_dict (de_decision x).
Definition _guardrail_stage_input (x : decided) : dict :=
  [("plan", VDict (plan_dict (de_plan x))); ("risk", VDict (risk_asdict (de_risk x)));
   ("execution_decision", VDict (decision_dict (de_decision x))); ("market_context", VDict (mc_context (de_context x)))].
Definition _guardrail_stage_output (x : decided) : dict := guardrail_asdict (de_guardrail x).

(** ** The runs of a cycle *)

Definition emitted_or (now : Z) (event : option dict) : string :=
  match event with
  | Some e => match dget "emitted_at" e with VStr s => if is_empty (strip s) then iso_z now else s | _ => iso_z now end
  | None => iso_z now
  end.
Definition _decision_started_at (now : Z) (lifecycle : list dict) : string := emitted_or now (head lifecycle).
Definition _decision_completed_at (now : Z) (lifecycle : list dict) : string := emitted_or now (last lifecycle).

(** The last hundred spans are looked at. *)
Definition _decision_spans (metrics : AgentRuntimeMetrics) (decision_id : string) : list TraceSpan :=
  let spans := rm_spans metrics in
  List.filter (fun s => String.eqb (ts_decision_id s) decision_id) (drop (List.length spans - 100) spans).

(** [span_by_stage.get(stage)]: the last span of a stage is kept. *)
Definition span_of (spans : list TraceSpan) (stage : string) : option TraceSpan :=
  List.find (fun s => String.eqb (ts_stage s) stage) (reverse spans).

(** The stages in order: key of the span, agent, input and output. *)
Definition ordered_stages (x : decided) (strategy : StrategyConfig) (envelope : option dict) : list (string * string * (dict * dict)) :=
  [("market_context_agent", "context", (_context_stage_input envelope, _context_stage_output x));
   ("planner_agent", "planner", (_planner_stage_input x, _planner_stage_output x));
   ("risk_agent", "risk", (_risk_stage_input x strategy, _risk_stage_output x));
   ("execution_decision_agent", "execution", (_execution_stage_input x, _execution_stage_output x));
   ("guardrail_validation", "guardrail", (_guardrail_stage_input x, _guardrail_stage_output x))]%string.

Definition trace_run (now : Z) (lifecycle : list dict) (spans : list TraceSpan) (stage : string * string * (dict * dict)) : TraceAgentRun :=
  let '(key, name, (input, output)) := stage in
  match span_of spans key with
  | None =>
      {| ta_agent_name := name; ta_status := "succeeded"; ta_latency_ms := None; ta_started_at := _decision_started_at now lifecycle;
         ta_completed_at := Some (_decision_completed_at now lifecycle); ta_input_payload := input; ta_output_payload := output |}
  | Some span =>
      {| ta_agent_name := name; ta_status := ts_status span; ta_latency_ms := Some (ts_latency_ms span); ta_started_at := ts_started_at span;
         ta_completed_at := (if is_empty (ts_completed_at span) then None else Some (ts_completed_at span));
         ta_input_payload := input; ta_output_payload := output |}
  end.

Definition _build_trace_runs (now : string -> Z) (result : OrchestrationResult) (strategy : StrategyConfig) (envelope : option dict)
    (spans : list TraceSpan) : list TraceAgentRun :=
  (fun stage => trace_run (now stage.1.1) (or_lifecycle result) spans stage) <$> ordered_stages (or_decided result) strategy envelope.

(** ** News links *)

Definition _maybe_uuid (value : val) : option string :=
  let raw := match value with VNone => "" | _ => strip (py_str value) end in
  if is_empty raw then None else uuid_canonical raw.

Definition item_news_id (item : val) : option string :=
  match item with VDict d => _maybe_uuid (dget "news_id" d) | _ => None end.

Definition _decision_news_links (last_market_envelope : option dict) : list (string * string) :=
  match last_market_envelope with
  | None => []
  | Some envelope =>
      match dget "payload" envelope with
      | VDict payload =>
          match dget "news" payload with
          | VDict news =>
              match _maybe_uuid (dget "summary_id" news) with
              | None => []
              | Some summary_id =>
                  let ids := omap (M := list) _maybe_uuid (_safe_list (dget "news_ids" news)) ++
                             omap (M := list) item_news_id (_safe_list (dget "items" news)) in
                  pair summary_id <$> dedupe_by id ids
              end
          | _ => []
          end
      | _ => []
      end
  end.

(** ** Activity *)

Definition LLM_PREFIX : string := "llm_provider=".

Definition provider_tag (item : string) : option string :=
  let value := strip item in
  if starts_with LLM_PREFIX value then
    let provider_model := strip (str_drop (String.length LLM_PREFIX) value) in
    if is_empty provider_model then None else Some provider_model
  else None.

Definition _extract_llm_provider_tags (rationales : list (list string)) : list string :=
  dedupe_by id (omap (M := list) provider_tag (List.concat rationales)).

(** [totals] is what the metrics say of the LLM calls. *)
Definition _orchestrator_activity_payload (result : OrchestrationResult) (strategy : StrategyConfig) (totals : dict) : dict :=
  let x := or_decided result in
  let ids := or_ids result in
  [("event", VStr "agent.decision.completed"); ("trace_id", VStr (ri_trace ids)); ("decision_id", VStr (ri_decision ids));
   ("strategy_id", VStr (sc_strategy_id strategy)); ("mode", VStr (ri_mode ids)); ("status", VStr (or_status result));
   ("symbol", VStr (sc_symbol strategy)); ("action", VStr (ed_action (de_decision x)));
   ("quantity", VFloat (or_zero (ed_quantity (de_decision x)))); ("confidence", VFloat (or_zero (ed_confidence (de_decision x))));
   ("risk_approved", VBool (ra_approved (de_risk x))); ("guardrail_allowed", VBool (gr_allowed (de_guardrail x)));
   ("llm_provider_models", strs (_extract_llm_provider_tags [pd_rationale (de_plan x); ra_rationale (de_risk x); ed_rationale (de_decision x)]));
   ("llm_usage", VDict totals)].

(** ** The worker and the runner *)

Section runner.
Context {S L : Type} `{!ShortTermMemoryStore S} `{!LongTermMemoryStore L}.

Record OrchestratorWorkerRunner := {
  rw_orchestrator : AgentOrchestrator S L;
  rw_queue_name : string;
  rw_last_envelope : option dict;
  rw_strategy : StrategyConfig;
  rw_trace_store : option trace_db;
  rw_last_activity : dict }.

Definition put_worker (o : AgentOrchestrator S L) (envelope : option dict) (w : OrchestratorWorkerRunner) : OrchestratorWorkerRunner :=
  {| rw_orchestrator := o; rw_queue_name := rw_queue_name w; rw_last_envelope := envelope; rw_strategy := rw_strategy w;
     rw_trace_store := rw_trace_store w; rw_last_activity := rw_last_activity w |}.
Definition put_trace_store (t : option trace_db) (w : OrchestratorWorkerRunner) : OrchestratorWorkerRunner :=
  {| rw_orchestrator := rw_orchestrator w; rw_queue_name := rw_queue_name w; rw_last_envelope := rw_last_envelope w; rw_strategy := rw_strategy w;
     rw_trace_store := t; rw_last_activity := rw_last_activity w |}.
Definition put_activity (a : dict) (w : OrchestratorWorkerRunner) : OrchestratorWorkerRunner :=
  {| rw_orchestrator := rw_orchestrator w; rw_queue_name := rw_queue_name w; rw_last_envelope := rw_last_envelope w; rw_strategy := rw_strategy w;
     rw_trace_store := rw_trace_store w; rw_last_activity := a |}.

(** [AgentOrchestratorRuntimeWorker.run_once] *)
Definition worker_run_once (rd : readings) : prog OrchestratorWorkerRunner (option OrchestrationResult) := fun w =>
  let o := rw_orchestrator w in
  match consume (rw_queue_name w) (ao_broker o) with
  | Raise e => (w, Raise e)
  | Ok (b, None) => (put_worker (put_broker b o) None w, Ok None)
  | Ok (b, Some envelope) =>
      let '(o', r) := handle_market_event rd (VDict envelope) (rw_strategy w) (put_broker b o) in
      (put_worker o' (Some envelope) w, match r with Ok result => Ok (Some result) | Raise e => Raise e end)
  end.

(** The cycle as it is stored; [now] are the readings of the clock where the lifecycle has
    no time. *)
Definition store_cycle (now : string -> Z) (result : OrchestrationResult) : prog OrchestratorWorkerRunner unit := fun w =>
  match rw_trace_store w with
  | None => (w, Ok tt)
  | Some store =>
      let ids := or_ids result in
      let metrics := ao_metrics (rw_orchestrator w) in
      let '(store', r) := persist_cycle (ri_trace ids) (ri_decision ids) (sc_strategy_id (rw_strategy w)) (ri_mode ids) (or_status result)
        (_decision_started_at (now "started_at"%string) (or_lifecycle result))
        (Some (_decision_completed_at (now "completed_at"%string) (or_lifecycle result)))
        (_build_trace_runs now result (rw_strategy w) (rw_last_envelope w) (_decision_spans metrics (ri_decision ids)))
        (_decision_news_links (rw_last_envelope w)) store in
      (put_trace_store (Some store') w, r)
  end.

Definition runner_run_once (rd : readings) (now : string -> Z) (totals : dict) : prog OrchestratorWorkerRunner bool :=
  result ← worker_run_once rd;
  match result with
  | None =>
      _ ← modify (fun w => put_activity [("event", VStr "no_market_event"); ("strategy_id", VStr (sc_strategy_id (rw_strategy w)))] w);
      mret false
  | Some result =>
      _ ← store_cycle now result;
      _ ← modify (fun w => put_activity (_orchestrator_activity_payload result (rw_strategy w) totals) w);
      mret true
  end.

(** ** What is stored is what was decided *)

Lemma worker_once_Ok rd w w' result :
  worker_run_once rd w = (w', Ok (Some result)) ->
  exists envelope b q, br_queues (ao_broker (rw_orchestrator w)) !! rw_queue_name w = Some (envelope :: q) /\
    handle_market_event rd (VDict envelope) (rw_strategy w) (put_broker b (rw_orchestrator w)) = (rw_orchestrator w', Ok result) /\
    rw_trace_store w' = rw_trace_store w /\ rw_strategy w' = rw_strategy w /\ rw_last_envelope w' = Some envelope.
Proof.
  unfold worker_run_once, consume. destruct (br_queues _ !! _) as [[|envelope q]|] eqn:Eq; [done| |done].
  destruct (handle_market_event _ _ _ _) as [o' [r|]] eqn:E; [|done]. intros [= <- <-].
  exists envelope. eexists _, q. by split_and!.
Qed.
End runner.
Arguments OrchestratorWorkerRunner : clear implicits.

Section replayable.
Context {S L : Type} `{!ShortTermMemoryStore S} `{!LongTermMemoryStore L}.
#[local] Abbreviation Runner := (OrchestratorWorkerRunner S L).

Lemma handled_status rd envelope strategy (o o' : AgentOrchestrator S L) result :
  handle_market_event rd envelope strategy o = (o', Ok result) -> or_status result = status_of (or_decided result).
Proof.
  unfold handle_market_event. destruct (validate_envelope envelope); [|done]. destruct envelope; try done.
  intros H. do 5 (apply prog_bind_Ok in H as (? & ? & _ & H)). unfold orchestrate in H.
  do 4 (apply prog_bind_Ok in H as (? & ? & _ & H)).
  apply prog_bind_Ok in H as (? & [intent announced] & _ & H). do 2 (apply prog_bind_Ok in H as (? & ? & _ & H)).
  by injection H as _ <-.
Qed.

Definition run_safeb (run : TraceAgentRun) : bool :=
  json_safe (VDict (ta_input_payload run)) && json_safe (VDict (ta_output_payload run)).
Lemma runs_safe runs : forallb run_safeb runs = true -> Forall run_safe runs.
Proof.
  intros H. rewrite forallb_forall in H. apply Forall_forall. intros run Hr. apply list_elem_of_In, H, andb_true_iff in Hr. exact Hr.
Qed.

(** What each agent decided. *)
Definition agent_outputs (x : decided) : list (string * dict) :=
  [("context", _context_stage_output x); ("planner", plan_dict (de_plan x)); ("risk", risk_asdict (de_risk x));
   ("execution", decision_dict (de_decision x)); ("guardrail", guardrail_asdict (de_guardrail x))]%string.

Lemma trace_runs_outputs now result strategy envelope spans :
  (fun run => (ta_agent_name run, ta_output_payload run)) <$> _build_trace_runs now result strategy envelope spans =
  agent_outputs (or_decided result).
Proof.
  unfold _build_trace_runs. rewrite <- list_fmap_compose.
  transitivity ((fun st : string * string * (dict * dict) => (st.1.2, st.2.2)) <$> ordered_stages (or_decided result) strategy envelope); [|done].
  apply list_fmap_ext. intros i [[key name] [input output]] _. cbn. by destruct (span_of spans key).
Qed.

Lemma order_by2_elem {R} (a b : R -> string) l x : x ∈ order_by2 a b l <-> x ∈ l.
Proof. unfold order_by2. by rewrite sort_by_perm. Qed.

(** The stored runs of a decision: each output of an agent is the output message of a run of
    that agent. *)
Definition replays (decision_id status : string) (outputs : list (string * dict)) (store : trace_db) : Prop :=
  (exists t, read_decision_trace decision_id store = (store, Ok (Some t)) /\ tr_status t = status) /\
  exists listed ids, list_agent_runs decision_id store = (store, Ok listed) /\ NoDup ids /\
    Forall2 (fun run_id nameout =>
      (exists run, run ∈ listed /\ ar_agent_run_id run = run_id /\ ar_agent_name run = nameout.1) /\
      exists messages m, list_agent_messages run_id store = (store, Ok messages) /\
        m ∈ messages /\ mg_role m = "output"%string /\ mg_payload_json m = VDict nameout.2) ids outputs.

(** C34. What a decision was is what a replay of it shows: when the worker has taken a market
    event and stored its cycle, the trace under the decision's id has the status the risk agent and
    the guardrails gave it, and each of the five agents has a run whose output message
    is exactly what that agent decided. *)
Theorem decisions_replayable rd now totals (w w1 w' : Runner) result store :
  worker_run_once rd w = (w1, Ok (Some result)) -> runner_run_once rd now totals w = (w', Ok true) ->
  rw_trace_store w = Some store -> fresh_from store -> strip (ri_decision (or_ids result)) <> ""%string ->
  Forall run_safe (_build_trace_runs now result (rw_strategy w1) (rw_last_envelope w1)
    (_decision_spans (ao_metrics (rw_orchestrator w1)) (ri_decision (or_ids result)))) ->
  exists store', rw_trace_store w' = Some store' /\
    replays (ri_decision (or_ids result)) (status_of (or_decided result)) (agent_outputs (or_decided result)) store'.
Proof.
  intros H1 H Hst Hf Hid Hsafe. unfold runner_run_once in H. apply prog_bind_Ok in H as (w1' & r & E & H). rewrite H1 in E.
  injection E as <- <-. apply worker_once_Ok in H1 as (envelope & b & q & _ & Hh & Ht & _ & _).
  apply prog_bind_Ok in H as (w2 & [] & H2 & H). injection H as <-. unfold store_cycle in H2. rewrite Ht, Hst in H2.
  destruct (persist_cycle _ _ _ _ _ _ _ _ _ _) as [store' r] eqn:Ep. injection H2 as <- ->.
  exists store'. split; [done|]. pose proof (handled_status _ _ _ _ _ _ Hh) as Hstat.
  destruct (cycle_read_back _ _ _ _ _ _ _ _ _ _ _ Hid Hf Hsafe Ep) as [(strategy & _ & Hr) (ids & Hn & Hl & Hruns & Hm)].
  split; [eexists; split; [exact Hr|]; cbn; by rewrite Hstat|].
  eexists _, ids. split_and!; [exact Hruns|done|]. rewrite <- (trace_runs_outputs now result (rw_strategy w1) (rw_last_envelope w1) (_decision_spans (ao_metrics (rw_orchestrator w1)) (ri_decision (or_ids result)))).
  apply Forall2_fmap_r. apply Forall2_same_length_lookup_2; [exact Hl|]. intros i run_id run Hi Hrun. cbn [fst snd]. split.
  - exists (run_record (decision_uuid (ri_decision (or_ids result))) run_id run). split; [|done]. apply order_by2_elem, elem_of_app. right.
    apply list_elem_of_lookup. exists i. by rewrite lookup_zip_with, Hi, Hrun.
  - destruct (Forall2_lookup_lr _ _ _ _ _ _ Hm Hi Hrun) as (m1 & m2 & E). eexists _, _. split; [exact E|].
    split; [apply order_by2_elem; right; by left|done].
Qed.
End replayable.

(** ** A decided and stored event *)

Module Example_runner.
Definition broker : InMemoryTopicBroker :=
  {| br_queues := {["market"%string := [Orchestrator.Example.market_event fone fzero]]}; br_bindings := ∅ |}.
Definition runner : OrchestratorWorkerRunner unit unit :=
  {| rw_orchestrator := put_broker broker (Orchestrator.Example.orchestrator None); rw_queue_name := "market"; rw_last_envelope := None;
     rw_strategy := Agents.Example.strategy; rw_trace_store := Some TraceStore.Example_trace.db0; rw_last_activity := [] |}.
Definition rd : readings := Orchestrator.Example.rd.
Definition now (_ : string) : Z := 63850000000000000.
Definition no_result : OrchestrationResult :=
  {| or_ids := Ids "" "" "" ""; or_status := ""; or_lifecycle := [];
     or_decided := {| de_context := {| mc_context := []; mc_microstructure := []; mc_news := []; mc_quality := []; mc_notes := [] |};
       de_plan := {| pd_action := ""; pd_confidence := fzero; pd_target_quantity := fzero; pd_rationale := []; pd_metrics := [] |};
       de_risk := {| ra_approved := false; ra_approved_quantity := fzero; ra_signals := []; ra_blocked_by := []; ra_risk_score := fzero; ra_rationale := [] |};
       de_decision := {| ed_action := ""; ed_quantity := fzero; ed_confidence := fzero; ed_rationale := []; ed_constraints := [] |};
       de_guardrail := {| gr_allowed := false; gr_blocked_by := []; gr_violations := []; gr_checks := [] |} |};
     or_execution_intent := None |}.
Definition result : OrchestrationResult := match (worker_run_once rd runner).2 with Ok (Some r) => r | _ => no_result end.
Definition w1 : OrchestratorWorkerRunner unit unit := (worker_run_once rd runner).1.
Definition w' : OrchestratorWorkerRunner unit unit := (runner_run_once rd now [] runner).1.

Lemma decisions_replayable_witness :
  status_of (or_decided result) = "RISK_APPROVED"%string /\
  exists store', rw_trace_store w' = Some store' /\
    replays (ri_decision (or_ids result)) (status_of (or_decided result)) (agent_outputs (or_decided result)) store'.
Proof.
  split; [vm_compute; reflexivity|].
  apply (decisions_replayable rd now [] runner w1 w' result TraceStore.Example_trace.db0).
  - refine (with_state (worker_run_once rd runner) (Ok (Some result)) _). vm_compute. reflexivity.
  - refine (with_state (runner_run_once rd now [] runner) (Ok true) _). vm_compute. reflexivity.
  - reflexivity.
  - split; [exact TraceStore.Example_trace.uuid4_inj|]. intros n _. split_and!; apply not_elem_of_nil.
  - vm_compute. discriminate.
  - apply runs_safe. vm_compute. reflexivity.
Defined.
End Example_runner.
